(* ===== verification/_CoqProject ===== *)
-Q . S2P
Prelude.v
Decimal.v
Assets.v
Bank.v
Types.v
Orders.v
Storage.v
Settlement.v
Chain.v
LmCallbacks.v
Ocex.v
OcexProps.v
Lmp.v
Validator.v
Solvency.v
WorkerProps.v
LiquidityMining.v
LiquidityProps.v
Runtime.v
Claims.v
TheaTypes.v
Thea.v
TheaProps.v
Locks.v
Migration.v
Rewards.v
CrowdloanTable.v
Crowdloan.v
Upgrade.v
XcmHelper.v
XcmProps.v
Bridge.v
RawStorage.v
Slices.v
Cleanup.v
CleanupProps.v
UpgradeChecks.v
Policy.v
Conviction.v
Democracy.v
DemocracyVotes.v
DemocracyEvents.v
DemocracyInv.v
DemocracySums.v
DemocracyLocks.v
DemocracyProps.v
Genesis.v
Elections.v
ElectionsInv.v
ElectionsProps.v
Rpc.v
Bls.v
Verifier.v
