(* ===== verification/Prelude.v ===== *)
(** * Polkadex node: a verification development

    The Polkadex node is a chain with an order book whose trades are matched off
    the chain.  This library models the pallets of the node and the off-chain
    worker of its validators, and proves what makes them correct.  Paths below are
    relative to [src/].

    ** The program and its model

    - Custody ([pallets/ocex/src/lib.rs], [session.rs], and the on-chain part of
      [lmp.rs]).  Users deposit into the pallet's account; every deposit,
      registration and market change is announced to the engine as an ingress
      message of its block.  A snapshot summary signed by the validators pays out
      withdrawals, releases funds and records trading rewards.  [Chain.v] has the
      storage of this pallet and of the liquidity-mining pallet, the bank and the
      block number in one record; [Ocex.v] has one definition per call, hook and
      internal function, [ocex_dispatch] for the set of calls; [OcexProps.v] the
      properties of single operations.
    - Liquidity mining ([pallets/liquidity-mining]).  Pools of market makers;
      [LmCallbacks.v] is the side the custody pallet calls, [LiquidityMining.v] the
      calls of users, [LiquidityProps.v] the properties.
    - The runtime as a state machine.  [Runtime.v] has the step relation of the two
      pallets together (calls, block starts, sessions), the reachable states, and
      the invariants by induction over the steps; [Claims.v] the life of a claimed
      trading reward over the steps.
    - The order book state of a validator.  [Storage.v] models the reference-counted
      node database and the write-back cache over the trie
      ([pallets/ocex/src/storage.rs]), [Settlement.v] the balances in it and the
      settlement of trades ([settlement.rs]), [Lmp.v] the trading metrics
      ([lmp.rs]), [Validator.v] the worker: the replay of a batch, imports of
      blocks, checkpoints, commit, signing and submission ([validator.rs],
      [snapshot.rs], [rpc.rs], [aggregator.rs]).  [Solvency.v] and [WorkerProps.v]
      have the properties.
    - Data ([primitives/orderbook], [primitives/polkadex]).  [Assets.v] has assets,
      markets and their text, [Types.v] the records and messages, [Orders.v] orders,
      trades, requests and batches.
    - The Thea bridge ([pallets/thea], [primitives/thea]).  [TheaTypes.v], [Thea.v]
      and [TheaProps.v]: outgoing messages are numbered and signed by the validators;
      incoming ones wait for a fork period.
    - The XCM helper ([pallets/xcm-helper], and the [Resolver] of
      [primitives/polkadex/src/assets.rs]).  [XcmHelper.v], [XcmProps.v];
      [Bridge.v] plugs it into the bridge as the executor of incoming messages.
    - Migration and rewards ([pallets/pdex-migration], [pallets/rewards]).
      [Migration.v] and [Rewards.v], over the lockable currency of [Locks.v].
      [CrowdloanTable.v] is the table of contributors ([crowdloan_rewardees.rs]), and
      [Crowdloan.v] the rewards pallet with this table.
      [Upgrade.v] models the two runtime migrations that release what the pallets
      had locked and repair the frozen balances
      ([runtimes/mainnet/src/migrations.rs]).
    - The runtime upgrade (the rest of [migrations.rs] and the [Migrations] tuple of
      [runtimes/mainnet/src/lib.rs]).  [RawStorage.v] is the key-value store below the
      pallets, [Cleanup.v] the other migrations and their sequence, [CleanupProps.v]
      what they do, [UpgradeChecks.v] the checks that run before and after.
    - The runtime configuration ([runtimes/mainnet/src/lib.rs], [constants.rs]).
      [Policy.v]: origins, proxies, the call filter, spend caps, deposits, weights.
    - Democracy ([vendor/pallet-democracy], as the runtime configures it).
      [Conviction.v] has votes, tallies and thresholds, [Democracy.v] the calls and the
      block start.  [DemocracyVotes.v] treats an account's votes as a map;
      [DemocracyEvents.v] abstracts every call and block to a few events on votes,
      tallies and locks; [DemocracyInv.v], [DemocracySums.v] and [DemocracyLocks.v]
      prove one invariant each over the events; [DemocracyProps.v] has the theorems.
    - Elections ([vendor/pallet-elections-phragmen], as the runtime configures it).
      [Slices.v] has what it uses of sorted vectors, among it the standard library's
      binary search; [Elections.v] the calls, the election at the end of a term, the
      genesis, the pallet's own checks and the step relation; [ElectionsInv.v] the
      invariant of its steps; [ElectionsProps.v] the theorems.
    - Genesis ([genesis_config_presets.rs], [nodes/mainnet/src/chain_spec.rs]):
      [Genesis.v], with the presets and the staging testnet; [ElectionsProps.v] feeds
      its members to the elections pallet.
    - RPC servers ([pallets/ocex/rpc], [rpc/ismp], [rpc/swap], [rpc/assets]): [Rpc.v].
    - BLS signatures ([primitives/bls]): [Bls.v].
    - The crowdloan verifier ([misc/crowdloan-verifier]): [Verifier.v].

    ** Conventions

    A Rust function that takes [&mut S] and returns a [Result] is a computation of
    type [M S E A], which returns the state on every path; [Panic] is an aborting
    computation.  A call marked [#[transactional]] and every dispatchable restore
    the state on an error.  Integers are [Z]; saturating, wrapping and checked
    operations have their width as an argument, and a plain operator that overflows
    is a [Panic], as in a build with overflow checks.  Storage maps are [gmap], with
    the default of the storage item where it is read.  Where the order of a
    [BTreeMap] matters, the key order is an instance of [BTreeKey].  Loops are
    structural recursions over the collection the source iterates.  Fuel occurs in
    five places, each with a proof that it is enough: [print_digits] of [Assets.v] (39
    digits for every [u128], which [trading_pair_roundtrip] relies on), [key_loop] of
    [RawStorage.v] (one more than the number of keys, [orml_locks_released]),
    [compare_rationals] (257, two rounds per bit of the operands,
    [compare_rationals_exact]), [search_loop] of [Slices.v] (the length of the slice,
    [binary_search_spec]) and [walk_events] of [Rpc.v] (the number of the last block
    plus two, [query_events_range]).  Events, logs and weights are not part of
    the state, except where a theorem is about an event.

    ** Interfaces

    Packages that are not part of the repository are type classes: the operations
    that the sources call, and in a second class the documented behaviour the
    theorems rely on.  Each has a reference instance in a module [Ref...], with its
    laws proved, on which the examples and witnesses evaluate.
    - [Decimal] (rust_decimal), [Codec] (SCALE), [Crypto] and [Wire] (hashes,
      signatures and signed text), [Authority] (the session keys);
    - [Currencies] (pallet_balances and pallet_assets), [Percents],
      [LockableCurrency] and [SystemAccounts] (locks, consumers of an account);
    - [TrieDB] (trie-db): a trie is read through [trie_view], and the root it
      commits to determines the contents;
    - [TheaCrypto] and [TheaWorld] (keys of the bridge, currency and executor),
      [Xcm], [AssetRegistry], [OutgoingExecutor];
    - [RawStorage], [SessionPallet], [FrameMigrations], [AccountDetails] (what the
      migrations call), [Collective] and [CallFilters] (origins and filters);
    - [ElectionCurrency], [ChangeMembers] and [Phragmen] (balances, council and solver
      behind the elections), [KeyRing] (the keys of the genesis presets);
    - [VotingCurrency] and [Proposals] (locks, deposits, preimages and the scheduler
      behind democracy), [ChainClient] (the node's block store), [BlsCurve] and [Blst]
      (pairings and secret keys), [CsvReader].
    [OcexConfig], [LmConfig] and [XcmConfig] are the constants of the runtime
    configuration.  What the aggregator and the key store of a node answer is a
    record that the worker takes as an argument.

    ** What is proved

    - Replay: a batch of fair trades and non-negative requests creates no funds
      ([process_batch_solvent]); trades settle exactly ([process_trade_settles]);
      withdrawals deduct what they announce ([withdraw_deducts]); blocks are
      imported in order ([process_batch_in_sequence]).
    - Workers: equal contents give equal roots and summaries ([validators_agree]);
      the only summary a run signs and sends is that of an authenticated batch it
      replayed, or one it had signed before, at most with the set id renewed
      ([worker_signs_only_verified]); checkpoints restore every balance
      ([checkpoint_roundtrip]); the lock excludes a second worker ([worker_lock]).
      [OffchainState] refines a map ([offchain_state_refines_map]); the node
      database counts references ([hashdb_refcount]).
    - Custody: snapshots are accepted exactly when they are authentic
      ([validate_snapshot_iff], [snapshot_quorum]) and in sequence
      ([submit_snapshot_advances], [snapshots_in_sequence]); withdrawals are paid
      once ([do_withdraw_pays], [claim_withdraw_pays]); deposits are booked and
      announced exactly ([do_deposit_effect], [deposit_withdraw_roundtrip]).
    - Reachable states: the registry, markets and pools are well formed
      ([reachable_registry], [reachable_markets], [reachable_pools], and the bounds
      of collections).
    - Rewards of traders are bounded ([lmp_reward_bounded]), and a claimed reward is
      never paid again, whatever steps follow ([lmp_claimed_once]).
    - Bridge: finality needs a supermajority of valid signatures
      ([outgoing_finality]); accepted messages do not change
      ([outgoing_messages_immutable]); after a rotation the
      signatures of the new set are collected until the message is final
      ([rotation_keeps_signing]); deposits reach the queue of withdrawals
      ([bridge_delivers]), which drains within its bounds
      ([pending_withdrawals_bounded]) and pays local accounts
      ([local_withdrawal_paid]).
    - Migration, rewards and upgrade: the supply is bounded and burns are minted
      once ([migration_supply_bounded], [burn_minted_once]), minted tokens stay
      locked ([migrated_tokens_stay_locked]), rewards are paid once
      ([rewards_paid_once]), and the upgrade releases exactly the releasable locks
      ([locks_cleared_exactly]).
    - Upgrade: the vesting clean-up terminates and releases exactly the scheduled
      locks ([orml_locks_released]); the effect of the whole sequence
      ([upgrade_effect]) and of running it again ([migrations_idempotent]); the key
      clauses are about keys that no typed item of the model holds
      ([held_elsewhere]), whose effect is stated on the item; the checks accept it ([upgrade_checks_accept], [session_keys_upgraded]).
    - Democracy, over all sequences of calls and blocks: stored values stay in their
      types ([stored_values_typed]); the incrementally kept tallies are the sums of
      votes and delegations ([tallies_are_sums]); a referendum ends in its block
      ([referendum_ends]) with the result the votes give ([referendum_decided]); a
      winning vote stays locked for its conviction ([conviction_lock_holds]); voting
      fails exactly for the stated reasons ([vote_outcome]).
    - Elections, over all sequences of calls, blocks and effects of other pallets: the
      seats are well formed and every deposit is backed, and the council mirrors the
      seats until root sets its members ([reachable_council]); nothing panics ([elections_never_panic]); the outcome of an
      election, with slashes and prime ([election_outcome]); a voter gets everything back
      ([vote_refunded]); what the storage check accepts ([try_state_reachable]); for which
      genesis configurations the block can be built ([genesis_council_limit]).
    - Crowdloan: the rows of the table are distinct and consistent; the pallet's account
      pays each contributor the total of the row, once a cycle, and nothing else
      ([cycle_payout_bounded]).
    - Configuration: who may spend and how much ([spend_origin_cap]), what the filter
      lets through ([base_filter_exact]), the order on proxies
      ([proxy_superset_exact]), the endowments at genesis
      ([testnet_genesis_endowed]).
    - Servers and tools: event queries terminate with the blocks of the range,
      or with the error of a block that cannot be read ([query_events_range]); aggregated signatures verify ([aggregate_verifies]);
      converted tables add up ([convert_totals]).
    - Defects: some theorems state what the code does where that is not what it
      means to do, among them [incoming_message_dropped], [report_settlement],
      [negative_withdrawal_credits], [failed_removal_multiplies_shares],
      [update_swaps_precisions], [asset_fee_settled_in_native],
      [third_relayer_decides], [foreign_withdrawal_stranded] and
      [stale_signatures_finalise].

    ** Not modelled

    The associated types of the runtime configuration, which only instantiate SDK
    pallets; the old storage migrations of the vendored pallets, which the runtime does
    not run; the HTTP client of
    [aggregator.rs], the node, the command line and the remaining tools, which are I/O;
    RPC calls that only forward to a modelled view; the mnemonic phrases of BLS keys,
    which come from a library; weights of the pallets, benchmarks, mocks and tests; the
    other vendored packages under [vendor/]; the conversion of
    [OrderDetails], which is test support and goes through floating point; the JSON
    visitor of [AssetId]; [set_token_metadata], [is_parachain_asset] and
    [sibling_account_converter], which have no callers that change modelled state.

    This file is the prelude: outcomes, the state monad with its tactics and
    invariant rules, machine integers, record updates, and generic lemmas. *)

From stdpp Require Export prelude fin_maps gmap vector list sorting strings.
From Stdlib Require Export ZArith Lia Strings.Byte.

#[global] Open Scope Z_scope.

(** ** Outcomes of fallible Rust code

    [Ok] and [Err] are the two constructors of Rust's [Result]; [Panic] is an
    aborting computation ([unwrap] on [None], an overflowing operator, ...). *)
Inductive res (E A : Type) : Type :=
| Ok (a : A)
| Err (e : E)
| Panic.
Arguments Ok {E A} a.
Arguments Err {E A} e.
Arguments Panic {E A}.

Definition is_ok {E A} (r : res E A) : bool :=
  match r with Ok _ => true | _ => false end.

Definition res_of_option {E A} (o : option A) (e : E) : res E A :=
  match o with Some a => Ok a | None => Err e end.

(** [unwrap]: [None] aborts. *)
Definition unwrap {E A} (o : option A) : res E A :=
  match o with Some a => Ok a | None => Panic end.

(** ** Computations over a mutable state

    [M S E A] models a Rust function that takes [&mut S]: the state it leaves
    behind is returned on every path, the failing ones included. *)
Definition M (S E A : Type) : Type := S → res E A * S.

#[global] Instance M_ret {S E} : MRet (M S E) := λ A a s, (Ok a, s).
#[global] Instance M_bind {S E} : MBind (M S E) := λ A B f m s,
  match m s with
  | (Ok a, s') => f a s'
  | (Err e, s') => (Err e, s')
  | (Panic, s') => (Panic, s')
  end.

Definition fail {S E A} (e : E) : M S E A := λ s, (Err e, s).
Definition panic {S E A} : M S E A := λ s, (Panic, s).
Definition get_state {S E} : M S E S := λ s, (Ok s, s).
Definition gets {S E A} (f : S → A) : M S E A := λ s, (Ok (f s), s).
Definition modify {S E} (f : S → S) : M S E unit := λ s, (Ok tt, f s).
Definition lift {S E A} (r : res E A) : M S E A := λ s, (r, s).

(** [ensure!(b, e)] *)
Definition ensure {S E} (b : bool) (e : E) : M S E unit :=
  if b then mret tt else fail e.

(** [o.ok_or(e)?] *)
Definition ok_or {S E A} (o : option A) (e : E) : M S E A :=
  lift (res_of_option o e).

(** [#[transactional]]: a failing computation leaves the state untouched. *)
Definition transactional {S E A} (m : M S E A) : M S E A := λ s,
  match m s with
  | (Ok a, s') => (Ok a, s')
  | (r, _) => (r, s)
  end.

(** [if let Err(_) = m { .. }]: the error is swallowed, the state is kept. *)
Definition swallow {S E} (m : M S E unit) : M S E unit := λ s,
  match m s with
  | (Ok _, s') => (Ok tt, s')
  | (Err _, s') => (Ok tt, s')
  | (Panic, s') => (Panic, s')
  end.

(** [m.map_err(|_| e)] *)
Definition map_err {S E F A} (f : E → F) (m : M S E A) : M S F A := λ s,
  match m s with
  | (Ok a, s') => (Ok a, s')
  | (Err e, s') => (Err (f e), s')
  | (Panic, s') => (Panic, s')
  end.

Lemma transactional_cases {E A S} (m : M S E A) s r s' :
  transactional m s = (r, s') → (∃ a, r = Ok a ∧ m s = (Ok a, s')) ∨ (is_ok r = false ∧ s' = s).
Proof.
  unfold transactional. destruct (m s) as [[a|e|] s1]; intros [= <- <-]; eauto.
Qed.

(** A computation that is observed to succeed. *)
Lemma run_ok {S E} (m : M S E unit) s : is_ok (m s).1 = true → m s = (Ok tt, (m s).2).
Proof. by destruct (m s) as [[[]| |] s']. Qed.

Lemma run_nil {S E A} (m : M S E (list A)) s :
  match (m s).1 with Ok [] => true | _ => false end = true → m s = (Ok [], (m s).2).
Proof. by destruct (m s) as [[[]| |] s']. Qed.

(** [for x in l { body }] with [?] inside the body. *)
Fixpoint for_each {S E A} (l : list A) (body : A → M S E unit) : M S E unit :=
  match l with
  | [] => mret tt
  | x :: l' => body x ;; for_each l' body
  end.

(** A loop that threads a local accumulator beside the mutable state. *)
Fixpoint fold_m {S E A B} (f : B → A → M S E B) (b : B) (l : list A) : M S E B :=
  match l with
  | [] => mret b
  | x :: l' => b' ← f b x; fold_m f b' l'
  end.

(** ** Laws of the monad, used by every component *)
Section monad.
Context {S E : Type}.
Implicit Types s : S.

Lemma bind_run {A B} (m : M S E A) (f : A → M S E B) s :
  (m ≫= f) s =
  match m s with
  | (Ok a, s') => f a s'
  | (Err e, s') => (Err e, s')
  | (Panic, s') => (Panic, s')
  end.
Proof. reflexivity. Qed.

Lemma bind_ok_inv {A B} (m : M S E A) (f : A → M S E B) s b s' :
  (m ≫= f) s = (Ok b, s') →
  ∃ a s1, m s = (Ok a, s1) ∧ f a s1 = (Ok b, s').
Proof. rewrite bind_run. destruct (m s) as [[a|e|] s1]; naive_solver. Qed.

Lemma bind_ok {A B} (m : M S E A) (f : A → M S E B) s a s1 r :
  m s = (Ok a, s1) → f a s1 = r → (m ≫= f) s = r.
Proof. intros Hm <-. by rewrite bind_run, Hm. Qed.

Lemma bind_err {A B} (m : M S E A) (f : A → M S E B) s e s1 :
  m s = (Err e, s1) → (m ≫= f) s = (Err e, s1).
Proof. intros Hm. by rewrite bind_run, Hm. Qed.

Lemma bind_ret_l {A B} (a : A) (f : A → M S E B) s : (mret a ≫= f) s = f a s.
Proof. reflexivity. Qed.

Lemma bind_ret_r {A} (m : M S E A) s : (m ≫= mret) s = m s.
Proof. rewrite bind_run. by destruct (m s) as [[]]. Qed.

Lemma bind_assoc {A B C} (m : M S E A) (f : A → M S E B) (g : B → M S E C) s :
  ((m ≫= f) ≫= g) s = (m ≫= λ a, f a ≫= g) s.
Proof. rewrite !bind_run. by destruct (m s) as [[]]. Qed.

(** A loop whose body always succeeds succeeds. *)
Lemma fold_m_ok {A B} (f : B → A → M S E B) l b s :
  (∀ b x s, ∃ b' s', f b x s = (Ok b', s')) → ∃ b' s', fold_m f b l s = (Ok b', s').
Proof.
  intros Hf. revert b s. induction l as [|x l IH]; intros b s; [by eexists _, _|].
  destruct (Hf b x s) as (b1 & s1 & H1). cbn. rewrite bind_run, H1. apply IH.
Qed.

Lemma ensure_ok_inv (b : bool) (e : E) s u s' :
  ensure b e s = (Ok u, s') → b = true ∧ s' = s.
Proof. destruct b; cbv; naive_solver. Qed.

Lemma ok_or_inv {A} (o : option A) (e : E) s a s' :
  ok_or o e s = (Ok a, s') → o = Some a ∧ s' = s.
Proof. destruct o; cbv; naive_solver. Qed.

Lemma lift_ok_inv {A} (r : res E A) s a s' :
  lift r s = (Ok a, s') → r = Ok a ∧ s' = s.
Proof. cbv. naive_solver. Qed.

Lemma gets_ok_inv {A} (f : S → A) s a s' :
  (gets f : M S E A) s = (Ok a, s') → a = f s ∧ s' = s.
Proof. cbv. naive_solver. Qed.

Lemma get_state_ok_inv s a s' :
  (get_state : M S E S) s = (Ok a, s') → a = s ∧ s' = s.
Proof. cbv. naive_solver. Qed.

Lemma modify_ok_inv (f : S → S) s u s' :
  (modify f : M S E unit) s = (Ok u, s') → s' = f s.
Proof. cbv. naive_solver. Qed.

Lemma ret_ok_inv {A} (a b : A) s s' :
  (mret a : M S E A) s = (Ok b, s') → b = a ∧ s' = s.
Proof. cbv. naive_solver. Qed.

Lemma transactional_ok_inv {A} (m : M S E A) s a s' :
  transactional m s = (Ok a, s') → m s = (Ok a, s').
Proof. unfold transactional. destruct (m s) as [[]]; naive_solver. Qed.

Lemma transactional_fail {A} (m : M S E A) s r s' :
  transactional m s = (r, s') → is_ok r = false → s' = s.
Proof. unfold transactional. destruct (m s) as [[]]; naive_solver. Qed.
End monad.

(** ** Invariants of stateful computations

    [preserves I m]: whatever the outcome, [m] leaves [I] true when it finds it
    true.  The database [inv] closes such goals structurally. *)
Definition preserves {S E A} (I : S → Prop) (m : M S E A) : Prop :=
  ∀ s, I s → I (m s).2.

Create HintDb inv discriminated.

Section preserves.
Context {S E : Type} (I : S → Prop).

Lemma preserves_ret {A} (a : A) : preserves I (mret a : M S E A).
Proof. by intros s. Qed.
Lemma preserves_fail {A} (e : E) : preserves I (fail e : M S E A).
Proof. by intros s. Qed.
Lemma preserves_panic {A} : preserves I (panic : M S E A).
Proof. by intros s. Qed.
Lemma preserves_gets {A} (f : S → A) : preserves I (gets f : M S E A).
Proof. by intros s. Qed.
Lemma preserves_get_state : preserves I (get_state : M S E S).
Proof. by intros s. Qed.
Lemma preserves_lift {A} (r : res E A) : preserves I (lift r : M S E A).
Proof. by intros s. Qed.
Lemma preserves_ok_or {A} (o : option A) (e : E) : preserves I (ok_or o e : M S E A).
Proof. by intros s. Qed.
Lemma preserves_ensure b (e : E) : preserves I (ensure b e : M S E unit).
Proof. intros s. by destruct b. Qed.
Lemma preserves_modify f : (∀ s, I s → I (f s)) → preserves I (modify f : M S E unit).
Proof. intros H s. apply H. Qed.
Lemma preserves_bind {A B} (m : M S E A) (f : A → M S E B) :
  preserves I m → (∀ a, preserves I (f a)) → preserves I (m ≫= f).
Proof.
  intros Hm Hf s Hs. rewrite bind_run. specialize (Hm s Hs).
  destruct (m s) as [[a|e|] s1]; simpl in *; [by apply Hf | done..].
Qed.
Lemma preserves_transactional {A} (m : M S E A) :
  preserves I m → preserves I (transactional m).
Proof.
  intros Hm s Hs. specialize (Hm s Hs). unfold transactional.
  by destruct (m s) as [[a|e|] s1].
Qed.
Lemma preserves_swallow (m : M S E unit) : preserves I m → preserves I (swallow m).
Proof.
  intros Hm s Hs. specialize (Hm s Hs). unfold swallow.
  by destruct (m s) as [[a|e|] s1].
Qed.
Lemma preserves_for_each {A} (l : list A) (body : A → M S E unit) :
  (∀ x, x ∈ l → preserves I (body x)) → preserves I (for_each l body).
Proof.
  induction l as [|x l IH]; intros Hb; [apply preserves_ret|].
  apply preserves_bind; [apply Hb; left | intros _; apply IH].
  intros y Hy. apply Hb. by right.
Qed.
Lemma preserves_map_err {F A} (f : E → F) (m : M S E A) :
  preserves I m → preserves I (map_err f m).
Proof.
  intros Hm s Hs. specialize (Hm s Hs). unfold map_err. by destruct (m s) as [[a|e|] s1].
Qed.
End preserves.

#[export] Hint Resolve preserves_ret preserves_fail preserves_panic preserves_gets
  preserves_get_state preserves_lift preserves_ok_or preserves_ensure
  preserves_bind preserves_transactional preserves_swallow : inv.
#[export] Hint Extern 1 (preserves _ (match ?x with _ => _ end)) => destruct x : inv.

(** Decomposes a goal [preserves I m] along the structure of [m]. *)
Ltac preserves_auto :=
  repeat (cbv zeta; intros;
    match goal with
    | |- preserves _ (mbind _ _) => apply preserves_bind
    | |- preserves _ (for_each _ _) => apply preserves_for_each
    | |- preserves _ (map_err _ _) => apply preserves_map_err
    | |- preserves _ (match ?x with _ => _ end) => destruct x eqn:?
    | |- preserves _ (modify _) => apply preserves_modify; cbn; try done
    | |- preserves _ _ => solve [eauto 2 with inv]
    end).

(** *** Invariants of successful runs

    Dispatchables are rolled back when they fail, so their invariants only concern
    the successful runs. *)
Definition keeps {S E A} (I : S → Prop) (m : M S E A) : Prop :=
  ∀ s a s', I s → m s = (Ok a, s') → I s'.

Create HintDb keeps discriminated.

Section keeps.
Context {S E : Type} (I : S → Prop).

Lemma preserves_keeps {A} (m : M S E A) : preserves I m → keeps I m.
Proof. intros Hm s a s' Hs Hr. specialize (Hm s Hs). by rewrite Hr in Hm. Qed.
Lemma keeps_ret {A} (a : A) : keeps I (mret a : M S E A).
Proof. apply preserves_keeps, preserves_ret. Qed.
Lemma keeps_fail {A} (e : E) : keeps I (fail e : M S E A).
Proof. apply preserves_keeps, preserves_fail. Qed.
Lemma keeps_panic {A} : keeps I (panic : M S E A).
Proof. apply preserves_keeps, preserves_panic. Qed.
Lemma keeps_gets {A} (f : S → A) : keeps I (gets f : M S E A).
Proof. apply preserves_keeps, preserves_gets. Qed.
Lemma keeps_get_state : keeps I (get_state : M S E S).
Proof. apply preserves_keeps, preserves_get_state. Qed.
Lemma keeps_lift {A} (r : res E A) : keeps I (lift r : M S E A).
Proof. apply preserves_keeps, preserves_lift. Qed.
Lemma keeps_ok_or {A} (o : option A) (e : E) : keeps I (ok_or o e : M S E A).
Proof. apply preserves_keeps, preserves_ok_or. Qed.
Lemma keeps_ensure b (e : E) : keeps I (ensure b e : M S E unit).
Proof. apply preserves_keeps, preserves_ensure. Qed.
Lemma keeps_modify f : (∀ s, I s → I (f s)) → keeps I (modify f : M S E unit).
Proof. intros H. by apply preserves_keeps, preserves_modify. Qed.
Lemma keeps_bind {A B} (m : M S E A) (f : A → M S E B) :
  keeps I m → (∀ a, keeps I (f a)) → keeps I (m ≫= f).
Proof.
  intros Hm Hf s b s' Hs Hr. apply bind_ok_inv in Hr as (a & s1 & H1 & H2).
  apply (Hf a s1 b s'); [|done]. by apply (Hm s a s1).
Qed.
Lemma keeps_transactional {A} (m : M S E A) : keeps I m → preserves I (transactional m).
Proof.
  intros Hm s Hs. unfold transactional. destruct (m s) as [[a|e|] s1] eqn:Hr; cbn; [|done..].
  by apply (Hm s a s1).
Qed.
Lemma keeps_elim {A} (m : M S E A) s a s' : keeps I m → I s → m s = (Ok a, s') → I s'.
Proof. intros Hk Hs Hr. by eapply Hk. Qed.
Lemma keeps_for_each {A} (l : list A) (body : A → M S E unit) :
  (∀ x, keeps I (body x)) → keeps I (for_each l body).
Proof.
  intros Hb. induction l as [|x l IH]; [apply keeps_ret|]. by apply keeps_bind.
Qed.
Lemma keeps_fold_m {A B} (f : B → A → M S E B) b (l : list A) :
  (∀ b x, keeps I (f b x)) → keeps I (fold_m f b l).
Proof.
  intros Hf. revert b. induction l as [|x l IH]; intros b; [apply keeps_ret|].
  apply keeps_bind; [apply Hf|intros; apply IH].
Qed.
Lemma keeps_map_err {F A} (f : E → F) (m : M S E A) : keeps I m → keeps I (map_err f m).
Proof.
  intros Hm s a s' Hs. unfold map_err. destruct (m s) as [[x|e|] s1] eqn:Hr; [|done..].
  intros [= -> ->]. by apply (Hm s a s').
Qed.
End keeps.

#[export] Hint Resolve keeps_ret keeps_fail keeps_panic keeps_gets keeps_get_state keeps_lift
  keeps_ok_or keeps_ensure keeps_map_err : keeps.

(** Decomposes a goal [keeps I m] along the structure of [m]; what is left are the
    updates that matter to [I]. *)
Ltac keeps_auto :=
  repeat (cbv zeta; intros;
    match goal with
    | |- keeps _ (mbind _ _) => apply keeps_bind
    | |- keeps _ (for_each _ _) => apply keeps_for_each
    | |- keeps _ (fold_m _ _ _) => apply keeps_fold_m
    | |- keeps _ (match ?x with _ => _ end) => destruct x eqn:?
    | |- keeps _ ((match ?x with _ => _ end) _) => destruct x; cbv beta
    | |- keeps _ (modify _) => apply keeps_modify; cbn; try done
    | |- keeps _ (transactional _) => apply preserves_keeps, keeps_transactional
    | |- keeps _ _ => solve [eauto 2 with keeps]
    end).

(** ** Tactics

    [inv_run] decomposes the successful runs [H : (m ≫= f) s = (Ok b, s')] of the
    context into the runs of their parts. *)
Ltac inv_step H :=
  let a := fresh "a" in let s1 := fresh "s" in
  let H1 := fresh "Hm" in let H2 := fresh "Hk" in
  apply bind_ok_inv in H as (a & s1 & H1 & H2).

Ltac inv_prim :=
  match goal with
  | H : ensure _ _ _ = (Ok ?u, _) |- _ =>
      apply ensure_ok_inv in H as [? ->]; try (clear u)
  | H : ok_or _ _ _ = (Ok _, _) |- _ => apply ok_or_inv in H as [? ->]
  | H : lift _ _ = (Ok _, _) |- _ => apply lift_ok_inv in H as [? ->]
  | H : gets _ _ = (Ok _, _) |- _ => apply gets_ok_inv in H as [-> ->]
  | H : get_state _ = (Ok _, _) |- _ => apply get_state_ok_inv in H as [-> ->]
  | H : modify _ _ = (Ok _, _) |- _ => apply modify_ok_inv in H as ->
  | H : mret _ _ = (Ok _, _) |- _ =>
      first [ apply ret_ok_inv in H as [-> ->]
            | apply ret_ok_inv in H as [-> <-]
            | let E := fresh "Hret" in apply ret_ok_inv in H as [E ->] ]
  | H : fail _ _ = (Ok _, _) |- _ => unfold fail in H; discriminate H
  | H : panic _ = (Ok _, _) |- _ => unfold panic in H; discriminate H
  | H : transactional _ _ = (Ok _, _) |- _ => apply transactional_ok_inv in H
  end.

Ltac inv_run :=
  repeat first
    [ inv_prim
    | match goal with
      | H : mbind _ _ _ = (Ok _, _) |- _ => inv_step H
      end ].

Ltac destruct_units := repeat match goal with u : unit |- _ => destruct u end.

(** Executes the monadic primitives of the goal. *)
Ltac mrun :=
  cbv beta iota zeta delta [mbind M_bind mret M_ret fail panic get_state gets modify
    lift ok_or res_of_option ensure].

Ltac mrun_in H :=
  cbv beta iota zeta delta [mbind M_bind mret M_ret fail panic get_state gets modify
    lift ok_or res_of_option ensure unwrap] in H.

(** ** Record update

    A record type registers its eta-expansion once; [r <| f := v |>] then
    replaces field [f]. *)
Class Eta (R : Type) := eta : R → R.
Class Setter {R T : Type} (proj : R → T) := setter : (T → T) → R → R.

Ltac term_head t := lazymatch t with ?f _ => term_head f | _ => t end.

Ltac find_setter :=
  match goal with
  | |- @Setter ?R ?T ?proj =>
      let inst := constr:(@eta R ltac:(typeclasses eauto)) in
      let inst := eval unfold eta in inst in
      let h := term_head inst in
      let body := eval unfold h in inst in
      let g := fresh "g" in let r := fresh "r" in
      unfold Setter; intros g r;
      let b := eval cbv beta in (body r) in
      lazymatch eval pattern (proj r) in b with
      | ?k _ => let t := eval cbv beta in (k (g (proj r))) in exact t
      end
  end.
#[export] Hint Extern 1 (Setter _) => find_setter : typeclass_instances.

Declare Scope record_scope.
Delimit Scope record_scope with record.
#[global] Open Scope record_scope.
Notation "r <| f := v |>" := (setter (proj := f) (λ _, v) r)
  (at level 1, f at level 0, left associativity,
   format "r  <| f  :=  v |>") : record_scope.
Notation "r <| f ::= g |>" := (setter (proj := f) g r)
  (at level 1, f at level 0, left associativity,
   format "r  <| f  ::=  g |>") : record_scope.

(** ** Machine integers

    Unsigned integers of width [w] are values of [Z]; the operations the code
    uses at a width are written out. *)
Definition umax (w : Z) : Z := 2 ^ w - 1.
Definition is_u (w x : Z) : Prop := 0 ≤ x ≤ umax w.
Definition u8_max : Z := umax 8.
Definition u16_max : Z := umax 16.
Definition u32_max : Z := umax 32.
Definition u64_max : Z := umax 64.
Definition u128_max : Z := umax 128.

(** [a.saturating_add(b)] at width [w], [a.saturating_sub(b)] *)
Definition sat_add (w a b : Z) : Z := Z.min (a + b) (umax w).
Definition sat_sub (a b : Z) : Z := Z.max 0 (a - b).
(** [a.saturating_mul(b)] at width [w] *)
Definition sat_mul (w a b : Z) : Z := Z.min (a * b) (umax w).
(** [a.wrapping_add(b)], [a as uW] *)
Definition wrap (w a : Z) : Z := a mod 2 ^ w.
(** [a.checked_add(b)] at width [w] *)
Definition checked_add_u (w a b : Z) : option Z :=
  if a + b <=? umax w then Some (a + b) else None.
Definition checked_sub_u (a b : Z) : option Z :=
  if b <=? a then Some (a - b) else None.
Definition checked_mul_u (w a b : Z) : option Z :=
  if a * b <=? umax w then Some (a * b) else None.
(** [x.saturated_into::<uW>()] from a wider unsigned type *)
Definition saturated_into (w x : Z) : Z := Z.min x (umax w).

(** ** Bytes *)
Abbreviation bytes := (list byte).

#[global] Instance byte_eq_dec' : EqDecision byte := byte_eq_dec.
#[global] Instance byte_countable : Countable byte :=
  inj_countable Byte.to_N Byte.of_N Byte.of_to_N.

Definition bytes_of (s : string) : bytes := String.list_byte_of_string s.

(** [[u8; n]] *)
Abbreviation byte_array := (vec byte).

(** The first [n] bytes, padded with zeros. *)
Fixpoint pad (n : nat) (l : bytes) : byte_array n :=
  match n with
  | O => [#]
  | S n' => match l with [] => x00 ::: pad n' [] | b :: l' => b ::: pad n' l' end
  end.

Lemma pad_vec n (v : byte_array n) : pad n (vec_to_list v) = v.
Proof. induction v as [|b n v IH]; cbn; [done|]. by rewrite IH. Qed.

Definition byte_array_countable n : Countable (byte_array n) :=
  inj_countable' vec_to_list (pad n) (pad_vec n).

(** Little-endian bytes of a fixed-width integer, its SCALE encoding. *)
Fixpoint le_bytes (n : nat) (z : Z) : bytes :=
  match n with
  | O => []
  | S n' => default x00 (Byte.of_N (Z.to_N (z mod 256))) :: le_bytes n' (z / 256)
  end.

(** [from_be_bytes] of the unsigned integers *)
Definition from_be_bytes (l : bytes) : Z :=
  foldl (λ acc b, 256 * acc + Z.of_N (Byte.to_N b)) 0 l.

Definition H256 : Type := byte_array 32.
Definition H160 : Type := byte_array 20.
#[global] Instance H256_eq_dec : EqDecision H256 := _.
#[global] Instance H256_countable : Countable H256 := byte_array_countable 32.
#[global] Instance H160_eq_dec : EqDecision H160 := _.
#[global] Instance H160_countable : Countable H160 := byte_array_countable 20.
Definition H256_zero : H256 := vreplicate 32 x00.

(** ** Totals over finite maps *)
Definition map_total {K A} `{Countable K} (f : A → Z) (m : gmap K A) : Z :=
  map_fold (λ _ a acc, f a + acc) 0 m.

Section map_total.
Context {K A : Type} `{Countable K} (f : A → Z).
Implicit Types m : gmap K A.

Lemma map_total_empty : map_total f (∅ : gmap K A) = 0.
Proof. apply map_fold_empty. Qed.

Lemma map_total_insert_None m k a :
  m !! k = None → map_total f (<[k:=a]> m) = f a + map_total f m.
Proof.
  intros Hk. unfold map_total. rewrite map_fold_insert_L; [done| |done].
  intros. lia.
Qed.

Lemma map_total_delete m k a :
  m !! k = Some a → map_total f m = f a + map_total f (delete k m).
Proof.
  intros Hk. rewrite <- (insert_delete_id m k a Hk) at 1.
  apply map_total_insert_None, lookup_delete_eq.
Qed.

(** Replacing one entry moves the total by the change of that entry. *)
Lemma map_total_insert m k a :
  map_total f (<[k:=a]> m) =
  map_total f m + f a - from_option f 0 (m !! k).
Proof.
  destruct (m !! k) as [b|] eqn:Hk; simpl.
  - rewrite <- insert_delete_eq, map_total_insert_None by apply lookup_delete_eq.
    rewrite (map_total_delete m k b Hk). lia.
  - rewrite map_total_insert_None by done. lia.
Qed.

Lemma map_total_nonneg m :
  (∀ k a, m !! k = Some a → 0 ≤ f a) → 0 ≤ map_total f m.
Proof.
  induction m as [|k a m Hk IH] using map_ind; intros Hf.
  - by rewrite map_total_empty.
  - rewrite map_total_insert_None by done.
    assert (0 ≤ f a) by (apply (Hf k); apply lookup_insert_eq).
    assert (0 ≤ map_total f m); [|lia].
    apply IH. intros k' a' Hk'. apply (Hf k').
    rewrite lookup_insert_ne; naive_solver.
Qed.
End map_total.

(** ** Ordered maps

    A [BTreeMap<K, V>] is a [gmap K V]; where the code iterates over it the
    entries come in increasing key order. *)
Class BTreeKey (K : Type) := key_leb : K → K → bool.

Definition btree_to_list {K A} `{Countable K, BTreeKey K} (m : gmap K A) : list (K * A) :=
  merge_sort (λ x y, Is_true (key_leb x.1 y.1)) (map_to_list m).

(** [set.iter()] on a [BTreeSet] *)
Definition btree_elements {K} `{Countable K, BTreeKey K} (s : gset K) : list K :=
  merge_sort (λ x y, Is_true (key_leb x y)) (elements s).

Lemma btree_to_list_perm {K A} `{Countable K, BTreeKey K} (m : gmap K A) :
  btree_to_list m ≡ₚ map_to_list m.
Proof. apply merge_sort_Permutation. Qed.

Lemma elem_of_btree_to_list {K A} `{Countable K, BTreeKey K} (m : gmap K A) k a :
  (k, a) ∈ btree_to_list m ↔ m !! k = Some a.
Proof. by rewrite btree_to_list_perm, elem_of_map_to_list. Qed.

Lemma btree_to_list_NoDup_keys {K A} `{Countable K, BTreeKey K} (m : gmap K A) :
  NoDup (btree_to_list m).*1.
Proof. rewrite btree_to_list_perm. apply NoDup_fst_map_to_list. Qed.

Lemma elem_of_btree_elements {K} `{Countable K, BTreeKey K} (s : gset K) k :
  k ∈ btree_elements s ↔ k ∈ s.
Proof. unfold btree_elements. by rewrite merge_sort_Permutation, elem_of_elements. Qed.

#[global] Instance Z_btree_key : BTreeKey Z := Z.leb.
#[global] Instance prod_btree_key {K1 K2} `{BTreeKey K1, BTreeKey K2} : BTreeKey (K1 * K2) :=
  λ x y, if key_leb y.1 x.1 then key_leb x.1 y.1 && key_leb x.2 y.2
         else key_leb x.1 y.1.

(** Byte strings are ordered lexicographically. *)
Fixpoint bytes_leb (a b : bytes) : bool :=
  match a, b with
  | [], _ => true
  | _ :: _, [] => false
  | x :: a', y :: b' =>
      match N.compare (Byte.to_N x) (Byte.to_N y) with
      | Lt => true
      | Gt => false
      | Eq => bytes_leb a' b'
      end
  end.

(** Sum of a list of integers. *)
Fixpoint zsum (l : list Z) : Z :=
  match l with [] => 0 | x :: l' => x + zsum l' end.

Lemma zsum_app l1 l2 : zsum (l1 ++ l2) = zsum l1 + zsum l2.
Proof. induction l1; simpl; lia. Qed.

Lemma zsum_permutation l1 l2 : l1 ≡ₚ l2 → zsum l1 = zsum l2.
Proof. induction 1; simpl; lia. Qed.

Lemma zsum_nonneg l : Forall (λ x, 0 ≤ x) l → 0 ≤ zsum l.
Proof. induction 1; simpl; lia. Qed.

(** Filters that keep everything or nothing. *)
Lemma filter_all {A} (P : A → Prop) `{!∀ x, Decision (P x)} l : Forall P l → filter P l = l.
Proof. induction 1; [done|]. rewrite filter_cons, decide_True by done. by f_equal. Qed.

Lemma filter_none {A} (P : A → Prop) `{!∀ x, Decision (P x)} l :
  Forall (λ x, ¬ P x) l → filter P l = [].
Proof. induction 1; [done|]. by rewrite filter_cons, decide_False. Qed.

Lemma filter_bind {A B} (P : B → Prop) `{!∀ x, Decision (P x)} (f : A → list B) l :
  filter P (l ≫= f) = l ≫= λ x, filter P (f x).
Proof. induction l as [|x l IH]; [done|]. cbn. by rewrite filter_app, IH. Qed.

(** Elements that contribute nothing can be left out. *)
Lemma bind_filter {A B} (P : A → Prop) `{!∀ x, Decision (P x)} (f : A → list B) l :
  (∀ x, ¬ P x → f x = []) → filter P l ≫= f = l ≫= f.
Proof.
  intros Hf. induction l as [|x l IH]; [done|]. rewrite filter_cons. case_decide as HP; cbn.
  - by rewrite IH.
  - by rewrite Hf, IH.
Qed.

(** *** Sorted lists *)
Lemma strongly_sorted_filter {A} (R : relation A) (P : A → Prop) `{!∀ x, Decision (P x)} l :
  StronglySorted R l → StronglySorted R (filter P l).
Proof.
  induction 1 as [|a l Hs IH Ha]; [constructor|]. rewrite filter_cons.
  case_decide; [|done]. constructor; [done|]. rewrite Forall_forall in *.
  intros x [_ Hx]%list_elem_of_filter. auto.
Qed.

(** A strictly sorted list is determined by its elements. *)
Lemma strongly_sorted_eq {A} (R : relation A) `{!StrictOrder R} l1 l2 :
  StronglySorted R l1 → StronglySorted R l2 → (∀ x, x ∈ l1 ↔ x ∈ l2) → l1 = l2.
Proof.
  intros H1. revert l2. induction H1 as [|a l1 Hs1 IH Ha]; intros l2 H2 Heq.
  - destruct l2 as [|b l2]; [done|]. specialize (Heq b). set_solver.
  - destruct H2 as [|b l2 Hs2 Hb]; [specialize (Heq a); set_solver|].
    rewrite Forall_forall in Ha, Hb. assert (a = b) as <-.
    { assert (a ∈ b :: l2) as [->|Hal]%elem_of_cons by (apply Heq; left); [done|].
      assert (b ∈ a :: l1) as [->|Hbl]%elem_of_cons by (apply Heq; left); [done|].
      destruct (irreflexivity R a). by trans b; auto. }
    f_equal. apply IH; [done|]. intros x. split; intros Hx.
    + assert (x ∈ a :: l2) as [->|]%elem_of_cons by (apply Heq; by right); [|done].
      by destruct (irreflexivity R a); auto.
    + assert (x ∈ a :: l1) as [->|]%elem_of_cons by (apply Heq; by right); [|done].
      by destruct (irreflexivity R a); auto.
Qed.

(** Sorted without duplicates is strictly sorted. *)
Lemma strongly_sorted_strict {A} (leb : A → A → bool) l :
  (∀ x y, leb x y = true → leb y x = true → x = y) →
  StronglySorted (λ x y, Is_true (leb x y)) l → NoDup l → StronglySorted (λ x y, leb y x = false) l.
Proof.
  intros Hanti Hs Hn. induction Hs as [|x l Hs IH Hall]; [constructor|].
  apply NoDup_cons in Hn as [Hx Hn]. constructor; [by apply IH|]. rewrite Forall_forall in *.
  intros y Hy. specialize (Hall y Hy). apply Is_true_true in Hall. apply not_true_is_false. intros Hle.
  apply Hx. by rewrite (Hanti x y).
Qed.
