(* ===== verification/Decimal.v ===== *)
(** * Fixed-point decimals

    The sources compute balances with [rust_decimal::Decimal], a package that is
    not part of the repository.  This file states what the sources use of it as a
    pair of type classes: [Decimal] for the operations and [DecimalLaws] for the
    documented behaviour the code relies on.  Every theorem of the development
    that needs one of these laws takes a [DecimalLaws] instance as a hypothesis.
    [RefDecimal] is a concrete implementation that satisfies the laws; it is used
    to evaluate the model on concrete inputs. *)

From S2P Require Import Prelude.

(** A decimal is an integer mantissa of at most 96 bits and a scale between 0 and
    28; it denotes [mantissa * 10^-scale]. *)
Class Decimal := {
  dec : Type;
  dec_eq_dec :: EqDecision dec;
  dec_countable :: Countable dec;
  mantissa : dec → Z;
  scale : dec → Z;
  (** [Decimal::new(m, s)], also the value of a literal given to [from_f64] *)
  dec_new : Z → Z → dec;
  (** [Decimal::from(n : u128)], panics above 96 bits *)
  from_u128 : Z → option dec;
  (** [d.to_u128()] *)
  to_u128 : dec → option Z;
  (** [Decimal::from_str] *)
  dec_from_str : string → option dec;
  (** [d.to_string()] *)
  dec_to_string : dec → string;
  saturating_add : dec → dec → dec;
  saturating_sub : dec → dec → dec;
  saturating_mul : dec → dec → dec;
  checked_add : dec → dec → option dec;
  checked_div : dec → dec → option dec;
  (** the operators [*], [-] and [%], which panic on overflow or a zero divisor *)
  op_mul : dec → dec → option dec;
  op_sub : dec → dec → option dec;
  op_rem : dec → dec → option dec;
  (** [d.round_dp_with_strategy(n, RoundingStrategy::ToZero)] *)
  round_dp_to_zero : Z → dec → dec;
  (** [d.pow(m * 10^-s)] *)
  dec_pow : dec → Z → Z → dec;
}.

Declare Scope dec_scope.
Delimit Scope dec_scope with dec.

(** The value of a decimal, in units of [10^-28]: exact for every decimal. *)
Definition units `{Decimal} (d : dec) : Z := mantissa d * 10 ^ (28 - scale d).

Definition UNITS : Z := 10 ^ 28.

(** [u] units of [10^-28] are the value of some decimal. *)
Definition representable (u : Z) : Prop :=
  ∃ m s, Z.abs m < 2 ^ 96 ∧ 0 ≤ s ≤ 28 ∧ u = m * 10 ^ (28 - s).

Section comparisons.
Context `{Decimal}.

Definition dec_zero : dec := dec_new 0 0.
Definition dec_one : dec := dec_new 1 0.

(** [Decimal] is ordered by value: [1.0 == 1.00]. *)
Definition dec_cmp (a b : dec) : comparison := Z.compare (units a) (units b).
Definition dec_eqb (a b : dec) : bool := units a =? units b.
Definition dec_ltb (a b : dec) : bool := units a <? units b.
Definition dec_leb (a b : dec) : bool := units a <=? units b.
Definition dec_is_zero (a : dec) : bool := mantissa a =? 0.
End comparisons.

Notation "a =? b" := (dec_eqb a b) : dec_scope.
Notation "a <? b" := (dec_ltb a b) : dec_scope.
Notation "a <=? b" := (dec_leb a b) : dec_scope.

(** The documented behaviour of the package.  Results are exact whenever the
    exact result has a decimal representation; a product with a factor in
    [[0, 1]] and a quotient of a smaller by a larger number stay within their
    natural bounds; rounding to zero truncates. *)
Class DecimalLaws `{D : Decimal} : Prop := {
  mantissa_bound : ∀ d, Z.abs (mantissa d) < 2 ^ 96;
  scale_bound : ∀ d, 0 ≤ scale d ≤ 28;
  dec_new_units : ∀ m s, Z.abs m < 2 ^ 96 → 0 ≤ s ≤ 28 →
    units (dec_new m s) = m * 10 ^ (28 - s);
  from_u128_units : ∀ n, 0 ≤ n < 2 ^ 96 →
    ∃ d, from_u128 n = Some d ∧ units d = n * UNITS;
  to_u128_units : ∀ d, 0 ≤ units d → to_u128 d = Some (units d / UNITS);
  saturating_add_exact : ∀ a b, representable (units a + units b) →
    units (saturating_add a b) = units a + units b;
  saturating_add_nonneg : ∀ a b, 0 ≤ units a → 0 ≤ units b →
    0 ≤ units (saturating_add a b);
  saturating_sub_exact : ∀ a b, representable (units a - units b) →
    units (saturating_sub a b) = units a - units b;
  saturating_sub_nonneg : ∀ a b, units b ≤ units a →
    0 ≤ units (saturating_sub a b);
  saturating_mul_exact : ∀ a b u, units a * units b = u * UNITS →
    representable u → units (saturating_mul a b) = u;
  saturating_mul_contract : ∀ a b, 0 ≤ units a → 0 ≤ units b ≤ UNITS →
    0 ≤ units (saturating_mul a b) ≤ units a;
  checked_add_exact : ∀ a b, representable (units a + units b) →
    ∃ d, checked_add a b = Some d ∧ units d = units a + units b;
  checked_div_zero : ∀ a b, units b = 0 → checked_div a b = None;
  checked_div_exact : ∀ a b q, units b ≠ 0 → units a * UNITS = q * units b →
    representable q → ∃ d, checked_div a b = Some d ∧ units d = q;
  checked_div_portion : ∀ a b, 0 ≤ units a ≤ units b → 0 < units b →
    ∃ d, checked_div a b = Some d ∧ 0 ≤ units d ≤ UNITS;
  op_mul_exact : ∀ a b u, units a * units b = u * UNITS → representable u →
    ∃ d, op_mul a b = Some d ∧ units d = u;
  op_sub_exact : ∀ a b, representable (units a - units b) →
    ∃ d, op_sub a b = Some d ∧ units d = units a - units b;
  op_rem_zero : ∀ a b, units b = 0 → op_rem a b = None;
  op_rem_exact : ∀ a b, units b ≠ 0 →
    ∃ d, op_rem a b = Some d ∧ units d = Z.rem (units a) (units b);
  round_dp_units : ∀ n d, 0 ≤ n ≤ 28 →
    units (round_dp_to_zero n d) = Z.quot (units d) (10 ^ (28 - n)) * 10 ^ (28 - n);
}.

Section laws.
Context `{DecimalLaws}.

Lemma representable_units d : representable (units d).
Proof.
  exists (mantissa d), (scale d).
  split; [apply mantissa_bound | split; [apply scale_bound | done]].
Qed.

Lemma dec_zero_units : units dec_zero = 0.
Proof. unfold dec_zero. rewrite dec_new_units; lia. Qed.

Lemma dec_one_units : units dec_one = UNITS.
Proof. unfold dec_one, UNITS. rewrite dec_new_units by lia. lia. Qed.

Lemma dec_is_zero_units d : dec_is_zero d = (units d =? 0).
Proof.
  unfold dec_is_zero, units. pose proof (scale_bound d) as Hs.
  assert (0 < 10 ^ (28 - scale d)) by (apply Z.pow_pos_nonneg; lia).
  destruct (Z.eqb_spec (mantissa d) 0), (Z.eqb_spec (mantissa d * 10 ^ (28 - scale d)) 0);
    nia.
Qed.

Lemma saturating_add_zero_r a b :
  units b = 0 → units (saturating_add a b) = units a.
Proof.
  intros Hb. rewrite saturating_add_exact; rewrite Hb, Z.add_0_r; auto.
  apply representable_units.
Qed.

Lemma saturating_sub_self a b :
  units a = units b → units (saturating_sub a b) = 0.
Proof.
  intros Hab. rewrite saturating_sub_exact; rewrite Hab, Z.sub_diag; auto.
  exists 0, 0. lia.
Qed.
End laws.

(** Integers that fit the mantissa are representable at any scale; so is every
    multiple of [10^k] units of moderate size. *)
Lemma representable_at s m :
  0 ≤ s ≤ 28 → Z.abs m < 2 ^ 96 → representable (m * 10 ^ (28 - s)).
Proof. intros Hs Hm. by exists m, s. Qed.

Lemma representable_bounded u : Z.abs u < 2 ^ 96 → representable u.
Proof. intros Hu. exists u, 28. rewrite Z.sub_diag. lia. Qed.

Lemma representable_aligned k u :
  0 ≤ k ≤ 28 → (10 ^ k | u) → Z.abs u < 2 ^ 96 * 10 ^ k → representable u.
Proof.
  intros Hk [m ->] Hb. exists m, (28 - k).
  assert (0 < 10 ^ k) by (apply Z.pow_pos_nonneg; lia).
  replace (28 - (28 - k)) with k by lia. rewrite Z.abs_mul in Hb. nia.
Qed.

(** A multiple of the same power of ten that is not larger in absolute value
    keeps the scale. *)
Lemma representable_smaller m s r :
  Z.abs m < 2 ^ 96 → 0 ≤ s ≤ 28 → (10 ^ (28 - s) | r) →
  Z.abs r ≤ Z.abs (m * 10 ^ (28 - s)) → representable r.
Proof.
  intros Hm Hs [q ->] Hle. exists q, s.
  assert (0 < 10 ^ (28 - s)) by (apply Z.pow_pos_nonneg; lia).
  rewrite !Z.abs_mul in Hle. nia.
Qed.

Lemma representable_quot u k :
  representable u → 0 ≤ k ≤ 28 → representable (Z.quot u (10 ^ k) * 10 ^ k).
Proof.
  intros (m & s & Hm & Hs & ->) Hk. set (u := m * 10 ^ (28 - s)).
  assert (0 < 10 ^ k) by (apply Z.pow_pos_nonneg; lia).
  assert (Z.abs (Z.quot u (10 ^ k) * 10 ^ k) ≤ Z.abs u) as Hle.
  { rewrite Z.abs_mul, <- Z.quot_abs by lia.
    pose proof (Z.mul_quot_le (Z.abs u) (Z.abs (10 ^ k))). lia. }
  apply (representable_smaller m s); [done..| |exact Hle].
  destruct (Z.le_gt_cases k (28 - s)) as [Hks|Hks].
  - replace (Z.quot u (10 ^ k) * 10 ^ k) with u; [by exists m|].
    unfold u. replace (28 - s) with (28 - s - k + k) by lia.
    rewrite Z.pow_add_r, Z.mul_assoc by lia. by rewrite Z.quot_mul by lia.
  - exists (Z.quot u (10 ^ k) * 10 ^ (k - (28 - s))).
    rewrite <- Z.mul_assoc, <- Z.pow_add_r by lia. f_equal. f_equal. lia.
Qed.

Lemma divide_pow10_le a b x : 0 ≤ a ≤ b → (10 ^ b | x) → (10 ^ a | x).
Proof.
  intros Hab Hd. apply Z.divide_trans with (10 ^ b); [|done].
  exists (10 ^ (b - a)). rewrite <- Z.pow_add_r by lia. f_equal. lia.
Qed.

Lemma divide_rem d a b : (d | a) → (d | b) → (d | Z.rem a b).
Proof.
  intros Ha Hb. destruct (Z.eq_dec b 0) as [->|Hnz]; [by rewrite Z.rem_0_r_ext|].
  rewrite Z.rem_eq by done. apply Z.divide_sub_r; [done|].
  by apply Z.divide_mul_l.
Qed.

Lemma representable_rem a b :
  representable a → representable b → b ≠ 0 → representable (Z.rem a b).
Proof.
  intros (m & s & Hm & Hs & Ha) (n & t & Hn & Ht & Hb) Hnz.
  assert ((10 ^ (28 - s) | a)) as Hda by (by exists m).
  assert ((10 ^ (28 - t) | b)) as Hdb by (by exists n).
  destruct (Z.le_gt_cases t s) as [Hts|Hts].
  - apply (representable_smaller m s); [done..| |].
    + apply divide_rem; [done|]. apply divide_pow10_le with (28 - t); [lia|done].
    + rewrite <- Ha, <- Z.rem_abs by done. apply Z.rem_le; lia.
  - apply (representable_smaller n t); [done..| |].
    + apply divide_rem; [|done]. apply divide_pow10_le with (28 - s); [lia|done].
    + rewrite <- Hb. pose proof (Z.rem_bound_abs a b Hnz). lia.
Qed.

(** ** A reference implementation of the laws

    Values are kept as mantissa and scale.  A result that needs more than 96 bits
    of mantissa loses its last digits (towards zero) and saturates when even an
    integer mantissa is too large. *)
Module RefDecimal.

Definition rdec : Type := Z * Z.

Definition valid (d : rdec) : bool :=
  (Z.abs d.1 <? 2 ^ 96) && (0 <=? d.2) && (d.2 <=? 28).

Definition rmantissa (d : rdec) : Z := if valid d then d.1 else 0.
Definition rscale (d : rdec) : Z := if valid d then d.2 else 0.

(** Drops trailing digits of [u], of scale [n], until the mantissa fits. *)
Fixpoint shrink (n : nat) (u : Z) : rdec :=
  if Z.abs u <? 2 ^ 96 then (u, Z.of_nat n)
  else match n with
       | O => (Z.sgn u * (2 ^ 96 - 1), 0)
       | S n' => shrink n' (Z.quot u 10)
       end.

Definition of_units (u : Z) : rdec := shrink 28 u.

Definition runits (d : rdec) : Z := rmantissa d * 10 ^ (28 - rscale d).

Definition fits (u : Z) : bool := runits (of_units u) =? u.
Definition of_units_opt (u : Z) : option rdec :=
  if Z.abs u <? 2 ^ 96 * UNITS then Some (of_units u) else None.

(** Decimal digits with an optional sign and point, as [Decimal::from_str] reads them. *)
Fixpoint parse_digits (s : string) (m sc : Z) (seen : bool) : option rdec :=
  match s with
  | EmptyString => Some (m, sc)
  | String c s' =>
      if Ascii.eqb c (Ascii.ascii_of_N 46) then
        if seen then None else parse_digits s' m sc true
      else
        let v := Z.of_N (Ascii.N_of_ascii c) - 48 in
        if (0 <=? v) && (v <=? 9)
        then parse_digits s' (10 * m + v) (if seen then sc + 1 else sc) seen
        else None
  end.

#[export] Instance ref_decimal : Decimal := {|
  dec := rdec;
  mantissa := rmantissa;
  scale := rscale;
  dec_new m s := (m, s);
  from_u128 n := if n <? 2 ^ 96 then Some (n, 0) else None;
  to_u128 d := if runits d <? 0 then None else Some (runits d / UNITS);
  dec_from_str s :=
    match s with
    | EmptyString => None
    | String c s' =>
        if Ascii.eqb c (Ascii.ascii_of_N 45)
        then (λ d, (- d.1, d.2)) <$> (if bool_decide (s' = EmptyString) then None
                                      else parse_digits s' 0 0 false)
        else parse_digits s 0 0 false
    end;
  dec_to_string _ := EmptyString;
  saturating_add a b := of_units (runits a + runits b);
  saturating_sub a b := of_units (runits a - runits b);
  saturating_mul a b := of_units (Z.quot (runits a * runits b) UNITS);
  checked_add a b := of_units_opt (runits a + runits b);
  checked_div a b :=
    if runits b =? 0 then None
    else of_units_opt (Z.quot (runits a * UNITS) (runits b));
  op_mul a b := of_units_opt (Z.quot (runits a * runits b) UNITS);
  op_sub a b := of_units_opt (runits a - runits b);
  op_rem a b :=
    if runits b =? 0 then None else Some (of_units (Z.rem (runits a) (runits b)));
  round_dp_to_zero n d :=
    of_units (Z.quot (runits d) (10 ^ (28 - n)) * 10 ^ (28 - n));
  dec_pow a _ _ := a;
|}.

Lemma shrink_exact n u m k :
  0 ≤ k ≤ Z.of_nat n → Z.abs m < 2 ^ 96 → u = m * 10 ^ k →
  (shrink n u).1 * 10 ^ (Z.of_nat n - (shrink n u).2) = u
  ∧ Z.abs (shrink n u).1 < 2 ^ 96 ∧ 0 ≤ (shrink n u).2 ≤ Z.of_nat n.
Proof.
  revert u k. induction n as [|n IH]; intros u k Hk Hm Hu; cbn [shrink];
    destruct (Z.ltb_spec (Z.abs u) (2 ^ 96)) as [Hlt|Hge]; cbn [fst snd].
  - rewrite Z.sub_diag. lia.
  - assert (k = 0) as -> by lia. lia.
  - rewrite Z.sub_diag. lia.
  - assert (k ≠ 0) by (intros ->; lia).
    assert (u = m * 10 ^ (k - 1) * 10) as Hq.
    { rewrite Hu. replace k with (Z.succ (k - 1)) at 1 by lia.
      rewrite Z.pow_succ_r by lia. lia. }
    destruct (IH (Z.quot u 10) (k - 1)) as (He & Hb & Hs); [lia|done|
      rewrite Hq, Z.quot_mul; lia |].
    rewrite Hq, Z.quot_mul in * by lia.
    split; [|lia]. set (r := shrink n _) in *.
    replace (Z.of_nat (S n) - r.2) with (Z.succ (Z.of_nat n - r.2)) by lia.
    rewrite Z.pow_succ_r by lia. lia.
Qed.

Lemma valid_true d : Z.abs d.1 < 2 ^ 96 → 0 ≤ d.2 ≤ 28 → valid d = true.
Proof. intros. unfold valid. rewrite !andb_true_iff. lia. Qed.

Lemma of_units_exact u : representable u → runits (of_units u) = u.
Proof.
  intros (m & s & Hm & Hs & Hu). unfold of_units.
  destruct (shrink_exact 28 u m (28 - s)) as (He & Hb & Hr); [lia..|].
  unfold runits, rmantissa, rscale. rewrite valid_true by (lia || done). exact He.
Qed.

Lemma shrink_range n u :
  Z.abs (shrink n u).1 < 2 ^ 96 ∧ 0 ≤ (shrink n u).2 ≤ Z.of_nat n.
Proof.
  revert u. induction n as [|n IH]; intros u; cbn [shrink];
    destruct (Z.ltb_spec (Z.abs u) (2 ^ 96)); cbn [fst snd]; [lia| |lia|].
  - split; [|lia]. destruct (Z.sgn_spec u) as [[_ ->]|[[_ ->]|[_ ->]]]; lia.
  - specialize (IH (Z.quot u 10)). lia.
Qed.

Lemma shrink_trunc n u :
  0 ≤ u → 0 ≤ (shrink n u).1 * 10 ^ (Z.of_nat n - (shrink n u).2) ≤ u.
Proof.
  revert u. induction n as [|n IH]; intros u Hu; cbn [shrink];
    destruct (Z.ltb_spec (Z.abs u) (2 ^ 96)) as [Hlt|Hge]; cbn [fst snd].
  - rewrite Z.sub_diag. lia.
  - replace (Z.of_nat 0 - 0) with 0 by lia. rewrite Z.pow_0_r, Z.sgn_pos by lia. lia.
  - rewrite Z.sub_diag. lia.
  - assert (0 ≤ Z.quot u 10) as Hq by (apply Z.quot_pos; lia).
    pose proof (shrink_range n (Z.quot u 10)) as Hr.
    specialize (IH _ Hq). set (r := shrink n _) in *.
    replace (Z.of_nat (S n) - r.2) with (Z.succ (Z.of_nat n - r.2)) by lia.
    rewrite Z.pow_succ_r by lia.
    pose proof (Z.mul_quot_le u 10 Hu ltac:(lia)). lia.
Qed.

Lemma of_units_trunc u : 0 ≤ u → 0 ≤ runits (of_units u) ≤ u.
Proof.
  intros Hu. pose proof (shrink_trunc 28 u Hu) as Ht.
  pose proof (shrink_range 28 u) as Hr. unfold of_units, runits, rmantissa, rscale.
  rewrite valid_true by (lia || apply Hr). exact Ht.
Qed.

Lemma runits_bound d : Z.abs (runits d) < 2 ^ 96 * UNITS.
Proof.
  unfold runits, rmantissa, rscale. destruct (valid d) eqn:Hv; [|unfold UNITS; lia].
  unfold valid in Hv. rewrite !andb_true_iff in Hv.
  assert (0 < 10 ^ (28 - d.2) ≤ UNITS) as Hp.
  { split; [apply Z.pow_pos_nonneg; lia|]. apply Z.pow_le_mono_r; lia. }
  rewrite Z.abs_mul, (Z.abs_eq (10 ^ _)) by lia. nia.
Qed.

Lemma of_units_opt_exact u :
  representable u → ∃ d, of_units_opt u = Some d ∧ runits d = u.
Proof.
  intros Hu. exists (of_units u). split; [|by apply of_units_exact].
  unfold of_units_opt. pose proof (runits_bound (of_units u)) as Hb.
  rewrite of_units_exact in Hb by done. by apply Z.ltb_lt in Hb as ->.
Qed.

Lemma runits_representable d : representable (runits d).
Proof.
  unfold runits, rmantissa, rscale. destruct (valid d) eqn:Hv; [|exists 0, 0; lia].
  unfold valid in Hv. rewrite !andb_true_iff in Hv. exists d.1, d.2. lia.
Qed.

Lemma quot_exact a b u : b ≠ 0 → a = u * b → Z.quot a b = u.
Proof. intros Hb ->. by apply Z.quot_mul. Qed.

Lemma UNITS_pos : 0 < UNITS.
Proof. reflexivity. Qed.

Lemma quot_bounds a b m : 0 ≤ a ≤ b * m → 0 < b → 0 ≤ Z.quot a b ≤ m.
Proof.
  intros Ha Hb. rewrite Z.quot_div_nonneg by lia.
  split; [apply Z.div_pos; lia | apply Z.div_le_upper_bound; lia].
Qed.

#[export] Instance ref_decimal_laws : DecimalLaws.
Proof.
  pose proof UNITS_pos as HU.
  split; cbn [dec mantissa scale dec_new from_u128 to_u128 saturating_add
    saturating_sub saturating_mul checked_add checked_div op_mul op_sub op_rem
    round_dp_to_zero ref_decimal]; change (@units ref_decimal) with runits.
  - intros d. unfold rmantissa. destruct (valid d) eqn:Hv; [|lia].
    unfold valid in Hv. rewrite !andb_true_iff in Hv. lia.
  - intros d. unfold rscale. destruct (valid d) eqn:Hv; [|lia].
    unfold valid in Hv. rewrite !andb_true_iff in Hv. lia.
  - intros m s Hm Hs. unfold runits, rmantissa, rscale.
    by rewrite valid_true by done.
  - intros n Hn. exists (n, 0). rewrite (proj2 (Z.ltb_lt _ _)) by lia.
    split; [done|]. unfold runits, rmantissa, rscale.
    rewrite valid_true by (simpl; lia). reflexivity.
  - intros d Hd. rewrite (proj2 (Z.ltb_ge _ _)) by lia. done.
  - intros a b. apply of_units_exact.
  - intros a b Ha Hb. apply of_units_trunc. lia.
  - intros a b. apply of_units_exact.
  - intros a b Hab. apply of_units_trunc. lia.
  - intros a b u Hu Hr. rewrite (quot_exact _ _ u) by lia. by apply of_units_exact.
  - intros a b Ha Hb.
    assert (0 ≤ Z.quot (runits a * runits b) UNITS ≤ runits a) as Hq
      by (apply quot_bounds; nia).
    pose proof (of_units_trunc _ (proj1 Hq)). lia.
  - intros a b. apply of_units_opt_exact.
  - intros a b Hb. rewrite Hb. done.
  - intros a b q Hb Hq Hr. rewrite (proj2 (Z.eqb_neq _ _) Hb).
    rewrite (quot_exact _ _ q) by done. by apply of_units_opt_exact.
  - intros a b Ha Hb. rewrite (proj2 (Z.eqb_neq _ _)) by lia.
    assert (0 ≤ Z.quot (runits a * UNITS) (runits b) ≤ UNITS) as Hq
      by (apply quot_bounds; nia).
    exists (of_units (Z.quot (runits a * UNITS) (runits b))).
    pose proof (of_units_trunc _ (proj1 Hq)). split; [|lia].
    unfold of_units_opt. rewrite (proj2 (Z.ltb_lt _ _)); [done|]. lia.
  - intros a b u Hu Hr. rewrite (quot_exact _ _ u) by lia. by apply of_units_opt_exact.
  - intros a b. apply of_units_opt_exact.
  - intros a b Hb. rewrite Hb. done.
  - intros a b Hb. rewrite (proj2 (Z.eqb_neq _ _) Hb).
    exists (of_units (Z.rem (runits a) (runits b))). split; [done|].
    apply of_units_exact, representable_rem; auto using runits_representable.
  - intros n d Hn. apply of_units_exact, representable_quot;
      [apply runits_representable | lia].
Qed.

End RefDecimal.
