(* ===== verification/Assets.v ===== *)
(** * Assets and markets

    Models the asset identifiers of [primitives/polkadex/src/assets.rs] and the
    trading pairs of [primitives/orderbook/src/types.rs] with their textual form:
    the string a trader signs for a market ([Display]) and the parser the engine
    applies to it ([TryFrom<String>]). *)

From S2P Require Import Prelude.

(** [AccountId32] *)
Definition AccountId : Type := byte_array 32.
#[global] Instance AccountId_eq_dec : EqDecision AccountId := _.
#[global] Instance AccountId_countable : Countable AccountId := byte_array_countable 32.

(** [account.to_raw_vec()] *)
Definition to_raw_vec (a : AccountId) : bytes := vec_to_list a.

#[global] Instance AccountId_btree_key : BTreeKey AccountId :=
  λ a b, bytes_leb (to_raw_vec a) (to_raw_vec b).

Lemma to_raw_vec_inj a b : to_raw_vec a = to_raw_vec b → a = b.
Proof. apply vec_to_list_inj2. Qed.

Lemma to_raw_vec_length a : length (to_raw_vec a) = 32%nat.
Proof. apply length_vec_to_list. Qed.

(** ** [AssetId] *)
Inductive AssetId : Type :=
| Asset (id : Z)
| Polkadex.

#[global] Instance AssetId_eq_dec : EqDecision AssetId.
Proof. solve_decision. Defined.
#[global] Instance AssetId_countable : Countable AssetId :=
  inj_countable'
    (λ a, match a with Asset i => inl i | Polkadex => inr tt end)
    (λ s, match s with inl i => Asset i | inr _ => Polkadex end)
    (λ a, match a with Asset i => eq_refl | Polkadex => eq_refl end).

(** The derived order follows the declaration: [Asset(_) < Polkadex]. *)
#[global] Instance AssetId_btree_key : BTreeKey AssetId := λ a b,
  match a, b with
  | Asset i, Asset j => i <=? j
  | Asset _, Polkadex => true
  | Polkadex, Asset _ => false
  | Polkadex, Polkadex => true
  end.

Definition asset_id (a : AssetId) : option Z :=
  match a with Asset id => Some id | Polkadex => None end.

(** [impl From<u128> for AssetId] and [impl From<AssetId> for u128] *)
Definition asset_from_u128 (v : Z) : AssetId :=
  if v =? 0 then Polkadex else Asset v.
Definition asset_into_u128 (a : AssetId) : Z :=
  match a with Asset id => id | Polkadex => 0 end.

(** [AssetIdConverter] *)
Inductive MultiAssetIdConversionResult : Type :=
| Converted (id : Z)
| Native
| Unsupported (a : AssetId).
Definition get_native : AssetId := Polkadex.
Definition is_native (a : AssetId) : bool := bool_decide (a = get_native).
Definition try_convert (a : AssetId) : MultiAssetIdConversionResult :=
  match a with Polkadex => Native | Asset id => Converted id end.

(** ** Decimal text of a [u128] *)
Definition digit (n : Z) : Ascii.ascii := Ascii.ascii_of_N (Z.to_N (48 + n)).

(** The value of a decimal digit. *)
Definition digit_val (c : Ascii.ascii) : option Z :=
  let v := Z.of_N (Ascii.N_of_ascii c) - 48 in
  if (0 <=? v) && (v <=? 9) then Some v else None.

(** [id.to_string()]; 39 digits are enough for 128 bits. *)
Fixpoint print_digits (fuel : nat) (n : Z) (rest : string) : string :=
  let s := String (digit (n mod 10)) rest in
  match fuel with
  | O => s
  | S fuel' => if n <? 10 then s else print_digits fuel' (n / 10) s
  end.
Definition print_u128 (n : Z) : string := print_digits 39 n EmptyString.

Fixpoint parse_digits (s : string) (acc : Z) : option Z :=
  match s with
  | EmptyString => Some acc
  | String c s' =>
      match digit_val c with
      | Some d =>
          if acc * 10 + d <=? u128_max then parse_digits s' (acc * 10 + d) else None
      | None => None
      end
  end.

(** [value.parse::<u128>()]: digits with an optional leading plus sign. *)
Definition parse_u128 (s : string) : option Z :=
  match s with
  | EmptyString => None
  | String c s' =>
      if Ascii.eqb c (Ascii.ascii_of_N 43)
      then match s' with EmptyString => None | _ => parse_digits s' 0 end
      else parse_digits s 0
  end.

(** [impl Display for AssetId] and [TryFrom<String>] *)
Definition asset_to_string (a : AssetId) : string :=
  match a with Polkadex => "PDEX" | Asset id => print_u128 id end.
Definition asset_try_from (s : string) : option AssetId :=
  if bool_decide (s = "PDEX") then Some Polkadex
  else match parse_u128 s with Some id => Some (Asset id) | None => None end.

(** ** [TradingPair] *)
Record TradingPair : Type := mkTradingPair { base : AssetId; quote : AssetId }.

#[global] Instance TradingPair_eq_dec : EqDecision TradingPair.
Proof. solve_decision. Defined.
#[global] Instance TradingPair_countable : Countable TradingPair :=
  inj_countable' (λ p, (base p, quote p)) (λ '(b, q), mkTradingPair b q)
    (λ p, match p with mkTradingPair b q => eq_refl end).

#[global] Instance TradingPair_btree_key : BTreeKey TradingPair :=
  λ p q, key_leb (base p, quote p) (base q, quote q).

(** [TradingPair::from(quote, base)] takes the quote asset first. *)
Definition pair_from (q b : AssetId) : TradingPair := {| base := b; quote := q |}.
Definition is_quote_asset (p : TradingPair) (a : AssetId) : bool := bool_decide (quote p = a).
Definition is_base_asset (p : TradingPair) (a : AssetId) : bool := bool_decide (base p = a).
Definition is_part_of (p : TradingPair) (a : AssetId) : bool :=
  bool_decide (base p = a) || bool_decide (quote p = a).
Definition base_asset_str (p : TradingPair) : string := asset_to_string (base p).
Definition quote_asset_str (p : TradingPair) : string := asset_to_string (quote p).
Definition market_id (p : TradingPair) : string :=
  base_asset_str p +:+ "/" +:+ quote_asset_str p.

(** [impl Display for TradingPair] *)
Definition pair_to_string (p : TradingPair) : string :=
  asset_to_string (base p) +:+ "-" +:+ asset_to_string (quote p).

(** [value.split('-')] *)
Fixpoint split_dash (s : string) : list string :=
  match s with
  | EmptyString => [EmptyString]
  | String c s' =>
      if Ascii.eqb c (Ascii.ascii_of_N 45) then EmptyString :: split_dash s'
      else match split_dash s' with
           | [] => [String c EmptyString]
           | w :: ws => String c w :: ws
           end
  end.

(** [impl TryFrom<String> for TradingPair] *)
Definition pair_try_from (s : string) : res string TradingPair :=
  match split_dash s with
  | [b; q] =>
      match asset_try_from b with
      | None => Err "asset id parse error"
      | Some base_asset =>
          match asset_try_from q with
          | None => Err "asset id parse error"
          | Some quote_asset => Ok (pair_from quote_asset base_asset)
          end
      end
  | _ => Err "Invalid String"
  end.

(** An asset identifier holds a [u128]. *)
Definition valid_asset (a : AssetId) : Prop :=
  match a with Asset id => is_u 128 id | Polkadex => True end.

Definition valid_pair (p : TradingPair) : Prop :=
  valid_asset (base p) ∧ valid_asset (quote p).

(** ** Properties *)

Lemma digit_val_digit d : 0 ≤ d ≤ 9 → digit_val (digit d) = Some d.
Proof.
  intros Hd.
  assert (d = 0 ∨ d = 1 ∨ d = 2 ∨ d = 3 ∨ d = 4 ∨ d = 5 ∨ d = 6 ∨ d = 7 ∨ d = 8 ∨ d = 9)
    as Hcases by lia.
  destruct_or! Hcases; subst; reflexivity.
Qed.

Lemma parse_digits_cons d s acc :
  0 ≤ d ≤ 9 → acc * 10 + d ≤ u128_max →
  parse_digits (String (digit d) s) acc = parse_digits s (acc * 10 + d).
Proof.
  intros Hd Hle. cbn [parse_digits]. rewrite digit_val_digit by done.
  by rewrite (proj2 (Z.leb_le _ _) Hle).
Qed.

(** Printing writes the digits in the order the parser consumes them. *)
Lemma parse_print_digits fuel n rest :
  0 ≤ n ≤ u128_max → n < 10 ^ (Z.of_nat fuel + 1) →
  parse_digits (print_digits fuel n rest) 0 = parse_digits rest n.
Proof.
  revert n rest. induction fuel as [|fuel IH]; intros n rest Hn Hlt; cbn [print_digits].
  - change (10 ^ (Z.of_nat 0 + 1)) with 10 in Hlt.
    rewrite Z.mod_small by lia. rewrite parse_digits_cons by lia. done.
  - destruct (Z.ltb_spec n 10) as [Hs|Hb].
    + rewrite Z.mod_small by lia. rewrite parse_digits_cons by lia. done.
    + pose proof (Z.mod_pos_bound n 10 ltac:(lia)).
      pose proof (Z.div_mod n 10 ltac:(lia)).
      rewrite IH; [rewrite parse_digits_cons by lia; f_equal; lia | |].
      * split; [apply Z.div_pos; lia|]. lia.
      * apply Z.div_lt_upper_bound; [lia|].
        replace (Z.of_nat (S fuel) + 1) with (Z.succ (Z.of_nat fuel + 1)) in Hlt by lia.
        rewrite Z.pow_succ_r in Hlt by lia. lia.
Qed.

Lemma parse_digits_print n : is_u 128 n → parse_digits (print_u128 n) 0 = Some n.
Proof.
  intros Hn. unfold print_u128. unfold is_u in Hn.
  rewrite parse_print_digits; [done|done|].
  apply Z.le_lt_trans with (umax 128); [lia | vm_compute; done].
Qed.

Lemma print_digits_cons fuel n rest :
  ∃ c s, print_digits fuel n rest = String c s.
Proof.
  revert n rest. induction fuel as [|fuel IH]; intros n rest; cbn [print_digits];
    [eauto|]. destruct (n <? 10); eauto.
Qed.

Lemma parse_u128_print n : is_u 128 n → parse_u128 (print_u128 n) = Some n.
Proof.
  intros Hn. pose proof (parse_digits_print n Hn) as Hp. unfold parse_u128.
  destruct (print_digits_cons 39 n EmptyString) as (c & s & Hs).
  unfold print_u128 in *. rewrite Hs in *.
  destruct (Ascii.eqb_spec c (Ascii.ascii_of_N 43)) as [->|]; [|done].
  cbn in Hp. discriminate.
Qed.

Lemma asset_try_from_print a :
  valid_asset a → asset_try_from (asset_to_string a) = Some a.
Proof.
  destruct a as [id|]; intros Hv; [|done]. unfold asset_try_from, asset_to_string.
  rewrite bool_decide_eq_false_2.
  - by rewrite parse_u128_print.
  - intros Hs. pose proof (parse_digits_print id Hv) as Hp. rewrite Hs in Hp.
    cbn in Hp. discriminate.
Qed.

(** No character of the text is a dash. *)
Fixpoint no_dash (s : string) : bool :=
  match s with
  | EmptyString => true
  | String c s' => negb (Ascii.eqb c (Ascii.ascii_of_N 45)) && no_dash s'
  end.

Lemma digit_no_dash n : Ascii.eqb (digit (n mod 10)) (Ascii.ascii_of_N 45) = false.
Proof.
  apply Ascii.eqb_neq. intros Hd. pose proof (Z.mod_pos_bound n 10 ltac:(lia)).
  pose proof (digit_val_digit (n mod 10) ltac:(lia)) as Hv. rewrite Hd in Hv.
  cbn in Hv. discriminate.
Qed.

Lemma print_digits_no_dash fuel n rest :
  no_dash rest = true → no_dash (print_digits fuel n rest) = true.
Proof.
  revert n rest. induction fuel as [|fuel IH]; intros n rest Hr; cbn [print_digits].
  - cbn [no_dash]. by rewrite digit_no_dash.
  - destruct (n <? 10); [|apply IH]; cbn [no_dash]; by rewrite digit_no_dash.
Qed.

Lemma asset_to_string_no_dash a : no_dash (asset_to_string a) = true.
Proof. destruct a as [id|]; [by apply print_digits_no_dash | done]. Qed.

Lemma split_dash_none s : no_dash s = true → split_dash s = [s].
Proof.
  induction s as [|c s IH]; intros Hs; [done|]. cbn [no_dash split_dash] in *.
  apply andb_true_iff in Hs as [Hc Hs]. apply negb_true_iff in Hc.
  by rewrite Hc, IH.
Qed.

Lemma split_dash_app s t :
  no_dash s = true → split_dash (s +:+ "-" +:+ t) = s :: split_dash t.
Proof.
  induction s as [|c s IH]; intros Hs; [done|].
  change (String c s +:+ "-" +:+ t) with (String c (s +:+ "-" +:+ t)).
  cbn [no_dash split_dash] in *.
  apply andb_true_iff in Hs as [Hc Hs]. apply negb_true_iff in Hc.
  by rewrite Hc, IH.
Qed.

(** The market text a trader signs is read back as the same market:
    [TryFrom<String>] inverts [Display] for every trading pair of [u128] assets,
    in spite of the swapped argument order of [TradingPair::from]. *)
Theorem trading_pair_roundtrip p :
  valid_pair p → pair_try_from (pair_to_string p) = Ok p.
Proof.
  intros [Hb Hq]. unfold pair_try_from, pair_to_string.
  rewrite split_dash_app by apply asset_to_string_no_dash.
  rewrite split_dash_none by apply asset_to_string_no_dash.
  rewrite !asset_try_from_print by done. by destruct p.
Qed.

Lemma trading_pair_roundtrip_witness :
  valid_pair (mkTradingPair Polkadex (Asset 3496813586714279103986568049643838918)) ∧
  pair_try_from (pair_to_string
    (mkTradingPair Polkadex (Asset 3496813586714279103986568049643838918)))
  = Ok (mkTradingPair Polkadex (Asset 3496813586714279103986568049643838918)).
Proof.
  assert (valid_pair (mkTradingPair Polkadex (Asset 3496813586714279103986568049643838918)))
    as Hv by (split; [done | vm_compute; split; discriminate]).
  split; [exact Hv | exact (trading_pair_roundtrip _ Hv)].
Defined.

(** The [u128] form of an asset loses nothing except the identifier 0, which is
    reserved for the native asset. *)
Lemma asset_u128_roundtrip a :
  a ≠ Asset 0 → asset_from_u128 (asset_into_u128 a) = a.
Proof.
  destruct a as [id|]; intros Hne; [|done]. unfold asset_from_u128. cbn.
  destruct (Z.eqb_spec id 0); naive_solver.
Qed.
