(* ===== verification/Bank.v ===== *)
(** * Currencies

    The pallets move money through two packages, [pallet_balances] (the native
    token, [NativeCurrency]) and [pallet_assets] ([OtherAssets]).  [Currencies]
    lists the calls the sources make and [CurrenciesLaws] the documented behaviour
    that theorems rely on; [RefBank] is a concrete instance. *)

From S2P Require Import Prelude Decimal Assets.

(** [Preservation] and [ExistenceRequirement]: may the payer's account be emptied
    below its existential deposit? *)
Inductive Preservation : Type := Expendable | Protect | Preserve.

(** [NativeCurrency] operations act on [Polkadex], [OtherAssets] operations on
    [Asset id]. *)
Class Currencies := {
  Bank : Type;
  BankError : Type;
  (** [free_balance] and [balance] *)
  balance : Bank → AssetId → AccountId → Z;
  (** [reducible_balance(who, preservation, _)] *)
  reducible_balance : Bank → AssetId → AccountId → Preservation → Z;
  minimum_balance : Bank → AssetId → Z;
  total_issuance : Bank → AssetId → Z;
  (** [transfer(from, to, amount, preservation)] *)
  bank_transfer : AssetId → AccountId → AccountId → Z → Preservation → M Bank BankError unit;
  (** [settle(who, burn(amount), WithdrawReasons::all(), KeepAlive)] *)
  bank_burn_settle : AccountId → Z → M Bank BankError unit;
  (** [unreserve(who, amount)] *)
  bank_unreserve : AccountId → Z → Bank → Bank;
  (** [mint_into(id, who, amount)], [burn_from(id, who, amount, ..)], [create] *)
  bank_mint : AssetId → AccountId → Z → M Bank BankError unit;
  bank_burn_from : AssetId → AccountId → Z → M Bank BankError Z;
  bank_create : Z → AccountId → Z → M Bank BankError unit;
}.

Class CurrenciesLaws `{Currencies} : Prop := {
  balance_nonneg b x a : 0 ≤ balance b x a;
  (** Calls return; a failing call has no effect. *)
  transfer_returns b x p q n pr : (bank_transfer x p q n pr b).1 ≠ Panic;
  transfer_fail b x p q n pr b' : is_ok (bank_transfer x p q n pr b).1 = false →
    (bank_transfer x p q n pr b).2 = b' → b' = b;
  (** A transfer is covered by the payer's balance, the payee receives at least the
      amount (dust of an emptied account goes with it), and nothing is created. *)
  transfer_covered b x p q n pr b' : bank_transfer x p q n pr b = (Ok tt, b') →
    n ≤ balance b x p;
  transfer_payee b x p q n pr b' : bank_transfer x p q n pr b = (Ok tt, b') →
    p ≠ q → balance b x q + n ≤ balance b' x q;
  transfer_payer b x p q n pr b' : bank_transfer x p q n pr b = (Ok tt, b') →
    p ≠ q → balance b' x p ≤ balance b x p - n;
  (** A payer that must be kept alive pays exactly the amount. *)
  transfer_preserve b x p q n b' : bank_transfer x p q n Preserve b = (Ok tt, b') →
    p ≠ q → balance b' x p = balance b x p - n ∧ balance b' x q = balance b x q + n;
  transfer_sum b x p q n pr b' : bank_transfer x p q n pr b = (Ok tt, b') →
    p ≠ q → balance b' x p + balance b' x q ≤ balance b x p + balance b x q;
  transfer_self b x p n pr b' y a : bank_transfer x p p n pr b = (Ok tt, b') →
    balance b' y a = balance b y a;
  (** Other accounts and assets are untouched. *)
  transfer_frame b x p q n pr b' y a : bank_transfer x p q n pr b = (Ok tt, b') →
    y ≠ x ∨ (a ≠ p ∧ a ≠ q) → balance b' y a = balance b y a;
  (** Burning takes the amount from the account. *)
  burn_settle_ok b p n b' : bank_burn_settle p n b = (Ok tt, b') →
    n ≤ balance b Polkadex p ∧ balance b' Polkadex p = balance b Polkadex p - n;
  burn_settle_frame b p n b' y a : bank_burn_settle p n b = (Ok tt, b') →
    y ≠ Polkadex ∨ a ≠ p → balance b' y a = balance b y a;
  (** Minting adds the amount to the account. *)
  mint_ok b x a n b' : bank_mint x a n b = (Ok tt, b') → balance b' x a = balance b x a + n;
  mint_frame b x a n b' y c : bank_mint x a n b = (Ok tt, b') →
    y ≠ x ∨ c ≠ a → balance b' y c = balance b y c;
}.

(** [Percent::from_percent(p) * n]: the nearest integer, ties towards zero. *)
Class Percents := percent_mul : Z → Z → Z.
Class PercentsLaws `{Percents} : Prop :=
  percent_mul_nearest : ∀ p n, 0 ≤ p ≤ 100 → 0 ≤ n →
    100 * percent_mul p n - 50 ≤ p * n ≤ 100 * percent_mul p n + 50
    ∧ p * n ≠ 100 * percent_mul p n - 50.

(** Every account must keep one unit of the native token; assets have no minimum. *)
Module RefBank.
Record coins : Type := mkBank { accounts : gmap (AssetId * AccountId) N }.
Definition coin_bal (b : coins) (x : AssetId) (a : AccountId) : Z :=
  Z.of_N (default 0%N (accounts b !! (x, a))).
Definition coin_set (b : coins) (x : AssetId) (a : AccountId) (n : Z) : coins :=
  mkBank (<[(x, a) := Z.to_N n]> (accounts b)).
Definition keep (pr : Preservation) : Z :=
  match pr with Expendable => 0 | Protect | Preserve => 1 end.
Definition transfer (x : AssetId) (p q : AccountId) (n : Z) (pr : Preservation) :
    M coins unit unit := λ b,
  if (0 <=? n) && (n + keep pr <=? coin_bal b x p) then
    if bool_decide (p = q) then (Ok tt, b)
    else (Ok tt, coin_set (coin_set b x p (coin_bal b x p - n)) x q (coin_bal b x q + n))
  else (Err tt, b).

#[export] Instance ref_bank : Currencies := {|
  Bank := coins;
  BankError := unit;
  balance := coin_bal;
  reducible_balance b x a pr := Z.max 0 (coin_bal b x a - keep pr);
  minimum_balance b x := match x with Polkadex => 1 | Asset _ => 0 end;
  total_issuance b x := map_total Z.of_N (filter (λ kv, kv.1.1 = x) (accounts b));
  bank_transfer := transfer;
  bank_burn_settle p n b :=
    if (0 <=? n) && (n + 1 <=? coin_bal b Polkadex p) then (Ok tt, coin_set b Polkadex p (coin_bal b Polkadex p - n))
    else (Err tt, b);
  bank_unreserve _ _ b := b;
  bank_mint x a n b :=
    if 0 <=? n then (Ok tt, coin_set b x a (coin_bal b x a + n)) else (Err tt, b);
  bank_burn_from x a n b :=
    if (0 <=? n) && (n <=? coin_bal b x a) then (Ok n, coin_set b x a (coin_bal b x a - n)) else (Err tt, b);
  bank_create _ _ _ b := (Ok tt, b);
|}.

Lemma coin_bal_set b x a n y c :
  0 ≤ n → coin_bal (coin_set b x a n) y c = if decide (y = x ∧ c = a) then n else coin_bal b y c.
Proof.
  intros Hn. unfold coin_bal, coin_set. cbn. case_decide as Hd.
  - destruct Hd as [-> ->]. rewrite lookup_insert_eq. cbn. lia.
  - rewrite lookup_insert_ne; naive_solver.
Qed.

Lemma coin_bal_nonneg b x a : 0 ≤ coin_bal b x a.
Proof. unfold coin_bal. lia. Qed.

Lemma transfer_ok b x p q n pr b' :
  transfer x p q n pr b = (Ok tt, b') →
  0 ≤ n ∧ n + keep pr ≤ coin_bal b x p ∧
  ∀ y a, coin_bal b' y a =
    if decide (p ≠ q ∧ y = x ∧ a = p) then coin_bal b x p - n
    else if decide (p ≠ q ∧ y = x ∧ a = q) then coin_bal b x q + n else coin_bal b y a.
Proof.
  unfold transfer. pose proof (coin_bal_nonneg b x q). assert (0 ≤ keep pr) by (destruct pr; done).
  destruct ((0 <=? n) && (n + keep pr <=? coin_bal b x p)) eqn:Hc; [|done].
  apply andb_true_iff in Hc as [Hn Hle]. apply Z.leb_le in Hn, Hle.
  case_bool_decide as Hpq; intros [= <-]; (split; [lia|]; split; [lia|]); intros y a.
  - rewrite !decide_False; naive_solver.
  - rewrite !coin_bal_set by lia. repeat case_decide; naive_solver.
Qed.

#[export] Instance ref_bank_laws : CurrenciesLaws.
Proof.
  split; cbn.
  - apply coin_bal_nonneg.
  - intros b x p q n pr. unfold transfer. by repeat case_match.
  - intros b x p q n pr b'. unfold transfer. repeat case_match; by intros.
  - intros b x p q n pr b' (? & ? & _)%transfer_ok. destruct pr; cbn in *; lia.
  - intros b x p q n pr b' (? & ? & Hb)%transfer_ok Hpq. rewrite (Hb x q).
    rewrite decide_False, decide_True by naive_solver. lia.
  - intros b x p q n pr b' (? & ? & Hb)%transfer_ok Hpq. rewrite (Hb x p).
    rewrite decide_True by naive_solver. lia.
  - intros b x p q n b' (? & ? & Hb)%transfer_ok Hpq. rewrite (Hb x p), (Hb x q).
    split; repeat case_decide; naive_solver.
  - intros b x p q n pr b' (? & ? & Hb)%transfer_ok Hpq. rewrite (Hb x p), (Hb x q).
    repeat case_decide; try lia; naive_solver.
  - intros b x p n pr b' y a (? & ? & Hb)%transfer_ok. rewrite Hb.
    by rewrite !decide_False by naive_solver.
  - intros b x p q n pr b' y a (? & ? & Hb)%transfer_ok Hout. rewrite Hb.
    by rewrite !decide_False by naive_solver.
  - intros b p n b'. pose proof (coin_bal_nonneg b Polkadex p).
    destruct (_ && _) eqn:Hc; [|done]. apply andb_true_iff in Hc as [Hn Hle].
    apply Z.leb_le in Hn, Hle. intros [= <-]. rewrite coin_bal_set by lia.
    rewrite decide_True by done. lia.
  - intros b p n b' y a. destruct (_ && _) eqn:Hc; [|done].
    apply andb_true_iff in Hc as [Hn Hle]. apply Z.leb_le in Hn, Hle.
    intros [= <-] Hout. rewrite coin_bal_set by lia. by rewrite decide_False by naive_solver.
  - intros b x a n b'. pose proof (coin_bal_nonneg b x a). destruct (Z.leb_spec 0 n); [|done].
    intros [= <-]. rewrite coin_bal_set by lia. by rewrite decide_True.
  - intros b x a n b' y c. pose proof (coin_bal_nonneg b x a). destruct (Z.leb_spec 0 n); [|done].
    intros [= <-] Hout. rewrite coin_bal_set by lia. by rewrite decide_False by naive_solver.
Qed.

#[export] Instance ref_percents : Percents := λ p n, - ((50 - p * n) / 100).
#[export] Instance ref_percents_laws : PercentsLaws.
Proof.
  intros p n Hp Hn. unfold percent_mul, ref_percents.
  generalize (p * n). intros m.
  pose proof (Z.div_mod (50 - m) 100). pose proof (Z.mod_pos_bound (50 - m) 100). lia.
Qed.
End RefBank.
