(* ===== verification/Types.v ===== *)
(** * Order book data types

    The structures that the on-chain pallets, the off-chain validator and the
    matching engine exchange: [primitives/orderbook/src/{types,lib,lmp,ingress,
    ocex,recovery}.rs] and [primitives/polkadex/src/{fees,withdrawal,auction}.rs].
    Serialisation and cryptography come from packages outside the repository and
    are the parameters [Codec] and [Crypto]. *)

From S2P Require Import Prelude Decimal Assets.

(** ** Serialisation: [parity_scale_codec]'s [Encode] and [Decode] *)
Class Codec (A : Type) := {
  scale_encode : A → bytes;
  scale_decode : bytes → option A;
}.

(** Decoding inverts encoding, and a value of the types stored here (maps, records,
    hashes) takes at least one byte. *)
Class CodecLaws (A : Type) `{Codec A} : Prop := {
  scale_roundtrip : ∀ a, scale_decode (scale_encode a) = Some a;
  scale_encode_nonempty : ∀ a, scale_encode a ≠ [];
}.

(** A concrete codec for every countable type: a tag and the bits of the code number. *)
Module RefCodec.
Fixpoint bits (p : positive) : bytes :=
  match p with xH => [] | xO p => x00 :: bits p | xI p => x01 :: bits p end.
Fixpoint unbits (l : bytes) : positive :=
  match l with
  | [] => xH
  | b :: l' => if bool_decide (b = x00) then xO (unbits l') else xI (unbits l')
  end.
Lemma unbits_bits p : unbits (bits p) = p.
Proof. induction p as [p IH|p IH|]; cbn; by rewrite ?IH. Qed.
Definition codec (A : Type) `{Countable A} : Codec A := {|
  scale_encode a := x02 :: bits (encode a);
  scale_decode l := match l with [] => None | _ :: l' => decode (unbits l') end;
|}.
Lemma codec_laws (A : Type) `{Countable A} : @CodecLaws A (codec A).
Proof. split; [|done]. intros a. cbn. by rewrite unbits_bits, decode_encode. Qed.
End RefCodec.

(** ** Cryptography: [sp_core], [sp_io] and [sp_runtime] / [frame_support]'s [PalletId] *)
Class Crypto := {
  (** [MultiSignature] and its [verify] *)
  Signature : Type;
  sig_verify : Signature → bytes → AccountId → bool;
  (** [sp_core::ecdsa] *)
  EcdsaSig : Type;
  EcdsaPub : Type;
  EcdsaPub_eq_dec :: EqDecision EcdsaPub;
  recover_prehashed : EcdsaSig → H256 → option EcdsaPub;
  (** [sp_io::hashing] *)
  blake2_256 : bytes → H256;
  blake2_128 : bytes → byte_array 16;
  (** [PalletId::into_account_truncating] *)
  into_account_truncating : bytes → AccountId;
}.

(** A concrete instance, to evaluate the model: a signature names its signer, the
    hash of a string is its first bytes. *)
Module RefCrypto.
#[export] Instance ref_crypto : Crypto := {|
  Signature := AccountId;
  sig_verify s _ a := bool_decide (s = a);
  EcdsaSig := Z;
  EcdsaPub := Z;
  recover_prehashed s _ := Some s;
  blake2_256 l := pad 32 l;
  blake2_128 l := pad 16 l;
  into_account_truncating l := pad 32 l;
|}.
(** Small account numbers, for examples. *)
Definition acct (n : N) : AccountId := pad 32 [default x00 (Byte.of_N n)].
End RefCrypto.

(** [UNIT_BALANCE]: raw units of the chain per unit of the order book. *)
Definition UNIT_BALANCE : Z := 1000000000000.

Section types.
Context {D : Decimal}.

(** ** Fees and withdrawals *)
Record FeeConfig : Type := mkFeeConfig {
  maker_fraction : dec;
  taker_fraction : dec;
}.
(** [FeeConfig::default()]: 0.1% for both sides *)
Definition default_fee_config : FeeConfig := {|
  maker_fraction := dec_new 1 3;
  taker_fraction := dec_new 1 3;
|}.

(** [WithdrawalDestination::Polkadot(location, fee)]; the location is an opaque
    [MultiLocation]. *)
Inductive WithdrawalDestination : Type :=
| Polkadot (location : bytes) (fee : option (AssetId * Z)).

Record Withdrawal : Type := mkWithdrawal {
  wd_id : H160;
  wd_main_account : AccountId;
  wd_amount : dec;
  wd_asset : AssetId;
  wd_fees : dec;
  wd_stid : Z;
  wd_destination : option WithdrawalDestination;
}.

Record Fees : Type := mkFees { fees_asset : AssetId; fees_amount_dec : dec }.

(** [d.saturating_mul(UNIT_BALANCE).to_u128()]: book amount to raw units.
    [Decimal::from(UNIT_BALANCE)] cannot panic. *)
Definition dec_to_raw (d : dec) : option Z :=
  match from_u128 UNIT_BALANCE with
  | Some unit => to_u128 (saturating_mul d unit)
  | None => None
  end.

(** [Decimal::from(n).checked_div(Decimal::from(UNIT_BALANCE))]; the outer option
    is the panic of [Decimal::from]. *)
Definition raw_to_dec (n : Z) : option (option dec) :=
  match from_u128 n, from_u128 UNIT_BALANCE with
  | Some d, Some unit => Some (checked_div d unit)
  | _, _ => None
  end.

(** [Fees::amount]: [unwrap_or_default] on the conversion *)
Definition fees_amount (f : Fees) : Z := default 0 (dec_to_raw (fees_amount_dec f)).

(** ** Markets *)
Record TradingPairConfig : Type := mkTradingPairConfig {
  base_asset : AssetId;
  quote_asset : AssetId;
  price_tick_size : dec;
  min_volume : dec;
  max_volume : dec;
  qty_step_size : dec;
  operational_status : bool;
  base_asset_precision : Z;
  quote_asset_precision : Z;
}.

(** [TradingPairConfig::default(base, quote)] *)
Definition default_pair_config (b q : AssetId) : TradingPairConfig := {|
  base_asset := b;
  quote_asset := q;
  min_volume := dec_new 1 8;
  max_volume := dec_new 1000000 0;
  price_tick_size := dec_new 1 6;
  qty_step_size := dec_new 1 3;
  operational_status := true;
  base_asset_precision := 8;
  quote_asset_precision := 8;
|}.

Definition pair_config_eqb (a b : TradingPairConfig) : bool :=
  bool_decide (base_asset a = base_asset b)
  && bool_decide (quote_asset a = quote_asset b)
  && (price_tick_size a =? price_tick_size b)%dec
  && (min_volume a =? min_volume b)%dec
  && (max_volume a =? max_volume b)%dec
  && (qty_step_size a =? qty_step_size b)%dec
  && Bool.eqb (operational_status a) (operational_status b)
  && (base_asset_precision a =? base_asset_precision b)
  && (quote_asset_precision a =? quote_asset_precision b).

(** ** Registered accounts *)
Record AccountInfo : Type := mkAccountInfo {
  ai_main_account : AccountId;
  ai_proxies : list AccountId;
  ai_balances : gmap AssetId (dec * dec);
  ai_fee_config : FeeConfig;
}.

(** [ProxyLimit::get()] *)
Definition PROXY_LIMIT : Z := 3.

Definition account_info_new (main : AccountId) : AccountInfo := {|
  ai_main_account := main;
  ai_proxies := [];
  ai_balances := ∅;
  ai_fee_config := default_fee_config;
|}.

(** [BoundedVec::try_push] *)
Definition try_push {A} (limit : Z) (l : list A) (x : A) : option (list A) :=
  if Z.of_nat (length l) <? limit then Some (l ++ [x]) else None.

Definition add_proxy (ai : AccountInfo) (proxy : AccountId) : option AccountInfo :=
  match try_push PROXY_LIMIT (ai_proxies ai) proxy with
  | Some ps => Some {| ai_main_account := ai_main_account ai; ai_proxies := ps;
                       ai_balances := ai_balances ai; ai_fee_config := ai_fee_config ai |}
  | None => None
  end.

Definition remove_proxy (ai : AccountInfo) (proxy : AccountId) : AccountInfo :=
  {| ai_main_account := ai_main_account ai;
     ai_proxies := filter (λ p, p ≠ proxy) (ai_proxies ai);
     ai_balances := ai_balances ai; ai_fee_config := ai_fee_config ai |}.

(** ** Liquidity mining programme *)
Record LMPConfig : Type := mkLMPConfig { lmp_epoch : Z; lmp_index : Z }.

Record LMPMarketConfigWrapper : Type := mkLMPMarketConfigWrapper {
  lw_trading_pair : TradingPair;
  lw_market_weightage : Z;
  lw_min_fees_paid : Z;
  lw_min_maker_volume : Z;
  lw_max_spread : Z;
  lw_min_depth : Z;
}.

Record LMPMarketConfig : Type := mkLMPMarketConfig {
  weightage : dec;
  min_fees_paid : dec;
  min_maker_volume : dec;
  max_spread : dec;
  min_depth : dec;
}.

Record LMPEpochConfig : Type := mkLMPEpochConfig {
  total_liquidity_mining_rewards : dec;
  total_trading_rewards : dec;
  lmp_config : gmap TradingPair LMPMarketConfig;
  max_accounts_rewarded : Z;
  claim_safety_period : Z;
}.

#[export] Instance eta_LMPEpochConfig : Eta LMPEpochConfig := λ r, {|
  total_liquidity_mining_rewards := total_liquidity_mining_rewards r;
  total_trading_rewards := total_trading_rewards r;
  lmp_config := lmp_config r;
  max_accounts_rewarded := max_accounts_rewarded r;
  claim_safety_period := claim_safety_period r;
|}.

Definition default_lmp_epoch_config : LMPEpochConfig := {|
  total_liquidity_mining_rewards := dec_zero;
  total_trading_rewards := dec_zero;
  lmp_config := ∅;
  max_accounts_rewarded := 20;
  claim_safety_period := 50400;
|}.

(** [LMPEpochConfig::verify]: the market weights add up to one. *)
Definition lmp_config_verify (c : LMPEpochConfig) : bool :=
  (foldl (λ t m, saturating_add t (weightage m)) dec_zero
     ((btree_to_list (lmp_config c)).*2) =? dec_one)%dec.

(** ** Messages between the chain and the engine *)
Inductive IngressMessages : Type :=
| OpenTradingPair (c : TradingPairConfig)
| UpdateTradingPair (c : TradingPairConfig)
| RegisterUser (main proxy : AccountId)
| Deposit (id : H160) (main : AccountId) (a : AssetId) (amt : dec)
| AddProxy (main proxy : AccountId)
| RemoveProxy (main proxy : AccountId)
| CloseTradingPair (c : TradingPairConfig)
| SetExchangeState (b : bool)
| DirectWithdrawal (proxy : AccountId) (a : AssetId) (amt : dec) (force : bool)
| UpdateFeeStructure (main : AccountId) (maker taker : dec)
| WithdrawTradingFees
| AddLiquidity (market : TradingPairConfig) (pool lp : AccountId)
    (total_shares base_deposited quote_deposited : dec)
| RemoveLiquidity (market : TradingPairConfig) (pool lp : AccountId)
    (burn_frac total_shares : dec)
| ForceClosePool (market : TradingPairConfig) (pool : AccountId)
| LMPConfigMsg (c : LMPEpochConfig)
| NewLMPEpoch (epoch : Z).

(** [derive(PartialEq, Ord)] compares decimals by value. *)
Fixpoint list_eqb {A} (eqb : A → A → bool) (l k : list A) : bool :=
  match l, k with
  | [], [] => true
  | x :: l', y :: k' => eqb x y && list_eqb eqb l' k'
  | _, _ => false
  end.

Definition market_config_eqb (a b : LMPMarketConfig) : bool :=
  (weightage a =? weightage b)%dec
  && (min_fees_paid a =? min_fees_paid b)%dec
  && (min_maker_volume a =? min_maker_volume b)%dec
  && (max_spread a =? max_spread b)%dec
  && (min_depth a =? min_depth b)%dec.

Definition epoch_config_eqb (a b : LMPEpochConfig) : bool :=
  (total_liquidity_mining_rewards a =? total_liquidity_mining_rewards b)%dec
  && (total_trading_rewards a =? total_trading_rewards b)%dec
  && list_eqb (λ x y, bool_decide (x.1 = y.1) && market_config_eqb x.2 y.2)
       (btree_to_list (lmp_config a)) (btree_to_list (lmp_config b))
  && (max_accounts_rewarded a =? max_accounts_rewarded b)
  && (claim_safety_period a =? claim_safety_period b).

Definition ingress_eqb (x y : IngressMessages) : bool :=
  match x, y with
  | OpenTradingPair c, OpenTradingPair c' => pair_config_eqb c c'
  | UpdateTradingPair c, UpdateTradingPair c' => pair_config_eqb c c'
  | RegisterUser m p, RegisterUser m' p' =>
      bool_decide (m = m') && bool_decide (p = p')
  | Deposit i m a d, Deposit i' m' a' d' =>
      bool_decide (i = i') && bool_decide (m = m') && bool_decide (a = a')
      && (d =? d')%dec
  | AddProxy m p, AddProxy m' p' => bool_decide (m = m') && bool_decide (p = p')
  | RemoveProxy m p, RemoveProxy m' p' => bool_decide (m = m') && bool_decide (p = p')
  | CloseTradingPair c, CloseTradingPair c' => pair_config_eqb c c'
  | SetExchangeState b, SetExchangeState b' => Bool.eqb b b'
  | DirectWithdrawal p a d f, DirectWithdrawal p' a' d' f' =>
      bool_decide (p = p') && bool_decide (a = a') && (d =? d')%dec && Bool.eqb f f'
  | UpdateFeeStructure m x1 x2, UpdateFeeStructure m' y1 y2 =>
      bool_decide (m = m') && (x1 =? y1)%dec && (x2 =? y2)%dec
  | WithdrawTradingFees, WithdrawTradingFees => true
  | AddLiquidity c p l x1 x2 x3, AddLiquidity c' p' l' y1 y2 y3 =>
      pair_config_eqb c c' && bool_decide (p = p') && bool_decide (l = l')
      && (x1 =? y1)%dec && (x2 =? y2)%dec && (x3 =? y3)%dec
  | RemoveLiquidity c p l x1 x2, RemoveLiquidity c' p' l' y1 y2 =>
      pair_config_eqb c c' && bool_decide (p = p') && bool_decide (l = l')
      && (x1 =? y1)%dec && (x2 =? y2)%dec
  | ForceClosePool c p, ForceClosePool c' p' =>
      pair_config_eqb c c' && bool_decide (p = p')
  | LMPConfigMsg c, LMPConfigMsg c' => epoch_config_eqb c c'
  | NewLMPEpoch e, NewLMPEpoch e' => e =? e'
  | _, _ => false
  end.

Inductive EgressMessages : Type :=
| AddLiquidityResult (market : TradingPairConfig) (pool lp : AccountId)
    (shares price total_inventory : dec)
| RemoveLiquidityResult (market : TradingPairConfig) (pool lp : AccountId)
    (base_freed quote_freed : dec)
| RemoveLiquidityFailed (market : TradingPairConfig) (pool lp : AccountId)
    (burn_frac total_shares base_free quote_free base_required quote_required : dec)
| PoolForceClosed (market : TradingPairConfig) (pool : AccountId)
    (base_freed quote_freed : dec)
| TradingFees (fees : gmap AssetId dec)
| PriceOracle (prices : gmap (AssetId * AssetId) dec).

End types.

