(* ===== verification/Orders.v ===== *)
(** * Orders and trades

    [primitives/orderbook/src/types.rs]: orders, their verification against a
    market configuration, price-time priority, the balance movements of a trade,
    withdrawal requests and the batches the operator signs. *)

From S2P Require Import Prelude Decimal Assets Types.

Inductive OrderSide : Type := Ask | Bid.
Inductive OrderType : Type := LIMIT | MARKET.
Inductive OrderStatus : Type := OPEN | CLOSED | CANCELLED.
#[global] Instance OrderSide_eq_dec : EqDecision OrderSide.
Proof. solve_decision. Defined.
#[global] Instance OrderType_eq_dec : EqDecision OrderType.
Proof. solve_decision. Defined.
#[global] Instance OrderStatus_eq_dec : EqDecision OrderStatus.
Proof. solve_decision. Defined.

Definition get_opposite (s : OrderSide) : OrderSide :=
  match s with Ask => Bid | Bid => Ask end.

Definition side_to_string (s : OrderSide) : string :=
  match s with Ask => "Ask" | Bid => "Bid" end.
Definition side_try_from (s : string) : option OrderSide :=
  if bool_decide (s = "Bid") then Some Bid
  else if bool_decide (s = "Ask") then Some Ask else None.
Definition order_type_try_from (s : string) : option OrderType :=
  if bool_decide (s = "LIMIT") then Some LIMIT
  else if bool_decide (s = "MARKET") then Some MARKET else None.
Definition status_try_from (s : string) : option OrderStatus :=
  if bool_decide (s = "OPEN") then Some OPEN
  else if bool_decide (s = "CLOSED") then Some CLOSED
  else if bool_decide (s = "CANCELLED") then Some CANCELLED else None.
Definition status_to_string (s : OrderStatus) : string :=
  match s with OPEN => "OPEN" | CLOSED => "CLOSED" | CANCELLED => "CANCELLED" end.

Section orders.
Context {D : Decimal} {C : Crypto}.

Record Order : Type := mkOrder {
  order_stid : Z;
  client_order_id : H256;
  avg_filled_price : dec;
  order_fee : dec;
  filled_quantity : dec;
  order_status : OrderStatus;
  order_id : H256;
  order_user : AccountId;
  order_main_account : AccountId;
  order_pair : TradingPair;
  order_side : OrderSide;
  order_type : OrderType;
  order_qty : dec;
  order_price : dec;
  quote_order_qty : dec;
  order_timestamp : Z;
  overall_unreserved_volume : dec;
  order_signature : Signature;
}.

#[export] Instance eta_Order : Eta Order := λ r, {|
  order_stid := order_stid r; client_order_id := client_order_id r;
  avg_filled_price := avg_filled_price r; order_fee := order_fee r;
  filled_quantity := filled_quantity r; order_status := order_status r;
  order_id := order_id r; order_user := order_user r;
  order_main_account := order_main_account r; order_pair := order_pair r;
  order_side := order_side r; order_type := order_type r; order_qty := order_qty r;
  order_price := order_price r; quote_order_qty := quote_order_qty r;
  order_timestamp := order_timestamp r;
  overall_unreserved_volume := overall_unreserved_volume r;
  order_signature := order_signature r;
|}.

Record Trade : Type := mkTrade {
  maker : Order;
  taker : Order;
  trade_price : dec;
  trade_amount : dec;
  trade_time : Z;
}.

Record AccountAsset : Type := mkAccountAsset { aa_main : AccountId; aa_asset : AssetId }.

(** The fields a trader signs. *)
Record OrderPayload : Type := mkOrderPayload {
  op_client_order_id : H256;
  op_user : AccountId;
  op_main_account : AccountId;
  op_pair : string;
  op_side : OrderSide;
  op_order_type : OrderType;
  op_quote_order_quantity : string;
  op_qty : string;
  op_price : string;
  op_timestamp : Z;
}.

(** [impl From<Order> for OrderPayload] *)
Definition order_payload (o : Order) : OrderPayload := {|
  op_client_order_id := client_order_id o;
  op_user := order_user o;
  op_main_account := order_main_account o;
  op_pair := pair_to_string (order_pair o);
  op_side := order_side o;
  op_order_type := order_type o;
  op_quote_order_quantity := dec_to_string (quote_order_qty o);
  op_qty := dec_to_string (order_qty o);
  op_price := dec_to_string (order_price o);
  op_timestamp := order_timestamp o;
|}.

(** [WithdrawPayloadCallByUser] and [WithdrawalRequest] *)
Record WithdrawPayload : Type := mkWithdrawPayload {
  wp_asset_id : AssetId;
  wp_amount : string;
  wp_timestamp : Z;
  wp_destination : option WithdrawalDestination;
}.

Record WithdrawalRequest : Type := mkWithdrawalRequest {
  wr_id : H160;
  wr_signature : Signature;
  wr_payload : WithdrawPayload;
  wr_main : AccountId;
  wr_proxy : AccountId;
}.

Inductive UserActions : Type :=
| TradeAction (ts : list Trade)
| Withdraw (r : WithdrawalRequest)
| BlockImport (blk : Z) (engine_messages : list (IngressMessages * EgressMessages))
    (prices : gmap (AssetId * AssetId) dec)
| Reset
| WithdrawV1 (r : WithdrawalRequest) (stid : Z)
| OneMinLMPReport (market : TradingPair) (total : dec) (scores : gmap AccountId dec).

Record UserActionBatch : Type := mkUserActionBatch {
  batch_actions : list UserActions;
  batch_stid : Z;
  batch_snapshot_id : Z;
  batch_signature : EcdsaSig;
}.

(** Serialised forms that are hashed or signed; [serde_json] may fail. *)
Class Wire := {
  enc_order_payload : OrderPayload → bytes;
  json_order_payload : OrderPayload → option string;
  enc_withdraw_payload : WithdrawPayload → bytes;
  json_withdraw_payload : WithdrawPayload → option string;
  enc_actions : list UserActions → bytes;
  enc_u64 : Z → bytes;
}.
Context {W : Wire}.

(** ** Signatures *)

(** [verify_extension_signature]: browser extensions sign the wrapped text. *)
Definition verify_extension_signature (sig : Signature) (payload : string)
    (account : AccountId) : bool :=
  sig_verify sig (bytes_of ("<Bytes>" +:+ payload +:+ "</Bytes>")) account.

Definition verify_signature (o : Order) : bool :=
  let payload := order_payload o in
  if sig_verify (order_signature o) (enc_order_payload payload) (order_user o) then true
  else match json_order_payload payload with
       | Some s => verify_extension_signature (order_signature o) s (order_main_account o)
       | None => false
       end.

(** [WithdrawalRequest::verify]: signed by the proxy, or by the main account
    through an extension. *)
Definition request_verify (r : WithdrawalRequest) : bool :=
  if sig_verify (wr_signature r) (enc_withdraw_payload (wr_payload r)) (wr_proxy r) then true
  else match json_withdraw_payload (wr_payload r) with
       | Some s => verify_extension_signature (wr_signature r) s (wr_main r)
       | None => false
       end.

Definition request_asset (r : WithdrawalRequest) : AssetId := wp_asset_id (wr_payload r).
Definition request_amount (r : WithdrawalRequest) : option dec :=
  dec_from_str (wp_amount (wr_payload r)).

(** [WithdrawalRequest::convert] *)
Definition request_convert (r : WithdrawalRequest) (stid : Z) : option Withdrawal :=
  amount ← request_amount r;
  Some {| wd_id := wr_id r; wd_main_account := wr_main r; wd_amount := amount;
          wd_asset := wp_asset_id (wr_payload r); wd_fees := dec_zero; wd_stid := stid;
          wd_destination := wp_destination (wr_payload r) |}.

(** [UserActionBatch::sign_data] and [verify] *)
Definition batch_sign_data (b : UserActionBatch) : H256 :=
  blake2_256 (enc_actions (batch_actions b) ++ enc_u64 (batch_stid b)
              ++ enc_u64 (batch_snapshot_id b)).
Definition batch_verify (b : UserActionBatch) (key : EcdsaPub) : bool :=
  match recover_prehashed (batch_signature b) (batch_sign_data b) with
  | None => false
  | Some recovered => bool_decide (recovered = key)
  end.

Definition trade_id (t : Trade) : H256 :=
  blake2_256 (vec_to_list (order_id (maker t)) ++ vec_to_list (order_id (taker t))).

(** ** Market rules

    [x.rem(y).is_zero()]; [None] is the panic of a zero divisor. *)
Definition rem_is_zero (x y : dec) : option bool := dec_is_zero <$> op_rem x y.

(** [b && rest], evaluating [rest] only when [b] holds. *)
Definition and_then (b : bool) (rest : option bool) : option bool :=
  if b then rest else Some false.

Definition verify_config (o : Order) (c : TradingPairConfig) : option bool :=
  let is_market_same :=
    bool_decide (base (order_pair o) = base_asset c)
    && bool_decide (quote (order_pair o) = quote_asset c) in
  let volume := saturating_mul (order_price o) (order_qty o) in
  match order_type o with
  | LIMIT =>
      and_then (is_market_same && (min_volume c <=? volume)%dec
                && (volume <=? max_volume c)%dec)
        (b ← rem_is_zero (order_price o) (price_tick_size c);
         and_then b (rem_is_zero (order_qty o) (qty_step_size c)))
  | MARKET =>
      if bool_decide (order_side o = Ask) then
        and_then is_market_same (rem_is_zero (order_qty o) (qty_step_size c))
      else
        and_then (is_market_same && (min_volume c <=? quote_order_qty o)%dec
                  && (quote_order_qty o <=? max_volume c)%dec)
          (rem_is_zero (quote_order_qty o) (price_tick_size c))
  end.

(** [Trade::verify]: both signatures, then both orders against the market. *)
Definition trade_verify (t : Trade) (c : TradingPairConfig) : option bool :=
  and_then (verify_signature (maker t) && verify_signature (taker t))
    (b ← verify_config (maker t) c;
     and_then b (verify_config (taker t) c)).

(** ** Balance movements of a trade

    The product is the panicking operator. *)
Definition trade_user (t : Trade) (is_maker : bool) : Order :=
  if is_maker then maker t else taker t.

Definition trade_credit (t : Trade) (is_maker : bool) : option (AccountAsset * dec) :=
  let user := trade_user t is_maker in
  match order_side user with
  | Ask =>
      v ← op_mul (trade_price t) (trade_amount t);
      Some (mkAccountAsset (order_main_account user) (quote (order_pair user)), v)
  | Bid =>
      Some (mkAccountAsset (order_main_account user) (base (order_pair user)), trade_amount t)
  end.

Definition trade_debit (t : Trade) (is_maker : bool) : option (AccountAsset * dec) :=
  let user := trade_user t is_maker in
  match order_side user with
  | Ask =>
      Some (mkAccountAsset (order_main_account user) (base (order_pair user)), trade_amount t)
  | Bid =>
      v ← op_mul (trade_price t) (trade_amount t);
      Some (mkAccountAsset (order_main_account user) (quote (order_pair user)), v)
  end.

(** ** Price-time priority

    [OrderKey::cmp]; comparing opposite sides trips an assertion. *)
Record OrderKey : Type := mkOrderKey { key_price : dec; key_timestamp : Z; key_side : OrderSide }.
Definition order_key (o : Order) : OrderKey :=
  mkOrderKey (order_price o) (order_timestamp o) (order_side o).

Definition order_key_cmp (a b : OrderKey) : option comparison :=
  if decide (key_side a = key_side b) then
    Some (if decide (key_side a = Bid) then
            match dec_cmp (key_price a) (key_price b) with
            | Lt => Lt
            | Eq => if key_timestamp a <? key_timestamp b then Gt else Lt
            | Gt => Gt
            end
          else
            match dec_cmp (key_price a) (key_price b) with
            | Lt => Gt
            | Eq => if key_timestamp a <? key_timestamp b then Gt else Lt
            | Gt => Lt
            end)
  else None.

(** [impl Ord for Order] repeats the comparison on the order itself. *)
Definition order_cmp (a b : Order) : option comparison :=
  if decide (order_side a = order_side b) then
    Some (if decide (order_side a = Bid) then
            match dec_cmp (order_price a) (order_price b) with
            | Lt => Lt
            | Eq => if order_timestamp a <? order_timestamp b then Gt else Lt
            | Gt => Gt
            end
          else
            match dec_cmp (order_price a) (order_price b) with
            | Lt => Gt
            | Eq => if order_timestamp a <? order_timestamp b then Gt else Lt
            | Gt => Lt
            end)
  else None.

(** ** Filling an order *)
Definition rounding_off (d : dec) : dec := round_dp_to_zero 9 d.

(** Returns whether the division succeeded; the filled quantity is updated
    in either case. *)
Definition update_avg_price_and_filled_qty (o : Order) (price amount : dec) : bool * Order :=
  let temp := saturating_mul (avg_filled_price o) (filled_quantity o) in
  let temp := saturating_add temp (saturating_mul amount price) in
  let o := o <| filled_quantity := saturating_add (filled_quantity o) amount |> in
  match checked_div temp (filled_quantity o) with
  | Some q => (true, o <| avg_filled_price := rounding_off q |>)
  | None => (false, o)
  end.

Definition available_volume (o : Order) (other_price : option dec) : dec :=
  if dec_is_zero (order_qty o) then
    rounding_off (saturating_sub (quote_order_qty o)
      (saturating_mul (avg_filled_price o) (filled_quantity o)))
  else if bool_decide (order_type o = MARKET) then
    rounding_off (saturating_mul (saturating_sub (order_qty o) (filled_quantity o))
      (default dec_zero other_price))
  else
    rounding_off (saturating_mul (saturating_sub (order_qty o) (filled_quantity o))
      (order_price o)).
End orders.

(** A concrete wire format, to evaluate the model: payloads are opaque. *)
Module RefWire.
Import RefDecimal RefCrypto.
#[export] Instance ref_wire : Wire (D := ref_decimal) (C := ref_crypto) := {|
  enc_order_payload _ := [];
  json_order_payload _ := None;
  enc_withdraw_payload _ := [];
  json_withdraw_payload _ := None;
  enc_actions _ := [];
  enc_u64 n := RefCodec.bits (encode n);
|}.

(** An order for [qty] at [price] of [acct n], signed by that account. *)
Definition order (n : N) (p : TradingPair) (side : OrderSide) (ty : OrderType)
    (qty price : rdec) (time : Z) : Order (D := ref_decimal) (C := ref_crypto) := {|
  order_stid := 0; client_order_id := H256_zero; avg_filled_price := (0, 0);
  order_fee := (0, 0); filled_quantity := (0, 0); order_status := OPEN;
  order_id := H256_zero; order_user := acct n; order_main_account := acct n;
  order_pair := p; order_side := side; order_type := ty; order_qty := qty;
  order_price := price; quote_order_qty := (0, 0); order_timestamp := time;
  overall_unreserved_volume := (0, 0); order_signature := acct n;
|}.
End RefWire.

(** ** Properties *)
Section order_properties.
Context {D : Decimal} {C : Crypto} {W : Wire}.

(** Price-time priority: the higher bid, or the lower ask, goes first; at the
    same price the earlier order does. *)
Definition has_priority (a b : Order) : Prop :=
  match order_side a with
  | Bid => units (order_price b) < units (order_price a)
  | Ask => units (order_price a) < units (order_price b)
  end
  ∨ units (order_price a) = units (order_price b)
    ∧ order_timestamp a < order_timestamp b.

Lemma order_cmp_side a b :
  order_side a = order_side b →
  (order_cmp a b = Some Gt ↔ has_priority a b) ∧ (order_cmp a b = Some Lt ↔ ¬ has_priority a b).
Proof.
  intros Hside. unfold order_cmp, has_priority, dec_cmp. rewrite decide_True by done.
  destruct (order_side a); cbn;
    destruct (Z.compare_spec (units (order_price a)) (units (order_price b)));
    destruct (Z.ltb_spec (order_timestamp a) (order_timestamp b));
    split; split; intros Hc; try discriminate; try done; try lia; tauto.
Qed.

(** On one side of the book [Ord::cmp] answers [Greater] exactly for the
    order with price-time priority and [Less] in every other case, so that a book
    sorted by it serves the best price first and equal prices first come first
    served; comparing opposite sides panics. *)
Theorem order_cmp_price_time a b :
  if decide (order_side a = order_side b)
  then (order_cmp a b = Some Gt ↔ has_priority a b)
       ∧ (order_cmp a b = Some Lt ↔ ¬ has_priority a b)
  else order_cmp a b = None.
Proof.
  case_decide; [by apply order_cmp_side|]. unfold order_cmp. by rewrite decide_False.
Qed.

(** The order of orders is not antisymmetric: two orders at the same price and
    time are each less than the other. *)
Theorem order_cmp_tie a b :
  order_side a = order_side b → units (order_price a) = units (order_price b) →
  order_timestamp a = order_timestamp b →
  order_cmp a b = Some Lt ∧ order_cmp b a = Some Lt.
Proof.
  intros Hs Hp Ht.
  split; (apply order_cmp_side; [congruence|]); unfold has_priority;
    [destruct (order_side a) | destruct (order_side b)]; lia.
Qed.

Lemma order_key_cmp_order a b :
  order_key_cmp (order_key a) (order_key b) = order_cmp a b.
Proof. reflexivity. Qed.

Lemma rem_is_zero_true `{!DecimalLaws} x y :
  units y ≠ 0 → rem_is_zero x y = Some (Z.rem (units x) (units y) =? 0).
Proof.
  intros Hy. unfold rem_is_zero. destruct (op_rem_exact x y Hy) as (r & -> & Hr).
  cbn. by rewrite dec_is_zero_units, Hr.
Qed.

Lemma and_then_true b r : and_then b r = Some true ↔ b = true ∧ r = Some true.
Proof. destruct b; cbn; naive_solver. Qed.

(** A limit order passes [verify_config] exactly when it is for the market,
    its volume lies between the configured bounds, and its price and quantity are
    multiples of the tick and step sizes. *)
Theorem verify_config_limit `{!DecimalLaws} o c :
  order_type o = LIMIT →
  units (price_tick_size c) ≠ 0 → units (qty_step_size c) ≠ 0 →
  verify_config o c = Some true ↔
    base (order_pair o) = base_asset c ∧ quote (order_pair o) = quote_asset c ∧
    units (min_volume c) ≤ units (saturating_mul (order_price o) (order_qty o))
      ≤ units (max_volume c) ∧
    (units (price_tick_size c) | units (order_price o)) ∧
    (units (qty_step_size c) | units (order_qty o)).
Proof.
  intros Ht Hp Hq. unfold verify_config. rewrite Ht, !rem_is_zero_true by done.
  cbn [mbind option_bind]. rewrite !and_then_true, !andb_true_iff, !bool_decide_eq_true.
  unfold dec_leb. rewrite !Z.leb_le, <- !Z.rem_divide by done.
  split; [intros (((? & ?) & ?) & [= Hd] & [= Hd']) | intros (? & ? & ? & -> & ->)].
  - apply Z.eqb_eq in Hd, Hd'. tauto.
  - tauto.
Qed.

(** In a trade between opposite sides of one market, what one party is credited
    is what the other is debited, asset and amount. *)
Lemma trade_zero_sum t (is_maker : bool) :
  order_side (taker t) = get_opposite (order_side (maker t)) →
  order_pair (taker t) = order_pair (maker t) →
  (λ p, (aa_asset p.1, p.2)) <$> trade_credit t is_maker =
  (λ p, (aa_asset p.1, p.2)) <$> trade_debit t (negb is_maker).
Proof.
  intros Hs Hp. unfold trade_credit, trade_debit, trade_user.
  destruct is_maker; cbn; rewrite Hs, Hp; destruct (order_side (maker t)); cbn;
    try done; by destruct (op_mul _ _).
Qed.
End order_properties.

Module OrdersExample.
Import RefDecimal RefCrypto RefWire.

Definition shop : TradingPair := {| base := Asset 1; quote := Polkadex |}.
Definition bid : Order := order 1 shop Bid LIMIT (10, 0) (2, 0) 5.

Lemma verify_config_limit_witness :
  verify_config bid (default_pair_config (Asset 1) Polkadex) = Some true ↔
    base (order_pair bid) = Asset 1 ∧ quote (order_pair bid) = Polkadex ∧
    units (min_volume (default_pair_config (Asset 1) Polkadex))
      ≤ units (saturating_mul (order_price bid) (order_qty bid))
      ≤ units (max_volume (default_pair_config (Asset 1) Polkadex)) ∧
    (units (price_tick_size (default_pair_config (Asset 1) Polkadex)) | units (order_price bid)) ∧
    (units (qty_step_size (default_pair_config (Asset 1) Polkadex)) | units (order_qty bid)).
Proof.
  apply (verify_config_limit bid (default_pair_config (Asset 1) Polkadex));
    [reflexivity|vm_compute; discriminate..].
Defined.

Lemma order_cmp_tie_witness : order_cmp bid bid = Some Lt ∧ order_cmp bid bid = Some Lt.
Proof. apply (order_cmp_tie bid bid); reflexivity. Defined.
End OrdersExample.
