(* ===== verification/Storage.v ===== *)
(** * Off-chain state

    [pallets/ocex/src/storage.rs]: the reference-counted node database that backs
    the trie, and [OffchainState], a write-back cache over the trie.  The trie
    itself ([trie_db::TrieDBMut]) is a package; [TrieDB] and [TrieLaws] state what
    the code uses of it. *)

From S2P Require Import Prelude Decimal Assets Types.

(** ** The node database *)
Module HashDb.
Section hashdb.
Context {C : Crypto}.

(** [i32] arithmetic wraps. *)
Definition wrap_i32 (x : Z) : Z := (x + 2 ^ 31) mod 2 ^ 32 - 2 ^ 31.

(** The persistent cells of the off-chain storage that [State] uses. *)
Record State : Type := mkState {
  hashed_null_cell : option H256;
  null_data_cell : option bytes;
  nodes : gmap bytes (bytes * Z);
}.

Definition KEY_PREFIX : bytes := bytes_of "offchain-ocex::".

Definition hashed_null_node (s : State) : H256 :=
  default (blake2_256 [x00]) (hashed_null_cell s).
Definition null_node_data (s : State) : bytes := default [x00] (null_data_cell s).

Definition derive_storage_key (key : bytes) : bytes := KEY_PREFIX ++ key.

Definition db_get (s : State) (key : bytes) : option (bytes * Z) :=
  nodes s !! derive_storage_key key.
Definition db_insert (s : State) (key : bytes) (v : bytes * Z) : State :=
  mkState (hashed_null_cell s) (null_data_cell s) (<[derive_storage_key key := v]> (nodes s)).

(** [hash_db::Prefix]: a slice and an optional last byte *)
Definition Prefix : Type := bytes * option byte.
Definition prefixed_key (key : H256) (prefix : Prefix) : bytes :=
  prefix.1 ++ match prefix.2 with Some b => [b] | None => [] end ++ vec_to_list key.

Definition get (s : State) (key : H256) (prefix : Prefix) : option bytes :=
  if bool_decide (key = hashed_null_node s) then Some (null_node_data s)
  else match db_get s (prefixed_key key prefix) with
       | Some (d, rc) => if 0 <? rc then Some d else None
       | None => None
       end.

Definition contains (s : State) (key : H256) (prefix : Prefix) : bool :=
  if bool_decide (key = hashed_null_node s) then true
  else match db_get s (prefixed_key key prefix) with
       | Some (_, rc) => 0 <? rc
       | None => false
       end.

Definition emplace (s : State) (key : H256) (prefix : Prefix) (value : bytes) : State :=
  if bool_decide (value = null_node_data s) then s
  else let k := prefixed_key key prefix in
       match db_get s k with
       | Some (old, rc) =>
           db_insert s k (if rc <=? 0 then value else old, wrap_i32 (rc + 1))
       | None => db_insert s k (value, 1)
       end.

Definition insert (s : State) (prefix : Prefix) (value : bytes) : H256 * State :=
  if bool_decide (value = null_node_data s) then (hashed_null_node s, s)
  else let key := blake2_256 value in (key, emplace s key prefix value).

Definition remove (s : State) (key : H256) (prefix : Prefix) : State :=
  if bool_decide (key = hashed_null_node s) then s
  else let k := prefixed_key key prefix in
       match db_get s k with
       | Some (v, rc) => db_insert s k (v, wrap_i32 (rc - 1))
       | None => db_insert s k ([], -1)
       end.

(** *** Reference counting *)

(** What a trie does to one node: [true] emplaces it, [false] removes it. *)
Definition node_op (key : H256) (prefix : Prefix) (value : bytes) (s : State) (b : bool) : State :=
  if b then emplace s key prefix value else remove s key prefix.

Definition count_ops (ops : list bool) : Z :=
  zsum (map (λ b : bool, if b then 1 else -1) ops).

Lemma wrap_i32_small x : - 2 ^ 31 ≤ x < 2 ^ 31 → wrap_i32 x = x.
Proof. intros Hx. unfold wrap_i32. rewrite Z.mod_small; lia. Qed.

Lemma db_get_insert s k v : db_get (db_insert s k v) k = Some v.
Proof. apply lookup_insert_eq. Qed.

Lemma node_op_cells key prefix value s b :
  hashed_null_cell (node_op key prefix value s b) = hashed_null_cell s ∧
  null_data_cell (node_op key prefix value s b) = null_data_cell s.
Proof.
  destruct b; unfold node_op, emplace, remove; case_bool_decide; try done;
    by destruct (db_get _ _) as [[]|].
Qed.

(** The entry of a node after some operations on it, from an absent entry. *)
Definition tracks (s : State) (k value : bytes) (n : Z) : Prop :=
  match db_get s k with
  | Some (d, rc) => rc = n ∧ (0 < n → d = value)
  | None => n = 0
  end.

Lemma node_op_tracks key prefix value s b n :
  key ≠ hashed_null_node s → value ≠ null_node_data s →
  - 2 ^ 30 ≤ n ≤ 2 ^ 30 →
  tracks s (prefixed_key key prefix) value n →
  tracks (node_op key prefix value s b) (prefixed_key key prefix) value
    (n + if b then 1 else -1).
Proof.
  intros Hk Hv Hn Ht. unfold tracks, node_op, emplace, remove in *.
  rewrite !bool_decide_eq_false_2 by done. revert Ht.
  destruct b, (db_get s (prefixed_key key prefix)) as [[d rc]|];
    rewrite db_get_insert; intros Ht.
  - destruct Ht as [-> Hd]. rewrite wrap_i32_small by lia. split; [done|].
    intros _. destruct (Z.leb_spec n 0); auto with lia.
  - split; [lia | done].
  - destruct Ht as [-> Hd]. rewrite wrap_i32_small by lia. split; [lia|].
    intros ?. apply Hd. lia.
  - split; lia.
Qed.

Lemma fold_tracks key prefix value ops s n :
  key ≠ hashed_null_node s → value ≠ null_node_data s →
  Z.abs n + Z.of_nat (length ops) ≤ 2 ^ 30 →
  tracks s (prefixed_key key prefix) value n →
  let s' := foldl (node_op key prefix value) s ops in
  tracks s' (prefixed_key key prefix) value (n + count_ops ops) ∧
  hashed_null_node s' = hashed_null_node s.
Proof.
  revert s n. induction ops as [|b ops IH]; intros s n Hk Hv Hn Ht; cbn [foldl].
  - unfold count_ops. cbn. by rewrite Z.add_0_r.
  - cbn [length] in Hn.
    pose proof (node_op_cells key prefix value s b) as [Hc1 Hc2].
    assert (hashed_null_node (node_op key prefix value s b) = hashed_null_node s) as He1
      by (unfold hashed_null_node; by rewrite Hc1).
    assert (null_node_data (node_op key prefix value s b) = null_node_data s) as He2
      by (unfold null_node_data; by rewrite Hc2).
    destruct (IH (node_op key prefix value s b) (n + if b then 1 else -1)) as [Ht' Hn'].
    + by rewrite He1.
    + by rewrite He2.
    + destruct b; lia.
    + apply node_op_tracks; [done..|lia|done].
    + split; [|by rewrite Hn', He1].
      unfold count_ops in *. cbn [map zsum]. by rewrite Z.add_assoc.
Qed.

(** The node database counts references: after any interleaving of [emplace]
    and [remove] of one node (fewer than 2^30 of them), the node can be read, and
    reads back as it was written, exactly when it was emplaced more often than
    removed; removals may run ahead of insertions. *)
Theorem hashdb_refcount s key prefix value ops :
  key ≠ hashed_null_node s → value ≠ null_node_data s →
  db_get s (prefixed_key key prefix) = None →
  Z.of_nat (length ops) ≤ 2 ^ 30 →
  get (foldl (node_op key prefix value) s ops) key prefix =
  (if 0 <? count_ops ops then Some value else None).
Proof.
  intros Hk Hv Hnone Hlen.
  destruct (fold_tracks key prefix value ops s 0) as [Ht He]; [done..|lia| |].
  { unfold tracks. by rewrite Hnone. }
  rewrite Z.add_0_l in Ht. unfold get. rewrite He, bool_decide_eq_false_2 by done.
  unfold tracks in Ht. destruct (db_get (foldl _ _ _) _) as [[d rc]|].
  - destruct Ht as [-> Hd]. destruct (Z.ltb_spec 0 (count_ops ops)); [|done].
    by rewrite Hd.
  - by rewrite Ht.
Qed.
End hashdb.

(** A node removed before it is inserted twice. *)
Lemma hashdb_refcount_witness :
  let s := mkState None None ∅ in
  get (C := RefCrypto.ref_crypto)
    (foldl (node_op (C := RefCrypto.ref_crypto) (vreplicate 32 x07) ([], None) [x05]) s
      [false; true; true]) (vreplicate 32 x07) ([], None) = Some [x05].
Proof.
  apply (hashdb_refcount (C := RefCrypto.ref_crypto) (mkState None None ∅) (vreplicate 32 x07)
    ([], None) [x05] [false; true; true]).
  - vm_compute. discriminate.
  - vm_compute. discriminate.
  - reflexivity.
  - vm_compute. discriminate.
Defined.
End HashDb.

(** ** The trie *)
Inductive TrieError : Type :=
| InvalidStateRoot | IncompleteDatabase | ValueAtIncompleteKey | DecoderError | InvalidHash.

Definition map_trie_error (e : TrieError) : string :=
  match e with
  | InvalidStateRoot => "Invalid State Root"
  | IncompleteDatabase => "Incomplete Database"
  | ValueAtIncompleteKey => "ValueAtIncompleteKey"
  | DecoderError => "DecoderError"
  | InvalidHash => "InvalidHash"
  end.

(** [TrieDBMut] over a node database. *)
Class TrieDB := {
  trie : Type;
  hashdb : Type;
  trie_new : hashdb → trie;
  trie_from_existing : hashdb → H256 → trie;
  trie_get : trie → bytes → res TrieError (option bytes);
  trie_insert : trie → bytes → bytes → res TrieError trie;
  trie_remove : trie → bytes → res TrieError trie;
  trie_commit : trie → trie;
  trie_root : trie → H256;
  trie_is_empty : trie → bool;
  (** the node database a trie leaves behind *)
  trie_db : trie → hashdb;
  (** the contents of a trie whose nodes are all present *)
  trie_view : trie → option (gmap bytes bytes);
}.

(** An intact trie behaves as a finite map from keys to non-empty values; its
    root depends on the contents alone, and a committed trie can be reopened at
    its root. *)
Class TrieLaws `{TrieDB} : Prop := {
  trie_new_view db : trie_view (trie_new db) = Some ∅;
  trie_get_view t m k : trie_view t = Some m → trie_get t k = Ok (m !! k);
  trie_insert_view t m k v : trie_view t = Some m → v ≠ [] →
    ∃ t', trie_insert t k v = Ok t' ∧ trie_view t' = Some (<[k:=v]> m);
  trie_remove_view t m k : trie_view t = Some m →
    ∃ t', trie_remove t k = Ok t' ∧ trie_view t' = Some (delete k m);
  trie_commit_view t : trie_view (trie_commit t) = trie_view t;
  trie_root_canonical t t' m : trie_view t = Some m → trie_view t' = Some m →
    trie_root (trie_commit t) = trie_root (trie_commit t');
  trie_root_nonzero t : trie_root (trie_commit t) ≠ H256_zero;
  trie_reopen t m : trie_view t = Some m →
    trie_view (trie_from_existing (trie_db (trie_commit t)) (trie_root (trie_commit t)))
    = Some m;
}.

(** [get_state_trie] *)
Definition get_state_trie `{TrieDB} (db : hashdb) (root : H256) : trie :=
  if bool_decide (root = H256_zero) then trie_new db else trie_from_existing db root.

(** A concrete trie: the contents themselves.  The root is a digest of the
    contents with a non-zero first byte, and the node database is the contents
    last committed. *)
Module RefTrie.
Fixpoint digest (p : positive) : Z :=
  match p with
  | xH => 1
  | xO p => (3 * digest p) mod 256
  | xI p => (5 * digest p + 1) mod 256
  end.
Definition ref_root (m : gmap bytes bytes) : H256 :=
  x01 ::: vreplicate 31 (default x00 (Byte.of_N (Z.to_N (digest (encode m))))).

#[export] Instance ref_trie : TrieDB := {|
  trie := option (gmap bytes bytes);
  hashdb := gmap bytes bytes;
  trie_new _ := Some ∅;
  trie_from_existing db root := if bool_decide (root = ref_root db) then Some db else None;
  trie_get t k := match t with Some m => Ok (m !! k) | None => Err IncompleteDatabase end;
  trie_insert t k v :=
    match t with
    | Some m => Ok (Some (match v with [] => delete k m | _ => <[k:=v]> m end))
    | None => Err IncompleteDatabase
    end;
  trie_remove t k :=
    match t with Some m => Ok (Some (delete k m)) | None => Err IncompleteDatabase end;
  trie_commit t := t;
  trie_root t := ref_root (default ∅ t);
  trie_is_empty t := bool_decide (t = Some ∅);
  trie_db t := default ∅ t;
  trie_view t := t;
|}.

#[export] Instance ref_trie_laws : TrieLaws.
Proof.
  split; cbn.
  - done.
  - by intros t m k ->.
  - intros t m k v -> Hv. destruct v; [done|]. eauto.
  - intros t m k ->. eauto.
  - done.
  - by intros t t' m -> ->.
  - intros t Heq. discriminate (f_equal Vector.hd Heq).
  - intros t m ->. cbn. by rewrite bool_decide_true.
Qed.
End RefTrie.

(** ** The write-back cache *)
#[global] Instance bytes_btree_key : BTreeKey bytes := bytes_leb.

Section offchain_state.
Context {T : TrieDB}.

Record OffchainState : Type := mkOffchainState {
  cache : gmap bytes bytes;
  state_trie : trie;
  keys_to_remove : gset bytes;
}.

#[export] Instance eta_OffchainState : Eta OffchainState := λ r, {|
  cache := cache r;
  state_trie := state_trie r;
  keys_to_remove := keys_to_remove r;
|}.

(** Computations that work on the off-chain state; errors are [&'static str]. *)
#[local] Abbreviation OS := (M OffchainState string).

Definition lift_trie {A} (r : res TrieError A) : res string A :=
  match r with Ok a => Ok a | Err e => Err (map_trie_error e) | Panic => Panic end.

Definition os_load (db : hashdb) (root : H256) : OffchainState :=
  mkOffchainState ∅ (get_state_trie db root) ∅.

Definition os_is_empty (s : OffchainState) : bool :=
  bool_decide (cache s = ∅) && trie_is_empty (state_trie s).

Definition os_get (key : bytes) : OS (option bytes) :=
  s ← get_state;
  match cache s !! key with
  | Some value => mret (Some value)
  | None =>
      o ← lift (lift_trie (trie_get (state_trie s) key));
      match o with
      | None => mret None
      | Some value =>
          modify (λ s, s <| cache ::= <[key:=value]> |>);;
          mret (Some value)
      end
  end.

Definition os_insert (key value : bytes) : OS unit :=
  modify (λ s, s <| keys_to_remove ::= (.∖ {[key]}) |> <| cache ::= <[key:=value]> |>).

Definition os_remove (key : bytes) : OS unit :=
  modify (λ s, s <| cache ::= delete key |> <| keys_to_remove ::= ({[key]} ∪.) |>).

Definition trie_update (f : trie → res TrieError trie) : OS unit :=
  t ← gets state_trie;
  t' ← lift (lift_trie (f t));
  modify (λ s, s <| state_trie := t' |>).

Definition os_commit : OS H256 :=
  s ← get_state;
  for_each (btree_to_list (cache s)) (λ kv, trie_update (λ t, trie_insert t kv.1 kv.2));;
  for_each (btree_elements (keys_to_remove s)) (λ k, trie_update (λ t, trie_remove t k));;
  modify (λ s, s <| cache := ∅ |> <| keys_to_remove := ∅ |>);;
  modify (λ s, s <| state_trie ::= trie_commit |>);;
  gets (λ s, trie_root (state_trie s)).

(** [load_trie_root] and [store_trie_root] on the persistent cell [TRIE_ROOT];
    an unreadable cell counts as absent. *)
Definition load_trie_root `{Codec H256} (cell : option bytes) : H256 :=
  match cell with
  | Some raw => default H256_zero (scale_decode raw)
  | None => H256_zero
  end.
Definition store_trie_root `{Codec H256} (root : H256) : option bytes :=
  Some (scale_encode root).
End offchain_state.

#[global] Arguments OffchainState {T}.
Abbreviation OS := (M OffchainState string).

(** ** The cache is transparent

    Against an intact trie with contents [m], the state answers reads from
    [contents s m], and a commit makes [committed s m] the contents of the trie. *)
Section cache_theory.
Context {T : TrieDB} {TL : TrieLaws}.
Implicit Types (s : OffchainState) (m : gmap bytes bytes).

Definition contents s m : gmap bytes bytes := cache s ∪ m.
Definition committed s m : gmap bytes bytes :=
  filter (λ kv, kv.1 ∉ keys_to_remove s) (contents s m).

Lemma os_get_spec s m key :
  trie_view (state_trie s) = Some m →
  ∃ s', os_get key s = (Ok (contents s m !! key), s')
    ∧ contents s' m = contents s m
    ∧ state_trie s' = state_trie s ∧ keys_to_remove s' = keys_to_remove s.
Proof.
  intros Hm. unfold os_get, contents. mrun.
  destruct (cache s !! key) as [v|] eqn:Hc.
  - exists s. by rewrite (lookup_union_Some_l _ _ _ _ Hc).
  - rewrite (trie_get_view _ _ key Hm). rewrite lookup_union_r by done. cbn.
    destruct (m !! key) as [v|] eqn:Hk; eexists; (split; [done|]); cbn; [|done].
    split; [|done]. rewrite <- insert_union_l, insert_union_r by done.
    f_equal. by apply insert_id.
Qed.

Lemma os_insert_spec s m key v :
  ∃ s', os_insert key v s = (Ok tt, s')
    ∧ contents s' m = <[key:=v]> (contents s m)
    ∧ state_trie s' = state_trie s
    ∧ keys_to_remove s' = keys_to_remove s ∖ {[key]}.
Proof. eexists. split; [done|]. cbn. split; [|done]. symmetry. apply insert_union_l. Qed.

Lemma trie_update_insert s m k v :
  trie_view (state_trie s) = Some m → v ≠ [] →
  ∃ t', trie_update (λ t, trie_insert t k v) s = (Ok tt, s <| state_trie := t' |>)
    ∧ trie_view t' = Some (<[k:=v]> m).
Proof.
  intros Hm Hv. destruct (trie_insert_view _ _ k v Hm Hv) as (t' & Ht & Hview).
  exists t'. split; [|done]. unfold trie_update. mrun. by rewrite Ht.
Qed.

Lemma trie_update_remove s m k :
  trie_view (state_trie s) = Some m →
  ∃ t', trie_update (λ t, trie_remove t k) s = (Ok tt, s <| state_trie := t' |>)
    ∧ trie_view t' = Some (delete k m).
Proof.
  intros Hm. destruct (trie_remove_view _ _ k Hm) as (t' & Ht & Hview).
  exists t'. split; [|done]. unfold trie_update. mrun. by rewrite Ht.
Qed.

Lemma write_all (l : list (bytes * bytes)) s m :
  trie_view (state_trie s) = Some m → NoDup l.*1 → Forall (λ kv, kv.2 ≠ []) l →
  ∃ t', for_each l (λ kv, trie_update (λ t, trie_insert t kv.1 kv.2)) s
        = (Ok tt, s <| state_trie := t' |>)
    ∧ trie_view t' = Some (list_to_map l ∪ m).
Proof.
  revert s m. induction l as [|[k v] l IH]; intros s m Hm Hnd Hne; cbn.
  - exists (state_trie s). split; [by destruct s|]. by rewrite left_id_L by apply _.
  - apply NoDup_cons in Hnd as [Hk Hnd]. apply Forall_cons in Hne as [Hv Hne].
    destruct (trie_update_insert s m k v Hm Hv) as (t1 & Hrun & H1).
    destruct (IH (s <| state_trie := t1 |>) (<[k:=v]> m)) as (t' & Hrest & H'); [done..|].
    exists t'. split; [by rewrite bind_run, Hrun|].
    rewrite H'. f_equal. rewrite <- insert_union_l, <- insert_union_r; [done|].
    by apply not_elem_of_list_to_map_1.
Qed.

Lemma remove_all (l : list bytes) s m :
  trie_view (state_trie s) = Some m →
  ∃ t', for_each l (λ k, trie_update (λ t, trie_remove t k)) s
        = (Ok tt, s <| state_trie := t' |>)
    ∧ trie_view t' = Some (filter (λ kv, kv.1 ∉ l) m).
Proof.
  revert s m. induction l as [|k l IH]; intros s m Hm; cbn.
  - exists (state_trie s). split; [by destruct s|]. rewrite Hm. f_equal. symmetry.
    apply map_filter_id. intros. apply not_elem_of_nil.
  - destruct (trie_update_remove s m k Hm) as (t1 & Hrun & H1).
    destruct (IH (s <| state_trie := t1 |>) (delete k m)) as (t' & Hrest & H'); [done|].
    exists t'. split; [by rewrite bind_run, Hrun|].
    rewrite H'. f_equal. apply map_eq. intros i. apply option_eq. intros v.
    rewrite !map_lookup_filter_Some, lookup_delete_Some. cbn.
    rewrite not_elem_of_cons. naive_solver.
Qed.

Lemma os_commit_spec s m :
  trie_view (state_trie s) = Some m →
  map_Forall (λ _ v, v ≠ []) (cache s) →
  ∃ t', os_commit s = (Ok (trie_root (trie_commit t')), mkOffchainState ∅ (trie_commit t') ∅)
    ∧ trie_view t' = Some (committed s m).
Proof.
  intros Hm Hne.
  destruct (write_all (btree_to_list (cache s)) s m Hm) as (t1 & Hw & H1).
  { apply btree_to_list_NoDup_keys. }
  { apply Forall_forall. intros [k v] Hin. apply elem_of_btree_to_list in Hin.
    by apply (Hne k v). }
  destruct (remove_all (btree_elements (keys_to_remove s)) (s <| state_trie := t1 |>)
              (list_to_map (btree_to_list (cache s)) ∪ m)) as (t' & Hr & H'); [done|].
  exists t'. split.
  - unfold os_commit. rewrite bind_run. cbn [get_state].
    by rewrite bind_run, Hw, bind_run, Hr.
  - rewrite H'. f_equal. unfold committed, contents.
    rewrite (list_to_map_proper _ (map_to_list (cache s))), list_to_map_to_list;
      [|apply btree_to_list_NoDup_keys | apply btree_to_list_perm].
    apply map_filter_ext. intros i v _. cbn. by rewrite elem_of_btree_elements.
Qed.

(** [s] holds the contents [c]: what the components above this one rely on. *)
Definition holds s (c : gmap bytes bytes) : Prop :=
  ∃ m, trie_view (state_trie s) = Some m ∧ contents s m = c.

Lemma os_get_holds s c key :
  holds s c → ∃ s', os_get key s = (Ok (c !! key), s') ∧ holds s' c.
Proof.
  intros (m & Hm & <-). destruct (os_get_spec s m key Hm) as (s' & Hrun & Hc & Ht & _).
  exists s'. split; [done|]. exists m. by rewrite Ht.
Qed.

Lemma os_insert_holds s c key v :
  holds s c → ∃ s', os_insert key v s = (Ok tt, s') ∧ holds s' (<[key:=v]> c).
Proof.
  intros (m & Hm & <-). destruct (os_insert_spec s m key v) as (s' & Hrun & Hc & Ht & _).
  exists s'. split; [done|]. exists m. by rewrite Ht.
Qed.

Lemma holds_inj s c c' : holds s c → holds s c' → c = c'.
Proof. intros (m & Hm & <-) (m' & Hm' & <-). congruence. Qed.

(** *** Refinement of a plain map

    A client is a sequence of operations; its specification is a finite map. *)
Inductive os_op : Type :=
| OpGet (k : bytes)
| OpInsert (k v : bytes)
| OpRemove (k : bytes).

Fixpoint run_ops (l : list os_op) : OS (list (option bytes)) :=
  match l with
  | [] => mret []
  | OpGet k :: l' => o ← os_get k; os ← run_ops l'; mret (o :: os)
  | OpInsert k v :: l' => os_insert k v ;; run_ops l'
  | OpRemove k :: l' => os_remove k ;; run_ops l'
  end.

Fixpoint spec_ops (l : list os_op) (m : gmap bytes bytes) :
    list (option bytes) * gmap bytes bytes :=
  match l with
  | [] => ([], m)
  | OpGet k :: l' => let '(os, m') := spec_ops l' m in (m !! k :: os, m')
  | OpInsert k v :: l' => spec_ops l' (<[k:=v]> m)
  | OpRemove k :: l' => spec_ops l' (delete k m)
  end.

(** The client writes no empty value and reads no key it has removed since its
    last write of that key; [rem] are the keys removed so far. *)
Fixpoint disciplined (rem : gset bytes) (l : list os_op) : bool :=
  match l with
  | [] => true
  | OpGet k :: l' => bool_decide (k ∉ rem) && disciplined rem l'
  | OpInsert k v :: l' => bool_decide (v ≠ []) && disciplined (rem ∖ {[k]}) l'
  | OpRemove k :: l' => disciplined ({[k]} ∪ rem) l'
  end.

Definition os_wf s m : Prop :=
  trie_view (state_trie s) = Some m ∧ map_Forall (λ _ v, v ≠ []) (cache s)
  ∧ map_Forall (λ _ v, v ≠ []) m.

Lemma committed_lookup s m k :
  k ∉ keys_to_remove s → committed s m !! k = contents s m !! k.
Proof.
  intros Hk. unfold committed. rewrite map_lookup_filter.
  destruct (contents s m !! k); cbn; [|done]. by rewrite option_guard_True.
Qed.

Lemma os_get_wf s m k :
  os_wf s m →
  ∃ s', os_get k s = (Ok (contents s m !! k), s') ∧ os_wf s' m
    ∧ committed s' m = committed s m ∧ keys_to_remove s' = keys_to_remove s.
Proof.
  intros (Hm & Hc & Hv). destruct (os_get_spec s m k Hm) as (s' & Hrun & Hco & Ht & Hr).
  exists s'. split; [done|]. unfold committed. rewrite Hr, Hco. split; [|done].
  split; [congruence|]. split; [|done].
  intros i v Hi. assert (contents s m !! i = Some v) as Hiv.
  { rewrite <- Hco. by apply lookup_union_Some_l. }
  unfold contents in Hiv. apply lookup_union_Some_raw in Hiv as [?|[_ ?]]; [by apply (Hc i)|].
  by apply (Hv i).
Qed.

Lemma os_insert_wf s m k v :
  os_wf s m → v ≠ [] →
  ∃ s', os_insert k v s = (Ok tt, s') ∧ os_wf s' m
    ∧ committed s' m = <[k:=v]> (committed s m)
    ∧ keys_to_remove s' = keys_to_remove s ∖ {[k]}.
Proof.
  intros (Hm & Hc & Hv) Hne. destruct (os_insert_spec s m k v) as (s' & Hrun & Hco & Ht & Hr).
  exists s'. split; [done|]. split; [|split; [|done]].
  - split; [congruence|]. split; [|done].
    injection Hrun as <-. cbn. by apply map_Forall_insert_2.
  - apply map_eq. intros i. unfold committed. rewrite map_lookup_filter, Hr, Hco.
    destruct (decide (i = k)) as [->|Hik].
    + rewrite !lookup_insert_eq. cbn. rewrite option_guard_True; [done|set_solver].
    + rewrite !lookup_insert_ne, map_lookup_filter by done.
      destruct (contents s m !! i); [|done]. cbn.
      apply option_guard_iff. set_solver.
Qed.

Lemma os_remove_wf s m k :
  os_wf s m →
  ∃ s', os_remove k s = (Ok tt, s') ∧ os_wf s' m
    ∧ committed s' m = delete k (committed s m)
    ∧ keys_to_remove s' = {[k]} ∪ keys_to_remove s.
Proof.
  intros (Hm & Hc & Hv). eexists. split; [done|]. split; [|split; [|done]].
  - split; [done|]. split; [|done]. by apply map_Forall_delete.
  - apply map_eq. intros i. unfold committed, contents. rewrite map_lookup_filter. cbn.
    destruct (decide (i = k)) as [->|Hik].
    + rewrite lookup_delete_eq. destruct ((delete k (cache s) ∪ m) !! k); [|done]. cbn.
      by rewrite option_guard_False by set_solver.
    + rewrite lookup_delete_ne, map_lookup_filter, !lookup_union, lookup_delete_ne by done.
      destruct (union (cache s !! i) (m !! i)); [|done]. cbn. apply option_guard_iff. set_solver.
Qed.

Lemma run_ops_spec l s m :
  os_wf s m → disciplined (keys_to_remove s) l →
  ∃ s', run_ops l s = (Ok (spec_ops l (committed s m)).1, s') ∧ os_wf s' m
    ∧ committed s' m = (spec_ops l (committed s m)).2.
Proof.
  revert s. induction l as [|[k|k v|k] l IH]; intros s Hwf Hd; cbn in *.
  - by exists s.
  - apply andb_True in Hd as [Hk Hd]. apply bool_decide_spec in Hk.
    destruct (os_get_wf s m k Hwf) as (s1 & Hrun & Hwf1 & Hc1 & Hr1).
    destruct (IH s1 Hwf1) as (s' & Hrest & Hwf' & Hc'); [by rewrite Hr1|].
    exists s'. rewrite (bind_ok _ _ _ _ _ _ Hrun eq_refl), (bind_ok _ _ _ _ _ _ Hrest eq_refl).
    rewrite Hc', Hc1, committed_lookup by done.
    by destruct (spec_ops l (committed s m)).
  - apply andb_True in Hd as [Hv Hd]. apply bool_decide_spec in Hv.
    destruct (os_insert_wf s m k v Hwf Hv) as (s1 & Hrun & Hwf1 & Hc1 & Hr1).
    destruct (IH s1 Hwf1) as (s' & Hrest & Hwf' & Hc'); [by rewrite Hr1|].
    exists s'. rewrite (bind_ok _ _ _ _ _ _ Hrun eq_refl). by rewrite Hrest, Hc', Hc1.
  - destruct (os_remove_wf s m k Hwf) as (s1 & Hrun & Hwf1 & Hc1 & Hr1).
    destruct (IH s1 Hwf1) as (s' & Hrest & Hwf' & Hc'); [by rewrite Hr1|].
    exists s'. rewrite (bind_ok _ _ _ _ _ _ Hrun eq_refl). by rewrite Hrest, Hc', Hc1.
Qed.

Lemma os_load_wf db root m :
  trie_view (get_state_trie db root) = Some m → map_Forall (λ _ v, v ≠ []) m →
  os_wf (os_load db root) m ∧ committed (os_load db root) m = m.
Proof.
  intros Hm Hne. split; [split; [done|split; [apply map_Forall_empty|done]]|].
  unfold committed, contents. cbn. rewrite left_id_L by apply _.
  apply map_filter_id. set_solver.
Qed.

(** C13: a client that loads the state, runs any disciplined sequence of reads,
    writes and removals and commits, sees exactly the answers of a plain map, and
    whoever reloads the state at the root that the commit returned finds exactly
    the final contents of that map. *)
Theorem offchain_state_refines_map db root m l :
  trie_view (get_state_trie db root) = Some m →
  map_Forall (λ _ v, v ≠ []) m →
  disciplined ∅ l →
  ∃ s1 s2 root',
    run_ops l (os_load db root) = (Ok (spec_ops l m).1, s1)
    ∧ os_commit s1 = (Ok root', s2)
    ∧ root' ≠ H256_zero
    ∧ ∀ k, fst (os_get k (os_load (trie_db (state_trie s2)) root'))
           = Ok ((spec_ops l m).2 !! k).
Proof.
  intros Hm Hne Hd. destruct (os_load_wf db root m Hm Hne) as [Hwf Hc].
  destruct (run_ops_spec l (os_load db root) m Hwf Hd) as (s1 & Hrun & Hwf1 & Hc1).
  rewrite Hc in Hrun, Hc1. destruct Hwf1 as (Hm1 & Hcv & _).
  destruct (os_commit_spec s1 m Hm1 Hcv) as (t' & Hcommit & Hview).
  eexists s1, _, _. split; [done|]. split; [done|]. split; [apply trie_root_nonzero|].
  intros k. cbn. rewrite Hc1 in Hview. apply trie_reopen in Hview.
  assert (trie_view (get_state_trie (trie_db (trie_commit t')) (trie_root (trie_commit t')))
          = Some (spec_ops l m).2) as Hload.
  { unfold get_state_trie. by rewrite bool_decide_false by apply trie_root_nonzero. }
  destruct (os_get_spec (os_load _ _) _ k Hload) as (s' & -> & _).
  unfold contents. cbn. by rewrite left_id_L by apply _.
Qed.

(** A removed key that is in the trie can still be read before the commit: the
    lookup finds no cached value and falls through to the trie. *)
Theorem removed_key_is_read_back s m k v :
  trie_view (state_trie s) = Some m → m !! k = Some v →
  (os_remove k ;; os_get k) s
  = (Ok (Some v), s <| cache := <[k := v]> (delete k (cache s)) |>
                    <| keys_to_remove ::= ({[k]} ∪.) |>).
Proof.
  intros Hm Hk. unfold os_remove, os_get. mrun. cbn. rewrite lookup_delete_eq.
  rewrite (trie_get_view _ _ k Hm), Hk. by mrun.
Qed.
End cache_theory.

Lemma offchain_state_refines_map_witness :
  let ops := [OpInsert [x01] [x02]; OpGet [x01]; OpInsert [x03] [x04]; OpRemove [x01]] in
  ∃ s1 s2 root',
    run_ops (T := RefTrie.ref_trie) ops (os_load ∅ H256_zero) = (Ok (spec_ops ops ∅).1, s1)
    ∧ os_commit s1 = (Ok root', s2)
    ∧ root' ≠ H256_zero
    ∧ ∀ k, fst (os_get k (os_load (trie_db (state_trie s2)) root'))
           = Ok ((spec_ops ops ∅).2 !! k).
Proof.
  apply (offchain_state_refines_map (TL := RefTrie.ref_trie_laws) ∅ H256_zero ∅
    [OpInsert [x01] [x02]; OpGet [x01]; OpInsert [x03] [x04]; OpRemove [x01]]).
  - reflexivity.
  - apply map_Forall_empty.
  - vm_compute. exact I.
Defined.

Lemma removed_key_is_read_back_witness :
  let s := mkOffchainState (T := RefTrie.ref_trie) ∅ (Some {[ [x01] := [x02] ]}) ∅ in
  ∃ s', (os_remove [x01] ;; os_get [x01]) s = (Ok (Some [x02]), s').
Proof.
  eexists. apply (removed_key_is_read_back (TL := RefTrie.ref_trie_laws)
    (mkOffchainState (T := RefTrie.ref_trie) ∅ (Some {[ [x01] := [x02] ]}) ∅)
    {[ [x01] := [x02] ]} [x01] [x02]).
  - reflexivity.
  - exact (lookup_singleton_eq (M := gmap bytes) [x01] [x02]).
Defined.
