(* ===== verification/Settlement.v ===== *)
(** * Settlement of trades

    [pallets/ocex/src/settlement.rs]: balances of the order book, kept in the
    off-chain state as one encoded map of decimals per main account, and the
    settlement of a trade on them. *)

From S2P Require Import Prelude Decimal Assets Types Orders Storage.

Section settlement.
Context {D : Decimal} {C : Crypto} {W : Wire} {T : TrieDB}.
Context {BC : Codec (gmap AssetId dec)}.

Definition FEE_POT_PALLET_ID : bytes := bytes_of "ocexfees".
Definition pot_account : AccountId := into_account_truncating FEE_POT_PALLET_ID.

(** [BTreeMap::decode(..).map_err(|_| e)?] *)
Definition decode_balances (raw : bytes) (e : string) : OS (gmap AssetId dec) :=
  ok_or (scale_decode raw) e.

Definition get_balance (account : AccountId) (asset : AssetId) : OS dec :=
  o ← os_get (to_raw_vec account);
  balances ← match o with
             | None => mret ∅
             | Some encoded => decode_balances encoded "Unable to decode balances for account"
             end;
  mret (default dec_zero (balances !! asset)).

Definition add_balance (account : AccountId) (asset : AssetId) (balance : dec) : OS unit :=
  o ← os_get (to_raw_vec account);
  balances ← match o with
             | None => mret ∅
             | Some encoded => decode_balances encoded "Unable to decode balances for account"
             end;
  let entry := match balances !! asset with
               | Some total => rounding_off (saturating_add total balance)
               | None => balance
               end in
  os_insert (to_raw_vec account) (scale_encode (<[asset:=entry]> balances)).

Definition sub_balance (account : AccountId) (asset : AssetId) (balance : dec)
    (is_withdrawal : bool) : OS dec :=
  o ← os_get (to_raw_vec account);
  balances ← match o with
             | None => fail "Account not found in trie"
             | Some encoded => decode_balances encoded "Unable to decode balances for account"
             end;
  account_balance ← ok_or (balances !! asset) "NotEnoughBalance: zero balance";
  balance ←
    (if (account_balance <? balance)%dec then
       if is_withdrawal then
         deviation ← lift (unwrap (op_sub balance account_balance));
         mret account_balance
       else fail "NotEnoughBalance"
     else mret balance);
  let account_balance := rounding_off (saturating_sub account_balance balance) in
  os_insert (to_raw_vec account) (scale_encode (<[asset:=account_balance]> balances)) ;;
  mret balance.

(** One party of a trade: credit less fees, the fees to the pot, then the debit. *)
Definition settle_party (trade : Trade) (is_maker : bool) (fraction : dec) : OS dec :=
  '(credit_asset, credit) ← lift (unwrap (trade_credit trade is_maker));
  let fees := saturating_mul credit fraction in
  let credit := saturating_sub credit fees in
  add_balance (aa_main credit_asset) (aa_asset credit_asset) credit ;;
  add_balance pot_account (aa_asset credit_asset) fees ;;
  '(debit_asset, debit) ← lift (unwrap (trade_debit trade is_maker));
  sub_balance (aa_main debit_asset) (aa_asset debit_asset) debit false ;;
  mret fees.

Definition process_trade (trade : Trade) (config : TradingPairConfig)
    (maker_fees taker_fees : FeeConfig) : OS unit :=
  ok ← lift (unwrap (trade_verify trade config));
  ensure ok "InvalidTrade" ;;
  settle_party trade true (maker_fraction maker_fees) ;;
  settle_party trade false (taker_fraction taker_fees) ;;
  mret tt.
End settlement.

(** ** The ledger behind the encoded balances

    A balance is read in units of [10^-28].  Ledgers are kept on a grain of twelve
    decimals, the precision of the chain: every amount that enters the book is on
    the grain, and so is every fee on an amount of nine decimals. *)
Definition GRAIN : Z := 10 ^ 16.
Definition LOT : Z := 10 ^ 19.
Definition MAX_UNITS : Z := 2 ^ 96 * GRAIN.

Definition on_grain (u : Z) : Prop := 0 ≤ u ∧ (GRAIN | u).

(** Truncation to nine decimals, as [rounding_off] does. *)
Definition trunc9 (u : Z) : Z := Z.quot u LOT * LOT.

Lemma trunc9_bounds u : 0 ≤ u → u - LOT < trunc9 u ≤ u.
Proof.
  intros Hu. unfold trunc9. rewrite Z.quot_div_nonneg by (unfold LOT; lia).
  pose proof (Z.div_mod u LOT). pose proof (Z.mod_pos_bound u LOT).
  unfold LOT in *. lia.
Qed.

Lemma lot_on_grain u : (LOT | u) → (GRAIN | u).
Proof. intros [q ->]. exists (q * 1000). unfold LOT, GRAIN. lia. Qed.

Lemma trunc9_grain u : 0 ≤ u → on_grain (trunc9 u).
Proof.
  intros Hu. split.
  - unfold trunc9. rewrite Z.quot_div_nonneg by (unfold LOT; lia).
    apply Z.mul_nonneg_nonneg; [apply Z.div_pos|]; unfold LOT; lia.
  - apply lot_on_grain. by exists (Z.quot u LOT).
Qed.

Lemma grain_representable u : (GRAIN | u) → - MAX_UNITS < u < MAX_UNITS → representable u.
Proof.
  intros Hd Hb. apply (representable_aligned 16); [lia|done|].
  unfold MAX_UNITS, GRAIN in Hb. lia.
Qed.

Section ledger.
Context {D : Decimal} {DL : DecimalLaws}.
Context {BC : Codec (gmap AssetId dec)} {BL : CodecLaws (gmap AssetId dec)}.
Implicit Types c : gmap bytes bytes.

Definition balances_at (o : option bytes) : gmap AssetId dec :=
  match o with Some raw => default ∅ (scale_decode raw) | None => ∅ end.
Definition account_map c (a : AccountId) : gmap AssetId dec := balances_at (c !! to_raw_vec a).

(** The recorded balance, if any, and the balance it stands for. *)
Definition entry c (a : AccountId) (x : AssetId) : option Z := units <$> account_map c a !! x.
Definition bal c (a : AccountId) (x : AssetId) : Z := default 0 (entry c a x).

(** Every account key holds a readable map of balances on the grain. *)
Definition ledger_wf c : Prop :=
  ∀ k raw, length k = 32%nat → c !! k = Some raw →
    ∃ b, scale_decode raw = Some b ∧ map_Forall (λ _ d, on_grain (units d)) b.

(** The liabilities of the book in one asset. *)
Definition total c (x : AssetId) : Z :=
  map_total (λ raw, from_option units 0 (balances_at (Some raw) !! x))
    (filter (λ kv, length kv.1 = 32%nat) c).

(** The ledger after account [a] gets the recorded balance [d] in asset [x]. *)
Definition write c (a : AccountId) (x : AssetId) (d : dec) : gmap bytes bytes :=
  <[to_raw_vec a := scale_encode (<[x:=d]> (account_map c a))]> c.

Lemma write_account_map c a x d a' :
  account_map (write c a x d) a' =
  if decide (a' = a) then <[x:=d]> (account_map c a) else account_map c a'.
Proof.
  unfold account_map at 1, write. case_decide as Ha.
  - subst. rewrite lookup_insert_eq. cbn. by rewrite scale_roundtrip.
  - rewrite lookup_insert_ne; [done|]. intros Heq. apply Ha. symmetry.
    by apply to_raw_vec_inj.
Qed.

Lemma write_entry c a x d a' x' :
  entry (write c a x d) a' x' =
  if decide (a' = a ∧ x' = x) then Some (units d) else entry c a' x'.
Proof.
  unfold entry. rewrite write_account_map.
  destruct (decide (a' = a)) as [->|Ha]; [destruct (decide (x' = x)) as [->|Hx]|].
  - by rewrite decide_True, lookup_insert_eq.
  - rewrite decide_False, lookup_insert_ne; naive_solver.
  - rewrite decide_False; naive_solver.
Qed.

Lemma write_bal c a x d a' x' :
  bal (write c a x d) a' x' = if decide (a' = a ∧ x' = x) then units d else bal c a' x'.
Proof. unfold bal. rewrite write_entry. by case_decide. Qed.

Lemma ledger_wf_account c a :
  ledger_wf c → map_Forall (λ _ d, on_grain (units d)) (account_map c a).
Proof.
  intros Hwf. unfold account_map.
  destruct (c !! to_raw_vec a) as [raw|] eqn:Hk; cbn; [|apply map_Forall_empty].
  destruct (Hwf _ _ (to_raw_vec_length a) Hk) as (b & -> & Hb). done.
Qed.

Lemma ledger_wf_decode c a raw :
  ledger_wf c → c !! to_raw_vec a = Some raw → scale_decode raw = Some (account_map c a).
Proof.
  intros Hwf Hk. unfold account_map. rewrite Hk. cbn.
  destruct (Hwf _ _ (to_raw_vec_length a) Hk) as (b & -> & _). done.
Qed.

Lemma write_wf c a x d : ledger_wf c → on_grain (units d) → ledger_wf (write c a x d).
Proof.
  intros Hwf Hd k raw Hlen. unfold write.
  destruct (decide (k = to_raw_vec a)) as [->|Hne].
  - rewrite lookup_insert_eq. intros [= <-]. eexists. split; [apply scale_roundtrip|].
    apply map_Forall_insert_2; [done|by apply ledger_wf_account].
  - rewrite lookup_insert_ne by done. by apply Hwf.
Qed.

Lemma write_total c a x d x' :
  total (write c a x d) x' = total c x' + (if decide (x' = x) then units d - bal c a x else 0).
Proof.
  unfold total, write. rewrite map_filter_insert_True by apply to_raw_vec_length.
  rewrite map_total_insert. cbn. rewrite scale_roundtrip. cbn.
  assert (from_option (λ raw, from_option units 0 (balances_at (Some raw) !! x')) 0
     (filter (λ kv : bytes * bytes, length kv.1 = 32%nat) c !! to_raw_vec a) = bal c a x') as Heq.
  { rewrite map_lookup_filter. unfold bal, entry, account_map.
    destruct (c !! to_raw_vec a) as [raw|]; cbn; [|by rewrite lookup_empty].
    rewrite option_guard_True by apply to_raw_vec_length. cbn.
    by destruct (default ∅ (scale_decode raw) !! x'). }
  cbn in Heq. rewrite Heq. case_decide as Hx; [subst x'|].
  - rewrite lookup_insert_eq. cbn. lia.
  - rewrite lookup_insert_ne by done. unfold bal, entry.
    destruct (account_map c a !! x'); cbn; lia.
Qed.

Lemma bal_grain c a x : ledger_wf c → on_grain (bal c a x).
Proof.
  intros Hwf. unfold bal, entry.
  destruct (account_map c a !! x) as [d|] eqn:Hx; cbn.
  - by apply (ledger_wf_account c a Hwf x).
  - split; [lia|]. apply Z.divide_0_r.
Qed.

Lemma bal_le_total c a x : ledger_wf c → bal c a x ≤ total c x.
Proof.
  intros Hwf. unfold bal, entry, account_map.
  destruct (c !! to_raw_vec a) as [raw|] eqn:Hk; cbn [balances_at].
  - assert (filter (λ kv : bytes * bytes, length kv.1 = 32%nat) c !! to_raw_vec a = Some raw)
      as Hf by (apply map_lookup_filter_Some; split; [done|apply to_raw_vec_length]).
    unfold total. rewrite (map_total_delete _ _ _ _ Hf). cbn [balances_at].
    assert (∀ b : option dec, default 0 (units <$> b) = from_option units 0 b) as -> by by intros [].
    match goal with |- _ ≤ _ + ?t => assert (0 ≤ t); [|lia] end.
    apply map_total_nonneg. intros k r Hr. apply lookup_delete_Some in Hr as [_ Hr].
    apply map_lookup_filter_Some in Hr as [Hr Hl].
    destruct (Hwf k r Hl Hr) as (b & Hdec & Hb). cbn. rewrite Hdec. cbn.
    destruct (b !! x) as [d|] eqn:Hd; cbn; [|lia]. by apply (Hb x d).
  - rewrite lookup_empty. cbn. apply map_total_nonneg. intros k r Hr.
    apply map_lookup_filter_Some in Hr as [Hr Hl].
    destruct (Hwf k r Hl Hr) as (b & Hdec & Hb). cbn. rewrite Hdec. cbn.
    destruct (b !! x) as [d|] eqn:Hd; cbn; [|lia]. by apply (Hb x d).
Qed.
End ledger.

(** ** Behaviour of the balance operations *)
Section operations.
Context {D : Decimal} {DL : DecimalLaws} {C : Crypto} {W : Wire}.
Context {T : TrieDB} {TL : TrieLaws}.
Context {BC : Codec (gmap AssetId dec)} {BL : CodecLaws (gmap AssetId dec)}.
Implicit Types (s : OffchainState) (c : gmap bytes bytes).

(** The decimal that [add_balance] records. *)
Definition added c (a : AccountId) (x : AssetId) (d : dec) : dec :=
  match account_map c a !! x with
  | Some t => rounding_off (saturating_add t d)
  | None => d
  end.

(** [add_balance] always succeeds on a well-formed ledger. *)
Lemma add_balance_run s c a x d :
  holds s c → ledger_wf c →
  ∃ s', add_balance a x d s = (Ok tt, s') ∧ holds s' (write c a x (added c a x d)).
Proof.
  intros Hs Hwf. unfold add_balance.
  destruct (os_get_holds s c (to_raw_vec a) Hs) as (s1 & Hget & Hs1).
  destruct (os_insert_holds s1 c (to_raw_vec a)
    (scale_encode (<[x:=added c a x d]> (account_map c a))) Hs1) as (s' & Hins & Hs').
  exists s'. split; [|done]. rewrite (bind_ok _ _ _ _ _ _ Hget eq_refl).
  destruct (c !! to_raw_vec a) as [raw|] eqn:Hk.
  - unfold decode_balances. by rewrite (ledger_wf_decode c a raw Hwf Hk).
  - rewrite <- Hins. unfold added, account_map. by rewrite Hk.
Qed.

Lemma get_balance_run s c a x :
  holds s c → ledger_wf c →
  ∃ s' d, get_balance a x s = (Ok d, s') ∧ holds s' c ∧ units d = bal c a x.
Proof.
  intros Hs Hwf. unfold get_balance.
  destruct (os_get_holds s c (to_raw_vec a) Hs) as (s1 & Hget & Hs1).
  exists s1, (default dec_zero (account_map c a !! x)).
  rewrite (bind_ok _ _ _ _ _ _ Hget eq_refl). split_and!; [|done|].
  - destruct (c !! to_raw_vec a) as [raw|] eqn:Hk.
    + unfold decode_balances. by rewrite (ledger_wf_decode c a raw Hwf Hk).
    + unfold account_map. by rewrite Hk.
  - unfold bal, entry. destruct (account_map c a !! x); cbn; [done|apply dec_zero_units].
Qed.

(** The outcome of [sub_balance] on a well-formed ledger of moderate size. *)
Inductive sub_result c (a : AccountId) (x : AssetId) (d : dec) (wd : bool) :
    res string dec → gmap bytes bytes → Prop :=
| sub_no_account :
    c !! to_raw_vec a = None →
    sub_result c a x d wd (Err "Account not found in trie") c
| sub_no_balance raw :
    c !! to_raw_vec a = Some raw → account_map c a !! x = None →
    sub_result c a x d wd (Err "NotEnoughBalance: zero balance") c
| sub_low b :
    account_map c a !! x = Some b → units b < units d → wd = false →
    sub_result c a x d wd (Err "NotEnoughBalance") c
| sub_available b :
    account_map c a !! x = Some b → units b < units d → wd = true →
    sub_result c a x d wd (Ok b) (write c a x (rounding_off (saturating_sub b b)))
| sub_ok b :
    account_map c a !! x = Some b → units d ≤ units b →
    sub_result c a x d wd (Ok d) (write c a x (rounding_off (saturating_sub b d))).

Lemma sub_balance_run s c a x d wd :
  holds s c → ledger_wf c → on_grain (units d) → units d < MAX_UNITS →
  ∃ s' c' r, sub_balance a x d wd s = (r, s') ∧ holds s' c' ∧ sub_result c a x d wd r c'.
Proof.
  intros Hs Hwf Hd Hmax. unfold sub_balance.
  destruct (os_get_holds s c (to_raw_vec a) Hs) as (s1 & Hget & Hs1).
  rewrite (bind_ok _ _ _ _ _ _ Hget eq_refl).
  destruct (c !! to_raw_vec a) as [raw|] eqn:Hk.
  2: { exists s1, c, (Err "Account not found in trie"). eauto using sub_no_account. }
  unfold decode_balances. rewrite (ledger_wf_decode c a raw Hwf Hk). mrun.
  destruct (account_map c a !! x) as [b|] eqn:Hx.
  2: { exists s1, c, (Err "NotEnoughBalance: zero balance"). eauto using sub_no_balance. }
  pose proof (ledger_wf_account c a Hwf x b Hx) as Hb. cbn in Hb.
  unfold dec_ltb. destruct (Z.ltb_spec (units b) (units d)) as [Hlt|Hge].
  - destruct wd; [|exists s1, c, (Err "NotEnoughBalance"); eauto using sub_low].
    destruct (op_sub_exact d b) as (dev & -> & _).
    { apply grain_representable; [apply Z.divide_sub_r; [apply Hd|apply Hb]|].
      destruct Hd, Hb. lia. }
    destruct (os_insert_holds s1 c (to_raw_vec a)
      (scale_encode (<[x:=rounding_off (saturating_sub b b)]> (account_map c a))) Hs1)
      as (s' & Hins & Hs').
    eexists s', _, _. cbn [unwrap]. rewrite Hins. split; [done|]. split; [done|].
    by apply (sub_available c a x d true b).
  - destruct (os_insert_holds s1 c (to_raw_vec a)
      (scale_encode (<[x:=rounding_off (saturating_sub b d)]> (account_map c a))) Hs1)
      as (s' & Hins & Hs').
    eexists s', _, _. rewrite Hins. split; [done|]. split; [done|].
    by apply (sub_ok c a x d wd b).
Qed.

(** What a credit and a debit do to the recorded values. *)
Lemma rounding_off_units d : units (rounding_off d) = trunc9 (units d).
Proof. unfold rounding_off, trunc9. by rewrite round_dp_units by lia. Qed.

Lemma added_units c a x d :
  ledger_wf c → on_grain (units d) → bal c a x + units d < MAX_UNITS →
  units (added c a x d) =
  match entry c a x with Some u => trunc9 (u + units d) | None => units d end.
Proof.
  intros Hwf Hd Hmax. unfold added, bal, entry in *.
  destruct (account_map c a !! x) as [t|] eqn:Hx; cbn in *; [|done].
  pose proof (ledger_wf_account c a Hwf x t Hx) as Ht. cbn in Ht.
  rewrite rounding_off_units, saturating_add_exact; [done|].
  apply grain_representable; [apply Z.divide_add_r; [apply Ht|apply Hd]|].
  destruct Hd, Ht. lia.
Qed.

Lemma subtracted_units c a x b d :
  ledger_wf c → account_map c a !! x = Some b → on_grain (units d) →
  units d ≤ units b → units b < MAX_UNITS →
  units (rounding_off (saturating_sub b d)) = trunc9 (units b - units d).
Proof.
  intros Hwf Hx Hd Hle Hmax. pose proof (ledger_wf_account c a Hwf x b Hx) as Hb.
  rewrite rounding_off_units, saturating_sub_exact; [done|].
  apply grain_representable; [apply Z.divide_sub_r; [apply Hb|apply Hd]|].
  destruct Hd. lia.
Qed.
End operations.

(** ** Conservation *)
Definition delta (x y : AssetId) (u : Z) : Z := if decide (x = y) then u else 0.

(** An amount of at most nine decimals, and a fee rate in tenths of a percent. *)
Definition lot_amount `{Decimal} (d : dec) : Prop := 0 ≤ units d ∧ (LOT | units d).
Definition fee_fraction `{Decimal} (f : dec) : Prop :=
  ∃ k, 0 ≤ k ≤ 1000 ∧ units f = k * 10 ^ 25.

Section conservation.
Context {D : Decimal} {DL : DecimalLaws} {C : Crypto} {W : Wire}.
Context {T : TrieDB} {TL : TrieLaws}.
Context {BC : Codec (gmap AssetId dec)} {BL : CodecLaws (gmap AssetId dec)}.
Implicit Types (s : OffchainState) (c : gmap bytes bytes).

Lemma lot_grain d : lot_amount d → on_grain (units d).
Proof. intros [? ?]. split; [done|by apply lot_on_grain]. Qed.

(** The fee on an amount of nine decimals is exact, on the grain, and at most the
    amount. *)
Lemma fee_units d f :
  lot_amount d → units d < MAX_UNITS → fee_fraction f →
  on_grain (units (saturating_mul d f)) ∧ units (saturating_mul d f) ≤ units d
  ∧ units (saturating_sub d (saturating_mul d f)) = units d - units (saturating_mul d f)
  ∧ on_grain (units (saturating_sub d (saturating_mul d f))).
Proof.
  intros [Hd [q Hq]] Hmax (k & Hk & Hf).
  assert (units (saturating_mul d f) = q * k * GRAIN) as Hfee.
  { apply saturating_mul_exact.
    - rewrite Hq, Hf. unfold LOT, GRAIN, UNITS. lia.
    - apply grain_representable; [by exists (q * k)|].
      unfold MAX_UNITS, GRAIN, LOT in *. nia. }
  assert (units d = q * 1000 * GRAIN) as Hd' by (unfold LOT, GRAIN in *; lia).
  assert (0 ≤ q) by (unfold LOT in *; lia).
  assert (0 ≤ q * k ≤ q * 1000) by nia.
  assert (units (saturating_sub d (saturating_mul d f)) = units d - units (saturating_mul d f))
    as Hsub.
  { apply saturating_sub_exact, grain_representable.
    - rewrite Hfee, Hd', <- Z.mul_sub_distr_r. by exists (q * 1000 - q * k).
    - rewrite Hfee, Hd' in *. unfold GRAIN in *. lia. }
  rewrite Hsub, Hfee, Hd'. unfold on_grain. split_and!; try lia;
    rewrite <- ?Z.mul_sub_distr_r; try by eexists.
  all: unfold GRAIN; lia.
Qed.

Lemma credit_effect s c a x d :
  holds s c → ledger_wf c → on_grain (units d) → total c x + units d < MAX_UNITS →
  ∃ s' c', add_balance a x d s = (Ok tt, s') ∧ holds s' c' ∧ ledger_wf c' ∧
    ∀ y, total c y + delta y x (units d - LOT) ≤ total c' y ≤ total c y + delta y x (units d).
Proof.
  intros Hs Hwf Hd Hmax. destruct (add_balance_run s c a x d Hs Hwf) as (s' & Hrun & Hs').
  pose proof (bal_le_total c a x Hwf). pose proof (bal_grain c a x Hwf) as Hb.
  pose proof (added_units c a x d Hwf Hd ltac:(lia)) as Hu.
  exists s', (write c a x (added c a x d)). split; [done|]. split; [done|].
  unfold bal in *. destruct (entry c a x) as [u|] eqn:He; cbn in *.
  - pose proof (trunc9_bounds (u + units d)). pose proof (trunc9_grain (u + units d)).
    destruct Hd, Hb. split; [apply write_wf; [done|]; rewrite Hu; auto with lia|].
    intros y. rewrite write_total. unfold bal, delta. rewrite He. cbn. case_decide; lia.
  - split; [apply write_wf; [done|]; by rewrite Hu|].
    intros y. rewrite write_total. unfold bal, delta. rewrite He. cbn.
    case_decide; unfold LOT; lia.
Qed.

Lemma debit_effect s c a x d wd :
  holds s c → ledger_wf c → on_grain (units d) → units d < MAX_UNITS → total c x < MAX_UNITS →
  ∃ s' c' r, sub_balance a x d wd s = (r, s') ∧ holds s' c' ∧ ledger_wf c' ∧
    match r with
    | Ok d' => units d' = Z.min (units d) (bal c a x) ∧ (wd = false → d' = d) ∧
        ∀ y, total c y + delta y x (- units d' - LOT) ≤ total c' y
             ≤ total c y + delta y x (- units d')
    | Err _ => c' = c
    | Panic => False
    end.
Proof.
  intros Hs Hwf Hd Hmax Htot.
  destruct (sub_balance_run s c a x d wd Hs Hwf Hd Hmax) as (s' & c' & r & Hrun & Hs' & Hres).
  exists s', c', r. split; [done|]. split; [done|].
  pose proof (bal_le_total c a x Hwf) as Hle.
  assert (∀ b d', account_map c a !! x = Some b → on_grain (units d') →
    units d' ≤ units b → let c1 := write c a x (rounding_off (saturating_sub b d')) in
    ledger_wf c1 ∧ ∀ y, total c y + delta y x (- units d' - LOT) ≤ total c1 y
             ≤ total c y + delta y x (- units d')) as Hwrite.
  { intros b d' Hx Hd' Hle'. unfold bal, entry in Hle. rewrite Hx in Hle. cbn in Hle.
    pose proof (subtracted_units c a x b d' Hwf Hx Hd' Hle' ltac:(lia)) as Hu.
    pose proof (trunc9_bounds (units b - units d')). 
    split; [apply write_wf; [done|]; rewrite Hu; apply trunc9_grain; lia|].
    intros y. rewrite write_total. unfold bal, entry, delta. rewrite Hx. cbn. case_decide; lia. }
  destruct Hres as [Hk|raw Hk Hx|b Hx Hlt Hwd|b Hx Hlt Hwd|b Hx Hge]; [done..| |].
  - destruct (Hwrite b b Hx) as [? Ht]; [by apply (ledger_wf_account c a Hwf x)|lia|].
    split; [done|]. split_and!; [|congruence|done]. unfold bal, entry. rewrite Hx. cbn. lia.
  - destruct (Hwrite b d Hx Hd Hge) as [? Ht].
    split; [done|]. split_and!; [|done|done]. unfold bal, entry. rewrite Hx. cbn. lia.
Qed.

(** One party: whatever happens the ledger stays well formed and no asset grows by
    more than the credit; on success each asset moves by credit less debit, short
    of at most three truncations. *)
Lemma settle_party_effect s c t side f ca cr da db :
  holds s c → ledger_wf c →
  trade_credit t side = Some (ca, cr) → trade_debit t side = Some (da, db) →
  lot_amount cr → lot_amount db → fee_fraction f → units db < MAX_UNITS →
  (∀ x, total c x + units cr < MAX_UNITS) →
  ∃ s' c' r, settle_party t side f s = (r, s') ∧ holds s' c' ∧ ledger_wf c' ∧ r ≠ Panic
    ∧ (∀ x, total c' x ≤ total c x + delta x (aa_asset ca) (units cr))
    ∧ (is_ok r → ∀ x,
         let net := delta x (aa_asset ca) (units cr) - delta x (aa_asset da) (units db) in
         total c x + net - 3 * LOT ≤ total c' x ≤ total c x + net).
Proof.
  intros Hs Hwf Hcr Hdb Hlc Hld Hf Hdmax Hmax.
  pose proof (Hmax (aa_asset ca)) as Hca.
  assert (0 ≤ total c (aa_asset ca)) as Hpos.
  { pose proof (bal_le_total c pot_account (aa_asset ca) Hwf).
    destruct (bal_grain c pot_account (aa_asset ca) Hwf). lia. }
  destruct (fee_units cr f Hlc ltac:(lia) Hf) as (Hfg & Hfle & Hsub & Hsg).
  set (fees := saturating_mul cr f) in *. set (net := saturating_sub cr fees) in *.
  destruct (credit_effect s c (aa_main ca) (aa_asset ca) net Hs Hwf Hsg)
    as (s1 & c1 & Hr1 & Hs1 & Hwf1 & Ht1); [destruct Hfg; lia|].
  destruct (credit_effect s1 c1 pot_account (aa_asset ca) fees Hs1 Hwf1 Hfg)
    as (s2 & c2 & Hr2 & Hs2 & Hwf2 & Ht2).
  { specialize (Ht1 (aa_asset ca)). unfold delta in Ht1. rewrite !decide_True in Ht1 by done. lia. }
  destruct (debit_effect s2 c2 (aa_main da) (aa_asset da) db false Hs2 Hwf2)
    as (s3 & c3 & r & Hr3 & Hs3 & Hwf3 & Ht3); [by apply lot_grain|done| |].
  { specialize (Ht1 (aa_asset da)). specialize (Ht2 (aa_asset da)). specialize (Hmax (aa_asset da)).
    unfold delta in *. destruct (decide (aa_asset da = aa_asset ca)), Hlc; lia. }
  assert (Hrun : settle_party t side f s =
    match r with Ok _ => (Ok fees, s3) | Err e => (Err e, s3) | Panic => (Panic, s3) end).
  { unfold settle_party. rewrite Hcr, Hdb. cbn [unwrap]. mrun.
    fold fees net. rewrite Hr1, Hr2, Hr3. by destruct r. }
  assert (Hsum : ∀ x, total c x + delta x (aa_asset ca) (units cr - 2 * LOT) ≤ total c2 x
                      ≤ total c x + delta x (aa_asset ca) (units cr)).
  { intros x. specialize (Ht1 x). specialize (Ht2 x). unfold delta in *. case_decide; lia. }
  exists s3, c3. destruct r as [d|e|]; [| |done].
  - destruct Ht3 as (_ & Hd & Ht3). rewrite (Hd eq_refl) in *.
    eexists. split; [done|]. split_and!; try done.
    + intros x. specialize (Hsum x). specialize (Ht3 x). destruct Hld.
      unfold delta in *. repeat case_decide; lia.
    + intros _ x. specialize (Hsum x). specialize (Ht3 x).
      unfold delta, LOT in *. repeat case_decide; lia.
  - subst c3. eexists. split; [done|]. split_and!; try done. intros x. apply Hsum.
Qed.

(** A trade between opposite sides of one market, in amounts of nine decimals;
    [v] is the volume in the quote asset. *)
Definition fair_trade (t : Trade) (v : dec) : Prop :=
  order_side (taker t) = get_opposite (order_side (maker t))
  ∧ order_pair (taker t) = order_pair (maker t)
  ∧ op_mul (trade_price t) (trade_amount t) = Some v
  ∧ lot_amount (trade_amount t) ∧ lot_amount v.

(** The two legs of a fair trade cancel. *)
Lemma fair_trade_legs t v :
  fair_trade t v →
  ∃ am at' xm xt cm ct,
    trade_credit t true = Some (mkAccountAsset am xm, cm)
    ∧ trade_debit t true = Some (mkAccountAsset am xt, ct)
    ∧ trade_credit t false = Some (mkAccountAsset at' xt, ct)
    ∧ trade_debit t false = Some (mkAccountAsset at' xm, cm)
    ∧ lot_amount cm ∧ lot_amount ct ∧ units cm + units ct = units (trade_amount t) + units v.
Proof.
  intros (Hs & Hp & Hv & Ha & Hl).
  unfold trade_credit, trade_debit, trade_user. rewrite Hs, Hp, Hv.
  destruct (order_side (maker t)); cbn; do 6 eexists; split_and!; try done; lia.
Qed.

Lemma process_trade_effect s c t v cfg mf tf :
  holds s c → ledger_wf c → fair_trade t v →
  fee_fraction (maker_fraction mf) → fee_fraction (taker_fraction tf) →
  (∀ x, total c x + units (trade_amount t) + units v < MAX_UNITS) →
  ∃ s' c' r, process_trade t cfg mf tf s = (r, s') ∧ holds s' c' ∧ ledger_wf c' ∧
    (is_ok r → ∀ x, total c x - 6 * LOT ≤ total c' x ≤ total c x).
Proof.
  intros Hs Hwf Hfair Hmf Htf Hmax. unfold process_trade.
  destruct (trade_verify t cfg) as [[]|]; cbn [unwrap]; mrun; [|eexists s, c, _; by split_and!..].
  destruct (fair_trade_legs t v Hfair) as (am & at' & xm & xt & cm & ct
    & Hcm & Hdm & Hct & Hdt & Hlm & Hlt & Hsum).
  pose proof (proj1 Hlm). pose proof (proj1 Hlt).
  assert (∀ x, 0 ≤ total c x) as Hpos.
  { intros x. pose proof (bal_le_total c pot_account x Hwf).
    destruct (bal_grain c pot_account x Hwf). lia. }
  destruct (settle_party_effect s c t true (maker_fraction mf) _ _ _ _ Hs Hwf Hcm Hdm Hlm Hlt Hmf)
    as (s1 & c1 & r1 & Hr1 & Hs1 & Hwf1 & Hnp1 & Hub1 & Hok1); cbn [aa_asset aa_main] in *.
  { specialize (Hmax xm). specialize (Hpos xm). lia. }
  { intros x. specialize (Hmax x). lia. }
  rewrite Hr1. destruct r1 as [d1|e1|]; [|eexists s1, c1, _; by split_and!|done].
  destruct (settle_party_effect s1 c1 t false (taker_fraction tf) _ _ _ _ Hs1 Hwf1 Hct Hdt Hlt Hlm Htf)
    as (s2 & c2 & r2 & Hr2 & Hs2 & Hwf2 & Hnp2 & Hub2 & Hok2); cbn [aa_asset aa_main] in *.
  { specialize (Hmax xm). specialize (Hpos xm). lia. }
  { intros x. specialize (Hub1 x). specialize (Hmax x). unfold delta in Hub1. case_decide; lia. }
  rewrite Hr2. destruct r2 as [d2|e2|]; [|eexists s2, c2, _; by split_and!|done].
  exists s2, c2. eexists. split; [done|]. split_and!; [done..|].
  intros _ x. specialize (Hok1 I x). specialize (Hok2 I x). cbn in Hok1, Hok2. lia.
Qed.

(** *** Exact balances *)
Definition credited (o : option Z) (u : Z) : Z :=
  match o with Some t => trunc9 (t + u) | None => u end.

Lemma add_balance_exact s c a x d :
  holds s c → ledger_wf c → on_grain (units d) → total c x + units d < MAX_UNITS →
  ∃ s' c', add_balance a x d s = (Ok tt, s') ∧ holds s' c' ∧ ledger_wf c'
    ∧ (∀ y, total c' y ≤ total c y + delta y x (units d))
    ∧ ∀ a' x', entry c' a' x' =
        if decide (a' = a ∧ x' = x) then Some (credited (entry c a x) (units d))
        else entry c a' x'.
Proof.
  intros Hs Hwf Hd Hmax.
  destruct (credit_effect s c a x d Hs Hwf Hd Hmax) as (s1 & c1 & Hrun1 & Hs1 & Hwf1 & Ht).
  destruct (add_balance_run s c a x d Hs Hwf) as (s' & Hrun & Hs').
  rewrite Hrun1 in Hrun. injection Hrun as <-.
  rewrite (holds_inj _ _ _ Hs1 Hs') in *.
  eexists s1, _. split_and!; [done..| |].
  - intros y. apply Ht.
  - intros a' x'. rewrite write_entry. case_decide; [|done].
    rewrite added_units; [by destruct (entry c a x)|done..|].
    pose proof (bal_le_total c a x Hwf). lia.
Qed.

Lemma sub_balance_exact s c a x d u :
  holds s c → ledger_wf c → on_grain (units d) → total c x < MAX_UNITS →
  entry c a x = Some u → units d ≤ u →
  ∃ s' c', sub_balance a x d false s = (Ok d, s') ∧ holds s' c' ∧ ledger_wf c'
    ∧ (∀ y, total c' y ≤ total c y)
    ∧ ∀ a' x', entry c' a' x' =
        if decide (a' = a ∧ x' = x) then Some (trunc9 (u - units d)) else entry c a' x'.
Proof.
  intros Hs Hwf Hd Hmax He Hle. pose proof (bal_le_total c a x Hwf) as Hbt.
  unfold bal in Hbt. rewrite He in Hbt. cbn in Hbt.
  destruct (debit_effect s c a x d false Hs Hwf Hd) as (s1 & c1 & r1 & Hrun1 & Hs1 & Hwf1 & Hr1);
    [lia..|].
  destruct (sub_balance_run s c a x d false Hs Hwf Hd) as (s' & c' & r & Hrun & Hs' & Hres);
    [lia|].
  rewrite Hrun1 in Hrun. injection Hrun as <- <-.
  rewrite (holds_inj _ _ _ Hs1 Hs') in *. unfold entry in He.
  destruct Hres as [Hk|raw Hk Hx|b Hx Hlt _|b Hx Hlt ?|b Hx Hge]; try done.
  - unfold account_map in He. rewrite Hk in He. cbn in He. by rewrite lookup_empty in He.
  - by rewrite Hx in He.
  - rewrite Hx in He. injection He as <-. lia.
  - rewrite Hx in He. injection He as <-. destruct Hr1 as (_ & _ & Ht).
    eexists s1, _. split_and!; [done..| |].
    + intros y. specialize (Ht y). unfold delta in Ht. destruct Hd. case_decide; lia.
    + intros a' x'. rewrite write_entry. case_decide; [|done].
      by rewrite (subtracted_units c a x b d) by (try done; lia).
Qed.

Definition fee_on (cr f : dec) : Z := units (saturating_mul cr f).

Lemma settle_party_exact s c t side f a xc cr xd db u :
  holds s c → ledger_wf c →
  trade_credit t side = Some (mkAccountAsset a xc, cr) →
  trade_debit t side = Some (mkAccountAsset a xd, db) →
  lot_amount cr → lot_amount db → fee_fraction f → xc ≠ xd → a ≠ pot_account →
  entry c a xd = Some u → units db ≤ u → (∀ x, total c x + units cr < MAX_UNITS) →
  ∃ s' c', settle_party t side f s = (Ok (saturating_mul cr f), s') ∧ holds s' c' ∧ ledger_wf c'
    ∧ (∀ y, total c' y ≤ total c y + delta y xc (units cr))
    ∧ ∀ a' x', entry c' a' x' =
        if decide (a' = a ∧ x' = xc) then Some (credited (entry c a xc) (units cr - fee_on cr f))
        else if decide (a' = pot_account ∧ x' = xc)
        then Some (credited (entry c pot_account xc) (fee_on cr f))
        else if decide (a' = a ∧ x' = xd) then Some (trunc9 (u - units db))
        else entry c a' x'.
Proof.
  intros Hs Hwf Hcr Hdb Hlc Hld Hf Hx Hpot He Hle Hmax. unfold fee_on.
  pose proof (bal_le_total c a xd Hwf) as Hb. unfold bal in Hb. rewrite He in Hb. cbn in Hb.
  destruct (fee_units cr f Hlc) as (Hfg & Hfle & Hsub & Hsg); [|done|].
  { specialize (Hmax xd). pose proof (proj1 Hld). lia. }
  destruct (add_balance_exact s c a xc (saturating_sub cr (saturating_mul cr f)) Hs Hwf Hsg)
    as (s1 & c1 & Hr1 & Hs1 & Hwf1 & Ht1 & He1).
  { specialize (Hmax xc). destruct Hfg. lia. }
  destruct (add_balance_exact s1 c1 pot_account xc (saturating_mul cr f) Hs1 Hwf1 Hfg)
    as (s2 & c2 & Hr2 & Hs2 & Hwf2 & Ht2 & He2).
  { specialize (Ht1 xc). specialize (Hmax xc). unfold delta in Ht1.
    rewrite decide_True in Ht1 by done. lia. }
  destruct (sub_balance_exact s2 c2 a xd db u Hs2 Hwf2) as (s3 & c3 & Hr3 & Hs3 & Hwf3 & Ht3 & He3);
    [by apply lot_grain| | |done|].
  { specialize (Ht1 xd). specialize (Ht2 xd). specialize (Hmax xd). pose proof (proj1 Hlc).
    unfold delta in *. repeat case_decide; lia. }
  { rewrite He2, decide_False, He1, decide_False; naive_solver. }
  exists s3, c3. split_and!; [|done|done| |].
  - unfold settle_party. rewrite Hcr, Hdb. cbn [unwrap]. mrun. cbn [aa_main aa_asset].
    by rewrite Hr1, Hr2, Hr3.
  - intros y. specialize (Ht1 y). specialize (Ht2 y). specialize (Ht3 y).
    unfold delta in *. case_decide; lia.
  - intros a' x'. rewrite He3, He2, !He1, Hsub.
    repeat case_decide; try done; naive_solver.
Qed.

(** The asset and the amount a party receives; [v] is the volume in quote. *)
Definition leg_asset (t : Trade) (is_maker : bool) : AssetId :=
  match order_side (trade_user t is_maker) with
  | Ask => quote (order_pair (maker t))
  | Bid => base (order_pair (maker t))
  end.
Definition leg_amount (t : Trade) (v : dec) (is_maker : bool) : dec :=
  match order_side (trade_user t is_maker) with Ask => v | Bid => trade_amount t end.

Lemma fair_trade_exact_legs t v :
  fair_trade t v → ∀ b,
  trade_credit t b =
    Some (mkAccountAsset (order_main_account (trade_user t b)) (leg_asset t b), leg_amount t v b)
  ∧ trade_debit t b =
    Some (mkAccountAsset (order_main_account (trade_user t b)) (leg_asset t (negb b)),
          leg_amount t v (negb b))
  ∧ lot_amount (leg_amount t v b)
  ∧ units (leg_amount t v b) ≤ units (trade_amount t) + units v
  ∧ units (leg_amount t v true) + units (leg_amount t v false)
    = units (trade_amount t) + units v.
Proof.
  intros (Hs & Hp & Hv & Ha & Hl) b. pose proof (proj1 Ha). pose proof (proj1 Hl).
  unfold trade_credit, trade_debit, leg_asset, leg_amount, trade_user.
  destruct b; cbn; rewrite ?Hs, ?Hp, ?Hv; destruct (order_side (maker t)); cbn;
    split_and!; try done; lia.
Qed.

(** C8: settling a valid trade between two funded accounts succeeds and moves
    exactly the agreed amounts.  Each party receives its leg less its fee, pays
    the other leg, the fee pot receives both fees (new balances truncated to nine
    decimals), and no other balance changes.  The two accounts and the pot are
    different, and so are the two assets; the trade is between opposite sides, in
    amounts of at most nine decimals ([fair_trade]); the fees are whole tenths of a
    percent, from zero to all ([fee_fraction]); each party owns the leg it pays; and what
    is owed plus the trade stays below [MAX_UNITS], where twelve decimals are exact. *)
Theorem process_trade_settles s c t v cfg mf tf bm bt :
  let am := order_main_account (maker t) in
  let at' := order_main_account (taker t) in
  let xm := leg_asset t true in let cm := leg_amount t v true in
  let xt := leg_asset t false in let ct := leg_amount t v false in
  let fm := fee_on cm (maker_fraction mf) in let ft := fee_on ct (taker_fraction tf) in
  holds s c → ledger_wf c → trade_verify t cfg = Some true → fair_trade t v →
  fee_fraction (maker_fraction mf) → fee_fraction (taker_fraction tf) →
  base (order_pair (maker t)) ≠ quote (order_pair (maker t)) →
  am ≠ at' → am ≠ pot_account → at' ≠ pot_account →
  entry c am xt = Some bm → units ct ≤ bm →
  entry c at' xm = Some bt → units cm ≤ bt →
  (∀ x, total c x + units (trade_amount t) + units v < MAX_UNITS) →
  ∃ s' c', process_trade t cfg mf tf s = (Ok tt, s') ∧ holds s' c' ∧ ledger_wf c'
    ∧ entry c' am xm = Some (credited (entry c am xm) (units cm - fm))
    ∧ entry c' am xt = Some (trunc9 (bm - units ct))
    ∧ entry c' at' xt = Some (credited (entry c at' xt) (units ct - ft))
    ∧ entry c' at' xm = Some (trunc9 (bt - units cm))
    ∧ entry c' pot_account xm = Some (credited (entry c pot_account xm) fm)
    ∧ entry c' pot_account xt = Some (credited (entry c pot_account xt) ft)
    ∧ ∀ a x, a ∉ [am; at'; pot_account] ∨ x ∉ [xm; xt] → entry c' a x = entry c a x.
Proof.
  intros am at' xm cm xt ct fm ft Hs Hwf Hv Hfair Hmf Htf Hbq Hmt Hmp Htp Hbm Hctle Hbt Hcmle Hmax.
  assert (xm ≠ xt) as Hx.
  { subst xm xt. unfold leg_asset, trade_user. destruct Hfair as (-> & _).
    destruct (order_side (maker t)); cbn; congruence. }
  destruct (fair_trade_exact_legs t v Hfair true) as (Hcm & Hdm & Hlm & Hlem & Hsum).
  destruct (fair_trade_exact_legs t v Hfair false) as (Hct & Hdt & Hlt & Hlet & _).
  cbn [negb] in *. change (trade_user t true) with (maker t) in *.
  change (trade_user t false) with (taker t) in *.
  fold xm xt cm ct am at' in Hcm, Hdm, Hct, Hdt, Hlm, Hlt, Hlem, Hlet, Hsum.
  unfold fm, ft. clear fm ft Hfair. clearbody am at' xm xt cm ct.
  destruct (settle_party_exact s c t true (maker_fraction mf) am xm cm xt ct bm)
    as (s1 & c1 & Hr1 & Hs1 & Hwf1 & Ht1 & He1); [done..| |].
  { intros x. specialize (Hmax x). lia. }
  destruct (settle_party_exact s1 c1 t false (taker_fraction tf) at' xt ct xm cm bt)
    as (s2 & c2 & Hr2 & Hs2 & Hwf2 & Ht2 & He2); [done..| |done| |].
  { by rewrite He1, !decide_False by (intros [??]; congruence). }
  { intros x. specialize (Hmax x). specialize (Ht1 x). pose proof (proj1 Hlm).
    unfold delta in Ht1. case_decide; lia. }
  exists s2, c2. split_and!; try done.
  - unfold process_trade. rewrite Hv. cbn [unwrap]. mrun. by rewrite Hr1, Hr2.
  - rewrite He2, !decide_False by (intros [??]; congruence). rewrite He1. by rewrite decide_True.
  - rewrite He2, !decide_False by (intros [??]; congruence). rewrite He1, !decide_False by (intros [??]; congruence).
    by rewrite decide_True.
  - rewrite He2, decide_True by done. by rewrite He1, !decide_False by (intros [??]; congruence).
  - rewrite He2, !decide_False by (intros [??]; congruence). by rewrite decide_True.
  - rewrite He2, !decide_False by (intros [??]; congruence). rewrite He1, decide_False by (intros [??]; congruence).
    by rewrite decide_True.
  - rewrite He2, decide_False by (intros [??]; congruence). rewrite decide_True by done.
    by rewrite He1, !decide_False by (intros [??]; congruence).
  - intros a x Hout. rewrite !not_elem_of_cons in Hout.
    rewrite He2, !decide_False by set_solver. by rewrite He1, !decide_False by set_solver.
Qed.
End conservation.

(** ** A concrete market *)
Module SettlementExample.
Import RefDecimal RefCrypto RefWire RefTrie.

#[export] Instance ref_balances : Codec (gmap AssetId rdec) := RefCodec.codec _.
#[export] Instance ref_balances_laws : CodecLaws (gmap AssetId rdec) := RefCodec.codec_laws _.

Definition pair : TradingPair := {| base := Asset 1; quote := Polkadex |}.
Definition market : TradingPairConfig := default_pair_config (Asset 1) Polkadex.

(** Account 1 sells 10 at a price of 2 to account 2. *)
Definition ask : Order := order 1 pair Ask LIMIT (10, 0) (2, 0) 1.
Definition bid : Order := order 2 pair Bid LIMIT (10, 0) (2, 0) 2.
Definition deal : Trade := mkTrade ask bid (2, 0) (10, 0) 3.
Definition volume : rdec := of_units (20 * UNITS).

(** Account 1 holds 100 of the base asset, account 2 holds 1000 of the quote. *)
Definition ledger0 : gmap bytes bytes :=
  write (write ∅ (acct 1) (Asset 1) (100, 0)) (acct 2) Polkadex (1000, 0).
Definition state0 : OffchainState := mkOffchainState ledger0 (Some ∅) ∅.

Lemma holds_cache (c : gmap bytes bytes) :
  holds (T := ref_trie) (mkOffchainState c (Some ∅) ∅) c.
Proof. exists ∅. split; [done|]. unfold contents. cbn. apply (right_id_L ∅ (∪)). Qed.

Lemma on_grain_check u : (0 <=? u) && (u mod GRAIN =? 0) = true → on_grain u.
Proof.
  intros [Hu Hm]%andb_true_iff. apply Z.leb_le in Hu. apply Z.eqb_eq in Hm.
  split; [done|]. by apply Z.mod_divide; [unfold GRAIN; lia|].
Qed.

Lemma lot_check d : (0 <=? units d) && (units d mod LOT =? 0) = true → lot_amount d.
Proof.
  intros [Hu Hm]%andb_true_iff. apply Z.leb_le in Hu. apply Z.eqb_eq in Hm.
  split; [done|]. by apply Z.mod_divide; [unfold LOT; lia|].
Qed.

Lemma ledger0_wf : ledger_wf ledger0.
Proof.
  unfold ledger0. repeat apply write_wf; [|apply on_grain_check; by vm_compute..].
  intros k raw _. by rewrite lookup_empty.
Qed.

Lemma ledger0_total x : total ledger0 x ≤ 1100 * UNITS.
Proof.
  unfold ledger0. rewrite !write_total.
  assert (total ∅ x = 0) as -> by (unfold total; by rewrite map_filter_empty, map_total_empty).
  rewrite !write_bal. replace (bal ∅ (acct 1) (Asset 1)) with 0 by by vm_compute.
  replace (bal ∅ (acct 2) Polkadex) with 0 by by vm_compute.
  change (units (H := ref_decimal) (100, 0)) with (100 * UNITS).
  change (units (H := ref_decimal) (1000, 0)) with (1000 * UNITS).
  unfold UNITS. repeat case_decide; lia.
Qed.

Lemma default_fee : fee_fraction (H := ref_decimal) (1, 3).
Proof. exists 1. split; [lia|]. by vm_compute. Qed.

Lemma deal_fair : fair_trade deal volume.
Proof. split_and!; try by vm_compute. all: apply lot_check; by vm_compute. Qed.

Lemma process_trade_settles_witness :
  ∃ s' c', process_trade deal market default_fee_config default_fee_config state0 = (Ok tt, s')
    ∧ holds s' c'
    ∧ entry c' (RefCrypto.acct 1) Polkadex = Some (1998 * 10 ^ 26)
    ∧ entry c' (RefCrypto.acct 1) (Asset 1) = Some (90 * 10 ^ 28)
    ∧ entry c' (RefCrypto.acct 2) (Asset 1) = Some (999 * 10 ^ 26)
    ∧ entry c' (RefCrypto.acct 2) Polkadex = Some (980 * 10 ^ 28).
Proof.
  destruct (process_trade_settles state0 ledger0 deal volume market default_fee_config
    default_fee_config (100 * 10 ^ 28) (1000 * 10 ^ 28)) as
    (s' & c' & Hrun & Hs & _ & H1 & H2 & H3 & H4 & _).
  - apply holds_cache.
  - apply ledger0_wf.
  - by vm_compute.
  - apply deal_fair.
  - apply default_fee.
  - apply default_fee.
  - discriminate.
  - by vm_compute.
  - by vm_compute.
  - by vm_compute.
  - by vm_compute.
  - by vm_compute.
  - by vm_compute.
  - by vm_compute.
  - intros x. pose proof (ledger0_total x). unfold MAX_UNITS, GRAIN, UNITS in *.
    assert (units (trade_amount deal) = 10 * 10 ^ 28) as -> by by vm_compute.
    assert (units (H := ref_decimal) volume = 20 * 10 ^ 28) as -> by by vm_compute. lia.
  - exists s', c'. split; [exact Hrun|]. split; [exact Hs|].
    split_and!.
    + etransitivity; [exact H1|]. by vm_compute.
    + etransitivity; [exact H2|]. by vm_compute.
    + etransitivity; [exact H3|]. by vm_compute.
    + etransitivity; [exact H4|]. by vm_compute.
Defined.
End SettlementExample.
