(* ===== verification/Chain.v ===== *)
(** * The chain state

    The storage of the OCEX pallet ([pallets/ocex/src/lib.rs]) and of the
    liquidity-mining pallet ([pallets/liquidity-mining/src/lib.rs]), the bank
    behind them and the block number, in one record: the pallets call each other
    within one transaction.  Events are not part of the state. *)

From S2P Require Import Prelude Decimal Assets Bank Types Orders.

(** ** Authorities: [T::AuthorityId], a [RuntimeAppPublic] key *)
Class Authority := {
  AuthorityId : Type;
  AuthoritySig : Type;
  AuthorityId_eq_dec :: EqDecision AuthorityId;
  (** the key order, used by [sort] and [binary_search] *)
  authority_leb : AuthorityId → AuthorityId → bool;
  auth_verify : AuthorityId → bytes → AuthoritySig → bool;
}.

(** A concrete key type: keys are numbers, a signature names its key. *)
Module RefAuthority.
#[export] Instance ref_authority : Authority := {|
  AuthorityId := Z;
  AuthoritySig := Z;
  authority_leb := Z.leb;
  auth_verify k _ s := k =? s;
|}.
End RefAuthority.

Section chain.
Context {D : Decimal} {C : Crypto} {A : Authority} {CU : Currencies}.

(** [orderbook_primitives::ValidatorSet] *)
Record ValidatorSet : Type := mkValidatorSet {
  set_id : Z;
  validators : list AuthorityId;
}.
Definition GENESIS_AUTHORITY_SET_ID : Z := 0.
Definition default_validator_set : ValidatorSet :=
  mkValidatorSet GENESIS_AUTHORITY_SET_ID [].

(** [TradingPairMetricsMap]: per market the (score, fees) of each trader and the
    totals *)
Definition TradingPairMetricsMap : Type :=
  gmap TradingPair (gmap AccountId (dec * dec) * (dec * dec)).

Record SnapshotSummary : Type := mkSnapshotSummary {
  validator_set_id : Z;
  snapshot_id : Z;
  state_hash : H256;
  state_change_id : Z;
  last_processed_blk : Z;
  withdrawals : list Withdrawal;
  egress_messages : list EgressMessages;
  trader_metrics : option TradingPairMetricsMap;
}.

Definition get_fees (s : SnapshotSummary) : list Fees :=
  (λ w, mkFees (wd_asset w) (wd_fees w)) <$> withdrawals s.

Record FeeDistribution : Type := mkFeeDistribution {
  recipient_address : AccountId;
  auction_duration : Z;
  burn_ration : Z;
}.

Record AuctionInfo : Type := mkAuctionInfo {
  fee_info : gmap Z Z;
  highest_bidder : option AccountId;
  highest_bid : Z;
}.
Definition default_auction_info : AuctionInfo := mkAuctionInfo ∅ None 0.

Definition WithdrawalsMap : Type := gmap AccountId (list Withdrawal).

(** ** Storage of the OCEX pallet *)
Record OcexStorage : Type := mkOcexStorage {
  AllowlistedToken : gset AssetId;
  Accounts : gmap AccountId AccountInfo;
  Proxies : gmap AccountId AccountId;
  TradingPairs : gmap (AssetId * AssetId) TradingPairConfig;
  Snapshots : gmap Z SnapshotSummary;
  SnapshotNonce : Z;
  ExchangeState : bool;
  Withdrawals : gmap Z WithdrawalsMap;
  IngressQueue : gmap Z (list IngressMessages);
  OnChainEvents : list bytes;
  TotalAssets : gmap AssetId dec;
  Authorities : gmap Z ValidatorSet;
  NextAuthorities : ValidatorSet;
  ValidatorSetId : Z;
  OrderbookOperatorPublicKey : option EcdsaPub;
  LMPEpoch : Z;
  TraderMetrics : gmap (Z * TradingPair * AccountId) (dec * dec * bool);
  TotalScores : gmap (Z * TradingPair) (dec * dec);
  FinalizeLMPScore : option Z;
  LMPConfigs : gmap Z LMPEpochConfig;
  ExpectedLMPConfig : option LMPEpochConfig;
  LMPClaimBlk : gmap Z Z;
  PriceOracles : gmap (AssetId * AssetId) (dec * dec);
  FeeDistributionConfig : option FeeDistribution;
  AuctionBlockNumber : option Z;
  Auction : option AuctionInfo;
}.

#[export] Instance eta_OcexStorage : Eta OcexStorage := λ r, {|
  AllowlistedToken := AllowlistedToken r; Accounts := Accounts r; Proxies := Proxies r;
  TradingPairs := TradingPairs r; Snapshots := Snapshots r;
  SnapshotNonce := SnapshotNonce r; ExchangeState := ExchangeState r;
  Withdrawals := Withdrawals r; IngressQueue := IngressQueue r;
  OnChainEvents := OnChainEvents r; TotalAssets := TotalAssets r;
  Authorities := Authorities r; NextAuthorities := NextAuthorities r;
  ValidatorSetId := ValidatorSetId r;
  OrderbookOperatorPublicKey := OrderbookOperatorPublicKey r; LMPEpoch := LMPEpoch r;
  TraderMetrics := TraderMetrics r; TotalScores := TotalScores r;
  FinalizeLMPScore := FinalizeLMPScore r; LMPConfigs := LMPConfigs r;
  ExpectedLMPConfig := ExpectedLMPConfig r; LMPClaimBlk := LMPClaimBlk r;
  PriceOracles := PriceOracles r; FeeDistributionConfig := FeeDistributionConfig r;
  AuctionBlockNumber := AuctionBlockNumber r; Auction := Auction r;
|}.

(** ** Storage of the liquidity-mining pallet *)
Record MarketMakerConfig : Type := mkMarketMakerConfig {
  pool_id : AccountId;
  commission : dec;
  exit_fee : dec;
  public_funds_allowed : bool;
  pool_name : bytes;
  share_id : Z;
  force_closed : bool;
}.

#[export] Instance eta_MarketMakerConfig : Eta MarketMakerConfig := λ r, {|
  pool_id := pool_id r; commission := commission r; exit_fee := exit_fee r;
  public_funds_allowed := public_funds_allowed r; pool_name := pool_name r;
  share_id := share_id r; force_closed := force_closed r;
|}.

(** [MMInfo]: the score of each provider with its claim flag, the sum of the
    scores, and the claim flag of the market maker *)
Definition MMInfo : Type := gmap AccountId (Z * bool) * Z * bool.

Record LmStorage : Type := mkLmStorage {
  LPShares : gmap (Z * AccountId) Z;
  Pools : gmap (TradingPair * AccountId) MarketMakerConfig;
  PoolIdIndex : gmap AccountId (TradingPair * AccountId);
  Rewards : gmap (Z * AccountId) Z;
  AddLiquidityRecords : gmap (Z * (AccountId * AccountId)) (list (Z * Z));
  WithdrawalRequests : gmap (Z * AccountId) (list (AccountId * Z * Z));
  LiquidityProviders : gmap (Z * AccountId) MMInfo;
  ActiveLMPEpoch : Z;
  SnapshotFlag : option Z;
  WithdrawingEpoch : Z;
}.

#[export] Instance eta_LmStorage : Eta LmStorage := λ r, {|
  LPShares := LPShares r; Pools := Pools r; PoolIdIndex := PoolIdIndex r;
  Rewards := Rewards r; AddLiquidityRecords := AddLiquidityRecords r;
  WithdrawalRequests := WithdrawalRequests r; LiquidityProviders := LiquidityProviders r;
  ActiveLMPEpoch := ActiveLMPEpoch r; SnapshotFlag := SnapshotFlag r;
  WithdrawingEpoch := WithdrawingEpoch r;
|}.

Record Chain : Type := mkChain {
  block_number : Z;
  bank : Bank;
  ocex : OcexStorage;
  lm : LmStorage;
}.

#[export] Instance eta_Chain : Eta Chain := λ r, {|
  block_number := block_number r; bank := bank r; ocex := ocex r; lm := lm r;
|}.

(** Storage at genesis: the default of every item, and the first authorities. *)
Definition ocex_genesis (keys : list AuthorityId) : OcexStorage := {|
  AllowlistedToken := ∅; Accounts := ∅; Proxies := ∅; TradingPairs := ∅; Snapshots := ∅;
  SnapshotNonce := 0; ExchangeState := false; Withdrawals := ∅; IngressQueue := ∅;
  OnChainEvents := []; TotalAssets := ∅;
  Authorities := {[GENESIS_AUTHORITY_SET_ID := mkValidatorSet GENESIS_AUTHORITY_SET_ID keys]};
  NextAuthorities := default_validator_set; ValidatorSetId := GENESIS_AUTHORITY_SET_ID;
  OrderbookOperatorPublicKey := None; LMPEpoch := 0; TraderMetrics := ∅; TotalScores := ∅;
  FinalizeLMPScore := None; LMPConfigs := ∅; ExpectedLMPConfig := None; LMPClaimBlk := ∅;
  PriceOracles := ∅; FeeDistributionConfig := None; AuctionBlockNumber := None; Auction := None;
|}.

Definition lm_genesis : LmStorage := {|
  LPShares := ∅; Pools := ∅; PoolIdIndex := ∅; Rewards := ∅; AddLiquidityRecords := ∅;
  WithdrawalRequests := ∅; LiquidityProviders := ∅; ActiveLMPEpoch := 0; SnapshotFlag := None;
  WithdrawingEpoch := 0;
|}.

(** ** Errors *)
Inductive OcexError : Type :=
| FailedToConvertDecimaltoBalance | AccountNotRegistered | InvalidWithdrawalIndex
| TradingPairIsNotClosed | MainAccountAlreadyRegistered | ProxyAlreadyRegistered
| MainAccountNotFound | ProxyLimitExceeded | TradingPairAlreadyRegistered
| BothAssetsCannotBeSame | TradingPairNotFound | AmountOverflow | ProxyNotFound
| MinimumOneProxyRequired | TradingPairNotRegistered | TradingPairConfigCannotBeZero
| AllowlistedTokenLimitReached | TokenNotAllowlisted | TradingPairConfigUnderflow
| ExchangeNotOperational | InvalidMarketWeightage | LMPConfigNotFound | RewardsNotReady
| InvalidLMPConfig | RewardAlreadyClaimed | BaseNotAllowlisted | QuoteNotAllowlisted
| MinVolGreaterThanMaxVolume | FeeDistributionConfigNotFound | AuctionNotFound
| WithdrawalFeeBurnFailed | TradingFeesBurnFailed | IngressQueueFull
| DepositAmountTooLow | TooManyEgressMessages | InvalidEgressPoolId
| AccountIdCannotBeDecoded.

Inductive LmError : Type :=
| UnknownMarket | ConversionError | InvalidCommission | InvalidExitFee | PoolExists
| NotEnoughQuoteAmount | UnknownPool | PublicDepositsNotAllowed | TotalShareIssuanceIsZero
| InvalidLPAddress | AlreadyClaimed | InvalidTotalScore | PoolForceClosedError
| PoolNotForceClosed | InvalidTotalIssuance | SnapshotInProgress | PriceNotAvailable.

Inductive DispatchError : Type :=
| OcexErr (e : OcexError)
| LmErr (e : LmError)
| BankErr (e : BankError)
| BadOrigin
| Corruption
| OtherErr (s : string).

(** Dispatchables and the functions they call. *)
Abbreviation Call := (M Chain DispatchError).

(** [frame_system::RawOrigin] *)
Inductive Origin : Type := Root | Signed (who : AccountId) | NoOrigin.

Definition ensure_signed (o : Origin) : Call AccountId :=
  match o with Signed who => mret who | _ => fail BadOrigin end.
Definition ensure_root (o : Origin) : Call unit :=
  match o with Root => mret tt | _ => fail BadOrigin end.
Definition ensure_none (o : Origin) : Call unit :=
  match o with NoOrigin => mret tt | _ => fail BadOrigin end.

(** A bank call within a dispatchable; [f] maps its error. *)
Definition bank_call {B} (m : M Bank BankError B) : Call B := λ c,
  match m (bank c) with
  | (Ok b, k) => (Ok b, c <| bank := k |>)
  | (Err e, k) => (Err (BankErr e), c <| bank := k |>)
  | (Panic, k) => (Panic, c <| bank := k |>)
  end.

(** Storage access: [upd f v] writes the item of the OCEX pallet selected by the
    setter. *)
Definition upd_ocex (f : OcexStorage → OcexStorage) : Call unit :=
  modify (λ c, c <| ocex ::= f |>).
Definition upd_lm (f : LmStorage → LmStorage) : Call unit :=
  modify (λ c, c <| lm ::= f |>).
Definition get_ocex {B} (f : OcexStorage → B) : Call B := gets (λ c, f (ocex c)).
Definition get_lm {B} (f : LmStorage → B) : Call B := gets (λ c, f (lm c)).
Definition current_block : Call Z := gets block_number.
End chain.

Abbreviation Call := (M Chain DispatchError).
