(* ===== verification/LmCallbacks.v ===== *)
(** * Liquidity mining: callbacks

    [pallets/liquidity-mining/src/callback.rs], the side of the liquidity-mining
    pallet that the OCEX pallet calls ([LiquidityMiningCrowdSourcePallet]), with
    the helpers of [pallets/liquidity-mining/src/lib.rs] it shares with the
    dispatchables. *)

From S2P Require Import Prelude Decimal Assets Bank Types Orders Chain.

Section callbacks.
Context {D : Decimal} {C : Crypto} {A : Authority} {CU : Currencies}.

(** [d.saturating_mul(Decimal::from(UNIT_BALANCE)).to_u128().ok_or(ConversionError)?] *)
Definition lm_convert (d : dec) : Call Z := ok_or (dec_to_raw d) (LmErr ConversionError).

(** [Pallet::transfer_asset]; the product is the panicking [mul_assign]. *)
Definition lm_transfer_asset (payer payee : AccountId) (amount : dec) (asset : AssetId) :
    Call unit :=
  unit ← lift (unwrap (from_u128 UNIT_BALANCE));
  scaled ← lift (unwrap (op_mul amount unit));
  raw ← ok_or (to_u128 scaled) (LmErr ConversionError);
  bank_call (bank_transfer asset payer payee raw Preserve).

Definition new_epoch (epoch : Z) : Call unit :=
  blk ← current_block;
  upd_lm (λ l, l <| ActiveLMPEpoch := epoch |> <| SnapshotFlag := Some blk |>).

(** The pool a derived account belongs to, looked up in the given market. *)
Definition resolve_pool (market : TradingPair) (pool : AccountId) :
    Call (AccountId * MarketMakerConfig) :=
  l ← get_lm id;
  '(_, market_maker) ← ok_or (PoolIdIndex l !! pool) (LmErr UnknownPool);
  config ← ok_or (Pools l !! (market, market_maker)) (LmErr UnknownPool);
  mret (market_maker, config).

Definition add_liquidity_success (market : TradingPair) (pool lp : AccountId)
    (shared_issued price total_inventory_in_quote : dec) : Call unit :=
  '(_, pool_config) ← resolve_pool market pool;
  new_shared_issued ← lm_convert shared_issued;
  _ ← lm_convert price;
  _ ← lm_convert total_inventory_in_quote;
  bank_call (bank_mint (Asset (share_id pool_config)) lp new_shared_issued) ;;
  epoch ← get_lm ActiveLMPEpoch;
  blk ← current_block;
  upd_lm (λ l, l <| AddLiquidityRecords ::=
    partial_alter (λ o, Some (default [] o ++ [(blk, new_shared_issued)]))
      (epoch, (pool_id pool_config, lp)) |>).

Definition remove_liquidity_success (market : TradingPair) (pool lp : AccountId)
    (base_free quote_free : dec) : Call unit :=
  lm_transfer_asset pool lp base_free (base market) ;;
  lm_transfer_asset pool lp quote_free (quote market).

Definition remove_liquidity_failed (market : TradingPair) (pool lp : AccountId)
    (burn_frac total_shares base_free quote_free base_required quote_required : dec) : Call unit :=
  let shares_burned := saturating_mul total_shares burn_frac in
  _ ← lm_convert burn_frac;
  shares_burned ← lm_convert shares_burned;
  '(_, pool_config) ← resolve_pool market pool;
  bank_call (bank_mint (Asset (share_id pool_config)) lp shares_burned) ;;
  _ ← lm_convert base_free;
  _ ← lm_convert quote_free;
  _ ← lm_convert base_required;
  _ ← lm_convert quote_required;
  mret tt.

Definition pool_force_close_success (market : TradingPair) (pool : AccountId)
    (base_freed quote_freed : dec) : Call unit :=
  '(market_maker, pool_config) ← resolve_pool market pool;
  upd_lm (λ l, l <| Pools ::=
    <[(market, market_maker) := pool_config <| force_closed := true |>]> |>) ;;
  _ ← lm_convert base_freed;
  _ ← lm_convert quote_freed;
  mret tt.

Definition lm_stop_accepting_lmp_withdrawals (epoch : Z) : Call unit :=
  upd_lm (λ l, l <| WithdrawingEpoch := epoch |>).

Definition is_valid_pool_id (l : LmStorage) (pool : AccountId) : bool :=
  bool_decide (is_Some (PoolIdIndex l !! pool)).
End callbacks.
