(* ===== verification/Ocex.v ===== *)
(** * The OCEX pallet

    [pallets/ocex/src/lib.rs], [session.rs] and the on-chain part of [lmp.rs]: the
    dispatchables of the order book's custody pallet, its hooks, and the functions
    other pallets call.  [ocex_dispatch] gathers the dispatchables. *)

From S2P Require Import Prelude Decimal Assets Bank Types Orders Settlement Chain LmCallbacks.

(** [T: Config]: the constants and the pluggable parts of the pallet. *)
Class OcexConfig `{D : Decimal, C : Crypto, A : Authority, CU : Currencies} := {
  PalletId : bytes;
  LMPRewardsPalletId : bytes;
  OBWithdrawalLimit : Z;
  OBIngressLimit : Z;
  MinimumDeposit : Z;
  MaxEgressMessages : Z;
  GovernanceOrigin : Origin → bool;
  (** [T::CrossChainGadget::parachain_withdraw] *)
  parachain_withdraw : AccountId → AssetId → Z → bytes → option AssetId → option Z → H160 →
    Call unit;
  (** [SnapshotSummary::encode] *)
  enc_summary : SnapshotSummary → bytes;
}.

(** [impl CrossChainWithdraw for ()] *)
Definition stub_parachain_withdraw `{Decimal, Crypto, Authority, Currencies}
    (_ : AccountId) (_ : AssetId) (_ : Z) (_ : bytes) (_ : option AssetId) (_ : option Z)
    (_ : H160) : Call unit := mret tt.

Section ocex.
Context {D : Decimal} {C : Crypto} {A : Authority} {CU : Currencies} {P : Percents}.
Context {CFG : OcexConfig}.

Definition DEPOSIT_MAX : Z := 1000000000000000000000000000.
Definition WITHDRAWAL_MAX : Z := 1000000000000000000000000000.
Definition TRADE_OPERATION_MIN_VALUE : Z := 10000.
(** [AllowlistedTokenLimit::get()] *)
Definition ALLOWLISTED_TOKEN_LIMIT : Z := 50.

Definition ocex_fail {B} (e : OcexError) : Call B := fail (OcexErr e).
Definition require (b : bool) (e : OcexError) : Call unit := ensure b (OcexErr e).
Definition ensure_governance (o : Origin) : Call unit := ensure (GovernanceOrigin o) BadOrigin.

Definition get_pallet_account : AccountId := into_account_truncating PalletId.
Definition get_pot_account : AccountId := into_account_truncating FEE_POT_PALLET_ID.
Definition get_system_accounts : list AccountId := [get_pallet_account; get_pot_account].

Definition new_random_id (prefix : option (byte_array 4)) : Call H160 :=
  blk ← current_block;
  mret (vapp (default (vreplicate 4 x00) prefix) (blake2_128 (le_bytes 4 blk)) : H160).

(** [<IngressMessages<T>>::try_mutate(current_blk, |q| q.try_push(m))] *)
Definition ingress_at (o : OcexStorage) (blk : Z) : list IngressMessages :=
  default [] (IngressQueue o !! blk).
Definition push_ingress (m : IngressMessages) : Call unit :=
  blk ← current_block;
  q ← get_ocex (λ o, ingress_at o blk);
  q' ← ok_or (try_push OBIngressLimit q m) (OcexErr IngressQueueFull);
  upd_ocex (λ o, o <| IngressQueue ::= <[blk := q']> |>).

(** [Decimal::from(amount).checked_div(Decimal::from(UNIT_BALANCE)).ok_or(e)?] *)
Definition raw_to_book (amount : Z) (e : OcexError) : Call dec :=
  o ← lift (unwrap (raw_to_dec amount));
  ok_or o (OcexErr e).

(** [d.saturating_mul(UNIT_BALANCE).to_u128().ok_or(..)?] *)
Definition book_to_raw (d : dec) : Call Z :=
  ok_or (dec_to_raw d) (OcexErr FailedToConvertDecimaltoBalance).

Definition bank_call_as (e : OcexError) (m : M Bank BankError unit) : Call unit :=
  map_err (λ _, OcexErr e) (bank_call m).

Definition transfer_asset (payer payee : AccountId) (amount : Z) (asset : AssetId) : Call unit :=
  match asset with
  | Polkadex => bank_call (bank_transfer Polkadex payer payee amount Preserve)
  | Asset id => bank_call (bank_transfer (Asset id) payer payee amount Expendable)
  end.

(** ** Accounts and proxies *)
Definition register_user (main_account proxy : AccountId) : Call unit :=
  o ← get_ocex id;
  require (ExchangeState o) ExchangeNotOperational ;;
  require (bool_decide (Accounts o !! main_account = None)) MainAccountAlreadyRegistered ;;
  require (bool_decide (Proxies o !! proxy = None)) ProxyAlreadyRegistered ;;
  account_info ← ok_or (add_proxy (account_info_new main_account) proxy)
                   (OcexErr ProxyLimitExceeded);
  upd_ocex (λ o, o <| Accounts ::= <[main_account := account_info]> |>) ;;
  push_ingress (RegisterUser main_account proxy) ;;
  upd_ocex (λ o, o <| Proxies ::= <[proxy := main_account]> |>).

Definition register_main_account (origin : Origin) (proxy : AccountId) : Call unit :=
  main_account ← ensure_signed origin;
  register_user main_account proxy.

Definition add_proxy_account (origin : Origin) (proxy : AccountId) : Call unit :=
  main_account ← ensure_signed origin;
  o ← get_ocex id;
  require (ExchangeState o) ExchangeNotOperational ;;
  require (bool_decide (is_Some (Accounts o !! main_account))) MainAccountNotFound ;;
  require (bool_decide (Proxies o !! proxy = None)) ProxyAlreadyRegistered ;;
  match Accounts o !! main_account with
  | Some account_info =>
      account_info ← ok_or (add_proxy account_info proxy) (OcexErr ProxyLimitExceeded);
      push_ingress (AddProxy main_account proxy) ;;
      upd_ocex (λ o, o <| Accounts ::= <[main_account := account_info]> |>) ;;
      upd_ocex (λ o, o <| Proxies ::= <[proxy := main_account]> |>)
  | None => mret tt
  end.

Definition remove_proxy_account (origin : Origin) (proxy : AccountId) : Call unit :=
  main_account ← ensure_signed origin;
  o ← get_ocex id;
  require (ExchangeState o) ExchangeNotOperational ;;
  require (bool_decide (is_Some (Accounts o !! main_account))) MainAccountNotFound ;;
  match Accounts o !! main_account with
  | Some account_info =>
      let proxies := ai_proxies account_info in
      require (1 <? Z.of_nat (length proxies)) MinimumOneProxyRequired ;;
      '(position, _) ← ok_or (list_find (λ account, account = proxy) proxies)
                         (OcexErr ProxyNotFound);
      push_ingress (RemoveProxy main_account proxy) ;;
      upd_ocex (λ o, o <| Proxies ::= delete proxy |>) ;;
      upd_ocex (λ o, o <| Accounts ::=
        <[main_account := mkAccountInfo (ai_main_account account_info) (delete position proxies)
            (ai_balances account_info) (ai_fee_config account_info)]> |>)
  | None => mret tt
  end.

(** ** Markets *)
Definition set_operational (c : TradingPairConfig) (b : bool) : TradingPairConfig :=
  mkTradingPairConfig (base_asset c) (quote_asset c) (price_tick_size c) (min_volume c)
    (max_volume c) (qty_step_size c) b (base_asset_precision c) (quote_asset_precision c).

Definition close_trading_pair (origin : Origin) (b q : AssetId) : Call unit :=
  ensure_governance origin ;;
  o ← get_ocex id;
  require (ExchangeState o) ExchangeNotOperational ;;
  require (bool_decide (b ≠ q)) BothAssetsCannotBeSame ;;
  trading_pair ← ok_or (TradingPairs o !! (b, q)) (OcexErr TradingPairNotFound);
  let trading_pair := set_operational trading_pair false in
  upd_ocex (λ o, o <| TradingPairs ::= <[(b, q) := trading_pair]> |>) ;;
  push_ingress (CloseTradingPair trading_pair).

Definition open_trading_pair (origin : Origin) (b q : AssetId) : Call unit :=
  ensure_governance origin ;;
  o ← get_ocex id;
  require (ExchangeState o) ExchangeNotOperational ;;
  require (bool_decide (b ≠ q)) BothAssetsCannotBeSame ;;
  trading_pair ← ok_or (TradingPairs o !! (b, q)) (OcexErr TradingPairNotFound);
  let trading_pair := set_operational trading_pair true in
  upd_ocex (λ o, o <| TradingPairs ::= <[(b, q) := trading_pair]> |>) ;;
  push_ingress (OpenTradingPair trading_pair).

Definition validate_trading_pair_config (min_vol max_vol tick step : Z) : Call unit :=
  require ((0 <? min_vol) && (0 <? max_vol) && (0 <? tick) && (0 <? step))
    TradingPairConfigCannotBeZero ;;
  require ((min_vol <=? DEPOSIT_MAX) && (max_vol <=? DEPOSIT_MAX)
           && (tick <=? DEPOSIT_MAX) && (step <=? DEPOSIT_MAX)) AmountOverflow ;;
  require ((TRADE_OPERATION_MIN_VALUE <=? min_vol) && (TRADE_OPERATION_MIN_VALUE <? max_vol))
    TradingPairConfigUnderflow ;;
  require (min_vol <? max_vol) MinVolGreaterThanMaxVolume.

(** The four amounts in book units; any failing division is an underflow. *)
Definition convert_config (min_vol max_vol tick step : Z) : Call (dec * dec * dec * dec) :=
  min_v ← lift (unwrap (raw_to_dec min_vol));
  max_v ← lift (unwrap (raw_to_dec max_vol));
  t ← lift (unwrap (raw_to_dec tick));
  st ← lift (unwrap (raw_to_dec step));
  match min_v, max_v, t, st with
  | Some min_v, Some max_v, Some t, Some st => mret (min_v, max_v, t, st)
  | _, _, _, _ => ocex_fail TradingPairConfigUnderflow
  end.

Definition register_trading_pair (origin : Origin) (b q : AssetId)
    (min_vol max_vol tick step : Z) : Call unit :=
  ensure_governance origin ;;
  o ← get_ocex id;
  require (ExchangeState o) ExchangeNotOperational ;;
  require (bool_decide (b ≠ q)) BothAssetsCannotBeSame ;;
  require (bool_decide (TradingPairs o !! (b, q) = None)) TradingPairAlreadyRegistered ;;
  require (bool_decide (TradingPairs o !! (q, b) = None)) TradingPairAlreadyRegistered ;;
  validate_trading_pair_config min_vol max_vol tick step ;;
  require (bool_decide (b ∈ AllowlistedToken o)) BaseNotAllowlisted ;;
  require (bool_decide (q ∈ AllowlistedToken o)) QuoteNotAllowlisted ;;
  '(min_v, max_v, t, st) ← convert_config min_vol max_vol tick step;
  let info := {| base_asset := b; quote_asset := q; min_volume := min_v; max_volume := max_v;
                 price_tick_size := t; qty_step_size := st; operational_status := true;
                 base_asset_precision := wrap 8 (scale st);
                 quote_asset_precision := wrap 8 (scale t) |} in
  upd_ocex (λ o, o <| TradingPairs ::= <[(b, q) := info]> |>) ;;
  push_ingress (OpenTradingPair info).

Definition update_trading_pair (origin : Origin) (b q : AssetId)
    (min_vol max_vol tick step : Z) : Call unit :=
  ensure_governance origin ;;
  o ← get_ocex id;
  require (ExchangeState o) ExchangeNotOperational ;;
  require (bool_decide (b ≠ q)) BothAssetsCannotBeSame ;;
  require (bool_decide (is_Some (TradingPairs o !! (b, q)))) TradingPairNotRegistered ;;
  let is_pair_in_operation :=
    match TradingPairs o !! (b, q) with Some c => operational_status c | None => false end in
  require (negb is_pair_in_operation) TradingPairIsNotClosed ;;
  validate_trading_pair_config min_vol max_vol tick step ;;
  '(min_v, max_v, t, st) ← convert_config min_vol max_vol tick step;
  let info := {| base_asset := b; quote_asset := q; min_volume := min_v; max_volume := max_v;
                 price_tick_size := t; qty_step_size := st; operational_status := true;
                 base_asset_precision := saturated_into 8 (scale t);
                 quote_asset_precision := saturated_into 8 (scale st) |} in
  upd_ocex (λ o, o <| TradingPairs ::= <[(b, q) := info]> |>) ;;
  push_ingress (UpdateTradingPair info).

(** ** Deposits and withdrawal requests *)
Definition total_assets (o : OcexStorage) (asset : AssetId) : dec :=
  default dec_zero (TotalAssets o !! asset).

Definition do_deposit (deposit_id : H160) (user : AccountId) (asset : AssetId) (amount : Z) : Call unit :=
  o ← get_ocex id;
  require (ExchangeState o) ExchangeNotOperational ;;
  require (bool_decide (asset ∈ AllowlistedToken o)) TokenNotAllowlisted ;;
  require (amount <=? DEPOSIT_MAX) AmountOverflow ;;
  require (MinimumDeposit <=? amount) DepositAmountTooLow ;;
  converted_amount ← raw_to_book amount FailedToConvertDecimaltoBalance;
  (if bool_decide (Accounts o !! user = None) then register_user user user else mret tt) ;;
  transfer_asset user get_pallet_account amount asset ;;
  total ← get_ocex (λ o, total_assets o asset);
  expected_total_amount ← ok_or (checked_add converted_amount total) (OcexErr AmountOverflow);
  upd_ocex (λ o, o <| TotalAssets ::= <[asset := expected_total_amount]> |>) ;;
  push_ingress (Deposit deposit_id user asset converted_amount).

Definition deposit (origin : Origin) (asset : AssetId) (amount : Z) : Call unit :=
  user ← ensure_signed origin;
  deposit_id ← new_random_id None;
  do_deposit deposit_id user asset amount.

Definition withdrawal_from_orderbook (user proxy_account : AccountId) (asset : AssetId)
    (amount : Z) (do_force_withdraw : bool) : Call unit :=
  o ← get_ocex id;
  require (ExchangeState o) ExchangeNotOperational ;;
  require (bool_decide (asset ∈ AllowlistedToken o)) TokenNotAllowlisted ;;
  require (bool_decide (is_Some (Accounts o !! user))) AccountNotRegistered ;;
  require (amount <=? WITHDRAWAL_MAX) AmountOverflow ;;
  converted_amount ← raw_to_book amount FailedToConvertDecimaltoBalance;
  push_ingress (DirectWithdrawal proxy_account asset converted_amount do_force_withdraw).

(** ** Paying out withdrawals *)

(** Runs [m] and reports whether it succeeded. *)
Definition try_call {B} (m : Call B) : Call bool := λ c,
  match m c with
  | (Ok _, c') => (Ok true, c')
  | (Err _, c') => (Ok false, c')
  | (Panic, c') => (Panic, c')
  end.

Definition on_idle_withdrawal_processor (w : Withdrawal) : Call unit :=
  transactional (
    converted_withdrawal ← book_to_raw (wd_amount w);
    transfer_asset get_pallet_account (wd_main_account w) converted_withdrawal (wd_asset w) ;;
    match wd_destination w with
    | Some (Polkadot multi_location None) =>
        parachain_withdraw (wd_main_account w) (wd_asset w) converted_withdrawal multi_location
          None None (wd_id w)
    | Some (Polkadot multi_location (Some (fee_asset_id, fee_amount))) =>
        parachain_withdraw (wd_main_account w) (wd_asset w) converted_withdrawal multi_location
          (Some fee_asset_id) (Some fee_amount) (wd_id w)
    | None => mret tt
    end).

(** [while let Some(w) = vector.pop()]: the vector is consumed from its end. *)
Fixpoint withdraw_each (ws failed processed : list Withdrawal) :
    Call (list Withdrawal * list Withdrawal) :=
  match ws with
  | [] => mret (failed, processed)
  | w :: ws' =>
      ok ← try_call (on_idle_withdrawal_processor w);
      if (ok : bool) then withdraw_each ws' failed (processed ++ [w])
      else withdraw_each ws' (failed ++ [w]) processed
  end.
Definition do_withdraw (withdrawal_vector : list Withdrawal) :
    Call (list Withdrawal * list Withdrawal) :=
  withdraw_each (rev withdrawal_vector) [] [].

Definition is_nil {B} (l : list B) : bool := match l with [] => true | _ => false end.

Definition claim_withdraw (origin : Origin) (snapshot_id : Z) (account : AccountId) : Call unit :=
  _ ← ensure_signed origin;
  o ← get_ocex id;
  require (bool_decide (is_Some (Withdrawals o !! snapshot_id))) InvalidWithdrawalIndex ;;
  let btree_map := default ∅ (Withdrawals o !! snapshot_id) in
  withdrawal_vector ← ok_or (btree_map !! account) (OcexErr InvalidWithdrawalIndex);
  '(failed, _) ← do_withdraw withdrawal_vector;
  let btree_map := delete account btree_map in
  let btree_map := if is_nil failed then btree_map else <[account := failed]> btree_map in
  upd_ocex (λ o, o <| Withdrawals ::= <[snapshot_id := btree_map]> |>) ;;
  if is_nil (map_to_list btree_map)
  then upd_ocex (λ o, o <| Withdrawals ::= delete snapshot_id |>)
  else mret tt.

Definition create_withdrawal_tree (pending : list Withdrawal) : WithdrawalsMap :=
  foldl (λ m w, <[wd_main_account w := default [] (m !! wd_main_account w) ++ [w]]> m) ∅ pending.

Definition settle_withdrawal_fees (fees : list Fees) : Call unit :=
  for_each fees (λ fee,
    match fees_asset fee with
    | Polkadex =>
        bank_call_as WithdrawalFeeBurnFailed (bank_burn_settle get_pallet_account (fees_amount fee))
    | _ =>
        bank_call (bank_transfer Polkadex get_pallet_account get_pot_account (fees_amount fee)
          Preserve)
    end).

(** ** Liquidity mining scores and rewards *)
Fixpoint record_scores (epoch : Z) (pair : TradingPair) (l : list (AccountId * (dec * dec)))
    (counter : Z) : Call Z :=
  match l with
  | [] => mret counter
  | (main, (score, fees_paid)) :: l' =>
      upd_ocex (λ o, o <| TraderMetrics ::= <[(epoch, pair, main) := (score, fees_paid, false)]> |>) ;;
      let counter := sat_sub counter 1 in
      if counter =? 0 then mret counter else record_scores epoch pair l' counter
  end.

Definition update_lmp_scores (metrics : TradingPairMetricsMap) : Call unit :=
  o ← get_ocex id;
  match FinalizeLMPScore o with
  | None => mret tt
  | Some finalizing_epoch =>
      upd_ocex (λ o, o <| FinalizeLMPScore := None |>) ;;
      config ← ok_or (LMPConfigs o !! finalizing_epoch) (OcexErr LMPConfigNotFound);
      fold_m (λ counter '(market, (map, totals)),
        counter ← record_scores finalizing_epoch market (btree_to_list map) counter;
        upd_ocex (λ o, o <| TotalScores ::= <[(finalizing_epoch, market) := totals]> |>) ;;
        mret counter)
        (max_accounts_rewarded config) (btree_to_list metrics) ;;
      current_blk ← current_block;
      upd_ocex (λ o, o <| LMPClaimBlk ::=
        <[finalizing_epoch := sat_add 32 current_blk (claim_safety_period config)]> |>) ;;
      let next_finalizing_epoch := sat_add 16 finalizing_epoch 1 in
      if next_finalizing_epoch <? LMPEpoch o
      then upd_ocex (λ o, o <| FinalizeLMPScore := Some next_finalizing_epoch |>)
      else mret tt
  end.

Definition calculate_lmp_rewards (o : OcexStorage) (main : AccountId) (epoch : Z)
    (market : TradingPair) (config : LMPEpochConfig) : dec * dec * bool :=
  let '(total_score, total_fees_paid) :=
    default (dec_zero, dec_zero) (TotalScores o !! (epoch, market)) in
  let '(score, fees_paid, is_claimed) :=
    default (dec_zero, dec_zero, false) (TraderMetrics o !! (epoch, market, main)) in
  let market_making_portion := default dec_zero (checked_div score total_score) in
  let trading_rewards_portion := default dec_zero (checked_div fees_paid total_fees_paid) in
  (saturating_mul (total_liquidity_mining_rewards config) market_making_portion,
   saturating_mul (total_trading_rewards config) trading_rewards_portion,
   is_claimed).

Definition get_lmp_rewards (o : OcexStorage) (main : AccountId) (epoch : Z)
    (market : TradingPair) : dec * dec * bool :=
  match LMPConfigs o !! epoch with
  | Some config => calculate_lmp_rewards o main epoch market config
  | None => (dec_zero, dec_zero, false)
  end.

Definition do_claim_lmp_rewards (main : AccountId) (epoch : Z) (market : TradingPair) : Call Z :=
  o ← get_ocex id;
  claim_blk ← ok_or (LMPClaimBlk o !! epoch) (OcexErr RewardsNotReady);
  current_blk ← current_block;
  require (claim_blk <=? current_blk) RewardsNotReady ;;
  config ← ok_or (LMPConfigs o !! epoch) (OcexErr LMPConfigNotFound);
  let '(mm_rewards, trading_rewards, is_claimed) :=
    calculate_lmp_rewards o main epoch market config in
  require (negb is_claimed) RewardAlreadyClaimed ;;
  total ← book_to_raw (saturating_add mm_rewards trading_rewards);
  let rewards_account := into_account_truncating LMPRewardsPalletId in
  bank_call (bank_transfer Polkadex rewards_account main total Expendable) ;;
  upd_ocex (λ o, o <| TraderMetrics ::= partial_alter
    (λ m, let '(score, fees, _) := default (dec_zero, dec_zero, false) m in
          Some (score, fees, true)) (epoch, market, main) |>) ;;
  mret total.

Definition claim_lmp_rewards (origin : Origin) (epoch : Z) (market : TradingPair) : Call unit :=
  main ← ensure_signed origin;
  do_claim_lmp_rewards main epoch market ;;
  mret tt.

(** [Decimal::from(n).div(unit)], which panics when either step fails *)
Definition div_unit (n : Z) : Call dec := lift (unwrap (mjoin (raw_to_dec n))).

Definition add_market_config (config : LMPEpochConfig) (w : LMPMarketConfigWrapper) :
    Call LMPEpochConfig :=
  o ← get_ocex id;
  let pair := lw_trading_pair w in
  require (bool_decide (is_Some (TradingPairs o !! (base pair, quote pair))))
    TradingPairNotRegistered ;;
  wt ← div_unit (lw_market_weightage w);
  fees ← div_unit (lw_min_fees_paid w);
  volume ← div_unit (lw_min_maker_volume w);
  spread ← div_unit (lw_max_spread w);
  depth ← div_unit (lw_min_depth w);
  mret (config <| lmp_config ::= <[pair := mkLMPMarketConfig wt fees volume spread depth]> |>).

Definition set_lmp_epoch_config (origin : Origin) (lm_rewards trading_rewards : option Z)
    (markets : list LMPMarketConfigWrapper) (max_accounts : option Z) (safety : option Z) :
    Call unit :=
  ensure_governance origin ;;
  o ← get_ocex id;
  let config := default default_lmp_epoch_config (ExpectedLMPConfig o) in
  config ← match lm_rewards with
           | Some n => d ← div_unit n; mret (config <| total_liquidity_mining_rewards := d |>)
           | None => mret config
           end;
  config ← match trading_rewards with
           | Some n => d ← div_unit n; mret (config <| total_trading_rewards := d |>)
           | None => mret config
           end;
  '(total_percent, config) ←
    fold_m (λ '(percent, config) w,
      config ← add_market_config config w;
      mret (sat_add 128 percent (lw_market_weightage w), config)) (0, config) markets;
  require (total_percent =? UNIT_BALANCE) InvalidMarketWeightage ;;
  let config := match max_accounts with
                | Some n => config <| max_accounts_rewarded := n |>
                | None => config
                end in
  let config := match safety with
                | Some n => config <| claim_safety_period := n |>
                | None => config
                end in
  require (lmp_config_verify config) InvalidLMPConfig ;;
  upd_ocex (λ o, o <| ExpectedLMPConfig := Some config |>).

(** ** Egress messages of a snapshot *)
Definition distribute_fee (asset : AssetId) (fees_dec : dec) : Call unit :=
  fees ← book_to_raw fees_dec;
  match asset with
  | Asset _ => transfer_asset get_pallet_account get_pot_account fees asset
  | Polkadex =>
      c ← get_state;
      match FeeDistributionConfig (ocex c) with
      | Some distribution =>
          require (fees <? reducible_balance (bank c) Polkadex get_pallet_account Preserve)
            AmountOverflow ;;
          let fee_to_be_burnt := percent_mul (burn_ration distribution) fees in
          let fee_to_be_distributed := sat_sub fees fee_to_be_burnt in
          bank_call_as TradingFeesBurnFailed (bank_burn_settle get_pallet_account fee_to_be_burnt) ;;
          transfer_asset get_pallet_account (recipient_address distribution)
            fee_to_be_distributed asset
      | None => bank_call_as TradingFeesBurnFailed (bank_burn_settle get_pallet_account fees)
      end
  end.

(** The running average of the price oracle. *)
Definition update_price (old : option (dec * dec)) (price : dec) : dec * dec :=
  match old with
  | Some (old_price, ticks) =>
      let sum := saturating_add (saturating_mul old_price ticks) price in
      let ticks := saturating_add ticks dec_one in
      (default old_price (checked_div sum ticks), ticks)
  | None => (price, dec_one)
  end.

(** Pays the freed funds of a pool from custody to the pool account. *)
Definition release_to_pool (market : TradingPairConfig) (pool : AccountId)
    (base_freed quote_freed : dec) : Call unit :=
  l ← get_lm id;
  require (is_valid_pool_id l pool) InvalidEgressPoolId ;;
  base_amount ← book_to_raw base_freed;
  quote_amount ← book_to_raw quote_freed;
  transfer_asset get_pallet_account pool base_amount (base_asset market) ;;
  transfer_asset get_pallet_account pool quote_amount (quote_asset market).

Definition process_one_egress (msg : EgressMessages) : Call unit :=
  match msg with
  | TradingFees fees_map =>
      for_each (btree_to_list fees_map) (λ '(asset, fees), distribute_fee asset fees)
  | AddLiquidityResult market pool lp shared_issued price total_inventory =>
      add_liquidity_success (pair_from (quote_asset market) (base_asset market)) pool lp
        shared_issued price total_inventory
  | RemoveLiquidityResult market pool lp base_free quote_free =>
      release_to_pool market pool base_free quote_free ;;
      remove_liquidity_success (pair_from (quote_asset market) (base_asset market)) pool lp
        base_free quote_free
  | RemoveLiquidityFailed market pool lp frac total_shares base_free quote_free
      base_reserved quote_reserved =>
      remove_liquidity_failed (pair_from (quote_asset market) (base_asset market)) pool lp
        frac total_shares base_free quote_free base_reserved quote_reserved
  | PoolForceClosed market pool base_freed quote_freed =>
      release_to_pool market pool base_freed quote_freed ;;
      pool_force_close_success (pair_from (quote_asset market) (base_asset market)) pool
        base_freed quote_freed
  | PriceOracle price_map =>
      upd_ocex (λ o, o <| PriceOracles ::= λ old,
        foldl (λ m '(k, price), <[k := update_price (m !! k) price]> m) old
          (btree_to_list price_map) |>)
  end.

Definition process_egress_msg (msgs : list EgressMessages) : Call unit :=
  require (Z.of_nat (length msgs) <=? MaxEgressMessages) TooManyEgressMessages ;;
  for_each msgs process_one_egress.

(** ** Snapshots *)
Fixpoint pay_withdrawals (l : list (AccountId * list Withdrawal)) (failed_map : WithdrawalsMap) :
    Call WithdrawalsMap :=
  match l with
  | [] => mret failed_map
  | (account, ws) :: l' =>
      '(failed, _) ← do_withdraw ws;
      pay_withdrawals l' (if is_nil failed then failed_map else <[account := failed]> failed_map)
  end.

Definition submit_snapshot (origin : Origin) (summary : SnapshotSummary) : Call unit :=
  transactional (
    ensure_none origin ;;
    match trader_metrics summary with
    | Some metrics => update_lmp_scores metrics
    | None => mret tt
    end ;;
    process_egress_msg (egress_messages summary) ;;
    (if is_nil (withdrawals summary) then mret tt
     else
       failed ← pay_withdrawals
         (btree_to_list (create_withdrawal_tree (withdrawals summary))) ∅;
       (if is_nil (map_to_list failed) then mret tt
        else upd_ocex (λ o, o <| Withdrawals ::= <[snapshot_id summary := failed]> |>)) ;;
       settle_withdrawal_fees (get_fees summary)) ;;
    let id := snapshot_id summary in
    upd_ocex (λ o, o <| SnapshotNonce := id |>) ;;
    upd_ocex (λ o, o <| Snapshots ::= <[id := summary]> |>) ;;
    push_ingress WithdrawTradingFees ;;
    upd_ocex (λ o, o <| IngressQueue ::=
      filter (λ kv, last_processed_blk summary < kv.1) |>)).

Definition force_submit_snapshot (origin : Origin) (summary : SnapshotSummary) : Call unit :=
  ensure_root origin ;;
  upd_ocex (λ o, o <| SnapshotNonce := snapshot_id summary |>) ;;
  upd_ocex (λ o, o <| Snapshots ::= <[snapshot_id summary := summary]> |>).

(** [InvalidTransaction::Custom(code)] *)
Abbreviation Validity := (res Z unit).

Definition THRESHOLD : Z := 51.

Fixpoint check_signatures (authorities : list AuthorityId) (payload : bytes) (seen : gset Z)
    (sigs : list (Z * AuthoritySig)) : Validity :=
  match sigs with
  | [] => Ok tt
  | (index, signature) :: sigs' =>
      if bool_decide (index ∈ seen) then Err 16
      else match authorities !! Z.to_nat index with
           | None => Err 12
           | Some auth =>
               if auth_verify auth payload signature
               then check_signatures authorities payload ({[index]} ∪ seen) sigs'
               else Err 12
           end
  end.

Definition required_signatures (authorities : list AuthorityId) : Z :=
  Z.max (percent_mul THRESHOLD (Z.of_nat (length authorities))) 1.

Definition validate_snapshot (o : OcexStorage) (summary : SnapshotSummary)
    (signatures : list (Z * AuthoritySig)) : Validity :=
  if negb (sat_add 64 (SnapshotNonce o) 1 =? snapshot_id summary) then Err 10
  else if OBWithdrawalLimit <? wrap 32 (Z.of_nat (length (withdrawals summary))) then Err 13
  else
    let active_set_id := ValidatorSetId o in
    if negb (validator_set_id summary =? active_set_id) then Err 14
    else
      let authorities :=
        validators (default default_validator_set (Authorities o !! active_set_id)) in
      if is_nil authorities then Err 15
      else if Z.of_nat (length signatures) <? required_signatures authorities then Err 11
      else check_signatures authorities (enc_summary summary) ∅ signatures.

(** ** Auctions of collected fees *)
Definition create_auction : Call unit :=
  c ← get_state;
  let fees := foldl (λ m asset,
    match asset with
    | Polkadex => m
    | Asset id =>
        let b := reducible_balance (bank c) (Asset id) get_pot_account Preserve in
        if minimum_balance (bank c) (Asset id) <? b then <[id := b]> m else m
    end) ∅ (btree_elements (AllowlistedToken (ocex c))) in
  fee_config ← ok_or (FeeDistributionConfig (ocex c)) (OcexErr FeeDistributionConfigNotFound);
  let next := sat_add 32 (block_number c) (auction_duration fee_config) in
  upd_ocex (λ o, o <| AuctionBlockNumber := Some next |>) ;;
  upd_ocex (λ o, o <| Auction := Some (mkAuctionInfo fees None 0) |>).

Definition close_auction : Call unit :=
  o ← get_ocex id;
  auction_info ← ok_or (Auction o) (OcexErr AuctionNotFound);
  match highest_bidder auction_info with
  | None => mret tt
  | Some bidder =>
      fee_config ← ok_or (FeeDistributionConfig o) (OcexErr FeeDistributionConfigNotFound);
      for_each (btree_to_list (fee_info auction_info)) (λ '(asset_id, fee),
        bank_call (bank_transfer (Asset asset_id) get_pot_account bidder fee Preserve)) ;;
      let total := highest_bid auction_info in
      modify (λ c, c <| bank ::= bank_unreserve bidder total |>) ;;
      let amount_to_be_burnt := percent_mul (burn_ration fee_config) total in
      let transferable_amount := sat_sub total amount_to_be_burnt in
      bank_call (bank_transfer Polkadex bidder (recipient_address fee_config)
        transferable_amount Preserve) ;;
      bank_call_as TradingFeesBurnFailed (bank_burn_settle bidder amount_to_be_burnt)
  end.

(** ** Epochs of the liquidity mining programme ([session.rs]) *)
Definition EPOCH_LENGTH : Z := 201600.

Definition should_start_new_epoch (n : Z) : bool := saturated_into 32 n mod EPOCH_LENGTH =? 0.

(** Both messages or none; a full queue is only logged. *)
Definition announce_epoch (n epoch : Z) (config : LMPEpochConfig) : Call unit :=
  q ← get_ocex (λ o, ingress_at o n);
  match try_push OBIngressLimit q (NewLMPEpoch epoch) with
  | Some q' =>
      match try_push OBIngressLimit q' (LMPConfigMsg config) with
      | Some q'' => upd_ocex (λ o, o <| IngressQueue ::= <[n := q'']> |>)
      | None => mret tt
      end
  | None => mret tt
  end.

Definition start_new_epoch (n : Z) : Call unit :=
  o ← get_ocex id;
  match ExpectedLMPConfig o with
  | None => mret tt
  | Some config =>
      let current_epoch := LMPEpoch o in
      (if (current_epoch =? 0) && bool_decide (LMPConfigs o !! current_epoch = None)
       then upd_ocex (λ o, o <| LMPConfigs ::= <[current_epoch := config]> |>) else mret tt) ;;
      (if bool_decide (FinalizeLMPScore o = None)
       then upd_ocex (λ o, o <| FinalizeLMPScore := Some current_epoch |>) else mret tt) ;;
      let current_epoch := sat_add 16 current_epoch 1 in
      upd_ocex (λ o, o <| LMPEpoch := current_epoch |>) ;;
      upd_ocex (λ o, o <| LMPConfigs ::= <[current_epoch := config]> |>) ;;
      new_epoch current_epoch ;;
      announce_epoch n current_epoch config
  end.

Definition should_stop_accepting_lmp_withdrawals (n : Z) : bool :=
  sat_add 32 (saturated_into 32 n) 7200 mod EPOCH_LENGTH =? 0.

Definition stop_accepting_lmp_withdrawals : Call unit :=
  epoch ← get_ocex LMPEpoch;
  lm_stop_accepting_lmp_withdrawals epoch.

Definition start_new_epoch_lmp (origin : Origin) : Call unit :=
  ensure_root origin ;;
  current_blk ← current_block;
  start_new_epoch current_blk.

(** ** Hooks *)
Definition on_initialize (n : Z) : Call unit :=
  (if should_start_new_epoch n then start_new_epoch n else mret tt) ;;
  (if should_stop_accepting_lmp_withdrawals n then stop_accepting_lmp_withdrawals else mret tt) ;;
  o ← get_ocex id;
  match AuctionBlockNumber o with
  | Some auction_block =>
      if n =? auction_block then swallow close_auction ;; swallow create_auction else mret tt
  | None => swallow create_auction
  end ;;
  if 0 <? Z.of_nat (length (OnChainEvents o))
  then upd_ocex (λ o, o <| OnChainEvents := [] |>) else mret tt.

(** ** Administration *)
Definition set_snapshot (origin : Origin) (new_snapshot_id : Z) : Call unit :=
  ensure_governance origin ;;
  upd_ocex (λ o, o <| SnapshotNonce := new_snapshot_id |>).

Definition set_exchange_state (origin : Origin) (state : bool) : Call unit :=
  ensure_governance origin ;;
  upd_ocex (λ o, o <| ExchangeState := state |>) ;;
  push_ingress (SetExchangeState state).

(** [BoundedBTreeSet::try_insert] *)
Definition try_insert (limit : Z) (s : gset AssetId) (x : AssetId) : option (gset AssetId) :=
  if (Z.of_nat (size s) <? limit) || bool_decide (x ∈ s) then Some ({[x]} ∪ s) else None.

Definition allowlist_token (origin : Origin) (token : AssetId) : Call unit :=
  ensure_governance origin ;;
  tokens ← get_ocex AllowlistedToken;
  tokens ← ok_or (try_insert ALLOWLISTED_TOKEN_LIMIT tokens token)
             (OcexErr AllowlistedTokenLimitReached);
  upd_ocex (λ o, o <| AllowlistedToken := tokens |>).

Definition remove_allowlisted_token (origin : Origin) (token : AssetId) : Call unit :=
  ensure_governance origin ;;
  upd_ocex (λ o, o <| AllowlistedToken ::= (.∖ {[token]}) |>).

Definition whitelist_orderbook_operator (origin : Origin) (key : EcdsaPub) : Call unit :=
  ensure_governance origin ;;
  upd_ocex (λ o, o <| OrderbookOperatorPublicKey := Some key |>).

Definition set_fee_distribution (origin : Origin) (d : FeeDistribution) : Call unit :=
  ensure_governance origin ;;
  upd_ocex (λ o, o <| FeeDistributionConfig := Some d |>).

(** ** Session keys *)
Definition on_genesis_session (keys : list AuthorityId) : Call unit :=
  upd_ocex (λ o, o <| Authorities ::=
    <[GENESIS_AUTHORITY_SET_ID := mkValidatorSet GENESIS_AUTHORITY_SET_ID keys]> |>).

Definition on_new_session (keys queued : list AuthorityId) : Call unit :=
  set_id ← get_ocex ValidatorSetId;
  let new_id := wrap 64 (set_id + 1) in
  upd_ocex (λ o, o <| Authorities ::= <[new_id := mkValidatorSet new_id keys]> |>) ;;
  upd_ocex (λ o, o <| NextAuthorities := mkValidatorSet (wrap 64 (new_id + 1)) queued |>) ;;
  upd_ocex (λ o, o <| ValidatorSetId := new_id |>).

Definition validator_set (o : OcexStorage) : ValidatorSet :=
  default default_validator_set (Authorities o !! ValidatorSetId o).

(** ** The interface used by liquidity mining ([impl LiquidityMining for Pallet]) *)
Definition average_price (o : OcexStorage) (market : TradingPair) : option dec :=
  fst <$> PriceOracles o !! (base market, quote market).

Definition is_registered_market (o : OcexStorage) (market : TradingPair) : bool :=
  bool_decide (is_Some (TradingPairs o !! (base market, quote market))).

Definition ocex_add_liquidity (market : TradingPair) (pool lp : AccountId)
    (total_shares_issued base_amount quote_amount : dec) : Call unit :=
  base_raw ← book_to_raw base_amount;
  id1 ← new_random_id None;
  do_deposit id1 pool (base market) base_raw ;;
  quote_raw ← book_to_raw quote_amount;
  id2 ← new_random_id None;
  do_deposit id2 pool (quote market) quote_raw ;;
  push_ingress (AddLiquidity (default_pair_config (base market) (quote market)) pool lp
    total_shares_issued base_amount quote_amount).

(** A full queue is only logged. *)
Definition ocex_remove_liquidity (market : TradingPair) (pool lp : AccountId)
    (burned total : Z) : Call unit :=
  burned ← lift (unwrap (from_u128 burned));
  total ← lift (unwrap (from_u128 total));
  let burn_frac := default dec_zero (checked_div burned total) in
  swallow (push_ingress (RemoveLiquidity (default_pair_config (base market) (quote market))
    pool lp burn_frac total)).

Definition ocex_force_close_pool (market : TradingPair) (pool : AccountId) : Call unit :=
  swallow (push_ingress (ForceClosePool (default_pair_config (base market) (quote market)) pool)).

Definition get_onchain_balance (c : Chain) (asset : AssetId) : option dec :=
  let b := match asset with
           | Polkadex => balance (bank c) Polkadex get_pallet_account
           | Asset id => reducible_balance (bank c) (Asset id) get_pallet_account Expendable
           end in
  mjoin (raw_to_dec b).

(** ** All dispatchables *)
Inductive OcexCall : Type :=
| CallRegisterMainAccount (proxy : AccountId)
| CallAddProxyAccount (proxy : AccountId)
| CallCloseTradingPair (b q : AssetId)
| CallOpenTradingPair (b q : AssetId)
| CallRegisterTradingPair (b q : AssetId) (min_vol max_vol tick step : Z)
| CallUpdateTradingPair (b q : AssetId) (min_vol max_vol tick step : Z)
| CallDeposit (asset : AssetId) (amount : Z)
| CallRemoveProxyAccount (proxy : AccountId)
| CallSetSnapshot (id : Z)
| CallSetExchangeState (state : bool)
| CallClaimWithdraw (snapshot_id : Z) (account : AccountId)
| CallAllowlistToken (token : AssetId)
| CallRemoveAllowlistedToken (token : AssetId)
| CallSubmitSnapshot (summary : SnapshotSummary) (sigs : list (Z * AuthoritySig))
| CallWhitelistOperator (key : EcdsaPub)
| CallClaimLmpRewards (epoch : Z) (market : TradingPair)
| CallSetLmpEpochConfig (lm_rewards trading_rewards : option Z)
    (markets : list LMPMarketConfigWrapper) (max_accounts safety : option Z)
| CallSetFeeDistribution (d : FeeDistribution)
| CallStartNewEpochLmp
| CallForceSubmitSnapshot (summary : SnapshotSummary).

(** Every dispatchable runs in a storage transaction. *)
Definition ocex_dispatch (origin : Origin) (call : OcexCall) : Call unit :=
  transactional
    match call with
    | CallRegisterMainAccount p => register_main_account origin p
    | CallAddProxyAccount p => add_proxy_account origin p
    | CallCloseTradingPair b q => close_trading_pair origin b q
    | CallOpenTradingPair b q => open_trading_pair origin b q
    | CallRegisterTradingPair b q mi ma t st => register_trading_pair origin b q mi ma t st
    | CallUpdateTradingPair b q mi ma t st => update_trading_pair origin b q mi ma t st
    | CallDeposit a n => deposit origin a n
    | CallRemoveProxyAccount p => remove_proxy_account origin p
    | CallSetSnapshot i => set_snapshot origin i
    | CallSetExchangeState b => set_exchange_state origin b
    | CallClaimWithdraw i a => claim_withdraw origin i a
    | CallAllowlistToken t => allowlist_token origin t
    | CallRemoveAllowlistedToken t => remove_allowlisted_token origin t
    | CallSubmitSnapshot s _ => submit_snapshot origin s
    | CallWhitelistOperator k => whitelist_orderbook_operator origin k
    | CallClaimLmpRewards e m => claim_lmp_rewards origin e m
    | CallSetLmpEpochConfig r1 r2 ms ma sf => set_lmp_epoch_config origin r1 r2 ms ma sf
    | CallSetFeeDistribution d => set_fee_distribution origin d
    | CallStartNewEpochLmp => start_new_epoch_lmp origin
    | CallForceSubmitSnapshot s => force_submit_snapshot origin s
    end.

(** [ValidateUnsigned]: only [submit_snapshot] is accepted without a signer. *)
Definition validate_unsigned (o : OcexStorage) (call : OcexCall) : Validity :=
  match call with
  | CallSubmitSnapshot summary signatures => validate_snapshot o summary signatures
  | _ => Err (-1)
  end.
End ocex.

(** A concrete runtime, to evaluate the model: root is the governance origin, the
    cross-chain gadget is the stub, summaries encode to the empty string. *)
Module RefOcex.
Import RefDecimal RefCrypto RefAuthority RefBank.
#[export] Instance ref_config : OcexConfig := {|
  PalletId := bytes_of "pex/ocex";
  LMPRewardsPalletId := bytes_of "pdx/lmpr";
  OBWithdrawalLimit := 50;
  OBIngressLimit := 250;
  MinimumDeposit := 1000000000000;
  MaxEgressMessages := 20;
  GovernanceOrigin o := match o with Root => true | _ => false end;
  parachain_withdraw := stub_parachain_withdraw;
  enc_summary _ := [];
|}.
End RefOcex.
