(* ===== verification/OcexProps.v ===== *)
(** * Correctness of the OCEX pallet

    Authentication of snapshots, payment of withdrawals, deposits, registration
    and market invariants, rewards and epochs. *)

From S2P Require Import Prelude Decimal Assets Bank Types Orders Settlement Chain LmCallbacks Ocex.

(** ** Authentication of snapshots *)
Section authentication.
Context {D : Decimal} {C : Crypto} {A : Authority} {CU : Currencies} {P : Percents}.
Context {CFG : OcexConfig}.
Implicit Types (o : OcexStorage) (summary : SnapshotSummary).

(** Every signature is valid for the authority at its index. *)
Definition valid_signatures (authorities : list AuthorityId) (payload : bytes)
    (sigs : list (Z * AuthoritySig)) : Prop :=
  Forall (λ '(i, s), ∃ a, authorities !! Z.to_nat i = Some a ∧ auth_verify a payload s = true) sigs.

Lemma check_signatures_ok authorities payload seen sigs :
  check_signatures authorities payload seen sigs = Ok tt ↔
  NoDup sigs.*1 ∧ (∀ i, i ∈ sigs.*1 → i ∉ seen) ∧ valid_signatures authorities payload sigs.
Proof.
  unfold valid_signatures. revert seen.
  induction sigs as [|[i s] sigs IH]; intros seen; cbn [check_signatures fmap list_fmap fst].
  - split; [|done]. intros _. split; [constructor|]. split; [|constructor].
    intros i Hi. by apply elem_of_nil in Hi.
  - rewrite NoDup_cons, Forall_cons.
    case_bool_decide as Hseen.
    { split; [done|]. intros (_ & Hs & _). destruct (Hs i); [left|done]. }
    destruct (authorities !! Z.to_nat i) as [a|] eqn:Ha.
    2: { split; [done|]. intros (_ & _ & (a & ? & _) & _). congruence. }
    destruct (auth_verify a payload s) eqn:Hv.
    2: { split; [done|]. intros (_ & _ & (a' & ? & ?) & _). congruence. }
    rewrite IH. split.
    + intros (Hnd & Hs & Hall). split_and!; try done; [| |by exists a].
      * intros Hi. apply (Hs i Hi). set_solver.
      * intros j Hj. apply elem_of_cons in Hj as [->|Hj]; [done|]. specialize (Hs j Hj). set_solver.
    + intros ((Hi & Hnd) & Hs & _ & Hall). split_and!; try done.
      intros j Hj. assert (j ∉ seen) by (apply Hs; by right).
      assert (j ≠ i) by congruence. set_solver.
Qed.

(** The authorities of the active set. *)
Definition active_authorities o : list AuthorityId :=
  validators (default default_validator_set (Authorities o !! ValidatorSetId o)).

Lemma validate_snapshot_iff' o summary sigs :
  validate_snapshot o summary sigs = Ok tt ↔
    snapshot_id summary = sat_add 64 (SnapshotNonce o) 1
    ∧ wrap 32 (Z.of_nat (length (withdrawals summary))) ≤ OBWithdrawalLimit
    ∧ validator_set_id summary = ValidatorSetId o
    ∧ active_authorities o ≠ []
    ∧ required_signatures (active_authorities o) ≤ Z.of_nat (length sigs)
    ∧ NoDup sigs.*1
    ∧ valid_signatures (active_authorities o) (enc_summary summary) sigs.
Proof.
  unfold validate_snapshot. fold (active_authorities o).
  destruct (Z.eqb_spec (sat_add 64 (SnapshotNonce o) 1) (snapshot_id summary)); cbn [negb];
    [|split; [done|intros (? & _); congruence]].
  destruct (Z.ltb_spec OBWithdrawalLimit (wrap 32 (Z.of_nat (length (withdrawals summary)))));
    [split; [done|lia]|].
  destruct (Z.eqb_spec (validator_set_id summary) (ValidatorSetId o)); cbn [negb];
    [|split; [done|intros (_ & _ & ? & _); congruence]].
  destruct (active_authorities o) as [|a l] eqn:Hauth; cbn [is_nil];
    [split; [done|intros (_ & _ & _ & ? & _); congruence]|]. rewrite <- Hauth.
  destruct (Z.ltb_spec (Z.of_nat (length sigs)) (required_signatures (active_authorities o)));
    [split; [done|lia]|].
  rewrite check_signatures_ok. split.
  - intros (? & _ & ?). split_and!; try done; congruence.
  - intros (_ & _ & _ & _ & _ & ? & ?). split_and!; try done.
Qed.

(** C4: a snapshot is accepted if and only if it carries the next nonce, respects
    the withdrawal limit, names the active validator set, that set is not empty,
    and it brings at least the required number of signatures, all valid over the
    summary and all by different authorities of that set. *)
Theorem validate_snapshot_iff o summary sigs :
  validate_snapshot o summary sigs = Ok tt ↔
    snapshot_id summary = sat_add 64 (SnapshotNonce o) 1
    ∧ wrap 32 (Z.of_nat (length (withdrawals summary))) ≤ OBWithdrawalLimit
    ∧ validator_set_id summary = ValidatorSetId o
    ∧ active_authorities o ≠ []
    ∧ required_signatures (active_authorities o) ≤ Z.of_nat (length sigs)
    ∧ NoDup sigs.*1
    ∧ valid_signatures (active_authorities o) (enc_summary summary) sigs.
Proof. apply validate_snapshot_iff'. Qed.

(** C5: the quorum.  Whenever a snapshot is accepted, at least one and at least
    51 percent (rounded to the nearest integer) of the active authorities, counted
    as distinct positions of the set, signed it. *)
Theorem snapshot_quorum `{!PercentsLaws} o summary sigs :
  Forall (λ p, 0 ≤ p.1) sigs →
  validate_snapshot o summary sigs = Ok tt →
  ∃ signers : list nat,
    NoDup signers
    ∧ (∀ i, i ∈ signers → ∃ a s, active_authorities o !! i = Some a
        ∧ auth_verify a (enc_summary summary) s = true)
    ∧ 1 ≤ Z.of_nat (length signers)
    ∧ 51 * Z.of_nat (length (active_authorities o)) ≤ 100 * Z.of_nat (length signers) + 50.
Proof.
  intros Hpos (_ & _ & _ & _ & Hreq & Hnd & Hval)%validate_snapshot_iff'.
  exists (Z.to_nat <$> sigs.*1). unfold required_signatures, THRESHOLD in Hreq.
  pose proof (percent_mul_nearest 51 (Z.of_nat (length (active_authorities o)))).
  rewrite !length_fmap. split_and!; [| |lia|lia].
  - apply NoDup_fmap_2_strong; [|done]. intros x y Hx Hy Heq.
    rewrite Forall_forall in Hpos.
    apply list_elem_of_fmap in Hx as (p & -> & Hp). apply list_elem_of_fmap in Hy as (q & -> & Hq).
    pose proof (Hpos p Hp). pose proof (Hpos q Hq). lia.
  - intros i Hi. apply list_elem_of_fmap in Hi as (z & -> & Hz).
    apply list_elem_of_fmap in Hz as ([z' s] & -> & Hp).
    unfold valid_signatures in Hval. rewrite Forall_forall in Hval.
    destruct (Hval _ Hp) as (a & Ha & Hv). eauto.
Qed.

(** A snapshot without signatures is never accepted, whatever set it names and
    whatever the chain state. *)
Theorem no_signature_rejected o summary : validate_snapshot o summary [] ≠ Ok tt.
Proof.
  intros (_ & _ & _ & _ & Hreq & _)%validate_snapshot_iff'.
  unfold required_signatures in Hreq. cbn in Hreq. lia.
Qed.
End authentication.

(** ** Paying out withdrawals *)
Section withdrawals.
Context {D : Decimal} {C : Crypto} {A : Authority} {CU : Currencies} {CL : CurrenciesLaws}.
Context {P : Percents} {CFG : OcexConfig}.
(** The runtime uses the empty cross-chain gadget. *)
Context (Hstub : parachain_withdraw = stub_parachain_withdraw).

(** The raw amount a withdrawal pays, and the amounts a list of withdrawals pays
    in one asset, in total and to one account. *)
Definition wd_raw (w : Withdrawal) : Z := default 0 (dec_to_raw (wd_amount w)).
Definition paid_total (x : AssetId) (ws : list Withdrawal) : Z :=
  zsum (wd_raw <$> filter (λ w, wd_asset w = x) ws).
Definition paid_to (a : AccountId) (x : AssetId) (ws : list Withdrawal) : Z :=
  paid_total x (filter (λ w, wd_main_account w = a) ws).

Definition payer_preservation (x : AssetId) : Preservation :=
  match x with Polkadex => Preserve | Asset _ => Expendable end.

Lemma transfer_asset_run p q n x c :
  transfer_asset p q n x c =
  bank_call (bank_transfer x p q n (payer_preservation x)) c.
Proof. by destruct x. Qed.

Lemma bank_call_cases {B} (m : M Bank BankError B) c :
  (∃ b k, m (bank c) = (Ok b, k) ∧ bank_call m c = (Ok b, c <| bank := k |>))
  ∨ (∃ e k, m (bank c) = (Err e, k) ∧ bank_call m c = (Err (BankErr e), c <| bank := k |>))
  ∨ ∃ k, m (bank c) = (Panic, k) ∧ bank_call m c = (Panic, c <| bank := k |>).
Proof. unfold bank_call. destruct (m (bank c)) as [[b|e|] k]; eauto 10. Qed.

(** A withdrawal is paid in full or not at all. *)
Lemma withdrawal_cases w c :
  (∃ e, on_idle_withdrawal_processor w c = (Err e, c))
  ∨ ∃ k, on_idle_withdrawal_processor w c = (Ok tt, c <| bank := k |>)
      ∧ dec_to_raw (wd_amount w) = Some (wd_raw w)
      ∧ bank_transfer (wd_asset w) get_pallet_account (wd_main_account w) (wd_raw w)
          (payer_preservation (wd_asset w)) (bank c) = (Ok tt, k).
Proof.
  unfold on_idle_withdrawal_processor, transactional, book_to_raw, wd_raw.
  destruct (dec_to_raw (wd_amount w)) as [n|]; cbn [default]; mrun; [|by left; eexists].
  rewrite transfer_asset_run. pose proof (transfer_returns (bank c) (wd_asset w)
    get_pallet_account (wd_main_account w) n (payer_preservation (wd_asset w))) as Hret.
  destruct (bank_call_cases (bank_transfer (wd_asset w) get_pallet_account (wd_main_account w) n
    (payer_preservation (wd_asset w))) c) as [([] & k & Hb & ->)|[(e & k & Hb & ->)|(k & Hb & _)]].
  - right. exists k. rewrite Hstub. unfold stub_parachain_withdraw.
    by destruct (wd_destination w) as [[loc [[fa fn]|]]|].
  - left. by eexists.
  - by rewrite Hb in Hret.
Qed.

Lemma paid_total_app x ws ws' : paid_total x (ws ++ ws') = paid_total x ws + paid_total x ws'.
Proof. unfold paid_total. by rewrite filter_app, fmap_app, zsum_app. Qed.

Lemma paid_total_one x w : paid_total x [w] = if decide (wd_asset w = x) then wd_raw w else 0.
Proof.
  unfold paid_total. rewrite filter_cons, filter_nil. case_decide; cbn; [lia|done].
Qed.

Lemma paid_to_app a x ws ws' : paid_to a x (ws ++ ws') = paid_to a x ws + paid_to a x ws'.
Proof. unfold paid_to. by rewrite filter_app, paid_total_app. Qed.

Lemma paid_to_one a x w :
  paid_to a x [w] = if decide (wd_main_account w = a ∧ wd_asset w = x) then wd_raw w else 0.
Proof.
  unfold paid_to. rewrite filter_cons, filter_nil. destruct (decide (wd_main_account w = a)).
  - rewrite paid_total_one. repeat case_decide; naive_solver.
  - rewrite decide_False by naive_solver. done.
Qed.

(** What a list of payments does to the books. *)
Definition payments_effect (c c' : Chain) (ws : list Withdrawal) : Prop :=
  ocex c' = ocex c ∧ lm c' = lm c ∧ block_number c' = block_number c
  ∧ balance (bank c') Polkadex get_pallet_account
    = balance (bank c) Polkadex get_pallet_account - paid_total Polkadex ws
  ∧ (∀ x, balance (bank c') x get_pallet_account
          ≤ balance (bank c) x get_pallet_account - paid_total x ws)
  ∧ ∀ x a, a ≠ get_pallet_account →
      balance (bank c) x a + paid_to a x ws ≤ balance (bank c') x a.

Lemma payments_effect_nil c : payments_effect c c [].
Proof. unfold payments_effect, paid_to, paid_total. cbn. split_and!; try done; intros; lia. Qed.

Lemma payments_effect_snoc c c1 ws w k :
  payments_effect c c1 ws → wd_main_account w ≠ get_pallet_account →
  bank_transfer (wd_asset w) get_pallet_account (wd_main_account w) (wd_raw w)
    (payer_preservation (wd_asset w)) (bank c1) = (Ok tt, k) →
  payments_effect c (c1 <| bank := k |>) (ws ++ [w]).
Proof.
  intros (Ho & Hl & Hn & Hnat & Hle & Hto) Hne Ht.
  unfold payments_effect. cbn. split_and!; try done.
  - rewrite paid_total_app, paid_total_one. destruct (wd_asset w) as [i|] eqn:Hx; cbn in Ht.
    + rewrite decide_False by done.
      rewrite (transfer_frame _ _ _ _ _ _ _ Polkadex get_pallet_account Ht) by (by left). lia.
    + rewrite decide_True by done.
      destruct (transfer_preserve _ _ _ _ _ _ Ht) as [Hb _]; [done|]. lia.
  - intros x. rewrite paid_total_app, paid_total_one. specialize (Hle x).
    destruct (decide (wd_asset w = x)) as [<-|Hx].
    + pose proof (transfer_payer _ _ _ _ _ _ _ Ht (not_eq_sym Hne)). lia.
    + rewrite (transfer_frame _ _ _ _ _ _ _ x get_pallet_account Ht) by (by left). lia.
  - intros x a Ha. rewrite paid_to_app, paid_to_one. specialize (Hto x a Ha).
    destruct (decide (wd_main_account w = a ∧ wd_asset w = x)) as [[<- <-]|Hx].
    + pose proof (transfer_payee _ _ _ _ _ _ _ Ht (not_eq_sym Hne)). lia.
    + rewrite (transfer_frame _ _ _ _ _ _ _ x a Ht); [lia|].
      destruct (decide (wd_asset w = x)); naive_solver.
Qed.

Lemma withdraw_each_spec ws failed processed c0 c :
  Forall (λ w, wd_main_account w ≠ get_pallet_account) ws →
  payments_effect c0 c processed →
  ∃ failed' processed' c', withdraw_each ws failed processed c = (Ok (failed', processed'), c')
    ∧ failed' ++ processed' ≡ₚ failed ++ processed ++ ws
    ∧ payments_effect c0 c' processed'.
Proof.
  revert failed processed c. induction ws as [|w ws IH]; intros failed processed c Hf He.
  - exists failed, processed, c. split; [done|]. by rewrite app_nil_r.
  - apply Forall_cons in Hf as [Hw Hf]. cbn [withdraw_each]. rewrite bind_run. unfold try_call.
    destruct (withdrawal_cases w c) as [(e & ->)|(k & -> & _ & Ht)].
    + destruct (IH (failed ++ [w]) processed c Hf He) as (f' & p' & c' & Hrun & Hp & Hpe).
      exists f', p', c'. split; [done|]. split; [|done]. rewrite Hp.
      rewrite <- app_assoc. cbn. by rewrite (Permutation_middle processed ws w).
    + destruct (IH failed (processed ++ [w]) (c <| bank := k |>) Hf) as (f' & p' & c' & Hrun & Hp & Hpe).
      { by apply payments_effect_snoc. }
      exists f', p', c'. split; [done|]. split; [|done]. rewrite Hp.
      by rewrite <- (app_assoc processed).
Qed.

Lemma withdrawals_spec ws c :
  Forall (λ w, wd_main_account w ≠ get_pallet_account) ws →
  ∃ failed processed c', do_withdraw ws c = (Ok (failed, processed), c')
    ∧ failed ++ processed ≡ₚ ws
    ∧ payments_effect c c' processed.
Proof.
  intros Hf. unfold do_withdraw.
  destruct (withdraw_each_spec (rev ws) [] [] c c) as (f & p & c' & Hrun & Hp & He).
  { by apply Forall_rev. }
  { apply payments_effect_nil. }
  exists f, p, c'. split; [done|]. split; [|done]. rewrite Hp. cbn.
  symmetry. apply Permutation_rev.
Qed.

(** C9: paying out a list of withdrawals always completes; every withdrawal ends
    up either processed or failed, none is lost and none is duplicated; custody
    pays exactly the processed ones (to the unit in the native token, at least
    that much in an asset whose dust goes with the payment), every recipient
    receives at least what the processed withdrawals owe it, and the pallet's
    storage is untouched. *)
Theorem do_withdraw_pays ws c :
  Forall (λ w, wd_main_account w ≠ get_pallet_account) ws →
  ∃ failed processed c', do_withdraw ws c = (Ok (failed, processed), c')
    ∧ failed ++ processed ≡ₚ ws
    ∧ payments_effect c c' processed.
Proof. apply withdrawals_spec. Qed.

(** The withdrawals still owed to an account for a snapshot. *)
Definition owed (W : gmap Z WithdrawalsMap) (sid : Z) (a : AccountId) : list Withdrawal :=
  default [] (default ∅ (W !! sid) !! a).
Definition pending (o : OcexStorage) (sid : Z) (a : AccountId) : list Withdrawal :=
  owed (Withdrawals o) sid a.

Lemma is_nil_true {B} (l : list B) : is_nil l = true → l = [].
Proof. by destruct l. Qed.

(** The pending withdrawals after a claim that left [failed]. *)
Definition after_claim (W : gmap Z WithdrawalsMap) (sid : Z) (m : WithdrawalsMap)
    (account : AccountId) (failed : list Withdrawal) : gmap Z WithdrawalsMap :=
  let m1 := delete account m in
  let m2 := if is_nil failed then m1 else <[account := failed]> m1 in
  let W1 := <[sid := m2]> W in
  if is_nil (map_to_list m2) then delete sid W1 else W1.

Lemma after_claim_owed W sid m account failed sid' a :
  W !! sid = Some m →
  owed (after_claim W sid m account failed) sid' a =
  if decide (sid' = sid ∧ a = account) then failed else owed W sid' a.
Proof.
  unfold after_claim, owed in *. unfold WithdrawalsMap in *. intros Hm. cbv zeta.
  set (m2 := if is_nil failed then delete account m else <[account := failed]> (delete account m)).
  assert (default [] (m2 !! a) = if decide (a = account) then failed else default [] (m !! a)) as Hm2.
  { subst m2. destruct (is_nil failed) eqn:Hnil.
    - apply is_nil_true in Hnil as ->. case_decide as Ha; [subst; by rewrite lookup_delete_eq|].
      by rewrite lookup_delete_ne.
    - case_decide as Ha; [subst; by rewrite lookup_insert_eq|].
      by rewrite lookup_insert_ne, lookup_delete_ne. }
  destruct (is_nil (map_to_list m2)) eqn:He.
  - apply is_nil_true, map_to_list_empty_iff in He. rewrite He in Hm2.
    destruct (decide (sid' = sid)) as [->|Hs].
    + rewrite lookup_delete_eq. cbn. rewrite Hm2, Hm. repeat case_decide; naive_solver.
    + rewrite lookup_delete_ne, lookup_insert_ne, decide_False; naive_solver.
  - destruct (decide (sid' = sid)) as [->|Hs].
    + rewrite lookup_insert_eq. cbn. rewrite Hm2, Hm. repeat case_decide; naive_solver.
    + rewrite lookup_insert_ne, decide_False; naive_solver.
Qed.

Lemma claim_withdraw_run who sid account m ws c failed processed c1 :
  Withdrawals (ocex c) !! sid = Some m → m !! account = Some ws →
  do_withdraw ws c = (Ok (failed, processed), c1) → ocex c1 = ocex c →
  claim_withdraw (Signed who) sid account c =
    (Ok tt, c1 <| ocex ::= λ o, o <| Withdrawals ::= λ W, after_claim W sid m account failed |> |>).
Proof.
  intros Hm Hws Hrun Ho. unfold claim_withdraw, require, get_ocex, upd_ocex.
  unfold ensure_signed. mrun. unfold id. unfold WithdrawalsMap in *. rewrite Hm.
  rewrite bool_decide_true by done. cbn [default]. rewrite Hws, Hrun. unfold after_claim.
  by destruct (is_nil (map_to_list _)).
Qed.

(** C10: claiming the pending withdrawals of an account pays them and leaves
    exactly the failed ones pending; a paid withdrawal is no longer owed, so it
    cannot be claimed twice, and no other claim changes. *)
Theorem claim_withdraw_pays who sid account m ws c :
  Withdrawals (ocex c) !! sid = Some m → m !! account = Some ws →
  Forall (λ w, wd_main_account w ≠ get_pallet_account) ws →
  ∃ failed processed c1 c', claim_withdraw (Signed who) sid account c = (Ok tt, c')
    ∧ failed ++ processed ≡ₚ ws
    ∧ payments_effect c c1 processed ∧ bank c' = bank c1
    ∧ ∀ sid' a, pending (ocex c') sid' a =
        if decide (sid' = sid ∧ a = account) then failed else pending (ocex c) sid' a.
Proof.
  intros Hm Hws Hf.
  destruct (withdrawals_spec ws c Hf) as (failed & processed & c1 & Hrun & Hp & He).
  pose proof (proj1 He) as Ho. eexists failed, processed, c1, _.
  split; [by apply (claim_withdraw_run who sid account m ws c failed processed c1)|].
  split; [done|]. split; [done|]. split; [done|].
  intros sid' a. unfold pending. cbn. rewrite Ho. by apply after_claim_owed.
Qed.
End withdrawals.

(** ** Amounts: raw units of the chain and decimals of the book *)
Section conversion.
Context {D : Decimal} {DL : DecimalLaws}.

Lemma unit_balance_dec : ∃ u, from_u128 UNIT_BALANCE = Some u ∧ units u = UNIT_BALANCE * UNITS.
Proof. apply from_u128_units. unfold UNIT_BALANCE. lia. Qed.

Lemma raw_to_dec_exact n :
  0 ≤ n < 2 ^ 96 → ∃ d, raw_to_dec n = Some (Some d) ∧ units d = n * GRAIN.
Proof.
  intros Hn. unfold raw_to_dec.
  destruct (from_u128_units n Hn) as (a & -> & Ha).
  destruct unit_balance_dec as (u & -> & Hu).
  destruct (checked_div_exact a u (n * GRAIN)) as (d & -> & Hd).
  - rewrite Hu. unfold UNIT_BALANCE, UNITS. lia.
  - rewrite Ha, Hu. unfold UNIT_BALANCE, UNITS, GRAIN. lia.
  - apply grain_representable; [by exists n|]. unfold MAX_UNITS, GRAIN. lia.
  - by exists d.
Qed.

Lemma dec_to_raw_exact d n :
  0 ≤ n < 2 ^ 96 → units d = n * GRAIN → dec_to_raw d = Some n.
Proof.
  intros Hn Hd. unfold dec_to_raw. destruct unit_balance_dec as (u & -> & Hu).
  assert (units (saturating_mul d u) = n * UNITS) as Hm.
  { apply saturating_mul_exact.
    - rewrite Hd, Hu. unfold UNIT_BALANCE, UNITS, GRAIN. lia.
    - exists n, 0. unfold UNITS. replace (28 - 0) with 28 by lia. lia. }
  rewrite to_u128_units; rewrite Hm; [|unfold UNITS; lia].
  rewrite Z.div_mul; [done|]. unfold UNITS. lia.
Qed.

(** Every amount a deposit accepts is converted to the book exactly, on the
    grain of twelve decimals, and a withdrawal of that amount pays back exactly
    the raw units deposited. *)
Theorem deposit_withdraw_roundtrip n :
  0 ≤ n ≤ DEPOSIT_MAX →
  ∃ d, raw_to_dec n = Some (Some d) ∧ dec_to_raw d = Some n
    ∧ units d = n * GRAIN ∧ on_grain (units d).
Proof.
  intros Hn. unfold DEPOSIT_MAX in Hn.
  destruct (raw_to_dec_exact n) as (d & Hd & Hu); [lia|].
  exists d. split_and!; [done| |done|].
  - apply dec_to_raw_exact; [lia|done].
  - rewrite Hu. split; [unfold GRAIN; lia|by exists n].
Qed.
End conversion.

(** ** Deposits and registration *)
Section deposits.
Context {D : Decimal} {DL : DecimalLaws} {C : Crypto} {A : Authority}.
Context {CU : Currencies} {CL : CurrenciesLaws} {P : Percents} {CFG : OcexConfig}.
Implicit Types c : Chain.

Lemma push_ingress_inv m c u c' :
  push_ingress m c = (Ok u, c') →
  Z.of_nat (length (ingress_at (ocex c) (block_number c))) < OBIngressLimit
  ∧ c' = c <| ocex ::= λ o, o <| IngressQueue ::=
      <[block_number c := ingress_at (ocex c) (block_number c) ++ [m]]> |> |>.
Proof.
  unfold push_ingress, current_block, get_ocex, upd_ocex, try_push. intros H. inv_run.
  destruct (Z.ltb_spec (Z.of_nat (length (ingress_at (ocex c) (block_number c)))) OBIngressLimit);
    [|done]. by simplify_eq.
Qed.

Lemma require_inv b e c u c' : require b e c = (Ok u, c') → b = true ∧ c' = c.
Proof. apply ensure_ok_inv. Qed.

(** The account record of a new user. *)
Definition new_user (main proxy : AccountId) : AccountInfo :=
  mkAccountInfo main [proxy] ∅ default_fee_config.

Lemma register_user_inv main proxy c u c' :
  register_user main proxy c = (Ok u, c') →
  ExchangeState (ocex c) = true ∧ Accounts (ocex c) !! main = None
  ∧ Proxies (ocex c) !! proxy = None
  ∧ Z.of_nat (length (ingress_at (ocex c) (block_number c))) < OBIngressLimit
  ∧ c' = c <| ocex ::= λ o, o <| Accounts ::= <[main := new_user main proxy]> |>
      <| IngressQueue ::=
        <[block_number c := ingress_at (ocex c) (block_number c) ++ [RegisterUser main proxy]]> |>
      <| Proxies ::= <[proxy := main]> |> |>.
Proof.
  unfold register_user, get_ocex, upd_ocex. intros H. inv_run.
  repeat match goal with
  | H : require _ _ _ = (Ok _, _) |- _ => apply require_inv in H as [? ->]
  | H : push_ingress _ _ = (Ok _, _) |- _ => apply push_ingress_inv in H as [? ->]
  end.
  repeat match goal with H : bool_decide _ = true |- _ => apply bool_decide_eq_true in H end.
  match goal with H : add_proxy _ _ = Some ?a |- _ =>
    change (Some (new_user main proxy) = Some a) in H; injection H as <- end.
  by split_and!.
Qed.

Lemma bank_call_inv {B} (m : M Bank BankError B) c b c' :
  bank_call m c = (Ok b, c') → ∃ k, m (bank c) = (Ok b, k) ∧ c' = c <| bank := k |>.
Proof. unfold bank_call. destruct (m (bank c)) as [[x|e|] k]; naive_solver. Qed.

Lemma ingress_at_insert o b q : ingress_at (o <| IngressQueue ::= <[b := q]> |>) b = q.
Proof. unfold ingress_at. cbn. by rewrite lookup_insert_eq. Qed.

(** The registration step of a deposit. *)
Lemma ensure_registered_inv user c u c' :
  (if bool_decide (Accounts (ocex c) !! user = None) then register_user user user else mret tt) c
    = (Ok u, c') →
  bank c' = bank c ∧ block_number c' = block_number c
  ∧ TotalAssets (ocex c') = TotalAssets (ocex c)
  ∧ is_Some (Accounts (ocex c') !! user)
  ∧ ingress_at (ocex c') (block_number c) = ingress_at (ocex c) (block_number c)
      ++ (if bool_decide (Accounts (ocex c) !! user = None) then [RegisterUser user user] else []).
Proof.
  case_bool_decide as Ha; intros H.
  - apply register_user_inv in H as (_ & _ & _ & _ & ->). cbn. split_and!; try done.
    + rewrite lookup_insert_eq. by eexists.
    + unfold ingress_at. cbn. by rewrite lookup_insert_eq.
  - inv_prim. split_and!; try done; [by apply not_eq_None_Some | by rewrite app_nil_r].
Qed.

(** C11: a successful deposit is one of an allowlisted asset within the limits; it
    moves at least the amount into custody and takes it from the user, registers
    a new user under its own key, books the amount in [TotalAssets], and announces
    to the engine a credit of exactly the deposited amount, after a registration
    message if the user is new. *)
Theorem do_deposit_effect did user asset n c c' :
  0 ≤ n → user ≠ get_pallet_account →
  do_deposit did user asset n c = (Ok tt, c') →
  (ExchangeState (ocex c) = true ∧ asset ∈ AllowlistedToken (ocex c)
   ∧ MinimumDeposit ≤ n ≤ DEPOSIT_MAX)
  ∧ balance (bank c) asset get_pallet_account + n ≤ balance (bank c') asset get_pallet_account
  ∧ balance (bank c') asset user ≤ balance (bank c) asset user - n
  ∧ is_Some (Accounts (ocex c') !! user)
  ∧ ∃ d, units d = n * GRAIN ∧ dec_to_raw d = Some n
    ∧ TotalAssets (ocex c') !! asset = checked_add d (total_assets (ocex c) asset)
    ∧ ingress_at (ocex c') (block_number c) =
        ingress_at (ocex c) (block_number c)
        ++ (if bool_decide (Accounts (ocex c) !! user = None) then [RegisterUser user user] else [])
        ++ [Deposit did user asset d].
Proof.
  intros Hn Hu H. unfold do_deposit, raw_to_book, get_ocex, upd_ocex in H. inv_run.
  repeat match goal with
  | H : require _ _ _ = (Ok _, _) |- _ => apply require_inv in H as [? ->]
  | H : push_ingress _ _ = (Ok _, _) |- _ => apply push_ingress_inv in H as [? ->]
  | H : bool_decide _ = true |- _ => apply bool_decide_eq_true in H
  | H : (_ <=? _) = true |- _ => apply Z.leb_le in H
  end.
  match goal with H : unwrap (raw_to_dec n) = _ |- _ => rename H into Hraw end.
  unfold DEPOSIT_MAX in *.
  destruct (raw_to_dec_exact n ltac:(lia)) as (d & Hd & Hud). rewrite Hd in Hraw. cbn in Hraw. simplify_eq.
  match goal with H : transfer_asset _ _ _ _ _ = _ |- _ => rename H into Ht end.
  rewrite transfer_asset_run in Ht. apply bank_call_inv in Ht as (k & Ht & ->).
  match goal with H : (if bool_decide _ then _ else _) _ = _ |- _ => rename H into Hreg end.
  apply ensure_registered_inv in Hreg as (Hb & Hblk & Htot & Hacc & Hing).
  rewrite Hb in Ht. destruct_units. cbn -[ingress_at].
  split; [done|]. split_and!.
  - by apply (transfer_payee _ _ _ _ _ _ _ Ht).
  - by apply (transfer_payer _ _ _ _ _ _ _ Ht).
  - done.
  - exists a3. split_and!; [done|by apply dec_to_raw_exact; [lia|]| |].
    + rewrite lookup_insert_eq. cbn in *. unfold total_assets in *. cbn in *. by rewrite <- Htot.
    + rewrite <- Hblk, ingress_at_insert. unfold ingress_at at 1. cbn.
      fold (ingress_at (ocex s4) (block_number s4)). by rewrite Hblk, Hing, app_assoc.
Qed.
End deposits.

(** ** Submission of snapshots *)
Section submission.
Context {D : Decimal} {C : Crypto} {A : Authority} {CU : Currencies} {P : Percents}.
Context {CFG : OcexConfig}.

(** C6: an accepted snapshot advances the nonce to its own id and is recorded, the
    ingress messages of the blocks it covers are pruned, and from then on only the
    snapshot with the following id can be validated: neither the same snapshot nor
    an older one can be replayed. *)
Theorem submit_snapshot_advances summary c c' :
  0 ≤ snapshot_id summary < u64_max →
  submit_snapshot NoOrigin summary c = (Ok tt, c') →
  SnapshotNonce (ocex c') = snapshot_id summary
  ∧ Snapshots (ocex c') !! snapshot_id summary = Some summary
  ∧ (∀ blk, blk ≤ last_processed_blk summary → IngressQueue (ocex c') !! blk = None)
  ∧ ∀ next sigs, validate_snapshot (ocex c') next sigs = Ok tt →
      snapshot_id next = snapshot_id summary + 1.
Proof.
  intros Hid H. unfold submit_snapshot, upd_ocex in H. apply transactional_ok_inv in H. inv_run.
  match goal with H : push_ingress _ _ = _ |- _ => apply push_ingress_inv in H as [_ ->] end.
  split_and!; [done|apply lookup_insert_eq| |].
  - intros blk Hblk. cbn. apply map_lookup_filter_None. right. intros q _. cbn. lia.
  - intros next sigs (Hn & _)%validate_snapshot_iff'. rewrite Hn. cbn.
    unfold sat_add, u64_max in *. lia.
Qed.
End submission.

(** ** A concrete chain *)
Module OcexExample.
Import RefDecimal RefCrypto RefAuthority RefBank RefOcex.

(** Custody and accounts 1 and 2 hold 1000 PDEX each; authorities 10, 11 and 12 are
    active; one withdrawal of account 1 is pending for snapshot 3. *)
Definition purse : coins := mkBank
  {[(Polkadex, get_pallet_account) := 1000000000000000%N;
    (Polkadex, acct 1) := 1000000000000000%N; (Polkadex, acct 2) := 1000000000000000%N]}.
Definition payout : Withdrawal :=
  mkWithdrawal (vreplicate 20 x00) (acct 1) (5, 0) Polkadex (0, 0) 0 None.
Definition chain0 : Chain :=
  mkChain 7 purse
    ((ocex_genesis [10; 11; 12]) <| ExchangeState := true |> <| AllowlistedToken := {[Polkadex]} |>
       <| Withdrawals := {[3 := {[acct 1 := [payout]]}]} |>)
    lm_genesis.

(** The next snapshot pays account 1. *)
Definition summary1 : SnapshotSummary :=
  mkSnapshotSummary 0 1 H256_zero 5 6 [payout] [] None.

Lemma snapshot_quorum_witness :
  ∃ signers : list nat, NoDup signers
    ∧ (∀ i, i ∈ signers → ∃ a s, active_authorities (ocex chain0) !! i = Some a
        ∧ auth_verify a (enc_summary summary1) s = true)
    ∧ 1 ≤ Z.of_nat (length signers)
    ∧ 51 * Z.of_nat (length (active_authorities (ocex chain0)))
      ≤ 100 * Z.of_nat (length signers) + 50.
Proof.
  apply (snapshot_quorum (ocex chain0) summary1 [(0, 10); (2, 12)]).
  - repeat constructor; done.
  - vm_compute. reflexivity.
Defined.

Lemma payout_recipient : Forall (λ w, wd_main_account w ≠ get_pallet_account) [payout].
Proof. constructor; [|constructor]. vm_compute. discriminate. Qed.

Lemma do_withdraw_pays_witness :
  ∃ failed processed c', do_withdraw [payout] chain0 = (Ok (failed, processed), c')
    ∧ failed ++ processed ≡ₚ [payout] ∧ payments_effect chain0 c' processed.
Proof. apply (do_withdraw_pays (CFG := ref_config) eq_refl [payout] chain0). apply payout_recipient. Defined.

Lemma claim_withdraw_pays_witness :
  ∃ failed processed c1 c', claim_withdraw (Signed (acct 9)) 3 (acct 1) chain0 = (Ok tt, c')
    ∧ failed ++ processed ≡ₚ [payout]
    ∧ payments_effect chain0 c1 processed ∧ bank c' = bank c1
    ∧ ∀ sid' a, pending (ocex c') sid' a =
        if decide (sid' = 3 ∧ a = acct 1) then failed else pending (ocex chain0) sid' a.
Proof.
  apply (claim_withdraw_pays (CFG := ref_config) eq_refl (acct 9) 3 (acct 1) {[acct 1 := [payout]]} [payout] chain0).
  - exact (lookup_singleton_eq (M := gmap Z) 3 _).
  - exact (lookup_singleton_eq (M := gmap AccountId) (acct 1) _).
  - apply payout_recipient.
Defined.

Lemma deposit_withdraw_roundtrip_witness :
  ∃ d, raw_to_dec 1500000000001 = Some (Some d) ∧ dec_to_raw d = Some 1500000000001
    ∧ units d = 1500000000001 * GRAIN ∧ on_grain (units d).
Proof. apply (deposit_withdraw_roundtrip 1500000000001). unfold DEPOSIT_MAX. lia. Defined.

Lemma do_deposit_effect_witness :
  ∃ c', do_deposit (vreplicate 20 x00) (acct 2) Polkadex 2000000000000 chain0 = (Ok tt, c')
    ∧ balance (bank chain0) Polkadex get_pallet_account + 2000000000000
      ≤ balance (bank c') Polkadex get_pallet_account.
Proof.
  destruct (do_deposit (vreplicate 20 x00) (acct 2) Polkadex 2000000000000 chain0) as [r c'] eqn:H.
  assert (is_ok (do_deposit (vreplicate 20 x00) (acct 2) Polkadex 2000000000000 chain0).1 = true)
    as Hok by (vm_compute; reflexivity).
  rewrite H in Hok. destruct r as [[]| |]; [|discriminate Hok..].
  exists c'. split; [reflexivity|].
  apply (do_deposit_effect (vreplicate 20 x00) (acct 2) Polkadex 2000000000000 chain0 c');
    [lia|vm_compute; discriminate|exact H].
Defined.

Lemma submit_snapshot_advances_witness :
  ∃ c', submit_snapshot NoOrigin summary1 chain0 = (Ok tt, c') ∧ SnapshotNonce (ocex c') = 1.
Proof.
  destruct (submit_snapshot NoOrigin summary1 chain0) as [r c'] eqn:H.
  assert (is_ok (submit_snapshot NoOrigin summary1 chain0).1 = true) as Hok
    by (vm_compute; reflexivity).
  rewrite H in Hok. destruct r as [[]| |]; [|discriminate Hok..].
  exists c'. split; [reflexivity|]. apply (submit_snapshot_advances summary1 chain0 c');
    [unfold u64_max, umax; cbn; lia|exact H].
Defined.
End OcexExample.
