(* ===== verification/Lmp.v ===== *)
(** * Liquidity mining metrics in the off-chain state

    [pallets/ocex/src/lmp.rs] and the scoring functions of [validator.rs]: volumes,
    fees and quote scores per epoch, market and account, kept under keys of the
    off-chain state. *)

From S2P Require Import Prelude Decimal Assets Bank Types Orders Storage Settlement Chain Ocex.

(** The SCALE encoding of a metric key: the tuple [(epoch, pair, tag, main)], or
    [(epoch, pair, tag)] for the market totals. *)
Class LmpKeys := enc_lmp_key : Z → TradingPair → string → option AccountId → bytes.

Section lmp.
Context {D : Decimal} {C : Crypto} {W : Wire} {A : Authority} {CU : Currencies} {T : TrieDB}.
Context {DC : Codec dec} {LC : Codec LMPConfig} {SC : Codec (gmap Z dec)} {LK : LmpKeys}.

Definition get_trade_volume_by_main_account_key (epoch : Z) (pair : TradingPair)
    (main : AccountId) : bytes := enc_lmp_key epoch pair "trading_volume" (Some main).
Definition get_maker_volume_by_main_account_key (epoch : Z) (pair : TradingPair)
    (main : AccountId) : bytes := enc_lmp_key epoch pair "maker_volume" (Some main).
Definition get_total_maker_volume_key (epoch : Z) (pair : TradingPair) : bytes :=
  enc_lmp_key epoch pair "maker_volume" None.
Definition get_fees_paid_by_main_account (epoch : Z) (pair : TradingPair)
    (main : AccountId) : bytes := enc_lmp_key epoch pair "fees_paid" (Some main).
Definition get_q_score_uptime_by_main_account (epoch : Z) (pair : TradingPair)
    (main : AccountId) : bytes := enc_lmp_key epoch pair "q_score&uptime" (Some main).
(** A fixed-size byte array encodes as itself. *)
Definition LMP_CONFIG_KEY : bytes := bytes_of "LMP_CONFIG_KEY".

(** Accumulates [volume] under [key]: the shared body of the update functions. *)
Definition accumulate (key : bytes) (volume : dec) : OS dec :=
  o ← os_get key;
  match o with
  | None => os_insert key (scale_encode volume) ;; mret volume
  | Some encoded =>
      recorded ← ok_or (scale_decode encoded) "Unable to decode decimal";
      let total := saturating_add recorded volume in
      os_insert key (scale_encode total) ;; mret total
  end.

Definition read_decimal (key : bytes) : OS dec :=
  o ← os_get key;
  match o with
  | None => mret dec_zero
  | Some encoded => ok_or (scale_decode encoded) "Unable to decode decimal"
  end.

Definition update_trade_volume_by_main_account (epoch : Z) (pair : TradingPair) (volume : dec)
    (main : AccountId) : OS dec :=
  accumulate (get_trade_volume_by_main_account_key epoch pair main) volume.
Definition get_trade_volume_by_main_account (epoch : Z) (pair : TradingPair)
    (main : AccountId) : OS dec :=
  read_decimal (get_trade_volume_by_main_account_key epoch pair main).
Definition get_maker_volume_by_main_account (epoch : Z) (pair : TradingPair)
    (main : AccountId) : OS dec :=
  read_decimal (get_maker_volume_by_main_account_key epoch pair main).
Definition update_maker_volume_by_main_account (epoch : Z) (pair : TradingPair) (volume : dec)
    (main : AccountId) : OS dec :=
  accumulate (get_maker_volume_by_main_account_key epoch pair main) volume.
Definition get_total_maker_volume (epoch : Z) (pair : TradingPair) : OS dec :=
  if epoch =? 0 then mret dec_zero
  else read_decimal (get_total_maker_volume_key epoch pair).
Definition update_total_maker_volume (epoch : Z) (pair : TradingPair) (volume : dec) : OS dec :=
  accumulate (get_total_maker_volume_key epoch pair) volume.
Definition store_fees_paid_by_main_account_in_quote (epoch : Z) (pair : TradingPair)
    (fees_in_quote_terms : dec) (main : AccountId) : OS dec :=
  accumulate (get_fees_paid_by_main_account epoch pair main) fees_in_quote_terms.
Definition get_fees_paid_by_main_account_in_quote (epoch : Z) (pair : TradingPair)
    (main : AccountId) : OS dec :=
  read_decimal (get_fees_paid_by_main_account epoch pair main).

Definition store_lmp_config (config : LMPConfig) : OS unit :=
  os_insert LMP_CONFIG_KEY (scale_encode config).

Definition get_lmp_config (current_on_chain_epoch : Z) : OS LMPConfig :=
  o ← os_get LMP_CONFIG_KEY;
  match o with
  | None =>
      if current_on_chain_epoch =? 0 then
        let config := mkLMPConfig current_on_chain_epoch 0 in
        store_lmp_config config ;; mret config
      else fail "LMPConfigNotFound"
  | Some encoded => ok_or (scale_decode encoded) "Unable to decode LMP config"
  end.

Definition store_q_score_and_uptime (epoch index : Z) (score : dec) (pair : TradingPair)
    (main : AccountId) : OS unit :=
  let key := get_q_score_uptime_by_main_account epoch pair main in
  o ← os_get key;
  match o with
  | None => os_insert key (scale_encode ({[index := score]} : gmap Z dec))
  | Some encoded =>
      map ← ok_or (scale_decode encoded) "Unable to decode decimal";
      os_insert key (scale_encode (<[index := score]> (map : gmap Z dec)))
  end.

Definition get_q_score_and_uptime_for_checkpoint (epoch : Z) (pair : TradingPair)
    (main : AccountId) : OS (gmap Z dec) :=
  o ← os_get (get_q_score_uptime_by_main_account epoch pair main);
  match o with
  | None => mret ∅
  | Some encoded => ok_or (scale_decode encoded) "Unable to decode decimal"
  end.

Definition get_q_score_and_uptime (epoch : Z) (pair : TradingPair) (main : AccountId) :
    OS (dec * Z) :=
  o ← os_get (get_q_score_uptime_by_main_account epoch pair main);
  match o with
  | None => mret (dec_zero, 0)
  | Some encoded =>
      map ← ok_or (scale_decode encoded) "Unable to decode decimal";
      let scores := (btree_to_list (map : gmap Z dec)).*2 in
      mret (foldl saturating_add dec_zero scores, wrap 16 (Z.of_nat (size map)))
  end.

(** [clear_lmp_storages]: every metric key up to the current epoch is scheduled
    for removal; accounts and markets come in no particular order. *)
Definition clear_lmp_storages (o : OcexStorage) : OS unit :=
  let pairs := (λ '(b, q), pair_from q b) <$> (map_to_list (TradingPairs o)).*1 in
  let main_accounts := (map_to_list (Accounts o)).*1 in
  for_each main_accounts (λ main,
    for_each (seqZ 0 (LMPEpoch o + 1)) (λ epoch,
      for_each pairs (λ pair,
        os_remove (get_trade_volume_by_main_account_key epoch pair main) ;;
        os_remove (get_maker_volume_by_main_account_key epoch pair main) ;;
        os_remove (get_total_maker_volume_key epoch pair) ;;
        os_remove (get_fees_paid_by_main_account epoch pair main) ;;
        os_remove (get_q_score_uptime_by_main_account epoch pair main)))) ;;
  os_remove LMP_CONFIG_KEY.

Definition update_lmp_storage_from_trade (o : OcexStorage) (trade : Trade)
    (config : TradingPairConfig) (maker_fees taker_fees : dec) : OS unit :=
  let epoch := LMPEpoch o in
  let pair := pair_from (quote_asset config) (base_asset config) in
  let volume := saturating_mul (trade_price trade) (trade_amount trade) in
  let maker_main := order_main_account (maker trade) in
  let taker_main := order_main_account (taker trade) in
  update_trade_volume_by_main_account epoch pair volume maker_main ;;
  update_trade_volume_by_main_account epoch pair volume taker_main ;;
  update_maker_volume_by_main_account epoch pair volume maker_main ;;
  update_total_maker_volume epoch pair volume ;;
  match order_side (maker trade) with
  | Ask =>
      store_fees_paid_by_main_account_in_quote epoch pair maker_fees maker_main ;;
      store_fees_paid_by_main_account_in_quote epoch pair
        (saturating_mul taker_fees (trade_price trade)) taker_main ;;
      mret tt
  | Bid =>
      store_fees_paid_by_main_account_in_quote epoch pair
        (saturating_mul maker_fees (trade_price trade)) maker_main ;;
      store_fees_paid_by_main_account_in_quote epoch pair taker_fees taker_main ;;
      mret tt
  end.

(** [start_new_lmp_epoch]: the index restarts whatever was stored. *)
Definition start_new_lmp_epoch (epoch : Z) : OS unit := λ s,
  let '(config, s) :=
    if 1 <? epoch then
      match get_lmp_config epoch s with
      | (Ok config, s') => (config, s')
      | (_, s') => (mkLMPConfig epoch 0, s')
      end
    else (mkLMPConfig epoch 0, s) in
  store_lmp_config (mkLMPConfig epoch 0) s.

Definition store_q_scores (market : TradingPair) (scores : gmap AccountId dec)
    (current_on_chain_epoch : Z) : OS unit :=
  config ← get_lmp_config current_on_chain_epoch;
  let next_index := default 0 (checked_add_u 16 (lmp_index config) 1) in
  for_each (btree_to_list scores) (λ '(main, score),
    store_q_score_and_uptime (lmp_epoch config) next_index score market main) ;;
  store_lmp_config (mkLMPConfig (lmp_epoch config) next_index).

Definition compute_score (main : AccountId) (pair : TradingPair) (epoch : Z) : OS dec :=
  maker_volume ← get_maker_volume_by_main_account epoch pair main;
  total_last ← get_total_maker_volume (sat_sub epoch 1) pair;
  if (maker_volume <=? saturating_mul (dec_new 25 4) total_last)%dec then mret dec_zero
  else
    '(q_score, uptime) ← get_q_score_and_uptime epoch pair main;
    let uptime := dec_new uptime 0 in
    mret (saturating_mul (saturating_mul (dec_pow q_score 15 2) (dec_pow uptime 5 0))
            (dec_pow maker_volume 85 2)).

(** The traders of one market: their scores and fees, and the totals. *)
Definition market_metrics (o : OcexStorage) (epoch : Z) (pair : TradingPair) :
    OS (gmap AccountId (dec * dec) * (dec * dec)) :=
  fold_m (λ '(map, (total_score, total_fees_paid)) main,
    fees_paid ← get_fees_paid_by_main_account_in_quote epoch pair main;
    final_score ← compute_score main pair epoch;
    let map := if negb (dec_is_zero final_score) || negb (dec_is_zero fees_paid)
               then <[main := (final_score, fees_paid)]> map else map in
    mret (map, (saturating_add total_score final_score,
                saturating_add total_fees_paid fees_paid)))
    (∅, (dec_zero, dec_zero)) ((map_to_list (Accounts o)).*1).

Definition compute_trader_metrics (o : OcexStorage) : OS (option TradingPairMetricsMap) :=
  match FinalizeLMPScore o with
  | None => mret None
  | Some epoch =>
      config ← ok_or (LMPConfigs o !! epoch) "LMPConfig not defined for this epoch";
      scores ← fold_m (λ (scores : TradingPairMetricsMap) pair,
        '(map, totals) ← market_metrics o epoch pair;
        mret (if negb (dec_is_zero totals.1) || negb (dec_is_zero totals.2)
              then <[pair := (map, totals)]> scores else scores))
        ∅ ((btree_to_list (lmp_config config)).*1);
      mret (Some scores)
  end.

(** [get_trader_metrics_inner]: errors read as zero. *)
Definition os_default {B} (d : B) (m : OS B) : OS B := λ s,
  match m s with (Ok b, s') => (Ok b, s') | (Err _, s') => (Ok d, s') | (Panic, s') => (Panic, s') end.

Definition get_trader_metrics_inner (o : OcexStorage) (market : TradingPair) (main : AccountId)
    (epoch : Z) : OS (dec * dec * bool) :=
  if epoch <=? LMPEpoch o then
    current_score ← os_default dec_zero (compute_score main market epoch);
    fees_paid ← os_default dec_zero (get_fees_paid_by_main_account_in_quote epoch market main);
    let '(_, _, is_claimed) :=
      default (dec_zero, dec_zero, false) (TraderMetrics o !! (epoch, market, main)) in
    mret (current_score, fees_paid, is_claimed)
  else mret (dec_zero, dec_zero, false).

Definition get_total_score (o : OcexStorage) (epoch : Z) (market : TradingPair) : OS (dec * dec) :=
  fold_m (λ '(total_score, total_fees) main,
    '(score, fees, _) ← get_trader_metrics_inner o market main epoch;
    mret (saturating_add total_score score, saturating_add total_fees fees))
    (dec_zero, dec_zero) ((map_to_list (Accounts o)).*1).

(** [top_lmp_accounts]: a map from score to account, read from the top.  A
    [BTreeMap<Decimal, _>] orders, and identifies, keys by value. *)
Definition insert_by_score (m : list (dec * AccountId)) (score : dec) (main : AccountId) :
    list (dec * AccountId) :=
  let lower := filter (λ e, dec_ltb e.1 score) m in
  let higher := filter (λ e, dec_ltb score e.1) m in
  let key := match filter (λ e, dec_eqb e.1 score) m with (k, _) :: _ => k | [] => score end in
  lower ++ (key, main) :: higher.

Definition top_lmp_accounts (o : OcexStorage) (epoch : Z) (pair : TradingPair)
    (sorted_by_mm_score : bool) (limit : Z) : list AccountId :=
  let entries := filter (λ e, e.1.1 = (epoch, pair)) (map_to_list (TraderMetrics o)) in
  let accounts := foldl (λ m '((_, main), (mm_score, trading_score, _)),
    insert_by_score m (if sorted_by_mm_score then mm_score else trading_score) main) [] entries in
  let accounts := rev (accounts.*2) in
  take (Z.to_nat limit) accounts.
End lmp.
