(* ===== verification/Validator.v ===== *)
(** * The off-chain validator

    [pallets/ocex/src/validator.rs], with [snapshot.rs], [aggregator.rs] and the
    lock of [rpc.rs]: each validator replays the operator's batches on its own
    copy of the order book state and signs the resulting summary. *)

From S2P Require Import Prelude Decimal Assets Bank Types Orders Storage Settlement.
From S2P Require Import Chain LmCallbacks Ocex Lmp.

(** [StateInfo] *)
Record StateInfo : Type := mkStateInfo {
  last_block : Z;
  worker_nonce : Z;
  stid : Z;
  info_snapshot_id : Z;
}.
#[export] Instance eta_StateInfo : Eta StateInfo := λ r, {|
  last_block := last_block r; worker_nonce := worker_nonce r;
  stid := stid r; info_snapshot_id := info_snapshot_id r;
|}.
Definition default_state_info : StateInfo := mkStateInfo 0 0 0 0.

Section validator.
Context {D : Decimal} {C : Crypto} {W : Wire} {A : Authority} {CU : Currencies} {P : Percents}.
Context {CFG : OcexConfig} {T : TrieDB}.
Context {BC : Codec (gmap AssetId dec)} {LC : Codec LMPConfig} {IC : Codec StateInfo}.
Context {HC : Codec H256}.

(** [ObCheckpointRaw] *)
Record ObCheckpointRaw : Type := mkObCheckpointRaw {
  cp_snapshot_id : Z;
  cp_balances : gmap (AccountId * AssetId) dec;
  cp_last_processed_block_number : Z;
  cp_state_change_id : Z;
}.

(** The state and the state info that a batch mutates. *)
Definition PS : Type := OffchainState * StateInfo.
Definition on_state {B} (m : OS B) : M PS string B := λ '(s, info),
  let '(r, s') := m s in (r, (s', info)).

Definition str_ensure (b : bool) (e : string) : OS unit := ensure b e.

(** ** Importing a block *)
Abbreviation EngineMessages := (list (IngressMessages * EgressMessages)).
Definition engine_get (ms : EngineMessages) (m : IngressMessages) : option EgressMessages :=
  snd <$> find (λ e, ingress_eqb e.1 m) ms.

Definition verify_add_liquidity (ms : EngineMessages) (message : IngressMessages)
    (market : TradingPairConfig) (pool lp : AccountId)
    (total_shares base_deposited quote_deposited : dec) : OS EgressMessages :=
  add_balance pool (base_asset market) base_deposited ;;
  add_balance pool (quote_asset market) quote_deposited ;;
  base_balance ← get_balance pool (base_asset market);
  quote_balance ← get_balance pool (quote_asset market);
  engine_result ← ok_or (engine_get ms message) "Unable to find Egress message for AddLiquidity";
  match engine_result with
  | AddLiquidityResult _ pool_e lp_e issued_shares price total_inventory =>
      str_ensure (bool_decide (pool = pool_e)) "Invalid Pool id in egress" ;;
      str_ensure (bool_decide (lp = lp_e)) "Invalid LP address in egress" ;;
      let total_inventory_in_quote :=
        saturating_add quote_balance (saturating_mul price base_balance) in
      str_ensure (total_inventory =? total_inventory_in_quote)%dec "Inventory Mismatch" ;;
      let given_inventory :=
        saturating_add (saturating_mul base_deposited price) quote_deposited in
      shares_minted ←
        (if dec_is_zero total_inventory then mret given_inventory
         else lift (unwrap (checked_div (saturating_mul given_inventory total_shares)
                                        total_inventory)));
      str_ensure (issued_shares =? shares_minted)%dec "Invalid number of LP shares minted" ;;
      mret engine_result
  | _ => fail "Invalid Engine Egress message"
  end.

Definition verify_remove_liquidity (ms : EngineMessages) (message : IngressMessages)
    (market : TradingPairConfig) (pool lp : AccountId) (burn_frac : dec) : OS EgressMessages :=
  base_balance ← get_balance pool (base_asset market);
  quote_balance ← get_balance pool (quote_asset market);
  let withdrawing_base := saturating_mul burn_frac base_balance in
  let withdrawing_quote := saturating_mul burn_frac quote_balance in
  engine_message ← ok_or (engine_get ms message) "RemoveLiquidity engine message not found";
  match engine_message with
  | RemoveLiquidityResult market_e pool_e lp_e base_freed quote_freed =>
      str_ensure (bool_decide (pool = pool_e)) "Invalid Pool id in egress" ;;
      str_ensure (bool_decide (lp = lp_e)) "Invalid LP address in egress" ;;
      str_ensure (withdrawing_quote =? quote_freed)%dec "Invalid quote amount freed!" ;;
      str_ensure (withdrawing_base =? base_freed)%dec "Invalid base amount freed!" ;;
      sub_balance pool (quote_asset market_e) withdrawing_quote false ;;
      sub_balance pool (base_asset market_e) withdrawing_base false ;;
      mret engine_message
  | RemoveLiquidityFailed _ pool_e lp_e burn_frac_e _ base_free quote_free
      base_required quote_required =>
      str_ensure (bool_decide (pool = pool_e)) "Invalid Pool id in egress" ;;
      str_ensure (bool_decide (lp = lp_e)) "Invalid LP address in egress" ;;
      str_ensure (burn_frac =? burn_frac_e)%dec "Invalid Burn fraction in egress" ;;
      str_ensure (withdrawing_quote =? quote_required)%dec
        "Invalid quote amount required by engine!" ;;
      str_ensure (withdrawing_base =? base_required)%dec
        "Invalid base amount required by engine!" ;;
      str_ensure (negb (withdrawing_quote <=? quote_free)%dec)
        "Enough quote available but still denied by engine!" ;;
      str_ensure (negb (withdrawing_base <=? base_free)%dec)
        "Enough base balance available but still denied by engine!" ;;
      mret engine_message
  | _ => fail "Invalid engine message"
  end.

Definition close_pool (market : TradingPairConfig) (pool : AccountId) : OS EgressMessages :=
  base_balance ← get_balance pool (base_asset market);
  quote_balance ← get_balance pool (quote_asset market);
  sub_balance pool (base_asset market) base_balance false ;;
  sub_balance pool (quote_asset market) quote_balance false ;;
  mret (PoolForceClosed market pool base_balance quote_balance).

Definition withdraw_trading_fees (o : OcexStorage) (ms : EngineMessages)
    (message : IngressMessages) : OS EgressMessages :=
  egress_msg ← ok_or (engine_get ms message) "Egress message not found for withdraw trading fees";
  match egress_msg with
  | TradingFees engine_fees_map =>
      for_each (btree_elements (AllowlistedToken o)) (λ asset,
        match engine_fees_map !! asset with
        | None => mret tt
        | Some expected_balance =>
            str_ensure (negb (dec_is_zero expected_balance)) "InvalidTradingFeesValue" ;;
            balance ← get_balance pot_account asset;
            let balance := rounding_off balance in
            str_ensure (balance =? expected_balance)%dec "Incorrect Trading fees accounting" ;;
            sub_balance pot_account asset balance true ;;
            mret tt
        end) ;;
      mret egress_msg
  | _ => fail "Invalid egress message for withdraw trading fees"
  end.

(** One ingress message; the result is the verified egress messages. *)
Definition import_message (o : OcexStorage) (ms : EngineMessages) (message : IngressMessages) :
    OS (list EgressMessages) :=
  match message with
  | Deposit _ main asset amt => add_balance main asset amt ;; mret []
  | AddLiquidity market pool lp total_shares base_deposited quote_deposited =>
      e ← verify_add_liquidity ms message market pool lp total_shares base_deposited
            quote_deposited;
      mret [e]
  | RemoveLiquidity market pool lp burn_frac _ =>
      e ← verify_remove_liquidity ms message market pool lp burn_frac; mret [e]
  | ForceClosePool market pool => e ← close_pool market pool; mret [e]
  | WithdrawTradingFees => e ← withdraw_trading_fees o ms message; mret [e]
  | NewLMPEpoch epoch => start_new_lmp_epoch epoch ;; mret []
  | _ => mret []
  end.

Definition import_messages (o : OcexStorage) (ms : EngineMessages)
    (messages : list IngressMessages) : OS (list EgressMessages) :=
  fold_m (λ acc message, es ← import_message o ms message; mret (acc ++ es)) [] messages.

Definition import_blk (o : OcexStorage) (blk : Z) (ms : EngineMessages) :
    M PS string (list EgressMessages) :=
  info ← gets snd;
  ensure ((last_block info =? 0) || (blk =? sat_add 32 (last_block info) 1))
    "BlockOutofSequence" ;;
  verified ← on_state (import_messages o ms (ingress_at o blk));
  modify (λ '(s, info), (s, info <| last_block := saturated_into 32 blk |>)) ;;
  mret verified.

(** ** Trades and withdrawals *)
(** [get_fee_structure]: every account pays the default fees. *)
Definition get_fee_structure (_ _ : AccountId) : option (FeeConfig * FeeConfig) :=
  Some (default_fee_config, default_fee_config).

Definition trades (o : OcexStorage) (ts : list Trade) : OS unit :=
  for_each ts (λ trade,
    let pair := order_pair (maker trade) in
    config ← ok_or (TradingPairs o !! (base pair, quote pair)) "TradingPairNotFound";
    '(maker_fees, taker_fees) ←
      ok_or (get_fee_structure (order_main_account (maker trade))
               (order_main_account (taker trade))) "Fee structure not found";
    process_trade trade config maker_fees taker_fees).

Definition withdraw (request : WithdrawalRequest) (stid : Z) : OS Withdrawal :=
  amount ← ok_or (request_amount request) "decimal conversion error";
  str_ensure (request_verify request) "SignatureVerificationFailed" ;;
  actual_deducted ← sub_balance (wr_main request) (request_asset request) amount true;
  withdrawal ← ok_or (request_convert request stid) "Withdrawal conversion error";
  mret (mkWithdrawal (wd_id withdrawal) (wd_main_account withdrawal) actual_deducted
          (wd_asset withdrawal) (wd_fees withdrawal) (wd_stid withdrawal)
          (wd_destination withdrawal)).

Definition verify_batch_signature (o : OcexStorage) (batch : UserActionBatch) : bool :=
  match OrderbookOperatorPublicKey o with
  | None => false
  | Some key => batch_verify batch key
  end.

Definition BatchResult : Type :=
  list Withdrawal * list EgressMessages * option TradingPairMetricsMap.

Definition process_action (o : OcexStorage) (action : UserActions) :
    M PS string (list Withdrawal * list EgressMessages) :=
  match action with
  | TradeAction ts => on_state (trades o ts) ;; mret ([], [])
  | Withdraw request => w ← on_state (withdraw request 0); mret ([w], [])
  | BlockImport blk ms prices =>
      es ← import_blk o (saturated_into 32 blk) ms;
      mret ([], es ++ [PriceOracle prices])
  | Reset => mret ([], [])
  | WithdrawV1 request stid => w ← on_state (withdraw request stid); mret ([w], [])
  | OneMinLMPReport _ _ _ => mret ([], [])
  end.

Definition process_batch (o : OcexStorage) (batch : UserActionBatch) : M PS string BatchResult :=
  info ← gets snd;
  ensure (negb (batch_stid batch <=? stid info)) "Invalid stid" ;;
  '(ws, es) ← fold_m (λ '(ws, es) action,
    '(ws', es') ← process_action o action;
    mret (ws ++ ws', es ++ es')) ([], []) (batch_actions batch);
  mret (ws, es, None).

(** ** Checkpoints and state info *)
Definition process_checkpoint (cp : ObCheckpointRaw) : OS unit :=
  for_each (btree_to_list (cp_balances cp)) (λ '((main, asset), amount),
    let key := to_raw_vec main in
    o ← os_get key;
    value ← match o with
            | None => mret ∅
            | Some encoded => decode_balances encoded "Unable to decode balances for account"
            end;
    os_insert key (scale_encode (<[asset := amount]> value))).

Definition update_state_info (info : StateInfo) (cp : ObCheckpointRaw) : StateInfo :=
  info <| info_snapshot_id := cp_snapshot_id cp |>
       <| stid := cp_state_change_id cp |>
       <| last_block := cp_last_processed_block_number cp |>.

Definition STATE_INFO : bytes := bytes_of "offchain-ocex::state_info".

Definition load_state_info : OS StateInfo :=
  o ← os_get STATE_INFO;
  match o with
  | Some data => mret (default default_state_info (scale_decode data))
  | None => mret default_state_info
  end.

Definition store_state_info (info : StateInfo) : OS unit :=
  os_insert STATE_INFO (scale_encode info).

Definition calculate_signer_index (authorities : list AuthorityId) (signer : AuthorityId) :
    option nat := fst <$> list_find (λ auth, signer = auth) authorities.

(** ** The worker

    The node the worker runs on: its keystore, its role, the aggregator it talks
    to and the JSON encoder. *)
Record Node : Type := mkNode {
  (** [T::AuthorityId::all()] contains the key, as [binary_search] finds it *)
  has_local_key : AuthorityId → bool;
  sign : AuthorityId → bytes → option AuthoritySig;
  is_validator : bool;
  (** [AggregatorClient::get_user_action_batch] and [get_checkpoint] *)
  agg_batch : Z → option UserActionBatch;
  agg_checkpoint : option ObCheckpointRaw;
  (** [serde_json::to_string(&ApprovedSnapshot { .. })] *)
  approved_json : bytes → Z → AuthoritySig → option string;
}.

(** The persistent off-chain cells, the trie nodes, and the requests sent. *)
Record Worker : Type := mkWorker {
  trie_root_cell : option bytes;
  (** [WORKER_STATUS]; [Err] is an unreadable cell *)
  worker_status : res unit (option bool);
  node_db : hashdb;
  signed_summaries : gmap Z (SnapshotSummary * AuthoritySig * Z);
  sent : list string;
}.
#[export] Instance eta_Worker : Eta Worker := λ r, {|
  trie_root_cell := trie_root_cell r; worker_status := worker_status r;
  node_db := node_db r; signed_summaries := signed_summaries r; sent := sent r;
|}.

(** [acquire_offchain_lock]: three tries at an atomic test-and-set. *)
Definition try_lock (w : Worker) : bool * Worker :=
  match worker_status w with
  | Ok (Some true) | Err _ | Panic => (false, w)
  | Ok _ => (true, w <| worker_status := Ok (Some true) |>)
  end.
Definition acquire_offchain_lock (w : Worker) : bool * Worker :=
  let '(ok, w) := try_lock w in
  if (ok : bool) then (true, w)
  else let '(ok, w) := try_lock w in
       if (ok : bool) then (true, w) else try_lock w.
Definition release_offchain_lock (w : Worker) : Worker :=
  w <| worker_status := Ok (Some false) |>.

(** [check_worker_status]: an older, unused form of the lock. *)
Definition check_worker_status : M Worker string bool :=
  w ← get_state;
  match worker_status w with
  | Ok (Some true) => mret false
  | Ok _ => modify (λ w, w <| worker_status := Ok (Some true) |>) ;; mret true
  | _ => fail "Unable to load worker status"
  end.

(** The variables of [run_on_chain_validation]: the worker, [state], [state_info]. *)
Record Run : Type := mkRun {
  run_worker : Worker;
  run_state : OffchainState;
  run_info : StateInfo;
}.
#[export] Instance eta_Run : Eta Run := λ r, {|
  run_worker := run_worker r; run_state := run_state r; run_info := run_info r;
|}.
Abbreviation RunM := (M Run string).

Definition run_ps {B} (m : M PS string B) : RunM B := λ r,
  let '(x, (s, info)) := m (run_state r, run_info r) in
  (x, r <| run_state := s |> <| run_info := info |>).
Definition run_os {B} (m : OS B) : RunM B := run_ps (on_state m).
Definition set_info (f : StateInfo → StateInfo) : RunM unit := modify (λ r, r <| run_info ::= f |>).
Definition run_store_root (root : H256) : RunM unit :=
  modify (λ r, r <| run_worker ::= λ w, w <| trie_root_cell := store_trie_root root |> |>).

(** [Self::store_state_info(state_info, &mut state); state.commit()?] *)
Definition commit_info : RunM H256 :=
  info ← gets run_info;
  run_os (store_state_info info) ;;
  run_os os_commit.

(** Dropping a trie writes its pending nodes. *)
Definition drop_state (r : Run) : Worker :=
  (run_worker r) <| node_db := trie_db (trie_commit (state_trie (run_state r))) |>.

Definition CHECKPOINT_BLOCKS : Z := 1260.

(** Reads the state info and checks it against the last finalized snapshot. *)
Definition load_and_check (o : OcexStorage) (next_nonce : Z) (root : H256) : RunM unit :=
  r ← get_state;
  match load_state_info (run_state r) with
  | (Ok info, s) =>
      modify (λ r, r <| run_state := s |> <| run_info := info |>) ;;
      match Snapshots o !! info_snapshot_id info with
      | Some summary =>
          if bool_decide (state_hash summary = root) then mret tt
          else
            run_store_root H256_zero ;;
            let reset_info := info <| last_block := 0 |>
              <| info_snapshot_id := sat_sub next_nonce CHECKPOINT_BLOCKS |> in
            run_os (store_state_info reset_info) ;;
            set_info (λ _, reset_info)
      | None =>
          if negb (info_snapshot_id info =? 0) && negb (info_snapshot_id info =? next_nonce)
          then fail "Unable to load last processed snapshot summary from on-chain"
          else mret tt
      end
  | (Err e, s) =>
      modify (λ r, r <| run_state := s |>) ;; run_store_root H256_zero ;; fail e
  | (Panic, s) => panic
  end ;;
  set_info (λ info, if info_snapshot_id info =? 0 then info <| last_block := 0 |> else info).

(** Rebuilds the state from the aggregator's checkpoint. *)
Definition sync_checkpoint (n : Node) (o : OcexStorage) : RunM Z :=
  modify (λ r, let w := drop_state r in
    mkRun w (os_load (node_db w) H256_zero) (run_info r)) ;;
  cp ← ok_or (agg_checkpoint n) "No checkpoint found";
  map_err (λ _, "Sync failed") (run_os (process_checkpoint cp)) ;;
  set_info (λ info, update_state_info info cp) ;;
  computed_root ← commit_info;
  summary ← ok_or (Snapshots o !! cp_snapshot_id cp) "Snapshot not found";
  ensure (bool_decide (state_hash summary = computed_root)) "State root mismatch" ;;
  run_store_root computed_root ;;
  mret (snapshot_id summary).

(** Replays the finalized batches; [false] when one is not available. *)
Fixpoint sync_batches (n : Node) (o : OcexStorage) (nonces : list Z) : RunM bool :=
  match nonces with
  | [] => mret true
  | nonce :: nonces' =>
      match agg_batch n nonce with
      | None => mret false
      | Some batch =>
          ensure (verify_batch_signature o batch) "Invalid batch signature" ;;
          map_err (λ _, "Sync failed") (run_ps (process_batch o batch)) ;;
          set_info (λ info, info <| stid := batch_stid batch |>
                                 <| info_snapshot_id := batch_snapshot_id batch |>) ;;
          root ← commit_info;
          run_store_root root ;;
          sync_batches n o nonces'
      end
  end.

Definition send (body : string) : RunM unit :=
  modify (λ r, r <| run_worker ::= λ w, w <| sent ::= (.++ [body]) |> |>).

Definition with_validator_set_id (s : SnapshotSummary) (i : Z) : SnapshotSummary :=
  mkSnapshotSummary i (snapshot_id s) (state_hash s) (state_change_id s) (last_processed_blk s)
    (withdrawals s) (egress_messages s) (trader_metrics s).

(** [load_signed_summary_and_send] *)
Definition load_signed_summary_and_send (n : Node) (current_set_id snapshot_id : Z)
    (signer : AuthorityId) (auth_index : Z) : RunM unit :=
  r ← get_state;
  match signed_summaries (run_worker r) !! snapshot_id with
  | Some (summary, signature, index) =>
      '(summary, signature, index) ←
        (if validator_set_id summary =? current_set_id then mret (summary, signature, index)
         else
           let summary := with_validator_set_id summary current_set_id in
           signature ← ok_or (sign n signer (enc_summary summary)) "Private key not found";
           mret (summary, signature, auth_index));
      match approved_json n (enc_summary summary) index signature with
      | Some body => send body
      | None => mret tt
      end
  | None => mret tt
  end.

Definition submit_summary (n : Node) (o : OcexStorage) (keys authorities : list AuthorityId)
    (next_nonce : Z) (root : H256) (batch : UserActionBatch) (result : BatchResult) : RunM unit :=
  key ← ok_or (head keys) "No active keys found";
  auth_index ← ok_or (calculate_signer_index authorities key) "Unable to calculate signer index";
  info ← gets run_info;
  let '(ws, es, metrics) := result in
  let summary := mkSnapshotSummary (ValidatorSetId o) next_nonce root (batch_stid batch)
    (saturated_into 32 (last_block info)) ws es metrics in
  signature ← ok_or (sign n key (enc_summary summary)) "Private key not found";
  let index := saturated_into 16 (Z.of_nat auth_index) in
  body ← ok_or (approved_json n (enc_summary summary) index signature)
           "ApprovedSnapshot serialization failed";
  send body ;;
  modify (λ r, r <| run_worker ::= λ w,
    w <| signed_summaries ::= <[next_nonce := (summary, signature, index)]> |> |>).

(** The new batch: processed, committed, signed and sent. *)
Definition process_next (n : Node) (o : OcexStorage) (keys authorities : list AuthorityId)
    (next_nonce : Z) : RunM bool :=
  match agg_batch n next_nonce with
  | None =>
      set_info (λ info, info <| info_snapshot_id := sat_sub next_nonce 1 |>) ;;
      root ← commit_info;
      run_store_root root ;;
      mret true
  | Some batch =>
      ensure (verify_batch_signature o batch) "Invalid batch signature" ;;
      result ← run_ps (process_batch o batch);
      set_info (λ info, info <| stid := batch_stid batch |>
                             <| info_snapshot_id := batch_snapshot_id batch |>) ;;
      root ← commit_info;
      run_store_root root ;;
      (if is_validator n then submit_summary n o keys authorities next_nonce root batch result
       else mret tt) ;;
      mret true
  end.

(** The body of [run_on_chain_validation] once the state is loaded. *)
Definition run_body (n : Node) (o : OcexStorage) (keys authorities : list AuthorityId)
    (next_nonce : Z) (root : H256) : RunM bool :=
  load_and_check o next_nonce root ;;
  info ← gets run_info;
  if info_snapshot_id info =? next_nonce then
    if negb (is_validator n) then mret true
    else
      key ← ok_or (head keys) "No active keys found";
      auth_index ← ok_or (calculate_signer_index authorities key)
                     "Unable to calculate signer index";
      load_signed_summary_and_send n (set_id (validator_set o)) next_nonce key
        (wrap 16 (Z.of_nat auth_index)) ;;
      mret true
  else
    last_processed_nonce ←
      (if CHECKPOINT_BLOCKS <=? sat_sub next_nonce (info_snapshot_id info)
       then sync_checkpoint n o else mret (info_snapshot_id info));
    synced ←
      (if 2 <=? sat_sub next_nonce last_processed_nonce then
         let first := sat_add 64 last_processed_nonce 1 in
         sync_batches n o (seqZ first (next_nonce - first))
       else mret true);
    if (synced : bool) then process_next n o keys authorities next_nonce else mret true.

Definition run_on_chain_validation (n : Node) (o : OcexStorage) : M Worker string bool := λ w,
  let authorities := validators (validator_set o) in
  let keys := merge_sort (λ a b, Is_true (authority_leb a b))
    (filter (λ a, Is_true (has_local_key n a)) authorities) in
  if is_nil keys && is_validator n then (Err "No active keys available", w)
  else
    let '(locked, w) := acquire_offchain_lock w in
    if negb locked then (Ok false, w)
    else
      let next_nonce := sat_add 64 (SnapshotNonce o) 1 in
      let root := load_trie_root (trie_root_cell w) in
      let '(x, r) := run_body n o keys authorities next_nonce root
        (mkRun w (os_load (node_db w) root) default_state_info) in
      (* a trap runs no destructor *)
      (x, match x with Panic => run_worker r | _ => drop_state r end).

(** [offchain_worker]: the lock is released unless another worker holds it; a trap
    leaves it taken. *)
Definition offchain_worker (n : Node) (o : OcexStorage) (w : Worker) : Worker :=
  match run_on_chain_validation n o w with
  | (Ok false, w') | (Panic, w') => w'
  | (_, w') => release_offchain_lock w'
  end.

(** ** Queries *)
Definition get_offchain_balance (w : Worker) (account : AccountId) :
    res string (gmap AssetId dec) :=
  match trie_get (get_state_trie (node_db w) (load_trie_root (trie_root_cell w))) (to_raw_vec account) with
  | Ok None => Ok ∅
  | Ok (Some encoded) =>
      res_of_option (scale_decode encoded) "Unable to decode balances for account"
  | Err e => Err (map_trie_error e)
  | Panic => Panic
  end.

Definition get_state_info (w : Worker) : res string StateInfo :=
  (load_state_info (os_load (node_db w) (load_trie_root (trie_root_cell w)))).1.

Definition offchain_balance_of (w : Worker) (account : AccountId) (asset : AssetId) : dec :=
  match get_offchain_balance w account with
  | Ok b => default dec_zero (b !! asset)
  | _ => dec_zero
  end.

(** Gathers the balances of the given accounts. *)
Fixpoint collect_balances (w : Worker) (accounts : list AccountId)
    (acc : gmap (AccountId * AssetId) dec) : res string (gmap (AccountId * AssetId) dec) :=
  match accounts with
  | [] => Ok acc
  | main :: accounts' =>
      match get_offchain_balance w main with
      | Ok b => collect_balances w accounts'
                  (map_fold (λ x d m, <[(main, x) := d]> m) acc b)
      | Err e => Err e
      | Panic => Panic
      end
  end.

(** [fetch_checkpoint]: all registered accounts and the fee pot. *)
Definition fetch_checkpoint (o : OcexStorage) (w : Worker) : res string ObCheckpointRaw :=
  match collect_balances w ((map_to_list (Accounts o)).*1 ++ [get_pot_account]) ∅ with
  | Ok balances =>
      match get_state_info w with
      | Ok info => Ok (mkObCheckpointRaw (info_snapshot_id info) balances (last_block info)
                         (stid info))
      | _ => Err "Corruption"
      end
  | Err e => Err e
  | Panic => Panic
  end.

(** [ObRecoveryState]: the accounts with their proxies, all balances, and the
    state info *)
Record ObRecoveryState : Type := mkObRecoveryState {
  rs_snapshot_id : Z;
  rs_account_ids : gmap AccountId (list AccountId);
  rs_balances : gmap (AccountId * AssetId) dec;
  rs_last_processed_block_number : Z;
  rs_state_change_id : Z;
  rs_worker_nonce : Z;
}.

Definition get_ob_recover_state (o : OcexStorage) (w : Worker) : res string ObRecoveryState :=
  let accounts := ((λ '(acc, info), (acc, ai_proxies info)) <$> map_to_list (Accounts o))
    ++ ((λ a, (a, [])) <$> get_system_accounts) in
  match collect_balances w accounts.*1 ∅ with
  | Ok balances =>
      let account_ids := foldl (λ m '(a, ps), <[a := ps]> m) ∅ accounts in
      match get_state_info w with
      | Ok info => Ok (mkObRecoveryState (info_snapshot_id info) account_ids balances
                         (last_block info) (stid info) (worker_nonce info))
      | _ => Err "Corruption"
      end
  | Err e => Err e
  | Panic => Panic
  end.

(** ** Inventory deviation ([rpc.rs]) *)
Definition get_balances (account : AccountId) : OS (gmap AssetId dec) :=
  o ← os_get (to_raw_vec account);
  match o with
  | None => mret ∅
  | Some encoded => decode_balances encoded "Unable to decode balances for account"
  end.

Definition add_to_inventory (m : gmap AssetId dec) (asset : AssetId) (amt : dec) : gmap AssetId dec :=
  <[asset := match m !! asset with Some t => saturating_add t amt | None => amt end]> m.

Definition offchain_inventory (o : OcexStorage) : OS (gmap AssetId dec) :=
  fold_m (λ inv main,
    balances ← get_balances main;
    mret (foldl (λ m '(asset, amt), add_to_inventory m asset amt) inv (btree_to_list balances)))
    ∅ ((map_to_list (Accounts o)).*1).

Definition deposits_of (messages : list IngressMessages) : list (AssetId * dec) :=
  omap (λ m, match m with Deposit _ _ asset amt => Some (asset, amt) | _ => None end) messages.

(** The custody balances plus the deposits of the blocks not yet processed. *)
Definition onchain_inventory (c : Chain) (last_processed_blk : Z) : option (gmap AssetId dec) :=
  let assets := btree_elements (AllowlistedToken (ocex c)) in
  inv ← foldl (λ acc asset,
    m ← acc; total ← get_onchain_balance c asset; Some (add_to_inventory m asset total))
    (Some ∅) assets;
  let current_blk := saturated_into 32 (block_number c) in
  let blocks := if last_processed_blk <? current_blk
                then seqZ (sat_add 32 last_processed_blk 1)
                       (current_blk + 1 - sat_add 32 last_processed_blk 1) else [] in
  Some (foldl (λ m blk,
    foldl (λ m '(asset, amt), add_to_inventory m asset amt) m
      (deposits_of (ingress_at (ocex c) blk))) inv blocks).

Definition calculate_inventory_deviation (c : Chain) (w : Worker) :
    res string (gmap AssetId dec) :=
  fst ((info ← load_state_info;
   off ← offchain_inventory (ocex c);
   on ← lift (unwrap (onchain_inventory c (last_block info)));
   mret (foldl (λ m asset,
     <[asset := saturating_sub (default dec_zero (on !! asset)) (default dec_zero (off !! asset))]> m)
     ∅ (btree_elements (AllowlistedToken (ocex c)))) : OS (gmap AssetId dec))
  (os_load (node_db w) (load_trie_root (trie_root_cell w)))).
End validator.
