(* ===== verification/Solvency.v ===== *)
(** * Solvency of the order book

    A small program logic for the off-chain ledger, and its main use: replaying
    a batch of fair trades and non-negative requests never creates funds.  What the book
    owes its users after a batch, together with the withdrawals and the releases it
    announces, is at most what it owed before plus the imported deposits. *)

From S2P Require Import Prelude Decimal Assets Bank Types Orders Storage Settlement.
From S2P Require Import Chain LmCallbacks Ocex Lmp Validator.

(** ** A program logic for the ledger

    [lwp c m Q]: run on any state that holds the well-formed ledger [c], [m] leaves a
    well-formed ledger, which satisfies [Q] when [m] succeeds. *)
Section logic.
Context {D : Decimal} {DL : DecimalLaws} {T : TrieDB} {TL : TrieLaws}.
Context {BC : Codec (gmap AssetId dec)} {BL : CodecLaws (gmap AssetId dec)}.
Implicit Types (s : OffchainState) (c : gmap bytes bytes).

Definition lwp {B} c (m : OS B) (Q : B → gmap bytes bytes → Prop) : Prop :=
  ledger_wf c → ∀ s, holds s c →
  ∃ s' c' r, m s = (r, s') ∧ holds s' c' ∧ ledger_wf c' ∧ ∀ b, r = Ok b → Q b c'.

Lemma lwp_ret {B} c (b : B) Q : Q b c → lwp c (mret b) Q.
Proof. intros HQ Hwf s Hs. exists s, c, (Ok b). split_and!; try done. by intros ? [= <-]. Qed.

Lemma lwp_fail {B} c e (Q : B → _) : lwp c (fail e) Q.
Proof. intros Hwf s Hs. by exists s, c, (Err e). Qed.

Lemma lwp_lift {B} c (r : res string B) Q : (∀ b, r = Ok b → Q b c) → lwp c (lift r) Q.
Proof. intros HQ Hwf s Hs. exists s, c, r. split_and!; try done. Qed.

Lemma lwp_ok_or {B} c (o : option B) e Q : (∀ b, o = Some b → Q b c) → lwp c (ok_or o e) Q.
Proof. intros HQ. apply lwp_lift. intros b. destruct o; [|done]. intros [= <-]. by apply HQ. Qed.

Lemma lwp_ensure c b e Q : (b = true → Q tt c) → lwp c (ensure b e) Q.
Proof. intros HQ. destruct b; [apply lwp_ret; auto|apply lwp_fail]. Qed.

Lemma lwp_bind {A B} c (m : OS A) (f : A → OS B) Q :
  lwp c m (λ a c', lwp c' (f a) Q) → lwp c (m ≫= f) Q.
Proof.
  intros Hm Hwf s Hs. destruct (Hm Hwf s Hs) as (s1 & c1 & r & Hr & Hs1 & Hwf1 & Hf).
  rewrite bind_run, Hr. destruct r as [a|e|]; [by apply Hf|by eexists _, _, _..].
Qed.

Lemma lwp_mono {B} c (m : OS B) (Q Q' : B → _ → Prop) :
  lwp c m Q → (∀ b c', ledger_wf c' → Q b c' → Q' b c') → lwp c m Q'.
Proof.
  intros Hm HQ Hwf s Hs. destruct (Hm Hwf s Hs) as (s' & c' & r & Hr & Hs' & Hwf' & Hq).
  exists s', c', r. split_and!; try done. intros b Hb. auto.
Qed.

Lemma lwp_wf {B} c (m : OS B) Q : (ledger_wf c → lwp c m Q) → lwp c m Q.
Proof. intros H Hwf. by apply H. Qed.

(** A loop that keeps a relation between the elements left and the ledger. *)
Lemma lwp_for_each {A} (l : list A) (body : A → OS unit) (I : list A → gmap bytes bytes → Prop) c :
  I l c → (∀ x l' c', I (x :: l') c' → lwp c' (body x) (λ _, I l')) →
  lwp c (for_each l body) (λ _, I []).
Proof.
  intros HI Hbody. revert c HI. induction l as [|x l IH]; intros c HI; cbn; [by apply lwp_ret|].
  apply lwp_bind. eapply lwp_mono; [by apply Hbody|]. intros u c' _ HI'. by apply IH.
Qed.

(** *** The operations *)
Lemma total_nonneg c x : ledger_wf c → 0 ≤ total c x.
Proof.
  intros Hwf. apply map_total_nonneg. intros k raw [Hk Hl]%map_lookup_filter_Some.
  destruct (Hwf k raw Hl Hk) as (b & Hdec & Hb). cbn. rewrite Hdec. cbn.
  destruct (b !! x) as [d|] eqn:Hd; cbn; [|lia]. by apply (Hb x d).
Qed.

Lemma lwp_credit c a x d :
  on_grain (units d) → total c x + units d < MAX_UNITS →
  lwp c (add_balance a x d) (λ _ c', ∀ y, total c' y ≤ total c y + delta y x (units d)).
Proof.
  intros Hd Hmax Hwf s Hs.
  destruct (credit_effect s c a x d Hs Hwf Hd Hmax) as (s' & c' & Hr & Hs' & Hwf' & Ht).
  exists s', c', (Ok tt). split_and!; try done. intros _ _ y. apply Ht.
Qed.

Lemma lwp_debit c a x d wd :
  on_grain (units d) → units d < MAX_UNITS → total c x < MAX_UNITS →
  lwp c (sub_balance a x d wd) (λ d' c',
    0 ≤ units d' ∧ units d' = Z.min (units d) (bal c a x) ∧ (wd = false → d' = d)
    ∧ ∀ y, total c' y ≤ total c y - delta y x (units d')).
Proof.
  intros Hd Hmax Htot Hwf s Hs.
  destruct (debit_effect s c a x d wd Hs Hwf Hd Hmax Htot) as (s' & c' & r & Hr & Hs' & Hwf' & Hq).
  exists s', c', r. split_and!; try done. intros d' ->. destruct Hq as (Hmin & Hwd & Ht).
  pose proof (bal_grain c a x Hwf) as [Hb _]. destruct Hd as [Hd _].
  split; [lia|]. split; [done|]. split; [done|]. intros y. specialize (Ht y).
  unfold delta in *. case_decide; lia.
Qed.

Lemma lwp_balance c a x :
  lwp c (get_balance a x) (λ d c', c' = c ∧ units d = bal c a x).
Proof.
  intros Hwf s Hs. destruct (get_balance_run s c a x Hs Hwf) as (s' & d & Hr & Hs' & Hd).
  exists s', c, (Ok d). split_and!; try done. by intros ? [= <-].
Qed.

Lemma lwp_get c k : lwp c (os_get k) (λ o c', c' = c ∧ o = c !! k).
Proof.
  intros Hwf s Hs. destruct (os_get_holds s c k Hs) as (s' & Hr & Hs').
  exists s', c, (Ok (c !! k)). split_and!; try done. by intros ? [= <-].
Qed.

(** A key that is not the encoding of an account is outside the ledger. *)
Lemma lwp_insert_other c k v :
  length k ≠ 32%nat → lwp c (os_insert k v) (λ _ c', ∀ y, total c' y = total c y).
Proof.
  intros Hk Hwf s Hs. destruct (os_insert_holds s c k v Hs) as (s' & Hr & Hs').
  exists s', (<[k:=v]> c), (Ok tt). split_and!; try done.
  - intros k' raw Hl. rewrite lookup_insert_ne by congruence. by apply Hwf.
  - intros _ _ y. unfold total. by rewrite map_filter_insert_not by done.
Qed.
End logic.

(** ** Replaying a batch *)
Section batches.
Context {D : Decimal} {DL : DecimalLaws} {C : Crypto} {W : Wire} {A : Authority}.
Context {CU : Currencies} {P : Percents} {CFG : OcexConfig} {T : TrieDB} {TL : TrieLaws}.
Context {BC : Codec (gmap AssetId dec)} {BL : CodecLaws (gmap AssetId dec)}.
Context {LC : Codec LMPConfig}.
Implicit Types (c : gmap bytes bytes) (o : OcexStorage) (x : AssetId).

(** What an ingress message brings into the book. *)
Definition msg_in x (m : IngressMessages) : Z :=
  match m with
  | Deposit _ _ a amt => delta x a (units amt)
  | AddLiquidity market _ _ _ b q =>
      delta x (base_asset market) (units b) + delta x (quote_asset market) (units q)
  | _ => 0
  end.

(** What a verified egress message releases from it. *)
Definition egress_out o x (e : EgressMessages) : Z :=
  match e with
  | RemoveLiquidityResult market _ _ b q | PoolForceClosed market _ b q =>
      delta x (base_asset market) (units b) + delta x (quote_asset market) (units q)
  | TradingFees fees =>
      if decide (x ∈ AllowlistedToken o) then from_option units 0 (fees !! x) else 0
  | _ => 0
  end.

Definition withdrawal_out x (w : Withdrawal) : Z := delta x (wd_asset w) (units (wd_amount w)).

(** Amounts with at most the twelve decimals of the chain. *)
Definition msg_ok (m : IngressMessages) : Prop :=
  match m with
  | Deposit _ _ _ amt => on_grain (units amt)
  | AddLiquidity _ _ _ _ b q => on_grain (units b) ∧ on_grain (units q)
  | _ => True
  end.
Definition egress_ok (e : EgressMessages) : Prop :=
  match e with
  | RemoveLiquidityResult _ _ _ b q =>
      on_grain (units b) ∧ on_grain (units q) ∧ units b < MAX_UNITS ∧ units q < MAX_UNITS
  | _ => True
  end.

Lemma delta_nonneg x y u : 0 ≤ u → 0 ≤ delta x y u.
Proof. unfold delta. case_decide; lia. Qed.

Lemma delta_self x u : delta x x u = u.
Proof. unfold delta. by rewrite decide_True. Qed.

Lemma msg_in_nonneg x m : msg_ok m → 0 ≤ msg_in x m.
Proof.
  destruct m; cbn; try lia.
  - intros []. by apply delta_nonneg.
  - intros [[H1 _] [H2 _]].
    match goal with |- 0 ≤ ?a + ?b => assert (0 ≤ a ∧ 0 ≤ b); [|lia] end.
    split; by apply delta_nonneg.
Qed.

Lemma engine_get_ok ms m e : Forall (λ me, egress_ok me.2) ms → engine_get ms m = Some e → egress_ok e.
Proof.
  unfold engine_get. intros Hms He. apply fmap_Some in He as ([m' e'] & Hf & ->).
  apply find_some in Hf as [Hin _]. rewrite Forall_forall in Hms. apply (Hms (m', e')).
  by apply list_elem_of_In.
Qed.

Lemma dec_eqb_units (a b : dec) : (a =? b)%dec = true → units a = units b.
Proof. unfold dec_eqb. lia. Qed.

Lemma add_liquidity_solvent c ms message market pool lp shares b q :
  on_grain (units b) → on_grain (units q) →
  (∀ x, total c x + delta x (base_asset market) (units b)
        + delta x (quote_asset market) (units q) < MAX_UNITS) →
  lwp c (verify_add_liquidity ms message market pool lp shares b q) (λ e c',
    (∀ o x, egress_out o x e = 0) ∧ ∀ x, total c' x ≤ total c x
      + delta x (base_asset market) (units b) + delta x (quote_asset market) (units q)).
Proof.
  intros Hb Hq Hmax. unfold verify_add_liquidity. apply lwp_bind.
  eapply lwp_mono; [apply lwp_credit; [done|]|].
  { specialize (Hmax (base_asset market)). rewrite delta_self in Hmax.
    pose proof (delta_nonneg (base_asset market) (quote_asset market) (units q) (proj1 Hq)). lia. }
  intros u c1 _ H1. apply lwp_bind. eapply lwp_mono; [apply lwp_credit; [done|]|].
  { specialize (Hmax (quote_asset market)). specialize (H1 (quote_asset market)).
    rewrite delta_self in Hmax. lia. }
  intros u' c2 _ H2. apply lwp_bind. eapply lwp_mono; [apply lwp_balance|]. intros bb c3 _ [-> _].
  apply lwp_bind. eapply lwp_mono; [apply lwp_balance|]. intros qb c3 _ [-> _].
  apply lwp_bind, lwp_ok_or. intros e _. destruct e; try apply lwp_fail.
  do 3 (apply lwp_bind, lwp_ensure; intros _). apply lwp_bind.
  destruct (dec_is_zero _); [apply lwp_ret|apply lwp_lift; intros sm _];
    (apply lwp_bind, lwp_ensure; intros _; apply lwp_ret; split; [done|];
     intros x; specialize (H1 x); specialize (H2 x); lia).
Qed.

Lemma remove_liquidity_solvent o c ms message market pool lp frac :
  Forall (λ me, egress_ok me.2) ms → (∀ x, total c x < MAX_UNITS) →
  lwp c (verify_remove_liquidity ms message market pool lp frac) (λ e c',
    ∀ x, 0 ≤ egress_out o x e ∧ total c' x + egress_out o x e ≤ total c x).
Proof.
  intros Hms Hmax. unfold verify_remove_liquidity.
  apply lwp_bind. eapply lwp_mono; [apply lwp_balance|]. intros bb c1 _ [-> _].
  apply lwp_bind. eapply lwp_mono; [apply lwp_balance|]. intros qb c1 _ [-> _].
  apply lwp_bind, lwp_ok_or. intros e He. pose proof (engine_get_ok _ _ _ Hms He) as Hok.
  destruct e as [|me pe le b q| | | |]; try apply lwp_fail; cycle 1.
  { do 7 (apply lwp_bind, lwp_ensure; intros _). apply lwp_ret. intros x. cbn. lia. }
  destruct Hok as (Hb & Hq & Hbm & Hqm). do 2 (apply lwp_bind, lwp_ensure; intros _).
  apply lwp_bind, lwp_ensure. intros Heq%dec_eqb_units.
  apply lwp_bind, lwp_ensure. intros Heb%dec_eqb_units.
  rewrite <- Heq in Hq, Hqm. rewrite <- Heb in Hb, Hbm. apply lwp_bind.
  eapply lwp_mono; [by apply lwp_debit|]. intros d1 c1 _ (_ & _ & Hd1 & H1).
  rewrite (Hd1 eq_refl) in H1. clear Hd1. apply lwp_bind.
  eapply lwp_mono; [apply lwp_debit; try done|].
  { specialize (H1 (base_asset me)). specialize (Hmax (base_asset me)).
    pose proof (delta_nonneg (base_asset me) (quote_asset me) _ (proj1 Hq)). lia. }
  intros d2 c2 _ (_ & _ & Hd2 & H2). rewrite (Hd2 eq_refl) in H2.
  apply lwp_ret. intros x. cbn. specialize (H1 x). specialize (H2 x). rewrite <- Heq, <- Heb.
  pose proof (delta_nonneg x (quote_asset me) _ (proj1 Hq)).
  pose proof (delta_nonneg x (base_asset me) _ (proj1 Hb)). lia.
Qed.

Lemma close_pool_solvent o c market pool :
  (∀ x, total c x < MAX_UNITS) →
  lwp c (close_pool market pool) (λ e c',
    ∀ x, 0 ≤ egress_out o x e ∧ total c' x + egress_out o x e ≤ total c x).
Proof.
  intros Hmax. apply lwp_wf. intros Hwf. unfold close_pool.
  pose proof (bal_grain c pool (base_asset market) Hwf) as Gb.
  pose proof (bal_grain c pool (quote_asset market) Hwf) as Gq.
  pose proof (bal_le_total c pool (base_asset market) Hwf) as Lb.
  pose proof (bal_le_total c pool (quote_asset market) Hwf) as Lq.
  apply lwp_bind. eapply lwp_mono; [apply lwp_balance|]. intros bb c1 _ [-> Hb].
  apply lwp_bind. eapply lwp_mono; [apply lwp_balance|]. intros qb c1 _ [-> Hq].
  rewrite <- Hb in Gb, Lb. rewrite <- Hq in Gq, Lq.
  pose proof (Hmax (base_asset market)). pose proof (Hmax (quote_asset market)).
  apply lwp_bind. eapply lwp_mono; [apply lwp_debit; [done|lia..]|].
  intros d1 c1 _ (_ & _ & Hd1 & H1). rewrite (Hd1 eq_refl) in H1.
  apply lwp_bind. eapply lwp_mono; [apply lwp_debit; [done|lia|]|].
  { specialize (H1 (quote_asset market)).
    pose proof (delta_nonneg (quote_asset market) (base_asset market) _ (proj1 Gb)). lia. }
  intros d2 c2 _ (_ & _ & Hd2 & H2). rewrite (Hd2 eq_refl) in H2.
  apply lwp_ret. intros x. cbn. specialize (H1 x). specialize (H2 x).
  pose proof (delta_nonneg x (quote_asset market) _ (proj1 Gq)).
  pose proof (delta_nonneg x (base_asset market) _ (proj1 Gb)). lia.
Qed.

(** The fee of one asset: the pot is emptied down to the truncated balance. *)
Definition fee_of (fees : gmap AssetId dec) x : Z := from_option units 0 (fees !! x).

Lemma collect_fee_solvent c fees asset :
  (∀ x, total c x < MAX_UNITS) →
  lwp c (match fees !! asset with
         | None => mret tt
         | Some expected_balance =>
             str_ensure (negb (dec_is_zero expected_balance)) "InvalidTradingFeesValue" ;;
             balance ← get_balance pot_account asset;
             let balance := rounding_off balance in
             str_ensure (balance =? expected_balance)%dec "Incorrect Trading fees accounting" ;;
             sub_balance pot_account asset balance true ;;
             mret tt
         end) (λ _ c', 0 ≤ fee_of fees asset
                 ∧ ∀ x, total c' x + delta x asset (fee_of fees asset) ≤ total c x).
Proof.
  intros Hmax. apply lwp_wf. intros Hwf. unfold fee_of.
  destruct (fees !! asset) as [e|]; cbn [from_option].
  2: { apply lwp_ret. split; [lia|]. intros x. unfold delta. case_decide; lia. }
  pose proof (bal_grain c pot_account asset Hwf) as [Gb _].
  pose proof (bal_le_total c pot_account asset Hwf) as Lb. pose proof (Hmax asset).
  unfold str_ensure. apply lwp_bind, lwp_ensure. intros _.
  apply lwp_bind. eapply lwp_mono; [apply lwp_balance|]. intros b c1 _ [-> Hb].
  apply lwp_bind, lwp_ensure. intros He%dec_eqb_units. rewrite rounding_off_units in He.
  pose proof (trunc9_bounds (units b) ltac:(lia)). pose proof (trunc9_grain (units b) ltac:(lia)) as G.
  apply lwp_bind. eapply lwp_mono; [apply lwp_debit; [by rewrite rounding_off_units|..|done]|].
  { rewrite rounding_off_units. lia. }
  intros d c1 _ (Hpos & Hmin & _ & H1). rewrite rounding_off_units in Hmin. apply lwp_ret.
  assert (units d = units e) as Hde by lia. rewrite <- Hde. split; [done|].
  intros x. specialize (H1 x). lia.
Qed.

Lemma btree_elements_NoDup (s : gset AssetId) : NoDup (btree_elements s).
Proof. unfold btree_elements. rewrite merge_sort_Permutation. apply NoDup_elements. Qed.

Lemma trading_fees_solvent o c ms message :
  (∀ x, total c x < MAX_UNITS) →
  lwp c (withdraw_trading_fees o ms message) (λ e c',
    ∀ x, 0 ≤ egress_out o x e ∧ total c' x + egress_out o x e ≤ total c x).
Proof.
  intros Hmax. unfold withdraw_trading_fees. apply lwp_bind, lwp_ok_or. intros e _.
  destruct e as [| | | |fees|]; try apply lwp_fail. apply lwp_bind.
  pose (taken := λ (l : list AssetId) x,
    if decide (x ∈ AllowlistedToken o ∧ x ∉ l) then fee_of fees x else 0).
  pose (I := λ (l : list AssetId) c', NoDup l ∧ (∀ a, a ∈ l → a ∈ AllowlistedToken o)
    ∧ ∀ x, 0 ≤ taken l x ∧ total c' x + taken l x ≤ total c x).
  eapply lwp_mono; [apply (lwp_for_each _ _ I)|].
  - split; [apply btree_elements_NoDup|]. split; [intros a; apply elem_of_btree_elements|].
    intros x. unfold taken. rewrite decide_False; [lia|].
    rewrite elem_of_btree_elements. tauto.
  - intros asset l c' (Hnd & Hsub & HI). apply NoDup_cons in Hnd as [Hnin Hnd].
    eapply lwp_mono; [apply collect_fee_solvent|].
    { intros x. specialize (HI x). specialize (Hmax x). lia. }
    intros u c'' _ [Hf Ht]. split; [done|]. split; [intros a Ha; apply Hsub; by right|].
    intros x. specialize (HI x). specialize (Ht x). unfold taken, delta in *.
    destruct (decide (x = asset)) as [->|Hne].
    + assert (asset ∈ AllowlistedToken o) by (apply Hsub; by left).
      rewrite decide_True by done. rewrite decide_False in HI; [lia|].
      intros [_ Hn]. apply Hn. by left.
    + assert (x ∈ asset :: l ↔ x ∈ l) as Hiff by (rewrite elem_of_cons; tauto).
      destruct (decide (x ∈ AllowlistedToken o ∧ x ∉ l)) as [Hd|Hd].
      * rewrite decide_True in HI by (by rewrite Hiff). lia.
      * rewrite decide_False in HI by (by rewrite Hiff). lia.
  - intros u c' _ (_ & _ & HI). apply lwp_ret. intros x. specialize (HI x).
    unfold taken in HI. cbn. fold (fee_of fees x).
    destruct (decide (x ∈ AllowlistedToken o)) as [Hd|Hd].
    + rewrite decide_True in HI; [lia|]. split; [done|apply not_elem_of_nil].
    + rewrite decide_False in HI; [lia|]. tauto.
Qed.

Lemma new_lmp_epoch_solvent c epoch :
  lwp c (start_new_lmp_epoch epoch) (λ _ c', ∀ x, total c' x = total c x).
Proof.
  intros Hwf s Hs. unfold start_new_lmp_epoch.
  assert (∀ s1, holds s1 c → ∃ s' c' r, store_lmp_config (mkLMPConfig epoch 0) s1 = (r, s')
    ∧ holds s' c' ∧ ledger_wf c' ∧ ∀ b, r = Ok b → ∀ x, total c' x = total c x) as Hstore.
  { intros s1 Hs1. by apply (lwp_insert_other c LMP_CONFIG_KEY). }
  destruct (Z.ltb_spec 1 epoch) as [Hlt|]; [|by apply Hstore].
  unfold get_lmp_config. destruct (os_get_holds s c LMP_CONFIG_KEY Hs) as (s1 & Hr & Hs1).
  rewrite bind_run, Hr.
  destruct (c !! LMP_CONFIG_KEY) as [raw|]; cbn beta iota.
  - destruct (scale_decode raw); by apply Hstore.
  - replace (epoch =? 0) with false by lia. by apply Hstore.
Qed.

Definition egress_sum o x (es : list EgressMessages) : Z := zsum (egress_out o x <$> es).
Definition msgs_in x (l : list IngressMessages) : Z := zsum (msg_in x <$> l).

Lemma egress_sum_app o x l k : egress_sum o x (l ++ k) = egress_sum o x l + egress_sum o x k.
Proof. unfold egress_sum. by rewrite fmap_app, zsum_app. Qed.

Lemma egress_sum_one o x e : egress_sum o x [e] = egress_out o x e.
Proof. unfold egress_sum. cbn. lia. Qed.

Lemma import_message_solvent o c ms m :
  msg_ok m → Forall (λ me, egress_ok me.2) ms → (∀ x, total c x + msg_in x m < MAX_UNITS) →
  lwp c (import_message o ms m) (λ es c',
    ∀ x, 0 ≤ egress_sum o x es ∧ total c' x + egress_sum o x es ≤ total c x + msg_in x m).
Proof.
  intros Hm Hms Hmax.
  assert (∀ x, total c x < MAX_UNITS) as Hmax'.
  { intros x. specialize (Hmax x). pose proof (msg_in_nonneg x m Hm). lia. }
  assert (lwp c (mret []) (λ es c', ∀ x, 0 ≤ egress_sum o x es
    ∧ total c' x + egress_sum o x es ≤ total c x + msg_in x m)) as Hskip.
  { apply lwp_ret. intros x. pose proof (msg_in_nonneg x m Hm). cbn. lia. }
  destruct m; try exact Hskip; cbn [import_message msg_in msg_ok] in *; apply lwp_bind.
  - eapply lwp_mono; [apply lwp_credit; [done|]|].
    { specialize (Hmax a). by rewrite delta_self in Hmax. }
    intros u c' _ H. apply lwp_ret. intros x. specialize (H x). cbn. lia.
  - eapply lwp_mono; [by apply trading_fees_solvent|].
    intros e c' _ H. apply lwp_ret. intros x. specialize (H x). rewrite egress_sum_one. lia.
  - destruct Hm as [Hb Hq]. eapply lwp_mono; [apply add_liquidity_solvent; try done|].
    { intros x. specialize (Hmax x). lia. }
    intros e c' _ [He H]. apply lwp_ret. intros x. specialize (H x).
    rewrite egress_sum_one, He. lia.
  - eapply lwp_mono; [by apply (remove_liquidity_solvent o)|].
    intros e c' _ H. apply lwp_ret. intros x. specialize (H x). rewrite egress_sum_one. lia.
  - eapply lwp_mono; [by apply (close_pool_solvent o)|].
    intros e c' _ H. apply lwp_ret. intros x. specialize (H x). rewrite egress_sum_one. lia.
  - eapply lwp_mono; [apply new_lmp_epoch_solvent|].
    intros u c' _ H. apply lwp_ret. intros x. specialize (H x). cbn. lia.
Qed.
Lemma import_messages_solvent o c ms l acc :
  Forall msg_ok l → Forall (λ me, egress_ok me.2) ms → (∀ x, total c x + msgs_in x l < MAX_UNITS) →
  lwp c (fold_m (λ acc message, es ← import_message o ms message; mret (acc ++ es)) acc l)
    (λ es c', ∀ x, egress_sum o x acc ≤ egress_sum o x es
       ∧ total c' x + egress_sum o x es ≤ total c x + egress_sum o x acc + msgs_in x l).
Proof.
  intros Hl Hms. revert acc c. induction Hl as [|m l Hm Hl IH]; intros acc c Hmax; cbn [fold_m].
  { apply lwp_ret. intros x. unfold msgs_in. cbn. lia. }
  assert (∀ x, msgs_in x (m :: l) = msg_in x m + msgs_in x l) as Hcons by done.
  assert (∀ x, 0 ≤ msgs_in x l) as Hpos.
  { intros x. unfold msgs_in. apply zsum_nonneg. rewrite Forall_fmap. eapply Forall_impl; [exact Hl|].
    intros. by apply msg_in_nonneg. }
  apply lwp_bind, lwp_bind. eapply lwp_mono; [apply import_message_solvent; try done|].
  { intros x. specialize (Hmax x). specialize (Hpos x). rewrite Hcons in Hmax. lia. }
  intros es c1 _ H1. apply lwp_ret. eapply lwp_mono; [apply IH|].
  { intros x. specialize (Hmax x). specialize (H1 x). rewrite Hcons in Hmax. lia. }
  intros es' c2 _ H2 x. specialize (H1 x). specialize (H2 x).
  rewrite egress_sum_app in H2. rewrite Hcons. lia.
Qed.

(** *** Trades and withdrawals *)
Definition trade_ok (cap : Z) (t : Trade) : Prop :=
  ∃ v, fair_trade t v ∧ units (trade_amount t) + units v ≤ cap.

Lemma default_fees : fee_fraction (maker_fraction default_fee_config)
  ∧ fee_fraction (taker_fraction default_fee_config).
Proof. split; exists 1; (split; [lia|]); cbn; by rewrite dec_new_units by lia. Qed.

Lemma lwp_trade c t v cfg mf tf :
  fair_trade t v → fee_fraction (maker_fraction mf) → fee_fraction (taker_fraction tf) →
  (∀ x, total c x + units (trade_amount t) + units v < MAX_UNITS) →
  lwp c (process_trade t cfg mf tf) (λ _ c', ∀ x, total c' x ≤ total c x).
Proof.
  intros Hf Hm Ht Hmax Hwf s Hs.
  destruct (process_trade_effect s c t v cfg mf tf Hs Hwf Hf Hm Ht Hmax)
    as (s' & c' & r & Hr & Hs' & Hwf' & H).
  exists s', c', r. split_and!; try done. intros b -> x. apply H; done.
Qed.

Lemma trades_solvent o c cap ts :
  Forall (trade_ok cap) ts → (∀ x, total c x + cap < MAX_UNITS) →
  lwp c (trades o ts) (λ _ c', ∀ x, total c' x ≤ total c x).
Proof.
  intros Hts Hmax. unfold trades.
  eapply lwp_mono; [apply (lwp_for_each _ _ (λ l c', Forall (trade_ok cap) l
    ∧ ∀ x, total c' x ≤ total c x)); [by split|]|by intros u c' _ []].
  intros t l c' [Hl Hc']. apply Forall_cons in Hl as [(v & Hf & Hcap) Hl].
  apply lwp_bind, lwp_ok_or. intros cfg _. apply lwp_bind, lwp_ok_or. intros [mf tf] [= <- <-].
  destruct default_fees as [Hm Ht]. eapply lwp_mono; [apply (lwp_trade c' t v); [done..|]|].
  - intros x. specialize (Hc' x). specialize (Hmax x). lia.
  - intros u c'' _ H. split; [done|]. intros x. specialize (H x). specialize (Hc' x). lia.
Qed.

Definition request_ok (r : WithdrawalRequest) : Prop :=
  ∀ d, request_amount r = Some d → on_grain (units d) ∧ units d < MAX_UNITS.

(** A withdrawal takes the smaller of the requested amount and the balance, and only
    for a valid signature. *)
Lemma withdraw_spec c r i :
  request_ok r → (∀ x, total c x < MAX_UNITS) →
  lwp c (withdraw r i) (λ w c',
    request_verify r = true ∧ wd_main_account w = wr_main r ∧ wd_asset w = request_asset r
    ∧ (∃ d, request_amount r = Some d
         ∧ units (wd_amount w) = Z.min (units d) (bal c (wr_main r) (request_asset r)))
    ∧ 0 ≤ units (wd_amount w) ∧ ∀ x, total c' x + withdrawal_out x w ≤ total c x).
Proof.
  intros Hr Hmax. unfold withdraw, str_ensure. apply lwp_bind, lwp_ok_or. intros d Hd.
  destruct (Hr d Hd) as [Hg Hm]. apply lwp_bind, lwp_ensure. intros Hv. apply lwp_bind.
  eapply lwp_mono; [by apply lwp_debit|]. intros d' c' _ (H0 & Hmin & _ & Ht).
  apply lwp_bind, lwp_ok_or. intros w Hw. apply lwp_ret. unfold request_convert in Hw.
  rewrite Hd in Hw. cbn in Hw. injection Hw as <-. cbn. split_and!; try done; [by exists d|].
  intros x. specialize (Ht x). unfold withdrawal_out, request_asset in *. cbn. lia.
Qed.
(** *** The same logic with the state info beside the state *)
Definition pwp {B} c (info : StateInfo) (m : M PS string B) (Q : B → gmap bytes bytes → Prop) :
    Prop :=
  ledger_wf c → ∀ s, holds s c →
  ∃ s' c' info' r, m (s, info) = (r, (s', info')) ∧ holds s' c' ∧ ledger_wf c'
    ∧ ∀ b, r = Ok b → Q b c'.

Lemma pwp_ret {B} c info (b : B) Q : Q b c → pwp c info (mret b) Q.
Proof.
  intros HQ Hwf s Hs. exists s, c, info, (Ok b). split_and!; try done. by intros ? [= <-].
Qed.

Lemma pwp_ensure c info b e Q : (b = true → Q tt c) → pwp c info (ensure b e) Q.
Proof.
  intros HQ. destruct b; [apply pwp_ret; auto|].
  intros Hwf s Hs. by exists s, c, info, (Err e).
Qed.

Lemma pwp_bind {B1 B2} c info (m : M PS string B1) (f : B1 → M PS string B2) Q :
  pwp c info m (λ a c', ∀ info', pwp c' info' (f a) Q) → pwp c info (m ≫= f) Q.
Proof.
  intros Hm Hwf s Hs. destruct (Hm Hwf s Hs) as (s1 & c1 & info1 & r & Hr & Hs1 & Hwf1 & Hf).
  rewrite bind_run, Hr. destruct r as [a|e|]; [by apply Hf|by eexists _, _, _, _..].
Qed.

Lemma pwp_mono {B} c info (m : M PS string B) (Q Q' : B → _ → Prop) :
  pwp c info m Q → (∀ b c', Q b c' → Q' b c') → pwp c info m Q'.
Proof.
  intros Hm HQ Hwf s Hs. destruct (Hm Hwf s Hs) as (s' & c' & i' & r & Hr & Hs' & Hwf' & Hq).
  exists s', c', i', r. split_and!; try done. intros b Hb. auto.
Qed.

Lemma pwp_state {B} c info (m : OS B) Q : lwp c m Q → pwp c info (on_state m) Q.
Proof.
  intros Hm Hwf s Hs. destruct (Hm Hwf s Hs) as (s' & c' & r & Hr & Hs' & Hwf' & Hq).
  exists s', c', info, r. unfold on_state. rewrite Hr. by split_and!.
Qed.

Lemma pwp_info c info f Q :
  Q tt c → pwp c info (modify (λ '(s, i), (s, f i))) Q.
Proof.
  intros HQ Hwf s Hs. exists s, c, (f info), (Ok tt). split_and!; try done. by intros [] _.
Qed.

Lemma pwp_gets {B} c info (g : PS → B) Q : (∀ b, Q b c) → pwp c info (gets g) Q.
Proof. intros HQ Hwf s Hs. by exists s, c, info, (Ok (g (s, info))). Qed.

Lemma import_blk_solvent o c info blk ms :
  Forall msg_ok (ingress_at o blk) → Forall (λ me, egress_ok me.2) ms →
  (∀ x, total c x + msgs_in x (ingress_at o blk) < MAX_UNITS) →
  pwp c info (import_blk o blk ms) (λ es c', ∀ x, 0 ≤ egress_sum o x es
    ∧ total c' x + egress_sum o x es ≤ total c x + msgs_in x (ingress_at o blk)).
Proof.
  intros Hl Hms Hmax. unfold import_blk. apply pwp_bind, pwp_gets. intros i info1.
  apply pwp_bind, pwp_ensure. intros _ info2. apply pwp_bind. eapply pwp_mono.
  { apply pwp_state. by apply import_messages_solvent. }
  intros es c' H info3. apply pwp_bind, (pwp_info _ _ (λ i, i <| last_block := _ |>)). intros info4.
  apply pwp_ret. intros x. specialize (H x). change (egress_sum o x []) with 0 in H. lia.
Qed.

(** *** Batches *)
Definition action_ok o (cap : Z) (a : UserActions) : Prop :=
  match a with
  | TradeAction ts => Forall (trade_ok cap) ts
  | Withdraw r | WithdrawV1 r _ => request_ok r
  | BlockImport blk ms _ =>
      Forall msg_ok (ingress_at o (saturated_into 32 blk)) ∧ Forall (λ me, egress_ok me.2) ms
  | _ => True
  end.

Definition action_in o x (a : UserActions) : Z :=
  match a with
  | BlockImport blk _ _ => msgs_in x (ingress_at o (saturated_into 32 blk))
  | _ => 0
  end.

(** Deposits imported by a list of actions; withdrawals of a list of requests. *)
Definition imported o x (l : list UserActions) : Z := zsum (action_in o x <$> l).
Definition withdrawn x (ws : list Withdrawal) : Z := zsum (withdrawal_out x <$> ws).

Lemma withdrawn_app x l k : withdrawn x (l ++ k) = withdrawn x l + withdrawn x k.
Proof. unfold withdrawn. by rewrite fmap_app, zsum_app. Qed.

Lemma action_in_nonneg o cap x a : action_ok o cap a → 0 ≤ action_in o x a.
Proof.
  destruct a; cbn; try lia. intros [Hl _]. unfold msgs_in. apply zsum_nonneg.
  rewrite Forall_fmap. eapply Forall_impl; [exact Hl|]. intros. by apply msg_in_nonneg.
Qed.

Lemma withdraw_solvent o c cap info r i :
  request_ok r → 0 ≤ cap → (∀ x, total c x + cap < MAX_UNITS) →
  pwp c info (w ← on_state (withdraw r i); mret ([w], [])) (λ res c',
    ∀ x, 0 ≤ withdrawn x res.1 ∧ 0 ≤ egress_sum o x res.2
      ∧ total c' x + withdrawn x res.1 + egress_sum o x res.2 ≤ total c x).
Proof.
  intros Hr Hcap Hmax. apply pwp_bind. eapply pwp_mono.
  { apply pwp_state, withdraw_spec; [done|]. intros x. specialize (Hmax x). lia. }
  intros w c' (_ & _ & _ & _ & H0 & H) info'. apply pwp_ret. intros x. specialize (H x).
  unfold withdrawn, egress_sum. cbn. pose proof (delta_nonneg x (wd_asset w) _ H0).
  unfold withdrawal_out in *. lia.
Qed.

Lemma process_action_solvent o c cap info a :
  action_ok o cap a → 0 ≤ cap → (∀ x, total c x + cap + action_in o x a < MAX_UNITS) →
  pwp c info (process_action o a) (λ res c',
    ∀ x, 0 ≤ withdrawn x res.1 ∧ 0 ≤ egress_sum o x res.2
      ∧ total c' x + withdrawn x res.1 + egress_sum o x res.2 ≤ total c x + action_in o x a).
Proof.
  intros Ha Hcap Hmax.
  assert (∀ x, total c x + cap < MAX_UNITS) as Hmax'.
  { intros x. specialize (Hmax x). pose proof (action_in_nonneg o cap x a Ha). lia. }
  destruct a as [ts|r|blk ms prices| |r i|m e q]; cbn [process_action action_ok action_in] in *.
  - apply pwp_bind. eapply pwp_mono; [apply pwp_state; by apply (trades_solvent o c cap)|].
    intros u c' H info'. apply pwp_ret. intros x. specialize (H x). cbn. lia.
  - eapply pwp_mono; [by apply (withdraw_solvent o c cap)|]. intros res c' H x.
    specialize (H x). lia.
  - destruct Ha as [Hl Hms]. apply pwp_bind. eapply pwp_mono; [apply import_blk_solvent; try done|].
    { intros x. specialize (Hmax x). lia. }
    intros es c' H info'. apply pwp_ret. intros x. specialize (H x). cbn [fst snd].
    rewrite egress_sum_app, egress_sum_one. cbn. lia.
  - apply pwp_ret. intros x. cbn. lia.
  - eapply pwp_mono; [by apply (withdraw_solvent o c cap)|]. intros res c' H x.
    specialize (H x). lia.
  - apply pwp_ret. intros x. cbn. lia.
Qed.
Lemma actions_solvent o c cap info l acc :
  Forall (action_ok o cap) l → 0 ≤ cap → (∀ x, total c x + cap + imported o x l < MAX_UNITS) →
  pwp c info (fold_m (λ '(ws, es) action,
      '(ws', es') ← process_action o action; mret (ws ++ ws', es ++ es')) acc l)
    (λ res c', ∀ x, total c' x + withdrawn x res.1 + egress_sum o x res.2
       ≤ total c x + imported o x l + withdrawn x acc.1 + egress_sum o x acc.2).
Proof.
  intros Hl Hcap. revert acc c info.
  induction Hl as [|a l Ha Hl IH]; intros [ws es] c info Hmax; cbn [fold_m].
  { apply pwp_ret. intros x. unfold imported. cbn. lia. }
  assert (∀ x, imported o x (a :: l) = action_in o x a + imported o x l) as Hcons by done.
  assert (∀ x, 0 ≤ imported o x l) as Hpos.
  { intros x. unfold imported. apply zsum_nonneg. rewrite Forall_fmap.
    eapply Forall_impl; [exact Hl|]. intros. by eapply action_in_nonneg. }
  apply pwp_bind, pwp_bind. eapply pwp_mono; [apply (process_action_solvent o c cap); try done|].
  { intros x. specialize (Hmax x). specialize (Hpos x). rewrite Hcons in Hmax. lia. }
  intros [ws' es'] c1 H1 info1. cbn [fst snd] in H1. apply pwp_ret. intros info2.
  eapply pwp_mono; [apply (IH (ws ++ ws', es ++ es'))|].
  { intros x. specialize (Hmax x). specialize (H1 x). rewrite Hcons in Hmax. lia. }
  intros res c2 H2 x. specialize (H1 x). specialize (H2 x). cbn [fst snd] in *.
  rewrite withdrawn_app, egress_sum_app in H2. rewrite Hcons. lia.
Qed.

(** C1: replaying a batch never creates funds.  Starting from a well-formed ledger,
    take a batch whose actions satisfy [action_ok]: fair trades of at most [cap] units,
    withdrawals of amounts that are not negative and have at most twelve decimals, and
    imports of blocks whose messages and announced releases are such amounts; and let
    requests, releases, and what is owed plus the imports plus [cap] be below
    [MAX_UNITS], the range in which twelve decimals are exact.  Then the batch leaves a well-formed ledger; if it
    succeeds, then for every asset what the book owes afterwards, plus the withdrawals
    and the releases the batch announces, is at most what it owed before plus the
    deposits of the imported blocks. *)
Theorem process_batch_solvent o batch cap s c info :
  holds s c → ledger_wf c → Forall (action_ok o cap) (batch_actions batch) → 0 ≤ cap →
  (∀ x, total c x + cap + imported o x (batch_actions batch) < MAX_UNITS) →
  ∃ r s' info' c', process_batch o batch (s, info) = (r, (s', info'))
    ∧ holds s' c' ∧ ledger_wf c'
    ∧ ∀ ws es metrics, r = Ok (ws, es, metrics) →
        ∀ x, total c' x + withdrawn x ws + egress_sum o x es
             ≤ total c x + imported o x (batch_actions batch).
Proof.
  intros Hs Hwf Hl Hcap Hmax.
  assert (pwp c info (process_batch o batch) (λ res c', ∀ x,
    total c' x + withdrawn x res.1.1 + egress_sum o x res.1.2
    ≤ total c x + imported o x (batch_actions batch))) as Hp.
  { unfold process_batch. apply pwp_bind, pwp_gets. intros i info1.
    apply pwp_bind, pwp_ensure. intros _ info2. apply pwp_bind.
    eapply pwp_mono; [by apply (actions_solvent o c cap)|].
    intros [ws es] c' H info3. apply pwp_ret. intros x. specialize (H x). cbn in *. lia. }
  destruct (Hp Hwf s Hs) as (s' & c' & info' & r & Hr & Hs' & Hwf' & HQ).
  exists r, s', info', c'. split_and!; try done.
  intros ws es metrics ->. apply (HQ _ eq_refl).
Qed.

(** Subtracting a negative amount adds it. *)
Lemma sub_balance_negative s c a x d u wd :
  holds s c → ledger_wf c → units d < 0 → (GRAIN | units d) →
  entry c a x = Some u → u - units d < MAX_UNITS →
  ∃ s' c', sub_balance a x d wd s = (Ok d, s') ∧ holds s' c'
    ∧ ∀ a' x', entry c' a' x' =
        if decide (a' = a ∧ x' = x) then Some (trunc9 (u - units d)) else entry c a' x'.
Proof.
  intros Hs Hwf Hneg Hgrain He Hmax. unfold sub_balance. unfold entry in He.
  destruct (os_get_holds s c (to_raw_vec a) Hs) as (s1 & Hget & Hs1).
  rewrite (bind_ok _ _ _ _ _ _ Hget eq_refl).
  destruct (c !! to_raw_vec a) as [raw|] eqn:Hk.
  2: { unfold account_map in He. rewrite Hk in He. cbn in He. by rewrite lookup_empty in He. }
  unfold decode_balances. rewrite (ledger_wf_decode c a raw Hwf Hk). mrun.
  destruct (account_map c a !! x) as [b|] eqn:Hx; [|done]. injection He as <-.
  destruct (ledger_wf_account c a Hwf x b Hx) as [Hb0 Hbg].
  unfold dec_ltb. rewrite (proj2 (Z.ltb_ge _ _)) by lia. mrun.
  destruct (os_insert_holds s1 c (to_raw_vec a)
    (scale_encode (<[x:=rounding_off (saturating_sub b d)]> (account_map c a))) Hs1)
    as (s' & Hins & Hs').
  eexists s', (write c a x _). rewrite Hins. split; [done|]. split; [exact Hs'|].
  intros a' x'. rewrite write_entry. case_decide; [|done].
  rewrite rounding_off_units, saturating_sub_exact; [done|].
  apply grain_representable; [by apply Z.divide_sub_r|lia].
Qed.

(** A withdrawal in a batch is executed only for a request with a valid signature;
    it deducts from the requesting main account the smaller of the requested amount
    and its balance, and announces exactly what was deducted. *)
Theorem withdraw_deducts c r i s w s' :
  holds s c → ledger_wf c → request_ok r → (∀ x, total c x < MAX_UNITS) →
  withdraw r i s = (Ok w, s') →
  request_verify r = true ∧ wd_main_account w = wr_main r ∧ wd_asset w = request_asset r
  ∧ ∃ d c', request_amount r = Some d ∧ holds s' c' ∧ ledger_wf c'
    ∧ units (wd_amount w) = Z.min (units d) (bal c (wr_main r) (request_asset r))
    ∧ ∀ x, total c' x + withdrawal_out x w ≤ total c x.
Proof.
  intros Hs Hwf Hr Hmax Hrun.
  destruct (withdraw_spec c r i Hr Hmax Hwf s Hs) as (s1 & c' & res & Hw & Hs1 & Hwf1 & HQ).
  rewrite Hrun in Hw. injection Hw as <- <-.
  destruct (HQ w eq_refl) as (Hv & Hm & Ha & (d & Hd & Hmin) & _ & Ht).
  split_and!; try done. by exists d, c'.
Qed.
(** *** The order of batches and blocks *)
Definition block_of (a : UserActions) : option Z :=
  match a with BlockImport blk _ _ => Some (saturated_into 32 blk) | _ => None end.

Lemma on_state_info {B} (m : OS B) s info r s' info' :
  on_state m (s, info) = (r, (s', info')) → info' = info.
Proof. unfold on_state. destruct (m s). by intros [= <- <- <-]. Qed.

Lemma process_action_info o a s info res s' info' :
  process_action o a (s, info) = (Ok res, (s', info')) →
  match block_of a with
  | Some blk => (last_block info = 0 ∨ blk = sat_add 32 (last_block info) 1)
                ∧ info' = info <| last_block := saturated_into 32 blk |>
  | None => info' = info
  end.
Proof.
  destruct a as [ts|r|blk ms prices| |r i|mk t q]; cbn [process_action block_of]; intros H; inv_run;
    try match goal with H : on_state _ _ = _ |- _ => by apply on_state_info in H end.
  - unfold import_blk in *. inv_run. destruct s0 as [s1 i1].
    match goal with H : on_state _ _ = _ |- _ => apply on_state_info in H as -> end.
    match goal with H : _ || _ = true |- _ => apply orb_true_iff in H end. cbn in *.
    injection Hk0 as _ _ <-. split; [|done]. lia.
  - by injection H.
  - by injection H.
Qed.

Lemma actions_sequence o l acc s info res s' info' :
  fold_m (λ '(ws, es) action,
      '(ws', es') ← process_action o action; mret (ws ++ ws', es ++ es')) acc l (s, info)
    = (Ok res, (s', info')) →
  let blks := omap block_of l in
  stid info' = stid info ∧ info_snapshot_id info' = info_snapshot_id info
  ∧ (0 < last_block info → last_block info + Z.of_nat (length blks) < u32_max →
     blks = seqZ (last_block info + 1) (Z.of_nat (length blks))
     ∧ last_block info' = last_block info + Z.of_nat (length blks)).
Proof.
  revert acc s info. induction l as [|a l IH]; intros [ws es] s info H blks; cbn [fold_m] in H.
  { unfold mret, M_ret in H. injection H as _ _ <-. split_and!; try done. cbn. intros. split; [done|lia]. }
  inv_run. destruct a1 as [ws' es']. inv_run.
  match goal with H : process_action _ _ _ = (_, ?st) |- _ =>
    destruct st as [st1 info1]; apply process_action_info in H as Hinfo end.
  destruct (IH _ _ _ Hk) as (Hst & Hsn & Hb). subst blks. cbn [omap list_omap].
  destruct (block_of a) as [blk|]; [|by subst info1].
  destruct Hinfo as [Hblk ->]. cbn in Hst, Hsn, Hb |- *. split_and!; try done.
  intros Hpos Hlt. assert (blk = last_block info + 1) as ->.
  { destruct Hblk as [| ->]; [lia|]. unfold sat_add, u32_max in *. lia. }
  assert (saturated_into 32 (last_block info + 1) = last_block info + 1) as Heq.
  { unfold saturated_into, u32_max in *. lia. }
  rewrite Heq in Hb. destruct Hb as [Hb ->]; [lia..|]. split; [|lia].
  rewrite Hb at 1. rewrite (seqZ_cons (last_block info + 1)) by lia.
  do 2 f_equal; lia.
Qed.

(** The sign of a withdrawal is not checked.  A signed request for a negative
    amount succeeds on every account that holds the asset, raises its balance by
    that amount (up to the rounding of the book), and announces the negative
    amount. *)
Theorem negative_withdrawal_credits r d i s c u :
  holds s c → ledger_wf c → request_verify r = true →
  request_amount r = Some d → units d < 0 → (GRAIN | units d) →
  entry c (wr_main r) (request_asset r) = Some u → u - units d < MAX_UNITS →
  ∃ w s' c', withdraw r i s = (Ok w, s') ∧ holds s' c'
    ∧ units (wd_amount w) = units d
    ∧ entry c' (wr_main r) (request_asset r) = Some (trunc9 (u - units d))
    ∧ ∀ a x, (a, x) ≠ (wr_main r, request_asset r) → entry c' a x = entry c a x.
Proof.
  intros Hs Hwf Hv Hd Hneg Hgrain He Hmax.
  destruct (sub_balance_negative s c (wr_main r) (request_asset r) d u true)
    as (s' & c' & Hsub & Hs' & Hent); try done.
  unfold withdraw, str_ensure, request_convert. rewrite Hd, Hv. mrun.
  rewrite Hsub. eexists _, s', c'. split; [done|].
  split; [done|]. split; [done|]. split.
  - by rewrite Hent, decide_True by done.
  - intros a x Hax. rewrite Hent, decide_False; [done|]. intros [-> ->]. done.
Qed.

(** Whose key signed a withdrawal does not matter.  Two requests with the same
    contents and main account have the same effect as soon as each carries a valid
    signature of the proxy it names, registered for the main account or not. *)
Theorem withdraw_ignores_registry r r' i s :
  wr_id r = wr_id r' → wr_payload r = wr_payload r' → wr_main r = wr_main r' →
  request_verify r = true → request_verify r' = true →
  withdraw r i s = withdraw r' i s.
Proof.
  intros Hid Hp Hm Hv Hv'. unfold withdraw, request_convert, request_amount, request_asset.
  by rewrite Hid, Hp, Hm, Hv, Hv'.
Qed.

(** A batch is replayed only if its state change id is new, and it imports the
    blocks that follow the last imported one, in order, without gaps or
    repetitions. *)
Theorem process_batch_in_sequence o batch s info res s' info' :
  process_batch o batch (s, info) = (Ok res, (s', info')) →
  0 < last_block info →
  let blks := omap block_of (batch_actions batch) in
  last_block info + Z.of_nat (length blks) < u32_max →
  stid info < batch_stid batch
  ∧ blks = seqZ (last_block info + 1) (Z.of_nat (length blks))
  ∧ last_block info' = last_block info + Z.of_nat (length blks)
  ∧ stid info' = stid info ∧ info_snapshot_id info' = info_snapshot_id info.
Proof.
  intros H Hpos blks Hlt. unfold process_batch in H. inv_run. destruct a as [ws es]. inv_run.
  match goal with H : negb _ = true |- _ => cbn in H end.
  match goal with H : fold_m _ _ _ _ = _ |- _ => apply actions_sequence in H as (Hst & Hsn & Hb) end.
  destruct (Hb Hpos Hlt) as [Hblks Hlast]. split_and!; try done. lia.
Qed.
End batches.

(** ** A concrete batch *)
Module SolvencyExample.
Import RefDecimal RefCrypto RefWire RefTrie RefAuthority RefBank RefOcex SettlementExample.

#[export] Instance LMPConfig_eq_dec : EqDecision LMPConfig.
Proof. solve_decision. Defined.
#[export] Instance LMPConfig_countable : Countable LMPConfig.
Proof.
  refine (inj_countable' (λ c, (lmp_epoch c, lmp_index c)) (λ '(e, i), mkLMPConfig e i) _).
  by intros [].
Defined.
#[export] Instance ref_lmp_config : Codec LMPConfig := RefCodec.codec _.
#[export] Instance ref_lmp_config_laws : CodecLaws LMPConfig := RefCodec.codec_laws _.

(** Block 5 brings a deposit of 7 by account 3. *)
Definition storage : OcexStorage :=
  (ocex_genesis []) <| TradingPairs := {[(Asset 1, Polkadex) := market]} |>
    <| AllowlistedToken := {[Polkadex; Asset 1]} |>
    <| IngressQueue := {[5 := [Deposit (vreplicate 20 x00) (acct 3) Polkadex (7, 0)]]} |>.

(** Account 1 asks for 500 of the base asset. *)
Definition request : WithdrawalRequest := {|
  wr_id := vreplicate 20 x00;
  wr_payload := {| wp_asset_id := Asset 1; wp_amount := "500"; wp_timestamp := 0;
                   wp_destination := None |};
  wr_main := acct 1; wr_proxy := acct 1; wr_signature := acct 1;
|}.

Definition batch : UserActionBatch := {|
  batch_actions := [BlockImport 5 [] ∅; TradeAction [deal]; Withdraw request];
  batch_stid := 1; batch_snapshot_id := 1; batch_signature := 0;
|}.
Definition info0 : StateInfo := mkStateInfo 4 0 0 0.
Lemma request_500 : request_amount request = Some (500, 0).
Proof. by vm_compute. Qed.

Lemma request_fits : request_ok request.
Proof.
  intros d Hd. assert (units d = 500 * UNITS) as ->.
  { rewrite request_500 in Hd. injection Hd as <-. by vm_compute. }
  split; [apply on_grain_check; by vm_compute|]. unfold UNITS, MAX_UNITS, GRAIN. lia.
Qed.

Lemma batch_actions_ok : Forall (action_ok storage (30 * UNITS)) (batch_actions batch).
Proof.
  apply Forall_cons. split.
  { split; [|apply Forall_nil; done]. apply Forall_cons. split; [|by apply Forall_nil].
    apply on_grain_check. by vm_compute. }
  apply Forall_cons. split.
  { apply Forall_cons. split; [|by apply Forall_nil]. exists volume.
    split; [apply deal_fair|]. by vm_compute. }
  apply Forall_cons. split; [apply request_fits|by apply Forall_nil].
Qed.

Lemma batch_imports x : imported storage x (batch_actions batch) ≤ 7 * UNITS.
Proof.
  assert (imported storage x (batch_actions batch) = delta x Polkadex (7 * UNITS)) as ->.
  { change (delta x Polkadex (units (H := ref_decimal) (7, 0)) + 0 + 0 = delta x Polkadex (7 * UNITS)).
    change (units (H := ref_decimal) (7, 0)) with (7 * UNITS). lia. }
  unfold delta, UNITS. case_decide; lia.
Qed.

Lemma process_batch_solvent_witness :
  is_ok (process_batch storage batch (state0, info0)).1 = true
  ∧ ∃ r s' info' c', process_batch storage batch (state0, info0) = (r, (s', info'))
    ∧ holds s' c' ∧ ∀ ws es metrics, r = Ok (ws, es, metrics) →
      total c' (Asset 1) + withdrawn (Asset 1) ws + egress_sum storage (Asset 1) es
      ≤ total ledger0 (Asset 1) + imported storage (Asset 1) (batch_actions batch).
Proof.
  split; [by vm_compute|].
  destruct (process_batch_solvent storage batch (30 * UNITS) state0 ledger0 info0)
    as (r & s' & info' & c' & Hr & Hs & _ & H).
  - apply holds_cache.
  - apply ledger0_wf.
  - apply batch_actions_ok.
  - by vm_compute.
  - intros x. pose proof (ledger0_total x). pose proof (batch_imports x).
    unfold MAX_UNITS, GRAIN, UNITS in *. lia.
  - exists r, s', info', c'. split; [exact Hr|]. split; [exact Hs|].
    intros ws es m Hok. exact (H ws es m Hok (Asset 1)).
Defined.
Lemma ledger0_room x : total ledger0 x < MAX_UNITS.
Proof. pose proof (ledger0_total x). unfold MAX_UNITS, GRAIN, UNITS in *. lia. Qed.

(** Account 1 asks for 500 and holds 100: it gets 100. *)
Lemma withdraw_deducts_witness :
  ∃ w s', withdraw request 0 state0 = (Ok w, s') ∧ wd_main_account w = acct 1
    ∧ units (wd_amount w) = 100 * UNITS.
Proof.
  destruct (withdraw request 0 state0) as [r s'] eqn:Hrun.
  assert (is_ok (withdraw request 0 state0).1 = true) as Hok by by vm_compute.
  rewrite Hrun in Hok. destruct r as [w| |]; [|discriminate Hok..].
  destruct (withdraw_deducts ledger0 request 0 state0 w s' (holds_cache _) ledger0_wf request_fits
    ledger0_room Hrun) as (_ & Hm & _ & d & c' & Hd & _ & _ & Hmin & _).
  exists w, s'. split; [reflexivity|]. split; [exact Hm|]. rewrite Hmin.
  rewrite request_500 in Hd. injection Hd as <-. by vm_compute.
Defined.

Lemma process_batch_in_sequence_witness :
  ∃ res s' info', process_batch storage batch (state0, info0) = (Ok res, (s', info'))
    ∧ last_block info' = 5 ∧ stid info0 < batch_stid batch.
Proof.
  destruct (process_batch storage batch (state0, info0)) as [r [s' info']] eqn:Hrun.
  assert (is_ok (process_batch storage batch (state0, info0)).1 = true) as Hok by by vm_compute.
  rewrite Hrun in Hok. destruct r as [res| |]; [|discriminate Hok..].
  destruct (process_batch_in_sequence storage batch state0 info0 res s' info' Hrun)
    as (Hst & _ & Hlast & _); [by vm_compute..|].
  exists res, s', info'. split; [reflexivity|]. split; [|exact Hst].
  rewrite Hlast. by vm_compute.
Defined.

(** Account 1 asks for -5 of the base asset. *)
Definition negative_request : WithdrawalRequest := {|
  wr_id := vreplicate 20 x00;
  wr_payload := {| wp_asset_id := Asset 1; wp_amount := "-5"; wp_timestamp := 0;
                   wp_destination := None |};
  wr_main := acct 1; wr_proxy := acct 1; wr_signature := acct 1;
|}.
Lemma negative_withdrawal_credits_witness :
  ∃ w s' c', withdraw negative_request 0 state0 = (Ok w, s') ∧ holds s' c'
    ∧ units (wd_amount w) = -5 * UNITS ∧ entry c' (acct 1) (Asset 1) = Some (105 * UNITS).
Proof.
  destruct (negative_withdrawal_credits (D := ref_decimal) negative_request (-5, 0) 0 state0 ledger0 (100 * UNITS))
    as (w & s' & c' & Hrun & Hs & Hw & He & _).
  - apply holds_cache.
  - apply ledger0_wf.
  - vm_compute. reflexivity.
  - vm_compute. reflexivity.
  - vm_compute. reflexivity.
  - exists (-5000000000000). vm_compute. reflexivity.
  - vm_compute. reflexivity.
  - vm_compute. reflexivity.
  - exists w, s', c'. split; [exact Hrun|]. split; [exact Hs|]. split; [exact Hw|].
    exact He.
Defined.

(** The same request as [request], signed by the stranger 99. *)
Definition stranger_request : WithdrawalRequest := {|
  wr_id := wr_id request; wr_payload := wr_payload request;
  wr_main := acct 1; wr_proxy := acct 99; wr_signature := acct 99;
|}.

Lemma withdraw_ignores_registry_witness :
  withdraw stranger_request 0 state0 = withdraw request 0 state0.
Proof.
  apply (withdraw_ignores_registry stranger_request request);
    [reflexivity..|vm_compute; reflexivity|vm_compute; reflexivity].
Defined.
End SolvencyExample.
