(* ===== verification/WorkerProps.v ===== *)
(** * The validator worker

    Validators that hold the same contents compute the same summary, whatever the
    shape of their caches and tries; a worker signs only the replay of a batch that
    the operator signed; the checkpoint and the lock. *)

From S2P Require Import Prelude Decimal Assets Bank Types Orders Storage Settlement.
From S2P Require Import Chain LmCallbacks Ocex Lmp Validator Solvency.

Create HintDb agree discriminated.

(** ** Agreement *)
Section agreement.
Context {T : TrieDB} {TL : TrieLaws}.
Implicit Types (s : OffchainState) (c : gmap bytes bytes).

(** The state is intact, nothing is waiting to be removed, and it holds [c]. *)
Definition synced s c : Prop :=
  ∃ m, os_wf s m ∧ keys_to_remove s = ∅ ∧ contents s m = c.

(** Two runs of [m] on states with the same contents have the same outcome and leave
    the same contents. *)
Definition agree {B} (m : OS B) : Prop := ∀ s1 s2 c, synced s1 c → synced s2 c →
  ∃ r s1' s2' c', m s1 = (r, s1') ∧ m s2 = (r, s2') ∧ synced s1' c' ∧ synced s2' c'.

Lemma agree_ret {B} (b : B) : agree (mret b).
Proof. intros s1 s2 c H1 H2. by exists (Ok b), s1, s2, c. Qed.
Lemma agree_fail {B} e : agree (fail e : OS B).
Proof. intros s1 s2 c H1 H2. by exists (Err e), s1, s2, c. Qed.
Lemma agree_lift {B} (r : res string B) : agree (lift r).
Proof. intros s1 s2 c H1 H2. by exists r, s1, s2, c. Qed.
Lemma agree_ok_or {B} (o : option B) e : agree (ok_or o e : OS B).
Proof. apply agree_lift. Qed.
Lemma agree_ensure b e : agree (ensure b e : OS unit).
Proof. destruct b; [apply agree_ret|apply agree_fail]. Qed.

Lemma agree_bind {A B} (m : OS A) (f : A → OS B) :
  agree m → (∀ a, agree (f a)) → agree (m ≫= f).
Proof.
  intros Hm Hf s1 s2 c H1 H2.
  destruct (Hm s1 s2 c H1 H2) as (r & t1 & t2 & c' & R1 & R2 & H1' & H2').
  rewrite !bind_run, R1, R2. destruct r as [a|e|]; [by apply (Hf a t1 t2 c')|..].
  - by exists (Err e), t1, t2, c'.
  - by exists Panic, t1, t2, c'.
Qed.

Lemma agree_for_each {A} (l : list A) (body : A → OS unit) :
  (∀ x, agree (body x)) → agree (for_each l body).
Proof. intros Hb. induction l as [|x l IH]; [apply agree_ret|]. by apply agree_bind. Qed.

Lemma agree_fold_m {A B} (f : B → A → OS B) b (l : list A) :
  (∀ b x, agree (f b x)) → agree (fold_m f b l).
Proof.
  intros Hf. revert b. induction l as [|x l IH]; intros b; [apply agree_ret|].
  apply agree_bind; [apply Hf|intros; apply IH].
Qed.

Lemma synced_get s c k : synced s c → ∃ s', os_get k s = (Ok (c !! k), s') ∧ synced s' c.
Proof.
  intros (m & Hwf & Hr & <-). destruct (os_get_wf s m k Hwf) as (s' & Hrun & Hwf' & _ & Hr').
  destruct (os_get_spec s m k (proj1 Hwf)) as (s2 & Hrun2 & Hc & _).
  exists s'. split; [done|]. exists m. split; [done|]. split; [congruence|].
  rewrite Hrun in Hrun2. by injection Hrun2 as <-.
Qed.

Lemma synced_insert s c k v :
  synced s c → v ≠ [] → ∃ s', os_insert k v s = (Ok tt, s') ∧ synced s' (<[k:=v]> c).
Proof.
  intros (m & Hwf & Hr & <-) Hv.
  destruct (os_insert_wf s m k v Hwf Hv) as (s' & Hrun & Hwf' & _ & Hr').
  destruct (os_insert_spec s m k v) as (s2 & Hrun2 & Hc & _).
  exists s'. split; [done|]. exists m. split; [done|]. split; [rewrite Hr', Hr; set_solver|].
  rewrite Hrun in Hrun2. by injection Hrun2 as <-.
Qed.

Lemma agree_get k : agree (os_get k).
Proof.
  intros s1 s2 c H1 H2. destruct (synced_get s1 c k H1) as (t1 & R1 & H1').
  destruct (synced_get s2 c k H2) as (t2 & R2 & H2'). by exists (Ok (c !! k)), t1, t2, c.
Qed.

Lemma agree_insert k v : v ≠ [] → agree (os_insert k v).
Proof.
  intros Hv s1 s2 c H1 H2. destruct (synced_insert s1 c k v H1 Hv) as (t1 & R1 & H1').
  destruct (synced_insert s2 c k v H2 Hv) as (t2 & R2 & H2').
  by exists (Ok tt), t1, t2, (<[k:=v]> c).
Qed.

Lemma agree_encode `{CodecLaws A} k (a : A) : agree (os_insert k (scale_encode a)).
Proof. apply agree_insert, scale_encode_nonempty. Qed.

(** The root of a commit depends on the contents alone. *)
Lemma agree_commit : agree os_commit.
Proof.
  assert (∀ s m, keys_to_remove s = ∅ → committed s m = contents s m) as Hcom.
  { intros s m Hr. unfold committed. rewrite Hr. apply map_filter_id. set_solver. }
  assert (∀ s c, synced s c → ∃ t, os_commit s = (Ok (trie_root (trie_commit t)),
    mkOffchainState ∅ (trie_commit t) ∅) ∧ trie_view t = Some c
    ∧ map_Forall (λ _ v, v ≠ []) c) as Hrun.
  { intros s c (m & (Hm & Hc & Hv) & Hr & <-). destruct (os_commit_spec s m Hm Hc) as (t & Hrun & Hview).
    exists t. rewrite Hcom in Hview by done. split_and!; try done.
    intros i v [?|[_ ?]]%lookup_union_Some_raw; [by apply (Hc i)|by apply (Hv i)]. }
  intros s1 s2 c H1 H2. destruct (Hrun s1 c H1) as (t1 & R1 & V1 & Hne).
  destruct (Hrun s2 c H2) as (t2 & R2 & V2 & _).
  assert (∀ t, trie_view t = Some c → synced (mkOffchainState ∅ (trie_commit t) ∅) c) as Hsync.
  { intros t Ht. exists c. split_and!; try done.
    - split; [cbn; by rewrite trie_commit_view|]. split; [apply map_Forall_empty|done].
    - unfold contents. cbn. apply (left_id_L ∅ (∪)). }
  exists (Ok (trie_root (trie_commit t1))), (mkOffchainState ∅ (trie_commit t1) ∅),
    (mkOffchainState ∅ (trie_commit t2) ∅), c.
  split_and!; auto. by rewrite R2, (trie_root_canonical t2 t1 c).
Qed.

(** The contents at a stored root are a synced state. *)
Lemma load_synced db root m :
  trie_view (get_state_trie db root) = Some m → map_Forall (λ _ v, v ≠ []) m →
  synced (os_load db root) m.
Proof.
  intros Hm Hne. destruct (os_load_wf db root m Hm Hne) as [Hwf _]. exists m.
  split_and!; try done. unfold contents. cbn. apply (left_id_L ∅ (∪)).
Qed.
End agreement.

#[export] Hint Resolve agree_ret agree_fail agree_lift agree_ok_or agree_ensure agree_get
  agree_encode agree_commit : agree.

(** Decomposes a goal [agree m] along the structure of [m]. *)
Ltac agree_auto :=
  repeat (cbv zeta; intros;
    match goal with
    | |- agree (mbind _ _) => apply agree_bind
    | |- agree (for_each _ _) => apply agree_for_each
    | |- agree (fold_m _ _ _) => apply agree_fold_m
    | |- agree (match ?x with _ => _ end) => destruct x
    | |- agree ((match ?x with _ => _ end) _) => destruct x; cbv beta
    | |- agree _ => solve [eauto 2 with agree]
    end).

Section replay.
Context {D : Decimal} {C : Crypto} {W : Wire} {A : Authority} {CU : Currencies} {P : Percents}.
Context {CFG : OcexConfig} {T : TrieDB} {TL : TrieLaws}.
Context {BC : Codec (gmap AssetId dec)} {BL : CodecLaws (gmap AssetId dec)}.
Context {LC : Codec LMPConfig} {LL : CodecLaws LMPConfig}.
Context {IC : Codec StateInfo} {IL : CodecLaws StateInfo} {HC : Codec H256}.

Lemma agree_get_balance a x : agree (get_balance a x).
Proof. unfold get_balance, decode_balances. agree_auto. Qed.
Lemma agree_add_balance a x d : agree (add_balance a x d).
Proof. unfold add_balance, decode_balances. agree_auto. Qed.
Lemma agree_sub_balance a x d b : agree (sub_balance a x d b).
Proof. unfold sub_balance, decode_balances. agree_auto. Qed.
#[local] Hint Resolve agree_get_balance agree_add_balance agree_sub_balance : agree.

Lemma agree_trades o ts : agree (trades o ts).
Proof. unfold trades, process_trade, settle_party. agree_auto. Qed.
Lemma agree_withdraw r i : agree (withdraw r i).
Proof. unfold withdraw, str_ensure. agree_auto. Qed.

Lemma agree_start_new_lmp_epoch e : agree (start_new_lmp_epoch e).
Proof.
  intros s1 s2 c H1 H2. unfold start_new_lmp_epoch.
  assert (agree (store_lmp_config (mkLMPConfig e 0))) as Hs by (unfold store_lmp_config; agree_auto).
  destruct (1 <? e); [|by apply (Hs s1 s2 c)].
  assert (agree (get_lmp_config e)) as Hg by (unfold get_lmp_config, store_lmp_config; agree_auto).
  destruct (Hg s1 s2 c H1 H2) as (r & t1 & t2 & c' & -> & -> & H1' & H2').
  destruct r; by apply (Hs t1 t2 c').
Qed.
#[local] Hint Resolve agree_start_new_lmp_epoch agree_trades agree_withdraw : agree.

Lemma agree_import_messages o ms l : agree (import_messages o ms l).
Proof.
  unfold import_messages, import_message, verify_add_liquidity, verify_remove_liquidity,
    close_pool, withdraw_trading_fees, str_ensure. agree_auto.
Qed.
#[local] Hint Resolve agree_import_messages : agree.

(** The same for the computations that also update the state info. *)
Definition pagree {B} (m : M PS string B) : Prop := ∀ s1 s2 c info, synced s1 c → synced s2 c →
  ∃ r s1' s2' c' info', m (s1, info) = (r, (s1', info')) ∧ m (s2, info) = (r, (s2', info'))
    ∧ synced s1' c' ∧ synced s2' c'.

Lemma pagree_ret {B} (b : B) : pagree (mret b).
Proof. intros s1 s2 c info H1 H2. by exists (Ok b), s1, s2, c, info. Qed.
Lemma pagree_ensure b e : pagree (ensure b e).
Proof.
  intros s1 s2 c info H1 H2.
  destruct b; [by exists (Ok tt), s1, s2, c, info|by exists (Err e), s1, s2, c, info].
Qed.
Lemma pagree_info : pagree (gets snd).
Proof. intros s1 s2 c info H1 H2. by exists (Ok info), s1, s2, c, info. Qed.
Lemma pagree_set_info f : pagree (modify (λ '(s, i), (s, f i))).
Proof. intros s1 s2 c info H1 H2. by exists (Ok tt), s1, s2, c, (f info). Qed.
Lemma pagree_bind {B1 B2} (m : M PS string B1) (f : B1 → M PS string B2) :
  pagree m → (∀ b, pagree (f b)) → pagree (m ≫= f).
Proof.
  intros Hm Hf s1 s2 c info H1 H2.
  destruct (Hm s1 s2 c info H1 H2) as (r & t1 & t2 & c' & i' & R1 & R2 & H1' & H2').
  rewrite !bind_run, R1, R2. destruct r as [a|e|]; [by apply (Hf a t1 t2 c')|..].
  - by exists (Err e), t1, t2, c', i'.
  - by exists Panic, t1, t2, c', i'.
Qed.
Lemma pagree_fold_m {B1 B2} (f : B2 → B1 → M PS string B2) b l :
  (∀ b x, pagree (f b x)) → pagree (fold_m f b l).
Proof.
  intros Hf. revert b. induction l as [|x l IH]; intros b; [apply pagree_ret|].
  apply pagree_bind; [apply Hf|intros; apply IH].
Qed.
Lemma pagree_state {B} (m : OS B) : agree m → pagree (on_state m).
Proof.
  intros Hm s1 s2 c info H1 H2. destruct (Hm s1 s2 c H1 H2) as (r & t1 & t2 & c' & R1 & R2 & H').
  exists r, t1, t2, c', info. unfold on_state. by rewrite R1, R2.
Qed.

Lemma pagree_import_blk o blk ms : pagree (import_blk o blk ms).
Proof.
  unfold import_blk. apply pagree_bind; [apply pagree_info|intros info].
  apply pagree_bind; [apply pagree_ensure|intros _].
  apply pagree_bind; [apply pagree_state, agree_import_messages|intros es].
  apply pagree_bind; [apply (pagree_set_info (λ i, i <| last_block := _ |>))|intros _].
  apply pagree_ret.
Qed.

Lemma pagree_process_action o a : pagree (process_action o a).
Proof.
  destruct a; cbn [process_action]; try apply pagree_ret; apply pagree_bind;
    intros; try apply pagree_ret; try apply pagree_import_blk;
    apply pagree_state; auto with agree.
Qed.

Lemma pagree_process_batch o batch : pagree (process_batch o batch).
Proof.
  unfold process_batch. apply pagree_bind; [apply pagree_info|intros info].
  apply pagree_bind; [apply pagree_ensure|intros _]. apply pagree_bind.
  - apply pagree_fold_m. intros [ws es] a. apply pagree_bind; [apply pagree_process_action|].
    intros []. apply pagree_ret.
  - intros []. apply pagree_ret.
Qed.

(** *** What a worker computes and signs *)

Lemma run_ps_inv {B} (m : M PS string B) r b r' :
  run_ps m r = (Ok b, r') →
  ∃ s info, m (run_state r, run_info r) = (Ok b, (s, info))
    ∧ r' = r <| run_state := s |> <| run_info := info |>.
Proof.
  unfold run_ps. destruct (m _) as [x [s info]] eqn:Hm. intros [= -> <-]. by exists s, info.
Qed.

Lemma run_os_inv {B} (m : OS B) r b r' :
  run_os m r = (Ok b, r') → ∃ s, m (run_state r) = (Ok b, s) ∧ r' = r <| run_state := s |>.
Proof.
  intros (s & info & Hm & ->)%run_ps_inv. unfold on_state in Hm.
  destruct (m (run_state r)) as [x s']. injection Hm as -> -> <-. exists s. by destruct r.
Qed.

Lemma commit_info_inv (r : Run) root r' :
  commit_info r = (Ok root, r') →
  ∃ s1 s2, store_state_info (run_info r) (run_state r) = (Ok tt, s1) ∧ os_commit s1 = (Ok root, s2)
    ∧ r' = r <| run_state := s2 |>.
Proof.
  unfold commit_info. intros H. inv_run. destruct_units.
  repeat match goal with H : run_os _ _ = _ |- _ => apply run_os_inv in H as (? & ? & ->) end.
  by eexists _, _.
Qed.

(** The summary of a replayed batch. *)
Definition summary_of (o : OcexStorage) (nonce : Z) (root : H256) (batch : UserActionBatch)
    (info : StateInfo) (result : BatchResult) : SnapshotSummary :=
  mkSnapshotSummary (ValidatorSetId o) nonce root (batch_stid batch)
    (saturated_into 32 (last_block info)) result.1.1 result.1.2 result.2.

Definition info_after (batch : UserActionBatch) (info : StateInfo) : StateInfo :=
  info <| stid := batch_stid batch |> <| info_snapshot_id := batch_snapshot_id batch |>.

Lemma signer_index_lookup auths key i :
  calculate_signer_index auths key = Some i → auths !! i = Some key.
Proof.
  unfold calculate_signer_index. intros ([j k] & Hf & ->)%fmap_Some.
  by apply list_find_Some in Hf as (? & -> & _).
Qed.

(** What a worker lets out: the summaries it keeps signed and the requests it sends. *)
Definition outputs (w : Worker) := (signed_summaries w, sent w).

Lemma process_next_inv n o keys auths nonce batch r b r' :
  agg_batch n nonce = Some batch → process_next n o keys auths nonce r = (Ok b, r') →
  verify_batch_signature o batch = true ∧ ∃ result s1 info1 s2 root s3,
    process_batch o batch (run_state r, run_info r) = (Ok result, (s1, info1))
    ∧ store_state_info (info_after batch info1) s1 = (Ok tt, s2) ∧ os_commit s2 = (Ok root, s3)
    ∧ trie_root_cell (run_worker r') = store_trie_root root
    ∧ (if is_validator n then
         ∃ key i sig body, let summary := summary_of o nonce root batch info1 result in
         let index := saturated_into 16 (Z.of_nat i) in
         head keys = Some key ∧ auths !! i = Some key
         ∧ sign n key (enc_summary summary) = Some sig
         ∧ approved_json n (enc_summary summary) index sig = Some body
         ∧ outputs (run_worker r') =
             (<[nonce := (summary, sig, index)]> (signed_summaries (run_worker r)),
              sent (run_worker r) ++ [body])
       else outputs (run_worker r') = outputs (run_worker r)).
Proof.
  intros Hb H. unfold process_next in H. rewrite Hb in H.
  unfold set_info, run_store_root in H. inv_run. destruct_units.
  match goal with H : run_ps _ _ = _ |- _ => apply run_ps_inv in H as (t1 & i1 & Hp & ->) end.
  match goal with H : commit_info _ = _ |- _ => apply commit_info_inv in H as (t2 & t3 & Hst & Hco & ->) end.
  split; [done|]. exists a, t1, i1, t2, a1, t3. split; [exact Hp|]. split; [exact Hst|].
  split; [exact Hco|]. destruct (is_validator n); [|inv_run; by split].
  unfold submit_summary, send in Hm1. inv_run.
  destruct a as [[ws es] metrics]. inv_run.
  split; [done|]. exists a0, a2, a, a3. split_and!; try done.
  by apply signer_index_lookup.
Qed.

(** C2: validators that hold the same contents agree.  Two workers whose states hold
    the same contents, however their caches and tries came about, and that replay
    the same batch, store the same root, and if both are validators they sign the
    same summary. *)
Theorem validators_agree n1 n2 o keys1 keys2 auths nonce batch c r1 r2 b1 b2 r1' r2' :
  synced (run_state r1) c → synced (run_state r2) c → run_info r1 = run_info r2 →
  agg_batch n1 nonce = Some batch → agg_batch n2 nonce = Some batch →
  process_next n1 o keys1 auths nonce r1 = (Ok b1, r1') →
  process_next n2 o keys2 auths nonce r2 = (Ok b2, r2') →
  trie_root_cell (run_worker r1') = trie_root_cell (run_worker r2')
  ∧ (is_validator n1 = true → is_validator n2 = true →
     ∃ summary sig1 i1 sig2 i2,
       signed_summaries (run_worker r1') !! nonce = Some (summary, sig1, i1)
       ∧ signed_summaries (run_worker r2') !! nonce = Some (summary, sig2, i2)).
Proof.
  intros S1 S2 Hinfo Hb1 Hb2 H1 H2.
  apply (process_next_inv _ _ _ _ _ _ _ _ _ Hb1) in H1
    as (_ & res1 & s1 & i1 & t1 & root1 & u1 & P1 & St1 & Co1 & Hroot1 & Hv1).
  apply (process_next_inv _ _ _ _ _ _ _ _ _ Hb2) in H2
    as (_ & res2 & s2 & i2 & t2 & root2 & u2 & P2 & St2 & Co2 & Hroot2 & Hv2).
  destruct (pagree_process_batch o batch _ _ c (run_info r1) S1 S2)
    as (r & s1' & s2' & c' & i' & Q1 & Q2 & S1' & S2').
  rewrite Q1 in P1. injection P1 as -> -> ->. rewrite <- Hinfo, Q2 in P2. injection P2 as -> -> ->.
  assert (agree (store_state_info (info_after batch i2))) as Hag
    by (unfold store_state_info; agree_auto).
  destruct (Hag _ _ _ S1' S2') as (r & w1 & w2 & c2 & Q3 & Q4 & S3 & S4).
  rewrite Q3 in St1. injection St1 as -> ->. rewrite Q4 in St2. injection St2 as ->.
  destruct (agree_commit _ _ _ S3 S4) as (r & v1 & v2 & c3 & Q5 & Q6 & _).
  rewrite Q5 in Co1. injection Co1 as -> ->. rewrite Q6 in Co2. injection Co2 as <- _.
  split; [congruence|]. intros E1 E2. rewrite E1 in Hv1. rewrite E2 in Hv2.
  destruct Hv1 as (k1 & j1 & sig1 & b1' & _ & _ & _ & _ & [= -> _]).
  destruct Hv2 as (k2 & j2 & sig2 & b2' & _ & _ & _ & _ & [= -> _]).
  do 5 eexists. by rewrite !lookup_insert_eq.
Qed.
(** *** The lock *)
Definition lock_free (w : Worker) : bool :=
  match worker_status w with Ok None | Ok (Some false) => true | _ => false end.

Lemma try_lock_cases w :
  try_lock w = if lock_free w then (true, w <| worker_status := Ok (Some true) |>) else (false, w).
Proof. unfold try_lock, lock_free. by destruct (worker_status w) as [[[]|]| |]. Qed.

Lemma acquire_cases w : acquire_offchain_lock w =
  if lock_free w then (true, w <| worker_status := Ok (Some true) |>) else (false, w).
Proof.
  unfold acquire_offchain_lock. rewrite try_lock_cases.
  destruct (lock_free w) eqn:Hf; [done|]. by rewrite try_lock_cases, Hf, try_lock_cases, Hf.
Qed.

(** *** What a run lets out *)
Section quiet_runs.
Context (out : gmap Z (SnapshotSummary * AuthoritySig * Z) * list string).
Definition outputs_are (r : Run) : Prop := outputs (run_worker r) = out.

Lemma outputs_run_ps {B} (m : M PS string B) : preserves outputs_are (run_ps m).
Proof. intros r Hr. unfold run_ps. by destruct (m _) as [x []]. Qed.
#[local] Hint Resolve outputs_run_ps : inv.

Lemma outputs_run_os {B} (m : OS B) : preserves outputs_are (run_os m).
Proof. apply outputs_run_ps. Qed.
#[local] Hint Resolve outputs_run_os : inv.

Lemma outputs_load_and_check o nonce root : preserves outputs_are (load_and_check o nonce root).
Proof. unfold load_and_check, set_info, run_store_root. preserves_auto. Qed.

Lemma outputs_commit : preserves outputs_are commit_info.
Proof. unfold commit_info. preserves_auto. Qed.
#[local] Hint Resolve outputs_load_and_check outputs_commit : inv.

Lemma outputs_sync_checkpoint n o : preserves outputs_are (sync_checkpoint n o).
Proof. unfold sync_checkpoint, set_info, run_store_root. preserves_auto. Qed.

Lemma outputs_sync_batches n o l : preserves outputs_are (sync_batches n o l).
Proof.
  induction l as [|nonce l IH]; cbn [sync_batches]; unfold set_info, run_store_root;
    preserves_auto.
Qed.

(** A failing run lets nothing out. *)
Definition quiet {B} (m : M Run string B) : Prop :=
  ∀ r, outputs_are r → is_ok (m r).1 = false → outputs_are (m r).2.

Lemma quiet_preserves {B} (m : M Run string B) : preserves outputs_are m → quiet m.
Proof. intros Hm r Hr _. by apply Hm. Qed.

Lemma quiet_bind {B1 B2} (m : M Run string B1) (f : B1 → M Run string B2) :
  preserves outputs_are m → (∀ b, quiet (f b)) → quiet (m ≫= f).
Proof.
  intros Hm Hf r Hr. rewrite bind_run. specialize (Hm r Hr).
  destruct (m r) as [[b|e|] r1]; cbn in *; [by apply Hf|done..].
Qed.

Lemma quiet_then {B1 B2} (m : M Run string B1) (b : B2) : quiet m → quiet (m ;; mret b).
Proof.
  intros Hm r Hr. specialize (Hm r Hr). rewrite bind_run.
  by destruct (m r) as [[x|e|] r1]; cbn in *; [|apply Hm..].
Qed.

Lemma quiet_send_store body f : quiet (send body ;; modify f).
Proof. intros r Hr [=]. Qed.

Lemma quiet_process_next n o keys auths nonce : quiet (process_next n o keys auths nonce).
Proof.
  unfold process_next, set_info, run_store_root. destruct (agg_batch n nonce) as [batch|].
  2: { apply quiet_preserves. preserves_auto. }
  do 5 (apply quiet_bind; [preserves_auto|intros]). apply quiet_then.
  destruct (is_validator n); [|apply quiet_preserves; preserves_auto].
  unfold submit_summary. do 3 (apply quiet_bind; [preserves_auto|intros]).
  match goal with |- context [let '(_, _) := ?x in _] => destruct x as [[ws es] metrics] end.
  do 2 (apply quiet_bind; [preserves_auto|intros]). apply quiet_send_store.
Qed.
End quiet_runs.
#[local] Hint Resolve outputs_load_and_check outputs_sync_checkpoint outputs_sync_batches
  outputs_commit outputs_run_ps : inv.

(** The part of a run that brings the loaded state to the last finalized snapshot;
    [true] when it got there. *)
Definition catch_up (n : Node) (o : OcexStorage) (nonce : Z) (root : H256) : M Run string bool :=
  load_and_check o nonce root ;;
  info ← gets run_info;
  last ← (if CHECKPOINT_BLOCKS <=? sat_sub nonce (info_snapshot_id info)
          then sync_checkpoint n o else mret (info_snapshot_id info));
  if 2 <=? sat_sub nonce last then
    let first := sat_add 64 last 1 in sync_batches n o (seqZ first (nonce - first))
  else mret true.

(** A run that was to produce snapshot [nonce], started from [r] and ending in [w],
    signed and sent the summary of the batch it verified and replayed: [key] is the
    key it signs with, and the replay starts where [catch_up] ends. *)
Definition signs_new (n : Node) (o : OcexStorage) (auths : list AuthorityId) (nonce : Z)
    (root : H256) (r : Run) (w : Worker) : Prop :=
  ∃ r1 batch result s1 info1 s2 new_root s3 key i sig body,
    let summary := summary_of o nonce new_root batch info1 result in
    let index := saturated_into 16 (Z.of_nat i) in
    catch_up n o nonce root r = (Ok true, r1)
    ∧ agg_batch n nonce = Some batch ∧ verify_batch_signature o batch = true
    ∧ process_batch o batch (run_state r1, run_info r1) = (Ok result, (s1, info1))
    ∧ store_state_info (info_after batch info1) s1 = (Ok tt, s2) ∧ os_commit s2 = (Ok new_root, s3)
    ∧ trie_root_cell w = store_trie_root new_root
    ∧ is_validator n = true ∧ has_local_key n key = true ∧ auths !! i = Some key
    ∧ sign n key (enc_summary summary) = Some sig
    ∧ approved_json n (enc_summary summary) index sig = Some body
    ∧ outputs w = (<[nonce := (summary, sig, index)]> (signed_summaries (run_worker r)),
                   sent (run_worker r) ++ [body]).

(** The run sent the summary it had signed for [nonce] once more: as it is if it names
    the current validator set, else with that set's id and a new signature. *)
Definition resends (n : Node) (o : OcexStorage) (auths : list AuthorityId) (nonce : Z)
    (w0 w : Worker) : Prop :=
  ∃ summary sig index key i body,
    let id := set_id (validator_set o) in
    signed_summaries w0 !! nonce = Some (summary, sig, index)
    ∧ is_validator n = true ∧ has_local_key n key = true ∧ auths !! i = Some key
    ∧ (if validator_set_id summary =? id
       then approved_json n (enc_summary summary) index sig = Some body
       else ∃ sig', sign n key (enc_summary (with_validator_set_id summary id)) = Some sig'
         ∧ approved_json n (enc_summary (with_validator_set_id summary id))
             (wrap 16 (Z.of_nat i)) sig' = Some body)
    ∧ outputs w = (signed_summaries w0, sent w0 ++ [body]).

Lemma process_next_outputs n o keys auths nonce root r0 r :
  (∀ key, head keys = Some key → has_local_key n key = true) →
  catch_up n o nonce root r0 = (Ok true, r) → outputs (run_worker r) = outputs (run_worker r0) →
  let w := run_worker (process_next n o keys auths nonce r).2 in
  outputs w = outputs (run_worker r0) ∨ signs_new n o auths nonce root r0 w.
Proof.
  intros Hkeys Hc Ho. destruct (process_next n o keys auths nonce r) as [x r'] eqn:H. cbn [snd].
  pose proof (quiet_process_next _ n o keys auths nonce r Ho) as Hq. rewrite H in Hq.
  destruct x as [b|e|]; [|by left; apply Hq..].
  destruct (agg_batch n nonce) as [batch|] eqn:Hb.
  - apply (process_next_inv _ _ _ _ _ _ _ _ _ Hb) in H
      as (Hv & res & s1 & i1 & t1 & root' & u1 & Hp & Hst & Hco & Hroot & Hs).
    destruct (is_validator n) eqn:Hval; [|left; congruence].
    destruct Hs as (key & i & sig & body & Hk%Hkeys & Hi & Hsig & Hj & Hout). right.
    injection Ho as Ho1 Ho2. rewrite Ho1, Ho2 in Hout.
    by exists r, batch, res, s1, i1, t1, root', u1, key, i, sig, body.
  - left. assert (preserves (outputs_are (outputs (run_worker r0)))
      (process_next n o keys auths nonce)) as Hp.
    { unfold process_next, set_info, run_store_root. rewrite Hb. preserves_auto. }
    specialize (Hp r Ho). by rewrite H in Hp.
Qed.

Lemma resend_outputs n o keys auths nonce key i r :
  (∀ key, head keys = Some key → has_local_key n key = true) →
  is_validator n = true → head keys = Some key → calculate_signer_index auths key = Some i →
  let w := run_worker (load_signed_summary_and_send n (set_id (validator_set o)) nonce key
    (wrap 16 (Z.of_nat i)) r).2 in
  outputs w = outputs (run_worker r) ∨ resends n o auths nonce (run_worker r) w.
Proof.
  intros Hkeys Hval Hk%Hkeys Hi%signer_index_lookup. unfold load_signed_summary_and_send. mrun.
  destruct (signed_summaries (run_worker r) !! nonce) as [[[summary sig] index]|] eqn:Hl; [|by left].
  unfold resends. setoid_rewrite Hl.
  destruct (validator_set_id summary =? set_id (validator_set o)) eqn:Hid; mrun.
  - destruct (approved_json n _ index sig) as [body|] eqn:Hj; [|by left].
    right. exists summary, sig, index, key, i, body. by rewrite Hid.
  - destruct (sign n key _) as [sig'|] eqn:Hs; [|by left]. mrun.
    destruct (approved_json n _ _ sig') as [body|] eqn:Hj; [|by left].
    right. exists summary, sig, index, key, i, body. rewrite Hid. split_and!; try done. by exists sig'.
Qed.

Lemma outputs_catch_up out n o nonce root : preserves (outputs_are out) (catch_up n o nonce root).
Proof. unfold catch_up. preserves_auto. Qed.

(** After the state is loaded, a run sends its signed summary again, or catches up and
    works on the next batch. *)
Lemma run_body_cases n o keys auths nonce root r :
  (∃ x r1, load_and_check o nonce root r = (x, r1) ∧ is_ok x = false
     ∧ (run_body n o keys auths nonce root r).2 = r1)
  ∨ (∃ r1, load_and_check o nonce root r = (Ok tt, r1)
     ∧ ((run_body n o keys auths nonce root r).2 = r1
        ∨ is_validator n = true ∧ ∃ key i, head keys = Some key
          ∧ calculate_signer_index auths key = Some i
          ∧ (run_body n o keys auths nonce root r).2 =
              (load_signed_summary_and_send n (set_id (validator_set o)) nonce key
                 (wrap 16 (Z.of_nat i)) r1).2))
  ∨ run_body n o keys auths nonce root r =
      (b ← catch_up n o nonce root;
       if (b : bool) then process_next n o keys auths nonce else mret true) r.
Proof.
  unfold run_body, catch_up. rewrite !bind_run.
  destruct (load_and_check o nonce root r) as [[[]|e|] r1] eqn:E1;
    [right|by left; eexists _, _..].
  mrun. destruct (info_snapshot_id (run_info r1) =? nonce) eqn:Hn; [left; exists r1; split; [done|]|right].
  - destruct (is_validator n); [cbn [negb]|by left].
    destruct (head keys) as [key|]; mrun; [|by left].
    destruct (calculate_signer_index auths key) as [i|] eqn:Hi; mrun; [|by left].
    right. split; [done|]. exists key, i. split_and!; [done..|].
    by destruct (load_signed_summary_and_send _ _ _ _ _ _) as [[] r2].
  - set (m := if CHECKPOINT_BLOCKS <=? _ then _ else _). by destruct (m r1) as [[] r2].
Qed.

(** A run lets nothing out, sends a signed summary again, or signs the next one. *)
Lemma run_body_outputs n o keys auths nonce root r :
  (∀ key, head keys = Some key → has_local_key n key = true) →
  let w := run_worker (run_body n o keys auths nonce root r).2 in
  outputs w = outputs (run_worker r) ∨ resends n o auths nonce (run_worker r) w
  ∨ signs_new n o auths nonce root r w.
Proof.
  intros Hkeys. cbn zeta. set (out := outputs (run_worker r)).
  pose proof (outputs_load_and_check out o nonce root r eq_refl) as Hload.
  destruct (run_body_cases n o keys auths nonce root r)
    as [(x & r1 & E & _ & ->)|[(r1 & E & [->|(Hv & key & i & Hk & Hi & ->)])| ->]].
  - rewrite E in Hload. by left.
  - rewrite E in Hload. by left.
  - rewrite E in Hload. injection Hload as H1 H2.
    pose proof (resend_outputs n o keys auths nonce key i r1 Hkeys Hv Hk Hi) as Hr.
    unfold resends in *. cbn [snd] in *. unfold outputs at 2 in Hr. rewrite H1, H2 in Hr.
    destruct Hr; auto.
  - rewrite bind_run. pose proof (outputs_catch_up out n o nonce root r eq_refl) as Hc.
    destruct (catch_up n o nonce root r) as [[[]|e|] r1] eqn:E; [|by left..].
    destruct (process_next_outputs n o keys auths nonce root r r1 Hkeys E Hc); auto.
Qed.

(** C3: a run of the worker lets out nothing but summaries of batches it verified.
    Whatever happens in it, one of three holds of the summaries it keeps signed and of
    the requests it sends, taken together.  Nothing is added to either.  Or it sends
    the one summary it had already signed for the snapshot after the last finalized
    one: as stored, or, if that names another validator set, with only the set id
    replaced by the current one and signed again.  Or it adds one summary to both:
    that of the snapshot after the last finalized one, whose withdrawals, egress
    messages, trader metrics and last block are those computed by processing a batch
    that carries the operator's signature on the state the worker had caught up to,
    whose root is the one of the state committed after it and stored as its own, and
    which names the current validator set.  Every new signature is made with a local
    key of one of the active authorities, at the index sent with it. *)
Theorem worker_signs_only_verified n o w :
  let nonce := sat_add 64 (SnapshotNonce o) 1 in
  let auths := validators (validator_set o) in
  let w' := (run_on_chain_validation n o w).2 in
  outputs w' = outputs w
  ∨ resends n o auths nonce w w'
  ∨ ∃ w1, acquire_offchain_lock w = (true, w1) ∧
      let root := load_trie_root (trie_root_cell w) in
      signs_new n o auths nonce root (mkRun w1 (os_load (node_db w) root) default_state_info) w'.
Proof.
  cbn zeta. unfold run_on_chain_validation.
  set (keys := merge_sort _ (filter _ (validators (validator_set o)))).
  destruct (is_nil keys && is_validator n); [by left|].
  rewrite acquire_cases. destruct (lock_free w) eqn:Hf; cbn [negb]; [|by left].
  set (w1 := w <| worker_status := Ok (Some true) |>).
  change (trie_root_cell w1) with (trie_root_cell w). change (node_db w1) with (node_db w).
  set (root := load_trie_root _). set (r0 := mkRun _ _ _).
  assert (∀ key, head keys = Some key → has_local_key n key = true) as Hkeys.
  { intros key Hk. assert (key ∈ keys) as Hin by (destruct keys; [done|injection Hk as ->; by left]).
    subst keys. rewrite merge_sort_Permutation in Hin.
    apply list_elem_of_filter in Hin as [Hin _]. by destruct (has_local_key n key). }
  pose proof (run_body_outputs n o keys (validators (validator_set o))
    (sat_add 64 (SnapshotNonce o) 1) root r0 Hkeys) as Hs.
  cbn zeta in Hs. destruct (run_body _ _ _ _ _ _ _) as [x r]. cbn [snd] in *.
  assert (∀ w2, w2 = match x with Panic => run_worker r | _ => drop_state r end →
    outputs w2 = outputs (run_worker r) ∧ trie_root_cell w2 = trie_root_cell (run_worker r))
    as Hdrop by (intros w2 ->; by destruct x).
  unfold resends, signs_new in *. destruct (Hdrop _ eq_refl) as [-> ->]. clear Hdrop.
  destruct Hs as [Hs|[Hs|Hs]]; [by left|by right; left|]. right; right. by exists w1.
Qed.

(** *** Exclusion *)
Definition no_keys (n : Node) (o : OcexStorage) : bool :=
  is_nil (merge_sort (λ a b, Is_true (authority_leb a b))
    (filter (λ a, Is_true (has_local_key n a)) (validators (validator_set o)))) && is_validator n.

(** A run never reports that the lock was taken. *)
Lemma run_body_true n o keys auths nonce root r b r' :
  run_body n o keys auths nonce root r = (Ok b, r') → b = true.
Proof.
  unfold run_body. intros H. inv_run. destruct (_ =? nonce).
  { destruct (negb _); by inv_run. }
  inv_run. destruct a1; [|by inv_run]. unfold process_next in *.
  destruct (agg_batch n nonce); by inv_run.
Qed.

(** The worker is mutually exclusive.  While the lock is taken a second worker
    changes nothing; the lock is taken during a run, and given back after it unless
    the run traps. *)
Theorem worker_lock n o w :
  no_keys n o = false →
  (lock_free w = false → offchain_worker n o w = w)
  ∧ (lock_free w = true → (run_on_chain_validation n o w).1 ≠ Panic →
     lock_free (offchain_worker n o w) = true).
Proof.
  intros Hk. unfold offchain_worker, run_on_chain_validation. cbv zeta. unfold no_keys in Hk.
  rewrite Hk, acquire_cases. split; intros Hf; rewrite Hf; cbn [negb]; [done|].
  destruct (run_body _ _ _ _ _ _ _) as [[b|e|] r] eqn:H; cbn; [|done..].
  intros _. by rewrite (run_body_true _ _ _ _ _ _ _ _ _ H).
Qed.

(** A validator without a local key gives back a lock it never took. *)
Theorem no_keys_releases_lock n o w :
  no_keys n o = true → lock_free (offchain_worker n o w) = true.
Proof.
  intros Hk. unfold offchain_worker, run_on_chain_validation. cbv zeta. unfold no_keys in Hk.
  by rewrite Hk.
Qed.
End replay.

(** ** Checkpoints *)
Section checkpoints.
Context {D : Decimal} {DL : DecimalLaws} {C : Crypto} {A : Authority} {CU : Currencies}.
Context {CFG : OcexConfig} {T : TrieDB} {TL : TrieLaws}.
Context {BC : Codec (gmap AssetId dec)} {BL : CodecLaws (gmap AssetId dec)}.
Context {IC : Codec StateInfo} {HC : Codec H256}.
Implicit Types (c : gmap bytes bytes) (s : OffchainState).

(** One entry of a checkpoint is written as it is. *)
Lemma checkpoint_entry s c a x d :
  holds s c → ledger_wf c →
  ∃ s', (let key := to_raw_vec a in
         o ← os_get key;
         value ← match o with
                 | None => mret ∅
                 | Some encoded => decode_balances encoded "Unable to decode balances for account"
                 end;
         os_insert key (scale_encode (<[x := d]> value))) s = (Ok tt, s')
    ∧ holds s' (write c a x d).
Proof.
  intros Hs Hwf. cbv zeta. destruct (os_get_holds s c (to_raw_vec a) Hs) as (s1 & Hget & Hs1).
  destruct (os_insert_holds s1 c (to_raw_vec a) (scale_encode (<[x:=d]> (account_map c a))) Hs1)
    as (s' & Hins & Hs').
  exists s'. split; [|done]. rewrite bind_run, Hget.
  destruct (c !! to_raw_vec a) as [raw|] eqn:Hk.
  - unfold decode_balances. by rewrite (ledger_wf_decode c a raw Hwf Hk).
  - rewrite <- Hins. unfold account_map. by rewrite Hk.
Qed.

Lemma checkpoint_entries l s c :
  holds s c → ledger_wf c → NoDup l.*1 → Forall (λ e, on_grain (units e.2)) l →
  ∃ s' c', for_each l (λ '((main, asset), amount),
      let key := to_raw_vec main in
      o ← os_get key;
      value ← match o with
              | None => mret ∅
              | Some encoded => decode_balances encoded "Unable to decode balances for account"
              end;
      os_insert key (scale_encode (<[asset := amount]> value))) s = (Ok tt, s')
    ∧ holds s' c' ∧ ledger_wf c'
    ∧ ∀ a x, account_map c' a !! x =
        match (list_to_map l : gmap (AccountId * AssetId) dec) !! (a, x) with
        | Some d => Some d
        | None => account_map c a !! x
        end.
Proof.
  revert s c. induction l as [|[[a x] d] l IH]; intros s c Hs Hwf Hnd Hg; cbn [for_each].
  { exists s, c. by split_and!. }
  apply NoDup_cons in Hnd as [Hnin Hnd]. apply Forall_cons in Hg as [Hd Hg].
  destruct (checkpoint_entry s c a x d Hs Hwf) as (s1 & Hrun & Hs1).
  destruct (IH s1 (write c a x d) Hs1 (write_wf c a x d Hwf Hd) Hnd Hg)
    as (s' & c' & Hrest & Hs' & Hwf' & Hmap).
  exists s', c'. split; [exact (bind_ok _ _ _ _ _ _ Hrun Hrest)|]. split; [done|]. split; [done|].
  intros b y. rewrite Hmap, write_account_map. cbn [list_to_map fmap list_fmap foldr].
  destruct (decide ((b, y) = (a, x))) as [[= -> ->]|Hne].
  - rewrite decide_True by done. cbn. rewrite !lookup_insert_eq.
    by rewrite (not_elem_of_list_to_map_1 l (a, x) Hnin).
  - cbn. rewrite lookup_insert_ne by congruence.
    case_decide as Hb; [|done]. subst b. by rewrite lookup_insert_ne by congruence.
Qed.

Lemma process_checkpoint_run s cp :
  holds s ∅ → map_Forall (λ _ d, on_grain (units d)) (cp_balances cp) →
  ∃ s' c', process_checkpoint cp s = (Ok tt, s') ∧ holds s' c' ∧ ledger_wf c'
    ∧ ∀ a x, account_map c' a !! x = cp_balances cp !! (a, x).
Proof.
  intros Hs Hg.
  destruct (checkpoint_entries (btree_to_list (cp_balances cp)) s ∅ Hs)
    as (s' & c' & Hrun & Hs' & Hwf & Hmap).
  - intros k raw _. by rewrite lookup_empty.
  - apply btree_to_list_NoDup_keys.
  - apply Forall_forall. intros [k d] Hin%elem_of_btree_to_list. by apply (Hg k d).
  - exists s', c'. split_and!; try done. intros a x. rewrite Hmap.
    rewrite (list_to_map_proper _ (map_to_list (cp_balances cp))), list_to_map_to_list;
      [|apply btree_to_list_NoDup_keys|apply btree_to_list_perm].
    by destruct (cp_balances cp !! (a, x)).
Qed.

Lemma offchain_balance_run w c a :
  trie_view (get_state_trie (node_db w) (load_trie_root (trie_root_cell w))) = Some c →
  ledger_wf c → get_offchain_balance w a = Ok (account_map c a).
Proof.
  intros Hv Hwf. unfold get_offchain_balance. rewrite (trie_get_view _ _ _ Hv).
  destruct (c !! to_raw_vec a) as [raw|] eqn:Hk.
  - by rewrite (ledger_wf_decode c a raw Hwf Hk).
  - unfold account_map. by rewrite Hk.
Qed.

Lemma fold_account (main : AccountId) (b : gmap AssetId dec) acc a x :
  map_fold (λ x d (m : gmap (AccountId * AssetId) dec), <[(main, x) := d]> m) acc b !! (a, x) =
  match (if decide (a = main) then b !! x else None) with Some d => Some d | None => acc !! (a, x) end.
Proof.
  induction b as [|y d b Hy IH] using map_ind.
  { rewrite map_fold_empty, lookup_empty. by case_decide. }
  rewrite map_fold_insert_L; [|intros; apply insert_insert_ne; congruence|done].
  destruct (decide ((a, x) = (main, y))) as [[= -> ->]|Hne].
  - rewrite lookup_insert_eq, decide_True by done. by rewrite lookup_insert_eq.
  - rewrite lookup_insert_ne by congruence. rewrite IH. case_decide as Ha; [|done].
    subst a. by rewrite lookup_insert_ne by congruence.
Qed.

Lemma collect_balances_run w c l acc :
  trie_view (get_state_trie (node_db w) (load_trie_root (trie_root_cell w))) = Some c →
  ledger_wf c →
  ∃ m, collect_balances w l acc = Ok m ∧ ∀ a x, m !! (a, x) =
    match (if decide (a ∈ l) then account_map c a !! x else None) with
    | Some d => Some d
    | None => acc !! (a, x)
    end.
Proof.
  intros Hv Hwf. revert acc. induction l as [|main l IH]; intros acc; cbn [collect_balances].
  { exists acc. split; [done|]. intros a x. by rewrite decide_False by apply not_elem_of_nil. }
  rewrite (offchain_balance_run w c main Hv Hwf).
  destruct (IH (map_fold (λ x d m, <[(main, x) := d]> m) acc (account_map c main)))
    as (m & Hrun & Hm).
  exists m. split; [done|]. intros a x. rewrite Hm, fold_account.
  destruct (decide (a = main)) as [->|Hne].
  - rewrite (decide_True (P := main ∈ main :: l)) by by left.
    destruct (decide (main ∈ l)); by destruct (account_map c main !! x).
  - rewrite (decide_ext (a ∈ main :: l) (a ∈ l)); [done|]. rewrite elem_of_cons. tauto.
Qed.

(** C12: a checkpoint restores the balances.  If a node whose stored state holds a
    well-formed ledger produces a checkpoint, then a node that rebuilds its state
    from it, starting from nothing, ends with exactly the same balance for every
    registered account and for the fee pot, in every asset, and with no other
    balance. *)
Theorem checkpoint_roundtrip o w c cp s :
  trie_view (get_state_trie (node_db w) (load_trie_root (trie_root_cell w))) = Some c →
  ledger_wf c → fetch_checkpoint o w = Ok cp → holds s ∅ →
  ∃ s' c', process_checkpoint cp s = (Ok tt, s') ∧ holds s' c' ∧ ledger_wf c'
    ∧ ∀ a x, entry c' a x =
        if decide (is_Some (Accounts o !! a) ∨ a = get_pot_account) then entry c a x else None.
Proof.
  intros Hv Hwf Hf Hs. unfold fetch_checkpoint in Hf.
  set (l := (map_to_list (Accounts o)).*1 ++ [get_pot_account]) in Hf.
  destruct (collect_balances_run w c l ∅ Hv Hwf) as (m & Hm & Hlook). rewrite Hm in Hf.
  destruct (get_state_info w) as [info|e|]; [|done..]. injection Hf as <-.
  destruct (process_checkpoint_run s (mkObCheckpointRaw (info_snapshot_id info) m
    (last_block info) (stid info)) Hs) as (s' & c' & Hrun & Hs' & Hwf' & Hmap).
  - cbn. intros [a x] d Hd. rewrite Hlook, lookup_empty in Hd.
    case_decide; [|done]. destruct (account_map c a !! x) as [d'|] eqn:Hx; [|done].
    injection Hd as <-. by apply (ledger_wf_account c a Hwf x).
  - exists s', c'. split_and!; try done. intros a x. unfold entry. rewrite Hmap. cbn.
    rewrite Hlook, lookup_empty. assert (a ∈ l ↔ is_Some (Accounts o !! a) ∨ a = get_pot_account)
      as Hin.
    { unfold l. rewrite elem_of_app, list_elem_of_singleton, list_elem_of_fmap. split.
      - intros [([a' i] & -> & Hi)|]; [left|by right]. apply elem_of_map_to_list in Hi. by eexists.
      - intros [[i Hi]|]; [left|by right]. exists (a, i). by rewrite elem_of_map_to_list. }
    rewrite (decide_ext _ _ _ _ Hin). case_decide; [|done]. by destruct (account_map c a !! x).
Qed.
End checkpoints.

(** ** Two validators *)
Module WorkerExample.
Import RefDecimal RefCrypto RefWire RefTrie RefAuthority RefBank RefOcex SettlementExample
  SolvencyExample.

#[export] Instance StateInfo_eq_dec : EqDecision StateInfo.
Proof. solve_decision. Defined.
#[export] Instance StateInfo_countable : Countable StateInfo.
Proof.
  refine (inj_countable' (λ i, (last_block i, worker_nonce i, stid i, info_snapshot_id i))
    (λ '(b, n, s, i), mkStateInfo b n s i) _).
  by intros [].
Defined.
#[export] Instance ref_state_info : Codec StateInfo := RefCodec.codec _.
#[export] Instance ref_state_info_laws : CodecLaws StateInfo := RefCodec.codec_laws _.
#[export] Instance ref_hash : Codec H256 := {|
  scale_encode h := x02 :: vec_to_list h;
  scale_decode l := match l with [] => None | _ :: l' => Some (pad 32 l') end;
|}.
#[export] Instance ref_hash_laws : CodecLaws H256.
Proof. split; [|done]. intros h. cbn [scale_decode scale_encode ref_hash]. by rewrite pad_vec. Qed.

(** Authorities 7 and 8 are active, the operator's key is 0. *)
Definition chain_storage : OcexStorage :=
  storage <| OrderbookOperatorPublicKey := Some 0 |>
    <| Authorities := {[0 := mkValidatorSet 0 [7; 8]]} |>.

Definition node (key : Z) : Node := {|
  has_local_key := Z.eqb key;
  sign k _ := if k =? key then Some k else None;
  is_validator := true;
  agg_batch n := if n =? 1 then Some batch else None;
  agg_checkpoint := None;
  approved_json _ _ _ := Some "approved";
|}.

Definition idle : Worker := mkWorker None (Ok None) ∅ ∅ [].

(** One validator has the ledger in its cache, the other in its trie. *)
Definition cached : OffchainState := mkOffchainState ledger0 (Some ∅) ∅.
Definition stored : OffchainState := mkOffchainState ∅ (Some ledger0) ∅.

Lemma ledger0_values : map_Forall (λ _ v, v ≠ []) ledger0.
Proof. by apply (bool_decide_unpack _); vm_compute. Qed.

Lemma cached_synced : synced (T := ref_trie) cached ledger0.
Proof.
  exists ∅. split; [|split; [done|unfold contents; cbn; apply (right_id_L ∅ (∪))]].
  split; [done|]. split; [apply ledger0_values|apply map_Forall_empty].
Qed.

Lemma stored_synced : synced (T := ref_trie) stored ledger0.
Proof.
  exists ledger0. split; [|split; [done|unfold contents; cbn; apply (left_id_L ∅ (∪))]].
  split; [done|]. split; [apply map_Forall_empty|apply ledger0_values].
Qed.

Definition run1 : Run := mkRun idle cached info0.
Definition run2 : Run := mkRun idle stored info0.

Lemma validators_agree_witness :
  ∃ summary sig1 i1 sig2 i2 r1' r2',
    process_next (node 7) chain_storage [7] [7; 8] 1 run1 = (Ok true, r1')
    ∧ process_next (node 8) chain_storage [8] [7; 8] 1 run2 = (Ok true, r2')
    ∧ signed_summaries (run_worker r1') !! 1 = Some (summary, sig1, i1)
    ∧ signed_summaries (run_worker r2') !! 1 = Some (summary, sig2, i2).
Proof.
  destruct (process_next (node 7) chain_storage [7] [7; 8] 1 run1) as [x1 r1'] eqn:H1.
  destruct (process_next (node 8) chain_storage [8] [7; 8] 1 run2) as [x2 r2'] eqn:H2.
  assert ((process_next (node 7) chain_storage [7] [7; 8] 1 run1).1 = Ok true) as E1 by by vm_compute.
  assert ((process_next (node 8) chain_storage [8] [7; 8] 1 run2).1 = Ok true) as E2 by by vm_compute.
  rewrite H1 in E1. rewrite H2 in E2. cbn in E1, E2. subst x1 x2.
  destruct (validators_agree (node 7) (node 8) chain_storage [7] [8] [7; 8] 1 batch ledger0
    run1 run2 true true r1' r2' cached_synced stored_synced eq_refl eq_refl eq_refl H1 H2)
    as [_ H].
  destruct (H eq_refl eq_refl) as (summary & sig1 & i1 & sig2 & i2 & S1 & S2).
  exists summary, sig1, i1, sig2, i2, r1', r2'. split; [reflexivity|]. split; [reflexivity|].
  split; [exact S1|exact S2].
Defined.

Definition busy : Worker := idle <| worker_status := Ok (Some true) |>.

Lemma worker_lock_witness :
  offchain_worker (node 7) chain_storage busy = busy
  ∧ lock_free (offchain_worker (node 7) chain_storage idle) = true.
Proof.
  assert (no_keys (node 7) chain_storage = false) as Hk by by vm_compute. split.
  - apply (worker_lock (node 7) chain_storage busy Hk). reflexivity.
  - apply (worker_lock (node 7) chain_storage idle Hk); [reflexivity|].
    assert (match (run_on_chain_validation (node 7) chain_storage idle).1 with
            | Panic => true | _ => false end = false) as H by (vm_compute; reflexivity).
    intros Hp. rewrite Hp in H. discriminate H.
Defined.

Lemma no_keys_releases_lock_witness :
  lock_free busy = false ∧ lock_free (offchain_worker (node 9) chain_storage busy) = true.
Proof.
  split; [reflexivity|]. apply (no_keys_releases_lock (node 9) chain_storage busy). by vm_compute.
Defined.

(** A node that has stored the ledger, and a fresh one. *)
Definition keeper : Worker :=
  idle <| node_db := ledger0 |> <| trie_root_cell := store_trie_root (ref_root ledger0) |>.
Definition fresh : OffchainState := os_load ∅ H256_zero.
Definition registered : OcexStorage :=
  chain_storage <| Accounts := {[acct 1 := account_info_new (acct 1);
                                 acct 2 := account_info_new (acct 2)]} |>.

Lemma keeper_view :
  trie_view (get_state_trie (node_db keeper) (load_trie_root (trie_root_cell keeper)))
  = Some ledger0.
Proof.
  change (trie_view (get_state_trie ledger0
    (default H256_zero (scale_decode (scale_encode (ref_root ledger0))))) = Some ledger0).
  rewrite (scale_roundtrip (H := ref_hash)).
  change (trie_view (get_state_trie ledger0 (ref_root ledger0)) = Some ledger0).
  unfold get_state_trie. rewrite bool_decide_false.
  - cbn [trie_view trie_from_existing ref_trie]. by rewrite bool_decide_true.
  - intros Heq. discriminate (f_equal Vector.hd Heq).
Qed.

Lemma checkpoint_roundtrip_witness :
  ∃ cp s' c', fetch_checkpoint registered keeper = Ok cp ∧ process_checkpoint cp fresh = (Ok tt, s')
    ∧ holds s' c' ∧ entry c' (acct 1) (Asset 1) = Some (100 * UNITS).
Proof.
  destruct (fetch_checkpoint registered keeper) as [cp|e|] eqn:Hf.
  - destruct (checkpoint_roundtrip registered keeper ledger0 cp fresh keeper_view ledger0_wf Hf
      (holds_cache ∅)) as (s' & c' & Hrun & Hs & _ & He).
    exists cp, s', c'. split; [reflexivity|]. split; [exact Hrun|]. split; [exact Hs|].
    rewrite He, decide_True; [vm_compute; reflexivity|].
    left. exists (account_info_new (acct 1)). apply lookup_insert_eq.
  - assert (is_ok (fetch_checkpoint registered keeper) = true) as H by by vm_compute.
    rewrite Hf in H. discriminate H.
  - assert (is_ok (fetch_checkpoint registered keeper) = true) as H by by vm_compute.
    rewrite Hf in H. discriminate H.
Defined.
End WorkerExample.
