(* ===== verification/LiquidityMining.v ===== *)
(** * The liquidity-mining pallet

    [pallets/liquidity-mining/src/lib.rs]: crowd-sourced pools of a market maker.
    The callbacks that the OCEX pallet makes are in [LmCallbacks]. *)

From S2P Require Import Prelude Decimal Assets Bank Types Orders Settlement Chain LmCallbacks Ocex.

(** The pallet's constants and the encodings it hashes. *)
Class LmConfig := {
  LmPalletId : bytes;
  enc_market : TradingPair → bytes;
  (** [PalletId::into_sub_account_truncating] *)
  into_sub_account_truncating : bytes → byte_array 16 → AccountId;
}.

Section liquidity_mining.
Context {D : Decimal} {C : Crypto} {A : Authority} {CU : Currencies} {P : Percents}.
Context {CFG : OcexConfig} {LCFG : LmConfig}.

Definition lm_require (b : bool) (e : LmError) : Call unit := ensure b (LmErr e).

(** [u128::from_le_bytes] *)
Fixpoint from_le_bytes (l : bytes) : Z :=
  match l with [] => 0 | b :: l' => Z.of_N (Byte.to_N b) + 256 * from_le_bytes l' end.

Definition create_pool_account (market_maker : AccountId) (market : TradingPair) : AccountId * Z :=
  let hash := blake2_128 (to_raw_vec market_maker ++ enc_market market) in
  (into_sub_account_truncating LmPalletId hash, from_le_bytes (vec_to_list hash)).

(** [Zero <= d && d <= One] *)
Definition is_fraction (d : dec) : bool := (dec_zero <=? d)%dec && (d <=? dec_one)%dec.

(** Sends the minimum balance of the asset, if it is not the native token. *)
Definition fund_pool (asset : AssetId) (market_maker pool : AccountId) : Call unit :=
  match asset_id asset with
  | Some x =>
      b ← gets bank;
      bank_call (bank_transfer (Asset x) market_maker pool (minimum_balance b (Asset x)) Preserve)
  | None => mret tt
  end.

Definition register_pool (origin : Origin) (name : bytes) (market : TradingPair)
    (commission_raw exit_fee_raw : Z) (public_funds : bool) (trading_account : AccountId) :
    Call unit :=
  market_maker ← ensure_signed origin;
  c ← get_state;
  lm_require (bool_decide (Pools (lm c) !! (market, market_maker) = None)) PoolExists ;;
  lm_require (is_registered_market (ocex c) market) UnknownMarket ;;
  commission ← ok_or (from_u128 commission_raw) (LmErr ConversionError);
  exit_fee ← ok_or (from_u128 exit_fee_raw) (LmErr ConversionError);
  unit ← lift (unwrap (from_u128 UNIT_BALANCE));
  commission ← lift (unwrap (checked_div commission unit));
  exit_fee ← lift (unwrap (checked_div exit_fee unit));
  lm_require (is_fraction commission) InvalidCommission ;;
  lm_require (is_fraction exit_fee) InvalidExitFee ;;
  let '(pool, share) := create_pool_account market_maker market in
  bank_call (bank_create share pool 1) ;;
  b ← gets bank;
  bank_call (bank_transfer Polkadex market_maker pool (minimum_balance b Polkadex) Preserve) ;;
  fund_pool (base market) market_maker pool ;;
  fund_pool (quote market) market_maker pool ;;
  quote_asset ← ok_or (asset_id (quote market)) (LmErr ConversionError);
  b ← gets bank;
  bank_call (bank_transfer (Asset quote_asset) market_maker pool
    (minimum_balance b (Asset quote_asset)) Preserve) ;;
  register_user pool trading_account ;;
  let config := mkMarketMakerConfig pool commission exit_fee public_funds name share false in
  upd_lm (λ l, l <| PoolIdIndex ::= <[pool := (market, market_maker)]> |>) ;;
  upd_lm (λ l, l <| Pools ::= <[(market, market_maker) := config]> |>).

Definition add_liquidity (origin : Origin) (market : TradingPair) (market_maker : AccountId)
    (base_raw max_quote_raw : Z) : Call unit :=
  lp ← ensure_signed origin;
  c ← get_state;
  config ← ok_or (Pools (lm c) !! (market, market_maker)) (LmErr UnknownPool);
  lm_require (bool_decide (SnapshotFlag (lm c) = None)) SnapshotInProgress ;;
  lm_require (negb (force_closed config)) PoolForceClosedError ;;
  (if negb (public_funds_allowed config) && negb (force_closed config)
   then lm_require (bool_decide (lp = market_maker)) PublicDepositsNotAllowed else mret tt) ;;
  base_amount ← ok_or (from_u128 base_raw) (LmErr ConversionError);
  max_quote_amount ← ok_or (from_u128 max_quote_raw) (LmErr ConversionError);
  unit ← lift (unwrap (from_u128 UNIT_BALANCE));
  base_amount ← lift (unwrap (checked_div base_amount unit));
  max_quote_amount ← lift (unwrap (checked_div max_quote_amount unit));
  price ← ok_or (average_price (ocex c) market) (LmErr PriceNotAvailable);
  let required_quote_amount := saturating_mul price base_amount in
  lm_require (required_quote_amount <=? max_quote_amount)%dec NotEnoughQuoteAmount ;;
  lm_transfer_asset lp (pool_id config) base_amount (base market) ;;
  lm_transfer_asset lp (pool_id config) required_quote_amount (quote market) ;;
  b ← gets bank;
  total_shares_issued ← div_unit (total_issuance b (Asset (share_id config)));
  ocex_add_liquidity market (pool_id config) lp total_shares_issued base_amount
    required_quote_amount.

Definition remove_liquidity (origin : Origin) (market : TradingPair) (market_maker : AccountId)
    (shares : Z) : Call unit :=
  lp ← ensure_signed origin;
  c ← get_state;
  config ← ok_or (Pools (lm c) !! (market, market_maker)) (LmErr UnknownPool);
  lm_require (bool_decide (SnapshotFlag (lm c) = None)) SnapshotInProgress ;;
  let total := total_issuance (bank c) (Asset (share_id config)) in
  lm_require (negb (total =? 0)) TotalShareIssuanceIsZero ;;
  burned_amt ← bank_call (bank_burn_from (Asset (share_id config)) lp shares);
  upd_lm (λ l, l <| WithdrawalRequests ::= partial_alter
    (λ o, Some (default [] o ++ [(lp, burned_amt, total)]))
    (WithdrawingEpoch (lm c), pool_id config) |>).

Definition force_close_pool (origin : Origin) (market : TradingPair) (market_maker : AccountId) :
    Call unit :=
  ensure_root origin ;;
  l ← get_lm id;
  lm_require (bool_decide (is_Some (Pools l !! (market, market_maker)))) UnknownPool ;;
  ocex_force_close_pool market market_maker.

(** The rewards of a pool for an epoch, claimed from OCEX at first use. *)
Definition pool_rewards (epoch : Z) (pool : AccountId) (market : TradingPair) : Call Z :=
  l ← get_lm id;
  match Rewards l !! (epoch, pool) with
  | Some total_rewards => mret total_rewards
  | None =>
      total_rewards ← do_claim_lmp_rewards pool epoch market;
      upd_lm (λ l, l <| Rewards ::= <[(epoch, pool) := total_rewards]> |>) ;;
      mret total_rewards
  end.

Definition mm_info (l : LmStorage) (epoch : Z) (pool : AccountId) : MMInfo :=
  default (∅, 0, false) (LiquidityProviders l !! (epoch, pool)).

(** [a.checked_div(&b)] on balances *)
Definition checked_div_u (a b : Z) : option Z := if b =? 0 then None else Some (a / b).

Definition claim_rewards_by_lp (origin : Origin) (market : TradingPair) (market_maker : AccountId)
    (epoch : Z) : Call unit :=
  lp ← ensure_signed origin;
  l ← get_lm id;
  config ← ok_or (Pools l !! (market, market_maker)) (LmErr UnknownPool);
  total_rewards ← pool_rewards epoch (pool_id config) market;
  '(scores_map, total_score, mm_claimed) ← get_lm (λ l, mm_info l epoch (pool_id config));
  '(score, already_claimed) ← ok_or (scores_map !! lp) (LmErr InvalidLPAddress);
  lm_require (negb already_claimed) AlreadyClaimed ;;
  rewards_for_lp ← ok_or (checked_div_u (sat_mul 128 score total_rewards) total_score)
                     (LmErr InvalidTotalScore);
  bank_call (bank_transfer Polkadex (pool_id config) lp rewards_for_lp Expendable) ;;
  upd_lm (λ l, l <| LiquidityProviders ::=
    <[(epoch, pool_id config) := (<[lp := (score, true)]> scores_map, total_score, mm_claimed)]> |>).

Definition claim_rewards_by_mm (origin : Origin) (market : TradingPair) (epoch : Z) : Call unit :=
  market_maker ← ensure_signed origin;
  l ← get_lm id;
  config ← ok_or (Pools l !! (market, market_maker)) (LmErr UnknownPool);
  total_rewards ← pool_rewards epoch (pool_id config) market;
  '(scores_map, total_score, already_claimed) ← get_lm (λ l, mm_info l epoch (pool_id config));
  lm_require (negb already_claimed) AlreadyClaimed ;;
  rewards ← div_unit total_rewards;
  rewards_for_mm ← lm_convert (saturating_mul (commission config) rewards);
  bank_call (bank_transfer Polkadex (pool_id config) market_maker rewards_for_mm Expendable) ;;
  upd_lm (λ l, l <| LiquidityProviders ::=
    <[(epoch, pool_id config) := (scores_map, total_score, true)]> |>).

(** [LMPScoreSheet] *)
Definition LMPScoreSheet : Type :=
  gmap (TradingPair * AccountId * Z) (gmap AccountId (Z * bool) * Z).

Definition submit_scores_of_lps (origin : Origin) (results : LMPScoreSheet) : Call unit :=
  ensure_none origin ;;
  for_each (btree_to_list results) (λ '((market, market_maker, epoch), (scores_map, total_score)),
    l ← get_lm id;
    config ← ok_or (Pools l !! (market, market_maker)) (LmErr UnknownPool);
    upd_lm (λ l, l <| LiquidityProviders ::=
      <[(epoch, pool_id config) := (scores_map, total_score, false)]> |>) ;;
    upd_lm (λ l, l <| Pools ::= <[(market, market_maker) := config]> |>)) ;;
  upd_lm (λ l, l <| SnapshotFlag := None |>).

(** [requests[n..]] panics beyond the end. *)
Definition slice_from {B} (n : nat) (l : list B) : option (list B) :=
  if (n <=? length l)%nat then Some (drop n l) else None.

Definition initiate_withdrawal (origin : Origin) (market : TradingPair) (epoch num_requests : Z) :
    Call unit :=
  market_maker ← ensure_signed origin;
  let num := Z.to_nat num_requests in
  l ← get_lm id;
  config ← ok_or (Pools l !! (market, market_maker)) (LmErr UnknownPool);
  let requests := default [] (WithdrawalRequests l !! (epoch, pool_id config)) in
  for_each (take num requests) (λ '(lp, burned, total),
    ocex_remove_liquidity market (pool_id config) lp burned total) ;;
  rest ← lift (unwrap (slice_from num requests));
  upd_lm (λ l, l <| WithdrawalRequests ::= <[(epoch, pool_id config) := rest]> |>).

(** The provider's part of a pool balance. *)
Definition pool_portion (pool_balance shares issuance : Z) : Call Z :=
  ok_or (checked_div_u (sat_mul 128 pool_balance shares) issuance) (LmErr InvalidTotalIssuance).

Definition claim_force_closed_pool_funds (origin : Origin) (market : TradingPair)
    (market_maker : AccountId) : Call unit :=
  lp ← ensure_signed origin;
  c ← get_state;
  config ← ok_or (Pools (lm c) !! (market, market_maker)) (LmErr UnknownPool);
  lm_require (force_closed config) PoolNotForceClosed ;;
  let b := bank c in
  let share := Asset (share_id config) in
  let lp_shares := reducible_balance b share lp Expendable in
  let issuance := total_issuance b share in
  base_id ← ok_or (asset_id (base market)) (LmErr ConversionError);
  let base_balance := reducible_balance b (Asset base_id) (pool_id config) Expendable in
  base_amt_to_claim ← pool_portion base_balance lp_shares issuance;
  let quote_balance := reducible_balance b (Asset base_id) (pool_id config) Expendable in
  quote_amt_to_claim ← pool_portion quote_balance lp_shares issuance;
  _ ← bank_call (bank_burn_from share lp lp_shares);
  bank_call (bank_transfer (Asset base_id) (pool_id config) lp base_amt_to_claim Expendable) ;;
  quote_id ← ok_or (asset_id (quote market)) (LmErr ConversionError);
  bank_call (bank_transfer (Asset quote_id) (pool_id config) lp quote_amt_to_claim Expendable).

(** ** Scores of the providers *)
Definition EPOCH_BLOCKS : Z := 201600.

(** Shares deposited during the epoch count pro rata, older ones for all of it. *)
Definition lp_score (records : list (Z * Z)) (ending_blk total_shares : Z) : Z :=
  let '(shares, score) :=
    foldl (λ '(shares, score) '(deposit_blk, share),
      (sat_sub shares share,
       sat_add 128 score (sat_mul 128 share (sat_sub ending_blk deposit_blk))))
      (total_shares, 0) records in
  sat_add 128 score (sat_mul 128 shares EPOCH_BLOCKS).

Definition pool_scores (l : LmStorage) (epoch ending_blk : Z) (config : MarketMakerConfig) :
    gmap AccountId (Z * bool) * Z :=
  foldl (λ '(scores, total) '((_, lp), total_shares),
    let records := default [] (AddLiquidityRecords l !! (epoch, (pool_id config, lp))) in
    let score := lp_score records ending_blk total_shares in
    (<[lp := (score, false)]> scores, sat_add 128 total score))
    (∅, 0) (filter (λ e, e.1.1 = share_id config) (map_to_list (LPShares l))).

(** [take_snapshot]: the results are computed and dropped; the submission of the
    transaction is commented out. *)
Definition snapshot_results (l : LmStorage) : option LMPScoreSheet :=
  let epoch := sat_sub (ActiveLMPEpoch l) 1 in
  match SnapshotFlag l with
  | None => None
  | Some ending_blk =>
      Some (map_fold (λ '(market, mm) config results,
        <[(market, mm, epoch) := pool_scores l epoch ending_blk config]> results) ∅ (Pools l))
  end.
Definition take_snapshot (l : LmStorage) : LmStorage :=
  let _ := snapshot_results l in l.

(** ** All dispatchables *)
Inductive LmCall : Type :=
| CallRegisterPool (name : bytes) (market : TradingPair) (commission exit_fee : Z)
    (public_funds : bool) (trading_account : AccountId)
| CallAddLiquidity (market : TradingPair) (mm : AccountId) (base_raw max_quote_raw : Z)
| CallRemoveLiquidity (market : TradingPair) (mm : AccountId) (shares : Z)
| CallForceClosePool (market : TradingPair) (mm : AccountId)
| CallClaimRewardsByLp (market : TradingPair) (mm : AccountId) (epoch : Z)
| CallClaimRewardsByMm (market : TradingPair) (epoch : Z)
| CallSubmitScores (results : LMPScoreSheet)
| CallInitiateWithdrawal (market : TradingPair) (epoch num_requests : Z)
| CallClaimForceClosed (market : TradingPair) (mm : AccountId).

Definition lm_dispatch (origin : Origin) (call : LmCall) : Call unit :=
  transactional
    match call with
    | CallRegisterPool n m c e p t => register_pool origin n m c e p t
    | CallAddLiquidity m mm b q => add_liquidity origin m mm b q
    | CallRemoveLiquidity m mm s => remove_liquidity origin m mm s
    | CallForceClosePool m mm => force_close_pool origin m mm
    | CallClaimRewardsByLp m mm e => claim_rewards_by_lp origin m mm e
    | CallClaimRewardsByMm m e => claim_rewards_by_mm origin m e
    | CallSubmitScores r => submit_scores_of_lps origin r
    | CallInitiateWithdrawal m e n => initiate_withdrawal origin m e n
    | CallClaimForceClosed m mm => claim_force_closed_pool_funds origin m mm
    end.

(** [TransactionSource] and [ValidateUnsigned] *)
Inductive TransactionSource : Type := InBlock | Local | External.
Definition lm_validate_unsigned (l : LmStorage) (source : TransactionSource) (call : LmCall) :
    bool :=
  match call with
  | CallSubmitScores _ =>
      if bool_decide (SnapshotFlag l = None) then false
      else match source with External => false | _ => true end
  | _ => false
  end.
End liquidity_mining.

(** ** A concrete configuration *)
Module RefLm.
Import RefCrypto.
#[export] Instance ref_lm_config : LmConfig := {|
  LmPalletId := bytes_of "lmpallet";
  enc_market _ := [];
  into_sub_account_truncating _ h := pad 32 (vec_to_list h);
|}.
End RefLm.

(** ** Automation: invariants of the calls of both pallets *)
Create HintDb ocex discriminated.
#[export] Hint Unfold bank_call_as require ocex_fail ensure_governance ensure_signed ensure_root
  ensure_none get_ocex get_lm current_block book_to_raw raw_to_book div_unit lm_convert
  lm_require upd_ocex upd_lm : ocex.

(** Unfolds the small wrappers and decomposes. *)
Ltac ocex_keeps :=
  autounfold with ocex; keeps_auto; autounfold with ocex; keeps_auto.
