(* ===== verification/LiquidityProps.v ===== *)
(** * Rewards, epochs and pools

    Properties of the liquidity-mining programme: rewards are
    bounded by what the epoch provides, epochs advance in order; and the behaviour
    of the pool operations and of the market and fee administration around them. *)

From S2P Require Import Prelude Decimal Assets Bank Types Orders Settlement Chain.
From S2P Require Import LmCallbacks Ocex OcexProps LiquidityMining.

(** ** Rewards *)
Section rewards.
Context {D : Decimal} {DL : DecimalLaws} {C : Crypto} {A : Authority} {CU : Currencies}.
Context {CL : CurrenciesLaws} {P : Percents} {CFG : OcexConfig}.

(** The share [a / b] of a whole: zero when the whole is zero. *)
Lemma portion_bounds a b :
  0 ≤ units a ≤ units b →
  0 ≤ units (default dec_zero (checked_div a b)) ≤ UNITS.
Proof.
  intros Hab. destruct (decide (units b = 0)) as [Hb|Hb].
  - rewrite (checked_div_zero a b Hb). cbn. rewrite dec_zero_units. unfold UNITS. lia.
  - destruct (checked_div_portion a b) as (d & -> & Hd); [lia..|]. done.
Qed.

(** The rewards of an account are between zero and the rewards of the epoch, for
    each of the two programmes, as soon as its score and fees are not more than the
    totals of the market. *)
Theorem lmp_reward_bounded o main epoch market config score fees claimed ts tf :
  TotalScores o !! (epoch, market) = Some (ts, tf) →
  TraderMetrics o !! (epoch, market, main) = Some (score, fees, claimed) →
  0 ≤ units score ≤ units ts → 0 ≤ units fees ≤ units tf →
  0 ≤ units (total_liquidity_mining_rewards config) →
  0 ≤ units (total_trading_rewards config) →
  let '(mm, trading, is_claimed) := calculate_lmp_rewards o main epoch market config in
  0 ≤ units mm ≤ units (total_liquidity_mining_rewards config)
  ∧ 0 ≤ units trading ≤ units (total_trading_rewards config) ∧ is_claimed = claimed.
Proof.
  intros Ht Hm Hs Hf Hr1 Hr2. unfold calculate_lmp_rewards. rewrite Ht, Hm. cbn [default].
  split; [|split; [|done]]; apply saturating_mul_contract; try done; by apply portion_bounds.
Qed.

(** The metrics of an account once it has claimed. *)
Definition mark_claimed (m : option (dec * dec * bool)) : dec * dec * bool :=
  let '(score, fees, _) := default (dec_zero, dec_zero, false) m in (score, fees, true).

Lemma do_claim_inv main epoch market c n c' :
  do_claim_lmp_rewards main epoch market c = (Ok n, c') →
  ∃ claim_blk config mm trading k,
    LMPClaimBlk (ocex c) !! epoch = Some claim_blk ∧ claim_blk ≤ block_number c
    ∧ LMPConfigs (ocex c) !! epoch = Some config
    ∧ calculate_lmp_rewards (ocex c) main epoch market config = (mm, trading, false)
    ∧ dec_to_raw (saturating_add mm trading) = Some n
    ∧ bank_transfer Polkadex (into_account_truncating LMPRewardsPalletId) main n Expendable
        (bank c) = (Ok tt, k)
    ∧ bank c' = k
    ∧ TraderMetrics (ocex c') !! (epoch, market, main)
      = Some (mark_claimed (TraderMetrics (ocex c) !! (epoch, market, main))).
Proof.
  intros H. unfold do_claim_lmp_rewards, get_ocex, upd_ocex, current_block, book_to_raw, require in H.
  inv_run. unfold id in *.
  destruct (calculate_lmp_rewards (ocex c) main epoch market a0) as [[mm trading] claimed] eqn:Hcalc.
  inv_run.
  match goal with H : bank_call _ _ = _ |- _ => apply bank_call_inv in H as (k & Ht & ->) end.
  destruct_units. exists a, a0, mm, trading, k. destruct claimed; [done|].
  match goal with H : (a <=? _) = true |- _ => apply Z.leb_le in H end.
  split_and!; try done. cbn. rewrite lookup_partial_alter_eq. unfold mark_claimed.
  by destruct (default _ _) as [[]].
Qed.

(** ** Epochs *)

Lemma announce_epoch_run n e config c :
  ∃ Q, announce_epoch n e config c = (Ok tt, c <| ocex ::= λ o, o <| IngressQueue := Q |> |>)
    ∧ default [] (Q !! n) = ingress_at (ocex c) n ++
        (if Z.of_nat (length (ingress_at (ocex c) n)) + 1 <? OBIngressLimit
         then [NewLMPEpoch e; LMPConfigMsg config] else []).
Proof.
  assert (c <| ocex ::= λ o, o <| IngressQueue := IngressQueue (ocex c) |> |> = c) as Hid
    by by destruct c as [? ? [] ?].
  unfold announce_epoch, get_ocex, upd_ocex, try_push. mrun.
  set (q := ingress_at (ocex c) n).
  destruct (Z.ltb_spec (Z.of_nat (length q)) OBIngressLimit) as [H1|H1].
  - destruct (Z.ltb_spec (Z.of_nat (length (q ++ [NewLMPEpoch e]))) OBIngressLimit) as [H2|H2];
      rewrite length_app in H2; cbn in H2.
    + eexists. split; [done|]. rewrite lookup_insert_eq. cbn.
      rewrite (proj2 (Z.ltb_lt _ _)) by lia. by rewrite <- app_assoc.
    + exists (IngressQueue (ocex c)). rewrite Hid. split; [done|].
      rewrite (proj2 (Z.ltb_ge _ _)) by lia. by rewrite app_nil_r.
  - exists (IngressQueue (ocex c)). rewrite Hid. split; [done|].
    rewrite (proj2 (Z.ltb_ge _ _)) by lia. by rewrite app_nil_r.
Qed.

(** A new epoch of the programme follows the previous one, takes the expected
    configuration, keeps the configurations of the other epochs, opens the
    finalization of the epoch that ends unless one is still open, freezes the pools
    for scoring, and announces itself to the engine with both messages or, if the
    queue of the block is full, with none. *)
Theorem start_new_epoch_advances n c config :
  ExpectedLMPConfig (ocex c) = Some config → 0 ≤ LMPEpoch (ocex c) < u16_max →
  ∃ c', start_new_epoch n c = (Ok tt, c')
    ∧ LMPEpoch (ocex c') = LMPEpoch (ocex c) + 1
    ∧ LMPConfigs (ocex c') !! (LMPEpoch (ocex c) + 1) = Some config
    ∧ (∀ e, 0 < e → e ≠ LMPEpoch (ocex c) + 1 →
         LMPConfigs (ocex c') !! e = LMPConfigs (ocex c) !! e)
    ∧ FinalizeLMPScore (ocex c') =
        match FinalizeLMPScore (ocex c) with Some e => Some e | None => Some (LMPEpoch (ocex c)) end
    ∧ ActiveLMPEpoch (lm c') = LMPEpoch (ocex c) + 1
    ∧ SnapshotFlag (lm c') = Some (block_number c)
    ∧ ingress_at (ocex c') n = ingress_at (ocex c) n ++
        (if Z.of_nat (length (ingress_at (ocex c) n)) + 1 <? OBIngressLimit
         then [NewLMPEpoch (LMPEpoch (ocex c) + 1); LMPConfigMsg config] else []).
Proof.
  intros Hcfg He. unfold start_new_epoch, new_epoch, get_ocex, upd_ocex, upd_lm,
    current_block. mrun. unfold id. rewrite Hcfg.
  assert (sat_add 16 (LMPEpoch (ocex c)) 1 = LMPEpoch (ocex c) + 1) as ->.
  { unfold sat_add, u16_max in *. lia. }
  destruct (_ && _) eqn:E1; destruct (bool_decide (FinalizeLMPScore _ = None)) eqn:E2; cbv beta iota;
    match goal with |- context [announce_epoch n ?e config ?s] =>
      destruct (announce_epoch_run n e config s) as (Q & -> & HQ) end;
    (eexists; split; [done|]; cbn -[ingress_at]; split; [done|]; split; [apply lookup_insert_eq|];
     split; [|split; [|split; [done|split; [done|exact HQ]]]]).
  all: try (intros e ??; rewrite !lookup_insert_ne by lia; done).
  all: try (apply bool_decide_eq_true in E2; rewrite E2; done).
  all: try (apply bool_decide_eq_false, not_eq_None_Some in E2 as [x ->]; done).
  all: apply andb_true_iff in E1 as [E1 _]; intros; rewrite !lookup_insert_ne by lia; done.
Qed.
End rewards.

(** ** Pools *)
Section pools.
Context {D : Decimal} {DL : DecimalLaws} {C : Crypto} {A : Authority} {CU : Currencies}.
Context {CL : CurrenciesLaws} {P : Percents} {CFG : OcexConfig} {LCFG : LmConfig}.

(** While the flag that an epoch raises for scoring is up, nobody can add or
    remove liquidity; and the worker that should lower it leaves it up, because the
    submission of its results is disabled. *)
Theorem pools_frozen c blk :
  SnapshotFlag (lm c) = Some blk →
  (∀ o market mm x y, is_ok (add_liquidity o market mm x y c).1 = false)
  ∧ (∀ o market mm shares, is_ok (remove_liquidity o market mm shares c).1 = false)
  ∧ SnapshotFlag (take_snapshot (lm c)) = Some blk.
Proof.
  intros Hf. split; [|split; [|done]].
  - intros o market mm x y. destruct (add_liquidity o market mm x y c) as [[u| |] c'] eqn:H; [|done..].
    unfold add_liquidity, ensure_signed, lm_require in H. destruct o; inv_run.
    match goal with H : bool_decide (_ = None) = true |- _ => apply bool_decide_eq_true in H end.
    congruence.
  - intros o market mm n. destruct (remove_liquidity o market mm n c) as [[u| |] c'] eqn:H; [|done..].
    unfold remove_liquidity, ensure_signed, lm_require in H. destruct o; inv_run.
    match goal with H : bool_decide (_ = None) = true |- _ => apply bool_decide_eq_true in H end.
    congruence.
Qed.

(** The pools that exist are not changed by the processing of a snapshot. *)
Definition not_a_pool (p : AccountId) (c : Chain) : Prop := PoolIdIndex (lm c) !! p = None.

Lemma not_a_pool_bank p {B} (m : M Bank BankError B) : keeps (not_a_pool p) (bank_call m).
Proof. apply preserves_keeps. intros c Hc. unfold bank_call. by destruct (m (bank c)) as [[]]. Qed.
#[local] Hint Resolve not_a_pool_bank : keeps.

Lemma not_a_pool_egress p m : keeps (not_a_pool p) (process_one_egress m).
Proof.
  unfold process_one_egress, distribute_fee, release_to_pool, add_liquidity_success,
    remove_liquidity_success, remove_liquidity_failed, pool_force_close_success, resolve_pool,
    lm_transfer_asset, transfer_asset. ocex_keeps.
Qed.

Lemma not_a_pool_scores p m : keeps (not_a_pool p) (update_lmp_scores m).
Proof.
  assert (∀ e pr l k, keeps (not_a_pool p) (record_scores e pr l k)) as Hr.
  { intros e pr l. induction l as [|[main [s f]] l IH]; intros k; cbn [record_scores]; ocex_keeps. }
  unfold update_lmp_scores. ocex_keeps.
Qed.

(** A loop fails as soon as one of its elements does, in every state of an invariant
    that the other elements keep. *)
Lemma for_each_blocked {S E B} (I : S → Prop) (body : B → M S E unit) l x :
  (∀ y, keeps I (body y)) → x ∈ l → (∀ s, I s → is_ok (body x s).1 = false) →
  ∀ s, I s → is_ok (for_each l body s).1 = false.
Proof.
  intros Hk Hx Hf. induction l as [|y l IH]; intros s Hs; [by apply elem_of_nil in Hx|].
  cbn. rewrite bind_run. apply elem_of_cons in Hx as [<-|Hx].
  - specialize (Hf s Hs). by destruct (body x s) as [[]].
  - destruct (body y s) as [[u| |] s1] eqn:Hy; [|done..]. apply IH; [done|]. by eapply Hk.
Qed.

Lemma swallow_push_run m c :
  Z.of_nat (length (ingress_at (ocex c) (block_number c))) < OBIngressLimit →
  swallow (push_ingress m) c = (Ok tt, c <| ocex ::= λ o, o <| IngressQueue ::=
      <[block_number c := ingress_at (ocex c) (block_number c) ++ [m]]> |> |>).
Proof.
  intros Hlen. unfold swallow, push_ingress, current_block, get_ocex, upd_ocex, try_push. mrun.
  by rewrite (proj2 (Z.ltb_lt _ _) Hlen).
Qed.

Lemma force_closed_egress_fails mm cfg b q c :
  not_a_pool mm c → is_ok (process_one_egress (PoolForceClosed cfg mm b q) c).1 = false.
Proof.
  intros Hno. cbn [process_one_egress]. unfold release_to_pool, get_lm, require, is_valid_pool_id.
  rewrite !bind_run. cbn [gets]. unfold id. unfold not_a_pool in Hno. rewrite Hno.
  by rewrite bool_decide_false by (by intros [? [=]]).
Qed.

(** Closing a pool by force names the market maker instead of the pool.  The
    message that reaches the engine carries the account of the market maker, and as
    long as that account is not itself a pool, no snapshot that reports its closing
    can ever be submitted. *)
Theorem force_close_blocks_snapshots market mm c c' :
  force_close_pool Root market mm c = (Ok tt, c') →
  Z.of_nat (length (ingress_at (ocex c) (block_number c))) < OBIngressLimit →
  ingress_at (ocex c') (block_number c) = ingress_at (ocex c) (block_number c)
    ++ [ForceClosePool (default_pair_config (base market) (quote market)) mm]
  ∧ ∀ o c2 summary cfg b q, PoolIdIndex (lm c2) !! mm = None →
      PoolForceClosed cfg mm b q ∈ egress_messages summary →
      is_ok (submit_snapshot o summary c2).1 = false.
Proof.
  intros H Hlen. split.
  - unfold force_close_pool, ocex_force_close_pool, ensure_root, lm_require, get_lm in H. inv_run.
    match goal with H : swallow _ _ = _ |- _ => rewrite swallow_push_run in H by done;
      injection H as <- end. apply ingress_at_insert.
  - intros o c2 summary cfg b q Hno Hin.
    destruct (submit_snapshot o summary c2) as [[u| |] c3] eqn:Hs; [|done..].
    unfold submit_snapshot, ensure_none in Hs. apply transactional_ok_inv in Hs.
    destruct o; inv_run. exfalso.
    match goal with H : match trader_metrics summary with _ => _ end _ = (Ok _, ?s1) |- _ =>
      assert (not_a_pool mm s1) as Hno1 end.
    { destruct (trader_metrics summary); [|by inv_run]. by eapply not_a_pool_scores. }
    unfold process_egress_msg, require in *. inv_run.
    match goal with H : for_each (egress_messages summary) _ _ = (Ok _, _) |- _ => rename H into He end.
    pose proof (for_each_blocked (not_a_pool mm) process_one_egress (egress_messages summary) _
      (not_a_pool_egress mm) Hin (force_closed_egress_fails mm cfg b q) _ Hno1) as Hb.
    by rewrite He in Hb.
Qed.

(** The shares of a failed removal come back multiplied.  A removal of [burned]
    of [total] shares announces the total in raw units, and when the engine reports
    that it failed, the pallet scales the product by another 10^12 before it mints
    it back. *)
Theorem failed_removal_multiplies_shares burned total q m pool lp c :
  0 < total < 2 ^ 56 → 0 ≤ burned ≤ total → burned * UNITS = q * total →
  Z.of_nat (length (ingress_at (ocex c) (block_number c))) < OBIngressLimit →
  ∃ f t c',
    ocex_remove_liquidity m pool lp burned total c = (Ok tt, c')
    ∧ ingress_at (ocex c') (block_number c) = ingress_at (ocex c) (block_number c)
        ++ [RemoveLiquidity (default_pair_config (base m) (quote m)) pool lp f t]
    ∧ ∀ c2, lm_convert (saturating_mul t f) c2 = (Ok (burned * UNIT_BALANCE), c2).
Proof.
  intros Ht Hb Hq Hlen.
  destruct (from_u128_units burned) as (db & Edb & Udb); [lia|].
  destruct (from_u128_units total) as (dt & Edt & Udt); [lia|].
  assert (0 ≤ q ≤ UNITS) as Hqb by (unfold UNITS in *; nia).
  destruct (checked_div_exact db dt q) as (f & Ef & Uf).
  { rewrite Udt. unfold UNITS. lia. }
  { rewrite Udb, Udt. unfold UNITS in *. nia. }
  { apply representable_bounded. unfold UNITS in *. lia. }
  exists f, dt. eexists. split; [|split].
  - unfold ocex_remove_liquidity. rewrite Edb, Edt. cbn [unwrap]. mrun. rewrite Ef. cbn [default].
    by apply swallow_push_run.
  - apply ingress_at_insert.
  - intros c2. unfold lm_convert, ok_or. rewrite (dec_to_raw_exact _ (burned * UNIT_BALANCE)); [done|..].
    + unfold UNIT_BALANCE. lia.
    + rewrite (saturating_mul_exact dt f (burned * UNITS)).
      * unfold UNIT_BALANCE, GRAIN, UNITS. lia.
      * rewrite Udt, Uf. unfold UNITS in *. nia.
      * apply (representable_at 0); lia.
Qed.
End pools.

(** ** Administration of markets and fees *)
Section administration.
Context {D : Decimal} {DL : DecimalLaws} {C : Crypto} {A : Authority} {CU : Currencies}.
Context {CL : CurrenciesLaws} {P : Percents} {CFG : OcexConfig}.

Lemma convert_config_inv mi ma t st c x c' :
  convert_config mi ma t st c = (Ok x, c') →
  ∃ mi' ma' t' st', x = (mi', ma', t', st')
    ∧ raw_to_dec mi = Some (Some mi') ∧ raw_to_dec ma = Some (Some ma')
    ∧ raw_to_dec t = Some (Some t') ∧ raw_to_dec st = Some (Some st').
Proof.
  unfold convert_config, unwrap. intros H.
  destruct (raw_to_dec mi) as [[mi'|]|], (raw_to_dec ma) as [[ma'|]|],
    (raw_to_dec t) as [[t'|]|], (raw_to_dec st) as [[st'|]|];
    try (cbn in H; discriminate H).
  injection H as <- <-. eauto 10.
Qed.

(** What registering and updating a market store. *)
Lemma register_trading_pair_inv origin b q mi ma t st c c' :
  register_trading_pair origin b q mi ma t st c = (Ok tt, c') →
  ∃ mi' ma' t' st', raw_to_dec mi = Some (Some mi') ∧ raw_to_dec ma = Some (Some ma')
    ∧ raw_to_dec t = Some (Some t') ∧ raw_to_dec st = Some (Some st')
    ∧ TradingPairs (ocex c') !! (b, q) = Some (mkTradingPairConfig b q t' mi' ma' st' true
        (wrap 8 (scale st')) (wrap 8 (scale t'))).
Proof.
  intros H. unfold register_trading_pair, get_ocex, upd_ocex in H. inv_run.
  match goal with H : convert_config _ _ _ _ _ = _ |- _ =>
    apply convert_config_inv in H as (mi' & ma' & t' & st' & -> & ? & ? & ? & ?) end.
  inv_run. match goal with H : push_ingress _ _ = _ |- _ => apply push_ingress_inv in H as [_ ->] end.
  exists mi', ma', t', st'. split_and!; try done. apply lookup_insert_eq.
Qed.

Lemma update_trading_pair_inv origin b q mi ma t st c c' :
  update_trading_pair origin b q mi ma t st c = (Ok tt, c') →
  ∃ mi' ma' t' st', raw_to_dec mi = Some (Some mi') ∧ raw_to_dec ma = Some (Some ma')
    ∧ raw_to_dec t = Some (Some t') ∧ raw_to_dec st = Some (Some st')
    ∧ TradingPairs (ocex c') !! (b, q) = Some (mkTradingPairConfig b q t' mi' ma' st' true
        (saturated_into 8 (scale t')) (saturated_into 8 (scale st'))).
Proof.
  intros H. unfold update_trading_pair, get_ocex, upd_ocex in H. inv_run.
  match goal with H : convert_config _ _ _ _ _ = _ |- _ =>
    apply convert_config_inv in H as (mi' & ma' & t' & st' & -> & ? & ? & ? & ?) end.
  inv_run. match goal with H : push_ingress _ _ = _ |- _ => apply push_ingress_inv in H as [_ ->] end.
  exists mi', ma', t', st'. split_and!; try done. apply lookup_insert_eq.
Qed.

(** Updating a market with the parameters it was registered with exchanges its
    two precisions: registering takes the base precision from the quantity step and
    the quote precision from the price tick, updating the other way round. *)
Theorem update_swaps_precisions o o' b q mi ma t st c c1 d d1 :
  register_trading_pair o b q mi ma t st c = (Ok tt, c1) →
  update_trading_pair o' b q mi ma t st d = (Ok tt, d1) →
  ∃ reg upd, TradingPairs (ocex c1) !! (b, q) = Some reg
    ∧ TradingPairs (ocex d1) !! (b, q) = Some upd
    ∧ price_tick_size upd = price_tick_size reg ∧ qty_step_size upd = qty_step_size reg
    ∧ base_asset_precision reg = scale (qty_step_size reg)
    ∧ base_asset_precision upd = quote_asset_precision reg
    ∧ quote_asset_precision upd = base_asset_precision reg.
Proof.
  intros (mi1 & ma1 & t1 & st1 & E1 & E2 & E3 & E4 & ->)%register_trading_pair_inv
    (mi2 & ma2 & t2 & st2 & E5 & E6 & E7 & E8 & ->)%update_trading_pair_inv.
  simplify_eq. do 2 eexists. split; [done|]. split; [done|]. cbn.
  pose proof (scale_bound t1). pose proof (scale_bound st1).
  unfold wrap, saturated_into, umax. rewrite !Z.mod_small by lia. split_and!; first [done|lia].
Qed.

(** The withdrawal fee collected in an asset is settled in the native token: the
    asset stays in custody and the pot receives the same number of native units. *)
Theorem asset_fee_settled_in_native f id c c' :
  get_pallet_account ≠ get_pot_account → fees_asset f = Asset id →
  settle_withdrawal_fees [f] c = (Ok tt, c') →
  (∀ a, balance (bank c') (Asset id) a = balance (bank c) (Asset id) a)
  ∧ balance (bank c') Polkadex get_pallet_account
    = balance (bank c) Polkadex get_pallet_account - fees_amount f
  ∧ balance (bank c') Polkadex get_pot_account
    = balance (bank c) Polkadex get_pot_account + fees_amount f.
Proof.
  intros Hne Hf H. unfold settle_withdrawal_fees in H. cbn [for_each] in H. inv_run. rewrite Hf in *.
  match goal with H : bank_call _ _ = _ |- _ => apply bank_call_inv in H as (k & Ht & ->) end.
  destruct_units. destruct (transfer_preserve _ _ _ _ _ _ Ht Hne) as [Hp Hq].
  split; [|by split]. intros a. cbn. eapply transfer_frame; [exact Ht|]. by left.
Qed.
End administration.

(** ** Concrete pools *)
Module LiquidityExample.
Import RefDecimal RefCrypto RefAuthority RefBank RefOcex RefLm OcexExample.

Definition pool_market : TradingPair := {| base := Asset 1; quote := Asset 2 |}.
Definition rewards_account : AccountId := into_account_truncating LMPRewardsPalletId.

(** Account 4 runs the pool of account 5 and shares 77; the pool has been closed and
    holds 1000 of the base and 400 of the quote asset; account 1 owns all shares. *)
Definition closed_pool : MarketMakerConfig :=
  mkMarketMakerConfig (acct 5) (0, 0) (0, 0) true [] 77 true.
Definition pool_coins : coins := mkBank
  {[(Asset 1, acct 5) := 1000%N; (Asset 2, acct 5) := 400%N; (Asset 77, acct 1) := 50%N;
    (Polkadex, rewards_account) := 1000000000000000%N]}.
Definition epoch_config : LMPEpochConfig :=
  mkLMPEpochConfig (100, 0) (50, 0) ∅ 10 0.
Definition pool_chain : Chain :=
  mkChain 9 pool_coins
    ((ocex_genesis []) <| ExchangeState := true |> <| ExpectedLMPConfig := Some epoch_config |>
       <| LMPConfigs := {[1 := epoch_config]} |> <| LMPClaimBlk := {[1 := 5]} |>
       <| TotalScores := {[(1, pool_market) := ((10, 0), (4, 0))]} |>
       <| TraderMetrics := {[(1, pool_market, acct 1) := ((5, 0), (1, 0), false)]} |>)
    (lm_genesis <| Pools := {[(pool_market, acct 4) := closed_pool]} |>
       <| PoolIdIndex := {[acct 5 := (pool_market, acct 4)]} |>).

(** The currency pallet refused a transfer. *)
Definition bank_refused {B} (r : res DispatchError B) : bool :=
  match r with Err (BankErr _) => true | _ => false end.

(** The quote share of a closed pool is computed from its base balance.  Here a
    provider that owns every share of a pool with 1000 of the base and 400 of the
    quote asset cannot claim: 1000 of the quote asset would be due. *)
Theorem closed_pool_cannot_be_claimed :
  total_issuance (bank pool_chain) (Asset 77) = balance (bank pool_chain) (Asset 77) (acct 1)
  ∧ balance (bank pool_chain) (Asset 1) (acct 5) = 1000
  ∧ balance (bank pool_chain) (Asset 2) (acct 5) = 400
  ∧ bank_refused (claim_force_closed_pool_funds (Signed (acct 1)) pool_market (acct 4)
      pool_chain).1 = true.
Proof. split; [|split; [|split]]; vm_compute; reflexivity. Qed.

Lemma lmp_reward_bounded_witness :
  let '(mm, trading, is_claimed) :=
    calculate_lmp_rewards (ocex pool_chain) (acct 1) 1 pool_market epoch_config in
  0 ≤ units mm ≤ units (total_liquidity_mining_rewards epoch_config)
  ∧ 0 ≤ units trading ≤ units (total_trading_rewards epoch_config) ∧ is_claimed = false.
Proof.
  apply (lmp_reward_bounded (ocex pool_chain) (acct 1) 1 pool_market epoch_config
    (5, 0) (1, 0) false (10, 0) (4, 0)).
  - exact (lookup_singleton_eq (M := gmap (Z * TradingPair)) (1, pool_market) _).
  - exact (lookup_singleton_eq (M := gmap (Z * TradingPair * AccountId)) (1, pool_market, acct 1) _).
  - vm_compute. split; discriminate.
  - vm_compute. split; discriminate.
  - vm_compute. discriminate.
  - vm_compute. discriminate.
Defined.

Lemma start_new_epoch_advances_witness :
  ∃ c', start_new_epoch 9 pool_chain = (Ok tt, c') ∧ LMPEpoch (ocex c') = 1.
Proof.
  destruct (start_new_epoch_advances 9 pool_chain epoch_config) as (c' & H & He & _).
  - reflexivity.
  - vm_compute. split; [discriminate|reflexivity].
  - exists c'. split; [exact H|exact He].
Defined.

Lemma pools_frozen_witness :
  is_ok (add_liquidity (Signed (acct 1)) pool_market (acct 4) 1 1
    (pool_chain <| lm ::= λ l, l <| SnapshotFlag := Some 9 |> |>)).1 = false.
Proof. apply (pools_frozen (pool_chain <| lm ::= λ l, l <| SnapshotFlag := Some 9 |> |>) 9). reflexivity. Defined.

Lemma force_close_blocks_snapshots_witness :
  ∃ c', force_close_pool Root pool_market (acct 4) pool_chain = (Ok tt, c')
    ∧ ingress_at (ocex c') 9
      = ingress_at (ocex pool_chain) 9 ++ [ForceClosePool (default_pair_config (Asset 1) (Asset 2)) (acct 4)].
Proof.
  destruct (force_close_pool Root pool_market (acct 4) pool_chain) as [r c'] eqn:H.
  assert (is_ok (force_close_pool Root pool_market (acct 4) pool_chain).1 = true) as Hok
    by (vm_compute; reflexivity).
  rewrite H in Hok. destruct r as [[]| |]; [|discriminate Hok..].
  exists c'. split; [reflexivity|].
  apply (force_close_blocks_snapshots pool_market (acct 4) pool_chain c'); [exact H|].
  vm_compute. reflexivity.
Defined.

Lemma failed_removal_multiplies_shares_witness :
  ∃ f t c', ocex_remove_liquidity pool_market (acct 5) (acct 1) 25 50 pool_chain = (Ok tt, c')
    ∧ ∀ c2, lm_convert (saturating_mul t f) c2 = (Ok (25 * UNIT_BALANCE), c2).
Proof.
  destruct (failed_removal_multiplies_shares 25 50 (5 * 10 ^ 27) pool_market
    (acct 5) (acct 1) pool_chain) as (f & t & c' & H & _ & Hc).
  - lia.
  - lia.
  - reflexivity.
  - vm_compute. reflexivity.
  - exists f, t, c'. split; [exact H|exact Hc].
Defined.

(** A market that can be registered, and the same market after it was closed. *)
Definition allowed : Chain :=
  pool_chain <| ocex ::= λ o, o <| AllowlistedToken := {[Asset 1; Asset 2]} |> |>.
Definition closed_market : Chain :=
  pool_chain <| ocex ::= λ o, o <| TradingPairs :=
    {[(Asset 1, Asset 2) := set_operational (default_pair_config (Asset 1) (Asset 2)) false]} |> |>.

Lemma update_swaps_precisions_witness :
  ∃ c1 d1 reg upd, TradingPairs (ocex c1) !! (Asset 1, Asset 2) = Some reg
    ∧ TradingPairs (ocex d1) !! (Asset 1, Asset 2) = Some upd
    ∧ base_asset_precision upd = quote_asset_precision reg.
Proof.
  destruct (register_trading_pair Root (Asset 1) (Asset 2) (10 ^ 12) (10 ^ 15) (10 ^ 6) (10 ^ 10)
    allowed) as [r c1] eqn:H1.
  assert (is_ok (register_trading_pair Root (Asset 1) (Asset 2) (10 ^ 12) (10 ^ 15) (10 ^ 6)
    (10 ^ 10) allowed).1 = true) as Hok1 by (vm_compute; reflexivity).
  destruct (update_trading_pair Root (Asset 1) (Asset 2) (10 ^ 12) (10 ^ 15) (10 ^ 6) (10 ^ 10)
    closed_market) as [r2 d1] eqn:H2.
  assert (is_ok (update_trading_pair Root (Asset 1) (Asset 2) (10 ^ 12) (10 ^ 15) (10 ^ 6)
    (10 ^ 10) closed_market).1 = true) as Hok2 by (vm_compute; reflexivity).
  rewrite H1 in Hok1. rewrite H2 in Hok2.
  destruct r as [[]| |], r2 as [[]| |]; try discriminate Hok1; try discriminate Hok2.
  destruct (update_swaps_precisions Root Root (Asset 1) (Asset 2) (10 ^ 12) (10 ^ 15) (10 ^ 6)
    (10 ^ 10) allowed c1 closed_market d1 H1 H2) as (reg & upd & Hr & Hu & _ & _ & _ & Hp & _).
  exists c1, d1, reg, upd. split; [exact Hr|]. split; [exact Hu|exact Hp].
Defined.

Definition asset_fee : Fees := mkFees (Asset 1) (2, 0).

Lemma asset_fee_settled_in_native_witness :
  ∃ c', settle_withdrawal_fees [asset_fee] chain0 = (Ok tt, c')
    ∧ balance (bank c') (Asset 1) get_pallet_account = balance (bank chain0) (Asset 1) get_pallet_account.
Proof.
  destruct (settle_withdrawal_fees [asset_fee] chain0) as [r c'] eqn:H.
  assert (is_ok (settle_withdrawal_fees [asset_fee] chain0).1 = true) as Hok
    by (vm_compute; reflexivity).
  rewrite H in Hok. destruct r as [[]| |]; [|discriminate Hok..].
  exists c'. split; [reflexivity|].
  apply (asset_fee_settled_in_native asset_fee 1 chain0 c'); [|reflexivity|exact H].
  vm_compute. discriminate.
Defined.
End LiquidityExample.
