(* ===== verification/Runtime.v ===== *)
(** * The runtime as a state machine

    One step of the chain is a dispatchable of the OCEX or the liquidity-mining
    pallet, the start of a block, or a change of session.  The invariants of the
    registry, the markets and the bounded collections hold in every reachable
    state. *)

From S2P Require Import Prelude Decimal Assets Bank Types Orders Settlement Chain.
From S2P Require Import LmCallbacks Ocex OcexProps LiquidityMining.

Section invariants.
Context {D : Decimal} {DL : DecimalLaws} {C : Crypto} {A : Authority} {CU : Currencies}.
Context {P : Percents} {CFG : OcexConfig} {LCFG : LmConfig}.

(** Every account has between one and three distinct proxies, and the two registry
    maps mirror each other. *)
Definition accounts_inv (accounts : gmap AccountId AccountInfo) (proxies : gmap AccountId AccountId) :
    Prop :=
  (∀ main info, accounts !! main = Some info →
     ai_main_account info = main ∧ 1 ≤ Z.of_nat (length (ai_proxies info)) ≤ PROXY_LIMIT
     ∧ NoDup (ai_proxies info) ∧ ∀ p, p ∈ ai_proxies info → proxies !! p = Some main)
  ∧ ∀ p main, proxies !! p = Some main →
      ∃ info, accounts !! main = Some info ∧ p ∈ ai_proxies info.

(** A market is stored under its own assets, is not registered the other way
    round, and has consistent limits. *)
Definition markets_inv (pairs : gmap (AssetId * AssetId) TradingPairConfig) : Prop :=
  ∀ b q cfg, pairs !! (b, q) = Some cfg →
    b ≠ q ∧ base_asset cfg = b ∧ quote_asset cfg = q ∧ pairs !! (q, b) = None
    ∧ 0 < units (min_volume cfg) < units (max_volume cfg)
    ∧ 0 < units (price_tick_size cfg) ∧ 0 < units (qty_step_size cfg).

(** Queues and the allowlist respect their bounds. *)
Definition bounds_inv (queue : gmap Z (list IngressMessages)) (tokens : gset AssetId) : Prop :=
  (∀ blk q, queue !! blk = Some q → Z.of_nat (length q) ≤ OBIngressLimit)
  ∧ Z.of_nat (size tokens) ≤ ALLOWLISTED_TOKEN_LIMIT.

(** A pool account belongs to one pool, and is a registered main account. *)
Definition pools_inv (pools : gmap (TradingPair * AccountId) MarketMakerConfig)
    (index : gmap AccountId (TradingPair * AccountId)) (accounts : gmap AccountId AccountInfo) : Prop :=
  (∀ k cfg, pools !! k = Some cfg → index !! pool_id cfg = Some k)
  ∧ ∀ p k, index !! p = Some k →
      is_Some (accounts !! p) ∧ ∃ cfg, pools !! k = Some cfg ∧ pool_id cfg = p.

(** Once the programme runs, every epoch up to the current one has a configuration,
    and so has the epoch whose scores are expected. *)
Definition epochs_inv (epoch : Z) (configs : gmap Z LMPEpochConfig) (finalizing : option Z) : Prop :=
  0 ≤ epoch ≤ u16_max
  ∧ (0 < epoch → ∀ e, 0 ≤ e ≤ epoch → is_Some (configs !! e))
  ∧ ∀ e, finalizing = Some e → 0 ≤ e ≤ epoch ∧ 0 < epoch.

Definition chain_inv (c : Chain) : Prop :=
  accounts_inv (Accounts (ocex c)) (Proxies (ocex c))
  ∧ markets_inv (TradingPairs (ocex c))
  ∧ bounds_inv (IngressQueue (ocex c)) (AllowlistedToken (ocex c))
  ∧ pools_inv (Pools (lm c)) (PoolIdIndex (lm c)) (Accounts (ocex c))
  ∧ epochs_inv (LMPEpoch (ocex c)) (LMPConfigs (ocex c)) (FinalizeLMPScore (ocex c)).

(** Splits [chain_inv] of an updated state; the untouched parts are closed by
    conversion. *)
Ltac inv_parts := split; [try done|split; [try done|split; [try done|split; try done]]].

(** ** The registry *)
Lemma accounts_inv_register accounts proxies main proxy :
  accounts_inv accounts proxies → accounts !! main = None → proxies !! proxy = None →
  accounts_inv (<[main := new_user main proxy]> accounts) (<[proxy := main]> proxies).
Proof.
  intros [Ha Hp] Hm Hx. split.
  - intros m info. destruct (decide (m = main)) as [->|Hne].
    + rewrite lookup_insert_eq. intros [= <-]. cbn. unfold PROXY_LIMIT.
      split_and!; try done; [apply NoDup_singleton|].
      intros p ->%list_elem_of_singleton. apply lookup_insert_eq.
    + rewrite lookup_insert_ne by done. intros Hi.
      destruct (Ha m info Hi) as (? & ? & ? & Hps). split_and!; try done; try lia.
      intros p Hin. rewrite lookup_insert_ne; [by apply Hps|].
      intros <-. by rewrite (Hps _ Hin) in Hx.
  - intros p m. destruct (decide (p = proxy)) as [->|Hne].
    + rewrite lookup_insert_eq. intros [= <-]. exists (new_user main proxy).
      split; [apply lookup_insert_eq|]. by left.
    + rewrite lookup_insert_ne by done. intros Hi. destruct (Hp p m Hi) as (info & Hacc & Hin).
      exists info. split; [|done]. rewrite lookup_insert_ne; [done|]. congruence.
Qed.

Lemma accounts_inv_add accounts proxies main proxy info info' :
  accounts_inv accounts proxies → accounts !! main = Some info → proxies !! proxy = None →
  add_proxy info proxy = Some info' →
  accounts_inv (<[main := info']> accounts) (<[proxy := main]> proxies).
Proof.
  intros [Ha Hp] Hm Hx Hadd. destruct (Ha main info Hm) as (Hmain & Hlen & Hnd & Hps).
  unfold add_proxy, try_push in Hadd.
  destruct (Z.ltb_spec (Z.of_nat (length (ai_proxies info))) PROXY_LIMIT) as [Hlt|]; [|done].
  injection Hadd as <-. split.
  - intros m i. destruct (decide (m = main)) as [->|Hne].
    + rewrite lookup_insert_eq. intros [= <-]. cbn. rewrite length_app. cbn.
      split_and!; try done; try lia.
      * apply NoDup_app. split_and!; [done| |apply NoDup_singleton].
        intros p Hin ->%list_elem_of_singleton. by rewrite (Hps _ Hin) in Hx.
      * intros p [Hin| ->%list_elem_of_singleton]%elem_of_app; [|apply lookup_insert_eq].
        rewrite lookup_insert_ne; [by apply Hps|]. intros <-. by rewrite (Hps _ Hin) in Hx.
    + rewrite lookup_insert_ne by done. intros Hi.
      destruct (Ha m i Hi) as (? & ? & ? & Hps'). split_and!; try done; try lia.
      intros p Hin. rewrite lookup_insert_ne; [by apply Hps'|].
      intros <-. by rewrite (Hps' _ Hin) in Hx.
  - intros p m. destruct (decide (p = proxy)) as [->|Hne].
    + rewrite lookup_insert_eq. intros [= <-]. eexists. split; [apply lookup_insert_eq|].
      cbn. apply elem_of_app. right. by left.
    + rewrite lookup_insert_ne by done. intros Hi. destruct (Hp p m Hi) as (i & Hacc & Hin).
      destruct (decide (m = main)) as [->|Hm'].
      * eexists. split; [apply lookup_insert_eq|]. cbn. apply elem_of_app. left. congruence.
      * exists i. by rewrite lookup_insert_ne.
Qed.

Lemma accounts_inv_remove accounts proxies main proxy info i :
  accounts_inv accounts proxies → accounts !! main = Some info →
  (1 < length (ai_proxies info))%nat → ai_proxies info !! i = Some proxy →
  accounts_inv
    (<[main := (mkAccountInfo (ai_main_account info) (delete i (ai_proxies info))
         (ai_balances info) (ai_fee_config info))]> accounts)
    (delete proxy proxies).
Proof.
  intros [Ha Hp] Hm Hlen Hi. destruct (Ha main info Hm) as (Hmain & Hl & Hnd & Hps).
  pose proof (delete_Permutation _ _ _ Hi) as Hperm.
  assert ((proxy ∉ delete i (ai_proxies info)) ∧ NoDup (delete i (ai_proxies info))) as [Hnin Hnd'].
  { by apply NoDup_cons; rewrite <- Hperm. }
  assert (∀ p, p ∈ delete i (ai_proxies info) → p ∈ ai_proxies info ∧ p ≠ proxy) as Hsub.
  { intros p Hin. split; [rewrite Hperm; by right|congruence]. }
  split.
  - intros m j. destruct (decide (m = main)) as [->|Hne].
    + rewrite lookup_insert_eq. intros [= <-]. cbn.
      apply Permutation_length in Hperm. cbn in Hperm. split_and!; try done; try lia.
      intros p [Hin Hne]%Hsub. rewrite lookup_delete_ne by done. by apply Hps.
    + rewrite lookup_insert_ne by done. intros Hj.
      destruct (Ha m j Hj) as (? & ? & ? & Hps'). split_and!; try done; try lia.
      intros p Hin. rewrite lookup_delete_ne; [by apply Hps'|].
      intros <-. assert (proxy ∈ ai_proxies info) as Hin' by by apply list_elem_of_lookup_2 in Hi.
      specialize (Hps _ Hin'). specialize (Hps' _ Hin). congruence.
  - intros p m [Hne Hpm]%lookup_delete_Some. destruct (Hp p m Hpm) as (j & Hacc & Hin).
    destruct (decide (m = main)) as [->|Hm'].
    + eexists. split; [apply lookup_insert_eq|]. cbn. rewrite Hm in Hacc. injection Hacc as <-.
      rewrite Hperm in Hin. by apply elem_of_cons in Hin as [->|].
    + exists j. by rewrite lookup_insert_ne.
Qed.

(** ** Markets *)
Definition limits_ok (cfg : TradingPairConfig) : Prop :=
  0 < units (min_volume cfg) < units (max_volume cfg)
  ∧ 0 < units (price_tick_size cfg) ∧ 0 < units (qty_step_size cfg).

(** Validated limits convert exactly. *)
Lemma validated_bounds mi ma t st c u c1 :
  validate_trading_pair_config mi ma t st c = (Ok u, c1) →
  c1 = c ∧ 0 < mi ≤ DEPOSIT_MAX ∧ mi < ma ≤ DEPOSIT_MAX ∧ 0 < t ≤ DEPOSIT_MAX ∧ 0 < st ≤ DEPOSIT_MAX.
Proof.
  intros Hv. unfold validate_trading_pair_config, require in Hv. inv_run.
  repeat match goal with
  | H : (_ && _) = true |- _ => apply andb_true_iff in H as [? ?]
  | H : (_ <? _) = true |- _ => apply Z.ltb_lt in H
  | H : (_ <=? _) = true |- _ => apply Z.leb_le in H
  end.
  split_and!; solve [assumption | reflexivity | lia].
Qed.

Lemma converted_config mi ma t st c1 mi' ma' t' st' c2 :
  0 ≤ mi < 2^96 → 0 ≤ ma < 2^96 → 0 ≤ t < 2^96 → 0 ≤ st < 2^96 →
  convert_config mi ma t st c1 = (Ok (mi', ma', t', st'), c2) →
  c2 = c1 ∧ units mi' = mi * GRAIN ∧ units ma' = ma * GRAIN
  ∧ units t' = t * GRAIN ∧ units st' = st * GRAIN.
Proof.
  intros H1 H2 H3 H4 Hc.
  unfold convert_config in Hc.
  destruct (raw_to_dec_exact mi H1) as (d1 & E1 & U1).
  destruct (raw_to_dec_exact ma H2) as (d2 & E2 & U2).
  destruct (raw_to_dec_exact t H3) as (d3 & E3 & U3).
  destruct (raw_to_dec_exact st H4) as (d4 & E4 & U4).
  rewrite E1, E2, E3, E4 in Hc. injection Hc as <- <- <- <- <-.
  split_and!; solve [assumption | reflexivity ].
Qed.

Lemma validated_config mi ma t st c u c1 mi' ma' t' st' c2 :
  validate_trading_pair_config mi ma t st c = (Ok u, c1) →
  convert_config mi ma t st c1 = (Ok (mi', ma', t', st'), c2) →
  c1 = c ∧ c2 = c
  ∧ 0 < units mi' < units ma' ∧ 0 < units t' ∧ 0 < units st'.
Proof.
  intros (-> & Hmi & Hma & Ht & Hst)%validated_bounds Hc.
  assert (DEPOSIT_MAX < 2 ^ 96) as Hmax by by vm_compute.
  apply converted_config in Hc as (-> & -> & -> & -> & ->); [|lia..].
  unfold GRAIN. split_and!; try done; lia.
Qed.

Lemma markets_inv_insert pairs b q cfg :
  markets_inv pairs → b ≠ q → base_asset cfg = b → quote_asset cfg = q →
  pairs !! (q, b) = None → limits_ok cfg →
  markets_inv (<[(b, q) := cfg]> pairs).
Proof.
  intros Hinv Hbq Hb Hq Hinverse Hl b' q' cfg'.
  destruct (decide ((b', q') = (b, q))) as [[= -> ->]|Hne].
  - rewrite lookup_insert_eq. intros [= <-].
    rewrite lookup_insert_ne by congruence. by split_and!; try apply Hl.
  - rewrite lookup_insert_ne by congruence. intros Hl'.
    destruct (Hinv b' q' cfg' Hl') as (? & ? & ? & Hn & ? & ? & ?).
    split_and!; try done; try lia. rewrite lookup_insert_ne; [done|].
    intros [= -> ->]. congruence.
Qed.

(** Updating a registered market in place keeps the inverse unregistered. *)
Lemma markets_inv_update pairs b q cfg cfg' :
  markets_inv pairs → pairs !! (b, q) = Some cfg →
  base_asset cfg' = b → quote_asset cfg' = q → limits_ok cfg' →
  markets_inv (<[(b, q) := cfg']> pairs).
Proof.
  intros Hinv Hp. destruct (Hinv b q cfg Hp) as (? & ? & ? & ? & ?).
  intros. by apply markets_inv_insert.
Qed.

(** ** Pools *)
Lemma pools_inv_accounts pools index accounts main info :
  pools_inv pools index accounts → pools_inv pools index (<[main := info]> accounts).
Proof.
  intros [H1 H2]. split; [done|]. intros p k Hp. destruct (H2 p k Hp) as [Ha Hc].
  split; [|done]. by apply lookup_insert_is_Some'; right.
Qed.

(** The account of a new pool is fresh, because it could be registered. *)
Lemma pools_inv_register pools index accounts k cfg info :
  pools_inv pools index accounts → pools !! k = None → accounts !! pool_id cfg = None →
  pools_inv (<[k := cfg]> pools) (<[pool_id cfg := k]> index) (<[pool_id cfg := info]> accounts).
Proof.
  intros [H1 H2] Hk Hfresh. split.
  - intros k' cfg'. destruct (decide (k' = k)) as [->|Hne].
    + rewrite lookup_insert_eq. intros [= <-]. apply lookup_insert_eq.
    + rewrite lookup_insert_ne by done. intros Hl%H1. rewrite lookup_insert_ne; [done|].
      intros Heq. destruct (H2 _ _ Hl) as [[i Hi] _]. rewrite <- Heq in Hi. congruence.
  - intros p k'. destruct (decide (p = pool_id cfg)) as [->|Hne].
    + rewrite lookup_insert_eq. intros [= <-]. rewrite lookup_insert_eq.
      split; [done|]. exists cfg. by rewrite lookup_insert_eq.
    + rewrite lookup_insert_ne by done. intros Hi. destruct (H2 p k' Hi) as (Ha & c & Hc & <-).
      rewrite lookup_insert_ne by done. split; [done|]. exists c.
      rewrite lookup_insert_ne; [done|]. intros <-. congruence.
Qed.

(** A pool keeps its account when its configuration is rewritten. *)
Lemma pools_inv_update pools index accounts k cfg cfg' :
  pools_inv pools index accounts → pools !! k = Some cfg → pool_id cfg' = pool_id cfg →
  pools_inv (<[k := cfg']> pools) index accounts.
Proof.
  intros [H1 H2] Hk Hid. split.
  - intros k' c. destruct (decide (k' = k)) as [->|Hne].
    + rewrite lookup_insert_eq. intros [= <-]. rewrite Hid. by apply H1.
    + rewrite lookup_insert_ne by done. apply H1.
  - intros p k' Hi. destruct (H2 p k' Hi) as (Ha & c & Hc & <-). split; [done|].
    destruct (decide (k' = k)) as [->|Hne].
    + exists cfg'. rewrite lookup_insert_eq. split; [done|]. congruence.
    + exists c. by rewrite lookup_insert_ne.
Qed.

(** ** Epochs *)
Lemma epochs_inv_start epoch configs finalizing config :
  epochs_inv epoch configs finalizing →
  epochs_inv (sat_add 16 epoch 1)
    (<[sat_add 16 epoch 1 := config]>
      (if (epoch =? 0) && bool_decide (configs !! epoch = None)
       then <[epoch := config]> configs else configs))
    (if bool_decide (finalizing = None) then Some epoch else finalizing).
Proof.
  intros (He & Hc & Hf). unfold epochs_inv, sat_add. fold u16_max. unfold u16_max, umax in *.
  split; [lia|]. split.
  - intros _ e Hle. apply lookup_insert_is_Some'.
    destruct (decide (e = Z.min (epoch + 1) (2 ^ 16 - 1))) as [->|Hne]; [by left|right].
    destruct (decide (epoch = 0)) as [->|H0].
    + assert (e = 0) as -> by lia. cbn [Z.eqb andb].
      case_bool_decide as Hd; [by rewrite lookup_insert_eq|]. by apply not_eq_None_Some.
    + replace (epoch =? 0) with false by lia. apply Hc; lia.
  - intros e. case_bool_decide; [intros [= <-]; lia|]. intros Hs. specialize (Hf e Hs). lia.
Qed.

(** ** Queues *)
Lemma bounds_inv_push queue tokens blk q :
  bounds_inv queue tokens → Z.of_nat (length q) ≤ OBIngressLimit →
  bounds_inv (<[blk := q]> queue) tokens.
Proof.
  intros [Hq Ht] Hlen. split; [|done]. intros b q' [[<- <-]|[_ ?]]%lookup_insert_Some; [done|].
  by eapply Hq.
Qed.

(** One more message fits in a queue below its limit. *)
Lemma bounds_inv_snoc queue tokens blk q m :
  bounds_inv queue tokens → Z.of_nat (length q) < OBIngressLimit →
  bounds_inv (<[blk := q ++ [m]]> queue) tokens.
Proof. intros. apply bounds_inv_push; [done|]. rewrite length_app. cbn. lia. Qed.

(** ** Preservation by the functions of the pallets *)
Lemma bank_call_keeps {B} (m : M Bank BankError B) : preserves chain_inv (bank_call m).
Proof. intros c Hc. unfold bank_call. by destruct (m (bank c)) as [[]]. Qed.

Lemma push_ingress_keeps m : keeps chain_inv (push_ingress m).
Proof.
  intros c u c' (Ha & Hm & Hb & Hp & He) [Hlt ->]%push_ingress_inv.
  inv_parts. by apply bounds_inv_snoc.
Qed.

Lemma register_user_keeps main proxy : keeps chain_inv (register_user main proxy).
Proof.
  intros c u c' (Ha & Hm & Hb & Hp & He) (_ & Hacc & Hpr & Hlt & ->)%register_user_inv.
  inv_parts; [by apply accounts_inv_register|by apply bounds_inv_snoc|by apply pools_inv_accounts].
Qed.

#[local] Hint Resolve push_ingress_keeps register_user_keeps : keeps.
#[local] Hint Extern 1 (keeps _ (bank_call _)) => apply preserves_keeps, bank_call_keeps : keeps.
Lemma transfer_asset_keeps p q n x : keeps chain_inv (transfer_asset p q n x).
Proof. unfold transfer_asset. ocex_keeps. Qed.
#[local] Hint Resolve transfer_asset_keeps : keeps.

(** The queue update of [push_ingress] commutes with the other updates. *)
Lemma push_ingress_bounds m c u c' :
  chain_inv c → push_ingress m c = (Ok u, c') →
  bounds_inv (IngressQueue (ocex c')) (AllowlistedToken (ocex c')).
Proof. intros Hc Hp. by apply (push_ingress_keeps m c u c'). Qed.

Lemma add_proxy_account_keeps origin proxy : keeps chain_inv (add_proxy_account origin proxy).
Proof.
  intros c u c' Hc H. pose proof Hc as (Ha & Hm & _ & Hp & He).
  unfold add_proxy_account, ensure_signed, get_ocex, upd_ocex, require in H.
  destruct origin as [|who|]; inv_run.
  repeat match goal with H : bool_decide _ = true |- _ => apply bool_decide_eq_true in H end.
  unfold id in *. destruct (Accounts (ocex c) !! who) as [info|] eqn:Hacc; inv_run; [|done].
  match goal with H : push_ingress _ _ = _ |- _ =>
    pose proof (push_ingress_bounds _ _ _ _ Hc H); apply push_ingress_inv in H as [_ ->] end.
  inv_parts; [by eapply accounts_inv_add|by apply pools_inv_accounts].
Qed.

Lemma remove_proxy_account_keeps origin proxy : keeps chain_inv (remove_proxy_account origin proxy).
Proof.
  intros c u c' Hc H. pose proof Hc as (Ha & Hm & _ & Hp & He).
  unfold remove_proxy_account, ensure_signed, get_ocex, upd_ocex, require in H.
  destruct origin as [|who|]; inv_run. unfold id in *.
  destruct (Accounts (ocex c) !! who) as [info|] eqn:Hacc; inv_run; [|done].
  destruct a as [i p]. inv_run.
  match goal with H : list_find _ _ = Some _ |- _ => apply list_find_Some in H as (Hi & -> & _) end.
  match goal with H : push_ingress _ _ = _ |- _ =>
    pose proof (push_ingress_bounds _ _ _ _ Hc H); apply push_ingress_inv in H as [_ ->] end.
  inv_parts; [|by apply pools_inv_accounts]. apply accounts_inv_remove; try done. lia.
Qed.

(** Closing or opening a pair rewrites its configuration with another status. *)
Lemma market_update_keeps b q cfg cfg' m c u c' :
  chain_inv c → TradingPairs (ocex c) !! (b, q) = Some cfg →
  base_asset cfg' = b → quote_asset cfg' = q → limits_ok cfg' →
  push_ingress m (c <| ocex ::= λ o, o <| TradingPairs ::= <[(b, q) := cfg']> |> |>) = (Ok u, c') →
  chain_inv c'.
Proof.
  intros (Ha & Hm & Hb & Hp & He) Hl ?? Hlim Hpush. eapply push_ingress_keeps; [|exact Hpush].
  inv_parts. cbn. by eapply markets_inv_update.
Qed.

Lemma set_operational_keeps b q v m c u c' cfg :
  chain_inv c → TradingPairs (ocex c) !! (b, q) = Some cfg →
  push_ingress m (c <| ocex ::= λ o,
    o <| TradingPairs ::= <[(b, q) := set_operational cfg v]> |> |>) = (Ok u, c') →
  chain_inv c'.
Proof.
  intros Hc Hl. pose proof Hc as (_ & Hm & _). pose proof (Hm b q cfg Hl) as (? & ? & ? & ? & ?).
  by eapply market_update_keeps.
Qed.

Lemma close_trading_pair_keeps origin b q : keeps chain_inv (close_trading_pair origin b q).
Proof.
  intros c u c' Hc H.
  unfold close_trading_pair, ensure_governance, get_ocex, upd_ocex, require in H. inv_run.
  by eapply set_operational_keeps.
Qed.

Lemma open_trading_pair_keeps origin b q : keeps chain_inv (open_trading_pair origin b q).
Proof.
  intros c u c' Hc H.
  unfold open_trading_pair, ensure_governance, get_ocex, upd_ocex, require in H. inv_run.
  by eapply set_operational_keeps.
Qed.

Lemma register_trading_pair_keeps origin b q mi ma t st :
  keeps chain_inv (register_trading_pair origin b q mi ma t st).
Proof.
  intros c u c' Hc H.
  unfold register_trading_pair, ensure_governance, get_ocex, upd_ocex, require in H. inv_run.
  destruct a0 as [[[mi' ma'] t'] st']. inv_run.
  repeat match goal with H : bool_decide _ = true |- _ => apply bool_decide_eq_true in H end.
  match goal with
  | Hv : validate_trading_pair_config _ _ _ _ _ = _, Hx : convert_config _ _ _ _ _ = _ |- _ =>
      destruct (validated_config _ _ _ _ _ _ _ _ _ _ _ _ Hv Hx) as (-> & -> & ? & ? & ?)
  end.
  destruct Hc as (Ha & Hmk & Hb & Hp & He). eapply push_ingress_keeps; [|eassumption].
  inv_parts. by apply markets_inv_insert.
Qed.

Lemma update_trading_pair_keeps origin b q mi ma t st :
  keeps chain_inv (update_trading_pair origin b q mi ma t st).
Proof.
  intros c u c' Hc H.
  unfold update_trading_pair, ensure_governance, get_ocex, upd_ocex, require in H. inv_run.
  destruct a0 as [[[mi' ma'] t'] st']. inv_run.
  repeat match goal with H : bool_decide _ = true |- _ => apply bool_decide_eq_true in H end.
  match goal with
  | Hv : validate_trading_pair_config _ _ _ _ _ = _, Hx : convert_config _ _ _ _ _ = _ |- _ =>
      destruct (validated_config _ _ _ _ _ _ _ _ _ _ _ _ Hv Hx) as (-> & -> & ? & ? & ?)
  end.
  match goal with H : is_Some _ |- _ => destruct H as [cfg Hcfg] end.
  eapply market_update_keeps; [exact Hc|exact Hcfg| | | |exact Hk]; by split_and?.
Qed.
#[local] Hint Resolve add_proxy_account_keeps remove_proxy_account_keeps close_trading_pair_keeps
  open_trading_pair_keeps register_trading_pair_keeps update_trading_pair_keeps : keeps.

(** *** Deposits and withdrawals *)
Lemma new_random_id_keeps prefix : keeps chain_inv (new_random_id prefix).
Proof. unfold new_random_id. ocex_keeps. Qed.
#[local] Hint Resolve new_random_id_keeps : keeps.

Lemma do_deposit_keeps i user asset n : keeps chain_inv (do_deposit i user asset n).
Proof. unfold do_deposit. ocex_keeps. Qed.
#[local] Hint Resolve do_deposit_keeps : keeps.

Lemma try_call_keeps {B} (m : Call B) : preserves chain_inv m → keeps chain_inv (try_call m).
Proof.
  intros Hm c b c' Hc. specialize (Hm c Hc). unfold try_call.
  by destruct (m c) as [[]]; intros [= <- <-].
Qed.

(** The cross-chain gadget works on its own storage and on balances. *)
Context (Hgadget : ∀ who a n dest fa fn i c,
  ocex (parachain_withdraw who a n dest fa fn i c).2 = ocex c
  ∧ lm (parachain_withdraw who a n dest fa fn i c).2 = lm c).

Lemma parachain_withdraw_keeps who a n dest fa fn i :
  keeps chain_inv (parachain_withdraw who a n dest fa fn i).
Proof.
  apply preserves_keeps. intros c Hc. unfold chain_inv.
  by destruct (Hgadget who a n dest fa fn i c) as [-> ->].
Qed.
#[local] Hint Resolve parachain_withdraw_keeps : keeps.

Lemma withdraw_each_keeps ws failed processed : keeps chain_inv (withdraw_each ws failed processed).
Proof.
  revert failed processed. induction ws as [|w ws IH]; intros; cbn [withdraw_each]; [ocex_keeps|].
  apply keeps_bind; [|intros []; apply IH].
  apply try_call_keeps, keeps_transactional. ocex_keeps.
Qed.

Lemma pay_withdrawals_keeps l f : keeps chain_inv (pay_withdrawals l f).
Proof.
  revert f. induction l as [|[a ws] l IH]; intros; cbn [pay_withdrawals]; [ocex_keeps|].
  apply keeps_bind; [apply withdraw_each_keeps|]. intros []. apply IH.
Qed.
#[local] Hint Resolve withdraw_each_keeps pay_withdrawals_keeps : keeps.

Lemma claim_withdraw_keeps origin i a : keeps chain_inv (claim_withdraw origin i a).
Proof. unfold claim_withdraw, do_withdraw. ocex_keeps. Qed.

(** *** Scores, rewards, epochs *)
(** The invariant, in an epoch that does not change. *)
Definition inv_in_epoch (epoch : Z) (c : Chain) : Prop :=
  chain_inv c ∧ LMPEpoch (ocex c) = epoch.

Lemma record_scores_keeps E e p l n : keeps (inv_in_epoch E) (record_scores e p l n).
Proof.
  revert n. induction l as [|[main [s f]] l IH]; intros; cbn [record_scores]; ocex_keeps.
Qed.
#[local] Hint Resolve record_scores_keeps : keeps.

Lemma epochs_inv_finalizing epoch configs f f' :
  epochs_inv epoch configs f → (∀ e, f' = Some e → 0 ≤ e < epoch) → epochs_inv epoch configs f'.
Proof.
  intros (? & ? & _) Hf. split_and!; try done; try lia. intros e He%Hf. lia.
Qed.

Lemma inv_in_epoch_finalizing E f c :
  inv_in_epoch E c → (∀ e, f = Some e → 0 ≤ e < E) →
  inv_in_epoch E (c <| ocex ::= λ o, o <| FinalizeLMPScore := f |> |>).
Proof.
  intros [(Ha & Hm & Hb & Hp & He) <-] Hf. split; [|done]. inv_parts.
  by eapply epochs_inv_finalizing.
Qed.

Lemma update_lmp_scores_keeps m : keeps chain_inv (update_lmp_scores m).
Proof.
  intros c u c' Hc H. unfold update_lmp_scores, get_ocex in H. inv_step H. inv_prim. unfold id in Hk.
  destruct (FinalizeLMPScore (ocex c)) as [fin|] eqn:Hfin; [|by inv_run].
  assert (0 ≤ fin) as Hpos.
  { destruct Hc as (_ & _ & _ & _ & _ & _ & Hf). apply Hf in Hfin. lia. }
  cut (inv_in_epoch (LMPEpoch (ocex c)) c'); [by intros []|].
  eapply keeps_elim; [|by split; [exact Hc|]|exact Hk]. clear Hk Hfin Hc.
  autounfold with ocex. keeps_auto.
  - intros s Hs. apply (inv_in_epoch_finalizing _ None); [done|]. by intros e [=].
  - intros s Hs. apply (inv_in_epoch_finalizing _ (Some _)); [done|].
    intros e [= <-]. unfold sat_add in *.
    assert (0 ≤ umax 16) by done. lia.
Qed.

Lemma do_claim_lmp_rewards_keeps main e m : keeps chain_inv (do_claim_lmp_rewards main e m).
Proof. unfold do_claim_lmp_rewards. ocex_keeps. Qed.

Lemma set_lmp_epoch_config_keeps o r1 r2 ms ma sf :
  keeps chain_inv (set_lmp_epoch_config o r1 r2 ms ma sf).
Proof. unfold set_lmp_epoch_config, add_market_config. ocex_keeps. Qed.

(** *** Egress messages and snapshots *)
Lemma lm_transfer_asset_keeps p q n x : keeps chain_inv (lm_transfer_asset p q n x).
Proof. unfold lm_transfer_asset. ocex_keeps. Qed.
#[local] Hint Resolve update_lmp_scores_keeps do_claim_lmp_rewards_keeps lm_transfer_asset_keeps
  : keeps.

Lemma pools_update_keeps k cfg cfg' c :
  chain_inv c → Pools (lm c) !! k = Some cfg → pool_id cfg' = pool_id cfg →
  chain_inv (c <| lm ::= λ l, l <| Pools ::= <[k := cfg']> |> |>).
Proof.
  intros (Ha & Hm & Hb & Hp & He) Hl Hid. inv_parts. by eapply pools_inv_update.
Qed.

Lemma pool_force_close_success_keeps m p b q : keeps chain_inv (pool_force_close_success m p b q).
Proof.
  intros c u c' Hc H. unfold pool_force_close_success, resolve_pool, lm_convert, get_lm, upd_lm in H.
  inv_run. destruct a as [mm cfg]. inv_run. destruct a0 as [k mm']. inv_run. simplify_eq.
  by eapply pools_update_keeps.
Qed.
#[local] Hint Resolve pool_force_close_success_keeps : keeps.

Lemma process_one_egress_keeps m : keeps chain_inv (process_one_egress m).
Proof.
  unfold process_one_egress, distribute_fee, release_to_pool, add_liquidity_success,
    remove_liquidity_success, remove_liquidity_failed, resolve_pool.
  ocex_keeps.
Qed.
#[local] Hint Resolve process_one_egress_keeps : keeps.

Lemma bounds_inv_filter (P' : Z * list IngressMessages → Prop) `{∀ x, Decision (P' x)} queue tokens :
  bounds_inv queue tokens → bounds_inv (filter P' queue) tokens.
Proof. intros [Hq Ht]. split; [|done]. intros b q [? _]%map_lookup_filter_Some. by eapply Hq. Qed.

Lemma submit_snapshot_keeps origin s : keeps chain_inv (submit_snapshot origin s).
Proof.
  unfold submit_snapshot, process_egress_msg, settle_withdrawal_fees. ocex_keeps.
  intros c (? & ? & ? & ? & ?). inv_parts. by apply bounds_inv_filter.
Qed.

(** *** Hooks

    A hook that fails keeps what it has written, so the hooks must preserve the
    invariant on the failing runs as well. *)
Lemma push_ingress_preserves m : preserves chain_inv (push_ingress m).
Proof.
  intros c Hc. unfold push_ingress, current_block, get_ocex, upd_ocex. mrun.
  pose proof (push_ingress_keeps m c tt) as Hk. unfold push_ingress, current_block, get_ocex,
    upd_ocex in Hk. mrun_in Hk.
  destruct (try_push _ _ _); cbn; [by eapply Hk|done].
Qed.

(** The auctions change balances and two items of their own. *)
Section auctions.
Context (I : Chain → Prop).
Context (Hbank : ∀ c k, I c → I (c <| bank := k |>)).
Context (Hnext : ∀ c n, I c → I (c <| ocex ::= λ o, o <| AuctionBlockNumber := n |> |>)).
Context (Hauction : ∀ c i, I c → I (c <| ocex ::= λ o, o <| Auction := i |> |>)).

Lemma bank_call_preserves {B} (m : M Bank BankError B) : preserves I (bank_call m).
Proof. intros c Hc. unfold bank_call. destruct (m (bank c)) as [[]]; by apply Hbank. Qed.

Lemma bank_call_as_preserves e m : preserves I (bank_call_as e m).
Proof.
  intros c Hc. unfold bank_call_as, map_err. pose proof (bank_call_preserves m c Hc) as H.
  by destruct (bank_call m c) as [[]].
Qed.

Lemma close_auction_preserves : preserves I close_auction.
Proof.
  unfold close_auction, get_ocex. repeat (apply preserves_bind; [auto with inv|intros]).
  destruct (highest_bidder _); [|auto with inv].
  apply preserves_bind; [auto with inv|intros]. apply preserves_bind.
  { apply preserves_for_each. intros [] _. apply bank_call_preserves. }
  intros _. apply preserves_bind; [apply preserves_modify; intros; by apply Hbank|intros _].
  apply preserves_bind; [apply bank_call_preserves|intros _]. apply bank_call_as_preserves.
Qed.

Lemma create_auction_preserves : preserves I create_auction.
Proof.
  unfold create_auction, upd_ocex. repeat (apply preserves_bind; [|intros]);
    auto with inv; apply preserves_modify; intros; [by apply Hnext|by apply Hauction].
Qed.
End auctions.

Lemma announce_epoch_keeps n e cfg : keeps chain_inv (announce_epoch n e cfg).
Proof.
  intros c u c' (Ha & Hm & Hb & Hp & He) H. unfold announce_epoch, get_ocex, upd_ocex in H. inv_run.
  unfold try_push in *.
  destruct (Z.ltb_spec (Z.of_nat (length (ingress_at (ocex c) n))) OBIngressLimit); inv_run; [|done].
  destruct (Z.ltb_spec (Z.of_nat (length (ingress_at (ocex c) n ++ [NewLMPEpoch e])))
    OBIngressLimit) as [Hlt|]; inv_run; [|done].
  inv_parts. by apply bounds_inv_snoc.
Qed.
#[local] Hint Resolve announce_epoch_keeps : keeps.

Lemma start_new_epoch_keeps n : keeps chain_inv (start_new_epoch n).
Proof.
  intros c u c' (Ha & Hm & Hb & Hp & He) H.
  unfold start_new_epoch, new_epoch, get_ocex, upd_ocex, upd_lm, current_block in H.
  inv_step H. inv_prim. unfold id in *.
  destruct (ExpectedLMPConfig (ocex c)) as [config|]; [|inv_run; by inv_parts].
  pose proof (epochs_inv_start _ _ _ config He) as Hs.
  destruct (_ && _); destruct (bool_decide (FinalizeLMPScore _ = None)); inv_run;
    (eapply announce_epoch_keeps; [|eassumption]; by inv_parts).
Qed.
#[local] Hint Resolve start_new_epoch_keeps : keeps.

Lemma swallow_keeps (m : Call unit) : preserves chain_inv m → keeps chain_inv (swallow m).
Proof. intros. by apply preserves_keeps, preserves_swallow. Qed.
#[local] Hint Resolve swallow_keeps push_ingress_preserves : keeps.
#[local] Hint Extern 1 (keeps _ (swallow close_auction)) =>
  apply preserves_keeps, preserves_swallow, close_auction_preserves; intros; done : keeps.
#[local] Hint Extern 1 (keeps _ (swallow create_auction)) =>
  apply preserves_keeps, preserves_swallow, create_auction_preserves; intros; done : keeps.

Lemma on_initialize_keeps n : keeps chain_inv (on_initialize n).
Proof.
  unfold on_initialize, stop_accepting_lmp_withdrawals, lm_stop_accepting_lmp_withdrawals.
  ocex_keeps.
Qed.

Lemma on_new_session_keeps keys queued : keeps chain_inv (on_new_session keys queued).
Proof. unfold on_new_session. ocex_keeps. Qed.

Lemma size_minus (s : gset AssetId) t : (size (s ∖ {[t]}) ≤ size s)%nat.
Proof. apply subseteq_size. set_solver. Qed.

Lemma allowlist_token_keeps origin t : keeps chain_inv (allowlist_token origin t).
Proof.
  intros c u c' (Ha & Hm & (Hq & Ht) & Hp & He) H.
  unfold allowlist_token, ensure_governance, get_ocex, upd_ocex in H. inv_run.
  inv_parts. split; [done|]. cbn.
  match goal with H : try_insert _ _ _ = Some _ |- _ => unfold try_insert in H; revert H end.
  destruct (Z.ltb_spec (Z.of_nat (size (AllowlistedToken (ocex c)))) ALLOWLISTED_TOKEN_LIMIT)
    as [Hlt|]; cbn [orb].
  - intros [= <-]. pose proof (size_union_alt {[t]} (AllowlistedToken (ocex c))) as Hsz.
    rewrite size_singleton in Hsz.
    pose proof (size_minus (AllowlistedToken (ocex c)) t). lia.
  - destruct (bool_decide_reflect (t ∈ AllowlistedToken (ocex c))); [|done].
    intros [= <-]. by rewrite subseteq_union_1_L by set_solver.
Qed.

Lemma remove_allowlisted_token_keeps origin t : keeps chain_inv (remove_allowlisted_token origin t).
Proof.
  unfold remove_allowlisted_token. ocex_keeps. intros c (Ha & Hm & (Hq & Ht) & Hp & He).
  inv_parts. split; [done|]. cbn.
  pose proof (size_minus (AllowlistedToken (ocex c)) t). lia.
Qed.
#[local] Hint Resolve allowlist_token_keeps remove_allowlisted_token_keeps on_new_session_keeps
  on_initialize_keeps submit_snapshot_keeps claim_withdraw_keeps set_lmp_epoch_config_keeps : keeps.

Lemma ocex_dispatch_preserves origin call : preserves chain_inv (ocex_dispatch origin call).
Proof.
  apply keeps_transactional.
  destruct call; auto with keeps; unfold register_main_account, deposit, set_snapshot,
    set_exchange_state, whitelist_orderbook_operator, claim_lmp_rewards, set_fee_distribution,
    start_new_epoch_lmp, force_submit_snapshot; ocex_keeps.
Qed.

Lemma pool_rewards_keeps e p m : keeps chain_inv (pool_rewards e p m).
Proof. unfold pool_rewards. ocex_keeps. Qed.
#[local] Hint Resolve pool_rewards_keeps : keeps.

Lemma submit_scores_of_lps_keeps origin r : keeps chain_inv (submit_scores_of_lps origin r).
Proof.
  unfold submit_scores_of_lps. apply keeps_bind; [ocex_keeps|intros _].
  apply keeps_bind; [|ocex_keeps]. apply keeps_for_each.
  intros [[[market mm] epoch] [scores total]] c u c' Hc H. unfold get_lm, upd_lm in H. inv_run.
  by eapply (pools_update_keeps (market, mm)).
Qed.

Lemma fund_pool_inv x mm pool c u c' :
  fund_pool x mm pool c = (Ok u, c') → ∃ b, c' = c <| bank := b |>.
Proof.
  unfold fund_pool. intros H. destruct (asset_id x); inv_run; [|by exists (bank c); destruct c].
  match goal with H : bank_call _ _ = _ |- _ => apply bank_call_inv in H as (b & _ & ->) end.
  by exists b.
Qed.

Lemma register_pool_keeps o n m cm ef pf t : keeps chain_inv (register_pool o n m cm ef pf t).
Proof.
  intros c u c' (Ha & Hm & Hb & Hp & He) H.
  unfold register_pool, ensure_signed, lm_require, upd_lm in H.
  destruct o as [|mm|]; inv_run. destruct (create_pool_account mm m) as [pool share]. inv_run.
  repeat match goal with
  | H : bank_call _ _ = _ |- _ => apply bank_call_inv in H as (? & _ & ->)
  | H : fund_pool _ _ _ _ = _ |- _ => apply fund_pool_inv in H as [? ->]
  | H : bool_decide _ = true |- _ => apply bool_decide_eq_true in H
  end.
  match goal with H : register_user _ _ _ = _ |- _ => 
    apply register_user_inv in H as (_ & Hacc & Hpr & Hlt & ->) end.
  inv_parts; [by apply accounts_inv_register|by apply bounds_inv_snoc|].
  by apply (pools_inv_register _ _ _ _ (mkMarketMakerConfig pool _ _ _ _ _ _)).
Qed.
#[local] Hint Resolve submit_scores_of_lps_keeps register_pool_keeps : keeps.

Lemma lm_dispatch_preserves origin call : preserves chain_inv (lm_dispatch origin call).
Proof.
  apply keeps_transactional.
  destruct call; auto with keeps; unfold add_liquidity, ocex_add_liquidity,
    remove_liquidity, force_close_pool, ocex_force_close_pool, claim_rewards_by_lp,
    claim_rewards_by_mm, initiate_withdrawal, ocex_remove_liquidity,
    claim_force_closed_pool_funds, pool_portion; ocex_keeps.
Qed.

(** ** Reachable states *)
Definition genesis (c : Chain) : Prop :=
  ∃ k keys, c = mkChain 0 k (ocex_genesis keys) lm_genesis.

(** A step of the chain: a call with an origin, an unsigned call that its pallet
    validated, the start of the next block, a new session, or any change of
    balances made by the rest of the runtime. *)
Inductive event : Type :=
| OcexEvent (o : Origin) (call : OcexCall)
| LmEvent (o : Origin) (call : LmCall)
| BlockEvent
| SessionEvent (keys queued : list AuthorityId)
| BalancesEvent (k : Bank).

Inductive step : event → Chain → Chain → Prop :=
| step_ocex o call c : o ≠ NoOrigin → step (OcexEvent o call) c (ocex_dispatch o call c).2
| step_ocex_unsigned call c :
    validate_unsigned (ocex c) call = Ok tt →
    step (OcexEvent NoOrigin call) c (ocex_dispatch NoOrigin call c).2
| step_lm o call c : o ≠ NoOrigin → step (LmEvent o call) c (lm_dispatch o call c).2
| step_lm_unsigned source call c :
    lm_validate_unsigned (lm c) source call = true →
    step (LmEvent NoOrigin call) c (lm_dispatch NoOrigin call c).2
| step_block c c' u :
    on_initialize (block_number c + 1) (c <| block_number ::= λ n, n + 1 |>) = (Ok u, c') →
    step BlockEvent c c'
| step_session keys queued c c' u :
    on_new_session keys queued c = (Ok u, c') → step (SessionEvent keys queued) c c'
| step_balances k c : step (BalancesEvent k) c (c <| bank := k |>).

Definition reachable (c : Chain) : Prop := ∃ c0, genesis c0 ∧ rtc (λ c c', ∃ ev, step ev c c') c0 c.

Lemma genesis_inv c : genesis c → chain_inv c.
Proof.
  intros (k & keys & ->). by inv_parts.
Qed.

Lemma step_inv ev c c' : step ev c c' → chain_inv c → chain_inv c'.
Proof.
  intros [o call s _|call s _|o call s _|src call s _|s s' u H|keys queued s s' u H|k s] Hc.
  - by apply ocex_dispatch_preserves.
  - by apply ocex_dispatch_preserves.
  - by apply lm_dispatch_preserves.
  - by apply lm_dispatch_preserves.
  - by eapply on_initialize_keeps; [|exact H].
  - by eapply on_new_session_keeps.
  - done.
Qed.

Lemma reachable_inv c : reachable c → chain_inv c.
Proof.
  intros (c0 & H0%genesis_inv & Hsteps). induction Hsteps as [|c1 c2 c3 [ev Hstep] _ IH]; [done|].
  apply IH. by eapply step_inv.
Qed.

(** C35: in every reachable state each main account has between one and three
    distinct proxies, every proxy belongs to exactly one main account, and the two
    registry maps mirror each other. *)
Theorem reachable_registry c :
  reachable c →
  (∀ main info, Accounts (ocex c) !! main = Some info →
     ai_main_account info = main ∧ 1 ≤ Z.of_nat (length (ai_proxies info)) ≤ PROXY_LIMIT
     ∧ NoDup (ai_proxies info))
  ∧ ∀ p main, Proxies (ocex c) !! p = Some main ↔
      ∃ info, Accounts (ocex c) !! main = Some info ∧ p ∈ ai_proxies info.
Proof.
  intros ((Ha & Hp) & _)%reachable_inv. split.
  - intros main info Hi. by destruct (Ha main info Hi) as (? & ? & ? & _).
  - intros p main. split; [apply Hp|]. intros (info & Hi & Hin).
    destruct (Ha main info Hi) as (_ & _ & _ & Hps). by apply Hps.
Qed.

(** In every reachable state a market is stored under its own two different
    assets, is never registered in both directions, and its limits are positive
    and consistent. *)
Theorem reachable_markets c b q cfg :
  reachable c → TradingPairs (ocex c) !! (b, q) = Some cfg →
  b ≠ q ∧ base_asset cfg = b ∧ quote_asset cfg = q ∧ TradingPairs (ocex c) !! (q, b) = None
  ∧ 0 < units (min_volume cfg) < units (max_volume cfg)
  ∧ 0 < units (price_tick_size cfg) ∧ 0 < units (qty_step_size cfg).
Proof. intros (_ & Hm & _)%reachable_inv. apply Hm. Qed.

(** In every reachable state the ingress queue of every block and the allowlist
    are within their bounds. *)
Theorem reachable_bounds c :
  reachable c →
  (∀ blk, Z.of_nat (length (ingress_at (ocex c) blk)) ≤ Z.max 0 OBIngressLimit)
  ∧ Z.of_nat (size (AllowlistedToken (ocex c))) ≤ ALLOWLISTED_TOKEN_LIMIT.
Proof.
  intros (_ & _ & [Hq Ht] & _)%reachable_inv. split; [|done]. intros blk. unfold ingress_at.
  destruct (IngressQueue (ocex c) !! blk) as [q|] eqn:Hb; cbn; [specialize (Hq _ _ Hb)|]; lia.
Qed.

(** In every reachable state different pools have different accounts, which are
    registered main accounts of the order book. *)
Theorem reachable_pools c k k' cfg cfg' :
  reachable c → Pools (lm c) !! k = Some cfg → Pools (lm c) !! k' = Some cfg' →
  is_Some (Accounts (ocex c) !! pool_id cfg) ∧ PoolIdIndex (lm c) !! pool_id cfg = Some k
  ∧ (pool_id cfg = pool_id cfg' → k = k').
Proof.
  intros (_ & _ & _ & [H1 H2] & _)%reachable_inv Hk Hk'.
  pose proof (H1 k cfg Hk) as Hi. pose proof (H1 k' cfg' Hk') as Hi'.
  split; [by apply H2 in Hi as [? _]|]. split; [done|]. congruence.
Qed.

Lemma record_scores_ok e p l n c : ∃ r c', record_scores e p l n c = (Ok r, c').
Proof.
  revert n c. induction l as [|[main [s f]] l IH]; intros n c; cbn [record_scores];
    [by eexists _, _|]. unfold upd_ocex. mrun. destruct (_ =? 0); [by eexists _, _|]. apply IH.
Qed.

(** In a reachable state the scores carried by a snapshot can always be
    recorded: the configuration of the epoch being finalized is never missing. *)
Theorem reachable_scores_recorded c metrics :
  reachable c → ∃ c', update_lmp_scores metrics c = (Ok tt, c').
Proof.
  intros (_ & _ & _ & _ & Hep)%reachable_inv. destruct Hep as (_ & Hcfg & Hfin).
  unfold update_lmp_scores, get_ocex, upd_ocex, current_block. rewrite bind_run. unfold gets at 1, id.
  destruct (FinalizeLMPScore (ocex c)) as [fin|]; [|by eexists].
  destruct (Hfin fin eq_refl) as [Hle Hpos]. destruct (Hcfg Hpos fin Hle) as [cfg ->].
  rewrite bind_run. cbn [ok_or lift res_of_option modify]. rewrite bind_run. cbn. rewrite bind_run.
  match goal with |- context [fold_m ?f ?b ?l ?s] =>
    destruct (fold_m_ok f l b s) as (n & c1 & ->) end.
  - intros n [market [m totals]] s.
    destruct (record_scores_ok fin market (btree_to_list m) n s) as (r & s1 & Hr).
    rewrite bind_run, Hr. by eexists _, _.
  - mrun. destruct (_ <? _); by eexists.
Qed.

(** ** The order of snapshots

    Everything but the three calls that move it leaves the nonce alone. *)
Definition nonce_is (n : Z) (c : Chain) : Prop := SnapshotNonce (ocex c) = n.

Section nonce.
Context (n : Z).

Lemma nonce_bank {B} (m : M Bank BankError B) : preserves (nonce_is n) (bank_call m).
Proof. intros c Hc. unfold bank_call. by destruct (m (bank c)) as [[]]. Qed.

Lemma nonce_push m : preserves (nonce_is n) (push_ingress m).
Proof.
  intros c Hc. unfold push_ingress, current_block, get_ocex, upd_ocex. mrun.
  by destruct (try_push _ _ _).
Qed.

Lemma nonce_gadget who a x dest fa fn i :
  preserves (nonce_is n) (parachain_withdraw who a x dest fa fn i).
Proof. intros c Hc. unfold nonce_is. by destruct (Hgadget who a x dest fa fn i c) as [-> _]. Qed.

#[local] Hint Extern 1 (keeps (nonce_is _) (bank_call _)) =>
  apply preserves_keeps, nonce_bank : keeps.
#[local] Hint Extern 1 (keeps (nonce_is _) (push_ingress _)) =>
  apply preserves_keeps, nonce_push : keeps.
#[local] Hint Extern 1 (keeps (nonce_is _) (swallow (push_ingress _))) =>
  apply preserves_keeps, preserves_swallow, nonce_push : keeps.
#[local] Hint Extern 1 (keeps (nonce_is _) (parachain_withdraw _ _ _ _ _ _ _)) =>
  apply preserves_keeps, nonce_gadget : keeps.

Lemma nonce_withdraw_each ws f p : keeps (nonce_is n) (withdraw_each ws f p).
Proof.
  revert f p. induction ws as [|w ws IH]; intros; cbn [withdraw_each]; [ocex_keeps|].
  apply keeps_bind; [|intros []; apply IH].
  assert (preserves (nonce_is n) (on_idle_withdrawal_processor w)) as Hp.
  { apply keeps_transactional. unfold transfer_asset. ocex_keeps. }
  intros c b c' Hc. specialize (Hp c Hc). unfold try_call.
  by destruct (on_idle_withdrawal_processor w c) as [[]]; intros [= <- <-].
Qed.

Lemma nonce_record_scores e p l k : keeps (nonce_is n) (record_scores e p l k).
Proof.
  revert k. induction l as [|[main [s f]] l IH]; intros; cbn [record_scores]; ocex_keeps.
Qed.
#[local] Hint Resolve nonce_withdraw_each nonce_record_scores : keeps.

Lemma nonce_pay_withdrawals l f : keeps (nonce_is n) (pay_withdrawals l f).
Proof.
  revert f. induction l as [|[a ws] l IH]; intros; cbn [pay_withdrawals]; unfold do_withdraw;
    ocex_keeps.
Qed.
#[local] Hint Resolve nonce_pay_withdrawals : keeps.

Lemma nonce_convert_config mi ma t st : keeps (nonce_is n) (convert_config mi ma t st).
Proof.
  unfold convert_config, ocex_fail. do 4 (apply keeps_bind; [auto with keeps|intros []]);
    auto with keeps.
Qed.
#[local] Hint Resolve nonce_convert_config : keeps.
Lemma nonce_update_lmp_scores m : keeps (nonce_is n) (update_lmp_scores m).
Proof. unfold update_lmp_scores. ocex_keeps. Qed.
Lemma nonce_do_claim main e m : keeps (nonce_is n) (do_claim_lmp_rewards main e m).
Proof. unfold do_claim_lmp_rewards. ocex_keeps. Qed.
Lemma nonce_start_new_epoch k : keeps (nonce_is n) (start_new_epoch k).
Proof. unfold start_new_epoch, new_epoch, announce_epoch. ocex_keeps. Qed.
Lemma nonce_register_user main proxy : keeps (nonce_is n) (register_user main proxy).
Proof. unfold register_user. ocex_keeps. Qed.
#[local] Hint Resolve nonce_update_lmp_scores nonce_do_claim nonce_start_new_epoch
  nonce_register_user : keeps.
Lemma nonce_do_deposit i u a k : keeps (nonce_is n) (do_deposit i u a k).
Proof. unfold do_deposit, transfer_asset. ocex_keeps. Qed.
#[local] Hint Resolve nonce_do_deposit : keeps.

Lemma nonce_egress m : keeps (nonce_is n) (process_one_egress m).
Proof.
  unfold process_one_egress, distribute_fee, release_to_pool, add_liquidity_success,
    remove_liquidity_success, remove_liquidity_failed, pool_force_close_success, resolve_pool,
    lm_transfer_asset, transfer_asset. ocex_keeps.
Qed.
#[local] Hint Resolve nonce_egress : keeps.

Definition moves_nonce (call : OcexCall) : bool :=
  match call with
  | CallSetSnapshot _ | CallSubmitSnapshot _ _ | CallForceSubmitSnapshot _ => true
  | _ => false
  end.

Lemma nonce_ocex_dispatch o call :
  moves_nonce call = false → preserves (nonce_is n) (ocex_dispatch o call).
Proof.
  intros Hcall. apply keeps_transactional.
  destruct call; try discriminate Hcall; unfold register_main_account, add_proxy_account,
    close_trading_pair, open_trading_pair, register_trading_pair, update_trading_pair,
    validate_trading_pair_config, deposit, new_random_id, remove_proxy_account,
    set_exchange_state, claim_withdraw, do_withdraw, allowlist_token, remove_allowlisted_token,
    whitelist_orderbook_operator, claim_lmp_rewards, set_lmp_epoch_config, add_market_config,
    set_fee_distribution, start_new_epoch_lmp; ocex_keeps.
Qed.

Lemma nonce_lm_dispatch o call : preserves (nonce_is n) (lm_dispatch o call).
Proof.
  apply keeps_transactional.
  destruct call; unfold register_pool, fund_pool, add_liquidity, ocex_add_liquidity,
    remove_liquidity, force_close_pool, ocex_force_close_pool, claim_rewards_by_lp,
    claim_rewards_by_mm, submit_scores_of_lps, initiate_withdrawal, ocex_remove_liquidity,
    claim_force_closed_pool_funds, pool_portion, pool_rewards, lm_transfer_asset, new_random_id;
    ocex_keeps.
Qed.

Lemma nonce_on_initialize k : keeps (nonce_is n) (on_initialize k).
Proof.
  unfold on_initialize, stop_accepting_lmp_withdrawals, lm_stop_accepting_lmp_withdrawals.
  ocex_keeps.
Qed.
End nonce.

(** The calls of governance that set the nonce by hand. *)
Definition sets_nonce (ev : event) : bool :=
  match ev with
  | OcexEvent NoOrigin _ => false
  | OcexEvent _ call => moves_nonce call
  | _ => false
  end.

Lemma validated_nonce o summary sigs :
  validate_snapshot o summary sigs = Ok tt → snapshot_id summary = sat_add 64 (SnapshotNonce o) 1.
Proof.
  unfold validate_snapshot.
  destruct (Z.eqb_spec (sat_add 64 (SnapshotNonce o) 1) (snapshot_id summary)); done.
Qed.

Lemma submitted_nonce summary c sigs :
  let c' := (ocex_dispatch NoOrigin (CallSubmitSnapshot summary sigs) c).2 in
  SnapshotNonce (ocex c') = SnapshotNonce (ocex c)
  ∨ SnapshotNonce (ocex c') = snapshot_id summary
    ∧ Snapshots (ocex c') !! snapshot_id summary = Some summary.
Proof.
  cbn zeta. unfold ocex_dispatch.
  destruct (transactional (submit_snapshot NoOrigin summary) c) as [[u|e|] c'] eqn:H; cbn;
    [right|left; by rewrite (transactional_fail _ _ _ _ H)..].
  apply transactional_ok_inv in H. unfold submit_snapshot, upd_ocex in H. inv_run.
  match goal with H : push_ingress _ _ = _ |- _ => apply push_ingress_inv in H as [_ ->] end.
  split; [done|apply lookup_insert_eq].
Qed.

(** C7: outside the governance calls that set it by hand, the snapshot nonce never
    goes back: a step leaves it alone or raises it by exactly one, and then it is the
    submission of a summary that the active validators signed with a quorum of valid
    signatures, which becomes the stored snapshot of that nonce. *)
Theorem snapshots_in_sequence ev c c' :
  step ev c c' → sets_nonce ev = false →
  SnapshotNonce (ocex c') = SnapshotNonce (ocex c)
  ∨ (SnapshotNonce (ocex c') = sat_add 64 (SnapshotNonce (ocex c)) 1
     ∧ ∃ summary sigs, validate_snapshot (ocex c) summary sigs = Ok tt
         ∧ Snapshots (ocex c') !! SnapshotNonce (ocex c') = Some summary).
Proof.
  intros [o call s Ho|call s Hv|o call s _|src call s _|s s' u H|keys queued s s' u H|k s] Hgov.
  - left. apply nonce_ocex_dispatch; [|done]. by destruct o.
  - destruct call as [| | | | | | | | | | | | |summary sigs| | | | | |]; try discriminate Hv.
    cbn in Hv. pose proof (validated_nonce _ _ _ Hv) as Hid.
    destruct (submitted_nonce summary s sigs) as [Hn|[Hn Hs]]; [by left|right].
    rewrite Hn. split; [done|]. by exists summary, sigs.
  - left. by apply nonce_lm_dispatch.
  - left. by apply nonce_lm_dispatch.
  - left. by eapply nonce_on_initialize; [|exact H].
  - left. unfold on_new_session, get_ocex, upd_ocex in H. by inv_run.
  - by left.
Qed.
End invariants.

(** ** A concrete run

    Governance opens the exchange and a market, account 4 opens a pool in it and
    account 1 registers with the proxy 2. *)
Module RuntimeExample.
Import RefDecimal RefCrypto RefAuthority RefBank RefOcex RefLm OcexExample.

Definition market : TradingPair := {| base := Asset 1; quote := Asset 2 |}.
Definition chain_start : Chain := mkChain 0 (mkBank
  {[(Polkadex, acct 4) := 1000%N; (Asset 1, acct 4) := 1000%N; (Asset 2, acct 4) := 1000%N]})
  (ocex_genesis [10; 11; 12]) lm_genesis.
Definition calls : list (Origin * (OcexCall + LmCall)) := [
  (Root, inl (CallSetExchangeState true));
  (Root, inl (CallAllowlistToken (Asset 1)));
  (Root, inl (CallAllowlistToken (Asset 2)));
  (Root, inl (CallRegisterTradingPair (Asset 1) (Asset 2) (10 ^ 12) (10 ^ 15) (10 ^ 6) (10 ^ 6)));
  (Signed (acct 4), inr (CallRegisterPool [] market 0 0 true (acct 6)));
  (Signed (acct 1), inl (CallRegisterMainAccount (acct 2)))].
Definition run_call (c : Chain) (e : Origin * (OcexCall + LmCall)) : Chain :=
  match e with
  | (o, inl call) => (ocex_dispatch o call c).2
  | (o, inr call) => (lm_dispatch o call c).2
  end.
Definition chain_end : Chain := foldl run_call chain_start calls.

Lemma run_calls_reachable l c :
  reachable c → Forall (λ e, e.1 ≠ NoOrigin) l → reachable (foldl run_call c l).
Proof.
  intros Hc Hl. revert c Hc. induction Hl as [|[o [call|call]] l Ho _ IH]; intros c (c0 & H0 & Hs);
    cbn; [by exists c0|apply IH..]; exists c0; (split; [done|]); (eapply rtc_r; [exact Hs|]).
  - exists (OcexEvent o call). by constructor.
  - exists (LmEvent o call). by constructor.
Qed.

Lemma chain_end_reachable : reachable chain_end.
Proof.
  apply run_calls_reachable; [|by repeat constructor]. exists chain_start. split; [|done].
  by eexists _, _.
Qed.

Lemma gadget_keeps : ∀ who a n dest fa fn i (c : Chain),
  ocex (parachain_withdraw who a n dest fa fn i c).2 = ocex c
  ∧ lm (parachain_withdraw who a n dest fa fn i c).2 = lm c.
Proof. done. Qed.

Lemma has_market : is_Some (TradingPairs (ocex chain_end) !! (Asset 1, Asset 2)).
Proof.
  destruct (TradingPairs (ocex chain_end) !! (Asset 1, Asset 2)) eqn:H; [done|].
  assert (match TradingPairs (ocex chain_end) !! (Asset 1, Asset 2) with
    Some _ => true | None => false end = true) as Hs by (vm_compute; reflexivity).
  by rewrite H in Hs.
Qed.

Lemma has_pool : is_Some (Pools (lm chain_end) !! (market, acct 4)).
Proof.
  destruct (Pools (lm chain_end) !! (market, acct 4)) eqn:H; [done|].
  assert (match Pools (lm chain_end) !! (market, acct 4) with
    Some _ => true | None => false end = true) as Hs by (vm_compute; reflexivity).
  by rewrite H in Hs.
Qed.

Lemma reachable_registry_witness :
  Proxies (ocex chain_end) !! acct 2 = Some (acct 1)
  ∧ ∃ info, Accounts (ocex chain_end) !! acct 1 = Some info ∧ acct 2 ∈ ai_proxies info.
Proof.
  assert (Proxies (ocex chain_end) !! acct 2 = Some (acct 1)) as H by (vm_compute; reflexivity).
  split; [exact H|]. apply (reachable_registry gadget_keeps chain_end chain_end_reachable). exact H.
Defined.

Lemma reachable_markets_witness : TradingPairs (ocex chain_end) !! (Asset 2, Asset 1) = None.
Proof.
  destruct has_market as [cfg H].
  apply (reachable_markets gadget_keeps chain_end (Asset 1) (Asset 2) cfg chain_end_reachable H).
Defined.

Lemma reachable_bounds_witness :
  Z.of_nat (length (ingress_at (ocex chain_end) 0)) ≤ 250.
Proof. apply (reachable_bounds gadget_keeps chain_end chain_end_reachable). Defined.

Lemma reachable_pools_witness :
  ∃ cfg, Pools (lm chain_end) !! (market, acct 4) = Some cfg
    ∧ is_Some (Accounts (ocex chain_end) !! pool_id cfg).
Proof.
  destruct has_pool as [cfg H]. exists cfg. split; [exact H|].
  apply (reachable_pools gadget_keeps chain_end _ _ cfg cfg chain_end_reachable H H).
Defined.

Lemma reachable_scores_recorded_witness : ∃ c', update_lmp_scores ∅ chain_end = (Ok tt, c').
Proof. apply (reachable_scores_recorded gadget_keeps chain_end ∅ chain_end_reachable). Defined.

(** The validators submit the next snapshot. *)
Definition submission : OcexCall := CallSubmitSnapshot summary1 [(0, 10); (1, 11)].

Lemma snapshots_in_sequence_witness :
  let c' := (ocex_dispatch NoOrigin submission chain0).2 in
  SnapshotNonce (ocex c') = SnapshotNonce (ocex chain0)
  ∨ (SnapshotNonce (ocex c') = sat_add 64 (SnapshotNonce (ocex chain0)) 1
     ∧ ∃ summary sigs, validate_snapshot (ocex chain0) summary sigs = Ok tt
         ∧ Snapshots (ocex c') !! SnapshotNonce (ocex c') = Some summary).
Proof.
  apply (snapshots_in_sequence gadget_keeps (OcexEvent NoOrigin submission)); [|reflexivity].
  apply step_ocex_unsigned. vm_compute. reflexivity.
Defined.
End RuntimeExample.
