(* ===== verification/Claims.v ===== *)
(** * Rewards are claimed once

    The claims of [pallets/ocex] and of the pools of [pallets/liquidity-mining], over all
    runs of [Runtime.v]: the scores of an epoch are recorded once, before its rewards can be
    claimed, so nothing takes the mark of a claim back. *)

From S2P Require Import Prelude Decimal Assets Bank Types Orders Settlement Chain.
From S2P Require Import LmCallbacks Ocex OcexProps LiquidityMining LiquidityProps Runtime.

Section claims.
Context {D : Decimal} {DL : DecimalLaws} {C : Crypto} {A : Authority} {CU : Currencies}.
Context {CL : CurrenciesLaws} {P : Percents} {CFG : OcexConfig} {LCFG : LmConfig}.
Context (Hgadget : ∀ who a n dest fa fn i c,
  ocex (parachain_withdraw who a n dest fa fn i c).2 = ocex c
  ∧ lm (parachain_withdraw who a n dest fa fn i c).2 = lm c).

(** ** The epochs that are final

    The epoch whose scores are expected is over; an epoch whose rewards can be claimed is
    before it.  The counter of epochs saturates; its last epoch is left out. *)
Definition finalizing_inv (epoch : Z) (finalizing : option Z) (claim_blk : gmap Z Z) : Prop :=
  0 ≤ epoch ≤ u16_max
  ∧ (∀ fin, finalizing = Some fin → 0 ≤ fin ∧ (fin < epoch ∨ epoch = u16_max ∧ fin ≤ epoch))
  ∧ ∀ e, e < u16_max → is_Some (claim_blk !! e) →
      e < epoch ∧ ∀ fin, finalizing = Some fin → e < fin.

Lemma finalizing_inv_start epoch finalizing claim_blk :
  finalizing_inv epoch finalizing claim_blk →
  finalizing_inv (sat_add 16 epoch 1)
    (match finalizing with Some fin => Some fin | None => Some epoch end) claim_blk.
Proof.
  intros (He & Hf & Hb). unfold sat_add. change (umax 16) with u16_max. split; [lia|]. split.
  - intros fin. destruct finalizing as [f|]; intros [= <-]; [|lia].
    destruct (Hf f eq_refl) as [? [?|[? ?]]]; lia.
  - intros e Hlt Hs. destruct (Hb e Hlt Hs) as [H1 H2]. split; [lia|].
    destruct finalizing as [f|]; intros fin [= <-]; [by apply H2|done].
Qed.

Lemma finalizing_inv_update epoch fin n claim_blk :
  finalizing_inv epoch (Some fin) claim_blk →
  finalizing_inv epoch (if sat_add 16 fin 1 <? epoch then Some (sat_add 16 fin 1) else None)
    (<[fin := n]> claim_blk).
Proof.
  intros (He & Hf & Hb). destruct (Hf fin eq_refl) as [Hpos Hle].
  assert (∀ f, (if sat_add 16 fin 1 <? epoch then Some (sat_add 16 fin 1) else None) = Some f →
    f = fin + 1 ∧ f < epoch) as Hnext.
  { intros f. unfold sat_add. change (umax 16) with u16_max.
    destruct (Z.ltb_spec (Z.min (fin + 1) u16_max) epoch); intros [= <-]. lia. }
  split; [done|]. split; [intros f Hn%Hnext; lia|].
  intros e Hlt [m [[-> _]|[Hne Hl]]%lookup_insert_Some].
  - split; [lia|]. intros f Hn%Hnext. lia.
  - destruct (Hb e Hlt) as [H1 H2]; [by exists m|]. split; [done|].
    intros f Hn%Hnext. specialize (H2 fin eq_refl). lia.
Qed.

(** What a claim does to the metrics *)
Definition alter_claimed (key : Z * TradingPair * AccountId) :
    gmap (Z * TradingPair * AccountId) (dec * dec * bool) → gmap (Z * TradingPair * AccountId) (dec * dec * bool) :=
  partial_alter (λ m, let '(score, fees, _) := default (dec_zero, dec_zero, false) m in
                      Some (score, fees, true)) key.
Lemma alter_claimed_eq key M : alter_claimed key M = <[key := mark_claimed (M !! key)]> M.
Proof.
  unfold alter_claimed, mark_claimed. apply map_eq. intros key'. destruct (decide (key' = key)) as [->|Hne].
  - rewrite lookup_partial_alter_eq, lookup_insert_eq. by destruct (M !! key) as [[[]]|].
  - by rewrite lookup_partial_alter_ne, lookup_insert_ne by done.
Qed.

Lemma do_claim_frame main epoch market c n c' :
  do_claim_lmp_rewards main epoch market c = (Ok n, c') →
  ocex c' = (ocex c) <| TraderMetrics ::=
    <[(epoch, market, main) := mark_claimed (TraderMetrics (ocex c) !! (epoch, market, main))]> |>.
Proof.
  intros H. unfold do_claim_lmp_rewards, get_ocex, upd_ocex, current_block, book_to_raw, require in H.
  inv_run. unfold id in *.
  destruct (calculate_lmp_rewards (ocex c) main epoch market a0) as [[mm trading] claimed]. inv_run.
  match goal with H : bank_call _ _ = _ |- _ => apply bank_call_inv in H as (k & Ht & ->) end.
  change (?x = _) with ((ocex c) <| TraderMetrics ::= alter_claimed (epoch, market, main) |> = 
    (ocex c) <| TraderMetrics ::= <[(epoch, market, main) :=
      mark_claimed (TraderMetrics (ocex c) !! (epoch, market, main))]> |>).
  unfold setter. cbn. by rewrite alter_claimed_eq.
Qed.

(** ** The mark of a claim stays *)
Section mark.
Context (main : AccountId) (epoch : Z) (market : TradingPair) (Hepoch : epoch < u16_max).
(** Whether the rewards have been claimed *)
Context (claimed : Prop).

Definition marked (metrics : gmap (Z * TradingPair * AccountId) (dec * dec * bool)) : Prop :=
  ∃ score fees, metrics !! (epoch, market, main) = Some (score, fees, true).

Definition claims_inv (c : Chain) : Prop :=
  finalizing_inv (LMPEpoch (ocex c)) (FinalizeLMPScore (ocex c)) (LMPClaimBlk (ocex c))
  ∧ (claimed → is_Some (LMPClaimBlk (ocex c) !! epoch) ∧ marked (TraderMetrics (ocex c))).

(** While the scores of the epoch [fin] are recorded *)
Definition recording (E : Z) (B : gmap Z Z) (c : Chain) : Prop :=
  LMPEpoch (ocex c) = E ∧ LMPClaimBlk (ocex c) = B ∧ FinalizeLMPScore (ocex c) = None
  ∧ (claimed → marked (TraderMetrics (ocex c))).

Lemma recording_scores E B fin p l n :
  (claimed → epoch ≠ fin) → keeps (recording E B) (record_scores fin p l n).
Proof.
  intros Hne. revert n. induction l as [|[a [s f]] l IH]; intros n; cbn [record_scores]; [ocex_keeps|].
  ocex_keeps. intros c (H1 & H2 & H3 & H4). split_and!; [done..|]. intros Hc.
  destruct (H4 Hc) as (s' & f' & Hm). exists s', f'. cbn. rewrite lookup_insert_ne; [done|].
  intros [=]. by apply (Hne Hc).
Qed.

Lemma claims_update_lmp_scores m : keeps claims_inv (update_lmp_scores m).
Proof.
  intros c u c' [Hf Hm] H. unfold update_lmp_scores, get_ocex in H. inv_step H. inv_prim. unfold id in Hk.
  destruct (FinalizeLMPScore (ocex c)) as [fin|] eqn:Hfin; [|inv_run; split; [by rewrite Hfin|done]].
  assert (claimed → epoch ≠ fin) as Hne.
  { intros [Hs _]%Hm ->. destruct Hf as (_ & _ & Hb). destruct (Hb fin Hepoch Hs) as [_ Hlt].
    specialize (Hlt fin eq_refl). lia. }
  set (E := LMPEpoch (ocex c)) in *. set (B := LMPClaimBlk (ocex c)) in *.
  unfold upd_ocex, current_block in Hk. inv_run.
  match goal with H : fold_m _ _ _ ?s = (_, ?s2) |- _ => rename H into Hfold, s2 into c2 end.
  assert (recording E B c2) as (H1 & H2 & H3 & H4).
  { eapply keeps_elim; [| |exact Hfold].
    - apply keeps_fold_m. intros k [mk [scores totals]]. apply keeps_bind; [by apply recording_scores|].
      intros k'. ocex_keeps.
    - split_and!; [done..|]. intros Hc. apply (Hm Hc). }
  clear Hfold. pose proof (finalizing_inv_update E fin
    (sat_add 32 (block_number c2) (claim_safety_period a0)) B Hf) as Hn.
  assert (claimed → is_Some (<[fin := sat_add 32 (block_number c2) (claim_safety_period a0)]> B !! epoch)) as Hb.
  { intros Hc. rewrite lookup_insert_ne by (intros ->; by apply (Hne Hc)). by apply (Hm Hc). }
  destruct (sat_add 16 fin 1 <? E); inv_run; (split; [cbn; by rewrite ?H3, H1, H2|]); intros Hc; cbn;
    rewrite H2; auto.
Qed.
Lemma claims_announce n e cfg : keeps claims_inv (announce_epoch n e cfg).
Proof. unfold announce_epoch. ocex_keeps. Qed.

Lemma claims_start_new_epoch n : keeps claims_inv (start_new_epoch n).
Proof.
  intros c u c' [Hf Hm] H. unfold start_new_epoch, new_epoch, get_ocex, upd_ocex, upd_lm, current_block in H.
  inv_step H. inv_prim. unfold id in *.
  destruct (ExpectedLMPConfig (ocex c)) as [config|]; [|inv_run; by split].
  apply finalizing_inv_start in Hf.
  destruct (_ && _); destruct (bool_decide_reflect (FinalizeLMPScore (ocex c) = None)) as [Hn|Hn];
    inv_run; (eapply claims_announce; [|eassumption]); (split; [|exact Hm]); cbn;
    destruct (FinalizeLMPScore (ocex c)); done.
Qed.

Lemma claims_do_claim a e mk : keeps claims_inv (do_claim_lmp_rewards a e mk).
Proof.
  intros c n c' [Hf Hm] H. apply do_claim_frame in H. unfold claims_inv. rewrite H. cbn.
  split; [done|]. intros Hc. destruct (Hm Hc) as [Hb (s & f & Hk)]. split; [done|].
  destruct (decide ((e, mk, a) = (epoch, market, main))) as [[= -> -> ->]|Hne].
  - exists s, f. cbn. by rewrite lookup_insert_eq, Hk.
  - exists s, f. cbn. by rewrite lookup_insert_ne.
Qed.

Lemma claims_bank {B} (m : M Bank BankError B) : preserves claims_inv (bank_call m).
Proof. intros c Hc. unfold bank_call. by destruct (m (bank c)) as [[]]. Qed.

Lemma claims_push m : preserves claims_inv (push_ingress m).
Proof.
  intros c Hc. unfold push_ingress, current_block, get_ocex, upd_ocex. mrun.
  by destruct (try_push _ _ _).
Qed.

Lemma claims_gadget who a x dest fa fn i :
  preserves claims_inv (parachain_withdraw who a x dest fa fn i).
Proof. intros c Hc. unfold claims_inv. by destruct (Hgadget who a x dest fa fn i c) as [-> _]. Qed.

#[local] Hint Resolve claims_announce claims_start_new_epoch claims_do_claim
  claims_update_lmp_scores : keeps.
#[local] Hint Extern 1 (keeps claims_inv (bank_call _)) =>
  apply preserves_keeps, claims_bank : keeps.
#[local] Hint Extern 1 (keeps claims_inv (push_ingress _)) =>
  apply preserves_keeps, claims_push : keeps.
#[local] Hint Extern 1 (keeps claims_inv (swallow (push_ingress _))) =>
  apply preserves_keeps, preserves_swallow, claims_push : keeps.
#[local] Hint Extern 1 (keeps claims_inv (parachain_withdraw _ _ _ _ _ _ _)) =>
  apply preserves_keeps, claims_gadget : keeps.
#[local] Hint Extern 1 (keeps claims_inv (swallow close_auction)) =>
  apply preserves_keeps, preserves_swallow, close_auction_preserves; intros; done : keeps.
#[local] Hint Extern 1 (keeps claims_inv (swallow create_auction)) =>
  apply preserves_keeps, preserves_swallow, create_auction_preserves; intros; done : keeps.

Lemma claims_withdraw_each ws f p : keeps claims_inv (withdraw_each ws f p).
Proof.
  revert f p. induction ws as [|w ws IH]; intros; cbn [withdraw_each]; [ocex_keeps|].
  apply keeps_bind; [|intros []; apply IH].
  assert (preserves claims_inv (on_idle_withdrawal_processor w)) as Hp.
  { apply keeps_transactional. unfold transfer_asset. ocex_keeps. }
  intros c b c' Hc. specialize (Hp c Hc). unfold try_call.
  by destruct (on_idle_withdrawal_processor w c) as [[]]; intros [= <- <-].
Qed.
#[local] Hint Resolve claims_withdraw_each : keeps.

Lemma claims_pay_withdrawals l f : keeps claims_inv (pay_withdrawals l f).
Proof.
  revert f. induction l as [|[a ws] l IH]; intros; cbn [pay_withdrawals]; unfold do_withdraw;
    ocex_keeps.
Qed.

Lemma claims_convert_config mi ma t st : keeps claims_inv (convert_config mi ma t st).
Proof.
  unfold convert_config, ocex_fail. do 4 (apply keeps_bind; [auto with keeps|intros []]);
    auto with keeps.
Qed.
Lemma claims_register_user a proxy : keeps claims_inv (register_user a proxy).
Proof. unfold register_user. ocex_keeps. Qed.
#[local] Hint Resolve claims_register_user : keeps.
Lemma claims_do_deposit i u a k : keeps claims_inv (do_deposit i u a k).
Proof. unfold do_deposit, transfer_asset. ocex_keeps. Qed.
#[local] Hint Resolve claims_pay_withdrawals claims_convert_config claims_do_deposit : keeps.

Lemma claims_egress m : keeps claims_inv (process_one_egress m).
Proof.
  unfold process_one_egress, distribute_fee, release_to_pool, add_liquidity_success,
    remove_liquidity_success, remove_liquidity_failed, pool_force_close_success, resolve_pool,
    lm_transfer_asset, transfer_asset. ocex_keeps.
Qed.
#[local] Hint Resolve claims_egress : keeps.

Lemma claims_submit_snapshot o s : keeps claims_inv (submit_snapshot o s).
Proof. unfold submit_snapshot, process_egress_msg, settle_withdrawal_fees. ocex_keeps. Qed.
#[local] Hint Resolve claims_submit_snapshot : keeps.

Lemma claims_ocex_dispatch o call : preserves claims_inv (ocex_dispatch o call).
Proof.
  apply keeps_transactional.
  destruct call; unfold register_main_account, add_proxy_account,
    close_trading_pair, open_trading_pair, register_trading_pair, update_trading_pair,
    validate_trading_pair_config, deposit, new_random_id, remove_proxy_account,
    set_exchange_state, claim_withdraw, do_withdraw, allowlist_token, remove_allowlisted_token,
    whitelist_orderbook_operator, claim_lmp_rewards, set_lmp_epoch_config, add_market_config,
    set_fee_distribution, start_new_epoch_lmp, set_snapshot, force_submit_snapshot; ocex_keeps.
Qed.

Lemma claims_lm_dispatch o call : preserves claims_inv (lm_dispatch o call).
Proof.
  apply keeps_transactional.
  destruct call; unfold register_pool, fund_pool, add_liquidity, ocex_add_liquidity,
    remove_liquidity, force_close_pool, ocex_force_close_pool, claim_rewards_by_lp,
    claim_rewards_by_mm, submit_scores_of_lps, initiate_withdrawal, ocex_remove_liquidity,
    claim_force_closed_pool_funds, pool_portion, pool_rewards, lm_transfer_asset, new_random_id;
    ocex_keeps.
Qed.

Lemma claims_on_initialize k : keeps claims_inv (on_initialize k).
Proof.
  unfold on_initialize, stop_accepting_lmp_withdrawals, lm_stop_accepting_lmp_withdrawals.
  ocex_keeps.
Qed.

Lemma claims_step ev c c' : step ev c c' → claims_inv c → claims_inv c'.
Proof.
  intros [o call s _|call s _|o call s _|src call s _|s s' u H|keys queued s s' u H|k s] Hc.
  - by apply claims_ocex_dispatch.
  - by apply claims_ocex_dispatch.
  - by apply claims_lm_dispatch.
  - by apply claims_lm_dispatch.
  - by eapply claims_on_initialize; [|exact H].
  - unfold on_new_session, get_ocex, upd_ocex in H. by inv_run.
  - done.
Qed.

Lemma claims_steps c c' : rtc (λ c c', ∃ ev, step ev c c') c c' → claims_inv c → claims_inv c'.
Proof. induction 1 as [|c1 c2 c3 [ev Hs] _ IH]; [done|]. intros Hc. by eapply IH, claims_step. Qed.
End mark.

Lemma claims_reachable main epoch market c :
  epoch < u16_max → reachable c → claims_inv main epoch market False c.
Proof.
  intros He (c0 & (k & keys & ->) & Hs). apply (claims_steps main epoch market He False _ _ Hs).
  split; [|done]. cbn. split_and!; [done..|]. intros e _ [x Hx]. by rewrite lookup_empty in Hx.
Qed.

Lemma marked_not_claimed main epoch market c :
  marked main epoch market (TraderMetrics (ocex c)) →
  is_ok (do_claim_lmp_rewards main epoch market c).1 = false.
Proof.
  intros (score & fees & Hm).
  destruct (do_claim_lmp_rewards main epoch market c) as [[n|e|] c'] eqn:H; [|done..].
  apply do_claim_inv in H as (_ & config & mm & tr & _ & _ & _ & _ & Hcalc & _).
  unfold calculate_lmp_rewards in Hcalc. rewrite Hm in Hcalc. by destruct (default _ (TotalScores _ !! _)).
Qed.

(** C36: rewards are claimed at most once.  A successful claim on a reachable chain happens
    only after the claim block of a configured epoch and pays the computed amount from the
    rewards account; after it, whatever calls, snapshots, blocks, sessions and changes of
    balances follow, no claim for the same account, epoch and market succeeds again.  The
    scores of an epoch are recorded once, before its claim block is set, so no snapshot
    takes the mark of the claim back.  The last epoch before the 16-bit counter saturates
    is excepted. *)
Theorem lmp_claimed_once main epoch market c n c' :
  reachable c → epoch < u16_max → main ≠ into_account_truncating LMPRewardsPalletId →
  do_claim_lmp_rewards main epoch market c = (Ok n, c') →
  (∃ claim_blk config, LMPClaimBlk (ocex c) !! epoch = Some claim_blk
     ∧ claim_blk ≤ block_number c ∧ LMPConfigs (ocex c) !! epoch = Some config
     ∧ let '(mm, trading, claimed) := calculate_lmp_rewards (ocex c) main epoch market config in
       claimed = false ∧ dec_to_raw (saturating_add mm trading) = Some n)
  ∧ balance (bank c) Polkadex main + n ≤ balance (bank c') Polkadex main
  ∧ balance (bank c') Polkadex (into_account_truncating LMPRewardsPalletId)
    ≤ balance (bank c) Polkadex (into_account_truncating LMPRewardsPalletId) - n
  ∧ ∀ c2, rtc (λ c c', ∃ ev, step ev c c') c' c2 →
      is_ok (do_claim_lmp_rewards main epoch market c2).1 = false.
Proof.
  intros Hr He Hne Hclaim. destruct (claims_reachable main epoch market c He Hr) as [Hf _].
  pose proof (do_claim_frame _ _ _ _ _ _ Hclaim) as Hframe.
  apply do_claim_inv in Hclaim
    as (blk & config & mm & trading & k & Hblk & Hle & Hcfg & Hcalc & Hraw & Ht & <- & Hmark).
  split; [|split; [|split]].
  - exists blk, config. split_and!; try done. by rewrite Hcalc.
  - by eapply transfer_payee.
  - by eapply transfer_payer.
  - intros c2 Hs. apply marked_not_claimed.
    apply (claims_steps main epoch market He True _ _ Hs); [|done].
    unfold claims_inv. rewrite Hframe. cbn. split; [done|]. intros _. split; [by exists blk|].
    unfold marked, mark_claimed. rewrite lookup_insert_eq.
    destruct (default _ _) as [[s f] b]. by exists s, f.
Qed.
End claims.

(** ** A concrete claim

    Governance opens a market and the programme, the first epoch ends, the validators
    submit its scores, and account 1 claims its share. *)
Module ClaimsExample.
Import RefDecimal RefCrypto RefAuthority RefBank RefOcex RefLm OcexExample RuntimeExample.

Definition funded : Chain := mkChain 0 (mkBank
  {[(Polkadex, into_account_truncating LMPRewardsPalletId) := 1000000000000000%N]})
  (ocex_genesis [10; 11; 12]) lm_genesis.
Definition opening : list (Origin * (OcexCall + LmCall)) := [
  (Root, inl (CallSetExchangeState true));
  (Root, inl (CallAllowlistToken (Asset 1)));
  (Root, inl (CallAllowlistToken (Asset 2)));
  (Root, inl (CallRegisterTradingPair (Asset 1) (Asset 2) (10 ^ 12) (10 ^ 15) (10 ^ 6) (10 ^ 6)));
  (Root, inl (CallSetLmpEpochConfig (Some (10 ^ 14)) (Some (10 ^ 14))
     [mkLMPMarketConfigWrapper market UNIT_BALANCE 0 0 0 0] (Some 10) (Some 0)));
  (Root, inl CallStartNewEpochLmp)].
Definition scores : SnapshotSummary := mkSnapshotSummary 0 1 H256_zero 5 0 [] []
  (Some {[market := ({[acct 1 := ((5, 0), (1, 0))]}, ((10, 0), (4, 0)))]}).
Definition started : Chain := foldl run_call funded opening.
Definition submit_scores : OcexCall := CallSubmitSnapshot scores [(0, 10); (1, 11)].
Definition scored : Chain := (ocex_dispatch NoOrigin submit_scores started).2.

Lemma scored_reachable : reachable scored.
Proof.
  assert (reachable started) as (c0 & H0 & Hs).
  { apply run_calls_reachable; [|by repeat constructor]. exists funded. split; [|done]. by eexists _, _. }
  exists c0. split; [done|]. eapply rtc_r; [exact Hs|]. exists (OcexEvent NoOrigin submit_scores).
  apply step_ocex_unsigned. vm_compute. reflexivity.
Qed.

Lemma lmp_claimed_once_witness :
  ∃ n c', do_claim_lmp_rewards (acct 1) 0 market scored = (Ok n, c')
    ∧ is_ok (do_claim_lmp_rewards (acct 1) 0 market c').1 = false.
Proof.
  destruct (do_claim_lmp_rewards (acct 1) 0 market scored) as [r c'] eqn:H.
  assert (is_ok (do_claim_lmp_rewards (acct 1) 0 market scored).1 = true) as Hok
    by (vm_compute; reflexivity).
  rewrite H in Hok. destruct r as [n| |]; [|discriminate Hok..].
  exists n, c'. split; [reflexivity|].
  refine (proj2 (proj2 (proj2 (lmp_claimed_once gadget_keeps (acct 1) 0 market scored n c'
    scored_reachable _ _ H))) c' _); [reflexivity|vm_compute; discriminate|apply rtc_refl].
Defined.
End ClaimsExample.
