(* ===== verification/TheaTypes.v ===== *)
(** * Types of the Thea bridge

    [primitives/thea]: messages and their signatures, network configurations, and
    the conversion between the decimals of an asset on another chain and the twelve
    decimals of this one. *)

From S2P Require Import Prelude Decimal Assets Types.

(** [Network], [Message] *)
Inductive PayloadType : Type := ScheduledRotateValidators | ValidatorsRotated | L1Deposit.
#[global] Instance PayloadType_eq_dec : EqDecision PayloadType.
Proof. solve_decision. Defined.

Record Message : Type := mkMessage {
  msg_block_no : Z;
  msg_nonce : Z;
  msg_network : Z;
  msg_payload_type : PayloadType;
  msg_data : bytes;
}.
#[global] Instance Message_eq_dec : EqDecision Message.
Proof. solve_decision. Defined.

Inductive NetworkType : Type := Parachain | Evm.

Record NetworkConfig : Type := mkNetworkConfig {
  fork_period : Z;
  min_stake : Z;
  fisherman_stake : Z;
  network_type : NetworkType;
}.

(** [Default for NetworkConfig] *)
Definition default_network_config : NetworkConfig :=
  mkNetworkConfig 20 (1000 * UNIT_BALANCE) (100 * UNIT_BALANCE) Parachain.

(** [NetworkConfig::new] *)
Definition network_config_new (fork min fisherman : Z) (is_evm : bool) : NetworkConfig :=
  mkNetworkConfig fork min fisherman (if is_evm then Evm else Parachain).

Record IncomingMessage : Type := mkIncomingMessage {
  in_message : Message;
  in_relayer : AccountId;
  in_stake : Z;
  execute_at : Z;
}.

Record MisbehaviourReport : Type := mkMisbehaviourReport {
  reported_msg : IncomingMessage;
  fisherman : AccountId;
  report_stake : Z;
}.

(** [ValidatorSet::new]: [None] for an empty set *)
Definition validator_set_new {I} (validators : list I) (id : Z) : option (Z * list I) :=
  match validators with [] => None | _ => Some (id, validators) end.

(** ** Signed messages *)
Section signed_message.
Context {Sig : Type}.

Record SignedMessage : Type := mkSignedMessage {
  sm_set_id : Z;
  sm_message : Message;
  signatures : gmap N Sig;
}.

(** [SignedMessage::new] *)
Definition signed_message_new (m : Message) (set_id : Z) (auth_index : N) (sig : Sig) : SignedMessage :=
  mkSignedMessage set_id m {[auth_index := sig]}.

(** [add_signature]: another message or another set is dropped silently. *)
Definition add_signature (sm : SignedMessage) (m : Message) (set_id : Z) (auth_index : N) (sig : Sig) :
    SignedMessage :=
  if negb (bool_decide (sm_message sm = m)) then sm
  else if negb (sm_set_id sm =? set_id) then sm
  else mkSignedMessage (sm_set_id sm) (sm_message sm) (<[auth_index := sig]> (signatures sm)).

Definition threshold_reached (sm : SignedMessage) (max_len : Z) : bool :=
  if max_len =? 0 then false
  else 2 * max_len / 3 + 1 <=? Z.of_nat (size (signatures sm)).

Definition contains_signature (sm : SignedMessage) (auth_index : N) : bool :=
  bool_decide (is_Some (signatures sm !! auth_index)).

(** The threshold is more than two thirds of the set. *)
Lemma threshold_reached_spec sm n :
  0 ≤ n → threshold_reached sm n = true ↔ 0 < n ∧ 2 * n < 3 * Z.of_nat (size (signatures sm)).
Proof.
  intros Hn. unfold threshold_reached. destruct (Z.eqb_spec n 0) as [->|Hne]; [split; [done|lia]|].
  rewrite Z.leb_le. pose proof (Z.div_mod (2 * n) 3). pose proof (Z.mod_pos_bound (2 * n) 3). lia.
Qed.
End signed_message.
Arguments SignedMessage : clear implicits.

(** ** Deposits and withdrawals of the bridge *)
Inductive ExtraData : Type := NoExtra | DirectDeposit.

Record TheaDeposit : Type := mkTheaDeposit {
  td_id : H160;
  td_recipient : AccountId;
  td_asset_id : AssetId;
  td_amount : Z;
  td_extra : ExtraData;
}.

Record TheaWithdraw : Type := mkTheaWithdraw {
  tw_id : H160;
  tw_asset_id : AssetId;
  tw_amount : Z;
  tw_destination : bytes;
  tw_fee_asset_id : option AssetId;
  tw_fee_amount : option Z;
  tw_is_blocked : bool;
  tw_extra : ExtraData;
}.

(** [is_blocked = true] *)
Definition block_withdrawal (w : TheaWithdraw) : TheaWithdraw :=
  mkTheaWithdraw (tw_id w) (tw_asset_id w) (tw_amount w) (tw_destination w) (tw_fee_asset_id w)
    (tw_fee_amount w) true (tw_extra w).

(** ** Decimals

    [AssetMetadata]: the field is a [u8]; the difference is computed in [i8] and
    the power in [u128], both of which abort on overflow. *)
Definition metadata_new (decimal : Z) : option Z := if decimal <? 1 then None else Some decimal.

(** [x as i8] *)
Definition as_i8 (x : Z) : Z := if x <? 128 then x else x - 256.

(** [12 - self.decimal as i8] *)
Definition decimal_diff (decimal : Z) : option Z :=
  let diff := 12 - as_i8 decimal in
  if diff <=? 127 then Some diff else None.

(** [10u128.pow(n)] *)
Definition pow10 (n : Z) : option Z := if 10 ^ n <=? u128_max then Some (10 ^ n) else None.

Definition convert_to_native_decimals (decimal amount : Z) : option Z :=
  diff ← decimal_diff decimal;
  match diff ?= 0 with
  | Lt => p ← pow10 (- diff); Some (amount / p)
  | Eq => Some amount
  | Gt => p ← pow10 diff; Some (sat_mul 128 amount p)
  end.

Definition convert_from_native_decimals (decimal amount : Z) : option Z :=
  diff ← decimal_diff decimal;
  match diff ?= 0 with
  | Lt => p ← pow10 (- diff); Some (sat_mul 128 amount p)
  | Eq => Some amount
  | Gt => p ← pow10 diff; Some (amount / p)
  end.

Section decimals.

Lemma decimal_diff_small d : 1 ≤ d ≤ 50 → decimal_diff d = Some (12 - d).
Proof.
  intros Hd. unfold decimal_diff, as_i8. rewrite (proj2 (Z.ltb_lt _ _)) by lia.
  by rewrite (proj2 (Z.leb_le _ _)) by lia.
Qed.

Lemma pow10_small n : 0 ≤ n ≤ 38 → pow10 n = Some (10 ^ n) ∧ 0 < 10 ^ n.
Proof.
  intros Hn. split; [|apply Z.pow_pos_nonneg; lia]. unfold pow10.
  rewrite (proj2 (Z.leb_le _ _)); [done|].
  trans (10 ^ 38); [apply Z.pow_le_mono_r; lia|]. unfold u128_max, umax. lia.
Qed.

(** The two directions for an asset with fewer and with more decimals. *)
Lemma convert_coarse d x :
  1 ≤ d ≤ 12 →
  convert_from_native_decimals d x = Some (x / 10 ^ (12 - d))
  ∧ (x * 10 ^ (12 - d) ≤ u128_max → convert_to_native_decimals d x = Some (x * 10 ^ (12 - d))).
Proof.
  intros Hd. unfold convert_to_native_decimals, convert_from_native_decimals, sat_mul.
  rewrite decimal_diff_small by lia. cbn [mbind option_bind].
  destruct (pow10_small (12 - d)) as [-> _]; [lia|].
  destruct (Z.compare_spec (12 - d) 0) as [He|Hl|Hg]; [rewrite He| lia|]; cbn.
  - split; [by rewrite Z.div_1_r|]. intros _. f_equal. lia.
  - split; [done|]. unfold u128_max. intros Hx. f_equal. lia.
Qed.

Lemma convert_fine d x :
  12 < d ≤ 50 →
  convert_to_native_decimals d x = Some (x / 10 ^ (d - 12))
  ∧ (x * 10 ^ (d - 12) ≤ u128_max → convert_from_native_decimals d x = Some (x * 10 ^ (d - 12))).
Proof.
  intros Hd. unfold convert_to_native_decimals, convert_from_native_decimals, sat_mul.
  rewrite decimal_diff_small by lia. cbn [mbind option_bind].
  destruct (Z.compare_spec (12 - d) 0) as [He|Hl|Hg]; [lia| |lia].
  replace (- (12 - d)) with (d - 12) by lia. destruct (pow10_small (d - 12)) as [-> _]; [lia|]. cbn.
  split; [done|]. unfold u128_max. intros Hx. f_equal. lia.
Qed.

(** Amounts survive the change of decimals.  For an asset with up to fifty
    decimals and amounts that do not saturate, an amount taken to the finer of the
    two precisions and back is unchanged; taken to the coarser one and back it loses
    less than one unit of the coarser precision. *)
Theorem decimals_roundtrip d amount fine :
  1 ≤ d ≤ 50 → 0 ≤ amount → amount * 10 ^ Z.abs (12 - d) ≤ u128_max →
  fine = 10 ^ Z.abs (12 - d) →
  (convert_to_native_decimals d amount ≫= convert_from_native_decimals d)
  = Some (if d <=? 12 then amount else amount / fine * fine)
  ∧ (convert_from_native_decimals d amount ≫= convert_to_native_decimals d)
  = Some (if d <=? 12 then amount / fine * fine else amount).
Proof.
  intros Hd Ha Hmax ->. assert (0 < 10 ^ Z.abs (12 - d)) by (apply Z.pow_pos_nonneg; lia).
  pose proof (Z.div_pos amount (10 ^ Z.abs (12 - d))).
  pose proof (Z.mul_div_le amount (10 ^ Z.abs (12 - d))).
  assert (amount ≤ u128_max) by nia.
  destruct (Z.leb_spec d 12) as [Hle|Hgt].
  - replace (Z.abs (12 - d)) with (12 - d) in * by lia. assert (1 ≤ d ≤ 12) as Hc by lia.
    rewrite (proj2 (convert_coarse d amount Hc)), (proj1 (convert_coarse d amount Hc)) by lia. cbn.
    rewrite (proj2 (convert_coarse d (amount / _) Hc)), (proj1 (convert_coarse d _ Hc)) by lia.
    by rewrite Z.div_mul by lia.
  - replace (Z.abs (12 - d)) with (d - 12) in * by lia. assert (12 < d ≤ 50) as Hc by lia.
    rewrite (proj2 (convert_fine d amount Hc)), (proj1 (convert_fine d amount Hc)) by lia. cbn.
    rewrite (proj2 (convert_fine d (amount / _) Hc)), (proj1 (convert_fine d _ Hc)) by lia.
    by rewrite Z.div_mul by lia.
Qed.

(** An asset with 18 decimals. *)
Lemma decimals_roundtrip_witness :
  (convert_to_native_decimals 18 1234567891234567890 ≫= convert_from_native_decimals 18)
  = Some 1234567891234000000.
Proof.
  apply (decimals_roundtrip 18 1234567891234567890 (10 ^ 6));
    [lia|lia|vm_compute; discriminate|reflexivity].
Defined.
End decimals.
