(* ===== verification/Thea.v ===== *)
(** * The Thea pallet

    [pallets/thea/src/lib.rs], [session.rs] and [validation.rs]: a message bridge.
    Outgoing messages are signed by the validators; incoming messages are submitted
    by staked relayers, wait for a fork period in which fishermen can report them,
    and are executed at the start of a block. *)

From S2P Require Import Prelude Decimal Assets Bank Types Chain TheaTypes.

(** Session keys of the bridge and [sp_io]'s hashing and ECDSA functions. *)
Class TheaCrypto := {
  TheaId : Type;
  TheaId_eq_dec :: EqDecision TheaId;
  TheaId_countable :: Countable TheaId;
  TheaSig : Type;
  sha2_256 : bytes → H256;
  ecdsa_verify_prehashed : TheaSig → H256 → TheaId → bool;
  (** [None] if the key is not in the keystore *)
  ecdsa_sign_prehashed : TheaId → H256 → option TheaSig;
  enc_message : Message → bytes;
  enc_validator_set : Z * list TheaId → bytes;
}.

(** The rest of the runtime: balances with holds for the reason [Relayer], and the
    executor of incoming messages. *)
Class TheaWorld := {
  World : Type;
  WorldError : Type;
  (** [TheaIncomingExecutor::execute_deposits] *)
  execute_deposits : Z → bytes → M World WorldError unit;
  (** [hold], [release(.., BestEffort)] *)
  hold : AccountId → Z → M World WorldError unit;
  release : AccountId → Z → M World WorldError unit;
  (** [transfer(from, to, amount, Expendable)] *)
  native_transfer : AccountId → AccountId → Z → M World WorldError unit;
  (** [burn_from(who, amount, Expendable, BestEffort, Force)] *)
  native_burn : AccountId → Z → M World WorldError unit;
  (** [reducible_balance(who, Preserve, Polite)] *)
  native_reducible : World → AccountId → Z;
  (** Observations: the balance outside and under the hold *)
  native_free : World → AccountId → Z;
  on_hold : World → AccountId → Z;
}.

(** The documented behaviour of the currency that the theorems use. *)
Class TheaWorldLaws `{TheaWorld} : Prop := {
  hold_ok w a n w' : hold a n w = (Ok tt, w') →
    native_free w' a = native_free w a - n ∧ on_hold w' a = on_hold w a + n;
  hold_frame w a n w' b : hold a n w = (Ok tt, w') → b ≠ a →
    native_free w' b = native_free w b ∧ on_hold w' b = on_hold w b;
  (** [BestEffort]: at most what is held is released. *)
  release_ok w a n w' : release a n w = (Ok tt, w') → 0 ≤ n →
    native_free w' a = native_free w a + Z.min n (on_hold w a)
    ∧ on_hold w' a = on_hold w a - Z.min n (on_hold w a);
  release_frame w a n w' b : release a n w = (Ok tt, w') → b ≠ a →
    native_free w' b = native_free w b ∧ on_hold w' b = on_hold w b;
  (** Transfers and burns do not touch what is held. *)
  native_transfer_ok w a b n w' : native_transfer a b n w = (Ok tt, w') → a ≠ b →
    native_free w' a ≤ native_free w a - n ∧ native_free w b + n ≤ native_free w' b
    ∧ ∀ c, on_hold w' c = on_hold w c;
  native_burn_ok w a n w' : native_burn a n w = (Ok tt, w') → 0 ≤ n →
    on_hold w' a = on_hold w a
    ∧ (n ≤ native_reducible w a → native_free w' a = native_free w a - n);
}.

Section thea.
Context {TC : TheaCrypto} {TW : TheaWorld}.

Record TheaStorage : Type := mkTheaStorage {
  Authorities : gmap Z (list TheaId);
  ValidatorSetId : Z;
  NextAuthorities : list TheaId;
  OutgoingMessages : gmap (Z * Z) Message;
  SignedOutgoingMessages : gmap (Z * Z) (SignedMessage TheaSig);
  IncomingMessagesQueue : gmap (Z * Z) IncomingMessage;
  IncomingMessages : gmap (Z * Z) Message;
  IncomingNonce : gmap Z Z;
  OutgoingNonce : gmap Z Z;
  SignedOutgoingNonce : gmap Z Z;
  ActiveNetworks : gset Z;
  NetworkConfigs : gmap Z NetworkConfig;
  MisbehaviourReports : gmap (Z * Z) MisbehaviourReport;
  AllowListTestingRelayers : gmap Z AccountId;
}.
#[export] Instance eta_TheaStorage : Eta TheaStorage := λ r, {|
  Authorities := Authorities r; ValidatorSetId := ValidatorSetId r;
  NextAuthorities := NextAuthorities r; OutgoingMessages := OutgoingMessages r;
  SignedOutgoingMessages := SignedOutgoingMessages r;
  IncomingMessagesQueue := IncomingMessagesQueue r; IncomingMessages := IncomingMessages r;
  IncomingNonce := IncomingNonce r; OutgoingNonce := OutgoingNonce r;
  SignedOutgoingNonce := SignedOutgoingNonce r; ActiveNetworks := ActiveNetworks r;
  NetworkConfigs := NetworkConfigs r; MisbehaviourReports := MisbehaviourReports r;
  AllowListTestingRelayers := AllowListTestingRelayers r;
|}.

Record TheaChain : Type := mkTheaChain {
  t_block : Z;
  thea : TheaStorage;
  world : World;
}.
#[export] Instance eta_TheaChain : Eta TheaChain := λ r, {|
  t_block := t_block r; thea := thea r; world := world r;
|}.

Inductive TheaError : Type :=
| MessageNonce | NotEnoughStake | MessageNotFound | NonceError | InvalidValidatorSetId
| EmptyValidatorSet | OutgoingMessageSlotOccupied | OutgoingNonceBelowFinalized
| ForkPeriodTooShort | MessageAlreadyExecuted | TheaBadOrigin | WorldErr (e : WorldError).

Abbreviation TM := (M TheaChain TheaError).

Definition upd_thea (f : TheaStorage → TheaStorage) : TM unit :=
  modify (λ c, c <| thea ::= f |>).
Definition world_call {A} (m : M World WorldError A) : TM A := λ c,
  match m (world c) with
  | (Ok a, w) => (Ok a, c <| world := w |>)
  | (Err e, w) => (Err (WorldErr e), c <| world := w |>)
  | (Panic, w) => (Panic, c <| world := w |>)
  end.
Definition thea_signed (o : Origin) : TM AccountId :=
  match o with Signed who => mret who | _ => fail TheaBadOrigin end.
Definition thea_root (o : Origin) : TM unit :=
  match o with Root => mret tt | _ => fail TheaBadOrigin end.
Definition thea_none (o : Origin) : TM unit :=
  match o with NoOrigin => mret tt | _ => fail TheaBadOrigin end.

(** [ValueQuery] storage reads *)
Definition nonce_of (m : gmap Z Z) (network : Z) : Z := default 0 (m !! network).
Definition authorities_of (s : TheaStorage) (id : Z) : list TheaId :=
  default [] (Authorities s !! id).
Definition config_of (s : TheaStorage) (network : Z) : NetworkConfig :=
  default default_network_config (NetworkConfigs s !! network).
Definition active_validators (s : TheaStorage) : list TheaId :=
  authorities_of s (ValidatorSetId s).

(** ** Start of a block *)

(** [with_transaction]: the executor's changes are kept only if it succeeds. *)
Definition isolated (m : M World WorldError unit) : TM bool := λ c,
  match m (world c) with
  | (Ok _, w) => (Ok true, c <| world := w |>)
  | (Err _, _) => (Ok false, c)
  | (Panic, w) => (Panic, c <| world := w |>)
  end.

Definition process_incoming (blk network : Z) : TM unit :=
  s ← gets thea;
  let next_nonce := sat_add 64 (nonce_of (IncomingNonce s) network) 1 in
  match IncomingMessagesQueue s !! (network, next_nonce) with
  | None => mret tt
  | Some msg =>
      upd_thea (λ s, s <| IncomingMessagesQueue ::= delete (network, next_nonce) |>) ;;
      if execute_at msg <=? saturated_into 32 blk then
        let m := in_message msg in
        executed ← isolated (execute_deposits (msg_network m) (msg_data m));
        upd_thea (λ s, s <| IncomingNonce ::= <[msg_network m := next_nonce]> |>) ;;
        (if executed : bool
         then upd_thea (λ s, s <| IncomingMessages ::= <[(msg_network m, msg_nonce m) := m]> |>)
         else mret tt) ;;
        swallow (world_call (release (in_relayer msg) (in_stake msg)))
      else mret tt
  end.

Definition thea_on_initialize (blk : Z) : TM unit :=
  s ← gets thea;
  for_each (btree_elements (ActiveNetworks s)) (process_incoming blk).

(** ** Outgoing messages *)
Definition generate_payload (blk : Z) (s : TheaStorage) (ty : PayloadType) (network : Z)
    (data : bytes) : Message :=
  mkMessage blk (sat_add 64 (nonce_of (OutgoingNonce s) network) 1) network ty data.

(** Stores a message and the nonce it has. *)
Definition push_message (m : Message) (s : TheaStorage) : TheaStorage :=
  s <| OutgoingNonce ::= <[msg_network m := msg_nonce m]> |>
    <| OutgoingMessages ::= <[(msg_network m, msg_nonce m) := m]> |>.

Definition execute_withdrawals (network : Z) (data : bytes) : TM unit :=
  c ← get_state;
  let payload := generate_payload (t_block c) (thea c) L1Deposit network data in
  ensure (bool_decide (OutgoingMessages (thea c) !! (network, msg_nonce payload) = None))
    OutgoingMessageSlotOccupied ;;
  upd_thea (push_message payload).

Definition get_outgoing_nonce (s : TheaStorage) (network : Z) : Z :=
  sat_add 64 (nonce_of (OutgoingNonce s) network) 1.

(** ** Dispatchables *)
Definition submit_incoming_message (origin : Origin) (payload : Message) (stake : Z) : TM unit :=
  transactional (
  signer ← thea_signed origin;
  c ← get_state;
  let s := thea c in
  let config := config_of s (msg_network payload) in
  ensure (negb (stake <? min_stake config)) NotEnoughStake ;;
  ensure (nonce_of (IncomingNonce s) (msg_network payload) <? msg_nonce payload) NonceError ;;
  let at_block := sat_add 32 (saturated_into 32 (t_block c)) (fork_period config) in
  let queued := mkIncomingMessage payload signer stake at_block in
  match IncomingMessagesQueue s !! (msg_network payload, msg_nonce payload) with
  | None =>
      world_call (hold signer stake) ;;
      upd_thea (λ s, s <| IncomingMessagesQueue ::=
        <[(msg_network payload, msg_nonce payload) := queued]> |>)
  | Some existing =>
      if in_stake existing <? stake then
        world_call (release (in_relayer existing) (in_stake existing)) ;;
        world_call (hold signer stake) ;;
        upd_thea (λ s, s <| IncomingMessagesQueue ::=
          <[(msg_network payload, msg_nonce payload) := queued]> |>)
      else mret tt
  end).

Definition send_thea_message (origin : Origin) (data : bytes) (network : Z) : TM unit :=
  transactional (thea_root origin ;; execute_withdrawals network data).

Definition update_incoming_nonce (origin : Origin) (nonce network : Z) : TM unit :=
  transactional (
  thea_root origin ;;
  upd_thea (λ s, s <| IncomingNonce ::= <[network := nonce]> |>)).

Definition update_outgoing_nonce (origin : Origin) (nonce network : Z) : TM unit :=
  transactional (
  thea_root origin ;;
  s ← gets thea;
  ensure (nonce_of (OutgoingNonce s) network <=? nonce) OutgoingNonceBelowFinalized ;;
  upd_thea (λ s, s <| OutgoingNonce ::= <[network := nonce]> |>)).

Definition add_thea_network (origin : Origin) (network : Z) (is_evm : bool)
    (fork min fisherman : Z) : TM unit :=
  thea_root origin ;;
  ensure (2 <=? fork) ForkPeriodTooShort ;;
  upd_thea (λ s, s <| NetworkConfigs ::= <[network := network_config_new fork min fisherman is_evm]> |>) ;;
  upd_thea (λ s, s <| ActiveNetworks ::= ({[network]} ∪.) |>).

Definition remove_thea_network (origin : Origin) (network : Z) : TM unit :=
  thea_root origin ;;
  upd_thea (λ s, s <| ActiveNetworks ::= (.∖ {[network]}) |>).

(** One signature of [submit_signed_outgoing_messages]: the first one opens the
    collection, the later ones are checked against the threshold. *)
Definition store_signature (auth_index : N) (id auth_len : Z) (entry : Z * Z * TheaSig) : TM unit :=
  let '(network, nonce, signature) := entry in
  s ← gets thea;
  message ← ok_or (OutgoingMessages s !! (network, nonce)) MessageNotFound;
  match SignedOutgoingMessages s !! (network, nonce) with
  | None =>
      upd_thea (λ s, s <| SignedOutgoingMessages ::=
        <[(network, nonce) := signed_message_new message id auth_index signature]> |>)
  | Some signed_msg =>
      let signed_msg := add_signature signed_msg message id auth_index signature in
      (if threshold_reached signed_msg auth_len
       then upd_thea (λ s, s <| SignedOutgoingNonce ::= <[network := nonce]> |>)
       else mret tt) ;;
      upd_thea (λ s, s <| SignedOutgoingMessages ::= <[(network, nonce) := signed_msg]> |>)
  end.

Definition submit_signed_outgoing_messages (origin : Origin) (auth_index : N) (id : Z)
    (entries : list (Z * Z * TheaSig)) : TM unit :=
  transactional (
  thea_none origin ;;
  s ← gets thea;
  ensure (id =? ValidatorSetId s) InvalidValidatorSetId ;;
  let authorities := authorities_of s (ValidatorSetId s) in
  ensure (negb (bool_decide (authorities = []))) EmptyValidatorSet ;;
  for_each entries (store_signature auth_index id (Z.of_nat (length authorities)))).

Definition report_misbehaviour (origin : Origin) (network nonce : Z) : TM unit :=
  transactional (
  who ← thea_signed origin;
  c ← get_state;
  let config := config_of (thea c) network in
  ensure (negb (native_reducible (world c) who <? fisherman_stake config)) NotEnoughStake ;;
  world_call (hold who (fisherman_stake config)) ;;
  match IncomingMessagesQueue (thea c) !! (network, nonce) with
  | None =>
      if bool_decide (is_Some (IncomingMessages (thea c) !! (network, nonce)))
      then fail MessageAlreadyExecuted else fail MessageNotFound
  | Some reported =>
      upd_thea (λ s, s <| IncomingMessagesQueue ::= delete (network, nonce) |>) ;;
      upd_thea (λ s, s <| MisbehaviourReports ::=
        <[(network, nonce) := mkMisbehaviourReport reported who (fisherman_stake config)]> |>)
  end).

Context (TheaGovernanceOrigin : Origin → bool).

Definition handle_misbehaviour (origin : Origin) (network nonce : Z) (acceptance : bool) :
    TM unit :=
  transactional (
  ensure (TheaGovernanceOrigin origin) TheaBadOrigin ;;
  s ← gets thea;
  match MisbehaviourReports s !! (network, nonce) with
  | None => mret tt
  | Some report =>
      upd_thea (λ s, s <| MisbehaviourReports ::= delete (network, nonce) |>) ;;
      let msg := reported_msg report in
      if acceptance then
        world_call (release (in_relayer msg) (in_stake msg)) ;;
        world_call (native_transfer (in_relayer msg) (fisherman report) (in_stake msg)) ;;
        world_call (release (fisherman report) (report_stake report))
      else
        upd_thea (λ s, s <| IncomingMessagesQueue ::=
          <[(msg_network (in_message msg), msg_nonce (in_message msg)) := msg]> |>) ;;
        world_call (native_burn (fisherman report) (report_stake report))
  end).

Definition add_relayer_origin_for_network (origin : Origin) (network : Z) (relayer : AccountId) :
    TM unit :=
  thea_root origin ;;
  upd_thea (λ s, s <| AllowListTestingRelayers ::= <[network := relayer]> |>).

(** ** Validation of unsigned transactions; the number is the custom code *)
Definition validate_entry (s : TheaStorage) (signer : TheaId) (auth_index : N)
    (entry : Z * Z * TheaSig) : res Z unit :=
  let '(network, nonce, signature) := entry in
  if negb (nonce =? sat_add 64 (nonce_of (SignedOutgoingNonce s) network) 1) then Err 2
  else if match SignedOutgoingMessages s !! (network, nonce) with
          | None => false
          | Some signed_msg => contains_signature signed_msg auth_index
          end then Err 4
  else match OutgoingMessages s !! (network, nonce) with
       | None => Err 3
       | Some message =>
           if ecdsa_verify_prehashed signature (sha2_256 (enc_message message)) signer
           then Ok tt else Err 6
       end.

Fixpoint validate_entries (s : TheaStorage) (signer : TheaId) (auth_index : N)
    (entries : list (Z * Z * TheaSig)) : res Z unit :=
  match entries with
  | [] => Ok tt
  | e :: entries =>
      match validate_entry s signer auth_index e with
      | Ok _ => validate_entries s signer auth_index entries
      | r => r
      end
  end.

Definition validate_signed_outgoing_message (s : TheaStorage) (auth_index : N) (id : Z)
    (entries : list (Z * Z * TheaSig)) : res Z unit :=
  if negb (id =? ValidatorSetId s) then Err 7
  else let authorities := authorities_of s (ValidatorSetId s) in
       if bool_decide (authorities = []) then Err 8
       else match authorities !! N.to_nat auth_index with
            | None => Err 1
            | Some signer => validate_entries s signer auth_index entries
            end.

(** ** Sessions *)
Context (MaxAuthorities : Z).

(** [BoundedVec::truncate_from] *)
Definition truncate_from (l : list TheaId) : list TheaId := take (Z.to_nat MaxAuthorities) l.

Definition thea_initialize_authorities (l : list TheaId) (s : TheaStorage) : TheaStorage :=
  s <| ValidatorSetId := 0 |> <| Authorities ::= <[0 := truncate_from l]> |>.

(** Announces the set after next to a network.  The key list for EVM networks is
    always empty, because its computation is disabled. *)
Definition rotation_payload (s : TheaStorage) (new_id : Z) (queued : list TheaId) (network : Z) :
    option bytes :=
  match network_type (config_of s network) with
  | Evm => None
  | Parachain => enc_validator_set <$> validator_set_new queued new_id
  end.

Definition schedule_rotation (blk new_id : Z) (queued : list TheaId)
    (acc : TheaStorage * gset Z) (network : Z) : TheaStorage * gset Z :=
  let '(s, scheduled) := acc in
  match rotation_payload s new_id queued network with
  | None => (s, scheduled)
  | Some data =>
      (push_message (generate_payload blk s ScheduledRotateValidators network data) s,
       {[network]} ∪ scheduled)
  end.

(** Empties the signatures collected for one message. *)
Definition reset_signed (new_id network : Z) (s : TheaStorage) (nonce : Z) : TheaStorage :=
  match SignedOutgoingMessages s !! (network, nonce) with
  | None => s
  | Some sm => s <| SignedOutgoingMessages ::=
                     <[(network, nonce) := mkSignedMessage new_id (sm_message sm) ∅]> |>
  end.

(** The nonces [signed + 1 ..= outgoing] of a network *)
Definition pending_nonces (s : TheaStorage) (network : Z) : list Z :=
  let first := sat_add 64 (nonce_of (SignedOutgoingNonce s) network) 1 in
  seqZ first (nonce_of (OutgoingNonce s) network - first + 1).

Definition reset_network (new_id : Z) (s : TheaStorage) (network : Z) : TheaStorage :=
  foldl (reset_signed new_id network) s (pending_nonces s network).

Definition announce_rotated (blk : Z) (block1_ran : bool) (scheduled : gset Z) (s : TheaStorage)
    (network : Z) : TheaStorage :=
  if block1_ran && negb (bool_decide (network ∈ scheduled)) then s
  else push_message (generate_payload blk s ValidatorsRotated network []) s.

(** Replaces the active set, and drops the set two before it. *)
Definition rotate_set (new_id : Z) (incoming : list TheaId) (s : TheaStorage) : TheaStorage :=
  s <| Authorities ::= <[new_id := incoming]> |> <| ValidatorSetId := new_id |>
    <| Authorities ::= delete (sat_sub new_id 2) |>.

(** [None] is the overflow of [id + 1]. *)
Definition change_authorities (blk : Z) (incoming queued : list TheaId) (s : TheaStorage) :
    option TheaStorage :=
  let id := ValidatorSetId s in
  let outgoing := authorities_of s id in
  new_id ← checked_add_u 64 id 1;
  let networks := btree_elements (ActiveNetworks s) in
  let incoming_set : gset TheaId := list_to_set incoming in
  let block1_ran := negb (bool_decide (incoming_set = list_to_set queued)) in
  let '(s, scheduled) :=
    if block1_ran
    then let '(s, scheduled) := foldl (schedule_rotation blk new_id queued) (s, ∅) networks in
         (s <| NextAuthorities := queued |>, scheduled)
    else (s, ∅) in
  Some (if bool_decide (incoming_set = list_to_set outgoing) then s
        else let s := rotate_set new_id incoming s in
             let s := foldl (reset_network new_id) s networks in
             foldl (announce_rotated blk block1_ran scheduled) s networks).

Definition thea_on_new_session (validators queued : list TheaId) (c : TheaChain) :
    option TheaChain :=
  s ← change_authorities (t_block c) (truncate_from validators) (truncate_from queued) (thea c);
  Some (c <| thea := s |>).

(** ** The off-chain worker: the signatures it computes, and drops, because their
    submission is disabled.  The keystore lists its keys in increasing order, as the
    binary search of the code presumes. *)
Fixpoint first_local_key (local : list TheaId) (authorities : list TheaId) (i : N) :
    option (N * TheaId) :=
  match authorities with
  | [] => None
  | a :: l => if bool_decide (a ∈ local) then Some (i, a) else first_local_key local l (N.succ i)
  end.

Definition sign_next (s : TheaStorage) (auth_index : N) (signer : TheaId) (network : Z) :
    res string (list (Z * Z * TheaSig)) :=
  let next := sat_add 64 (nonce_of (SignedOutgoingNonce s) network) 1 in
  if match SignedOutgoingMessages s !! (network, next) with
     | None => false
     | Some signed_msg => contains_signature signed_msg auth_index
     end then Ok []
  else match OutgoingMessages s !! (network, next) with
       | None => Ok []
       | Some message =>
           match ecdsa_sign_prehashed signer (sha2_256 (enc_message message)) with
           | Some sig => Ok [(network, next, sig)]
           | None => Err "Expected signature to be returned"
           end
       end.

Fixpoint sign_networks (s : TheaStorage) (auth_index : N) (signer : TheaId) (l : list Z) :
    res string (list (Z * Z * TheaSig)) :=
  match l with
  | [] => Ok []
  | network :: l =>
      match sign_next s auth_index signer network with
      | Ok x => match sign_networks s auth_index signer l with
                | Ok y => Ok (x ++ y)
                | r => r
                end
      | r => r
      end
  end.

Definition run_thea_validation (s : TheaStorage) (is_validator : bool) (local : list TheaId) :
    res string (option (N * list (Z * Z * TheaSig))) :=
  if negb is_validator then Ok None
  else match first_local_key local (active_validators s) 0%N with
       | None => Err "No active keys available"
       | Some (auth_index, signer) =>
           match sign_networks s auth_index signer (btree_elements (ActiveNetworks s)) with
           | Ok l => Ok (Some (auth_index, l))
           | Err e => Err e
           | Panic => Panic
           end
       end.

(** ** All dispatchables *)
Inductive TheaCall : Type :=
| SubmitIncomingMessage (payload : Message) (stake : Z)
| SendTheaMessage (data : bytes) (network : Z)
| UpdateIncomingNonce (nonce network : Z)
| UpdateOutgoingNonce (nonce network : Z)
| AddTheaNetwork (network : Z) (is_evm : bool) (fork min fisherman : Z)
| RemoveTheaNetwork (network : Z)
| SubmitSignedOutgoing (auth_index : N) (id : Z) (entries : list (Z * Z * TheaSig))
| ReportMisbehaviour (network nonce : Z)
| HandleMisbehaviour (network nonce : Z) (acceptance : bool)
| AddRelayerOrigin (network : Z) (relayer : AccountId).

Definition thea_dispatch (o : Origin) (call : TheaCall) : TM unit :=
  transactional
    match call with
    | SubmitIncomingMessage p st => submit_incoming_message o p st
    | SendTheaMessage d n => send_thea_message o d n
    | UpdateIncomingNonce k n => update_incoming_nonce o k n
    | UpdateOutgoingNonce k n => update_outgoing_nonce o k n
    | AddTheaNetwork n e f m fi => add_thea_network o n e f m fi
    | RemoveTheaNetwork n => remove_thea_network o n
    | SubmitSignedOutgoing i id l => submit_signed_outgoing_messages o i id l
    | ReportMisbehaviour n k => report_misbehaviour o n k
    | HandleMisbehaviour n k a => handle_misbehaviour o n k a
    | AddRelayerOrigin n r => add_relayer_origin_for_network o n r
    end.

Definition thea_validate_unsigned (s : TheaStorage) (call : TheaCall) : bool :=
  match call with
  | SubmitSignedOutgoing i id l => is_ok (validate_signed_outgoing_message s i id l)
  | _ => false
  end.
End thea.

(** ** A concrete instance, to evaluate the model

    Keys are numbers and a signature names its signer; an account has a free and a
    held balance; deposits of empty messages fail. *)
Module RefThea.
#[export] Instance ref_thea_crypto : TheaCrypto := {|
  TheaId := Z;
  TheaSig := Z;
  sha2_256 l := pad 32 l;
  ecdsa_verify_prehashed sig _ a := sig =? a;
  ecdsa_sign_prehashed a _ := Some a;
  enc_message := msg_data;
  enc_validator_set _ := [x00];
|}.

Abbreviation purses := (gmap AccountId (Z * Z)).
Definition purse_of (w : purses) (a : AccountId) : Z * Z := default (0, 0) (w !! a).

(** Moves [n] from the free to the held balance. *)
Definition shift (a : AccountId) (n : Z) (w : purses) : purses :=
  <[a := ((purse_of w a).1 - n, (purse_of w a).2 + n)]> w.
Definition credit (a : AccountId) (n : Z) (w : purses) : purses :=
  <[a := ((purse_of w a).1 + n, (purse_of w a).2)]> w.

#[export] Instance ref_thea_world : TheaWorld := {|
  World := purses;
  WorldError := unit;
  execute_deposits _ data w := match data with [] => (Err tt, w) | _ => (Ok tt, w) end;
  hold a n w := if n <=? (purse_of w a).1 then (Ok tt, shift a n w) else (Err tt, w);
  release a n w := (Ok tt, shift a (- Z.min n (purse_of w a).2) w);
  native_transfer a b n w :=
    if n <=? (purse_of w a).1 then (Ok tt, credit b n (credit a (- n) w)) else (Err tt, w);
  native_burn a n w :=
    (Ok tt, credit a (- Z.max 0 (Z.min n (purse_of w a).1)) w);
  native_reducible w a := (purse_of w a).1;
  native_free w a := (purse_of w a).1;
  on_hold w a := (purse_of w a).2;
|}.

Lemma purse_of_insert (w : purses) a p b :
  purse_of (<[a := p]> w) b = if decide (b = a) then p else purse_of w b.
Proof.
  unfold purse_of. case_decide as Hd; [subst; by rewrite lookup_insert_eq|].
  by rewrite lookup_insert_ne.
Qed.

#[export] Instance ref_thea_world_laws : TheaWorldLaws.
Proof.
  split; cbn; unfold shift, credit; intros; repeat case_match; simplify_eq; repeat split; intros;
    repeat (rewrite purse_of_insert; case_decide; simplify_eq; cbn); try lia; congruence.
Qed.
End RefThea.
