(* ===== verification/TheaProps.v ===== *)
(** * Properties of the Thea bridge

    The chain is a state machine whose steps are the calls of the pallet, the start
    of a block, a change of session, and anything the rest of the runtime does to
    its own state.  The reachable states satisfy [thea_inv]: outgoing messages sit
    in their slots, and the signatures collected by the active set are valid. *)

From S2P Require Import Prelude Decimal Assets Bank Types Chain TheaTypes Thea.

Section invariants.
Context {TC : TheaCrypto} {TW : TheaWorld}.
Context (GovernanceOrigin : Origin → bool) (MaxAuthorities : Z).
Implicit Types (s : TheaStorage) (c : TheaChain) (n k : Z).

(** [sig] is the signature of the active validator [i] on [m]. *)
Definition signed_by s (m : Message) (i : N) (sig : TheaSig) : Prop :=
  ∃ a, active_validators s !! N.to_nat i = Some a
    ∧ ecdsa_verify_prehashed sig (sha2_256 (enc_message m)) a = true.

Definition slots_inv s : Prop :=
  ∀ n k m, OutgoingMessages s !! (n, k) = Some m →
    0 ≤ k ≤ nonce_of (OutgoingNonce s) n ∧ msg_network m = n ∧ msg_nonce m = k.

Definition signed_inv s : Prop :=
  ∀ n k sm, SignedOutgoingMessages s !! (n, k) = Some sm →
    sm_set_id sm ≤ ValidatorSetId s
    ∧ (sm_set_id sm = ValidatorSetId s →
       ∀ i sig, signatures sm !! i = Some sig → signed_by s (sm_message sm) i sig).

Definition nonces_inv s : Prop :=
  ∀ n, is_u 64 (nonce_of (OutgoingNonce s) n) ∧ is_u 64 (nonce_of (SignedOutgoingNonce s) n).

Definition thea_inv s : Prop := slots_inv s ∧ signed_inv s ∧ nonces_inv s.

Lemma nonce_of_insert (m : gmap Z Z) n k n' :
  nonce_of (<[n := k]> m) n' = if decide (n' = n) then k else nonce_of m n'.
Proof.
  unfold nonce_of. case_decide as Hd; [subst; by rewrite lookup_insert_eq|].
  by rewrite lookup_insert_ne.
Qed.

(** ** Steps *)
Inductive thea_event : Type :=
| TheaCallEvent (o : Origin) (call : TheaCall)
| TheaBlockEvent
| TheaSessionEvent (validators queued : list TheaId)
| WorldEvent (w : World).

(** The nonce of a call is a [u64]. *)
Definition call_typed (call : TheaCall) : Prop :=
  match call with
  | UpdateOutgoingNonce k _ | UpdateIncomingNonce k _ => is_u 64 k
  | _ => True
  end.

Abbreviation dispatch := (thea_dispatch GovernanceOrigin).

Inductive thea_step : thea_event → TheaChain → TheaChain → Prop :=
| thea_step_call o call c :
    o ≠ NoOrigin → call_typed call → thea_step (TheaCallEvent o call) c (dispatch o call c).2
| thea_step_unsigned call c :
    thea_validate_unsigned (thea c) call = true →
    thea_step (TheaCallEvent NoOrigin call) c (dispatch NoOrigin call c).2
| thea_step_block c c' u :
    thea_on_initialize (t_block c + 1) (c <| t_block ::= λ b, b + 1 |>) = (Ok u, c') →
    thea_step TheaBlockEvent c c'
| thea_step_session v q c c' :
    thea_on_new_session MaxAuthorities v q c = Some c' → thea_step (TheaSessionEvent v q) c c'
| thea_step_world w c : thea_step (WorldEvent w) c (c <| world := w |>).

Definition empty_storage : TheaStorage :=
  mkTheaStorage ∅ 0 [] ∅ ∅ ∅ ∅ ∅ ∅ ∅ ∅ ∅ ∅ ∅.
Definition thea_genesis c : Prop :=
  ∃ w keys, c = mkTheaChain 0 (thea_initialize_authorities MaxAuthorities keys empty_storage) w.
Definition thea_reachable c : Prop :=
  ∃ c0, thea_genesis c0 ∧ rtc (λ c c', ∃ ev, thea_step ev c c') c0 c.

(** ** The rest of the runtime does not touch the storage of the pallet *)
Section frames.
Context (I : TheaStorage → Prop).
Abbreviation lifted := (λ c : TheaChain, I (thea c)).

Lemma world_call_frame {A} (m : M World WorldError A) : preserves lifted (world_call m).
Proof. intros c Hc. unfold world_call. by destruct (m (world c)) as [[]]. Qed.
Lemma isolated_frame m : preserves lifted (isolated m).
Proof. intros c Hc. unfold isolated. by destruct (m (world c)) as [[]]. Qed.
End frames.
#[local] Hint Extern 1 (keeps _ (world_call _)) => apply preserves_keeps, world_call_frame : keeps.
#[local] Hint Extern 1 (keeps _ (isolated _)) => apply preserves_keeps, isolated_frame : keeps.
#[local] Hint Extern 1 (keeps _ (swallow (world_call _))) =>
  apply preserves_keeps, preserves_swallow, world_call_frame : keeps.

Ltac thea_keeps := unfold upd_thea, thea_signed, thea_root, thea_none; keeps_auto.

(** ** Preservation: outgoing messages *)
Lemma sat_succ_u64 k : is_u 64 k → is_u 64 (sat_add 64 k 1) ∧ k ≤ sat_add 64 k 1 ≤ k + 1.
Proof. unfold is_u, sat_add, umax. lia. Qed.

Lemma push_message_inv s m :
  thea_inv s → msg_nonce m = sat_add 64 (nonce_of (OutgoingNonce s) (msg_network m)) 1 →
  thea_inv (push_message m s).
Proof.
  intros (Hs & Hg & Hn) Hm.
  destruct (sat_succ_u64 (nonce_of (OutgoingNonce s) (msg_network m))) as [Hu Hle]; [apply Hn|].
  rewrite <- Hm in Hu, Hle. split; [|split; [exact Hg|]].
  - intros n k m' Hk. cbn in *. rewrite nonce_of_insert.
    destruct (decide ((n, k) = (msg_network m, msg_nonce m))) as [[= -> ->]|Hne].
    + rewrite lookup_insert_eq in Hk. injection Hk as <-. rewrite decide_True by done.
      destruct Hu. split; [lia|done].
    + rewrite lookup_insert_ne in Hk by done. destruct (Hs n k m' Hk) as (Hk' & <- & <-).
      split; [|done]. case_decide as Hd; [rewrite Hd in Hk'; lia|lia].
  - intros n. cbn. rewrite nonce_of_insert. case_decide; [subst|]; (split; [|apply Hn]); [done|apply Hn].
Qed.

Lemma execute_withdrawals_keeps n data : keeps (λ c, thea_inv (thea c)) (execute_withdrawals n data).
Proof.
  unfold execute_withdrawals, upd_thea. intros c u c' Hc H. inv_run. cbn.
  by apply push_message_inv.
Qed.

(** ** Preservation: signatures *)
Lemma signed_by_frame s s' m i sig :
  active_validators s' = active_validators s → signed_by s m i sig → signed_by s' m i sig.
Proof. unfold signed_by. by intros ->. Qed.

(** A validated entry of the signature list: the next nonce, a signature of the
    validator [i] on the message in the slot. *)
Definition entry_valid s (i : N) (e : Z * Z * TheaSig) : Prop :=
  ∃ m, OutgoingMessages s !! e.1 = Some m ∧ signed_by s m i e.2
    ∧ e.1.2 = sat_add 64 (nonce_of (SignedOutgoingNonce s) e.1.1) 1.

Lemma validate_entries_valid s a i l :
  active_validators s !! N.to_nat i = Some a → validate_entries s a i l = Ok tt →
  Forall (entry_valid s i) l.
Proof.
  intros Ha. induction l as [|[[n k] sig] l IH]; intros Hv; [constructor|].
  cbn [validate_entries] in Hv. destruct (validate_entry s a i (n, k, sig)) as [[]| |] eqn:He;
    [|done..]. constructor; [|by apply IH]. unfold validate_entry in He.
  destruct (Z.eqb_spec k (sat_add 64 (nonce_of (SignedOutgoingNonce s) n) 1)) as [Hk|]; [|done].
  cbn [negb] in He.
  destruct (match SignedOutgoingMessages s !! (n, k) with
    None => false | Some sm => contains_signature sm i end); [done|].
  destruct (OutgoingMessages s !! (n, k)) as [m|] eqn:Hm; [|done].
  destruct (ecdsa_verify_prehashed _ _ _) eqn:Hs; [|done].
  exists m. split; [done|]. split; [by exists a|done].
Qed.

Lemma validated_submission s i id l :
  is_ok (validate_signed_outgoing_message s i id l) = true →
  id = ValidatorSetId s ∧ active_validators s ≠ [] ∧ Forall (entry_valid s i) l.
Proof.
  unfold validate_signed_outgoing_message, active_validators.
  destruct (Z.eqb_spec id (ValidatorSetId s)) as [->|]; [|done]. cbn [negb].
  destruct (bool_decide _) eqn:He; [done|]. apply bool_decide_eq_false in He.
  destruct (authorities_of s (ValidatorSetId s) !! N.to_nat i) as [a|] eqn:Ha; [|done].
  destruct (validate_entries s a i l) as [[]| |] eqn:Hv; [|done..]. intros _. split; [done|].
  split; [done|]. by eapply validate_entries_valid.
Qed.
(** *** The loop over the signatures of one submission

    [collected s0 s]: what the submission has done to [s0] so far.  A network is
    finalized only up to its next nonce, with the threshold reached there. *)
Abbreviation set_size s := (Z.of_nat (length (active_validators s))).

Definition finalized s n k : Prop :=
  ∃ sm, SignedOutgoingMessages s !! (n, k) = Some sm ∧ threshold_reached sm (set_size s) = true.

Definition advanced s0 s n : Prop :=
  nonce_of (SignedOutgoingNonce s) n = nonce_of (SignedOutgoingNonce s0) n
  ∨ nonce_of (SignedOutgoingNonce s) n = sat_add 64 (nonce_of (SignedOutgoingNonce s0) n) 1
    ∧ finalized s n (nonce_of (SignedOutgoingNonce s) n).

Definition collected s0 s : Prop :=
  OutgoingMessages s = OutgoingMessages s0 ∧ OutgoingNonce s = OutgoingNonce s0
  ∧ ValidatorSetId s = ValidatorSetId s0 ∧ active_validators s = active_validators s0
  ∧ signed_inv s ∧ ∀ n, advanced s0 s n.

Lemma add_signature_threshold (sm : SignedMessage TheaSig) m id i sig len :
  threshold_reached sm len = true → threshold_reached (add_signature sm m id i sig) len = true.
Proof.
  unfold add_signature. destruct (negb _); [done|]. destruct (negb _); [done|].
  unfold threshold_reached. cbn. destruct (len =? 0); [done|]. rewrite !Z.leb_le.
  destruct (signatures sm !! i) eqn:Hi; [by rewrite map_size_insert_Some by (by eexists)|].
  rewrite map_size_insert_None by done. lia.
Qed.

Lemma add_signature_valid s (sm : SignedMessage TheaSig) m i sig :
  signed_by s m i sig → sm_set_id sm ≤ ValidatorSetId s →
  (sm_set_id sm = ValidatorSetId s →
     ∀ j sg, signatures sm !! j = Some sg → signed_by s (sm_message sm) j sg) →
  let sm' := add_signature sm m (ValidatorSetId s) i sig in
  sm_set_id sm' ≤ ValidatorSetId s
  ∧ (sm_set_id sm' = ValidatorSetId s →
     ∀ j sg, signatures sm' !! j = Some sg → signed_by s (sm_message sm') j sg).
Proof.
  intros Hsig Hle Hall. cbv zeta. unfold add_signature.
  destruct (bool_decide _) eqn:Hm; cbn [negb]; [|by split].
  destruct (_ =? _) eqn:Hid; cbn [negb]; [|by split]. cbn.
  apply bool_decide_eq_true in Hm. split; [done|]. intros He j sg Hj.
  destruct (decide (j = i)) as [->|Hne].
  - rewrite lookup_insert_eq in Hj. injection Hj as <-. by rewrite Hm.
  - rewrite lookup_insert_ne in Hj by done. by apply Hall.
Qed.

(** Storing one validated signature. *)
Lemma signed_inv_insert s n k sm :
  signed_inv s → sm_set_id sm ≤ ValidatorSetId s →
  (sm_set_id sm = ValidatorSetId s →
     ∀ j sg, signatures sm !! j = Some sg → signed_by s (sm_message sm) j sg) →
  signed_inv (s <| SignedOutgoingMessages ::= <[(n, k) := sm]> |>).
Proof.
  intros Hg Hle Hall n' k' sm' Hk. cbn in Hk.
  destruct (decide ((n', k') = (n, k))) as [[= -> ->]|Hne].
  - rewrite lookup_insert_eq in Hk. by injection Hk as <-.
  - rewrite lookup_insert_ne in Hk by done. by apply (Hg n' k').
Qed.

Lemma finalized_insert s n k sm n' k' :
  finalized s n' k' →
  ((n', k') = (n, k) → threshold_reached sm (set_size s) = true) →
  finalized (s <| SignedOutgoingMessages ::= <[(n, k) := sm]> |>) n' k'.
Proof.
  intros (sm' & Hk & Ht) Hsm. destruct (decide ((n', k') = (n, k))) as [He|Hne].
  - exists sm. cbn. rewrite <- He, lookup_insert_eq. split; [done|]. by apply Hsm.
  - exists sm'. cbn. by rewrite lookup_insert_ne.
Qed.

Lemma store_signature_collected s0 i e c c' :
  entry_valid s0 i e → collected s0 (thea c) →
  store_signature i (ValidatorSetId s0) (set_size s0) e c = (Ok tt, c') → collected s0 (thea c').
Proof.
  destruct e as [[n k] sig]. intros (m & Hm & Hsig & Hk) (Ho & Hn & Hid & Ha & Hg & Hadv) H.
  cbn in Hm, Hsig, Hk. unfold store_signature, upd_thea in H. inv_run.
  match goal with H : OutgoingMessages (thea _) !! _ = Some _ |- _ =>
    rewrite Ho, Hm in H; injection H as <- end.
  apply (signed_by_frame s0 (thea c)) in Hsig; [|done]. rewrite <- Hid, <- Ha in *.
  destruct (SignedOutgoingMessages (thea c) !! (n, k)) as [sm|] eqn:Hsm.
  - inv_run. destruct (Hg n k sm Hsm) as [Hle Hall].
    destruct (add_signature_valid (thea c) sm m i sig Hsig Hle Hall) as [Hle' Hall'].
    set (sm' := add_signature sm m (ValidatorSetId (thea c)) i sig) in *.
    destruct (threshold_reached sm' _) eqn:Ht; inv_run; cbn.
    + split_and!; try done; [by apply (signed_inv_insert (thea c))|]. intros n'.
      destruct (decide (n' = n)) as [->|Hne]; unfold advanced; cbn; rewrite nonce_of_insert.
      * right. rewrite decide_True, Hk by done. split; [done|]. exists sm'. cbn.
        by rewrite lookup_insert_eq.
      * rewrite decide_False by done. destruct (Hadv n') as [?|[Hs Hf]]; [by left|right].
        split; [done|]. apply (finalized_insert (thea c)); [done|]. intros [= -> _]. done.
    + split_and!; try done; [by apply (signed_inv_insert (thea c))|]. intros n'.
      destruct (Hadv n') as [?|[Hs Hf]]; [by left|right]. split; [done|].
      apply (finalized_insert (thea c)); [done|]. intros [= -> Hkk].
      destruct Hf as (sm2 & Hsm2 & Ht2). rewrite Hkk, Hsm in Hsm2. injection Hsm2 as <-.
      by apply add_signature_threshold.
  - inv_run. cbn. split_and!; try done.
    + apply (signed_inv_insert (thea c)); [done|done|]. intros _ j sg Hj. cbn in *.
      apply lookup_singleton_Some in Hj as [<- <-]. done.
    + intros n'. destruct (Hadv n') as [?|[Hs Hf]]; [by left|right]. split; [done|].
      apply (finalized_insert (thea c)); [done|]. intros [= -> Hkk].
      destruct Hf as (sm2 & Hsm2 & _). by rewrite Hkk, Hsm in Hsm2.
Qed.
Lemma store_signatures_collected s0 i l c c' :
  Forall (entry_valid s0 i) l → collected s0 (thea c) →
  for_each l (store_signature i (ValidatorSetId s0) (set_size s0)) c = (Ok tt, c') →
  collected s0 (thea c').
Proof.
  intros Hl. revert c. induction Hl as [|e l He _ IH]; intros c Hc H; cbn [for_each] in H;
    [by inv_run|]. apply bind_ok_inv in H as ([] & c1 & H1 & H2).
  apply (IH c1); [|done]. by eapply store_signature_collected.
Qed.

Lemma submit_signed_collected c i id l :
  signed_inv (thea c) →
  is_ok (validate_signed_outgoing_message (thea c) i id l) = true →
  collected (thea c) (thea (submit_signed_outgoing_messages NoOrigin i id l c).2).
Proof.
  intros Hg (Hid & _ & Hl)%validated_submission.
  assert (collected (thea c) (thea c)) as Hrefl by (split_and!; try done; intros; by left).
  unfold submit_signed_outgoing_messages, transactional.
  match goal with |- context [match ?m c with _ => _ end] => destruct (m c) as [[u|e|] c'] eqn:H end;
    [|done..]. cbn. unfold thea_none in H. inv_run. destruct_units. rewrite Hid in *.
  by eapply store_signatures_collected.
Qed.

Lemma collected_inv s0 s : collected s0 s → thea_inv s0 → thea_inv s.
Proof.
  intros (Ho & Hn & Hid & Ha & Hg & Hadv) (Hs & _ & Hu). split; [|split; [done|]].
  - intros n k m. rewrite Ho, Hn. apply Hs.
  - intros n. rewrite Hn. split; [apply Hu|].
    destruct (Hadv n) as [->|[-> _]]; [apply Hu|]. apply sat_succ_u64, Hu.
Qed.

(** ** Preservation: sessions *)
Lemma fold_inv {A B} (I : A → Prop) (f : A → B → A) l a :
  (∀ a b, I a → I (f a b)) → I a → I (foldl f a l).
Proof. intros Hf. revert a. induction l as [|b l IH]; intros a Ha; [done|]. apply IH. by apply Hf. Qed.

Lemma push_payload_inv blk s ty n data :
  thea_inv s → thea_inv (push_message (generate_payload blk s ty n data) s).
Proof. intros Hs. by apply push_message_inv. Qed.

Lemma schedule_rotation_inv blk id q acc n :
  thea_inv acc.1 → thea_inv (schedule_rotation blk id q acc n).1.
Proof.
  destruct acc as [s sch]. cbn. intros Hs. destruct (rotation_payload s id q n); [|done].
  by apply push_payload_inv.
Qed.

Lemma reset_signed_inv id n s k :
  thea_inv s ∧ ValidatorSetId s = id → thea_inv (reset_signed id n s k) ∧
    ValidatorSetId (reset_signed id n s k) = id.
Proof.
  intros [(Hs & Hg & Hn) Hid]. unfold reset_signed.
  destruct (SignedOutgoingMessages s !! (n, k)) as [sm|]; [|done]. split; [|done].
  split; [done|]. split; [|done]. apply signed_inv_insert; [done|cbn; lia|].
  intros _ j sg Hj. cbn in Hj. by rewrite lookup_empty in Hj.
Qed.

Lemma reset_network_inv id s n :
  thea_inv s ∧ ValidatorSetId s = id → thea_inv (reset_network id s n) ∧
    ValidatorSetId (reset_network id s n) = id.
Proof. intros Hs. apply (fold_inv (λ s, thea_inv s ∧ ValidatorSetId s = id)); [|done].
  intros; by apply reset_signed_inv. Qed.

Lemma announce_rotated_inv blk b sch s n : thea_inv s → thea_inv (announce_rotated blk b sch s n).
Proof. intros Hs. unfold announce_rotated. destruct (_ && _); [done|]. by apply push_payload_inv. Qed.

Lemma rotate_set_inv id l s :
  thea_inv s → ValidatorSetId s < id → thea_inv (rotate_set id l s) ∧ ValidatorSetId (rotate_set id l s) = id.
Proof.
  intros (Hs & Hg & Hn) Hlt. split; [|done]. split; [done|]. split; [|done].
  intros n k sm Hk. cbn in Hk. destruct (Hg n k sm Hk) as [Hle _]. cbn. split; [lia|]. intros He. lia.
Qed.

Lemma schedule_rotations_inv blk id q s l :
  thea_inv s → thea_inv (foldl (schedule_rotation blk id q) (s, ∅) l).1
    ∧ ValidatorSetId (foldl (schedule_rotation blk id q) (s, ∅) l).1 = ValidatorSetId s.
Proof.
  intros Hs. apply (fold_inv (λ acc, thea_inv acc.1 ∧ ValidatorSetId acc.1 = ValidatorSetId s)); [|done].
  intros [s1 sch] n [H1 H2]. split; [by apply schedule_rotation_inv|]. cbn in *.
  by destruct (rotation_payload s1 id q n).
Qed.

Lemma change_authorities_inv blk v q s s' :
  thea_inv s → change_authorities blk v q s = Some s' → thea_inv s'.
Proof.
  intros Hs H. unfold change_authorities, checked_add_u in H.
  destruct (_ <=? umax 64); [|done]. cbn [mbind option_bind] in H.
  set (id := ValidatorSetId s + 1) in *. set (l := btree_elements _) in *.
  set (b1 := negb _) in *. revert H.
  assert (thea_inv s ∧ ValidatorSetId s < id) as H0 by (split; [done|lia]).
  destruct (schedule_rotations_inv blk id q s l Hs) as [H1 H2].
  assert (∀ sch s1, thea_inv s1 ∧ ValidatorSetId s1 < id →
    thea_inv (foldl (announce_rotated blk b1 sch)
      (foldl (reset_network id) (rotate_set id v s1) l) l)) as Hrot.
  { intros sch s1 [Hi Hlt]. apply fold_inv; [intros; by apply announce_rotated_inv|].
    apply (fold_inv (λ s, thea_inv s ∧ ValidatorSetId s = id)).
    - intros; by apply reset_network_inv.
    - by apply rotate_set_inv. }
  destruct b1.
  - destruct (foldl (schedule_rotation blk id q) (s, ∅) l) as [s1 sch]. cbn in H1, H2.
    destruct (bool_decide _); intros [= <-]; [done|]. apply (Hrot sch). split; [done|]. cbn. lia.
  - destruct (bool_decide _); intros [= <-]; [done|]. by apply (Hrot ∅).
Qed.
(** A change of authorities is a sequence of four kinds of updates. *)
Lemma change_authorities_ind (I : TheaStorage → Prop) blk v q s s' :
  (∀ s ty n d, I s → I (push_message (generate_payload blk s ty n d) s)) →
  (∀ s l, I s → I (s <| NextAuthorities := l |>)) →
  (∀ s id, I s → I (rotate_set id v s)) →
  (∀ s id n k, I s → I (reset_signed id n s k)) →
  I s → change_authorities blk v q s = Some s' → I s'.
Proof.
  intros Hpush Hnext Hrotate Hreset Hs H. unfold change_authorities in H.
  destruct (checked_add_u _ _ _) as [id|]; [|done]. cbn [mbind option_bind] in H.
  set (l := btree_elements _) in *. set (b1 := negb _) in *.
  assert (∀ sch s1, I s1 → I (foldl (announce_rotated blk b1 sch)
      (foldl (reset_network id) (rotate_set id v s1) l) l)) as Hrot.
  { intros sch s1 H1. apply fold_inv.
    { intros s2 n H2. unfold announce_rotated. destruct (_ && _); [done|]. by apply Hpush. }
    apply fold_inv; [|by apply Hrotate]. intros s2 n H2. unfold reset_network. apply fold_inv; [|done].
    intros s3 k H3. by apply Hreset. }
  assert (I (foldl (schedule_rotation blk id q) (s, ∅) l).1) as H1.
  { apply (fold_inv (λ acc, I acc.1)); [|done]. intros [s1 sch] n H1. cbn in *.
    destruct (rotation_payload _ _ _ _); [|done]. by apply Hpush. }
  revert H. destruct b1.
  - destruct (foldl (schedule_rotation blk id q) (s, ∅) l) as [s1 sch]. cbn in H1.
    apply (Hnext s1 q) in H1. destruct (bool_decide _); intros [= <-]; [done|]. by apply (Hrot sch).
  - destruct (bool_decide _); intros [= <-]; [done|]. by apply (Hrot ∅).
Qed.

(** ** Preservation: calls and blocks *)
Lemma update_outgoing_nonce_keeps o k n :
  is_u 64 k → keeps (λ c, thea_inv (thea c)) (update_outgoing_nonce o k n).
Proof.
  intros Hk c u c' (Hs & Hg & Hn) H. unfold update_outgoing_nonce, thea_root, upd_thea in H.
  destruct o; inv_run. match goal with H : (_ <=? k) = true |- _ => apply Z.leb_le in H end.
  split; [|split; [done|]]; cbn.
  - intros n' k' m Hm. destruct (Hs n' k' m Hm) as (Hle & ? & ?). split; [|done]. cbn.
    rewrite nonce_of_insert. case_decide; [subst; lia|done].
  - intros n'. cbn. rewrite nonce_of_insert. split; [|apply Hn]. case_decide; [done|apply Hn].
Qed.

#[local] Hint Resolve execute_withdrawals_keeps : keeps.

Lemma thea_dispatch_keeps o call :
  call_typed call → (∀ i id l, call ≠ SubmitSignedOutgoing i id l) →
  preserves (λ c, thea_inv (thea c)) (dispatch o call).
Proof.
  intros Htyped Hcall. apply keeps_transactional. destruct call; cbn in Htyped.
  - unfold submit_incoming_message. thea_keeps.
  - unfold send_thea_message. thea_keeps.
  - unfold update_incoming_nonce. thea_keeps.
  - by apply update_outgoing_nonce_keeps.
  - unfold add_thea_network. thea_keeps.
  - unfold remove_thea_network. thea_keeps.
  - by destruct (Hcall auth_index id entries).
  - unfold report_misbehaviour. thea_keeps.
  - unfold handle_misbehaviour. thea_keeps.
  - unfold add_relayer_origin_for_network. thea_keeps.
Qed.

Lemma process_incoming_keeps blk n : keeps (λ c, thea_inv (thea c)) (process_incoming blk n).
Proof. unfold process_incoming. thea_keeps. Qed.

(** A submission without validation does not get past its origin. *)
Lemma submit_signed_origin o i id l c :
  o ≠ NoOrigin → (dispatch o (SubmitSignedOutgoing i id l) c).2 = c.
Proof.
  intros Ho. unfold thea_dispatch, submit_signed_outgoing_messages, transactional, thea_none.
  by destruct o.
Qed.

Lemma dispatch_submit_signed o i id l c :
  (dispatch o (SubmitSignedOutgoing i id l) c).2
  = (submit_signed_outgoing_messages o i id l c).2.
Proof.
  unfold thea_dispatch, submit_signed_outgoing_messages, transactional.
  match goal with |- context [match ?m c with _ => _ end] => by destruct (m c) as [[]] end.
Qed.

Lemma thea_step_inv ev c c' : thea_step ev c c' → thea_inv (thea c) → thea_inv (thea c').
Proof.
  intros [o call s Ho Ht|call s Hv|s s' u H|v q s s' H|w s] Hc.
  - destruct call as [| | | | | |i id l| | |];
      try (apply thea_dispatch_keeps; [exact Ht|done|exact Hc]). by rewrite submit_signed_origin.
  - destruct call as [| | | | | |i id l| | |]; try done. rewrite dispatch_submit_signed.
    eapply collected_inv; [|exact Hc]. apply submit_signed_collected; [apply Hc|exact Hv].
  - unfold thea_on_initialize in H. inv_run.
    eapply (keeps_for_each (λ c, thea_inv (thea c))); [intros; apply process_incoming_keeps| |exact Hk].
    exact Hc.
  - unfold thea_on_new_session in H. destruct (change_authorities _ _ _ _) as [s1|] eqn:Hs; [|done].
    injection H as <-. by eapply change_authorities_inv.
  - done.
Qed.

Lemma thea_genesis_inv c : thea_genesis c → thea_inv (thea c).
Proof.
  intros (w & keys & ->). split; [|split]; cbn.
  - intros n k m Hm. cbn in Hm. by rewrite lookup_empty in Hm.
  - intros n k m Hm. cbn in Hm. by rewrite lookup_empty in Hm.
  - intros n. unfold nonce_of, is_u, umax. cbn. rewrite lookup_empty. cbn. lia.
Qed.

Lemma thea_reachable_inv c : thea_reachable c → thea_inv (thea c).
Proof.
  intros (c0 & H0%thea_genesis_inv & Hsteps). induction Hsteps as [|c1 c2 c3 [ev Hs] _ IH]; [done|].
  apply IH. by eapply thea_step_inv.
Qed.

(** ** Finality of outgoing messages *)

(** Only a validated submission moves the finalized nonces. *)
Definition finals_are (f : gmap Z Z) s : Prop := SignedOutgoingNonce s = f.

Lemma finals_dispatch f o call :
  (∀ i id l, call ≠ SubmitSignedOutgoing i id l) →
  preserves (λ c, finals_are f (thea c)) (dispatch o call).
Proof.
  intros Hcall. apply keeps_transactional.
  destruct call; try (by destruct (Hcall auth_index id entries));
    unfold submit_incoming_message, send_thea_message, execute_withdrawals, push_message,
      update_incoming_nonce, update_outgoing_nonce, add_thea_network, remove_thea_network,
      report_misbehaviour, handle_misbehaviour, add_relayer_origin_for_network; thea_keeps.
Qed.

Lemma finals_change_authorities f blk v q s s' :
  finals_are f s → change_authorities blk v q s = Some s' → finals_are f s'.
Proof.
  apply change_authorities_ind; try done. intros s1 id n k H1. unfold reset_signed.
  by destruct (_ !! _).
Qed.

(** The finalized nonce of a network moves by one, with the threshold reached. *)
Lemma step_finals ev c c' n :
  thea_inv (thea c) → thea_step ev c c' →
  nonce_of (SignedOutgoingNonce (thea c')) n ≠ nonce_of (SignedOutgoingNonce (thea c)) n →
  nonce_of (SignedOutgoingNonce (thea c')) n
    = sat_add 64 (nonce_of (SignedOutgoingNonce (thea c)) n) 1
  ∧ finalized (thea c') n (nonce_of (SignedOutgoingNonce (thea c')) n).
Proof.
  intros Hc Hstep Hne.
  assert (finals_are (SignedOutgoingNonce (thea c)) (thea c') → False) as Hsame.
  { intros He. apply Hne. by rewrite He. }
  destruct Hstep as [o call s Ho Ht|call s Hv|s s' u H|v q s s' H|w s].
  - destruct Hsame. destruct call as [| | | | | |i id l| | |]; try (by apply finals_dispatch).
    by rewrite submit_signed_origin.
  - destruct call as [| | | | | |i id l| | |]; try done. rewrite dispatch_submit_signed in *.
    assert (signed_inv (thea s)) as Hg by apply Hc.
    destruct (submit_signed_collected s i id l Hg Hv) as (_ & _ & _ & _ & _ & Hadv).
    by destruct (Hadv n).
  - destruct Hsame. unfold thea_on_initialize in H. inv_run.
    refine (keeps_for_each (λ c, finals_are (SignedOutgoingNonce (thea s)) (thea c)) _ _ _ _ _ _ _ Hk);
      [|done]. intros. unfold process_incoming. thea_keeps.
  - destruct Hsame. unfold thea_on_new_session in H.
    destruct (change_authorities _ _ _ _) as [s1|] eqn:Hs; [|done].
    injection H as <-. by eapply finals_change_authorities.
  - by destruct Hsame.
Qed.

(** Distinct authorities behind a map of signatures. *)
Lemma signers_of s m (sigs : gmap N TheaSig) :
  (∀ i sig, sigs !! i = Some sig → signed_by s m i sig) →
  ∃ signers : list nat, NoDup signers ∧ length signers = size sigs
    ∧ ∀ i, i ∈ signers → ∃ a sig, active_validators s !! i = Some a
        ∧ ecdsa_verify_prehashed sig (sha2_256 (enc_message m)) a = true.
Proof.
  intros Hall. exists (N.to_nat <$> (map_to_list sigs).*1). split; [|split].
  - apply NoDup_fmap_2; [intros ??; lia|]. apply NoDup_fst_map_to_list.
  - by rewrite !length_fmap, length_map_to_list.
  - intros i (j & -> & Hj)%list_elem_of_fmap.
    apply list_elem_of_fmap in Hj as ([j' sig] & -> & Hj). apply elem_of_map_to_list in Hj.
    destruct (Hall _ _ Hj) as (a & Ha & Hv). by exists a, sig.
Qed.

(** C23: an outgoing message is final only with a supermajority.  Whenever a step
    moves the finalized nonce of a network, it moves it to the next nonce, and the
    message stored there carries, if it was collected by the active validator set,
    valid signatures of more than two thirds of that set. *)
Theorem outgoing_finality ev c c' n k k' :
  thea_reachable c → thea_step ev c c' →
  nonce_of (SignedOutgoingNonce (thea c)) n = k →
  nonce_of (SignedOutgoingNonce (thea c')) n = k' → k' ≠ k →
  k' = sat_add 64 k 1
  ∧ ∃ sm, SignedOutgoingMessages (thea c') !! (n, k') = Some sm
    ∧ (sm_set_id sm = ValidatorSetId (thea c') →
       ∃ signers : list nat, NoDup signers
         ∧ 2 * Z.of_nat (length (active_validators (thea c'))) < 3 * Z.of_nat (length signers)
         ∧ ∀ i, i ∈ signers → ∃ a sig, active_validators (thea c') !! i = Some a
             ∧ ecdsa_verify_prehashed sig (sha2_256 (enc_message (sm_message sm))) a = true).
Proof.
  intros Hr%thea_reachable_inv Hstep <- <- Hne.
  destruct (step_finals ev c c' n Hr Hstep Hne) as [Hk (sm & Hsm & Ht)]. split; [done|].
  exists sm. split; [done|]. intros Hid.
  destruct (thea_step_inv ev c c' Hstep Hr) as (_ & Hg & _).
  destruct (Hg _ _ _ Hsm) as [_ Hall].
  destruct (signers_of _ _ _ (Hall Hid)) as (signers & Hnd & Hlen & Hsig).
  exists signers. split; [done|]. split; [|done].
  apply threshold_reached_spec in Ht as [_ Ht]; [|lia]. by rewrite Hlen.
Qed.

(** ** Outgoing messages are never replaced *)
Definition in_slot n k (m : Message) s : Prop :=
  OutgoingMessages s !! (n, k) = Some m ∧ k ≤ nonce_of (OutgoingNonce s) n.

Section slots.
Context (n k : Z) (m : Message) (Hk : k < u64_max).

Lemma in_slot_push s m' :
  in_slot n k m s → msg_nonce m' = sat_add 64 (nonce_of (OutgoingNonce s) (msg_network m')) 1 →
  in_slot n k m (push_message m' s).
Proof.
  intros [Hm Hle] Hm'. unfold u64_max in Hk. unfold in_slot. cbn. rewrite nonce_of_insert.
  destruct (decide (n = msg_network m')) as [->|Hne].
  - unfold sat_add in Hm'. split; [|lia]. rewrite lookup_insert_ne; [done|]. intros [=]. lia.
  - split; [|done]. rewrite lookup_insert_ne; [done|]. by intros [= ? ?].
Qed.

Lemma in_slot_execute n' d : keeps (λ c, in_slot n k m (thea c)) (execute_withdrawals n' d).
Proof.
  intros c u c' Hc H. unfold execute_withdrawals, upd_thea in H. inv_run. by apply in_slot_push.
Qed.

Lemma in_slot_update o k' n' : keeps (λ c, in_slot n k m (thea c)) (update_outgoing_nonce o k' n').
Proof.
  intros c u c' [Hm Hle] H. unfold update_outgoing_nonce, thea_root, upd_thea in H.
  destruct o; inv_run. split; [done|]. cbn. rewrite nonce_of_insert. case_decide; [subst|done].
  match goal with H : (_ <=? _) = true |- _ => apply Z.leb_le in H end. lia.
Qed.
#[local] Hint Resolve in_slot_execute in_slot_update : keeps.

Lemma in_slot_dispatch o call :
  (∀ i id l, call ≠ SubmitSignedOutgoing i id l) →
  preserves (λ c, in_slot n k m (thea c)) (dispatch o call).
Proof.
  intros Hcall. apply keeps_transactional.
  destruct call; try (by destruct (Hcall auth_index id entries));
    unfold submit_incoming_message, send_thea_message, update_incoming_nonce,
      add_thea_network, remove_thea_network, report_misbehaviour,
      handle_misbehaviour, add_relayer_origin_for_network; thea_keeps.
Qed.

Lemma in_slot_change_authorities blk v q s s' :
  in_slot n k m s → change_authorities blk v q s = Some s' → in_slot n k m s'.
Proof.
  apply change_authorities_ind; try done; [intros; by apply in_slot_push|].
  intros s1 id n' k' H1. unfold reset_signed. by destruct (_ !! _).
Qed.
End slots.

(** C24: an outgoing message is never replaced.  Whatever happens to the chain, a
    message that sits in the slot of its network and nonce stays there, so that
    signatures collected for it are never orphaned; the one exception is the slot
    of the largest nonce, on which the counter saturates. *)
Theorem outgoing_messages_immutable ev c c' n k m :
  thea_reachable c → thea_step ev c c' →
  OutgoingMessages (thea c) !! (n, k) = Some m → k < u64_max →
  OutgoingMessages (thea c') !! (n, k) = Some m.
Proof.
  intros Hr%thea_reachable_inv Hstep Hm Hk. destruct Hr as (Hs & Hg & _).
  assert (in_slot n k m (thea c)) as Hin by (split; [done|apply (Hs n k m Hm)]).
  enough (in_slot n k m (thea c')) by (by destruct H).
  destruct Hstep as [o call s Ho Ht|call s Hv|s s' u H|v q s s' H|w s].
  - destruct call as [| | | | | |i id l| | |]; try (by apply in_slot_dispatch).
    by rewrite submit_signed_origin.
  - destruct call as [| | | | | |i id l| | |]; try done. rewrite dispatch_submit_signed.
    destruct (submit_signed_collected s i id l Hg Hv) as (Ho & Hn & _).
    unfold in_slot. by rewrite Ho, Hn.
  - unfold thea_on_initialize in H. inv_run.
    match goal with H : for_each _ _ _ = _ |- _ =>
      refine (keeps_for_each (λ c, in_slot n k m (thea c)) _ _ _ _ _ _ _ H) end; [|done].
    intros. unfold process_incoming. thea_keeps.
  - unfold thea_on_new_session in H. destruct (change_authorities _ _ _ _) as [s1|] eqn:Hc; [|done].
    injection H as <-. by eapply in_slot_change_authorities.
  - done.
Qed.

(** ** Signatures are collected for the message in the slot *)
Section matched.
Context (n k : Z) (Hk : k < u64_max).

(** What is signed at the slot is the message that sits there. *)
Definition matched s : Prop :=
  ∀ sm, SignedOutgoingMessages s !! (n, k) = Some sm → in_slot n k (sm_message sm) s.

Lemma matched_push s m' :
  matched s → msg_nonce m' = sat_add 64 (nonce_of (OutgoingNonce s) (msg_network m')) 1 →
  matched (push_message m' s).
Proof. intros Hs Hm sm Hsm. apply in_slot_push; [done|by apply Hs|done]. Qed.

Lemma matched_execute n' d : keeps (λ c, matched (thea c)) (execute_withdrawals n' d).
Proof.
  intros c u c' Hc H. unfold execute_withdrawals, upd_thea in H. inv_run. by apply matched_push.
Qed.

Lemma matched_update o k' n' : keeps (λ c, matched (thea c)) (update_outgoing_nonce o k' n').
Proof.
  intros c u c' Hc H sm Hsm.
  apply (in_slot_update n k (sm_message sm) o k' n' c u c'); [|done]. apply Hc.
  unfold update_outgoing_nonce, thea_root, upd_thea in H. destruct o; by inv_run.
Qed.
#[local] Hint Resolve matched_execute matched_update : keeps.

Lemma matched_dispatch o call :
  (∀ i id l, call ≠ SubmitSignedOutgoing i id l) →
  preserves (λ c, matched (thea c)) (dispatch o call).
Proof.
  intros Hcall. apply keeps_transactional.
  destruct call; try (by destruct (Hcall auth_index id entries));
    unfold submit_incoming_message, send_thea_message, update_incoming_nonce,
      add_thea_network, remove_thea_network, report_misbehaviour,
      handle_misbehaviour, add_relayer_origin_for_network; thea_keeps.
Qed.

Lemma matched_reset id n' s k' : matched s → matched (reset_signed id n' s k').
Proof.
  intros Hs. unfold reset_signed. destruct (_ !! (n', k')) as [sm'|] eqn:Hk'; [|done].
  intros sm. cbn. destruct (decide ((n', k') = (n, k))) as [[= -> ->]|Hne].
  - rewrite lookup_insert_eq. intros [= <-]. exact (Hs sm' Hk').
  - rewrite lookup_insert_ne by done. apply Hs.
Qed.

Lemma matched_change_authorities blk v q s s' :
  matched s → change_authorities blk v q s = Some s' → matched s'.
Proof.
  apply change_authorities_ind; try done; [intros; by apply matched_push|].
  intros; by apply matched_reset.
Qed.

(** Storing a signature; [bounded] holds by [thea_inv]. *)
Definition bounded s : Prop :=
  ∀ m, OutgoingMessages s !! (n, k) = Some m → k ≤ nonce_of (OutgoingNonce s) n.

Lemma matched_store i id len e :
  keeps (λ c, matched (thea c) ∧ bounded (thea c)) (store_signature i id len e).
Proof.
  destruct e as [[n' k'] sig]. intros c u c' [Hm Hb] H. unfold store_signature, upd_thea in H. inv_run.
  match goal with H : OutgoingMessages (thea _) !! _ = Some ?x |- _ => rename H into Ho, x into m end.
  assert (∀ sm, sm_message sm = m ∨ (∃ sm0, SignedOutgoingMessages (thea c) !! (n', k') = Some sm0
    ∧ sm_message sm = sm_message sm0) →
    ∀ sm', <[(n', k') := sm]> (SignedOutgoingMessages (thea c)) !! (n, k) = Some sm' →
    in_slot n k (sm_message sm') (thea c)) as Hins.
  { intros sm Hsm sm'. destruct (decide ((n', k') = (n, k))) as [[= -> ->]|Hne].
    - rewrite lookup_insert_eq. intros [= <-]. destruct Hsm as [->|(sm0 & H0 & ->)]; [|by apply Hm].
      split; [done|by eapply Hb].
    - rewrite lookup_insert_ne by done. apply Hm. }
  destruct (SignedOutgoingMessages (thea c) !! (n', k')) as [sm|] eqn:Hsm; inv_run.
  - assert (sm_message (add_signature sm m id i sig) = sm_message sm) as Ha.
    { unfold add_signature. by repeat case_match. }
    destruct (threshold_reached _ _); inv_run; (split; [|done]); intros sm'; cbn;
      apply Hins; right; by exists sm.
  - split; [|done]. intros sm'. cbn. apply Hins. by left.
Qed.

Lemma matched_step ev c c' : thea_inv (thea c) → thea_step ev c c' → matched (thea c) → matched (thea c').
Proof.
  intros (Hs & _) Hstep Hc. destruct Hstep as [o call s Ho Ht|call s Hv|s s' u H|v q s s' H|w s].
  - destruct call as [| | | | | |i id l| | |]; try (by apply matched_dispatch).
    by rewrite submit_signed_origin.
  - destruct call as [| | | | | |i id l| | |]; try done.
    assert (preserves (λ c, matched (thea c) ∧ bounded (thea c))
      (dispatch NoOrigin (SubmitSignedOutgoing i id l))) as Hp.
    { apply keeps_transactional. unfold submit_signed_outgoing_messages, thea_none.
      thea_keeps. apply matched_store. }
    apply Hp. split; [done|]. intros m Hm. apply (Hs n k m Hm).
  - unfold thea_on_initialize in H. inv_run.
    match goal with H : for_each _ _ _ = _ |- _ =>
      refine (keeps_for_each (λ c, matched (thea c)) _ _ _ _ _ _ _ H) end; [|done].
    intros. unfold process_incoming. thea_keeps.
  - unfold thea_on_new_session in H. destruct (change_authorities _ _ _ _) as [s1|] eqn:Hch; [|done].
    injection H as <-. by eapply matched_change_authorities.
  - done.
Qed.

Lemma matched_reachable c : thea_reachable c → matched (thea c).
Proof.
  intros (c0 & H0 & Hsteps). assert (thea_inv (thea c0)) as Hi by (by apply thea_genesis_inv).
  assert (matched (thea c0)) as Hm by (destruct H0 as (w & keys & ->); intros sm; cbn; by rewrite lookup_empty).
  clear H0. induction Hsteps as [|c1 c2 c3 [ev Hs] _ IH]; [done|].
  apply IH; [by eapply thea_step_inv|by eapply matched_step].
Qed.
End matched.

(** ** Rotations do not block pending messages *)
Section rotation.
Context (n k id : Z).

(** No signature has been collected for the slot, and it is open to the set [id]. *)
Definition unsigned s : Prop :=
  ∀ sm, SignedOutgoingMessages s !! (n, k) = Some sm →
    signatures sm = ∅ ∧ sm_set_id sm = id.
Definition pending s : Prop :=
  sat_add 64 (nonce_of (SignedOutgoingNonce s) n) 1 = k ∧ k ≤ nonce_of (OutgoingNonce s) n.

Lemma unsigned_reset_signed n' s k' : unsigned s → unsigned (reset_signed id n' s k').
Proof.
  intros Hu. unfold reset_signed. destruct (_ !! (n', k')) as [sm'|] eqn:Hk; [|done].
  intros sm. cbn. destruct (decide ((n', k') = (n, k))) as [[= -> ->]|Hne].
  - rewrite lookup_insert_eq. by intros [= <-].
  - rewrite lookup_insert_ne by done. apply Hu.
Qed.

Lemma reset_signed_unsigned s : unsigned (reset_signed id n s k).
Proof.
  unfold reset_signed, unsigned.
  destruct (SignedOutgoingMessages s !! (n, k)) as [sm'|] eqn:Hk; cbn.
  - rewrite lookup_insert_eq. by intros sm [= <-].
  - by rewrite Hk.
Qed.

Lemma reset_all_unsigned l s : k ∈ l → unsigned (foldl (reset_signed id n) s l).
Proof.
  intros Hk. revert s. induction l as [|k' l IH]; intros s; [by apply elem_of_nil in Hk|].
  apply elem_of_cons in Hk as [<-|Hk]; [|by apply IH]. cbn. apply fold_inv.
  - intros; by apply unsigned_reset_signed.
  - apply reset_signed_unsigned.
Qed.

Lemma pending_reset_network s n' : pending s → pending (reset_network id s n').
Proof.
  intros Hp. unfold reset_network. apply fold_inv; [|done]. intros s1 k' H1.
  unfold reset_signed. by destruct (_ !! _).
Qed.

Lemma reset_networks_unsigned l s :
  n ∈ l → pending s → unsigned (foldl (reset_network id) s l).
Proof.
  intros Hn. revert s. induction l as [|n' l IH]; intros s Hp; [by apply elem_of_nil in Hn|].
  apply elem_of_cons in Hn as [<-|Hn]; [|by apply IH; [|apply pending_reset_network]]. cbn.
  apply fold_inv.
  - intros s1 n' H1. unfold reset_network. apply fold_inv; [|done]. intros; by apply unsigned_reset_signed.
  - apply reset_all_unsigned. destruct Hp as [Hk Hle]. unfold pending_nonces. rewrite Hk.
    apply elem_of_seqZ. lia.
Qed.
End rotation.

Lemma active_frame_fold {B} (f : TheaStorage → B → TheaStorage) l s :
  (∀ s b, Authorities (f s b) = Authorities s ∧ ValidatorSetId (f s b) = ValidatorSetId s) →
  active_validators (foldl f s l) = active_validators s.
Proof.
  intros Hf. apply (fold_inv (λ s', active_validators s' = active_validators s)); [|done].
  intros s1 b <-. destruct (Hf s1 b) as [Ha Hi]. unfold active_validators, authorities_of.
  by rewrite Ha, Hi.
Qed.

(** The second half of a change of session: the new set is in place and nothing is
    signed at the pending slot. *)
Lemma rotated_state blk b1 sch id v s l n k :
  0 ≤ ValidatorSetId s → id = ValidatorSetId s + 1 → n ∈ l → pending n k s →
  let s' := foldl (announce_rotated blk b1 sch) (foldl (reset_network id) (rotate_set id v s) l) l in
  unsigned n k id s' ∧ ValidatorSetId s' = id ∧ active_validators s' = v.
Proof.
  intros H0 Hid Hn Hp. cbv zeta. split_and!.
  - apply fold_inv.
    { intros s1 n' H1. unfold announce_rotated. by destruct (_ && _). }
    by apply reset_networks_unsigned.
  - apply fold_inv; [intros s1 n' <-; unfold announce_rotated; by destruct (_ && _)|].
    apply fold_inv; [|done]. intros s1 n' <-. unfold reset_network.
    apply (fold_inv (λ s2, ValidatorSetId s2 = ValidatorSetId s1)); [|done].
    intros s2 k' <-. unfold reset_signed. by destruct (_ !! _).
  - rewrite active_frame_fold by (intros; unfold announce_rotated; by destruct (_ && _)).
    rewrite active_frame_fold.
    + unfold active_validators, authorities_of. cbn. unfold sat_sub.
      rewrite lookup_delete_ne, lookup_insert_eq by lia. done.
    + intros s1 n'. unfold reset_network.
      apply (fold_inv (λ s2, Authorities s2 = Authorities s1 ∧ ValidatorSetId s2 = ValidatorSetId s1));
        [|done]. intros s2 k' H2. unfold reset_signed. by destruct (_ !! _).
Qed.

Lemma schedule_rotations_pending blk id q s l n k m :
  k < u64_max → in_slot n k m s → pending n k s →
  let s' := (foldl (schedule_rotation blk id q) (s, ∅) l).1 in
  in_slot n k m s' ∧ pending n k s' ∧ ValidatorSetId s' = ValidatorSetId s.
Proof.
  intros Hk Hin Hp. cbv zeta. apply (fold_inv (λ acc, in_slot n k m acc.1 ∧ pending n k acc.1
    ∧ ValidatorSetId acc.1 = ValidatorSetId s)); [|done].
  intros [s1 sch] n' (H1 & H2 & H3). cbn in *. destruct (rotation_payload _ _ _ _); [|done].
  destruct H2 as [H2 _]. cbn [fst].
  match goal with |- in_slot _ _ _ (push_message ?m' _) ∧ _ =>
    pose proof (in_slot_push n k m Hk s1 m' H1 eq_refl) as H4 end. split; [exact H4|].
  split; [|done]. split; [done|]. apply H4.
Qed.

Lemma change_authorities_rotated blk v q s s' m n k :
  change_authorities blk v q s = Some s' → 0 ≤ ValidatorSetId s →
  list_to_set v ≠@{gset TheaId} list_to_set (active_validators s) →
  in_slot n k m s → k < u64_max → n ∈ ActiveNetworks s → pending n k s →
  unsigned n k (ValidatorSetId s') s' ∧ active_validators s' = v.
Proof.
  intros H H0 Hne Hin Hk Hn Hp. unfold change_authorities in H. fold (active_validators s) in H.
  unfold checked_add_u in H. destruct (_ <=? umax 64); [|done]. cbn [mbind option_bind] in H.
  rewrite (bool_decide_false _ Hne) in H.
  set (id := ValidatorSetId s + 1) in *. set (l := btree_elements _) in *. set (b1 := negb _) in *.
  assert (n ∈ l) as Hl by (by apply elem_of_btree_elements).
  destruct (schedule_rotations_pending blk id q s l n k m Hk Hin Hp) as (H1 & H2 & H3).
  destruct b1.
  - destruct (foldl (schedule_rotation blk id q) (s, ∅) l) as [s1 sch]. injection H as <-. cbn in *.
    edestruct rotated_state as (G1 & G2 & G3); [..|split; [rewrite G2; exact G1|exact G3]]; cbn;
      [lia|lia|done|exact H2].
  - injection H as <-. edestruct rotated_state as (G1 & G2 & G3);
      [..|split; [rewrite G2; exact G1|exact G3]]; done.
Qed.

(** *** Collecting the signatures of the active set

    [collecting n k m sigs s]: the signatures [sigs] of the active set are collected for the
    message [m]. *)
Definition collecting n k (m : Message) (sigs : gmap N TheaSig) s : Prop :=
  OutgoingMessages s !! (n, k) = Some m ∧ active_validators s ≠ []
  ∧ match SignedOutgoingMessages s !! (n, k) with
    | Some sm => sm = mkSignedMessage (ValidatorSetId s) m sigs
    | None => sigs = ∅
    end.

(** The submission of one signature on the slot by the validator with index [i] *)
Definition submit_signature n k id (c : TheaChain) (e : N * TheaSig) : TheaChain :=
  (submit_signed_outgoing_messages NoOrigin e.1 id [(n, k, e.2)] c).2.

Lemma submit_signature_collects n k m sigs c i sig :
  collecting n k m sigs (thea c) →
  let c' := submit_signature n k (ValidatorSetId (thea c)) c (i, sig) in
  ValidatorSetId (thea c') = ValidatorSetId (thea c)
  ∧ active_validators (thea c') = active_validators (thea c)
  ∧ SignedOutgoingMessages (thea c') !! (n, k) =
      Some (mkSignedMessage (ValidatorSetId (thea c)) m (<[i := sig]> sigs))
  ∧ collecting n k m (<[i := sig]> sigs) (thea c')
  ∧ (nonce_of (SignedOutgoingNonce (thea c')) n = k
     ∨ SignedOutgoingNonce (thea c') = SignedOutgoingNonce (thea c))
  ∧ (is_Some (SignedOutgoingMessages (thea c) !! (n, k)) →
     2 * Z.of_nat (length (active_validators (thea c))) < 3 * Z.of_nat (size (<[i := sig]> sigs)) →
     nonce_of (SignedOutgoingNonce (thea c')) n = k).
Proof.
  intros (Hm & Ha & Hs). cbn zeta.
  assert (∃ c', submit_signature n k (ValidatorSetId (thea c)) c (i, sig) = c'
    ∧ store_signature i (ValidatorSetId (thea c)) (set_size (thea c)) (n, k, sig) c = (Ok tt, c'))
    as (c' & -> & Hst).
  { unfold submit_signature, submit_signed_outgoing_messages, transactional, thea_none.
    unfold active_validators in *. mrun. rewrite Z.eqb_refl. mrun. rewrite bool_decide_false by done.
    cbn [negb for_each]. mrun.
    assert (is_ok (store_signature i (ValidatorSetId (thea c)) (Z.of_nat (length
      (authorities_of (thea c) (ValidatorSetId (thea c))))) (n, k, sig) c).1 = true) as Hok.
    { unfold store_signature, upd_thea. mrun. rewrite Hm. mrun.
      destruct (SignedOutgoingMessages (thea c) !! (n, k)); mrun; [|done]. by destruct (threshold_reached _ _). }
    destruct (store_signature _ _ _ _ c) as [[[]| |] c'] eqn:E; [by exists c'|done..]. }
  unfold store_signature, upd_thea in Hst. inv_run. rewrite Hm in *. simplify_eq.
  destruct (SignedOutgoingMessages (thea c) !! (n, k)) as [sm|] eqn:Hsm; inv_run.
  - subst sm. set (sm' := add_signature _ _ _ _ _) in *.
    assert (sm' = mkSignedMessage (ValidatorSetId (thea c)) a (<[i := sig]> sigs)) as Hsm'.
    { unfold sm', add_signature. cbn. rewrite bool_decide_true, Z.eqb_refl by done. done. }
    clearbody sm'. subst sm'. pose proof (threshold_reached_spec (mkSignedMessage
      (ValidatorSetId (thea c)) a (<[i := sig]> sigs)) (set_size (thea c))) as Ht. cbn in Ht.
    destruct (threshold_reached _ _); inv_run; unfold collecting, active_validators in *; cbn;
      rewrite lookup_insert_eq; split_and!; try done; cbn.
    + left. by rewrite nonce_of_insert, decide_True.
    + intros _ _. by rewrite nonce_of_insert, decide_True.
    + by right.
    + intros _ H. destruct (authorities_of _ _); [done|]. cbn in *.
      assert (false = true); [|done]. apply Ht; lia.
  - subst sigs. unfold collecting, active_validators in *; cbn. rewrite lookup_insert_eq.
    split_and!; try done. by right.
Qed.

(** The submissions of several validators, one after the other *)
Definition submit_signatures n k id (c : TheaChain) (l : list (N * TheaSig)) : TheaChain :=
  foldl (submit_signature n k id) c l.

Lemma submit_signatures_collect n k m c l :
  collecting n k m ∅ (thea c) → NoDup l.*1 →
  let c' := submit_signatures n k (ValidatorSetId (thea c)) c l in
  ValidatorSetId (thea c') = ValidatorSetId (thea c)
  ∧ active_validators (thea c') = active_validators (thea c)
  ∧ collecting n k m (list_to_map l) (thea c')
  ∧ (l ≠ [] → SignedOutgoingMessages (thea c') !! (n, k) =
       Some (mkSignedMessage (ValidatorSetId (thea c)) m (list_to_map l)))
  ∧ (nonce_of (SignedOutgoingNonce (thea c')) n = k
     ∨ nonce_of (SignedOutgoingNonce (thea c')) n = nonce_of (SignedOutgoingNonce (thea c)) n)
  ∧ ((2 ≤ length l)%nat →
     2 * Z.of_nat (length (active_validators (thea c))) < 3 * Z.of_nat (length l) →
     nonce_of (SignedOutgoingNonce (thea c')) n = k).
Proof.
  intros Hc. unfold submit_signatures. induction l as [|[i sig] l IH] using rev_ind; intros Hnd.
  { cbn. split_and!; try done; [by right|lia]. }
  pose proof Hnd as Hnd'. rewrite foldl_app. cbn [foldl].
  rewrite fmap_app in Hnd. apply NoDup_app in Hnd as (Hnd & Hi & _).
  destruct (IH Hnd) as (H1 & H2 & H3 & H4 & H5 & _). clear IH.
  set (c1 := foldl _ c l) in *.
  assert (list_to_map (l ++ [(i, sig)]) = <[i := sig]> (list_to_map l : gmap N TheaSig)) as Hl.
  { rewrite list_to_map_snoc; [done|]. intros Hin. apply (Hi i Hin). by left. }
  destruct (submit_signature_collects n k m _ c1 i sig H3) as (G1 & G2 & G3 & G4 & G5 & G6).
  rewrite H1, H2 in *. rewrite Hl. split_and!; try done.
  - destruct G5 as [?| ->]; auto.
  - rewrite length_app. cbn. intros Hlen Hq. apply G6.
    + destruct l; [cbn in Hlen; lia|]. by rewrite H4.
    + rewrite <- Hl, map_size_list_to_map, length_app by done. done.
Qed.

(** After a change of the active set nothing is collected yet for the next message. *)
Lemma rotated_collecting v q c c' n k m :
  thea_reachable c → is_u 64 (ValidatorSetId (thea c)) →
  thea_on_new_session MaxAuthorities v q c = Some c' →
  list_to_set (truncate_from MaxAuthorities v) ≠@{gset TheaId} list_to_set (active_validators (thea c)) →
  n ∈ ActiveNetworks (thea c) → k = sat_add 64 (nonce_of (SignedOutgoingNonce (thea c)) n) 1 →
  OutgoingMessages (thea c) !! (n, k) = Some m → k < u64_max →
  active_validators (thea c') = truncate_from MaxAuthorities v
  ∧ (active_validators (thea c') ≠ [] → collecting n k m ∅ (thea c'))
  ∧ sat_add 64 (nonce_of (SignedOutgoingNonce (thea c')) n) 1 = k.
Proof.
  intros Hr [H0 _] H Hne Hn -> Hm Hk. pose proof (thea_reachable_inv c Hr) as Hinv.
  pose proof (matched_reachable n _ Hk c Hr) as Hmat.
  assert (in_slot n _ m (thea c)) as Hin by (split; [done|apply (proj1 Hinv _ _ _ Hm)]).
  unfold thea_on_new_session in H. destruct (change_authorities _ _ _ _) as [s1|] eqn:Hs; [|done].
  injection H as <-. cbn.
  destruct (change_authorities_rotated _ _ _ _ _ m n _ Hs H0 Hne Hin Hk Hn) as [Hu Ha];
    [split; [done|apply Hin]|].
  pose proof (finals_change_authorities (SignedOutgoingNonce (thea c)) _ _ _ _ _ eq_refl Hs) as Hf.
  destruct (in_slot_change_authorities n _ m Hk _ _ _ _ _ Hin Hs) as [Hm' _].
  pose proof (matched_change_authorities n _ Hk _ _ _ _ _ Hmat Hs) as Hmat'.
  split; [done|]. split; [|by rewrite Hf]. intros Hnil. split_and!; [done..|].
  destruct (SignedOutgoingMessages s1 !! _) as [sm|] eqn:Hsm; [|done].
  destruct (Hmat' sm Hsm) as [Hmm _]. rewrite Hm' in Hmm. injection Hmm as ->.
  destruct (Hu sm Hsm) as [Hsig Hid]. destruct sm; cbn in *. congruence.
Qed.

(** A validator of the active set whose signature is not among those collected can submit
    it while the slot is pending. *)
Lemma collecting_validates n k m sigs s i a sig :
  collecting n k m sigs s → sat_add 64 (nonce_of (SignedOutgoingNonce s) n) 1 = k → sigs !! i = None →
  active_validators s !! N.to_nat i = Some a →
  ecdsa_verify_prehashed sig (sha2_256 (enc_message m)) a = true →
  validate_signed_outgoing_message s i (ValidatorSetId s) [(n, k, sig)] = Ok tt.
Proof.
  intros (Hm & Ha & Hs) <- Hi Hai Hv. unfold validate_signed_outgoing_message.
  rewrite Z.eqb_refl. cbn [negb]. fold (active_validators s). rewrite bool_decide_false by done.
  rewrite Hai. cbn [validate_entries]. unfold validate_entry. rewrite Z.eqb_refl, Hm, Hv. cbn [negb].
  destruct (SignedOutgoingMessages s !! _) as [sm|]; [|done]. subst sm.
  unfold contains_signature. cbn. by rewrite Hi.
Qed.

(** C25: a change of the validator set never blocks the bridge.  After a session in
    which the active set is replaced, take the next message of an active network, whether
    or not the old set had begun to sign it.  Every validator of the new set can submit its
    signature on it.  When some of them have submitted theirs, one after the other, exactly
    their signatures are collected, under the new set's id and for that message; the message
    is then final, or every other validator of the set can still submit; and it is final
    once at least two, and more than two thirds of the set, have submitted. *)
Theorem rotation_keeps_signing v q c c' n k m :
  thea_reachable c → is_u 64 (ValidatorSetId (thea c)) →
  thea_on_new_session MaxAuthorities v q c = Some c' →
  list_to_set (truncate_from MaxAuthorities v) ≠@{gset TheaId} list_to_set (active_validators (thea c)) →
  n ∈ ActiveNetworks (thea c) → k = sat_add 64 (nonce_of (SignedOutgoingNonce (thea c)) n) 1 →
  OutgoingMessages (thea c) !! (n, k) = Some m → k < u64_max →
  let id := ValidatorSetId (thea c') in
  let valid i sig := ∃ a, active_validators (thea c') !! N.to_nat i = Some a
    ∧ ecdsa_verify_prehashed sig (sha2_256 (enc_message m)) a = true in
  active_validators (thea c') = truncate_from MaxAuthorities v
  ∧ (∀ i sig, valid i sig →
      validate_signed_outgoing_message (thea c') i id [(n, k, sig)] = Ok tt)
  ∧ ∀ l, l ≠ [] → NoDup l.*1 → (∀ i sig, (i, sig) ∈ l → valid i sig) →
      let c1 := submit_signatures n k id c' l in
      SignedOutgoingMessages (thea c1) !! (n, k) = Some (mkSignedMessage id m (list_to_map l))
      ∧ (nonce_of (SignedOutgoingNonce (thea c1)) n = k
         ∨ ∀ i sig, valid i sig → i ∉ l.*1 →
             validate_signed_outgoing_message (thea c1) i id [(n, k, sig)] = Ok tt)
      ∧ ((2 ≤ length l)%nat →
         2 * Z.of_nat (length (active_validators (thea c'))) < 3 * Z.of_nat (length l) →
         nonce_of (SignedOutgoingNonce (thea c1)) n = k).
Proof.
  intros Hr H0 H Hne Hn Hk Hm Hlt id valid.
  destruct (rotated_collecting v q c c' n k m Hr H0 H Hne Hn Hk Hm Hlt) as (Ha & Hc & Hp).
  assert (∀ i sig, valid i sig → collecting n k m ∅ (thea c')) as Hc'.
  { intros i sig (a & Hi & _). apply Hc. intros Hnil. by rewrite Hnil in Hi. }
  split; [done|]. split.
  { intros i sig Hval. destruct Hval as (a & Hi & Hv) eqn:E. apply (collecting_validates n k m ∅ _ i a); eauto. }
  intros l Hl Hnd Hval.
  assert (collecting n k m ∅ (thea c')) as Hcol.
  { destruct l as [|[i sig] l]; [done|]. apply (Hc' i sig), Hval. by left. }
  destruct (submit_signatures_collect n k m c' l Hcol Hnd) as (H1 & H2 & H3 & H4 & H5 & H6).
  fold id in H1, H2, H3, H4, H5, H6. split_and!; [by apply H4| |done].
  destruct H5 as [?|H5]; [by left|right]. intros i sig (a & Hi & Hv) Hil.
  pose proof (collecting_validates n k m _ _ i a sig H3) as Hg. rewrite H1, H2, H5 in Hg.
  apply Hg; [done|by apply not_elem_of_list_to_map_1|done..].
Qed.

(** ** Incoming messages *)

(** Queued messages sit under their own network and nonce. *)
Definition queue_inv s : Prop :=
  ∀ n k q, IncomingMessagesQueue s !! (n, k) = Some q →
    msg_network (in_message q) = n ∧ msg_nonce (in_message q) = k.

Lemma queue_inv_insert s q :
  queue_inv s → queue_inv (s <| IncomingMessagesQueue ::=
    <[(msg_network (in_message q), msg_nonce (in_message q)) := q]> |>).
Proof.
  intros Hs n k q'. cbn.
  destruct (decide ((msg_network (in_message q), msg_nonce (in_message q)) = (n, k))) as [He|Hne].
  - rewrite He, lookup_insert_eq. intros [= <-]. by injection He.
  - rewrite lookup_insert_ne by done. apply Hs.
Qed.

Lemma queue_inv_delete s n k :
  queue_inv s → queue_inv (s <| IncomingMessagesQueue ::= delete (n, k) |>).
Proof. intros Hs n' k' q Hq. cbn in Hq. apply lookup_delete_Some in Hq as [_ Hq]. by apply Hs. Qed.

Lemma queue_inv_dispatch o call :
  (∀ i id l, call ≠ SubmitSignedOutgoing i id l) →
  preserves (λ c, queue_inv (thea c)) (dispatch o call).
Proof.
  intros Hcall. apply keeps_transactional.
  destruct call; try (by destruct (Hcall auth_index id entries));
    unfold submit_incoming_message, send_thea_message, execute_withdrawals, push_message,
      update_incoming_nonce, update_outgoing_nonce, add_thea_network, remove_thea_network,
      report_misbehaviour, handle_misbehaviour, add_relayer_origin_for_network; thea_keeps.
  all: intros s Hs; first [by apply queue_inv_delete|match goal with
    |- queue_inv (_ <| IncomingMessagesQueue ::= <[_ := ?q]> |>) =>
      exact (queue_inv_insert (thea s) q Hs) end].
Qed.

Lemma queue_inv_incoming blk n : keeps (λ c, queue_inv (thea c)) (process_incoming blk n).
Proof. unfold process_incoming. thea_keeps; intros; by apply queue_inv_delete. Qed.

Lemma store_signature_queue f i id len e :
  keeps (λ c, IncomingMessagesQueue (thea c) = f) (store_signature i id len e).
Proof. destruct e as [[n k] sig]. unfold store_signature. thea_keeps. Qed.

Lemma queue_inv_step ev c c' : thea_step ev c c' → queue_inv (thea c) → queue_inv (thea c').
Proof.
  intros [o call s Ho Ht|call s Hv|s s' u H|v q s s' H|w s] Hc.
  - destruct call as [| | | | | |i id l| | |]; try (by apply queue_inv_dispatch).
    by rewrite submit_signed_origin.
  - destruct call as [| | | | | |i id l| | |]; try done.
    assert (preserves (λ c, IncomingMessagesQueue (thea c) = IncomingMessagesQueue (thea s))
      (dispatch NoOrigin (SubmitSignedOutgoing i id l))) as Hp.
    { apply keeps_transactional. unfold submit_signed_outgoing_messages. thea_keeps.
      apply store_signature_queue. }
    intros n k q. rewrite (Hp s eq_refl). apply Hc.
  - unfold thea_on_initialize in H. inv_run.
    refine (keeps_for_each (λ c, queue_inv (thea c)) _ _ _ _ _ _ _ Hk); [|exact Hc].
    intros. apply queue_inv_incoming.
  - unfold thea_on_new_session in H. destruct (change_authorities _ _ _ _) as [s1|] eqn:Hs; [|done].
    injection H as <-. revert Hs. apply change_authorities_ind; try done.
    intros s2 id n k H2. unfold reset_signed. by destruct (_ !! _).
  - done.
Qed.

Lemma queue_inv_reachable c : thea_reachable c → queue_inv (thea c).
Proof.
  intros (c0 & (w & keys & ->) & Hsteps).
  assert (queue_inv (thea (mkTheaChain 0 (thea_initialize_authorities MaxAuthorities keys empty_storage) w)))
    as H0 by (intros n k q Hq; cbn in Hq; by rewrite lookup_empty in Hq).
  induction Hsteps as [|c1 c2 c3 [ev Hs] _ IH]; [done|]. apply IH. by eapply queue_inv_step.
Qed.

(** The slot of the next nonce [v + 1] of a network, whose message satisfies [P]. *)
Section early.
Context (n blk v : Z).

Definition slot_holds (P : IncomingMessage → Prop) s : Prop :=
  queue_inv s ∧ nonce_of (IncomingNonce s) n = v
  ∧ ∀ q, IncomingMessagesQueue s !! (n, sat_add 64 v 1) = Some q → P q.

Definition is_early (q : IncomingMessage) : Prop := saturated_into 32 blk < execute_at q.

(** A message whose fork period is not over is taken out of the queue and dropped. *)
Lemma process_incoming_early c c' :
  slot_holds is_early (thea c) → process_incoming blk n c = (Ok tt, c') →
  slot_holds (λ _, False) (thea c').
Proof.
  intros (Hinv & Hv & Hq) H. unfold process_incoming, upd_thea in H. inv_run.
  rewrite Hv in *. destruct (IncomingMessagesQueue (thea c) !! _) as [q|] eqn:Hs.
  - inv_run. specialize (Hq q eq_refl). unfold is_early in Hq.
    rewrite (proj2 (Z.leb_gt _ _)) in * by lia. inv_run.
    split; [by apply queue_inv_delete|]. split; [done|]. cbn. by rewrite lookup_delete_eq.
  - inv_run. split; [done|]. split; [done|]. intros q. by rewrite Hs.
Qed.

Lemma isolated_thea m c b c' : isolated m c = (Ok b, c') → thea c' = thea c.
Proof. unfold isolated. by destruct (m (world c)) as [[]]; intros [= _ <-]. Qed.
Lemma swallow_world_thea m c u c' : swallow (world_call m) c = (Ok u, c') → thea c' = thea c.
Proof. unfold swallow, world_call. by destruct (m (world c)) as [[]]; intros [= _ <-]. Qed.

(** The other networks leave the slot alone. *)
Lemma process_incoming_other P n' c c' :
  n' ≠ n → slot_holds P (thea c) → process_incoming blk n' c = (Ok tt, c') →
  slot_holds P (thea c').
Proof.
  intros Hne Hc H. pose proof Hc as (Hinv & Hv & Hq). unfold process_incoming, upd_thea in H. inv_run.
  set (k' := sat_add 64 _ 1) in *.
  destruct (IncomingMessagesQueue (thea c) !! (n', k')) as [q|] eqn:Hs; [|by inv_run].
  destruct (Hinv n' k' q Hs) as [Hnet _]. inv_run.
  assert (slot_holds P ((thea c) <| IncomingMessagesQueue ::= delete (n', k') |>)) as Hdel.
  { split; [by apply queue_inv_delete|]. split; [done|]. cbn. intros q' Hq'.
    apply lookup_delete_Some in Hq' as [_ Hq']. by apply Hq. }
  destruct (_ <=? _); [|by inv_run]. inv_run.
  repeat match goal with
  | H : isolated _ _ = _ |- _ => apply isolated_thea in H
  | H : swallow _ _ = _ |- _ => apply swallow_world_thea in H
  end. destruct Hdel as (H1 & H2 & H3).
  match goal with H : thea c' = _ |- _ => rewrite H end.
  match goal with b : bool |- _ => destruct b end; inv_run; cbn in *;
    match goal with H : thea _ = _ |- _ => rewrite H end;
    (split; [exact H1|]; split; [|exact H3]; cbn; rewrite nonce_of_insert, decide_False; congruence).
Qed.

Lemma on_initialize_early l c c' :
  NoDup l → n ∈ l → slot_holds is_early (thea c) →
  for_each l (process_incoming blk) c = (Ok tt, c') → slot_holds (λ _, False) (thea c').
Proof.
  assert (∀ P l c, n ∉ l → slot_holds P (thea c) →
    for_each l (process_incoming blk) c = (Ok tt, c') → slot_holds P (thea c')) as Hothers.
  { intros P l1. induction l1 as [|n' l1 IH]; intros c1 Hn Hc H; cbn [for_each] in H; [by inv_run|].
    apply not_elem_of_cons in Hn as [Hne Hn]. apply bind_ok_inv in H as ([] & c2 & H1 & H2).
    apply (IH c2); [done| |done]. by eapply process_incoming_other. }
  intros Hnd. revert c. induction Hnd as [|n' l Hn' _ IH]; intros c Hn Hc H; [by apply elem_of_nil in Hn|].
  cbn [for_each] in H. apply bind_ok_inv in H as ([] & c2 & H1 & H2).
  destruct (decide (n' = n)) as [->|Hne].
  - apply (Hothers _ l c2 Hn'); [|done]. by eapply process_incoming_early.
  - apply (IH c2); [by apply elem_of_cons in Hn as [?|?]| |done]. by eapply process_incoming_other.
Qed.
End early.

(** An incoming message never survives its fork period.  A message submitted for
    the next nonce of an active network is taken out of the queue at the start of
    the next block, before its fork period of at least two blocks is over, and is
    not executed: the nonce stays where it was and the message is gone. *)
Theorem incoming_message_dropped signer payload stake c c1 c2 :
  thea_reachable c →
  submit_incoming_message (Signed signer) payload stake c = (Ok tt, c1) →
  msg_network payload ∈ ActiveNetworks (thea c) →
  msg_nonce payload = sat_add 64 (nonce_of (IncomingNonce (thea c)) (msg_network payload)) 1 →
  IncomingMessagesQueue (thea c) !! (msg_network payload, msg_nonce payload) = None →
  2 ≤ fork_period (config_of (thea c) (msg_network payload)) →
  0 ≤ t_block c → t_block c + 1 < u32_max →
  thea_step TheaBlockEvent c1 c2 →
  IncomingMessagesQueue (thea c2) !! (msg_network payload, msg_nonce payload) = None
  ∧ nonce_of (IncomingNonce (thea c2)) (msg_network payload)
    = nonce_of (IncomingNonce (thea c)) (msg_network payload).
Proof.
  intros Hr%queue_inv_reachable H Hn Hk Hnone Hfork H0 Hmax Hstep.
  unfold submit_incoming_message, thea_signed, upd_thea in H. inv_run. rewrite Hnone in *. inv_run.
  match goal with H : world_call _ _ = (Ok _, ?s) |- _ =>
    assert (thea s = thea c ∧ t_block s = t_block c) as [Ht Hb] end.
  { match goal with H : world_call ?m _ = _ |- _ => unfold world_call in H;
      destruct (m (world c)) as [[]]; [|done..]; injection H as <- <- end. done. }
  inversion Hstep as [| |c3 c4 u Hblk| |]; subst. unfold thea_on_initialize in Hblk. inv_run.
  destruct u. cbn in *. rewrite Ht, Hb in *.
  match goal with H : for_each _ _ _ = _ |- _ =>
    eapply on_initialize_early in H as (_ & Hv & Hgone) end.
  - split; [|exact Hv]. rewrite Hk.
    destruct (IncomingMessagesQueue (thea c2) !! _) eqn:Hq; [|done]. by destruct (Hgone _ eq_refl).
  - unfold btree_elements. rewrite merge_sort_Permutation. apply NoDup_elements.
  - by apply elem_of_btree_elements.
  - cbn. rewrite Ht. split; [|split; [done|]].
    + by apply (queue_inv_insert (thea c) (mkIncomingMessage payload _ _ _)).
    + cbn. rewrite <- Hk, lookup_insert_eq. intros q [= <-]. unfold is_early. cbn.
      unfold saturated_into, sat_add, u32_max in *. lia.
Qed.

(** ** Settlement of reports *)
Lemma world_call_ok (m : M World WorldError unit) c u c' :
  world_call m c = (Ok u, c') → ∃ w, m (world c) = (Ok tt, w) ∧ c' = c <| world := w |>.
Proof.
  unfold world_call. destruct (m (world c)) as [[[]| |] w]; [|done..]. intros [= <- <-]. by exists w.
Qed.

Lemma report_misbehaviour_ok who n k c c1 :
  report_misbehaviour (Signed who) n k c = (Ok tt, c1) →
  ∃ q w, IncomingMessagesQueue (thea c) !! (n, k) = Some q
    ∧ hold who (fisherman_stake (config_of (thea c) n)) (world c) = (Ok tt, w) ∧ world c1 = w
    ∧ MisbehaviourReports (thea c1) !! (n, k)
      = Some (mkMisbehaviourReport q who (fisherman_stake (config_of (thea c) n))).
Proof.
  unfold report_misbehaviour, thea_signed, upd_thea. intros H. inv_run.
  destruct (IncomingMessagesQueue (thea c) !! (n, k)) as [q|] eqn:Hq; [|case_match; inv_run].
  match goal with H : world_call _ _ = _ |- _ => apply world_call_ok in H as (w & Hw & ->) end.
  inv_run. exists q, w. split_and!; [done..|]. cbn. by rewrite lookup_insert_eq.
Qed.

Section reports.
Context {TL : TheaWorldLaws}.

(** A report is settled between the relayer and the fisherman.  If governance
    accepts it, the relayer's stake is paid out of its hold to the fisherman, whose
    own stake is released.  If governance rejects it, the fisherman is charged
    twice: the stake is burnt from the free balance, and the hold on the same amount
    outlives the report. *)
Theorem report_settlement who o n k acceptance c c1 c2 q stake :
  report_misbehaviour (Signed who) n k c = (Ok tt, c1) →
  handle_misbehaviour GovernanceOrigin o n k acceptance c1 = (Ok tt, c2) →
  IncomingMessagesQueue (thea c) !! (n, k) = Some q → in_relayer q ≠ who →
  stake = fisherman_stake (config_of (thea c) n) → 0 ≤ stake →
  0 ≤ in_stake q ≤ on_hold (world c) (in_relayer q) → 0 ≤ on_hold (world c) who →
  MisbehaviourReports (thea c2) !! (n, k) = None
  ∧ if acceptance
    then on_hold (world c2) who = on_hold (world c) who
         ∧ on_hold (world c2) (in_relayer q) = on_hold (world c) (in_relayer q) - in_stake q
         ∧ native_free (world c) who + in_stake q ≤ native_free (world c2) who
    else on_hold (world c2) who = on_hold (world c) who + stake
         ∧ (stake ≤ native_reducible (world c1) who →
            native_free (world c2) who = native_free (world c) who - 2 * stake).
Proof.
  intros (q' & w & Hq' & Hh & Hw & Hrep)%report_misbehaviour_ok H Hq Hne -> Hs Hst Hheld.
  rewrite Hq in Hq'. injection Hq' as <-.
  unfold handle_misbehaviour, upd_thea in H. inv_run. rewrite Hrep in *. cbn in *. inv_run.
  destruct (hold_ok _ _ _ _ Hh) as [Hf1 Ho1]. destruct (hold_frame _ _ _ _ _ Hh Hne) as [Hf1' Ho1'].
  destruct acceptance; inv_run;
    repeat match goal with Hc : world_call _ _ = _ |- _ =>
      apply world_call_ok in Hc as (? & ? & ?); simplify_eq end;
    cbn in *.
  - split; [by rewrite lookup_delete_eq|].
    repeat match goal with
    | H : release (in_relayer q) _ _ = _ |- _ =>
        destruct (release_ok _ _ _ _ H) as [? ?]; [lia|];
        destruct (release_frame _ _ _ _ who H) as [? ?]; [done|]; clear H
    | H : native_transfer _ _ _ _ = _ |- _ =>
        destruct (native_transfer_ok _ _ _ _ _ H Hne) as (? & ? & Hholds); clear H
    | H : release who _ _ = _ |- _ =>
        destruct (release_ok _ _ _ _ H) as [? ?]; [lia|];
        destruct (release_frame _ _ _ _ (in_relayer q) H) as [? ?]; [done|]; clear H
    end.
    pose proof (Hholds who). pose proof (Hholds (in_relayer q)). lia.
  - split; [by rewrite lookup_delete_eq|].
    match goal with H : native_burn _ _ _ = _ |- _ =>
      pose proof (native_burn_ok _ _ _ _ H Hs) end. lia.
Qed.
End reports.
End invariants.

(** ** Concrete runs *)
Module TheaExample.
Import RefCrypto RefThea.

Definition governance (o : Origin) : bool := match o with Root => true | _ => false end.
Abbreviation reached := (thea_reachable governance 10).

(** Keys 1, 2 and 3 are active; accounts 4 and 5 have 1000 each. *)
Definition start : TheaChain :=
  mkTheaChain 0 (thea_initialize_authorities 10 [1; 2; 3] empty_storage)
    {[acct 4 := (1000, 0); acct 5 := (1000, 0)]}.

Definition admissible (c : TheaChain) (e : Origin * TheaCall) : bool :=
  match e with
  | (NoOrigin, call) => thea_validate_unsigned (thea c) call
  | (_, UpdateOutgoingNonce _ _) | (_, UpdateIncomingNonce _ _) => false
  | _ => true
  end.
Definition run (c : TheaChain) (e : Origin * TheaCall) : TheaChain :=
  (thea_dispatch governance e.1 e.2 c).2.
Fixpoint runs (c : TheaChain) (l : list (Origin * TheaCall)) : option TheaChain :=
  match l with
  | [] => Some c
  | e :: l => if admissible c e then runs (run c e) l else None
  end.

Lemma run_step c e : admissible c e = true → ∃ ev, thea_step governance 10 ev c (run c e).
Proof.
  destruct e as [o call]. intros H. exists (TheaCallEvent o call).
  destruct o; [apply thea_step_call; [done|]; destruct call; try done..|by apply thea_step_unsigned].
Qed.

Lemma runs_reachable c l c' : reached c → runs c l = Some c' → reached c'.
Proof.
  revert c. induction l as [|e l IH]; intros c Hc H; cbn in H; [by injection H as <-|].
  destruct (admissible c e) eqn:He; [|done]. apply (IH _ (ltac:(
    destruct Hc as (c0 & H0 & Hs); exists c0; split; [done|];
    eapply rtc_r; [exact Hs|apply run_step, He])) H).
Qed.

Lemma start_reachable : reached start.
Proof. exists start. split; [by eexists _, _|done]. Qed.

Definition after (l : list (Origin * TheaCall)) : TheaChain := default start (runs start l).
Lemma after_reachable l : reached (after l).
Proof.
  unfold after. destruct (runs start l) as [c|] eqn:H; [|apply start_reachable].
  by apply (runs_reachable start l); [apply start_reachable|].
Qed.

(** One message is sent to network 7; a validator signs by naming its key. *)
Definition opening : list (Origin * TheaCall) := [
  (Root, AddTheaNetwork 7 false 20 10 5);
  (Root, SendTheaMessage [x01] 7)].
Definition sign (i : N) (key : Z) (id : Z) : Origin * TheaCall :=
  (NoOrigin, SubmitSignedOutgoing i id [((7, 1), key)]).

Definition two_signed : TheaChain := after (opening ++ [sign 0 1 0; sign 1 2 0]).
Definition all_signed : TheaChain := run two_signed (sign 2 3 0).
Definition the_message : Message := mkMessage 0 1 7 L1Deposit [x01].

Lemma two_signed_reachable : reached two_signed.
Proof. apply (after_reachable (opening ++ [sign 0 1 0; sign 1 2 0])). Qed.

Lemma last_signature_step :
  thea_step governance 10 (TheaCallEvent NoOrigin (sign 2 3 0).2) two_signed all_signed.
Proof. apply thea_step_unsigned. vm_compute. reflexivity. Qed.

Lemma outgoing_finality_witness :
  nonce_of (SignedOutgoingNonce (thea two_signed)) 7 = 0
  ∧ nonce_of (SignedOutgoingNonce (thea all_signed)) 7 = 1
  ∧ ∃ sm, SignedOutgoingMessages (thea all_signed) !! (7, 1) = Some sm
    ∧ (sm_set_id sm = ValidatorSetId (thea all_signed) →
       ∃ signers : list nat, NoDup signers
         ∧ 2 * Z.of_nat (length (active_validators (thea all_signed))) < 3 * Z.of_nat (length signers)
         ∧ ∀ i, i ∈ signers → ∃ a sig, active_validators (thea all_signed) !! i = Some a
             ∧ ecdsa_verify_prehashed sig (sha2_256 (enc_message (sm_message sm))) a = true).
Proof.
  assert (nonce_of (SignedOutgoingNonce (thea two_signed)) 7 = 0) as H0 by (vm_compute; reflexivity).
  assert (nonce_of (SignedOutgoingNonce (thea all_signed)) 7 = 1) as H1 by (vm_compute; reflexivity).
  split; [exact H0|]. split; [exact H1|].
  refine (proj2 (outgoing_finality governance 10 _ _ _ 7 0 1 two_signed_reachable
    last_signature_step H0 H1 _)). discriminate.
Defined.

Lemma outgoing_messages_immutable_witness :
  OutgoingMessages (thea all_signed) !! (7, 1) = Some the_message.
Proof.
  apply (outgoing_messages_immutable governance 10 _ _ _ 7 1 the_message two_signed_reachable
    last_signature_step); [vm_compute; reflexivity|reflexivity].
Defined.

(** Two signatures are collected when keys 4, 5 and 6 take over. *)
Definition new_keys : list TheaId := [4; 5; 6].
Definition new_session (keys : list TheaId) (c : TheaChain) : TheaChain :=
  default c (thea_on_new_session 10 keys keys c).
Definition rotated : TheaChain := new_session new_keys two_signed.

Lemma new_session_some keys c :
  is_Some (checked_add_u 64 (ValidatorSetId (thea c)) 1) →
  thea_on_new_session 10 keys keys c = Some (new_session keys c).
Proof.
  intros [id H]. unfold new_session, thea_on_new_session, change_authorities. rewrite H. cbn.
  by case_match.
Qed.

Definition new_signatures : list (N * TheaSig) := [(0%N, 4); (1%N, 5); (2%N, 6)].

Lemma rotation_keeps_signing_witness :
  validate_signed_outgoing_message (thea rotated) 1 (ValidatorSetId (thea rotated)) [((7, 1), 5)]
  = Ok tt
  ∧ nonce_of (SignedOutgoingNonce (thea
      (submit_signatures 7 1 (ValidatorSetId (thea rotated)) rotated new_signatures))) 7 = 1.
Proof.
  assert (thea_on_new_session 10 new_keys new_keys two_signed = Some rotated) as Hs.
  { apply new_session_some. exists 1. vm_compute. reflexivity. }
  assert (list_to_set (truncate_from 10 new_keys) ≠@{gset TheaId}
    list_to_set (active_validators (thea two_signed))) as Hne.
  { intros H. assert ((4 : TheaId) ∈@{gset TheaId} list_to_set (active_validators (thea two_signed))) as Hin.
    { rewrite <- H. apply elem_of_list_to_set. apply (bool_decide_eq_true_1 _). vm_compute. reflexivity. }
    apply elem_of_list_to_set, (bool_decide_eq_true_2 _) in Hin. vm_compute in Hin. discriminate Hin. }
  assert (7 ∈ ActiveNetworks (thea two_signed)) as Hn
    by (apply (bool_decide_eq_true_1 _); vm_compute; reflexivity).
  assert (is_u 64 (ValidatorSetId (thea two_signed))) as Hu by (vm_compute; split; discriminate).
  assert (OutgoingMessages (thea two_signed) !! (7, 1) = Some the_message) as Hm by (vm_compute; reflexivity).
  assert (1 = sat_add 64 (nonce_of (SignedOutgoingNonce (thea two_signed)) 7) 1) as Hk by (vm_compute; reflexivity).
  destruct (rotation_keeps_signing governance 10 new_keys new_keys two_signed rotated 7 1 the_message
    two_signed_reachable Hu Hs Hne Hn Hk Hm eq_refl) as (_ & H1 & H2).
  split; [apply H1; exists 5; split; vm_compute; reflexivity|].
  apply (H2 new_signatures); [discriminate| | |cbn; lia|vm_compute; reflexivity].
  - apply (bool_decide_eq_true_1 _). vm_compute. reflexivity.
  - unfold new_signatures. intros i sig Hin. repeat rewrite elem_of_cons in Hin.
    destruct Hin as [[= -> ->]|[[= -> ->]|[[= -> ->]|[]%elem_of_nil]]];
      eexists; split; vm_compute; reflexivity.
Defined.

(** Account 4 submits message 1 of network 7 with a stake of 20. *)
Definition opened : TheaChain := after opening.
Definition incoming : Message := mkMessage 3 1 7 L1Deposit [x05].
Definition submitted : TheaChain := (submit_incoming_message (Signed (acct 4)) incoming 20 opened).2.
Definition next_block : TheaChain :=
  (thea_on_initialize (t_block submitted + 1) (submitted <| t_block ::= λ b, b + 1 |>)).2.

Lemma opened_reachable : reached opened.
Proof. apply (after_reachable opening). Qed.

Lemma submitted_ok :
  submit_incoming_message (Signed (acct 4)) incoming 20 opened = (Ok tt, submitted).
Proof. apply run_ok. vm_compute. reflexivity. Qed.

Lemma incoming_message_dropped_witness :
  IncomingMessagesQueue (thea submitted) !! (7, 1)
  = Some (mkIncomingMessage incoming (acct 4) 20 20)
  ∧ IncomingMessagesQueue (thea next_block) !! (7, 1) = None
  ∧ on_hold (world next_block) (acct 4) = 20.
Proof.
  split; [vm_compute; reflexivity|]. split; [|vm_compute; reflexivity].
  apply (incoming_message_dropped governance 10 (acct 4) incoming 20 opened submitted next_block
    opened_reachable submitted_ok);
    [apply (bool_decide_eq_true_1 _); vm_compute; reflexivity|vm_compute; reflexivity
    |vm_compute; reflexivity|vm_compute; discriminate|vm_compute; discriminate
    |vm_compute; reflexivity|].
  apply (thea_step_block _ _ _ _ tt), (run_ok (thea_on_initialize _)). vm_compute. reflexivity.
Defined.

(** Account 5 reports it, and governance rejects the report. *)
Definition reported : TheaChain := (report_misbehaviour (Signed (acct 5)) 7 1 submitted).2.
Definition rejected : TheaChain := (handle_misbehaviour governance Root 7 1 false reported).2.

Lemma report_settlement_witness :
  MisbehaviourReports (thea rejected) !! (7, 1) = None
  ∧ on_hold (world rejected) (acct 5) = on_hold (world submitted) (acct 5) + 5
  ∧ (5 ≤ native_reducible (world reported) (acct 5) →
     native_free (world rejected) (acct 5) = native_free (world submitted) (acct 5) - 2 * 5).
Proof.
  refine (report_settlement governance (acct 5) Root 7 1 false submitted reported rejected
    (mkIncomingMessage incoming (acct 4) 20 20) 5 (run_ok _ _ _) (run_ok _ _ _) _ _ _ _ _ _);
    [vm_compute; reflexivity|vm_compute; reflexivity|vm_compute; reflexivity| |vm_compute; reflexivity
    |vm_compute; discriminate|vm_compute; split; discriminate|vm_compute; discriminate].
  apply (bool_decide_eq_false_1 _). vm_compute. reflexivity.
Defined.

(** Finality can be reached with signatures of a retired set.  A message of
    network 7 carries two of the three signatures that the set of four needs, when
    the network is removed, two new validators take over, and the network is added
    again.  The signatures are not reset, and the two of them are a supermajority of
    the new set: the first submission of a new validator, whose own signature is
    dropped, finalizes the message. *)
Theorem stale_signatures_finalise :
  let start := start <| thea ::= thea_initialize_authorities 10 [1; 2; 3; 8] |> in
  let c0 := foldl run start (opening ++ [sign 0 1 0; sign 2 3 0; (Root, RemoveTheaNetwork 7)]) in
  let c1 := run (new_session [4; 5] c0) (Root, AddTheaNetwork 7 false 20 10 5) in
  let c2 := run c1 (sign 1 5 1) in
  active_validators (thea c1) = [4; 5]
  ∧ admissible c1 (sign 1 5 1) = true
  ∧ nonce_of (SignedOutgoingNonce (thea c1)) 7 = 0
  ∧ nonce_of (SignedOutgoingNonce (thea c2)) 7 = 1
  ∧ SignedOutgoingMessages (thea c2) !! (7, 1)
    = Some (mkSignedMessage 0 the_message {[0%N := 1; 2%N := 3]}).
Proof. vm_compute. repeat split. Qed.
End TheaExample.
