(* ===== verification/Locks.v ===== *)
(** * Native currency with locks

    [pallet_balances] as the migration and rewards pallets use it: free balances,
    the total issuance, and named locks.  The pallet is not part of the
    repository; it is an interface with the behaviour it documents. *)

From S2P Require Import Prelude Assets Types.

(** [LockIdentifier]: [[u8; 8]] *)
Definition LockIdentifier : Type := byte_array 8.
#[global] Instance LockIdentifier_eq_dec : EqDecision LockIdentifier := _.
#[global] Instance LockIdentifier_countable : Countable LockIdentifier := byte_array_countable 8.

Class LockableCurrency := {
  Ledger : Type;
  LedgerError : Type;
  free_balance : Ledger → AccountId → Z;
  ledger_issuance : Ledger → Z;
  (** [pallet_balances::Locks] *)
  Locks : Ledger → AccountId → list (LockIdentifier * Z);
  (** [deposit_creating]; the imbalance is dropped by the callers *)
  deposit_creating : AccountId → Z → Ledger → Ledger;
  (** [set_lock(.., WithdrawReasons::TRANSFER)] *)
  set_lock : LockIdentifier → AccountId → Z → Ledger → Ledger;
  remove_lock : LockIdentifier → AccountId → Ledger → Ledger;
  (** [burn_from(.., Expendable, Exact, Polite)] *)
  burn_exact : AccountId → Z → M Ledger LedgerError unit;
  (** [transfer(.., KeepAlive)] *)
  transfer_keep_alive : AccountId → AccountId → Z → M Ledger LedgerError unit;
}.

(** The amount of the first lock with a name, zero without one *)
Fixpoint first_lock (id : LockIdentifier) (l : list (LockIdentifier * Z)) : Z :=
  match l with
  | [] => 0
  | (id', n) :: l => if bool_decide (id' = id) then n else first_lock id l
  end.

(** The amount of the last lock with a name *)
Definition last_lock (id : LockIdentifier) (l : list (LockIdentifier * Z)) : Z :=
  foldl (λ acc kn, if bool_decide (kn.1 = id) then kn.2 else acc) 0 l.

Class LockableCurrencyLaws `{LockableCurrency} : Prop := {
  (** The whole amount is deposited, or, below the existential deposit, nothing. *)
  deposit_creating_cases g a n : 0 ≤ n →
    deposit_creating a n g = g
    ∨ (free_balance (deposit_creating a n g) a = free_balance g a + n
       ∧ ledger_issuance (deposit_creating a n g) = ledger_issuance g + n);
  deposit_creating_locks g a n b : Locks (deposit_creating a n g) b = Locks g b;
  set_lock_money g id a n b :
    free_balance (set_lock id a n g) b = free_balance g b
    ∧ ledger_issuance (set_lock id a n g) = ledger_issuance g;
  set_lock_sets g id a n : 0 < n → first_lock id (Locks (set_lock id a n g) a) = n;
  set_lock_zero g id a : set_lock id a 0 g = g;
  set_lock_frame g id a n b : b ≠ a → Locks (set_lock id a n g) b = Locks g b;
  remove_lock_money g id a b :
    free_balance (remove_lock id a g) b = free_balance g b
    ∧ ledger_issuance (remove_lock id a g) = ledger_issuance g;
  remove_lock_removes g id a n : (id, n) ∉ Locks (remove_lock id a g) a;
  remove_lock_keeps g id a id' n : id' ≠ id →
    (id', n) ∈ Locks (remove_lock id a g) a ↔ (id', n) ∈ Locks g a;
  remove_lock_frame g id a b : b ≠ a → Locks (remove_lock id a g) b = Locks g b;
  (** A name is used by at most one lock of an account. *)
  Locks_unique g a : NoDup (Locks g a).*1;
  Locks_nonneg g a id n : (id, n) ∈ Locks g a → 0 ≤ n;
  burn_exact_ok g a n g' : burn_exact a n g = (Ok tt, g') →
    free_balance g' a = free_balance g a - n ∧ ledger_issuance g' = ledger_issuance g - n
    ∧ ∀ b, Locks g' b = Locks g b;
  transfer_keep_alive_ok g a b n g' : transfer_keep_alive a b n g = (Ok tt, g') → a ≠ b →
    free_balance g' a = free_balance g a - n ∧ free_balance g' b = free_balance g b + n
    ∧ ledger_issuance g' = ledger_issuance g ∧ ∀ c, Locks g' c = Locks g c;
  transfer_keep_alive_frame g a b n g' c : transfer_keep_alive a b n g = (Ok tt, g') →
    c ≠ a → c ≠ b → free_balance g' c = free_balance g c;
}.

(** With unique names the first and the last lock are the same. *)
Lemma last_lock_skip (id : LockIdentifier) (l : list (LockIdentifier * Z)) acc :
  id ∉ l.*1 → foldl (λ acc kn, if bool_decide (kn.1 = id) then kn.2 else acc) acc l = acc.
Proof.
  revert acc. induction l as [|[id' n] l IH]; intros acc Hid; [done|]. cbn in *.
  apply not_elem_of_cons in Hid as [Hne Hid]. rewrite bool_decide_false by done. by apply IH.
Qed.

Lemma last_first_lock id l : NoDup l.*1 → last_lock id l = first_lock id l.
Proof.
  unfold last_lock. induction l as [|[id' n] l IH]; cbn; [done|].
  intros [Hid Hnd]%NoDup_cons. case_bool_decide as Hd; [subst; by apply last_lock_skip|by apply IH].
Qed.

Lemma first_lock_nonneg id l : (∀ id n, (id, n) ∈ l → 0 ≤ n) → 0 ≤ first_lock id l.
Proof.
  induction l as [|[id' n] l IH]; intros Hn; cbn; [done|].
  case_bool_decide; [apply (Hn id'); by left|]. apply IH. intros k m Hm. apply (Hn k). by right.
Qed.

Lemma first_lock_none id l : (∀ n, (id, n) ∉ l) → first_lock id l = 0.
Proof.
  induction l as [|[id' n] l IH]; intros Hn; cbn; [done|]. case_bool_decide as Hd.
  - subst. destruct (Hn n). by left.
  - apply IH. intros m Hm. apply (Hn m). by right.
Qed.

(** ** A concrete instance, to evaluate the model *)
Module RefLocks.
Record ledger : Type := mkLedger {
  free_of : gmap AccountId Z;
  issued : Z;
  locks_of : gmap AccountId (gmap LockIdentifier N);
  frozen_of : gmap AccountId N;
}.
Definition bal (g : ledger) (a : AccountId) : Z := default 0 (free_of g !! a).
Definition held (g : ledger) (a : AccountId) : gmap LockIdentifier N := default ∅ (locks_of g !! a).
Definition move (a b : AccountId) (n : Z) (g : ledger) : ledger :=
  let g := mkLedger (<[a := bal g a - n]> (free_of g)) (issued g) (locks_of g) (frozen_of g) in
  mkLedger (<[b := bal g b + n]> (free_of g)) (issued g) (locks_of g) (frozen_of g).

#[export] Instance ref_locks : LockableCurrency := {|
  Ledger := ledger;
  LedgerError := unit;
  free_balance := bal;
  ledger_issuance := issued;
  Locks g a := prod_map id Z.of_N <$> map_to_list (held g a);
  deposit_creating a n g :=
    if n <? 1 then g
    else mkLedger (<[a := bal g a + n]> (free_of g)) (issued g + n) (locks_of g) (frozen_of g);
  set_lock id a n g :=
    if n <=? 0 then g
    else mkLedger (free_of g) (issued g) (<[a := <[id := Z.to_N n]> (held g a)]> (locks_of g))
           (frozen_of g);
  remove_lock id a g :=
    mkLedger (free_of g) (issued g) (<[a := delete id (held g a)]> (locks_of g)) (frozen_of g);
  burn_exact a n g :=
    if n <=? bal g a
    then (Ok tt, mkLedger (<[a := bal g a - n]> (free_of g)) (issued g - n) (locks_of g) (frozen_of g))
    else (Err tt, g);
  transfer_keep_alive a b n g :=
    if n <? bal g a then (Ok tt, move a b n g) else (Err tt, g);
|}.

Lemma bal_insert (m : gmap AccountId Z) i l f a n b :
  bal (mkLedger (<[a := n]> m) i l f) b = if decide (b = a) then n else default 0 (m !! b).
Proof.
  unfold bal. cbn. case_decide as Hd; [subst; by rewrite lookup_insert_eq|].
  by rewrite lookup_insert_ne.
Qed.

Lemma held_insert m i (l : gmap AccountId (gmap LockIdentifier N)) f a k b :
  held (mkLedger m i (<[a := k]> l) f) b = if decide (b = a) then k else default ∅ (l !! b).
Proof.
  unfold held. cbn. case_decide as Hd; [subst; by rewrite lookup_insert_eq|].
  by rewrite lookup_insert_ne.
Qed.

Lemma first_lock_lookup id (m : gmap LockIdentifier N) n :
  m !! id = Some n → first_lock id (prod_map Datatypes.id Z.of_N <$> map_to_list m) = Z.of_N n.
Proof.
  intros H%elem_of_map_to_list. pose proof (NoDup_fst_map_to_list m) as Hnd.
  induction (map_to_list m) as [|[id' n'] l IH]; [by apply not_elem_of_nil in H|]. cbn in *.
  apply NoDup_cons in Hnd as [Hid Hnd]. case_bool_decide as Hd.
  - cbn in Hd. subst. apply elem_of_cons in H as [[= <-]|H]; [done|]. destruct Hid.
    apply list_elem_of_fmap. by exists (id, n).
  - apply elem_of_cons in H as [[= -> <-]|H]; [done|by apply IH].
Qed.

#[export] Instance ref_locks_laws : LockableCurrencyLaws.
Proof.
  split; cbn.
  - intros g a n Hn. case_match; [by left|right]. rewrite bal_insert, decide_True by done. done.
  - intros g a n b. by case_match.
  - intros g id a n b. by case_match.
  - intros g id a n Hn. case_match; [lia|]. rewrite <- (Z2N.id n) at 2 by lia.
    apply first_lock_lookup. rewrite held_insert, decide_True by done. by rewrite lookup_insert_eq.
  - done.
  - intros g id a n b Hb. case_match; [done|]. by rewrite held_insert, decide_False.
  - done.
  - intros g id a n. rewrite held_insert, decide_True by done.
    rewrite list_elem_of_fmap. intros ([id' m] & [= -> ->] & H).
    by rewrite elem_of_map_to_list, lookup_delete_eq in H.
  - intros g id a id' n Hid. rewrite held_insert, decide_True by done.
    rewrite !list_elem_of_fmap. setoid_rewrite elem_of_map_to_list'.
    split; intros ([id1 m] & Heq & Hm); injection Heq as -> ->; exists (id1, m); (split; [done|]);
      cbn in *; rewrite lookup_delete_ne in * by done; done.
  - intros g id a b Hb. by rewrite held_insert, decide_False.
  - intros g a. rewrite <- list_fmap_compose. apply (NoDup_fst_map_to_list (held g a)).
  - intros g a id n. rewrite list_elem_of_fmap. intros ([id' m] & [= -> ->] & H). lia.
  - intros g a n g'. case_match; [|done]. intros [= <-].
    rewrite bal_insert, decide_True by done. done.
  - intros g a b n g'. case_match; [|done]. intros [= <-] Hab. unfold move. cbn.
    split_and!; [| |done|done]; rewrite bal_insert.
    + rewrite decide_False by done. by rewrite lookup_insert_eq.
    + rewrite decide_True, bal_insert, decide_False by done. done.
  - intros g a b n g' c. case_match; [|done]. intros [= <-] Ha Hb. unfold move.
    rewrite bal_insert, decide_False by done. cbn. by rewrite lookup_insert_ne.
Qed.
End RefLocks.
