(* ===== verification/Migration.v ===== *)
(** * The PDEX migration pallet

    [pallets/pdex-migration/src/lib.rs]: three relayers approve a burn of the old
    token on Ethereum, and the third approval mints the native token and locks it. *)

From S2P Require Import Prelude Assets Types Chain Locks.

(** [MIGRATION_LOCK]: [b"pdexlock"] *)
Definition MIGRATION_LOCK : LockIdentifier :=
  [# x70; x64; x65; x78; x6c; x6f; x63; x6b].

Record BurnTxDetails : Type := mkBurnTxDetails {
  approvals : Z;
  approvers : list AccountId;
}.

Definition default_burn_details : BurnTxDetails := mkBurnTxDetails 0 [].

Section migration.
Context {LC : LockableCurrency}.
Context (MaxRelayers LockPeriod : Z).

Record MigrationChain : Type := mkMigrationChain {
  m_block : Z;
  Relayers : gmap AccountId bool;
  Operational : bool;
  MintableTokens : Z;
  LockedTokenHolders : gmap AccountId Z;
  EthTxns : gmap H256 BurnTxDetails;
  m_ledger : Ledger;
}.
#[export] Instance eta_MigrationChain : Eta MigrationChain := λ r, {|
  m_block := m_block r; Relayers := Relayers r; Operational := Operational r;
  MintableTokens := MintableTokens r; LockedTokenHolders := LockedTokenHolders r;
  EthTxns := EthTxns r; m_ledger := m_ledger r;
|}.

Inductive MigrationError : Type :=
| NotOperational | UnknownRelayer | InvalidMintAmount | UnknownBeneficiary
| LiquidityRestrictions | InvalidTxHash | AlreadyProcessedEthBurnTx | RelayerLimitReached
| MigrationBadOrigin | MigrationLedgerError (e : LedgerError).

Abbreviation MM := (M MigrationChain MigrationError).

(** [GenesisConfig] with its default supply of 3,172,895 PDEX *)
Definition default_max_tokens : Z := sat_mul 128 3172895 1000000000000.
Definition migration_genesis (operational : bool) (max_tokens : Z) (g : Ledger) : MigrationChain :=
  mkMigrationChain 0 ∅ operational max_tokens ∅ ∅ g.

Definition burn_details_of (c : MigrationChain) (tx : H256) : BurnTxDetails :=
  default default_burn_details (EthTxns c !! tx).
Definition is_relayer (c : MigrationChain) (a : AccountId) : bool := default false (Relayers c !! a).

Definition upd_ledger (f : Ledger → Ledger) : MM unit := modify (λ c, c <| m_ledger ::= f |>).

Definition previous_locked_balance (c : MigrationChain) (who : AccountId) : Z :=
  last_lock MIGRATION_LOCK (Locks (m_ledger c) who).

(** The third approval mints and locks. *)
Definition mint_and_lock (beneficiary : AccountId) (amount mintable : Z) : MM unit :=
  upd_ledger (deposit_creating beneficiary amount) ;;
  previous ← gets (λ c, previous_locked_balance c beneficiary);
  upd_ledger (set_lock MIGRATION_LOCK beneficiary (sat_add 128 amount previous)) ;;
  modify (λ c, c <| LockedTokenHolders ::= <[beneficiary := m_block c]> |>) ;;
  modify (λ c, c <| MintableTokens := mintable - amount |>).

Definition process_migration (relayer beneficiary : AccountId) (amount : Z) (eth_hash : H256)
    (burn_details : BurnTxDetails) : MM unit :=
  c ← get_state;
  if is_relayer c relayer then
    let mintable := MintableTokens c in
    if amount <=? mintable then
      count ← lift (unwrap (checked_add_u 16 (approvals burn_details) 1));
      l ← ok_or (try_push MaxRelayers (approvers burn_details) relayer) RelayerLimitReached;
      (if count =? 3 then mint_and_lock beneficiary amount mintable else mret tt) ;;
      modify (λ c, c <| EthTxns ::= <[eth_hash := mkBurnTxDetails count l]> |>)
    else fail InvalidMintAmount
  else fail UnknownRelayer.

Definition process_unlock (beneficiary : AccountId) : MM unit :=
  c ← get_state;
  match LockedTokenHolders c !! beneficiary with
  | Some locked_block =>
      modify (λ c, c <| LockedTokenHolders ::= delete beneficiary |>) ;;
      release ← lift (unwrap (checked_add_u 32 locked_block LockPeriod));
      if release <=? m_block c
      then upd_ledger (remove_lock MIGRATION_LOCK beneficiary)
      else (modify (λ c, c <| LockedTokenHolders ::= <[beneficiary := locked_block]> |>) ;;
            fail LiquidityRestrictions)
  | None => fail UnknownBeneficiary
  end.

Definition burn_locked (beneficiary : AccountId) (amount : Z) : MM unit := λ c,
  match burn_exact beneficiary amount (m_ledger c) with
  | (Ok _, g) => (Ok tt, c <| m_ledger := g |>)
  | (Err e, g) => (Err (MigrationLedgerError e), c <| m_ledger := g |>)
  | (Panic, g) => (Panic, c <| m_ledger := g |>)
  end.

Definition remove_fradulent_tokens (beneficiary : AccountId) : MM unit :=
  modify (λ c, c <| LockedTokenHolders ::= delete beneficiary |>) ;;
  c ← get_state;
  let amount_to_burn := first_lock MIGRATION_LOCK (Locks (m_ledger c) beneficiary) in
  upd_ledger (remove_lock MIGRATION_LOCK beneficiary) ;;
  burn_locked beneficiary amount_to_burn ;;
  mintable ← lift (unwrap (checked_add_u 128 (MintableTokens c) amount_to_burn));
  modify (λ c, c <| MintableTokens := mintable |>).

(** ** Dispatchables *)
Definition mig_root (o : Origin) : MM unit :=
  match o with Root => mret tt | _ => fail MigrationBadOrigin end.
Definition mig_signed (o : Origin) : MM AccountId :=
  match o with Signed who => mret who | _ => fail MigrationBadOrigin end.

Definition set_migration_operational_status (o : Origin) (status : bool) : MM unit :=
  mig_root o ;; modify (λ c, c <| Operational := status |>).

Definition set_relayer_status (o : Origin) (relayer : AccountId) (status : bool) : MM unit :=
  mig_root o ;; modify (λ c, c <| Relayers ::= <[relayer := status]> |>).

Definition mint (o : Origin) (beneficiary : AccountId) (amount : Z) (eth_tx : H256) : MM unit :=
  relayer ← mig_signed o;
  ensure (negb (bool_decide (eth_tx = H256_zero))) InvalidTxHash ;;
  c ← get_state;
  if Operational c then
    let burn_details := burn_details_of c eth_tx in
    ensure (negb (bool_decide (relayer ∈ approvers burn_details))) AlreadyProcessedEthBurnTx ;;
    process_migration relayer beneficiary amount eth_tx burn_details
  else fail NotOperational.

Definition unlock (o : Origin) : MM unit :=
  beneficiary ← mig_signed o;
  operational ← gets Operational;
  if operational : bool then process_unlock beneficiary else fail NotOperational.

Definition remove_minted_tokens (o : Origin) (beneficiary : AccountId) : MM unit :=
  mig_root o ;; remove_fradulent_tokens beneficiary.

Inductive MigrationCall : Type :=
| SetOperational (status : bool)
| SetRelayer (relayer : AccountId) (status : bool)
| Mint (beneficiary : AccountId) (amount : Z) (eth_tx : H256)
| Unlock
| RemoveMinted (beneficiary : AccountId).

(** Dispatchables run in a storage layer of their own. *)
Definition migration_dispatch (o : Origin) (call : MigrationCall) : MM unit :=
  transactional
    match call with
    | SetOperational b => set_migration_operational_status o b
    | SetRelayer r b => set_relayer_status o r b
    | Mint b n tx => mint o b n tx
    | Unlock => unlock o
    | RemoveMinted b => remove_minted_tokens o b
    end.

(** Amounts are [u128]. *)
Definition mig_typed (call : MigrationCall) : Prop :=
  match call with Mint _ n _ => is_u 128 n | _ => True end.

(** ** What each call does *)
Lemma burn_locked_ok b n c u c' :
  burn_locked b n c = (Ok u, c') →
  ∃ g, burn_exact b n (m_ledger c) = (Ok tt, g) ∧ c' = c <| m_ledger := g |>.
Proof.
  unfold burn_locked. destruct (burn_exact b n (m_ledger c)) as [[[]| |] g]; [|done..].
  intros [= <- <-]. by exists g.
Qed.

(** A successful [mint]: the relayer is added to the approvers, and exactly the third
    approval pays out. *)
Lemma mint_ok o b n tx c u c' :
  mint o b n tx c = (Ok u, c') →
  ∃ relayer, o = Signed relayer ∧ is_relayer c relayer = true ∧ Operational c = true
    ∧ (relayer ∉ approvers (burn_details_of c tx)) ∧ n ≤ MintableTokens c
    ∧ EthTxns c' = <[tx := mkBurnTxDetails (approvals (burn_details_of c tx) + 1)
                              (approvers (burn_details_of c tx) ++ [relayer])]> (EthTxns c)
    ∧ if approvals (burn_details_of c tx) + 1 =? 3
      then MintableTokens c' = MintableTokens c - n
           ∧ LockedTokenHolders c' = <[b := m_block c]> (LockedTokenHolders c)
           ∧ m_ledger c' = (let g := deposit_creating b n (m_ledger c) in
               set_lock MIGRATION_LOCK b (sat_add 128 n (last_lock MIGRATION_LOCK (Locks g b))) g)
      else MintableTokens c' = MintableTokens c ∧ LockedTokenHolders c' = LockedTokenHolders c
           ∧ m_ledger c' = m_ledger c.
Proof.
  unfold mint, mig_signed. intros H. destruct o as [|relayer|]; inv_run.
  destruct (Operational c); inv_run. unfold process_migration in *. inv_run.
  destruct (is_relayer c relayer) eqn:Hr; inv_run.
  destruct (Z.leb_spec n (MintableTokens c)); inv_run.
  unfold try_push, checked_add_u in *.
  destruct (_ <=? umax 16); [|done]. destruct (_ <? MaxRelayers); [|done]. simplify_eq/=.
  rewrite negb_true_iff, bool_decide_eq_false in *. exists relayer.
  destruct (_ =? 3); [unfold mint_and_lock, upd_ledger, previous_locked_balance in *|];
    inv_run; by split_and!.
Qed.

Lemma unlock_ok o c u c' :
  unlock o c = (Ok u, c') →
  ∃ b t, o = Signed b ∧ LockedTokenHolders c !! b = Some t ∧ t + LockPeriod ≤ m_block c
    ∧ c' = c <| LockedTokenHolders ::= delete b |> <| m_ledger ::= remove_lock MIGRATION_LOCK b |>.
Proof.
  unfold unlock, mig_signed, process_unlock, upd_ledger. intros H. destruct o as [|b|]; inv_run.
  destruct (Operational c); inv_run. destruct (LockedTokenHolders c !! b) as [t|] eqn:Ht; inv_run.
  unfold checked_add_u in *. destruct (_ <=? umax 32); simplify_eq/=. exists b, t.
  destruct (Z.leb_spec (t + LockPeriod) (m_block c)); inv_run. done.
Qed.

Lemma remove_minted_ok o b c u c' :
  remove_minted_tokens o b c = (Ok u, c') →
  let n := first_lock MIGRATION_LOCK (Locks (m_ledger c) b) in
  ∃ g, o = Root ∧ burn_exact b n (remove_lock MIGRATION_LOCK b (m_ledger c)) = (Ok tt, g)
    ∧ c' = c <| LockedTokenHolders ::= delete b |> <| m_ledger := g |>
             <| MintableTokens := MintableTokens c + n |>.
Proof.
  unfold remove_minted_tokens, mig_root, remove_fradulent_tokens, upd_ledger. intros H.
  destruct o; inv_run.
  match goal with H : burn_locked _ _ _ = _ |- _ => apply burn_locked_ok in H as (g & Hg & ->) end.
  exists g. unfold checked_add_u in *. case_match; simplify_eq/=. inv_run. done.
Qed.

Section properties.
Context {LL : LockableCurrencyLaws}.
Implicit Types c : MigrationChain.

(** The amount under the migration lock *)
Definition locked_amount c (b : AccountId) : Z :=
  first_lock MIGRATION_LOCK (Locks (m_ledger c) b).

Lemma locked_amount_nonneg c b : 0 ≤ locked_amount c b.
Proof. apply first_lock_nonneg. intros id n. apply Locks_nonneg. Qed.

(** The cases of a dispatched call *)
Lemma dispatch_ind (P : MigrationChain → Prop) o call c :
  P c →
  (∀ b, o = Root → call = SetOperational b → P (c <| Operational := b |>)) →
  (∀ r b, o = Root → call = SetRelayer r b → P (c <| Relayers ::= <[r := b]> |>)) →
  (∀ b n tx u c', call = Mint b n tx → mint o b n tx c = (Ok u, c') → P c') →
  (∀ u c', call = Unlock → unlock o c = (Ok u, c') → P c') →
  (∀ b u c', call = RemoveMinted b → remove_minted_tokens o b c = (Ok u, c') → P c') →
  P (migration_dispatch o call c).2.
Proof.
  intros Hc H1 H2 H3 H4 H5. unfold migration_dispatch, transactional.
  destruct call as [b|r b|b n tx| |b].
  - unfold set_migration_operational_status, mig_root. destruct o; [by apply (H1 b)|done..].
  - unfold set_relayer_status, mig_root. destruct o; [by apply (H2 r b)|done..].
  - destruct (mint o b n tx c) as [[[]| |] c'] eqn:H; cbn; eauto.
  - destruct (unlock o c) as [[[]| |] c'] eqn:H; cbn; eauto.
  - destruct (remove_minted_tokens o b c) as [[[]| |] c'] eqn:H; cbn; eauto.
Qed.

(** ** The supply *)
Definition mig_step c c' : Prop :=
  ∃ o call, mig_typed call ∧ c' = (migration_dispatch o call c).2.

Definition supply c : Z := ledger_issuance (m_ledger c) + MintableTokens c.

Lemma mint_ledger_issuance b n g :
  0 ≤ n →
  ledger_issuance (let g := deposit_creating b n g in
    set_lock MIGRATION_LOCK b (sat_add 128 n (last_lock MIGRATION_LOCK (Locks g b))) g)
  ≤ ledger_issuance g + n.
Proof.
  intros Hn. cbn. rewrite (proj2 (set_lock_money _ _ _ _ b)).
  destruct (deposit_creating_cases g b n Hn) as [->|[_ ->]]; lia.
Qed.

Lemma step_supply c c' :
  mig_step c c' → 0 ≤ MintableTokens c → supply c' ≤ supply c ∧ 0 ≤ MintableTokens c'.
Proof.
  intros (o & call & Ht & ->) Hc.
  apply (dispatch_ind (λ c', supply c' ≤ supply c ∧ 0 ≤ MintableTokens c')); [done..| | |].
  - intros b n tx u c' -> (r & _ & _ & _ & _ & Hle & _ & Hcase)%mint_ok. destruct Ht as [Hn _].
    unfold supply. case_match; destruct Hcase as (-> & _ & ->); [|lia].
    pose proof (mint_ledger_issuance b n (m_ledger c) Hn). lia.
  - intros u c' _ (b & t & _ & _ & _ & ->)%unlock_ok. unfold supply. cbn.
    rewrite (proj2 (remove_lock_money _ _ _ b)). lia.
  - intros b u c' _ (g & _ & (_ & Hg & _)%burn_exact_ok & ->)%remove_minted_ok. unfold supply. cbn.
    rewrite Hg, (proj2 (remove_lock_money _ _ _ b)).
    pose proof (locked_amount_nonneg c b). unfold locked_amount in *. lia.
Qed.

(** C28: the migration never mints more than it was allotted.  Over any number of
    calls, by whoever and in whatever order, the issuance of the native token plus
    the tokens that can still be minted never grows, and the latter never becomes
    negative: the calls issue at most what could be minted at the beginning. *)
Theorem migration_supply_bounded c c' :
  0 ≤ MintableTokens c → rtc mig_step c c' →
  ledger_issuance (m_ledger c') + MintableTokens c' ≤ ledger_issuance (m_ledger c) + MintableTokens c
  ∧ 0 ≤ MintableTokens c'.
Proof.
  intros Hc Hs. induction Hs as [c|c1 c2 c3 Hstep _ IH]; [lia|].
  apply step_supply in Hstep as [Hle H0]; [|done]. specialize (IH H0). unfold supply in Hle. lia.
Qed.

(** ** One mint per burn transaction *)

(** The transactions whose tokens a call mints *)
Definition minted c c' (call : MigrationCall) : list H256 :=
  match call with
  | Mint _ _ tx => if MintableTokens c' <? MintableTokens c then [tx] else []
  | _ => []
  end.

(** A run of the chain, with the burn transactions that were minted.  Between the
    calls blocks pass, and the rest of the runtime changes the balances. *)
Inductive mig_run (c0 : MigrationChain) : list H256 → MigrationChain → Prop :=
| mig_run_nil : mig_run c0 [] c0
| mig_run_call l c o call :
    mig_run c0 l c → mig_typed call →
    mig_run c0 (l ++ minted c (migration_dispatch o call c).2 call) (migration_dispatch o call c).2
| mig_run_other l c blk g :
    mig_run c0 l c → mig_run c0 l (c <| m_block := blk |> <| m_ledger := g |>).

Definition burns_inv (l : list H256) c : Prop :=
  NoDup l
  ∧ (∀ tx, approvals (burn_details_of c tx) = Z.of_nat (length (approvers (burn_details_of c tx)))
           ∧ NoDup (approvers (burn_details_of c tx)))
  ∧ ∀ tx, tx ∈ l → 3 ≤ approvals (burn_details_of c tx).

Lemma burns_inv_frame l c c' : EthTxns c' = EthTxns c → burns_inv l c → burns_inv l c'.
Proof. unfold burns_inv, burn_details_of. by intros ->. Qed.

Lemma burns_inv_mint l c o b n tx u c' :
  mint o b n tx c = (Ok u, c') → burns_inv l c → burns_inv (l ++ minted c c' (Mint b n tx)) c'.
Proof.
  intros (r & _ & _ & _ & Hr & _ & He & Hcase)%mint_ok (Hnd & Hall & Hin).
  assert (∀ tx', burn_details_of c' tx' = if decide (tx' = tx)
    then mkBurnTxDetails (approvals (burn_details_of c tx) + 1) (approvers (burn_details_of c tx) ++ [r])
    else burn_details_of c tx') as Hd.
  { intros tx'. unfold burn_details_of at 1. rewrite He. case_decide as Hd.
    - subst. by rewrite lookup_insert_eq.
    - by rewrite lookup_insert_ne. }
  destruct (Hall tx) as [Hlen Hdup].
  assert (tx ∈ minted c c' (Mint b n tx) → approvals (burn_details_of c tx) = 2) as Hm.
  { cbn. destruct (Z.ltb_spec (MintableTokens c') (MintableTokens c)); [|by intros ?%not_elem_of_nil].
    destruct (Z.eqb_spec (approvals (burn_details_of c tx) + 1) 3); [lia|]. destruct Hcase. lia. }
  assert (∀ tx', tx' ∈ minted c c' (Mint b n tx) → tx' = tx) as Hone.
  { intros tx' Hx. cbn in Hx. destruct (_ <? _);
      [by apply list_elem_of_singleton in Hx|by apply not_elem_of_nil in Hx]. }
  split_and!.
  - apply NoDup_app. split_and!; [done| |cbn; destruct (_ <? _); [apply NoDup_singleton|apply NoDup_nil_2]].
    intros tx' Hl Hx. pose proof (Hone _ Hx). subst. pose proof (Hin _ Hl). specialize (Hm Hx). lia.
  - intros tx'. rewrite Hd. case_decide; [|done]. cbn. rewrite length_app. split; [cbn; lia|].
    apply NoDup_app. split_and!; [done| |apply NoDup_singleton].
    intros x Hx ->%list_elem_of_singleton. done.
  - intros tx' [Hl|Hx]%elem_of_app; rewrite Hd; case_decide; cbn.
    + subst. pose proof (Hin _ Hl). lia.
    + by apply Hin.
    + subst. specialize (Hm Hx). lia.
    + by destruct (Hone _ Hx).
Qed.

Lemma mig_run_burns c0 l c : burns_inv [] c0 → mig_run c0 l c → burns_inv l c.
Proof.
  intros H0. induction 1 as [|l c o call _ IH _|l c blk g _ IH]; [done| |by apply (burns_inv_frame l c)].
  cbn. apply (dispatch_ind (λ c', burns_inv (l ++ minted c c' call) c')).
  - assert (minted c c call = []) as -> by (unfold minted; case_match; rewrite ?Z.ltb_irrefl; done).
    by rewrite app_nil_r.
  - intros b _ ->. rewrite app_nil_r. by apply (burns_inv_frame l c).
  - intros r b _ ->. rewrite app_nil_r. by apply (burns_inv_frame l c).
  - intros b n tx u c' -> H. by apply (burns_inv_mint l c o b n tx u).
  - intros u c' -> (b & t & _ & _ & _ & ->)%unlock_ok. rewrite app_nil_r. by apply (burns_inv_frame l c).
  - intros b u c' -> (g & _ & _ & ->)%remove_minted_ok. rewrite app_nil_r. by apply (burns_inv_frame l c).
Qed.

(** C29: a burn is minted at most once, and only on the word of three relayers.  In
    every run from genesis the burn transactions for which tokens were minted are
    pairwise distinct, and each of them was approved by at least three different
    accounts. *)
Theorem burn_minted_once op max g l c :
  mig_run (migration_genesis op max g) l c →
  NoDup l
  ∧ ∀ tx, tx ∈ l → NoDup (approvers (burn_details_of c tx))
                   ∧ 3 ≤ Z.of_nat (length (approvers (burn_details_of c tx))).
Proof.
  intros (Hnd & Hall & Hin)%mig_run_burns.
  - split; [done|]. intros tx Htx. destruct (Hall tx) as [<- ?]. auto.
  - split_and!; [apply NoDup_nil_2| |by intros tx ?%not_elem_of_nil].
    intros tx. unfold burn_details_of. cbn. rewrite lookup_empty. cbn. split; [done|apply NoDup_nil_2].
Qed.

(** The lock that a mint leaves behind *)
Lemma mint_ledger_locks b n g b' :
  0 ≤ n → let g' := deposit_creating b n g in
  let g2 := set_lock MIGRATION_LOCK b (sat_add 128 n (last_lock MIGRATION_LOCK (Locks g' b))) g' in
  first_lock MIGRATION_LOCK (Locks g2 b')
  = if decide (b' = b) then sat_add 128 n (first_lock MIGRATION_LOCK (Locks g b))
    else first_lock MIGRATION_LOCK (Locks g b').
Proof.
  intros Hn. cbn. rewrite last_first_lock by apply Locks_unique. rewrite deposit_creating_locks.
  pose proof (first_lock_nonneg MIGRATION_LOCK (Locks g b) (Locks_nonneg g b)).
  case_decide as Hd; [subst|by rewrite set_lock_frame, deposit_creating_locks].
  destruct (decide (sat_add 128 n (first_lock MIGRATION_LOCK (Locks g b)) = 0)) as [Hz|Hz].
  - rewrite Hz, set_lock_zero, deposit_creating_locks. unfold sat_add, umax in *. lia.
  - rewrite set_lock_sets; [done|]. unfold sat_add, umax in *. lia.
Qed.

(** C30: migrated tokens stay locked for the lock period.  As long as the period of
    an account's last migration is not over, no call but the removal of fraudulent
    tokens by root lowers the amount under the migration lock, or makes the period
    end earlier. *)
Theorem migrated_tokens_stay_locked o call c c' b t :
  mig_typed call → c' = (migration_dispatch o call c).2 → call ≠ RemoveMinted b →
  is_u 128 (locked_amount c b) → LockedTokenHolders c !! b = Some t → t ≤ m_block c < t + LockPeriod →
  locked_amount c b ≤ locked_amount c' b
  ∧ ∃ t', LockedTokenHolders c' !! b = Some t' ∧ t ≤ t'.
Proof.
  intros Hty -> Hcall Hu Hl Ht.
  pose (P := λ c', locked_amount c b ≤ locked_amount c' b
    ∧ ∃ t', LockedTokenHolders c' !! b = Some t' ∧ t ≤ t').
  assert (∀ c', m_ledger c' = m_ledger c → LockedTokenHolders c' = LockedTokenHolders c → P c') as Hid.
  { unfold P, locked_amount. intros c' -> ->. eauto with lia. }
  apply (dispatch_ind P); [by apply Hid|intros; by apply Hid..| | |].
  - intros b' n tx u c' -> (r & _ & _ & _ & _ & _ & _ & Hcase)%mint_ok. destruct Hty as [Hn _].
    destruct (_ =? 3); destruct Hcase as (_ & Hh & Hg); [|by apply Hid].
    unfold P, locked_amount in *. rewrite Hg, Hh, mint_ledger_locks by done.
    case_decide as Hd; [subst b'; rewrite lookup_insert_eq|rewrite lookup_insert_ne by done; eauto with lia].
    split; [unfold sat_add, is_u in *; lia|eauto with lia].
  - intros u c' _ (b' & t' & _ & Hl' & Hle & ->)%unlock_ok. assert (b' ≠ b) by (intros ->; simplify_eq; lia).
    unfold P, locked_amount. cbn. rewrite remove_lock_frame by done. rewrite lookup_delete_ne by done.
    eauto with lia.
  - intros b' u c' -> (g & _ & (_ & _ & Hg)%burn_exact_ok & ->)%remove_minted_ok.
    assert (b' ≠ b) by congruence. unfold P, locked_amount. cbn.
    rewrite Hg, remove_lock_frame by done. rewrite lookup_delete_ne by done. eauto with lia.
Qed.

(** The third relayer decides.  The approvals of a burn are not tied to a
    beneficiary or an amount: once two relayers have approved it, whatever they
    reported, any third relayer can mint any amount up to the whole remaining
    supply, to any account. *)
Theorem third_relayer_decides relayer beneficiary amount tx c :
  Operational c = true → is_relayer c relayer = true → tx ≠ H256_zero →
  approvals (burn_details_of c tx) = 2 → relayer ∉ approvers (burn_details_of c tx) →
  Z.of_nat (length (approvers (burn_details_of c tx))) < MaxRelayers →
  0 ≤ amount ≤ MintableTokens c →
  ∃ c', migration_dispatch (Signed relayer) (Mint beneficiary amount tx) c = (Ok tt, c')
    ∧ MintableTokens c' = MintableTokens c - amount
    ∧ LockedTokenHolders c' !! beneficiary = Some (m_block c)
    ∧ locked_amount c' beneficiary = sat_add 128 amount (locked_amount c beneficiary).
Proof.
  intros Ho Hr Htx H2 Hnew Hlen Ha. unfold migration_dispatch, transactional, mint, mig_signed.
  unfold process_migration, try_push, checked_add_u, mint_and_lock, upd_ledger. mrun. cbn.
  rewrite (bool_decide_false _ Htx). cbn. rewrite Ho, (bool_decide_false _ Hnew). cbn.
  rewrite Hr, H2, (proj2 (Z.leb_le amount _)) by lia. cbn. rewrite (proj2 (Z.ltb_lt _ _)) by lia. cbn.
  eexists. split; [done|]. cbn. split; [done|]. split; [by rewrite lookup_insert_eq|].
  unfold locked_amount, previous_locked_balance. cbn. rewrite mint_ledger_locks by lia.
  by rewrite decide_True.
Qed.
End properties.
End migration.

(** ** A concrete run *)
Module MigrationExample.
Import RefCrypto RefLocks.

Abbreviation dispatch := (migration_dispatch 3 100).
Definition burn_tx : H256 := pad 32 [x01].
Definition funds : ledger := mkLedger {[acct 9 := 50]} 50 ∅ ∅.
Definition genesis : MigrationChain := migration_genesis true 1000 funds.
Definition setup : list (Origin * MigrationCall) := [
  (Root, SetRelayer (acct 1) true); (Root, SetRelayer (acct 2) true);
  (Root, SetRelayer (acct 3) true);
  (Signed (acct 1), Mint (acct 7) 5 burn_tx); (Signed (acct 2), Mint (acct 7) 5 burn_tx)].
Definition exec (c : MigrationChain) (e : Origin * MigrationCall) : MigrationChain :=
  (dispatch e.1 e.2 c).2.
Definition two_approvals : MigrationChain := foldl exec genesis setup.
(** The third relayer names another beneficiary and the whole supply. *)
Definition third : MigrationCall := Mint (acct 9) 1000 burn_tx.
Definition after_third : MigrationChain := exec two_approvals (Signed (acct 3), third).

Lemma setup_run l c : Forall (λ e, mig_typed e.2) l →
  ∀ txs, mig_run 3 100 genesis txs c → ∃ txs', mig_run 3 100 genesis txs' (foldl exec c l).
Proof.
  intros Hl. revert c. induction Hl as [|[o call] l Ht _ IH]; intros c txs Hc; [by exists txs|].
  cbn. apply (IH _ _ (mig_run_call 3 100 genesis txs c o call Hc Ht)).
Qed.

Lemma setup_typed : Forall (λ e : Origin * MigrationCall, mig_typed e.2) setup.
Proof. repeat constructor; vm_compute; discriminate. Qed.

Lemma third_typed : mig_typed third.
Proof. vm_compute. split; discriminate. Qed.

Lemma third_relayer_decides_witness :
  ∃ c', dispatch (Signed (acct 3)) third two_approvals = (Ok tt, c')
    ∧ MintableTokens c' = 0 ∧ LockedTokenHolders c' !! acct 9 = Some 0.
Proof.
  destruct (third_relayer_decides 3 100 (acct 3) (acct 9) 1000 burn_tx two_approvals)
    as (c' & H & Hm & Hl & _); [reflexivity|reflexivity|discriminate|reflexivity| |reflexivity| |].
  - apply (bool_decide_eq_false_1 _). vm_compute. reflexivity.
  - vm_compute. split; discriminate.
  - exists c'. split; [exact H|]. split; [rewrite Hm; reflexivity|exact Hl].
Defined.

Lemma migration_supply_bounded_witness :
  ledger_issuance (m_ledger after_third) + MintableTokens after_third ≤ 50 + 1000
  ∧ 0 ≤ MintableTokens after_third.
Proof.
  apply (migration_supply_bounded 3 100 genesis after_third); [vm_compute; discriminate|].
  eapply rtc_r; [|exists (Signed (acct 3)), third; split; [exact third_typed|reflexivity]].
  unfold two_approvals. generalize setup_typed. generalize genesis. induction setup as [|[o call] l IH];
    intros c Hl; [apply rtc_refl|].
  apply Forall_cons in Hl as [H1 H2]. cbn. eapply rtc_l; [by exists o, call|]. apply (IH _ H2).
Defined.

Lemma burn_minted_once_witness :
  ∃ txs, mig_run 3 100 genesis (txs ++ [burn_tx]) after_third ∧ NoDup (txs ++ [burn_tx])
    ∧ 3 ≤ Z.of_nat (length (approvers (burn_details_of after_third burn_tx))).
Proof.
  destruct (setup_run setup genesis setup_typed [] (mig_run_nil _ _ _)) as [txs Hr].
  pose proof (mig_run_call 3 100 genesis txs _ (Signed (acct 3)) third Hr third_typed) as H.
  exists txs. split; [exact H|].
  destruct (burn_minted_once (LC := ref_locks) 3 100 true 1000 funds _ _ H) as [Hnd Hall]. split; [exact Hnd|].
  apply Hall. apply elem_of_app. right. by left.
Defined.

Lemma migrated_tokens_stay_locked_witness :
  locked_amount after_third (acct 9) = 1000
  ∧ 1000 ≤ locked_amount (exec after_third (Signed (acct 9), Unlock)) (acct 9).
Proof.
  split; [vm_compute; reflexivity|].
  apply (migrated_tokens_stay_locked 3 100 (Signed (acct 9)) Unlock after_third _ (acct 9) 0);
    [exact I|reflexivity|discriminate|vm_compute; split; discriminate|reflexivity
    |vm_compute; split; [discriminate|reflexivity]].
Defined.
End MigrationExample.
