(* ===== verification/Rewards.v ===== *)
(** * The crowdloan rewards pallet

    [pallets/rewards/src/lib.rs]: governance opens reward cycles; a contributor of
    the crowdloan first receives the reward under a lock, and then claims it.  The
    table of contributors, a constant of [crowdloan_rewardees.rs] with 3631 rows, is
    a parameter; [Crowdloan.v] supplies it. *)

From S2P Require Import Prelude Assets Types Chain Locks.

(** [REWARDS_LOCK_ID]: [b"REWARDID"] *)
Definition REWARDS_LOCK_ID : LockIdentifier :=
  [# x52; x45; x57; x41; x52; x44; x49; x44].
Definition MIN_REWARDS_CLAIMABLE_AMOUNT : Z := UNIT_BALANCE.

Record RewardInfo : Type := mkRewardInfo {
  start_block : Z;
  end_block : Z;
  initial_percentage : Z;
}.

Record RewardInfoForAccount : Type := mkRewardInfoForAccount {
  total_reward_amount : Z;
  claim_amount : Z;
  is_initial_rewards_claimed : bool;
  is_initialized : bool;
  lock_id : LockIdentifier;
  last_block_rewards_claim : Z;
  initial_rewards_claimable : Z;
  factor : Z;
}.
#[export] Instance eta_RewardInfoForAccount : Eta RewardInfoForAccount := λ r, {|
  total_reward_amount := total_reward_amount r; claim_amount := claim_amount r;
  is_initial_rewards_claimed := is_initial_rewards_claimed r; is_initialized := is_initialized r;
  lock_id := lock_id r; last_block_rewards_claim := last_block_rewards_claim r;
  initial_rewards_claimable := initial_rewards_claimable r; factor := factor r;
|}.

(** [RewardsInfoByAccount] *)
Record RewardsInfoByAccount : Type := mkRewardsInfoByAccount {
  claimed : Z;
  unclaimed : Z;
  claimable : Z;
}.

Inductive ExchangePayloadAction : Type := Initialize | Claim.
Record ExchangePayload : Type := mkExchangePayload {
  ep_reward_id : Z;
  ep_action : ExchangePayloadAction;
  ep_user : AccountId;
}.

Section rewards.
Context {CR : Crypto} {LC : LockableCurrency}.
(** [crowdloan_rewardees::HASHMAP]: total, initial reward and factor *)
Context (HASHMAP : list (AccountId * (Z * Z * Z))).
(** [PalletId::get().into_account_truncating()] *)
Context (rewards_account : AccountId).
(** [serde_json::to_vec] *)
Context (to_json : ExchangePayload → option bytes).
Context (RewardsGovernance : Origin → bool).

Record RewardsChain : Type := mkRewardsChain {
  rw_block : Z;
  InitializeRewards : gmap Z RewardInfo;
  Distributor : gmap (Z * AccountId) RewardInfoForAccount;
  rw_ledger : Ledger;
}.
#[export] Instance eta_RewardsChain : Eta RewardsChain := λ r, {|
  rw_block := rw_block r; InitializeRewards := InitializeRewards r;
  Distributor := Distributor r; rw_ledger := rw_ledger r;
|}.

Inductive RewardsError : Type :=
| DuplicateId | InvalidBlocksRange | InvalidInitialPercentage | RewardIdNotRegister
| UserNotEligible | UserHasNotInitializeClaimRewards | RewardsCannotBeUnlockYet
| RewardsAlreadyInitialized | AmountToLowtoInitializeRewards
| RewardsBadOrigin | RewardsLedgerError (e : LedgerError).

Abbreviation RM := (M RewardsChain RewardsError).

Definition rw_signed (o : Origin) : RM AccountId :=
  match o with Signed who => mret who | _ => fail RewardsBadOrigin end.
Definition rw_none (o : Origin) : RM unit :=
  match o with NoOrigin => mret tt | _ => fail RewardsBadOrigin end.

(** [HASHMAP.iter().find(|a| a.0 == user)] *)
Definition find_rewardee (user : AccountId) : option (Z * Z * Z) :=
  snd <$> List.find (λ a, bool_decide (a.1 = user)) HASHMAP.

Definition transfer_pdex_rewards (payer payee : AccountId) (amount : Z) : RM unit := λ c,
  match transfer_keep_alive payer payee amount (rw_ledger c) with
  | (Ok _, g) => (Ok tt, c <| rw_ledger := g |>)
  | (Err e, g) => (Err (RewardsLedgerError e), c <| rw_ledger := g |>)
  | (Panic, g) => (Panic, c <| rw_ledger := g |>)
  end.

Definition do_initialize_claim_rewards (user : AccountId) (reward_id : Z) : RM unit :=
  c ← get_state;
  info ← ok_or (InitializeRewards c !! reward_id) RewardIdNotRegister;
  ensure (start_block info <=? rw_block c) RewardsCannotBeUnlockYet ;;
  ensure (bool_decide (Distributor c !! (reward_id, user) = None)) RewardsAlreadyInitialized ;;
  row ← ok_or (find_rewardee user) UserNotEligible;
  let '(total, initial, fac) := row in
  ensure (MIN_REWARDS_CLAIMABLE_AMOUNT <? total) AmountToLowtoInitializeRewards ;;
  transfer_pdex_rewards rewards_account user total ;;
  modify (λ c, c <| rw_ledger ::= set_lock REWARDS_LOCK_ID user total |>) ;;
  modify (λ c, c <| Distributor ::= <[(reward_id, user) :=
    mkRewardInfoForAccount total 0 false true REWARDS_LOCK_ID (start_block info) initial fac]> |>).

(** The result is the amount that the event reports. *)
Definition do_claim (user : AccountId) (reward_id : Z) : RM Z :=
  c ← get_state;
  _ ← ok_or (InitializeRewards c !! reward_id) RewardIdNotRegister;
  r ← ok_or (Distributor c !! (reward_id, user)) UserNotEligible;
  ensure (is_initialized r) UserHasNotInitializeClaimRewards ;;
  let initial := if negb (is_initial_rewards_claimed r) then initial_rewards_claimable r else 0 in
  let rewards_claimable := sat_add 128 initial (sat_sub (total_reward_amount r) (claim_amount r)) in
  modify (λ c, c <| rw_ledger ::= remove_lock (lock_id r) user |>) ;;
  modify (λ c, c <| Distributor ::= <[(reward_id, user) :=
    r <| last_block_rewards_claim := rw_block c |> <| is_initial_rewards_claimed := true |>
      <| claim_amount := total_reward_amount r |>]> |>) ;;
  mret rewards_claimable.

(** ** Dispatchables *)
Definition create_reward_cycle (o : Origin) (start end_ percentage reward_id : Z) : RM unit :=
  ensure (RewardsGovernance o) RewardsBadOrigin ;;
  c ← get_state;
  ensure (bool_decide (InitializeRewards c !! reward_id = None)) DuplicateId ;;
  ensure (start <? end_) InvalidBlocksRange ;;
  ensure ((percentage <=? 100) && (0 <? percentage)) InvalidInitialPercentage ;;
  modify (λ c, c <| InitializeRewards ::= <[reward_id := mkRewardInfo start end_ percentage]> |>).

Definition initialize_claim_rewards (o : Origin) (reward_id : Z) : RM unit :=
  user ← rw_signed o; do_initialize_claim_rewards user reward_id.

Definition claim (o : Origin) (reward_id : Z) : RM unit :=
  user ← rw_signed o; do_claim user reward_id ;; mret tt.

Definition unsigned_initialize_claim_rewards (o : Origin) (payload : ExchangePayload) : RM unit :=
  rw_none o ;; do_initialize_claim_rewards (ep_user payload) (ep_reward_id payload).

Definition unsigned_claim (o : Origin) (payload : ExchangePayload) : RM unit :=
  rw_none o ;; do_claim (ep_user payload) (ep_reward_id payload) ;; mret tt.

(** ** Validation of unsigned transactions; the number is the custom code *)
Definition signed_payload (payload : ExchangePayload) (sig : Signature) : option bool :=
  encoded ← to_json payload; Some (sig_verify sig encoded (ep_user payload)).

Definition validate_unsigned_claim (c : RewardsChain) (payload : ExchangePayload) (sig : Signature) :
    res Z unit :=
  match Distributor c !! (ep_reward_id payload, ep_user payload) with
  | None => Err 1
  | Some r =>
      if sat_sub (total_reward_amount r) (claim_amount r) <? 1000000000000 then Err 2
      else match signed_payload payload sig with
           | None => Err 1
           | Some false => Err 3
           | Some true => Ok tt
           end
  end.

Definition validate_unsigned_initialize_claim_rewards (payload : ExchangePayload) (sig : Signature) :
    res Z unit :=
  match signed_payload payload sig with
  | None => Err 1
  | Some false => Err 2
  | Some true =>
      if negb (existsb (λ a, bool_decide (a.1 = ep_user payload)) HASHMAP) then Err 4 else Ok tt
  end.

(** [account_info] *)
Definition account_info (c : RewardsChain) (account : AccountId) (reward_id : Z) :
    res RewardsError RewardsInfoByAccount :=
  match Distributor c !! (reward_id, account), InitializeRewards c !! reward_id with
  | Some r, Some info =>
      let initial := if negb (is_initial_rewards_claimed r) then initial_rewards_claimable r else 0 in
      let unclaimed_blocks :=
        sat_sub (Z.min (rw_block c) (end_block info)) (last_block_rewards_claim r) in
      Ok (mkRewardsInfoByAccount (claim_amount r)
            (sat_sub (total_reward_amount r) (claim_amount r))
            (sat_add 128 initial (sat_mul 128 (factor r) unclaimed_blocks)))
  | _, _ => Err UserNotEligible
  end.

Inductive RewardsCall : Type :=
| CreateRewardCycle (start end_ percentage reward_id : Z)
| InitializeClaimRewards (reward_id : Z)
| ClaimRewards (reward_id : Z)
| UnsignedInitialize (payload : ExchangePayload) (sig : Signature)
| UnsignedClaim (payload : ExchangePayload) (sig : Signature).

Definition rewards_dispatch (o : Origin) (call : RewardsCall) : RM unit :=
  transactional
    match call with
    | CreateRewardCycle s e p id => create_reward_cycle o s e p id
    | InitializeClaimRewards id => initialize_claim_rewards o id
    | ClaimRewards id => claim o id
    | UnsignedInitialize payload _ => unsigned_initialize_claim_rewards o payload
    | UnsignedClaim payload _ => unsigned_claim o payload
    end.

Definition rewards_validate_unsigned (c : RewardsChain) (call : RewardsCall) : bool :=
  match call with
  | UnsignedInitialize payload sig =>
      is_ok (validate_unsigned_initialize_claim_rewards payload sig)
  | UnsignedClaim payload sig => is_ok (validate_unsigned_claim c payload sig)
  | _ => false
  end.

(** ** Properties *)
Section properties.
Context {LL : LockableCurrencyLaws}.
Implicit Types c : RewardsChain.

Lemma transfer_rewards_ok p q n c u c' :
  transfer_pdex_rewards p q n c = (Ok u, c') →
  ∃ g, transfer_keep_alive p q n (rw_ledger c) = (Ok tt, g) ∧ c' = c <| rw_ledger := g |>.
Proof.
  unfold transfer_pdex_rewards. destruct (transfer_keep_alive _ _ _ _) as [[[]| |] g]; [|done..].
  intros [= <- <-]. by exists g.
Qed.

(** The first part of a successful initialisation: what was checked, and the entry *)
Lemma do_initialize_ok user id c u c' :
  do_initialize_claim_rewards user id c = (Ok u, c') →
  ∃ info total initial fac g,
    InitializeRewards c !! id = Some info ∧ start_block info ≤ rw_block c
    ∧ Distributor c !! (id, user) = None ∧ find_rewardee user = Some (total, initial, fac)
    ∧ MIN_REWARDS_CLAIMABLE_AMOUNT < total
    ∧ transfer_keep_alive rewards_account user total (rw_ledger c) = (Ok tt, g)
    ∧ c' = c <| rw_ledger := set_lock REWARDS_LOCK_ID user total g |>
             <| Distributor ::= <[(id, user) := mkRewardInfoForAccount total 0 false true
                  REWARDS_LOCK_ID (start_block info) initial fac]> |>.
Proof.
  unfold do_initialize_claim_rewards. intros H. inv_run.
  match goal with H : find_rewardee user = Some ?row |- _ => destruct row as [[total initial] fac] end.
  inv_run. rewrite Z.leb_le, Z.ltb_lt, bool_decide_eq_true in *.
  match goal with H : transfer_pdex_rewards _ _ _ _ = _ |- _ =>
    apply transfer_rewards_ok in H as (g & Hg & ->) end.
  eexists _, total, initial, fac, g. by split_and!.
Qed.

Lemma do_claim_ok user id c n c' :
  do_claim user id c = (Ok n, c') →
  ∃ r, Distributor c !! (id, user) = Some r ∧ is_Some (InitializeRewards c !! id)
    ∧ c' = c <| rw_ledger ::= remove_lock (lock_id r) user |>
             <| Distributor ::= <[(id, user) :=
                  r <| last_block_rewards_claim := rw_block c |>
                    <| is_initial_rewards_claimed := true |>
                    <| claim_amount := total_reward_amount r |>]> |>.
Proof. unfold do_claim. intros H. inv_run. eexists. by split_and!. Qed.

(** Initialising pays the reward of the table, once, under a lock.  A successful
    call happens in a registered cycle that has started, by a contributor without an
    entry; exactly the contributor's total moves from the pallet's account, and the
    whole of it is locked. *)
Theorem initialize_pays user id c c' :
  rewards_dispatch (Signed user) (InitializeClaimRewards id) c = (Ok tt, c') →
  user ≠ rewards_account →
  ∃ info total initial fac,
    InitializeRewards c !! id = Some info ∧ start_block info ≤ rw_block c
    ∧ find_rewardee user = Some (total, initial, fac)
    ∧ Distributor c !! (id, user) = None ∧ is_Some (Distributor c' !! (id, user))
    ∧ free_balance (rw_ledger c') user = free_balance (rw_ledger c) user + total
    ∧ free_balance (rw_ledger c') rewards_account = free_balance (rw_ledger c) rewards_account - total
    ∧ ledger_issuance (rw_ledger c') = ledger_issuance (rw_ledger c)
    ∧ first_lock REWARDS_LOCK_ID (Locks (rw_ledger c') user) = total.
Proof.
  intros H Hne. unfold rewards_dispatch, initialize_claim_rewards, rw_signed in H. inv_run.
  match goal with H : do_initialize_claim_rewards _ _ _ = _ |- _ =>
    apply do_initialize_ok in H as (info & total & initial & fac & g & Hi & Hs & Hd & Hf & Hm & Hg & ->) end.
  exists info, total, initial, fac. cbn. rewrite lookup_insert_eq.
  destruct (transfer_keep_alive_ok _ _ _ _ _ Hg) as (Hp & Hu & Hiss & _); [done|].
  rewrite !(proj1 (set_lock_money _ _ _ _ _)), (proj2 (set_lock_money _ _ _ _ user)).
  rewrite set_lock_sets by (unfold MIN_REWARDS_CLAIMABLE_AMOUNT, UNIT_BALANCE in Hm; lia).
  by split_and!.
Qed.

(** ** Every reward is paid once *)

(** The cycle and the contributor that a call pays *)
Definition pays (o : Origin) (call : RewardsCall) (r : res RewardsError unit) : list (Z * AccountId) :=
  match r, o, call with
  | Ok _, Signed who, InitializeClaimRewards id => [(id, who)]
  | Ok _, _, UnsignedInitialize p _ => [(ep_reward_id p, ep_user p)]
  | _, _, _ => []
  end.

(** A run of the chain, with the payments made.  Between the calls blocks pass, and
    the rest of the runtime changes the balances. *)
Inductive rw_run : list (Z * AccountId) → RewardsChain → Prop :=
| rw_run_start blk g : rw_run [] (mkRewardsChain blk ∅ ∅ g)
| rw_run_call l c o call r c' :
    rw_run l c → (o = NoOrigin → rewards_validate_unsigned c call = true) →
    rewards_dispatch o call c = (r, c') → rw_run (l ++ pays o call r) c'
| rw_run_other l c blk g : rw_run l c → rw_run l (c <| rw_block := blk |> <| rw_ledger := g |>).

Definition entry_ok (user : AccountId) (r : RewardInfoForAccount) : Prop :=
  lock_id r = REWARDS_LOCK_ID ∧ is_initialized r = true
  ∧ find_rewardee user = Some (total_reward_amount r, initial_rewards_claimable r, factor r)
  ∧ claim_amount r = (if is_initial_rewards_claimed r then total_reward_amount r else 0).

Definition paid_inv (l : list (Z * AccountId)) c : Prop :=
  NoDup l ∧ (∀ p, p ∈ l ↔ is_Some (Distributor c !! p))
  ∧ ∀ p r, Distributor c !! p = Some r → entry_ok p.2 r.

Lemma paid_inv_frame l c c' : Distributor c' = Distributor c → paid_inv l c → paid_inv l c'.
Proof. unfold paid_inv. by intros ->. Qed.

Lemma paid_inv_initialize l user id c u c' :
  do_initialize_claim_rewards user id c = (Ok u, c') → paid_inv l c → paid_inv (l ++ [(id, user)]) c'.
Proof.
  intros (info & total & initial & fac & g & _ & _ & Hd & Hf & _ & _ & ->)%do_initialize_ok (Hnd & Hl & He).
  assert ((id, user) ∉ l) as Hnew by (rewrite Hl, Hd; by intros [? ?]).
  split_and!.
  - apply NoDup_app. split_and!; [done| |apply NoDup_singleton].
    intros p Hp ->%list_elem_of_singleton. done.
  - intros p. cbn. rewrite elem_of_app, list_elem_of_singleton, lookup_insert_is_Some', Hl. naive_solver.
  - intros p r. cbn. rewrite lookup_insert_Some. intros [[<- <-]|[_ Hr]]; [by split_and!|by apply He].
Qed.

Lemma paid_inv_claim l user id c n c' :
  do_claim user id c = (Ok n, c') → paid_inv l c → paid_inv l c'.
Proof.
  intros (r & Hr & _ & ->)%do_claim_ok (Hnd & Hl & He). split_and!; [done| |].
  - intros p. cbn. rewrite lookup_insert_is_Some', Hl. split; [by right|]. intros [<-|?]; [by eexists|done].
  - intros p r'. cbn. rewrite lookup_insert_Some. intros [[<- <-]|[_ Hr']]; [|by apply He].
    destruct (He _ _ Hr) as (? & ? & ? & _). by split_and!.
Qed.

Lemma paid_inv_dispatch l c o call r c' :
  rewards_dispatch o call c = (r, c') → paid_inv l c → paid_inv (l ++ pays o call r) c'.
Proof.
  intros [(a & -> & H)|[Hr ->]]%transactional_cases Hc; [|destruct r; [done|cbn; by rewrite app_nil_r..]].
  destruct call as [st e p id|id|id|p sig|p sig].
  - unfold create_reward_cycle in H. inv_run. destruct o; rewrite app_nil_r; by apply (paid_inv_frame l c).
  - unfold initialize_claim_rewards, rw_signed in H. destruct o; inv_run.
    by eapply paid_inv_initialize.
  - unfold claim, rw_signed in H. destruct o; inv_run. rewrite app_nil_r. by eapply paid_inv_claim.
  - unfold unsigned_initialize_claim_rewards, rw_none in H. destruct o; inv_run.
    by eapply paid_inv_initialize.
  - unfold unsigned_claim, rw_none in H. destruct o; inv_run. rewrite app_nil_r. by eapply paid_inv_claim.
Qed.

Lemma rw_run_inv l c : rw_run l c → paid_inv l c.
Proof.
  induction 1 as [blk g|l c o call r c' _ IH _ H|l c blk g _ IH].
  - split_and!; [apply NoDup_nil_2| |done]. intros p. cbn. rewrite lookup_empty.
    split; [by intros ?%not_elem_of_nil|by intros [? ?]].
  - by apply (paid_inv_dispatch l c o call).
  - by apply (paid_inv_frame l c).
Qed.

(** Nobody is paid twice.  In every run no cycle pays a contributor more than
    once, whether the calls are signed by the contributor or submitted for an
    exchange; exactly those that were paid have an entry, which carries the amounts
    of the table, and of which either nothing or everything was claimed. *)
Theorem rewards_paid_once l c :
  rw_run l c →
  NoDup l
  ∧ (∀ id user, (id, user) ∈ l ↔ is_Some (Distributor c !! (id, user)))
  ∧ ∀ id user r, Distributor c !! (id, user) = Some r →
      find_rewardee user = Some (total_reward_amount r, initial_rewards_claimable r, factor r)
      ∧ claim_amount r = if is_initial_rewards_claimed r then total_reward_amount r else 0.
Proof.
  intros (Hnd & Hl & He)%rw_run_inv. split; [done|]. split; [intros; apply Hl|].
  intros id user r Hr. destruct (He _ _ Hr) as (_ & _ & ? & ?). done.
Qed.

(** One claim unlocks everything.  At any block, long before the end of the
    cycle too, a contributor can claim, and the claim removes the lock on the rewards
    of all cycles, also of those that were not claimed.  The event of the first claim
    reports the initial reward on top of the total. *)
Theorem claim_unlocks_everything l c id user info r :
  rw_run l c → InitializeRewards c !! id = Some info → Distributor c !! (id, user) = Some r →
  ∃ c' reported,
    do_claim user id c = (Ok reported, c')
    ∧ rewards_dispatch (Signed user) (ClaimRewards id) c = (Ok tt, c')
    ∧ (∀ n, (REWARDS_LOCK_ID, n) ∉ Locks (rw_ledger c') user)
    ∧ (is_initial_rewards_claimed r = false → 0 ≤ total_reward_amount r →
       reported = sat_add 128 (initial_rewards_claimable r) (total_reward_amount r)).
Proof.
  intros (_ & _ & He)%rw_run_inv Hi Hr. destruct (He _ _ Hr) as (Hlock & Hinit & _ & Hc).
  unfold rewards_dispatch, transactional, claim, rw_signed, do_claim. mrun.
  rewrite Hi, Hr, Hinit. cbn. eexists _, _. split_and!; [done..| |].
  - cbn. rewrite Hlock. intros n. apply remove_lock_removes.
  - intros Hf H0. rewrite Hf in *. cbn. rewrite Hc. unfold sat_sub. by rewrite Z.sub_0_r, Z.max_r.
Qed.

(** A signature for one action serves the other.  The validation of unsigned
    calls never looks at the action that the contributor signed: the signature with
    which an exchange initialises a reward also lets anybody claim it, as soon as the
    entry with at least one PDEX to claim exists. *)
Theorem signature_ignores_action c payload sig r :
  rewards_validate_unsigned c (UnsignedInitialize payload sig) = true →
  Distributor c !! (ep_reward_id payload, ep_user payload) = Some r →
  claim_amount r + UNIT_BALANCE ≤ total_reward_amount r →
  rewards_validate_unsigned c (UnsignedClaim payload sig) = true.
Proof.
  unfold rewards_validate_unsigned, validate_unsigned_initialize_claim_rewards, validate_unsigned_claim.
  intros H -> Hle. destruct (signed_payload payload sig) as [[]|]; [|done..].
  unfold sat_sub, UNIT_BALANCE in *. by rewrite (proj2 (Z.ltb_ge _ _)) by lia.
Qed.
End properties.
End rewards.

(** ** A concrete run *)
Module RewardsExample.
Import RefCrypto RefLocks.

Definition table : list (AccountId * (Z * Z * Z)) :=
  [(acct 1, (4000000000000, 1000000000000, 3)); (acct 2, (100, 10, 1))].
Definition json (p : ExchangePayload) : option bytes := Some (vec_to_list (ep_user p)).
Definition governance (o : Origin) : bool := match o with Root => true | _ => false end.
Abbreviation dispatch := (rewards_dispatch table (acct 8) governance).
Abbreviation running := (rw_run table (acct 8) json governance).

Definition funds : ledger := mkLedger {[acct 8 := 10000000000000]} 10000000000000 ∅ ∅.
Definition chain0 : RewardsChain := mkRewardsChain 5 ∅ ∅ funds.
Definition calls : list (Origin * RewardsCall) := [
  (Root, CreateRewardCycle 1 1000 25 0); (Root, CreateRewardCycle 1 1000 25 1);
  (Signed (acct 1), InitializeClaimRewards 0)].
Definition exec (c : RewardsChain) (e : Origin * RewardsCall) : RewardsChain :=
  (dispatch e.1 e.2 c).2.
Definition chain1 : RewardsChain := foldl exec chain0 calls.
Definition chain2 : RewardsChain := exec chain1 (Signed (acct 1), InitializeClaimRewards 1).

Lemma exec_runs es l c : Forall (λ e, e.1 ≠ NoOrigin) es → running l c →
  ∃ l', running l' (foldl exec c es).
Proof.
  intros Hes. revert l c. induction Hes as [|[o call] es Ho _ IH]; intros l c Hc; [by exists l|].
  destruct (dispatch o call c) as [r c'] eqn:H. apply (IH (l ++ pays o call r)).
  change (exec c (o, call)) with (dispatch o call c).2. rewrite H. by apply (rw_run_call _ _ _ _ l c o call).
Qed.

Lemma chain1_runs : ∃ l, running l chain1.
Proof. apply (exec_runs calls []); [by repeat constructor|apply rw_run_start]. Qed.

Lemma initialize_pays_witness :
  free_balance (rw_ledger chain2) (acct 1) = free_balance (rw_ledger chain1) (acct 1) + 4000000000000.
Proof.
  assert (dispatch (Signed (acct 1)) (InitializeClaimRewards 1) chain1 = (Ok tt, chain2)) as H.
  { apply run_ok. vm_compute. reflexivity. }
  assert (acct 1 ≠ acct 8) as Hne by (apply (bool_decide_eq_false_1 _); vm_compute; reflexivity).
  destruct (initialize_pays table (acct 8) governance (acct 1) 1 chain1 chain2 H Hne)
    as (info & total & initial & fac & _ & _ & Hf & _ & _ & Hu & _).
  vm_compute in Hf. injection Hf as <- <- <-. exact Hu.
Defined.

Lemma rewards_paid_once_witness : ∃ l, running l chain1 ∧ NoDup l ∧ (0, acct 1) ∈ l.
Proof.
  destruct chain1_runs as [l Hl]. exists l. split; [exact Hl|].
  destruct (rewards_paid_once table (acct 8) json governance l chain1 Hl) as (Hnd & Hin & _).
  split; [exact Hnd|]. apply Hin. vm_compute. eexists. reflexivity.
Defined.

(** The cycle ends at block 1000; the claim at block 5 succeeds. *)
Lemma claim_unlocks_everything_witness :
  ∃ c' reported, do_claim (acct 1) 0 chain1 = (Ok reported, c')
    ∧ ∀ n, (REWARDS_LOCK_ID, n) ∉ Locks (rw_ledger c') (acct 1).
Proof.
  destruct chain1_runs as [l Hl].
  destruct (claim_unlocks_everything table (acct 8) json governance l chain1 0 (acct 1)
    (mkRewardInfo 1 1000 25) (mkRewardInfoForAccount 4000000000000 0 false true REWARDS_LOCK_ID 1
      1000000000000 3) Hl) as (c' & reported & H & _ & Hn & _); [reflexivity|reflexivity|].
  exists c', reported. split; [exact H|exact Hn].
Defined.

Definition wish : ExchangePayload := mkExchangePayload 0 Initialize (acct 1).
Lemma signature_ignores_action_witness :
  rewards_validate_unsigned table json chain1 (UnsignedClaim wish (acct 1)) = true.
Proof.
  eapply (signature_ignores_action (CR := ref_crypto) table json chain1 wish (acct 1));
    [vm_compute; reflexivity|vm_compute; reflexivity|vm_compute; discriminate].
Defined.
End RewardsExample.
