(* ===== verification/CrowdloanTable.v ===== *)
(** * The table of crowdloan rewards

    [pallets/rewards/src/crowdloan_rewardees.rs]: the 3631 contributors with the total, the
    initial reward and the factor of each.  An account is written as the number that its 32
    bytes are in big-endian order; [Crowdloan.v] turns it into the bytes. *)

From S2P Require Import Prelude.

Definition Row : Type := Z * (Z * Z * Z).

Definition rows_0 : list Row := [
  (0x0007ae30526dfc179d16b5d29daf10aa81781b7da1b5cb67e9a91dd625868f03, (10274080000000, 2568520000000, 1592580));
  (0x000e3c0436ae4721cf33c4723fe0df157c667ecb4f33d0863d3afe2b1ab03d4d, (205481600000000, 51370400000000, 31851700));
  (0x001187b813831c4ce8e1761fda6262330f26070ae7cff118cbe903a5a93bf740, (10285792450000, 2571448113000, 1594400));
  (0x00118b253a7a877f6789631d3eb999b1e5d7307caf0b16ca71f5c8bccc40e615, (51370400000000, 12842600000000, 7962920));
  (0x001452ce88459a9b46fa83611ac75a7404208bc6aa701e5f7e1b7dd8f43fd90d, (82192640000000, 20548160000000, 12740700));
  (0x00193447d24d6fa1d2e47e1df3b742adfe6e08f7c26431541be6722aa9189849, (20548160000000, 5137040000000, 3185170));
  (0x001bd6c9247acf04aae6df255d13f12967e1377c1bc3e8d158346b520e6e500f, (287674240000000, 71918560000000, 44592400));
  (0x001db442697ed553fed36fcceb3e6d3783cf4bb81b35812a2f83f8696a5c8e65, (13356304000000, 3339076000000, 2070360));
  (0x0025240300f30758ca2aa2f479665806d482f394bb07b89332057f0f84c06d1c, (90411904000000, 22602976000000, 14014700));
  (0x002993e1eed806e3ddb85e0e3a6731acd896dbf53e8fbe26984f5658d3ef5a4c, (18493344000000, 4623336000000, 2866650));
  (0x002a85b3f831c6389cfda156f7ba1b3f61918d19ad13e01e566f206d26c89459, (390415040000000, 97603760000000, 60518200));
  (0x002b5a7ebef78949666f93b53e0f8d49ddd604e8fbb049da894f935e626cc965, (10274080000000, 2568520000000, 1592580));
  (0x00322f4e21f90cb48c00d523f3e01ac6d29c30c4874d4d509f4dbfa9bad92f4a, (10274080000000, 2568520000000, 1592580));
  (0x00359be3445f6f29b12e5853147a3704193c89a10d8a205204cfb692bacc0627, (30822240000000, 7705560000000, 4777750));
  (0x00361c36baccba0c4da38108a231d28292ff975af84dae1e3ffec13a3496bb77, (184933440000000, 46233360000000, 28666500));
  (0x0036b531eb7a0861799591bc97c6e8d5e0440afe97e535e4847cf94021aec03a, (10274080000000, 2568520000000, 1592580));
  (0x0036e127b95d77a5a9845bcea1639d1f45a969dfff79f1cdc191e2608b00b675, (51370400000000, 12842600000000, 7962920));
  (0x00374e89a331e0d447028c1eff1f386f51cbcae0382ccaf4f89fdcf28514e43d, (20548160000000, 5137040000000, 3185170));
  (0x003a170a3d2e7fca28d0e31e58e64f8272289c68440c24ffe6ed644eff338b22, (20548160000000, 5137040000000, 3185170));
  (0x003f7aae80f62cd2a8a5df6bf31af4c66bdfd90f97fa220962f27fddd16ab10d, (61644480000000, 15411120000000, 9555510));
  (0x0044836cc23e4a8d764f073928a4ca397440ad3760ef7b6e68c94c6e629dcb30, (98590071680000, 24647517920000, 15282400));
  (0x0046ba373673d367166e17ae006b7f58265ed5ce862d1549d8f2ccecbeb8990c, (291783872000000, 72945968000000, 45229400));
  (0x004e1886916542cabfb16c448552ef95943f82e64d57b4c3df43edf7fccb4f6d, (10274080000000, 2568520000000, 1592580));
  (0x00502d96f5386cede8ef7f345e583d17f3f164599f8c7694318fa60f3194c141, (55890995200000, 13972748800000, 8663660));
  (0x005046e760aea8c38dfaf92e03cc61dc457bf25a478a15bac959e72b05484676, (104795616000000, 26198904000000, 16244400));
  (0x0057e5a7d4cf42e1255ba08a95c8e1b64593ce55cc4d7d1e78fbad0c5e8f8365, (203426784000000, 50856696000000, 31533200));
  (0x005a35d0e175c7d2377d8de7f8bad7475348b4f9425e336ff4808254491bd225, (30822240000000, 7705560000000, 4777750));
  (0x005d6ad1348c6e8d37a0d5f0d906187233329630bab631516af4d029d736cc75, (40890838400000, 10222709600000, 6338490));
  (0x00618292932c394f5eb568a3d4f858045678b58ca84165acdcfbec557f3d5a18, (691445584000000, 172861396000000, 107181000));
  (0x0069952bd2b86d397fd5ea3db510980e16855eb654b32c71daa63443e73abb0e, (174248396800000, 43562099200000, 27010200));
  (0x006a7eb81018c394c50d594409f8374febdd1d502c48b9acdd2617b0d49eb81e, (14383712000000, 3595928000000, 2229620));
  (0x006b26466d3fa4fc09415c788c303af6f4b8b648f995ca6033730e3646190c02, (10274080000000, 2568520000000, 1592580));
  (0x00725cbb3eb7e1fda5b19c7ab123a08c1a28b16d17fb4d6d09f679012ba38c04, (205481600000000, 51370400000000, 31851700));
  (0x00747c945c4456d966a09e14b582e0c44586422c2aaa22d4977f5d8b8d23c53d, (10274080000000, 2568520000000, 1592580));
  (0x00850b931626bd8e5f3517655f840ac9a77c641faaf24e20fd91addcbecd3f07, (102740800000000, 25685200000000, 15925800));
  (0x008a03468c1eb6dcf4848b270a2425db12a1cb96ef2d834472f52fe8a75c9443, (12328896000000, 3082224000000, 1911100));
  (0x00906433b936d39c70e1f021ec82b0c415de5d48c466d801139451243a75504b, (20548160000000, 5137040000000, 3185170));
  (0x0091d67a15a5efccfd9a8d9596f0b46b3105869e340bfe7c4a118738b6033c68, (39041504000000, 9760376000000, 6051820));
  (0x0097c8e40502024217dced36697155eda1f705363bf114f4330d1b3902748624, (20548160000000, 5137040000000, 3185170));
  (0x009b21f0bb8499822a5277fbb907e10ef0313e4ee4fbe1568a325ec46b802551, (23630384000000, 5907596000000, 3662940));
  (0x00a7d1a6e52a68ec52b7419f2644a8a2150bcf38bd36783672c620e5a4d8fd63, (20548160000000, 5137040000000, 3185170));
  (0x00b8188b9f839332bd8f98a95555f8c9bb754f41842028d24f61eadcc542ec6d, (205481600000000, 51370400000000, 31851700));
  (0x00c5022293364ed424e6d4fe55e9adb334c76c2ff0ffe7eae82c5a81b4b37e61, (39041504000000, 9760376000000, 6051820));
  (0x00cdd2d2a84ead6c902d4d3e3c2bfd0aa31eb0a30e38642913c5eb7594e24c6c, (425346912000000, 106336728000000, 65933000));
  (0x00dbca8f4c35506ec9ed46451db98d9759e2323fcdca72a40e5f237a0607e536, (10274080000000, 2568520000000, 1592580));
  (0x00e3289ccdca2ccb42c12a0f9e5c0afef769fc59939a2d08c508d5c610eb4b45, (20548160000000, 5137040000000, 3185170));
  (0x00eb1f459ac00521c3e4d58dda7dc795bace1820fde5b004173b718599981c2c, (10274080000000, 2568520000000, 1592580));
  (0x00ec666903b7e8310d89dc3f47fe25c5e9ca4541f010213282518b01c2db1461, (14383712000000, 3595928000000, 2229620));
  (0x00fdc5e14fa957fd96dd8b1e490c8e2d6d5096bdae4982fbfad34a3ed1eeef51, (41096320000000, 10274080000000, 6370340));
  (0x020d638985a7d8d819bcdb6f036d2d324cba6dd29b2c2f95d9ce8fbdabd26e37, (61644480000000, 15411120000000, 9555510));
  (0x020db2b13778900f86faebf14795195876a80d2ed19c08afbd631624b8b9cb42, (10274080000000, 2568520000000, 1592580));
  (0x020fa85efa96a432e05598df7ec297921a457cf8a2a7600b92760939d9b9400d, (22602976000000, 5650744000000, 3503690));
  (0x02269f50f24fcdf0e6265f4c7adeaabac7612b482a7982ba6b301f44ea8cda58, (51370400000000, 12842600000000, 7962920));
  (0x0233cfe529b9873e3a9df826e9952ce1d3580f8b9b867bc4703eee9e07d4a53d, (51370400000000, 12842600000000, 7962920));
  (0x02497fade89ca643312a875f17be430278d4e290f869c4a8e89ac5c5def3ea4c, (10274080000000, 2568520000000, 1592580));
  (0x02564d866df702b1a784a7ef8f0074ceb32cd26523c207e7cc04db0bedc4f620, (55480032000000, 13870008000000, 8599960));
  (0x0270a59178f6caeb7a8969e49b3e1ac646178bc8ff4f8be3cd2daebd7a1a6228, (102740800000000, 25685200000000, 15925800));
  (0x0275177ac0555d2ad29163355de627e3ece86cd63f77d411c23f795bdad96e5c, (10274080000000, 2568520000000, 1592580));
  (0x0297e8861fd8a289c5a1d33664410a86afd84926a716d023f28b5f34bf0f712d, (2465779200000000, 616444800000000, 382220000));
  (0x02992ba5c15bc20090fcf2f4c7b2d1c4ec1add2c6a0dd923df2b870936166865, (108905248000000, 27226312000000, 16881400));
  (0x029a492f105a7d6b51604abf1ff6057f6556d0979179bb685df8b7a30874232d, (10274080000000, 2568520000000, 1592580));
  (0x02ac67cec8ccef58d3b5bbe47a68c55caaaae4381b64b72bbc9eaa74a09a4339, (10274080000000, 2568520000000, 1592580));
  (0x02b2894fcd7d94a251175719ad50f01a4dfbd11eac173e3178708441e4bd2a50, (10890524800000, 2722631200000, 1688140));
  (0x02b4820b48f3f919ed8394dd857c0b93fb6fa73cf66541b697f99a90c1ad0133, (10274080000000, 2568520000000, 1592580));
  (0x02be0dae6e61ce7c896f4e667f681f4391d573635bd98062894e75900548ba1c, (410963200000000, 102740800000000, 63703300));
  (0x02c756c695b5af4548302d9b09ffe9465261b5b91fa72546cd3ba0366733c96b, (51370400000000, 12842600000000, 7962920));
  (0x02d348d062e7224fc52af185f7e264978ebdd3961c3c2fd3cfdc5eaa29411c3b, (211646048000000, 52911512000000, 32807200));
  (0x02d7903b4448c8302fa0abcf6f72459e5e5ead5566077b2a94c4ed13f7012b1d, (164385280000000, 41096320000000, 25481300));
  (0x02d824406b042b63799dcd2079c96263a181be519e2b39c56f14514834f2e400, (811652320000000, 202913080000000, 125814200));
  (0x02e4c417ef8a41169e61e2ed65c894a9c5bdd99be5d8a4c9d45a5ba6d2049f7b, (10274080000000, 2568520000000, 1592580));
  (0x02ffc349832bcc2b933abddadd30abcaeb7d76d32ca4eb21f7ac2dd9bf503a5a, (10274080000000, 2568520000000, 1592580));
  (0x040acc58b2ed2e050b90a5f86621c7658141d2f1fc13bf59f9f335caa87ac00c, (41301801600000, 10325450400000, 6402190));
  (0x04187f2731bbe1cc15c12ee837f32b26ec339a7695a8e9cd3a576aaeebadd21b, (82192640000000, 20548160000000, 12740700));
  (0x044d825219b66d0b444ff6e86ddd8aa18f50c2d7c38f7144f12ae03b9944fb0e, (12328896000000, 3082224000000, 1911100));
  (0x0476052db8b21f4dcfe920b504bf4f65320d7934b2b477365ccb4de3a37aa70c, (10274080000000, 2568520000000, 1592580));
  (0x0486c4b390ac412be854b765eb01bcdb4c6a4539e2335b555b9ca98a10beae43, (61644480000000, 15411120000000, 9555510));
  (0x048c3dfaa8932ac253cab28b53f4360e0d024ea2c8cad7990f4958fe9f7f6342, (41096320000000, 10274080000000, 6370340));
  (0x0499a752a05a444ec8a32069bb45fc2aad8441ac6547521764fd1a08d8536220, (10274080000000, 2568520000000, 1592580));
  (0x049c65e21702d3d1bc8be3905706fa11e35d4adc370b8ec84e9e99757d2ab517, (20548160000000, 5137040000000, 3185170));
  (0x04ad2a76003e7ea350adfc68c69adefda8385a113267a7300da76930a8b43a2d, (10274080000000, 2568520000000, 1592580));
  (0x04cddff3eb58925961f9225aa013df7a8940b5a8bbb30ffc0b4a687b1af3f251, (30822240000000, 7705560000000, 4777750));
  (0x04d0d0a23870509cd3b8014bcb3295d58c725758a281e8fbcce35f44ff3aff5e, (10274080000000, 2568520000000, 1592580));
  (0x04d1f14c1ed237e4d27a2de132d59aa8168efb768cc6370169d234477dbbdf5a, (20548160000000, 5137040000000, 3185170));
  (0x04d2267dadd046eb66d3caf26b60cf43c5b055f98f22e6115feb35f0c69d6d5c, (20548160000000, 5137040000000, 3185170));
  (0x04d4d334be50cba6e3a145891bca58e63e64c8e7fb08e9eb750ac1601b97985b, (20548160000000, 5137040000000, 3185170));
  (0x04e8c4ded6408dc425eac79c6603843bfe6df71e5c21d8effc8ae08ad235122d, (20548160000000, 5137040000000, 3185170));
  (0x04e9998089486821d9d346d1ae2791315baecb0d882bad096486a34500e8e01a, (10274080000000, 2568520000000, 1592580));
  (0x04ecc74fca245605edebb604dc62c228b254404d8c1b260ee9e3929e67468e0b, (102740800000000, 25685200000000, 15925800));
  (0x04f08e729184d5eaf6ca41e6ec4ac8494122820afe8f4b5aff280fd03b4e3a2d, (19520752000000, 4880188000000, 3025910));
  (0x04f175b0637a2ee40e346981221281db9e90962b727b950ac66d576c3c8e5877, (283564608000000, 70891152000000, 43955300));
  (0x04f8ead913173b7b92613405823c2fcad585bbc57c27dd6633131d4ce9d8f812, (10274080000000, 2568520000000, 1592580));
  (0x04f99c92a6a82137881046c13f04fc403b35697d44e1591ae19051866534436d, (65754112000000, 16438528000000, 10192500));
  (0x056eb83320e460cff5875f9468fdf451e6fa40ea7a7fb04af87011183666dd18, (10274080000000, 2568520000000, 1592580));
  (0x060454e9dd50e541888eca385c227a77be838d980feed263d1b3004fdb49ea43, (16438528000000, 4109632000000, 2548130));
  (0x06259d6d6a1d3a0fe67da112b90432d41034ada443596e1c8355d0b9d94bb879, (406853568000000, 101713392000000, 63066300));
  (0x062afc48ee18e1d51138397b14b0470bdf12662f5c41198518c37e7c4037c044, (10274080000000, 2568520000000, 1592580));
  (0x06321883e888f19c563803ab3055fa436ece54cfaa3e6cbf5f2f6dce3013510d, (33904464000000, 8476116000000, 5255530));
  (0x0645c4116cb95be1059432c48241910bbfa8fae50fe557f330bb817ff34f7846, (320551296000000, 80137824000000, 49688600));
  (0x0649abf64b08678e186467769b9bf2c1e80f4d5fb42e7f0ecea98d91c772480c, (5280877120000000, 1320219280000000, 818588000));
  (0x066eabb17d8d769c52136dcfa0c80cc790a50be42e328c7f232a2a047d225e46, (12328896000000, 3082224000000, 1911100));
  (0x0671c9b01b14ad4d4d9782497567ef6473a457d94b3ec02a2aef047339783377, (10274080000000, 2568520000000, 1592580));
  (0x067cdfcf99f0307a91d975ccd3a1068d2743292de108360b1d8c1347a3332058, (30822240000000, 7705560000000, 4777750));
  (0x068ab668d582f6bbb7fd13adc9f71945c8bfea0d6dc53f0e165aec84fca1ab74, (34931872000000, 8732968000000, 5414790));
  (0x068de929dbd63bf62f67877a4c9e1dc22ba697c53b5474e74b17dfc2c37f0a28, (158220832000000, 39555208000000, 24525800));
  (0x06974c29f7b396369797a3167670c708213d638e7175dd6e4c416e2bd145353c, (102740800000000, 25685200000000, 15925800));
  (0x069c3a53c492972498aa59310876274eac10772310a4a129cb9de6dde9fa1612, (14383712000000, 3595928000000, 2229620));
  (0x069f18c25ae6220faabd732421d23618ace116b306b7aed755fa27390c4a3461, (205481600000000, 51370400000000, 31851700));
  (0x06a4dd6a586aa80706624bd4a3bc4226ff68858288760697d7d81b7c61ae507a, (41096320000000, 10274080000000, 6370340));
  (0x06bbb42674ec43565232b23f03bc3a93172017636cf17e7f42453b7bdec1de0d, (45205952000000, 11301488000000, 7007370));
  (0x06be1e782a1e47d943efde0b8d09892c445da2192a272e192c5c7f06f488a34c, (423292096000000, 105823024000000, 65614500));
  (0x06cc36aa2a27b4ed95c788d7d92135824eb465167fa0d081df72aabe52495465, (10274080000000, 2568520000000, 1592580));
  (0x06d7bfe81b8a65632c8d44a7f03a35989388979a8d850b3ab2be20157dfdf764, (208563824000000, 52140956000000, 32329500));
  (0x06d87548dd2ce6deed1fd8f925d14f1fac42810e4011411d0c98e809583be83e, (20548160000000, 5137040000000, 3185170));
  (0x06ec98578d480f2031ec29d5665f28e592d567b9f3897adb4161a6667784be60, (10274080000000, 2568520000000, 1592580));
  (0x06f1f43f470f8a79f738d4ffa56bb9567471008823524cff4843143745faea35, (10274080000000, 2568520000000, 1592580));
  (0x06f572d8850010a0e84a14edaf4c9b2d1b0b0c7f0283d032a3a3afc30f8d1258, (20548160000000, 5137040000000, 3185170));
  (0x06fb07760b37a29c9c4dc24a4e0bd645d9d285dfca512e87cb4f888677b24422, (12328896000000, 3082224000000, 1911100));
  (0x080f34cb1e17423f1e1116bd826f273c6c8f1bd34722bb797d78256db7581868, (10274080000000, 2568520000000, 1592580));
  (0x0810555bab483b3f9d5ddcf383da808a834fbabbff42776ab81d29169d79a401, (10274080000000, 2568520000000, 1592580));
  (0x08154b94fe16d15a5f8cd9276cbdfe1bf0124655ab333d6461cfe50012ec2a2b, (10787784000000, 2696946000000, 1672210));
  (0x081dc122048e6c68057678c09f02c5f86f74743c1f425315935e09e35279c34a, (20548160000000, 5137040000000, 3185170));
  (0x0825825327e33e04b8e683dc220a260c6ca34d827eccfb45edc9ef6132d10958, (69863744000000, 17465936000000, 10829600));
  (0x08377b4fd7d020d5c88e8c304af550eacaa8db026c06f535398e70b29771d62e, (10274080000000, 2568520000000, 1592580));
  (0x08397e8e901052b6f7cc6f4a05be8ee13d77d2a592d919b877162cb637182f15, (154111200000000, 38527800000000, 23888800));
  (0x08470321834592d4e749e279e105b22d5eb31267efbeb5f29db99aa602a3a44c, (10274080000000, 2568520000000, 1592580));
  (0x0849f3fd31f7134ead60f7c0b7982c043568c4c75aeb78e90e387bf6e6521e58, (20548160000000, 5137040000000, 3185170));
  (0x0850446d96593e1d6d79e6f2203357bae1c1d3c39d082a93d9a61fbd14f91008, (205481600000000, 51370400000000, 31851700));
  (0x0855c12626f5f2ba996fbf949b868efc1f2070ff2350a39bd6d9c14f4c00ad2a, (205481600000000, 51370400000000, 31851700));
  (0x085648c96e0e1322bc90b1b9f58fb4076ef9a964faf99e70a6ab9bff43d09358, (143837120000000, 35959280000000, 22296200));
  (0x086458764513e13589a7a56de6f6c0cd8aa5d8e1677cda4c011ba021e0dd0b7e, (131508224000000, 32877056000000, 20385100));
  (0x086503c9523cab9032df17f9acacdf579f7ac61801b27bb4db0fb09682970b4d, (205481600000000, 51370400000000, 31851700));
  (0x086fdee857709b00cfd9b44e6a9bde3befe93677ef5bebd186294cdb91669212, (14383712000000, 3595928000000, 2229620));
  (0x0873d4193134834c1ec60fe36c1a71c82554c8a881e162f377d2e99810b12a71, (30822240000000, 7705560000000, 4777750));
  (0x087506b689461f1c0a1cb2ed8699361e7c4bdfeb0e64d5120a96f87f2475c37d, (10274080000000, 2568520000000, 1592580));
  (0x087da89d71128d4a8a5f21696d084478f281c658155b2524b2c8e2889355b552, (118151920000000, 29537980000000, 18314700));
  (0x088da77bfbb764bb3b44dac70e1188820fad45e0d5e2266d5deabe3e0702837b, (10274080000000, 2568520000000, 1592580));
  (0x0890fce4c93aacc7436353baba8c903e4df3f1d62646f159109e1d71b9003c78, (2054816000000000, 513704000000000, 318517000));
  (0x0892c264d49555c8aec89dbfe1276e2012ec231b047570a64c50f43329565a20, (20548160000000, 5137040000000, 3185170));
  (0x08932b7d8b5a5ea1c227da75f7d6a5cbeef6ac400f5912e84e0e8c6477352d4d, (81165232000000, 20291308000000, 12581400));
  (0x0897a439397ddb1effac1fb1428b2324e8b57ae40083db4782a3d1a45789176d, (14342615680000, 3585653920000, 2223250));
  (0x089fdb696ec2304043007c5509b870c3f9dc4d0ce43e3db5799513af471f8019, (80137824000000, 20034456000000, 12422200));
  (0x08a309b401d665554c21a930cd10d0b327311af112dcdff80eb5a8b4b0884f5a, (20548160000000, 5137040000000, 3185170));
  (0x08a4261799e863b48ae3b400cb2753852f128a4d0fac21ae65847286e2daaa79, (287674240000000, 71918560000000, 44592400));
  (0x08a6da8dc89141a3c430ebf22ad8b70c4f485b48ce3eb48d43862c1e62624e02, (20548160000000, 5137040000000, 3185170));
  (0x08b0038d1ab3f3266e5a475427fbf05c1f967f96451d286c06eb4400475a6253, (41096320000000, 10274080000000, 6370340));
  (0x08bd3bf107019a16a0e417c9219f39e6c387a846ea15ab74591f9add9a7b4d07, (446747150700000, 111686787700000, 69250200));
  (0x08c93de285f2727455cd41db5b6bd5a4627e979de8f67d03a593f212ef501652, (10274080000000, 2568520000000, 1592580));
  (0x08cb168f396b052069eef6b889973e79c7dae47b924b3ca86895b41461503446, (207536416000000, 51884104000000, 32170200));
  (0x08cc32a0f27384c6ec57d0318d34e9f90cdc1ed6a2218a630bd57c2465fc661b, (51370400000000, 12842600000000, 7962920));
  (0x08d0ace5c1723e9daeabff8394e812b0a6ca92b27c5b42bc3212b8d67480a105, (10479561600000, 2619890400000, 1624440));
  (0x08d48a00b01356b80f40e50f281c2cda9e858f45a1bc8e989b3eedfb27dfe044, (41096320000000, 10274080000000, 6370340));
  (0x08da3a318422c8ed8b73c6239ce627891a73bd96b82920fae93a940032cbf51d, (10274080000000, 2568520000000, 1592580));
  (0x08eb319467ea54784cd9edfbd03bbcc53f7a021ed8d9ed2ca97b6ae46b3f6014, (10274080000000, 2568520000000, 1592580));
  (0x08ecc1fbb5076db6bbc6013b0a66e6363a6b23f37fcdf0f20c64e46fac001b1a, (431511360000000, 107877840000000, 66888500));
  (0x08f0bc1a04e6fac353977b053152961436e96e00848ca05c05f96a5bf982f347, (49315584000000, 12328896000000, 7644400));
  (0x08f6d4732ebfa6cfce92e15e1e47f70891521d2e927ba0a2a249013fd5a4bf0b, (20548160000000, 5137040000000, 3185170));
  (0x0a01d971010880946b8eb1850b008a937ba0deb404d4959155bb9b71a0d88a36, (30822240000000, 7705560000000, 4777750));
  (0x0a01f8ab03f0fdb6d4e766068e902ca22b4f105de993d3f5226242998c7f066e, (34931872000000, 8732968000000, 5414790));
  (0x0a03e758273567d94b805816e6bccc2491507cb2272dc6066d2a6157df23406c, (213043176600000, 53260794160000, 33023800));
  (0x0a074ba8638af51d44e8f02795c8365329a175b12875bf549b4cd497e64f2e47, (20548160000000, 5137040000000, 3185170));
  (0x0a099b0e8485523c59126396903846d98f913dd63d17a18a1b1c0bb574b12059, (10274080000000, 2568520000000, 1592580));
  (0x0a13b1fbaf300a0109612a9e6375180d6b2c9a8eab91e99818548d561ef4b03a, (30616758400000, 7654189600000, 4745900));
  (0x0a2155cefddf1ff744109824cc300df8fab0f6e993a44801888c8e7bcbcf8425, (10274080000000, 2568520000000, 1592580));
  (0x0a21a5db16c232233647173aa3362306b79f7b15759c139b28a9ac915e2ca35e, (16438528000000, 4109632000000, 2548130));
  (0x0a223b976f4458a672e0b6913a55c1f8c5b469a13a35cddc040349c7b04aff43, (102740800000000, 25685200000000, 15925800));
  (0x0a2a7c3be31d49943535bc78ee89a3eba1dede97274888ea58175a957b4aeb42, (10274080000000, 2568520000000, 1592580));
  (0x0a3289a760e8155e8894b96d8a319d43588281ef4f69c1bd0a0daaeb845d980c, (30822240000000, 7705560000000, 4777750));
  (0x0a36aba7e9cfc74b1375f3bf12a24af4ffb43abe209a7139c6ed535b4b460f09, (41096320000000, 10274080000000, 6370340));
  (0x0a3fee1dae7d53d72ecb9cc7dd766ef196ab9429e4b9745a836eeb63a2305442, (14383712000000, 3595928000000, 2229620));
  (0x0a43482c1673a2e142858f87e495d4c937c429f9ca2a7c352c4ddd9a72b3027c, (18404029360000, 4601007341000, 2852810));
  (0x0a5ba0cc3acc11719b44086c8f936e69dc04655927480aabf6d73becfcc0eb49, (102740800000000, 25685200000000, 15925800));
  (0x0a6196bff5bfe55e0e060ac4cc064e68d0beff0dc5135f85c9df4573be74e90b, (40068912000000, 10017228000000, 6211080));
  (0x0a61c28761b0650858d566da7f64b5d661d7a321ac1e0689b1a5ab2e2f40bb04, (10685043200000, 2671260800000, 1656290));
  (0x0a669582204496ee618c6c000f38bddbe422112fab8bc19d43553e432a485f4b, (205481600000000, 51370400000000, 31851700));
  (0x0a693246e071ae3d996142f20ae398be55a140358240dd3e379183df1b0eda42, (20548160000000, 5137040000000, 3185170));
  (0x0a6c2604b7d567247ec5279f0113b0a1bc00fb3c128ed512256d51b151d99852, (10274080000000, 2568520000000, 1592580));
  (0x0a7234fc28470353b23cc556ca01dba56d2fe6264e0e028a111c860b49c4bd4d, (10274080000000, 2568520000000, 1592580));
  (0x0a76bd1b91106eaff6d8ca4dfb8bbd62e5471df18b07115577199af1d294fd77, (616444800000000, 154111200000000, 95555100));
  (0x0a77c5490adedf3241b20fc3a2a0f4b4b4440b5a115d22f01145ea1f01caf265, (184933440000000, 46233360000000, 28666500));
  (0x0a783a7d4c83655a231eaf6afd1a05930d434fd8b1d9abb96bf4d394152b7370, (12328896000000, 3082224000000, 1911100));
  (0x0a7ecd5723dc4902057fea0ff610c3b4452dd0078754044cbdd40f9a28da3869, (205481600000000, 51370400000000, 31851700));
  (0x0a8397fc8d2436bbe15deff2bd7355d3a683a5ca8e11e14fe18fef9845369f2d, (14383712000000, 3595928000000, 2229620));
  (0x0a88b9a638c43319dca4631c70cc7a9da53f4a38631db473fdc64964a7c8a51a, (41096320000000, 10274080000000, 6370340));
  (0x0a8c37a3497cbcb538e6a5745b0aa2ac605a884152a582b9d07907a6d5795348, (10274080000000, 2568520000000, 1592580));
  (0x0a9e9ce5e252f89e5780efae4a59860c4bf2ba7c5ee642721827c3ab7beb0c5b, (20589256320000, 5147314080000, 3191540));
  (0x0aa0711482fa28b7c258aa331a7c80b495eaefb5a838bd95a5da8aebb4c7814e, (13356304000000, 3339076000000, 2070360));
  (0x0aa4f8ffa4c569a751894148bf75e471a4611597be627d658e4b238e06a9c225, (143837120000000, 35959280000000, 22296200));
  (0x0aa757923b0ebf5fb35512fd8278495ee0a4895088e767ae8902f0453f68fd48, (41096320000000, 10274080000000, 6370340));
  (0x0ab025e401b36c964b8c39d6cd03fb97e5558ec0e609450a974f2396c7b1584c, (41096320000000, 10274080000000, 6370340));
  (0x0ababc5b75c0fce8faacfc97ca4c30780a154dbfaa08906b4269e116c804505c, (27534534400000, 6883633600000, 4268130));
  (0x0abae3737d9f72b5df0cb943483614fd9bccbf838a88cedf77ac8335649caa2a, (37397651200000, 9349412800000, 5797010));
  (0x0aca5ec1ad04c3d052c63b17f4b754e789a024e564a9171ca44df6e8caa6c761, (20548160000000, 5137040000000, 3185170));
  (0x0acddfbfe276168a8c5d3469d7905a5ee4b03c0e3895577c2add4a459a250472, (20548160000000, 5137040000000, 3185170));
  (0x0ace0e14db99e35bcee60213a68fb4539b06020c69ef65f84cd4448e9feeaf73, (100418857900000, 25104714480000, 15565900));
  (0x0ad9164af99522abf2765c2af9d7bf08d363f1502f0da3bdee2e411a88b43709, (30822240000000, 7705560000000, 4777750));
  (0x0ae675c1a7f8de308d932b337036997265a11f959e7fd1d20828e780eee7632e, (41096320000000, 10274080000000, 6370340));
  (0x0af224cc827e0ad46f870e8d7a48390352afdd4996ff4048db5ac10941d60201, (614389984000000, 153597496000000, 95236500));
  (0x0af31cdeea579f2b116b860f4766900f18fd94216f7d14649de23428ade6af77, (82192640000000, 20548160000000, 12740700));
  (0x0af3c832220757401d13907f2d9a87f893bdd736f366a2343afaf3312b99474c, (215755680000000, 53938920000000, 33444300));
  (0x0af6a94ae42a17cc53f379724a2929e77bb16bcfee1d647100f3b44ea0aa5966, (205481600000000, 51370400000000, 31851600))
].
Definition rows_1 : list Row := [
  (0x0af9e114c1cd8fdfe9f82569af27ef447cab6a8c4b9121bc4bef5c0cb47cad4a, (61644480000000, 15411120000000, 9555510));
  (0x0af9f616f87e46141ae5da1a68a3bfcb8a7cac96221fb1dd849e6d3466345003, (41096320000000, 10274080000000, 6370340));
  (0x0b38ebcc47c88327095907f0b16fca4ca90b4ffafde7e35bf2d969bab2911a5f, (821926400000000, 205481600000000, 127407000));
  (0x0c00e1bdacbf317dc7908595343e9361f77d2c478f7dc248d4302f60141ed556, (2054816000000000, 513704000000000, 318517000));
  (0x0c0235079df3f9a6b9a431e0c3bf0e20d673ccb362376937b9e5e423a307fa79, (1043846528000000, 260961632000000, 161807000));
  (0x0c07c3ff22e782d6c4e38d4dff4413a7374a4b4a0ae00fe0b202b26bb856db66, (513704000000000, 128426000000000, 79629200));
  (0x0c113843d58f715c15298ab130b2e571eacc297bbf5b9c598dbb73f1f4693552, (271235712000000, 67808928000000, 42044200));
  (0x0c268c636991a40d3a94a1130584a088a19c4523ef2d6225be200d22595b0917, (113014880000000, 28253720000000, 17518400));
  (0x0c30fb52d7c68a508501ca8dab515c596637c488a4434e14df966104d077eb53, (205481600000000, 51370400000000, 31851700));
  (0x0c326c0a6592348775e188a20255471878a8ebacecdfe643d09e4fd8980a505c, (108905248000000, 27226312000000, 16881400));
  (0x0c367dc92654ebcd9c5c746be68ba063f2317cfebc02d3ed06d8968f1f59be4d, (41096320000000, 10274080000000, 6370340));
  (0x0c37ccef5e180bbe43e6ead937e484e4e2fd42be258720b13e039aac8da23d16, (10274080000000, 2568520000000, 1592580));
  (0x0c38d352b50ea11c43f8300d6bd82542c398eb68190df4b07d94c8805d81234c, (10274080000000, 2568520000000, 1592580));
  (0x0c4b1cdbe6949e46fd7b56b4d5095524157a5cd0445989bb76bf3881548be03e, (12328896000000, 3082224000000, 1911100));
  (0x0c4e1fb2c73b2e0b828f79c51e1957405291456a533d8ee2d0b507f26629ae65, (90411904000000, 22602976000000, 14014700));
  (0x0c539aabf3a328c9b28f836d37bfcb2bfa0239d51f0916abbc29a0ce669e0274, (10274080000000, 2568520000000, 1592580));
  (0x0c554c404d4577c677cf3a45292409d348ca6df3ca95c82981a760478c886931, (11301488000000, 2825372000000, 1751840));
  (0x0c65c743f9fdf905797ce5efcb39a688393d72f130017e482ace4cccafde6377, (205481600000000, 51370400000000, 31851700));
  (0x0c6a83a4b708179466f40699b1f90a3d11268bc4128a0b4927fccddd1814fc4f, (41096320000000, 10274080000000, 6370340));
  (0x0c7b815785d2d727d82bd70e4c4af29b9cd92b1b87c0c4e00fdc4bce8fd66217, (472607680000000, 118151920000000, 73258900));
  (0x0c84d7be6c65f909e2c45d52fb39b0ba2bbb68cc5c7b546d8d5fe53810521c14, (2876742400000000, 719185600000000, 445924000));
  (0x0c9bca82aa907b92078620ab3b926cafa5c7dbd021083a74e5c25d317fb2670f, (10274080000000, 2568520000000, 1592580));
  (0x0cb60626e2c283de5a45a353270d2c48b25f7970820c11d7740427a3c199805e, (343574153100000, 85893538270000, 53257400));
  (0x0cb635ce7b0f1adee5ca23f4fba485242f2739f10e8b5c74a03ba29e81abf812, (41096320000000, 10274080000000, 6370340));
  (0x0cb96007cfe3c4a4fef8e6aaedfc4ab10d451853f7a7be31737adedbe9bb9611, (21575568000000, 5393892000000, 3344430));
  (0x0cbf14dab0e1d536935767ddc27472707904cfbf76cd3e50893f40461cab0342, (45205952000000, 11301488000000, 7007370));
  (0x0ce176ea38d4d068b3ca69c6c384964b7afbfa479a39075b9a196cdb30bf8257, (186186877800000, 46546719440000, 28860800));
  (0x0ceb53bff5e816d4a69d7980fbbcc9ab09690781610cbec2ae221e49ca902a06, (102740800000000, 25685200000000, 15925800));
  (0x0e07e4a4f4be243afbb17547e43df1b2652fde10f541f1e062ee0efaf85aa23c, (308222400000000, 77055600000000, 47777500));
  (0x0e085d2d16544e50651fc3b8f9cb44cfd6bf7466231a483274bcb4c50e90d16e, (226029760000000, 56507440000000, 35036900));
  (0x0e1ba8b0cc2a809d60116b57fd80c1bbe79828c1124fb837ed2e71c7977ab979, (20548160000000, 5137040000000, 3185170));
  (0x0e3ff8c4246dc574cc9bd6104bd2d4d667505e6e54ccbe35b3962bc9d86c972c, (41096320000000, 10274080000000, 6370340));
  (0x0e54989e3712529db9183cf9e1b907b38c873ed7a3b4f439b26a83b5fa857a70, (115049147800000, 28762286960000, 17833800));
  (0x0e5c8c8941fd6488f104c04d1227664817e461760d18d17b7b911fd8800af90d, (20548160000000, 5137040000000, 3185160));
  (0x0e606cd24638e17b267ed142275d02da8a601bb1712b0a56edd13e7d01024e3c, (14383712000000, 3595928000000, 2229620));
  (0x0e60a7805f4950c1626c290fcf5c9fa6ec2cca495a37f2bce26be3ccf1080f1c, (61644480000000, 15411120000000, 9555510));
  (0x0e64d2c61a52d024d1a89de73fd48a035bb7af06d9cbe7eea3669d25f501181f, (10274080000000, 2568520000000, 1592580));
  (0x0e7e4d76d7083354407bdd488cff24b6b919941ac28f7dcee601782e09a59765, (14383712000000, 3595928000000, 2229620));
  (0x0e968b9fe4d159f6ec0bc0328de91a0e1260f5d14b535bc8867f8740fb976744, (6174722080000000, 1543680520000000, 957143000));
  (0x0e995ad8067cdd19c39701537236ff33df13045f38180728cf85dace2040fd03, (10274080000000, 2568520000000, 1592580));
  (0x0e9973c39294aabbd6b773cf4f7aa93fe247cb07ac543034cd97dca36bfdc178, (10274080000000, 2568520000000, 1592580));
  (0x0ea2cf73bdbd77b60471991d40b8274b12d18146321274d29ac651d5e0259e32, (205481600000000, 51370400000000, 31851700));
  (0x0ea4c8c19ff9f1432cea434e252b156d4a3869af983ded3f7ee54f196a0eef69, (20548160000000, 5137040000000, 3185170));
  (0x0ec56b74a2d5fb52bf9089800a3dae2a2602613dc5379cddad11e12d150f1d77, (16438528000000, 4109632000000, 2548130));
  (0x0ec6ac74a1811afe517b99762d083a43e6af5f8f8e6b8ebeb438322ad676b31c, (38630540800000, 9657635200000, 5988120));
  (0x0ed92d5b0eee68dba2b2b9025b7888785360563ea23e79a42f682e3819c0315d, (16027564800000, 4006891200000, 2484430));
  (0x0ee30da0550a6e6d1e34605b6379a8dad6b6a6630c2bcaddd80e002ba30e7d69, (102740800000000, 25685200000000, 15925800));
  (0x0ee777adb23662c557803d1d003a60875e3badef461318af716b8503d6221f28, (61644480000000, 15411120000000, 9555510));
  (0x0ef9251719389c8bcbe5b7ac26e87e97dac83ebb798919b6781033e1d945f513, (10274080000000, 2568520000000, 1592580));
  (0x100af299aa2651aa3959cb9bebc0c202a2fe1a14179c525c32cd31ef4e13b760, (20548160000000, 5137040000000, 3185170));
  (0x100f3dffaf47b59b22bbd8f8c7917c7d73e510ff7c2c009ab583288cb05bae77, (20548160000000, 5137040000000, 3185170));
  (0x10151f3d26b19bb985df7dfdfc429d7fca8a616a8f2c622bba38a8f7163ee05e, (359592800000000, 89898200000000, 55740500));
  (0x103aa19f571038068df49ffafdb2f405de2572b1b7b0c0dc8eac08904b5e247d, (20548160000000, 5137040000000, 3185170));
  (0x104552e7417302ba19b485dec18fec7dfbde07c9850c00ba2c5fefcc2777b370, (10274080000000, 2568520000000, 1592580));
  (0x10464f1979782e0dc043524ac3db2daebbd97ffa4f37564a54a8dcaa2e2b861a, (10274080000000, 2568520000000, 1592580));
  (0x106382ca5e110d9855ff96f6de9b7f077f3d48da77d0bfcf2e666dc3d2c3272e, (10274080000000, 2568520000000, 1592580));
  (0x10661631f8d06e412b22a34c047a6d2b10314fec3d7cce13d45a07feeab05b62, (10274080000000, 2568520000000, 1592580));
  (0x106b7863b21b086866c5dad99cb8b5e408a4a6b245207c097c4d38482cebfa32, (2054816000000000, 513704000000000, 318517000));
  (0x109914286fe2fa65a85cfcdbcd4562010745b1fa12e9f02b62795b740000e541, (41096320000000, 10274080000000, 6370340));
  (0x10a6ba4e17a73323c5fefedadd8bc133d17d0268ba6bab1768b68fbd49ba196b, (20548160000000, 5137040000000, 3185170));
  (0x10ac696a81de8a4aebf6afe18d464fef8e762d1b7436078b3b8e72a78806c54a, (20548160000000, 5137040000000, 3185170));
  (0x10b231cb18175cfbe9d2558c58c726e8ccc1626a84e50f2ccd6fbe162016da05, (30822240000000, 7705560000000, 4777750));
  (0x10c0d550799b3a34739c6cfc70cd3743c432cb915f800cc2da2c424e62364025, (291783872000000, 72945968000000, 45229400));
  (0x10c7e07c8d87e64232accf67ea85e5ca795945a4cf3af2c62079d98eba1f4445, (616444800000000, 154111200000000, 95555100));
  (0x10cd77a7ef0b037edc0205b3a8d6bec10015f925e684744a350b8651e8db5764, (22602976000000, 5650744000000, 3503690));
  (0x10d01bf3b15c5570aecee99d84e2de9c42c517fd5094bb07215184fcc1a33852, (20548160000000, 5137040000000, 3185170));
  (0x10d8aec8f72d138659e879a16c11b3bd1ef5c426cb5d739195d45b42d8e84201, (10274080000000, 2568520000000, 1592580));
  (0x10d971f25ef43327347077b82769e617afcedc50c3254f0eacc080d7867c556c, (20548160000000, 5137040000000, 3185170));
  (0x10dfe403e99e479ba77524486ce86b4b4a561e22e2475d2ba29177e19d8b8146, (208844373800000, 52211093460000, 32372900));
  (0x10e4c1f88a0dcc3e4fe8f11633655797dbb2a65a57e78050a9d5c19a65f8893a, (10274080000000, 2568520000000, 1592580));
  (0x10eb1b084618b90ecee6fbaf55c85542cf6aba42562d4c423658fb944cd88967, (10274080000000, 2568520000000, 1592580));
  (0x10ec9add33f35c83e7a566a2790c310836eeecc3444733fcf2c8ea320067926b, (10274080000000, 2568520000000, 1592580));
  (0x10ed4404e06250d006f0723677396f157053f680a98ea4bc09c834f88888c647, (10274080000000, 2568520000000, 1592580));
  (0x10ed4d2e9c6641ac3f1d172ac43098df4b82b07f86440d7777c22bdc19a7a646, (10274080000000, 2568520000000, 1592580));
  (0x10eea71cb54cef4bc3fb9f614ca18bd5512b270bb400a3096335ca6f111b9108, (207536416000000, 51884104000000, 32170200));
  (0x10f8df59572cb2524ae3362c8156b67575ab6fd8f4f7511ac10c6be6bad6683b, (10274080000000, 2568520000000, 1592580));
  (0x10fc4ce597a78de5984781b99ce5e6f89807bc961fa5f510876bc214d6e19755, (92466720000000, 23116680000000, 14333300));
  (0x12061c83ee6675c9d9572cd5af9a89a0e5e9f3a3d96cf9b293661ce679963234, (10274080000000, 2568520000000, 1592580));
  (0x1216bf9e9ff76b27207c011c68e11b47de7d48ab607e3595e10c1a2104cf1f69, (246577920000000, 61644480000000, 38222000));
  (0x121deee75590a8a355dc34353255cdf4634da40f05177de020607c52b5795413, (626718880000000, 156679720000000, 97147600));
  (0x1223a800e77d2c9cc5827e14159f3ca4d64f88e5e5ea86d202bf16338bdfd504, (10274080000000, 2568520000000, 1592580));
  (0x12251bb336a4be7772fb37aee8c9a8667d64bf2a7b37d6c0c12f03d19f19674b, (143837120000000, 35959280000000, 22296200));
  (0x122783b8ec70bada6ca07f33b05109f4d70c1310ec34d168ae5a93c76fa81d2d, (1232889600000000, 308222400000000, 191110000));
  (0x12311acda172d0ae2e9248db8a2a8d880c75fa1811cb629f03a4788bc1655138, (41096320000000, 10274080000000, 6370340));
  (0x123257823c84093d9fbba5b066eb7604f9df85999fa949390cecad204db45d2d, (21631185370000, 5407796341000, 3353050));
  (0x12417d8d22663d8b349b15e2f43cfbbe40a0b89867552cf29a57d89772ff3d65, (71918560000000, 17979640000000, 11148100));
  (0x1259645fafabd0272130b7e240607b3a40d74b53bb2a82a22b9796b27552672a, (517813632000000, 129453408000000, 80266300));
  (0x125980b265b6e7b4ae249ff139c78b4ac2b54db5f589237e4dcc3425c779266a, (17455661920000000, 4363915480000000, 2705801000));
  (0x128bcee31a57e00d39d2f3274e98fa2fde6afe4c6f911bdb6ab9cc9d7728a329, (51370400000000, 12842600000000, 7962920));
  (0x12a9a90a378e174c2734d04d4efecad451a93699e5e64a03821cdc24ae121312, (539389200000000, 134847300000000, 83610700));
  (0x12ac43e7f9ef276eaa0db34a84746fa9b379a4822927222fa67f8cc755431c19, (10274080000000, 2568520000000, 1592580));
  (0x12b3ba7616e55fedb9f326b4e3b3771de2916259380045ac6e083e5c987d9d62, (20548160000000, 5137040000000, 3185170));
  (0x12cf5255acb2387058a035b6ab2edf3c1d83e00d8616de58b826a469a91a325f, (213700864000000, 53425216000000, 33125800));
  (0x12cfa7795c2d973fd03280890bf578d1f1b25aaf06fe1efb1b80ba8c55cf970c, (20548160000000, 5137040000000, 3185170));
  (0x12e76eb4739de6271d84af303ee1721680e82f67627e6423bbfa9c2d65bd4b13, (269180896000000, 67295224000000, 41725700));
  (0x12e991b50e700d1e52b37300ef0f51538197c0509d9d0b3d77482b4c1a3da566, (61644480000000, 15411120000000, 9555510));
  (0x12ec709076fedbe0737ed2b7aa80e029f5de68e2faa5a303fc55cef3b1ca5a4c, (51164918400000, 12791229600000, 7931070));
  (0x12fcca11aa79b51a07fb187a22cdf02beb54290d9345a9d619a9fd0c7e123c4c, (10274080000000, 2568520000000, 1592580));
  (0x12fd13b93c8e67037ecfef0ec86c49acd2d4df283aecccbc34e4a1be8b815d74, (133563040000000, 33390760000000, 20703600));
  (0x130f8e57fc2a18c5cd305f8761843042c44ced103c1ab1ae6d3686a24cdb6888, (205481600000000, 51370400000000, 31851700));
  (0x140a0707c8fa44a565f64a8191133137461ef4c33879acb870a5840de9584572, (41096320000000, 10274080000000, 6370340));
  (0x14100ac9424e90b1b0138bdd5bbdb49adea396ad68c33e5d1b0897805badf85d, (10274080000000, 2568520000000, 1592580));
  (0x14210bc9e9eaac83a9a0fc8dd09643252e543bc9eea1f41b28d00e2f79a2ed41, (14383712000000, 3595928000000, 2229620));
  (0x1421dcdc9e23a3f36cecff3960b78b8b05ee5b049d5620421d7e4ad9d9bc6967, (12739859200000, 3184964800000, 1974800));
  (0x142a7673d1db821a24189d8df15bd39f3f865ff451c8f26d18518a51333f1428, (18493344000000, 4623336000000, 2866650));
  (0x142f90bd8b329f65473b0b9dbe02c6dd4c60dd0fa7cabb04729b9e67271b3f1b, (205481600000000, 51370400000000, 31851700));
  (0x1432c0cd3f6ac28b32e417e6218291bb81f56f0c4d135a368ad7f10cae6d2429, (102740800000000, 25685200000000, 15925850));
  (0x14367fce4aed48f2417aa18bb14ff2638ede82f93a313070364788e611bfef45, (102740800000000, 25685200000000, 15925800));
  (0x1440c0faf82ec7eddb098a547420cbf8b37de9cebca33819da5480e5465a843b, (20548160000000, 5137040000000, 3185170));
  (0x1443f8a7aa68be56017414dddffa02aec49bef299c483ba91ef0b7b952307844, (215755680000000, 53938920000000, 33444300));
  (0x14490bd6f2a600a98f75665853eace39fab4a369dae541d95f2e99ccf7e49e51, (10274080000000, 2568520000000, 1592580));
  (0x145a0491b609f0f9a7c751a6bb0267e3afcd599862cd47e504c8dfd7c3335c45, (36678465600000, 9169616400000, 5685530));
  (0x145d532afb8c0ba2ab127b387923a1e42e43441ab3901aa7425b5a1c49c25503, (22602976000000, 5650744000000, 3503690));
  (0x146133fd96902f2a5cc343b267da81cef2fa216e2e7af736960d871459ba6847, (78083008000000, 19520752000000, 12103600));
  (0x14691500a64defc73d7b5e5e08e7eb15b2875566b9832224ab248b893662f942, (10274080000000, 2568520000000, 1592580));
  (0x14704820d0890f86d6eb4323aea16fb0978a50199238f5d0761373b757b1fc69, (10274080000000, 2568520000000, 1592580));
  (0x14724ec85027549aec4a39bf4c885ccbd6e6fe207ba87bcd347eee0c0a385b4d, (10274080000000, 2568520000000, 1592580));
  (0x147561ffcf5edbfe6b77c34c64ddcb7d89e2a4061540de368bd7e09cb3a54127, (30822240000000, 7705560000000, 4777750));
  (0x147d7027ee262911cabe9a25435d368cbf5890dc9cf7b0643084827d00ed9372, (20548160000000, 5137040000000, 3185170));
  (0x147feea98c760361a87ef6fe8fe589ba2c1d65c65f29d825e0b5a58d56f19a7b, (275139862400000, 68784965600000, 42649400));
  (0x1488920b410eada47b0854e24dce13f29936596a5bee5e0f7ce26d3c94082622, (221920128000000, 55480032000000, 34399800));
  (0x1488cff435c5ce47daed8fd507dbbc3dee1a3329277097347d62f092e958cc7b, (41096320000000, 10274080000000, 6370340));
  (0x14946c7a3bb8351a21e2e0bc8bfadf4c64d2b779e0eafac66433de46e7179d0f, (16438528000000, 4109632000000, 2548130));
  (0x14bc2cb84feebb6b98364f393a984c22813a5832ae4f54f103d7f5656726cc16, (22602976000000, 5650744000000, 3503690));
  (0x14bcfaf68c44a716a4439cf46269e4d43028a4eee1d794c5c379b1ba3e430e58, (20548160000000, 5137040000000, 3185170));
  (0x14bf4cdf5012ad0c0d899aad4048ed60a743af082e3ada867dcd3593b89db00f, (20548160000000, 5137040000000, 3185170));
  (0x14c60d14a52cee28ec185c48341c0e79ae6b225c8f8eb5d3d250c3fd5658670c, (14383712000000, 3595928000000, 2229620));
  (0x14d451e69f6d0138d5745bf3e5f86a6f79d32b4708167f27eb54befa3f40963e, (205481600000000, 51370400000000, 31851700));
  (0x14d47d19e69271194e8c66d54453e111314933b71e2b72f901a956c8b7684059, (20548160000000, 5137040000000, 3185170));
  (0x14ddaaa74dde4542cf38af2cf13121121961bf399b9e3cddb4158eabece1b513, (15411120000000, 3852780000000, 2388880));
  (0x14ed1b99fde4c0981025fcc3f10b4258061f2fc725f60fbb53cf61f8733b3746, (154111200000000, 38527800000000, 23888800));
  (0x14ed6f64b1cf0512b6ab7264938c0e36d8c5b8c4120854473150695bcc970170, (410963200000000, 102740800000000, 63703300));
  (0x14f23aae01e04fbe83ac7a0f7ed285e5309967b53b4ac2b3ba0d35a4c0d77039, (102740800000000, 25685200000000, 15925800));
  (0x159eb3eb12bc256713ad88b69da2346c28e7e897ca6134053658612ecc71e65d, (408846739200000, 102211684800000, 63375300));
  (0x16010e0e3178bbc3147cf7a494272adb380bf470f51096a0468378ead9b2ba6f, (10274080000000, 2568520000000, 1592580));
  (0x1614280b86121f713872d0687a4868079d79dbdef0b92b94ad7015c3614a4119, (85624182720000, 21406045680000, 13272600));
  (0x16151ae5eb091fa74f01b49b3df45e63ac0512ad4545a5de21025f9ddf2eb43a, (20548160000000, 5137040000000, 3185170));
  (0x161a3369f7317f47f189b8d993cdf6e4634f6ad9a4553dfaaebaf4d1cc24b126, (10274080000000, 2568520000000, 1592580));
  (0x161fbf10efc3ddfae12bf05efa7dc6b71c6931907c120049a34af195d1f4e521, (10274080000000, 2568520000000, 1592580));
  (0x1625641ba6a72a357af78e9444ce22e7cc3814beb8d5f9ad2cda164b74a72e61, (82192640000000, 20548160000000, 12740700));
  (0x16294d4a20c9b73304b17e6ea347413532f63dbeeb682b497b7db1573cec4403, (2539205563000000, 634801390900000, 393602000));
  (0x162bcb972da7fff5089766690546435fc8e915eaab4f27d4aba5bdf1fcf22664, (25630336390000, 6407584098000, 3972960));
  (0x162ef37549a4de5322066709a886475c767922d6f8a540f148683dd8ea04e75e, (61644480000000, 15411120000000, 9555510));
  (0x163349b3cbfc9605002e874ff38e730cea5b38732a9cf2b2721cc69712c87d09, (10274080000000, 2568520000000, 1592580));
  (0x165143b67dfb727bd80ad012d4ecceedf9945c7f6a3c0197fcafc42927329c12, (59589664000000, 14897416000000, 9236990));
  (0x165393a0273736e65305bee1cb807e193a7f2756318a0dde5ab00c0af40d6467, (102740800000000, 25685200000000, 15925800));
  (0x166d28f56dabdd6e595168de70d8123de92c4342adf01e352a86d5a584e54d61, (706856704000000, 176714176000000, 109570000));
  (0x166d5f55819d383aa60301701a36da198cf6008d3998309bd769c4f911fba301, (82192640000000, 20548160000000, 12740700));
  (0x166d735fa24fafc0ca881d6c5e3445bab9530d3cc0268b7460b2a6f99dc72332, (53425216000000, 13356304000000, 8281440));
  (0x167af5f252e98069bea877d496553cfe79286efe4ccce1a90a079957268b8726, (20548160000000, 5137040000000, 3185170));
  (0x168fa13670794b2455d4a3d6c18dc0406eb09e219cf456616a7f59dbd592487e, (55480032000000, 13870008000000, 8599960));
  (0x16a024fc2b7edef119ed494456c83af79ed8ada05ca3e3e7711fb491719e2907, (10274080000000, 2568520000000, 1592580));
  (0x16a515e83a2324a641e2a1f6ac732c533b5012d247d4ee7556a576fbeec1da7b, (30822240000000, 7705560000000, 4777750));
  (0x16ad97738037ea1642725cb6efd2df4b4bda557d8f2eec4da49fe00cf7be552b, (61644480000000, 15411120000000, 9555510));
  (0x16b3b3bfb09cd4241f0a9621ce4f663509a4abd7819e4b1d3a356ffbc81b5376, (41096320000000, 10274080000000, 6370340));
  (0x16bb81dcec17a78136dcc41e35168c66bea3264e0a431e4bf07d9c1ed8fd7e0d, (308222400000000, 77055600000000, 47777500));
  (0x16ca6459c1a0500aa43d7f712d8f1e15053223f209f80a912d1d2d3f677c5a4d, (10274080000000, 2568520000000, 1592580));
  (0x16cd624d6e191647970de7fc138891664a7fe8723a5eac9703825bfa50f8e644, (343154272000000, 85788568000000, 53192300));
  (0x16d6e97ff6bd9bb9277fb61b3d969c45a68a32ad68b3b58af37a56b645649112, (30822240000000, 7705560000000, 4777750));
  (0x16d7cf5f024b815781ab0b7ed9227790841759e26a1d6d0eaa925bfcbefd255e, (14383712000000, 3595928000000, 2229620));
  (0x16dc11e3ad3be31ccf2aa555bfca93ceb7cdeda0f98ad3a1a1ba38db16260f3e, (51370400000000, 12842600000000, 7962920));
  (0x16e80050e6279c4f66a2112a05997a841f4503f9d4fd0bf47d60b5905d761b36, (10274080000000, 2568520000000, 1592580));
  (0x16f89374ce32b78ff7fafd85f328a76a2140b4a2fa2e5fed5d2fa6e3ce4a3737, (174659360000000, 43664840000000, 27073900));
  (0x180ebbacb0da8491ca49dd54b2090c20cea4f6c597283a46208fa62815757b2d, (860967904000000, 215241976000000, 133459000));
  (0x180ee25b8cedfd934817987c67e482f9286703ad66ce636c690828c668347103, (102740800000000, 25685200000000, 15925800));
  (0x181e3d64fcfba7a43ec9cb74ad79ff3305142eb9e2234e8419ec8f03665f3802, (20548160000000, 5137040000000, 3185170));
  (0x183236bc018c6ee1517e61e0ce9a5c9767fa992d9107e6b4d30917ee75ad1f75, (308222400000000, 77055600000000, 47777500));
  (0x183258eae4902955ab3eccbb1ae846a20919605d5e06c77fc43cca3b6d80cb44, (10274080000000, 2568520000000, 1592580));
  (0x183550255090c5f3b857e23951c48e3f350aa18a08135a02f4e48cf8c973193b, (82192640000000, 20548160000000, 12740700));
  (0x1837790f49b4c222e6954fc4f28f29dadb7d1ab3421612e3428e82487671143a, (10274080000000, 2568520000000, 1592580));
  (0x18459432eaa19fcf0f3b0e5937407d93d2af8a4f9458a3010ceec590aeec7d4a, (10274080000000, 2568520000000, 1592580));
  (0x185482af31209f297865c9ae6893ab91339d7baa8c5a88427bffc66acc929565, (20548160000000, 5137040000000, 3185170));
  (0x18554ab24921d5bd5584c6eeb7ce636a3758d1c240f6fd02f518b7f860690542, (10274080000000, 2568520000000, 1592580));
  (0x185b88a3fef2e699346f7a60951d044ce4e6fd5c9cff2cf89088c54a617a8f46, (10274080000000, 2568520000000, 1592580));
  (0x187ac425c6a43b62c00391c4b753cc93b1f8b9caa1132150b3a808fc59f46d36, (332880192000000, 83220048000000, 51599700));
  (0x187e408bedbc88b41be25c90589e378692d78f62d6069cab0d0b385572d1a91b, (123288960000000, 30822240000000, 19111000));
  (0x1886d4af1fc8cab4fd9918baa1cea36c34d8a51fb54abc782bc108e39243943a, (20548160000000, 5137040000000, 3185170));
  (0x18889c319417a915eb1ad327e7418d23a7526b9d542b1b53de47d9075f44bc7f, (616444800000000, 154111200000000, 95555100));
  (0x188cc18c1d0409e77f09286a1cf2dae84137555618f8455f2de8c1929f491533, (411916730400000, 102979182600000, 63851200));
  (0x18903e3184b0c214f553ab0a19f23cd941a54fcb2d3940707fc062e641a06c56, (63699296000000, 15924824000000, 9874020));
  (0x1890ee79c59fa0888f08191cd5c3d66cfdf54314191a91bf1c343ecce1ce152a, (102740800000000, 25685200000000, 15925800));
  (0x189ac2ea45a06ee2e9b310b1dfd7fd5c491e7e481249c524c9676ba9836cf236, (616444800000000, 154111200000000, 95555100));
  (0x18ad27f75c732b4543a3a89b8bc761aa088489be5128fdfd8ce70d04e7320d58, (10373944060000, 2593486014000, 1608060));
  (0x18b614478294bcb20d575d3a78ef264641840b1d5b8c4a9e354904c6a38bb91c, (20548160000000, 5137040000000, 3185170));
  (0x18b8fed23753e7e85de1bcd8123a2be74d92e37b2ce36b6dfb88dfb1e9829c03, (51370400000000, 12842600000000, 7962920));
  (0x18bc92da5bc8233397838e07e3119f0704ba48417936e2153b692b13f91d064e, (55480032000000, 13870008000000, 8599960));
  (0x18c5315eef81eff188beef9e42cacdbd834b1a696e14627e2daf9e30bb41985b, (205481600000000, 51370400000000, 31851700));
  (0x18ca6cedbe08572516337195ff3a138c3e0abcf6f9ff68f4b5e9c5e92bedd412, (12739859200000, 3184964800000, 1974800));
  (0x18d7bfa5da627c957d9e0d6f6b2a85b015fc573bc55f5e020047d6ba8d285c52, (51370400000000, 12842600000000, 7962920));
  (0x18ddcedeaab2a010ddb4c771ec1419c037cda6a898eea4e99f8aa7e27e665759, (2054816000000000, 513704000000000, 318517000));
  (0x18eaa88ca5c0d376fba3af2de6376d08140a6f6a8fd907c62773a7440b08b778, (20548160000000, 5137040000000, 3185170));
  (0x18fa3b8bd8095288263aa2a7a76b1f3f763351f5b264347aa0e2a116000c696e, (2054816000000000, 513704000000000, 318517000));
  (0x1a06fd07006b5604fc5dc836c8fbc5966eb83cb91a8e1fa1cbad3045d9814507, (108905248000000, 27226312000000, 16881400));
  (0x1a0a0e99b96369699d3178a72d0296c81b9e981f52fc79daee94da5e0c494254, (20548160000000, 5137040000000, 3185170));
  (0x1a0da09d408f82d04a0aaf726e02177c111c1f92c2d3153b9e47de91fa146736, (41096320000000, 10274080000000, 6370340));
  (0x1a0dcaeb36ead8a07ac1f801dc8563e952581f48a8a7fcf8cf08ece43082f115, (41096320000000, 10274080000000, 6370340));
  (0x1a12701e8642baa71aea591bc1eb97ff558674470ea420d527779e3589f3cc32, (113014880000000, 28253720000000, 17518400));
  (0x1a27fd1cfaabe4acfc1c14a1c6274df41aad5fade3ec6718ca6b4df3bebf3011, (20548160000000, 5137040000000, 3185170));
  (0x1a2986defecc5a300cdab81e0967003ecffd417f3add7ed3838c4250fbb2d231, (10274080000000, 2568520000000, 1592580));
  (0x1a2d0944d7ed748f60c0f3109e3e0c94c2b7b300346c06f6ed2d58b1cf71c31c, (102740800000000, 25685200000000, 15925800))
].
Definition rows_2 : list Row := [
  (0x1a2dcfefe2c09ff4b432813f108ff5dddde3926f10be8e516a4c582e059e673e, (20548160000000, 5137040000000, 3185170));
  (0x1a339ced18cb794f347caea72c85a3ea1f59543235a58a5c37adc0f0c3ce043f, (20548160000000, 5137040000000, 3185170));
  (0x1a449d6e4abc81f6caa1a2244fd5a9aa10a88df8e002c93459320fca2d7f361e, (20548160000000, 5137040000000, 3185170));
  (0x1a544c26b9e00c6e96d722e620dff42f104cd527313c81f18349c7d931eec232, (41096320000000, 10274080000000, 6370340));
  (0x1a5bc3a74fab2397007feecd653f53da4a2130a5f9655617658e5dce49fa4525, (82192640000000, 20548160000000, 12740700));
  (0x1a5e599ceab01127dfb35138ec655ee7c70b7b3e90722fd1f5690aa0f0fbab76, (135617856000000, 33904464000000, 21022100));
  (0x1a647f51701056962193af3c421662ab7dd177cdd56aed0b86bbc7fe43979743, (20548160000000, 5137040000000, 3185170));
  (0x1a7462b5e649d59551f83d0b34fc1a80aa9647f39e028c7860fab2653a8d1a56, (281509792000000, 70377448000000, 43636800));
  (0x1a74f5d8efdb54f06c52b020096c1419251cfe76b5816112f4eed065d3d94f1b, (69863744000000, 17465936000000, 10829600));
  (0x1a7e3f11d40ff6e3c5f3bc67e10ceddb26306961153819d2512c2bea1f8dfa4d, (10274080000000, 2568520000000, 1592580));
  (0x1a8775513006605f60a6d674d145158a7119a850b66200dd15da297beed26919, (123288960000000, 30822240000000, 19111020));
  (0x1a8897bb0cf750ac9e42123b1e2f7e00775835fb5c85a9accfab43c39f6efb3d, (26096163200000, 6524040800000, 4045160));
  (0x1a89051205b9b707993c9722268fb30a1f16ff9399482b990b59d1f6751b8d33, (10274080000000, 2568520000000, 1592580));
  (0x1a8ad1a2d94918a2151af98a32b82bca06735c86c87f35fc8b1f14cc6741ff41, (10274080000000, 2568520000000, 1592580));
  (0x1a8ff97b9d658e1560dbfc70fffa7ca0eeb33586cd85d838f4c3a118e984b633, (12328896000000, 3082224000000, 1911100));
  (0x1aa173a79dcea7cea5cc0fdac97391cbc2613b93641e45badb6de6f623626070, (10274080000000, 2568520000000, 1592580));
  (0x1ab258e1d574c08fde8e9b772c1102373792d1ff863dd86c7afc5a1893350419, (20548160000000, 5137040000000, 3185170));
  (0x1ab263a80763ab4613cc09f450ad81ce9f21bbdfe1876b0d0e05624b1ea3a849, (61644480000000, 15411120000000, 9555510));
  (0x1adf613825cd4a7e1389eccddbc9e7dcc0b8c29e94e584e9ce49fb99c5457873, (164385280000000, 41096320000000, 25481300));
  (0x1af1ef46fb953864e5d76e477be0c6acba672c543d21f3b9d889021198b4f044, (82192640000000, 20548160000000, 12740700));
  (0x1af3569579917ad515115658d1bf37c067468be72118ec930c809ed3e0df4d35, (16438528000000, 4109632000000, 2548130));
  (0x1af831129d4c608c8a2314169b138d6fb7e8e397d5e2d518ebf4e36997745815, (51370400000000, 12842600000000, 7962920));
  (0x1affd5500ca62c5ecb0bb0f883ab649ee16c586a671d8fc2748196614113df77, (61644480000000, 15411120000000, 9555510));
  (0x1c000b74c6e32e43285b2c442ce3c3dbd57772791384d9b1aa0b726a6ef37542, (95768049030000, 23942012260000, 14845000));
  (0x1c040586b60e784c24d3d8bd87f277372ce285dda90c39084c207694aaa7ec14, (10274080000000, 2568520000000, 1592580));
  (0x1c04fe38d9b02c3c5c1641e6936fde5207d94625d8de6e2cf863b405cf2aef27, (10274080000000, 2568520000000, 1592580));
  (0x1c2210ccbbf467e1438a2a441f590db4e985b9a6552fd4ec8652dda9ba6d3636, (10274080000000, 2568520000000, 1592580));
  (0x1c264dabda0a0385a16cd5cf40f4841606fb3086750ded6e0206769c63428404, (63699296000000, 15924824000000, 9874020));
  (0x1c2b8f3c7b6445cbcdfed2ad06c647a09022bd61b5981fe7da46f884e4fb206f, (102740800000000, 25685200000000, 15925800));
  (0x1c3048d50190d42c10f0165f1ff3d45abe96988fab463bd5b3a3007d2ed0215b, (102740800000000, 25685200000000, 15925800));
  (0x1c34a693975f411244f58c877f4946570515d7e23feee95f16bdd4ff7077d317, (41096320000000, 10274080000000, 6370340));
  (0x1c50463f7a46d260208fad1de58469700522a697bac620035663781b50b4647e, (20548160000000, 5137040000000, 3185170));
  (0x1c509f06c3c89ca64ca9471fd3f0ad18962264eb6093921fd86e672cfea4c33d, (10274080000000, 2568520000000, 1592580));
  (0x1c564a55575ddd166962b41bf1d8949f3ff82239c548b24b117ee907ea42fe23, (10274080000000, 2568520000000, 1592580));
  (0x1c573ddf43826a9ea16f05e51922f6d8a47d80907b66821e6d7da8dee5f19178, (10274080000000, 2568520000000, 1592580));
  (0x1c581aef04361dfa13e2b87b0475732c92be7086c0e7017d7f96d5ddc8f67a73, (10274080000000, 2568520000000, 1592580));
  (0x1c5f72165259a9edd699981012b9fb9517364bda07e1f00ed3a2dbf9795f6c27, (61644480000000, 15411120000000, 9555510));
  (0x1c616138ace0a973f0eff0b79f97a1291c910ed6f1807aba463fdc3ffa5db830, (10274080000000, 2568520000000, 1592580));
  (0x1c62fd8a1b0af8ee4c2582523349606ba59d5700078fcbf696d435cfd23b3014, (82192640000000, 20548160000000, 12740700));
  (0x1c67d79809af05ff8f423094bb3993a57939bf2c4bc1d23cabdb8445933e5059, (10274080000000, 2568520000000, 1592580));
  (0x1c68fc900a64fed4a55ba800cf0a359c8bf419e0d6c8e37f7f6dd9c6a79f4828, (43151136000000, 10787784000000, 6688850));
  (0x1c7764da41cf08c28ba203d95dfd766134fc437ea6b010bf8cf1841c907eba4b, (10274080000000, 2568520000000, 1592580));
  (0x1c90a44c51386ad501c5c61f6d2c9ab6d7c16e95ae9470d6a6359c0675dfff78, (30822240000000, 7705560000000, 4777750));
  (0x1cb0cf60b03d13b83ade991ee4bd81c1affedb4efa42d32c33c06b4673fec10e, (821926400000000, 205481600000000, 127407000));
  (0x1cc84e21b6f226308f0d1a83e20dcab608e4322699f8cfe3eaba110af7ae5040, (548635872000000, 137158968000000, 85044000));
  (0x1cdf4fad4de31df6b38e3de904b0ce74c67d14436251678ff810468b08187e6c, (271235712000000, 67808928000000, 42044200));
  (0x1ceb466ae71daa35813cc59f26623b4dad227e02bf2582ab03455cbfbf45e518, (10274080000000, 2568520000000, 1592580));
  (0x1cfc129b2633e427e77e62fbf95abcc1c194ead583a8f2a5aa8cba01b267d265, (102740800000000000, 25685200000000000, 15925843000));
  (0x1cfd41ffcdfbdbb2d9b2d06c33b91328ed6682dbae14ae4dca9bf39fc2f7f20f, (513704000000000, 128426000000000, 79629200));
  (0x1e089c7de3ef6a66001c09d6ff6aac1555b91933ee8067e1ee90e04a41683b3d, (20548160000000, 5137040000000, 3185170));
  (0x1e0baec163d68e9c5fc33f8ced9213995728d936e4e6ba7e8620fb5942578536, (76028192000000, 19007048000000, 11785100));
  (0x1e14d0a3dd34982a3d0298e5807c232ee5fa4900d5ed0cb4649a3a69f422d624, (20548160000000, 5137040000000, 3185170));
  (0x1e163d767d8b24252493eddd71ff2b28a9a031e8248e9eb6aec1aafd209ac605, (16849491200000, 4212372800000, 2611840));
  (0x1e23fd786458bf0803f8ec94d82842562167485876772bff02376154ec238404, (84247456000000, 21061864000000, 13059200));
  (0x1e334ad073a259d24d3d73c3c5c2274ac7ebc4def650f00d239584e22ce7ea76, (10274080000000, 2568520000000, 1592580));
  (0x1e35e2a7220cf87e1bec2a96d565c051101d41c33e85bf820c58e7d606bb1d0d, (61644480000000, 15411120000000, 9555510));
  (0x1e36194f834cfaa618aa620a293260acf40a1d069fcd7ccf7bd5fdb5e939592f, (698637440000000, 174659360000000, 108296000));
  (0x1e370e3a35362cc601751939303e6097a2337d05840df49fd179edae5b48c729, (20548160000000, 5137040000000, 3185170));
  (0x1e4a37f209888fa9a798c4c6163b8e3e0ce4bcbf3291a5e88c58e23c30d2b61e, (123288960000000, 30822240000000, 19111000));
  (0x1e568033ec5a6695a6f27b6e2cb4a2b6dbdcf497c0837fa0272e31019a69ea29, (143837120000000, 35959280000000, 22296200));
  (0x1e5c61cb6941b247d22fa14392fb8710a23493db5857c2904a76b3bcfda7d217, (144864528000000, 36216132000000, 22455400));
  (0x1e5d5164937d26f7eac93f8ba316e584aaa7161209c64f9d5819985771e1476d, (10274080000000, 2568520000000, 1592580));
  (0x1e64c23b3c84aeba769b2e418162318ddb2a783a70d76301d5c3fb64747a0041, (10274080000000, 2568520000000, 1592580));
  (0x1e6afcbe79be9a62566c354fa3182e59d53bf0281a639791e41468983966b26b, (36986688000000, 9246672000000, 5733300));
  (0x1e6e305c9059e0a3531de33d0a475e077b76ad0525e1b6bb830d0b563e0d6d00, (61644480000000, 15411120000000, 9555510));
  (0x1e6ffec9e96c3d269cf3ceab607a1caf4c33fc2814506e0a557e1c4ab7679843, (410963200000000, 102740800000000, 63703400));
  (0x1e7159818f66f61cc800620b911547d23bb0aad93ff9f1d861225a046f149e6f, (41096320000000, 10274080000000, 6370340));
  (0x1e7488f3bec77330c98ae88026d4eb7374f1c74ddbca8271296e9327db2e4a61, (20548160000000, 5137040000000, 3185170));
  (0x1e78538e44a734bfb8149f319a34636b52e936d3ecb9c9b6ecb0fd98636bde25, (53425216000000, 13356304000000, 8281440));
  (0x1e78f1e280cc70f6e5457c2ee1008f83615175a2b015de81355a1b8810063a0e, (24657792000000, 6164448000000, 3822200));
  (0x1e8b75723199f1bb0a64dbd62fe39a39ab1417261b936afd7bf9a727c549c52a, (503429920000000, 125857480000000, 78036600));
  (0x1e994ec14870ab90cd62dd268061f4d42e1a6b11b4548e83392a401bc0371620, (10274080000000, 2568520000000, 1592580));
  (0x1e9ec44b148f97f3f8e8133788bd5af7319561a468f4e3650839124ee864b344, (10274080000000, 2568520000000, 1592580));
  (0x1ea27de09943bc9ae61bc3f22576fc29dbdd349447f1f2d9679ca3c33730f744, (12328896000000, 3082224000000, 1911100));
  (0x1ea34a889893d78a09680a4724e26226ca195dca62263376ca7e8343c869c279, (51370400000000, 12842600000000, 7962920));
  (0x1eaab943764a56bd259506879d73e455183ff307f60cb64bf2093ee502392b19, (817816768000000, 204454192000000, 126770000));
  (0x1eb47a51607a28ba058c4284d4f05e1e55caeb81663f71b8baae120ca3dcc62a, (20548160000000, 5137040000000, 3185170));
  (0x1eb94b3f3d0b1b4f07085fce1a5be2affc085b1fd8f90fb0379dfc92bd774b09, (10274080000000, 2568520000000, 1592580));
  (0x1ebdf8488c4755202e0244528113d9e1647777cb3cff46cfb88a9a170c94811e, (10274080000000, 2568520000000, 1592580));
  (0x1eca23e5cce76308dc93cd97464bb40d6cc1f6cd67ef784c0c4d186a05051856, (32877056000000, 8219264000000, 5096270));
  (0x1eda4c4324321edbd48f08d4d154cb701db92a261d062aea6e9cb20c9728b067, (209591232000000, 52397808000000, 32488700));
  (0x1ee234dd0f489e8570fa4d08e0af11843011e2f9f7cd57c5d23d55ea9d7b2920, (2089747872000000, 522436968000000, 323932000));
  (0x1efae7b8ff59d86bfd06344ed202506b85f0ff37db89fc27a86a01d31a4e881a, (20548160000000, 5137040000000, 3185170));
  (0x1efc311c636c3f6f132cc5747c6fb2e0e06ab6d0e5e892c61f9c0a551e05f377, (61644480000000, 15411120000000, 9555510));
  (0x200a7810cf35bc3614d278a4660d4332387b5819095e251ee57fb370d4f7b022, (45205952000000, 11301488000000, 7007370));
  (0x2015e102542ba575983ff8fdd24494d7f67d78a779845ef94a72057c8d6fff24, (154008459200000, 38502114800000, 23872800));
  (0x20160c33651496baf0b638ae862e09a1c83e38293dabc6c8b8a6ca24d802fa56, (10274080000000, 2568520000000, 1592580));
  (0x20266f435b45d7c5b0e4b6151df407dc843496e316ed5c58ea79f626be458608, (10274080000000, 2568520000000, 1592580));
  (0x202893f9051e7e950f3c181438ab80975afc6594a7a6c259e5ee08ffeb8f7e61, (10274080000000, 2568520000000, 1592580));
  (0x202ab388f2eda4675d564acf71bd5a2b5ae97469fad87797b4d5b959c1e08f50, (10274080000000, 2568520000000, 1592580));
  (0x20326ba0bc0a9e6baae9b6734e23832f77660bcc6fbea7b16b12c214fa5dce1a, (94521536000000, 23630384000000, 14651800));
  (0x203a1d8bfafc51ccd7bb9ef329a3071178b9a4f0c09ff4ec28b1f6c3e4b3a95e, (10274080000000, 2568520000000, 1592580));
  (0x2047e81e9306c5ca1492d3e8e5efdba4a0e0272584470b7d66336b1c1fe76e29, (18493344000000, 4623336000000, 2866650));
  (0x2053059e5fdf37f59ff3ea34457a326120db4312a7440766d5522ea7e6bfcc09, (445895072000000, 111473768000000, 69118200));
  (0x205dc7aa74e894a0c2d2f5d80c5d3a912d4326dadcd3329cdf3e622f94367d33, (10274080000000, 2568520000000, 1592580));
  (0x205e8464e264c8ba12b5f8672c3bcd4ad2de2279c5f71fc885957a664eec9730, (1027408000000000, 256852000000000, 159258000));
  (0x20654d0c8d5d0afbb854d641ee76e0a894b0de038b16f9e56ec6ee24cd2e5e6e, (102740800000000, 25685200000000, 15925800));
  (0x20789814999460e4936ede0e372df7e2c3726f06fddb81a165004e0772cf6156, (10274080000000, 2568520000000, 1592580));
  (0x20794e848a50f038f657e5939372a135760833e30cdbf42a869786115c70e613, (69863744000000, 17465936000000, 10829600));
  (0x207cac76b7f6f51f98c690d180ac78e0f8f5ddaa619703ffe8cf6f24d6403b1c, (513704000000000, 128426000000000, 79629200));
  (0x207cf18c8e412d6abb2c5f6c5d39d0b5124c6f596306174cbe317e6dbdd82444, (30822240000000, 7705560000000, 4777750));
  (0x208952b8752a0c72b0b169881ddc7e8eba1e70fd31c678c2d83469f6c99b1f2f, (11301488000000, 2825372000000, 1751840));
  (0x208ab770c5cba2ee44143cbf81a04fec085515de00bfbff4f0b99a0436003727, (164385280000000, 41096320000000, 25481300));
  (0x20a11a701d55928d40c4c7ad37b09ca5a96128c23972d79723b0dde996444d02, (43151136000000, 10787784000000, 6688850));
  (0x20a26489fde582ecf919e843292d5678b7c31c27424e548994b2191e088bd442, (10274080000000, 2568520000000, 1592580));
  (0x20a3cc9b477dfb16380f178ffd8fd29cae4e2c8de085edd29782f83aae8c060e, (143837120000000, 35959280000000, 22296200));
  (0x20af771f287ad2ec70709f832d4944135360acc9b99be6519c482301f6592b26, (34931872000000, 8732968000000, 5414790));
  (0x20b1932b09e1a14994ea1cfee2b0d6e4f7524851e66ef3cf7ef97f56af93bf03, (14383712000000, 3595928000000, 2229620));
  (0x20b99ad03e24bec8b9aed916206cbf0cc55816a4cf44836dd22114005a20cb4b, (30822240000000, 7705560000000, 4777750));
  (0x20b9b341cf7047486e8e1cc21b43e737ec6525c82c5097fefc179c62a50f3f2a, (36986688000000, 9246672000000, 5733300));
  (0x20d059b04b4f00c83e34f9cf05577b7675585f77eb2e39254886eca1cd759d60, (102740800000000, 25685200000000, 15925850));
  (0x20deba39d423417201581230b96af49ba260d7b765d9393f8d9f22d0dc97bc28, (102740800000000, 25685200000000, 15925800));
  (0x20dff9412b2897e2a895db3da35021815af32c77a6fb8fa6ead0c92257c83d38, (10274080000000, 2568520000000, 1592580));
  (0x20e21b3972496a80727ed6605472283081aa56a34d0708748591869cdf902d14, (46500486080000, 11625121520000, 7208040));
  (0x20e7afeff699ec6857311cba8faa74c57adc0f7b1b6c5b5fc4468fc1249eda15, (82192640000000, 20548160000000, 12740700));
  (0x20ecbeac73eee10f0f3cd93ba44b0239c705795a9f5dcfbf815a7cf5e64add51, (205481600000000, 51370400000000, 31851700));
  (0x20f5a42f0bee30aec367f8883aff91be44f0348a59fe99ad0703e880661da642, (20548160000000, 5137040000000, 3185170));
  (0x2200a139df4326fd95766194ca072ef8e5be191a0c45c05f1ee9e4160ce37b1e, (20548160000000, 5137040000000, 3185170));
  (0x22082d74622d516e73fb58d448619d1c0adbdb40aa1fa1884fb1c5449a224c09, (10274080000000, 2568520000000, 1592580));
  (0x220de5133e5ec782280a20955a469b6024b8e175a88702b5074230a0941ded13, (10274080000000, 2568520000000, 1592580));
  (0x2235f4b34fc63d370f2eff63d13595b8616b4ec67eab7413c30cf7d140c5f66e, (110960064000000, 27740016000000, 17199900));
  (0x2239b9ccb1caf4064466dc46acd0c92cfe010520cbfea03882a0ffe562d1986f, (102740800000000, 25685200000000, 15925800));
  (0x223a92a58263b15708a206e667e13a896dcd4d1d73be8c2f24cd311363750268, (20548160000000, 5137040000000, 3185170));
  (0x223acbeb568a9645ba4b899a345069690a082ba02120720c259f847b03714f24, (2071254528000000, 517813632000000, 321065000));
  (0x22562542ab3ea055d8e1b1ca028c06e06acc43373b1584baae628953de1d914f, (11301488000000, 2825372000000, 1751840));
  (0x225866fa48ef60626d52226aa0cca5ce94ee851a2cd006ec958295043c972823, (20548160000000, 5137040000000, 3185170));
  (0x225a6b0836939443be87912122558be765b26181e84d6293aef2dba6a520f65b, (489046208000000, 122261552000000, 75807000));
  (0x226783894e8e066204ce90f910762c4ecbf19bf99f7ba464373b913ed855496d, (30822240000000, 7705560000000, 4777750));
  (0x226d532d1b303713c10968756db89374920309a3cc75269ca660b677a81f9870, (100685984000000, 25171496000000, 15607300));
  (0x2282a543185228ee67a70f7d51ca28e97a5d0476c6e5825f8244ce3d72a5f063, (10274080000000, 2568520000000, 1592580));
  (0x2288918efad548e9beae107dc7b0e49bd9f610c044c613e07b656821c5c0f56e, (25068755200000, 6267188800000, 3885910));
  (0x228a24c00d5ed38fe8e27b26a20bf47a21c44b27044d120794a4cd7c38024508, (51370400000000, 12842600000000, 7962920));
  (0x228a83bf42e5e9fcd9070b092befe95abedb700563fa9ca724d3bf3f0d7a4c14, (102740800000000, 25685200000000, 15925800));
  (0x228a88c0b9d96206242b1cc8b48aeb7d1339c2c2499cfdba0c6d4c6794c7a171, (30822240000000, 7705560000000, 4777750));
  (0x22939fcd5a24f1635719ab6be119afe50f05844353fb09bc37f3a9dfa50a396c, (10274080000000, 2568520000000, 1592580));
  (0x229f2896c2bd6f30162c9cc0f5899432515f2cffed36a4dc6b42d48bd2b2910d, (10274080000000, 2568520000000, 1592580));
  (0x22a8a4f4baa83eaa60bcb155be723c08bf282d7e7b2282ae25b3bd0dacd82375, (226029760000000, 56507440000000, 35036840));
  (0x22bcd82055201cf4a6ae11878a9d28f033b32a35997816792321b46e96f8df56, (410963200000000, 102740800000000, 63703400));
  (0x22bfa075dfa1823b6ee451b848c1f1fd30d3db99de7e44ebb18ac2561f493f41, (82192640000000000, 20548160000000000, 12740675000));
  (0x22c6bb06b8478ad206e8461d7f0e9b1a60bd70a3780df787515f8d5ab2f40a6c, (62466406400000, 15616601600000, 9682910));
  (0x22c6c1fbebd019d3ea2b3970f5b3a6867cb1e793f4631d9755adeefb879c377e, (51370400000000, 12842600000000, 7962920));
  (0x22d2ed38201db961b1c479ef50da94a7f12290fd9d9fb4c45625e8e8a48b2b31, (380962886400000, 95240721600000, 59053000));
  (0x22e39bfcc68e6ca0452233781c0525ac01d27a966aeb7f3af264724824c30150, (616444800000000, 154111200000000, 95555100));
  (0x22e6e4c2469f26fc1a0d8a5f85faa7f84b7bba32b64565d9056f671f71efef65, (10274080000000, 2568520000000, 1592580));
  (0x22f82385aacb628dfcf268ed37fc6d846b03eb3fe766d31de012d888ae4a1265, (544526240000000, 136131560000000, 84407000));
  (0x22fc456df1e0805aaad861da43e50489c68c111ad17682ca0e779ec1439cd42f, (20548160000000, 5137040000000, 3185170));
  (0x22fec8011be5f4f9cbe5487c02aae38599b502e6d72434a5a80f28bcf662e024, (41096320000000, 10274080000000, 6370340));
  (0x24005b5aa6f07f1ebef733fd21793a9da9bee55ebdbbeddf5904a07f24c2f208, (205481600000000, 51370400000000, 31851700));
  (0x24016f10caafd67275ac5d3532accb56b93125442520a535f0332509c5ec9013, (10274080000000, 2568520000000, 1592580));
  (0x2406f5fd3886cd0df11fe7b882fa026bd52ba46522dcf2b50d2f21463adbae47, (102740800000000, 25685200000000, 15925800));
  (0x241236fcc3a3c581bc87aa24966b75433ae5f6f8faff1cc1c1695c6825b48b7d, (20548160000000, 5137040000000, 3185170));
  (0x241bc18000e9d3c752fa669abef19547ad62cd9b553ff2fc53c14514e6f5f006, (196543979450000, 49135994860000, 30466200));
  (0x241c46a71f7cf2d24e004d2938c02aaa491f996865bb12c5b027d13bd47c793a, (10274080000000, 2568520000000, 1592580));
  (0x241f5a5faac3bc2db3a0727aba7fee800977df9125dc1f5b23c0bd046106a006, (20548160000000, 5137040000000, 3185170));
  (0x24223874d00bfa2a10fa9a7eca375c9d62cd09cb91fd9c38212a67af480f117c, (10274285480000, 2568571370000, 1592620));
  (0x2426976cdf8c12177c0ed15dc85631935a3a00929c5bd7059ebf629a62dc5b73, (369866880000000, 92466720000000, 57333000));
  (0x2426ebc753a0160d985b1e2fe9c4eed2394963883b0ab0a84f795745dc9d746b, (97603760000000, 24400940000000, 15129600));
  (0x24304df726bb83414e6820c079e419c7d88201a62a404e8a0c92f74ae7ad4214, (10274080000000, 2568520000000, 1592580));
  (0x24570264ef2d87e5afc565e1925dbdbf997afd98bcea79f0443daf45801a5d4f, (51370400000000, 12842600000000, 7962920));
  (0x24573b58cb8c7a0952f70616a130c281f5c05e237cd2beb1212e02d6a7c13a34, (20548160000000, 5137040000000, 3185170));
  (0x2459b958bc1c157aa6a806b572d07a278449c4cf5675638b7ff76ed1fc6af41e, (20548160000000, 5137040000000, 3185170));
  (0x245a42b08dd381df28046577e02a796e2b3a736a7b8615dd81c99af50067855d, (410963200000000, 102740800000000, 63703400));
  (0x245cf6c5e4aa33989fa41d0a22cc61d9f33827858e0838364f9275983ac05354, (10274080000000, 2568520000000, 1592580));
  (0x2463d68c8a10002d5e4aabd7849fb08df5524ae3fec19f0b2d1c4937dc569074, (205481600000000, 51370400000000, 31851700));
  (0x2469f6379206db6960618cdb61ccbbb35a69e8330ed1fb9b421cb8ee1581453b, (154111200000000, 38527800000000, 23888800));
  (0x246cf1fe32408676360aaaae97730bf302de22417db38e49660e8973f0e5f017, (10274080000000, 2568520000000, 1592580));
  (0x2476593aa1f52dc76d5dc894f26933b3485f9063dba263b8958654778770e839, (18493344000000, 4623336000000, 2866650));
  (0x247979312e7bc5eeee0d65c71934f18def98cc277feceb1ede7a2d3d210ba945, (219865312000000, 54966328000000, 34081300));
  (0x247f312100c6d2f9e796443b4ca7627d0af4b62b316847c452df6faaeed8af34, (57534848000000, 14383712000000, 8918470));
  (0x2480e6ad614dd8bdd8661e63d55fdcb938135990054a24a236070f5f35c9af0c, (20548160000000, 5137040000000, 3185170));
  (0x248dfdefcd45735b371c953b3e94c360e1c94920e3c3e3b01bb63e692ee0a325, (19294722240000, 4823680560000, 2990870));
  (0x248fdb9f622c52ec449f4cacca5538215ad095767ed5f1b6971149a928ef5d20, (43151136000000, 10787784000000, 6688850));
  (0x2491cc0a318c767476a47d744f28f7beebd2b8928c88206136f27a3d3cde2244, (20548160000000, 5137040000000, 3185170));
  (0x24ad85298982b9e8506355c900992e974c6f5ac3305892ae93ba34f819828e01, (17465936000000, 4366484000000, 2707390));
  (0x24b262b037891a4956803ffa401cd7ff78faf2aab60c734839b495b70ab40f18, (51370400000000, 12842600000000, 7962920));
  (0x24ba228be6c55bec50d31b6456b3966bcb413cd119d186ba4393d917df205047, (267126080000000, 66781520000000, 41407200));
  (0x24c4a37f514c3f4063f014d66c8fb564706c7a0c75d51c0fcd684fb80985311c, (41096320000000, 10274080000000, 6370340));
  (0x24dec7e67ef093310dacf3bfd080d82ad5ed264736c7f5744001bf0f34b9a461, (626718880000000, 156679720000000, 97147600));
  (0x24eb797a51911cabe169d7bdcd93f0101775727294a422e5928dbd6c17f6ab7e, (16438528000000, 4109632000000, 2548130));
  (0x2616c631f6ad52440b109e096c0f0500825f7eb9b9167c8c0a44e0f27691145e, (103973689600000, 25993422400000, 16116980));
  (0x261d0ab71468b457b83c92587b948bc7567fd4b0df4e4ee203fb3cb970433609, (20548160000000, 5137040000000, 3185170));
  (0x2628f7ba0d963a00a941165c86e05c4fa7fdae20ff58786840df52b1f250bb7e, (30822240000000, 7705560000000, 4777750));
  (0x262d3cc1fac5dd4005f6b5c37724a7b215bd82f53162d9d7ba15c5476c5ff322, (20548160000000, 5137040000000, 3185170));
  (0x262ea231fcfc25cd7c7f3221e1897ea6a8019655f4a4d8bf7582a15c5e186760, (59589664000000, 14897416000000, 9236990));
  (0x2637673a737c8a7fcc9060e222193d71f62b740e0ac3b4afbd48195afd01d449, (10274080000000, 2568520000000, 1592580));
  (0x263c258233f705eae633e512ee51b256264e34bc8779239dabff49dd98073226, (115069696000000, 28767424000000, 17836900));
  (0x263c8704c877d504973c6408b2c07178205488a312c1c60bfee036f9d07b0c62, (20548160000000, 5137040000000, 3185170));
  (0x263d1f0d976b88b1126df4b73735259ae3d1e8e6c2f5ff27c3983ec117d20829, (410963200000000, 102740800000000, 63703300));
  (0x263e0e2220ee17f5e592687553243ef2cd9dc0f870e3bc8c5aa4759350c66f74, (133563040000000, 33390760000000, 20703600));
  (0x2646e9db3d871575567f91fc0d25932beb40b94e3794ef6293df50f25638f77f, (205481600000000, 51370400000000, 31851700));
  (0x264a06fbadf62f5fbb3d88ce61810882bf81ce26e37d821d60fa273180efc16d, (13356304000000, 3339076000000, 2070360));
  (0x265a9dfde7b15209080561bdc1f0fa3e5eb2ab492a0dd85eb98758c383b46449, (10274080000000, 2568520000000, 1592580));
  (0x265d88d1b36c2e637ac9dfafd041c7a3ad0fefb63c0c3f4eadb3ed12ec0ab650, (5692444436000000, 1423111109000000, 882385000));
  (0x2668f3b3213ed87f77e11ba746822bdb61c1841baab7585bf0bcb0b67e958909, (10274080000000, 2568520000000, 1592580));
  (0x26afa98314acf1512e987490ed2f64af2962b462ad14ed34c834e4dae8a2261b, (16438528000000, 4109632000000, 2548130));
  (0x26b20ad7fb380a6920012e66cea3f7244c598518e719557b248acb1682ba6312, (702747072000000, 175686768000000, 108933000));
  (0x26b904dc0a801263417989738d06f58f7e401f1adb2e5e625299772ee16b411b, (41096320000000, 10274080000000, 6370340));
  (0x26b97c8240203510e664f13e8956d917a1cc7eec1ee6fc25e87755cf2237e81e, (36986688000000, 9246672000000, 5733300));
  (0x26ef63f7ede420b536eaf5788913b1cf7a95990ce7b0ccf44e0c8ea068472514, (41096320000000, 10274080000000, 6370340));
  (0x26f35da6c7f32a2402078a930e7574090c3ab81bbf9560ab0a18be70ba71915e, (41096320000000, 10274080000000, 6370340))
].
Definition rows_3 : list Row := [
  (0x26fd5dafbd0325d50da857364725fdf353ac4a240a0fb0c97f6f9313a080ab0a, (308222400000000, 77055600000000, 47777500));
  (0x2802722759b2cc5f66c41281bf7780268ffa39ea552c25493577c06af53d5444, (10274080000000, 2568520000000, 1592580));
  (0x2808b41ae08e7725af9246e99468ae45b1afb8369c58a379fb255d24f6e1ca48, (14383712000000, 3595928000000, 2229620));
  (0x280e30ab176968be6f7308bc1c2e8d6d6f2d4d0db3e37735c523a7420a707115, (10274080000000, 2568520000000, 1592580));
  (0x280fa94ffb2c60de612dbe96bc479703ed9c65a8a356e51a3f37a40d0cd4ab13, (205481600000000, 51370400000000, 31851700));
  (0x28106fb8b0dfadbb9caed9f23ef63132daab79d8e1ca94a6ae91c7621ae35f46, (10274080000000, 2568520000000, 1592580));
  (0x2815c1f7b17e9aaa18c00f62d179950945df8abc1e48e627991068611442ba5b, (20811176450000000, 5202794112000000, 3225939000));
  (0x2815ed4bda1fbc79fe3545d6a904633d732d307b054d02d61ffee7c3e9cfaa29, (10274080000000, 2568520000000, 1592580));
  (0x2832477cfef1e3dd4a58a628a1fcae37a527887bab5346d6ab47451e92311d7b, (205481600000000, 51370400000000, 31851700));
  (0x28368fcb8b591be73f6d00357b14f2d17e0fc3f7d76eb6cd882c343454a3b654, (20548160000000, 5137040000000, 3185170));
  (0x2837d76f2e455e4f03f8d06ea7a0dca3aa6dbfca2d95dd7640d54ca55a809129, (51370400000000, 12842600000000, 7962920));
  (0x2839bb8af303b282d1d026bf38433117f84f41ea5d57452ee5343e4518b18f3e, (10890524800000, 2722631200000, 1688140));
  (0x2846b28103f9a4e4e7a5d712d77950fd03ec80cbb9a538761f7f3e7a5c732173, (41096320000000, 10274080000000, 6370340));
  (0x284d6fa0791c4da149b40088024eda0cc5ef06e9c30420e35464bb117e02ba42, (61644480000000, 15411120000000, 9555510));
  (0x2858ed530bdae899ea689e3ff4bf6de12ee3a44d2bb1ecde8dd0552628fc4306, (10274080000000, 2568520000000, 1592580));
  (0x2864201bed2b327f5616def19da2e68214e8939ba5a2ff78c1cb5d936dd4bd56, (41096320000000, 10274080000000, 6370340));
  (0x2874c975c3075aafbf762a07b02aabb04201110224839c4637d5041f46e1c36f, (51370400000000, 12842600000000, 7962920));
  (0x28895287c53d72687afb9603a101adfef59c9d5849d4c5f615c6b326093e167d, (316441664000000, 79110416000000, 49051600));
  (0x288e0dbd476cbfc7dfc1268c00b9e5081e9d9b1a5ef63da11e6f825f3d22b04a, (600006272000000, 150001568000000, 93006900));
  (0x2896c357a4afae2e8b78ce41033acf9268cb42d24ea9ccd345f33f5dbc3bd14d, (10274080000000, 2568520000000, 1592580));
  (0x28970048850bf6b4ece024eed19b4694e69c8b9dc9d2d3373c38dd09a8711a12, (205481600000000, 51370400000000, 31851700));
  (0x289abe5abfa41565a7cbb1647663821b7a623130e7768ea58fbe703a0ffc2e20, (12328896000000, 3082224000000, 1911100));
  (0x28b5b57a6ea973ca0d229ae412c4ba0c174779811acc4919eb7dee3eec765357, (20548160000000, 5137040000000, 3185170));
  (0x28bd8bc3b61968b1f7b19cdedd4b7f8aa7aaa69aea67a14e849b19dc59f1b36f, (10274080000000, 2568520000000, 1592580));
  (0x28deec400c0236d3283b7823f0c345ee334ae544318d3feb60eac6b3109aa46e, (216783088000000, 54195772000000, 33603500));
  (0x28e30503cdde43faf6829e7cc7a423e7ca5303d0492e267acb0a0c2bab56461f, (10274080000000, 2568520000000, 1592580));
  (0x28e9ee1cfb3d986c0982ccb3aca95fc38d7522d57bdf1bec19a9e966f7369d70, (20548160000000, 5137040000000, 3185170));
  (0x28eacf54c7f5c7c55135d808652ae7c733ef4cc753f8f707f7ab54be1ffce875, (10274080000000, 2568520000000, 1592580));
  (0x28eeb9f02a0e0b635855bc74f8d358f48673daee896a9a9266d12ca71f94f34b, (102740800000000, 25685200000000, 15925800));
  (0x28f02ca9ebb686b07cf2270888033129e1e1b251ffdf7bcc8ed1cd222c486d1d, (20548160000000, 5137040000000, 3185170));
  (0x28faff1c0cb2934d3240cc747a6ac634727ab924e880f3cc746a04a8cd7e4932, (10274080000000, 2568520000000, 1592580));
  (0x2a0a7c7e4eb1eb107f17277286b6d36c9db3011bb76597e3e3e4a9cc022aee76, (11301488000000, 2825372000000, 1751840));
  (0x2a1a31b3fa8c8e3c6b977a4e5af678f61e7ea17b6b7ffedc26c2517a549eb250, (10274080000000, 2568520000000, 1592580));
  (0x2a2afcf3a91dda695feb5b6ff895230130af8e0f3df6e2f933fbce73114d1763, (102740800000000, 25685200000000, 15925850));
  (0x2a2c3ef61cd6a0fd14688e8064719eb6fec36ecaea0e1996b20df271fd84c23d, (61644480000000, 15411120000000, 9555510));
  (0x2a36e7764854f33c1ae7994f225ee32b3bb563633e838c5b6f8369dfdcc1b435, (14383712000000, 3595928000000, 2229620));
  (0x2a3e05985daa4099e9188262eb97ffcd2311dad65c671a92123feea58cd26a19, (20548160000000, 5137040000000, 3185170));
  (0x2a468e9bc55cd870f62aff4783a50ff02e38203e96d65d87b20456c661bfb35c, (147946752000000, 36986688000000, 22933200));
  (0x2a475fb03b8bccc2a1ed35a6970d9eade86d3ad6a56fec7f33de9dc9f4424952, (205481600000000, 51370400000000, 31851700));
  (0x2a4cf22ab4078eafc3d675bbb90b31d0a1c8a474c9b87facbede6f354f09674e, (20548160000000, 5137040000000, 3185170));
  (0x2a4d6567ff93fe83be554a5bc1706ab48da5ac0ea93596d5bb2a305afe9fbf13, (214933753600000, 53733438400000, 33316900));
  (0x2a5e59cfb38df92b47eef01bd02f6292f8d5262c12a0b0396a22a466224f9e36, (18493344000000, 4623336000000, 2866650));
  (0x2a64559b9e11b04b4fc836b0cd59132918553d9413b9f6d5385b8d5870959001, (10274080000000, 2568520000000, 1592580));
  (0x2a6a8aee414fb5f60f4928a494b9992aea7ef04a529fd5500de96e504a323a75, (10274080000000, 2568520000000, 1592580));
  (0x2a8a0d3b6d1d1f273fc3bcbd5bbe70d09c2d9f75f09500c2bf57b5b2329aa57f, (10274080000000, 2568520000000, 1592580));
  (0x2a91be523d4f615a971c7a87eb4e8049ee9d82b72b9cd271d91c79e92cba3a6a, (20548160000000000, 5137040000000000, 3185169000));
  (0x2a964dc473e77bd15dab8dcc520ec217aad41152f1e193ac3b1fc32e5efc8701, (131508224000000, 32877056000000, 20385100));
  (0x2a9c65084bb21f5707cd02e7a6feeb28573a121b35273b44529999a30185f160, (82192640000000, 20548160000000, 12740700));
  (0x2a9f58b72e0cf80daa01749390fd374f864f4b8ce8023c79c66954c6bc056a7f, (10274080000000, 2568520000000, 1592580));
  (0x2ab6a0d5885b1debcb5f089ce73d3abe16792cd01d63d788609f8d859fc1fe01, (51370400000000000, 12842600000000000, 7962922000));
  (0x2ad1aff06095f8b983c0db7bd7aaeaa3b4956106acd46104b10ea3618e79845d, (10274080000000, 2568520000000, 1592580));
  (0x2ad444e88a3dab82629473b3898bac75e12c0735f9a92f06f8a84d5a79ea0b78, (20548160000000, 5137040000000, 3185170));
  (0x2af586ed8c941e87909c5454e4ae99f628967dfa7c136e40e61df59bb7e46242, (10274080000000, 2568520000000, 1592580));
  (0x2c0169e51e344b8c571ba1c0227657f042adde0f5aa0fa4f2483427e8fa42733, (91439312000000, 22859828000000, 14174000));
  (0x2c0b2cfdc7507c42c88c22c0eadedd30251b090cc8de670c436ecd91186b5136, (410963200000000000, 102740800000000000, 63703373000));
  (0x2c17be94b5327001650a4bb5cea4a3673c99c9c55b1ca911ab72703b50d8a742, (61644480000000, 15411120000000, 9555510));
  (0x2c1d3430ddd5cde93bac50cc8707de51979791bf5964e6792bf9a5881c06fd7f, (832200480000000, 208050120000000, 128999000));
  (0x2c2e0ddfcc23b2396931ca72a78d90e29e3b1c83148af6d5e5409d9c424c2d49, (22602976000000, 5650744000000, 3503690));
  (0x2c3351c5f3ad61dcbf4dd42b04b9a563a09c617cd4736b62754372e480772901, (63699296000000, 15924824000000, 9874020));
  (0x2c34b71f7d52fa0f717eb94c6b20eed0e2d8d4115cfcea27b20e91939c872c04, (10274080000000, 2568520000000, 1592580));
  (0x2c3739f7b543c98cbca05ba8b2d1fc297a9648c3df1b777cc0140e505d09601b, (71918560000000, 17979640000000, 11148100));
  (0x2c4f238020e4ebb80dc544c2120f15a5c60815d02bc7788deb1fc83a8aad381f, (82192640000000, 20548160000000, 12740700));
  (0x2c562cc2536ba43d8222dac685e380f9a1a6219c92ba938f40d41e2cb8f1e40e, (102740800000000, 25685200000000, 15925800));
  (0x2c58b95ca54e05bbe437b9b672b8583e87ccd86184d60c617e6685fe62b0bb5b, (51370400000000, 12842600000000, 7962920));
  (0x2c6cf5dcb10da62ddd097482973588bc53026e2de216e03bf461717338dc2307, (30822240000000, 7705560000000, 4777750));
  (0x2c6e0c301e2b8fa6c1f0fa58eee3b5f6ffb7eecd4ad73630cfceaab82bea774b, (20548160000000, 5137040000000, 3185170));
  (0x2c6f3552218afd8e23fd2394311aad0b40f13b1675c6bf345f8fb64982142801, (12328896000000, 3082224000000, 1911100));
  (0x2c89aef323560613cd77124c6013df8358a78c32b9aa08f204463f20f6854426, (260961632000000, 65240408000000, 40451600));
  (0x2c8ec2a40301465a7b1683f75b2fd94ae6249e20db59c5ab380118ee0396f447, (10274080000000, 2568520000000, 1592580));
  (0x2c90863780780f4878c08296c7dd3ba46bcf52fb0df49af6559b290ffd6ea029, (61644480000000, 15411120000000, 9555510));
  (0x2c96f68ec04cab9d9396161c65e95c705d85c97fb85bd5f505ceeec7d86d1756, (205687081600000, 51421770400000, 31883500));
  (0x2c9df789a5404faf354b7fbec393e86847a5bf0dd220e0f025fc1593c3382556, (10274080000000, 2568520000000, 1592580));
  (0x2cb81e1a0b31b35d2aa0af156af89d55a00befc0f76b2ea136d27dab726b647b, (47260768000000, 11815192000000, 7325890));
  (0x2cbf5e124223f4ef0c3bf385251508005f76d10509e324addac337aeb1659d65, (10274080000000, 2568520000000, 1592580));
  (0x2ccbafa4b62e1030a15783e34a8bc64a82ab39c3146f130f3b3646779fa69c2e, (10274080000000, 2568520000000, 1592580));
  (0x2ccf7c43b2a406c23c0a4d5aee71aff3d8ef34d331b8bd5afdc4f8e8a09cdd57, (410963200000000, 102740800000000, 63703400));
  (0x2cdb85f50f72332569a16e763bb412e8e3fba7f2816ad6b00a21eb1db7359e01, (166666125800000, 41666531440000, 25834900));
  (0x2ce1ad97711458d6860060804cd89615daaea379c10b8f90f59b2c8bfc63bd2b, (20548160000000, 5137040000000, 3185170));
  (0x2ce6952568e01024e790c66d772bad13865f982cb0ec304a5d6bf5935cebb512, (41096320000000, 10274080000000, 6370340));
  (0x2ced11c4c8c1150469d8d312cef161dc5c40dcdd0bf94abbf0bbc58816e46f15, (10274080000000, 2568520000000, 1592580));
  (0x2ceed5fc1422051f501cc8ab01a74ed12379467f9beb93e29a85836b75ad3d21, (72350071360000, 18087517840000, 11215000));
  (0x2cf0e52406564300381d4c493addb83e60e853a2bb144667c870837a3b824679, (390415040000000, 97603760000000, 60518200));
  (0x2cf5e7693267232d7f62f7809d4c9261cf018e0bc6140dc9f9cf925cf668771f, (215755680000000, 53938920000000, 33444300));
  (0x2cf827dccb5b85a5560e9d1be27181bb1fc6c196067b6eba413f47642545b50b, (10274080000000, 2568520000000, 1592580));
  (0x2e048c0644d07d1ac362e8c6a6cd1f419a02c78cd6b5bd52ff9fe1f58914a079, (51370400000000, 12842600000000, 7962920));
  (0x2e246351d4d5bd0b1ef14dfdcc5974d82bf18063f1f041262d2835ec32b8991f, (86302272000000, 21575568000000, 13377700));
  (0x2e27194e8d9cb5118e49a2163f4abf3fd6affa814f52e51ae337f528de886311, (20548160000000, 5137040000000, 3185170));
  (0x2e2aa8efc91b0939696c02b949b7f48ef49e0c3510b8a36a95e4e281939f3d16, (237331248000000, 59332812000000, 36788700));
  (0x2e33c5e14a53e874caa8e7c6d30bd20f6c51cda7dafaad1c465ca004fe61a63e, (61644480000000, 15411120000000, 9555510));
  (0x2e3c9a5b6e583d619ee30395b69dc6498239de432b4859f23312dca7e1d5f21c, (26712608000000, 6678152000000, 4140720));
  (0x2e605839b8640e9b89cbd6104cb89d11ba84a81c2b52b90d15c22f931b73ff2e, (10274080000000, 2568520000000, 1592580));
  (0x2e668880915f160ed65780be18734aac6c0f3d1d2740ea8c010f7fd97c29b436, (30822240000000, 7705560000000, 4777750));
  (0x2e6e9e8a6ef2a3a456902f1a693c491cf305746c7881d2b74fc076e834fe191c, (71918560000000, 17979640000000, 11148100));
  (0x2e717a28be6cbdf916782a31eeeee5b4de7be6ec732db257e9aba3a939a37574, (41096320000000, 10274080000000, 6370340));
  (0x2e71b74f777b1a088bd9a45bcf135480f64ac6939c7c32ae5b6dca739cebe86b, (62133647900000, 15533411980000, 9631330));
  (0x2e75145b1d3e87ae913390376ac0d134e7d4b192aa859e12de8e602551c0975c, (41096320000000, 10274080000000, 6370340));
  (0x2e8a29a897b0985c09e1c5bf556064c77d1b313f69c012d835206937f917fc3e, (205481600000000, 51370400000000, 31851700));
  (0x2e8a76dc8ad06c10502c258e488f2a4731d905b4ab1d2a551a9b6368a878561e, (410963200000000, 102740800000000, 63703400));
  (0x2e8e4b4908b672739bb5ff525a76162be56c727a16f8ce241c7a9166db13652a, (20548160000000, 5137040000000, 3185170));
  (0x2e998f52dcb157d160b64015f2fbd69682d0ead809b8d5cbc0e768b7a2148230, (12328896000000, 3082224000000, 1911100));
  (0x2e9a1ead1a1d6904be05cb6e0bf278e9b05912afad447754a10f3acd14e9446b, (61644480000000, 15411120000000, 9555510));
  (0x2e9af0a3366d82fe29bf0a7e2f42535a3fb432542305cbd8aba96d76f0bc7607, (102740800000000, 25685200000000, 15925800));
  (0x2e9e074c6c950bd2ff907e58fbbe05913f47556a7ea72e682bb45a0505528239, (10274080000000, 2568520000000, 1592580));
  (0x2eaf55265cd12756dc7a331a580709ebda359cca772e504b0e9c92b09f171078, (10274080000000, 2568520000000, 1592580));
  (0x2eb850dc27d4e6313c2783e0af14a8043a7d3e631129346f7facfffb2de66734, (18493344000000, 4623336000000, 2866650));
  (0x2eb96fd4ba857f7507144320220c9aa1cb340375da68578a1416b592d8e58557, (10274080000000, 2568520000000, 1592580));
  (0x2ec437c50a22469649c462f7b48bdc5313cc3c97f303b5b82a3b5c93cebff745, (513704000000000, 128426000000000, 79629200));
  (0x2ec49a2d047ef56c8f64a2f75ec3bc7b570120423d138aaa684c5fa962cbaf5d, (20548160000000, 5137040000000, 3185170));
  (0x2ee10da6f5fb64ca52b0f62e9f42ac20a96aa0e857779a190a39d8ffcdeca26c, (61644480000000, 15411120000000, 9555510));
  (0x2eedc82dfd605a36ba6efe897d200cfa46a58d0468ac994539d3af213e714777, (108905248000000, 27226312000000, 16881400));
  (0x2ef55f3573a053d629247494d8c431a61e169fa3c2a762cbaa0c75c00558bb33, (10274080000000, 2568520000000, 1592580));
  (0x2efe4e18373e00e1c2e9481311a7fb412784997b5175acfc4e91a86e485fc220, (205481600000000, 51370400000000, 31851700));
  (0x30018786eab631296fefd13f282d01288517e601013197d15307bf3de6628d3f, (2106186400000000, 526546600000000, 326480000));
  (0x3006667911de2d2f5f23066750beedc7f778ae997f7056b962046d545b3f135f, (41096320000000, 10274080000000, 6370340));
  (0x300f47165c414614752929914855b1eddd80582907745533a9cb381452142151, (71918560000000, 17979640000000, 11148100));
  (0x301214bb3198f9179ae9cce427c5c9c7d99c5920b34cb3b766f6da77c9d3996a, (1785966389000000, 446491597300000, 276843000));
  (0x30199f5dc0588b000429f574a703a5f0d5ca95c69513be5ab3a13315e77df065, (1050764683000000, 262691170600000, 162879000));
  (0x30254f9e05bd49e585d5445951794ef6d4f2c43b151c786a45aba8b70544dd2c, (61644480000000, 15411120000000, 9555510));
  (0x302653af1f5bdacdd63a86eaa26cce8e33d090ddf0169f4b4aada7b61d53753d, (10274080000000, 2568520000000, 1592580));
  (0x30339bf6a9917534de55a87d55837c019a4fbba5543aa932caf4f3c1f9ec672a, (150001568000000, 37500392000000, 23251700));
  (0x3034a306f6b813d8e89c123b1863013a5b2c90ab6a7bf7a49cbc2155fd811643, (2147282720000000, 536820680000000, 332850000));
  (0x304ab6b1b94f0ad826f395ab19e62c6d70a5e277469a4d8c048d766d57f9cc21, (10274080000000, 2568520000000, 1592580));
  (0x30519225694f2971e1237faf6b6123d1de647c9e102b3800b46b793cc5760276, (1027408000000000, 256852000000000, 159258000));
  (0x3051d029999b5e6078c202d473a2279ee2ae6890cb221422edeae043fe37157e, (10274080000000, 2568520000000, 1592580));
  (0x30599dba50b5f3ba0b36f856a761eb3c0aee61e830d4beb448ef94b6ad92be39, (616444800000000, 154111200000000, 95555100));
  (0x305bd019bdf7b00fbdcdb189d65c3b34f9ff310059800d8a474488aaf950156b, (90411904000000, 22602976000000, 14014700));
  (0x305ca4ae41c8af50bc42d9b4eb31332f00857fc216b92e2773af4f49b7c54747, (61644480000000, 15411120000000, 9555510));
  (0x306ec8c61fe99fa3c1aa7a75953e17f571d60377a203cfe7cf0c3c8e0b440a49, (102740800000000, 25685200000000, 15925800));
  (0x3074154bd9ca5d7f7c6944fe6c2cb35280357b68b41d2c01ec4474ff9ca1b552, (20548160000000, 5137040000000, 3185170));
  (0x3078637d456ff91878e48ffb4f3c9a7debe03fed9186b40b0598fbcbaafa3f77, (323633520000000, 80908380000000, 50166400));
  (0x3088e519537f272593e75e98576b7d8753f10d5d2a45fefb2b9cb6c06f34dd7c, (20548160000000, 5137040000000, 3185170));
  (0x308c5e80079d9346c3cec0ebb420ad09aa4797035310a45c0719daee15537048, (24657792000000, 6164448000000, 3822200));
  (0x308e36ad16700cef9dd63ad9364cdc03906378456a3b665f4a7ce3cabaac7f60, (143837120000000, 35959280000000, 22296200));
  (0x30923ac4e74cbaf8b300dd1e1a5a750d391552db3b4517a011583a4a7f62f50c, (2779830908000000, 694957726900000, 430901000));
  (0x309c1f030e322b13e93d8bd5e14d7aca30d3c5340b042ee94c6c61181a99943a, (20548160000000, 5137040000000, 3185170));
  (0x30af9c60103f210aa58d96e37f6b078c90d0bd27ad5fb9ca2dede9e41538114f, (50548473600000, 12637118400000, 7835510));
  (0x30b0ca7cc3db8a7b535b46ad846cae4a2b5994f9f7b8245d6809cf75433d9004, (10685043200000, 2671260800000, 1656290));
  (0x30b71786de3fded6dce72909204b32855d34affd57462c035c45bcbe44476a78, (1843169952000000, 460792488000000, 285710000));
  (0x30b7a3a137092d0c4a8f82cec3a75dedd955c4f0547467e659c07dacbf787f7b, (10274080000000, 2568520000000, 1592580));
  (0x30b7cb9f4efebfbebbd504e606f3f166ab928348a3b1764b2627f968a8a25d2d, (10274080000000, 2568520000000, 1592580));
  (0x30b9895b0e96d47d0b46a24533bdd8935cd6075c4ca06ad2437a46459953e27d, (10274080000000, 2568520000000, 1592580));
  (0x30c4cd378aa3b18d567fb72c955382f363fe0c377021355596e7551517bcb412, (102740800000000, 25685200000000, 15925800));
  (0x30c5f276d6d54d2fc6dc8deb4ef744864393acf4a6587b8fb1d2de9c86338004, (20548160000000, 5137040000000, 3185170));
  (0x30cca95dcc9d692b689b8f4f37e337c59c7561958dbe26fc0f04b2abdccdd24f, (10274080000000, 2568520000000, 1592580));
  (0x30d1ae0bc737306e18efcb014b68c8dd1d42260b1eed11a814e1aa9504560268, (203426784000000, 50856696000000, 31533200));
  (0x30d758b69cf0a8d0f7b0902a2eb8e2df422f9d67433aa7b5dcdd817396e50861, (20548160000000, 5137040000000, 3185170));
  (0x30e0f43121af6728c1931a24d0c6f0052cdc6ac3c745badca56fabcd76f59762, (10274080000000, 2568520000000, 1592580));
  (0x30f36e148adad1c65e1b970eaf6848d14d078ae16136af94578e5d60291a904c, (20548160000000, 5137040000000, 3185170));
  (0x30fcda67e70b2215c4832b5e93b463529eb4e62d4d6531fe0a6ce59050f24f12, (10274080000000, 2568520000000, 1592580));
  (0x30fd50ac2e6dc8f8431b5fca5f574c7b29faef9e4ebbd6b1f00d524c0ed5487f, (92222361280000, 23055590320000, 14295400));
  (0x320b85d4870c672832708b20f819435d13b0cdaade9675f4148791cf04bcea03, (92466720000000, 23116680000000, 14333300));
  (0x320e268a85a166f6b6daf576df76d8a4521b6e0f00e1920b2390f513a302026e, (259934224000000, 64983556000000, 40292400));
  (0x3214629c36fdae2ca7d322aff1e68574f8b626ceefae4b191de3f6280a8b3269, (82192640000000, 20548160000000, 12740700));
  (0x3228558d59f6d5bfc7adf3402fa529865c29e8bd2b1dee51499efc5499463d45, (2054816000000000, 513704000000000, 318517000));
  (0x3234835fe20302275ba305d7a0fe1d179d091630f7d60267488034ff3541a77c, (41096320000000, 10274080000000, 6370340));
  (0x325b6effce5fa5be66df6a7a421b80b9ffea52b0aeaa582daa4da279731baf0e, (30822240000000, 7705560000000, 4777750));
  (0x327102e8ca21ba9fd9bd06a6fa5fde0b60456142adb9048e1ac146a86eccfc63, (20589256320000, 5147314080000, 3191540));
  (0x32721bbf9fb3127a8dfa7b1e7360bcbe8b3b5ca6c1a0bafdaff9479686ef0967, (12328896000000, 3082224000000, 1911100));
  (0x3275ddcc6fcccf0c005a1da8ec28bc24a31a7b0aa5d538b857fd4d56d9ab8d76, (98631168000000, 24657792000000, 15288800));
  (0x328eefa9c53d7ef2c48755f8c0c76d56869e98d8d0db007ba346910191331f20, (20589256320000, 5147314080000, 3191540));
  (0x32960fb2543a2d8495ce4423eda9c5183ef309e195511e4bc758866a3f019153, (20548160000000, 5137040000000, 3185170));
  (0x329b8d16106c3c34cbbfd13afbe60b23843e8e78a8fa8a5cecb72419968fdd3a, (102740800000000, 25685200000000, 15925800));
  (0x329bdc21b854c8cf1e62de77b6f31fa6476ed2723b956ab0d5439d1fbbadef2d, (20548160000000, 5137040000000, 3185170));
  (0x32a33172d4a887fc658a3756f0921606fdd0a2091288be153ed99f671f4b6760, (16438528000000, 4109632000000, 2548130));
  (0x32a7077dfddc82577e8f063a0cc4f0f55575a34c9358e0b09933e01c31b43c35, (10274080000000, 2568520000000, 1592580));
  (0x32b4c3e303f404b2cd925b589b0bc3a140984e5a8a6d670f16eb898c36c0ed62, (20548160000000, 5137040000000, 3185170));
  (0x32b98f69d89f7e619889e9a95f1bf61798f6e0b04a2bbdf77304f17d6db8f748, (20548160000000, 5137040000000, 3185170));
  (0x32c1f99879354686b5d50613e4686a532544b0fb41dfc8d4c2cd1e680bcf7659, (12328896000000, 3082224000000, 1911100));
  (0x32d1b1da8908218e302acbcdae0aaed4cc9f6febf36f45ca6b415dde16f09e6d, (51370400000000, 12842600000000, 7962920));
  (0x32e3589c27c9f931b938766a820f48827bc254a4754c51b6ade51088da48ea4c, (13356304000000, 3339076000000, 2070360));
  (0x32e707c5c5973126a04be9a8d6f7e7889625d9f4b61eeea2adc1841f36459600, (10274080000000, 2568520000000, 1592580));
  (0x32e9fece15d2c6af817d1d76ac4bc8f0c8c8a1919e9ccb4fc8b8df7640e31e0f, (226029760000000, 56507440000000, 35036900));
  (0x32f992f1ad7dd216e6d21d203f2f8ba834bd31bba8089ab6518a7ed1b86c3834, (287674240000000, 71918560000000, 44592400));
  (0x32fccf8d0065878f91ba492914d10bf5156fa67646e6d36b17b1336b42187657, (41301801600000, 10325450400000, 6402190));
  (0x3408915b7a25b3c6a6dffcd1339bb15de7d347ca70ca30c6b97921969fa84b1a, (20548160000000, 5137040000000, 3185170));
  (0x3412acaae4343ded45f6afb45cece108869f6559e6bff831c240770bd5b51e58, (30822240000000, 7705560000000, 4777750));
  (0x3414f1828f1439b4b008ffcafee5323795b4e5b33295acc054a828bc38827660, (20548160000000, 5137040000000, 3185170));
  (0x342b6e584b53b03ee4afc34a4b685d977a0995092efd3015767e2a0b0b8da56c, (20548160000000, 5137040000000, 3185170));
  (0x342bdef9fd8c825b1616db7d9ec0f9f93a0bf0611d75ef92eb8ea1edbee3b173, (20650900800000000, 5162725200000000, 3201094000));
  (0x3434e69ccd4d802ec5250cb4f5c8c0ef583316564946f0c90bd9a9740e3b2f53, (32877056000000, 8219264000000, 5096270));
  (0x343a14e2b1f82f0256d64a8c6d75d9177f67128ed2ace0e1cc3e7ae1839fb13e, (51370400000000, 12842600000000, 7962920));
  (0x343bb9ca225d064fad78ce59e749dcdd495e9a6a472571cd10c92ea36ee8a120, (16438528000000, 4109632000000, 2548130));
  (0x345443d185e690d031a141468764cc1db1517430c4243bba07ecfa79238d050a, (164385280000000, 41096320000000, 25481300));
  (0x345ee58b8ac202fa27b06280c961b83c9f846cfbef9157c6fa715efc62428762, (246577920000000, 61644480000000, 38222000));
  (0x345f4c34bc04acccbf6d499409872167828c1606d834c7718481f41e2fc21324, (143837120000000, 35959280000000, 22296200));
  (0x34648fc7afca63f3067ede35465aa80959a6c43571a5ef7d49ea056f08d6f404, (413018016000000, 103254504000000, 64021900));
  (0x3472904437978a1a6fc5f2c9e4a0713c5e65b3a2dc1f4270d23abddc96a5ea1b, (20548160000000, 5137040000000, 3185170));
  (0x3473b33161fbea69920863ffaf7a47e87e810e2475d1a667657d761d80aa4c1f, (287674240000000, 71918560000000, 44592400));
  (0x34875373d5dbe0b1923cfc602f757aaf0c785df1d826abe362b0180dfdae9108, (10274080000000, 2568520000000, 1592580));
  (0x34898999f3ec0d0c2afc7bb272fd7f17dd4066f6cd82b666c1234a2d96bdbd7c, (104795616000000, 26198904000000, 16244400));
  (0x349d328cfa04c12c74df5be8c285bc4ecd806d4c24d9302d732e37966b0fec37, (51370400000000, 12842600000000, 7962920));
  (0x34a31d751a0ec52fbf411513a3cee3c7c6c1a2c2bacc3f809f3ead9eb9bae348, (226029760000000, 56507440000000, 35036900));
  (0x34a702b53668162ee08af7f4ed6b58bff07685b409c9e8292705ecf05b6b3b21, (441785440000000, 110446360000000, 68481100));
  (0x34a96d462df2fd896d8c8918e5e86a74f4165c574c22f5242ff7e6fefdce852d, (10274080000000, 2568520000000, 1592580));
  (0x34b454a25c39eee179349e86f053c420910b6fbe3f9e03888c7503a48f926671, (118768364800000, 29692091200000, 18410300));
  (0x34c287cf5633c0c94c519d722c67a3ac5e7f1f4ac6d9114bd6c2f1da282e675b, (20548160000000, 5137040000000, 3185170));
  (0x34c5e796134ae1537e8587334f3d68d12c135ddd30ff06385b5c42a04f58c577, (16438528000000, 4109632000000, 2548130));
  (0x34cd97eea8d7958109c6db5e35eb407390555d9d07313768c374358cda816412, (55480032000000, 13870008000000, 8599960));
  (0x34d4958c64bfc69f7fadcebd9385596fccb2b84759cf698d69d5a5922a1fcd12, (30822240000000, 7705560000000, 4777750));
  (0x34e557f729ad91001738c8856ee71ef12211a8a26ccde6e3b641f98501eb9a41, (10274080000000, 2568520000000, 1592580))
].
Definition rows_4 : list Row := [
  (0x34ecca991120241a39ef8bc1c6bb221742892bb4f694b2425305ea42dbab690f, (51370400000000, 12842600000000, 7962920));
  (0x34f3e032980c70eb17b458d933e45d9be56488fb12c05683201a34d4598f5724, (20589256320000, 5147314080000, 3191540));
  (0x34f4f4236b04e3bf83610b55d3527b50da22aac3ca85ea0d520196835964b67a, (41096320000000, 10274080000000, 6370340));
  (0x3607fd498329ed927ed87477d20b962ebe47b6e8e07d5095200844ac270abe58, (51370400000000, 12842600000000, 7962920));
  (0x360a97b08c741c94c9f134250abf9dd3bc932bae9472f0b5d1f455cb51223506, (4109632000000000, 1027408000000000, 637034000));
  (0x360ca7e970614cce8ef30443881706b85a4cb9d1c66f7a7d18b00efa14741027, (5523345408000000, 1380836352000000, 856173000));
  (0x36152711c0784a8092f4f6b6e9e139a62160ded881ca8507a8b7afceb31a984f, (67808928000000, 16952232000000, 10511100));
  (0x3615946fa8698428b7263a9d564fc6fb3931d681431d7f81e47ffd2347000234, (20548160000000, 5137040000000, 3185170));
  (0x3616e6de126d0b39fea8b7194e088a8708b0be94fa7bc477055b29e5e4e1c757, (139727488000000, 34931872000000, 21659100));
  (0x3617907a9f386ecfa886e6891ba91e9f2aa05f9d30bf223f516c27682d514830, (10813285790000, 2703321447000, 1676170));
  (0x3620770287216a0e5b9b82384faea59466187b169b2e40e3dcff7ed8ff5f6a11, (20548160000000, 5137040000000, 3185170));
  (0x362515b02127456d084ab4e8f84a953ab321160f67e96a93577be93ea663393c, (205481600000000, 51370400000000, 31851700));
  (0x36303c931ebb45a69dd4c1a1d9f6dce8ac6bad904ae83c01bb72a804770cb854, (102740800000000, 25685200000000, 15925800));
  (0x36321d85a4d6d0c19a99fcd09fc4c0d3a7d774ad9fcacf61c80eb54a7ddb2456, (94521536000000, 23630384000000, 14651800));
  (0x36411debcf95dd8f52a321392cb726f60816e5e2bc8fa5245123eee393c69c4d, (20548160000000, 5137040000000, 3185170));
  (0x36446805e880dc4c84f6e136fd82ea23bd4e6edd5821b55feac70f56e678c672, (41096320000000, 10274080000000, 6370340));
  (0x3647a1da0df09562d14124ca72e708b0491719e614dc3409856be0e8110de24c, (59589664000000, 14897416000000, 9236990));
  (0x36698f4c049d5287732a7383b6287165efbb62262708c0db0c5c007c152cbc08, (10274080000000, 2568520000000, 1592580));
  (0x366e156f0a2d7adb52395e6a14ff0c3467b4a30daf3d2faa1cba32f1e539fd34, (20548160000000, 5137040000000, 3185170));
  (0x36729c814dc9275a58105ed45e3b01bdd7446325184e2d1bfa2c1b14c638aa3b, (102740800000000, 25685200000000, 15925800));
  (0x3675c39a4888dde89b362ea5ea4b59e9473701e965b6e5797b349f288de9ef09, (43151136000000, 10787784000000, 6688850));
  (0x367a414bdfb35809b2ab3febb46b75abad9a72cac29918e5501f080841af412d, (10274080000000, 2568520000000, 1592580));
  (0x3685daff3954ac7e74457bd007a84e1c31eecb92f72dfd2e4126e15da771f720, (221920128000000, 55480032000000, 34399800));
  (0x368bcbaac68948ca1d9c2764c22485c7d91bd3e7a141bc16a6c3a0d466036a49, (20548160000000, 5137040000000, 3185170));
  (0x3691a7a7c2b06fd75726685cb0bde9f5c358ce512a53f4f684c44e296bd70263, (20548160000000, 5137040000000, 3185170));
  (0x36af3aa241782efd20d9048355ce607b974ee60c1976a7f250faa31f50d36f45, (36986688000000, 9246672000000, 5733300));
  (0x36b055e23ea22e208753e141e9cff1b6379b21acab5af20a8123fa1cb5482133, (441785440000000, 110446360000000, 68481100));
  (0x36b2f1a7f76110e91711e80777e4866b1a543bd557b00c3bd2a1419aa0e5423d, (102740800000000, 25685200000000, 15925800));
  (0x36b8239af4a66bf9fc3248f95214658d77eeaa0c9fb93c727e6476ebb3d3f306, (10274080000000, 2568520000000, 1592580));
  (0x36b9071c8a754ecf8ba23abd6fa1cfde79a4a62bfc8cf069e7113f347ccf0917, (10582302400000, 2645575600000, 1640360));
  (0x36bad1c59cf0b258fc9862b0b4623024f481718bdee4b285f0ca2e88d1b7ee2e, (61644480000000, 15411120000000, 9555510));
  (0x36c70dbd072ad0a35a40d6fbc19186cd7842b7e40bb2a388b7c9d291d6d54d12, (51370400000000, 12842600000000, 7962920));
  (0x36d4dff04243903a87dc257bee9ef1628b908446dab3531b07f8dd68f710691b, (2091802688000000, 522950672000000, 324250000));
  (0x36de2f79c9b73d785b4879635bfb7a4510fc7819d471051c78a1cad57563ba59, (45205952000000, 11301488000000, 7007370));
  (0x36f4ca2705f4892e59de53fff8033f5f05f11776031a8c80165cdf4c6d7db432, (26712608000000, 6678152000000, 4140720));
  (0x36f73b5476d8c2fb2e764000be30414df174adfc3660d331d334c47c8d38c423, (20589256320000, 5147314080000, 3191540));
  (0x36f8209f634620b65916f7037e272a4f398669c7d272719128fba1b8126f4519, (41096320000000, 10274080000000, 6370340));
  (0x380ead74fba34d16c7c2015a4f2cea6e63376c893fdff4f6dab42b41d6c2fb6c, (20548160000000, 5137040000000, 3185170));
  (0x3810206a31f35d705bdbd2e8bc990f54dd320bc70faded6e8ff995ae7e9f925b, (66781520000000, 16695380000000, 10351800));
  (0x381a61a0d42d3ce1181858e190d92de5e0a071c2cc0738c51228e7d65e62e31e, (542471424000000, 135617856000000, 84088500));
  (0x381ad18f6afba4ec0b760400ec0aecfa1ade19b406e303904bfc2d5702383f62, (102740800000000, 25685200000000, 15925800));
  (0x382bc69d033e57c70795dcab10fd78a900eacd08bab4d3c2bfb490fe333e9632, (41096320000000, 10274080000000, 6370340));
  (0x3832decbfd331bd3f9a7239d611f8e25705e5a6092f9d621f68dcda917c2e14a, (18493344000000, 4623336000000, 2866650));
  (0x3835ab7385d06ff1b97ba466b783bba5f8bcf02bb7cee9083460c25042f96e2e, (10274080000000, 2568520000000, 1592580));
  (0x383fd882cf5ea4e78523ef8d2c518e265282b3d7c6dfab63dcc464cf9b8f092d, (92466720000000, 23116680000000, 14333300));
  (0x38494e54d84f3b4eb129a62dedc63865ee18b73e934eec9722b600fe14401f0f, (20548160000000, 5137040000000, 3185170));
  (0x3853083034d3be75bb425394fd18761942ee0f7e18678119ab05650f2276801c, (41096320000000, 10274080000000, 6370340));
  (0x38765f4eb1f03bf9121edf18c765e7ba787601e0d8bd91d1f2a63443c7a86c3d, (63699296000000, 15924824000000, 9874020));
  (0x3885687f66aaedb2b2a03762b52526c18e19147eaf0cfcf1274966ea8f52005f, (41671668480000, 10417917120000, 6459520));
  (0x3886eb07e7b1fceb377ef66ad0b71744dee644ac6275c4c9bc36740a0856e556, (821926400000000, 205481600000000, 127407000));
  (0x3895044708f353f10acc3778cb5f35915d28db3436b19df105933aa641f46364, (41096320000000, 10274080000000, 6370340));
  (0x389a9372945e403c30636e85c42b526e5d01010aae1f832144cfcb6ffd76765d, (98631168000000, 24657792000000, 15288800));
  (0x38a7ccb880d812864493a2aa534d7b441f476c8946ba630aa29abba9869bea2c, (30822240000000, 7705560000000, 4777750));
  (0x38ab8a3895997aeae39d33a7aaa869a0889dd833c48df4cbfc1655ca5b36e44c, (10274080000000, 2568520000000, 1592580));
  (0x38c81decbd7c7c23ee6aba643e45dc16b9d8b316da181781277a8baf492a8a4c, (20548160000000, 5137040000000, 3185170));
  (0x38ca4eff9ceb604e9f797deeb8167ddd94da052481bf2a15095906adf0191839, (10274080000000, 2568520000000, 1592580));
  (0x38cda1ac7bb9ab631277b4a89a5abe6484cb927b6f068646ee18484964294a2e, (43151136000000, 10787784000000, 6688850));
  (0x38d7b4f00b8e5e943ed564266a0bd92a43457ddfef76645b3c0cffd17e3f897d, (10274080000000, 2568520000000, 1592580));
  (0x38e8bb61ee4356c460445f061dbbfaf0c72cbbe834ae456882d8b5518477153e, (10274080000000, 2568520000000, 1592580));
  (0x38fab76e0e281d8dc77a7499b0de613aa69a2290e1135ca731f9d225000f4932, (246577920000000, 61644480000000, 38222000));
  (0x3a0748fcf49b555c74fd1fbbe63cf36604259a60f200c4de64f7df4ad47eeb6a, (52305341280000, 13076335320000, 8107850));
  (0x3a0cbe608c6ea36a392fc5abb9ec7ebd765d2dd73bd12f6685ef14eed9223a7d, (606170720000000, 151542680000000, 93962500));
  (0x3a0d980632ddeb9d294938e99dc115c8e49ed4e24bf799436976c0dfff673050, (61644480000000, 15411120000000, 9555510));
  (0x3a0e716725f47ac010cd515a391a7825935ade48b476dc2d78f85c7bdcac265b, (20548160000000, 5137040000000, 3185170));
  (0x3a24900663a480b61b4b9d4e57aeeb9cf149b1112e7d1c7d6403bfee0b97c348, (20548160000000, 5137040000000, 3185170));
  (0x3a2f3ec007a4fa6ba27205281abd62458f66ede0e982b0edfe5e4e50bf443175, (61644480000000, 15411120000000, 9555510));
  (0x3a30c83dcf2705c512a37c0cebd2eee3dcca78228843fba593810cd647b01403, (2054816000000000, 513704000000000, 318517100));
  (0x3a3d8d2f55b537821e1c84cfeb50890cf66a6a05289c29bc28fb63cf648ecb52, (20548160000000, 5137040000000, 3185170));
  (0x3a3deeda4608bc776dcb11391f8e3cea096eb1ad0bf4b5dda6935b4afba07b47, (82192640000000, 20548160000000, 12740700));
  (0x3a4f6840190091f93ce8268578dd5541d401c1ff4c52e2d7e74483c3d2737b66, (10274080000000, 2568520000000, 1592580));
  (0x3a5080d58c63fdeac1eed93a0784d01ef4194270ac25fc3f3511999f94a0e952, (51370400000000, 12842600000000, 7962920));
  (0x3a53774f7625c5c64acbb7a43a754e72332f3cf41356e79aa0b684ede13ada49, (20548160000000, 5137040000000, 3185170));
  (0x3a78322c34cbf023c1421df2d56dc6d7d69eb9d034f92b6f0c96bb294e1ea74e, (61644480000000, 15411120000000, 9555510));
  (0x3a852882394f210b828fe26b987d3b53b3975295d6aa4a209efeef08594a7a29, (12328896000000, 3082224000000, 1911100));
  (0x3a88292475d669b92c13212fb809613f9159efd9924f7b4085251db8322f6430, (410963200000000, 102740800000000, 63703400));
  (0x3aa26c407c5529cb33e4caf6bd112f43c6c9ef1acf823a221c8d6915a9686275, (26712608000000, 6678152000000, 4140720));
  (0x3ab1bfee427404dd704ee2904650b476f2671a8743228318a6f7b315e21b6d31, (10479561600000, 2619890400000, 1624440));
  (0x3ac004291b8f1c55f7b3adb9a906494ff738d626cd0b36b1d5948d31851f471f, (10274080000000, 2568520000000, 1592580));
  (0x3ac5003a88e882061d73def591774329498a4905588e175f88ffe7108bee9d51, (10274080000000, 2568520000000, 1592580));
  (0x3ac830b37509a69c5414324eaeac3a9c90a2eadded5b7b4eedf3ed8be07a2a36, (313992117800000, 78498029460000, 48671900));
  (0x3ad8137d5246e5d62f7b6072852c075540d5e1ac6c01bd30433e975af4939b01, (12328896000000, 3082224000000, 1911100));
  (0x3adfeb4f77354bb94c1ed5852f4fec58428d01b244eca8bac47bade83529c766, (182878624000000, 45719656000000, 28348000));
  (0x3ae070442034d3c9ec6ea4c3df5add36d7268d124bd0589a3b4d044a5fdc4b0f, (106850432000000, 26712608000000, 16562900));
  (0x3ae302be2c0bfcba0e87b4d87d662fb86523ae90624bad2eab979d7908a65342, (41096320000000, 10274080000000, 6370340));
  (0x3ae50c788d74d3634d6bb859e2e46a029aa4a56ea1042a8cde6cb644013cab17, (108699766400000, 27174941600000, 16849500));
  (0x3af1d66df543a4e2d225f95d07812c7872c8779e662e1aef6bd69e8c878c6c6a, (182878624000000, 45719656000000, 28348000));
  (0x3af3159aae731bd4933f7577a3115299c58f15462a7cbaefef5f742aa55ef937, (14383712000000, 3595928000000, 2229620));
  (0x3af9837208348269c62fa993127ecb7752348588ac0448398930ccf5201b5d76, (20548160000000, 5137040000000, 3185170));
  (0x3af99d30bec7be21f7c7e451231ea652d7704d77cb35b72ed0eee2115e2b1c78, (371921696000000, 92980424000000, 57651600));
  (0x3c00d244c09afb42459c05879a3a266a423a8a7db4025ff21461f1e05a6e1f68, (12328896000000, 3082224000000, 1911100));
  (0x3c0a5874cd5474d6fb4f0a01d4c2a4f9678d1329ec84479d804d098a2c198c5f, (10274080000000, 2568520000000, 1592580));
  (0x3c0e96c66bc9e0d811c89708f5718a444db1b46bf0a7ff3991b1dd5f47a39518, (20548160000000, 5137040000000, 3185170));
  (0x3c17e63c8ddac22a6a1aa95e3a7342a23bc75121ed9f8ce84ffbbc89c58e5e68, (360620208000000, 90155052000000, 55899700));
  (0x3c24916d7df658bd8cb417c759dd8bf418a871b2a4963a33c4eb1017c519c077, (30822240000000, 7705560000000, 4777750));
  (0x3c2f53e4c024816323a465a2459acd5a35fc00db72948ab11abcfffb28bff20d, (10274080000000, 2568520000000, 1592580));
  (0x3c34b7efc68b8c2e9cbd5fda6fd8cfdef7fa26a4a66aa0f0f4af5e7931a3dd7b, (30822240000000, 7705560000000, 4777750));
  (0x3c36970e4f759294ab646c7f67b040039321069951f955e3e9daae8c0df00e7b, (10274080000000, 2568520000000, 1592580));
  (0x3c371a66fec2f07f3314b87d287f12ea93371e8c341ab3726c680b3803363d30, (102740800000000, 25685200000000, 15925800));
  (0x3c374bb4f513ee045bc14502410ab39424a0b25a0bf10225d7685b1bfc6db924, (20548160000000, 5137040000000, 3185170));
  (0x3c3d579788089bd33e626ca9c8db5e4a3b2a57e52e267d448670fddc7e0d722f, (20548160000000, 5137040000000, 3185170));
  (0x3c3fa62703b91b111ae43d31ffb7d6fde6013e612d3ca893aa017cdb6b611157, (20548160000000, 5137040000000, 3185170));
  (0x3c55c2660d7ce163c2fbe7d99117c1d585fde4a2523dd8fd1abd4a7bc8a93372, (308222400000000, 77055600000000, 47777500));
  (0x3c566ef223c1c85fa3a2d99bc341d9d9d63208b9fddfa85ddcaf018716f31923, (10274080000000, 2568520000000, 1592580));
  (0x3c5733bfdee9a0775c3f0044743276482d8d9450977a3186632cc95e51184f4c, (28767424000000, 7191856000000, 4459240));
  (0x3c7d633b3042e1c3eb82b1d6354ffe9075ac92c78416597d010cd8ed3df6961b, (10274080000000, 2568520000000, 1592580));
  (0x3c816e939307241f3238bca4f3dd216aa88e67f59999477dedc04e2e67a42732, (51370400000000, 12842600000000, 7962920));
  (0x3c89b05436bfdf5e1e3752248ca7a2350851fd8f51bfd3a694d2d29c27dfcc41, (207536416000000, 51884104000000, 32170200));
  (0x3ca24627950269c5169a41b601360676849face1c34ec0a6f968992960fd0c18, (102740800000000, 25685200000000, 15925800));
  (0x3ca64be18d02ecb3b93571b2c74c47adfdab557d6a151216015973dd53725b3c, (164385280000000, 41096320000000, 25481300));
  (0x3cb670b98eeddb11a6aa2db6082cbab9cf288cfaeff65a1c3a294ad884e8e944, (10274080000000, 2568520000000, 1592580));
  (0x3cb77207431c2208de95b84dbdd1ecd67a2c636ec818e09f09cdc41503f49743, (10274080000000, 2568520000000, 1592580));
  (0x3cdfacb7ed3efe4623d0f455a31636f5cf6bc46ba6fbb631eb56ca806fcffc2b, (20548160000000, 5137040000000, 3185170));
  (0x3ce5519f6fb5808475e186d54423480f86cf34b6fc08f0058f90e397225d2601, (140754896000000, 35188724000000, 21818400));
  (0x3ced4b5fe3e5e5aca173b2631e9200a23b51a0c63ffceea891284a65c8dccc14, (205481600000000, 51370400000000, 31851700));
  (0x3e086f41537ce611685993378d00f7732081e2e28707d1bbc3b9519480f16a14, (205481600000000, 51370400000000, 31851700));
  (0x3e0f59d286e927cab6d6626911d7d3c5d9b699dc9902daa3b8f2b14ee734dd65, (2054816000000000, 513704000000000, 318517000));
  (0x3e1daf4452332c741e74cd46c056901f4e704515c6e69339761bafc26081e547, (82192640000000, 20548160000000, 12740700));
  (0x3e22c4a9388aad7e5128757d8810b2335bc13839968cbcc691adbf551107241e, (6328833280000000, 1582208320000000, 981032000));
  (0x3e24f38a5afdecae9767d1156066b730a7ee09170d47f4fd4b75a3e92200e053, (51370400000000, 12842600000000, 7962920));
  (0x3e2d2b6f817d02630956a85391cad601179de507fe0f66c1ba12f326b58c8873, (10274080000000, 2568520000000, 1592580));
  (0x3e3bdb55f084967b5812d4d6a4777f2222ae2fdf927ed45254df6ed17cfc6e0e, (10274080000000, 2568520000000, 1592580));
  (0x3e3e925fdd464196b4dc5a375f4caea2fec31f778d951fbf8916409d8e15b416, (10274080000000, 2568520000000, 1592580));
  (0x3e466344016921fc2d7933b354a63350f50e00eed83ef8f8871ab91befbc9904, (20548160000000, 5137040000000, 3185170));
  (0x3e4830f109e8768c94aca32dba50a1192d964e2f177184d66fc949117d05c239, (205481600000000, 51370400000000, 31851700));
  (0x3e4a67599515e93231e0d1aaf0ac90610cbcc64ffdb685e18bc099cef81f3c1c, (205481600000000, 51370400000000, 31851700));
  (0x3e55626c88618c817760551865429819e895c2238f51eb1af4370f324ed98b3c, (10274080000000, 2568520000000, 1592580));
  (0x3e5969a921f7be78745a90ccfafb59bac0a120c2d0b647eacf0d3cf4a71c5728, (20548160000000, 5137040000000, 3185170));
  (0x3e63322f03566941d087cef3b4eaa91e71d37c2d45bc2c5d7e9989c0c9b82615, (174659360000000, 43664840000000, 27073900));
  (0x3e67b64cf57368202a0fc50a38a129772d2253fb0490f129b5bb18e4a57e5f7a, (2231530176000000, 557882544000000, 345909000));
  (0x3e7814dc324a660160432435576392894baf94735e5fe82aeeb8cb003cdef035, (115069696000000, 28767424000000, 17836900));
  (0x3e7968994919b50b17bca14eda4e574a057d4c9201bdc856e77c95782fbd5404, (41096320000000, 10274080000000, 6370340));
  (0x3e7bc027b4af5d16e54a98f1608e3a711e23210c3efb98640c746c5820627512, (51370400000000, 12842600000000, 7962920));
  (0x3e83878e8e656b7b088e61dd144430ae5b37d3810a404f5172335162248e8a18, (240413472000000, 60103368000000, 37266500));
  (0x3eaaa6a0187e70fa1502a105215a2a17af91617277d22e530619c32585a98c4f, (10274080000000, 2568520000000, 1592580));
  (0x3eadbd11b3fdee34e5b61ac7f5b84ad973b167726c240f8e3e1049d73a304c65, (51370400000000, 12842600000000, 7962920));
  (0x3eb3a8307a61eb557fea14060a343c107aeb2837400e0c6813194b20c9cd172c, (71918560000000, 17979640000000, 11148100));
  (0x3eb3f50506446e0158ce9eddc385912bfeb0dccb9cf1883f81fbbae7985aff59, (13356304000000, 3339076000000, 2070360));
  (0x3eb7784ad35248e594016e1edc7573fe835c9b9c38198ead4a68a876415c8733, (115069696000000, 28767424000000, 17836900));
  (0x3ed5135d44bf06f3827452bfd2c5d526347d35611cef273751ef17cb053c5f1c, (20548160000000, 5137040000000, 3185170));
  (0x3edc0a764b30030a43eb179bda0a0f68382913813fcb6352dfa49c47a4b91300, (10274080000000, 2568520000000, 1592580));
  (0x3edd53fe4fbdb56bb537f274e8c902fc65832f4e053d0920659caa7459f9b95c, (82192640000000, 20548160000000, 12740700));
  (0x3eef51655dc73ac2f5730afb0107e12d034b6c277b72d34d88835584d325f475, (10274080000000, 2568520000000, 1592580));
  (0x3ef35ff6cc6bcb20848cb3a1aced34857803e599db606d03ad8de529af64a923, (10479561600000, 2619890400000, 1624440));
  (0x400d5db14d599e6a0eb30dbd99940ff6ff6e438bea834484921d3a22a9ad6213, (503429920000000, 125857480000000, 78036600));
  (0x4011e539b82c3c92b1d6fc6e0ea485ebb0cf4b9e26afd75a1a85db023a837b57, (45205952000000, 11301488000000, 7007370));
  (0x4020a719cbfd152bfa80fdc9eccd5227817928e9f3aa3e8d36b58eedd0c9902c, (10274080000000, 2568520000000, 1592580));
  (0x402344ab1cf026f07c2624be20572728fa50ff140fee43cf2b193e94a8c4ca48, (20548160000000, 5137040000000, 3185170));
  (0x402d251d0db42505babd35457e870cf93a9168c41a1048c41889114a53f2553e, (10274080000000, 2568520000000, 1592580));
  (0x403412003c7e053b927bc3172a8bb9771b6109f1b6b962c52a698ad010784d5a, (30822240000000, 7705560000000, 4777750));
  (0x403b3b24bd56c08085f73f8b32b61da408d366661a23e3fdb49d422966d5473e, (250687552000000, 62671888000000, 38859100));
  (0x403e64e0ab5454617de3640cd518a9283d45f6f462dc49603feddcfaeb70c06b, (10274080000000, 2568520000000, 1592580));
  (0x40449914e321c2b94518083c6d6acf1c27c33848ad562ce5636f01924dd8be46, (431511360000000, 107877840000000, 66888500));
  (0x404b2963a43b0f6aca3bfe2268f7b5ae52d5ec91371844806b549c8af9581344, (201371968000000, 50342992000000, 31214700));
  (0x404b96f070d5fff7b0e37832325cddb7eb287ade11efdbdc8793dd98afddbf3a, (82192640000000, 20548160000000, 12740700));
  (0x404c08d0629b99483a734ad12320b5018ee38c500bfa85bccd7f0f8db8a1bb60, (20548160000000, 5137040000000, 3185170));
  (0x404e75d615d632baf0f674eb6d960301ab012d2de853663af69e5bdb4aac250d, (63699296000000, 15924824000000, 9874020));
  (0x40691b9ff3302e48af50702b16fb1ca2bfbd09c9339e8cc4a0687fd76172433f, (2465779200000000, 616444800000000, 382220000));
  (0x406e535284e7f185b6b8ad97af6835c52b2407a55fc4bcb7e5f57b93a5442e0f, (71918560000000, 17979640000000, 11148100));
  (0x4078fe2b0e66346fbb72ce5e5c8c396bf2177c29a04972f751ad6d8e9d046b45, (20548160000000, 5137040000000, 3185170));
  (0x407e6b5719d050429ae28742e149b90befc961a5123bea10725b97ef49439873, (16233046400000, 4058261600000, 2516280));
  (0x4084f09187c034b20c21b31073062d9612df9ce030bae340bdcf402dd3e50450, (10274080000000, 2568520000000, 1592580));
  (0x4089d31917c77e735b38cbb915b299b5ff16f33d162a567b699c16ed30b35677, (272263120000000, 68065780000000, 42203500));
  (0x40902679ea4a760daf0ad8bbae23ec93a1b5ea5ce5957b2ec88199fa87cb5b41, (240413472000000, 60103368000000, 37266500));
  (0x4098ee63189a254a5e14937856485e90f4562b2f265ab411abffc49f348cb739, (51370400000000, 12842600000000, 7962920));
  (0x40b38b132e5f9c615ba14ad9e74f1fca71f0ecbd86969493f636375c2de7bb22, (20589256320000, 5147314080000, 3191540));
  (0x40c473261890863c9a21a9a2a899a7ae561170eeedc94fda3a0b8693ed16d453, (61644480000000, 15411120000000, 9555510));
  (0x40cd14fe6994eec73db07d3420870f0863d5077ea7ac44f7938135e5e1d4c620, (41096320000000, 10274080000000, 6370340));
  (0x40d169c5b030fa95a2bfb6ae434ff81a88405551e76e666c3aa754ddfbe2c842, (10274080000000, 2568520000000, 1592580));
  (0x40de9cdec5032279e709d852cd3b21ad97ce4bd09801496ef86d78a2ce81d503, (42640103250000, 10660025810000, 6609640));
  (0x40e4bcf1b34d3f2f742d8da0aa1bbf3e1e50317a993b06207fabdc5a2958d448, (10274080000000, 2568520000000, 1592580));
  (0x40ef174af4d1d50f449745253241cd46fbafd409db47e5125c85b9ff7fc89267, (20548160000000, 5137040000000, 3185170));
  (0x40f5c323734a251c6952da212c20738cc0184818f13cce62aa9e7366a2327253, (20548160000000, 5137040000000, 3185170));
  (0x40fca29b22b07e0287315493b8061c714c52894d5502b5d25379a4d819de1933, (625280508800000, 156320127200000, 96924700));
  (0x41ddbce530afcf3f63465fe2be5b0faa87b96efa01f5b7b5ad2342aaa69702ba, (410963200000000, 102740800000000, 63703400));
  (0x4215906a4e7eedc4220f35a55d7b6b8caaac1a8a7693b8cfb877857e5e84b36f, (400689120000000, 100172280000000, 62110800));
  (0x42174c2fdd802043f7f74c63d188b8b353879e475445fdbd52dd9f5e07fdbf37, (51370400000000, 12842600000000, 7962920));
  (0x4220346a0304b22b01822a8d2231f7824e004c99f59af6f18aad7eff0aa79356, (182878624000000, 45719656000000, 28348000));
  (0x422f3ab236d39d687acbdf1741de54037e64cc0e024569c19bbfc8888e64697a, (318496480000000, 79624120000000, 49370100));
  (0x422fd09302871ed7f2491a05bfa467abf7528ad62844499accafefd3be02dc0a, (41096320000000, 10274080000000, 6370340));
  (0x42350ad0d92e89dcceabcf3e37bc16ad29f9f6fbcb45ccf085d75d1c54ddad5f, (10274080000000, 2568520000000, 1592580));
  (0x423aa42ae8438d7efab9b18d3550a7cb0fd3f51eed8164f0997c67658dfe6636, (104980549400000, 26245137360000, 16273000));
  (0x424b700195404a264cb53ccea2e64b742431f164fa5e739147269ac1495bcc44, (43151136000000, 10787784000000, 6688850));
  (0x424d7bbc26bc14b011a0f51ecaf691314f31abaf3e96a58db79e30fceda96707, (20548160000000, 5137040000000, 3185170));
  (0x4250776064662f564c86cac51135706ba1e2720dab813951920e6375afd68815, (143837120000000, 35959280000000, 22296200));
  (0x425083545a3e28fa692df55c65fdf9750e20cd5736200503849b5cb915ad0d07, (10274080000000, 2568520000000, 1592580));
  (0x425326294449d51ef725ed8a810517e22529144ea808aef1e4a6fceaa5d67c6a, (20548160000000, 5137040000000, 3185170));
  (0x4259d5779999b80204da6928aa28aa3d74fcef24d7f97afb8815c87e240d6579, (56918403200000, 14229600800000, 8822920));
  (0x425c5bb5fcb9a44cd245b990e82f815e89132bcbd3fb1440803073c4d33aed4f, (102740800000000, 25685200000000, 15925800));
  (0x425eb50617ac852a510f6b7018d12ae2fce4a919b5c732445c9700fb909f9a24, (10274080000000, 2568520000000, 1592580));
  (0x4260dfdd7071e7085a966fa2cb46d87b8bbd2063feacc0a84fb4b76b9292590c, (61644480000000, 15411120000000, 9555510));
  (0x427098e40d7d668e0409538e5d66f16dc2690ed0a9c32baa1f70ef496cca2e22, (12328896000000, 3082224000000, 1911100));
  (0x427b9f69c2cf9803630ddc7d7584aabc1aacb7d0a5386e50ab028b893ec73a6c, (102740800000000, 25685200000000, 15925800));
  (0x427d87d3779cffb27352f8df06b9d509071f3993c870501ac29c5f2738c4537a, (41096320000000, 10274080000000, 6370340));
  (0x42819be63ff3810f07d2ecaf98458ec862478fc1f9e00c20d350930975a3a604, (82192640000000, 20548160000000, 12740700));
  (0x4282281642315dfb77a3e0d112b17a3a5b91832ff74602858041529be52af02f, (168494912000000, 42123728000000, 26118400));
  (0x428cd6fddd4623e3cbdf793d879a2e94dd36a2ff5264ae75e10fc18d200d4862, (102740800000000, 25685200000000, 15925800));
  (0x429582c2ede4aae28e3c082bd649809b74f63d96e0e4e3f06a05f16f54179f59, (41096320000000, 10274080000000, 6370340));
  (0x429d961ff8703af927182b5bdb6534d2bca5cdb86ef88bd1e77f896f5c58aa6b, (1027408000000000, 256852000000000, 159258000));
  (0x42a06addaf9a9cf4aedc26f31cf4c9ed4f050414c637a5eb9c1abe0946e76157, (20548160000000, 5137040000000, 3185170));
  (0x42acad59567e323da7dec568e82f4de6b6475cff0eb2332a288946e0c7694140, (205481600000000, 51370400000000, 31851640))
].
Definition rows_5 : list Row := [
  (0x42af164beb685cf57d36749a6a970eb74d3b9d0d22799ca6edd649ecfa689336, (10274080000000, 2568520000000, 1592580));
  (0x42b80f7c6af6691f481ecbb93f6233c7d023df9afccd3791f60518a71e017d14, (30822240000000, 7705560000000, 4777750));
  (0x42c5ff61b066f584cd09faac878bdd10e7c6ba3b1730e5e5da0598eb449eee40, (30822240000000, 7705560000000, 4777750));
  (0x42c843ba0d6ce549ff9964bd8beff23718a9dec048d8e9153ca821ee54cfa547, (20548160000000, 5137040000000, 3185170));
  (0x42d817c1f67bfb1bd6ab93a5db44d1135a2dd1725c40f1b58deff55e247d820f, (154111200000000, 38527800000000, 23888800));
  (0x42e3814df5bfde975d6133ebe83803d157bfaca2d933a0f019c67dbe45571251, (205481600000000, 51370400000000, 31851700));
  (0x42e8f86aaa57648134b477ee0595abfc0369bc52b908255ae89308e0f90a1e4c, (102740800000000, 25685200000000, 15925800));
  (0x42f191a65657b0b022deef94e2ec3d02427f8d765f1e7d66b3904a6b2cf4b13b, (22294753600000, 5573688400000, 3455910));
  (0x42f19dc49746b4ef2487dbb6eb5aec31bfd0c87ce08a7520b35576f640afe256, (16438528000000, 4109632000000, 2548130));
  (0x440324de1ffa67bd716ea2b60e8ecbadb3dc98c8a70dd3c81e43256a1ff0867c, (745898208000000, 186474552000000, 115622000));
  (0x441e8e1126f5396a01dc936e5338087a2d23254a8d35bbf955daffafe901ec77, (10274080000000, 2568520000000, 1592580));
  (0x442290a6f9f0dfb316b41f1025eae9fb0ae851754bfa3ada8f6d40ccf5fb9822, (279454976000000, 69863744000000, 43318300));
  (0x4423bc5d90fe1768cc88645f5ff7dddad481f132e9ae93bf96254e92b61ffe47, (65754112000000, 16438528000000, 10192500));
  (0x4431fd795d742a6477e7deded9d839bcce0082dc0221bb9e2758c73258de8624, (10274080000000, 2568520000000, 1592580));
  (0x44592f1e2175c5917d67f2eba9cd5955a5e0a5b477c2d968c23cf41a70e79e22, (20548160000000, 5137040000000, 3185170));
  (0x446fb2b694108fc7f487e956ac891b70bbbb28feee216f61068ea8b74d6ca142, (205687081600000, 51421770400000, 31883500));
  (0x447051e6e28f65b02655cb88ed4ad7a9a71c4a4882303463c7e8f13101c26100, (20548160000000, 5137040000000, 3185170));
  (0x4473ba5b0a74e7bfb53454250fb5833cec09f0406fe4a19251dfd3336e233720, (102740800000000, 25685200000000, 15925800));
  (0x4483611f4c5e97be655bf0525965acb9f7bea069ee64e74c551315758f390e35, (51370400000000, 12842600000000, 7962920));
  (0x448a7c4962b2446fa2f0af92211dd18b240e3d30089e5d2a67215e64428a2a5f, (20548160000000, 5137040000000, 3185170));
  (0x4490713aeaac437e90cc91f7f00578d7a5a2e8c7ffc024c24ba46c8d8817ba62, (20548160000000, 5137040000000, 3185170));
  (0x4498d746b70bc7f435cff5933b01bc2b5724ef649ac90c257cddde8c21570116, (154111200000000, 38527800000000, 23888800));
  (0x449c44c1fe1d7011be7fdc5867a4dfbcc1915cc80c11cf7083d39dda8ed3e600, (625485990400000, 156371497600000, 96956500));
  (0x44b01e6c26c6bc97243d63d830545b4e7fa2cf96d8ad07a76a8d2659c6da035e, (10274080000000, 2568520000000, 1592580));
  (0x44b92febce4a80b94b033cbd2bedcaf2e40f42027a8c5e479cceb26ad843406b, (30822240000000, 7705560000000, 4777750));
  (0x44bec19c85969a173de98b0d8bfeeb97eb103a3031c081038981640e79557f65, (51370400000000, 12842600000000, 7962920));
  (0x44bf5404c370022eea27922502031ce7372b60381e5079a36e3064a126c12723, (20548160000000, 5137040000000, 3185170));
  (0x44d4906ef49aa72b05e38315bb973563434473bf1d6d4c95fd7d1e04db39585d, (205481600000000, 51370400000000, 31851700));
  (0x44ee9f248f3dd666f3d5832fe5555533dc82e90f4fdc0ca29ede8eb44515f552, (51370400000000, 12842600000000, 7962920));
  (0x44f6314af9d2e8c484ce2b1e971c0da6e0b335b8310e94ac0d9f2b9f4bb6a50d, (215755680000000, 53938920000000, 33444300));
  (0x4622bc5c162ccd397bd674291252457817c94350767378bfe1c4e36f08b80d6b, (309249808000000, 77312452000000, 47936800));
  (0x463cd3d6a7ff3294b4f3636c73e0c6757578454d52a171f71fe0e0e0c68dc773, (39041504000000, 9760376000000, 6051820));
  (0x46548ad352801b92da95b0102be92d84503e78fd47bc3277b51479c1cbe82632, (13561785600000, 3390446400000, 2102210));
  (0x4663a3957dd9e397dd3f99c47c9bbbab4f78c80fa8d7acf066bd654a4887204d, (30822240000000, 7705560000000, 4777750));
  (0x4668ec86d6a3fdbb8d366cb88472ffc50c9c6b68de871092a0988afa6f0aba78, (36986688000000, 9246672000000, 5733300));
  (0x466b08d7643bb0876d52a18b6a4d4dbf9513ddf474a1dac3ebe8fab51aa2a845, (2054816000000000, 513704000000000, 318517000));
  (0x4670e7ca748d702fd16ee19e7c0f8c973e06ba066b82117225f34628c7d7c26d, (384250592000000, 96062648000000, 59562700));
  (0x4674af11de06100aa428cfa93cffb2364b95111992e6cd5ff6b29e2a41d8a47d, (12328896000000, 3082224000000, 1911100));
  (0x4677d7e990c44fee666bbb580fa32cc2e6cd77943657c3a397f0199de5b9866f, (20548160000000, 5137040000000, 3185170));
  (0x4677e50ce11c93615e680c5940a3608906a5638d4aeb9feb3584345726402046, (30822240000000, 7705560000000, 4777750));
  (0x4688e2ebdca0b9e7c2004a061ff8443e8861886195807f772d3d6fa7de4b8235, (205481600000000, 51370400000000, 31851700));
  (0x468983b0896d8703783885afac60dcb739129bfdc60cfd09df44e5ac6f3d1e2a, (410963200000000, 102740800000000, 63703400));
  (0x468bc4b6fd46405d797396d66d045efa706d221694c73ed9be397bae971d2734, (11022238510000, 2755559626000, 1708560));
  (0x4698ae47d9b8b3aa1b68740c7605fcf0e47070c7710b731f3b036d5174f31c21, (22602976000000, 5650744000000, 3503690));
  (0x46a13b60cab3e7a498f5e426434a7c0ff5a8e53070d066ede762dcf1de0c6110, (164385280000000, 41096320000000, 25481300));
  (0x46aafdbfbff3f1f86e0a621eeecaf9eb80df57488777b055f6ef7df431f6bf00, (20548160000000, 5137040000000, 3185170));
  (0x46dae93d28adb87116c5edefcfc6a5445cfd6b1a17a9c882f081a75603647c05, (10274080000000, 2568520000000, 1592580));
  (0x46e6c1dcd239f691e1cddc7fdc94dd259c9a9829b97055866c8d6f1e0398435f, (823981216000000, 205995304000000, 127725000));
  (0x46e9b2819e8c88b530281ba3a3254093f8a288f48b310c58b6e0984fa605f341, (20548160000000, 5137040000000, 3185170));
  (0x46ef5dcbba541d629fd5ca850a9808102c622245498938fa2c2f4e4b5adebf5c, (20548160000000, 5137040000000, 3185170));
  (0x46f26d118e6eca29a16f80dbb8271021888dda083f9d36b3f2ffa9300660fc1a, (82192640000000, 20548160000000, 12740700));
  (0x46face0fc5a568ada715a41a71f19fd64dd5d156b319474da18f792ef890715b, (365757248000000, 91439312000000, 56696000));
  (0x46fb5505e105087be2c0b92840546a8bcda2cfd2a5ed184e6d75c7267fc58257, (94521536000000, 23630384000000, 14651800));
  (0x46fb990370e7ef032e06223ec66b2337de5d92256c9423b2c6cff80e5b45405c, (10274080000000, 2568520000000, 1592580));
  (0x4807229fd43aa1ae31ed1b0a3683a6d5e41ff9396c7fbb806d26987aadf1ce00, (10274080000000, 2568520000000, 1592580));
  (0x480d7a6ba15c623d124a928759d898d590b8e7aea15af0d8cfa36ce67e018032, (41096320000000, 10274080000000, 6370340));
  (0x480ec2fcefe9af7f048caf94cdd39cbc4640abcbc6a870300f6cb2efcea84302, (61644480000000, 15411120000000, 9555510));
  (0x4825c62c7df1c58f700790ca3acb1869f13f7a85181527d6c8dc50a2fd160f34, (22602976000000, 5650744000000, 3503690));
  (0x48262480f3221ff2492f26eddd31860fec8357a944872a177ec65640e612a22d, (205481600000000, 51370400000000, 31851700));
  (0x4841ba6357252178e755bfbe6c87b521567e04e11c996a685deae5cc9e977859, (10274080000000, 2568520000000, 1592580));
  (0x484d411a8412acb43b88fd5ea11dd329e875753bafa6f678c961c59c6b8ebb00, (2745316369000000, 686329092200000, 425551000));
  (0x4854106d8799769ccd3a2ffbde5096e286c0838ae0c33a642013f381ba7ebe17, (308222400000000, 77055600000000, 47777500));
  (0x48791c43f8c80e1019ead275370e9425e1038fa7d354992e3dde499c35111f54, (12328896000000, 3082224000000, 1911100));
  (0x487f3412c2a77ea6321ec2e7e1672768d408765dc58f53c6a40560a7df8b4b48, (49315584000000, 12328896000000, 7644400));
  (0x48892aeb6afc77cc8ec4df36519824b306383d445472c12dd28aca0651c78c2e, (565279881600000, 141319970400000, 87624000));
  (0x488ba977116b06318c83c7cca878b0107f1f0cca152e26bfa71522f5cd860415, (246577920000000, 61644480000000, 38222000));
  (0x48a83442c4688b56e50655e1558fdd1d4109b56b4bf09763f74c508a744c6774, (20548160000000, 5137040000000, 3185170));
  (0x48b0842ecfbe6666e4ead4d6ebc1a89234377d89d9ac4bbc2c7db893ddd85731, (10274080000000, 2568520000000, 1592580));
  (0x48b8912ccf1c054f107addeedc2323f65e1b1bf72a1745bed1bad2de8508b948, (246577920000000, 61644480000000, 38222000));
  (0x48bd12f3bdd1e08a659d253ab60871cbf9c161530b862d4a9217333ff4c50506, (18493344000000000, 4623336000000000, 2866652000));
  (0x48c08d1a9a52490720eedfd35e0f6b564e551cb7e58cb8171d1d6488705aee27, (10274080000000, 2568520000000, 1592580));
  (0x48c1ae3a200f0360b043e821ca44da6a525ff9d64157e3279c28fc6f6f2e6250, (123288960000000, 30822240000000, 19111000));
  (0x48cccf97cb007e43938b12d78f8891f9ff63e86a835c12f10473240c52b45b3f, (20548160000000, 5137040000000, 3185170));
  (0x48cd1d17750a7da8eaba99a9521b8c19a092abe945945ad295591a4f42fd6027, (10274080000000, 2568520000000, 1592580));
  (0x48d27d7eb768c17283d720fa305d69d42872e4bf34c90c1c069122a4ae81715d, (10274080000000, 2568520000000, 1592580));
  (0x48e49b7f8953a6e0780d9e4b30dcc71d17d0e800a5553273a2f50c64c6707129, (205481600000000, 51370400000000, 31851700));
  (0x48e55b116fff5237b1b44c02cdc5a402b23c56040986394c265f15b4d317c12c, (127398592000000, 31849648000000, 19748000));
  (0x48ea648b83c6bf3d37999f6687cafbc7637afa378f8f4c6f04b5585353087d4d, (30822240000000, 7705560000000, 4777750));
  (0x48eb66a748955a47878fbf9617928f197b6aa40f6fda478b0f1e21fa4e14321b, (12328896000000, 3082224000000, 1911100));
  (0x48f029356d3c073abc91609e93e0a4a46000775b9afcadb6ffa3baf9516bab70, (10274080000000, 2568520000000, 1592580));
  (0x48f8eac8953caf91052c6d1d13efec29525ac334d407749214c130ae9e772d04, (10274080000000, 2568520000000, 1592580));
  (0x4a18bc29ce7ccf8ec47fbe56fe07c1b881dd81d9f83ed1024069fa8cd8be921b, (1027408000000000, 256852000000000, 159258000));
  (0x4a2329442484e963800ebd535849cf5bbbc472e5e972630f9346a3bd2bc71845, (71918560000000, 17979640000000, 11148100));
  (0x4a29631ee23975b287c53d3247f9508892618929c7147f22f3cacbc2ad7bc938, (123288960000000, 30822240000000, 19111000));
  (0x4a29f4c40a219b9746451a0161ef03fb3934ead1150aa0a17a3338d0f8c5bb57, (30822240000000, 7705560000000, 4777750));
  (0x4a42abbeb9581e652ca16d32ce49ee600c0fac4ee978c05fe30f7008d89e7229, (141782304000000, 35445576000000, 21977700));
  (0x4a4ad4f94423822d50be4ca502bf02d31cae9274ab860e3230256c61de40e431, (20548160000000, 5137040000000, 3185170));
  (0x4a6484f544761c388caed4ad604c8c804e565c68752ac04731b081c0951dba20, (513704000000000, 128426000000000, 79629200));
  (0x4a693433fbc3715e79bb66e002e67f1eb1efcd60bb61f0fb34bc110660844253, (184933440000000, 46233360000000, 28666500));
  (0x4a707f69c1305c12f4915a75b28f189bd2bdc6dfe53812bd01464a71cc315901, (410963200000000, 102740800000000, 63703400));
  (0x4a86e8003edd462e063cc2e674f19c3eb77dde9eb65e8cd2d5026ca9d961c20c, (71918560000000, 17979640000000, 11148090));
  (0x4a922e13c90cec7c97735742ab93a066b6f25f01ac604f89d912286cb045412c, (10274080000000, 2568520000000, 1592580));
  (0x4a96ecc465d083860a81d2dcc2d093cccf1221b074bbc70c4bc08cc9e6b7e412, (164385280000000, 41096320000000, 25481300));
  (0x4a97c5c19e3da3a8d3ef9eb607b2cf8e1fafd6c23b8a9d13c659fd01e24b4253, (647267040000000, 161816760000000, 100333000));
  (0x4a9b67ab95cb18fa8bf11f7b59fedd13505a6eee3afe0e7c7c34a0f01ab5544b, (205481600000000, 51370400000000, 31851700));
  (0x4aae29362a2be024798f3864dfa0245eb06a11a2baef8d4684283c867765621b, (10274080000000, 2568520000000, 1592580));
  (0x4aaf77cfab6036bcfd88b875b599dc5103fbc6eb0663ee576df0761ffd48c041, (34931872000000, 8732968000000, 5414790));
  (0x4ab96a82cc9a32d8e6b000f3e69172b023d6fb70c08a3beb691164541f467d37, (205481600000000, 51370400000000, 31851700));
  (0x4ad8c9d8ab9dde583958345342849929a6dbe1b889c62f8ce3588de279cceb12, (123377111600000, 30844277900000, 19124700));
  (0x4adcc878d56a58cf5466bc93567e37ef22118a641ede04a2ed38e8077d43cc53, (57534848000000, 14383712000000, 8918470));
  (0x4af0650d7e3996c0fc6a90c0ec2167c9bc371268ee561d93e1f60b192d4d6c01, (10274080000000, 2568520000000, 1592580));
  (0x4afe2975b7d764b9c65f3b5b91d165b1134bb740533df533b5d19d2e3fb05843, (410963200000000, 102740800000000, 63703400));
  (0x4c0dfc01c8a924b0b99bf196b6b994c62f44095ff6370ae4787ef4478651fd6b, (10274080000000, 2568520000000, 1592580));
  (0x4c1383fd768ee83c1cd53eee57d10f21bb61eb6d37360fd34565ce35e5c5241f, (14383712000000, 3595928000000, 2229620));
  (0x4c22a59222347ae69121115eea2674155599f5cb5ee724e00f503fc17cf68616, (30822240000000, 7705560000000, 4777750));
  (0x4c2b38a89692c1ae356ac47ae9bc9fdeeb57a3183f2c99c1caa1f148b7396a36, (410963200000000, 102740800000000, 63703400));
  (0x4c3285e8f1f24b9595b73da36023362f49cacc1aad5cc1476039ba8e4dcf4b64, (51370400000000, 12842600000000, 7962920));
  (0x4c383c71924aabe5a87ddc8946699d7f34befd4c54081fa0ab3dea20a064986c, (12328896000000, 3082224000000, 1911100));
  (0x4c38d734e61d4a55d03be615af2b6e2f741658df790c27f84286a9058fa02f67, (178768992000000, 44692248000000, 27711000));
  (0x4c3e43057fae41e4ce485a1f8ef338b9b2fcc378619e4941f38987d768dc7175, (203426784000000, 50856696000000, 31533200));
  (0x4c427b746646e6318e5451e11a865339df4c46fa1ae56eaa369bbde990058b34, (10274080000000, 2568520000000, 1592580));
  (0x4c4e3bde996d1367b117ea5dc6489319ddb4d94f26ec65fe82cac8589d687179, (92466720000000, 23116680000000, 14333300));
  (0x4c52238679daf831f535c4135b960550bc6ab897d676dd0f952e5f408138e721, (94932499200000, 23733124800000, 14715500));
  (0x4c539238f111b3174d3debb8addbc0dc5e646ad295864ef3d41428cf34bb3602, (63699296000000, 15924824000000, 9874020));
  (0x4c5a31f810c96c9d792f0d94ab4eb5983eed9745c0111b76d6a1f8cd9dfe4633, (12328896000000, 3082224000000, 1911100));
  (0x4c5ba16c2d445408b4d6afa931623154783c6444258116728af3f5c3389e3511, (20548160000000, 5137040000000, 3185170));
  (0x4c5d312a664e02798f3312144a9dde3decb1d69377775dbcfebc3510f2205b67, (20548160000000, 5137040000000, 3185170));
  (0x4c65615f5c8b1da58299783f46c29d491962fcef0d2fdcb00afe153523b1fb13, (10274080000000, 2568520000000, 1592580));
  (0x4c77a8bd35b3abac88a2d51be150ae8aabcbc1352a87825bc1174b915eb4b049, (20548160000000, 5137040000000, 3185170));
  (0x4c7aa1b409e27b0e917365790e7261dd777ed1e3261c87721c2eedeb28053869, (41096320000000, 10274080000000, 6370340));
  (0x4c86da0cfd690bf0a7968a349d1ebca7d4a262678ba1f8535d07a86cf7527132, (20548160000000, 5137040000000, 3185170));
  (0x4c8ad45df5647d5e9096ecb0bd75ff8ab369075f0591458216a4ac58653a6c5d, (349318720000000, 87329680000000, 54147900));
  (0x4c9631bf5cbf6f23b27d3d39dbae0beafe5727edfe50acdd786ac777f0d9cc60, (18493344000000, 4623336000000, 2866650));
  (0x4ca1905b0595f206505ded7b283f073da748074a979f5ccaeab9541e30960e21, (20548160000000, 5137040000000, 3185170));
  (0x4cb4f3a5f5c73f000a83918e85dc20e146064c10fcf5ca954a7066f6d73e767a, (20548160000000, 5137040000000, 3185170));
  (0x4cb795c01e03f4f8bd5302cd2edf42a6f44996a6a97a8f73e74dbe611740ca09, (205481600000000, 51370400000000, 31851700));
  (0x4cba9937a660457871af3582bf25eceefc8f5dd9654ac8634a49c4d37713e46b, (41096320000000, 10274080000000, 6370340));
  (0x4cc1f3faf0e165b6235db039f4d1ff4aadb09ed3bc6b545ff0041d93d561721a, (51370400000000, 12842600000000, 7962920));
  (0x4cf204f6c00e46112d8f51e778c933aa1870ac8f5c5f182431068639710a7538, (16438528000000, 4109632000000, 2548130));
  (0x4cf364d01a2d05a801d343f363db6311cf25728f70e990159345be151a80af29, (20548160000000, 5137040000000, 3185170));
  (0x4cf9986b8800c8104010c7117827dd4e8c2f9cc0d5ad18c3571c0645317e2010, (45205952000000, 11301488000000, 7007370));
  (0x4cfda3483bbff6126ae1bedd028981efa584973bdbafabf2cc3e26081cdd1f7b, (513704000000000, 128426000000000, 79629200));
  (0x4e03505b4cf7f55ec23ed4bfb235ecba355b452fb7f03c80c87d22f703a01959, (10274080000000, 2568520000000, 1592580));
  (0x4e116960c1f6f4ce8e1aa1f7b10dfdcb8e02cdcf6742ef8e072c31d308e4007a, (30822240000000, 7705560000000, 4777750));
  (0x4e1bf1b1f0fb7b7317236378ec146be4860ae9280ddeae167cf9d8d529ab403a, (30822240000000, 7705560000000, 4777750));
  (0x4e27727a53e5c0c470a308137567670036aacf8a7e999c227a853e5384927a3d, (20548160000000, 5137040000000, 3185170));
  (0x4e3282af15d882ae169a334e8ea11e8bc9bb66782c1023874eb548b404f02961, (61644480000000, 15411120000000, 9555510));
  (0x4e3d7819445d869e48b498eb6b1da63cc3bebb95e556aa253fa6e735f489f809, (1341794848000000, 335448712000000, 207992000));
  (0x4e3e3861a12fb396096f2ac24c273740d14a3790d0f206d974e7c5eca234de56, (10274080000000, 2568520000000, 1592580));
  (0x4e3f3e2bae12f4abb15906d12649ba0d303040fbc1dbfe46ff724677f6e3c13a, (30822240000000, 7705560000000, 4777750));
  (0x4e476b5466ea48ce57f0b10699b5065a0937f08df4d3db86e0c86d0259702b5c, (82192640000000, 20548160000000, 12740700));
  (0x4e5bf54dcdb51682a403717cba0c4893fdc14ce498c8c8540af4aad06cf34b75, (174659360000000, 43664840000000, 27073900));
  (0x4e5d7c9b5c54189e74e6d8f4e0f804bc990c1e90e80803460ee201dc64216550, (71918560000000, 17979640000000, 11148100));
  (0x4e721644ba20842c4c89f36b89af12e53a513a43841728eae5ac5efccaa01f32, (164385280000000, 41096320000000, 25481300));
  (0x4e7890a0c68dba562645505cb37d22205ce776f76b6abe3f6b2cd6067862575b, (20548160000000, 5137040000000, 3185170));
  (0x4e8733ff11017a36b9e7736ed72087bf3bcc6dfbe75c9df6b64c83be262c2b5f, (12328896000000, 3082224000000, 1911100));
  (0x4e9dc3018fde52a78e3265d68414d590d6fb0860b4bd2749f21ecd24d358565b, (710029816600000, 177507454100000, 110062000));
  (0x4ea0261f30bf699d3d4061c0ae360476b845089e26f0fee2f797ea83b658f02f, (41096320000000, 10274080000000, 6370340));
  (0x4eb227981d77237275a007f16091364c16bd7a0671792c1526b313f53772787e, (226029760000000, 56507440000000, 35036900));
  (0x4eb925984950412947e3288357258218e80157b4a556ae084007bd7c69baec25, (14383712000000, 3595928000000, 2229620));
  (0x4ebfdadefef7c22f19256bd5c734fb0d61719401f910be31145fb0625827b25d, (102740800000000, 25685200000000, 15925800));
  (0x4ec7159c0e2dff144035db95acab6a11b7d48b4d2a8d69c69367706447627524, (20548160000000, 5137040000000, 3185170));
  (0x4edb44781ffd1ef46c8a3245cbbbc0b138c94d915245423df4fa10055f8c8630, (14383712000000, 3595928000000, 2229620));
  (0x4ee67c9f23d6f3b2eb6d6c78a443c519a3907fe5e80f65cbae56516b9da23f4b, (226029760000000, 56507440000000, 35036900));
  (0x4ee6f42bc8f1a87b871a990a3ceef42124210e6fc8c101a423a7d2891dcf2c62, (10274080000000, 2568520000000, 1592580));
  (0x4ef3df73930c301beb4d0c2a883d56de38b799c98567fa0aa957b742c803210e, (51370400000000, 12842600000000, 7962920));
  (0x5008dda900dbf8e91a3f94ed977f18554c0201aa5f1c1706105c34e2282c711b, (482881760000000, 120720440000000, 74851500));
  (0x5023809eedf4a94b2d10838df43f739fa05bb50c684aac640fc160051bcef80c, (61644480000000, 15411120000000, 9555510));
  (0x5024b29fd7e8f4b3c1fb7219923328e86ea58c7a20a424510ab7bb62dedbc940, (22602976000000, 5650744000000, 3503690));
  (0x502b439d70942e883c2b5107c826ee65c13747e48a4098a2c57075e66170b707, (10274080000000, 2568520000000, 1592580));
  (0x502bc32ed5711522d9422b63cde50cf06844ebf337d0eb5bb6b05cdfa6b49c0d, (69863744000000, 17465936000000, 10829600));
  (0x502d917af5196aa3d6e4b7d5a3bcf15b47843cd544a0c9ad3f0ce39abf4dda3a, (10274080000000, 2568520000000, 1592580));
  (0x5031e3fb6d5dab69b9ebb57d56bdeea5864c543508dde224b000076259670374, (24452310400000, 6113077600000, 3790350));
  (0x503366744c6a9057c46677a590fe9bf3a84c8b2a87bb54606821aab596903f56, (61644480000000, 15411120000000, 9555510));
  (0x503835d11249b4de62c128171156805df77ee838a54cb23c3261a1bc1b54c626, (12945340800000, 3236335200000, 2006660));
  (0x503931fbffdb459d72a03cfbf2e85a871cb6606a423a8b87408df3718f0a8330, (10274080000000, 2568520000000, 1592580));
  (0x505815fcc4a2010a1a1bc46ef9376bf1d5845b340063bbbc2e763032a67c0f4f, (30822240000000, 7705560000000, 4777750));
  (0x5058da050af1e7f651cb25e1c75c702f253e6f579d90e19d40f319464f6f2777, (21575568000000, 5393892000000, 3344430));
  (0x505cb4e6ea08363eee1ecc5166392293a0870f015af713666df518c58adcae58, (10274080000000, 2568520000000, 1592580));
  (0x505d2990b7335496c1d10fa6644bd8026c33522f90765ca26e04fa673329ec77, (17983338670000, 4495834667000, 2787600));
  (0x507d3b9b6e3f4e5d54080db56dad9b8df56a912e94d701e37cb78c35698f3942, (234249024000000, 58562256000000, 36310900));
  (0x508ef38e0e942444886cd5d99c1e134f39b98cff5d95f5402558ec59e3484a6c, (123288960000000, 30822240000000, 19111000));
  (0x509195a0da0459e88410a04814b99c933c2cb212655413682f3c75922919f728, (68374207850000, 17093551960000, 10598700));
  (0x5097291e6d3a605b005c1334487bcb83c746682f623dd3673f9ccd35a6709f01, (10274080000000, 2568520000000, 1592580));
  (0x509ebea02db5d87c942f05e6424647d62de4c2be57ad9e365f7af2a410440306, (832200480000000, 208050120000000, 128999000));
  (0x509f64ec975677c33decbe8da7abf070765bf02600999372ba715a9e9898e45c, (20548160000000, 5137040000000, 3185170));
  (0x50abe39bf24206a6469f87c8df440e29cae457c49210b8e282f652c3ccec6d67, (20548160000000, 5137040000000, 3185170));
  (0x50ba037048061e29e49a36b0db86f419587b945d765ccd1b68775d3a4e53f310, (102740800000000, 25685200000000, 15925800));
  (0x50c95b7fd72fb391d1095732da004a30617e6b542f7ac2bb8db2687e59f7b823, (256852000000000, 64213000000000, 39814600));
  (0x50d2faeb308ba31c45f6248188de316facc1cb2a0b788fd88e0ba4d1299c0036, (824207245800000, 206051811400000, 127760000));
  (0x50d7b69374dfa7910135b78335275a4559d4f29fc7ebb5a11e92b4e532d3557d, (10274080000000, 2568520000000, 1592580));
  (0x50dcae2133a720d1edd2f625db01e6f436f6bb2d90143f34ce38a42256aeb904, (51370400000000000, 12842600000000000, 7962922000));
  (0x50e4e8ed513c870fd13e2ed3676098b6ffdede7dd0ef22e0fb114b7bef833e2f, (1438371200000000, 359592800000000, 222962000));
  (0x50e7243f4c07f9e7ced8cedccc269278e4211fda736e46f851954f50389d7b3c, (41096320000000, 10274080000000, 6370340));
  (0x50f6edcbc5d90805dbe22707a32ef56cec058924439f1eb5f515bd970477f97c, (355483168000000, 88870792000000, 55103400));
  (0x50fcddf22173ea4e0dd2f4e49160752e37327a2043972a6530d00f339440527a, (828090848000000, 207022712000000, 128362000));
  (0x50fdd9077d24d0bdecfb609e784dd6d1ac8c77430a17a9e2280a805e4871b461, (20548160000000, 5137040000000, 3185170));
  (0x50ff161b71e884dad3c7ddfd7adf857e2175aeeab233b3c4e848f857cfc43b3c, (10274080000000, 2568520000000, 1592580));
  (0x5202e7ca9b01a34c9701f120ad15af73010116635a9a75305755ce60d8f80930, (10274080000000, 2568520000000, 1592580));
  (0x520a4168a497cf7e696a5f06e2a8e34340e67dcba6e9e9f622df9fbd54821c14, (10274080000000, 2568520000000, 1592580));
  (0x520c22f66c6a560961002f9bba53e96913a32c0d04ed4eff32de2f146b8a223f, (20548160000000, 5137040000000, 3185170));
  (0x520c68c4ebc8605b3079e43846d31796261275e21cdf8acac67e8f9b1d091a77, (30822240000000, 7705560000000, 4777750));
  (0x520cff6722a282e6ff13e4e9591c4752af382a6ef5648808bc055934f4b2be49, (61644480000000, 15411120000000, 9555510));
  (0x520fca0c6f7185ff6f4aa4667bf5c3072a3dd52c10c828a26542503ee165e61b, (20548160000000, 5137040000000, 3185170));
  (0x5213b15655b112296e33a60ce07d2d7cc4645dd924ed3503dae896e6cc533e32, (10274080000000, 2568520000000, 1592580));
  (0x5215ebc9a7b4d84c474fe8f580134b731fbc8f741c613e570dffff7c2281ce53, (68014409600000, 17003602400000, 10542900));
  (0x521c02a4787b05d9e563e64ea7d5266688ba6498bd10e45520804459db93ab45, (226029760000000, 56507440000000, 35036900));
  (0x521d688142b7efc0f4aa75ae0cee4df908402e84f0bbb2375c75858bad34b532, (20548160000000, 5137040000000, 3185170));
  (0x523aa64b27706100ff948c93629b23e438ed3dffbd60b940c79d59284bea7150, (20548160000000, 5137040000000, 3185170));
  (0x5257343099fd0fd8802812abd4480409938e343e91be9d0b90cdc0a8b21a6648, (10274080000000, 2568520000000, 1592580))
].
Definition rows_6 : list Row := [
  (0x52650c97e5523623fbbc049a0a5b6f2f751c2070d7d40ef6c108df4352863142, (61644480000000, 15411120000000, 9555510));
  (0x526f5c8ac99923e59d32b2326579b657f0c08f56c91809cbead8eaa61c6f543a, (20548160000000, 5137040000000, 3185170));
  (0x5274c95af835e0e778635fcf5b295792f62b41735e64d0d1e59eabea48f3862d, (10274080000000, 2568520000000, 1592580));
  (0x527524589bcded0def533363e32d45736d18f9809aad3a3757354aa1deae8a4b, (242468288000000, 60617072000000, 37585000));
  (0x527639a41caed94240a76346417d4ac9427c4503948a31326e206df6a3f92d12, (65754112000000, 16438528000000, 10192500));
  (0x52875d85c28dfe29a927bcdc91d5bdfcf7b4b07e5d8fa42f061e52b47b17492c, (513704000000000, 128426000000000, 79629200));
  (0x528f8c8156d56ccd972015178e63f0ada97c9d890f7e20350c23f12cc5287740, (102740800000000, 25685200000000, 15925800));
  (0x529700ed5f0e1521fe6c799ad130e79bdf6923a8bb8f4554f39bd1d224f39636, (2054816000000000, 513704000000000, 318517000));
  (0x52a50be1c37ce989bdeb5a72155a5d95edc6728d440f52b1bb0b62d3cdf1b771, (61644480000000, 15411120000000, 9555510));
  (0x52b8187de083460fbfe215487f72717ef03c49635a2af8a4abe613832e816a50, (41096320000000, 10274080000000, 6370340));
  (0x52b819d2aaaf96e21c6d1db0a4a716a28e810fea661a1c6f2be8f38726111242, (124316368000000, 31079092000000, 19270300));
  (0x52c0cbfbf819d3662789128e33e5c6f004edfd27fe4c8acad80fa9eb66ab2857, (1027408000000000, 256852000000000, 159258000));
  (0x52ca6d3f1ce128c1e76d48cdc18429864b768281e49dbe871f94608db0dbcf40, (318496480000000, 79624120000000, 49370100));
  (0x52cc1e9e3c03e8689ff9d2eb953d07959448f2c52ceed6666a802f3ae94bbb6d, (12328896000000, 3082224000000, 1911100));
  (0x52d17fd82b0080fb8a5eb9dd9b52b6592c0ac771931135035887cc2df00a0c13, (20548160000000, 5137040000000, 3185170));
  (0x52de10f7629cb02135d91caef032b08079f270bfd1701b7f996b04f1dc7a417a, (1387000800000000, 346750200000000, 214999000));
  (0x52e2ab726ada6d3e51f04c30493cff272f2a2434d0c8c58817a96739a1e2d843, (10274080000000, 2568520000000, 1592580));
  (0x52e81eeb96623d3cbeb781bfa7572b56419f6ecda107b1d91a3d13a60f9b8202, (41096320000000, 10274080000000, 6370340));
  (0x52f94bdeaeae02b22b43f55e478e1b2c72dd5528c8c5c5d0ee6e8c044703016c, (462333600000000, 115583400000000, 71666300));
  (0x5421beb1937e6e1eecf10222912c79957e5e3974ac8d6d02a7cd75681ad21579, (10274080000000, 2568520000000, 1592580));
  (0x5432c9b411be120a67147488be75715ab4ac08f3b2c9acab2a1186f4d1444933, (63699296000000, 15924824000000, 9874020));
  (0x543ad25a6b7913177088024ab5373cc7c0623b1b141d155caf3e1c80d6708261, (12328896000000, 3082224000000, 1911100));
  (0x543d35959e78f3849139d96ea1f5c0816daa50c21b110259283d4291291dc76a, (10643946880000, 2660986720000, 1649920));
  (0x5446c059c4c78c9ead43f0694ab1eda254de55c5db245c4f8e45d95fc62def47, (41116868160000, 10279217040000, 6373520));
  (0x54568cc8c94f180f1664eab6aa951acd2158300f7d113b14c6dcf2f63b5bab25, (945215360000000, 236303840000000, 146518000));
  (0x5459b6c7f216712677988e978299d30d51823c63b83b13ede3334920ae5a2b57, (20548160000000, 5137040000000, 3185170));
  (0x545d66d8764087a415fdbaafafcfc8aa095c9db7a16b34688d2feae6bcf0f255, (30822240000000, 7705560000000, 4777750));
  (0x5463a3e264505335f5c76656aa55c223455b4e9fb827d53a673e468385a7044d, (20548160000000, 5137040000000, 3185170));
  (0x547c55da8e379cd18a45895e6240fb0cda7fc4b6e41de3ca0e75cbd2afe7b228, (433566176000000, 108391544000000, 67207100));
  (0x5490bd7ae28aec61695d1602d5338ed0198713107759a8db3aed0c7ed7de6161, (16438528000000, 4109632000000, 2548130));
  (0x549657e3703ead8c4d946cc8436773f1b8b112571c40b5b82345f5d94772ca1e, (12328896000000, 3082224000000, 1911100));
  (0x549c33095cf4447d2ffbdf0015ff9ffd6aec9c72b815352550b1dd9c52fe177c, (10274080000000, 2568520000000, 1592580));
  (0x54a952a8adb751c2df232dad94037347dd5fbe40572e4318b7d84549c7a94c1f, (30822240000000, 7705560000000, 4777750));
  (0x54b330c682e9ec8d610a4c59e55d2f990051853f5426b5162aaf9e1b6668f71a, (495210656000000, 123802664000000, 76762600));
  (0x54b9a9bbcc3ad65c2fecfd8df4e66229afed86c403ad39b84864a0a2643c6f7a, (13828911680000, 3457227920000, 2143620));
  (0x54b9d7944f8bd4b586ff50ad25c6755e709dba49c65e9da7c9111e2cfc838965, (30822240000000, 7705560000000, 4777750));
  (0x54c271c9e8930d2f85db4f6029d93d6d23039a2eaab0a041ca2ef47f30eca63e, (20548160000000, 5137040000000, 3185170));
  (0x54ca506d241c467aa81c40f99cd15d94113c7c9d95bc7ecfd8b0c0d9575d5d20, (2568520000000000, 642130000000000, 398146000));
  (0x54ca9bf05683c6ec0faf09ef226b44d3e10f98bc5eb6bc91b01cfec96820fa07, (10274080000000, 2568520000000, 1592580));
  (0x54df7572f80c94adde179357524913a893b3278c8111f6917edd68c7919cf73d, (102740800000000, 25685200000000, 15925850));
  (0x54e562fd197db6ae6de4e058160ba07c054b04d050899d4cf3946e140742b54f, (61644480000000, 15411120000000, 9555510));
  (0x54e5a2be117f4207acef9750007498d370b4a0387ef64001adf593226a5f2561, (29383868800000, 7345967200000, 4554790));
  (0x54e794fdd09be7148a2d89d6930fa17e1b4c117d8718bcf92a54a5a2b28e164b, (123288960000000, 30822240000000, 19111020));
  (0x54e9227777a5a88479ecce3417ecabaf8e7538efc88a623f7b17e71209701c4b, (20548160000000, 5137040000000, 3185170));
  (0x54f9e737716e9827ad0ddc9457b36839b2cb56e7f2fca47e5cfc26b6fb685356, (152056384000000, 38014096000000, 23570200));
  (0x54fd46617fbbefe1dc4be318793efe2c4c19b40f72b5b1d0cdc27910b0345056, (10274080000000, 2568520000000, 1592580));
  (0x5604806a738c7e4d516625d47db7a4ac3197142b84203c1495b6689b066d9d44, (30822240000000, 7705560000000, 4777750));
  (0x5606b832f2a572ae42e53721474e1a7c4614bc095d4798be6b1cf9b4b26cd272, (102740800000000, 25685200000000, 15925800));
  (0x561c5b562ffa492f2972d4812ad1917003c99c9577d0ca35afea6af0342a5a27, (10274080000000, 2568520000000, 1592580));
  (0x5627894b8add0a1ab9916714daf96d164bac1fa9165490e44dd42384b1034b15, (123288960000000, 30822240000000, 19111000));
  (0x562fc3b9c0b3ba1ea864b51ae9f14ccc9e8615b434358180452c8d9a8cef0f19, (1520563840000000, 380140960000000, 235702000));
  (0x5636cf4df204d8d58d142d6093d4399ebbbad54dde45bb2aa0a2ce71d39fbb2b, (41096320000000, 10274080000000, 6370340));
  (0x5644ab2e51fbbd47030ac7c61645d3879eea628277b4ab97c2bf11ac57b11361, (44178544000000, 11044636000000, 6848110));
  (0x5644b5664f4079efbc1bd749f2bd602e1747d14dd5226b2ae7f0c7b3a4669456, (82192640000000, 20548160000000, 12740700));
  (0x56468e93c6808b1ead224c198008c4bbc819b1a3bbc9da5cc93ab6c0204ab00f, (106850432000000, 26712608000000, 16562900));
  (0x566c4c32f2e00562c737204b1e2ea5a6d5f6c2eb8af8aebe53ea66711df66916, (10274080000000, 2568520000000, 1592580));
  (0x566d228d95368a2ef494ef7f31b2ac67f3c50144c15e56eae78ff3fdedefa727, (174659360000000, 43664840000000, 27073900));
  (0x567f48e60a44ddc07cb9e6d146d7b4fc4d0fff8c45f87872f1c1530421ccf21d, (102740800000000, 25685200000000, 15925800));
  (0x568ee32f03b1be2720431c01537d3ccb882d32e3e0c81c5009fa7766943d9269, (413018016000000, 103254504000000, 64021900));
  (0x5691c0d47929dae010950ef67c62d79fbf40be20f60dad1ee341c38a8155747a, (10274080000000, 2568520000000, 1592580));
  (0x56a5508d968c0412191acaaa7caaefd477312257bb8b8613c52463579aec1857, (51623142370000, 12905785590000, 8002100));
  (0x56a66aa1fdb18c3dfc0a2dc738c6c299ade1acf8d722d51afdc488d96023a906, (20548160000000, 5137040000000, 3185170));
  (0x56b7e52e7c23d915ee862d134fbbbefd922405f58f8764df7aff5e2262c2355e, (10274080000000, 2568520000000, 1592580));
  (0x56b8677d5d1522f441d36388ab7a915691265c39a21205c6705429463731c44f, (30822240000000, 7705560000000, 4777750));
  (0x56c05fecff39aeecc2343b423b0d6e656fbe2b9c4186004910e175fd49912655, (10274080000000, 2568520000000, 1592580));
  (0x56dc2ac87cf32020b29c517bb0600f1a6f7d3cc947d70146cecf9467a079814c, (61644480000000, 15411120000000, 9555510));
  (0x56e44e3361405daf85bd11744522f9d2182e20724c6696ad330269c609b1c06c, (211646048000000, 52911512000000, 32807200));
  (0x56f338014191b1479dc2ab6dda6c3b6a96ff67092aea95cade98738b516e3b5e, (102740800000000, 25685200000000, 15925800));
  (0x56fb51d8705506074a4c19434452bebc3562c0ee7ff0df66a05ada663d6d5838, (21575568000000, 5393892000000, 3344430));
  (0x580f7bdf7d58c31f1f7f14bbecce7596c2e54783bc1db1bcf7b48d065b2c597c, (10274080000000, 2568520000000, 1592580));
  (0x580f9d0e276a576049747860ab93d06b3a9e6f11321c3a57a48cf08046916278, (41096320000000, 10274080000000, 6370340));
  (0x5813b592a829ec959175902e2a3709e91f8154acb7abb78e78950bd7f5b21664, (12328896000000, 3082224000000, 1911100));
  (0x58517b16865e28231e8cf097da3ca2e13963d58fa0f15d73f7c34244e3d9004d, (10274080000000, 2568520000000, 1592580));
  (0x585b6683940995b1627729afce609dfd919a252654b8c1176097c15011c9b543, (102740800000000, 25685200000000, 15925800));
  (0x585bbca72f4d11aa8a809110fe28cbc4c47776f27fa1235cbd86d75d72232915, (20548160000000, 5137040000000, 3185170));
  (0x585fb9855d22c2afcf7f72a7b488568754874894a22ca31b7b9b9fef7261d858, (10274080000000, 2568520000000, 1592580));
  (0x58665024c4087afa006841f67f6709c86ab3d607959ce3595ea3bfd4a340f630, (20548160000000, 5137040000000, 3185170));
  (0x586ba3d87c865e456d5452c1640601550bf4870c2db964fa8bc43d60db54457a, (18082380800000, 4520595200000, 2802950));
  (0x5876d88ce20f4d0d7fc725b496f80cfbc30de0fbdfc81ddc85b6c226745af656, (20548160000000, 5137040000000, 3185170));
  (0x58a022243bb7f9e281f7e262d0fc48f6168b26d3eef7be90dace54584485dd53, (205481600000000, 51370400000000, 31851700));
  (0x58a8708b39e6f2157ed2613e4134e637554740c2cb598771074a7d42bf326669, (20548160000000, 5137040000000, 3185170));
  (0x58a9f5ee9ab214af4ea6c4a50dc8592943c397fa960990358c5b22cd6406555a, (12739859200000, 3184964800000, 1974800));
  (0x58ae4986662fdf0be93a2c68b3274e45a6e8b22aff20a4bc40595f9ace9abd53, (30822240000000, 7705560000000, 4777750));
  (0x58c1f63448f38874611ec2e4a8106c1c3646e4abe05528f1440b3bcaff47f533, (10274080000000, 2568520000000, 1592580));
  (0x58c95af48ab802af8bb25a86f6ca9686ae093ce572ec0c7e6f0e89b66a4e9556, (10274080000000, 2568520000000, 1592580));
  (0x58e12bcaaf8157b1dda4611af9210fb8679063c5c764661f4e0a13f8d7604e76, (41096320000000, 10274080000000, 6370340));
  (0x58e8cf398969ce7d0c331fcd304a37202ad8e250d7e3258abc9c7510015c5705, (61644480000000, 15411120000000, 9555510));
  (0x58eaac5ecb89b593ea486a2581dbb2df07745b96a7d49125d3bc33c654015243, (206940519400000, 51735129840000, 32077800));
  (0x58eabdd89ba7eba71ad4c65af813f78119a346beba9a4a0e3adf9d8ce6d3b215, (10274080000000, 2568520000000, 1592580));
  (0x58fadae11960d464ea80cc9d8221b3d5b4e2a527ce5ee4f932727e829ba7be53, (205481600000000, 51370400000000, 31851700));
  (0x58fdc9531c17888f83fec5e8c998dd78a49153bd47c568c47833684add0ab87f, (205481600000000, 51370400000000, 31851700));
  (0x5a06a63f06ab29e570b1e6c21220a6f79c0b0708591f19da90170eebdac11e15, (31233203200000, 7808300800000, 4841460));
  (0x5a12d3e28108f87e1af4b4690570f449a655d5e70902c0050919cb4a1b265530, (10274080000000, 2568520000000, 1592580));
  (0x5a1bedd4ab512d539ce162dd9d9ccc6ce58d1d42c11ee0957784761354add367, (205481600000000, 51370400000000, 31851700));
  (0x5a2ae9d7416f7864ddfd4a370e309f01dfb09adc0c371a5732ebc2e3ba49a455, (205481600000000, 51370400000000, 31851700));
  (0x5a418e8bec5de9c56c46fc5486b2da870a081691722b01f71251a1a50311ed7e, (20548160000000, 5137040000000, 3185170));
  (0x5a4a64878da2f1f0248054b109836d6a11e741788500ae4b1c6acd8a585b3203, (51370400000000, 12842600000000, 7962920));
  (0x5a508f5ab2faf8bf066e84ab2eae49fca6627af2f1ebdef4dd371f2bb03c2103, (51986844800000000, 12996711200000000, 8058477000));
  (0x5a54886ace6c3e13aefa355eab9d20ec2127ba79ff5a8efe07d4abea8103d318, (10274080000000, 2568520000000, 1592580));
  (0x5a5f5e0d92354dad69f555e918dc809f1553387a54c046c9d20ec85ac2cb0a66, (208563824000000, 52140956000000, 32329500));
  (0x5a640879ec2432623d343b6878f50a81710322fe7843bb7ff674a409af8d713b, (234249024000000, 58562256000000, 36310900));
  (0x5a72cc5ff7ccfcb940c9d6a5905ff486373e83b0cf50867acd2b3ee0fd2e6f2e, (61644480000000, 15411120000000, 9555510));
  (0x5a765c6f88c9904ff70701bf62bf34098830e492ca6c6ac3d86cb907ed8a972d, (10274080000000, 2568520000000, 1592580));
  (0x5a93da59d6eb92cf6f1e4b576cb22132032333b6aa19da9e50b4971c8680b808, (460278784000000, 115069696000000, 71347800));
  (0x5a9c1f64e4323875c727b6f37869014458bb83b8d85cacbcbec156d85bd04561, (20548160000000, 5137040000000, 3185170));
  (0x5aa82aa1ffac9cff46a863506a3e499a481f3d04799a841371435aaa6c50ed2e, (522334227200000, 130583556800000, 80967000));
  (0x5aa9a14b4926e2289f85baead4d5428c037ce4534338656344dd4d0fa3e2e720, (41096320000000, 10274080000000, 6370340));
  (0x5aa9fcc8030d34cd5170f7fe68ad952f935b140da3f93656aa25f0a03923b87b, (205481600000000, 51370400000000, 31851700));
  (0x5aadd2ecb15365e913aa395593551eed3cf8dccb14df73671c22c29ccde8bb19, (41096320000000, 10274080000000, 6370340));
  (0x5ab707a5dfcc5a9723db6b83112064bede50109643bcc618a71a481a845e4f70, (24657792000000, 6164448000000, 3822200));
  (0x5ac8e92bbdb08aab9361c1f764e539a1fe8e9b41ee97959b6e45d8b7e3015e2c, (308222400000000, 77055600000000, 47777500));
  (0x5acfa87d804864af77a4878649813d602073eec57bcf26e23598201c464f166c, (106940428600000000, 26735107150000000, 16576827000));
  (0x5ae9674e6ef5674b046ae58067ccf7fb9b629c864865e6d092d971805adb3e75, (53425216000000, 13356304000000, 8281440));
  (0x5aeefad43f4726d378197d8eda94511fd0b8efad3d21800ed1e7fdb659456e65, (20548160000000, 5137040000000, 3185170));
  (0x5af1bed7f8996d6ef7d2a6a645a14d09ead97cbaab53d5a6d0421c490ab6de78, (19520752000000, 4880188000000, 3025910));
  (0x5c0b994fa9c536b56ae4dd650444e936062a49a24d8ca8c6dad3513909577d2b, (206509008000000, 51627252000000, 32010900));
  (0x5c19aa23e56a19da87f0986e6503f347a73439a8a2540bef0d11dd3e1cd59b53, (61644480000000, 15411120000000, 9555510));
  (0x5c2bab07d4e0e711480337e6443707a7456d189eb6822c608f55b22fd1a38b36, (30822240000000, 7705560000000, 4777750));
  (0x5c2d5fe16db287a7bde009dab28e478212653c212066b9a486af5556e5210c48, (51370400000000, 12842600000000, 7962920));
  (0x5c4f1e0d0016707756af0b056a7649aed197c488727c35988bfb74ce51926216, (10376820800000, 2594205200000, 1608510));
  (0x5c5a87de56153329a75f7dc6856b598ef36b3000b62f22c1291b93e236644a6f, (78083008000000, 19520752000000, 12103600));
  (0x5c632a8ca074d05a771ddb92fa2600ea59aec8727461523a7fec61c8da9a170e, (478772128000000, 119693032000000, 74214400));
  (0x5c76bb49f29f7798a832bfceb82b22b3961e57d65b6db414669e24d88a109208, (61644480000000, 15411120000000, 9555510));
  (0x5c7f8fb1e49351624c028224abee56a163595100298681fb6c075e6467657905, (49315584000000, 12328896000000, 7644400));
  (0x5c8500bf608bc8861dade88f0b7930c4afbd39f30ae3e270d7fba6a5f42a863f, (10274080000000, 2568520000000, 1592580));
  (0x5c9247e22fc239e9cad29c2a7595dbd392f2026a93ad1c7fad1b8a7b09a76129, (10274080000000, 2568520000000, 1592580));
  (0x5c92f66874b029004d671616c86ac7da37363278c0f4ea8563f46f3c7171226d, (26712608000000, 6678152000000, 4140720));
  (0x5c95632c26bdd2536fc7a59c096b7189b4fe0df49c911ca056a24fa15a743a50, (102740800000000, 25685200000000, 15925800));
  (0x5ca186742f2166f71ed417dbeb7566fcbdb89a72c67be5854f72e504ddd06749, (143837120000000, 35959280000000, 22296200));
  (0x5ca62fc3f9ac3bacc4034f5574b030d441e28a0dcec269d82ca794727bf8471d, (10274080000000, 2568520000000, 1592580));
  (0x5cb9953f287c2fb010c744c9d035b736bf2b2cf455639f59c6ec45c6960ea762, (30822240000000, 7705560000000, 4777750));
  (0x5cbacf4dd774d526978e01daa1e4f0b3aff58d9220dce579301ac013fd316376, (41096320000000, 10274080000000, 6370340));
  (0x5cd7708a98e37a3cb8d3296bb138615947995eda954d5d9f873860d0557c2e2c, (1232889600000000, 308222400000000, 191110000));
  (0x5cd9b686c0038b127b0398ea57679b2c83eca8a8c209636c0aaaea0c1d30e37c, (205481600000000, 51370400000000, 31851700));
  (0x5ce579e40e8da5743de192c65f9b9995ebff57864a46dbb4f80b31b3bb59af0d, (41096320000000, 10274080000000, 6370340));
  (0x5ce8d13506f0457c632da768a6170469197cbb4d94e46b736ce8aaf07e7f0d4a, (22602976000000, 5650744000000, 3503690));
  (0x5ce9bd60a039d4521e81e58c65e92154c79b4133f7b75d9cecdb8b32650f277b, (30822240000000, 7705560000000, 4777750));
  (0x5cfe64a6532c637d2998cb4979ae498d31a68e2b1f2064d78b3d760f1c91fd17, (41096320000000, 10274080000000, 6370340));
  (0x5e02b3fb4e6f4cb5ce3c58c1f328e8a568152dc7326aea987f075c6f2d0b790b, (45411433600000, 11352858400000, 7039220));
  (0x5e03f1efee72855b244a8baa1537a0f9584499642224f8e5d8270fa90e9e1114, (472607680000000, 118151920000000, 73258900));
  (0x5e147146abcb1290bf80f5e8e5525fe0112ddea225587e88822935d6aecd7553, (41096320000000, 10274080000000, 6370340));
  (0x5e1660d1dcc4c1ce96b6d9dec349a2d3fbc1e70b10c77d59db548ec7fe56b442, (10274080000000, 2568520000000, 1592580));
  (0x5e2c2b87ed4b2fc69d790ed28f809ef68f80dab96cd0ee5873bf7549515dd85e, (12328896000000, 3082224000000, 1911100));
  (0x5e2d6cce84177f7ce472b224710cd34fc6069f0c47123e4903e6c832dce4b44f, (616444800000000, 154111200000000, 95555100));
  (0x5e37384235f9a469f4368f64f90e606cc23fc704fb911db328cde0efc2a62a4e, (10274080000000, 2568520000000, 1592580));
  (0x5e453574f5757a5b49313ccb71770b7be3c56ac01c4cec3893b70a18ecbf8f39, (16438528000000, 4109632000000, 2548130));
  (0x5e4db9b72f5252175c5ad51fc8018d42155fd12217fb14a0a6af894b7f4a133d, (20548160000000, 5137040000000, 3185170));
  (0x5e5572777e527120db899ca0c10cf575f03003cecf2b5470158e3eb23ef1ea3d, (597951456000000, 149487864000000, 92688400));
  (0x5e5c6df443aeaa1710c7d58fef5340fd347f9fdada8fc06f65c1e6bb73e0b340, (82192640000000, 20548160000000, 12740680));
  (0x5e67d1bbba0b2e9de99b78b3cebfd3179a611fac3fe694a34977b2574994cd00, (102740800000000, 25685200000000, 15925800));
  (0x5e686fb624f2cf67001099f312e61d89fa403537ee81db260582dabf4b40d049, (18493344000000, 4623336000000, 2866650));
  (0x5e6c526f4c7c6d79d844b6116284561637e3e1cb6a29177d770af2f776bd6145, (1779470656000000, 444867664000000, 275836000));
  (0x5e6edec158c254ca627e240af36404ce6b9c980190d71a4504bf3b6a9c098130, (2056870816000000, 514217704000000, 318835000));
  (0x5e72cd7d2a289aca9e35dbfc96d1f6241721383c2427297131ff2e1617a43221, (11506969600000, 2876742400000, 1783690));
  (0x5e757b403e4d6ae1e93ab95baa166766d8e27c39b3c8ca68308aa51f0c3a761d, (45616915200000, 11404228800000, 7071070));
  (0x5e817078a3c2a8a7a5b04532d4def2fe1b2d84908bc3793a68576bbcf147164b, (639047776000000, 159761944000000, 99058700));
  (0x5e8bf93a49340fd08c4ccb925fe7d313c31a709dcb6b1e66e1c692dd8d645e58, (226029760000000, 56507440000000, 35036900));
  (0x5e9c11cf36f0029a4e2615e3a2b7aad5c169509aaba1fff4ff179840ad83ca39, (87329680000000, 21832420000000, 13537000));
  (0x5e9e7cc7430907d316a6a1c4ff430a6865f976f7ac6276af026e3e5013faa940, (250687552000000, 62671888000000, 38859100));
  (0x5ea8067d4ea4e466e2e6735bc238659f82b2faeffe5ba5ed8956cbf493e4c87a, (1027408000000000, 256852000000000, 159258000));
  (0x5eae669e8f6bb727becb9c6fb478641bb1110b343e965ad1e7282fb406ffd93e, (41096320000000, 10274080000000, 6370340));
  (0x5eb7164a6e4930851a9429f7e2dc2a04708f4458af84c743fcd5c7300963456b, (10274080000000, 2568520000000, 1592580));
  (0x5eb7a36e27351f2a4b76aa4ad0217a5a935c14654645049dd213967ccdef9c0e, (20548160000000, 5137040000000, 3185170));
  (0x5eb9218fbb5f307f2ec7ed400c31a388423107b6c2ea6e2f4c4dd19dbc90eb3e, (154111200000000, 38527800000000, 23888720));
  (0x5ebaa2454473cfc9fb4865d3a3d729f17e42beb4ae5167e4d5da7f755e627a33, (102740800000000, 25685200000000, 15925800));
  (0x5ebec54f77b417366588c5ceb4c498b56f741bb193980e72e8575ad6aad7ce08, (24657792000000, 6164448000000, 3822200));
  (0x5ed10a84de8b2d2bd5291e29c6565520ccb503a95d12664745d78902897f653e, (138700080000000, 34675020000000, 21499900));
  (0x5ed3dbe3f542312a6df4f099b8e04eebd01d26215762f566cd34b8465857981c, (30822240000000, 7705560000000, 4777750));
  (0x5eeeb918ce837f1f611939e24dccb41765a5b1dd48d278cc61416f14299e542a, (10274080000000, 2568520000000, 1592580));
  (0x5ef95c34315d92a9439caccb6267f723c88af74258cbda7a779e2df1bea4934d, (16849491200000, 4212372800000, 2611840));
  (0x601cc9edf1b241d74768e81d7e320bc296c110abee46f8294fb8e357ac4a561c, (10274080000000, 2568520000000, 1592580));
  (0x6026aa93dbd4735712caa99be88aa34dbb0c59494e9cf51dd7d62e2dc2073022, (61644480000000, 15411120000000, 9555510));
  (0x60306d7b71383ca76557e2429752f0c3b0ba597a0b877180d7367fc2f1e3da45, (10274080000000, 2568520000000, 1592580));
  (0x604d4951ebc002095d4b7125524d4f0433f6d6f3b691ae072d7461d5a698d44a, (20589256320000, 5147314080000, 3191540));
  (0x6053ae22767671890818de5f879930ad5ba2dd58bbf607ad972f20f687f67319, (20548160000000, 5137040000000, 3185170));
  (0x605867815e7dc271e960524ed0bfbcb6f5a53cc1bbd5fc8c4c4be0c99f457e10, (632883328000000, 158220832000000, 98103200));
  (0x605d279fa36c0c94002b2c21fc4a59b7ee3f80984ca5eec64b35dc0040313842, (14383712000000, 3595928000000, 2229620));
  (0x60656aec1dce608bc8eab8464eddf909a4605ab7557dee42161ca0ddf50f4a25, (30822240000000, 7705560000000, 4777750));
  (0x60750d915c81e3c139cffb0418c1c712b3ed7486694f4ab51032735d4a7bc628, (45822396800000, 11455599200000, 7102930));
  (0x6077a50d79fa7a4b86e337f807d9a7286b8551fe00901cf0882889b8b8dee815, (260961632000000, 65240408000000, 40451600));
  (0x607d5813b131d3f5757b194501179e413dbf391d6b2dc4168638224aefdc491c, (10274080000000, 2568520000000, 1592580));
  (0x60825c829d39cf9775b5a88b8893decc05b1a5ed3861caae99c0557acf3f4d0f, (20548160000000, 5137040000000, 3185170));
  (0x608c02f5c3d10b4990d7d5e707c8e5436115d1ecb905ba4de15a99e441194127, (10274080000000, 2568520000000, 1592580));
  (0x609188ff9adc58b36e7c5a089c18d0319406db7943e6c03ff31bf7a65643ce66, (1826731424000000, 456682856000000, 283161000));
  (0x6097bb0142a7467e81284efa3d1cd14aad8e5d25adf7099c81a9264d8e16526e, (20548160000000, 5137040000000, 3185170));
  (0x60afde464c63b39cc94979af3153de434d1a9506330f62e97d959b69c2743565, (10274080000000, 2568520000000, 1592580));
  (0x60b46a6b7ac0f031ca7aba047291f24c29323dd1e927fe6dc495d99c6534224a, (1837005504000000, 459251376000000, 284754000));
  (0x60bb29321816d8b0185e5ffc0eed306e85eb0ce69c06f32a9755d7642111e307, (203426784000000, 50856696000000, 31533200));
  (0x60d3ef8341f41e9f38c155dff2b0c2361304818d92941911028db49b3c3a6071, (102740800000000, 25685200000000, 15925800));
  (0x60e14bedb7143599cd6698265202925c846f96a70c590cdd30c3fa61af95bd43, (10274080000000, 2568520000000, 1592580));
  (0x60e2ec40b5d15733d0f47482827b12e1a52bcc17f7e145f79ced323720104747, (10274080000000, 2568520000000, 1592580));
  (0x60e3f726d9f068e1a270990e3be99f404e0703aa7eae1125d8e7a717b3bdda27, (123288960000000, 30822240000000, 19111000));
  (0x60e4c148a2ccfe40065e5af98b297c7cc64707de449135eacac5c62e8c495146, (20548160000000, 5137040000000, 3185170));
  (0x60ef49eef1625a4495b9708983d4353181d28efecea16c805064152ce39e273c, (102740800000000, 25685200000000, 15925800));
  (0x60fb44439f117c3671477aa6cd6e3cbb2d92cdaf36b18d13658e3db5812c1350, (30822240000000, 7705560000000, 4777750));
  (0x61baeca490e362b1b328c419cc22c6b2e87fbf0ba50830527eac49f5d2aec35d, (128656180500000, 32164045120000, 19943000));
  (0x621049b7a7465f060add62d9c68187f7b4da8cf7e034fc8427b9e677e17d3e11, (45719656000000, 11429914000000, 7087000));
  (0x62143dc8f731ce5ab99bee869e8de21ddff0c23c4644eaa9b903c078eee40261, (10274080000000, 2568520000000, 1592580));
  (0x6226905ac65d09dbc5af2e5ad8d6a41e61c96415829bfb1c5e07461bcc8a2d03, (41096320000000, 10274080000000, 6370340));
  (0x6226d176cc84c882b3fab6c64fc8f28a7fa4f18231b72253c003899926248c25, (35342835200000, 8835708800000, 5478490))
].
Definition rows_7 : list Row := [
  (0x62271961fe3215afa6c4c8737ccde7f0ded5537c47b385f241c43d2a4901e12e, (69863744000000, 17465936000000, 10829600));
  (0x623eb18cb4bd513eacba51e7e881b119729c26d8ed6b028bb4c2522168d16373, (41096320000000, 10274080000000, 6370340));
  (0x6244de863562c83bef71d904006f17e4ac8c8d48aa254488993a007ea3293c67, (30822240000000, 7705560000000, 4777750));
  (0x624fcd01be524d85d4b9a1d335ff48652bf9f0cb61a1b69ec045293914ab6265, (102740800000000, 25685200000000, 15925800));
  (0x625599f4e2a3b5d1108feefca82067a9364f9e866d148228645d28497ca08634, (12020673600000, 3005168400000, 1863320));
  (0x626e24a6dd5aafa9771105395fb5276dd79ce6b98fefbc4913cfff39d1612d72, (41096320000000, 10274080000000, 6370340));
  (0x62708970ade506c6c6d46e65fb0c01b0bf30e493f0333736892bbad0458d1a10, (30822240000000000, 7705560000000000, 4777753000));
  (0x62883ab3a8f0ba613c95cd24f81aea79a0b370c827a7663dc4f52ca22d76d64b, (10274080000000, 2568520000000, 1592580));
  (0x62903ceffc949c227b93339c1a7a9c4fdf1e8f4db2c804c9995e0723fb44ee6e, (10274080000000, 2568520000000, 1592580));
  (0x6292aa34af3f11724e903704cd7b4dd40e8ad55c37e4b4e501df6ecb18a4ea47, (71918560000000, 17979640000000, 11148100));
  (0x6294ca3536e4df61410f78c211bf87cec331ddbf38959871e0d24cedef459e60, (410963200000000, 102740800000000, 63703400));
  (0x62a32063030b362a2bf00fe9bb108f53725eea537b3d03a8e9660a2c8e1ff977, (102740800000000, 25685200000000, 15925800));
  (0x62a73ebb94bca678e24ec21e76173b37881f65ca56c3a17429838698b65b847c, (10274080000000, 2568520000000, 1592580));
  (0x62a8388d36f8e385290b0fadfc0cd73080efa817f3c878323143d53ee163f759, (65754112000000000, 16438528000000000, 10192540000));
  (0x62b7652d3de9406c6769b70d7fcf7968b6c137261aae7598e2011669be9e9a07, (113014880000000, 28253720000000, 17518400));
  (0x62b9eec26b1d49bfeabbb613c956e52145949ae675815df1da0ef1208fd23d49, (45205952000000, 11301488000000, 7007370));
  (0x62d86b0d71280f5a0981bddfeefe76b73599c67c547cd8f4fa63902c50110676, (2054816000000000, 513704000000000, 318517000));
  (0x62e1a34ba12f9a3e1f939f53d51d365e2826d7a2c5c8e60a30fb20569c008d3f, (10274080000000, 2568520000000, 1592580));
  (0x62ebc075f46c93f50c0143beed7c21f5330bf8762e1f9fedffd8fbcbe59ff226, (308222400000000, 77055600000000, 47777500));
  (0x62f437490813f95a45d5530c92e214e9934896a3ebf1c33a3ed20af2438d6210, (10274080000000, 2568520000000, 1592580));
  (0x640b9e1d1811966c4f218c10fc8437b06dceff6ccb25276a499581fb37444d51, (53425216000000, 13356304000000, 8281440));
  (0x64108194209d5444255a1432b25a64ef52934723405a22c98716a2f82dcb1a5c, (41096320000000, 10274080000000, 6370340));
  (0x6410fa6409c3449429336a46ded226fdafb85d6c09a79145f3260682c19c0541, (71918560000000, 17979640000000, 11148100));
  (0x64290314d8822e4b643387aa3fe1068ba9540b179ae50abccc7bca5679aca94d, (2054816000000000, 513704000000000, 318517000));
  (0x642f6f9b1aa25a0763cb97206ec09a7d2bc35ab6e60fc5cceaff92024bc0932d, (20548160000000, 5137040000000, 3185170));
  (0x64366dc679ae89933800b4e943fc326f9763d278ff8705aef9dcde4eeceefb29, (10274080000000, 2568520000000, 1592580));
  (0x643f34326b0cf323d79546a3f83c9adf5b7f880556e592c4b723c8222388b16f, (20548160000000, 5137040000000, 3185170));
  (0x6444039ea03edf653b2a4cca354590b0215eca1f2343950c5f7af617448afe17, (10274080000000, 2568520000000, 1592580));
  (0x64441d35b70d0b16dfe7789acdc0b51c8bdfe0bfd01653cf53c0668769e2de3b, (2054816000000000, 513704000000000, 318517000));
  (0x64446bb1078a42cbb450e6485c1ce7fa9324d3117cd94182a5a8ef7fa5a8bb00, (10274080000000, 2568520000000, 1592580));
  (0x64447b720610130eefe30de29d4051653822df3214b963426f545793ca794e13, (16438528000000, 4109632000000, 2548130));
  (0x6453d9711827d218593ead1b2edb79f84c31c0044020b562f3196acd4358b40e, (41096320000000, 10274080000000, 6370340));
  (0x645afbfa4f3cbbc0b8799a41b44a07e013500846c3696afcc0f52ca0672f7435, (102740800000000, 25685200000000, 15925840));
  (0x646314264d2d3801d72121e3fda840c86b0ef1d6c294b1acba554fbc876fbf3e, (175275804800000, 43818951200000, 27169500));
  (0x6468f0dc195aebcec97a6b28f4fd72d31645d6cafccfa1dd211ec3803502da27, (113014880000000, 28253720000000, 17518400));
  (0x646a90805f52ad7c618579ee4c5da8c5c6841a2972f476f2582a8e87946f2508, (10274080000000, 2568520000000, 1592580));
  (0x6478f5ca773c39b60127528546c6a26df0a62bc28f05e17d398945e547681d66, (10575599790000, 2643899948000, 1639320));
  (0x6481905156a4a72b89312cfd08cdc46057e32acefcb075ceb8498c4efb785e72, (3698668800000000, 924667200000000, 573330000));
  (0x64a04958fec6285501424a385efea31ba250321dfd2bdc91f0be36b6e814f315, (10274080000000, 2568520000000, 1592580));
  (0x64a313646eedbf3825de641625399cd758f1e50d069a6973bac3bac0dfd3525f, (63699296000000, 15924824000000, 9874020));
  (0x64bb6f717a70c0cbd8647e9999271e3740556dc7bb24457dea7010147d4ebc25, (246577920000000, 61644480000000, 38222000));
  (0x64c8c85a5a2526d946cea7960c4081bb2d87d7c38d504b9bec2e949e600b6770, (41096320000000, 10274080000000, 6370340));
  (0x64d39d0d355ae6a557bc4ab3c6774c0fbaef1ae301b75d6a063d5855efb3617b, (513704000000000, 128426000000000, 79629200));
  (0x64da9bb98a26931211d96dfcd846b7b939f4abfde2665dd518de4e6ad22b2202, (14383712000000, 3595928000000, 2229620));
  (0x64e3ab40a16b8e19c16f0a6ac5e63be32215533301af9f351ad6c4f9f2214b2c, (51370400000000, 12842600000000, 7962920));
  (0x64e60338b06140eea179ee27e89f8d21775f070456552c83fff9dcb2eebc6d1d, (32877056000000, 8219264000000, 5096270));
  (0x64eb1f7613d2177ea172257690d9cd5adbe7200ab442757eeb3bcdcfc572dc01, (65754112000000, 16438528000000, 10192500));
  (0x64f4c7e6a5f3f25b4d063e5461bf3882569aad883b6db400695ccfd7c6e6ef22, (2157556800000000, 539389200000000, 334443000));
  (0x64ff2af1775295d3a7518a8ed566c8b6ebb40bf66554ab173ba5481efe5a4076, (205481600000000, 51370400000000, 31851700));
  (0x660d194b73cefbfd012a6c3a6eb74d87621e942bcd2efd2352bdbcba6577321a, (22602976000000, 5650744000000, 3503690));
  (0x66144a2eecccf45b077a753b581767d37a77b41ed99f106cf178473989429d12, (10274080000000, 2568520000000, 1592580));
  (0x6623d5b0fbc9c5002d48d2362140927a78d46b51d40c67a120201aa2ceeb991d, (267126080000000, 66781520000000, 41407200));
  (0x663b502012e941c9cb00bf824adeb2d98c43669fa99cfbde8423d20d6a989d2c, (982202048000000, 245550512000000, 152251000));
  (0x663c8bdf76e2276804f251f39b347f8e7e9d7960745d5349fd3b9494771c7f28, (380140960000000, 95035240000000, 58925600));
  (0x6640941283fabcf6975b2d6341d176515df05bf1cac7248deab4751e2090ec10, (10274080000000, 2568520000000, 1592580));
  (0x66444a3f2074f36ef7b7714020018cf445f9e599f5c9456f41c209df1a17dd5c, (92466720000000, 23116680000000, 14333300));
  (0x664b441537ed9efccf796a5b125f3f2adf93e7e37eb33653a3ab8745a65cc942, (20548160000000, 5137040000000, 3185170));
  (0x664d93a2512676eb6312855c439bedc007ef420cff6cb4cd09ddcbd39dbb8b44, (891790144000000, 222947536000000, 138236000));
  (0x66508d2d43a34ffc714785c9bb4a4be22fcb5c38f8bab9ddd72c6a24e2e7e248, (20548160000000, 5137040000000, 3185170));
  (0x665e3ef58b7b9373678d22aa59271d39c6adb9e1a7a5d3ce93a66b797de2d665, (20548160000000, 5137040000000, 3185170));
  (0x66611fdddbb8cb8fe3e2a5b5b67de6d3f7d1f72b847c92674e706ebcfcb4fc67, (102740800000000, 25685200000000, 15925800));
  (0x6664954eec43fe87bca9d6c2bb044de45cecad9813a1b18f16f9c6270bd7f739, (41404542400000, 10351135600000, 6418110));
  (0x666ac16a339fef02c42a546793487a9af4148b5b68233baa148104d5fd093f46, (61644480000000, 15411120000000, 9555510));
  (0x666b505bfb237b67cb206d523a75cac33f283610d592546e5595e532fbf72c29, (20548160000000, 5137040000000, 3185170));
  (0x666cfff29dd3dd17d7bcaca1251388c2791fc404ae63c91f25e20e5936b8630b, (10274080000000, 2568520000000, 1592580));
  (0x6672004e87f3908fcdd3f58b1e09b7273f3888a3b3543523225f7179c2c9936b, (10274080000000, 2568520000000, 1592580));
  (0x6672ce6d11b2cf54bcb08c52715a7c10a53bdbdc190fbd4d91377dccc6330737, (41096320000000, 10274080000000, 6370340));
  (0x667508d09c1644e5d1081e6fbd0c986d46977a3503564754fbf0f138fe7c1947, (164385280000000, 41096320000000, 25481350));
  (0x6676620d37d4ae2ed6f392f97bb97ecffa3473795ab0838a1e5717fd59b0c400, (14383712000000, 3595928000000, 2229620));
  (0x668352d738750432ccc9b053056aabb41c6d9196694b08209e51a703421e2549, (20548160000000, 5137040000000, 3185170));
  (0x66a625eb48b0d6b5413afa5fe9367db7cec49731c232898a68febc817f14ab7f, (20548160000000, 5137040000000, 3185170));
  (0x66aae20bb8f807ba39d07a42b49788cc9932f3d1211a8dc80baeb18e323cf657, (30822240000000, 7705560000000, 4777750));
  (0x66b2ea25a72af55e3dec7f53767772048c13381d96881e362684c0b3f3808478, (2075364160000000, 518841040000000, 321702000));
  (0x66c395b4ec419a9689825c77de751aca717df5ebc9324ce19457f6435f6b1752, (61644480000000, 15411120000000, 9555510));
  (0x66c790d226576dd86675ae5d6d9801a459c184092a91cb44d2766897169e7043, (20548160000000, 5137040000000, 3185170));
  (0x66d79d64bd51aa18c5fad75614add51b6a0e834c812782b0394473b25ba04b28, (20548160000000, 5137040000000, 3185170));
  (0x66da10812e59cb17c315ca949f7338389ef59b3a1215c7a8b77c7d3ea09b6d5e, (41096320000000, 10274080000000, 6370340));
  (0x66dd463dc6206d82ed03d109384a1f0e19ce249d63d59ae7d6832e16b0614f28, (14383712000000, 3595928000000, 2229620));
  (0x66ef3394ddec6137ff027c3f958977ad5eff97e6c0518c9f6d7d1cca35347e5d, (10274080000000, 2568520000000, 1592580));
  (0x672d36ecc97d97378e081871a861fe77c6b130933c177f568fc61eed6dbe3d42, (49555383140000000, 12388845780000000, 7681576000));
  (0x680b30907f522248d7e255141455a03fa80242c7419390e04bed894fb9cf5154, (30822240000000, 7705560000000, 4777750));
  (0x680e4b95bf3f77fcadd5efe7c21a63423fb1c0a960890a979c62814b157e0153, (10274080000000, 2568520000000, 1592580));
  (0x681b1eeb1d1a4be6b90241c0464a2d2308f730ed560340464fe9ea835ed5777b, (30822240000000, 7705560000000, 4777750));
  (0x68286fe3b4d39bdd9f42f28e532168e7b65cd6c4c75cfcd394818096bf98be40, (380326542500000, 95081635620000, 58954400));
  (0x6830a2d8d8d65a79ec1dd6297ed775329723ef5b93003a457ae7a9eb8b9fd56a, (10274080000000, 2568520000000, 1592580));
  (0x68384c3b92e66a63271aa95c1d5f062b80315f745558e0e854a81e2d9c478a7f, (12328896000000, 3082224000000, 1911100));
  (0x68391a47b872a74bcec7c47b4c1a36cc4ecc96a3e4a86735929bbf2e9bab2442, (102740800000000, 25685200000000, 15925800));
  (0x6844e283e5a9ff31883cd7afd2070c7cd2fa23845b31fd2636d9e925c5e4ce12, (24657792000000, 6164448000000, 3822200));
  (0x6849776d03475ceadbf12a6f7f2747da0863604c8609017c116b4f96a60dd707, (20753641600000, 5188410400000, 3217020));
  (0x684be8535737a592743130bfee5e88676a7261d3ae6bb4eee374aa589c660b14, (41096320000000, 10274080000000, 6370340));
  (0x6855759d8f84117bdc6c955e95c447d92fd138c5539fa62c8ccc6f228e3bd055, (367812064000000, 91953016000000, 57014500));
  (0x6858fdce607baf095d0a76f3cdf5498f3259137a5271b5acad988b53cdc0bc58, (125343776000000, 31335944000000, 19429500));
  (0x6874c49028791d75b98ee5e42e1d8421d3a821d6a826b64c2ff9dec7705d982a, (16438528000000, 4109632000000, 2548130));
  (0x6875fec94b291ee4237de43b689515b087ce48f5aa671cf04d13a0e782231109, (33466171750000, 8366542937000, 5187590));
  (0x6881b83d0eec41c5d4d97ca7de7d350819d71862b528f342d1064cbf628a8553, (22602976000000, 5650744000000, 3503690));
  (0x688d00736341d77d63c9fb29b8d50c2592908aab827c74ab7ad96158c331456f, (45205952000000, 11301488000000, 7007370));
  (0x6891b5d07d6e8fdcbe2f88cf5055175194da2e6b950b7ee3b72571396c2b9e71, (80137824000000, 20034456000000, 12422200));
  (0x68a42ca796317bb6eec0cb441e9ccd1ecb9ec088d4d3facd01093d6bb0c1e069, (30822240000000, 7705560000000, 4777750));
  (0x68a7fcb85b88d4acd3b28525e605ca8c2a8cce0efa24c5b76247b128da885763, (10274080000000, 2568520000000, 1592580));
  (0x68b2dfa9d362a18362b47e3ebf5718460a45eb937c09df03f06a9b0a6ec49a45, (14383712000000, 3595928000000, 2229620));
  (0x68b446c6e5270bbbebba0e2340f87a4ff1141d01ace40716f9e8e78dbc394d59, (41096320000000, 10274080000000, 6370340));
  (0x68b55c6552478216be196200d811c30a976a0899ff4b0e0be907aecc9b04ef11, (41096320000000, 10274080000000, 6370340));
  (0x68b86f6bbdc1f22c48985d5e237d049f61d75050ba2bb3ac6f7cf0eb35f8190a, (10274080000000, 2568520000000, 1592580));
  (0x68bce800ae668c309f3e5f9e8cceedc1b4f98f653048b948f0821be268850e4d, (20548160000000, 5137040000000, 3185170));
  (0x68d245f2d8b136ac2ff9de3b0716068d0e6fa7da49ce06c01d3c6f17d16b880c, (20548160000000, 5137040000000, 3185170));
  (0x68dd284023fac2f6714754b91fbb3d7910e6359da5da6fc13f83c011e748bb4b, (20548160000000, 5137040000000, 3185170));
  (0x68ec806510871d5c3d3d1344c0ba82ba935ee5fc0c81d1c631b8355ddace6f7c, (139727488000000, 34931872000000, 21659100));
  (0x68edd305a59b42d37b27b6788d12f92c275aafda9bbf6a082072e10fbb2fde7a, (10274080000000, 2568520000000, 1592580));
  (0x68f1400ebd192eba440f0b2eaa3a5c4f373861a763ea84e73ddf8026654ecd69, (30822240000000, 7705560000000, 4777750));
  (0x68f790c9b0cde205f5b1923884919a447b53af10427be090e7c997b45936e80d, (10274080000000, 2568520000000, 1592580));
  (0x6a07cb799392654cf03d2529b00af890fc179e8ea483ba8298e051c7dd49fd49, (1849334400000000, 462333600000000, 286665000));
  (0x6a10abd4a033f0a31302af635d3817b95d314905a506ea0f7fe27ffb3d54da62, (154111200000000, 38527800000000, 23888800));
  (0x6a11b3f47c23f379766f32d9e9e15e014e96f231d0745f289fc61a7303032d79, (30822240000000, 7705560000000, 4777750));
  (0x6a1864334941c70885eac1da0e6e71cdc85ac05a91ac3dcd756c671acaf8a67f, (245961475200000, 61490368800000, 38126500));
  (0x6a245a95986d503e9b6dcb11c7fb566fbe5a66857594cf242aa98b98c2edef2a, (180823808000000, 45205952000000, 28029500));
  (0x6a3271c2bd108ec2a9c6af21c1d622c9a54a60c92f052f027f5db3001579ae7d, (123288960000000, 30822240000000, 19111000));
  (0x6a383410120c1f1b7f840ffe2550be741197490b7a3cbfc35658cf47f8928c34, (41096320000000, 10274080000000, 6370340));
  (0x6a442b92f0fb3262e5b2eb254c140b4c9e14be6cc8f4d24d3beffb5dbabbf915, (821926400000000, 205481600000000, 127407000));
  (0x6a44a262cab85ea8942f61a01f549f6401257275bc4c3dcfbfdad2307dbb2138, (207536416000000, 51884104000000, 32170200));
  (0x6a4745718c585465ade0343eb54f8cc55bf45f4f8aedf1c86afa22846f884354, (10274080000000, 2568520000000, 1592580));
  (0x6a5de4f30538090ff413814372a723f7097364c2c9aba1812abf8c5b20caea44, (51370400000000, 12842600000000, 7962920));
  (0x6a62b9dead5b574bdb7ea30e33f481e2c2da94c1942d4bec574f4d9fc8b43b10, (102740800000000, 25685200000000, 15925800));
  (0x6a70bb8465b9a8aea6f41ee18055349a24b6b5d289e0fdf8df796461c7b5cd7b, (57452655360000, 14363163840000, 8905730));
  (0x6a785be5767a80b718bd64412b2b72153119cd453ad65c2b1d8624efbc64c536, (20548160000000, 5137040000000, 3185170));
  (0x6a8c1cb2901febe1eaabf8cd95b6441a2687aa072300bcda32d19e21f62a837c, (30842788160000000, 7710697040000000, 4780938170));
  (0x6a99ef019fda5b04b29d07fe3c5057e3d451a9378c1885f5678078abee64792b, (410963200000000, 102740800000000, 63703400));
  (0x6aa6dc41ee036ec4029d98238451cde462c58f2789a522aee9e45803b64e3664, (20548160000000, 5137040000000, 3185170));
  (0x6abdbda021d1423ea36bf940c67cd2a4ceccaa08b4daf4ccff06a4e27ef0371c, (61644480000000, 15411120000000, 9555510));
  (0x6ace986f74349187fa5ae43285363aa16cc46ada91c006df187ec8905dc3f712, (205481600000000, 51370400000000, 31851700));
  (0x6ada1e355365f6f5325541a9f8999e2c97413416d3431b689c571475e8b02b38, (12328896000000, 3082224000000, 1911100));
  (0x6ae953b2587c4182c3112565eba5c71f2c9712c942a1f26726efbd70ead4bb43, (61644480000000, 15411120000000, 9555510));
  (0x6af01f055f5229f737b83fd0424b58cfae8255c96c928c2410b5c755eac3da5a, (16438528000000, 4109632000000, 2548130));
  (0x6afb254235ae269bcd47fb391d58b94c3548823468dee61eaab5a653bd30950c, (51370400000000, 12842600000000, 7962920));
  (0x6afb4416306020fb00b4c8fe413ffb375472b526a32efab43897d3946b673e30, (106850432000000, 26712608000000, 16562900));
  (0x6c013a67811b003167da89c4a94c43af1fc753663fa64df94109bafa3137b618, (3353459712000000, 838364928000000, 519820000));
  (0x6c04bdbedd87c57c8c92eeeefeb2659f90060f22bab84ff6dac5efca115b7a7c, (12328896000000, 3082224000000, 1911100));
  (0x6c1b9470b7c53527f730265d027eedc236a155aecadbb2ca09fc805cb207787d, (12328896000000, 3082224000000, 1911100));
  (0x6c2a2da6486dcb41e61e388add5f25ba4950ae3f8d8c2aab4bd48994b5b7bd16, (10274080000000, 2568520000000, 1592580));
  (0x6c2caf7c237c9eafb70ca202a599d5b15e2361f8ec6c378ac733e8205c19d005, (51370400000000, 12842600000000, 7962920));
  (0x6c2cf81929b7d51ba362bcc1593872106253c1126d5723459c274a6c22315920, (10274080000000, 2568520000000, 1592580));
  (0x6c4e9391582ed1014b117bb613034d51bdafdf822aa0081ff3e04bcd4d15e900, (102740800000000, 25685200000000, 15925800));
  (0x6c51fc1b675facb9afac80175f66cd284251d95440b8fe2391a2d4f062b2e92e, (205481600000000, 51370400000000, 31851700));
  (0x6c53165889f125ae9032bcff1f89c8765b8d7b07430a8e1d0072699c2ba8c20d, (130480816000000, 32620204000000, 20225800));
  (0x6c77e5f050f732898b941e8524e72e89096dd87a0763a8e379fe955523279e14, (267126080000000, 66781520000000, 41407200));
  (0x6c7d7c8bc2b4d9bf293c7f289f632ca0f909e56224b1e982612144167d341839, (10274080000000, 2568520000000, 1592580));
  (0x6c7fbbeb1da60c02b7c5dbf135b5e9ea8de7c7f5bec340f3a28bc3be6ccdc963, (246577920000000, 61644480000000, 38222000));
  (0x6c7feba59ca46c9bf8cd8ad8de8728e2a05c476701370b6b8eebf674d2accd20, (41096320000000, 10274080000000, 6370340));
  (0x6c8464000f07899e9e3631d54dc187a9f74f5c263014f5ff6ad8b9fbe64fa50a, (143837120000000, 35959280000000, 22296200));
  (0x6c8ef8e76a7eb25bb994672b1790cce0a75904c5dc2a3170e956050061cd0d02, (61644480000000, 15411120000000, 9555510));
  (0x6c998a7fdf1bc77ec648d6a4a2f06bc1701eec73579d4333851aaf428d7ca238, (123288960000000, 30822240000000, 19111000));
  (0x6ca1821fe3ad855374d84c25cb3c301ef578745d331aa9ac2eee5cabc244ef38, (410963200000000, 102740800000000, 63703400));
  (0x6ca729f265f606c90f9bdfd04b82cc771ba3675cfac7ab4254d75a9e9e4b404d, (30822240000000, 7705560000000, 4777750));
  (0x6cac62391e5bdd9fe583d5b837b21a2bdedc97a79b8f1ce1219c4e3951b4f46a, (82192640000000, 20548160000000, 12740700));
  (0x6cb2bcff3375aa0d37e09ca764d7c7390d0545a79ec94911cefd0b46cb3fb353, (10274080000000, 2568520000000, 1592580));
  (0x6cb8cc8e7a9c208f3661bf73b7fec6a1365b38b9264bf7227d273c57dba9357a, (22602976000000, 5650744000000, 3503690));
  (0x6cb98ee23392da461bb3bdca3222b23bd0bb5af030f3052c02ce125c6665ab08, (10274080000000, 2568520000000, 1592580));
  (0x6cc1c06a2b46a3a86f89d12445954566e42c645c306419fbfb4ed617a7185125, (34315427200000, 8578856800000, 5319230));
  (0x6cc7ad05ec1169f5337d7c3c68a40fea955002097a83c1d7837ba05f58c12907, (106850432000000, 26712608000000, 16562900));
  (0x6cd4ed4b0346282651d6f9c4f01cb6eccca61ee2848371a014be9cb1d89db70e, (129453408000000, 32363352000000, 20066600));
  (0x6cdb4840ed347e271ef3a0fca8921997a2d210b7db2ff6148a8a461538f00d41, (10274080000000, 2568520000000, 1592580));
  (0x6ce2af0295e52a4538f60727baa141efc8cbc7d64f2f81ce7d9bc30a7fd9ff0d, (10274080000000, 2568520000000, 1592580));
  (0x6ce47101d714355cc7cc984ed607eb851525f9c88d574ec1c620b12cbebb257b, (41096320000000, 10274080000000, 6370340));
  (0x6cf092891217f753161f3b1294aa6a311a323fd7f0382e2cd1f2c40b24f00d31, (10274080000000, 2568520000000, 1592580));
  (0x6cfbbb7c42de23f641c1eb07b92ab46a867fbfd920fdb530795773f7ec900934, (128426000000000, 32106500000000, 19907300));
  (0x6e07d50df90d5e5ee8e3c84d0e21e5ce027e87b195bef8c822aece18f43c1a30, (10479561600000, 2619890400000, 1624440));
  (0x6e16b4508364ba25d3efc5f7121d8a26f60e7cc2a1f3e10e54d0e323ef36a50e, (71918560000000, 17979640000000, 11148100));
  (0x6e1ff80073945091fb792d73dae14b417eb022e06e62e1c349dbdedd161aaf65, (20548160000000, 5137040000000, 3185170));
  (0x6e355ffe247be55df25d7176060dafeae62faf6e53070e5e8e6e975652b86046, (10274080000000, 2568520000000, 1592580));
  (0x6e37f198efc2fefe997acf65d229570ae736c7b94852c235eee879a7ea3a962a, (47260768000000, 11815192000000, 7325890));
  (0x6e3852415e0bd34558fde4e827d4128ccd5e61dbd06c20504ebc4ca47b4b4c54, (10274080000000, 2568520000000, 1592580));
  (0x6e3d56d2f5ce538c29cc37ad2b0c5d2cbb78a5ee2b0523ff806d7ac690792024, (10274080000000, 2568520000000, 1592580));
  (0x6e4684164aa2aef6797910ff1e81764d38091c91e9bb9f26f3f31351d3b2760a, (113014880000000, 28253720000000, 17518400));
  (0x6e4a544c4a2486ebe8e75ee55a514c75f836b95d985b144ed283cae602299548, (12328896000000, 3082224000000, 1911100));
  (0x6e51546b91110e973635f1d39ff7e166019fa7345e761ee76507279652f2e615, (10274080000000, 2568520000000, 1592580));
  (0x6e5fa7fb2180678b7da44802a4fafc8aa95493d64c80e11340eb2a1044e4df41, (205481600000000, 51370400000000, 31851700));
  (0x6e6409b859767d15c03283335237ad942cecaa48d651ac0b45593bdb81773673, (102740800000000, 25685200000000, 15925800));
  (0x6e753aa0bf6a3699bf1820cd8cb87cd1fd7c88d0c3e9c194a5055bbf6d338047, (102740800000000, 25685200000000, 15925800));
  (0x6e87e434b8ca448c820feec030d9fd118552595a078e144250a838f3e5f0af60, (42329209600000, 10582302400000, 6561450));
  (0x6e90359a5450bd79805d26699fae0007cab97194124f2767e36369dae531d411, (20548160000000, 5137040000000, 3185170));
  (0x6e944a096833a21a7fd063714fcadaed345d81ffccc4f24fdaa10ee29ec3570c, (21370086400000, 5342521600000, 3312580));
  (0x6e9f1778f5a8544ac3212f444355acd301afeead0c5f8a784972efccd6801e5b, (2054816000000000, 513704000000000, 318517000));
  (0x6ea4c5b1983cdd6c53ad51b774a918583d0cb1b6c09fdb8cfe5892f46368773d, (10274080000000, 2568520000000, 1592580));
  (0x6ea9b4bd255eaef4d7cba57df1045272fd2856b9cd342eb511c6e1c6eb57c344, (20548160000000, 5137040000000, 3185170));
  (0x6eb166bebe4af81c4b929fff65b437b18eb9c7a3c668dc6c53f39d895d00943e, (143837120000000, 35959280000000, 22296200));
  (0x6eb2ae62986fd30731e448ba660466ff4844032c479d44abc6ee1f5294b6834a, (10274080000000, 2568520000000, 1592580));
  (0x6eb49bf513747f0547e07635cfb06fcde75dd66f96ccde6fa072b9fc12603c3c, (924667200000000, 231166800000000, 143333000));
  (0x6ebca3b1cef5a473abd70c26b43555124c37e3d48ef23b57be0b1a292e4c9c3f, (308222400000000, 77055600000000, 47777500));
  (0x6ec09b5d1bb4a0c9a4cb99afc944994c6e1c3561adb24d6d294c3f7cf885403b, (10274080000000, 2568520000000, 1592580));
  (0x6ec84c2971b7f92996e4ccaad02572ab1b0aed4695b1b2cb376d91d0e9583129, (41096320000000, 10274080000000, 6370340));
  (0x6ed677f45b461dca0a3d8c2b7527a6d7261bef3f8151984cb745497ca589b66b, (20548160000000, 5137040000000, 3185170));
  (0x6ededfc14523a6599b266ada8a91ac67ee3885e08c113611d43bd65e3cdedd0a, (10274080000000, 2568520000000, 1592580));
  (0x6ee169eee01b01dc7e96f3356d607e0b50b73c04f3add92faeee4a1af0a79226, (205481600000000, 51370400000000, 31851700));
  (0x6ee334fc77fdc2969a2acef6cf3b199a8140239dcb57d7a9c780900c5c3ee94a, (102740800000000, 25685200000000, 15925800));
  (0x6ee3a2addb5973386ba337469813002343a99f0efa398d6c101d4b64a7887b03, (530142528000000, 132535632000000, 82177400));
  (0x6eec959975217121f921a855c57e334615dffb678650d06594d7aae824f45e23, (410963200000000, 102740800000000, 63703400));
  (0x7003cadee66580fe071be39bb9164e7dbbbbb025f054e989144b3a11fa75e556, (205481600000000, 51370400000000, 31851700));
  (0x70086e7c9eb19ebdb3e7c492dce59dd3f895c2253e7a838d6dd746503bbdbe44, (14383712000000, 3595928000000, 2229620));
  (0x701565f6c3e5e9e98da3ad874be04cd6df47503f0459f4a1feb9c3f8b4ce9858, (14383712000000, 3595928000000, 2229620));
  (0x70167f39a287a105ac2a895484fd7582bec78f391d2fe65b46c6a1a186f17f54, (20548160000000, 5137040000000, 3185170));
  (0x7018cba2cd9b10e92ca76765c1a71b3aa3232a85e09563d16192e48d35998f7a, (30822240000000, 7705560000000, 4777750))
].
Definition rows_8 : list Row := [
  (0x703146e6313510622c633f63b806dc926581512df427382575a9fe4506cba872, (30822240000000, 7705560000000, 4777750));
  (0x703c5b0229b25752333343e5e0ebb6f8c17a28f7da31213d82785b255f81944e, (348291312000000, 87072828000000, 53988600));
  (0x70435e149684ab070350a8d97343a8a4ab0dee94b76881ca7ae7986227340f07, (2219201280000000, 554800320000000, 343998000));
  (0x7058a504d65ff52ba93d695545e8d90438e40fd2781b146723f189d4f3bce806, (375209401600000, 93802350400000, 58161200));
  (0x705a407234ffc5cfe60c55b42aae2503ada7e4e95df6758e619532163a70a90f, (1027408000000000, 256852000000000, 159258000));
  (0x705ea9a31903ef3903bdb1e2f53c9f1255da373838ae3bfaff04b2d5d07a0f5f, (493155840000000, 123288960000000, 76444000));
  (0x7060b3aeb3f177f34491e467d9e35e9882fa6e8d312bf04392ad1c3ba6e9b60c, (16430308740000000, 4107577184000000, 2546861000));
  (0x7061b99343a3281088aef72af1b75714788a605dbbc095ed479b18b957fef83a, (102740800000000, 25685200000000, 15925800));
  (0x70670d46349d978331d510453e858ceed4ddfe207bdcc2b4de169980ed4b2626, (20548160000000, 5137040000000, 3185170));
  (0x706886bbde41dff14ebfcee89dbe41ec074c232dcb697aa20d5a86584b419b1d, (20548160000000, 5137040000000, 3185170));
  (0x706bf900327f67756fb2226ea81653a6173b29ecc798dc1cfb2e37a7e8068c52, (69863744000000, 17465936000000, 10829600));
  (0x706c9c35de49eac796a3a6882533e1f8620cc2accc802bfa86001e7e20f5e00d, (10274080000000, 2568520000000, 1592580));
  (0x707442229216e4c37204577246b7c72bc7efe9235100f36f2fe1b02631311516, (102740800000000, 25685200000000, 15925800));
  (0x707520a61e6d5282aa799f3b4af8f0f09cc01984fc506c286b175725b1d5571f, (10274080000000, 2568520000000, 1592580));
  (0x7085081c24519ccc0d3fe6a491666e73ec925edda1b9a1c083b942e5f180622e, (20548160000000, 5137040000000, 3185170));
  (0x70866a7c2e05390e20accf19eb320a87062219b2af103f64b309f3cbf2dd0379, (20548160000000, 5137040000000, 3185170));
  (0x708c9b5952a569b3f4060f9927d90b3b789979d90bd9b07de1b715711b46ca1b, (45205952000000, 11301488000000, 7007370));
  (0x7099e71f95dbf9aa136628e5c35b37cc30fb99e669341bbc32554c7e953b157e, (102740800000000, 25685200000000, 15925800));
  (0x70a9a4781fb6ec8c2317ab77bf88bc48354b5eb15b49217d66a9ae4c8c731d02, (18493344000000, 4623336000000, 2866650));
  (0x70aa6243ba0450563d85d7f4ee8bb5fef7dbac7bcdbfbbad02615f7df95a395b, (1072613952000000, 268153488000000, 166266000));
  (0x70b0745ce412fa28cde2a61319292e053944137a38f59b155c1f4b175b324c37, (20548160000000, 5137040000000, 3185170));
  (0x70b46f00fbc16eda26639894b6301dba333c62d6285418a50cd1be5538de6061, (20548160000000, 5137040000000, 3185160));
  (0x70e2ae2395675559d6a8625eb5c65fef7e22aec47a48b93dc2948291d94d2b17, (205481600000000, 51370400000000, 31851700));
  (0x70e4021e1c2df9e68b5d0c0cb0a69668e45601c3dedb732ba64e020f34c96231, (2054816000000000, 513704000000000, 318517000));
  (0x70e58278b74178f46ca010ba9e0020935d9470e45dd62e2d5436087e65c40241, (573088182400000, 143272045600000, 88834400));
  (0x70eac36d2dcf7c46ab907d46b5e2b02b16c31ea3890930c4e80648d134ca1f1f, (30822240000000, 7705560000000, 4777750));
  (0x70f7b72d5cea61ee95a7f6d8844025195b5edaf626f4d368dd1027e2121ca551, (11301488000000, 2825372000000, 1751840));
  (0x70f88b634ec78e8c84452e4a540b95ce749ba19f451f07ff30041f2b9a00f870, (20548160000000, 5137040000000, 3185170));
  (0x7201e5fc2668e0a67a74e39eaaa0825096f69a1be7f8c34eaee8e4f6cb657334, (267126080000000, 66781520000000, 41407200));
  (0x720251a4445c70c5b8ee18a859dd9c2b1776213f96d19b469c02777e54368806, (10274080000000, 2568520000000, 1592580));
  (0x720e00a1b1e312eff7dc8cd6fdc84c8172cfeb70f7660fcff68baed9470f050d, (40767549440000, 10191887360000, 6319370));
  (0x720f706ffd0671e1955003785dea9410ed357541c0ac8062dd0652f1aba4ad0f, (16438528000000, 4109632000000, 2548130));
  (0x722557a504f48d4c50d7dc7ec5016fb674c75c151b4353f3df4f18519b33ca56, (27226312000000, 6806578000000, 4220350));
  (0x7226c5c2c606144d360d2afd8af73e730cf3bbe878b2564e1600c43eb2679804, (421237280000000, 105309320000000, 65296000));
  (0x722989dbab45b8c84b276f77f2ebf6bd93e1d1ddae515b08bad974fc55644b62, (20548160000000, 5137040000000, 3185170));
  (0x724c59c0eb0cb5cc5f95bc93b4ecb5b1feaec98acb7cc645bbc6c6f822481370, (20548160000000, 5137040000000, 3185170));
  (0x7255707fc2939947883b2b87dbf987f5cd4954974627b5f510878b8d39c7c77c, (567129216000000, 141782304000000, 87910700));
  (0x725fe3b2c07c505bb916af1ed04dd643e6ba6739aea3305cd84475fd90ad5639, (30822240000000, 7705560000000, 4777750));
  (0x727adbbbb7b3eda7ada303910685b545ff2fb6afcd81edef9ef45346a63a0f3a, (20548160000000, 5137040000000, 3185170));
  (0x728cbe86e6273fbe0cb39934697686fc02d2599b8e8933c7a2c69a080ebe5527, (51370400000000, 12842600000000, 7962920));
  (0x72965bc959a5afeb2fbf008ca602fd8e521a9dc2c0199c90b92b58e44ce4704d, (75000784000000, 18750196000000, 11625900));
  (0x7298d8ddbcdfa424488df727d381cb78e503a367059e7b7f6ec0b3e6323bab54, (10479561600000, 2619890400000, 1624440));
  (0x72a00e24e07fa644d1ada3e26dc8ba94ecf0bbc3eefb53295d2f5edd9c634610, (20548160000000, 5137040000000, 3185170));
  (0x72b7e07f2167fb640f3aaa0480a3cece898664b1457edfa0e5f321cb6104d173, (14383712000000, 3595928000000, 2229620));
  (0x72c8c6302f51403ce65d773fe6c748362d1d1e2fdd2ed6ab091d8a24ea95c639, (102740800000000, 25685200000000, 15925800));
  (0x72d17c69d4206f0c493c023452c962ee8decd6758f0f9345614a3adea977ca3e, (41096320000000, 10274080000000, 6370340));
  (0x72e1b6c3628a768f1d7efa3da7b0efbf5b51da7f8c21f478c53163825a0a3649, (20548160000000, 5137040000000, 3185170));
  (0x72e8750d531f5bc8ab841ea933614597f4ca64907ec93f0ea172f6c3f0d98328, (20548160000000, 5137040000000, 3185170));
  (0x72ea4ba5f84cb753ff5b7c195521b50705af2f01cab17c388e63ca45e5d8397d, (18431699520000, 4607924880000, 2857100));
  (0x72eade1340902c4595dab441f5b633328abb594732c476f3f0b750bd0ec9b668, (20548160000000, 5137040000000, 3185170));
  (0x72ee317c87c47ca3df773e6453677fae09fefbd0671f3bbbf2a62a1e9fa8b618, (20548160000000, 5137040000000, 3185170));
  (0x72f3609bf4355f24e0b259f505623900d528a9d7b8d64d48dcf18f0a48cefd22, (20548160000000, 5137040000000, 3185170));
  (0x72f3a24213009831ba4c396365f143e460f3727f3f2f7d78dd9ab8454cc1c73a, (10274080000000, 2568520000000, 1592580));
  (0x7402c0c95cef4a65a0188ff7549e20de8bf83aff3d53e5c81ad8cc628bf63916, (2169885696000000, 542471424000000, 336354000));
  (0x740478f97f748c0f0171f758c3c12c5af3321c2031c5388041d87ac1ad11e86a, (43151136000000, 10787784000000, 6688850));
  (0x741bd15018ea07dc48b7f220247fbbfb992bc8c5be55bf5582e0d0a487fd7e48, (20548160000000, 5137040000000, 3185170));
  (0x7423608fbf97d85040484647aecb56b046440659e128c6b546d1740953997373, (158220832000000, 39555208000000, 24525800));
  (0x7423e174f1c164533fc22412c817b303062f29e85e6c3fcb83a4389fd4860340, (20548160000000, 5137040000000, 3185170));
  (0x74361bf2f0e5de53593d7c235b3e19729c87b5e6905bc00143ca7cf7e9e9283a, (20548160000000, 5137040000000, 3185170));
  (0x74456fe547eff98ed8cc0b503450fbf1ca9447fc71ff9b035627441ebf439810, (100448447300000, 25112111820000, 15570500));
  (0x745156960ff1a0d68c9c0222759e4f75d579d201cc6d0ef5469c6ad9dce4e320, (71918560000000, 17979640000000, 11148100));
  (0x745382cea0fd7312c43db54c20b2f88d50d6cf5858dead0876451bec9629a82a, (42123728000000, 10530932000000, 6529600));
  (0x745b9c5aa4c9325e430264752827ba052ba7d21a3c019618f1575fe6716fd75c, (184933440000000, 46233360000000, 28666500));
  (0x745bf8debc4c0f032eb836ca8afb4c17b09579449ff89f6166f6d24b3a2d0404, (82192640000000, 20548160000000, 12740700));
  (0x745ea59d91f98571f6552adef9628cf51a80e78d70acdefbd746df4fa22faa3f, (10274080000000, 2568520000000, 1592580));
  (0x746045d7064bf8fb114d9330b53de6187815163383ebced4280a76d840680b40, (36986688000000, 9246672000000, 5733300));
  (0x746fdc67b110b6574545215197ddc4c7c89b03e65eca31df1dceafa5504f591a, (20548160000000, 5137040000000, 3185170));
  (0x747f709030765a97f0f7205d7ac8bdc8a92cb31086b40089dac805773957c670, (61644480000000, 15411120000000, 9555510));
  (0x748a07a98e7725c51b12ed3c6150bb55a2134a8a3b59b18cfe649b0f29c85d72, (410963200000000, 102740800000000, 63703400));
  (0x748b366a6e56739c47d8fecc4507833ddab432af83edfb7f8eb5e0c0a66d7075, (12328896000000, 3082224000000, 1911100));
  (0x749c02c8f37e67482aa8cae99028619e1d0021497997b119b976202047432a74, (73973376000000, 18493344000000, 11466600));
  (0x74ad2af374cc3ba48c1f73ed8247d30225d4cd33d353c95bb753bfd08bb59353, (215755680000000, 53938920000000, 33444300));
  (0x74b91666f74482355aff755e0c7a09ad2ba3ae53220181350694afcd1f7d1331, (20548160000000, 5137040000000, 3185170));
  (0x74ba742f1acd071061cd8ccaf864795ff262fbd6290660be2141124b43d73973, (20548160000000, 5137040000000, 3185170));
  (0x74bb4fa28d9409cd8b0b57204efc07270442c2b014d3ae1dd85a1d3d0012c273, (10274080000000, 2568520000000, 1592580));
  (0x74bfa77b8e13eab0981c026d2e8e548c0c409964124aa0db4d0917a1b2d45070, (10274080000000, 2568520000000, 1592580));
  (0x74ca452acca770f86856f356380601c64db72315587a8d8ad7b80c265062605d, (19520752000000, 4880188000000, 3025910));
  (0x74cd3c6cf92ce8659310016918a8a62525f0f5034e9822b5976b6b054b77aa45, (205481600000000, 51370400000000, 31851700));
  (0x74cee098d88437191a0e4a62f258be7dbaa1d9797482fe4ca9c66eb37f77e972, (30822240000000, 7705560000000, 4777750));
  (0x74ec91d98b96a9fe1550237f26560c26edab4421ec963eadc7ac50ca3c93b803, (214728272000000, 53682068000000, 33285000));
  (0x74fcc931b3d89e2bc31284943db7fdbca33dd053c0af399ad855b0c865a9ff3a, (20548160000000, 5137040000000, 3185170));
  (0x75a6e3fd295f98a98dd559aef4692b46f44578cfbf3f2254ba601dfb841d0bce, (102740800000000, 25685200000000, 15925800));
  (0x76000564aa8239c8d2e68f6dd6888ac68780668e3cc0d2c5d0bb27310c1ee837, (12328896000000, 3082224000000, 1911100));
  (0x7619a79cee7c12812fca7e9764f953c9adf539de38651c4e6c499c55a5ea960d, (10274080000000, 2568520000000, 1592580));
  (0x76271ff148ce540132b785da54997999466998675e83bb1d541e19ff01d9a47d, (35959280000000, 8989820000000, 5574050));
  (0x762c6426d10fec62351b476f034f4bb81c7852c84a3e57f2cef59c8fb860820f, (10274080000000, 2568520000000, 1592580));
  (0x7633c1ff731d25f1b6816fc827d7282931607535a3a37696d77edf0ebced6c47, (10274080000000, 2568520000000, 1592580));
  (0x763e83e32c9c781e60000ebcae276e4afc9938fbb6ea102c3a8d3373f803e073, (205481600000000, 51370400000000, 31851700));
  (0x763ece65fd6312c69a9a1c1ebad93970f85e88819a9193f300a2407b1492d073, (53425216000000, 13356304000000, 8281440));
  (0x764681b43e2c50c83f8930dd701cd9ad50970927a14e9067f598ca35e493f250, (20548160000000, 5137040000000, 3185170));
  (0x765420f657073515584bf3889192e9cd47ed2ed8585eb1069e68d23f84133b74, (10274080000000, 2568520000000, 1592580));
  (0x765bc376e404ada2a5853280a46d0c06acea41da6613184908f65ed3b1456346, (441785440000000, 110446360000000, 68481100));
  (0x766680ff23463614699f916adf3fa0220e503678b6d77747de1eb5bebd20ba5b, (20548160000000, 5137040000000, 3185170));
  (0x766b19f53c7a7e9b300a4ee8d83ff079b118fef87c38dc6a71211b45d2873115, (102740800000000, 25685200000000, 15925800));
  (0x766d44a290c7a3ac72f395b45fa1501dd3cce4fc0468b9737a5082bce017f758, (14383712000000, 3595928000000, 2229620));
  (0x7673f490ea0e12b6b41c62892e59cf1586f5cf17c74c09c27a70c9c0e15a8c69, (20548160000000, 5137040000000, 3185170));
  (0x7676647fe9228133668dcc8f5de6f253b4597195657957f427c838070f63933f, (102740800000000, 25685200000000, 15925800));
  (0x7678932d14c95fc32dcfdee0a710f91f28a7497a38c201abc42d6523dd21dc3c, (10274080000000, 2568520000000, 1592580));
  (0x7686d96aeee426a0841fda53fca5ce4a3e3b21f5be0b9fabadabe8712183e536, (10274080000000, 2568520000000, 1592580));
  (0x769789a2046e4a9534154877332ab0c671aa91566895b0f6bdb05216820b6932, (349118991900000, 87279747970000, 54116900));
  (0x769b381050dc825758d7f66a5d7aaab84060aa6d684d5d1426f5018fe6ad1c5b, (63699296000000, 15924824000000, 9874020));
  (0x76a3e1db5e3e013e8a1b0d4e4f03d0f1831a3cbb79ab710ee6e978ffdf02ce01, (821926400000000, 205481600000000, 127407000));
  (0x76b23682dd19cda3a9e8d4e1ff2fe2b8aeff7adbbf840f8a409468196e621a0e, (20548160000000, 5137040000000, 3185170));
  (0x76b39f856ecb1c1336b5bf379431a6e88618bf42d08f0fc6d3d00ad07f82cf0a, (20548160000000, 5137040000000, 3185170));
  (0x76b657736b9963d6f38e900ea1b9d84b560808e3c3592653beff5ef03f2a1175, (20548160000000, 5137040000000, 3185170));
  (0x76bc00b0862218712e0e5a4b570b0e72988c9f3151244b71bec39ea74003c076, (10274080000000, 2568520000000, 1592580));
  (0x76dfe3f31ec929b15791b85f526cb09d364cd7b2937cf8792a832519a88b5a64, (41096320000000, 10274080000000, 6370340));
  (0x76f1635cf999f30ebdd3aacf113602b97e08bfbb011480818333062344f1d03f, (205481600000000, 51370400000000, 31851700));
  (0x76f185ed9f9a3dc297aad5e9cdfcc8dff8a852765af91b95796322f261580169, (10274080000000, 2568520000000, 1592580));
  (0x76f54ffc8481cf9bde83e775056f28fdf55fb2b0ae99e38ea0eada8136bc4c04, (20548160000000, 5137040000000, 3185170));
  (0x76f70a8fb309ae46846e4bb07c4c7a67b34e60fec7d9c4de00479355f34f8844, (410963200000000, 102740800000000, 63703400));
  (0x780084ea2110246143bf72e184df17c67842ae93bf948872c5e0995de0628809, (69863744000000, 17465936000000, 10829600));
  (0x7816aa4eb43cfc0c15dcda8732e6af13126e0e64e8ab131859949a339dc25d32, (20548160000000, 5137040000000, 3185170));
  (0x782018ad09f46a2c1481980114bc7e32e59c5e637210ab29bffefc60e8c8d436, (82192640000000, 20548160000000, 12740700));
  (0x78264bbd956b76ff2b7d833247dce4776782e45f091d7874744f5ba1d6d82b7b, (16438528000000, 4109632000000, 2548130));
  (0x7827becd7c15039da1610c978a9bd67feab6bfe3f549f187e252dcd015b9016f, (41096320000000, 10274080000000, 6370340));
  (0x7835a4343e29252dfb8c42879e88278893bc5f52601ae4e04cf1b6319edfd56b, (10274080000000, 2568520000000, 1592580));
  (0x78369da0d71b17fa7afa86acd4d0371155b4d6c267938219d7ff7ecd9c4b0539, (102740800000000, 25685200000000, 15925800));
  (0x78386c7aee584bb44c3198712777acced496beffd1e688ebd110c629da9cc07d, (316441664000000, 79110416000000, 49051600));
  (0x784551aad58669ce06e7b30bda2b1ecb0feaefba9ba0fe3b7b4d7eb09102432a, (61644480000000, 15411120000000, 9555510));
  (0x785867f1c9a782382cd51b33bd8eb80e428a4983ca383cfd53bae252cd25176a, (41096320000000, 10274080000000, 6370340));
  (0x785d378f50efef8fdde01f291fde19d51a9637d06788d1431ed58b624c3bad72, (10274080000000, 2568520000000, 1592580));
  (0x78666f1dc18d4c44fd3a33a4e31ca424587d64e2937aaab48795ce21a08fbc3a, (10274080000000, 2568520000000, 1592580));
  (0x78821fb989cd85b37627042a7290b2f4fd3968e42d35fc719b90f6b4812a8f4d, (20548160000000, 5137040000000, 3185170));
  (0x78889bb3327e151bf53b86971c2c2d6b9b5acc0dd8c2af5fbb312faae4a43247, (7374323661000000, 1843580915000000, 1143093000));
  (0x788db4f0cac1a92959de6daf56179cdde4dc3d44c6e26467d599d3b0d52c0a6b, (10274080000000, 2568520000000, 1592580));
  (0x789534828ebd654aad525c5a5a66186bd421bdbc83fcb8bf3741c78354c83142, (1027408000000000, 256852000000000, 159258000));
  (0x789a8ad6472503866615a35466979611af5d3499176252aba5057fbc38a94d0c, (205481600000000, 51370400000000, 31851700));
  (0x789da63aa6708de2664a2272d514a3cd07c20338f28222c1f884b707cb98ce35, (20548160000000, 5137040000000, 3185170));
  (0x78a8a753894f95abbc2d29f31e60c85aa6004c07c1874fcb478c924e7d8b3518, (10274080000000, 2568520000000, 1592580));
  (0x78b7a84ef47aa9210b729b7eadf1536673caf6741b2445bcc98137d701becf17, (61644480000000, 15411120000000, 9555510));
  (0x78b9431e7278eae9cef07265cded1fbd8fe23bdb16e886cb50c4b210c4211e0e, (1687003936000000, 421750984000000, 261502000));
  (0x78bb99a2d4676174b4a2a1d46313c87e66538aa21fd8facec9ebfb1cdb0ad035, (10274080000000, 2568520000000, 1592580));
  (0x78bd7b1645db34388b2de98519122d04ce82685b60b092e4a1a6b79495b06435, (54760846400000, 13690211600000, 8488470));
  (0x78c9968b5ddba461806a32d7e757f1b3f7baac1e43db6ebfd44d3f2fb4f45840, (205481600000000, 51370400000000, 31851700));
  (0x78cb89471d608b018c1407a31a64cba4b135bb9eeaf7590c66616b1711b49a32, (14383712000000, 3595928000000, 2229620));
  (0x78ced35d9b72c9155b7bb98471411ccc5e90f6218abeae9eb987f9edb472c663, (205481600000000, 51370400000000, 31851700));
  (0x78d418ce8d72af4c5d88ed643f08ec8d74f92cd7c08330eb310e9552174e981e, (612335168000000, 153083792000000, 94918000));
  (0x78d7f5d0be611138fd17441f98242a36a11acb30c33fe83dd9a77f4efea00c74, (102740800000000, 25685200000000, 15925800));
  (0x78d8bd230ac7e4300c7b6c69a54368421bb04e481549b0ae82b4378eae2c8f4e, (102740800000000, 25685200000000, 15925800));
  (0x78e0601a0cca09b79d22f2e38d5a2a0767bb95d4115fce4b07f2480d07117172, (92466720000000, 23116680000000, 14333300));
  (0x78e496a66d8e983a3ce570e1ce316de269d025903c864f73559b43df1d92c72c, (133563040000000, 33390760000000, 20703600));
  (0x78e871903609223e109941b63ca153b982af2e57d34d9bcb0a7eda93f6e22822, (41096320000000, 10274080000000, 6370340));
  (0x78eb0f9a0b63ec41cafcf0bccc8f5a91b5e1be40dd39feb8e91b42dcbce25031, (20548160000000, 5137040000000, 3185170));
  (0x78f31e680b1519810f411800b9166db8fbdaa11a713bf8483b1e1fb078d4d46c, (20548160000000, 5137040000000, 3185170));
  (0x78f6a3f69397196451b35bf5177f857253b204559442eb213ad4d8c3b27cac41, (143837120000000, 35959280000000, 22296200));
  (0x78ffa6cf164470e38b656a57307e0ef8567494be7b09d74251e965a4ba05e23f, (30822240000000, 7705560000000, 4777750));
  (0x7a0197940cf69c444b441ff3f2eb9b2797fa6ec7af0b02a30530b748e5fbbd1b, (20548160000000, 5137040000000, 3185170));
  (0x7a0242561151893b5d131aaf6b67f6bb249bb3389c5f28658b7dfc1cd46dc10e, (30822240000000, 7705560000000, 4777750));
  (0x7a049727ab45a609df6a7d1af799368aceabf2c250a2d1812dafdc616698db2c, (10274080000000, 2568520000000, 1592580));
  (0x7a06cf91c9a9d83cd0854938148c63cf52c8c63e2fcaa92d5e2d726d783c0e28, (102740800000000, 25685200000000, 15925800));
  (0x7a0898a186215e4295a37c12f14b3c092ac526e0d3f132112fe33983e11f7a62, (20548160000000, 5137040000000, 3185170));
  (0x7a0a42e420350a3ece88327e98ae9fddd7bd34c517fea9db6d89d7713fbfb954, (10274080000000, 2568520000000, 1592580));
  (0x7a137865572c01b3936d0cf5f7b3995048bdc1c051677b570605688bc008e82f, (10274080000000, 2568520000000, 1592580));
  (0x7a153435a78c74d0241e49941cf09e4e8aeb116763e851b09fa44918399f3952, (102740800000000, 25685200000000, 15925800));
  (0x7a2021489111b92cd76b8ba2b9ce95db07d14313937f2ad206e653655cefd775, (172604544000000, 43151136000000, 26755400));
  (0x7a238be8d0c0aed5b1331472f668d639c852d61baae4613ed273a55294cf3f00, (82192640000000, 20548160000000, 12740700));
  (0x7a2aa9c4389c53614e2f4bdab6c87cb00a95431968caadfa0454775b62833254, (20548160000000, 5137040000000, 3185170));
  (0x7a2bca75e52306ec48f1d99d115c07bb139801c70c48c6b6f748a28ffed84942, (20548160000000, 5137040000000, 3185170));
  (0x7a3acc542b347e4a90f2210f192a447871e681d2cc9a789ea5bb25736fa7f12e, (205481600000000, 51370400000000, 31851700));
  (0x7a43363caa252e140bb4a148057b33cfa4051731e60bc39bef6657b3e9f3eb32, (10274080000000, 2568520000000, 1592580));
  (0x7a4824b0673135506d4871b038ed49712ed59f1ef54c0cafa5f8a8d2f176976c, (213700864000000, 53425216000000, 33125800));
  (0x7a4cabd3b4bfa273b02cdea4a835769af7652fb7d0ce5e609548bc7dac784f1c, (102740800000000, 25685200000000, 15925800));
  (0x7a557c3661765aff9713bbf9474df52b5059bb16fa216375a1cd124a9400523a, (10274080000000, 2568520000000, 1592580));
  (0x7a587d3745ddd738736928791f47c2259bd68d026e843cd98709a4a59b2d864c, (10274080000000, 2568520000000, 1592580));
  (0x7a6748caa65421ecd4ff14b77d2fc27382cad859b8ed249e6af29524c88dc716, (3782916256000000, 945729064000000, 586390000));
  (0x7a6a399aeb96ba4e823f542fed2e802a6d5dbe7d93cbb4107f05d8582792b20c, (1142477696000000, 285619424000000, 177095700));
  (0x7a6d82073232fe8434fbb4dbfe2bf5576f204aea47414c4725c3af65d27f1e1b, (61644480000000, 15411120000000, 9555510));
  (0x7a7ce85edcca610d2fda0c9ba9a30efc5827e7a093e3b6a84e30985f0d2f0c02, (10274080000000, 2568520000000, 1592580));
  (0x7a8f394ae76ac056ef767eca6f47079e22dcc93243b6f9f8ee19722b530c4e3e, (102740800000000, 25685200000000, 15925800));
  (0x7a97165dc364fb436c93169d364c0ee04c6125b2bcd4915f0832297bfca8660d, (108905248000000, 27226312000000, 16881400));
  (0x7aa03a0fd52c33a9634749d69eac9961327ae137d254b3ed95247ec8260fe217, (10274080000000, 2568520000000, 1592580));
  (0x7ab0a32f93463dedcb4c84cff267e7c7012ddbe59c0a50228179aa420b84f12c, (10274080000000, 2568520000000, 1592580));
  (0x7ab5ef42ab1113fd7ec3b21c8bcb7019981a4aeb275febcd548995f54030b753, (108905248000000, 27226312000000, 16881400));
  (0x7ab746336ce211fba020da400508fb051943e746a88e919c1e617071c7bd9a7a, (84247456000000, 21061864000000, 13059200));
  (0x7ac9665ee030539b840422dfbc0d35aac38060830ad0066ea2b6f36f4c7dec22, (213700864000000, 53425216000000, 33125800));
  (0x7acc79d77a591f5a5176182667e605cd0d4e62032c6e50329385e1e2549e794c, (20548160000000, 5137040000000, 3185170));
  (0x7ae13050beda4478701187ab72d606fa11b8f1f46f99869d670863ca68701a01, (30822240000000, 7705560000000, 4777750));
  (0x7ae6ad153d0fe6ef46fa1087d8d914c6ea313e0d7f9bc3ec44d605fe27653f64, (25685200000000, 6421300000000, 3981460));
  (0x7aeeb0b79b554ca2dddd5c41a053508a454dbc8cbb3b87622e33386e5e0b5e67, (2383586560000000, 595896640000000, 369480000));
  (0x7c01086f59fac9291c862e36a907c372c198f4e1f8aad3ef9934b990ee722517, (10274080000000, 2568520000000, 1592580));
  (0x7c0342b3769ff7d866ac5a8b0e72b4bb4e3c1678906c70fa947ad93e7ffd1257, (61644480000000, 15411120000000, 9555510));
  (0x7c0cf77e93e7efe0322b3d9d2fbd4e8b2cddc8181567a2196ef38b4cbdd59539, (1027408000000000, 256852000000000, 159258000));
  (0x7c13f60e36b12972c35db028800f7709cd13b80bb39dae1baf4b89eedadc395f, (51370400000000, 12842600000000, 7962920));
  (0x7c1842274e96935c512bb9b77533bf7e4cef8916b320bc475440a1640e995f2e, (10274080000000, 2568520000000, 1592580));
  (0x7c33cac608f2bb73b96eadc9788c1e1b8784c7ad2da7d4972349a2b74b430430, (10274080000000, 2568520000000, 1592580));
  (0x7c3d663c4f3fc36b90f8e0bb3d29214f658226055c36df66d00bc229cedf984e, (19214584420000000, 4803646104000000, 2978451000));
  (0x7c418e8f4581429a2297af583f7fc6ce012b5831d8c5a7f094950348c97dd45f, (10274080000000, 2568520000000, 1592580));
  (0x7c46dbc433885d568fbb68a9ea6bad1428f6f72d3fecc8559e07a4f954ab1946, (51370400000000, 12842600000000, 7962920));
  (0x7c51eb44ab7322f2e5cd24b6e497cd3778f89e2267891dd9f1a8535f5867f270, (51370400000000, 12842600000000, 7962920));
  (0x7c5278d5fd6d54a19cc435f74a8c0c526d42da06eb6375f69df2c8f8a0bbc573, (55480032000000, 13870008000000, 8599960));
  (0x7c59a0cd1e79c9dd0ef34f223253a4b06190564ab2bb420294a0b495d072be53, (61644480000000, 15411120000000, 9555510));
  (0x7c6acacaceea903dc6111fdfe4a5038aae8035deb939456fa9d5a5860abd7866, (31027721600000, 7756930400000, 4809600));
  (0x7c77b9a962516cb3533d5a8826bc0ffd94fcb6703a97da3a6bb88df48baad872, (20548160000000, 5137040000000, 3185170));
  (0x7c840349140fe4e2e54e64ffe173f65e5aa7fa8d06b2c821503ed5515e3a1b32, (1140422880000000, 285105720000000, 176777000));
  (0x7c899073931c714f84c93df65a32b7ade00d820dee9c20a48749ab92ef49b53f, (123288960000000, 30822240000000, 19111000));
  (0x7c9a97b762c68d2188af8f485120d286abeb3d9c39f6ddbd8e36eba42d144255, (10274080000000, 2568520000000, 1592580));
  (0x7ca7762d3c52941bc63890c947e2a36ab81b5977b534b32a198bb0c131eaca31, (1095216928000000, 273804232000000, 169769400));
  (0x7cad0435190e06af78bb28cb41943f247bc5f8cddbcfabe12b7c5b6f1f1bb254, (10274080000000, 2568520000000, 1592580));
  (0x7cb69e9eb71b67778fd664120556dbc99a8c32e7670c058ef96dc251e1873e55, (18493344000000, 4623336000000, 2866650))
].
Definition rows_9 : list Row := [
  (0x7cbe8536e8f3d279371470a42766af5ce04f39073fcc65aa63cdae2056bdf533, (4029494176000000, 1007373544000000, 624612000));
  (0x7cc0c0629d6bdef17eee1104f435260e38c069ae58e8dee308fe801a6ae0341d, (102740800000000, 25685200000000, 15925800));
  (0x7cc216fa1c298887b9709bda380b3a4ba8e770e48099a43dc17c832dbef68912, (256852000000000, 64213000000000, 39814600));
  (0x7cc977bd8328105ddb91942b918a0bcc3d0cee5bddf77ef0b7aba74d78ca7523, (10274080000000, 2568520000000, 1592580));
  (0x7cd6692f8150705c226fdf902d579e473a57af5848b564929ce2ce1331791b7e, (515758816000000, 128939704000000, 79947700));
  (0x7cda8b857689315e848218e168e26c5a10f3df487ba5ad95ede21945be53f27c, (47260768000000, 11815192000000, 7325890));
  (0x7cdbb5cb07d5a3c9bf1a0bcadf1d7d3f0eb086cc2635775154a6d11a246cc77e, (195207520000000, 48801880000000, 30259100));
  (0x7cddbbf915dde572ed0399997713e9ce0d8ea77ea5f83d8650693e8fd70d4505, (205481600000000, 51370400000000, 31851700));
  (0x7cdf18faef23f25dc98b3c1b43e11f334ff5df943dc922e8f24ffdd726bb3733, (10274080000000, 2568520000000, 1592580));
  (0x7ce3de5f7a38110d85d26242aef1dfc0c69528498b1c13fa0eb7f20eb6f09b64, (20548160000000, 5137040000000, 3185170));
  (0x7ce74509174bbb264c5dbb4a8256712e015baf085484a275550b2a59078d380a, (14383712000000, 3595928000000, 2229620));
  (0x7ce798c893a50cf9ae0ae647ccb9096d01db97be47ed6ad4e66296aa57c2f577, (10274080000000, 2568520000000, 1592580));
  (0x7ceadf145c2fb6475118b58085d39ae8feeed915e40a92e8dfa86ca2e44b7c1e, (24657792000000, 6164448000000, 3822200));
  (0x7cfa423244c9a3bf66c12432dd93d3806d184e01b58e3eb75b4b19b26bf61a75, (41096320000000, 10274080000000, 6370340));
  (0x7e0b734dc537521396adfa3fb08f68db3344eeaad2fb64b70f73cc0c855e1e5f, (102740800000000, 25685200000000, 15925800));
  (0x7e1fd36f767377c4a906bf3fef40019777f4de0f15f7a30d1695f294db4c8141, (82192640000000, 20548160000000, 12740700));
  (0x7e38fbbf4f07074a0b9b10ec8d2d88b0faaf3b49ec47ae90ebb8fc0cfd6b335d, (10274080000000, 2568520000000, 1592580));
  (0x7e3ccb0bc2e18b92f8e0d54c68a43012c5e15ab619f358319d956697ac9b5a1e, (10274080000000, 2568520000000, 1592580));
  (0x7e4b4ca9d243479b5c540a2a9999e1eac90eadac0ed277f9ad91381d64ad2959, (41096320000000, 10274080000000, 6370340));
  (0x7e57c62f41339f7f43fa09f920af6313ecc5f44b23503443037107bdac54eb52, (41096320000000, 10274080000000, 6370340));
  (0x7e6a4e946442044d0d7340db9bb7810e9317511846c5d45375dad658b809f808, (30822240000000, 7705560000000, 4777750));
  (0x7e6b9b82271f00af6a79f100dce0b448365198324c5bd9582d5a9caf4bbada45, (24657792000000, 6164448000000, 3822200));
  (0x7e6dc81514c2d86711695f4c7b13a1591cec960cb7b8ab0f35e1725cc09f1426, (102740800000000, 25685200000000, 15925800));
  (0x7e7570079ab8d0594c7976351985fc4271813c41a25ec662fa769239f4ed2f7b, (203426784000000, 50856696000000, 31533200));
  (0x7e764667a3ab1e7edb400f453adbe68d40528eea1d953d5e7b34e11c6771ed2e, (41096320000000, 10274080000000, 6370340));
  (0x7e7cef3c93fa773cad071907f0d9056f6e96bf0764a657043d69426e183eea48, (20548160000000, 5137040000000, 3185170));
  (0x7e9487f96acb175ddbb47b78106c96bf904ecea4a28d57cdd30c9ba518a5c60f, (20548160000000, 5137040000000, 3185170));
  (0x7e95593c26adfd9be550e46094cd45019c11ff201a6012fbc46f8fb347492534, (71918560000000, 17979640000000, 11148100));
  (0x7e9f891043e8da542d2b6f4b99c2e33e91bb4c004d1ee6459fc115b2ff1e0245, (41096320000000, 10274080000000, 6370340));
  (0x7ea88f803ccced0f8bf375ade0610d18bee5228aa25ad75fcdd5b44ea384c70c, (10274080000000, 2568520000000, 1592580));
  (0x7ed59b106916a12995782f36dd12b10919f188ae23858d571da59c2c322dd850, (513704000000000, 128426000000000, 79629200));
  (0x7eda828df2d606f640fa5a0c2c5b00a6a1ab89376f798cc8594fb83ec993eb44, (10274080000000, 2568520000000, 1592580));
  (0x7ef6d3b6a0f76fb38ba26419ea2e694433983819bdcb060441ce77a91a10b409, (10274080000000, 2568520000000, 1592580));
  (0x7ef782f41de98df203f858308ebde7122549ceafc90f31924b0b2e27bc32db18, (14383712000000, 3595928000000, 2229620));
  (0x800365f99c782eae3370bdae3520711a7864f7bcedda097d4524f4d8f8034639, (10274080000000, 2568520000000, 1592580));
  (0x800aab741beaf15ba953897b937ea73ec9d823b1f882e375e6e0863e1537d840, (53425216000000, 13356304000000, 8281440));
  (0x800c00aed447db919335e838c14e0c390e98cabea3ee484a824c58e9a6d71b4a, (20548160000000, 5137040000000, 3185170));
  (0x8015e8117abd2cd708176f5087ad6181dd2acb8c8babd4662cdd90f58ccdb82a, (30822240000000, 7705560000000, 4777750));
  (0x80198a7d6694fde4d1b3c3b4141a5f2a19c0fdb42d5c9dbf22a4f8266d471e57, (61644480000000, 15411120000000, 9555510));
  (0x801eb2bc01654bf156467c14f4dc676185bea64375d913618e33ec7bbb57e924, (42534691200000, 10633672800000, 6593300));
  (0x8035f039b73f8094b1b8ce062a661a30ead5497765ad0ef685a5f7e1c876fc2f, (51370400000000, 12842600000000, 7962920));
  (0x80366f0699215fdd57c60c3f587a82b58003084ba9270bb5cdb1f488210e831c, (108905248000000, 27226312000000, 16881400));
  (0x8036be27e3df1e12d33b553c96618677697c26ff84dfc968499cc8eb28f4a772, (10274080000000, 2568520000000, 1592580));
  (0x8038b6f93b5ee65bf69b8c9308968b794a9a436d9d3185a9ff713f844d883501, (16438528000000, 4109632000000, 2548130));
  (0x804772f231f206b8246f5889860e2ff3f5eeabb5b8e5d6d4579f072a57c3cc46, (26712608000000, 6678152000000, 4140720));
  (0x804a97f422dc19dc153ffe02cb07204b8a935ae7d3e30a00d340d142c954f328, (10274080000000, 2568520000000, 1592580));
  (0x804fe47923330025608139110d750eefbc050e781e1635f832726c7d9d26703a, (308222400000000, 77055600000000, 47777500));
  (0x8057237184082166f6683cc7c147bd50e235fb3182bee0ac7245f3cf84095a0b, (10274080000000, 2568520000000, 1592580));
  (0x8066e0aaba9a9a2a0f54c63ecba3c29c5577f61a866fede5a1500f2497314800, (51370400000000, 12842600000000, 7962920));
  (0x806a17fdd4546d2730dcde9b71b20be4cfc94afb89030fd01f7d11f33186062c, (10274080000000, 2568520000000, 1592580));
  (0x807a7e7c30ed6e1c1e2677dd2e147e654745d190af89bedad899aa03d1fc0656, (41096320000000, 10274080000000, 6370340));
  (0x80837eb2c057a47fbd0b28347adabdbc99782b0491180d7c1e272b27771ab246, (20548160000000, 5137040000000, 3185170));
  (0x8085d0649f672bff829befdf91229046e899e354f14085ceabc6f0bca32e9c70, (7397337600000000, 1849334400000000, 1146661000));
  (0x8091068c8f4bbdbf0a4fddc865b24ff437a797e5602cf3f4405ed2b6b0b8dd61, (320551296000000, 80137824000000, 49688600));
  (0x809c6c7846032da1e1a2527ff523d227a9f4cd5df1679e57f1bf9c24ba08ff6e, (20548160000000, 5137040000000, 3185170));
  (0x80ca31f6a5826042aed193b69f9b9ff364a01c11ea8969357e2af10872c28d1c, (71918560000000, 17979640000000, 11148100));
  (0x80d4298ad6a8931d68430323cb376046b06eaba63116b38dd93f136bfbf45104, (10274080000000, 2568520000000, 1592580));
  (0x80e39c0f70c9dacf951fe5a1bb54b459c25e4c09d9731dab67a611ccdfc71b66, (1054120608000000, 263530152000000, 163398900));
  (0x80f1b84c2f7aaef284ba560a707d8524f144b4e155f79cd828f244dabc5a2b51, (10274080000000, 2568520000000, 1592580));
  (0x80fa054c619f69f71c08e56039e99d9aa9f675f4cd6b994592ea6d75a5617428, (189043072000000, 47260768000000, 29303600));
  (0x820362f78e17aad6adaea80043c47909184cc9b7c82c6fc8ccca0e6e08aa0131, (10274080000000, 2568520000000, 1592580));
  (0x82083c18471797c9c7d98e8084f29b46a7b755a4b2124d142cf646bf37d05844, (10274080000000, 2568520000000, 1592580));
  (0x820b2817694de3e3491fd6ccdaba802292a42f39600853ec386b36ef3473d675, (41096320000000, 10274080000000, 6370340));
  (0x820b6fda12e22d795316887429a114a6453bc3ad3c0cd146f70593084aba9825, (10274080000000, 2568520000000, 1592580));
  (0x8214733a0404e673226d1a22758750a68aaa24a6b48c73f232ee0f1138423073, (20548160000000, 5137040000000, 3185170));
  (0x821b728a7540060c6b50fc7f85a36da05a7b887107f10b213f7bb7a555dbd94e, (20548160000000, 5137040000000, 3185170));
  (0x8224f4d52b4f7b46ed7560ec7a30c5725760c65b20d354edc38a42fcb09e035c, (328770560000000, 82192640000000, 50962700));
  (0x8227eced25cf4aa8cb6e8111e38d2f3dc5566474fba3c74e9a047c922a12b76b, (10274080000000, 2568520000000, 1592580));
  (0x82337b94da68ffde60ba3107b9e05d15a8791eb52600470ca0b31411e2296f0e, (51370400000000, 12842600000000, 7962920));
  (0x82349e769891bb9b9e85e3b001c4d06e067e4b08aa1529ed4f57736d76157f38, (458223968000000, 114555992000000, 71029300));
  (0x8234d1a1f614f5d6781df634a479803760e9992215c1596ef147d982566ef17b, (127090369600000, 31772592400000, 19700300));
  (0x823fbedb6fb34d7e276bcf1f2b93c8a4e8693689856c6ef80492c98664e7222f, (20548160000000, 5137040000000, 3185170));
  (0x8241b4682365e2203782491c34bdb7408824c80ed0fb3d108e20dd8a8df87c4d, (205481600000000, 51370400000000, 31851700));
  (0x825bcd51c4bdfce3b54b08f135338972c1b0e9a0ff49a501d8322770f43c3563, (41096320000000, 10274080000000, 6370340));
  (0x82629eea6d9a0ae7cb5af7685e12a0c575ca171279bc85d674ecfce684e1297e, (2116460480000000, 529115120000000, 328072000));
  (0x82638ee46f8ae429b178ceacd72ada7d2a0f9134f418b6d599b8d002693ccd30, (14383712000000, 3595928000000, 2229620));
  (0x827c8bb7121da871394416b17db2028503397d00fc3dc3a2ce011e9059fb657a, (20548160000000, 5137040000000, 3185170));
  (0x828daa0ccf4ecb2b48670d36e3c598668ccc13521c8c5c12bca8590e06310954, (1003777616000000, 250944404000000, 155595000));
  (0x829766c8d34a7326d75e3d04a96838fc781192b759967ab0349d7edd2fd7741e, (10274080000000, 2568520000000, 1592580));
  (0x8297935d4f225c3208e63ba50fa05927f7a7cd9ac2c339219abab6bfabf7687e, (10274080000000, 2568520000000, 1592580));
  (0x829adcc50874f50c915a82ce280b53656b87f640b4a47fa37ad5011054feb656, (10274080000000, 2568520000000, 1592580));
  (0x829b0f62d540ae05655b1509ff3f3d63cdf6f1f28ec2054554871d21c840671b, (682198912000000, 170549728000000, 105748000));
  (0x82a789cd1eddd4acfdee870b091a038e6ee31c57531cb14deaa3bf6754184850, (10274080000000, 2568520000000, 1592580));
  (0x82b74c38e0073d54f2facef5bc37b11cc0634b88c4648b5e066a3d17a744c078, (10274080000000, 2568520000000, 1592580));
  (0x82c75e15b90939e06d3337ab85319e550ae44bde06ee30bc6956e1cbdda3bd6b, (20548160000000, 5137040000000, 3185170));
  (0x82cb95d499511619ee2cce6f13946d0542a41ad8730230a479f0c8f923fc606b, (16438528000000, 4109632000000, 2548130));
  (0x82e1ebe95b077fef72a27a4117ad6c10c6332c82f2fe677e94f47e9c1c3f9e5d, (20548160000000, 5137040000000, 3185170));
  (0x8417f0abc44d6e5ded424d55aea86a0c41371403cea80227f3a3a695ed23e85e, (205481600000000, 51370400000000, 31851700));
  (0x84224165318ef9520757cda159acb0759db3bb36095f77577284a6731ad14c24, (49315584000000, 12328896000000, 7644400));
  (0x842f9f06231363bcc2d0b7e92ba0e7e51ebd5dd536fb136f9ed16bd1b031120d, (41096320000000, 10274080000000, 6370340));
  (0x84381b6cb290042d32e33800fbbf5bb83a396915338de634a4d01f22ceecb369, (20548160000000, 5137040000000, 3185170));
  (0x8446eb83e9baa84a721fac8a96a80775b056301fdf7e715f398d7dcb25f9ae72, (513704000000000, 128426000000000, 79629200));
  (0x844cbb08cfcbf829412f42b8f98f8887b2534e7d0e66648fc5f4508569bf9177, (667406866900000, 166851716720000, 103454700));
  (0x84593625684828142affe9c561b3358c8b9ae4c86c56cb3d94e8c9500a673637, (10274080000000, 2568520000000, 1592580));
  (0x8461004af1a8a249070a1def6fa53bb90fab4d6c0f5b8b00c745f9274de2ac05, (51370400000000, 12842600000000, 7962920));
  (0x846ed2c53e0e6b7b19a10db51f804987fddf2275a188b88fcdc9b880df87df16, (10274080000000, 2568520000000, 1592580));
  (0x847527e3c0cb793f79120c98568500ef205588aad705f283057fe5f8e12a0354, (205481600000000, 51370400000000, 31851700));
  (0x8479397e7fb46c2d82c9b69125804ec7acda0381a296e2c328c336ef84147616, (41096320000000, 10274080000000, 6370340));
  (0x8479aad9dc0aa0dca8e89812dc0ed429a7280a0f80a0fad3a7fed5951dbf7c2e, (143837120000000, 35959280000000, 22296200));
  (0x847d29a11880440c6018fe0c7ce5240c3cadd9c4e664ee0f307b61f531ad2d38, (41096320000000, 10274080000000, 6370340));
  (0x849a78654ff80ac1a6e1ac8f7721c2dab20911b11e10da1f9ae424d561144e06, (20548160000000, 5137040000000, 3185170));
  (0x849d6a2b5cd4b8254c7eaa2a86aa80fc0774c12ca0dd27a9aca34a2593662431, (10274080000000, 2568520000000, 1592580));
  (0x849e2c98eef32b1fde4a4b3ca5ae9c2e99d9aa3dd5ad8c639f04b5f3b8ddae1e, (51370400000000, 12842600000000, 7962920));
  (0x84a040171ca84432a644a55e2c77ccda7eb72574d68833fdf3c06c8b3c4e483e, (410963200000000, 102740800000000, 63703400));
  (0x84a6bdd30820bf25e9ae96ab58ed0caa60e3f1ef84f83feea575e1f117e9fb2c, (30822240000000, 7705560000000, 4777750));
  (0x84bfe376fc9d7ec6e74e1f16c03cd2b77be74d6e446afe325f7ea7d9291d8312, (240413472000000, 60103368000000, 37266500));
  (0x860061d75de1049d47cbe1796dd7aac4f41a2f84baf36f6606c3c3ef7a39fc06, (102740800000000, 25685200000000, 15925800));
  (0x860cbd7da1a62c4941fcb2e55b3729b7f793aa428750e5c85ecb333272f2263e, (205481600000000, 51370400000000, 31851700));
  (0x861c24a03e6a428901cd3bfeed3dbe3e2f5cfaffef7f7350fe070a75b75f012a, (425346912000000, 106336728000000, 65933000));
  (0x861e5108e876877f742bdeb0d90022549b70ecd31dec379b90d0489b33fb584e, (2054816000000000, 513704000000000, 318517000));
  (0x86200d6097f562419d3045330223e55199bf295557a2cd1764fb854590c3e71e, (20548160000000, 5137040000000, 3185170));
  (0x862eb441910f13a7e1144d324d3eb48da21154149e6644a525d98f7b71d0dd2f, (18493344000000, 4623336000000, 2866650));
  (0x863b273124de44a8de3f75c1af6cb5581a4e29fe55b70e202a5fa5c002f1124c, (215755680000000, 53938920000000, 33444300));
  (0x863ecba5ee9b768cbb1e2bd5eb945f3ddfea6711b5be2acaa0e15d5fdb2dca40, (65754112000000, 16438528000000, 10192500));
  (0x8645af0eee8f774c3b3c3865dc1cdb19608ba1ffb4660e82c261dfb9967cbd4d, (10274080000000, 2568520000000, 1592580));
  (0x8666a0c79ea016313baf444f5de5443937b00959656f2234538d9af3ecf7ea7e, (96962657410000, 24240664350000, 15030200));
  (0x8699441872170c6ae529edc258f344fc4e0091d9a9ef4de6d32a949d3595b765, (20548160000000, 5137040000000, 3185170));
  (0x869cb7591e7b8ec47341fd31dece118cb9ac9335876489ce57a7d034c8111c22, (10274080000000, 2568520000000, 1592580));
  (0x86a2bacbe14c5791a1b8b9cd6fe10fe3b38d9af7589ea8f3378ec6438de5347a, (367812064000000, 91953016000000, 57014500));
  (0x86a42136d3f912a22f8a4bdf040dfded465255acf38f6ab19cd52c9679f53a5a, (10274080000000, 2568520000000, 1592580));
  (0x86b72efdc8faf735c80a451bf540f66fd88df7ad6c7d15a855e89e17b80e7040, (10274080000000, 2568520000000, 1592580));
  (0x86be91bd52ad3e55bb5937072f131d0711ff34458186bc27dd1c742bfa717150, (22602976000000, 5650744000000, 3503690));
  (0x86c2e9b626c0c5fec5639e9d79cd24d5ccd8f4b5ad9b1b416114be1da2090013, (10274080000000, 2568520000000, 1592580));
  (0x86d29887cb57992ffd75c231a6316fd9ebdc088b3102180f6ccafad1532dad54, (18493344000000, 4623336000000, 2866650));
  (0x86d363b099613de4d4da5709c65e2c1c2a72d3b41a2f289599ac403e897bec42, (10274080000000, 2568520000000, 1592580));
  (0x86e08a00bb855548ecc043e84bd4c3ffe356bd4266e9c9be9258796450960413, (61644480000000, 15411120000000, 9555510));
  (0x86e92c5efa3d9fc436c0c4524489806d72558baa3e49a0e02140122bba80ff07, (308222400000000, 77055600000000, 47777500));
  (0x86eaee434e3e70272e8063893969153d5f7b98bb28f3b4968c68b6fd1ecdc53e, (51370400000000, 12842600000000, 7962920));
  (0x86edecc19895ab1b2437064f82d09091ba93e41f2d3527e192dc4afe624aca19, (20548160000000, 5137040000000, 3185170));
  (0x86f1fae66b8ebd3a4226ad61832b9c44554f3d0d402728992f58a3f0b2b6f366, (22613250080000, 5653312520000, 3505280));
  (0x8803136f4014b719eb8dd0e80a73c2bea9dd973e69fbaa04465c66c466dea337, (10274080000000, 2568520000000, 1592580));
  (0x881573149a2cd9afec9b0b112d1258f4bbb06b99ef2097b92aea21d306a4a620, (41096320000000, 10274080000000, 6370340));
  (0x88163f000cf42166315a10d987f6b85b902803ffaa8fb98bd8a26cf2be719f00, (410963200000000, 102740800000000, 63703400));
  (0x8819957af951b3b94e72fc87109881543cc1ae5621c4f8ffffdfc6be8be33240, (20548160000000, 5137040000000, 3185170));
  (0x881b277476245b3d3bbcb635187fe8fc9f7c6edf6cb3461790ebb248cf862006, (102740800000000, 25685200000000, 15925800));
  (0x8820ad235ac91d3036a790624b2be637c130b6f923bf11279a3c84adc279f82f, (10685043200000, 2671260800000, 1656290));
  (0x88239657b4c5d9e2c8093523b87b9812d3c07e432d1ecdcb3659d8288c7a7b31, (41301801600000, 10325450400000, 6402190));
  (0x882408bfb3a261d0beeae0a17e6cebbda7a21775ab5c1321235e4ce4b7e7434c, (18493344000000, 4623336000000, 2866650));
  (0x882609b0f199647c6caf93b07fd3064f1ef7eb45dac039a92be1176de9c3147f, (16438528000000, 4109632000000, 2548130));
  (0x882832befeed4c5fdae447cd2cb7b45e5adf3809560a24629eafc5cb5557d969, (30822240000000, 7705560000000, 4777750));
  (0x882bd0cb47aa0cb8f486008098c4dbdd6a2380f216302d2217ecaccfb238f67e, (554562146300000, 138640536600000, 85962600));
  (0x882e5752782f2f5ae582394019f5dc4dcb6d342f087560d87746ecd3b35f8324, (41096320000000, 10274080000000, 6370340));
  (0x8847a7148269162167151aac9a6aa1ed51ba3061605e8482293e40251b888c66, (10274080000000, 2568520000000, 1592580));
  (0x886e19916511ca7607080ec5fe840f796e758e9a75125f577ec0175c587f8b46, (20548160000000, 5137040000000, 3185170));
  (0x886ec69659f6d7d56a9f66ba7c9aaf1426e075bcdee48c1f136a7a4af7305d38, (24657792000000, 6164448000000, 3822200));
  (0x88707bf9191204866cfa24dd49d87457e33dd70179bba2dd367567a74f6cf96e, (205481600000000, 51370400000000, 31851700));
  (0x88737310c827206d14a7ec0c4f365b11b03198def04ce5ac54b51110e7b9837e, (1027408000000000, 256852000000000, 159258000));
  (0x88745ca3e57e24ee18d0d1fa1b0aefdc29995a565dad1c2ab9eaf5e371f84e47, (11301488000000, 2825372000000, 1751840));
  (0x8874c95eb6630a6c01d312f80820f8ea089ad8db114d8e46fe1feb6c06408f1e, (10274080000000, 2568520000000, 1592580));
  (0x8875bb054b7e9b35a2d84c19152d17947b1ff629edbf1759ddd9f04ce33b495b, (821926400000000, 205481600000000, 127407000));
  (0x887a1d0b5c73a3aab4d14988cfbbd483c9edadbeecd7656344d661548919ed77, (20548160000000, 5137040000000, 3185170));
  (0x887c5a1e9b58b6a8b458ed865608652ad6db51c048316eadbf16f44df86c4e22, (10274080000000, 2568520000000, 1592580));
  (0x888d396e158805bb696667b71517d435db3a2b7f7bb819d60649edf5d235e332, (41096320000000, 10274080000000, 6370340));
  (0x889825cdfbff86ea7890e73cf811fef70c4a2b1a85a6b598d9f08c3c327b832d, (71918560000000, 17979640000000, 11148100));
  (0x889c211ca68e37fefff09e9732f28667ea42bcca3a6aa80d72fd60d262248350, (49315584000000, 12328896000000, 7644400));
  (0x88a67d4c05f3da563653db1062a3f1ee3b172f82157873e233ad1ecd4efb4949, (254797184000000, 63699296000000, 39496100));
  (0x88cda2f909ef72e85fe63833b463881adbf9677d026569bad12a4055df08dd3a, (466443232000000, 116610808000000, 72303300));
  (0x88ce97d584ef24db494a9ee71ba571c0afcd9c2950ec3fea6178354c1f63c30b, (41096320000000, 10274080000000, 6370340));
  (0x88d83890ef011b1a87a506eeeefd21feb94ff313742d23532f7bb2cbf2f41e15, (226029760000000, 56507440000000, 35036900));
  (0x88e64832eefb50fe14464055e236fcebb659f177c0be86f67c5f7444ce557270, (10274080000000, 2568520000000, 1592580));
  (0x88ee7bf87a47f2f48af28d75b80a5f7e75f2bfe898a43ee2f6ee0a537f13e055, (16438528000000, 4109632000000, 2548130));
  (0x88f0b279110a214fd7114b9459e554977f276bf37c33d70273867ddf9c4b3765, (285868870400000, 71467217600000, 44312500));
  (0x88f2c9194f62ecc1602d41ea2023fd30619c2dac38786e5d16ed02e530fb5a7e, (81165232000000, 20291308000000, 12581400));
  (0x88f610d8cc4ed9df74764a17f25dd18372a0fa90ff7b5de6b4625eb84077385e, (51370400000000, 12842600000000, 7962920));
  (0x8a00af1caa8b23b00bf044397894e18069cea2bf9a13fd763df2c89807089977, (2054816000000000, 513704000000000, 318517000));
  (0x8a02f61e34a233fa7db733b8843da17a2036a14d310f05a3ecf26a8e7882b037, (1027408000000000, 256852000000000, 159258000));
  (0x8a0b54e2316b8ff0931f49331bdeaf72a8bf45fcca85bc5678978e7cff466513, (30822240000000, 7705560000000, 4777750));
  (0x8a1bc2aa2ad0d116e9ab895fe3aca74dd0bc5687fb8e323e0326b947ae9cbf14, (30822240000000, 7705560000000, 4777750));
  (0x8a1cc2d04c9e2c0cbcab482c33a78aa9859409b64055086a7f3c5e015143355c, (231166800000000, 57791700000000, 35833100));
  (0x8a26dc0e1da38b5770276c32468ad6235b676425d9ccbd94fe12ffbee91e0f61, (10274080000000, 2568520000000, 1592580));
  (0x8a3366f5dab7ca33346ce17a4c29005de887c38b6a3f4fb053f29c4fb0da3c3e, (2054816000000000, 513704000000000, 318517000));
  (0x8a35c1bba895bf9f1a44fc1c1e96643208817e0da1ec3d155e5238c70897ab26, (10274080000000, 2568520000000, 1592580));
  (0x8a4de2a815ef8ca27df39699e2ad9c5aac3af0572c0cddb0794cbf0c7c5b9c48, (20548160000000, 5137040000000, 3185170));
  (0x8a5e47f36552d56c0ddd74a5050265ee49edd1e0213c7492acdd4f4e746c034b, (4555527072000000, 1138881768000000, 706152000));
  (0x8a770db30fae495e0078157467e83b603ae9831309d7d64ac8ee3f8466267323, (20548160000000, 5137040000000, 3185170));
  (0x8a83c3cfac81f21ef6b670f17020c59801fecf6f2849a6649a3af72d9d83f37e, (10274080000000, 2568520000000, 1592580));
  (0x8a974031c55b5e63b8e5e703c2e4e189b59316543bc996f8762dcc1785b6164e, (14383712000000, 3595928000000, 2229620));
  (0x8aa235af17654efc7fc7638c42a9661f7fd14b6b2ed7a0aafd542fd59737cc2a, (20548160000000, 5137040000000, 3185170));
  (0x8aa537b3dfc70c822f1bc39bd6e8e3d664a13349bd6ba9a04d0b9b3b81fb871a, (41096320000000, 10274080000000, 6370340));
  (0x8aa8eca1528684e8a21f89eedfe64bd2a621a0db19215151a12bf6d1b34d9a21, (51370400000000, 12842600000000, 7962920));
  (0x8aabfb2dfbbe76b8a0354d0e772a6283b55022276c9194b29c8af09be1509c7f, (49315584000000, 12328896000000, 7644400));
  (0x8aac19c2ef0d65d47e9cc10c471b05f408a375bfef5bbf2d017f2dde5450cb3a, (30822240000000, 7705560000000, 4777750));
  (0x8aafd4aeea1daf1bf5755eb15d4c21073eb18fe7f2051b4e4b6d127cd483db53, (63740392320000, 15935098080000, 9880390));
  (0x8ab059c3cdf8f221a36eb8123deb2112f9580ab3d162c88237f236f68e0d0f4c, (26712608000000, 6678152000000, 4140720));
  (0x8abf437674df391c253f49d0ab520910ae27c99c66cedfd10365993837e5e40c, (20548160000000, 5137040000000, 3185170));
  (0x8abfdbeabe260ca131f90a1857cfd001d8f7f576a3065ecc5704fac5938ad934, (40685356800000, 10171339200000, 6306630));
  (0x8acc99318b3147b976ebc257458277d639d483937a1e1576b91e2abad887304e, (20548160000000, 5137040000000, 3185170));
  (0x8acf4a0753eedcc4ec975f09904aa31f848bf50a4699edfada51c4a3f7af230a, (41096320000000, 10274080000000, 6370340));
  (0x8ad14b9ce46457a084bbd19b6f8cdebc9c7da5b2e93a581816c932575bcf5b35, (45205952000000, 11301488000000, 7007370));
  (0x8ae41e65cadf7ae454f5301b14562963e31cfb1772572d8e418979208511ed1c, (616444800000000, 154111200000000, 95555100));
  (0x8ae6ca4eaffa00c9860e73a3059c5f3f011c66dc00fafa7c25379485901bcf2a, (77065052150000, 19266263040000, 11945800));
  (0x8aedd73f62642678be93c70c48f93efe96bba4382e00a7ce5327dbab493da86f, (10274080000000, 2568520000000, 1592580));
  (0x8afabb2cea12de7b16f99f67b22b718de63892659ae1317219439761a3b55b7b, (513704000000000, 128426000000000, 79629200));
  (0x8afd340d73f01f933aacec25f7a5472ea47bbcda8e184baa9ed7cb4c7ff20478, (41096320000000, 10274080000000, 6370340));
  (0x8c00d669b68f094066e55ef2452f12722e766f6fe41c69f5f828b7233f60c470, (123288960000000, 30822240000000, 19111000));
  (0x8c04eb58c145fbe1746638b935440328a0bc840b3ce906dd46a103f430ee3a3b, (10274080000000, 2568520000000, 1592580));
  (0x8c130b590d4939067391f39daeaa5aa4f60b30030297ba2553f13594de4e9461, (205481600000000, 51370400000000, 31851600));
  (0x8c2f5e3cc3ec0f2730f6a4f758470dd37eb3aaa77b6564618c77a7b7b35f8770, (61644480000000, 15411120000000, 9555510));
  (0x8c3d8a4e2ac5b1a208d2492d356181cbd4a6fc6add38c278d52a24f765aa083f, (314828510200000, 78707127540000, 48801500));
  (0x8c45f8f0ae04f251c58f3cc103868219509995197f4f858573e9e7d562fa5e1a, (10274080000000, 2568520000000, 1592580))
].
Definition rows_10 : list Row := [
  (0x8c474f75e4405f01ba508e95b3c2000f4fdc72ae5d9d424865e2b78617914d18, (16438528000000, 4109632000000, 2548130));
  (0x8c68ad2587764172b60cef5036dc4652eb18dafe54885c46c00a096f58a34f20, (14383712000000, 3595928000000, 2229620));
  (0x8c7a456b919be7dff431cdaf5641d5660cb0324e97989df1b4b12c56cb52ac4c, (41096320000000, 10274080000000, 6370340));
  (0x8c80a56612fac5104e45700618f09c000d7ed9e6b1334f7c9f6675763a991543, (61644480000000, 15411120000000, 9555510));
  (0x8c89d82571a81674d8a734d34611f4f8280621b4b03b8173ae7d961f3f4e033e, (20548160000000, 5137040000000, 3185170));
  (0x8c8fce128ff18e9acc98de61d7d858773aae8e9286ace13a5b15c23e04e7b54c, (10274080000000, 2568520000000, 1592580));
  (0x8c9033a6254d9ae61a757bfe2be3467945e9c537772002f99a7b779f44ce7940, (11301488000000, 2825372000000, 1751840));
  (0x8c954fc10887e870da7fd48cbdf7082da1ba6e6f63bb6c6503beedaa8b6d247e, (51370400000000, 12842600000000, 7962920));
  (0x8c9e5f58056bbf8add346fdb99a54a709c005331a98dc9db4cd9b81662743868, (10274080000000, 2568520000000, 1592580));
  (0x8ca03638cda2ba3b341ddaa40e0c2b7ef8e16b4d7d2bad9f778a1c4f0729cd78, (102740800000000, 25685200000000, 15925800));
  (0x8ca2abab6b26746aef9dab5cfda975fe6aa25f3d7ffebf324541535af160137b, (359592800000000, 89898200000000, 55740500));
  (0x8cb3efdbbe6601f07f4695651178427c1ba07c64bf69678bf09028a6224a7565, (61644480000000, 15411120000000, 9555510));
  (0x8cb65fc4f06ab98b5e4d9e049c724251b81aa5db7cd1141676279000e1bff105, (59384182400000, 14846045600000, 9205140));
  (0x8ccc5ee669d3b1f74efcd4b70ccd9d8d7b6ac44f265548fc60de354ec0d52246, (10274080000000, 2568520000000, 1592580));
  (0x8cdb7a952c7074ee9a2bf15e79022f3d6c0f6138622f9f324c05352a0a425531, (113014880000000, 28253720000000, 17518400));
  (0x8ce1b67c6461f338e3783e67b610d28c68786ee081fabb2333893dd47fd0f006, (41096320000000, 10274080000000, 6370340));
  (0x8ce5c0669d2ef220b972db303dd603455fe7d5dea1706776973e3133fcd43b4b, (12328896000000, 3082224000000, 1911100));
  (0x8ce7a0988e75c87b3b82f696164179e577933688068479fd71a1856d9f0cec40, (30822240000000, 7705560000000, 4777750));
  (0x8ce8a01f2d0d85ddf667b8aa500b0901181aff90f4d46c14b8824481d37b3503, (82192640000000, 20548160000000, 12740700));
  (0x8cee547a687a501b5e86240cea34f952a65c1944d9adaec7a16c21ea17666454, (51370400000000, 12842600000000, 7962920));
  (0x8cf22a54e4f26eb067d5a34ac3f1182ebd4784c9ba700f6989e87093936bd74e, (92466720000000, 23116680000000, 14333300));
  (0x8cf8c6c8b25b473393cfa2acea3d331d7673f1828855ee2aaa81787d2926512d, (20548160000000, 5137040000000, 3185170));
  (0x8cf92f2c316b69f93289aa28be58cddfb50d939e4b8481c969e7503de2132609, (18493344000000, 4623336000000, 2866650));
  (0x8cfe4ffef1dad668d15798f442fee29c4e54bebeac358b1c9c725b52a0369443, (198289744000000, 49572436000000, 30736900));
  (0x8e032ed27cbc1b692e0f388855c8afba27ccad09a9a272106c2f6573e000e14c, (24657792000000, 6164448000000, 3822200));
  (0x8e155498b2311036dea6da1fc5fa8b9b7e2fe67b5a77eed6b5fb9150b3d7781b, (10274080000000, 2568520000000, 1592580));
  (0x8e16f645e85e2bdc59cea99d8090b069e59cfd47fbf3f227321d0ba7a621292f, (256852000000000, 64213000000000, 39814600));
  (0x8e181a6ca32f674ed1eb64ca5b3489cf183ee8f0f7ac98632331ca9ac6b9fc2c, (10274080000000, 2568520000000, 1592580));
  (0x8e19effbf90590b2931d1d82d7bd9f0f98c6dabda8bcf61705c7c1395d8b0612, (281509792000000, 70377448000000, 43636800));
  (0x8e1b8af6320d91fd6f460250ab02411a9970337929c61d2beb89ca8fbff2cd5f, (20548160000000, 5137040000000, 3185170));
  (0x8e2e9a89c05eab24146b8bb9eba45bcf7f8c36c7bd33e3791c7a21b03151140e, (616444800000000, 154111200000000, 95555100));
  (0x8e2f28acb1d939fc986fd9ac5431a6ee61fdbc1a0c702d6fe3c1942c173af70d, (10274080000000, 2568520000000, 1592580));
  (0x8e39367957eb9e19d50c9d3f27a7eff6321fecfcb5d16f1bbefd0abb367f1472, (113014880000000, 28253720000000, 17518400));
  (0x8e3ba00bd176234f82c9d2877fb1a1d860aac9ba59b2d54f562f8cd9964eee78, (82192640000000, 20548160000000, 12740700));
  (0x8e42116a72dbc07edbb5d5550fbab72951ef0aae88607dfae0b985b58ae83000, (1027408000000000, 256852000000000, 159258000));
  (0x8e5444882bf7a3a27931b0635b49980c5e4dc333a4c7de298e50e3e6002f5073, (327629109700000, 81907277430000, 50785800));
  (0x8e57a98aebe7aed0362afd25e008293b8fe0823227ba58f0f5e38f79d1dc3a69, (30822240000000, 7705560000000, 4777750));
  (0x8e59fe7aa5d8de915e9c49a55eb173c0e68dcf9350d3cdf9c15be8f6e195e533, (20548160000000, 5137040000000, 3185170));
  (0x8e6510a70658e9b97cf6d009879bd69d852a8c972bc1139e75ed3d550f08693b, (10479561600000, 2619890400000, 1624440));
  (0x8e7196ff937691839da69c72d0fd552eb248cf01a9c5c23c2a1e38dcad75c822, (24657792000000, 6164448000000, 3822200));
  (0x8e73c2e4d11bcf1e14faab59fc0ecbbb6b1049dceab92b248c0e5ddca184a022, (2054816000000000, 513704000000000, 318517000));
  (0x8e78ed10d036a278ef5683fca7493e948311897198500689311d8a1cb699272b, (169635951300000, 42408987830000, 26295300));
  (0x8e7b22b633afbb9563bc720f32c226ef370c33b8d5d39145335203a8e6fd2f47, (47260768000000, 11815192000000, 7325890));
  (0x8e7e6509f743ec253bba8cd7cdefb1c6ec10c96b47d7584f091d8938f6ab775a, (26712608000000, 6678152000000, 4140720));
  (0x8e8dee3704f77c95631f427ede0747f2c81b0966a188e2717d78d6f5d814b02a, (14383712000000, 3595928000000, 2229620));
  (0x8e9eec285f61841d77fe0c0d09fd7a8e816e87750f6c847dd19924984c37e47f, (119179328000000, 29794832000000, 18474000));
  (0x8ea108b9a192f2cfdb2b26de0936ffb75c3fb99f25668be525a11258b10c6504, (205481600000000, 51370400000000, 31851700));
  (0x8ea42472670148567113cfb486ff4530bc056812ff7e584b1e5be4d17fbfb04f, (339044640000000, 84761160000000, 52555300));
  (0x8eaf1f496ed78fb9ae0de6a4d5e688f747ccbb7b1d151755b591cbba45b9315c, (30822240000000, 7705560000000, 4777750));
  (0x8eb54a068dfb60a79563097bb91d9da17b08bc0ddd5876ed96eb7fa5f655a037, (51370400000000, 12842600000000, 7962920));
  (0x8eb9968a38cdc6ae98e2005d1750427e7987f1ea5b1af375440fc045a5ec7668, (10479561600000, 2619890400000, 1624440));
  (0x8ebd04c459d07bdb9982c8de13d353f7821454281d3eae15715d5d3c7ca1b443, (30822240000000, 7705560000000, 4777750));
  (0x8ec0dd9ec1a98b689f4461da304a6c30cf7df6aa291dcc04c46830aff770ae28, (10274080000000, 2568520000000, 1592580));
  (0x8ec89c17095e305b89ce3d9525aca6e43d4dc4f2c877dc3e11d5ce9f3ce7b441, (51370400000000, 12842600000000, 7962920));
  (0x8ece9ec36df974cdaca887d8bcffaabc96678175871cf2ebfc333d512388e67c, (244523104000000, 61130776000000, 37903500));
  (0x8eced0195094ef8808f164d9806eb3ba471fee9827696e9def46821e2b52d417, (20548160000000, 5137040000000, 3185170));
  (0x8ede76181e9934e9ff3624518aeddc56c5f3bc92b1e743b07269dcddafbb701d, (102740800000000, 25685200000000, 15925800));
  (0x8edff43992fdd99e8aab8446572022ad051d9f8c134103ab2e35cda9fde7f829, (10274080000000, 2568520000000, 1592580));
  (0x8ee997c037813a5a77ba1feaad20489a1f3ba874e77a5203eb25e1842e2b2863, (10274080000000, 2568520000000, 1592580));
  (0x8eec23d0af90526219e16cef71f7bfe277b43b4d873068eda89aacd8c1b51952, (41096320000000, 10274080000000, 6370340));
  (0x8f35983b44c38c730fc12de60585ae8fd27089293c120b71616b9bea0cca959e, (102740800000000, 25685200000000, 15925800));
  (0x9004c6c71bb5edfb9882e7650945b5a57adca240a1a6ad448e5d9e8348e5ca1a, (137672672000000, 34418168000000, 21340600));
  (0x9005de55176f6cb7698541cd4f33feb5a6f6021c5fc4f9f257a9762974c00d29, (82192640000000, 20548160000000, 12740700));
  (0x90069e281ff23df823f7601f1668681753b04dcc8d555ce72d6583229b0fcb2f, (14383712000000, 3595928000000, 2229620));
  (0x901ad17c3145be6e11ac869f017cae76e2345b42bf2abed801402d75be0ffb4d, (12328896000000, 3082224000000, 1911100));
  (0x903e73afd7d34409432f5382097953673944192778a9bec3e331618b66604c65, (102740800000000, 25685200000000, 15925800));
  (0x90486b0a7ca1d723bf7e85a0bfd38c012057c35aefbfa40804edfa5c77a6d30b, (20548160000000, 5137040000000, 3185170));
  (0x904eed62ff4f2b9fa71bd9e1c1df276fd3eb5b1f2034064ac25ca68310d39b38, (73973376000000, 18493344000000, 11466600));
  (0x90523d2ff31afab54635c58c0323211e0c2bdee7f5507b4068c2b173e0c66e72, (143837120000000, 35959280000000, 22296200));
  (0x90664a73f75a75d6ca9e604b6d1f7981023e10f76a9a4716cf99adbe27525041, (205481600000000, 51370400000000, 31851700));
  (0x90884782534e4ad9c97b57f4db26edfc059ab9acc3972668de9fbb695215e52c, (10274080000000, 2568520000000, 1592580));
  (0x908b2bf59c5c08dbcee5b527df4dfe6f7293448e0147b87303bda97dfd543831, (28767424000000, 7191856000000, 4459240));
  (0x908f65623d1b437613c8c5ccde73fde021873364174e69e611237f14a5980855, (10274080000000, 2568520000000, 1592580));
  (0x909ec73cae6b23ae488ad7fd7f9fe2e957796aec877a1175750b006ec5117f52, (10274080000000, 2568520000000, 1592580));
  (0x90afbd39bb21688cb286278f3a24a8b262ec8182f5afc3d3c74cf4f82362bd2f, (277400160000000, 69350040000000, 42999800));
  (0x90b0853580d61b196d125b4204a842fad741a9af9cd6ae8f055f2242bde45927, (10274080000000, 2568520000000, 1592580));
  (0x90b1957748c9f7865344c2ba905bfda09743fa33f546b9c1d24f21d679117528, (102740800000000, 25685200000000, 15925800));
  (0x90bec260532a0f4a1503ad599c625ad5df3020272aec32329cb35217f98ea83c, (34931872000000, 8732968000000, 5414790));
  (0x90c2fbf5b23aebc4c5d7b93af2c1f25134a497e5659d0eb8db878e1e196be92a, (88357088000000, 22089272000000, 13696200));
  (0x90c6f0cbdb5413103caac73c01ea8504501492dcfafead844cb40f61d9784333, (61644480000000, 15411120000000, 9555510));
  (0x90cc841ec0364991f92ee1c07af19c31b58e457f655c3e294e52ced54ab10f6c, (51370400000000, 12842600000000, 7962920));
  (0x90ccc3d100f93cca6ca746debd58a5590ebaa98038b2b1cb3335dc75ffb6550b, (96576352000000, 24144088000000, 14970300));
  (0x90db8c1b9841cf90d7f41d714fb0f6f3409be170cbd87e8a044434f8ff9faf6a, (172604544000000, 43151136000000, 26755400));
  (0x90dbe5160cc4593fb8fd63cde123bc4b4d9138aa8e5c6fa83c29390337f59e3b, (41096320000000, 10274080000000, 6370340));
  (0x90ebb84f81ece53f0b6acc3da7c8bef2d6284a56ae1bac2617aa5407e0878412, (10274080000000, 2568520000000, 1592580));
  (0x90ede802a0696d0c449974516ea7edf7fb86abde28af45ea5e646b36dacc1f37, (78083008000000, 19520752000000, 12103600));
  (0x90fba696f07c38e3e5275a710e8f72939f7b0088c561757669606559ddf73e18, (41096320000000, 10274080000000, 6370340));
  (0x9201e42cf9a3775da6a5100bf022399cd5563c8bde587726f93a7490f7661473, (102740800000000, 25685200000000, 15925800));
  (0x920de1436c8a1d2a0f40a36c8ca2f6c5b5d288e7a12171a00d8fb55ca354e846, (24657792000000, 6164448000000, 3822200));
  (0x921e178dba737ce4946e4e6e10806a2388be6c988e98da34ce5346e7af82ab73, (174659360000000, 43664840000000, 27073900));
  (0x9236768adf31faa445015c71dc7b5e7ee39acb70a4f1c2747e01480ba253ab2d, (51370400000000, 12842600000000, 7962920));
  (0x925ec804e65f4178114e871ac01f0bbe60905118d953ef61a823a7492cc14c03, (20548160000000, 5137040000000, 3185170));
  (0x9265920d4c47ba7a3f19710f61018c964ae183bd6be9425577a5fe131b6c1a3e, (71918560000000, 17979640000000, 11148100));
  (0x92676feccfc59a8827ad04e7c2390604f3085b804a78adb52cfda3ef6d709b61, (256852000000000, 64213000000000, 39814600));
  (0x9269ba9028a2f3c590b3e19ca4b55fb13545ce22617506e63d8ef14430908b0e, (12328896000000, 3082224000000, 1911100));
  (0x926b0c07e784819076d578befc25addd631fd886b62437bfbc865d079ba8c46e, (54462898080000, 13615724520000, 8442290));
  (0x927446d666353d30aff6b11489301e484dbccf02f8d594090abf549e6fa35345, (10274080000000, 2568520000000, 1592580));
  (0x927f23779590db30e0c52143aa85de53c15acd97ecdd53a7cd0fa56a78e78560, (1886321088000000, 471580272000000, 292399000));
  (0x92908b7dd0d4b5cff1b7319bb171d2e05056dfe0943d23af4103bf8efe012728, (164147702200000, 41036925540000, 25444500));
  (0x92a652cdbccd43bb4b5711be4a1f095c575cab3670fbec6fd20d4d7ae2ddff23, (287674240000000, 71918560000000, 44592400));
  (0x92adecfbc5d3b1cdeefe0fd7cea5b30cc6556e05fb4007086e403073fdd5f835, (102740800000000, 25685200000000, 15925800));
  (0x92af8216b7bb6c7cdcefdc41be88258f27d403dd68b400527ee54ff0253f7151, (41096320000000, 10274080000000, 6370340));
  (0x92b978cbfa629a5b3fecff0e348a6745690470ea9dc27674a56f757a14e59940, (102740800000000, 25685200000000, 15925800));
  (0x92bdcf8c7db32c13fcc07d532a6800ce95cbd418ab2d1b601981969991bbbb3e, (20548160000000, 5137040000000, 3185170));
  (0x92c0abeac60ff2908e8756e12d8cd0354ec81e2f3e13df96b77675a22202622a, (205481600000000, 51370400000000, 31851700));
  (0x92e008069d6ab8a3e8f101e55c80bcf99c62c9cbb9a192d49a32bc9d3f713813, (14691934400000, 3672983600000, 2277400));
  (0x92e1b2bf02d5e2c1bbd1517beef442940450de4bec4fc583b4abb02597206519, (10274080000000, 2568520000000, 1592580));
  (0x92f469def38750daa356e02054bdd80a6bc3672ec190c3e6f5bcfb84a2bcc87e, (82192640000000, 20548160000000, 12740700));
  (0x92fee2b327d20f95e8f41a24bdcc242f9d3d66710c26d1de73f3d49ab2e8d422, (30822240000000, 7705560000000, 4777750));
  (0x94052494bbb10c5e6bf7679446f5a2bd403b4108fc25d42146a1c3032af46665, (102740800000000, 25685200000000, 15925840));
  (0x940d2a187cd73c0943101e6e761f427d9f9a9add918fed441bd3fd0f57577327, (30822240000000, 7705560000000, 4777750));
  (0x940d72b53d95456bd2eb87c94706fa568ef598cbb885aa0716b8cc88d8edf177, (42123728000000, 10530932000000, 6529600));
  (0x941330f041b961b1fd36353ec1bcaa0b239d5ebe33c5dcc7dc61e5cf9d688a6b, (10274080000000, 2568520000000, 1592580));
  (0x94136d05eccb8b4dbee9ef2c3794cb6311539cff6c630f41dfad236e21681868, (10274080000000, 2568520000000, 1592580));
  (0x941653b7d8bec51b8f6df7ab910d36fc1df08050339ed936d789bb4f33894f39, (10274080000000, 2568520000000, 1592580));
  (0x9416fd0f0730762dec181b76c71df215cfe583748ba547108aedd74004b02c6d, (661650752000000, 165412688000000, 102562000));
  (0x9418b7408e15c45889589857b8ddbde470e27ab5551b3a7cdc2b9727811f1226, (3088388448000000, 772097112000000, 478731000));
  (0x942a6a305567a5064548a039ceadb06643097693333a8c93fcfbb43c3e170354, (205481600000000, 51370400000000, 31851600));
  (0x942c55a467fb0331d4ca2a3ad46128f3206efaba8deae2f5d902d7e21dcca756, (22335849920000, 5583962480000, 3462280));
  (0x942cd0ba9ae39ea7ac5a87973e1205f1a82fd5f422f5ccdd341b34deff038e1e, (102740800000000, 25685200000000, 15925800));
  (0x94304f5907d0f7a50a883e147410ce4752bec9e462e74896b2978893e325ef5a, (164385280000000, 41096320000000, 25481300));
  (0x94497d61cda1ee51106b473ebbe141e28250ba06ca6ea19cad0ac019f70b520d, (256852000000000, 64213000000000, 39814600));
  (0x944f83561e9f01f0dfc43fdc7688cf77927e750b4c9531b09490b442886a7924, (410963200000000, 102740800000000, 63703400));
  (0x94649386f16a5c57b6fc23c5f6c9d20fff6163d3123837b8baacb3163018ae35, (10274080000000, 2568520000000, 1592580));
  (0x94667331d06bfd34aac726adda54470d5c13c4c0b9a7c6f828e8cab6c4e61c21, (82192640000000, 20548160000000, 12740700));
  (0x947c59725bff412592b6c1ea91e7b356bbaa8dc7412834bfb2a4c81c069e810e, (10274080000000, 2568520000000, 1592580));
  (0x94814b27e6904cb0fc30c32875940bfebf2169562167e466130fb0ccd1d77d3b, (10274080000000, 2568520000000, 1592580));
  (0x949ca425d871a152a0684f302f957fdd8bb4b6615ce69f644af3610a8d2cc43c, (10274080000000, 2568520000000, 1592580));
  (0x949d958571afac5dd25746a49494d79758f715a8311f75cec60245d21764ea72, (10274080000000, 2568520000000, 1592580));
  (0x94ad043ec195e3d0e50f9da205d2b644e47b76fe92acdc6370677db07d2ff93e, (30822240000000, 7705560000000, 4777750));
  (0x94b958f475473dc6b3e6c40f2ea9921f265afe0588e3b20b8e577c10a92d6659, (10274080000000, 2568520000000, 1592580));
  (0x94b9b41fb4cc9d9e8521aee62c68a90165bf548b078576e50aa14caa0d767d5b, (61644480000000, 15411120000000, 9555510));
  (0x94d4078e0e7e1aaff8df0145f32a45f00cbab7b940e4986b45a3d6c852cd3465, (133563040000000, 33390760000000, 20703600));
  (0x94dec5c6771f10eb220c5de7db5ec9f590fff21d89622c8e93c62d74fa17fc56, (198327434800000, 49581858700000, 30742700));
  (0x94e70b8683c6ed0e22cad47863e0093d01375d2c04424da49961ea6c242a5461, (53425216000000, 13356304000000, 8281440));
  (0x94e997ab3739ce24a5a948cec7335154de0e425c65da78c3ff09a628ffdf022e, (30822240000000, 7705560000000, 4777750));
  (0x94ed83116a0d0fe817624bbde5e396e79d06c75eee03a8c783ef1caed9ddcb75, (41096320000000, 10274080000000, 6370340));
  (0x94f209c30444b694b40e64f4d627247d757323d0dcc53cd5f9bd2c52fe3f3978, (82192640000000, 20548160000000, 12740700));
  (0x960dc0e2cdb6f58e683d31231d8e183474414e8579dff960648a149cc1be0269, (12328896000000, 3082224000000, 1911100));
  (0x960e13bfebea36ecf357ec2e813c2c06cbe61c8b789f5e06250d51244ec65f2c, (60904746240000, 15226186560000, 9440840));
  (0x961d41352e4a6cba90d4c5290714c24b2d947f52f049b7e4670a3b44a795d806, (41096320000000, 10274080000000, 6370340));
  (0x9638b522bb7d9e74755fdaa96ac541ca9b3b1f287c413befaaa90d0dbeac2627, (1027408000000000, 256852000000000, 159258000));
  (0x96448274454a1b98d0f7e959eaa4807138370af1fdd890325e73fa5b38f09537, (1089052480000000, 272263120000000, 168814000));
  (0x9653bcf18e30531092fdc1c52afe06cf61f56fb1fa5d719078cd6914d395ed0f, (2054816000000000, 513704000000000, 318517000));
  (0x9666bc56238d4667ec42cd89649fd797418b1aa070dc5108178a77d867a18a16, (263016448000000, 65754112000000, 40770200));
  (0x96683d856cc26152ab8c5d89e78efaf292255ef2474b05b01a6ec25834e94a72, (34931872000000, 8732968000000, 5414790));
  (0x966a86306b4794ac00345f1c1b90f8a7924ae62c82dbe1ca338cc03bbb665e41, (22602976000000, 5650744000000, 3503680));
  (0x967701ba9b354adc0bdfab86f21ea3a59c9d94ef6bf5404d368befa20f889e1b, (16438528000000, 4109632000000, 2548130));
  (0x9688c0f83d53c82c9617892bcc497584f1e83ee0e0208d18eb8fbcc5d01f1906, (10274080000000, 2568520000000, 1592580));
  (0x968c3ef02fa7464eadab42213d34cfc5a4e0016a465327fa9218f0e3158c2649, (10274080000000, 2568520000000, 1592580));
  (0x96909ec54fc9d2436744dd5bf92b43f3a52805244065a890eeba485b24ec6823, (10274080000000, 2568520000000, 1592580));
  (0x9692fa834a36faff24619a5a9559ce35082ea5247cfb0657e8ce2fe5fcce2d3e, (20548160000000, 5137040000000, 3185170));
  (0x96a0310cc721ca934da904559ccff589cc786768de91a59471ab07207485da46, (10274080000000, 2568520000000, 1592580));
  (0x96a10f26cf1fd53acc7cdca74bd66ec0588804054afe6fff0347dabc5b2e9100, (51370400000000, 12842600000000, 7962920));
  (0x96ace7d2fbfe4df33e417b569dbd9d606889b17ae66afd6af07ebcf93d64395c, (41096320000000, 10274080000000, 6370340));
  (0x96b3bf59aeb39c550b5e195617975d98abe3ebe20abd0b749514facddf83a63a, (41096320000000, 10274080000000, 6370340));
  (0x96bb0203d41e1ba3170850ee862f64c451b09159d9344d10b641feed65d30162, (2054816000000000, 513704000000000, 318517000));
  (0x96c11cdbfba27ffd6590ba752db1e969e67fb3a5e79f465376e321ff22fe8844, (20548160000000, 5137040000000, 3185160));
  (0x96cc66a224ee67a10443b1701fb030ff46bcff48f899b12e310721c80bd59406, (71918560000000, 17979640000000, 11148100));
  (0x96d4fd31c22a191865d0f8a41dd83bd5f9dbae9625c2412073e76a058c281e69, (123288960000000, 30822240000000, 19111000));
  (0x96d813a97aa9f5131b5e0a61721fba4a4a1d9894bd8c445f806e1a210ce3347e, (11301488000000, 2825372000000, 1751840));
  (0x96ef8eaabcc7de8fc31efe0ae7ab47db5a68319a2ef5a02a03ee2be2f7a52b6d, (57534848000000, 14383712000000, 8918470));
  (0x96f5d573979cd46c1fdc0328a68106a287bc6c4c41eb35af22eb370e2430906e, (117124512000000, 29281128000000, 18155500));
  (0x980803d69beba35688753a0576c693fc1ed5e5ae419f006fbf1013d89e4ebd52, (102740800000000, 25685200000000, 15925800));
  (0x980e7a95e2cfc436d51e459a973ca7b95aa8aac10a6368866aba8bc10c9a5531, (215755680000000, 53938920000000, 33444300));
  (0x981126b6f9e7dc45746e4f807f699b418813f759a31f289b19f0e663e31e7a4e, (24657792000000, 6164448000000, 3822200));
  (0x98132c94bc876b27ffbcd887cc24c622feb389d3135e39e2522dd81e9d1a0641, (16438528000000, 4109632000000, 2548130));
  (0x982a7ac3672512b1706a5b8dd9becf81b73e5ab8e9669f68e6aa1a57eb316119, (20548160000000, 5137040000000, 3185170));
  (0x982ba6c6b267432983cdd2140bb5fddcff16ba69e9432f643149b9eeacc73440, (16438528000000, 4109632000000, 2548130));
  (0x982bb10f6320193daf9f006a4e2b8786c901a8c9cf0034074e2c4fb39b675849, (53425216000000, 13356304000000, 8281440));
  (0x9832f77cee2f2f5777faec31e97ae0a8b34b3706a2651f2517b33767117adb24, (51370400000000, 12842600000000, 7962920));
  (0x98429ded3cb752c8afd4dd383eecb3fb7c941aefbe7655098e78dc7618b8b807, (20548160000000, 5137040000000, 3185170));
  (0x98505e6ce0b06c0c815875be27decc297e7b40547d2d5741b79e56894890c143, (69863744000000, 17465936000000, 10829600));
  (0x985d4f41a22a092ac0275ed7c6bc39d109687a8473f5d92f0f9bd1b0a98df137, (73411178340000, 18352794580000, 11379500));
  (0x985ffedc2de915837f4bc24df8e6adb79cf8376340d506b03a3adf6f52b9904c, (20548160000000, 5137040000000, 3185170));
  (0x9863af9eea85a1d5e3162319737b57288025f967325c7c99fee8009e01adc163, (16438528000000, 4109632000000, 2548130));
  (0x9865eb286e677f706012a0fb39f562d82c5de2e43ad50055c656d41c1b8ea967, (10274080000000, 2568520000000, 1592580));
  (0x98669eb239b6fadb7f490d2a84d615df4b03ddc53333d990b56c377bf9c24c1d, (10274080000000, 2568520000000, 1592580));
  (0x986b9622b6911df0837f4e6d25d61a0a725d6808bd8e2fc930b0f2d994287556, (73973376000000, 18493344000000, 11466600));
  (0x986bece3a57961aa7a4ee6bbb96418bc3d076e5d662d72cc06aba16477e93e17, (2054816000000000, 513704000000000, 318517000));
  (0x9870af23422087645ecaa6d16b3f4b4b304b5ede89a1e8e9603af337845c5203, (2834618672000000, 708654668000000, 439394000));
  (0x9884ea34bd278da34f9a3d6645af782b14a6a0044de023c81c495c208278be64, (205481600000000, 51370400000000, 31851700));
  (0x9887f10c8c40e9c0ce03e3ea01a8ae32332f246e36d2523f5d759f82d5c97c30, (267126080000000, 66781520000000, 41407200));
  (0x98932b7c0e9cb1887496d9c4b940a8e00370e51c40947eac0a203ab93d10311c, (10274080000000, 2568520000000, 1592580));
  (0x989b65960d35d3ab8912636e3b1f13c0c6d65fb6a5f53307ed53d86871c5e749, (41096320000000, 10274080000000, 6370340));
  (0x98a247036485ed24c0df5e456ef07f2180dda0ca4d3dec7ca6d7e82fc0c82177, (10274080000000, 2568520000000, 1592580));
  (0x98ab2e7f9e7c8c2fa0b4064e9cd8b5e8c1649dc1b342ca74c4ebe632b89ec903, (41096320000000, 10274080000000, 6370340));
  (0x98b0070cdee75c59084c5a378092ce412119e60758ee7d6434de3511fee6585d, (10479561600000, 2619890400000, 1624440));
  (0x98b648d86672cfb4eef3af22631d6a0f5fade8bbf64e4087d86ff67c88eb3424, (20548160000000, 5137040000000, 3185170));
  (0x98c06b9e2902aff6766239aa2b8acf157d3bf2e856545e71f99a954705124d69, (20548160000000, 5137040000000, 3185170));
  (0x98c326e7cef967808830ca700b1fc8086ac096f710e170aa07a2f9a897a39975, (10479561600000, 2619890400000, 1624440));
  (0x98d1f82bb0f6f119ef65a1edf61d2452b711a88275947313bd8716e4f07f367f, (30822240000000, 7705560000000, 4777750));
  (0x98d2783efbdf067b45faefc4ff5377b14a710f4ecfedb0aaa56575dce7807c4e, (41301801600000, 10325450400000, 6402190));
  (0x98e904da5ec9cc144f8ae9c0e994f78416ecaf1efed28303bf05e616f986a61f, (12328896000000, 3082224000000, 1911100));
  (0x98eb933b1c3eeac9de520b89f7430d6880cf8b9fb964db7e800391bcc22d1b63, (26712608000000, 6678152000000, 4140720));
  (0x9a0923da0230f1a5e9acdebff37fa6602b4e5dfc28e42cca4e424ab62c79537c, (102740800000000, 25685200000000, 15925800));
  (0x9a11572bd27b51faa5e2b03354a2f871c51fac2236ef082e9c251683eca20b45, (82192640000000, 20548160000000, 12740700));
  (0x9a18e705084346f632644af4169b3a0c3c80f081d2e34bf6c2ac72b8a753e156, (135617856000000, 33904464000000, 21022100));
  (0x9a1dc6f6cb8bba5bace1c7f4bf8fe45112684f64ee1d916c17a4002fe06efd48, (20548160000000, 5137040000000, 3185170));
  (0x9a25f3ad0698da7fb8c1361706b4af0fcdce1decb3450b7587d53aac686d4514, (57534848000000, 14383712000000, 8918470))
].
Definition rows_11 : list Row := [
  (0x9a26ca7dc2a73186936083c0516ccf076d8b5935451fa10eb775645695017644, (92466720000000, 23116680000000, 14333300));
  (0x9a42e8dfd1d38474737364a7c07e5087111a7e43430a3a8d7d5557177421fb5a, (10274080000000, 2568520000000, 1592580));
  (0x9a472f8c17b3a680d49373132a4f3874aaad51e851e4f8db217fff84b2856f06, (17465936000000, 4366484000000, 2707390));
  (0x9a4c8387714a818f7ad4b1555105feabbc9d0ec30a39ee13244abb9a02f5e72b, (39041504000000, 9760376000000, 6051820));
  (0x9a51b198a22554d222622c2db2fc18f6bde1112b5be7f2ab7410cea410e84c72, (10274080000000, 2568520000000, 1592580));
  (0x9a59cda531fa06f5f320faec3c9a6d6090f3d7e13074284fcb9cb046cb153b30, (41096320000000, 10274080000000, 6370340));
  (0x9a6a4478dd2d95ba7974ef3fd959806ddab9bf7f2cca3614aaafe2f0f7830209, (41096320000000, 10274080000000, 6370340));
  (0x9a6b1ff7c9fc94e4e6592755182ccf75098a6bd5f13db0bc449212b18456de18, (10274080000000, 2568520000000, 1592580));
  (0x9a74ea6f027bd8a053d714c100614e68d661f4cd269ac36cface8dd042c77a0d, (30822240000000, 7705560000000, 4777750));
  (0x9a74f2c7368e73c74b49fdc42e8a86be18cf112a3b129122f581f86cd3b2a543, (37808614400000, 9452153600000, 5860710));
  (0x9a798dabd8b4ca28ac7f4b0c90868bf712e1dafd8c68801cbb6f05c08dd6ee08, (20548160000000, 5137040000000, 3185170));
  (0x9a84358bb478bb8bf102c0c907fcd01dd527b51f84dcdb0e75f050146ba56c4b, (10274080000000, 2568520000000, 1592580));
  (0x9a994f8d9f20c9399fe23bec1e7e6bedc85f7da24faf10c65fc02ca69b9ca04b, (308222400000000, 77055600000000, 47777500));
  (0x9a9d6b5e8193f5eace739739510f90b541e284ad7f3fd549f7fc427b69a55b12, (41096320000000, 10274080000000, 6370340));
  (0x9aa821a4482ac27ce18376a11f95dc1018d5e7c5adcc30265ddbc059593de33a, (575348480000000, 143837120000000, 89184700));
  (0x9ab638d59f26afb20df97d2cab14241f2f864f4f474b00e693067350dadc457a, (21164604800000, 5291151200000, 3280730));
  (0x9abd530962736889227781ad96bcea404c766e4551647fcc0d34fb490ea83048, (558909952000000, 139727488000000, 86636600));
  (0x9ac1d979f70a5fd41bcad702d1452b05b4fcaab87c352adc342fa5f67683ce6e, (10274080000000, 2568520000000, 1592580));
  (0x9ac8704ab3f388a57674df6a297e96c656b7edb7893526cd835023bc3a8a8372, (16438528000000, 4109632000000, 2548130));
  (0x9ad876d96022b00c6329073dcc3aebb27d35e706e25288301166693c9b97c038, (82192640000000, 20548160000000, 12740700));
  (0x9adc3a761950ea2d86f3677772044a9e253e4f911baf54ecc693fb1f45d14267, (102740800000000, 25685200000000, 15925800));
  (0x9ae43b5df76f84b143141031f7fb656feb7f4acbb35552693e7c19f703121449, (10274080000000, 2568520000000, 1592580));
  (0x9ae5f8189d13cf48fc6a09a201153524b3edd09cf705247385f659bf9b4b0558, (63699296000000, 15924824000000, 9874020));
  (0x9af4d788cee6eeed38037296266732fb2f9cd3bc2bff8380f83e7c2c0824240a, (18493344000000, 4623336000000, 2866650));
  (0x9af858115104b2873f048c9cce62f6d08c7d0673cd17c60ede0e1b35d157c600, (41096320000000, 10274080000000, 6370340));
  (0x9c14d64fc7e4b2ac2d09d28a785554b00f61a5bec96cf32579135e0f7a3ac627, (20548160000000, 5137040000000, 3185170));
  (0x9c186bc52941385bb1501716c5f88cbd5fcf2624f93a7f1202d9c8795f3be844, (61644480000000, 15411120000000, 9555510));
  (0x9c31f8dee4659b8c3526aa1407a95cf9997960c6ab4fc1c0f00ed387b3913855, (14383712000000, 3595928000000, 2229620));
  (0x9c3ba689b876ee7e2417d8cdc498adc85d95ecb5bdd4ac22e8b9d731bfbc7b0a, (106850432000000, 26712608000000, 16562900));
  (0x9c4a2c0632af3935bb5f736f6a0dcd8b3a50e3f8ce328d3b5967140a79c9c114, (10274080000000, 2568520000000, 1592580));
  (0x9c5226cb3e3d4bb578e4060544b77a09733e174dc9f616f35353d45e8642ce73, (10274080000000, 2568520000000, 1592580));
  (0x9c5a85e582e96db90510a6ed64fdaddc4097f265b4503951c6069eecffdad624, (410963200000000, 102740800000000, 63703400));
  (0x9c5a90e68833ccf95b79992466de9e34c46d12cc876394ac12c26722b484a602, (41096320000000, 10274080000000, 6370340));
  (0x9c7589fead3bdb07065416fc42a2f5b6310f329f48c8b1a7c1af792cd545207e, (20548160000000, 5137040000000, 3185170));
  (0x9c9072f8a0122331fb7bfc9fd2570c11b7071e94fcc22dfcfb3627822397f91d, (10274080000000, 2568520000000, 1592580));
  (0x9c98a2f2a82d6effdd91d4841bd5ab469fae866a7a96b033e40b2a6ca74bcb2f, (90411904000000, 22602976000000, 14014700));
  (0x9c99c4849bc763f7c00267e13fbc48e848411f6c117f692ba1aa8650e8ae7e31, (10274080000000, 2568520000000, 1592580));
  (0x9c9d150de0860da82bb4d48b538ee521ac6eb2ea5ddfcf390943c0f369463539, (41096320000000, 10274080000000, 6370340));
  (0x9cb68dcaaac7e56a8b52fcbc51ba9dfb8a36eab9cd8b5e34c1b5b0b3ce261d4e, (226029760000000, 56507440000000, 35036900));
  (0x9cb9b72be3e8547f78555b1fc092ad5043b6b183c46b7aa72150da5f19efb601, (61644480000000, 15411120000000, 9555510));
  (0x9cd06a6ded0b980c4aba687ac2b05d4d41d0be57f702b43bcfdbe19d3c344657, (10274080000000, 2568520000000, 1592580));
  (0x9cda6d3b9d8c2b5442d033031af31ff8f6ad68d4afd27131cbbe1f029f0fb86e, (73973376000000, 18493344000000, 11466600));
  (0x9ce4ebebaf031c8860b580a86a6176b2976002a867efd1d2d4cdd5f6cb83303d, (41096320000000, 10274080000000, 6370340));
  (0x9ce9a446a3c2ddef0ea9670eb8b204860fc681d95271b546feda715040612158, (20548160000000, 5137040000000, 3185170));
  (0x9cf8dbe43796970e20b41bb2eef4d2cb4b05d5c7ed6febe842a5b30acaeabd5a, (222947536000000, 55736884000000, 34559000));
  (0x9cfe23a969c49f14b47337fd6c028371de27153d0034ce08e6df2baa7e882217, (10274080000000, 2568520000000, 1592580));
  (0x9e0877f2ad516b7ff3235472fc88ee0371e4f52543a81a2fcfa67f30461c2b35, (164385280000000, 41096320000000, 25481300));
  (0x9e08e6a6543459844f16e9c764808aaf0449ff328c76b34a81e6d76076ae6051, (203426784000000, 50856696000000, 31533200));
  (0x9e0bac123afd08d78226feee5c8ecc1f16bbc1e35327d7698b808c5794ea036b, (20548160000000, 5137040000000, 3185170));
  (0x9e11a724c542e5f0b7390998bd80fffeb1c97de48b2b20a567250c3321161008, (39452467200000, 9863116800000, 6115520));
  (0x9e28c7df56acbea7821f9965c6a570735b162b08abc73091350217cdf0435c77, (20548160000000, 5137040000000, 3185170));
  (0x9e2dad25d8b2be1adbae19a2063b835fab6a12c15bfb2c027420a5afc7381e7e, (20548160000000, 5137040000000, 3185170));
  (0x9e318da69dd4e557d76b6be6874313ec6d8279f1d4a918b28c162fdd66acd12f, (719185600000000, 179796400000000, 111481000));
  (0x9e36e602c6b7d5a0408a689f1f0a78d54e2c4aa8fefe2ecaf8ca44e49659f45f, (410963200000000, 102740800000000, 63703400));
  (0x9e416c8a11a0c8809b41e311223dd06a7967d22e120f7470170924522584bc2d, (15822083200000, 3955520800000, 2452580));
  (0x9e4237edfb5ab0c018536882df3aaf1557769f9f8292f61d848bd70b93763d52, (10274080000000, 2568520000000, 1592580));
  (0x9e43d3cad0c5e1e118c4ebd1a18cc572d34401aaf6dfbb5d36febedd3084cd09, (13356304000000, 3339076000000, 2070360));
  (0x9e50fcb4674ef6fc08ef6e53f0737fcd9475c536e334b2af63a9c681c0c7aa79, (10274080000000, 2568520000000, 1592580));
  (0x9e546cd50c1b2754998f022f3fe502a7c30a259154e5f4355167e2d05cc0b354, (43151136000000, 10787784000000, 6688850));
  (0x9e54e5389ee42a6ab8a4d7d4f352ae30b241b33508b75662f091daf54042db75, (44178544000000, 11044636000000, 6848110));
  (0x9e5a6d9486db8b68bfe734b5cd3f64a7f5ec4191ad4328ce7a8300bbc51a8b4c, (14383712000000, 3595928000000, 2229620));
  (0x9e5d9e13cdd8ac37d582b1f156e1a19a1c2a5597beb473af30240f128b89c712, (20548160000000, 5137040000000, 3185170));
  (0x9e6eb74b0a6b39de36fb58d1fab20bc2b3fea96023ce5a47941c20480d99f92e, (102740800000000, 25685200000000, 15925800));
  (0x9e6f2c2051af39eb875189cb0584c88f9979e8a11e196fd709788bdc360bb303, (102740800000000, 25685200000000, 15925800));
  (0x9e764d454c42c382c6ac4df43687f3733adbd5fd3a5ea02cafe839f8030e595c, (67808928000000, 16952232000000, 10511100));
  (0x9e79959d9965e5f1c0c22191d5c55c10694e4e2c83e6f389a4dff2fe049f7b23, (513704000000000, 128426000000000, 79629200));
  (0x9e7e499e9e5b1068e09e32c05436cc74991636f685886fee0651a64a4e60d779, (41096320000000, 10274080000000, 6370340));
  (0x9e85b7b752eb1cb5baa58d9ddf7af76ecff22352211dc9f9d4227e63db086a07, (20548160000000, 5137040000000, 3185170));
  (0x9e8b9669e9d71479a6f3955f9a84508bbb7cefda7a94daf7b36d979b1800e376, (16438528000000, 4109632000000, 2548130));
  (0x9eba66468426f92f2be09283d00eba12cc7c86e5848af6ede655653e29146d0a, (51370400000000, 12842600000000, 7962920));
  (0x9ed461c0c351527a4bf8d2325c46f9fca16c62a1e646692779ce1ae29281fe5e, (359592800000000, 89898200000000, 55740500));
  (0x9edd4a45436f908389e0eb0f1b0ae9a84246ae95b54ee4cb4e60d4f27b3fcb07, (3010305440000000, 752576360000000, 466627000));
  (0x9ee5918b73ce422b257134cdae15e6cca1ca530d55855600b03c11de2b84624a, (41096320000000, 10274080000000, 6370340));
  (0x9ef0ae49e80166e4f02f8a8eaca96feb135fc1e804d46be6217b394a5e3b911f, (1886321088000000, 471580272000000, 292398900));
  (0x9efadbd73c5b5bee373b5a913e9f2e89616b4ec285ff59678c1f1dfcad09bc31, (41096320000000, 10274080000000, 6370340));
  (0xa0025463a04716a11b20900f6b227e55c9a80126193ce6f5af5ecb161962712c, (10274080000000, 2568520000000, 1592580));
  (0xa006c5f0eac62c13440c9be865fa8beb79602208b907f68a62dc2abe6e1ef23b, (363702432000000, 90925608000000, 56377500));
  (0xa020fa2bc4161a9843d7fd0668e670355b1d5c63551ff44b9ff5d7ed8d60b71b, (20548160000000, 5137040000000, 3185170));
  (0xa0229676dc2187987582d680b25fc6de3dfccfe7d2c1c372e9436eac6426a065, (10274080000000, 2568520000000, 1592580));
  (0xa02a65331fa2b39b45987ddc15b108275dd2a108bf3ed33607898a25aad2c660, (32877056000000, 8219264000000, 5096270));
  (0xa02ab1756caaec890c578f7aa00cea925a43035f89589e9a9b46098b63c5f638, (20548160000000, 5137040000000, 3185170));
  (0xa02cff65d854a32b77c7a6c5b9acd828c8ba6442b4e87fab994d9856a2d7c612, (263016448000000, 65754112000000, 40770200));
  (0xa03c3d9317eeb0cf3b0c85fd08138c014a266d6cdd4e4abf3f9183204f183075, (41096320000000, 10274080000000, 6370340));
  (0xa0456a2b0273fa49365a6f4622ac2a8aea47d0ba3bd7921be39dbe132e2d2e79, (469443263200000, 117360815800000, 72768400));
  (0xa047b024bd3c45f583068c8cb1d41f8bf8d84e2e21887f7b651b983ec8a1552c, (207536416000000, 51884104000000, 32170200));
  (0xa04984dd51754492c09b6a3cfa7826f2840b5b424839152d5d95dbb11a24c874, (10274080000000, 2568520000000, 1592580));
  (0xa04cfc192241bd9a7cec9aaefdc48c4c8a13b803ef8914878eacfcb4f9a8c40c, (129453408000000, 32363352000000, 20066600));
  (0xa050a46c9fa4d90ca1650869035a204236aace3a266a5eb332ecb10c4fd03c67, (20548160000000, 5137040000000, 3185170));
  (0xa05c3d5efffcc090d526507541f2cd6eba6e72c6e3bf9a491c5141cfab44d74c, (513704000000000, 128426000000000, 79629200));
  (0xa060640df4f54837e9c5c751e1b9541a68aac5fdcbd652f4ff4128f69e152e05, (199317152000000, 49829288000000, 30896100));
  (0xa0687eedec5de6da00864f8b2f0a38cb0d0afbae05b022b23b00d1756776b901, (30822240000000, 7705560000000, 4777750));
  (0xa0713cf9e3ecfc7f06fcd83825b88d36ac0b94015f22a3646ced702ee4763425, (20548160000000, 5137040000000, 3185170));
  (0xa079d28f9a2b0a0583df85d1bee47532f334b927072a68c526a373edfa7f7930, (415072832000000, 103768208000000, 64340400));
  (0xa0814a6b7027fdf14f7f69ee640d75243cc4b8c672c9d10d86ac0c89b3bb5963, (205481600000000, 51370400000000, 31851700));
  (0xa081905c5c59b54490eece0dd4fc6f00282ab843c6225e1c1dc5b792d18fdc67, (10274080000000, 2568520000000, 1592580));
  (0xa083685e9538f52373640c94f3f0c372576557e5fdb225fc6af94953fc8f674e, (30822240000000, 7705560000000, 4777750));
  (0xa0851da3efca4b8a632a13234b84060d16aef6b57c87004e8a3ae156b01b760c, (61644480000000, 15411120000000, 9555510));
  (0xa092895d690fbda3912d8fb05220869fb855f0e8c6108c0c7e292113a3d3795b, (10274080000000, 2568520000000, 1592580));
  (0xa09594a09ca93e2776f458aa9278eeaa183d1951361fcced5f64d30cbdc52b3f, (10274080000000, 2568520000000, 1592580));
  (0xa0a705c0f12aac951bd08910eb5e793264d0d56e6ac1bade3ad60bafe489eb26, (119179328000000, 29794832000000, 18474000));
  (0xa0ba23332fbca267cd4b58f4698534587cdaf77e778f452a2eed1d2bf0adc350, (41096320000000, 10274080000000, 6370340));
  (0xa0bd2d2a133cf56615835e4e39d4c99019bd6f92eae244b10b3ae7de168c4a2b, (61644480000000, 15411120000000, 9555510));
  (0xa0c16c99f4027806c039ca4ba05636deab12abb16b08c36fb2de3e972c686760, (26712608000000, 6678152000000, 4140720));
  (0xa0c710dce6335f3f3d1af1bb6b916b028fff10effd7afc81a33ba4cc3f9f1422, (20548160000000, 5137040000000, 3185170));
  (0xa0d568d613b4d679a639c8a8f2df790c196c0e85d8dedd6b71ddbf53ce094559, (102740800000000, 25685200000000, 15925800));
  (0xa0db4fcc13c9c8fe2a0f4182273035cffad2e18b707d48e26cecb4c7e8777956, (57534848000000, 14383712000000, 8918470));
  (0xa0e919ff431b0109f6ca7fba7885bb0e746dcc2361865765331182a9b016327b, (123288960000000, 30822240000000, 19111000));
  (0xa0eb07edc3cccae5c2e1210914cc58c92f5a1f7f5735c99d77cbc01d4810ef18, (30822240000000, 7705560000000, 4777750));
  (0xa0f03b04b4ac3844a12f21f67deb4ba303d303558c85bf69bf0689702d1edd01, (10274080000000, 2568520000000, 1592580));
  (0xa0f0b3cedb0316808027c78ae9712ecdc3ca8763542ee30413b7365253ce9b12, (12328896000000, 3082224000000, 1911100));
  (0xa0fa4b3c53ee1c88c6296a0bffed20638d366f3693f0cd0d41454a68f3ad766e, (205481600000000, 51370400000000, 31851700));
  (0xa0ff10aaaa141011fd66870a6406902e6d299ed71e416d9ebd9682301bdd8e5e, (12328896000000, 3082224000000, 1911100));
  (0xa200e0cf3eea3f61c7dd0f8f2eee27e097504a9f9bd9bce21d3d381c2a809e0d, (12328896000000, 3082224000000, 1911100));
  (0xa20324d437e71d6465814d5f78328857117fded37adbbf14a6478ee1d4308a2a, (205481600000000, 51370400000000, 31851700));
  (0xa203950619a84f061b5c5589ee2cfcb16d8d7902cce6f0ca6ed3eab101fa5548, (10274080000000, 2568520000000, 1592580));
  (0xa2111e2311bd1ae38a683e08bca68efb16a81e53f18c79983105ce5ead17dfd6, (44010460050000, 11002615010000, 6822060));
  (0xa232e91666f474476caed556611c1108005ee1b1400909137ed41c9855d3c203, (267126080000000, 66781520000000, 41407170));
  (0xa2341ada39b90cbfffeabc35096269f14b5de2e50446e16ac26d8b02a0263949, (174659360000000, 43664840000000, 27073900));
  (0xa23f0a1a9c62024365bc3a6536c60b1d3235b28e41df6b381d617ec006127a78, (20548160000000, 5137040000000, 3185170));
  (0xa23f6a1bdd6554532252fddbf887b849a41f9bf74d1c20f75f53a3667d581053, (10274080000000, 2568520000000, 1592580));
  (0xa246784627462d2beb97808f7baceb52ec7eb429e1d055c807d0b1ec78f35858, (10274080000000, 2568520000000, 1592580));
  (0xa24dd4358d51f8306da0f69ce15d1ca6a054daf1ebbaae1dc649697b443d8067, (82192640000000, 20548160000000, 12740680));
  (0xa2515e8d32f4a16ef9687f268778042cba85ca9b7bec3a97c1e3845e8c801149, (10274080000000, 2568520000000, 1592580));
  (0xa25d43ef19f4861b4d7949060dd167bce663b366d6c76daed83c424b33196f35, (20548160000000, 5137040000000, 3185170));
  (0xa26208efe68e9c66acd095276ae434dbb54c6110f6597194ffcb86f064370ff1, (12328896000000, 3082224000000, 1911100));
  (0xa26c524584a7893beebe4e830fe77d0941663cd0f1e5558e0d8c127fe739f975, (61644480000000, 15411120000000, 9555510));
  (0xa26fc941c2a4f30bfa11fa5af4528d351b50f6efbe511e96ee4572f0b6bd5f15, (12328896000000, 3082224000000, 1911100));
  (0xa27d29236694f44e1fd919185780bce833a6caa6131005c5736b88e30aa0c126, (20548160000000, 5137040000000, 3185170));
  (0xa287ea92d472ddae08ed8576cd6f3ff571bc7f649a5755161c98ca2497db7510, (10274080000000, 2568520000000, 1592580));
  (0xa2937ca68fe241cb425a01b226e39ac6baa2b76c858fec4713926cf4a320d31c, (20548160000000, 5137040000000, 3185170));
  (0xa2a3a264c2d55c51ba28ccd88aeac0bcc2813099cf23c447736a1e5a33f5d742, (41096320000000, 10274080000000, 6370340));
  (0xa2b0d531431fadedd0021bac273e7e179f9afb66e6e582c17fd7512b3e364d74, (82192640000000, 20548160000000, 12740700));
  (0xa2b2293bd2ab1fe4b10484de6a24f329ab2df9592c5c226ee1827038b9a0d566, (15616601600000, 3904150400000, 2420730));
  (0xa2b953214325070089343b6128d29e748fc39b4612c7cc24e86d82d9855dc764, (698637440000000, 174659360000000, 108296000));
  (0xa2bbaba59a2c670a5dce1d0955b100e81f9c209b1d191390c2c0e0e9a2ab7f2d, (102740800000000, 25685200000000, 15925800));
  (0xa2ca9564642713d36ee4c1a858883f2ed417d8d9b7d2f9ea4cd6443487e0d039, (10274080000000, 2568520000000, 1592580));
  (0xa2d072219fa80affc4910f3c0b9ca587a40f76094a8dc320b09f6b549ca87a3f, (108675149700000, 27168787420000, 16845700));
  (0xa2d0b063359f0a419722190ee6389714af844dad86bc99b6e2691ac29561062f, (20548160000000, 5137040000000, 3185170));
  (0xa2d563a1f9ffc4c1e1d148445d7df891fcf3dbf6004ed2aa0bfd3bdcff5c2f2e, (26712608000000, 6678152000000, 4140720));
  (0xa2e01ba4ef784ab3551b63f333c3894ad5286a646fd58021db119b9bc4d7432b, (12534377600000, 3133594400000, 1942950));
  (0xa2f7bff0d692adbd81a70a864dd22000739bc6dd6e41105822a2a7f437dc7406, (205481600000000, 51370400000000, 31851700));
  (0xa405dcba4f19ead64a68ade2a22e4721481625ee3f8a7a39ca39f8af8310e43f, (20548160000000, 5137040000000, 3185170));
  (0xa4110ea5561eb56861904e3eb2f32bb3dd5921608f114c159b625a58c71eb743, (10274080000000, 2568520000000, 1592580));
  (0xa431399aecdc4ecc4f09efda92d0352137e3553ae339b49fa9add85cbb4b9517, (102740800000000, 25685200000000, 15925800));
  (0xa4345cf8b1b0c536f98978ad2862aeead24c15bb361702d182ab583e3d430235, (34931872000000, 8732968000000, 5414790));
  (0xa43b2946680e3c59ed44ec8499440c9c0a23d1385ab3b839d937761ce62dcf72, (400689120000000, 100172280000000, 62110800));
  (0xa45512e32413d61c7996df5b5853c470910ec710ece7078d1491794b757abf36, (312332032000000, 78083008000000, 48414600));
  (0xa4559822f4f5682b79af44760ec0e740f4f00344c027048f6b988edd34b61c70, (102740800000000, 25685200000000, 15925800));
  (0xa45660dc3bf8067392865d1eada062191f2992f3c0a749641002c4477d9df363, (20548160000000, 5137040000000, 3185170));
  (0xa45e713544b62ddfe0cc54fae132884e9b210d036eeb8902b203b49f8d029859, (20548160000000, 5137040000000, 3185170));
  (0xa466a9628c91d022edc2cc920a7dcac1bd6fb030526bf3b6b34f6986a460da09, (20548160000000, 5137040000000, 3185170));
  (0xa46e1d2082d5367f2d7c01eefe7aa6337ba5058867ca7fc9009484c68efeb502, (10274080000000, 2568520000000, 1592580));
  (0xa471c55caca4be7b4e60c6e94b20f9028883f8c64287d4454130c657383c3442, (205481600000000, 51370400000000, 31851700));
  (0xa481056cfc59b4c245efa1f4687609f9f48e735cbbcc246d28e0772887fe9a0b, (24020799040000, 6005199760000, 3723460));
  (0xa4814d3fc5be8cd26a0ff37e9e9e6baad767168537c6e7f590b5472565499931, (10274080000000, 2568520000000, 1592580));
  (0xa48e2a600148d7fbf8fecda93b8a2bbd0d00b6d74cd582253c77bd19cea0c540, (36986688000000, 9246672000000, 5733300));
  (0xa49f04bf5b1ff82b6a7dfcc3934fae60a41e384de7634fbbea33f32da234e76d, (51370400000000, 12842600000000, 7962920));
  (0xa4a11a8884c1e788207838b03bb2b811f4ffbd28ab846761d52c2a51961f8c22, (521923264000000, 130480816000000, 80903300));
  (0xa4a4d2c11a5cac331704ae6dceb4b2ea6e58d16c9971fcffa40e3ce7d1d47c20, (41096320000000, 10274080000000, 6370340));
  (0xa4a61407aa71fadd75586ed87d9f00eece78ca87b77c178d91d26e893daad439, (102740800000000, 25685200000000, 15925800));
  (0xa4afe43ac40941d7861a40e6766e874c7117c420e3135778293d1fc467f99d05, (25972257800000, 6493064449000, 4025960));
  (0xa4b45231dcbea812ec64737671e09bbd2a1afa0f19e498f6ef0578e36ade5906, (71918560000000, 17979640000000, 11148100));
  (0xa4b746363c0eb03fe9e4b6f85ac34b1b8c49d3f7b65aea47e294ac89519cc039, (10274080000000, 2568520000000, 1592580));
  (0xa4bfd3eecfdf35a5b9dcee1213cbef7db94e2729a97db449da714c62a0ebb919, (616444800000000, 154111200000000, 95555100));
  (0xa4c93f2077ebf272e34283713a09e770ba9baf3ae472a70044df88df307d0a2a, (12328896000000, 3082224000000, 1911100));
  (0xa4d2432d2c500aad809be927e07288991ee266302e66c533869ea32e2cd36006, (10274080000000, 2568520000000, 1592580));
  (0xa4d25aec1ca50b7e768d67282416227f06e40d9fee70c54ac31bccc5088caa1d, (10274080000000, 2568520000000, 1592580));
  (0xa4e68b52850420348c9339bd069b1cf44c8acddde57e13c6150795871f022256, (20548160000000, 5137040000000, 3185170));
  (0xa4ee5502d83e144218989f3b3690891024caffab980adcf22571321ac6ec1011, (10274080000000, 2568520000000, 1592580));
  (0xa4f10272372743e3628072f04829ab9b73ce912fd142a281355447537d182323, (10274080000000, 2568520000000, 1592580));
  (0xa4f4e62a3d24a359828e95a75e478dc48ee2ff8456c46d171adf25bd3a144831, (410963200000000, 102740800000000, 63703400));
  (0xa4f61b7a6e06946c3dd15026e11c7992f482315e3a438b837c30329a57a6d21d, (20548160000000, 5137040000000, 3185170));
  (0xa4fbcb448ab4382e2cabb2f3ee3e2c3234f369d93d75d2dfc393698aee19842f, (10274080000000, 2568520000000, 1592580));
  (0xa4fbd27481e78a65b2e29026bf630615cf575e8f928b2276bc88d03d0d4a9218, (10274080000000, 2568520000000, 1592580));
  (0xa60a3ddde4a2c7cd9e6dedabec5cd3bbd536c4342b9708d0a359f81f1e410c6a, (2054816000000000, 513704000000000, 318517000));
  (0xa615a649c858a98c3e229d7f99250e8292061eea35a19de7b319daa091693101, (61644480000000, 15411120000000, 9555510));
  (0xa6177ad417ebec49130dbbf79474d0fefc26d586373d2324f353deacf83b5048, (10274080000000, 2568520000000, 1592580));
  (0xa61dda06b8ecd634b58a6bae5b26c7243927ada52ef4cccc4cfab921d663d27d, (18493344000000, 4623336000000, 2866650));
  (0xa61ff7bf30137d13259fa296090c4ceb21b266c616d50d6a998a16180778dd4f, (20548160000000, 5137040000000, 3185170));
  (0xa62b6efc3312fabe517bf8e1f407a00a676bf2112161ed1daeb0f5e784208b43, (10479561600000, 2619890400000, 1624440));
  (0xa62df047125d60919bc77403622eb5056ff7c361e744492e126942163464212b, (205995304000000, 51498826000000, 31931300));
  (0xa62ec364a06f2e18835f30a38aacf94dcfb7a75bb0bc35453e2778ec96cfd024, (25187909390000, 6296977348000, 3904380));
  (0xa641ade860c4dcf2c2f103b52cb890214c80f135416d4d9c9d8ddd40781c7b3c, (61644480000000, 15411120000000, 9555510));
  (0xa66431356f2881ef9cfc2bc77aafc5b728f1870995743c5bb9e967e78770396f, (20548160000000, 5137040000000, 3185170));
  (0xa668bdabd7e10613e6b7adbdc10b1b0e6419550cea25783ba3033e7ce215c93b, (41096320000000, 10274080000000, 6370340));
  (0xa680f1d3b6abc1351b6b0afd91a54c1d466b7820abeda0bb7e059513a4d80c04, (10274080000000, 2568520000000, 1592580));
  (0xa6816448f975dfd6935706282eacab67dc24b5c075d98787a6605737a846360f, (246577920000000, 61644480000000, 38222000));
  (0xa68b72bdb79af1c46497c59ea36ec3a3d10a328c844391ebb87b5b2a7f82134b, (20548160000000, 5137040000000, 3185170));
  (0xa68fafddcb284e958be206b8a1ec7aa6b056fd5ecd8cf5a1d3ecf562661f2a15, (30822240000000, 7705560000000, 4777750));
  (0xa692e8439b3d7f4b757ac37c76fd77ec2a7dba1b5de689f01c40b3a1c752344b, (226029760000000, 56507440000000, 35036900));
  (0xa6abcbd83c3746e1c04a7a2db8f6ac1cb3391b7dadeea63dd8ad202d8f27ab1b, (293838688000000, 73459672000000, 45547900));
  (0xa6ad2406a631f90f926bdf97f01fa85747c1072879e3b6acb532fc586ed3f235, (215755680000000, 53938920000000, 33444300));
  (0xa6b1a1c65d8bb493274c49b9e72125546916f8605e07e88c650afa74a7b3ea5f, (2486327360000000, 621581840000000, 385405000));
  (0xa6b50516b3c31f21af10876eff38b772f866e9bd444329c29b929527d5f37b38, (10274080000000, 2568520000000, 1592580));
  (0xa6c0fc6cd6e7450ceea75aab3c0a918796bc65fa736fe9a53b8fd986356f9009, (20548160000000, 5137040000000, 3185170));
  (0xa6dda5fb3bdcbc0202701b1febb9d464b5b038fcd046cb025d0cf90454ba2339, (20589256320000, 5147314080000, 3191540));
  (0xa6e437450107673ba9dbbccc13d84a457f0b5e76b580c3711c2a295344308e6f, (365757248000000, 91439312000000, 56696000));
  (0xa6f56e262666adfbbd80486024bb3255e8a5e31cf474ba64ea31a7c698833461, (20548160000000, 5137040000000, 3185170));
  (0xa6f866d6b2c68f5f2c13c6e28ce288d47e28a19b8e5e2979e1d057d6ac56a103, (616444800000000, 154111200000000, 95555100));
  (0xa801717b11c6f05b69466ff881d8260993b2e0e6a969ae55c6851af11b0fd733, (1027408000000000, 256852000000000, 159258000))
].
Definition rows_12 : list Row := [
  (0xa81348c38c673eb0d53fb93c39b0df334d956b513b60b29fcb031ac85083194a, (28767424000000, 7191856000000, 4459240));
  (0xa8145141c63a781963bdc2ae05768a117eee8fbe7106aacebf92b8b64e98ec4a, (620554432000000, 155138608000000, 96192100));
  (0xa81ce4061e28d5b60e9f1ffaff35d85870f6ac6b74f75158a5aa54fb4250ae3b, (10274080000000, 2568520000000, 1592580));
  (0xa81e02e8f30ad8300959e378b4e43bc6d371c0a3a2760714e5ef03d6deaf621f, (43151136000000, 10787784000000, 6688850));
  (0xa831eec6691e8eed904cf4456f890cd7d046feefd05c7f8142d41365fb755b79, (10274080000000, 2568520000000, 1592580));
  (0xa83dc9ff3d10aa0716ba519861ef7be6381941e7bb67c230005bf79936049f1a, (82192640000000, 20548160000000, 12740700));
  (0xa8401b7f0c7e410eb2b1ffc52f5c17e257f38d39350da263cce082071a90ce73, (67808928000000, 16952232000000, 10511100));
  (0xa8402615b1186467f54afda5dff753df3e4e705e1a7aea21f182949373951e3a, (24657792000000, 6164448000000, 3822200));
  (0xa844c76094ff297bb438d39ab1db208c4afa0f5fda47cbcedb80c8fcae6f8e23, (10274080000000, 2568520000000, 1592580));
  (0xa85504170d496ddfecbefd1877e8e1384328a2b1c10f5a16a65679f3f6ce2502, (49315584000000, 12328896000000, 7644400));
  (0xa855cc32167a17e0cfcc084265b4bfe6816b616c0f0df9fe0fb5f6323461133b, (410963200000000, 102740800000000, 63703400));
  (0xa86a6884d9c22a50ca5874127294066ac20cc1ddd5152734974eb54872d33d4d, (102740800000000, 25685200000000, 15925800));
  (0xa875360fbeeed8856b85d6f73ef4e499c98e68228b567f398c9df2880968f259, (102740800000000, 25685200000000, 15925800));
  (0xa87801c360d95bbd7a719215564c0515d95572c5c9a59ccbc2f1df90ac84001a, (20548160000000, 5137040000000, 3185170));
  (0xa87a7ee8123076f1f2bfe59a5d936536e4dd587457a7ffd47777e42a90ef3305, (51370400000000, 12842600000000, 7962920));
  (0xa87fb82af88988e8b0a8fdd7b1f8505b81ae78fa884fc3e78923d0bce101444e, (14383712000000, 3595928000000, 2229620));
  (0xa8802e3b16749fac9bfa82113ebc5bf08dd4b21261aa3641d8aa12eacde7a455, (10274080000000, 2568520000000, 1592580));
  (0xa8b2720f191c616720a6cef38b102536143131395e9f03cb052fd34381027e69, (4109673096000000, 1027418274000000, 637040000));
  (0xa8b9bea7b9f72e0522391496804841e7d891f9dc485629fb97b9461d4fc15145, (267126080000000, 66781520000000, 41407200));
  (0xa8cf72646cb43514cf7cb5b3a0b35cc250039660ae0787a70a8d016fef81725e, (20548160000000, 5137040000000, 3185170));
  (0xa8e74a64a6708c31c60d238d4acbc685238ec089341979fd2888b5f3b7e8db01, (19520752000000, 4880188000000, 3025910));
  (0xa8f36ad0ae33b04455c1260ce264b2e2134fb5c345baabaa0ea07cee00b26724, (41096320000000, 10274080000000, 6370340));
  (0xa8fb37d2ef5a819c0aa4ed07c0124670c778858700f9656c122cc29425be8f38, (41096320000000, 10274080000000, 6370340));
  (0xaa15d709b4cdddca428c766c73430bead8d0f3f4d435639d288c0c64d24df311, (20548160000000, 5137040000000, 3185170));
  (0xaa181992f0e9403579079e519d64ee6cf071ebe4c86f7df986d05303092a0e62, (82192640000000, 20548160000000, 12740700));
  (0xaa1ebc6996d4756d14cf44decda1f95aee3216779689c1a42d9acb6998abb879, (2042487104000000, 510621776000000, 316606000));
  (0xaa2b5c2ed773daa36338f0d65a94ca6c50d1ea6ca6d15b58d84b6523a0564f05, (10274080000000, 2568520000000, 1592580));
  (0xaa32bd07fc23fa5207673a42c18cbe7b5c519183e14b919ba5b51cb3e4e5f378, (10274080000000, 2568520000000, 1592580));
  (0xaa40fd2986aa5f0cae9a1e5eeb2c30904aa12696fa1210929face8d60bd39467, (20548160000000, 5137040000000, 3185170));
  (0xaa475a1ed6d9b52c8739c6b9d22ef1948dc502ffea41473a829ae33501cddb16, (14383712000000, 3595928000000, 2229620));
  (0xaa48a9775be7af0521acefce054dc7e9e461814dc167a5cabf52aef8534d8249, (20753641600000, 5188410400000, 3217020));
  (0xaa4f4b0ea5630a80109bbe2379e5a321f788e0e24210f4451b866b26182e8345, (10274080000000, 2568520000000, 1592580));
  (0xaa5e090c7d6ad5286a4aab90d59d163574c14c0c9b51b14b5ac736b2f573c363, (41096320000000, 10274080000000, 6370340));
  (0xaa614e53784f255079774556e18cba9ed89d53f1d1e3870b2fcd6f947db1a261, (30822240000000, 7705560000000, 4777750));
  (0xaa6da651b88164f9dd44a8a8e11ecba715439420febe9fb00c39ea5a751f3842, (205481600000000, 51370400000000, 31851700));
  (0xaa6f8bae35786353aa6abd51d6adb1acda8ce4f622f754524787dbe03fcfce70, (2054816000000000, 513704000000000, 318517000));
  (0xaa7ce51337967817df927ab9e0a051c798dfb9ab83a8497b40bd61fa047d0438, (49122830350000, 12280707590000, 7614530));
  (0xaa89269f5ab889e7515c50e2c467f60b876d23d2af489048b859e105b559a339, (10274080000000, 2568520000000, 1592580));
  (0xaa8e2c2ea3bd34d50fc8782f54b38ece390ec0cf5a209f81fb8e5058e0e2960f, (39041504000000, 9760376000000, 6051820));
  (0xaa9e8e2fec4fb7417e9cef5c341d75d38dc732fe846656e671c41762ff9c9971, (84247456000000, 21061864000000, 13059200));
  (0xaaa1a487f74b40dafc36b97b018de021f986843881a61b0513d18895e34c2753, (20548160000000, 5137040000000, 3185170));
  (0xaaa43354521b3cea3216dceb270333cbf3aaea4f2fb0428cb8c3cb76c645dd1e, (205481600000000, 51370400000000, 31851700));
  (0xaabd4d276ff7bfd1340659aa04d4f836709f38563eaf254d4ddfd9126e678600, (71918560000000, 17979640000000, 11148100));
  (0xaac22d61c165f5daf9a992ecec4145e9fbf0f55cc502e4cbffc896796587a123, (10274080000000, 2568520000000, 1592580));
  (0xaac395193815e9ca15ea398934a74a824e3a993e75e7f569b93d4d75f228bb51, (20548160000000, 5137040000000, 3185170));
  (0xaac596baf818abfa332818d4697c9027b8d442e3166002dbc52a7bc4c4a81b10, (51370400000000, 12842600000000, 7962920));
  (0xaacfc40dfb36ffe2839ff17bf129d80a107a643bfb739573dffd4f14ee663b51, (10742578050000, 2685644512000, 1665210));
  (0xaad477ba79d8d4a7ec7dbb67aac4ce04506f62790ed190feb99aac45782d9a2b, (30822240000000, 7705560000000, 4777750));
  (0xaad5977849398badda7a50822cfcdc57742200c72dcdb89653746687533d4342, (10274080000000, 2568520000000, 1592580));
  (0xaad9a56d10cb1cf52f0381dda99628f1d1b0865b52771f5db19aa8ea3ab0d70e, (10274080000000, 2568520000000, 1592580));
  (0xaae3aed30ca889617f89c60a1451c28c433f8eb7fb9c06af8dcb2b6f3f14fc37, (10274080000000, 2568520000000, 1592580));
  (0xaae898d71146c8b86b4a5d834e12581710c8fe6eb14c1ebe95d30a1528cb625b, (10274080000000, 2568520000000, 1592580));
  (0xaaec3acdcb5ea3d6b1052094aca91f81033ffce2f9066bfd269beedc8b76397d, (20548160000000, 5137040000000, 3185170));
  (0xaaf6812f10e82f73d8aaaf499e0f343210e5f345a958aca3bf9f36d1d1517d0f, (750007840000000, 187501960000000, 116259000));
  (0xaafb16322a351be28dd57bc8ceb9c27a23a23667b3775cabb3179ee7adcabc61, (76028192000000, 19007048000000, 11785100));
  (0xac01b6273b8bd255a621e8eb76b96fb25c9b787f3dd0ff8ba3907d7b12040f47, (145891936000000, 36472984000000, 22614700));
  (0xac0cdc915d777687f288a46d4b59d9cf48b6a2e9499d6621dcb6b0d11d5b973f, (41096320000000, 10274080000000, 6370340));
  (0xac317c067c9f8c73f7d1b6f4f686fa9d6e6c2e646d0bda1a6028a65b795bd01e, (20548160000000, 5137040000000, 3185160));
  (0xac333e987093c6d735e07676237bd0534725246801b83c294a4f1e67cc7a5246, (10479561600000, 2619890400000, 1624440));
  (0xac37fb34e58222e2887f013cebd9a4ddd5d4b76bebb86d6fa932864416000013, (20548160000000, 5137040000000, 3185170));
  (0xac39deb97cdda231fa846c948a759b35fc97a8f047f80b05a2fe524044fc794c, (10274080000000, 2568520000000, 1592580));
  (0xac50c403be69027c21a5063315306dee35b68c9b104f1816b28bb82bd8c1126b, (205481600000000, 51370400000000, 31851700));
  (0xac54f25abc56fb050ab29f83de81ec50d94173bda5206d04035d05fa940b0f23, (20548160000000, 5137040000000, 3185170));
  (0xac5b4f9ae39c4226eb8417cc3d2827db27cce81a090cb13f836f1791bba5e47f, (309660771200000, 77415192800000, 48000500));
  (0xac625d9d966e8c68fb07378051b46bb3071d8acb82bfae12a859bc1617ff8511, (10274080000000, 2568520000000, 1592580));
  (0xac67dc770176d7c921d63139112c628764a2ebc10530973f46d3c8f4534f3840, (51575881600000, 12893970400000, 7994770));
  (0xac6a12054cd34fb46b4ae793f07069de42b2ad7f0d32cd15fdddcb05bed3550e, (73973376000000, 18493344000000, 11466600));
  (0xac6aa9aa7bbde22b2a2e2f930a58c6c49f759549e8a12e135e4e438ab36a3b7b, (10274080000000, 2568520000000, 1592580));
  (0xac7bff590a56e383e5f5f0dd3929632f3c2e54280f034bdeb8a9e20203455267, (41096320000000, 10274080000000, 6370340));
  (0xac9ce862a8bbb6ed4feb5ec3e5674f1c29b3580a5a557d70ebf8e903b60a1a6a, (205481600000000, 51370400000000, 31851700));
  (0xac9e1b4b7dbefbc534ad877c1fd2b3082924ba87cf18da503db2e70f2c556403, (82192640000000, 20548160000000, 12740700));
  (0xacb9021e6089f4df815695c501f08113dee26b0faeea0a58069b4512624cf77c, (51370400000000, 12842600000000, 7962920));
  (0xacc73dedb8066bb6f22c128a935713ff746263c65e4374f18ebd673155226c09, (30822240000000, 7705560000000, 4777750));
  (0xacfaba05cf81fc2e520c9f278a4a0aca5bad909c7425afc534e12ad7057d4e0a, (10274080000000, 2568520000000, 1592580));
  (0xadd22e151f6669be368511882f0a04d0c5fcb06032e620e4bd542a06c40b4af6, (117124512000000, 29281128000000, 18155500));
  (0xae0d1db9082bdce75480ee80c3bf3c6496de1ef8171951de2edfe49fdbe30a67, (10274080000000, 2568520000000, 1592580));
  (0xae0f143ca75f0c7446b3708bf6eb1a9e1d0eecc43509dc440b250535e416a962, (12328896000000, 3082224000000, 1911100));
  (0xae18b21645c74ab52eb58971eee6b6a79376b678c5098cba21abcdc969bbf534, (408942288500000, 102235572100000, 63390100));
  (0xae2ba21e70b0cec81e682e2e247cedb9d2245be66589e1a5fabc5f74f9214f53, (20548160000000, 5137040000000, 3185170));
  (0xae3e9fff4406b59cb9016c939d66d4085609c8c2d27024ce12ae10e638dc015f, (513704000000000, 128426000000000, 79629200));
  (0xae4b35cfa4aef997e58dbf17f488de95e88fc6bfb5b62bace7e279393c066504, (30822240000000, 7705560000000, 4777750));
  (0xae53aa6608d08210ff19217fb7a21ead8eb23fe952d01b75487389b3d9913608, (14383712000000, 3595928000000, 2229620));
  (0xae57c111af591fe5ba5e98514c2b169ccad970dcbc9deb8daa956ae84c4d1a27, (10274080000000, 2568520000000, 1592580));
  (0xae5958333cbb94db50c3fc4ddebd378ea53f93cdfa5bbc5ad7a67396ca795f13, (398223340800000, 99555835200000, 61728600));
  (0xae6724c3bcc1c76b44c1884d83725870ec2abf41894c4c5539854d7bb436803c, (61644480000000, 15411120000000, 9555510));
  (0xae7800bbc59cf3b9db971aff7f3f88bc99b4c6e88ffc9a41cb83cd79db708f70, (51370400000000, 12842600000000, 7962920));
  (0xae7c01a11c72952948c45911729484d29dfca19b5e3e3a8517ab18e769c19625, (17465936000000, 4366484000000, 2707390));
  (0xae7cc1bec5a8a0e280f43c494c8299265a36816bb1a09faefc66a5f7a069c574, (53425216000000, 13356304000000, 8281440));
  (0xae85f188b4ee5c296fda8a84d53d9c9f87c561e618167476b0b79ebe5d4b4f78, (41096320000000, 10274080000000, 6370340));
  (0xae875e8158b2a2e1cfe19c35f5c0834aca2319300f1c570eebe9de7ae57d202b, (222695636800000, 55673909210000, 34520000));
  (0xae8948c52cc05e79ee069cac17d0e1a16fdb8c29cfc2b954b8bf3b4a2a87e07d, (205481600000000, 51370400000000, 31851700));
  (0xae89ae060bf5e1183d793bce84920d5eec56fccb51e39e4349e70980b01fd91d, (218837904000000, 54709476000000, 33922000));
  (0xae89ea1552d98dfb10721bf48a728db1856382f7ad757b057074068c3c0a6569, (143837120000000, 35959280000000, 22296200));
  (0xae8c984bac3ff00ab89ee5f4f84c8e2ad7abb9d0da0860b9d4b3f641adc0a55e, (102740800000000, 25685200000000, 15925800));
  (0xae913921553eea6150a1741e415b6ad8f8c17700e7639559ace9a7ccaee7c371, (102740800000000, 25685200000000, 15925800));
  (0xae9bfd678c787d854502d331ecaa6b5909330a4514a06146c41b455c1d619459, (51370400000000, 12842600000000, 7962920));
  (0xaeb028623269c5d021f259386f608133ccaf8460484bf8e4331d1e16c717222d, (125406797100000, 31351699280000, 19439300));
  (0xaeb2243fc2df736594bebf118692493d038820f1ea865ba691ec1faf60ddeb12, (246577920000000, 61644480000000, 38222000));
  (0xaec752947827eb8f978318ccf5b897422e91013010f746104bd7a1417a12980a, (10274080000000, 2568520000000, 1592580));
  (0xaee3b0607161a9c97058e07a5b3ee776c8ffa9d7f97d7342730d37452053e368, (10274080000000, 2568520000000, 1592580));
  (0xaeeaa2a55762d3c13127a84ac224aaf431b14944f4faf87fea9dcad63dc54926, (719185600000000, 179796400000000, 111481000));
  (0xaeee2c1a2cf76962ee3552b7e5d147ed3d16989ffbda20ca595a2c60c3fc0477, (10274080000000, 2568520000000, 1592580));
  (0xaeee401ccfa1029e96f940dd9c781d0e972ed242077759a8713e36bf70a47e67, (102740800000000, 25685200000000, 15925800));
  (0xaef89eb43e11942bf797cb7f0a870567ca0860f7773ce3ccea2c10738524bc0d, (20548160000000, 5137040000000, 3185170));
  (0xb009d2b01da8faae179b9f769d43432aa0eb96e11edeb1c1311bf3795d728266, (30822240000000, 7705560000000, 4777750));
  (0xb0143083a37e228ae8bbae650fd0805db95d0d7d78bcd2b3fbc19e4f4fc29d3a, (32877056000000, 8219264000000, 5096270));
  (0xb020f875c92b611e3e36d302f4a566644795400d4c3e220c5ae338c13d8f6e49, (20548160000000, 5137040000000, 3185170));
  (0xb024f894813773b99863f65d6cdea07b167d4fabf7fe4f5aad56ad1040c3e967, (28767424000000, 7191856000000, 4459240));
  (0xb02df15caf87b67b5aac1c0935f2cd99eda4217605070bbdc9acf61a14daf254, (41096320000000, 10274080000000, 6370340));
  (0xb034ebdf55cea55014c055905c522c43b0da5ca4a62af525f3d590f0ee998b6b, (34931872000000, 8732968000000, 5414790));
  (0xb0351802b6f1851b7b2489c5ec2593224bb82de117cee2245315b9b237d34a7e, (20548160000000, 5137040000000, 3185170));
  (0xb0406131bc9422513bbe4a3c8eaac2f9521b8dc5002f9f4593a5d1a5f007f741, (205481600000000, 51370400000000, 31851700));
  (0xb0440575ad028332578eab50695b72af7b69dc36be226c31c17b7c7da4043e05, (32877056000000, 8219264000000, 5096270));
  (0xb05dd78383d1e1c73d119cd5250539fb13aa7461de675a298ac3d2cad2f30130, (10274080000000, 2568520000000, 1592580));
  (0xb06c25ce1d4d3562d228751a8c1f30dc1c0a77c20b3fee2cfd1781e73cbd911f, (10274080000000, 2568520000000, 1592580));
  (0xb07a7fdc3c0fe5a212ddfc35bce4ba1b980cd5df0ea76eee5f55ba21d6971b65, (410963200000000, 102740800000000, 63703400));
  (0xb07bbd035ee1f99b62e35df1ecdeb36d7b92742ac95aeb51127fac53ca2ddb1d, (10274080000000, 2568520000000, 1592580));
  (0xb07c48e6e9edc233b342d18a32ec6dd21363d6d4918cbeee699282b0f9634e2a, (20753641600000, 5188410400000, 3217020));
  (0xb0803ed6a967ffb05a999cf2457775fc031189b49b148f23f0e2b1d6427b1a54, (314386848000000, 78596712000000, 48733100));
  (0xb089ea6a9730bb6ccad4acd2b428cf883770d7b5ac1339129e36046f4c919837, (10274080000000, 2568520000000, 1592580));
  (0xb0912419ea87ec38b856f8d088e312dfcd9b4c6aea057cf06125b708d2cf70a4, (102740800000000, 25685200000000, 15925800));
  (0xb09ddf6b0f2b7b899f1359c85e0c51ce19044247c6f74ac7945bb1bc401b323a, (10274080000000, 2568520000000, 1592580));
  (0xb0a97d3692bd61aaae41873f654fe310a234ee4fe3d44d43b74805ceebacfb1c, (33698982400000, 8424745600000, 5223680));
  (0xb0b25eb92a0d48eec1791cb2559837c6848fa75cb08d6bc085fef9b85857b96f, (924428841300000, 231107210300000, 143296000));
  (0xb0b9bb9a438d7aa0629c2a728aeb4ff3f6ba178b9b1de8e46317884f5a73a067, (135617856000000, 33904464000000, 21022100));
  (0xb0c7514b7a22bd921355cc0c17a637edaa9c05c46df5a0ad567723e1a7e99f21, (41096320000000, 10274080000000, 6370340));
  (0xb0d31b9d0880558ee405d9a02abb4204cceea591830d233e9b005da787183d60, (12328896000000, 3082224000000, 1911100));
  (0xb0df08066c6b480a1ecd9b53e9dbcdad29b2ca6d40172e82fc2316b1ce1f890a, (20548160000000, 5137040000000, 3185170));
  (0xb0e260a1a93151db62e004ac1a0d7e2cad518f0996750c72319fc42956f9be3e, (205481600000000, 51370400000000, 31851700));
  (0xb0e86bf67c83370a63c9fca398d3b4fbe0891a2c94490d2cfcb60bae43ec7171, (760281920000000, 190070480000000, 117851000));
  (0xb0efbb83e86eac43e8261d6cc221d3895a6ef597e8c260798719d17a3aef0a16, (18493344000000, 4623336000000, 2866650));
  (0xb0efec796ae99e9c6c7a2e8d1e7b621832bf726f857c772817558d1139f9cb20, (16233046400000, 4058261600000, 2516280));
  (0xb0f47889d55ccf4106c9b5c966e4f1335b15e6b405cc398c35a798b74aec2a77, (10274080000000, 2568520000000, 1592580));
  (0xb0f6313239029886a0efdc3d6e20ba129278894593ed581e8ae32b2648ad7734, (41096320000000, 10274080000000, 6370340));
  (0xb0fa4766dcf071858c01529fa647e664c6e8b13891a475131a41e9b993c30535, (20548160000000, 5137040000000, 3185170));
  (0xb20020346349fee5133fa9c113d3c057da9b580889961c93596d7435f7169b5b, (10274080000000, 2568520000000, 1592580));
  (0xb20038b756fc2daa0aa475993a7a903db43c5d7315ac39aa29bcbaba0d001502, (61644480000000, 15411120000000, 9555510));
  (0xb2071e8180b50bb9b8e7ad34714c2ac409eec3fbb3a15886984ff4f41656de0a, (414867350400000, 103716837600000, 64308600));
  (0xb20e0432634af5b5687a8a9d85dda56ceef022d183c580415beb3d921ea4fe67, (20589256320000, 5147314080000, 3191540));
  (0xb21195a68c0f8423f5bd0106a2e06112cffaf65030563b5f89da259d7380a77d, (12328896000000, 3082224000000, 1911100));
  (0xb21b691055017765e8779c0482ee9e74759c67f9ac660b653340d3509f2fa57a, (110960064000000, 27740016000000, 17199900));
  (0xb21e57a7b55ce3cde502e51c5d5352c1b7e637a08199811881603d02fa233333, (4419909216000000, 1104977304000000, 685130000));
  (0xb220431749b41f7869b5968f7ebc1aba30f8fc18962c332837cd53de83e91645, (22602976000000, 5650744000000, 3503690));
  (0xb22116bebcf713c695d35a685474ee35f9c53069c887801cc5233aad8eeb3a59, (20548160000000, 5137040000000, 3185170));
  (0xb22c2d6e2de14c5f9e53e19d0499f26fa423a27551b7447fe26534c92144431f, (82192640000000, 20548160000000, 12740700));
  (0xb233d1f79936c2806c6fd01e14bfa6a032653d0d4a4c6c7f9244374c266b586e, (10274080000000, 2568520000000, 1592580));
  (0xb252f15bf9dc56fb96addc4678a86a27d185991860c3200dfeb236be997edc0d, (41096320000000, 10274080000000, 6370340));
  (0xb25a832de813610a8b1d59a4f581ef479e629c727d8498bcf651af707cfcd242, (12328896000000, 3082224000000, 1911100));
  (0xb25ffa71f5e298f45045396f949c3533848009e7aea29bcc677c87735171194a, (102740800000000, 25685200000000, 15925850));
  (0xb2627744aa1b8c755a7676b3bed8d721258ba2d451a7d9699e72e038e7b5d02e, (20548160000000, 5137040000000, 3185170));
  (0xb26d58ffd6fcbda4742416efa0db1e7c578d4392e902928f8623c59910779d34, (10274080000000, 2568520000000, 1592580));
  (0xb26d99b87f0eb9113e1fa9bb24f0755eb4505c68f0f7eefacf58bda708887f14, (184933440000000, 46233360000000, 28666500));
  (0xb2728b1234d8a5d1f8632246cf0b1bb466c8dec2ee6f13404d6dc7e3be6e2011, (3082224000000000, 770556000000000, 477775000));
  (0xb275c008773780b540f45876cba2df15189f1b6b7d9e45920208bb0f617a9276, (24657792000000, 6164448000000, 3822200));
  (0xb275f33f3754e8082b3cb444874833fbed7119f30f5e7b8c080bdc2eba66be5c, (513704000000000, 128426000000000, 79629200));
  (0xb27a7c6d227bccc1279f273c9da6a21d66906735c419172c2d64b9ba9c34565b, (205481600000000, 51370400000000, 31851700));
  (0xb27c3dcd115a1f74bc310732674794ea52096e40e742919ab4ed04594d216c02, (102740800000000, 25685200000000, 15925800));
  (0xb27d74e772b31411a49705822405b605423306b9b8364d26d42ac1ade72a4476, (10274080000000, 2568520000000, 1592580));
  (0xb2a966afdb2fc8967d691d5efbebf265eb8ec375336e2f60a92d7972a982332c, (41096320000000, 10274080000000, 6370340));
  (0xb2abda601150a952ed14f47070a08f0c027e5fe6081353713ff39a7ffeabe770, (10274080000000, 2568520000000, 1592580));
  (0xb2baa9d1d0871263963e5da5aae1fe4b4f9fccab1d6b6fa599b3cbecbf5c901f, (20548160000000, 5137040000000, 3185170));
  (0xb2bdf7b5073bde9407975b243cc3286150e19b1954f8de979dea9826137b5404, (146508380800000, 36627095200000, 22710300));
  (0xb2bdfe78a495fb12eb5cf7dcc9e2dfbadcac3a8a9184f3fd5cdc7869cfa49b30, (20548160000000, 5137040000000, 3185170));
  (0xb2cba346ef10bd7d97ba23be82f5daa422c80c18152b1dc9ccec262c0e26ab3c, (143837120000000, 35959280000000, 22296200));
  (0xb2d57e48fa2891106ba305ebe8f4ec230715c77df6943a41fd9df07a50da8514, (10787784000000, 2696946000000, 1672210));
  (0xb2e0258628aea7fd1d79357c4370e517ef93617bd849924ad6852882f0843373, (30822240000000, 7705560000000, 4777750));
  (0xb2ed00759d4a1070d4f2109df11fbd869de72499d5f4d0ed693fa75d87c7516c, (12534377600000, 3133594400000, 1942950));
  (0xb402673f36774bc936afb3fe7b411c5a527cf14fbb8bd6869eb5a33336a03d77, (13356304000000, 3339076000000, 2070360));
  (0xb40bb9ade38a24cf69f29c8d7e52bf779de4df94a6cc1bc76249c3ed3e7eb44a, (32877056000000, 8219264000000, 5096270));
  (0xb4143bee22b9dbfab1449bc4e37647a3ea39595ec4c6207a76a08e81b18ee241, (12328896000000, 3082224000000, 1911100));
  (0xb4247a3fa0a958ed638a34a4433df0617cdc1e570315747e3f63c70302f3ad67, (10274080000000, 2568520000000, 1592580));
  (0xb425bd0d11e7fe8300bc6618bedf7f059c2037b4263a8dc762fad1d75f770c1c, (10274080000000, 2568520000000, 1592580));
  (0xb4262c9c3bc71127298f18ed390a230e48012f4cc57f05a72bb4d581ecf5963e, (10274080000000, 2568520000000, 1592580));
  (0xb428c74527a3ba9f94176f0500ed561808793a48a9c63f76177238001a1a600f, (651376672000000, 162844168000000, 100969890));
  (0xb438c2daa8ffbf6246e8b1b0b07538054835779e604509b7bcf02c6c0d886844, (10274080000000, 2568520000000, 1592580));
  (0xb4449d4e40186a92c5bc9f5c023c1115929393e91da9a774a92a0e7e6303ea74, (20548160000000, 5137040000000, 3185170));
  (0xb44aaff11cd850d19526ec0c1df6935e1962065bba54fe08432b952fc99e3375, (20548160000000, 5137040000000, 3185170));
  (0xb44b3f21a676971ea98526a4e7471edda75052ce5eaa01e6803f1c6c1960c245, (10274080000000, 2568520000000, 1592580));
  (0xb455886c63988676f49ddeca183613a03d7f3f74bbda404abc0485b589004632, (30822240000000, 7705560000000, 4777750));
  (0xb4660fa100de17cbed32b2246357f6a88539938d074e542ad8d575113a673a60, (177741584000000, 44435396000000, 27551700));
  (0xb4852612bf1fe8c3d8a342b02baa4fdde9154b9ff7479a4c1a8ee9f45e8a9e14, (51370400000000, 12842600000000, 7962920));
  (0xb4a15dd49b25a9404c4316901e3938f6a52eb9f361fb64f7e7b2cdfbdfbfee1b, (102740800000000, 25685200000000, 15925800));
  (0xb4aecdc7bcf0dc1db4db5a794a2d0a3f561195bc73bcbf5543ecd7d096e7d711, (10274080000000, 2568520000000, 1592580));
  (0xb4b27cf4331b3fcd9009aafc9e78dd570c0633d8357b75d76d0cc0d7309fc749, (10274080000000, 2568520000000, 1592580));
  (0xb4c8a54f875148c46bcc46b9474ea4b213df0cd8cfa4af976e6d04c82043600f, (20548160000000, 5137040000000, 3185170));
  (0xb4c970f91b31e5e422497d09eccd052c45fa1255bdaa61d542bd4d46cf3a0433, (20548160000000, 5137040000000, 3185170));
  (0xb4ce877b982ffc0be3a6d7555eaaa82b2256b0c0e313ea7a0a02ce8ced8ba958, (78083008000000, 19520752000000, 12103600));
  (0xb4e2877d41f33e510da7afad393603fb362a21318e1c146fbc565718273e702e, (30822240000000, 7705560000000, 4777750));
  (0xb4e625d3dd7da865a717dfcb27c3b4af360bae8407b9c569e270b84910771d08, (121234144000000, 30308536000000, 18792500));
  (0xb4ea8f5a70025085956c7446551464c514f24721f188e9d8c29e37b387896259, (20548160000000, 5137040000000, 3185170));
  (0xb4ef9a3cc312ff5872bc0d9e7f9c1a8eaf0b4d305b625cfe6fbd26fd91024865, (288701648000000, 72175412000000, 44751600));
  (0xb4f7d04fb97acfa50db7a021b8256b0cc3c9e593788bfa0f5bb321c117d85602, (20548160000000, 5137040000000, 3185170));
  (0xb4f7f2c60b169bed812c0eb60e3b7f0b5e509462de10d99cef732afa86cfaa1a, (10274080000000, 2568520000000, 1592580));
  (0xb4f9f7ced3c715ebdd1a4a39018fe29347db206d510ae8a8012c1dc6d5c2e262, (100685984000000, 25171496000000, 15607300));
  (0xb5e5c893021ec58e6fb61b8e3b269586da41f7d3ee4fd3ab4e38324547a101b8, (230139392000000, 57534848000000, 35673900));
  (0xb6074ee4fc33416e455422e54637682f2e9885b6d7b0d536ce4f8b8c67326405, (71918560000000, 17979640000000, 11148090));
  (0xb60f869aa8cbd6629b6ab2819bc9ef6a78535da3ce6f995ad51196d14c01f55f, (41096320000000, 10274080000000, 6370340));
  (0xb61d54621523c4533f84bdfc742c75a14bb37ad5796ef17c7a441b9264e96c5a, (20548160000000, 5137040000000, 3185170));
  (0xb62750d5bea217f0f51f0ce6b41276945b5d2fa85750fd3ad5d5c013ad93c621, (38014096000000, 9503524000000, 5892560));
  (0xb633cb30cbddbd004220ce44a5ba24b53203b3f7810ea2d338e22320f949817f, (20548160000000, 5137040000000, 3185170))
].
Definition rows_13 : list Row := [
  (0xb63635c378d42c5f6dd1cd1704db1b84207f5f951e13582a313925221c4c4820, (205481600000000, 51370400000000, 31851700));
  (0xb647df9661682301ac13c6d8b5aa64219b74c452964a20166f91836a19cad90b, (1444946611000000, 361236652800000, 223981000));
  (0xb6491ed1bbc30de698284810408ae4b4805afe693f6466188632f64801fa291f, (10274080000000, 2568520000000, 1592580));
  (0xb64a997b0667f7c6cd72140068ce2d9e46550e4522321209b8b5ce9502fa401e, (10479561600000, 2619890400000, 1624440));
  (0xb65d741b0630a0884dbfe506aaf0ac25389b609e4d3dd8c4ed676cd71cba3645, (59589664000000, 14897416000000, 9236990));
  (0xb662894c5ca8609a6b2f39d437c9ac4a9cd3fe66ed8d0e15f0047ca352023573, (41096320000000, 10274080000000, 6370340));
  (0xb66a8073d45acfa3515d521560e9d33acfec4e8ffd0b99e84b698aac7bf31c32, (28356460800000, 7089115200000, 4395530));
  (0xb6779a691fd2d6457a73f879eadd87cfba3748b523c1f2bd437dc9c4e7b52e76, (131508224000000, 32877056000000, 20385100));
  (0xb6781fb45e2b3f73d1919a3d1284cce4eca4ed59a5f6126c08e716174507fe20, (12328896000000, 3082224000000, 1911100));
  (0xb68ebb10fc1c62e00aada646cb1807349557751c6329cc6799c721a188062b18, (16438528000000, 4109632000000, 2548130));
  (0xb6907051a1245de15456198c42922135b860c178e305e6950a83ced45ee7c06b, (410963200000000, 102740800000000, 63703400));
  (0xb6931667c54145c283dd373367e00d39c07a7deb364f5afc6277268059329706, (1643852800000000, 410963200000000, 254813000));
  (0xb699120475906a0273bb97e9051b3fa640c10a5dce747d9bdce2e18e679e5e39, (308222400000000, 77055600000000, 47777500));
  (0xb6a3b32c8ea9abc1c72f8cfbfbfa582a28fefee4c8a440612a3e1efcd913be36, (57534848000000, 14383712000000, 8918470));
  (0xb6a93202ecbc2b12f399dc018fd62e471c98aa919220e2298b72fb8304877d51, (20548160000000, 5137040000000, 3185160));
  (0xb6b30ecd947ad578e9c5af63d3b8150980df2c021589f52b4de615fb0930a454, (61644480000000, 15411120000000, 9555510));
  (0xb6b831649b00d7b35c8738851f5d082df6e61cbd0763a9030fe6378be47ad63d, (20548160000000, 5137040000000, 3185170));
  (0xb6bcbb3eea9e50b88c20ab4bed38ea90307f54939854d4e51348e5fb1bc9a33d, (10274080000000, 2568520000000, 1592580));
  (0xb6c3c9424bf83e91bdc2924c33a653e4b8a8bc16294aa08cd95a26877c13f55f, (10274080000000, 2568520000000, 1592580));
  (0xb6cf6b9cdcb922f3065953ffb76687b10a75cd1e0665df6438b2054214789f25, (10274080000000, 2568520000000, 1592580));
  (0xb6df1e55e22a45a7f282719767b43eee5351bf114fceb5dfbd8af7113a2bf347, (10274080000000, 2568520000000, 1592580));
  (0xb6f9d18fdae37f30d6123fa566a14d346080c1e307ccf7205b9dbfc58dc3fb74, (205481600000000, 51370400000000, 31851700));
  (0xb8070e3b0de78811c7e46f63a5df06426d3b26fbe44c5fffe3a0cc9984da925d, (20548160000000, 5137040000000, 3185170));
  (0xb817b7d3a3fcaee1e990813509221496863be2deebfaba5cf4212ce71e4f767c, (30822240000000, 7705560000000, 4777750));
  (0xb81a94dd570ae99dc16120b05429440e303979b16640f782f5cf366bbc2f2b23, (10274080000000, 2568520000000, 1592580));
  (0xb81f7ba8df57c743734c7abe11930bd4b68ce9005901614628605c8084ffe51a, (30822240000000, 7705560000000, 4777750));
  (0xb8296995e76034c70f1f703618da7493b946e24b590c53cd7bf5ab0c4cadd35f, (20548160000000, 5137040000000, 3185170));
  (0xb82e0323e94f5577c20028b95bcb23b853e6f00593ae8df76eef2e34e5303a34, (30822240000000, 7705560000000, 4777750));
  (0xb83b8683893659b797b55c1a3c0a032698a160d07ab911b9b88e5d7fc8a51a77, (10274080000000, 2568520000000, 1592580));
  (0xb83d19e4a3ad242102f94a4452381300ace74c5d50fbdd9675a869401d3bff64, (10274080000000, 2568520000000, 1592580));
  (0xb83d7350ffe0668d8f0cba2db348cf2cc90122f29b26ca88c04ea46a0942302a, (10274080000000, 2568520000000, 1592580));
  (0xb853ac23d6319a2930c87e1df4e5338a057a05ce2d7d39c4afc919db39d33804, (20548160000000, 5137040000000, 3185170));
  (0xb857e3ca9be1e0fcc66dd09ce823b73e3aad332b227a70ebb11f4d5db2f79e53, (10274080000000, 2568520000000, 1592580));
  (0xb86470459a8f4ede36d6fba3f1f127bf252ed989893ad899da78c15c749ae84e, (2054816000000000, 513704000000000, 318517000));
  (0xb874ebb38678e15cd2f3f42ff35a70374417b615be2f4be614accf700456da7b, (1037682080000000, 259420520000000, 160851000));
  (0xb87db8530768aedae60cc6dd7bef658e2d1f96463a649656b47cf256f3b2aa5c, (14383712000000, 3595928000000, 2229620));
  (0xb88ac257042778fa648722b1500402f740f908e58d0bc8e19439a352e55dc613, (61644480000000, 15411120000000, 9555510));
  (0xb88e78540316ec58bf0ec8e8069a07fc310ea435c96318939ee815ddfd62e333, (20548160000000, 5137040000000, 3185170));
  (0xb8a14d24a8e6b7f2ff2851f8ce939512541bf00bc32c6922722c28b52b7c6d3b, (205481600000000, 51370400000000, 31851700));
  (0xb8b366558b2b5871d0e850d283f265e6f244b6467ff323e4a1e75abf5960be68, (410963200000000, 102740800000000, 63703400));
  (0xb8b4c36413394c24593e103c58b49103c975f15d4593d710ee13466fe5a9ac2a, (61644480000000, 15411120000000, 9555510));
  (0xb8bcf0b5bbcc148854956dae101a6b0f0244dcc995b3e7fa1faf252a93467348, (119179328000000, 29794832000000, 18473980));
  (0xb8ce3a3ad9a3ef187f1bd27d44254d9316c496b4414445e0fc24bfd31bd6b651, (10274080000000, 2568520000000, 1592580));
  (0xb8d15e14979e04c24ba669e0248389402ed3eeee2a23b11b63a5702e4b6f6f5c, (41096320000000, 10274080000000, 6370340));
  (0xb8ecf3b98df3d90d1f4633ac232769eea57d0fd03148ccbf582a0c3ef7d4d938, (98631168000000, 24657792000000, 15288800));
  (0xb8f51845894380da2fc30e82a452d7acbd90432398a6c68e6649a82e5dc90c79, (22602976000000, 5650744000000, 3503690));
  (0xb8f8f53f05178a2f3d8301f8085644197648c36c6ce7e18b6bb07df0477f843e, (52397808000000, 13099452000000, 8122180));
  (0xba00c54442bf97f13fa7ddff6cfb041f9c0ef67582185bca9e9bdb0b8044d95b, (39041504000000, 9760376000000, 6051820));
  (0xba0bd2fe3f2001695157b121082ad0e7345feb66dbdd3e0f78d22d008dbf6916, (16582365120000, 4145591280000, 2570430));
  (0xba14f8587101be1fd47492777014b242bff77ebd40f5f7b265febb37578c2135, (102740800000000, 25685200000000, 15925800));
  (0xba22e1d6fe74e90bc2806759390b3527846f4183662d43ddbb4a627f19435d63, (10274080000000, 2568520000000, 1592580));
  (0xba3644204edaa67faee13ab2d8dd12c63d59058e82fd7ca96c8d6f85b651d658, (12328896000000, 3082224000000, 1911100));
  (0xba4aa80e68f526b124406959096f09a2798f9723031ea545693e8524e9f9b348, (1232889600000000, 308222400000000, 191110000));
  (0xba4cbccfd2f37f0bbd0dae1ce54406f89141f5adb15206dfb0b704ceca5ee25f, (123288960000000, 30822240000000, 19111000));
  (0xba5ca6af9b0a3e1263d64c5d1b893ab4750c3a5cfe26e89b97c3ddea44a4383e, (226029760000000, 56507440000000, 35036800));
  (0xba664b02c4c5f1c6712125b5e2e13cd08a60682b17399d766e90e3fd88baf874, (150044282200000, 37511070560000, 23258400));
  (0xba6b7b8d64bdf767973c24a7065b58a4587559c8dd3705fca14bf2a7bccc2b17, (10274080000000, 2568520000000, 1592580));
  (0xba7063bd5ef00a132d0a9c1a044bf12deccea6b83a309bf8f00af5352d2d2d2e, (46644323200000, 11661080800000, 7230330));
  (0xba7334a5f22e9e1f383f27c5d1eadcc35fbc71da95e6a8f79a07f060ef50fd78, (272263120000000, 68065780000000, 42203500));
  (0xba7457bc5e516c9aedac0d48e6b5e68db47eff04a7d075560e1605dab1834455, (69423265330000, 17355816330000, 10761300));
  (0xba7820d8a45ca043f07d3469801b8d13eaff2fa7e4cb074444ef7deb0d6f1755, (92466720000000, 23116680000000, 14333300));
  (0xba8465182e38129d8c28842d185e0aa9f829b21c0e81fa10f6ac57b56d681a52, (102740800000000, 25685200000000, 15925800));
  (0xba9069dd96631e28e4bb566878334370e07e2ac99d67ba8664a0e8f29a8bbf0f, (20548160000000, 5137040000000, 3185170));
  (0xba9b71bc5b8c5598dd678a7af3e29de263f2fb779b05392575f90854780c1c41, (1027408000000000, 256852000000000, 159258000));
  (0xbaa4c5d842247dd61926ad1e4277bea3993d793ae060ef061ab2147c1704f62f, (10274080000000, 2568520000000, 1592580));
  (0xbaaa37695ca114b116abcf4e327fefcff4e74be32b9c55f64eb423f1929ab548, (20548160000000, 5137040000000, 3185170));
  (0xbab4b0ff22a35ce149b29b5ce6818cb74f2501ef53bbb7c66c17123c932b3e1e, (57534848000000, 14383712000000, 8918470));
  (0xbabbd979e1518423acd3ff52b3202b1484f339609fe57c221a6436265c873746, (10274080000000, 2568520000000, 1592580));
  (0xbabd245d2d64232d1a51c565a9185798543d6c67dbee12bbcd608e7817ecc746, (20548160000000, 5137040000000, 3185170));
  (0xbac6c217e9ce3951cfdb0b85efa1ecac38c3a35a7eca9c2e985a455f56914c14, (45205952000000, 11301488000000, 7007370));
  (0xbacc96686c6fab2f20782d769b6b734408406b17562d699a92b55d5aaae9a842, (41096320000000, 10274080000000, 6370340));
  (0xbad2f1dcc47c509fbecaa7c54438ad9c5af914edf418acda88aaab5b3ab1335c, (534252160000000, 133563040000000, 82814400));
  (0xbae09878d7a9b24afaedfc8f7583489d17b8f8f960f2d568e23b235fde2c3526, (49521065600000, 12380266400000, 7676260));
  (0xbae6334ebeaf1b8cfa999c337102ff0f3000a7009dfab0bb9d5f911f5a898b07, (1841115136000000, 460278784000000, 285391000));
  (0xbaefff913a7f901eca2af60c77b7eabc4fc7034e0c7591f20c20b8a6b41b7238, (12328896000000, 3082224000000, 1911100));
  (0xbaf7cf4bf51e80c7b51b8f0d7cdda34573ae9df00974656a8f32382931985f18, (339044640000000, 84761160000000, 52555300));
  (0xbaf879aaaf9732fda51a378f3de7658a0acd6558a8f3c41e479a9f523587a151, (20548160000000, 5137040000000, 3185170));
  (0xbc071aa5c51047aec1f19a7cb8158decf142dc391f85b1f683fa285c0f34f145, (71918560000000, 17979640000000, 11148100));
  (0xbc0c3ea1ec3bddc73916d212f30c5dbedbec8f5c9c16dee64b92cd7ab6a03442, (10274080000000, 2568520000000, 1592580));
  (0xbc1deacfc7e5c6e5f0373560c14fbce156ff2a0ed7e208d049ccd985dec85545, (195207520000000, 48801880000000, 30259100));
  (0xbc2167b2b5664d1931013a42c7fa639e7ba406960bc8b3baeef6b784c2ad7f19, (102740800000000, 25685200000000, 15925800));
  (0xbc2723f8cdeab6aa8ab785bbd8fc1786abacc5aa36e039b6d49ae97823f2460b, (513704000000000, 128426000000000, 79629200));
  (0xbc370ae087556869e6b86219e2b00c3f15586a0d00966ff0c06080c7c575930c, (14383712000000, 3595928000000, 2229620));
  (0xbc382258b8fb2beb792c54951fb8af999df81fdc3b2e43a27a8ca29b5025bd6e, (812679728000000, 203169932000000, 125973000));
  (0xbc500ab02f6e42ccd4300f6e68a0eaa60a88a5caf900ef6be81d8ab559e7b939, (10274080000000, 2568520000000, 1592580));
  (0xbc551dd34fb6ea04aac92717664be2db65c5533bbc895266bca79eed2b69130b, (10274080000000, 2568520000000, 1592580));
  (0xbc5cf9c45ec06e1f37354a092359bd201062997244c160be2bffdf3e9898647d, (10274080000000, 2568520000000, 1592580));
  (0xbc63972fe52b715de444714927278e5cd470aebc3a55564080e5479773314d45, (51370400000000, 12842600000000, 7962920));
  (0xbc7e22e9b732275e743bf7756ebbe981bcf760c1d2f2f52f99e5385390fe9e22, (20548160000000, 5137040000000, 3185170));
  (0xbc8ff726f6e35c926cc6c2f30296b090eb1667732f7f09a55f8185f8f2951048, (102740800000000, 25685200000000, 15925800));
  (0xbc955f7985fd8fbb8617c83fa206fa4b0ea9c01df9161084e3ab15344c55c62e, (10274080000000, 2568520000000, 1592580));
  (0xbc9688b883c7b832d1154566672ce693ec1ce03b45667847e5197136f54b4872, (10274080000000, 2568520000000, 1592580));
  (0xbc9a11db044edb207ac95b1ba60eaa4e8165984cbb7a7a2dd44c25629f7ce25f, (12534377600000, 3133594400000, 1942950));
  (0xbcb50d5dc754715805af0bcdb4ed6ff50587bc3928ed58d0c85ee04a29209c29, (16438528000000, 4109632000000, 2548130));
  (0xbcb7185cb3d0e5187262cbf9f666acf1e11ebfbdc41b76b2a6a14adfdc7ace74, (10274080000000, 2568520000000, 1592580));
  (0xbcc66dc809f245b3649972af06d86d2a79e5c12ae761d817713bd49995946a3c, (61644480000000, 15411120000000, 9555510));
  (0xbcca84b63a6b196850142512b21b2062e54c37228d6ac2ce8600016ff5a33538, (65754112000000, 16438528000000, 10192500));
  (0xbcd207800984d74a581c003b2c43ff965096fa1ca80e8b25adf4f93b442a3b2b, (1612989464000000, 403247365900000, 250029000));
  (0xbce1f8e8abcc02e5b43897d68c3442bf8fc30974c4f9c746e506595151d8e943, (34931872000000, 8732968000000, 5414790));
  (0xbce709634ec3c8a48db991cdda18de681632f459c3e30dcb0a2d6eb7b63d0d7e, (150001568000000, 37500392000000, 23251700));
  (0xbcea5ce9dc9bc8e40907cd145929bf0add7bc9ef20a45d0c4173efc8e2f34c4d, (43151136000000, 10787784000000, 6688850));
  (0xbcfc0b7c22eb57caf15baafde85cbcceee5dc378a76611f6ba568422aeb30d33, (20548160000000, 5137040000000, 3185170));
  (0xbcfe7527a536b424dfdaff0e2706164afcd07b86f2b5d08f2ba8f99bfe3c4026, (30822240000000, 7705560000000, 4777750));
  (0xbe095ce60ecba049df25d20ffd097bb3e8dc6912e766a0896226a284984b123b, (10274080000000, 2568520000000, 1592580));
  (0xbe157bef91d1911b00ecc29446666343df8bf7a1e9472c1d4875028c11b61634, (34931872000000, 8732968000000, 5414790));
  (0xbe1a5615466bae04ff61f48d5b0d955c0eeb94f364cc227595e1e757545ca21d, (2348316260000000, 587079065000000, 364012000));
  (0xbe273981c19e94283799e740b6335a60b5c36dade795e7ee5ca84d117a773333, (2054816000000000, 513704000000000, 318517000));
  (0xbe2d1d0e0453333071c8af004325a7226e7fcf6b41e1e0f19f121bb8dda2ad17, (104795616000000, 26198904000000, 16244400));
  (0xbe4b6d1c2a944200f39983aba1188a735b7e77b4f25903f3bf05cf0fbd58bf00, (65754112000000, 16438528000000, 10192500));
  (0xbe5a7286af588ba03deca1f5617f38e4bea56e770024411befa0192e227d4e72, (230139392000000, 57534848000000, 35673900));
  (0xbe5e804a5b140bf4710d53b05203f6d0f6df836202d8008abf374094310a1513, (30822240000000, 7705560000000, 4777750));
  (0xbe62582b97fab0de0823bcb46d93e11f71e66330e7d7df647c364dac65a79c41, (10274080000000, 2568520000000, 1592580));
  (0xbe6531be5d9b5a8c6b6ead8ea4615663a57ac74a579610e6f81468f1446bc455, (20548160000000, 5137040000000, 3185170));
  (0xbe6b6d31ff8ee5460d6c371ff0935159eb273715f7c39fca35b3b517752bf074, (20548160000000, 5137040000000, 3185170));
  (0xbe73f5726d5988bd7b399205bc3139e9e67ab442718cd71a8ab96d5670a8b81c, (123288960000000, 30822240000000, 19111000));
  (0xbe7a99c77e0e2ffa11f89e1eacd36ed68b2ed9dbabad21703201c01c62449025, (90411904000000, 22602976000000, 14014700));
  (0xbe870a6959d8c688de0359e932eba2136a70bc11073b05015e3623403b9d0024, (102740800000000, 25685200000000, 15925800));
  (0xbe8bc1c1b6aa17fa2b4ab47d41bd6b1ed60cec1e9fe546ea4ee77b5f73f2e375, (20548160000000, 5137040000000, 3185170));
  (0xbe9c40f4e5c2e6571dea6c12e9a0057418e484586d21371c5526e26b8b97017e, (20548160000000, 5137040000000, 3185170));
  (0xbea359e9e609de597868ad9dba1e072494e63776afbcf19f3198583ad17fee60, (52808771200000, 13202192800000, 8185880));
  (0xbea7388088dba111f844f849c6517384ca1def92e27a48cb5701b19381cb697c, (73973376000000, 18493344000000, 11466600));
  (0xbebf9042c72a74f0b83edf03e2ce28704a6d77ca0cd631f92029fe3b87952d6a, (22192012800000, 5548003200000, 3439980));
  (0xbec5b30619f35057e6a47a3c9ffab2150ed1c4d2d5db05bcd7be286c841bc251, (113014880000000, 28253720000000, 17518400));
  (0xbecf564d9d5c7a76a88922d9b379159c853a100f5894880944bb52a2d856de2b, (20548160000000, 5137040000000, 3185170));
  (0xbedbb8c88311a45a3d03a1a8cbe29563d8b3f0dde9a1a2c5569c3c2c107bbf07, (410963200000000, 102740800000000, 63703400));
  (0xbee0f9054e266ec2890fb959bdf680283d26adb019a76cfd779b8e6062531056, (10274080000000, 2568520000000, 1592580));
  (0xbee2762b7c77847e622fc8c7e3f203025b9e27146d7cfc6ea03a17fe9813f103, (10274080000000, 2568520000000, 1592580));
  (0xbee455e102ca1d0ce84b4f1751d806bc4f3847ba199a9fe8d31007dc04970d2f, (12534377600000, 3133594400000, 1942950));
  (0xbee49b42219fa5db7f92ea98209f86695d4237262f7c71f41586f339553f8613, (43767580800000, 10941895200000, 6784410));
  (0xbeeb087fef0a642dd4c6726e88c78289df4d36e6be8ca891367e611c66ca6715, (20548160000000, 5137040000000, 3185170));
  (0xbef07fb1de223f158ab7ce19f49dafe3217c44f1a066cf09114d171f0e338224, (10274080000000, 2568520000000, 1592580));
  (0xbef0e494c057f3f6de7acbeb7713682aafcb0104ce86f73a72df620c285d5056, (78083008000000, 19520752000000, 12103640));
  (0xbef9d6a9cf38187b6f80b1be5d2917640a67ba4c203ca4d285cc2f824ec1d150, (37066568470000, 9266642116000, 5745690));
  (0xbefabdf9d4b210ead38bb04305c0347341192aaa8b23ed55162d2f9c3e2f5a5e, (30822240000000, 7705560000000, 4777750));
  (0xc00aa5c4b4a2e67a2b38b001c6f841358261685649cb12ae5e29eae6ad68805b, (67808928000000, 16952232000000, 10511100));
  (0xc031500b873af9bd5f2ea3b61361f1e17ded4e9647c710bad31f26d6e294097a, (922612384000000, 230653096000000, 143014000));
  (0xc036d207c2e0d7d6308fdfe5c5ab06e72365691e290047e0abf1961ecd0a622f, (51370400000000, 12842600000000, 7962920));
  (0xc046087044550af9f340e581c5582d011bc6feecad7d9884125345f1e9516228, (10274080000000, 2568520000000, 1592580));
  (0xc04cc2a78aa244d0e28b882492719efb7beea06471dbbc9de469e1349e76364c, (20548160000000, 5137040000000, 3185170));
  (0xc071902913baac37e1244629a319aee1dad49c4b9619db1e624650c8dc206d3c, (20548160000000, 5137040000000, 3185170));
  (0xc073f0eac94721aa00fe797a8b1ffebfcabd3380f54dfe4046b6d426f309321e, (20548160000000, 5137040000000, 3185170));
  (0xc07a393135ceff70346ef1d14953f5f348acbacfaee49076c903c17883f75d7e, (184933440000000, 46233360000000, 28666500));
  (0xc08978fb2a6dd1fe98b29fa58cb6aa3f3b5707d1abaef5023e8b2add82a9747f, (10274080000000, 2568520000000, 1592580));
  (0xc095b22c3a42082b48b76815bf74d43e83fd048fe59a08d6b5e44ac67574dd12, (10274080000000, 2568520000000, 1592580));
  (0xc096a8414ed5362e23eeaae47ade8ffdda73ca6b352e1baf88d6d7e83efc6e77, (616444800000000, 154111200000000, 95555100));
  (0xc09d09591f01e52d1f355a8c31095cf9995cff906d1080b69fdbd80900249e74, (28767424000000, 7191856000000, 4459240));
  (0xc09d750b35e609a638ba7c1c5efe8d3909d4839b9976f28050f2a02105610250, (30822240000000, 7705560000000, 4777750));
  (0xc09eacf827b7e311143aacf30a8388e3a0869dc4d4a2845951a7870f8785af2b, (115298397000000, 28824599260000, 17872400));
  (0xc0ae49a2df012996fe4e24ac9f5c3297a874b021e5e137cbce2bfb0af37bdf66, (10274080000000, 2568520000000, 1592580));
  (0xc0b01775080980f030c939979e6936d57c00a2be057c6d65faeaa41c20202b12, (102740800000000, 25685200000000, 15925800));
  (0xc0b9fbd6eaca1da372b90cf88691205fbf5ab8cf2251c5202146ce964a64a64b, (20548160000000, 5137040000000, 3185170));
  (0xc0ce4ef78c70ac2f9c435e606ffff1a298738b9e605c57ca76b58af0241dbd69, (10274080000000, 2568520000000, 1592580));
  (0xc0cfa266991e00c37b8dbd5909b7f3d1b8e74904587d692f9d51e06a8672946e, (41712764800000, 10428191200000, 6465890));
  (0xc0d02f213d46fab9cd0a0277bb1cef424ebb93fad9d34fb7fbac617a3305f603, (10274080000000, 2568520000000, 1592580));
  (0xc0dbbe92a2bbaa45d55d8c6bc6b2f5bcf0c51dbdc7d15c453484d045ed4b9a17, (26712608000000, 6678152000000, 4140720));
  (0xc0deb09cd1377d1f1bdab8e49dd68db30d5dd880c0108de341a28b66c1a70f2c, (205481600000000, 51370400000000, 31851700));
  (0xc0df9da6e0cdb600987b42d68a8ce761be52910b3285d44d90ed13c1621a1113, (410963200000000, 102740800000000, 63703400));
  (0xc0e2661a006b2f08305bc3e529e6f0ffe8d26d2f50e27880c5b6dec6be95ba0a, (20548160000000, 5137040000000, 3185170));
  (0xc0e82a01baf83cdcbb4d29af599f7e6b3b609f4c8315a405e7378314f261613e, (10274080000000, 2568520000000, 1592580));
  (0xc0ec2da158ca2670c7c2aa42804fa6160b9dd29cf4c8cc989d1fe207033e5160, (21370086400000, 5342521600000, 3312580));
  (0xc0fe0676f085fb491c4f4ab97a0a21835e3ea76e7a2517102acf0e7e27b8b00d, (20548160000000, 5137040000000, 3185170));
  (0xc1f41c47dd6a6f5bbce45be5027d0c5a7fc02911c29f8b703566afb83675630c, (32370132880000, 8092533221000, 5017690));
  (0xc205f5af21a8816aabc2aa4f876ea497ab7b3e7821e1214fc3fcba8347727e5a, (10274080000000, 2568520000000, 1592580));
  (0xc20c4d5d7b2011c4a5b8b92bb524bc3ca12f007776faa8cc313fa117d2b97a1e, (618499616000000, 154624904000000, 95873600));
  (0xc20f62026ce677c17ce829e2c879f81679fba10fecbf96e340674b8513f7c57b, (10274080000000, 2568520000000, 1592580));
  (0xc217537268f8a3d5bbabf01e0c4bc2fe26279d3df765d8de4eef4e3efc9efa23, (20548160000000, 5137040000000, 3185170));
  (0xc219e3d774a72b22050cba986af0adaca76aef8bd1f9607ffd11c08f0f379665, (20548160000000, 5137040000000, 3185170));
  (0xc22a51588e1a5295dae7b6a272520cbcc6478e7964d2753924faa00a8d5dac71, (143837120000000, 35959280000000, 22296200));
  (0xc23150d9fb96edc395cf68d875593df95704253208899076b24d6d2a58365e01, (41096320000000, 10274080000000, 6370340));
  (0xc246ebcabd9095da0ffe3984b4d2e91f6e83e12d2cae1e640fdc2b5e44d7ac12, (143837120000000, 35959280000000, 22296200));
  (0xc249d329827381276148e9d7e2ef52d33b63db04e2cae48fb825ccad038c5776, (2856194240000000, 714048560000000, 442738000));
  (0xc25180014f598c5c73685de1b952bb408446f3cf36e8f701408b886481030924, (51370400000000, 12842600000000, 7962920));
  (0xc25690c00886ba8414d3415ae0e7c51d9dc4e613fd871d393f09a03ecd79742e, (32260611200000, 8065152800000, 5000710));
  (0xc25af16f2155d5d50657a5da50fcf5d8a1bb94abe465c7761bb4f63f846b5047, (14383712000000, 3595928000000, 2229620));
  (0xc2647d31f6300d5408fadb17d6ba636e0f20c32a20537f65748b733b724d7d43, (41096320000000, 10274080000000, 6370340));
  (0xc26665317c054bd05a864b83dfed7344cd594f56e37cfb91b497d679553b6372, (48288176000000, 12072044000000, 7485150));
  (0xc2680145a72e9d56c74e6299650c759a86a94e4e333438628ba52ce090bf6c2d, (30822240000000, 7705560000000, 4777750));
  (0xc280180c906d7be5e4b68dcedd405ce5c12f599bf6206d101217d1664d40e977, (10274080000000, 2568520000000, 1592580));
  (0xc290a0bb650a0f57745d8ce15731e0b54e2a83987b087271d2c81d553d44545f, (20548160000000, 5137040000000, 3185170));
  (0xc294e8cefe56977fe0a504484db8f0246c8c16ca727c3e355d7e8db61a927065, (10274080000000, 2568520000000, 1592580));
  (0xc2a2d0be1c7256df76eb69308360fbb080601865558e75e3477d77f5eac0e96e, (12328896000000, 3082224000000, 1911100));
  (0xc2acba3900ad4116469a28e5f575875bbf6036edbb375b7d5ca0aaf901ff0d21, (57534848000000, 14383712000000, 8918470));
  (0xc2c1d7113878d572ede4195379d872ba2ecca1e67b7fb89dbdd7b7d798671f31, (102740800000000, 25685200000000, 15925800));
  (0xc2c969b54d0d3370c74f2f06bb9c4b3b218b556f78364636b2e0e1a94b3af66b, (205481600000000, 51370400000000, 31851600));
  (0xc2c9b3c764bd24fde7a268699ac1fb3a830621779f8ba6e0dabcebfaf7430166, (10274080000000, 2568520000000, 1592580));
  (0xc2d7ae5f228fc57f4a3eba1749c59fe00f632d14d46e3e8b782d55927c35846c, (739733760000000, 184933440000000, 114666000));
  (0xc2e922989939d8f4effb07f875cbcf0d2c5cc8a7a723671e90e983ee59be9f55, (55480032000000, 13870008000000, 8599960));
  (0xc2ffef6073b9c17ed1f6b22e548f59e2067bfa62aef39c3f3071a4b51b7a7876, (51370400000000, 12842600000000, 7962920));
  (0xc4013ca19bb2cafd77e2affb9a74e7bbf716c7d507d971bad693d717bc5db019, (879461248000000, 219865312000000, 136325000));
  (0xc404f655044c4a9ffa83108178c819f9afd5aa6c09706d9d0367d6647d923933, (36986688000000, 9246672000000, 5733300));
  (0xc40d2d04933473558f6acb869357276f9f5bfded65e929f1c1d2745af0d9bd39, (215755680000000, 53938920000000, 33444280));
  (0xc418a9cfb834a3ede90efe51a009170d4a1de9dba107a674102be1674cbb010f, (20548160000000, 5137040000000, 3185170));
  (0xc42ab24e53487f0afda64caa6953abd2f83cefea021cab73e6e0844afa3f3428, (20548160000000, 5137040000000, 3185170));
  (0xc42c24da9c98320feb249a224106ad9c8104d798fbb1a916f1caa926804fd86f, (10274080000000, 2568520000000, 1592580));
  (0xc42d8135a82dfb9e601af0713b8e54badefe08c78849432d915e3ed2177eaf07, (151419391000000, 37854847760000, 23471500));
  (0xc434beba356312b5722d67a9aa8eb81ee0e7e2e3c6768fabb4f8ddc885812f3e, (41096320000000, 10274080000000, 6370340));
  (0xc43ba3c7fe8f77a8637838e4920852b03d3867c0eda3ba1c6a2f780c20ee253c, (41096320000000, 10274080000000, 6370340));
  (0xc44c482e89cc6d6a508eb42f4f5b020531775858963d063e062f178ea95f822d, (20548160000000, 5137040000000, 3185170));
  (0xc44c873fc6dbd70d24282b4b3993ba632a8363d9d4d58b4a5a5ee330d3950909, (20548160000000, 5137040000000, 3185170));
  (0xc44d50fedca2efc25368769f525587c5f528a1784af5d6875fd450e02cef736b, (59589664000000, 14897416000000, 9236990))
].
Definition rows_14 : list Row := [
  (0xc45a077d26a7ba6d90e5306289633858f9ad94cd702f8a50bbc16322d2f83e18, (236303840000000, 59075960000000, 36629400));
  (0xc461291d7f2845243975ff30d233a782795058bda222ad2c94fbdb57de70c505, (4109632000000000, 1027408000000000, 637034000));
  (0xc463a4e850906140bd4bf8e4ff250c0d96e02a5ceae32596c2e74cebe4968e20, (20548160000000, 5137040000000, 3185170));
  (0xc47d67ea74f7b2e2ad4baef039538cddd5122c7879dab288085c6187c31ca347, (216577606400000, 54144401600000, 33571700));
  (0xc47fb31c8c5e5521ce1cc4355738f51d3b89f2b0c1ad3cf6f5ead68706b2f87c, (10274080000000, 2568520000000, 1592580));
  (0xc4850c64881cd333211e93bedde0b5dd4652516bd677b65877f13f838aa8c717, (10274080000000, 2568520000000, 1592580));
  (0xc48af63493a8439689e6ccc8c780d0f7c7d81be7ef592e8bc6194e944c777f37, (20548160000000, 5137040000000, 3185170));
  (0xc4915f6bd91e78fedf07c0c277a15e68ab21fbb2b030cfe1b812b577baa61e33, (10274080000000, 2568520000000, 1592580));
  (0xc4986eae3130f7122227daa957d8ad1089a3ab7fc2dd9ad1b54b65c4f8afab5f, (44133338050000, 11033334510000, 6841110));
  (0xc4a1f7c7a7797285bb40024a465f7fadc7f2f1d00e3be06fdfbffdf81f26ae19, (10274080000000, 2568520000000, 1592580));
  (0xc4c80ce0aa60ffd94e646829182239df67dac224c3fbd92ce40f36cfc4d74045, (205481600000000, 51370400000000, 31851700));
  (0xc4c85fd06ca312dddbc8d22b63d976b4416ab9e23737f83e1832b0770118cf6a, (10274080000000, 2568520000000, 1592580));
  (0xc4ce66dcd60f91efbe3eabf6b8783bee85ae43e69c3c755c8a5ed4b1f896a66a, (13972748800000, 3493187200000, 2165910));
  (0xc4ceeadd0247254b08d25275ca22bbae3ee64e86f7250976bab6b420fcac2c03, (616444800000000, 154111200000000, 95555100));
  (0xc4cf8783604c27eb3eae3c2aa483e08b1318353f3a419026120dd173d77ef342, (10274080000000, 2568520000000, 1592580));
  (0xc4d764c23ceb69df1684af4af81ac6019961d5c07f02700090f5cadc0c383229, (10274080000000, 2568520000000, 1592580));
  (0xc4ecda541e14e3d78cbe99c197150057609bac6a234b3ff10955a973149de959, (61644480000000, 15411120000000, 9555510));
  (0xc4ee25361d58bdf1ce4cba82f1522d28fe751ffa5fdc8417c175ad204f0e4c04, (10274080000000, 2568520000000, 1592580));
  (0xc4fa932454593600756f35c7023bfa1b32f231d863d5782f919be43334fa6e3c, (10274080000000, 2568520000000, 1592580));
  (0xc60178450945f498cc72ce293b3db390a0bd41c7c7e40365198aafec4c5a3121, (20548160000000, 5137040000000, 3185170));
  (0xc6029c436f173fc080e3fb20172c7745c0e72ceaf23cd70d6e1468a571b42a6a, (38425059200000, 9606264800000, 5956270));
  (0xc613598b03a052895695774eaf15f036a6f6a802ff155e6e41cff9da79a8eb44, (297948320000000, 74487080000000, 46184900));
  (0xc6195437eac95b9261e54a4f5d9cff66324cba8d491608a6d3644ef9cc7f3f2c, (14383712000000, 3595928000000, 2229620));
  (0xc61ea6ce029a26db05b787b3ef049159087c99dc0d1ab1e7382c0ce9e3b4900f, (2854139424000000, 713534856000000, 442420000));
  (0xc6216ca4109c3eeb98fb2f72073fa56cf397e591720b101317cd15ce6aaf8d14, (111987472000000, 27996868000000, 17359200));
  (0xc63f9a7913e12c364d4f5a16852f27c4cb6be4766496299af383d7a834ecbd15, (20548160000000, 5137040000000, 3185170));
  (0xc6442a8bde7448d9f0acb33162fb02f0eeb9c4a36d3d61bb82e4d83e5ab81d26, (10274080000000, 2568520000000, 1592580));
  (0xc64562d16147f834bb3d12cafdf880fe9c6758806e0be95336b5837e3bba2c6c, (10274080000000, 2568520000000, 1592580));
  (0xc655c7880feea3a4700b115a2f96e8cdf1e70540a561ed8f69fc295551e32d14, (41096320000000, 10274080000000, 6370340));
  (0xc65cf70cd7fa07e658faa125a9ef4ba9355a63e76cc8c83a0d0431ab5d446416, (10274080000000, 2568520000000, 1592580));
  (0xc65fa34aa57edd52562a124be9a602ede486d036bc3a5fccdee3db46829e187e, (10274080000000, 2568520000000, 1592580));
  (0xc66113fb1f165d93853a2c701cfb7633ffe1e34342898780e67783397d88e251, (263016448000000, 65754112000000, 40770200));
  (0xc662f525103aa37d4f3087100922f3092d5b40eda206a4273e563d7ac7fcdc47, (71918560000000, 17979640000000, 11148100));
  (0xc66964a85616a4974ee7d660a5dccbb86d72ed6206cc1cf791cbd953f9539541, (10274080000000, 2568520000000, 1592580));
  (0xc671ad8d73365849067ad14d76748b3d944c0760d69b429c63a4984ec0705a7e, (10274080000000, 2568520000000, 1592580));
  (0xc683eb8b0f699f75107e4af625d2fcf7ca23b8a4ce5374b93894c4a65aa44237, (71918560000000, 17979640000000, 11148090));
  (0xc68ab849de02a1c9954388b0bc1cf4758474f2a3cc56143e78d17d9381969472, (33288019200000, 8322004800000, 5159970));
  (0xc68dbfe046a68ce1fc4ccadbe240d3eb4374846fec060d92c476a6b6e429d474, (61644480000000, 15411120000000, 9555510));
  (0xc694d713fc10d2cbd9ed202a4698fe36d63243f7ef027812fb6c9dc1c72d8c2d, (41096320000000, 10274080000000, 6370340));
  (0xc69fe5eda39fdd7345aae6a07ea378d6720cd458161e5cc5109029d58446d26c, (61644480000000, 15411120000000, 9555510));
  (0xc6a64db18c354349758d30c4398218d492be851c17eea1490e261b3ed2609257, (10274080000000, 2568520000000, 1592580));
  (0xc6acf200d98a4c9002031891829a6621646577b509dd438a04a41132b5dd9b33, (45205952000000, 11301488000000, 7007370));
  (0xc6ae1793c6a9ced88345e5424f6b61f830773f2fb1934265c36c986132c9a250, (220070793600000, 55017698400000, 34113200));
  (0xc6ae1bcdaed22a5a46d7ad2468cdb4358f11aec16347c63495543592aac15811, (228084576000000, 57021144000000, 35355400));
  (0xc6b155d7b2d422cc5e755b6bbdb2aab41722ce279a105cdd858d2824ec990128, (30822240000000, 7705560000000, 4777750));
  (0xc6b456a1138d66d5c354d6b6a62b096dbfa2e6c44d8f853c1492ec5bf00f9837, (208232587700000, 52058146910000, 32278100));
  (0xc6cd7ae3436a44b17d2ab22f450dc3e49f3f9d5c06d0ce2b7adce1c86295b64a, (61644480000000, 15411120000000, 9555510));
  (0xc6d7857e94aac825a3b07c0ba3226f7c2256ca165a25e4fd93e152b8e9771476, (30822240000000, 7705560000000, 4777750));
  (0xc6d7c7c2934c9bfcf974c3b5d371b666c1ac9fe5988215503145584892cd0016, (336989824000000, 84247456000000, 52236800));
  (0xc6df83f0db03edeb8a5704c07f42f4fada31323078833aaa7e453d74004a7851, (20548160000000, 5137040000000, 3185170));
  (0xc6e57242bd8bca28aa70e0d093d524cf36e74ff298c46483eeb145b28ffd2f45, (61644480000000, 15411120000000, 9555510));
  (0xc6e935b6b669851b8c9bc2c9bfe1fd163bc02e01ab72f06d9ddf89068a8c9315, (10274080000000, 2568520000000, 1592580));
  (0xc6f788e70bf896de36c0023c44e86416edae19ebdd8331e2a21ec9d1c89fce55, (51370400000000, 12842600000000, 7962920));
  (0xc6fc8c678f358a9820e1f26b5cdc960773e90936b8654ba4c01a8cc7b7fb1728, (20548160000000, 5137040000000, 3185170));
  (0xc6fd5e7139164b624aa335f2d67106a3afe1e62a52f35b2d9debc86c9c044123, (20548160000000, 5137040000000, 3185170));
  (0xc6fecd3925e6b6cacdb9af35f6de4bf0a8a185edf4023d883cf44713f6fd2768, (61644480000000, 15411120000000, 9555510));
  (0xc80548d3bdd3ae391358b90df3aeb71a8c38f6a7f307bde1886b471856627e5a, (10274080000000, 2568520000000, 1592580));
  (0xc8117e59bc9d5023091b0b64712e79928742897b949ecf57a3e84fa08f9f933c, (20548160000000, 5137040000000, 3185170));
  (0xc81b22d9b1c398a968215a07a4d62af23b6db994b0c6d6e7b8cf8bdd8c57e82a, (10274080000000, 2568520000000, 1592580));
  (0xc826334ff9039ad60d1f547d899106680c74f8fa8908b4f92976380b246bdf33, (41096320000000, 10274080000000, 6370340));
  (0xc829d7516cfb1183f45c846e7265d83939e0e0706ac9b3a95df890ffe1408500, (10498789700000, 2624697426000, 1627420));
  (0xc831434fb7ba165a2c4843bdd64d2fa67035ddc60f2c1f271923f7713a70d20f, (410963200000000, 102740800000000, 63703400));
  (0xc83149c1b10f202f6179dc6f5dd07f6fd56b0326b35648f2cae82fc679c58570, (17465936000000, 4366484000000, 2707390));
  (0xc83d9acfbe612eacf12009936330cef12f4577518fbfc417fd83108174999357, (10274080000000, 2568520000000, 1592580));
  (0xc84728eb15643e70d6ad498ec0315874fa8413f230bcebe8c9500b440fd63a56, (20548160000000, 5137040000000, 3185170));
  (0xc853585b43aeec4a245da90930d1ebbdfd41f04d9049c0a91679b6db71591803, (308222400000000, 77055600000000, 47777500));
  (0xc85610a3d7b82e96d71277837a8a35276f0aad92fe08d8c3d453afa3d33eb759, (18493344000000, 4623336000000, 2866650));
  (0xc861cb1abb8e50c68af83eeb699fb695f3e383c69c17012bacf3137eda5bcc12, (20548160000000, 5137040000000, 3185170));
  (0xc871d1775b17d8499be302041111209496eee1e7c7b1754d182e6a5c29a5d672, (332880192000000, 83220048000000, 51599700));
  (0xc88dfa32b8a49e3f8cc478e654ad338f26e75666c0014a486577b1cad7a55002, (10274080000000, 2568520000000, 1592580));
  (0xc88e0f1cc05b90c8fca694fe57bee19e08ce5cb240aa64cf95bd739c29d7b422, (41096320000000, 10274080000000, 6370340));
  (0xc88f19be200664c024f58955de3f5a3b680b7366ca7d14f129c289910c4c3e29, (51370400000000, 12842600000000, 7962920));
  (0xc892c774e6fbdb73ce702a5301c172c67bd277a1c9312501975c2f22721a8004, (10274080000000, 2568520000000, 1592580));
  (0xc8973d8ae5010417125e535ca809e1c8fab77c5563448ccc2159efa4f533de50, (133069884200000, 33267471040000, 20627200));
  (0xc8a0d43ff4f7f13f2eeb2ffe3fd674e4452fb2ce9105661a9879160769f21b0d, (41096320000000, 10274080000000, 6370340));
  (0xc8a759eb763d01c955bf0b00ede2f2dfddf73d38d747308ca54c34673f8f4c56, (10274080000000, 2568520000000, 1592580));
  (0xc8afd3950fad5a1e9a61b6dbff7462889e8a23c5e5bb8dfe061c6eb72f0dd35e, (27740016000000, 6935004000000, 4299980));
  (0xc8bb5c1b3768cbb182efac5630f1f2162dc6374944bba455e0fea18a40cab577, (18493344000000, 4623336000000, 2866650));
  (0xc8cced1be3d148185c986ff682c57c79edd8505f2025253141caa4da2790ac05, (20548160000000, 5137040000000, 3185170));
  (0xc8dbd31efbbb56ac7f6782178f30066400f297af0c1be74d06e8994f49764a1f, (271235712000000, 67808928000000, 42044200));
  (0xca03456d816a673ec1e9d010f7b07d7b25fd34c123a649fd6270b02382584b2f, (23630384000000, 5907596000000, 3662940));
  (0xca05c26c4f161d8c8bb2104b260251650132a664bd0b72d37d9e743e0926b219, (10274080000000, 2568520000000, 1592580));
  (0xca0814f65288d4edc980c061429b282341ae6f1f083f78bec1fbd283e4269816, (45205952000000, 11301488000000, 7007370));
  (0xca17a041826c8f4095aa290f0abdb0d378d4ee37762d4c100400c88ff539fc4e, (168494912000000, 42123728000000, 26118400));
  (0xca2b28af4c8cdcdec6ef259d2707a381f6621e183d13679c64aac988d971f53e, (10274080000000, 2568520000000, 1592580));
  (0xca331e06364d9d7b2b0ec4b5bcc123f9d9374f9d3478dd44808e7fd19443c344, (133563040000000, 33390760000000, 20703600));
  (0xca4af202cea1b08cd03f15df2a2cdc4160bb69214948b9cd71a55bcd9cd2222d, (18493344000000, 4623336000000, 2866650));
  (0xca5c6bb49cda8a497e64effbf95f65e7f6e72c91a6e7b9ccd4b812126852e80b, (10274080000000, 2568520000000, 1592580));
  (0xca602ec6cda60ee56f130aa8f7488325e40abec60491cf354283b02fec30910a, (36986688000000, 9246672000000, 5733300));
  (0xca683c54b8bd69821cd8460ce562f5520f924e6236bfa61f47d1b5531e030373, (30822240000000, 7705560000000, 4777750));
  (0xca6de05aac5cca472044c54a2f347edfe7d6d6b96b1d3d26459481ded9ad3224, (20548160000000, 5137040000000, 3185170));
  (0xca84bbb79f6b687560ea61bdc224fa0a2d6460eba89917487ea8cbb47b2e3c6e, (28767424000000, 7191856000000, 4459240));
  (0xca86cf99b23eb9a78ada6297a67e6cf2e07f290f6fc98ddd2a82c6640dd52774, (10274080000000, 2568520000000, 1592580));
  (0xca8f02c4995aa9732cc1af6713a04b7e0448134d2bffd699f534b00b645c921f, (10274080000000, 2568520000000, 1592580));
  (0xca9d72812f06ac58df478ff5f96662f7198bd908936ab4f9afb27f269a77ed12, (10274080000000, 2568520000000, 1592580));
  (0xcaa4fd675ef02cc23d3a0fdd4ce1d795229d3a66a97acfab07cce88ff83a0e76, (10274080000000, 2568520000000, 1592580));
  (0xcabb833190e49223301a5e9ce4dfdfbbc53ea229bc94c437f036e1db86a6440b, (20548160000000, 5137040000000, 3185170));
  (0xcabcaa52468a6b8038349e129b576d94ea88da207fae185121ab01e2c7212328, (61644480000000, 15411120000000, 9555510));
  (0xcac2b7cece9830eb6ddd72e579cd4917de9429bd3af09c8586f6865ff1c33d72, (10274080000000, 2568520000000, 1592580));
  (0xcacb83fc3d36caa4d03a80c0669aa19b38ffd1a9bb54d78b719fac1942816b40, (205481600000000, 51370400000000, 31851700));
  (0xcacbecc43213c429ff20571c98c0cb1dd4411993d16acc0cb1839e572535c566, (11506969600000, 2876742400000, 1783690));
  (0xcacc5013aae6d0d38a5aa5424624bc00a3673476e563151099d20ac252759238, (26712608000000, 6678152000000, 4140720));
  (0xcad526e63024c3864d61a6cbf84ab7571b6b002ee9838100c242c1eab811f24f, (30822240000000, 7705560000000, 4777750));
  (0xcadd77f080a37fd8dfec97080722d1f994ccbd847be7cdb2172578953950bd40, (61604416300000, 15401104080000, 9549300));
  (0xcadf3348a410915478578a42cd80726e61acc47fd49c25a6e49f816268671335, (113014880000000, 28253720000000, 17518400));
  (0xcae3bdb7f1572cee4b7381ade21de7223fac81317fdca51dc31287378ce99573, (201705794000000, 50426448490000, 31266400));
  (0xcaf7481acd955473cd99cfe284bf7f8f3f299ac3a3f3903951ea439a8e41a639, (123288960000000, 30822240000000, 19111000));
  (0xcaf9bb41992829b47ad41f9e38120199e75a266b8f4baa4058779a033f1a6f4d, (45205952000000, 11301488000000, 7007370));
  (0xcc03cfac73979ed9a99cab1ffa531ceaadecc0ec08b046ac6a3bdba19ca1126b, (82192640000000, 20548160000000, 12740700));
  (0xcc0a470701bee8fb5da5b8769970f2f9291dec0163c6226d2880f8e80643780d, (20548160000000, 5137040000000, 3185170));
  (0xcc0c3d48ff4fe656a42fca8dc73c310faf520a7d5f3b83c295d35dc3edb4ab17, (30822240000000, 7705560000000, 4777750));
  (0xcc3186abfe9387a0d045de9c94049689184ac8d0dafa939dd6a49d149a4c5f22, (41096320000000, 10274080000000, 6370340));
  (0xcc3c5817ed556f150afcba3c23d851996c7e3bdcefa93d7d4181577fc061c54f, (16438528000000, 4109632000000, 2548130));
  (0xcc423e3d4ade1efb583898515211ca7f6bc8f0c7a2ef5aade4791d5724b25176, (29157839040000, 7289459760000, 4519750));
  (0xcc4f66c107635197f868b1dc889b50b7d337de3217db17ef0a24bbbb337fce2a, (16438528000000, 4109632000000, 2548130));
  (0xcc62e523b9297ce60f312b8db85c9a6f46932e68cda928818d6f5d5ecd61256c, (125754739200000, 31438684800000, 19493200));
  (0xcc69074ff5438c98f04ebafe4f258a75b37f652b05b585ca1b030ff6245b1011, (10274080000000, 2568520000000, 1592580));
  (0xcc87ab8bb7f9a20fe23a23ed9ba598165ca00bfd03797d9c92172e80fee8866d, (205481600000000, 51370400000000, 31851700));
  (0xcc882b53bd2a56d012900bff7fe1cd63cc17fa08a5ff0d5e2dfd0db9eec1a53d, (22602976000000, 5650744000000, 3503690));
  (0xcc89c76a01fd308f126d096b3ebb4e86281631ebf3831e015d7434d39e49f153, (12328896000000, 3082224000000, 1911100));
  (0xcc8f196c21067da3e5fded67558a222f6ba93c8e052f1af2b11594db34ec9f36, (10274080000000, 2568520000000, 1592580));
  (0xcc90608fe688d458e17060041b2cd409cfff77d63d66a1475b8720c34afc103b, (43151136000000, 10787784000000, 6688850));
  (0xcc94b9481752ef5e1b607def01c1fa8657c10d447f14b539ebec5efb0b7c0d51, (22602976000000, 5650744000000, 3503690));
  (0xcc9b8f611b160e237bbd0f09959e4eeb943076068f19611956467a521215aa54, (12328896000000, 3082224000000, 1911100));
  (0xcca873492f04183a4deaea685fe5b022d6f58298643a738c80e5a207afb9ed25, (1027408000000000, 256852000000000, 159258000));
  (0xccb5c03457000c515c4136d9454d7a77f670cb2a61d0c4a02de0f5ba93fdc758, (14383712000000, 3595928000000, 2229620));
  (0xccbd74a65fbdb98ce73ebf358529faaf5e2b501e8e0eaaeef789311de7f92b0e, (61644480000000, 15411120000000, 9555510));
  (0xccc814f5069df260c6871b0ccd0716b3c8bc57378224aa9b594131464e79bb7b, (61644480000000, 15411120000000, 9555510));
  (0xccd708ef9fe51ce133c6f9abc39409430d9d3d0363b56918dd658fdad4991d03, (1027408000000000, 256852000000000, 159258000));
  (0xccec64779b98c9bf96c33eb59e8db8be1384390740958fc4bdf65b92eb1d8832, (10274080000000, 2568520000000, 1592580));
  (0xccf0be400bf1616bff03f561f68b52cc138fd2f272a03e9df78b2c2daf9c8c57, (2054816000000000, 513704000000000, 318517000));
  (0xccfa96e15714b63a572529d0eab39af478902a2fdf2cd829429626a6890aef5d, (14178230400000, 3544557600000, 2197770));
  (0xce0c27d7e5d37694cbf647c9e9601da8bdec1f0d7b9aee0c4a9630a3a07bae37, (33082537600000, 8270634400000, 5128120));
  (0xce301542256f0d2c7377a842ca14d0de9c855366b580ddeed3bf6bf5bdb7a65f, (30822240000000, 7705560000000, 4777750));
  (0xce3d9c0d57f89978a138a87404955567590e5e1ab60403c417c763da770ce678, (43151136000000, 10787784000000, 6688850));
  (0xce460de3d8562bfb6bb1d252051b0b5faab1c603ae98ea71dc6469adbbf5182a, (20548160000000, 5137040000000, 3185170));
  (0xce4741f4a9ca75a1bcb71213f712e5197a4d27d87d26ebb6994323d13e4c4e0c, (143837120000000, 35959280000000, 22296200));
  (0xce4782d5e7cdf5383a6590c44afe3e5ebb961e2fd8ae589c12c310ec0c347b0a, (20548160000000, 5137040000000, 3185170));
  (0xce6219a3d2a84b11f57b02158bdc08ee3bc515100376476b99165c5cde00dc30, (82192640000000, 20548160000000, 12740700));
  (0xce76dc145130762c9002834bd4abad45bf1f4b1d37d27c8e27bf8e84052fc93b, (12328896000000, 3082224000000, 1911100));
  (0xce7ce92dad3e95c14c8be9c41ed3ad6fb49dfb26686d47c7975ff24cf9a5254d, (14383712000000, 3595928000000, 2229620));
  (0xce87a858494095bde1bbd916439e88b7cfcd3093e5b3cdb62e07189330697316, (30822240000000, 7705560000000, 4777750));
  (0xce996e3e4d250b946d6279c6d7af3438bc36cf38ff629d3fe5916d71110b6e09, (250687552000000, 62671888000000, 38859100));
  (0xce9d3e616d2ea7a4421ed98a292b0cf4b43aaff8128b55d1aa463e96f00a417d, (10274080000000, 2568520000000, 1592580));
  (0xcea2c4ad6ecba1caeee68ebe42d5f24f9d21df7440f5c1b34a472c35ecb69c1d, (413018016000000, 103254504000000, 64021900));
  (0xcec4649af6a863bf3f90d1bb93793baccbcc54e93ac1d162cda4294f873d927c, (102740800000000, 25685200000000, 15925800));
  (0xcec60974b4fb22a2c6b7f0864a9f03f598b1106ca24bc07fac87d5805721b12f, (36986688000000, 9246672000000, 5733300));
  (0xcecdb59fea8b9b92d1dcb574f0e4d1630f6554ff6730425c8fbe8e9bd4dbc355, (30822240000000, 7705560000000, 4777750));
  (0xced015f83bfbbe80a7f35e924b7ffbc6ffc0e15761eb0057b7198d6fb449f618, (10274080000000, 2568520000000, 1592580));
  (0xcee7a6b333932c40aded790f41f896e9e56950867fb41261f10ea40993a08f7f, (10274080000000, 2568520000000, 1592580));
  (0xceea9a6f98ca29a95fc0b67f39bf07f76252e3e3db606e467c5eb6b9be2a7f16, (226851686400000, 56712921600000, 35164200));
  (0xcef74ad613ab9afc906a50b4ad3a81e9532598dbb11d5f46064d7ece92a4d731, (1849334400000000, 462333600000000, 286665000));
  (0xcef934c0444cf04ea014051b9334d6975a8bf2d03e7a316c9b38257d97939922, (20548160000000, 5137040000000, 3185170));
  (0xcefc2d75238c60c67b4b02867f061a7c36f9b37f625854d4e5daac2cbf58f42d, (20548160000000, 5137040000000, 3185170));
  (0xcefeff6960dbbe2b687e9283c43acfd3bd81b8bca188a7f77b4df797f54f5871, (20548160000000, 5137040000000, 3185170));
  (0xd01b7235ff6cbde864e5161562aae8fa1a41548618e4351fd9c46172ee808b46, (205481600000000, 51370400000000, 31851700));
  (0xd0227823f001e967222757e5ecb3c5b6fd4c99f1425f2b887553991414545d0d, (20548160000000, 5137040000000, 3185160));
  (0xd0267f1f8e386805064b102a8d562e1f33e29f66062398799af3f8ad994a417d, (10274080000000, 2568520000000, 1592580));
  (0xd04099dff37fd03008b91537baa85ad491c57bb5c6111ff75af066b9b63c6314, (20548160000000, 5137040000000, 3185170));
  (0xd04b819ae05f52a3035e3b0e12580e54ebb249743f761ed2cb7fbca0f5fb436a, (10274080000000, 2568520000000, 1592580));
  (0xd05dd6dd6b3aafa55c0e0ac20eefc46384c8492f01d4507ddd1eb93d8e3fcd04, (41096320000000, 10274080000000, 6370340));
  (0xd068fa68301aff4837b1b1ba9007a3d398274254372f6c14099513e5c559c040, (205481600000000, 51370400000000, 31851700));
  (0xd077e0ae84e39eabadc60ffcaf6c721d7e2f27d5cc3e49d6ed4f7aa5d8ed8f1b, (61644480000000, 15411120000000, 9555510));
  (0xd07cae7a982bd5a83687898c7d6be733e1ed01ebc337656032db365d9ab39166, (10274080000000, 2568520000000, 1592580));
  (0xd085a34847972ced0dffe2b4358026decc9946ef4ffeb3623bc75028d581ad05, (10274080000000, 2568520000000, 1592580));
  (0xd0876a4c00018d8214cedcc1304b8b07aad369bf8b4a8fe4bd241deb9f6d7b78, (10274080000000, 2568520000000, 1592580));
  (0xd092cdb1eab8523add14afa1cce2958f6854b7dbb2be919bf3680c68f355d969, (30822240000000, 7705560000000, 4777750));
  (0xd09da133ff6d0297064f3364c23954f65dc8ef658518ed06401a9dd19ae44445, (51370400000000, 12842600000000, 7962920));
  (0xd09e2354118071803dc206b0e84b3bdc834dea29aff3ef7fa15b7292e3efd606, (10274080000000, 2568520000000, 1592580));
  (0xd0aa42bd22b25cfe06e7a01ef5882c416e084cdc526ee7cc263f5db07fb1b40e, (10274080000000, 2568520000000, 1592580));
  (0xd0c696806e3f6020040241eefddbbbb6ef5bf870f4c77feaac4775d26e7a662c, (10274080000000, 2568520000000, 1592580));
  (0xd0dd65d38a3c231521dc1f539aa7fd210f16290d01201eec3e2d052faa959f6b, (20548160000000, 5137040000000, 3185170));
  (0xd0e0d6f694870d31b3b04b75192f9c74fc3bc45b60dcd68001e86f2ccfb0b515, (408908384000000, 102227096000000, 63384900));
  (0xd207eec193ea5b3ccd69dc879fd97418ee8ddc14085f38b2564460f3637b3b56, (10274080000000, 2568520000000, 1592580));
  (0xd20df90aa6557c40dc738e97954ab48cb97d65a0350c86b1998be53ab30f222a, (10274080000000, 2568520000000, 1592580));
  (0xd2163329a2f18f593221e4fe0721d47868576e816575b0728acddfc130cc4846, (10274080000000, 2568520000000, 1592580));
  (0xd228153d2f8f085ce01a2acf5c0134eff118377ed15eebac902951e84b98ed31, (10274080000000, 2568520000000, 1592580));
  (0xd22feb68789d59f2fe2a095b995706ea6b2640d9bf4bfcc705d02fb73e9f1918, (20548160000000, 5137040000000, 3185170));
  (0xd23656c84dc22464184ffe9e8eff2e97c188756e626c750da8fd693127a82103, (10274080000000, 2568520000000, 1592580));
  (0xd2384cfaace8ab9963bb4661965a3316f7f134383c23ef8561ea6dc06915685c, (20548160000000, 5137040000000, 3185170));
  (0xd241a85d9103c825783ea410408e986774e84f81c159bb5cb6d6d12393e81566, (10274080000000, 2568520000000, 1592580));
  (0xd2454d903d39ee10b0e77a9d03add4e20b028a8e781ea8de047dde508e737438, (328770560000000, 82192640000000, 50962700));
  (0xd24eb8ac8dff23f7bd35cccfb85a9f518d37ab949b83afb1d7764f3c1290b520, (205481600000000, 51370400000000, 31851700));
  (0xd2669462eb58e2a1c7861ac304f7d2e7653fec35f11594ffc80202c301cc3938, (14383712000000, 3595928000000, 2229620));
  (0xd2756651321cc4f72f1e5fc7aa6b3aa71dcaea41f8de257ceff88c343ceee02e, (102740800000000, 25685200000000, 15925800));
  (0xd28320f82305e8d52a46744a0140c341704e3c1c7e2c958e858be53aa8a8d159, (205481600000000, 51370400000000, 31851700));
  (0xd2901973178a20e92fad0a219643ddad3fe53d49ab39602c84330b2e3dcc5873, (821926400000000, 205481600000000, 127407000));
  (0xd292bcdad23f126f92a2ae83e9f868df8a96cea211182608654a6689b5ce0319, (61644480000000, 15411120000000, 9555510));
  (0xd2a682fb167d3311ef16b7d71eb54b9daefbd42aeb3f96b3e64550c13d15921d, (10274080000000, 2568520000000, 1592580));
  (0xd2a87ca7a06d9dec781e7e90a258c0fff6b383b4371f4948129524c7d7e34740, (14383712000000, 3595928000000, 2229620));
  (0xd2c82cc5ea9b392c37de8f0581ddd65810e017eee0a8a395dc127bead0edbb61, (14383712000000, 3595928000000, 2229620));
  (0xd2d1491114f5736cd39b92b9e0d69a188dbe25f2a6895477f94fb5fca1f5f052, (17465936000000, 4366484000000, 2707390));
  (0xd2d771d143717099688d03c50bc1ebe324dd83e580b70c85de9f60080a6adfdd, (10274080000000, 2568520000000, 1592580));
  (0xd2deb56633e0dbd3884f7a6ba1b7f4e92f4a6b4930ac66d571540d763a564820, (123288960000000, 30822240000000, 19111000));
  (0xd2fe836e00089378c7d6a77debe55103ec04e316854cd9d69bb3cf862135f27f, (10274080000000, 2568520000000, 1592580));
  (0xd3f8b938c97587101610e20f69ea115b67609a765c3711417dac539df0fa8d10, (124762153200000, 31190538300000, 19339400));
  (0xd40ac75ae246cfbb76e5c797cf2469a1240c8832b70a3f1872381bab4489970e, (944598915200000, 236149728800000, 146422000));
  (0xd416cb7f02e12b3fcfacc1a4aa4bfdb34b832f6929905ba68fff44092828a054, (10274080000000, 2568520000000, 1592580));
  (0xd41b500b58478b2e60141eae795a42245fe484375a6bd05341b682f1e134b35f, (10274080000000, 2568520000000, 1592580));
  (0xd42622b38a8e631e1fe424d92758ce38db76f0378fc24614f6a0df307e0a1334, (41096320000000, 10274080000000, 6370340))
].
Definition rows_15 : list Row := [
  (0xd4334a06cda88a9f8622de3ff512c1d8eee69f170714bb5a44900ec169913206, (2379476928000000, 594869232000000, 368842650));
  (0xd44dbd2fe3e179d2c51a4fdc90d01e9a1526b92b83f61b9742a41f938f18dc30, (110960064000000, 27740016000000, 17199900));
  (0xd451fdf9ea574e31e14be8a0284c6613fdcaf391dca009bf37de1a25e2cd530d, (102740800000000, 25685200000000, 15925800));
  (0xd459092de0bed38b8cc9ac912e57495b5a72f4e1b285b37b5340e7e5d6ace77f, (205481600000000, 51370400000000, 31851700));
  (0xd46db2e2189b266a6701c1e9dbcfa44671d8643b0143eb91ee61499ba85b8763, (61644480000000, 15411120000000, 9555510));
  (0xd46eb92d09992cd3a061ff116d8d32435d2b29a0985ead8773f7d89deb098449, (1241108864000000, 310277216000000, 192383900));
  (0xd470a57386de78ccb63b9618872688e36410ce915ba8eb033183162ac0167e79, (10274080000000, 2568520000000, 1592580));
  (0xd4740880b471b610d3ea845ee9906ca7c6a009878fd09472faa703e77f282067, (10274080000000, 2568520000000, 1592580));
  (0xd47741feb7f79e6abff4eaed12205d0a2d05bad45b5523b4fe718adfad36450b, (10274080000000, 2568520000000, 1592580));
  (0xd483341dcbcfd06ed91c2514b7552e016a96789a546158f73f97c945956e2b5e, (10274080000000, 2568520000000, 1592580));
  (0xd48424e87723dade95b7de7babc672272edf05a32324a43cc6d007563ffb4b2a, (12328896000000, 3082224000000, 1911100));
  (0xd48697011e515e48f578f117e029fb26456d113c573d908f2ee77d59a3952d1c, (1027408000000000, 256852000000000, 159258000));
  (0xd487da878bfd74b00e7949004c69c8cc706591d82e957c8fff47c4facbf99d6f, (51370400000000, 12842600000000, 7962920));
  (0xd48baada946638ed776904b3b8cec1f8de35e00708dda5e996f4fd5efcda9265, (61644480000000, 15411120000000, 9555510));
  (0xd49408c4f80d91aaf02c26d57f716aea6bd2ca38764e8f35a6e3728b205f371b, (10274080000000, 2568520000000, 1592580));
  (0xd498eabaf4f6e2cbdbaed0ed142f2efe58c35de2334b1674df5dbe79d5fed539, (63699296000000, 15924824000000, 9874020));
  (0xd4a799f0e728435afeee41fc28a8fb3a253e18b55cfb274dfae0941c8c415e62, (10274080000000, 2568520000000, 1592580));
  (0xd4b26f71ddf414ce04187d564dc6e84efd10ff651f87bbaa485c1ac8dc046959, (51370400000000, 12842600000000, 7962920));
  (0xd4b44a7ea9bb21d61cd9800655791c6de6287b8570dfc097adad6902e06e2075, (10274080000000, 2568520000000, 1592580));
  (0xd4b66f09425976a958e112f7a36b6adff5b95e1d3c1a296489b116c7e273df6e, (10274080000000, 2568520000000, 1592580));
  (0xd4ba79ca4f52d02399e409495b9f3a9462707ee6cd025dfba53545bcace2904b, (102740800000000, 25685200000000, 15925800));
  (0xd4bc3decc3b9afc8b56fd1523495a883fc0e6b5d642260db96050fbba8a17d1e, (20548160000000, 5137040000000, 3185170));
  (0xd4c6012fa688fe673f2dcda2e8509b7f6e2c0d9c087ae7944bb3dc84c3d20f4d, (274317936000000, 68579484000000, 42522000));
  (0xd4d826c9fe1587d676b6d1a0601b07ba28eac947246d73c3b59fd0f6b95ecd34, (30822240000000, 7705560000000, 4777750));
  (0xd4e32888a06a63721eb9983763450191511abb24b156e2f713652c5bbe098264, (10274080000000, 2568520000000, 1592580));
  (0xd4e625d8f8d31850692d74a3b30fb01ac377b69056797badfe1af70a59f8a015, (41096320000000, 10274080000000, 6370340));
  (0xd4e8bfb1c924dd64e33ecfbb35d90061bb83b2dde667e58588780068f9fc1471, (10274080000000, 2568520000000, 1592580));
  (0xd4f2ca1e3a100632329d8e537a0c7eebd27ad5156cc528698905d270e6223179, (12328896000000, 3082224000000, 1911100));
  (0xd612a4afd4a6b55055845b86287a82dadbadf1296fe5ba71923a286ad869a418, (725350048000000, 181337512000000, 112436000));
  (0xd61cbe0209aad32e35a05b548e0edeef744ad9f07d2d3d027a9526d7c8c3ef75, (30822240000000, 7705560000000, 4777750));
  (0xd63659b4bff4d4f1b6018b3b2014232f912d73aacef08a3fa07c2f280880526b, (205481600000000, 51370400000000, 31851700));
  (0xd655b42986fd5139bb7e142fe8b138d3e7daf0cab7336a1c2f59cdd0f3932901, (11097424150000, 2774356037000, 1720210));
  (0xd659af678d8cb583ff41131f98fa5962039b839aabe3cabee12b4fa8697bd31f, (10274080000000, 2568520000000, 1592580));
  (0xd65b18e93f5b8fb67e7c0658b483807d0f6972873d9be7d89d867dfa8679763c, (1820566976000000, 455141744000000, 282206000));
  (0xd65ebe05a152d7e1ef4e4d04e5547834836aa03cc680f81459468c18e43e1371, (43151136000000, 10787784000000, 6688850));
  (0xd661daec8dfda4c102e26060bde9744ccaa8e20e8eab5a89b23e3e329d69d508, (55952639680000, 13988159920000, 8673210));
  (0xd66f62909c6612e97d72b992f4056e1adc558d93b1ebc4a1dbdc5552e2fd9c4f, (20548160000000, 5137040000000, 3185170));
  (0xd6717b7ef8bd073dfc561699696862b28d519d908a826dc894f5d3a10499e726, (205481600000000, 51370400000000, 31851700));
  (0xd67d4219e96c3cf32a654c1fc9170e39c10f199bb450bfa9f7135455583d183b, (207536416000000, 51884104000000, 32170200));
  (0xd68a2bf3c533e90ecf0f926ff6079c6241b18c3497b065c97868c589729ce733, (10274080000000, 2568520000000, 1592580));
  (0xd69f0f1ca92b214def84a846370190ded2a8381e874c7cd4579242c15d18141c, (21575568000000, 5393892000000, 3344430));
  (0xd69ffa943034a5132833e97bf39a5295f68cf377a535d6abdcbc02ea2588b675, (10274080000000, 2568520000000, 1592580));
  (0xd6af752bfa3fafa627dd4cccfd4c4ecd7e3360f38adade583b181610cd7a4d44, (20548160000000, 5137040000000, 3185170));
  (0xd6b543b56f9dd8beeaa50104a60e187991a603c2048ce60139c15a8345c38234, (20548160000000, 5137040000000, 3185170));
  (0xd6c98c4d36a6b2a432bde42427bd306cb916c106d1985e0de8426884b0b5e13a, (10274080000000, 2568520000000, 1592580));
  (0xd6c9f8f7aee9c1b1c957cdd79703b87163e1cc6c7c21f946a5f26702da7daa5c, (20548160000000, 5137040000000, 3185170));
  (0xd6e391b3a6dab285f2076de1f27b71fce5b9c79a9e4844c3df870d851f61ea16, (10274080000000, 2568520000000, 1592580));
  (0xd6e95ccaaa83118d94546f12cd0b33b798c444e8278ff148f855df9f51f78064, (10274080000000, 2568520000000, 1592580));
  (0xd6ec830b333e325fa76b41d35793452ff46352e64b082994368bb6a4bbc9d32e, (10274080000000, 2568520000000, 1592580));
  (0xd6f91df0858e3e45de2f076722a1a92d3a1c1ccb185d70a01d0f1ec9256aaf56, (45205952000000, 11301488000000, 7007370));
  (0xd6f9d1f77627a4efe638e4bdf3923275d3d3f2c56094e0391118518e42c04b76, (57534848000000, 14383712000000, 8918470));
  (0xd6fbb7c39693c1308e3e4110d4654d0d021526b922d7cbc5cf0b746eca83684c, (30822240000000, 7705560000000, 4777750));
  (0xd803152b5eccf14f0d48534a1edd76d3fd630acf421f32b045ffab2ce7d73a68, (49521065600000, 12380266400000, 7676260));
  (0xd80aaa058c18d06d54879ea0814c0f0d00f4842acd99f5cfb73387dd064b5900, (51370400000000, 12842600000000, 7962920));
  (0xd80bf6172548e93fbf7ab6423a80326498edfe2be525da3ffa61213be3121b49, (20548160000000, 5137040000000, 3185170));
  (0xd81f88e2d82135119f9ab6bfea199e3f683874debfab11b6a689ffbcc2d46934, (20548160000000, 5137040000000, 3185170));
  (0xd823a65bce249cafdc8211c46b493b4032785b2739d5993861a8414bcd62297a, (41096320000000, 10274080000000, 6370340));
  (0xd8275768e5592627050a7cf4a0694381b72c5322b2d742b1227e3ddf759d3055, (20548160000000, 5137040000000, 3185170));
  (0xd82810f19d7dd79e65aade5c3f9031bdff7df714aa7178fd54adb08d86d52744, (136748004800000, 34187001200000, 21197300));
  (0xd828db1f2137fdfced9c0dcf7c4f36d5354a919bd7dea0e8e85303c7a4c37a3f, (76028192000000, 19007048000000, 11785100));
  (0xd83b65b56e796b31c095f70722605441389b3ce8eb388145d9f18dce1283ac45, (1621249824000000, 405312456000000, 251310000));
  (0xd83f9252b55fd8269d711a5d1310555094b757a8c926de94d89d3e3128171c66, (20548160000000, 5137040000000, 3185170));
  (0xd84d3591efaa337adb83215be213e18204dd71fe9cf356f72281a687c825356a, (205481600000000, 51370400000000, 31851700));
  (0xd85be2e09bbf162761e049aee9b7c9d19c042262112deb258750b1c304fc2023, (20548160000000, 5137040000000, 3185170));
  (0xd85e206f7ad5ae359b4226991933bec821a4132ec19ec94ff5a182ccaafef455, (10274080000000, 2568520000000, 1592580));
  (0xd86d56e15194169b2b77a281fdffe1168bf42dd951b8a0001e4547eb63d2440e, (63699296000000, 15924824000000, 9874020));
  (0xd86e38886c12358efb58e20e0609025dd3cec4b367228e47a7ef139067c11c0c, (20548160000000, 5137040000000, 3185170));
  (0xd86f93d908a6a331f08ef28cdd13f6de73080a32f87b5e00964f679d266f896c, (279065999300000, 69766499830000, 43258000));
  (0xd874ef89c0d2313444a5f513adfdcce73af5abb03714a15cf203edcf55cc1a22, (10274080000000, 2568520000000, 1592580));
  (0xd87c6d1971712022a83be467b1660cf669e70e45d1b6b688315677cc4c14a861, (10274080000000, 2568520000000, 1592580));
  (0xd882246118cab58dc473b320ba7f219933049f525d742a82bb3c278f8ac49478, (308222400000000, 77055600000000, 47777500));
  (0xd88cd02487dbda6a1f6e4d811e50f7256a5a2d0536e9a796352c276fcd732a74, (65754112000000, 16438528000000, 10192500));
  (0xd88efd400880417258b4243af378ee66bfb648b2cee825cf8280d96c2ec47d26, (10274080000000, 2568520000000, 1592580));
  (0xd88fea6aad935c31e7b9e78f4e7572c1c968cf004b6bc4e4e350f1e119998257, (16438528000000, 4109632000000, 2548130));
  (0xd890a6d99f4614c480f87a4c7eaaa6162a32424deb24f0c9d6d9a0da8e6cc95a, (102740800000000, 25685200000000, 15925800));
  (0xd89484782a6d9c59b2d167a93ff50d3858f95ecfdcc46143bbe79bb23ecd1c5f, (10274080000000, 2568520000000, 1592580));
  (0xd89ea344810f027e659defe6ec1a150fe7cbb26cbfc8070f2de418ea1960f34e, (205481600000000, 51370400000000, 31851700));
  (0xd8a17c3ddb9d918b3541986834a3b3fe0d4bab377920263b4c8eb97de3b3fe03, (10274080000000, 2568520000000, 1592580));
  (0xd8a92b340b5f765e145f42056f1990a847298c765598102ccfcffebc118f2c1b, (55480032000000, 13870008000000, 8599960));
  (0xd8b5336aa3367480547a1885feb73da37b30f0e65104cdaa360b213a59ac1c44, (43151136000000, 10787784000000, 6688850));
  (0xd8bb9b601910cf6ea1a674c28ceea7e5c66131281a85695393c68654fa9d915b, (102740800000000, 25685200000000, 15925800));
  (0xd8bc808cd481c2e80725bd2f50cef0aade3144975a7a944d6f7388e7a00b4230, (20548160000000, 5137040000000, 3185170));
  (0xd8c41a43fe0259cbe130b3694285bd567c2043e79e222925718df89f91bf591c, (410963200000000, 102740800000000, 63703400));
  (0xd8cc0ae30e82f544874237a7ae253f72ce7057f03a2dbe017dc6492297168539, (308222400000000, 77055600000000, 47777500));
  (0xd8e36011c22ddf60e80a555179da49da58a23c2b69d45acabc2e370b80da8617, (2054816000000000, 513704000000000, 318517000));
  (0xd8f849c8d72705c2e7298d6fec1aee6981c8f888fb3d5cadb22865c42b319d1e, (16438528000000, 4109632000000, 2548130));
  (0xd8fa8c18ea868dbc9f469f8603d2652897006af42d9823488914185f07ab9923, (258906816000000, 64726704000000, 40133100));
  (0xda00b5c3a0576a0765d786ac274743f955d90f0aa982418837fc83ef04973a7b, (226029760000000, 56507440000000, 35036870));
  (0xda02561428e28b27c05b01b1858bab34b4057ea79accdae6945bf5b568cd9f68, (10274080000000, 2568520000000, 1592580));
  (0xda06a8a04c507c235c517198eccc34499153c16681d39b3368970fbd67002d78, (24657792000000, 6164448000000, 3822200));
  (0xda0b61c7a66ea8e2995bba8ee350b2dd42a5478001d2180e065e8ed47216f220, (61644480000000, 15411120000000, 9555510));
  (0xda16b49d8bcd07455e63a167002b7e65426144ac8e915c77902d76ac5036cf19, (10274080000000, 2568520000000, 1592580));
  (0xda17d118cc73922e10e55660e81e1465a8d2a03daf81ba319d099add9aed226b, (73973376000000, 18493344000000, 11466600));
  (0xda1bf5797d1835ff9229ba753dcc23866ef5563a4d9741464928a7b68abb161d, (205481600000000, 51370400000000, 31851700));
  (0xda2cdd6dd2b8697a28d17f2796a41fe6ae17e21552bc3a04e99027286cf71f74, (30822240000000, 7705560000000, 4777750));
  (0xda69418054e4ccfe36e2f465833ee3d02c30235a97e644ac47a7a884020c037a, (41096320000000, 10274080000000, 6370340));
  (0xda6984e0de55eb9114019d87574ee3f981846d2d83a4e6a7eedfc042bb54ff69, (205481600000000, 51370400000000, 31851700));
  (0xda7ea8dc17f923b18eee878340b46d195a9221e99b0f0bb00ac17b1352098132, (12328896000000000, 3082224000000000, 1911101000));
  (0xda8ea9c7e9794191fb049b94487748759e558aa4850075233a79a744266ad82b, (20548160000000, 5137040000000, 3185170));
  (0xda98c361f9569d87215165fb75b22ea7ea46a2b3501c294ffdb1f8a8b79e375d, (16849491200000, 4212372800000, 2611840));
  (0xda9e28cf537fdb1a9bba0f0bd10ae72952bd91ae047b9f0ba3902b77d7399335, (18493344000000, 4623336000000, 2866650));
  (0xdaaa6a8afb3ab45ee3ae8383e2a253acefd25b1383b48cdeed33278b0747fc0e, (41096320000000, 10274080000000, 6370340));
  (0xdab3f57025e257176aabc182b20c7e7b3544f5332845de7d52589f71d9451d03, (20548160000000, 5137040000000, 3185170));
  (0xdacbe4829042e3823956a3463f9355c977f0719acdaec2dfa4847e6982d85509, (11301488000000, 2825372000000, 1751840));
  (0xdadb726a8163cd145ca04824337a0187513689a465b2d7fe15899bfeb585864a, (69863744000000, 17465936000000, 10829600));
  (0xdafbd40e9798e76f65cb320b79406cf3774c34db6a165e4990dff8764cee9a53, (41096320000000, 10274080000000, 6370340));
  (0xdc0189d03e1171195a85312c63a3d1ea45710e357efe80a7e80918cf5f9d2a0c, (102740800000000, 25685200000000, 15925800));
  (0xdc08798b7763c07656517b24791fbf108e3ca35d60c0973fc12933b908eef232, (10274080000000, 2568520000000, 1592580));
  (0xdc1a620cc23f719227c60d1a99e81bf18ac828e7feafa911e397e28c58974d31, (61644480000000, 15411120000000, 9555510));
  (0xdc296bfe768684920753138775fa4fdba08c74589f48ad8eab8095c04cbf353b, (41096320000000, 10274080000000, 6370340));
  (0xdc60dd139ff580490c2a01c04860ba5245a62ba7c98ddd43cac89cfc2dc4ad01, (49315584000000, 12328896000000, 7644400));
  (0xdc638933abf3e44cd23a5a88b8ff7e8170057ff2e38a840a94d546f163271b5c, (17465936000000, 4366484000000, 2707390));
  (0xdc67619c28d11c6f25db035810ce1efb66a8d14474093b145b8c7df9e9b89e30, (25685200000000, 6421300000000, 3981460));
  (0xdc7836d5b057d399b0eea75754bcde3fa3786fb1c265342d5c4034d24afab078, (51370400000000, 12842600000000, 7962920));
  (0xdc81a9a421f72e577cdf104f90e9163f45e39d325e0297132ce7bce0637f867f, (8219264000000000, 2054816000000000, 1274067000));
  (0xdc87602ce19220e6cf442ada26e2d0d4424a1437a2c303672d4e7a9f2e29c408, (10274080000000, 2568520000000, 1592580));
  (0xdc8b1e22756cf161f243387abb4547bc8cb078621fd8e66c151e384f88bed255, (51370400000000, 12842600000000, 7962920));
  (0xdc9275b6371bfb22da3cc36979a53e112ee23d6db55019af85ae63f1164ddd55, (10274080000000, 2568520000000, 1592580));
  (0xdca343b0f65a41f8cdbda979377c97f8dda055085140b5106911facb1c844e7b, (51370400000000, 12842600000000, 7962920));
  (0xdca41f01abe6b460a7b3320e1c501f7145e42b09171f241a5e0072436127636c, (205481600000000, 51370400000000, 31851700));
  (0xdcac4ff7ad7bfa348e89ae6c7409b3c8e7525209748917337715428792956e13, (215755680000000, 53938920000000, 33444300));
  (0xdcaf1c761e7f596e1c1fe4c10a3c1430fbcc47e5539f6d0d8e0119c4c061cd5f, (10274080000000, 2568520000000, 1592580));
  (0xdcb1710299ae1e1fe7e4924843ba1afdb5ed2c7112b304ce4d25bb8adddcbe2f, (10274080000000, 2568520000000, 1592580));
  (0xdcbd37f83b3834ce410c7e7aa39f1cff5003f36c8aed5e57c7b091c326c8c74b, (10274080000000, 2568520000000, 1592580));
  (0xdcc6d267510c39e5e0068d02c480ddc8ffafd692e694df1b3214732cf9f41f00, (61644480000000, 15411120000000, 9555510));
  (0xdccef1e97d21782dc1c705b41defdff18a6894bc4af8bc5b1cf98ee23dc38659, (143837120000000, 35959280000000, 22296200));
  (0xdcd5a6a054b10260c7ff8c2a6aacf7637c92dfa05dd3b20219b4a90c1603a020, (30822240000000, 7705560000000, 4777750));
  (0xdcdff882848cd5225c7bc8283e86f9137a9fca8b84a2d049b2f039d962b8a559, (10274080000000, 2568520000000, 1592580));
  (0xdce4258f1f34473eda4607a92d77ca9b8f3e76c3568c6dad5527a3187142d733, (154111200000000, 38527800000000, 23888800));
  (0xdce89748bb92db32365e536b16c058399d0bade9edddbdb02e3577eddc04a86f, (10274080000000, 2568520000000, 1592580));
  (0xdcf0095f5635923ad585bb25272943bd3ccf46070ca6e6975c09dc848ec14643, (10274080000000, 2568520000000, 1592580));
  (0xdcfa995005b95308c5d6c23419ebae04e56c31399d38ca9d97d85e3ab2abba27, (114864214400000, 28716053600000, 17805100));
  (0xde0dada72a32f66eaa9e34da2bfd10afbe900ff7a12f8d08c25ded7aa138954c, (184933440000000, 46233360000000, 28666500));
  (0xde160d3bc21c531c52a3724da68f463fe200261e977515e8a0d11db0ed70413d, (25685200000000, 6421300000000, 3981460));
  (0xde19c79bbcf4140f047cdad7de5c95e5b2a1e62d0449cc625ac1d3f8f41c5f3f, (14383712000000, 3595928000000, 2229620));
  (0xde2533b0d33a8c7ca6fc4646ad769aaea2b6078e213c7259836b47ad95246709, (22376946240000, 5594236560000, 3468650));
  (0xde29dc53db4440b074b2f489f164a5523987b1d21bf62a6da796d165f1fc1633, (41096320000000, 10274080000000, 6370340));
  (0xde30956d0ff4fd75b50017667144517662076e97bed5f41fc8adc199e93f4274, (61644480000000, 15411120000000, 9555510));
  (0xde371c8cc603e8c8a86bf2a1b8ecb0ee3f118f646a08015c8d49815307baac38, (10274080000000, 2568520000000, 1592580));
  (0xde37ff7e2c15bd589806fdb0f00a0621760f6f7456ccbce8ed0c62eb63fe3860, (20548160000000, 5137040000000, 3185170));
  (0xde3d5e204b8905777fee816fef0eb805ac982566175506a2602f392d99bbb703, (10274080000000, 2568520000000, 1592580));
  (0xde44165a9760c06aedf7b10957dc22166185a6c769694d557db98de3a55b3d3c, (51370400000000, 12842600000000, 7962920));
  (0xde45470c07d28b8b8a5886b68f22a862bfa2bcdd4809dbdd57d0569d0134d120, (102740800000000, 25685200000000, 15925800));
  (0xde469c0c5b9e9a2cef34aa3b6f972dd3018975739deb21295737a700f1acdc1d, (10274080000000, 2568520000000, 1592580));
  (0xde5b37b1f4d20d4f1e3b1640dd9714a4d750fe11bffe39f8d780b4d40982910c, (10274080000000, 2568520000000, 1592580));
  (0xde681a31fbc7f2ec915f25b72d43faf7206e58f2452a2a5779d2af08cf156926, (308222400000000, 77055600000000, 47777500));
  (0xde7c69396eee7b7813f3db2e70a5e2ff1d6298c93eb7b150552ba493d2126316, (22602976000000, 5650744000000, 3503690));
  (0xde802b01e9d1a929cc23e45fdbdb7b874cbc1770095ca1619470e31b3db5e523, (12328896000000, 3082224000000, 1911100));
  (0xde877d1f572b6d3c813a3f11b8a1db4285f3e4dd1dc422b944ee79de36d71c37, (28767424000000, 7191856000000, 4459240));
  (0xde8ee596563d68265a2b8a1c5b8d9a19b1cfc0d2be39d6be487e4ac185995226, (62671888000000, 15667972000000, 9714760));
  (0xde900ab267dc663db4bc923343dd95f26e49ebd036c2b2b83ba8ea04be731874, (10274080000000, 2568520000000, 1592580));
  (0xde93de765bcde374098809c8baccfc34c6bd0b3e50175f319be19067aba34b79, (15205638400000, 3801409600000, 2357020));
  (0xde9ec04dd1984214f900ad309b6c5554f65001a6ef1359365b707cf459f75966, (20548160000000, 5137040000000, 3185170));
  (0xdeaadb781bf0f1772d3ec0e2dff3a0952f0c63d294f8407447b5ce27488f5f19, (10274080000000, 2568520000000, 1592580));
  (0xdeb8f64e46c9dc7235515ef2acc0a27f0e8681a23e3ec159a0a0895aec7fbb46, (109932656000000, 27483164000000, 17040700));
  (0xdeb9d6ee925833f1a1df1757ba40c6bd35f8ff56d80c0f5941b2e72167baaf7f, (10274080000000, 2568520000000, 1592580));
  (0xdec2d969f1033c78b325bee0edb3f9451abbcfa8732cb6da1a5ca9df107cfe35, (216577606400000, 54144401600000, 33571700));
  (0xded0d146db956e35b12384d485d76eef7369736fb4c83c79dc3fba726106d813, (410963200000000, 102740800000000, 63703400));
  (0xded3d23eefa37816db315b0daebceb12b4013a0dc292bd45626f800024b33248, (10274080000000, 2568520000000, 1592580));
  (0xded55e62970efa7eba9bfb25c7e6a584028a22fe5c16eff5f5dd6901759bf93f, (188221145600000, 47055286400000, 29176100));
  (0xdee20f60bf86c43a98652c7eb8fce5a3cefe6d0b6440386d12660e2d5575c13c, (41096320000000, 10274080000000, 6370340));
  (0xdee937ea8aa49d6fd1915c8dd01c50c2053be350500391b35197b36cc2c9c725, (10274080000000, 2568520000000, 1592580));
  (0xdeea513730ac4bd3aa426aedc42b971d5357c8055805e4fe84e8a46c698df627, (10274080000000, 2568520000000, 1592580));
  (0xdef23e182366e57e0f0e40052cdecac5ffdaeae0e3505f88b57ec49308969541, (10890524800000, 2722631200000, 1688140));
  (0xdef47beb09d98cfb9ac6dd97855e67b00c40626857c41213f4ca83722622c052, (195207520000000, 48801880000000, 30259100));
  (0xdef92115579fe3e865516a322ddb0fb31c9466f4a0123280345a74d56b6f8d08, (55480032000000, 13870008000000, 8599960));
  (0xdef9dbf668d786cad0cf894038ddc1178fbe5e55b57af36f4a62a0bf1ab6cc2c, (51370400000000, 12842600000000, 7962920));
  (0xe001eaddcdca9f1b6d4335a6bd25408fe8c96f84597f589eaab82a9775c8bf12, (376031328000000, 94007832000000, 58288600));
  (0xe0071ad3af9038e7468b241c694205bee0f256539607c569e1137bad8ff88217, (102740800000000, 25685200000000, 15925800));
  (0xe0119570577be7229fec5c96ed1f537f0ccc318c61bbfa5837f8edd40a269064, (20548160000000, 5137040000000, 3185170));
  (0xe01367a1c556e7eb8ab52ac1c707f4588cd7acd1737925c2f9ca293cf0a21329, (30822240000000, 7705560000000, 4777750));
  (0xe0137bed4c4c947441e679d4ec7c6eeb4ffc53648566284e681dd27572680b2a, (10274080000000, 2568520000000, 1592580));
  (0xe02000e9146c0dac553f6b8a0f01e3f69515dd36722a7a155562356639000d02, (123288960000000, 30822240000000, 19111000));
  (0xe02d5217618a82341be2278b2d4c9615e745e9a82cb43208a5a6c03605a4d73d, (16438528000000, 4109632000000, 2548130));
  (0xe036c5c88a6f74df1195dbc7cef5ced5a7eaa42e1a13d4bc9ff7fbabf8723c79, (10274080000000, 2568520000000, 1592580));
  (0xe03e51ba5747dbdbcdeae2f49776d1441fca034108e62664d76ea3f43fc1b620, (41096320000000, 10274080000000, 6370340));
  (0xe042dae8b0d8c7c48552edb55c74791857fcade299a6a3e2c4042f19cb960a35, (164385280000000, 41096320000000, 25481300));
  (0xe042e2ebb46dd301024429a99f18cf8cde2a3aa5799151943e33cf405163b266, (10274080000000, 2568520000000, 1592580));
  (0xe044b0c6d876693f44584833d510b18a6cdb15e14ca9a1c0f23844e949e55374, (195207520000000, 48801880000000, 30259100));
  (0xe077668a7e516108ccad3a1d2641092678438a3a530668d5ecac54f396af1d2b, (61644480000000, 15411120000000, 9555510));
  (0xe07d6736c4f557eea1b604414976ce5d0590a7c2f9c7b655887ceef579b4a824, (20548160000000, 5137040000000, 3185170));
  (0xe084f6d2f130aaf2e55d242e8f8b764f70b1b2c832d12f5c9c6140bc9ff6bc75, (57534848000000, 14383712000000, 8918470));
  (0xe08d7230a6c11be3c7272c6eacba4e8d7ccd8d904fed46375ecf1bf8b7875816, (10274080000000, 2568520000000, 1592580));
  (0xe0925b90fa800d02cc1a8cb0cfdf2a54b1b2f5239c0594ac9fd8777d0d0ecf18, (16438528000000, 4109632000000, 2548130));
  (0xe0a4742e648c3af45281aca8906f7f8282032b84a85b68f8f7c8614d81d27a66, (102740800000000, 25685200000000, 15925800));
  (0xe0a92e945b4ce285a6d697ed4db76daedc938890da30dc7ad920b241bc1ce279, (349318720000000, 87329680000000, 54147900));
  (0xe0a955489e3a880dbcdfb34b1853be5624f645bca99b7b8647f3f942d86c2a3f, (57495970880000, 14373992720000, 8912450));
  (0xe0ac044eaf1755905c1b70d749a8412385612930a28d50f97ccdf2e5489b8e28, (61644480000000000, 15411120000000000, 9555506000));
  (0xe0e62a49c843b63e3520218f8bf6c6e7eeff4bedd2535daaf41849397f8d423c, (15411120000000, 3852780000000, 2388880));
  (0xe0efc76ef0262a371df19cc850220da52243924c5552ab7b01f308e17b1fab45, (154111200000000, 38527800000000, 23888800));
  (0xe20ee4e82b3f24c6da98ec4ea37cab90d0ec338ccae5a6ea7f14255c45f52a36, (10274080000000, 2568520000000, 1592580));
  (0xe2169d737feb134a2beeb3417870d930c07d860fa001132df0c4c98b16508d1d, (102740800000000, 25685200000000, 15925800));
  (0xe2180c19c22ec3b050e027e61fb6612a1b0a69c8d543a7bedfd19e78a40b107a, (134795929600000, 33698982400000, 20894700));
  (0xe21a200992f76a17e8482e7e79075797320c805ceb2275ac63e4023b2247e905, (256852000000000, 64213000000000, 39814600));
  (0xe21ae775f389f501394cb30e650194b586a8f5a47bb74d23f2532f4d9713d23e, (71918560000000, 17979640000000, 11148100));
  (0xe2215f59fbb4a21438dfce9764df5e9e1cd4eb1b36754756f770435b3acb6129, (41096320000000, 10274080000000, 6370340));
  (0xe226e6fa0dc7dd39f7a34ff2f1fd5943c2a5b43375ceacdacf25834c2455c728, (11301488000000, 2825372000000, 1751840));
  (0xe22cff73acf53678d7f0c2f37c2ba167b4dd695e112c63c966209eb5e6291559, (41096320000000, 10274080000000, 6370340));
  (0xe22f91c0573e608909c4369e6143ec484fb18fcc57837391a6bf3ded71709230, (10274080000000, 2568520000000, 1592580));
  (0xe23df3a434f4b6185f6b20c9c8cf8507570fba4b21b55206ff4fbf9c2d784002, (151028976000000, 37757244000000, 23411000))
].
Definition rows_16 : list Row := [
  (0xe24c09f46d61f89cc4205698ce2b30e1f7a0fa7326fac24a055789058b123c3e, (47260768000000, 11815192000000, 7325890));
  (0xe252222907635c35f9d39d9cccbd10bd18da9c1826c6906a080242796ab49d43, (14511110590000000, 3627777648000000, 2249366000));
  (0xe256576618761bf66391282f3b8946eeb86cdf97bee97336c51ca8832c056249, (205481600000000, 51370400000000, 31851700));
  (0xe265fe6e25b279367914c48aa9d4e6370b4088be3dbc64efa3b67844c1b7c32c, (20548160000000, 5137040000000, 3185170));
  (0xe2667d09f04feb44eab4aac53d9e8f1a89aa1cf22730aea9e16a3259b9154a09, (102740800000000, 25685200000000, 15925800));
  (0xe2750fc5cc68770f69bc8dafe3bd4b58124f12eb10531d72eead087da4152a18, (9452153600000000, 2363038400000000, 1465178000));
  (0xe27634c106228296a08e0881431fd155197c88e4cfe764fc27a09b5bac2eb84d, (14383712000000, 3595928000000, 2229620));
  (0xe27a6d47ec5462c06334a533ba4d24119201fc2863a7a578698c1647f504d50f, (51370400000000, 12842600000000, 7962920));
  (0xe28e38b3179fe7a6a81c86d277b18f3dbfe0f3f50e7f169388c8e3843ce1440f, (20548160000000, 5137040000000, 3185170));
  (0xe2986f65b9c2ef3a1788c32eeb855a80d2dc81d2ada0d1d0600baf4f3eaf2137, (20548160000000, 5137040000000, 3185170));
  (0xe29db208eb7b5c29eb1417839bd6de0e5b337fa8c6438c139b916a416c2b0b20, (205481600000000, 51370400000000, 31851700));
  (0xe2a8342b45907cb4068e7a6d5ee7c86a49f7157c2c89023c6a42acaa53766423, (20548160000000, 5137040000000, 3185170));
  (0xe2bc078d02e1c6f9ebfe65d8bed2274278b2df7aef48e3d5d21f0be4375e731d, (10274080000000, 2568520000000, 1592580));
  (0xe2c9c9b1222408826e4afa993c92dba7b267c6da8c04c823efe46656858e9c28, (267126080000000, 66781520000000, 41407200));
  (0xe2cb7b28302313855e49adad0e09ebec6996525853bbedadb69c0bfce8b2d22f, (71918560000000, 17979640000000, 11148100));
  (0xe2db74a83af70e3d3e26dffc20a194b45069e162c149a1866e34053357cd1c0d, (102740800000000, 25685200000000, 15925800));
  (0xe2df87e52033a7914674ba2ba0e6e33f8bcd0342709d82cec71839597ea61408, (10274080000000, 2568520000000, 1592580));
  (0xe2ea47e37503926aee2b7de43234d7ca72673896a872087a9a4199eee74cac0d, (20548160000000, 5137040000000, 3185170));
  (0xe2f12a913ba2cb1a08fd2e5e635b6fdb0eb41df02d3af60de65d594e00108103, (102740800000000, 25685200000000, 15925800));
  (0xe2f4dd52ec228e9a363d03e21f12607ec4fe65369cc8d89c472293ebc5c2374d, (82192640000000, 20548160000000, 12740680));
  (0xe2fdb3c7ddbb593b317a1282a87ef38e3a93c6de48d312cb2c6234b7bbb5f91d, (102740800000000, 25685200000000, 15925800));
  (0xe4290b7c174726bf164821f35a2821541414ff2f4bc7bbb9218c20979e218867, (20548160000000, 5137040000000, 3185170));
  (0xe42f5898dd94344f839ea10963e3d1c87f4c48bb2004b1a8fe0870689a50191b, (2054816000000000, 513704000000000, 318517000));
  (0xe43774d56944bf5b3a06bfa3c1c743dfd628fef7474eedceb598800c576d767c, (10274080000000, 2568520000000, 1592580));
  (0xe4406492ca50b3a0cbaae4872ea55e685817b384e8231f7226b10ea39517821b, (10274080000000, 2568520000000, 1592580));
  (0xe44aa1a3a4ea20cc7fbaf2ee766bba15e564e5bb44a52618b92567070fa3ae5a, (10274080000000, 2568520000000, 1592580));
  (0xe4508d743cb313406266ab77a9732045d3c3db3f77d52d7472e7b6e94e35bb77, (164385280000000, 41096320000000, 25481300));
  (0xe4529a2b22dc734f2d7f751d4945dc10c12810d28b29c89c9a0c7db444efcc6d, (102740800000000, 25685200000000, 15925800));
  (0xe45336313913441a3b27e6b5a6f19c094a5ed01d5998e98c82f7e7faa0b3cf0e, (10274080000000, 2568520000000, 1592580));
  (0xe45738480857648e56feead254854a0cc408e34bfaa043dbdf77658d20f51766, (20548160000000, 5137040000000, 3185170));
  (0xe458dd0ba7a6b631eaa0ee7362d34916265c2d8f4f596bda7eaab66a5cfdbe71, (67808928000000, 16952232000000, 10511100));
  (0xe4729a12f101c048058b7cf18785478b96ffc33a944e19e044e2470040ef2c7a, (20548160000000, 5137040000000, 3185170));
  (0xe478557b814f9ac157327b70015dad664bc425e2f5e8e388f8322586a1e54f23, (15411120000000, 3852780000000, 2388880));
  (0xe47cbf63bebb0d341c7badbc7a54013fd8d0770d5b51939135947f6b1c9ad679, (26712608000000, 6678152000000, 4140720));
  (0xe47e14969b0ff01aa16cd32be70570be37a1b6517ed7840cdc26f7d71575a119, (20548160000000, 5137040000000, 3185170));
  (0xe49080fe7077fe8ebe4b1bb1778a526ec09239ab1c221739a66300ec36b4bb69, (20548160000000, 5137040000000, 3185170));
  (0xe492da200b416f20bab9152d17241329641667688b8ea683b196a61c8fceaf1a, (390415040000000, 97603760000000, 60518200));
  (0xe496bf1e95fca43bfb7604e930213685cd8e35b779e83345bbe0f1ee31516e50, (102740800000000, 25685200000000, 15925800));
  (0xe498fbfb318e2c88d46dc8551c228d65096d0b5b7f8fd7c4d39af2457c521521, (20548160000000, 5137040000000, 3185170));
  (0xe4b1724e7b1d2694b18ebc4d3640f33ae04309639ffdaee08c8264b29b41f161, (410963200000000, 102740800000000, 63703400));
  (0xe4b190a3e1254f4a055d0e5c5749a4f33ae37860125353890e8801146bf7cf30, (20548160000000, 5137040000000, 3185170));
  (0xe4baa1045eeb264a0c34936174e29cc24f2429445ca43122da7ce2fd0de12160, (52397808000000, 13099452000000, 8122180));
  (0xe4bb71812db2542281cfec5c59300cd2ba0a67d33904fcc713ef8c2b43bd8b45, (51370400000000, 12842600000000, 7962920));
  (0xe4d7c993c69c94a5deb8f29e4a88c63608b8acae65088700cac742ed03f23c1b, (20548160000000, 5137040000000, 3185170));
  (0xe4db644765c3683614cd01b86fddca6cac00261821eac3a7731ee693139e3f5a, (205481600000000, 51370400000000, 31851700));
  (0xe4dc885a5fce5c5940c28689eecc6408d5ba398395cbfdbf7af7c8604c88ef75, (10274080000000, 2568520000000, 1592580));
  (0xe4e3fd28fa441b1881ae47a2408f154ce4a7df0239177ca986ee4232754bb17c, (616444800000000, 154111200000000, 95555100));
  (0xe4e416d3880a72eeac40d5288a7fa9af23e8ca6fe2fb009791bc8f10183c0951, (34538778800000, 8634694700000, 5353850));
  (0xe4ef0fd7abba07534d1110f34e16b722b57cf4e971aef4c537608a4cc8092f35, (10274080000000, 2568520000000, 1592580));
  (0xe4ef3a41c714de8689bb11288e1672fc81218ad186f7fbd0d7df85cdfc7ac23c, (497265472000000, 124316368000000, 77081100));
  (0xe60c0eb9a44ce32f93c330da1688a4fe1fadd0e0aefcefc00997bbade00b610f, (102740800000000, 25685200000000, 15925800));
  (0xe6122da320d7abdb307e2f40585f843dbca8149a6a46b88e635f677cb92c1e5f, (2054816000000000, 513704000000000, 318517000));
  (0xe61d199cbf5ccad05397d3acce5bc569cbca70ab360b891c49feef60112d3e48, (12328896000000, 3082224000000, 1911100));
  (0xe620515a366c57486dd152df3d07b8ebed71b5ed7e71a216f77502f47a053f37, (82192640000000, 20548160000000, 12740700));
  (0xe620c8a35149dd5cba611bd5484cd2acdc8430e99fca5fee9a2fe6690a5fd935, (143837120000000, 35959280000000, 22296200));
  (0xe6220d1f031eaced2bb4357feaf24fb44761d08b5efb435becf2573ac5a60c7c, (71918560000000, 17979640000000, 11148100));
  (0xe623aecf2d1f3c058af4c105d456b19ace48df5a942a897b3b050472551e1e52, (10274080000000, 2568520000000, 1592580));
  (0xe6289ee0c91cb2b891317cd9ba58a77db97e19b8c094088043e72c0ba819a657, (20548160000000, 5137040000000, 3185170));
  (0xe62a036df6c0f2b519d6fd3472d276c3d116a8a60e02bb698204b59cde40cd2f, (31335944000000, 7833986000000, 4857380));
  (0xe62e2f2ef60c6da559a044b68b32b879b32bfcbda600626b65ff4feb9fff252b, (20548160000000, 5137040000000, 3185170));
  (0xe62fd951ac26b86f2715eb3c5e54bc36e0b014047f5eda76ce4e38599cd4fd31, (256852000000000, 64213000000000, 39814600));
  (0xe6359da42493b593dc9de2093d085f65c19dfbfcb8c3f30806ea8003f303cf3b, (10274080000000, 2568520000000, 1592580));
  (0xe63bad33d41d23e049d4f9efea39e4f44426b3f82104800ef6a9f29fbaa18667, (215755680000000, 53938920000000, 33444300));
  (0xe63dc971ad4869b5f77c04c3ca76d04d452e41b30a80e82eab971143f397b55d, (285619424000000, 71404856000000, 44273800));
  (0xe653f1b74d6de636ebd9c59b7876be0ef7b42cac0ff813592783120e510bf24a, (205481600000000, 51370400000000, 31851700));
  (0xe65a23ca4c004b081e94c9eba9dd39265da366b25f60aa5a62d585e3b953a16d, (20548160000000, 5137040000000, 3185170));
  (0xe66b8062a68d2786977a92760e08a844212408162c94e7e759480ac3e3ff992b, (410963200000000, 102740800000000, 63703400));
  (0xe66f68e353cc0b42c29213ad9fb3b85d4662ffeac9769df91b20d2ea9cbb974e, (30822240000000, 7705560000000, 4777750));
  (0xe6732850ce632d92189c2a3632c36f88d9293592d86dbda26b511a454edf9b52, (20548160000000, 5137040000000, 3185170));
  (0xe684662fac1becde1fe2bb01e5753ab9c6cb5894b42e77238d259b714873d975, (10274080000000, 2568520000000, 1592580));
  (0xe684c01611e1f48d737b2d63bf05d8e05232e1ec7ca24d938d8538d78abcf176, (20548160000000, 5137040000000, 3185170));
  (0xe68d436f83de48d5f4369b70c4ee6b8cfe8b106a5e5518be179e31673878dc32, (14383712000000, 3595928000000, 2229620));
  (0xe6a078ea55c2cba90fbc24a9d463d7841c72e2c1b54fa36e3f3d9a269ea99d5c, (210104936000000, 52526234000000, 32568300));
  (0xe6b7b61fc135342c15a4de049fe3eb3df4cff307f085d9e670c2ef19e8d18244, (20548160000000, 5137040000000, 3185170));
  (0xe6b912626c9dfa3cd9e65b4412b19eb9d123edb1aa22d492a58a88091c483a7a, (10274080000000, 2568520000000, 1592580));
  (0xe6bcf21acf61ba88f5734a6568d4b906759fad645b1b452cfdbd2131b759c39c, (61644480000000, 15411120000000, 9555510));
  (0xe6c1a2ae321d486878eb609ef35e463f891a229f5283f949ba4a4355183af250, (102740800000000, 25685200000000, 15925800));
  (0xe6ccf95cc68d2dc5faf0b2053fd7a2b44f246d0faae693e8dbbb013e33694372, (41096320000000, 10274080000000, 6370340));
  (0xe6d6b52a30e426b7b2a365a3c284161cffc9512024fbcb8913277a43b57ce075, (10274080000000, 2568520000000, 1592580));
  (0xe6dd0a94c6dc8091d357cf0092af2f8e108daf432d02d27dcb7ffd019d98a509, (10274080000000, 2568520000000, 1592580));
  (0xe6ecb0a120784c7c5cd97ea9e0251cd97f781d1d2ffea3cebebcc44df414445b, (10274080000000, 2568520000000, 1592580));
  (0xe8031f68585f8f91cfbb2e1e82e46581c8d75a2e479d841b8b60a861a9ad231c, (20548160000000, 5137040000000, 3185170));
  (0xe82d8d14d53e19ba2af5d91bacf0671058582cf37cd1914b37159b216759cd75, (20548160000000, 5137040000000, 3185170));
  (0xe82dad213b1037aa9f3c28509d555a5722a3eabff1024d2177b3c8b03f1b421b, (20548160000000, 5137040000000, 3185170));
  (0xe84310eaeea52b3eb4f3369a3ca601725c1b30460918c92deeee01c81fa6586c, (20548160000000, 5137040000000, 3185170));
  (0xe843bc44077fb3a146a68dc6c8867a2a63a73052be6eedb64a7e46a211cdbb51, (20548160000000, 5137040000000, 3185170));
  (0xe85dac69b362ce7c36df50ef5155a7c9af5114a5b47ed603286cc2b18673d14f, (24657792000000, 6164448000000, 3822200));
  (0xe8740f53d38f8b94dabe1ec3395d7bb418c4d2e9a8f7672e4f452a008d394b38, (51370400000000, 12842600000000, 7962920));
  (0xe87be1a78069cc907f7dedcae2e6676ba8412ba93b524120631d8a3e8a43857a, (41096320000000, 10274080000000, 6370340));
  (0xe880976ef5fed2664ccf0e0d5b7b4053e16523372cebc2329efee0286f3ff156, (20548160000000, 5137040000000, 3185170));
  (0xe882748519ed9891132d963f05f5bb060d64d29641b5ff0dd4c9f6796261e545, (20548160000000, 5137040000000, 3185170));
  (0xe895ba38025912ff362bcc4ab998b920deef2c7fac08a0649c7b6f473a640b79, (10274080000000, 2568520000000, 1592580));
  (0xe8998420446bcf3e1675d2ef81baeac65ff133c8586fe103427b89555f9c433f, (10274080000000, 2568520000000, 1592580));
  (0xe8ad1af6237a263c88dc004bacd7f4bb874df8b4b41f552f0c442cc948e0f12a, (10274080000000, 2568520000000, 1592580));
  (0xe8adcd37520f995f575ad4d12a1d0f536770a02aa85a17d46632ad5dcd94aa55, (102740800000000, 25685200000000, 15925800));
  (0xe8b273180dd49316aab915d9a5d4ad2d4049ac0d59da63e926cbbb3dd0821d39, (1894540352000000, 473635088000000, 293673000));
  (0xe8c29d64925b61aa2a1fbfcd60cf563f5cca82b9ee4578ee13b7e9e6f3d3654f, (206509008000000, 51627252000000, 32010900));
  (0xe8d2624df93b251f44b259f699960d587546d6b53bec4b6803c78efdbfb2451f, (330825376000000, 82706344000000, 51281200));
  (0xe8d8fa04c1088b8b062ed73f4b63a60ca3e2f21d0d387c95c7e9522c5728b478, (72945968000000, 18236492000000, 11307300));
  (0xe8d9cd26b97f773e4a6d6944806b111ffa2ac2e919a19e6aad89d3c35e9a493e, (71918560000000, 17979640000000, 11148100));
  (0xe8e25a42234de659cd5428665fefaa8ed133f1e14d5f374dc9bd3eb85bba907f, (133563040000000, 33390760000000, 20703600));
  (0xe8f0db1d1dedde54ebf5ee0ac1bddf5cd1e189c02a50b475818c1e7f89e4702d, (43151136000000, 10787784000000, 6688850));
  (0xe8f39e0796093e73cf688e6f22b352206bf97f49e110c49631565ba5dec05528, (10274080000000, 2568520000000, 1592580));
  (0xe8f3f05384b9acfa2ce37dcba8e6384d9695e5ad9eac93a4c1c07856568b2d1d, (41096320000000, 10274080000000, 6370340));
  (0xe8f50dfff561bf61201bd43110c04dc872fa32b91d265f2b433e4e2f37669232, (12328896000000, 3082224000000, 1911100));
  (0xe8f8419fa1b0ec35937e4738dbaa57a51370865389516443f1fed80e9d881978, (30822240000000, 7705560000000, 4777750));
  (0xe8fd10ac50a5480d30aacc9221df547b24b491964cea772bc74a7b40c2788223, (211646048000000, 52911512000000, 32807200));
  (0xea12014b86c2e846e870b7538ffbe8b960ca9743b737c141ab3f28a946a3e94d, (20548160000000, 5137040000000, 3185170));
  (0xea13b4d9d1287aa9ea3206ae9cbe126a32393a15f8419726decc938521634f52, (39041504000000, 9760376000000, 6051820));
  (0xea1a8ab5b06e8327b84d985868e9587f29d82cd4e58704c268eaa1ad1c9edb7b, (283461867200000, 70865466800000, 43939400));
  (0xea1ab2ab0fa4fdb2a338735bd873c78f4320e222a2b55d651d280f28e88fe557, (41096320000000, 10274080000000, 6370340));
  (0xea214a5c8fc838df92ee957e50c589fddeaca9ed9f62ac0a1b7310ddd733b860, (30822240000000, 7705560000000, 4777750));
  (0xea2162373ac0d6200710430fe97c6322aae5fb0c027328f6f78a9e2cf4c1306d, (10274080000000, 2568520000000, 1592580));
  (0xea2d397f62ad42660dc3ecc015d2570ffbd90b06077cedea6b2bf2220e067662, (51370400000000, 12842600000000, 7962920));
  (0xea2e60ca4ed45a747e1387c4c2738ee68c568a0a59dcbeb338d06a3e29a2b54d, (1023298368000000, 255824592000000, 158621000));
  (0xea43d9cacc2fb509ddf0d5ada4797dc2de72c89d90e9cc32b8920c0915bc0a35, (49315584000000, 12328896000000, 7644400));
  (0xea515ed6bff0b6d441ec53a19dbfd2d8fd45082190533cc55cb72c300bc0522c, (205481600000000, 51370400000000, 31851700));
  (0xea7ab65e182ae9a2a41690bec7dc4ca46250e9436ec1b7b02453741d0cf8ad3a, (57534848000000, 14383712000000, 8918470));
  (0xea7af2a947e723c881c2eb3266e1fb6586e51cb0a4f9d7e606c48934caa03125, (20548160000000, 5137040000000, 3185170));
  (0xea81e36ea7fc7cd72f85b24cce478821bdcab01843fcd5b48faaac805844910e, (16438528000000, 4109632000000, 2548130));
  (0xea86c7da92733b8e4325010a9151f4f6eec349bd614c614e1f55a5db7ab1c421, (30822240000000, 7705560000000, 4777750));
  (0xea87df1b59440afa3a829a9c0c5bf224edf66417cd0b24c0670b552afc29087b, (513704000000000, 128426000000000, 79629200));
  (0xea8888bcb302986a41f297cc6dba03e42b558b858b4cfa6ff5ccf5785166ad72, (205481600000000, 51370400000000, 31851700));
  (0xea8c0721f32f39dbe742aaaff5b66a96ba60b395aa6baed906ad4d0479427367, (41096320000000, 10274080000000, 6370340));
  (0xea90ae0df73ccffd58f29ad13712b81262684c84fb34b3402cd0222ac5ab680e, (20753641600000, 5188410400000, 3217020));
  (0xeab92bdfd20b6f110af5d20a678c95022b2768b405d487e699d8d306fbb2ff71, (51370400000000, 12842600000000, 7962920));
  (0xeac36c0080b1273a8659ee039562e58a387edf6cb5480e7ba99a84a306258555, (10274080000000, 2568520000000, 1592580));
  (0xeacbb0018461115b2602dd76d89635fcba0eb37b4050d77f77690a46f21a8e7f, (102740800000000, 25685200000000, 15925800));
  (0xeade1018f783f91ce52a23dc2833402de9bff2c1071a3a4f19ceb5bfa3bc100f, (10274080000000000, 2568520000000000, 1592584000));
  (0xeadf7f954d32d3170cd024a1ca07f245d968cf6609ff8eedb25cf36541c38b17, (10274080000000, 2568520000000, 1592580));
  (0xeaf474dd98bffe28ade49ecc75ff55d4352de44d0fa72abc6adab048a9133675, (10274080000000, 2568520000000, 1592580));
  (0xeafd2ede093d3ad277937cce89d6299a6bbc1c6ef9d9bc3995a4968f7797cf37, (10274080000000, 2568520000000, 1592580));
  (0xeafd335364558bde069fac1c803ce5ea786c4353731aacb2fc366d0e3e6d6448, (10274080000000, 2568520000000, 1592580));
  (0xec010b94c65d40310d8f8d5552708fce576b77774b002c0bcac3284eea3f5811, (12328896000000, 3082224000000, 1911100));
  (0xec0ffee4080b73b891121a97563c161db9b939f11d483409b3669d703bbb3820, (61644480000000, 15411120000000, 9555510));
  (0xec150282f92b5dd0fd0e3fba8505736d9cafff5846c401c4dffaed7b52ea7f3f, (203426784000000, 50856696000000, 31533200));
  (0xec171d160f664702d56d108cefe514cb0791ab820b2787e9910c154f67aef04b, (410963200000000, 102740800000000, 63703400));
  (0xec1b4dda52c497ea151146124d9c2fa22374af49431c734a6a5dcce789fc085a, (205481600000000, 51370400000000, 31851700));
  (0xec1cae861791cb96b9cc111ab8ec2c0b264a2c177a638176c92bab386d96fb2d, (20548160000000, 5137040000000, 3185170));
  (0xec1dd3a11933892fb514b31071600705e5a64344400f6a9acc8c3ad82367917d, (16623461440000, 4155865360000, 2576800));
  (0xec20979c0a0a22a9286bc5d93450182e247d5039728672e8c00485973a560917, (20548160000000, 5137040000000, 3185170));
  (0xec313d2c35bd4ca5f94032ef48ce6cf9816326bf18da84f14472fb771cf66529, (83220048000000, 20805012000000, 12899900));
  (0xec3576d87dcb5a2d7445f6a4d5c93f07b44fb5c5a78de71728a18701aea3fa15, (20548160000000, 5137040000000, 3185170));
  (0xec42f674a24450d0ff1c0842bfcb18604d32892f634dee97d0f5f9f3e636e14e, (39041504000000, 9760376000000, 6051820));
  (0xec4490b727c58e4a475b8800116c41ceb90bd80c91ffbdc81ff707dbd6744033, (123288960000000, 30822240000000, 19111000));
  (0xec500dafbb79e04ab0269fd6feb6bfbfd9f77656e50dc27a8261ba98c1cbdc53, (41096320000000, 10274080000000, 6370340));
  (0xec5138e902c6f12ae78b90258e3758f7a4f5ebcd9add7d1ff1afca0fc9cc1b7c, (51370400000000, 12842600000000, 7962920));
  (0xec5296cfa3e0d89fa97f8951ba0725dc4a72c2d0b7ecca267d49c6564d13ea68, (20548160000000, 5137040000000, 3185170));
  (0xec53ad9aae204b8d9771dc7fec7d12daad0e0aaf75649839bfece056e0920f06, (20548160000000, 5137040000000, 3185170));
  (0xec612e2738f4036c6625247e729b89b2dc2087ff0ad9cecc7a44773c06d7bb4e, (3546612416000000, 886653104000000, 549760000));
  (0xec6befce723b4027b7b343e0c5440a19a014b7e080e960ad7f4da2fe00a16228, (219865312000000, 54966328000000, 34081330));
  (0xec6c73078c600833bb2abb7f579ba46240ce20e1701e6b113efbde847e870e6f, (782884896000000, 195721224000000, 121355000));
  (0xec6ef279de507190444d7ec7e96f1f0407a4f197c0266ecf34228be37c719002, (12328896000000, 3082224000000, 1911100));
  (0xec868ae65887cc265c5f727eafc9c0dc25ec9dd8ca45603bf9e72ddd3505c603, (10274080000000, 2568520000000, 1592580));
  (0xec8f0d0ce5247fcc677aab2043c20c4c7e5296cc448bcd469f54d6ba9872aa74, (20548160000000, 5137040000000, 3185170));
  (0xec91f5633769f0c1f2f2c5bd25f40faefbf5b992215059a0c47b87fe92d14001, (20548160000000, 5137040000000, 3185170));
  (0xec94aa8cdf3f1edc8fc96e7878b73305337eee36ec1ae6f18aed0ac948d93c72, (55603320960000, 13900830240000, 8619070));
  (0xec98218686d82fff0cf04e20bb407af17031ed473f1d4814f9e6c72e0415e35d, (41096320000000, 10274080000000, 6370340));
  (0xec9daf848b24cacc480bc0ff581f9482619730ce39a85077a8b71eb58f1b3511, (20548160000000, 5137040000000, 3185170));
  (0xeca02a9b52d76d20af3ae90bf5b94103c133d5527e16efd65a35dfaa37985d19, (2054816000000000, 513704000000000, 318517000));
  (0xeca14d686efebec73564c0e5e618d1aa2d875c0811b0b068aa6919d93ce84964, (41096320000000, 10274080000000, 6370340));
  (0xeca1cdf55de3468db400e6f6ce41c4b1f1c372040664bfcb8f453a17d8423918, (20548160000000, 5137040000000, 3185170));
  (0xeca220d9c20009ba6e51c17068024eedd05e5b5409e803bf2d2eb001bfd90244, (339044640000000, 84761160000000, 52555300));
  (0xecbd120502c30d392c9f8205c4b1ab2d6f34671448749ac825594332ec404c62, (10479561600000, 2619890400000, 1624440));
  (0xecbf8782e205f487695585cd1d59bfe1c59733bd61c6782fc64d8e8bbf362777, (18493344000000, 4623336000000, 2866650));
  (0xecc126f565f4bacfb7995ecb7976fe1ba23d51ac83de20b43565e3ae375a4c2f, (205481600000000, 51370400000000, 31851700));
  (0xecc8964bfb118a34e90984bfa2008d3eb594a1d2240d5520e997e83016253e17, (41096320000000, 10274080000000, 6370340));
  (0xecc907736f1038012b00a886419d8dc385faaaa9c1300c56a3cca378fdb40f31, (41096320000000, 10274080000000, 6370340));
  (0xecd56f36aacba17b8798051041ac93045f8c0011ab645291741d0d505fa5e667, (10274080000000, 2568520000000, 1592580));
  (0xece37455a1884681d42ac9b1e512fcf87255a672dcd1cce8c3ad43805506400a, (164385280000000, 41096320000000, 25481300));
  (0xecef3a91c92840fb38e4cd3e20a604c75992cda08df8135416e5f4504e3d681d, (20548160000000, 5137040000000, 3185170));
  (0xee0df920971093bb4565829587bc5614dc9009e2ffe3e5c4e53ee629b15aeb6e, (41096320000000, 10274080000000, 6370340));
  (0xee0e6916006475902eaab440cbf8eed98eb3f1d6c01b1c3a7cc9e608b2cc7a16, (49315584000000, 12328896000000, 7644400));
  (0xee0f207b3adb461b67ba3b3369832085476c03522e509b4fb0c43c5c0cedac71, (308222400000000, 77055600000000, 47777500));
  (0xee137b463662d344ec435f401bcc0a48fd89c982b2b609ded934b94d15807f40, (20548160000000, 5137040000000, 3185170));
  (0xee1605fe949a127bc198df93f5fc6e420168e5656d28770d0e9e9402ac842c51, (143837120000000, 35959280000000, 22296200));
  (0xee1a877d2827e63bfe304bc1ff0262bcc6102c703e6004ff5f428cd2e9060a65, (207536416000000, 51884104000000, 32170200));
  (0xee1ca9a15e725acbe69db6b6d1aa60f58d10a5e93d48a0dab29f782678ebd77d, (16438528000000, 4109632000000, 2548130));
  (0xee1ead5d94e684926edd7e2c254aef3a2c839412f17ced70e10324526c111d33, (51370400000000, 12842600000000, 7962920));
  (0xee20cdda70d20f6c45a7355ce768e258a93e24db7ae33e4679fd4d92da464567, (170549728000000, 42637432000000, 26436900));
  (0xee3712c047da14ded2d8d4c9d065fc89c2d0098804d4b9277b7cf8acb49b2338, (10274080000000, 2568520000000, 1592580));
  (0xee63c2f734686cfea49f1b989f7c348b3337c2b1250f270dbf896050a5851222, (349318720000000, 87329680000000, 54147900));
  (0xee666ad5849c2b2a338e7ca5723f39b7e23728047309cf2b01a5b8a779f53529, (20548160000000, 5137040000000, 3185170));
  (0xee6f9eb0e537bdeea4b952e9232516a5fbb9c8fb3d49522da2dac4fec6b4d952, (205481600000000, 51370400000000, 31851700));
  (0xee8278500ee1ffab87fee7f22d04e47223791ed7fcd18d685c7aa8985c45737d, (10274080000000, 2568520000000, 1592580));
  (0xee995f41ea8d34445ee36e73b1f44437ea7f758bbb1f1e89c9894066b013ca3d, (20548160000000, 5137040000000, 3185170));
  (0xee9b09909c4d6d45e947882d6ee3f268d15c493187b9b4ef083eab0eb4ffaf77, (61644480000000, 15411120000000, 9555510));
  (0xeea39739cf422a6c6b2f350d2efb92428b71b408ef76b64165c32fedb7d32f16, (102740800000000, 25685200000000, 15925800));
  (0xeea4844a60c7c8e13febbe95dfc2f65a81382cff0255f9475b21edabc83f8904, (1027408000000000, 256852000000000, 159258000));
  (0xeea6faa75ee8190778d965a8d68d83df182eb40db11a0ca4d1d485009a3e4c59, (1027408000000000, 256852000000000, 159258000));
  (0xeeaa10c6bf84fb32b17bc9494d7d498bca7690453fcf63e5b7c8542596ab3b11, (10274080000000, 2568520000000, 1592580));
  (0xeeaa3e6e92fd57aabf5a0ee11cab2f5d3d71819fa6c1dc1328b8ffae715f3c45, (13972748800000, 3493187200000, 2165910));
  (0xeeac0ef69b40858df728adab2398fd324550e86253c1a163eb7bccc6fea55230, (24657792000000, 6164448000000, 3822200));
  (0xeec23f30e4388c13c326531b7fc510dd5d34bd9a605439c6d47e8dadfbf14233, (22602976000000, 5650744000000, 3503690));
  (0xeec5a77429feb2a0406cf530d15b0cb7dc2ebe56b5af912ef28726283b04dd01, (63699296000000, 15924824000000, 9874020));
  (0xeec6b2161e2798eb18b77f5af97cd0bad0ab3ef5a353611aef58ea5d8ce23328, (61644480000000, 15411120000000, 9555510));
  (0xeed5c4efc1fee3ce3b60f7de0bd56f374b7092612cd929ccd41f47d8d509893f, (10274080000000, 2568520000000, 1592580));
  (0xeeedb00e5ef97adb7932ed85211cc74135271f819949b85f8ba43bf73bc1e736, (23219420800000, 5804855200000, 3599240));
  (0xeeee9ae08b64b4147b22d31139804732d717ca45c9fdc6cd19434ffa46205101, (148254974400000, 37063743600000, 22981000));
  (0xeef599d05037e8ea986ead017b1c1be6a396c91c9be15e1e218aa4c28f70ad47, (387291719700000, 96822929920000, 60034100))
].
Definition rows_17 : list Row := [
  (0xeef73acfe1a8fdbe526e746823ce80f1a795c17e0a831ca84fe52e927226462f, (20548160000000, 5137040000000, 3185170));
  (0xeefdb0883d6fa375ca7c4ad1af9295db45ad20ef1b46d061045d8d9d13533e78, (61644480000000, 15411120000000, 9555510));
  (0xf0153ba03f4dd447507bf79059d3455e02e46a836e5da1223ec27069fe87ce51, (61644480000000, 15411120000000, 9555510));
  (0xf018f810aed0a8522a466fe812b26b53bc871d77a996f8bea0688ad83147cd36, (20548160000000, 5137040000000, 3185170));
  (0xf01be45c080e0cd803bbdf6bd14752c27126bc7c39c374eb273d5255e2524362, (61644480000000, 15411120000000, 9555510));
  (0xf02aab0e652e35f594eceefa6771d4cc57c65d391bd17f673244e445239cec14, (513704000000000, 128426000000000, 79629200));
  (0xf02efec801456929b307a867e724abb6dc8c66415ac7879d836c6f80ad7f317b, (484936576000000, 121234144000000, 75170000));
  (0xf041ef907d11c4cf121e56f109a8751bb3819e0b43c3f3b695caf63dcf336376, (20548160000000, 5137040000000, 3185170));
  (0xf04a44af9906d34d2228aa95fe42c463d12e1938d4979efc3613a15099d82e68, (61644480000000, 15411120000000, 9555510));
  (0xf052477255ee74671a506026ddb4ff83d01176eda2276ef58432bb14b6bd9128, (31849648000000, 7962412000000, 4937010));
  (0xf053d2186e5485cd58b6421bf967d12f50e82ee657c52b2b6a63d33b22ec6e48, (20548160000000, 5137040000000, 3185170));
  (0xf05458f4e1673800c5357142ca2d55ee9a678dd2f1d93115ba2105d0ee3b0c2f, (10274080000000, 2568520000000, 1592580));
  (0xf05df1f61e3e06df9e542d4c5b771bf114ebc82564a806a205409d9e88217827, (205481600000000, 51370400000000, 31851700));
  (0xf060e5563e7f6415beaacbd5e523ef91da26fab386f84e44904ceb1b280edd4e, (58973219200000, 14743304800000, 9141430));
  (0xf064e1ef5a1d8872ded04f7eecba4a5c8c480cd5b44fdd12ea8ae6ea3a951e4f, (308222400000000, 77055600000000, 47777500));
  (0xf069eced58bb53cfe929c78e25bd76a72623946767955be1db737cbc5fea0b03, (123288960000000, 30822240000000, 19111000));
  (0xf06e8c284a453cecbc5272305f0bd9853cb1bec1f139ff2ba6e92eef179a9659, (246577920000000, 61644480000000, 38222000));
  (0xf0730de251f105708f42cbc08937fe5b7270cd684a3b50d3811da06f52a3aa03, (71918560000000, 17979640000000, 11148100));
  (0xf0860b6ee2063c1a33f68232e39f71a408f2e32cbc9c0e538b0c9f03234cb52c, (20548160000000, 5137040000000, 3185170));
  (0xf0894c17d34c14a3e5cb278709771e710aed8bd095735297537fe4c3ead00b5b, (65754112000000, 16438528000000, 10192500));
  (0xf08ffb152a8c6f178583d0363eb5dd50e3fa99e94d384f852ee2ad0ef8b2ca6d, (20548160000000, 5137040000000, 3185170));
  (0xf09d4b4456d1079b03d29bc5531ff8233489486e58067352f6ff784aca6aa120, (82192640000000, 20548160000000, 12740700));
  (0xf0c105e51711af6a46412f85730acafe69c01ae46e80be65e320e03c4122dc3f, (71918560000000, 17979640000000, 11148100));
  (0xf0e1a9daca7d9b80dc950c050f3702d3c096509ce5382bfec6bec27db6de5e13, (39041504000000, 9760376000000, 6051820));
  (0xf0e1ed5fe9dd092fafae4089f8a1a43b0dc4cab29bb195539f0b3f31a0b89014, (20548160000000, 5137040000000, 3185170));
  (0xf0e451c920ce3ae1839e852cf3be379038dedb203ab12a83b2a271595d52a92f, (20548160000000, 5137040000000, 3185170));
  (0xf0ea42d519394944dc11a65f3ec1870e28c60a974e7dc69f19c0feebe5f79475, (30822240000000, 7705560000000, 4777750));
  (0xf0f892a0ae5446c36fca97677af38b692924700dea0c126ace62c0d35f4a8422, (28767424000000, 7191856000000, 4459240));
  (0xf0fccb6916007f6b7feb925ded57804822308bd73ec6a1151e08f6e6bda73e77, (154111200000000, 38527800000000, 23888800));
  (0xf202d10fa24b163ccf9f77074c792ed7b742e4d699b1937dd3ecfc18afd1630b, (205481600000000, 51370400000000, 31851700));
  (0xf215d40eb8dbcdda23c23cd4cc86f7cf287981d1d3fe671e8c291cdfc74bdf43, (1027408000000000, 256852000000000, 159258000));
  (0xf218273b096c21a4da5ed21f002380e92a5e2116862c1ed040685f24087a963a, (20548160000000, 5137040000000, 3185170));
  (0xf2257bcedd103cd6dd691a4a4fedcf40eeb59b81044ae6214ed19c3415818a2a, (51370400000000000, 12842600000000000, 7962922000));
  (0xf228d1a14fa9c3793e45c3f0ee3557ba637d887a931337801555e7f15bf1945a, (18493344000000, 4623336000000, 2866650));
  (0xf233defaa2f940897f75857e560544c1a8ddbacb327f9ccdd6955d1a54c2a200, (41096320000000, 10274080000000, 6370340));
  (0xf235cc376d7eed3ea6c099f336fc4731a973e9156d9f12a459c4f211c3957a5d, (102740800000000, 25685200000000, 15925800));
  (0xf23dec9fb6930c520f06946e2e4e0198f220a2290aff1a2897a60c5a3f489826, (10274080000000, 2568520000000, 1592580));
  (0xf24865c02d15485b10ec8cb13b4cc64f99dd68343877ab9a4754d06eca586257, (10274080000000, 2568520000000, 1592580));
  (0xf24eea2d9561e235a6d133ded15d5726334b742a8d97fba5cabe9c239b3ac20a, (20548160000000, 5137040000000, 3185170));
  (0xf25310036cd0f223e2b02901f3aef4432f461d3b44c114528bc78d7006256208, (41096320000000, 10274080000000, 6370340));
  (0xf26677cdbb84f243adea7c3ebb8b267a2ca4f3f985f6d6570cecfae0d93e481e, (20548160000000, 5137040000000, 3185170));
  (0xf27623b0848349b87981688e62cbf9b075239515de3a4dfc0bf95d03c6697b34, (102740800000000, 25685200000000, 15925800));
  (0xf28111fe4216c49617fafbc4a538a28e7e99f98711e6f958499c1cccd06fd805, (61644480000000, 15411120000000, 9555510));
  (0xf284f387a8557602122d205a5f86fd7c50fc44bc022a728598e7238d30bf7702, (41096320000000, 10274080000000, 6370340));
  (0xf288f19f1f48d9e132c0f1f95ae1889f25e1936b47003541f98c60db56e39d17, (287674240000000, 71918560000000, 44592400));
  (0xf28b0c9f29d31e68e27720e4a2a3ce133c799c581e15f5e71628b0503b88b34e, (20548160000000, 5137040000000, 3185170));
  (0xf28c4ea18552e2b19a83ee99df8ab8901fe127c4f0169510fd04377c6ceede36, (102740800000000, 25685200000000, 15925800));
  (0xf290b137b67c758d55ce9edb132f6fb2a0a24a6f47b2941b633f8fecc921564c, (52397808000000, 13099452000000, 8122180));
  (0xf294ed85027712de5b17ea22f60369d7c7a1ac2ffb7c38d2778ae99ff174766a, (14383712000000, 3595928000000, 2229620));
  (0xf29a31b11301611a0e539485131b4a389b329d86b111bf7f6bc8f726ed64a850, (195207520000000, 48801880000000, 30259100));
  (0xf2a1c13636902d95a39e1893e47acd5aacff1e5c7dab8976bd9199ee4fc5ed7d, (41096320000000, 10274080000000, 6370340));
  (0xf2abefac0ff6936fce991e7483b0504828e9bfb400431e369f9ca1fd32d93749, (205481600000000, 51370400000000, 31851700));
  (0xf2b8b0394a17b9215365febe773e59c5fc0825087d8954196b4db831e5700144, (20548160000000, 5137040000000, 3185170));
  (0xf2bc27876b493156f3c93066fbb4eb25ce4d6324d2c0393415a15fdbbeb41109, (41096320000000, 10274080000000, 6370340));
  (0xf2c0eaec35d87de36017349ba7beb641d7d9354ed43ce8423937d65825542771, (24657792000000, 6164448000000, 3822200));
  (0xf2c1fe4111e08813c1926cdd2fa79607c30f58668df131b7ba01ae101c722a66, (20548160000000, 5137040000000, 3185170));
  (0xf2c9f7d2cf7ec5866c64b1b784ce320d89e2144abc4996925488d7409fe52a5a, (306167584000000, 76541896000000, 47459000));
  (0xf2d031e469750ec3ea267eb57d9d552d0844925c39e3971199fc2bd8bf028f10, (1432206752000000, 358051688000000, 222006000));
  (0xf2d30ac10e6808039ed7604be73072fba601c5c6c0a2f09cd9d4bbfa4849b108, (82192640000000, 20548160000000, 12740700));
  (0xf2da1c62f1bbaae96dc57724e36486ccb4c189405b45ff589c24eab694a32202, (29014001920000, 7253500480000, 4497460));
  (0xf2e14115dcac02fc90e10e3ba8703a2420a0ea3c3e241ff96006ecfa14ec3554, (10274080000000, 2568520000000, 1592580));
  (0xf2e1b75b9af8f10b264447cdf386665f2f2c19588d891a2b50fb00ad6d3de90e, (12328896000000, 3082224000000, 1911100));
  (0xf2e21d45cd992dd1da9b630379a9387e86f3f11230bb2cfc923a71ef3d09215d, (61644480000000, 15411120000000, 9555510));
  (0xf2e549d458b19ce6592354de5cbb112aa5286be962a9869ec6ec95edb3a39552, (51370400000000, 12842600000000, 7962920));
  (0xf2f77faf81bc933c1008dbb83c831b6a593b94ac1e1f52e42cfb2f3d32920d3f, (76028192000000, 19007048000000, 11785100));
  (0xf40949ab61a9d7a8c967980a87dd75f2f7c9d8b1fd0c62847d7e9fabeb59265a, (10274080000000, 2568520000000, 1592580));
  (0xf409c9319b4afcff6a2c2833962c0e88c80a175aa67aca6108ad324c9de4e323, (91644793600000, 22911198400000, 14205900));
  (0xf41ee4fa94b8746a04022b7947de4cb6ed5e673e09b3fec447669a444986a657, (10274080000000, 2568520000000, 1592580));
  (0xf41fb4e8b16c8c22b6b8f79cbd2b63315af8397e9c07c82f6acbb09d03c9991a, (429456544000000, 107364136000000, 66570000));
  (0xf422bdec06b32942fde0c38c94169f4eecd04216ecf8e852a161945721e96345, (1027408000000000, 256852000000000, 159258000));
  (0xf42340447a1655d7c52af30278707d52d979068f8ffad3248da1d5c3f8b5e30e, (13356304000000, 3339076000000, 2070360));
  (0xf4333d88cdb303cf386a62d1558322cdefa47c059d35958c23ecc31f33b5e52e, (20548160000000, 5137040000000, 3185170));
  (0xf4346f68f9cc68689f0f07f5fc6bdc07a364053669dbc18184ea9fd97bae8267, (61644480000000, 15411120000000, 9555510));
  (0xf43dea2945e8400d5bf424f9fa7057734d2be47c10913cb19252413d9749e325, (12328896000000, 3082224000000, 1911100));
  (0xf443e2b67173d1509eeb1febbddf726fbd07276d1032f9e1078868abed3a4b09, (154111200000000, 38527800000000, 23888800));
  (0xf44bc82de42e0d02922e2ded45639e1047628cc996ffdbc28e678107375bb802, (10274080000000, 2568520000000, 1592580));
  (0xf44fbadeafd646cbde2b0b65b484f5e4618a8dc87a241b1083edf131d26ab669, (24657792000000, 6164448000000, 3822200));
  (0xf46606d8c454badd9d9c3fdc9d443e40bcd258c07dd4a1f1836dff913726fe4d, (18493344000000, 4623336000000, 2866650));
  (0xf46a8de896f4756223d168ab05ad733af3c45b4ab08384f5cb092afcb64fd562, (211010061900000, 52752515470000, 32708700));
  (0xf47dbdd82d40741fc5e175c61f99ea6c8503c9e5ac764cf234567ee6aad75974, (2054590587000000, 513647646700000, 318482000));
  (0xf494637c030a5f9b5e6989c3b54427e44d927f17f30fb2f92d484102a7b24137, (20589256320000, 5147314080000, 3191540));
  (0xf495309d22f770f6e7335dce5ba63efbe4cf7b429a83f4b7761f1c7f45a8d86a, (20548160000000, 5137040000000, 3185170));
  (0xf4a82f965f4f550ccc288739492726220fa49ed92359ef1c3913b31a3961d96e, (22602976000000, 5650744000000, 3503690));
  (0xf4b35e09aff3f469dbdac28af325a750b14a6c9af36853bb186dda6643d03a31, (20548160000000, 5137040000000, 3185170));
  (0xf4b5b36a035a4b00db05431a0ab7f7444e2d305788ff088a712f82b37b921c3d, (246577920000000, 61644480000000, 38222000));
  (0xf4b8ef6003468520224688b24049cde02a8dc99f85f8c097645df6135ea2c308, (207536416000000, 51884104000000, 32170200));
  (0xf4d8085af1a20fff51a9aea7ffe0c22faf41017a12eaf7624714ac7dca46f53d, (10274080000000, 2568520000000, 1592580));
  (0xf4d9726c53a8f9ec17f6b39c2c0929fe97953da87194d0f8babc1bc3abc43b6d, (41096320000000, 10274080000000, 6370340));
  (0xf4df3523270089b0d31706b3b5ca6d4381419ee2d855aabf1e3a5bd614ea7c7d, (39041504000000, 9760376000000, 6051820));
  (0xf4e655030d6ae29b669d708d65a2bb4828fef5cf61b2c786511023f6c2627664, (82192640000000, 20548160000000, 12740700));
  (0xf4f623f864b7adb1178f7f39595e8b402e5c883ceee66b3c8f5b979db752026b, (215755680000000, 53938920000000, 33444300));
  (0xf602ecf7ebaa6edce1217ad6dd75778871761fa7d6265fbfadaaed850c66042f, (41096320000000, 10274080000000, 6370340));
  (0xf60f550b7b700b0e804b64aa95288ef10d71c250a2fd896ae5f3671c565ec77a, (71918560000000, 17979640000000, 11148100));
  (0xf61323436ceb6dfe31bb44bea6c8420f1cb7244c0e351f71e9a35ae3f3d11b31, (302057952000000, 75514488000000, 46822000));
  (0xf61ad658d0f95684d0a9d61584abf8f21c6be8ec501edb056d9b933cd7237f17, (172604544000000, 43151136000000, 26755400));
  (0xf61e813a77b8e4d82e8969d3f5de1636b0a654d427d6de0d6937d27292e2812d, (41096320000000, 10274080000000, 6370340));
  (0xf6208a7d7ccf132d72fb97d560067800ca8fc6f63d819c1bcd17aae66aad053c, (61644480000000, 15411120000000, 9555510));
  (0xf63fa3a2d6bb2bd879807df215804edfcec6a9af5778af8c146bc9381db3ca4a, (10274080000000, 2568520000000, 1592580));
  (0xf644d7ba4cfbc584e959462982902c15aa1c694ac4734c4853434f821678416a, (12328896000000, 3082224000000, 1911100));
  (0xf6469bab30364c4cab6c6a9469ed57fa06f3207c9d9a8d2e18aea6c304d5fe06, (10274080000000, 2568520000000, 1592580));
  (0xf646a82b7f6ac0fca3614db37b7518def6fec0869568f514af66fb478231f62e, (73973376000000, 18493344000000, 11466600));
  (0xf6477af274aa4eeac12ae8b90e8f894c9094a1bc6e74acd83f2ed424cdd04129, (51370400000000, 12842600000000, 7962920));
  (0xf64d9602a774a3ebbb2089d125abf31dae2483d16b7c639a93cbe88b6a25084b, (237331248000000, 59332812000000, 36788700));
  (0xf651c476d62f4395a245aa8e133663bc9d795db7d7e3b19c00d9c6286ff03b43, (10274080000000, 2568520000000, 1592580));
  (0xf656b3e90c275241b06e1bc11f5521be355c43679442302e68377fdde0c38e77, (10274080000000, 2568520000000, 1592580));
  (0xf66feb814ac25f83651689430733c201c40bef9758bde3cb354266e8c9be805b, (1027408000000000, 256852000000000, 159258000));
  (0xf67af7a27080e26303d6e30d72175b7f9abb471f7ae5d6cc7727392f053abc4b, (20548160000000, 5137040000000, 3185170));
  (0xf67b5904f2866be6debdbc48f199ae620f75512edd7b5c267f509ef9b3951a01, (51370400000000, 12842600000000, 7962920));
  (0xf6a1116721a37469e6ede4d74062ba0176e0db4e2bb228977af1861fe8d0da4f, (359592800000000, 89898200000000, 55740500));
  (0xf6b191535dcb8b13b5096da4775d931c64cd20e106903975923bcce2aac9c306, (1407548960000000, 351887240000000, 218184000));
  (0xf6c785bb3743b84d694f8379a5f5c1941acad20a99a3bc5893f299413476005b, (230139392000000, 57534848000000, 35673900));
  (0xf6e585f569783ff32eccf2307c5a03f85ef135a60c256ed64bed434a16ab2e0b, (12328896000000, 3082224000000, 1911100));
  (0xf755a58cbd2b0c7c1d34148a8b4abd7f26bbf83c9b01c8631f195d0632476748, (100647106900000, 25161776720000, 15601300));
  (0xf808acb8823abd683f7d9dcf7d5d9637ce39288389d157061f3766d6fdabad10, (10274080000000, 2568520000000, 1592580));
  (0xf81926d72996a9d085b19b723664d927ef74cee89dbd4ff466d52f329aa95224, (20548160000000, 5137040000000, 3185170));
  (0xf82a4e0419dfa5f5a1d7166c932f6af1a0f0252fda193d9e8581707f25930131, (47260768000000, 11815192000000, 7325890));
  (0xf833be42334d00f3aeb4ad85093d83042a1238ecfc73d5cdb9531bac4565d655, (30822240000000, 7705560000000, 4777750));
  (0xf835ad3317415c494ad132658789dba97f2c67109f076c2a0fc59af2294f5020, (10274080000000, 2568520000000, 1592580));
  (0xf836847b1d50f78b5372aa47e447731f48d55519415d96b4b0a933f0e85a6d4f, (246577920000000, 61644480000000, 38222000));
  (0xf8422db7e9b29e8a5c68f5a6e37351151058a5d4524650b529642bfd3d2ee117, (10274080000000, 2568520000000, 1592580));
  (0xf852556c66326d3df752aa9c17420059ee3095b2bca8d15e2161420116f9346b, (205481600000000, 51370400000000, 31851700));
  (0xf8547fde2d99534f00b548363ea18c47f8e72003b1097417f4d337080a94890b, (30822240000000, 7705560000000, 4777750));
  (0xf85deeec9d27125ff60e2061e47a89b6ee15604afa51624745e3547d77088c3d, (20548160000000, 5137040000000, 3185170));
  (0xf85e2e55ffc3c3b2c1800f1a339f0bb9123bb60d3ee114f16fa0fec50506d370, (10274080000000, 2568520000000, 1592580));
  (0xf86306ba4515aec5ece41b8efed73ed34ad0ec8955e8ad312c91693e172f7933, (205481600000000, 51370400000000, 31851700));
  (0xf86508969513d66f6d59051d0b81357e64c381c95460c0ac4aab1944213d503d, (26712608000000, 6678152000000, 4140720));
  (0xf86c1452571f0eae1fcfb4342991ca2af17d52397606808a4960665948c7bf29, (18493344000000, 4623336000000, 2866650));
  (0xf87678bd5528c70629f45062a7cafe23fbbffcfeadbf770bc5bfd08987ea622e, (71918560000000, 17979640000000, 11148100));
  (0xf87bc2f7283717632bcb05c61dc6344405e359de8b7c5cc1c2c11fd9c0f8fb59, (102740800000000, 25685200000000, 15925800));
  (0xf8822570bea44b9eed9c0b65f5df7ccc61980076444ce62cebd69e58c5530a43, (10274080000000, 2568520000000, 1592580));
  (0xf8838249d5de47c21941ae15227313f6e624a73a9d86b1695364824c6a6c682f, (1037682080000000, 259420520000000, 160851000));
  (0xf88a6ed7178b4a7baecf8b663fa923397fa7d05e84623da8277fd8b24eee3a01, (20548160000000, 5137040000000, 3185170));
  (0xf8962d09e25a9b366ada05c91128f2e913262e46464bbc22de71258a09b3fe8b, (3719216960000000, 929804240000000, 576516000));
  (0xf89f7d1e80eda0af0fd63c563dd0e6a7311f18df5e71739dfd3996a4d7776770, (61644480000000, 15411120000000, 9555510));
  (0xf8a586ac458f32e2a5b1c0e0a7a738a3da47bea987f148c12acfb34c76cefb0c, (316441664000000, 79110416000000, 49051600));
  (0xf8c17f18eaf7f5eac02392d561b924edb538518b13b0d3382aa8c4fda2534c13, (20548160000000, 5137040000000, 3185170));
  (0xf8c3604e1674696cbc56a715fd64d93eee402ca971b638e2bbcbac8b8612a452, (410963200000000, 102740800000000, 63703400));
  (0xf8c754fb4d4afce227e9ac062a5fcb06f3f6316065933eaf7305289a3c86c410, (123288960000000, 30822240000000, 19111000));
  (0xf8ca588913e388ff3b288a3aa8f0dd5db8ec75c621e72bbbcc19b4cfdd20f071, (20753641600000, 5188410400000, 3217020));
  (0xf8cf3ed2ea6fda4e1e7414fba95e7ede910097f24ea588cecb91a93732eeae6c, (10274080000000, 2568520000000, 1592580));
  (0xf8e1f253212d7085bd421201f83114149ef436d8fcf837ff73a4b3487fcbe735, (14383712000000, 3595928000000, 2229620));
  (0xfa010648f315b48948ac32333ce0b5948d094ba9983bf14497a5611091b55c6e, (102740800000000, 25685200000000, 15925800));
  (0xfa185761c9858eea58bc5d5086d7a5c487beb4960849feebc3b68155cd204100, (12328896000000, 3082224000000, 1911100));
  (0xfa244c9c703309019ed6e40835598a1bb9bde3c5a34184a9ea18af5c4ba47474, (935249502400000, 233812375600000, 144973000));
  (0xfa29beb05269a1728df784b52498b9076f4ddc15ee6d10c362e301d27646c930, (308222400000000, 77055600000000, 47777500));
  (0xfa2d25448af80ad9702ebfabc5bad7faefeba40c3fa13c07b240d259585c9956, (20548160000000, 5137040000000, 3185170));
  (0xfa410b1fca16bdbfd1595abc8cc6e4dc5fd3cdcc3aac1be6f207006327a75c03, (117329993600000, 29332498400000, 18187300));
  (0xfa4c9ba408fa2109da1733feeb9b1e6fcb4f0f162c3850975aa7acb971996f69, (205481600000000, 51370400000000, 31851700));
  (0xfa5571bda08a48fd0c8eb01e10774784dd27f6bdff73ef9e76816a42d93f2e53, (205481600000000, 51370400000000, 31851700));
  (0xfa56b70b3b410af91306f6223cf9a33e1b207041147b15880a604d4e7eae731f, (10274080000000, 2568520000000, 1592580));
  (0xfa65bcf980da592d2fdeba76dec46f7702f54746e23fc44bcc0bc3641e000101, (10274080000000, 2568520000000, 1592580));
  (0xfa7236d9c10a4e1541bc873f05df7cebada4aaf4df4848a3a8e59ca0b767032a, (20548160000000, 5137040000000, 3185170));
  (0xfa72e5c2a7413f16d73118f538eb6e24b887dd5a23c5da5997937b6a77d2b70f, (10274080000000, 2568520000000, 1592580));
  (0xfa822fd4afd880eceabdc8f7643450721696bc0f664d97bd96b652f749d5484f, (10274080000000, 2568520000000, 1592580));
  (0xfa86fdc572e89e11693207babe8dd1bc02f6e157136c2f176f327454e79a9428, (6160338368000000, 1540084592000000, 954914000));
  (0xfa90109a5c09d21f5cc868a5d96cfdee6d3608f99ecb0c6ef23a0f44725b7967, (10274080000000, 2568520000000, 1592580));
  (0xfaa2f3bb7c4ae31b8d890c1ad7390c117e989eb1591acfe11fc1be55c1c98e04, (26712608000000, 6678152000000, 4140720));
  (0xfaa57bab7f985532afec2c3a8aa3d58ca82cc4d2fe34bf8273c87ca770f5c765, (24657792000000, 6164448000000, 3822200));
  (0xfaac9c1b14c69c647e54b08a929d294a71c3e303b335dfd860f5409bb846ef75, (41096320000000, 10274080000000, 6370340));
  (0xfac0559a49bc2e39e6a9b91e116d1edfe467d80696ff8eb210dda53d5a531855, (16438528000000, 4109632000000, 2548130));
  (0xfac7c597e19f202dcafd43a613d5313dcaa562bec502ccf9eaa69ac8c756d42d, (35959280000000, 8989820000000, 5574050));
  (0xfaccb415603e91ef7acd73a8301327d215e42806019e2ea503497b3331b86314, (61644480000000, 15411120000000, 9555510));
  (0xfad026c5c8763dd21fab32b96b4cd24d1e1991e5ad3dc72fdebe41ac2d42ad70, (10274080000000, 2568520000000, 1592580));
  (0xfae413f039276d0931b1aadf7ea70ac9d65220859dab34571bc0b1ed169fb670, (10274080000000, 2568520000000, 1592580));
  (0xfae8fae58a37ed61ccb56ec76d1da8afa3c02b0af0ffcd24910002c89896f461, (22602976000000, 5650744000000, 3503680));
  (0xfae9dff135db7f007cb50e0c68156b4b25c5929406a2c1753b87c68c2c95d859, (41096320000000, 10274080000000, 6370340));
  (0xfaf3b888387003d1dfc5f20683a5acd9777cc7a76b37187af91375b4633a581a, (20548160000000000, 5137040000000000, 3185169000));
  (0xfc0297afe08648c61f32cd3e302f71bf05c56f39d86e3dcb9728037c2397423f, (102740800000000, 25685200000000, 15925800));
  (0xfc06e479f9ca3a9ec6f35c195426185a50c5a64aea4044b21fa2994673d65105, (410963200000000, 102740800000000, 63703400));
  (0xfc0a9e677da78cb8b43120c72398159543d0d50966102c8e732397c86eb02f11, (10274080000000, 2568520000000, 1592580));
  (0xfc0c7d7eaa516650bf542f709a1c28950d17cbae75d918fb8aba6a0e26a1423f, (20548160000000, 5137040000000, 3185170));
  (0xfc18b9f60085841f85f059e30ddf53a7be70b777648c8d68e32603f418cfa03c, (35342835200000, 8835708800000, 5478490));
  (0xfc2773c4d31c8876a43432806c8e9a33c04cb536800b705afbbf2ac0df487312, (205481600000000, 51370400000000, 31851700));
  (0xfc277f9c2d06fbda13e92741dc41c39872479e96a863d0368490f20fd1a3b91a, (821926400000000, 205481600000000, 127407000));
  (0xfc3da081fcd1bc907f3b80a31998acfe73203114343fd87a4c298963746f4e09, (10274080000000, 2568520000000, 1592580));
  (0xfc42e1a03237217a06e060a0d009aba8dd774b0e52f7b5aa4c0d7728dfebed11, (45205952000000, 11301488000000, 7007370));
  (0xfc4cf9d216c9a614c1a9a68492ae5cf9626022113a47abc832200a5bbb9b5e2d, (78083008000000, 19520752000000, 12103680));
  (0xfc4de00c7f423d75137d45b8e4800e62140500145b692508bd60bd9d54c4b224, (205481600000000, 51370400000000, 31851700));
  (0xfc5ec91b754244cb3a03ed40f764336d0cb2f87eed5aa457a7362efe43bf5456, (41096320000000, 10274080000000, 6370340));
  (0xfc618b8efebc070f463a4a032494c6b3c0331b3f8a895c3e1d3863176d56d830, (10274080000000, 2568520000000, 1592580));
  (0xfc69ac07d98af372c46d1473a7fc39ede77b31183a73ca84ec4c16120ebe7378, (257016385300000, 64254096320000, 39840100));
  (0xfc6ddc94c8d39d519618b0b301181c0c1329651283d0f1ce6bd04d0e14decf2b, (41096320000000, 10274080000000, 6370340));
  (0xfc6f1763096cfbd486ff06c04518a63bad56fddedc5a2ee99f7cdc6bb179fa71, (51370400000000, 12842600000000, 7962920));
  (0xfc6f2f53e61e0bf69d1c95aeb6ab3350a8c1ed8a687a557bbbc65ca9ffbf684c, (10274080000000, 2568520000000, 1592580));
  (0xfc7e3a2ad629b6587d974dc1e79f5a2f292b0e2c4ea858100b27d21f4ba6f90b, (1335630400000000, 333907600000000, 207036000));
  (0xfc818ad8c6c6d614417158f618fdc73f5dc1ac27ac625cb83bd3ab994fa5be63, (789049344000000, 197262336000000, 122310000));
  (0xfc9c4cced333c93df33e1d6a0f5de1a1f90463e080d2d1fe504f089f070c492b, (17712513920000, 4428128480000, 2745620));
  (0xfca4011d417db586a481ca54c879f66fa14f42b4ab8b05c7ce4773c16b807169, (10274080000000, 2568520000000, 1592580));
  (0xfca8032d7959b0b781d3039b7cb5bcabaa8e5595fb82989560569a2405fdb649, (10274080000000, 2568520000000, 1592580));
  (0xfcafd89ce0d7b7e09f84a05702b2bcb719426f2b1407f34f66fdd9e024504502, (10274080000000, 2568520000000, 1592580));
  (0xfcafe7f296ee796332dfa7ff46c922048aeef1530e52e3fd0b9c8bd788f66a56, (20548160000000, 5137040000000, 3185170));
  (0xfcb63982541537ca621ee062c49db2169cc06eff6f8ca654e9f270855f31f749, (211646048000000, 52911512000000, 32807200));
  (0xfcb643bca0db2d815c8e2946558d6f0559b74c05bfdbf6090757c87cd5e64153, (10274080000000, 2568520000000, 1592580));
  (0xfcb6578144b019d6c93ab9dcd317c57f206925cb960c9530e63f3960d1fc103e, (207536416000000, 51884104000000, 32170200));
  (0xfcb66c83999b0137cb5d1b5f502ee72e923570e1641c1c2cc665f55a699c7446, (51370400000000, 12842600000000, 7962920));
  (0xfccbf4e92e19ab1477a6dd52163651b3c5e36110f308b9bb88f6f3befd11f95d, (10274080000000, 2568520000000, 1592580));
  (0xfcccab72ab0326c22c0e06c5ac4f74a93ed9d18282feec0abd8eda6bd0782e37, (51370400000000, 12842600000000, 7962920));
  (0xfcd9f3df1bc8ce79d02360dbca903a6166133481ae6586e8e7d813017d272309, (102740800000000, 25685200000000, 15925800));
  (0xfce8f9544c318b2d05129c3af8cba25b14c2ee54b1420bed5e509a1cbc2dad6f, (109316211200000, 27329052800000, 16945100));
  (0xfcefb56d868b647df53ad96ff6593177524cfe16badda33c6dd21e4103f1381f, (14383712000000, 3595928000000, 2229620))
].
Definition rows_18 : list Row := [
  (0xfcefbeed90ca84978d5f904a452085cd14bc701e504d6dab59f65601f8400357, (410963200000000, 102740800000000, 63703400));
  (0xfcf94f461946305f438447ba293acb2d8b324bb69e57851bdf4e68a32b26e914, (5159642976000000, 1289910744000000, 799796000));
  (0xfcfacd583e935bcea85bf395be1e49cf7fb0d7f76bc4fe17bbd63b4fcf613b0e, (20548160000000, 5137040000000, 3185170));
  (0xfcfc4de083f0d6f8d77c89b92571e6439a6187905f4daac5f509bde983285325, (10274080000000, 2568520000000, 1592580));
  (0xfcff86b8e0d0e4149722c4ee798ded4b2a018a844b9362fc2987fdf8e6da837e, (9283658688000000, 2320914672000000, 1439059000));
  (0xfcffa361664deee5de9ee56f988ee7eb6fe24a386e16850f1f35a8e3677e395a, (10274080000000, 2568520000000, 1592580));
  (0xfe02268b5b7aede86ed0e02d8666f44f751424096442a6028f388bae1d99f93f, (10274080000000, 2568520000000, 1592580));
  (0xfe11063fa4928a9820930b5179480be89221af99115f76848fef6ea66e957e12, (20548160000000, 5137040000000, 3185170));
  (0xfe1c303e91add5a4d3226c616d6be2cef8532b665ac36a9abadac886a4706d54, (51370400000000, 12842600000000, 7962920));
  (0xfe26c6a382c54db2d1de3db7953f5ee9fc3f91aa8990b3c66aa9b6ba0c5f783e, (10274080000000, 2568520000000, 1592580));
  (0xfe2b5c4e599984757cbdd0126376b7545a884389c22d14f992dc7702f780ef17, (20548160000000, 5137040000000, 3185170));
  (0xfe33523090d2b8783a4ae9b9281faad01540afb530c81167e3561903c5937a38, (45205952000000, 11301488000000, 7007370));
  (0xfe401339e7c3814563e949f8751c6aefb0c00bfd3743d7a12f12e8e0ca7d196a, (153083792000000, 38270948000000, 23729500));
  (0xfe489f9baf91406fa627c80111326db37190e95a3a608145957050f43e768d1d, (12328896000000, 3082224000000, 1911100));
  (0xfe6aaad26049dcad1194e36390f84b6ef61a164664962a97b2467bebc434a70e, (73973376000000, 18493344000000, 11466600));
  (0xfe6e6cc849ade39e6a5424f98ff3ed0b17fff022b502964ce91c2d86e40be211, (410963200000000, 102740800000000, 63703400));
  (0xfe8732b2d36bcb8a1fc2973b682a866caca0d8f2a6d09b517f40d056703cc073, (20548160000000, 5137040000000, 3185170));
  (0xfe8ed746b2f0fafda336e27346a75f2f03db0f73a3e73e1ca6deb3676e14d139, (20548160000000, 5137040000000, 3185170));
  (0xfe8f594a99edcbc1cdbf9d21ec408203a16a7d775bfde92fe38d31436c174772, (20548160000000, 5137040000000, 3185170));
  (0xfe9a46c47bde97304d32753331cde7dade45bd0389e5598530630e9b25aa6c77, (102740800000000, 25685200000000, 15925800));
  (0xfea18215152509fae505f1ab4a72f91a9f4f9ae7c5becebd59f23677e3d0223d, (41096320000000, 10274080000000, 6370340));
  (0xfea6d1c236e8468ddc88800ae56b178a5588d6d47c8c9827e399a7787a1ba779, (102740800000000, 25685200000000, 15925800));
  (0xfeba15cae952100b14986c8e44b2c594a410fa085ecd57d26a68d4e26e65676e, (41096320000000, 10274080000000, 6370340));
  (0xfebc10f6229b3f9a2dff37a23cf823d527d7a7260b35138d6be0cc20c1a2cb2b, (10274080000000, 2568520000000, 1592580));
  (0xfebc722c61e33a28d8e88d30a99c7630f34224f5dacfdeb71e52e143550bf142, (417127648000000, 104281912000000, 64658900));
  (0xfec00968ef5431ea09c95f828f4a90f909dcbb7582166453b283ca9cdee27b79, (205481600000000, 51370400000000, 31851700));
  (0xfec680b242d080400623ea0c6f7758a60ede833e1d51cac55bd06e9dfc08a642, (102740800000000, 25685200000000, 15925800));
  (0xfedcb7dbed3bd6bd626f9cad3fd9bb5153366f21f1499742bab0c66d652ac534, (20548160000000, 5137040000000, 3185170));
  (0xfee7963f8101048d07befcad70fb979792532209f5e0ce9288bc3c4a71a43954, (154111200000000, 38527800000000, 23888800));
  (0xfeefd3337c247090c2f21f969a7fd99036c4fcd1afca243ab40ce295e1ed3118, (205481600000000, 51370400000000, 31851700));
  (0xfef3560a6bc92e1d4606ccabe9e7b20893b48f3ba707cbebc2fd8543636b1a07, (10274080000000, 2568520000000, 1592580))
].

Definition table_rows : list Row :=
  rows_0 ++ rows_1 ++ rows_2 ++ rows_3 ++ rows_4 ++ rows_5 ++ rows_6 ++ rows_7 ++ rows_8 ++ rows_9 ++
  rows_10 ++ rows_11 ++ rows_12 ++ rows_13 ++ rows_14 ++ rows_15 ++ rows_16 ++ rows_17 ++ rows_18.
