(* ===== verification/Crowdloan.v ===== *)
(** * Crowdloan rewards with the real table

    The rewards pallet of [Rewards.v] takes the table of contributors as a parameter; here
    it is the one of [crowdloan_rewardees.rs].  What holds of each of its rows is checked by
    evaluation, and bounds what a cycle of rewards can ever pay. *)

From S2P Require Import Prelude Assets Types Chain Locks Rewards CrowdloanTable.

(** [AccountId::new] of the bytes that the number stands for *)
Definition account_of (k : Z) : AccountId := pad 32 (rev (le_bytes 32 k)).
Definition HASHMAP : list (AccountId * (Z * Z * Z)) := prod_map account_of id <$> table_rows.

(** ** Numbers and accounts *)
Lemma byte_of_Z_to_N z : Z.of_N (Byte.to_N (default x00 (Byte.of_N (Z.to_N (z mod 256))))) = z mod 256.
Proof.
  pose proof (Z.mod_pos_bound z 256 ltac:(lia)). destruct (Byte.of_N (Z.to_N (z mod 256))) as [b|] eqn:Hb; cbn.
  - apply Byte.to_of_N_iff in Hb. lia.
  - apply Byte.of_N_None_iff in Hb. lia.
Qed.
Lemma from_be_bytes_snoc l b : from_be_bytes (l ++ [b]) = 256 * from_be_bytes l + Z.of_N (Byte.to_N b).
Proof. unfold from_be_bytes. by rewrite foldl_app. Qed.
Lemma from_be_le n z : 0 ≤ z < 256 ^ Z.of_nat n → from_be_bytes (rev (le_bytes n z)) = z.
Proof.
  revert z. induction n as [|n IH]; intros z Hz; cbn [le_bytes rev].
  - change (256 ^ Z.of_nat 0) with 1 in Hz. cbn. lia.
  - rewrite Nat2Z.inj_succ, Z.pow_succ_r in Hz by lia. rewrite from_be_bytes_snoc, byte_of_Z_to_N, IH.
    + pose proof (Z.div_mod z 256). lia.
    + split; [apply Z.div_pos; lia|apply Z.div_lt_upper_bound; lia].
Qed.
Lemma pad_to_list n l : length l = n → vec_to_list (pad n l) = l.
Proof. revert l. induction n as [|n IH]; intros [|b l] Hl; cbn in *; [done..|]. by rewrite IH by lia. Qed.
Lemma length_le_bytes n z : length (le_bytes n z) = n.
Proof. revert z. induction n as [|n IH]; intros z; cbn; [done|]. by rewrite IH. Qed.
Lemma account_of_inj j k : 0 ≤ j < 2 ^ 256 → 0 ≤ k < 2 ^ 256 → account_of j = account_of k → j = k.
Proof.
  intros Hj Hk H%(f_equal vec_to_list). unfold account_of in H.
  rewrite !pad_to_list in H by (rewrite length_rev; apply length_le_bytes).
  rewrite <- (from_be_le 32 j), <- (from_be_le 32 k) by (change (256 ^ Z.of_nat 32) with (2 ^ 256); lia).
  by rewrite H.
Qed.

(** ** What each row satisfies *)

(** Greater than the row before, and amounts in order: more than the minimum in total, of
    which about a quarter at first, and the rest over four to five million blocks *)
Definition row_ok (r : Row) : bool :=
  let '(k, (total, initial, fac)) := r in
  (0 <=? k) && (k <? 2 ^ 256) && (MIN_REWARDS_CLAIMABLE_AMOUNT <? total)
  && (Z.abs (total - 4 * initial) <=? 20000000) && (0 <? initial) && (0 <? fac)
  && (fac * 4838379 <=? total - initial) && (total - initial <? fac * 4838421).
Fixpoint rows_sorted (prev : Z) (l : list Row) : bool :=
  match l with
  | [] => true
  | (k, _) :: l => (prev <? k) && rows_sorted k l
  end.
Definition TOTAL : Z := 2000000934318310000.

Lemma table_checked :
  rows_sorted (-1) table_rows && forallb row_ok table_rows
  && (zsum ((λ r, r.2.1.1) <$> table_rows) =? TOTAL) && (length table_rows =? 3631)%nat = true.
Proof. vm_compute. reflexivity. Qed.

Lemma row_ok_range r : row_ok r = true → 0 ≤ r.1 < 2 ^ 256.
Proof.
  destruct r as [k [[total initial] fac]]. unfold row_ok. rewrite !andb_true_iff, Z.leb_le, !Z.ltb_lt. cbn [fst]. tauto.
Qed.
Lemma rows_sorted_spec prev l :
  rows_sorted prev l = true → Forall (λ r : Row, prev < r.1) l ∧ NoDup l.*1.
Proof.
  revert prev. induction l as [|[k d] l IH]; intros prev; cbn; [by repeat constructor|].
  intros [Hk%Z.ltb_lt [Hl Hnd]%IH]%andb_prop. split.
  - constructor; [done|]. eapply Forall_impl; [done|]. cbn. lia.
  - constructor; [|done]. intros (r & -> & Hr)%list_elem_of_fmap. rewrite Forall_forall in Hl. specialize (Hl _ Hr). lia.
Qed.

(** The facts of the evaluation, about the accounts *)
Lemma checked_rows (l : list Row) n z :
  rows_sorted (-1) l && forallb row_ok l && (zsum ((λ r, r.2.1.1) <$> l) =? z) && (length l =? n)%nat = true →
  let m := prod_map account_of id <$> l in
  NoDup m.*1 ∧ length m = n ∧ zsum ((λ r, r.2.1.1) <$> m) = z
  ∧ Forall (λ r, ∃ k d, r = (account_of k, d) ∧ row_ok (k, d) = true) m.
Proof.
  intros H m. apply andb_prop in H as [H Hlen%Nat.eqb_eq]. apply andb_prop in H as [H Hsum%Z.eqb_eq].
  apply andb_prop in H as [[_ Hnd]%rows_sorted_spec Hok]. rewrite forallb_forall in Hok. unfold m. split_and!.
  - rewrite <- list_fmap_compose. change (fst ∘ prod_map account_of id) with (account_of ∘ @fst Z (Z * Z * Z)).
    rewrite list_fmap_compose. clear -Hnd Hok.
    induction l as [|[k d] l IH]; [constructor|]. apply NoDup_cons in Hnd as [Hk Hnd]. cbn [fmap list_fmap fst]. constructor.
    + intros (j & Hj & (r & -> & Hr)%list_elem_of_fmap)%list_elem_of_fmap. apply Hk.
      apply account_of_inj in Hj as ->; [apply list_elem_of_fmap; by exists r| |].
      * apply (row_ok_range (k, d)), Hok. by left.
      * apply row_ok_range, Hok. right. by apply list_elem_of_In.
    + apply IH; [done|]. intros x Hx. apply Hok. by right.
  - by rewrite length_fmap.
  - by rewrite <- list_fmap_compose.
  - apply Forall_fmap, Forall_forall. intros [k d] Hr. exists k, d. split; [done|]. by apply Hok, list_elem_of_In.
Qed.
Lemma table_facts :
  NoDup HASHMAP.*1 ∧ length HASHMAP = 3631%nat ∧ zsum ((λ r, r.2.1.1) <$> HASHMAP) = TOTAL
  ∧ Forall (λ r, ∃ k d, r = (account_of k, d) ∧ row_ok (k, d) = true) HASHMAP.
Proof. exact (checked_rows table_rows 3631 TOTAL table_checked). Qed.

(** ** What a cycle pays *)
Lemma zsum_submseteq (l k : list Z) : l ⊆+ k → Forall (λ x, 0 ≤ x) k → zsum l ≤ zsum k.
Proof.
  intros (k' & Hk)%submseteq_Permutation Hpos. rewrite (zsum_permutation _ _ Hk), zsum_app.
  rewrite Hk, Forall_app in Hpos. pose proof (zsum_nonneg _ (proj2 Hpos)). lia.
Qed.

Section payout.
Context (table : list (AccountId * (Z * Z * Z))).

(** The reward of a contributor, zero for others *)
Definition reward_of (user : AccountId) : Z := from_option (λ d, d.1.1) 0 (find_rewardee table user).

Lemma find_rewardee_in user d : find_rewardee table user = Some d → (user, d) ∈ table.
Proof.
  unfold find_rewardee. intros ([a d'] & [Hin%list_elem_of_In Ha%bool_decide_eq_true]%List.find_some & Hd)%fmap_Some.
  cbn in *. by subst.
Qed.
Lemma find_rewardee_unique user d : NoDup table.*1 → (user, d) ∈ table → find_rewardee table user = Some d.
Proof.
  unfold find_rewardee. induction table as [|[a e] l IH]; intros Hnd Hin; [by apply not_elem_of_nil in Hin|].
  apply NoDup_cons in Hnd as [Ha Hnd]. cbn. case_bool_decide as Hau; cbn.
  - apply elem_of_cons in Hin as [[= -> ->]|Hin]; [done|]. destruct Ha. subst. apply list_elem_of_fmap. by exists (user, d).
  - apply elem_of_cons in Hin as [[= -> ->]|Hin]; [done|]. by apply IH.
Qed.
Lemma rewards_of_table : NoDup table.*1 → reward_of <$> table.*1 = (λ r, r.2.1.1) <$> table.
Proof.
  intros Hnd. rewrite <- list_fmap_compose. apply list_fmap_ext. intros i [a d] Hi%list_elem_of_lookup_2.
  cbn. unfold reward_of. by rewrite (find_rewardee_unique a d Hnd Hi).
Qed.

Lemma rewards_bounded (users : list AccountId) :
  NoDup table.*1 → Forall (λ r, 0 ≤ r.2.1.1) table → NoDup users →
  (∀ u, u ∈ users → is_Some (find_rewardee table u)) →
  zsum (reward_of <$> users) ≤ zsum ((λ r, r.2.1.1) <$> table).
Proof.
  intros Hnd Hpos Hu Hin. rewrite <- rewards_of_table by done. apply zsum_submseteq.
  - apply fmap_submseteq, NoDup_submseteq; [done|]. intros u [d Hd%find_rewardee_in]%Hin.
    apply list_elem_of_fmap. by exists (u, d).
  - rewrite rewards_of_table by done. by rewrite Forall_fmap.
Qed.
End payout.

(** The contributors that a run has paid in a cycle *)
Definition paid_in (id : Z) (l : list (Z * AccountId)) : list AccountId := snd <$> filter (λ p, p.1 = id) l.

Section cycles.
Context {CR : Crypto} {LC : LockableCurrency} {LL : LockableCurrencyLaws}.
Context (rewards_account : AccountId) (to_json : ExchangePayload → option bytes)
  (RewardsGovernance : Origin → bool).

Lemma payout_bounded table l c id :
  NoDup table.*1 → Forall (λ r, MIN_REWARDS_CLAIMABLE_AMOUNT < r.2.1.1) table →
  rw_run table rewards_account to_json RewardsGovernance l c →
  NoDup (paid_in id l)
  ∧ (∀ user, user ∈ paid_in id l →
       user ∈ table.*1 ∧ MIN_REWARDS_CLAIMABLE_AMOUNT < reward_of table user)
  ∧ zsum (reward_of table <$> paid_in id l) ≤ zsum ((λ r, r.2.1.1) <$> table).
Proof.
  intros Htab Hmin (Hnd & Hl & He)%rw_run_inv.
  assert (NoDup (paid_in id l)) as Hpaid.
  { unfold paid_in. apply NoDup_fmap_2_strong; [|by apply NoDup_filter].
    intros [i x] [j y] [Hi _]%list_elem_of_filter [Hj _]%list_elem_of_filter Hxy. cbn in *. congruence. }
  assert (∀ u, u ∈ paid_in id l → is_Some (find_rewardee table u)) as Hfind.
  { intros u ([i x] & -> & [_ [r Hr]%Hl]%list_elem_of_filter)%list_elem_of_fmap.
    destruct (He _ _ Hr) as (_ & _ & Hf & _). by eexists. }
  split_and!; [done| |].
  - intros u Hu. destruct (Hfind u Hu) as [d Hd]. pose proof (find_rewardee_in _ _ _ Hd) as Hin. split.
    + apply list_elem_of_fmap. by exists (u, d).
    + unfold reward_of. rewrite Hd. rewrite Forall_forall in Hmin. apply (Hmin _ Hin).
  - apply rewards_bounded; [done| |done|done]. eapply Forall_impl; [done|]. cbn.
    unfold MIN_REWARDS_CLAIMABLE_AMOUNT, UNIT_BALANCE. lia.
Qed.

Lemma rows_above_minimum (m : list (AccountId * (Z * Z * Z))) :
  Forall (λ r, ∃ k d, r = (account_of k, d) ∧ row_ok (k, d) = true) m →
  Forall (λ r, MIN_REWARDS_CLAIMABLE_AMOUNT < r.2.1.1) m.
Proof.
  intros Hm. eapply Forall_impl; [exact Hm|]. intros r (k & [[total initial] fac] & -> & Hok).
  unfold row_ok in Hok. rewrite !andb_true_iff, !Z.ltb_lt in Hok. cbn [fst snd]. tauto.
Qed.

(** *** The money that moves

    A run with a log of its payments: the cycle, the contributor, what the contributor's
    free balance gained and what the pallet's lost; and with all that the calls of the
    pallet took from its account. *)
Definition gain (a : AccountId) (c c' : RewardsChain) : Z :=
  free_balance (rw_ledger c') a - free_balance (rw_ledger c) a.
Definition Payment : Type := Z * AccountId * Z * Z.
Definition received (p : Payment) : Z := p.1.2.
Definition paid_out (p : Payment) : Z := p.2.

Section money.
Context (table : list (AccountId * (Z * Z * Z))).
Abbreviation dispatch := (rewards_dispatch table rewards_account RewardsGovernance).

Inductive money_run : list Payment → Z → RewardsChain → Prop :=
| money_run_start blk g : money_run [] 0 (mkRewardsChain blk ∅ ∅ g)
| money_run_call log out c o call r c' :
    money_run log out c → (o = NoOrigin → rewards_validate_unsigned table to_json c call = true) →
    dispatch o call c = (r, c') →
    money_run (log ++ ((λ p, (p, gain p.2 c c', - gain rewards_account c c')) <$> pays o call r))
      (out - gain rewards_account c c') c'
| money_run_other log out c blk g :
    money_run log out c → money_run log out (c <| rw_block := blk |> <| rw_ledger := g |>).

Lemma log_keys (f g : Z * AccountId → Z) l : ((λ p, (p, f p, g p)) <$> l).*1.*1 = l.
Proof. induction l as [|p l IH]; cbn; [done|]. by f_equal. Qed.
Lemma money_run_log log out c :
  money_run log out c → rw_run table rewards_account to_json RewardsGovernance log.*1.*1 c.
Proof.
  induction 1 as [|log out c o call r c' _ IH Hv Hd|]; [constructor| |by constructor].
  rewrite !fmap_app, log_keys. by eapply rw_run_call.
Qed.

(** What one call moves: the reward of the contributor it pays, and nothing else. *)
Lemma call_money o call c r c' :
  find_rewardee table rewards_account = None → dispatch o call c = (r, c') →
  match pays o call r with
  | [] => gain rewards_account c c' = 0
  | [(id, user)] => gain user c c' = reward_of table user ∧ gain rewards_account c c' = - reward_of table user
  | _ => False
  end.
Proof.
  intros Hpot H.
  assert (∀ user id s u s', do_initialize_claim_rewards table rewards_account user id s = (Ok u, s') →
    gain user s s' = reward_of table user ∧ gain rewards_account s s' = - reward_of table user) as Hinit.
  { intros user id s u s' (info & total & initial & fac & g & _ & _ & _ & Hf & _ & Hg & ->)%do_initialize_ok.
    assert (rewards_account ≠ user) as Hne by (intros ->; by rewrite Hpot in Hf).
    destruct (transfer_keep_alive_ok _ _ _ _ _ Hg Hne) as (Hp & Hu & _).
    unfold gain, reward_of. rewrite Hf. cbn. rewrite !(proj1 (set_lock_money _ _ _ _ _)). lia. }
  assert (∀ user id s n s', do_claim user id s = (Ok n, s') → gain rewards_account s s' = 0) as Hclaim.
  { intros user id s n s' (r0 & _ & _ & ->)%do_claim_ok. unfold gain. cbn.
    rewrite (proj1 (remove_lock_money _ _ _ _)). lia. }
  apply transactional_cases in H as [([] & -> & H)|[Hr ->]].
  2: { assert (pays o call r = []) as -> by (unfold pays; by destruct r).
       unfold gain. lia. }
  destruct call; cbn [pays].
  - destruct o; unfold create_reward_cycle in H; inv_run; unfold gain; cbn; lia.
  - unfold initialize_claim_rewards, rw_signed in H. destruct o; inv_run. by eapply Hinit.
  - unfold claim, rw_signed in H. destruct o; inv_run. by eapply Hclaim.
  - unfold unsigned_initialize_claim_rewards, rw_none in H. destruct o; inv_run. by eapply Hinit.
  - unfold unsigned_claim, rw_none in H. destruct o; inv_run. by eapply Hclaim.
Qed.

Lemma money_run_exact log out c :
  find_rewardee table rewards_account = None → money_run log out c →
  (∀ p, p ∈ log → received p = reward_of table p.1.1.2 ∧ paid_out p = reward_of table p.1.1.2)
  ∧ out = zsum (paid_out <$> log).
Proof.
  intros Hpot. induction 1 as [|log out c o call r c' _ [IH1 IH2] Hv Hd|]; [|..|done].
  { split; [|done]. intros p Hp. by apply elem_of_nil in Hp. }
  pose proof (call_money o call c r c' Hpot Hd) as Hm.
  destruct (pays o call r) as [|[id user] [|? ?]]; [| |done].
  - rewrite app_nil_r, Hm. split; [done|lia].
  - destruct Hm as [H1 H2]. cbn [fmap list_fmap]. split.
    + intros p [Hp| ->%list_elem_of_singleton]%elem_of_app; [by apply IH1|].
      unfold received, paid_out. cbn. lia.
    + rewrite fmap_app, zsum_app. cbn. lia.
Qed.

(** The payments of a cycle *)
Definition payments_in (id : Z) (log : list Payment) : list Payment := filter (λ p, p.1.1.1 = id) log.
Lemma payments_users id log : (λ p, p.1.1.2) <$> payments_in id log = paid_in id log.*1.*1.
Proof.
  unfold payments_in, paid_in. induction log as [|[[[i u] a] b] log IH]; [done|].
  rewrite !fmap_cons, !filter_cons. cbn [fst snd]. case_decide; cbn [fmap list_fmap fst snd]; [|done].
  by f_equal.
Qed.

Lemma money_bounded log out c id :
  NoDup table.*1 → Forall (λ r, MIN_REWARDS_CLAIMABLE_AMOUNT < r.2.1.1) table →
  find_rewardee table rewards_account = None → money_run log out c →
  (∀ p, p ∈ log → p.1.1.2 ∈ table.*1 ∧ received p = reward_of table p.1.1.2
     ∧ paid_out p = reward_of table p.1.1.2 ∧ MIN_REWARDS_CLAIMABLE_AMOUNT < paid_out p)
  ∧ NoDup log.*1.*1
  ∧ out = zsum (paid_out <$> log)
  ∧ zsum (paid_out <$> payments_in id log) ≤ zsum ((λ r, r.2.1.1) <$> table).
Proof.
  intros Htab Hmin Hpot Hrun. destruct (money_run_exact log out c Hpot Hrun) as [Hex Hout].
  pose proof (money_run_log log out c Hrun) as Hrw.
  assert (∀ p, p ∈ log → p.1.1.2 ∈ paid_in p.1.1.1 log.*1.*1) as Hin.
  { intros p Hp. rewrite <- payments_users. apply list_elem_of_fmap. exists p. split; [done|].
    by apply list_elem_of_filter. }
  split_and!; [| |done|].
  - intros p Hp. destruct (Hex p Hp) as [H1 H2]. rewrite H2.
    destruct (payout_bounded table _ c p.1.1.1 Htab Hmin Hrw) as (_ & Hu & _).
    destruct (Hu _ (Hin p Hp)) as [H3 H4]. done.
  - by apply (rw_run_inv _ _ _ _ _ _ Hrw).
  - destruct (payout_bounded table _ c id Htab Hmin Hrw) as (_ & _ & Hsum).
    rewrite <- payments_users, <- list_fmap_compose in Hsum.
    erewrite list_fmap_ext; [exact Hsum|]. intros i p Hp%list_elem_of_lookup_2.
    apply list_elem_of_filter in Hp as [_ Hp]. apply (Hex p Hp).
Qed.
End money.

(** C38: what the crowdloan rewards pallet pays.  In every run of the pallet with its table,
    whose rows do not name the pallet's own account: each payment goes to a contributor of
    the table, raises the contributor's free balance and lowers the pallet's by exactly the
    total of the row, which is above the minimum; nobody is paid twice in a cycle; the calls
    of the pallet take nothing else from its account; and what they take for one cycle is at
    most 2,000,000.934318310000 PDEX, the sum of the table. *)
Theorem cycle_payout_bounded log out c id :
  find_rewardee HASHMAP rewards_account = None → money_run HASHMAP log out c →
  (∀ p, p ∈ log → p.1.1.2 ∈ HASHMAP.*1 ∧ received p = reward_of HASHMAP p.1.1.2
     ∧ paid_out p = reward_of HASHMAP p.1.1.2 ∧ MIN_REWARDS_CLAIMABLE_AMOUNT < paid_out p)
  ∧ NoDup log.*1.*1
  ∧ out = zsum (paid_out <$> log)
  ∧ zsum (paid_out <$> payments_in id log) ≤ TOTAL.
Proof.
  intros Hpot Hrun. destruct table_facts as (Htab & _ & Hsum & Hrows). rewrite <- Hsum.
  exact (money_bounded HASHMAP log out c id Htab (rows_above_minimum HASHMAP Hrows) Hpot Hrun).
Qed.
End cycles.

(** ** A run with the table: the first contributor is paid *)
Module CrowdloanExample.
Import RefCrypto RefLocks.
Definition first : AccountId := account_of 0x0007ae30526dfc179d16b5d29daf10aa81781b7da1b5cb67e9a91dd625868f03.
Definition pot : AccountId := vreplicate 32 xff.
Definition json (p : ExchangePayload) : option bytes := Some (vec_to_list (ep_user p)).
Definition governance (o : Origin) : bool := match o with Root => true | _ => false end.
Definition c0 : RewardsChain := mkRewardsChain 5 ∅ ∅ (mkLedger {[pot := TOTAL + 1]} (TOTAL + 1) ∅ ∅).
Abbreviation dispatch := (rewards_dispatch HASHMAP pot governance).
Definition c1 : RewardsChain := (dispatch Root (CreateRewardCycle 1 1000 25 0) c0).2.
Definition c2 : RewardsChain := (dispatch (Signed first) (InitializeClaimRewards 0) c1).2.
Lemma c1_ok : dispatch Root (CreateRewardCycle 1 1000 25 0) c0 = (Ok tt, c1).
Proof. apply run_ok. vm_compute. reflexivity. Qed.
Lemma c2_ok : dispatch (Signed first) (InitializeClaimRewards 0) c1 = (Ok tt, c2).
Proof. apply run_ok. vm_compute. reflexivity. Qed.
Definition log : list Payment := [((0, first), gain first c1 c2, - gain pot c1 c2)].
Lemma c2_runs : money_run pot json governance HASHMAP log (0 - gain pot c0 c1 - gain pot c1 c2) c2.
Proof.
  assert (money_run pot json governance HASHMAP [] (0 - gain pot c0 c1) c1) as H1.
  { apply (money_run_call _ _ _ _ [] 0 c0 Root (CreateRewardCycle 1 1000 25 0) (Ok tt) c1);
      [apply money_run_start|discriminate|exact c1_ok]. }
  apply (money_run_call _ _ _ _ [] _ c1 (Signed first) (InitializeClaimRewards 0) (Ok tt) c2 H1);
    [discriminate|exact c2_ok].
Qed.
Lemma pot_not_rewarded : find_rewardee HASHMAP pot = None.
Proof. vm_compute. reflexivity. Qed.
Lemma cycle_payout_bounded_witness :
  paid_in 0 log.*1.*1 = [first] ∧ zsum (paid_out <$> payments_in 0 log) ≤ TOTAL.
Proof.
  split; [reflexivity|].
  destruct (cycle_payout_bounded pot json governance log _ c2 0 pot_not_rewarded c2_runs)
    as (_ & _ & _ & H). exact H.
Defined.
End CrowdloanExample.
