(* ===== verification/Upgrade.v ===== *)
(** * One-shot migrations of the runtime

    [runtimes/mainnet/src/migrations.rs]: [ClearRewardsAndMigrationLocks], which
    releases the locks that the removed rewards and migration pallets left behind,
    and [FixBalancesFrozen].  The first one promises to release exactly what the old
    pallets would release; the models of the two pallets make that a theorem. *)

From S2P Require Import Prelude Assets Types Chain Locks Migration Rewards.

(** [frame_system::Account] and the iteration over [pallet_balances::Locks] *)
Class SystemAccounts `{LockableCurrency} := {
  consumers : Ledger → AccountId → Z;
  frozen : Ledger → AccountId → Z;
  reserved : Ledger → AccountId → Z;
  inc_consumers_without_limit : AccountId → M Ledger LedgerError unit;
  (** [Account::mutate(who, |a| a.consumers = n)] and the same for [data.frozen] *)
  set_consumers : AccountId → Z → Ledger → Ledger;
  set_frozen : AccountId → Z → Ledger → Ledger;
  (** [Locks::iter()], [iter_keys()] *)
  lock_holders : Ledger → list AccountId;
}.

Class SystemAccountsLaws `{SystemAccounts} : Prop := {
  inc_consumers_frame g a b :
    let g' := (inc_consumers_without_limit a g).2 in
    Locks g' b = Locks g b ∧ free_balance g' b = free_balance g b;
  set_consumers_frame g a n b :
    Locks (set_consumers a n g) b = Locks g b ∧ free_balance (set_consumers a n g) b = free_balance g b;
  set_frozen_frame g a n b :
    Locks (set_frozen a n g) b = Locks g b ∧ free_balance (set_frozen a n g) b = free_balance g b;
  set_frozen_frozen g a n b : 0 ≤ n →
    frozen (set_frozen a n g) b = if decide (b = a) then n else frozen g b;
  lock_holders_spec g a : a ∈ lock_holders g ↔ Locks g a ≠ [];
  frozen_nonneg g a : 0 ≤ frozen g a;
}.

Definition PDEX_MIGRATION_LOCK_ID : LockIdentifier :=
  [# x70; x64; x65; x78; x6c; x6f; x63; x6b].
Definition PDEX_MIGRATION_LOCK_PERIOD : Z := 201600.
Definition CLEAR_REWARDS_AND_MIGRATION_LOCKS_FROM_SPEC : Z := 391.
Definition FIX_BALANCES_FROZEN_FROM_SPEC : Z := 391.

Section upgrade.
Context {LC : LockableCurrency} {SA : SystemAccounts}.

(** The storage that the migrations read: [legacy_locks], the block number, and the
    specification version before the upgrade *)
Record Legacy : Type := mkLegacy {
  lg_block : Z;
  last_runtime_upgrade_spec_version : Z;
  lg_InitializeRewards : gmap Z RewardInfo;
  lg_Distributor : gmap (Z * AccountId) RewardInfoForAccount;
  lg_Operational : bool;
  lg_LockedTokenHolders : gmap AccountId Z;
  lg_ledger : Ledger;
}.
#[export] Instance eta_Legacy : Eta Legacy := λ r, {|
  lg_block := lg_block r; last_runtime_upgrade_spec_version := last_runtime_upgrade_spec_version r;
  lg_InitializeRewards := lg_InitializeRewards r; lg_Distributor := lg_Distributor r;
  lg_Operational := lg_Operational r; lg_LockedTokenHolders := lg_LockedTokenHolders r;
  lg_ledger := lg_ledger r;
|}.

Record ReleasableLocks : Type := mkReleasableLocks {
  rl_rewards : gset AccountId;
  rl_pdex_migration : gset AccountId;
}.

Definition has_lock (g : Ledger) (who : AccountId) (id : LockIdentifier) : bool :=
  existsb (λ l, bool_decide (l.1 = id)) (Locks g who).

(** The records that [Rewards::claim] and [PDEXMigration::unlock] would accept *)
Definition rewards_rule (s : Legacy) (kr : Z * AccountId * RewardInfoForAccount) : bool :=
  let '(reward_id, who, record) := kr in
  is_initialized record && bool_decide (lock_id record = REWARDS_LOCK_ID)
  && bool_decide (reward_id ∈ dom (lg_InitializeRewards s))
  && has_lock (lg_ledger s) who REWARDS_LOCK_ID.
Definition migration_rule (s : Legacy) (now : Z) (kr : AccountId * Z) : bool :=
  (sat_add 32 kr.2 PDEX_MIGRATION_LOCK_PERIOD <=? now)
  && has_lock (lg_ledger s) kr.1 PDEX_MIGRATION_LOCK_ID.

Definition releasable (s : Legacy) (now : Z) : ReleasableLocks :=
  let rewards := List.filter (rewards_rule s) (map_to_list (lg_Distributor s)) in
  let pdex :=
    if lg_Operational s
    then List.filter (migration_rule s now) (map_to_list (lg_LockedTokenHolders s)) else [] in
  mkReleasableLocks (list_to_set (map (λ kr, kr.1.2) rewards)) (list_to_set (map fst pdex)).

(** Whether a reference was added, and the accounts afterwards *)
Definition add_consumer_ref_if_missing (who : AccountId) (g : Ledger) : bool * Ledger :=
  if (0 <? consumers g who) || ((frozen g who =? 0) && (reserved g who =? 0)) then (false, g)
  else match inc_consumers_without_limit who g with
       | (Ok _, g') => (true, g')
       | (_, g') => (true, set_consumers who 1 g')
       end.

Definition remove (id : LockIdentifier) (who : AccountId) (g : Ledger) : bool * Ledger :=
  let '(added, g) := add_consumer_ref_if_missing who g in (added, remove_lock id who g).

(** [ClearRewardsAndMigrationLocks::on_runtime_upgrade] *)
Definition remove_all (id : LockIdentifier) (l : list AccountId) (g : Ledger) : Ledger :=
  foldl (λ g who, (remove id who g).2) g l.

Definition clear_rewards_and_migration_locks (s : Legacy) : Legacy :=
  if CLEAR_REWARDS_AND_MIGRATION_LOCKS_FROM_SPEC <? last_runtime_upgrade_spec_version s then s
  else let found := releasable s (lg_block s) in
       s <| lg_ledger ::= remove_all REWARDS_LOCK_ID (btree_elements (rl_rewards found)) |>
         <| lg_ledger ::= remove_all PDEX_MIGRATION_LOCK_ID (btree_elements (rl_pdex_migration found)) |>.

(** [FixBalancesFrozen::on_runtime_upgrade] *)
Definition max_lock (g : Ledger) (who : AccountId) : Z := foldr Z.max 0 (Locks g who).*2.

Definition fix_frozen (g : Ledger) (who : AccountId) : Ledger :=
  let m := max_lock g who in
  if m =? 0 then g else if frozen g who <? m then set_frozen who m g else g.

Definition fix_balances_frozen (s : Legacy) : Legacy :=
  if FIX_BALANCES_FROZEN_FROM_SPEC <? last_runtime_upgrade_spec_version s then s
  else s <| lg_ledger ::= λ g, foldl fix_frozen g (lock_holders g) |>.

(** ** Properties *)
Section properties.
Context {LL : LockableCurrencyLaws} {SL : SystemAccountsLaws}.
Implicit Types (g : Ledger) (s : Legacy).

Lemma has_lock_spec g who id : has_lock g who id = true ↔ ∃ n, (id, n) ∈ Locks g who.
Proof.
  unfold has_lock. rewrite existsb_exists. split.
  - intros ([id' n] & Hin & Hid%bool_decide_eq_true). cbn in Hid. subst. exists n.
    by apply list_elem_of_In.
  - intros [n Hn]. exists (id, n). split; [by apply list_elem_of_In|by apply bool_decide_eq_true].
Qed.

(** *** Removing locks *)
Lemma add_ref_frame who g b :
  Locks (add_consumer_ref_if_missing who g).2 b = Locks g b
  ∧ free_balance (add_consumer_ref_if_missing who g).2 b = free_balance g b.
Proof.
  unfold add_consumer_ref_if_missing. destruct (_ || _); [done|].
  destruct (inc_consumers_frame g who b) as [H1 H2].
  destruct (inc_consumers_without_limit who g) as [[] g']; cbn in *; [done|..];
    by rewrite !(proj1 (set_consumers_frame _ _ _ _)), !(proj2 (set_consumers_frame _ _ _ _)).
Qed.

Lemma remove_spec id who g a id' n :
  (id', n) ∈ Locks (remove id who g).2 a ↔ (id', n) ∈ Locks g a ∧ ¬ (id' = id ∧ a = who).
Proof.
  unfold remove. pose proof (add_ref_frame who g a) as [Hl _].
  destruct (add_consumer_ref_if_missing who g) as [added g1]. cbn in *. rewrite <- Hl.
  destruct (decide (a = who)) as [->|Ha]; [|rewrite remove_lock_frame by done; naive_solver].
  destruct (decide (id' = id)) as [->|Hid]; [|rewrite remove_lock_keeps by done; naive_solver].
  split; [by intros ?%remove_lock_removes|naive_solver].
Qed.

Lemma remove_free id who g a : free_balance (remove id who g).2 a = free_balance g a.
Proof.
  unfold remove. pose proof (add_ref_frame who g a) as [_ Hf].
  destruct (add_consumer_ref_if_missing who g) as [added g1]. cbn in *.
  by rewrite (proj1 (remove_lock_money _ _ _ _)).
Qed.

Lemma remove_all_spec id l g a id' n :
  (id', n) ∈ Locks (remove_all id l g) a ↔ (id', n) ∈ Locks g a ∧ ¬ (id' = id ∧ a ∈ l).
Proof.
  unfold remove_all. revert g. induction l as [|who l IH]; intros g; cbn.
  - split; [intros H; split; [done|]; by intros [_ ?%not_elem_of_nil]|by intros [? _]].
  - rewrite IH, remove_spec, elem_of_cons. naive_solver.
Qed.

Lemma remove_all_free id l g a : free_balance (remove_all id l g) a = free_balance g a.
Proof.
  unfold remove_all. revert g. induction l as [|who l IH]; intros g; cbn; [done|].
  by rewrite IH, remove_free.
Qed.

(** *** The rules are those of the pallets *)
Definition rewards_of s : RewardsChain :=
  mkRewardsChain (lg_block s) (lg_InitializeRewards s) (lg_Distributor s) (lg_ledger s).
Definition migration_of s : MigrationChain :=
  mkMigrationChain (lg_block s) ∅ (lg_Operational s) 0 (lg_LockedTokenHolders s) ∅ (lg_ledger s).

Lemma claim_succeeds s who id :
  is_ok (claim (Signed who) id (rewards_of s)).1 = true
  ↔ is_Some (lg_InitializeRewards s !! id)
    ∧ ∃ r, lg_Distributor s !! (id, who) = Some r ∧ is_initialized r = true.
Proof.
  unfold claim, rw_signed, do_claim. mrun. cbn.
  destruct (lg_InitializeRewards s !! id) as [info|]; cbn; [|split; [done|by intros [[]]]].
  destruct (lg_Distributor s !! (id, who)) as [r|]; cbn; [|split; [done|by intros [_ (? & ? & _)]]].
  destruct (is_initialized r) eqn:Hi; cbn; [split; [eauto|done]|].
  split; [done|]. intros [_ (r' & [= <-] & ?)]. congruence.
Qed.

Lemma unlock_succeeds s who :
  (∀ t, lg_LockedTokenHolders s !! who = Some t → t + PDEX_MIGRATION_LOCK_PERIOD ≤ u32_max) →
  is_ok (unlock PDEX_MIGRATION_LOCK_PERIOD (Signed who) (migration_of s)).1 = true
  ↔ lg_Operational s = true
    ∧ ∃ t, lg_LockedTokenHolders s !! who = Some t
         ∧ sat_add 32 t PDEX_MIGRATION_LOCK_PERIOD ≤ lg_block s.
Proof.
  intros Hb. unfold unlock, mig_signed, process_unlock, checked_add_u, upd_ledger. mrun. cbn.
  destruct (lg_Operational s); cbn; [|split; [done|by intros [? _]]].
  destruct (lg_LockedTokenHolders s !! who) as [t|] eqn:Ht; cbn; [|split; [done|by intros [_ (? & ? & _)]]].
  specialize (Hb t eq_refl). unfold sat_add, u32_max in *.
  rewrite (proj2 (Z.leb_le (t + _) (umax 32))) by done. cbn.
  destruct (Z.leb_spec (t + PDEX_MIGRATION_LOCK_PERIOD) (lg_block s)) as [Hle|Hgt]; cbn.
  - split; [|done]. intros _. split; [done|]. exists t. split; [done|]. lia.
  - split; [done|]. intros [_ (t' & [= <-] & ?)]. lia.
Qed.

Lemma releasable_rewards s now who :
  who ∈ rl_rewards (releasable s now) ↔
  ∃ id r, lg_Distributor s !! (id, who) = Some r ∧ rewards_rule s (id, who, r) = true.
Proof.
  cbn. rewrite elem_of_list_to_set, list_elem_of_In, in_map_iff. split.
  - intros ([[id a] r] & <- & [Hin%list_elem_of_In Hr]%filter_In).
    apply elem_of_map_to_list in Hin. by exists id, r.
  - intros (id & r & Hd%elem_of_map_to_list & Hr). exists (id, who, r). split; [done|].
    apply filter_In. split; [by apply list_elem_of_In|done].
Qed.

Lemma releasable_migration s now who :
  who ∈ rl_pdex_migration (releasable s now) ↔
  lg_Operational s = true
  ∧ ∃ t, lg_LockedTokenHolders s !! who = Some t ∧ migration_rule s now (who, t) = true.
Proof.
  cbn. rewrite elem_of_list_to_set, list_elem_of_In, in_map_iff.
  destruct (lg_Operational s); [|split; [by intros (? & _ & ?)|by intros [? _]]]. split.
  - intros ([a t] & <- & [Hin%list_elem_of_In Hr]%filter_In).
    apply elem_of_map_to_list in Hin. eauto.
  - intros [_ (t & Hd%elem_of_map_to_list & Hr)]. exists (who, t). split; [done|].
    apply filter_In. split; [by apply list_elem_of_In|done].
Qed.

Lemma clear_ledger s :
  last_runtime_upgrade_spec_version s ≤ CLEAR_REWARDS_AND_MIGRATION_LOCKS_FROM_SPEC →
  let found := releasable s (lg_block s) in
  lg_ledger (clear_rewards_and_migration_locks s)
  = remove_all PDEX_MIGRATION_LOCK_ID (btree_elements (rl_pdex_migration found))
      (remove_all REWARDS_LOCK_ID (btree_elements (rl_rewards found)) (lg_ledger s)).
Proof.
  intros Hspec. unfold clear_rewards_and_migration_locks. by rewrite (proj2 (Z.ltb_ge _ _)).
Qed.

Lemma rewards_released s now who :
  (∀ p r, lg_Distributor s !! p = Some r → lock_id r = REWARDS_LOCK_ID) →
  who ∈ rl_rewards (releasable s now) ↔
  has_lock (lg_ledger s) who REWARDS_LOCK_ID = true
  ∧ ∃ cycle, is_ok (claim (Signed who) cycle (rewards_of s)).1 = true.
Proof.
  intros Hid. rewrite releasable_rewards. setoid_rewrite claim_succeeds. unfold rewards_rule.
  setoid_rewrite andb_true_iff. setoid_rewrite andb_true_iff. setoid_rewrite andb_true_iff.
  setoid_rewrite bool_decide_eq_true. setoid_rewrite elem_of_dom. split.
  - intros (id & r & Hd & [[[Hi Hl] Hs] Hh]). eauto 6.
  - intros [Hh (id & Hs & r & Hd & Hi)]. exists id, r. split_and!; eauto.
Qed.

Lemma migration_released s who :
  (∀ t, lg_LockedTokenHolders s !! who = Some t → t + PDEX_MIGRATION_LOCK_PERIOD ≤ u32_max) →
  who ∈ rl_pdex_migration (releasable s (lg_block s)) ↔
  has_lock (lg_ledger s) who PDEX_MIGRATION_LOCK_ID = true
  ∧ is_ok (unlock PDEX_MIGRATION_LOCK_PERIOD (Signed who) (migration_of s)).1 = true.
Proof.
  intros Hb. rewrite releasable_migration, unlock_succeeds by done. unfold migration_rule.
  setoid_rewrite andb_true_iff. setoid_rewrite Z.leb_le. cbn [fst snd]. naive_solver.
Qed.

(** C31: the clean-up releases exactly the locks that the old pallets would release.
    Upgrading from a specification up to 391, a lock of an account disappears if and
    only if it is the rewards lock and the account could claim in some reward cycle, or
    it is the migration lock and the account could unlock; no balance changes. *)
Theorem locks_cleared_exactly s a id n :
  last_runtime_upgrade_spec_version s ≤ CLEAR_REWARDS_AND_MIGRATION_LOCKS_FROM_SPEC →
  (∀ p r, lg_Distributor s !! p = Some r → lock_id r = REWARDS_LOCK_ID) →
  (∀ who t, lg_LockedTokenHolders s !! who = Some t → t + PDEX_MIGRATION_LOCK_PERIOD ≤ u32_max) →
  (id, n) ∈ Locks (lg_ledger s) a →
  ((id, n) ∉ Locks (lg_ledger (clear_rewards_and_migration_locks s)) a ↔
    (id = REWARDS_LOCK_ID
     ∧ ∃ cycle, is_ok (claim (Signed a) cycle (rewards_of s)).1 = true)
    ∨ (id = MIGRATION_LOCK
       ∧ is_ok (unlock PDEX_MIGRATION_LOCK_PERIOD (Signed a) (migration_of s)).1 = true))
  ∧ ∀ b, free_balance (lg_ledger (clear_rewards_and_migration_locks s)) b
         = free_balance (lg_ledger s) b.
Proof.
  intros Hspec Hid Hb Hin. rewrite clear_ledger by done. split; [|intros b; by rewrite !remove_all_free].
  rewrite !remove_all_spec, !elem_of_btree_elements. change PDEX_MIGRATION_LOCK_ID with MIGRATION_LOCK.
  assert (∀ id', id = id' → has_lock (lg_ledger s) a id' = true) as Hhas.
  { intros id' <-. apply has_lock_spec. by exists n. }
  pose proof (rewards_released s (lg_block s) a Hid) as Hr.
  pose proof (migration_released s a (Hb a)) as Hm.
  change PDEX_MIGRATION_LOCK_ID with MIGRATION_LOCK in Hm. split.
  - intros Hn. destruct (decide (id = REWARDS_LOCK_ID ∧ a ∈ rl_rewards (releasable s (lg_block s))))
      as [[? Hin1%Hr]|Hn1]; [left; naive_solver|].
    destruct (decide (id = MIGRATION_LOCK ∧ a ∈ rl_pdex_migration (releasable s (lg_block s))))
      as [[? Hin2%Hm]|Hn2]; [right; naive_solver|]. by destruct Hn.
  - intros [[Heq H]|[Heq H]] [[_ Hn1] Hn2]; [apply Hn1|apply Hn2]; split; auto; [apply Hr|apply Hm]; auto.
Qed.

(** ** The frozen balances *)
Lemma fix_frozen_effect g who b :
  Locks (fix_frozen g who) b = Locks g b
  ∧ frozen (fix_frozen g who) b
    = if decide (b = who) then Z.max (frozen g b) (max_lock g b) else frozen g b.
Proof.
  unfold fix_frozen. pose proof (frozen_nonneg g who).
  destruct (Z.eqb_spec (max_lock g who) 0) as [Hz|Hz];
    [|destruct (Z.ltb_spec (frozen g who) (max_lock g who)) as [Hlt|Hge]].
  - split; [done|]. case_decide; [subst; lia|done].
  - split; [apply set_frozen_frame|]. rewrite set_frozen_frozen by lia. case_decide; [subst; lia|done].
  - split; [done|]. case_decide; [subst; lia|done].
Qed.

Lemma max_lock_ext g g' b : Locks g' b = Locks g b → max_lock g' b = max_lock g b.
Proof. unfold max_lock. by intros ->. Qed.

Lemma fix_frozen_fold l g b :
  Locks (foldl fix_frozen g l) b = Locks g b
  ∧ frozen (foldl fix_frozen g l) b
    = if decide (b ∈ l) then Z.max (frozen g b) (max_lock g b) else frozen g b.
Proof.
  revert g. induction l as [|who l IH]; intros g; cbn.
  - split; [done|]. rewrite decide_False; [done|]. apply not_elem_of_nil.
  - destruct (IH (fix_frozen g who)) as [-> ->]. destruct (fix_frozen_effect g who b) as [Hl ->].
    split; [done|]. rewrite (max_lock_ext g (fix_frozen g who)) by done.
    destruct (decide (b ∈ who :: l)) as [Hin|Hn]; rewrite elem_of_cons in *;
      repeat case_decide; try lia; naive_solver.
Qed.

(** After the correction every account is frozen for at least each of its locks.
    Upgrading from a specification up to 391, no lock changes, the frozen balance of an
    account never falls, and it ends up at or above the amount of every lock. *)
Theorem frozen_covers_locks s a id n :
  last_runtime_upgrade_spec_version s ≤ FIX_BALANCES_FROZEN_FROM_SPEC →
  (id, n) ∈ Locks (lg_ledger s) a →
  let g' := lg_ledger (fix_balances_frozen s) in
  Locks g' a = Locks (lg_ledger s) a ∧ frozen (lg_ledger s) a ≤ frozen g' a ∧ n ≤ frozen g' a.
Proof.
  intros Hspec Hin. cbn zeta. unfold fix_balances_frozen. rewrite (proj2 (Z.ltb_ge _ _)) by done. cbn.
  destruct (fix_frozen_fold (lock_holders (lg_ledger s)) (lg_ledger s) a) as [-> ->].
  rewrite decide_True by (apply lock_holders_spec; intros Hnil; rewrite Hnil in Hin; by apply not_elem_of_nil in Hin).
  split; [done|]. split; [lia|]. enough (n ≤ max_lock (lg_ledger s) a) by lia.
  unfold max_lock. change n with (id, n).2. induction Hin as [x l|x y l Hin IH]; cbn; lia.
Qed.
End properties.
End upgrade.

(** ** A concrete upgrade *)
Module UpgradeExample.
Import RefCrypto RefLocks.

#[export] Instance ref_accounts : SystemAccounts := {|
  consumers _ _ := 0;
  frozen g a := Z.of_N (default 0%N (frozen_of g !! a));
  reserved _ _ := 0;
  inc_consumers_without_limit _ g := (Ok tt, g);
  set_consumers _ _ g := g;
  set_frozen a n g :=
    mkLedger (free_of g) (issued g) (locks_of g) (<[a := Z.to_N n]> (frozen_of g));
  lock_holders g := filter (λ a, held g a ≠ ∅) (map_to_list (locks_of g)).*1;
|}.
#[export] Instance ref_accounts_laws : SystemAccountsLaws.
Proof.
  split; cbn; [done..| | |intros; lia].
  - intros g a n b Hn. case_decide as Hd; [subst; rewrite lookup_insert_eq; cbn; lia|].
    by rewrite lookup_insert_ne.
  - intros g a. rewrite list_elem_of_filter, list_elem_of_fmap. unfold held. split.
    + intros [Hne _] Hnil%fmap_nil_inv. by apply map_to_list_empty_iff in Hnil.
    + intros Hne. destruct (locks_of g !! a) as [m|] eqn:Hm; [|by destruct Hne]. cbn in *. split.
      * intros ->. by destruct Hne.
      * exists (a, m). split; [done|]. by apply elem_of_map_to_list.
Qed.

(** Account 1 claimed nothing yet, account 2 migrated long ago, account 3 lately. *)
Definition record : RewardInfoForAccount :=
  mkRewardInfoForAccount 4000 0 false true REWARDS_LOCK_ID 1 1000 3.
Definition old_ledger : ledger := mkLedger ∅ 0
  {[acct 1 := {[REWARDS_LOCK_ID := 4000%N]}; acct 2 := {[MIGRATION_LOCK := 70%N]};
    acct 3 := {[MIGRATION_LOCK := 80%N]}]} ∅.
Definition before : Legacy :=
  mkLegacy 300000 391 {[0 := mkRewardInfo 1 1000 25]} {[(0, acct 1) := record]} true
    {[acct 2 := 5; acct 3 := 299999]} old_ledger.

Lemma locks_cleared_exactly_witness :
  (MIGRATION_LOCK, 70) ∉ Locks (lg_ledger (clear_rewards_and_migration_locks before)) (acct 2).
Proof.
  apply (locks_cleared_exactly before (acct 2) MIGRATION_LOCK 70).
  - vm_compute. discriminate.
  - intros p r Hr. cbn in Hr. apply lookup_singleton_Some in Hr as [_ <-]. reflexivity.
  - intros who t Ht. cbn in Ht. apply lookup_insert_Some in Ht as [[_ <-]|[_ Ht]];
      [|apply lookup_singleton_Some in Ht as [_ <-]]; vm_compute; discriminate.
  - apply (bool_decide_eq_true_1 _). vm_compute. reflexivity.
  - right. split; [reflexivity|vm_compute; reflexivity].
Defined.

Lemma frozen_covers_locks_witness : 80 ≤ frozen (lg_ledger (fix_balances_frozen before)) (acct 3).
Proof.
  apply (frozen_covers_locks before (acct 3) MIGRATION_LOCK 80); [vm_compute; discriminate|].
  apply (bool_decide_eq_true_1 _). vm_compute. reflexivity.
Defined.
End UpgradeExample.
