(* ===== verification/XcmHelper.v ===== *)
(** * The XCM helper pallet

    [pallets/xcm-helper/src/lib.rs], with the [Resolver] of
    [primitives/polkadex/src/assets.rs]: assets of other chains get an identifier,
    deposits from other chains become messages of the bridge, and withdrawals that
    arrive over the bridge are queued and paid out some blocks later. *)

From S2P Require Import Prelude Decimal Assets Bank Types Chain TheaTypes.

(** What the pallet uses of the XCM crates and of SCALE: locations seen through the
    patterns the sources match on, and the converters of the configuration. *)
Class Xcm := {
  MultiLocation : Type;
  MultiLocation_eq_dec :: EqDecision MultiLocation;
  (** [parents] *)
  parents : MultiLocation → Z;
  (** interior [X1(AccountId32 { network, id })], and whether the network is absent
      or Polkadot *)
  as_account : MultiLocation → option (bool * AccountId);
  (** interior [X2(AccountId32 { network, id }, PalletInstance(_))] *)
  as_account_pallet : MultiLocation → option (bool * AccountId);
  (** [{ parents: 0, Here }] and [{ parents: 1, X1(Parachain(id)) }] *)
  here : MultiLocation;
  sibling : Z → MultiLocation;
  VersionedMultiLocation : Type;
  versioned_decode : bytes → option VersionedMultiLocation;
  (** [try_into], and the pattern [VersionedMultiLocation::V3(_)] *)
  versioned_try_into : VersionedMultiLocation → option MultiLocation;
  versioned_v3 : VersionedMultiLocation → option MultiLocation;
  (** [T::SiblingAddressConverter], [T::AccountIdConvert] *)
  SiblingAddressConverter : MultiLocation → option AccountId;
  AccountIdConvert : MultiLocation → option AccountId;
  enc_location : MultiLocation → bytes;
  enc_deposits : list TheaDeposit → bytes;
  dec_withdrawals : bytes → option (list TheaWithdraw);
}.

(** [pallet_assets]: [asset_exists] *)
Class AssetRegistry `{Currencies} := asset_exists : Bank → Z → bool.
Class AssetRegistryLaws `{AssetRegistry} : Prop := {
  create_ok b id admin m b' : bank_create id admin m b = (Ok tt, b') → asset_exists b' id = true;
  (** Creating an asset moves no money. *)
  create_frame b id admin m x a : balance (bank_create id admin m b).2 x a = balance b x a;
  (** A mint that fails has no effect. *)
  mint_fail b x a n : is_ok (bank_mint x a n b).1 = false → (bank_mint x a n b).2 = b;
}.

(** [TheaOutgoingExecutor] *)
Class OutgoingExecutor := {
  Out : Type;
  OutError : Type;
  out_execute_withdrawals : Z → bytes → M Out OutError unit;
}.

(** ** [Resolver]: the native token and the other assets behind one interface *)
Section resolver.
Context {BK : Currencies} {AR : AssetRegistry}.
Context (NativeAssetId : Z).

Inductive ResolverError : Type := NativeAsset | AssetAlreadyExists | ResolverBank (e : BankError).

Abbreviation RB := (M Bank ResolverError).
Definition bank_op {A} (m : M Bank BankError A) : RB A := map_err ResolverBank m.

(** [if !asset_exists { create }] *)
Definition ensure_asset (asset : Z) (admin : AccountId) (min_balance : Z) : RB unit :=
  b ← get_state;
  if asset_exists b asset then mret tt else bank_op (bank_create asset admin min_balance).

Definition resolver_deposit (asset amount : Z) (who admin : AccountId) (min_balance : Z)
    (locking_account : AccountId) : RB unit :=
  if asset =? NativeAssetId then bank_op (bank_transfer Polkadex locking_account who amount Preserve)
  else ensure_asset asset admin min_balance ;; bank_op (bank_mint (Asset asset) who amount).

Definition resolve_deposit_parachain (asset amount : Z) (who admin : AccountId)
    (min_balance : Z) : RB unit :=
  if asset =? NativeAssetId then bank_op (bank_mint Polkadex who amount)
  else ensure_asset asset admin min_balance ;; bank_op (bank_mint (Asset asset) who amount).

Definition resolver_withdraw_parachain (asset amount : Z) (who : AccountId) : RB unit :=
  _ ← bank_op (bank_burn_from (if asset =? NativeAssetId then Polkadex else Asset asset) who amount);
  mret tt.

Definition resolver_withdraw (asset amount : Z) (who locking_account : AccountId) : RB unit :=
  if asset =? NativeAssetId then bank_op (bank_transfer Polkadex who locking_account amount Preserve)
  else (_ ← bank_op (bank_burn_from (Asset asset) who amount); mret tt).

Definition resolve_create (asset : Z) (admin : AccountId) (min_balance : Z) : RB unit :=
  ensure (negb (asset =? NativeAssetId)) NativeAsset ;;
  b ← get_state;
  ensure (negb (asset_exists b asset)) AssetAlreadyExists ;;
  bank_op (bank_create asset admin min_balance).

Definition resolve_transfer (asset : Z) (from to : AccountId) (amount : Z) : RB unit :=
  if asset =? NativeAssetId then bank_op (bank_transfer Polkadex from to amount Preserve)
  else bank_op (bank_transfer (Asset asset) from to amount Expendable).

Definition resolve_mint (recipient : AccountId) (asset amount : Z) : RB unit :=
  if asset =? NativeAssetId then fail NativeAsset
  else bank_op (bank_mint (Asset asset) recipient amount).
End resolver.

(** ** The pallet *)
Section xcm_helper.
Context {CR : Crypto} {BK : Currencies} {AR : AssetRegistry} {X : Xcm} {OE : OutgoingExecutor}.

Inductive XcmAssetId : Type := Concrete (l : MultiLocation) | Abstract (b : bytes).
#[global] Instance XcmAssetId_eq_dec : EqDecision XcmAssetId.
Proof. solve_decision. Defined.

Inductive Fungibility : Type := Fungible (amount : Z) | NonFungible.
Record MultiAsset : Type := mkMultiAsset { ma_id : XcmAssetId; ma_fun : Fungibility }.

(** [Config]: the pallet's account, the parachain's and the bridge's identifiers, the
    native asset, the delay and the number of withdrawals per block *)
Record XcmConfig : Type := mkXcmConfig {
  AssetHandlerAccount : AccountId;
  ParachainId : Z;
  SubstrateNetworkId : Z;
  NativeAssetId : Z;
  WithdrawalExecutionBlockDiff : Z;
  MaxWithdrawalsPerBlock : nat;
  AssetCreateUpdateOrigin : Origin → bool;
  enc_xcm_asset : XcmAssetId → bytes;
}.
Context (cfg : XcmConfig).

Record XcmChain : Type := mkXcmChain {
  x_block : Z;
  PendingWithdrawals : gmap Z (list TheaWithdraw);
  FailedWithdrawals : gmap Z (list TheaWithdraw);
  ParachainAssets : gmap AssetId XcmAssetId;
  WhitelistedTokens : list AssetId;
  RandomnessNonce : Z;
  x_bank : Bank;
  x_out : Out;
}.
#[export] Instance eta_XcmChain : Eta XcmChain := λ r, {|
  x_block := x_block r; PendingWithdrawals := PendingWithdrawals r;
  FailedWithdrawals := FailedWithdrawals r; ParachainAssets := ParachainAssets r;
  WhitelistedTokens := WhitelistedTokens r; RandomnessNonce := RandomnessNonce r;
  x_bank := x_bank r; x_out := x_out r;
|}.

Inductive XcmHelperError : Type :=
| IndexNotFound | TokenIsAlreadyWhitelisted | TokenIsNotWhitelisted
| UnableToConvertToMultiLocation | UnableToConvertToAccount
| DecodeFailed | BatchTooLarge
| Trap (code : Z) | FailedToDecode
| XcmBadOrigin | XcmResolver (e : ResolverError) | XcmOut (e : OutError).

Abbreviation XM := (M XcmChain XcmHelperError).

(** Calls into the currencies and into the executor of outgoing messages *)
Definition resolver_call {A} (m : M Bank ResolverError A) : XM A := λ c,
  match m (x_bank c) with
  | (Ok a, b) => (Ok a, c <| x_bank := b |>)
  | (Err e, b) => (Err (XcmResolver e), c <| x_bank := b |>)
  | (Panic, b) => (Panic, c <| x_bank := b |>)
  end.
Definition out_call {A} (m : M Out OutError A) : XM A := λ c,
  match m (x_out c) with
  | (Ok a, o) => (Ok a, c <| x_out := o |>)
  | (Err e, o) => (Err (XcmOut e), c <| x_out := o |>)
  | (Panic, o) => (Panic, c <| x_out := o |>)
  end.

Definition pending_at (c : XcmChain) (n : Z) : list TheaWithdraw := default [] (PendingWithdrawals c !! n).
Definition xcm_origin (o : Origin) : XM unit := ensure (AssetCreateUpdateOrigin cfg o) XcmBadOrigin.

(** [resolve_deposit_parachain(asset.into(), amount, who, pallet, 1, pallet)] *)
Definition mint_to (asset : AssetId) (amount : Z) (who : AccountId) : XM unit :=
  resolver_call (resolve_deposit_parachain (NativeAssetId cfg) (asset_into_u128 asset) amount who
    (AssetHandlerAccount cfg) 1).

(** ** Assets of other chains *)

(** [polkadex_primitives::assets::generate_asset_id_for_parachain] *)
Definition hash_asset_id (asset : XcmAssetId) : AssetId :=
  Asset (from_be_bytes (vec_to_list (blake2_128 (enc_xcm_asset cfg asset)))).

Definition is_native_asset (asset : XcmAssetId) : bool :=
  bool_decide (asset = Concrete (sibling (ParachainId cfg))) || bool_decide (asset = Concrete here).

(** Stores the mapping of an identifier that has none. *)
Definition generate_asset_id_for_parachain (asset : XcmAssetId) : XM AssetId :=
  if is_native_asset asset then mret Polkadex
  else let id := hash_asset_id asset in
       modify (λ c, if bool_decide (is_Some (ParachainAssets c !! id)) then c
                    else c <| ParachainAssets ::= <[id := asset]> |>) ;;
       mret id.

Definition convert_asset_id_to_location (c : XcmChain) (id : AssetId) : option MultiLocation :=
  match ParachainAssets c !! id with Some (Concrete l) => Some l | _ => None end.
Definition convert_location_to_asset_id (l : MultiLocation) : XM AssetId :=
  generate_asset_id_for_parachain (Concrete l).

Definition check_whitelisted_token (c : XcmChain) (id : AssetId) : bool :=
  bool_decide (id ∈ WhitelistedTokens c).

(** ** Dispatchables *)
Definition whitelist_token (o : Origin) (token : XcmAssetId) : XM unit :=
  transactional (
  xcm_origin o ;;
  token ← generate_asset_id_for_parachain token;
  whitelisted ← gets WhitelistedTokens;
  ensure (negb (bool_decide (token ∈ whitelisted))) TokenIsAlreadyWhitelisted ;;
  resolver_call (resolve_create (NativeAssetId cfg) (asset_into_u128 token) (AssetHandlerAccount cfg) 1) ;;
  modify (λ c, c <| WhitelistedTokens := whitelisted ++ [token] |>)).

(** Removes the first occurrence, which [position] found. *)
Fixpoint remove_first (x : AssetId) (l : list AssetId) : option (list AssetId) :=
  match l with
  | [] => None
  | y :: l => if bool_decide (y = x) then Some l else (y ::.) <$> remove_first x l
  end.

Definition remove_whitelisted_token (o : Origin) (token : XcmAssetId) : XM unit :=
  transactional (
  xcm_origin o ;;
  token ← generate_asset_id_for_parachain token;
  whitelisted ← gets WhitelistedTokens;
  rest ← ok_or (remove_first token whitelisted) TokenIsNotWhitelisted;
  modify (λ c, c <| WhitelistedTokens := rest |>)).

Definition transfer_fee (o : Origin) (to : AccountId) : XM unit :=
  transactional (
  xcm_origin o ;;
  c ← get_state;
  let amount := reducible_balance (x_bank c) Polkadex (AssetHandlerAccount cfg) Preserve in
  resolver_call (bank_op (bank_transfer Polkadex (AssetHandlerAccount cfg) to amount Protect))).

Definition insert_asset (o : Origin) (id : AssetId) (location : XcmAssetId) : XM unit :=
  xcm_origin o ;; modify (λ c, c <| ParachainAssets ::= <[id := location]> |>).

(** ** [TransactAsset] *)
Definition get_amount (f : Fungibility) : option Z :=
  match f with Fungible n => Some n | NonFungible => None end.

Definition new_random_id (prefix : option (byte_array 4)) : XM H160 :=
  modify (λ c, c <| RandomnessNonce ::= λ n, wrap 32 (n + 1) |>) ;;
  c ← get_state;
  let entropy := blake2_128 (le_bytes 1 (SubstrateNetworkId cfg) ++ le_bytes 4 (RandomnessNonce c)) in
  mret (vapp (default (vreplicate 4 x00) prefix) entropy : H160).

(** [extract_data_from_multilocation] *)
Definition extract_data_from_multilocation (l : MultiLocation) : option (AccountId * ExtraData) :=
  if negb (parents l =? 0) then None
  else match as_account l, as_account_pallet l with
       | Some (known, id), _ => if known : bool then Some (id, NoExtra) else None
       | None, Some (known, id) => if known : bool then Some (id, DirectDeposit) else None
       | None, None => None
       end.

Definition deposit_asset (what : MultiAsset) (who : MultiLocation) : XM unit :=
  asset_id ← generate_asset_id_for_parachain (ma_id what);
  match SiblingAddressConverter who with
  | Some account =>
      amount ← ok_or (get_amount (ma_fun what)) (Trap 101);
      swallow (mint_to asset_id amount account)
  | None =>
      re ← ok_or (extract_data_from_multilocation who) (Trap 99);
      let '(recipient, extra) := re in
      amount ← ok_or (get_amount (ma_fun what)) (Trap 101);
      asset_id ← generate_asset_id_for_parachain (ma_id what);
      id ← new_random_id None;
      map_err (λ _, Trap 102) (out_call (out_execute_withdrawals (SubstrateNetworkId cfg)
        (enc_deposits [mkTheaDeposit id recipient asset_id amount extra])))
  end.

Definition withdraw_asset (what : MultiAsset) (who : MultiLocation) : XM MultiAsset :=
  who_account ← ok_or (AccountIdConvert who) FailedToDecode;
  amount ← ok_or (get_amount (ma_fun what)) (Trap 101);
  asset_id ← generate_asset_id_for_parachain (ma_id what);
  map_err (λ _, Trap 110) (resolver_call
    (resolver_withdraw_parachain (NativeAssetId cfg) (asset_into_u128 asset_id) amount who_account)) ;;
  mret what.

Definition transfer_asset (asset : MultiAsset) (from to : MultiLocation) : XM MultiAsset :=
  from ← ok_or (AccountIdConvert from) FailedToDecode;
  to ← ok_or (AccountIdConvert to) FailedToDecode;
  amount ← ok_or (get_amount (ma_fun asset)) (Trap 101);
  asset_id ← generate_asset_id_for_parachain (ma_id asset);
  map_err (λ _, Trap 102) (resolver_call
    (resolve_transfer (NativeAssetId cfg) (asset_into_u128 asset_id) from to amount)) ;;
  mret asset.

(** ** Withdrawals that arrive over the bridge *)

(** Queues a withdrawal at a block. *)
Definition push_pending (n : Z) (l : list TheaWithdraw) : XM unit :=
  modify (λ c, c <| PendingWithdrawals ::= <[n := pending_at c n ++ l]> |>).

(** [TheaIncomingExecutor::execute_deposits] *)
Definition execute_deposits (network : Z) (deposits : bytes) : XM unit :=
  deposits ← ok_or (dec_withdrawals deposits) DecodeFailed;
  ensure (length deposits <=? MaxWithdrawalsPerBlock cfg)%nat BatchTooLarge ;;
  c ← get_state;
  let at_block :=
    sat_add 32 (saturated_into 32 (x_block c)) (saturated_into 32 (WithdrawalExecutionBlockDiff cfg)) in
  for_each deposits (λ deposit, push_pending at_block [deposit]).

Definition block_by_ele (n : Z) (index : nat) : XM unit :=
  c ← get_state;
  w ← ok_or (pending_at c n !! index) IndexNotFound;
  modify (λ c, c <| PendingWithdrawals ::= <[n := <[index := block_withdrawal w]> (pending_at c n)]> |>).

Definition insert_pending_withdrawal (n : Z) (w : TheaWithdraw) : XM unit :=
  modify (λ c, c <| PendingWithdrawals ::= <[n := [w]]> |>).

Definition insert_parachain_asset (asset : XcmAssetId) (id : AssetId) : XM unit :=
  modify (λ c, c <| ParachainAssets ::= <[id := asset]> |>).

Definition get_destination_account (l : MultiLocation) : option AccountId :=
  if parents l =? 0 then snd <$> as_account l else None.

Definition is_polkadex_parachain_destination (d : VersionedMultiLocation) : bool :=
  match versioned_try_into d with Some l => parents l =? 0 | None => false end.

Definition handle_deposit (w : TheaWithdraw) (d : VersionedMultiLocation) : XM unit :=
  l ← ok_or (versioned_try_into d) UnableToConvertToMultiLocation;
  account ← ok_or (get_destination_account l) UnableToConvertToAccount;
  mint_to (tw_asset_id w) (tw_amount w) account.

(** [if m.is_err() { failed.push(w) }]: the withdrawals that are pushed *)
Definition failing (w : TheaWithdraw) (m : XM unit) : XM (list TheaWithdraw) := λ c,
  match m c with
  | (Ok _, c') => (Ok [], c')
  | (Err _, c') => (Ok [w], c')
  | (Panic, c') => (Panic, c')
  end.

(** One turn of the loop: the withdrawals it adds to the failed ones *)
Definition process_withdrawal (w : TheaWithdraw) : XM (list TheaWithdraw) :=
  if tw_is_blocked w then mret [w]
  else match versioned_decode (tw_destination w) with
  | None => mret [w]
  | Some d =>
      if is_polkadex_parachain_destination d then failing w (handle_deposit w d)
      else
        c ← get_state;
        let pallet := AssetHandlerAccount cfg in
        match tw_fee_asset_id w, tw_fee_amount w with
        | Some fee_asset, Some fee_amount =>
            match ParachainAssets c !! tw_asset_id w, ParachainAssets c !! fee_asset with
            | Some _, Some _ =>
                f1 ← failing w (mint_to (tw_asset_id w) (tw_amount w) pallet);
                f2 ← failing w (mint_to fee_asset fee_amount pallet);
                mret (f1 ++ f2)
            | _, _ => mret []
            end
        | _, _ =>
            match ParachainAssets c !! tw_asset_id w with
            | None => mret [w]
            | Some _ =>
                match versioned_v3 d with
                | None => mret [w]
                | Some l =>
                    f1 ← match SiblingAddressConverter l, tw_asset_id w with
                         | Some sovereign, Polkadex =>
                             failing w (mint_to (tw_asset_id w) (tw_amount w) sovereign)
                         | _, _ => mret []
                         end;
                    f2 ← failing w (mint_to (tw_asset_id w) (tw_amount w) pallet);
                    mret (f1 ++ f2)
                end
            end
        end
  end.

(** The withdrawals are popped from the end. *)
Fixpoint process_all (l : list TheaWithdraw) : XM (list TheaWithdraw) :=
  match l with
  | [] => mret []
  | w :: l => f ← process_withdrawal w; rest ← process_all l; mret (f ++ rest)
  end.

Definition handle_new_pending_withdrawals (n : Z) : XM unit :=
  c ← get_state;
  let all := pending_at c n in
  let split := (length all - MaxWithdrawalsPerBlock cfg)%nat in
  let overflow := take split all in
  modify (λ c, c <| PendingWithdrawals ::= delete n |>) ;;
  (if bool_decide (overflow = []) then mret tt else push_pending (sat_add 32 n 1) overflow) ;;
  failed ← process_all (reverse (drop split all));
  if bool_decide (failed = []) then mret tt
  else modify (λ c, c <| FailedWithdrawals ::= <[n := failed]> |>).

(** [on_initialize] *)
Definition xcm_on_initialize (n : Z) : XM unit := handle_new_pending_withdrawals n.
End xcm_helper.

(** ** A concrete instance, to evaluate the model

    A destination is a tag, for an account of this chain or for a sibling chain, and
    its account; a message holds one withdrawal. *)
Module RefXcm.
Import RefBank.

Inductive location : Type := LHere | LAccount (a : AccountId) | LPara (id : Z).
#[export] Instance location_eq_dec : EqDecision location.
Proof. solve_decision. Defined.

Definition account_of (l : location) : option AccountId :=
  match l with LAccount a => Some a | _ => None end.

#[export] Instance ref_xcm : Xcm := {|
  MultiLocation := location;
  parents l := match l with LPara _ => 1 | _ => 0 end;
  as_account l := (true,.) <$> account_of l;
  as_account_pallet _ := None;
  here := LHere;
  sibling := LPara;
  VersionedMultiLocation := location;
  versioned_decode l :=
    match l with
    | x00 :: l => Some (LAccount (pad 32 l))
    | x01 :: _ => Some (LPara 1)
    | _ => None
    end;
  versioned_try_into := Some;
  versioned_v3 := Some;
  SiblingAddressConverter l := match l with LPara _ => Some (pad 32 [xff]) | _ => None end;
  AccountIdConvert := account_of;
  enc_location _ := [];
  enc_deposits _ := [];
  dec_withdrawals l :=
    match l with
    | [] => None
    | n :: dest => Some [mkTheaWithdraw (vreplicate 20 x00) (Asset 5) (Z.of_N (Byte.to_N n)) dest
                           None None false NoExtra]
    end;
|}.

#[export] Instance ref_registry : AssetRegistry := λ _ _, true.
#[export] Instance ref_registry_laws : AssetRegistryLaws.
Proof. split; [done..|]. intros b x a n. cbn. by case_match. Qed.

#[export] Instance ref_out : OutgoingExecutor := {|
  Out := list (Z * bytes);
  OutError := unit;
  out_execute_withdrawals n data l := (Ok tt, l ++ [(n, data)]);
|}.
End RefXcm.
