(* ===== verification/XcmProps.v ===== *)
(** * Properties of the XCM helper

    What happens to withdrawals that arrive over the bridge, from the message that
    carries them to the account they are paid to. *)

From S2P Require Import Prelude Decimal Assets Bank Types Chain TheaTypes XcmHelper.

Section properties.
Context {CR : Crypto} {BK : Currencies} {BL : CurrenciesLaws} {AR : AssetRegistry}.
Context {AL : AssetRegistryLaws} {X : Xcm} {OE : OutgoingExecutor}.
Context (cfg : XcmConfig).
Implicit Types (c : XcmChain) (w : TheaWithdraw).

(** The currency that an asset is paid in *)
Definition currency (a : AssetId) : AssetId :=
  if asset_into_u128 a =? NativeAssetId cfg then Polkadex else Asset (asset_into_u128 a).
Definition purse c (a : AssetId) (who : AccountId) : Z := balance (x_bank c) (currency a) who.

(** Only the currencies change. *)
Definition only_bank c c' : Prop := c' = c <| x_bank := x_bank c' |>.

Lemma only_bank_refl c : only_bank c c.
Proof. by destruct c. Qed.
Lemma only_bank_trans c1 c2 c3 : only_bank c1 c2 → only_bank c2 c3 → only_bank c1 c3.
Proof. unfold only_bank. intros -> ->. done. Qed.

Lemma ensure_asset_balance asset admin m b x a :
  balance (ensure_asset asset admin m b).2 x a = balance b x a.
Proof.
  unfold ensure_asset, bank_op, map_err. mrun. destruct (asset_exists b asset); [done|].
  pose proof (create_frame b asset admin m x a) as H.
  by destruct (bank_create asset admin m b) as [[]].
Qed.

(** Who holds what after a payment of [n] in [x] to [who], or after none *)
Definition credited (b b' : Bank) (x : AssetId) (who : AccountId) (n : Z) : Prop :=
  ∀ y a, balance b' y a = if decide (y = x ∧ a = who) then balance b x who + n else balance b y a.
Definition same_money (b b' : Bank) : Prop := ∀ y a, balance b' y a = balance b y a.

Lemma same_credited b b1 b' x who n :
  same_money b b1 → credited b1 b' x who n → credited b b' x who n.
Proof. intros H1 H2 y a. rewrite H2, !H1. done. Qed.

Lemma bank_mint_effect x who n b r b' :
  bank_op (bank_mint x who n) b = (r, b') →
  match r with Ok _ => credited b b' x who n | Err _ => same_money b b' | Panic => True end.
Proof.
  unfold bank_op, map_err. pose proof (mint_fail b x who n) as Hf.
  destruct (bank_mint x who n b) as [[[]|e|] b1] eqn:Hm; intros [= <- <-]; [|cbn in Hf|done].
  - intros y a. case_decide as Hd; [destruct Hd as [-> ->]; by apply mint_ok|].
    apply (mint_frame b x who n); [done|]. destruct (decide (y = x)); naive_solver.
  - by rewrite Hf.
Qed.

(** A deposit credits exactly the payee, or nobody. *)
Lemma resolve_deposit_effect asset amount who admin m b r b' :
  resolve_deposit_parachain (NativeAssetId cfg) asset amount who admin m b = (r, b') →
  let x := if asset =? NativeAssetId cfg then Polkadex else Asset asset in
  match r with Ok _ => credited b b' x who amount | Err _ => same_money b b' | Panic => True end.
Proof.
  unfold resolve_deposit_parachain. cbn. destruct (asset =? NativeAssetId cfg); [apply bank_mint_effect|].
  intros H. unfold mbind, M_bind in H.
  pose proof (ensure_asset_balance asset admin m b) as He.
  destruct (ensure_asset asset admin m b) as [[[]|e|] b1]; [|by injection H as <- <-..].
  apply bank_mint_effect in H. destruct r; [by apply (same_credited b b1)| |done].
  intros y a. by rewrite H, He.
Qed.

Lemma mint_to_effect asset amount who c r c' :
  mint_to cfg asset amount who c = (r, c') →
  only_bank c c'
  ∧ match r with
    | Ok _ => credited (x_bank c) (x_bank c') (currency asset) who amount
    | Err _ => same_money (x_bank c) (x_bank c')
    | Panic => True
    end.
Proof.
  unfold mint_to, resolver_call. intros H.
  destruct (resolve_deposit_parachain _ _ _ _ _ _ (x_bank c)) as [r0 b] eqn:Hd.
  apply resolve_deposit_effect in Hd. destruct r0; injection H as <- <-; by split.
Qed.

Lemma failing_effect w asset amount who c f c' :
  failing w (mint_to cfg asset amount who) c = (Ok f, c') →
  only_bank c c'
  ∧ (f = [] ∧ credited (x_bank c) (x_bank c') (currency asset) who amount
     ∨ f = [w] ∧ same_money (x_bank c) (x_bank c')).
Proof.
  unfold failing. destruct (mint_to cfg asset amount who c) as [r c1] eqn:Hm.
  apply mint_to_effect in Hm as [Hb Hm]. destruct r; intros [= <- <-]; auto.
Qed.

(** ** Payments on this chain *)

(** A withdrawal to an account of this chain is paid or kept.  One turn of the
    loop credits exactly the amount to exactly the account that the destination
    names, and records nothing; or, if the currency refuses, it moves no money and
    records the withdrawal as failed, once. *)
Theorem local_withdrawal_paid w d l account c f c' :
  tw_is_blocked w = false → versioned_decode (tw_destination w) = Some d →
  versioned_try_into d = Some l → get_destination_account l = Some account →
  process_withdrawal cfg w c = (Ok f, c') →
  c' = c <| x_bank := x_bank c' |>
  ∧ (f = [] ∧ (∀ y a, balance (x_bank c') y a
        = if decide (y = currency (tw_asset_id w) ∧ a = account)
          then purse c (tw_asset_id w) account + tw_amount w else balance (x_bank c) y a)
     ∨ f = [w] ∧ ∀ y a, balance (x_bank c') y a = balance (x_bank c) y a).
Proof.
  intros Hb Hd Hl Ha. unfold process_withdrawal. rewrite Hb, Hd.
  assert (is_polkadex_parachain_destination d = true) as ->.
  { unfold is_polkadex_parachain_destination. rewrite Hl. unfold get_destination_account in Ha.
    by destruct (parents l =? 0). }
  assert (handle_deposit cfg w d = mint_to cfg (tw_asset_id w) (tw_amount w) account) as ->.
  { unfold handle_deposit. rewrite Hl. mrun. by rewrite Ha. }
  apply failing_effect.
Qed.

(** ** Withdrawals to other chains *)

(** The account that receives the first of the two mints, if there are two *)
Definition sovereign_of (l : MultiLocation) (a : AssetId) : option AccountId :=
  match SiblingAddressConverter l, a with Some s, Polkadex => Some s | _, _ => None end.

Lemma foreign_run w d l c f c' :
  tw_is_blocked w = false → versioned_decode (tw_destination w) = Some d →
  is_polkadex_parachain_destination d = false → tw_fee_asset_id w = None →
  is_Some (ParachainAssets c !! tw_asset_id w) → versioned_v3 d = Some l →
  process_withdrawal cfg w c = (Ok f, c') →
  ∃ c1 f1 f2, f = f1 ++ f2
    ∧ match sovereign_of l (tw_asset_id w) with
      | Some s => failing w (mint_to cfg (tw_asset_id w) (tw_amount w) s) c = (Ok f1, c1)
      | None => f1 = [] ∧ c1 = c
      end
    ∧ failing w (mint_to cfg (tw_asset_id w) (tw_amount w) (AssetHandlerAccount cfg)) c1 = (Ok f2, c').
Proof.
  intros Hb Hd Hfor Hfee [asset Hmap] Hv H. unfold process_withdrawal, sovereign_of in *.
  rewrite Hb, Hd, Hfor in H. mrun_in H. rewrite Hfee, Hmap, Hv in H.
  match type of H with (let (_, _) := ?m in _) = _ => destruct m as [[f1|e|] c1] eqn:H1 end; [|done..].
  destruct (failing w _ c1) as [[f2|e|] c2] eqn:H2; [|done..]. injection H as <- <-.
  exists c1, f1, f2. split; [done|]. split; [|done].
  destruct (SiblingAddressConverter l), (tw_asset_id w); by simplify_eq.
Qed.

(** A withdrawal to another chain never leaves.  Its amount is minted to the
    pallet's own account, nothing is sent, and nothing is recorded: the withdrawal is
    gone.  If it is the native token and the destination a sibling chain, the amount
    is minted a second time, to the sovereign account of the sibling. *)
Theorem foreign_withdrawal_stranded w d l c c' pallet :
  tw_is_blocked w = false → versioned_decode (tw_destination w) = Some d →
  is_polkadex_parachain_destination d = false → tw_fee_asset_id w = None →
  is_Some (ParachainAssets c !! tw_asset_id w) → versioned_v3 d = Some l →
  process_withdrawal cfg w c = (Ok [], c') → pallet = AssetHandlerAccount cfg →
  c' = c <| x_bank := x_bank c' |>
  ∧ (tw_asset_id w ≠ Polkadex ∨ SiblingAddressConverter l = None →
     purse c' (tw_asset_id w) pallet = purse c (tw_asset_id w) pallet + tw_amount w)
  ∧ ∀ sovereign, tw_asset_id w = Polkadex → SiblingAddressConverter l = Some sovereign →
     sovereign ≠ pallet →
     purse c' Polkadex pallet = purse c Polkadex pallet + tw_amount w
     ∧ purse c' Polkadex sovereign = purse c Polkadex sovereign + tw_amount w.
Proof.
  intros Hb Hd Hfor Hfee Hmap Hv H ->.
  destruct (foreign_run w d l c _ c' Hb Hd Hfor Hfee Hmap Hv H) as (c1 & f1 & f2 & Hf & H1 & H2).
  symmetry in Hf. apply app_eq_nil in Hf as [-> ->].
  apply failing_effect in H2 as [Hb2 [[_ Hc2]|[? _]]]; [|done]. unfold purse, sovereign_of in *.
  destruct (SiblingAddressConverter l) as [s|] eqn:Hs; [destruct (tw_asset_id w) as [id|] eqn:Ha|].
  - destruct H1 as [_ ->]. split; [done|]. split; [|done]. intros _. by rewrite Hc2, decide_True.
  - apply failing_effect in H1 as [Hb1 [[_ Hc1]|[? _]]]; [|done].
    split; [by apply (only_bank_trans c c1)|]. split; [by intros [?|?]|].
    intros sov _ [= <-] Hne. rewrite !Hc2, decide_True, decide_False by naive_solver.
    rewrite !Hc1, decide_False, decide_True by naive_solver. done.
  - destruct H1 as [_ ->]. split; [done|]. split; [|done]. intros _. by rewrite Hc2, decide_True.
Qed.

(** A withdrawal with a fee in an asset that is not mapped is lost.  If either
    the asset or the fee asset has no location, the turn of the loop does nothing at
    all: no money moves, and no failure is recorded. *)
Theorem unmapped_fee_withdrawal_lost w d fee_asset fee_amount c :
  tw_is_blocked w = false → versioned_decode (tw_destination w) = Some d →
  is_polkadex_parachain_destination d = false →
  tw_fee_asset_id w = Some fee_asset → tw_fee_amount w = Some fee_amount →
  ParachainAssets c !! tw_asset_id w = None ∨ ParachainAssets c !! fee_asset = None →
  process_withdrawal cfg w c = (Ok [], c).
Proof.
  intros Hb Hd Hfor Hfa Hfn Hmap. unfold process_withdrawal. rewrite Hb, Hd, Hfor, Hfa, Hfn. mrun.
  destruct Hmap as [->| ->]; [done|]. by destruct (ParachainAssets c !! tw_asset_id w).
Qed.

(** ** The queue *)
Definition failed_at c (n : Z) : list TheaWithdraw := default [] (FailedWithdrawals c !! n).

(** A turn of the loop touches only the currencies, and records only its own
    withdrawal. *)
Definition turn w (m : M XcmChain XcmHelperError (list TheaWithdraw)) : Prop :=
  ∀ c f c', m c = (Ok f, c') → only_bank c c' ∧ ∀ x, x ∈ f → x = w.

Lemma turn_ret w l : (∀ x, x ∈ l → x = w) → turn w (mret l).
Proof. intros Hl c f c' [= <- <-]. split; [apply only_bank_refl|done]. Qed.
Lemma turn_seq w m1 m2 : turn w m1 → turn w m2 → turn w (f1 ← m1; f2 ← m2; mret (f1 ++ f2)).
Proof.
  intros H1 H2 c f c' H. inv_run.
  repeat match goal with H : m1 _ = _ |- _ => apply H1 in H as [Hb1 Hf1]
                       | H : m2 _ = _ |- _ => apply H2 in H as [Hb2 Hf2] end.
  split; [by eapply only_bank_trans|]. intros x [?|?]%elem_of_app; auto.
Qed.
Lemma turn_state w k : (∀ c, turn w (k c)) → turn w (c ← get_state; k c).
Proof. intros Hk c f c' H. by apply (Hk c). Qed.

Lemma turn_mint w asset amount who : turn w (failing w (mint_to cfg asset amount who)).
Proof.
  intros c f c' [Hb Hf]%failing_effect. split; [done|]. destruct Hf as [[-> _]|[-> _]].
  - by intros x ?%not_elem_of_nil.
  - by intros x ?%list_elem_of_singleton.
Qed.
Lemma turn_deposit w d : turn w (failing w (handle_deposit cfg w d)).
Proof.
  intros c f c' H. unfold failing, handle_deposit in H. mrun_in H.
  destruct (versioned_try_into d) as [l|]; [|injection H as <- <-; by apply (turn_ret w [w] ltac:(by intros x ?%list_elem_of_singleton) c)].
  destruct (get_destination_account l) as [a|]; [|injection H as <- <-; by apply (turn_ret w [w] ltac:(by intros x ?%list_elem_of_singleton) c)].
  by apply (turn_mint w (tw_asset_id w) (tw_amount w) a).
Qed.

Lemma process_withdrawal_turn w : turn w (process_withdrawal cfg w).
Proof.
  assert (turn w (mret [])) as H0 by (apply turn_ret; by intros x ?%not_elem_of_nil).
  assert (turn w (mret [w])) as H1 by (apply turn_ret; by intros x ?%list_elem_of_singleton).
  unfold process_withdrawal. repeat first [assumption | lazymatch goal with
    | |- turn _ (failing _ (handle_deposit _ _ _)) => apply turn_deposit
    | |- turn _ (failing _ _) => apply turn_mint
    | |- turn _ (mbind _ get_state) => apply turn_state; intros ?
    | |- turn _ (mbind _ _) => apply turn_seq
    | |- turn _ (match ?x with _ => _ end) => destruct x
    | |- turn _ (let _ := _ in _) => cbv zeta
    end].
Qed.

Lemma process_all_turn l c f c' :
  process_all cfg l c = (Ok f, c') →
  only_bank c c' ∧ (∀ x, x ∈ f → x ∈ l)
  ∧ ∀ w, w ∈ l → (tw_is_blocked w = true ∨ versioned_decode (tw_destination w) = None) → w ∈ f.
Proof.
  revert c f. induction l as [|w l IH]; intros c f H; cbn in H; inv_run.
  - split; [apply only_bank_refl|]. split; [done|]. by intros w ?%not_elem_of_nil.
  - match goal with H : process_withdrawal _ _ _ = (Ok ?f, ?s) |- _ => rename H into Hw; rename f into f1 end.
    match goal with H : process_all _ _ _ = (Ok ?f, ?s) |- _ =>
      apply IH in H as (Hb & Hin & Hbad); rename f into f2 end.
    destruct (process_withdrawal_turn w _ _ _ Hw) as [Hb1 Hf1].
    split; [by eapply only_bank_trans|]. split.
    + intros x [->%Hf1|?]%elem_of_app; [by left|right; by apply Hin].
    + intros x [->|Hx]%elem_of_cons Hc; apply elem_of_app; [left|right; by apply Hbad].
      unfold process_withdrawal in Hw. destruct (tw_is_blocked w); [by injection Hw as <- <-; left|].
      destruct Hc as [?|Hd]; [done|]. rewrite Hd in Hw. injection Hw as <- <-. by left.
Qed.

Lemma requeue_pending n overflow c u s :
  (if bool_decide (overflow = []) then mret tt else push_pending (n + 1) overflow)
    (c <| PendingWithdrawals ::= delete n |>) = (Ok u, s) →
  FailedWithdrawals s = FailedWithdrawals c
  ∧ ∀ k, pending_at s k = if decide (k = n) then []
      else if decide (k = n + 1) then pending_at c (n + 1) ++ overflow else pending_at c k.
Proof.
  intros H. unfold push_pending in H. case_bool_decide as Ho; inv_run; (split; [done|]); intros k;
    unfold pending_at; cbn.
  - destruct (decide (k = n)) as [->|Hn]; [by rewrite lookup_delete_eq|].
    rewrite lookup_delete_ne by done. case_decide; [subst; by rewrite app_nil_r|done].
  - destruct (decide (k = n + 1)) as [->|Hk].
    + rewrite lookup_insert_eq, decide_False by lia. cbn. by rewrite lookup_delete_ne by lia.
    + rewrite lookup_insert_ne by done. case_decide; [subst; by rewrite lookup_delete_eq|].
      by rewrite lookup_delete_ne.
Qed.

Lemma record_failed n failed c u c' :
  (if bool_decide (failed = []) then mret tt
   else modify (E := XcmHelperError) (λ c, c <| FailedWithdrawals ::= <[n := failed]> |>)) c = (Ok u, c') →
  FailedWithdrawals c !! n = None → failed_at c' n = failed ∧ ∀ k, pending_at c' k = pending_at c k.
Proof.
  intros H Hn. unfold failed_at. case_bool_decide as Hf; inv_run; cbn.
  - by rewrite Hn.
  - by rewrite lookup_insert_eq.
Qed.

(** C27: the queue of a block is bounded and loses nothing by itself.  The start of a
    block processes at most [MaxWithdrawalsPerBlock] withdrawals of its queue; the
    others are appended, in order, to the queue of the next block; no other queue
    changes.  The failed withdrawals that are recorded were in the queue, and every
    processed withdrawal that is blocked or whose destination cannot be decoded is
    recorded. *)
Theorem pending_withdrawals_bounded n c c' all todo :
  xcm_on_initialize cfg n c = (Ok tt, c') → 0 ≤ n < u32_max → FailedWithdrawals c !! n = None →
  all = pending_at c n → todo = drop (length all - MaxWithdrawalsPerBlock cfg) all →
  (length todo ≤ MaxWithdrawalsPerBlock cfg)%nat
  ∧ pending_at c' n = []
  ∧ pending_at c' (n + 1)
    = pending_at c (n + 1) ++ take (length all - MaxWithdrawalsPerBlock cfg) all
  ∧ (∀ k, k ≠ n → k ≠ n + 1 → pending_at c' k = pending_at c k)
  ∧ (∀ w, w ∈ failed_at c' n → w ∈ todo)
  ∧ ∀ w, w ∈ todo → (tw_is_blocked w = true ∨ versioned_decode (tw_destination w) = None) →
      w ∈ failed_at c' n.
Proof.
  intros H Hn Hnone -> ->. assert (sat_add 32 n 1 = n + 1) as Hnext.
  { unfold sat_add, u32_max in *. lia. }
  unfold xcm_on_initialize, handle_new_pending_withdrawals in H. inv_run. rewrite Hnext in *.
  set (k := (length (pending_at c n) - MaxWithdrawalsPerBlock cfg)%nat) in *.
  match goal with H : _ (c <| PendingWithdrawals ::= delete n |>) = _ |- _ =>
    apply requeue_pending in H as [Hf Hp] end.
  match goal with H : process_all _ _ _ = _ |- _ => apply process_all_turn in H as (Hb & Hin & Hbad) end.
  match goal with H : _ = (Ok tt, c') |- _ => apply record_failed in H as [Hf' Hp'] end;
    [|rewrite Hb; cbn; by rewrite Hf].
  assert (∀ j, pending_at c' j = pending_at s j) as Hps by (intros j; rewrite Hp', Hb; done).
  rewrite !Hps, !Hp, Hf', decide_True, (decide_False (P := n + 1 = n)), decide_True by lia.
  split_and!; [rewrite length_drop; lia|done..| | |].
  - intros j Hj1 Hj2. by rewrite Hps, Hp, !decide_False.
  - intros w Hw%Hin. by rewrite elem_of_reverse in Hw.
  - intros w Hw. apply Hbad. by rewrite elem_of_reverse.
Qed.

(** ** Identifiers of assets *)

(** Identifiers and locations are inverse to each other.  The identifier that is
    generated for a location which had none converts back to that location, and every
    mapping that exists is kept; the two locations of the chain itself map to the
    native token, without a mapping. *)
Theorem asset_location_roundtrip location c :
  ∃ id c', convert_location_to_asset_id cfg location c = (Ok id, c')
    ∧ (∀ id' x, ParachainAssets c !! id' = Some x → ParachainAssets c' !! id' = Some x)
    ∧ if is_native_asset cfg (Concrete location) then id = Polkadex ∧ c' = c
      else ParachainAssets c !! id = None → convert_asset_id_to_location c' id = Some location.
Proof.
  unfold convert_location_to_asset_id, generate_asset_id_for_parachain. mrun.
  destruct (is_native_asset cfg (Concrete location)); [by exists Polkadex, c|].
  eexists _, _. split; [done|]. case_bool_decide as Hd.
  - split; [done|]. intros Hn. by destruct Hd as [? ?]; simplify_eq.
  - split.
    + intros id' x Hx. cbn. rewrite lookup_insert_ne; [done|]. intros <-. by destruct Hd.
    + intros _. unfold convert_asset_id_to_location. cbn. by rewrite lookup_insert_eq.
Qed.
End properties.

(** ** Concrete runs *)
Module XcmExample.
Import RefDecimal RefCrypto RefBank RefXcm.

(** The pallet is account 9, at most two withdrawals are processed per block, and
    asset 5 and the native token are mapped. *)
Definition config : XcmConfig :=
  mkXcmConfig (acct 9) 7 1 0 3 2 (λ o, match o with Root => true | _ => false end) (λ _, []).
Definition withdrawal (a : AssetId) (n : Z) (dest : bytes) : TheaWithdraw :=
  mkTheaWithdraw (vreplicate 20 x00) a n dest None None false NoExtra.
Definition to_account : TheaWithdraw := withdrawal (Asset 5) 40 [x00; x04].
Definition to_sibling : TheaWithdraw := withdrawal Polkadex 30 [x01].
Definition undecodable : TheaWithdraw := withdrawal (Asset 5) 20 [x07].
Definition with_fee : TheaWithdraw :=
  mkTheaWithdraw (vreplicate 20 x00) (Asset 6) 50 [x01] (Some (Asset 5)) (Some 2) false NoExtra.
Definition chain : XcmChain :=
  mkXcmChain 10 {[10 := [to_sibling; to_account; undecodable]]} ∅
    {[Asset 5 := Concrete LHere; Polkadex := Concrete LHere]} [] 0 (mkBank ∅) [].

Lemma local_withdrawal_paid_witness :
  balance (x_bank (process_withdrawal config to_account chain).2) (Asset 5) (acct 4) = 40.
Proof.
  destruct (local_withdrawal_paid config to_account (LAccount (acct 4)) (LAccount (acct 4)) (acct 4)
    chain [] (process_withdrawal config to_account chain).2) as (_ & [[_ H]|[H _]]);
    [reflexivity|vm_compute; reflexivity|reflexivity|reflexivity
    |apply run_nil; vm_compute; reflexivity| |discriminate H].
  rewrite H. vm_compute. reflexivity.
Defined.

Lemma foreign_withdrawal_stranded_witness :
  let c' := (process_withdrawal config to_sibling chain).2 in
  purse config c' Polkadex (acct 9) = 30 ∧ purse config c' Polkadex (pad 32 [xff]) = 30.
Proof.
  destruct (foreign_withdrawal_stranded config to_sibling (LPara 1) (LPara 1) chain
    (process_withdrawal config to_sibling chain).2 (acct 9)) as (_ & _ & H);
    [reflexivity|reflexivity|reflexivity|reflexivity|vm_compute; eexists; reflexivity|reflexivity
    |apply run_nil; vm_compute; reflexivity|reflexivity|].
  destruct (H (pad 32 [xff])) as [H1 H2]; [reflexivity|reflexivity| |].
  - apply (bool_decide_eq_false_1 _). vm_compute. reflexivity.
  - cbn zeta. rewrite H1, H2. split; vm_compute; reflexivity.
Defined.

Lemma unmapped_fee_withdrawal_lost_witness :
  process_withdrawal config with_fee chain = (Ok [], chain).
Proof.
  apply (unmapped_fee_withdrawal_lost config with_fee (LPara 1) (Asset 5) 2 chain);
    [reflexivity..|left; vm_compute; reflexivity].
Defined.

(** Of three withdrawals the last two are processed, and one of them fails. *)
Lemma pending_withdrawals_bounded_witness :
  let c' := (xcm_on_initialize config 10 chain).2 in
  pending_at c' 11 = [to_sibling] ∧ undecodable ∈ failed_at c' 10.
Proof.
  destruct (pending_withdrawals_bounded config 10 chain (xcm_on_initialize config 10 chain).2
    [to_sibling; to_account; undecodable] [to_account; undecodable]) as (_ & _ & H & _ & _ & Hf);
    [apply run_ok; vm_compute; reflexivity|vm_compute; split; [discriminate|reflexivity]
    |vm_compute; reflexivity|vm_compute; reflexivity|reflexivity|].
  split; [exact H|]. apply Hf; [right; left|right; reflexivity].
Defined.
End XcmExample.
