(* ===== verification/Bridge.v ===== *)
(** * The bridge and the XCM helper together

    [TheaIncomingExecutor] of the Thea pallet is implemented by the XCM helper: an
    incoming message whose fork period is over becomes queued withdrawals. *)

From S2P Require Import Prelude Decimal Assets Bank Types Chain TheaTypes Thea XcmHelper.

(** Calls on one part of a state *)
Definition lift_fst {A B E F C} (f : E → F) (m : M A E C) : M (A * B) F C := λ s,
  match m s.1 with
  | (Ok a, x) => (Ok a, (x, s.2))
  | (Err e, x) => (Err (f e), (x, s.2))
  | (Panic, x) => (Panic, (x, s.2))
  end.
Definition lift_snd {A B E F C} (f : E → F) (m : M B E C) : M (A * B) F C := λ s,
  match m s.2 with
  | (Ok a, y) => (Ok a, (s.1, y))
  | (Err e, y) => (Err (f e), (s.1, y))
  | (Panic, y) => (Panic, (s.1, y))
  end.

Section bridge.
Context {TC : TheaCrypto} {CR : Crypto} {BK : Currencies} {AR : AssetRegistry}.
Context {X : Xcm} {OE : OutgoingExecutor} (cfg : XcmConfig).
(** The currency in which relayers and fishermen stake *)
Context {TW : TheaWorld}.

(** The runtime around the Thea pallet, with the XCM helper as its executor *)
Definition bridge_world : TheaWorld := {|
  World := XcmChain * World;
  WorldError := XcmHelperError + WorldError;
  Thea.execute_deposits n data := lift_fst inl (XcmHelper.execute_deposits cfg n data);
  hold a n := lift_snd inr (hold a n);
  release a n := lift_snd inr (release a n);
  native_transfer a b n := lift_snd inr (native_transfer a b n);
  native_burn a n := lift_snd inr (native_burn a n);
  native_reducible w a := native_reducible w.2 a;
  native_free w a := native_free w.2 a;
  on_hold w a := on_hold w.2 a;
|}.

Definition delivery_block (x : XcmChain) : Z :=
  sat_add 32 (saturated_into 32 (x_block x)) (saturated_into 32 (WithdrawalExecutionBlockDiff cfg)).

(** The state after queueing [l] *)
Definition queued (n : Z) (l : list TheaWithdraw) (x x' : XcmChain) : Prop :=
  ∀ k, pending_at x' k = if decide (k = n) then pending_at x n ++ l else pending_at x k.

Lemma push_all_queued n l x :
  ∃ x', for_each l (λ d, push_pending n [d]) x = (Ok tt, x') ∧ queued n l x x'.
Proof.
  revert x. induction l as [|d l IH]; intros x.
  - exists x. split; [done|]. intros k. case_decide; [subst; by rewrite app_nil_r|done].
  - destruct (IH (x <| PendingWithdrawals ::= <[n := pending_at x n ++ [d]]> |>)) as (x' & Hr & Hq).
    exists x'. split; [exact Hr|]. intros k. rewrite Hq. unfold pending_at. cbn.
    destruct (decide (k = n)) as [->|Hk]; [rewrite lookup_insert_eq; cbn; by rewrite <- app_assoc|].
    by rewrite lookup_insert_ne.
Qed.

(** What the executor makes of a message *)
Lemma execute_deposits_spec network data x :
  match dec_withdrawals data with
  | Some l =>
      if (length l <=? MaxWithdrawalsPerBlock cfg)%nat
      then ∃ x', XcmHelper.execute_deposits cfg network data x = (Ok tt, x')
             ∧ queued (delivery_block x) l x x'
      else XcmHelper.execute_deposits cfg network data x = (Err BatchTooLarge, x)
  | None => XcmHelper.execute_deposits cfg network data x = (Err DecodeFailed, x)
  end.
Proof.
  unfold XcmHelper.execute_deposits. mrun. destruct (dec_withdrawals data) as [l|]; [|done].
  destruct (length l <=? _)%nat; [|done]. apply push_all_queued.
Qed.

(** Releasing a stake does not touch the helper. *)
Lemma release_swallowed (c c' : TheaChain (TW := bridge_world)) a n u :
  swallow (world_call (TW := bridge_world) (lift_snd inr (release a n))) c = (Ok u, c') →
  thea c' = thea c ∧ (world c').1 = (world c).1.
Proof.
  unfold swallow, world_call, lift_snd. cbn.
  destruct (release a n (world c).2) as [[]]; intros H; by simplify_eq.
Qed.

(** What the executor leaves of a message, in its storage layer *)
Definition delivered (data : bytes) (x x' : XcmChain) : Prop :=
  match dec_withdrawals data with
  | Some l =>
      if (length l <=? MaxWithdrawalsPerBlock cfg)%nat then queued (delivery_block x) l x x' else x' = x
  | None => x' = x
  end.

Lemma isolated_delivers network data (c c' : TheaChain (TW := bridge_world)) b :
  isolated (TW := bridge_world) (lift_fst inl (XcmHelper.execute_deposits cfg network data)) c
  = (Ok b, c') →
  thea c' = thea c ∧ delivered data (world c).1 (world c').1.
Proof.
  unfold isolated, lift_fst, delivered. cbn. pose proof (execute_deposits_spec network data (world c).1) as Hs.
  destruct (dec_withdrawals data) as [l|]; [destruct (length l <=? _)%nat|].
  - destruct Hs as (x' & -> & Hq). intros H. by simplify_eq.
  - rewrite Hs. intros H. by simplify_eq.
  - rewrite Hs. intros H. by simplify_eq.
Qed.

(** C26: a message of the bridge is delivered whole or not at all.  When the fork
    period of the next message of a network is over, the message leaves the queue and
    the nonce advances, whatever it contains.  If it decodes to a batch of at most
    [MaxWithdrawalsPerBlock] withdrawals, all of them are queued, in order, at the
    block that the delay determines, and no other queue changes; otherwise the helper
    is left as it was. *)
Theorem bridge_delivers blk network nonce q (c c' : TheaChain (TW := bridge_world)) :
  process_incoming (TW := bridge_world) blk network c = (Ok tt, c') →
  nonce = sat_add 64 (nonce_of (IncomingNonce (thea c)) network) 1 →
  IncomingMessagesQueue (thea c) !! (network, nonce) = Some q →
  msg_network (in_message q) = network → execute_at q ≤ saturated_into 32 blk →
  nonce_of (IncomingNonce (thea c')) network = nonce
  ∧ IncomingMessagesQueue (thea c') !! (network, nonce) = None
  ∧ delivered (msg_data (in_message q)) (world c).1 (world c').1.
Proof.
  intros H -> Hq Hn Hdue. unfold process_incoming, upd_thea in H. inv_run.
  rewrite Hq in *. rewrite (proj2 (Z.leb_le _ _)) in * by done. rewrite Hn in *. inv_run.
  match goal with H : isolated _ _ = _ |- _ => apply isolated_delivers in H as [Ht Hd] end.
  match goal with H : swallow _ _ = _ |- _ => apply release_swallowed in H as [Ht' Hw] end.
  rewrite Ht', Hw. match goal with b : bool |- _ => destruct b end; inv_run; cbn; rewrite Ht; cbn;
    unfold nonce_of; rewrite lookup_insert_eq, lookup_delete_eq; done.
Qed.
End bridge.

(** ** A concrete run *)
Module BridgeExample.
Import RefDecimal RefCrypto RefBank RefXcm RefThea.

Definition config : XcmConfig :=
  mkXcmConfig (acct 9) 7 1 0 3 2 (λ o, match o with Root => true | _ => false end) (λ _, []).
Abbreviation runtime := (bridge_world config).

(** Message 1 of network 7 is due at block 20. *)
Definition due : IncomingMessage :=
  mkIncomingMessage (mkMessage 3 1 7 L1Deposit [x05; x00; x04]) (acct 4) 20 20.
Definition bridge_chain : TheaChain (TW := runtime) :=
  mkTheaChain (TW := runtime) 20
    (mkTheaStorage ∅ 0 [] ∅ ∅ {[(7, 1) := due]} ∅ ∅ ∅ ∅ {[7]} ∅ ∅ ∅)
    (mkXcmChain 20 ∅ ∅ ∅ [] 0 (mkBank ∅) [], {[acct 4 := (0, 20)]}).
Definition bridge_next : TheaChain (TW := runtime) :=
  (process_incoming (TW := runtime) 20 7 bridge_chain).2.

Lemma bridge_delivers_witness :
  nonce_of (IncomingNonce (thea bridge_next)) 7 = 1
  ∧ pending_at (world bridge_next).1 23
    = [mkTheaWithdraw (vreplicate 20 x00) (Asset 5) 5 [x00; x04] None None false NoExtra].
Proof.
  destruct (bridge_delivers config 20 7 1 due bridge_chain bridge_next) as (Hn & _ & Hd);
    [apply run_ok; vm_compute; reflexivity|reflexivity|reflexivity|reflexivity|vm_compute; discriminate|].
  split; [exact Hn|]. apply (Hd 23).
Defined.
End BridgeExample.
