(* ===== verification/RawStorage.v ===== *)
(** * Raw storage

    The host functions on the ordered key-value store of the chain, as the runtime
    migrations use them: [sp_io::storage::{exists, next_key, clear_prefix}] and
    [twox_128].  [key_loop] is the loop that the migrations write around [next_key];
    it is shown to terminate and to visit exactly the keys below a prefix. *)

From S2P Require Import Prelude.

(** ** The lexicographic order of keys *)
Definition bytes_lt (a b : bytes) : Prop := bytes_leb b a = false.
#[export] Instance bytes_lt_dec a b : Decision (bytes_lt a b) := decide (bytes_leb b a = false).

Lemma byte_to_N_inj x y : Byte.to_N x = Byte.to_N y → x = y.
Proof. intros H. apply (f_equal Byte.of_N) in H. rewrite !Byte.of_to_N in H. by simplify_eq. Qed.

Lemma bytes_leb_refl a : bytes_leb a a = true.
Proof. induction a as [|x a IH]; cbn; [done|]. by rewrite N.compare_refl. Qed.

Lemma bytes_leb_antisym a b : bytes_leb a b = true → bytes_leb b a = true → a = b.
Proof.
  revert b. induction a as [|x a IH]; intros [|y b]; cbn; try done.
  rewrite (N.compare_antisym (Byte.to_N x)).
  destruct (N.compare_spec (Byte.to_N x) (Byte.to_N y)) as [Heq| |]; cbn; try done.
  apply byte_to_N_inj in Heq as ->. intros H1 H2. by rewrite (IH b).
Qed.

Lemma bytes_leb_trans a b c : bytes_leb a b = true → bytes_leb b c = true → bytes_leb a c = true.
Proof.
  revert b c. induction a as [|x a IH]; intros [|y b] [|z c]; cbn; try done.
  destruct (N.compare_spec (Byte.to_N x) (Byte.to_N y)) as [H1|H1|H1],
    (N.compare_spec (Byte.to_N y) (Byte.to_N z)) as [H2|H2|H2],
    (N.compare_spec (Byte.to_N x) (Byte.to_N z)) as [H3|H3|H3]; try done; try lia.
  apply IH.
Qed.

Lemma bytes_leb_total a b : bytes_leb a b = true ∨ bytes_leb b a = true.
Proof.
  revert b. induction a as [|x a IH]; intros [|y b]; cbn; auto.
  rewrite (N.compare_antisym (Byte.to_N x)).
  destruct (N.compare_spec (Byte.to_N x) (Byte.to_N y)); cbn; auto.
Qed.

Lemma bytes_lt_leb a b : bytes_lt a b → bytes_leb a b = true.
Proof. unfold bytes_lt. destruct (bytes_leb_total a b) as [->| ->]; done. Qed.

Lemma bytes_lt_trans a b c : bytes_lt a b → bytes_lt b c → bytes_lt a c.
Proof.
  unfold bytes_lt. intros H1 H2. apply not_true_is_false. intros H3.
  rewrite (bytes_leb_trans b c a (bytes_lt_leb _ _ H2) H3) in H1. done.
Qed.

Lemma bytes_lt_irrefl a : ¬ bytes_lt a a.
Proof. unfold bytes_lt. by rewrite bytes_leb_refl. Qed.

#[export] Instance bytes_lt_strict : StrictOrder bytes_lt.
Proof. split; [intros a; apply bytes_lt_irrefl|intros a b c; apply bytes_lt_trans]. Qed.

(** ** Prefixes *)
Definition starts_with (prefix key : bytes) : bool := bool_decide (prefix `prefix_of` key).

Lemma prefix_leb p k : p `prefix_of` k → bytes_leb p k = true.
Proof.
  intros [r ->]. induction p as [|x p IH]; cbn; [done|]. by rewrite N.compare_refl.
Qed.

(** A proper extension of a key comes after it. *)
Lemma prefix_lt p k : p `prefix_of` k → k ≠ p → bytes_lt p k.
Proof.
  intros Hp Hne. apply not_true_is_false. intros Hle. apply Hne.
  apply bytes_leb_antisym; [done|by apply prefix_leb].
Qed.

(** The keys below a prefix are an interval of the order. *)
Lemma prefix_convex p a b c :
  p `prefix_of` a → p `prefix_of` c → bytes_leb a b = true → bytes_leb b c = true →
  p `prefix_of` b.
Proof.
  revert a b c. induction p as [|x p IH]; intros a b c Ha Hc Hab Hbc; [apply prefix_nil|].
  destruct Ha as [ra ->], Hc as [rc ->]. destruct b as [|y b]; [done|]. cbn in *.
  rewrite (N.compare_antisym (Byte.to_N x)) in Hbc.
  destruct (N.compare_spec (Byte.to_N x) (Byte.to_N y)) as [Heq| |]; cbn in *; try done.
  apply byte_to_N_inj in Heq as ->. apply prefix_cons.
  eapply IH; [..|exact Hab|exact Hbc]; by eexists.
Qed.

(** ** The host functions *)
Class RawStorage := {
  Raw : Type;
  (** [sp_io::storage::exists] *)
  raw_exists : Raw → bytes → bool;
  (** [sp_io::storage::next_key] *)
  next_key : Raw → bytes → option bytes;
  (** [clear_prefix(prefix, None)] and the number it reports *)
  clear_prefix : bytes → Raw → Z * Raw;
  (** [sp_io::hashing::twox_128] *)
  twox_128 : bytes → byte_array 16;
  (** The keys of the store, in order. *)
  raw_keys : Raw → list bytes;
}.

Class RawStorageLaws `{RawStorage} : Prop := {
  raw_keys_sorted r : StronglySorted bytes_lt (raw_keys r);
  raw_exists_spec r k : raw_exists r k = true ↔ k ∈ raw_keys r;
  (** The next key after the given one in lexicographic order *)
  next_key_spec r k : next_key r k = head (filter (bytes_lt k) (raw_keys r));
  (** Without a limit every key below the prefix goes. *)
  clear_prefix_spec p r :
    raw_keys (clear_prefix p r).2 = filter (λ k, ¬ p `prefix_of` k) (raw_keys r);
}.

(** [storage_prefix(pallet, item)] *)
Definition storage_prefix `{RawStorage} (pallet item : bytes) : bytes :=
  vec_to_list (twox_128 pallet) ++ vec_to_list (twox_128 item).

(** ** The loop over the keys below a prefix

    [let mut next_key = prefix; loop { match next_key(&next_key) { Some(key) if
    key.starts_with(prefix) => { body; next_key = key }, _ => break } }] *)
Fixpoint key_loop `{RawStorage} {S : Type} (fuel : nat) (r : Raw) (prefix cur : bytes)
    (body : bytes → S → S) (s : S) : option S :=
  match fuel with
  | O => None
  | Datatypes.S fuel' =>
      match next_key r cur with
      | Some key =>
          if starts_with prefix key then key_loop fuel' r prefix key body (body key s) else Some s
      | None => Some s
      end
  end.

(** One round per key of the store, and one that finds no more. *)
Definition loop_fuel `{RawStorage} (r : Raw) : nat := S (length (raw_keys r)).

(** The keys that properly extend a prefix *)
Definition keys_below `{RawStorage} (r : Raw) (p : bytes) : list bytes :=
  filter (λ k, p `prefix_of` k ∧ k ≠ p) (raw_keys r).

Section loop.
Context `{RSL : RawStorageLaws} {S : Type}.
Implicit Types (r : Raw) (p k : bytes).

Lemma sorted_filter_after (l : list bytes) k x l' :
  StronglySorted bytes_lt l → filter (bytes_lt k) l = x :: l' → filter (bytes_lt x) l = l'.
Proof.
  induction 1 as [|y l Hs IH Hall]; [done|]. rewrite !filter_cons.
  destruct (decide (bytes_lt k y)) as [Hky|Hky].
  - intros [= <- <-]. rewrite decide_False by apply bytes_lt_irrefl.
    rewrite (filter_all _ _ Hall). symmetry. apply filter_all.
    eapply Forall_impl; [exact Hall|]. cbn. intros z Hz. by eapply bytes_lt_trans.
  - intros Heq. assert (x ∈ filter (bytes_lt k) l) as Hx by (rewrite Heq; left).
    apply list_elem_of_filter in Hx as [Hkx Hxl].
    rewrite decide_False; [by apply IH|]. intros Hxy. apply Hky. by eapply bytes_lt_trans.
Qed.

(** From any key on, the loop runs through the later keys up to the first one outside
    the prefix. *)
Lemma key_loop_from r p cur (body : bytes → S → S) s fuel :
  (length (filter (bytes_lt cur) (raw_keys r)) < fuel)%nat →
  p `prefix_of` cur →
  key_loop fuel r p cur body s =
    Some (foldl (λ s k, body k s) s (filter (λ k, p `prefix_of` k) (filter (bytes_lt cur) (raw_keys r)))).
Proof.
  revert cur s. induction fuel as [|fuel IH]; intros cur s Hf Hp; [lia|]. cbn.
  rewrite next_key_spec. pose proof (raw_keys_sorted r) as Hs.
  destruct (filter (bytes_lt cur) (raw_keys r)) as [|k l] eqn:Hl; [done|].
  pose proof (sorted_filter_after _ _ _ _ Hs Hl) as Hk.
  assert (k ∈ filter (bytes_lt cur) (raw_keys r)) as Hin by (rewrite Hl; left).
  apply list_elem_of_filter in Hin as [Hck Hkr].
  rewrite filter_cons. cbn [head]. unfold starts_with. case_bool_decide as Hpk.
  - rewrite decide_True, IH by (rewrite ?Hk; cbn in *; done || lia). by rewrite Hk.
  - rewrite decide_False by done. assert (filter (λ k, p `prefix_of` k) l = []) as ->; [|done].
    apply filter_none, Forall_forall. intros z Hz Hpz. apply Hpk.
    rewrite <- Hk in Hz. apply list_elem_of_filter in Hz as [Hkz _].
    eapply (prefix_convex p cur k z); auto using bytes_lt_leb.
Qed.

(** Started at the prefix, the loop returns after visiting the keys below it in order. *)
Lemma key_loop_keys_below r p (body : bytes → S → S) s :
  key_loop (loop_fuel r) r p p body s = Some (foldl (λ s k, body k s) s (keys_below r p)).
Proof.
  rewrite key_loop_from; [|unfold loop_fuel|done].
  - do 2 f_equal. unfold keys_below. rewrite list_filter_filter.
    apply list_filter_iff. intros k. split.
    + intros [? Hlt]. split; [done|]. intros ->. by apply bytes_lt_irrefl in Hlt.
    + intros []. auto using prefix_lt.
  - pose proof (length_filter (bytes_lt p) (raw_keys r)). lia.
Qed.

Lemma elem_of_keys_below r p k : k ∈ keys_below r p ↔ (p `prefix_of` k ∧ k ≠ p) ∧ raw_exists r k = true.
Proof. unfold keys_below. by rewrite list_elem_of_filter, raw_exists_spec. Qed.

Lemma keys_below_longer r p k : k ∈ keys_below r p → (length p < length k)%nat.
Proof.
  intros [[[x ->] Hne] _]%elem_of_keys_below. rewrite length_app.
  destruct x; cbn; [|lia]. by rewrite app_nil_r in Hne.
Qed.

Lemma clear_prefix_exists r p k :
  raw_exists (clear_prefix p r).2 k = true ↔ raw_exists r k = true ∧ ¬ p `prefix_of` k.
Proof. rewrite !raw_exists_spec, clear_prefix_spec, list_elem_of_filter. naive_solver. Qed.
End loop.

(** ** The hash of storage prefixes

    [twox_128]: two runs of xxHash64, with seeds 0 and 1, little-endian. *)
Module XxHash.
Definition P1 : Z := 11400714785074694791.
Definition P2 : Z := 14029467366897019727.
Definition P3 : Z := 1609587929392839161.
Definition P4 : Z := 9650029242287828579.
Definition P5 : Z := 2870177450012600261.
Definition rotl (x r : Z) : Z := Z.lor (wrap 64 (Z.shiftl x r)) (Z.shiftr x (64 - r)).
Definition round (acc lane : Z) : Z := wrap 64 (rotl (wrap 64 (acc + lane * P2)) 31 * P1).
Fixpoint from_le (l : bytes) : Z :=
  match l with [] => 0 | b :: l' => Z.of_N (Byte.to_N b) + 256 * from_le l' end.

(** The stripes of 32 bytes *)
Fixpoint stripes (fuel : nat) (l : bytes) (v1 v2 v3 v4 : Z) : bytes * (Z * Z * Z * Z) :=
  match fuel with
  | O => (l, (v1, v2, v3, v4))
  | S fuel' =>
      if (length l <? 32)%nat then (l, (v1, v2, v3, v4)) else
      let lane i := from_le (take 8 (drop (8 * i) l)) in
      stripes fuel' (drop 32 l) (round v1 (lane 0%nat)) (round v2 (lane 1%nat))
        (round v3 (lane 2%nat)) (round v4 (lane 3%nat))
  end.
Definition merge (h v : Z) : Z := wrap 64 (Z.lxor h (round 0 v) * P1 + P4).

(** What is left after the stripes: lanes of 8, one of 4, single bytes *)
Fixpoint tail8 (fuel : nat) (l : bytes) (h : Z) : bytes * Z :=
  match fuel with
  | O => (l, h)
  | S fuel' =>
      if (length l <? 8)%nat then (l, h) else
      tail8 fuel' (drop 8 l) (wrap 64 (rotl (Z.lxor h (round 0 (from_le (take 8 l)))) 27 * P1 + P4))
  end.
Definition tail4 (l : bytes) (h : Z) : bytes * Z :=
  if (length l <? 4)%nat then (l, h) else
  (drop 4 l, wrap 64 (rotl (Z.lxor h (wrap 64 (from_le (take 4 l) * P1))) 23 * P2 + P3)).
Definition tail1 (h : Z) (b : byte) : Z :=
  wrap 64 (rotl (Z.lxor h (wrap 64 (Z.of_N (Byte.to_N b) * P5))) 11 * P1).
Definition avalanche (h : Z) : Z :=
  let h := wrap 64 (Z.lxor h (Z.shiftr h 33) * P2) in
  let h := wrap 64 (Z.lxor h (Z.shiftr h 29) * P3) in
  Z.lxor h (Z.shiftr h 32).
Definition xxh64 (seed : Z) (l : bytes) : Z :=
  let '(rest, (v1, v2, v3, v4)) := stripes (length l) l
    (wrap 64 (seed + P1 + P2)) (wrap 64 (seed + P2)) seed (wrap 64 (seed - P1)) in
  let h := if (length l <? 32)%nat then wrap 64 (seed + P5)
           else merge (merge (merge (merge
                  (wrap 64 (rotl v1 1 + rotl v2 7 + rotl v3 12 + rotl v4 18)) v1) v2) v3) v4 in
  let '(rest, h) := tail8 (length rest) rest (wrap 64 (h + Z.of_nat (length l))) in
  let '(rest, h) := tail4 rest h in
  avalanche (foldl tail1 h rest).
Definition twox (l : bytes) : byte_array 16 := pad 16 (le_bytes 8 (xxh64 0 l) ++ le_bytes 8 (xxh64 1 l)).
End XxHash.

(** ** A concrete store: a finite set of keys *)
Module RefRaw.
Definition sorted_keys (r : gset bytes) : list bytes := merge_sort (λ a b, Is_true (bytes_leb a b)) (elements r).

#[export] Instance ref_raw : RawStorage := {|
  Raw := gset bytes;
  raw_exists r k := bool_decide (k ∈ r);
  next_key r k := head (filter (bytes_lt k) (sorted_keys r));
  clear_prefix p r :=
    let gone := filter (λ k, p `prefix_of` k) r in (Z.of_nat (size gone), r ∖ gone);
  twox_128 := XxHash.twox;
  raw_keys := sorted_keys;
|}.

Lemma elem_of_sorted_keys r k : k ∈ sorted_keys r ↔ k ∈ r.
Proof. unfold sorted_keys. by rewrite merge_sort_Permutation, elem_of_elements. Qed.

Lemma sorted_keys_sorted r : StronglySorted bytes_lt (sorted_keys r).
Proof.
  assert (StronglySorted (λ a b, Is_true (bytes_leb a b)) (sorted_keys r)) as Hs.
  { apply StronglySorted_merge_sort; [|].
    - intros a b c Hab%Is_true_true Hbc%Is_true_true. apply Is_true_true. by eapply bytes_leb_trans.
    - intros a b. destruct (bytes_leb_total a b) as [H|H]; [left|right]; by rewrite H. }
  assert (NoDup (sorted_keys r)) as Hn
    by (unfold sorted_keys; rewrite merge_sort_Permutation; apply NoDup_elements).
  by apply (strongly_sorted_strict bytes_leb); [apply bytes_leb_antisym|..].
Qed.

#[export] Instance ref_raw_laws : RawStorageLaws.
Proof.
  split.
  - apply sorted_keys_sorted.
  - intros r k. cbn. by rewrite bool_decide_eq_true, elem_of_sorted_keys.
  - done.
  - intros p r. cbn.
    apply (strongly_sorted_eq bytes_lt); [|apply strongly_sorted_filter|]; try apply sorted_keys_sorted.
    intros k. rewrite list_elem_of_filter, !elem_of_sorted_keys. set_solver.
Qed.
End RefRaw.
