(* ===== verification/Slices.v ===== *)
(** * Sorted vectors

    What the pallets use of the standard library's slices: [binary_search_by] with its
    halving loop, [Vec::insert], [Vec::remove], [sort_by] and [max_by_key].  On a strictly
    sorted slice the search finds exactly the key, or the place where it keeps the order. *)

From S2P Require Import Prelude Assets RawStorage.

(** ** The order of accounts *)
Definition account_lt (a b : AccountId) : Prop := bytes_lt (to_raw_vec a) (to_raw_vec b).

(** [a.cmp(&b)] *)
Definition account_cmp (a b : AccountId) : comparison :=
  if bool_decide (a = b) then Eq else if key_leb a b then Lt else Gt.

#[export] Instance account_lt_strict : StrictOrder account_lt.
Proof. split; [intros a; apply bytes_lt_irrefl|intros a b c; apply bytes_lt_trans]. Qed.

Lemma account_cmp_spec a b :
  match account_cmp a b with Eq => a = b | Lt => account_lt a b | Gt => account_lt b a end.
Proof.
  unfold account_cmp, account_lt, bytes_lt. case_bool_decide as Hab; [done|].
  change (key_leb a b) with (bytes_leb (to_raw_vec a) (to_raw_vec b)).
  destruct (bytes_leb (to_raw_vec a) (to_raw_vec b)) eqn:Hle; [|done].
  apply not_true_is_false. intros Hge. by apply Hab, to_raw_vec_inj, bytes_leb_antisym.
Qed.

Lemma account_lt_asym a b : account_lt a b → account_lt b a → False.
Proof. intros H1 H2. apply (irreflexivity account_lt a). by etrans. Qed.
Lemma account_cmp_eq a b : account_cmp a b = Eq → a = b.
Proof. intros H. pose proof (account_cmp_spec a b) as Hs. by rewrite H in Hs. Qed.
Lemma account_cmp_lt a b : account_cmp a b = Lt → account_lt a b.
Proof. intros H. pose proof (account_cmp_spec a b) as Hs. by rewrite H in Hs. Qed.
Lemma account_cmp_gt a b : account_cmp a b = Gt → account_lt b a.
Proof. intros H. pose proof (account_cmp_spec a b) as Hs. by rewrite H in Hs. Qed.

Lemma account_cmp_mono x y a : account_lt x y → account_cmp x a ≠ Lt → account_cmp y a = Gt.
Proof.
  intros Hxy Hx. pose proof (account_cmp_spec x a) as H1. pose proof (account_cmp_spec y a) as H2.
  assert (a = x ∨ account_lt a x) as Hax by (destruct (account_cmp x a); naive_solver).
  assert (account_lt a y) as Hay by (destruct Hax as [->|]; [done|by etrans]).
  destruct (account_cmp y a); [|by destruct (account_lt_asym a y)|done].
  subst. by destruct (irreflexivity account_lt a).
Qed.

(** ** [slice::binary_search_by] *)

(** The loop: [size] entries from [base] on are left *)
Fixpoint search_loop {A} (f : A → comparison) (l : list A) (fuel size base : nat) : nat :=
  match fuel with
  | O => base
  | S fuel =>
      if (size <=? 1)%nat then base
      else
        let half := (size / 2)%nat in
        let mid := (base + half)%nat in
        let base := match f <$> l !! mid with Some Gt => base | _ => mid end in
        search_loop f l fuel (size - half) base
  end.

(** [Ok i] where the entry is, [Err i] where it would have to be inserted *)
Definition binary_search_by {A} (f : A → comparison) (l : list A) : res nat nat :=
  match l with
  | [] => Err 0%nat
  | _ =>
      let base := search_loop f l (length l) (length l) 0 in
      match f <$> l !! base with
      | Some Eq => Ok base
      | Some Lt => Err (S base)
      | _ => Err base
      end
  end.

(** [Vec::insert] and [Vec::remove]; [None] where they panic *)
Definition vec_insert {A} (i : nat) (x : A) (l : list A) : option (list A) :=
  if (i <=? length l)%nat then Some (take i l ++ x :: drop i l) else None.
Definition vec_remove {A} (i : nat) (l : list A) : option (A * list A) :=
  x ← l !! i; Some (x, delete i l).

(** [sort_by], which is stable, for an order given by its comparison *)
Definition sort_by {A} (leb : A → A → bool) (l : list A) : list A :=
  merge_sort (λ x y, Is_true (leb x y)) l.

(** [max_by_key]: the last of the greatest *)
Definition max_by_key {A} (f : A → Z) (l : list A) : option A :=
  foldl (λ acc x, match acc with
                  | None => Some x
                  | Some m => Some (if f x <? f m then m else x)
                  end) None l.

(** ** The search is correct *)
Section search.
Context {A : Type} (f : A → comparison) (l : list A).

(** Before an entry that is not too small there are only smaller ones, and after it only
    greater ones. *)
Hypothesis Hf : ∀ i j x y, (i < j)%nat → l !! i = Some x → l !! j = Some y → f x ≠ Lt → f y = Gt.

Lemma search_loop_spec fuel size base :
  (1 ≤ size)%nat → (base + size ≤ length l)%nat → (size ≤ S fuel)%nat →
  (base = 0%nat ∨ ∃ x, l !! base = Some x ∧ f x ≠ Gt) →
  (∀ j x, (base + size ≤ j)%nat → l !! j = Some x → f x = Gt) →
  let r := search_loop f l fuel size base in
  (r < length l)%nat ∧ (r = 0%nat ∨ ∃ x, l !! r = Some x ∧ f x ≠ Gt)
  ∧ (∀ j x, (r < j)%nat → l !! j = Some x → f x = Gt).
Proof.
  revert size base. induction fuel as [|fuel IH]; intros size base Hs Hb Hfu Hlow Hhigh; cbn [search_loop]; cbv zeta.
  { assert (size = 1%nat) as -> by lia. split_and!; [lia|done|]. intros j x Hj. apply Hhigh. lia. }
  destruct (Nat.leb_spec size 1) as [Hle|Hgt].
  { assert (size = 1%nat) as -> by lia. split_and!; [lia|done|]. intros j x Hj. apply Hhigh. lia. }
  assert (1 ≤ size / 2 < size)%nat as [Hh1 Hh2].
  { split; [apply (Nat.div_le_lower_bound size 2 1); lia|apply Nat.div_lt; lia]. }
  destruct (lookup_lt_is_Some_2 l (base + size / 2)) as [m Hm]; [lia|]. rewrite Hm. cbn [fmap option_fmap option_map].
  destruct (f m) eqn:Hfm.
  1,2: apply IH; [lia..| |intros j x Hj; apply Hhigh; lia]; right; exists m; by rewrite Hfm.
  apply IH; [lia..|done|]. intros j x Hj Hx.
  destruct (decide (j = base + size / 2)%nat) as [->|Hne]; [congruence|].
  apply (Hf (base + size / 2) j m x); [|done..|congruence].
  pose proof (Nat.div_mod_eq size 2). pose proof (Nat.mod_upper_bound size 2 ltac:(lia)). lia.
Qed.

Lemma search_nonempty : l ≠ [] →
  binary_search_by f l =
  let base := search_loop f l (length l) (length l) 0 in
  match f <$> l !! base with Some Eq => Ok base | Some Lt => Err (S base) | _ => Err base end.
Proof. unfold binary_search_by. by destruct l. Qed.

Lemma binary_search_spec :
  match binary_search_by f l with
  | Ok i => ∃ x, l !! i = Some x ∧ f x = Eq
  | Err i => (i ≤ length l)%nat ∧ Forall (λ x, f x = Lt) (take i l) ∧ Forall (λ x, f x = Gt) (drop i l)
  | Panic => False
  end.
Proof.
  destruct (decide (l = [])) as [Hnil|Hnil]; [rewrite Hnil; split_and!; constructor|].
  rewrite search_nonempty by done. assert (1 ≤ length l)%nat as Hlen by (destruct l; cbn; [done|lia]).
  destruct (search_loop_spec (length l) (length l) 0) as (Hr & Hlow & Hhigh); [lia..|by left| |].
  { intros j x Hj Hx%lookup_lt_Some. lia. }
  set (r := search_loop f l (length l) (length l) 0) in *.
  destruct (lookup_lt_is_Some_2 l r Hr) as [m Hm]. cbv zeta. fold r. rewrite Hm. cbn [fmap option_fmap option_map].
  assert (∀ j x, (j < r)%nat → l !! j = Some x → f x = Lt) as Hsmall.
  { intros j x Hj Hx. destruct Hlow as [|(y & Hy & Hne)]; [lia|].
    destruct (f x) eqn:Hfx; [|done|]; destruct Hne; apply (Hf j r x y); congruence. }
  destruct (f m) eqn:Hfm; [by exists m| |]; (split; [lia|]); rewrite !Forall_lookup; split.
  - intros j x [Hx Hj]%lookup_take_Some. destruct (decide (j = r)) as [->|]; [congruence|].
    apply (Hsmall j); [lia|done].
  - intros j x Hx. rewrite lookup_drop in Hx. by apply (Hhigh (S r + j)%nat); [lia|].
  - intros j x [Hx Hj]%lookup_take_Some. by apply (Hsmall j).
  - intros j x Hx. rewrite lookup_drop in Hx. destruct j as [|j]; [rewrite Nat.add_0_r in Hx; congruence|].
    by apply (Hhigh (r + S j)%nat); [lia|].
Qed.
End search.

(** ** Vectors sorted by an account *)
Section keyed.
Context {A : Type} (key : A → AccountId).
Implicit Types (l : list A) (a : AccountId).

Definition sorted_by l : Prop := StronglySorted account_lt (key <$> l).

(** [binary_search_by(|x| key(x).cmp(a))] *)
Definition search_account (a : AccountId) (l : list A) : res nat nat :=
  binary_search_by (λ x, account_cmp (key x) a) l.

Lemma sorted_by_lookup l i j x y :
  sorted_by l → (i < j)%nat → l !! i = Some x → l !! j = Some y → account_lt (key x) (key y).
Proof.
  unfold sorted_by. revert i j. induction l as [|z l IH]; intros i j Hs Hij Hx Hy; [done|].
  apply StronglySorted_inv in Hs as [Hs Hz]. destruct j as [|j]; [lia|]. destruct i as [|i].
  - simplify_eq/=. rewrite Forall_forall in Hz. apply Hz, list_elem_of_fmap.
    exists y. split; [done|]. by eapply list_elem_of_lookup_2.
  - by apply (IH i j); [|lia|..].
Qed.

Lemma sorted_by_nodup l : sorted_by l → NoDup (key <$> l).
Proof.
  unfold sorted_by. induction 1 as [|a l' Hs IH Ha]; constructor; [|done]. intros Hin.
  rewrite Forall_forall in Ha. by apply (irreflexivity account_lt a), Ha.
Qed.

Lemma search_spec l a :
  sorted_by l →
  match search_account a l with
  | Ok i => ∃ x, l !! i = Some x ∧ key x = a
  | Err i => (i ≤ length l)%nat ∧ Forall (λ x, account_lt (key x) a) (take i l)
             ∧ Forall (λ x, account_lt a (key x)) (drop i l)
  | Panic => False
  end.
Proof.
  intros Hs. unfold search_account.
  pose proof (binary_search_spec (λ x, account_cmp (key x) a) l) as Hb.
  destruct binary_search_by as [i|i|].
  - destruct Hb as (x & Hx & Hc%account_cmp_eq); [|by exists x].
    intros. eapply account_cmp_mono; [|done]. by eapply sorted_by_lookup.
  - destruct Hb as (Hi & Hlo & Hhi); [|split_and!; [done|..]].
    + intros. eapply account_cmp_mono; [|done]. by eapply sorted_by_lookup.
    + eapply Forall_impl; [done|]. intros x. apply account_cmp_lt.
    + eapply Forall_impl; [done|]. intros x. apply account_cmp_gt.
  - apply Hb. intros. eapply account_cmp_mono; [|done]. by eapply sorted_by_lookup.
Qed.

Lemma search_present l a :
  sorted_by l → a ∈ key <$> l → ∃ i x, search_account a l = Ok i ∧ l !! i = Some x ∧ key x = a.
Proof.
  intros Hs Ha. pose proof (search_spec l a Hs) as H. destruct search_account as [i|i|]; [|exfalso|done].
  - destruct H as (x & Hx & Hk). eauto.
  - destruct H as (_ & Hlo & Hhi). rewrite <- (take_drop i l), fmap_app, elem_of_app in Ha.
    rewrite Forall_forall in Hlo, Hhi.
    destruct Ha as [(x & -> & Hx)%list_elem_of_fmap|(x & -> & Hx)%list_elem_of_fmap];
      apply (irreflexivity account_lt (key x)); auto.
Qed.

Lemma search_absent l a :
  sorted_by l → a ∉ key <$> l → ∃ i, search_account a l = Err i.
Proof.
  intros Hs Ha. pose proof (search_spec l a Hs) as H. destruct search_account as [i|i|]; [|eauto|done].
  destruct H as (x & Hx & Hk). destruct Ha. apply list_elem_of_fmap. exists x. split; [done|].
  by eapply list_elem_of_lookup_2.
Qed.

Lemma search_is_ok l a : sorted_by l → is_ok (search_account a l) = bool_decide (a ∈ key <$> l).
Proof.
  intros Hs. case_bool_decide as Ha.
  - by destruct (search_present l a Hs Ha) as (? & ? & -> & _).
  - by destruct (search_absent l a Hs Ha) as (? & ->).
Qed.

(** Inserting where the search says keeps the order. *)
Lemma search_insert l a i x :
  sorted_by l → search_account a l = Err i → key x = a →
  ∃ l', vec_insert i x l = Some l' ∧ sorted_by l' ∧ l' ≡ₚ x :: l.
Proof.
  intros Hs Hi Hx. pose proof (search_spec l a Hs) as H. rewrite Hi in H.
  destruct H as (Hle & Hlo & Hhi). unfold vec_insert. rewrite (proj2 (Nat.leb_le _ _) Hle).
  eexists. split_and!; [done| |by rewrite <- Permutation_middle, take_drop].
  unfold sorted_by in *. rewrite <- (take_drop i l), fmap_app in Hs.
  apply StronglySorted_app in Hs as (Hs1 & Hs2 & Hs3).
  rewrite Forall_forall in Hlo, Hhi. rewrite fmap_app, fmap_cons. apply StronglySorted_app_2.
  - intros y z (y' & -> & Hy)%list_elem_of_fmap [->|(z' & -> & Hz)%list_elem_of_fmap]%elem_of_cons.
    + rewrite Hx. auto.
    + etrans; [by apply Hlo|by apply Hhi].
  - done.
  - constructor; [done|]. apply Forall_fmap, Forall_forall. intros z Hz. cbn. rewrite Hx. auto.
Qed.

(** Removing keeps the order. *)
Lemma sorted_by_remove l i x l' :
  sorted_by l → vec_remove i l = Some (x, l') → sorted_by l' ∧ l ≡ₚ x :: l' ∧ l !! i = Some x.
Proof.
  unfold vec_remove. intros Hs (y & Hy & [= <- <-])%bind_Some.
  split_and!; [|by apply delete_Permutation|done]. unfold sorted_by in *.
  rewrite delete_take_drop, fmap_app. rewrite <- (take_drop_middle l i y Hy), fmap_app in Hs.
  apply StronglySorted_app in Hs as (Hs1 & Hs2 & Hs3). apply StronglySorted_inv in Hs3 as [Hs3 _].
  apply StronglySorted_app_2; [|done..]. intros a b Ha Hb. apply Hs1; [done|]. by right.
Qed.
Lemma vec_remove_some l i x : l !! i = Some x → vec_remove i l = Some (x, delete i l).
Proof. unfold vec_remove. by intros ->. Qed.

(** Updating the entry that the search finds updates the entries with this key. *)
Lemma search_alter (f : A → A) l a :
  sorted_by l →
  match search_account a l with Ok i => alter f i l | _ => l end
  = (λ x, if bool_decide (a = key x) then f x else x) <$> l.
Proof.
  intros Hs. apply list_eq. intros j. rewrite list_lookup_fmap. destruct (decide (a ∈ key <$> l)) as [Ha|Ha].
  - destruct (search_present l a Hs Ha) as (i & x & -> & Hx & Hk). destruct (decide (j = i)) as [->|Hji].
    + rewrite list_lookup_alter_eq, Hx. cbn. by rewrite bool_decide_true.
    + rewrite list_lookup_alter_ne by done. destruct (l !! j) as [y|] eqn:Hy; cbn; [|done].
      rewrite bool_decide_false; [done|]. intros Hay. apply Hji.
      apply (NoDup_lookup (key <$> l) j i a); [by apply sorted_by_nodup|..];
        rewrite list_lookup_fmap, ?Hy, ?Hx; cbn; congruence.
  - destruct (search_absent l a Hs Ha) as (i & ->). destruct (l !! j) as [y|] eqn:Hy; cbn; [|done].
    rewrite bool_decide_false; [done|]. intros ->. apply Ha, list_elem_of_fmap. exists y.
    split; [done|]. by eapply list_elem_of_lookup_2.
Qed.

(** [sort_by(|i, j| key(i).cmp(&key(j)))] *)
Definition sort_by_account (l : list A) : list A := sort_by (λ x y, key_leb (key x) (key y)) l.

Lemma sort_by_account_perm l : sort_by_account l ≡ₚ l.
Proof. apply merge_sort_Permutation. Qed.

Lemma sort_by_account_sorted l : NoDup (key <$> l) → sorted_by (sort_by_account l).
Proof.
  intros Hd. change (StronglySorted (λ x y : AccountId, key_leb y x = false) (key <$> sort_by_account l)).
  apply strongly_sorted_strict.
  - intros x y H1 H2. by apply to_raw_vec_inj, bytes_leb_antisym.
  - apply (StronglySorted_fmap key (λ x y, Is_true (key_leb (key x) (key y)))); [done|].
    apply StronglySorted_merge_sort.
    + intros x y z H1%Is_true_true H2%Is_true_true. apply Is_true_true.
      by apply (bytes_leb_trans _ (to_raw_vec (key y))).
    + intros x y. rewrite !Is_true_true. apply bytes_leb_total.
  - by rewrite sort_by_account_perm.
Qed.

Lemma sorted_by_cons x l :
  sorted_by (x :: l) ↔ sorted_by l ∧ Forall (λ y, account_lt (key x) (key y)) l.
Proof.
  unfold sorted_by. rewrite fmap_cons. split.
  - intros [Hs Hx]%StronglySorted_inv. by rewrite Forall_fmap in Hx.
  - intros [Hs Hx]. constructor; [done|]. by rewrite Forall_fmap.
Qed.
Lemma sorted_by_strong l : sorted_by l → StronglySorted (λ x y, account_lt (key x) (key y)) l.
Proof. induction l as [|x l IH]; [constructor|]. intros [Hs Hx]%sorted_by_cons. constructor; auto. Qed.
#[local] Instance key_lt_strict : StrictOrder (λ x y, account_lt (key x) (key y)).
Proof. split; [intros x; apply (irreflexivity account_lt)|intros x y z; apply (transitivity (R := account_lt))]. Qed.

(** A sorted vector is determined by its entries, so sorting it changes nothing. *)
Lemma sorted_by_unique l1 l2 : sorted_by l1 → sorted_by l2 → l1 ≡ₚ l2 → l1 = l2.
Proof.
  intros H1%sorted_by_strong H2%sorted_by_strong Hp.
  apply (strongly_sorted_eq (λ x y, account_lt (key x) (key y))); [done..|]. intros x. by rewrite Hp.
Qed.
Lemma sort_by_account_id l : sorted_by l → sort_by_account l = l.
Proof.
  intros Hs. apply sorted_by_unique; [|done|apply sort_by_account_perm].
  by apply sort_by_account_sorted, sorted_by_nodup.
Qed.
End keyed.

(** ** The last greatest entry *)
Lemma max_by_key_from {A} (f : A → Z) l m :
  ∃ x, foldl (λ acc x, match acc with
                       | None => Some x
                       | Some m => Some (if f x <? f m then m else x)
                       end) (Some m) l = Some x
    ∧ x ∈ m :: l ∧ Forall (λ y, f y ≤ f x) (m :: l).
Proof.
  revert m. induction l as [|y l IH]; intros m; cbn.
  { exists m. split_and!; [done|left|by repeat constructor]. }
  destruct (Z.ltb_spec (f y) (f m)) as [Hlt|Hge].
  - destruct (IH m) as (x & -> & Hx & Hall). exists x. apply Forall_cons in Hall as [Hm Hall].
    split_and!; [done|set_solver|]. repeat constructor; [done|lia|done].
  - destruct (IH y) as (x & -> & Hx & Hall). exists x. apply Forall_cons in Hall as [Hy Hall].
    split_and!; [done|set_solver|]. repeat constructor; [lia|done..].
Qed.
Lemma max_by_key_spec {A} (f : A → Z) l :
  match max_by_key f l with
  | Some x => x ∈ l ∧ Forall (λ y, f y ≤ f x) l
  | None => l = []
  end.
Proof.
  unfold max_by_key. destruct l as [|m l]; cbn; [done|].
  by destruct (max_by_key_from f l m) as (x & -> & Hx & Hall).
Qed.
