(* ===== verification/Cleanup.v ===== *)
(** * The migrations of the runtime upgrade

    [runtimes/mainnet/src/migrations.rs] and the [Migrations] tuple of
    [runtimes/mainnet/src/lib.rs]: the session keys, the storage versions, the council
    prime, the storage of removed pallets, and the locks of the removed vesting pallet.
    The two migrations of [Upgrade] take their place in the sequence. *)

From S2P Require Import Prelude Assets Types Chain Locks Migration Rewards Upgrade RawStorage.

(** ** Packages outside the repository

    [pallet_session] stores the validators' keys; the old and the new key types have the
    same layout, so the queue can be read at either type. *)

(** [KeyTypeId] *)
Definition KeyTypeId : Type := byte_array 4.
#[global] Instance KeyTypeId_eq_dec : EqDecision KeyTypeId := _.

Record OldSessionKeys : Type := mkOldSessionKeys {
  old_grandpa : byte_array 32; old_babe : byte_array 32; old_im_online : byte_array 32;
  old_authority_discovery : byte_array 32; old_orderbook : byte_array 32; old_thea : byte_array 33;
}.

(** [impl_opaque_keys! { pub struct SessionKeys { .. } }] *)
Record SessionKeys : Type := mkSessionKeys {
  grandpa : byte_array 32; babe : byte_array 32; im_online : byte_array 32;
  authority_discovery : byte_array 32; mixnet : byte_array 32; beefy : byte_array 33;
}.

(** [Public::ID] of the key types *)
Class KeyIds := {
  ID_grandpa : KeyTypeId; ID_babe : KeyTypeId; ID_im_online : KeyTypeId;
  ID_authority_discovery : KeyTypeId; ID_mixnet : KeyTypeId; ID_beefy : KeyTypeId;
}.
Definition OCEX_KEY : KeyTypeId := [# x6f; x63; x65; x78].
Definition THEA_KEY : KeyTypeId := [# x74; x68; x65; x61].

Class KeyIdsLaws `{KeyIds} : Prop := {
  ids_distinct : NoDup [ID_grandpa; ID_babe; ID_im_online; ID_authority_discovery; ID_mixnet; ID_beefy];
  old_ids_distinct :
    NoDup [ID_grandpa; ID_babe; ID_im_online; ID_authority_discovery; OCEX_KEY; THEA_KEY];
}.

Class SessionPallet := {
  Session : Type;
  (** [QueuedKeys] read at the old and at the new key type *)
  queued_old : Session → list (AccountId * OldSessionKeys);
  queued : Session → list (AccountId * SessionKeys);
  (** [upgrade_keys::<OldSessionKeys, _>(f)] *)
  upgrade_keys : (AccountId → OldSessionKeys → SessionKeys) → Session → Session;
}.
Class SessionPalletLaws `{SessionPallet} : Prop := {
  queued_same_layout s : length (queued s) = length (queued_old s);
  upgrade_keys_queued f s :
    queued (upgrade_keys f s) = (λ ak, (ak.1, f ak.1 ak.2)) <$> queued_old s;
}.

(** [RemovePallet] of [frame_support], and the migrations that come with pallets *)
Class FrameMigrations `{RawStorage, LockableCurrency} := {
  remove_pallet : bytes → Raw → Raw;
  Grandpa : Type;
  migrate_v4_to_v5 : Grandpa → Grandpa;
  Treasury : Type;
  cleanup_proposals : Treasury * Ledger → Treasury * Ledger;
  (** [P::in_code_storage_version()] *)
  in_code_storage_version : string → Z;
}.
Class FrameMigrationsLaws `{FrameMigrations} : Prop := {
  (** All keys of the pallet go. *)
  remove_pallet_spec n r :
    raw_keys (remove_pallet n r) = filter (λ k, ¬ vec_to_list (twox_128 n) `prefix_of` k) (raw_keys r);
  (** A second run finds nothing to do. *)
  migrate_again o : migrate_v4_to_v5 (migrate_v4_to_v5 o) = migrate_v4_to_v5 o;
  cleanup_again tg : cleanup_proposals (cleanup_proposals tg) = cleanup_proposals tg;
  (** It unreserves bonds. *)
  cleanup_locks tg a : Locks (cleanup_proposals tg).2 a = Locks tg.2 a;
}.

Definition UPGRADE_SESSION_KEYS_FROM_SPEC : Z := 378.
Definition FIX_COUNCIL_PRIME_FROM_SPEC : Z := 391.
Definition CLEAR_OFFENCE_REPORTS_FROM_SPEC : Z := 391.
Definition CLEAR_LEGACY_SUDO_KEY_FROM_SPEC : Z := 391.
Definition OrderbookCommitteeStr : bytes := bytes_of "OrderbookCommittee".
Definition RandomnessCollectiveFlipStr : bytes := bytes_of "RandomnessCollectiveFlip".
Definition PALLET_PREFIX : bytes :=
  [xd8; x48; x92; xf1; xdb; x5f; x9d; xfd; x80; xc5; x21; xd0; xa5; x64; x76; x50].
Definition SCHEDULES_PREFIX : bytes :=
  [xd8; x48; x92; xf1; xdb; x5f; x9d; xfd; x80; xc5; x21; xd0; xa5; x64; x76; x50;
   x9c; x80; x68; x50; xc4; xee; x3b; xc0; x6b; xa6; x2b; x09; x63; x18; xfe; x38].
Definition VESTING_LOCK_ID : LockIdentifier := [# x6f; x72; x6d; x6c; x76; x65; x73; x74].

(** [InitOcexFeeConfig::on_runtime_upgrade] *)
Definition init_ocex_fee_config `{Decimal.Decimal, Crypto, Authority} (TreasuryPalletId : bytes) (s : OcexStorage) : OcexStorage :=
  match FeeDistributionConfig s with
  | Some _ => s
  | None => s <| FeeDistributionConfig :=
      Some (mkFeeDistribution (into_account_truncating TreasuryPalletId) 100 50) |>
  end.

(** ** Session keys *)
Section session_keys.
Context {KI : KeyIds}.

(** [OldSessionKeys::key_ids] and [get_raw] *)
Definition old_key_ids : list KeyTypeId :=
  [ID_grandpa; ID_babe; ID_im_online; ID_authority_discovery; OCEX_KEY; THEA_KEY].
Definition old_get_raw (k : OldSessionKeys) (id : KeyTypeId) : bytes :=
  if decide (id = ID_grandpa) then vec_to_list (old_grandpa k) else
  if decide (id = ID_babe) then vec_to_list (old_babe k) else
  if decide (id = ID_im_online) then vec_to_list (old_im_online k) else
  if decide (id = ID_authority_discovery) then vec_to_list (old_authority_discovery k) else
  if decide (id = OCEX_KEY) then vec_to_list (old_orderbook k) else
  if decide (id = THEA_KEY) then vec_to_list (old_thea k) else [].

(** The same for [SessionKeys], which [impl_opaque_keys!] generates from its fields *)
Definition key_ids : list KeyTypeId :=
  [ID_grandpa; ID_babe; ID_im_online; ID_authority_discovery; ID_mixnet; ID_beefy].
Definition get_raw (k : SessionKeys) (id : KeyTypeId) : bytes :=
  if decide (id = ID_grandpa) then vec_to_list (grandpa k) else
  if decide (id = ID_babe) then vec_to_list (babe k) else
  if decide (id = ID_im_online) then vec_to_list (im_online k) else
  if decide (id = ID_authority_discovery) then vec_to_list (authority_discovery k) else
  if decide (id = ID_mixnet) then vec_to_list (mixnet k) else
  if decide (id = ID_beefy) then vec_to_list (beefy k) else [].

Definition transform_session_keys (_account : AccountId) (old_keys : OldSessionKeys) : SessionKeys := {|
  grandpa := old_grandpa old_keys;
  babe := old_babe old_keys;
  im_online := old_im_online old_keys;
  authority_discovery := old_authority_discovery old_keys;
  mixnet := vreplicate 32 x00;
  beefy := vreplicate 33 x00;
|}.
End session_keys.

(** ** The state of the upgrade *)
Section cleanup.
Context {LC : LockableCurrency} {SA : SystemAccounts} {RS : RawStorage} {KI : KeyIds}
  {SP : SessionPallet} {FM : FrameMigrations}.

(** The store of the chain, as the migrations see it.  [up_raw] is what they reach by raw
    keys; the items that they or the pallets they call write through typed accessors are the
    other fields.  On the chain these are keys of the same store, listed by [held_elsewhere]
    below: a statement on the keys of [up_raw] is one on the other keys. *)
Record Upgrading : Type := mkUpgrading {
  up_legacy : Legacy;
  up_raw : Raw;
  up_versions : gmap string Z;
  up_session : Session;
  council_members : list AccountId;
  council_prime : option AccountId;
  up_grandpa : Grandpa;
  up_treasury : Treasury;
}.
#[export] Instance eta_Upgrading : Eta Upgrading := λ r, {|
  up_legacy := up_legacy r; up_raw := up_raw r; up_versions := up_versions r;
  up_session := up_session r; council_members := council_members r;
  council_prime := council_prime r; up_grandpa := up_grandpa r;
  up_treasury := up_treasury r;
|}.
Definition spec_of (s : Upgrading) : Z := last_runtime_upgrade_spec_version (up_legacy s).
Definition ledger_of (s : Upgrading) : Ledger := lg_ledger (up_legacy s).

(** [UpgradeSessionKeys] *)
Definition upgrade_session_keys (s : Upgrading) : Upgrading :=
  if UPGRADE_SESSION_KEYS_FROM_SPEC <? spec_of s then s
  else s <| up_session ::= upgrade_keys transform_session_keys |>.

Definition session_pre_upgrade (s : Upgrading) : res string (option Z) :=
  if UPGRADE_SESSION_KEYS_FROM_SPEC <? spec_of s then Ok None
  else if negb (bool_decide (ID_mixnet ∈ key_ids)) then Err "New session keys should contain Mixnet key"%string
  else if negb (bool_decide (ID_beefy ∈ key_ids)) then Err "New session keys should contain Beefy key"%string
  else Ok (Some (wrap 32 (Z.of_nat (length (queued (up_session s)))))).

(** The loop over the validators in [post_upgrade] *)
Fixpoint check_new_keys (post_keys : list (AccountId * SessionKeys)) : res string unit :=
  match post_keys with
  | [] => Ok tt
  | (_, keys) :: post_keys =>
      if bool_decide (get_raw keys ID_mixnet = []) then Err "Mixnet key missing after migration"%string
      else if bool_decide (get_raw keys ID_beefy = []) then Err "Beefy key missing after migration"%string
      else check_new_keys post_keys
  end.
Definition session_post_upgrade (state : option Z) (s : Upgrading) : res string unit :=
  if UPGRADE_SESSION_KEYS_FROM_SPEC <? spec_of s then Ok tt
  else match state with
  | None => Err "Failed to decode pre-upgrade state"%string
  | Some pre_count =>
      let post_keys := queued (up_session s) in
      if negb (pre_count =? wrap 32 (Z.of_nat (length post_keys)))
      then Err "Key count mismatch after migration"%string
      else check_new_keys post_keys
  end.

(** [StorageVersionMigration<P>] and its copies for single pallets *)
Definition on_chain_storage_version (s : Upgrading) (p : string) : Z := default 0 (up_versions s !! p).
Definition storage_version_migration (p : string) (s : Upgrading) : Upgrading :=
  let current := on_chain_storage_version s p in
  let target := in_code_storage_version p in
  if current <? target then s <| up_versions ::= <[p := target]> |> else s.

(** [FixCouncilPrime] *)
Definition fix_council_prime (s : Upgrading) : Upgrading :=
  if FIX_COUNCIL_PRIME_FROM_SPEC <? spec_of s then s
  else match council_prime s with
  | Some prime =>
      if bool_decide (prime ∈ council_members s) then s else s <| council_prime := None |>
  | None => s
  end.

(** [ClearOffenceReports] *)
Definition clear_offence_reports (s : Upgrading) : Upgrading :=
  if CLEAR_OFFENCE_REPORTS_FROM_SPEC <? spec_of s then s
  else s <| up_raw ::= λ r, (clear_prefix (storage_prefix (bytes_of "Offences") (bytes_of "Reports")) r).2 |>.

(** [ClearLegacySudoKey] *)
Definition clear_legacy_sudo_key (s : Upgrading) : Upgrading :=
  if CLEAR_LEGACY_SUDO_KEY_FROM_SPEC <? spec_of s then s
  else s <| up_raw ::= λ r, (clear_prefix (vec_to_list (twox_128 (bytes_of "Sudo"))) r).2 |>.
Definition sudo_post_upgrade (s : Upgrading) : res string unit :=
  if raw_exists (up_raw s) (storage_prefix (bytes_of "Sudo") (bytes_of "Key"))
  then Err "ClearLegacySudoKey: Sudo::Key still present after migration"%string else Ok tt.

(** [ClearOrderbookCommittee] and [ClearRandomnessCollectiveFlip] *)
Definition clear_pallet (name : bytes) (s : Upgrading) : Upgrading :=
  s <| up_raw ::= remove_pallet name |>.

(** [ClearOrmlVestingLocks] *)
Record OrmlLoop : Type := mkOrmlLoop {
  ol_ledger : Ledger;
  accounts_cleared : Z;
  ol_writes : Z;
  ol_reads : Z;
}.

(** [AccountId::decode(&mut &key[48..80])] *)
Definition decode_account (l : bytes) : option AccountId :=
  if (length l <? 32)%nat then None else Some (pad 32 l).
Definition vesting_account (key : bytes) : option AccountId :=
  if (80 <=? length key)%nat then decode_account (take 32 (drop 48 key)) else None.

Definition orml_step (key : bytes) (s : OrmlLoop) : OrmlLoop :=
  match vesting_account key with
  | Some account =>
      mkOrmlLoop (remove_lock VESTING_LOCK_ID account (ol_ledger s)) (accounts_cleared s + 1)
        (ol_writes s + 1) (ol_reads s + 1)
  | None => mkOrmlLoop (ol_ledger s) (accounts_cleared s) (ol_writes s) (ol_reads s + 1)
  end.

(** The state afterwards with the reads and writes it charges *)
Definition clear_orml_vesting_locks (s : Upgrading) : option (Upgrading * (Z * Z)) :=
  if 391 <? spec_of s then Some (s, (1, 0))
  else
    l ← key_loop (loop_fuel (up_raw s)) (up_raw s) SCHEDULES_PREFIX SCHEDULES_PREFIX orml_step
          (mkOrmlLoop (ledger_of s) 0 0 0);
    let '(loops, raw) := clear_prefix PALLET_PREFIX (up_raw s) in
    Some (s <| up_legacy ::= λ lg, lg <| lg_ledger := ol_ledger l |> |> <| up_raw := raw |>,
          (ol_reads l + 1, ol_writes l + loops)).

Definition orml_pre_upgrade (s : Upgrading) : option Z :=
  key_loop (loop_fuel (up_raw s)) (up_raw s) PALLET_PREFIX PALLET_PREFIX (λ _ count, count + 1) 0.

Definition orml_post_upgrade (s : Upgrading) : res string unit :=
  let still_present := match next_key (up_raw s) PALLET_PREFIX with
                       | Some k => starts_with PALLET_PREFIX k
                       | None => false
                       end in
  if still_present then Err "ClearOrmlVestingLocks: OrmlVesting storage was not fully cleared!"%string
  else Ok tt.

(** The tuple of [lib.rs], in its order *)
Definition version_bumps : list string :=
  ["Balances"; "ElectionProviderMultiPhase"; "Council"; "TechnicalCommittee"; "ImOnline"; "Offences";
   "Historical"; "Scheduler"; "Multisig"; "Bounties"; "Democracy"; "Preimage"; "Assets"]%string.

Definition all_bumps : list string :=
  ["Staking"; "Session"; "Identity"; "ChildBounties"]%string ++ version_bumps.

(** The keys of the items that the migrations write through typed accessors: the accounts,
    events and locks, the session keys, the council's prime, the treasury, the GRANDPA
    authorities with their old unhashed key, and the storage versions *)
Definition typed_prefixes : list bytes :=
  ((λ p, vec_to_list (twox_128 (bytes_of p))) <$>
     ["System"; "Balances"; "Session"; "Council"; "Treasury"; "Grandpa"]%string)
  ++ [bytes_of ":grandpa_authorities"]
  ++ ((λ p, storage_prefix (bytes_of p) (bytes_of ":__STORAGE_VERSION__:")) <$> all_bumps).
Definition held_elsewhere (k : bytes) : Prop := Exists (λ p, p `prefix_of` k) typed_prefixes.

Definition on_legacy (f : Legacy → Legacy) (s : Upgrading) : Upgrading := s <| up_legacy ::= f |>.
Definition run_grandpa (s : Upgrading) : Upgrading := s <| up_grandpa ::= migrate_v4_to_v5 |>.
Definition run_treasury (s : Upgrading) : Upgrading :=
  let '(t, g) := cleanup_proposals (up_treasury s, ledger_of s) in
  s <| up_treasury := t |> <| up_legacy ::= λ lg, lg <| lg_ledger := g |> |>.

Definition Migrations (s : Upgrading) : option Upgrading :=
  let s := upgrade_session_keys s in
  let s := clear_legacy_sudo_key s in
  let s := clear_pallet OrderbookCommitteeStr s in
  let s := clear_pallet RandomnessCollectiveFlipStr s in
  let s := storage_version_migration "Staking" s in
  let s := storage_version_migration "Session" s in
  let s := run_grandpa s in
  let s := storage_version_migration "Identity" s in
  let s := storage_version_migration "ChildBounties" s in
  let s := foldl (λ s p, storage_version_migration p s) s version_bumps in
  let s := on_legacy fix_balances_frozen s in
  let s := fix_council_prime s in
  let s := clear_offence_reports s in
  sw ← clear_orml_vesting_locks s;
  let s := on_legacy clear_rewards_and_migration_locks sw.1 in
  Some (run_treasury s).
End cleanup.
