(* ===== verification/CleanupProps.v ===== *)
(** * Properties of the runtime upgrade

    The loop over the vesting schedules returns and removes exactly the locks it finds;
    the whole sequence of migrations releases the locks the removed pallets would
    release, clears the storage they left, and does nothing when it runs again. *)

From S2P Require Import Prelude Assets Types Chain Locks Migration Rewards Upgrade RawStorage Cleanup.

Section props.
Context {LC : LockableCurrency} {SA : SystemAccounts} {RS : RawStorage} {KI : KeyIds}
  {SP : SessionPallet} {FM : FrameMigrations}.
Context {LL : LockableCurrencyLaws} {SL : SystemAccountsLaws} {RSL : RawStorageLaws}
  {SPL : SessionPalletLaws} {FML : FrameMigrationsLaws}.
Implicit Types (g : Ledger) (s : Upgrading) (r : Raw) (k : bytes).

(** ** The vesting locks *)
Definition remove_locks (id : LockIdentifier) (l : list AccountId) (g : Ledger) : Ledger :=
  foldl (λ g a, remove_lock id a g) g l.



(** The accounts with a vesting schedule *)
Definition vesting_holders r : list AccountId :=
  omap vesting_account (keys_below r SCHEDULES_PREFIX).

Lemma orml_fold ks g c w n :
  foldl (λ l k, orml_step k l) (mkOrmlLoop g c w n) ks
  = let l := omap vesting_account ks in
    mkOrmlLoop (remove_locks VESTING_LOCK_ID l g) (c + Z.of_nat (length l))
      (w + Z.of_nat (length l)) (n + Z.of_nat (length ks)).
Proof.
  revert g c w n. induction ks as [|k ks IH]; intros g c w n; cbn; [by rewrite !Z.add_0_r|].
  unfold orml_step at 2. cbn. destruct (vesting_account k) as [a|]; rewrite IH; cbn; f_equal; lia.
Qed.

Lemma clear_orml_run s :
  spec_of s ≤ 391 →
  clear_orml_vesting_locks s =
    Some (s <| up_legacy ::= λ lg, lg <| lg_ledger ::= remove_locks VESTING_LOCK_ID (vesting_holders (up_raw s)) |> |>
            <| up_raw ::= λ r, (clear_prefix PALLET_PREFIX r).2 |>,
          (Z.of_nat (length (keys_below (up_raw s) SCHEDULES_PREFIX)) + 1,
           Z.of_nat (length (vesting_holders (up_raw s))) + (clear_prefix PALLET_PREFIX (up_raw s)).1)).
Proof.
  intros Hs. unfold clear_orml_vesting_locks. rewrite (proj2 (Z.ltb_ge _ _)) by done.
  rewrite key_loop_keys_below. cbn [mbind option_bind].
  rewrite orml_fold. destruct s as [lg r vs se me pr gr tr]. unfold setter. cbn. by destruct (clear_prefix PALLET_PREFIX r).
Qed.





(** ** The whole sequence

    Its result, written out for an upgrade from a specification up to 391, and for a
    later one. *)
Definition bump (p : string) (m : gmap string Z) : gmap string Z :=
  if default 0 (m !! p) <? in_code_storage_version p then <[p := in_code_storage_version p]> m else m.
Definition bumped (m : gmap string Z) : gmap string Z := foldl (λ m p, bump p m) m all_bumps.

Definition pallets_removed r : Raw :=
  remove_pallet RandomnessCollectiveFlipStr (remove_pallet OrderbookCommitteeStr r).
Definition swept r : Raw :=
  (clear_prefix (storage_prefix (bytes_of "Offences") (bytes_of "Reports"))
     (pallets_removed (clear_prefix (vec_to_list (twox_128 (bytes_of "Sudo"))) r).2)).2.
Definition unlocked s : Legacy :=
  clear_rewards_and_migration_locks
    ((fix_balances_frozen (up_legacy s)) <| lg_ledger ::=
       remove_locks VESTING_LOCK_ID (vesting_holders (swept (up_raw s))) |>).

Lemma fix_frozen_spec lg :
  last_runtime_upgrade_spec_version (fix_balances_frozen lg) = last_runtime_upgrade_spec_version lg.
Proof. unfold fix_balances_frozen. by case_match. Qed.
Lemma clear_spec lg :
  last_runtime_upgrade_spec_version (clear_rewards_and_migration_locks lg)
  = last_runtime_upgrade_spec_version lg.
Proof. unfold clear_rewards_and_migration_locks. by case_match. Qed.

(** Each migration on a state given by its parts *)
Section steps.
Variables (lg : Legacy) (r : Raw) (vs : gmap string Z) (se : Session) (me : list AccountId)
  (pr : option AccountId) (gr : Grandpa) (tr : Treasury).
Let spec := last_runtime_upgrade_spec_version lg.
Definition session_after (lg : Legacy) (se : Session) : Session :=
  if UPGRADE_SESSION_KEYS_FROM_SPEC <? last_runtime_upgrade_spec_version lg then se
  else upgrade_keys transform_session_keys se.
Definition prime_after (me : list AccountId) (pr : option AccountId) : option AccountId :=
  p ← pr; if bool_decide (p ∈ me) then Some p else None.

Lemma session_step :
  upgrade_session_keys (mkUpgrading lg r vs se me pr gr tr)
  = mkUpgrading lg r vs (session_after lg se) me pr gr tr.
Proof. unfold upgrade_session_keys, session_after, spec_of. cbn. by case_match. Qed.
Lemma sudo_step :
  clear_legacy_sudo_key (mkUpgrading lg r vs se me pr gr tr)
  = mkUpgrading lg (if 391 <? spec then r else (clear_prefix (vec_to_list (twox_128 (bytes_of "Sudo"))) r).2)
      vs se me pr gr tr.
Proof. unfold clear_legacy_sudo_key, CLEAR_LEGACY_SUDO_KEY_FROM_SPEC, spec, spec_of. cbn. by case_match. Qed.
Lemma version_step p :
  storage_version_migration p (mkUpgrading lg r vs se me pr gr tr)
  = mkUpgrading lg r (bump p vs) se me pr gr tr.
Proof. unfold storage_version_migration, on_chain_storage_version, bump. cbn. by case_match. Qed.
Lemma prime_step :
  fix_council_prime (mkUpgrading lg r vs se me pr gr tr)
  = mkUpgrading lg r vs se me (if 391 <? spec then pr else prime_after me pr) gr tr.
Proof.
  unfold fix_council_prime, spec, spec_of, prime_after, FIX_COUNCIL_PRIME_FROM_SPEC. cbn.
  case_match; [done|]. destruct pr as [p|]; cbn; [by case_bool_decide|done].
Qed.
Lemma offences_step :
  clear_offence_reports (mkUpgrading lg r vs se me pr gr tr)
  = mkUpgrading lg (if 391 <? spec then r
      else (clear_prefix (storage_prefix (bytes_of "Offences") (bytes_of "Reports")) r).2)
      vs se me pr gr tr.
Proof. unfold clear_offence_reports, CLEAR_OFFENCE_REPORTS_FROM_SPEC, spec, spec_of. cbn. by case_match. Qed.
Lemma pallet_step n :
  clear_pallet n (mkUpgrading lg r vs se me pr gr tr)
  = mkUpgrading lg (remove_pallet n r) vs se me pr gr tr.
Proof. reflexivity. Qed.
Lemma grandpa_step :
  run_grandpa (mkUpgrading lg r vs se me pr gr tr)
  = mkUpgrading lg r vs se me pr (migrate_v4_to_v5 gr) tr.
Proof. reflexivity. Qed.
Lemma legacy_step f :
  on_legacy f (mkUpgrading lg r vs se me pr gr tr) = mkUpgrading (f lg) r vs se me pr gr tr.
Proof. reflexivity. Qed.
Lemma treasury_step :
  run_treasury (mkUpgrading lg r vs se me pr gr tr)
  = let tg := cleanup_proposals (tr, lg_ledger lg) in
    mkUpgrading (lg <| lg_ledger := tg.2 |>) r vs se me pr gr tg.1.
Proof. unfold run_treasury, ledger_of. cbn. by destruct (cleanup_proposals _). Qed.
End steps.

Lemma versions_step lg r vs se me pr gr tr l :
  foldl (λ s p, storage_version_migration p s) (mkUpgrading lg r vs se me pr gr tr) l
  = mkUpgrading lg r (foldl (λ m p, bump p m) vs l) se me pr gr tr.
Proof. revert vs. induction l as [|p l IH]; intros vs; cbn; [done|]. by rewrite version_step. Qed.

(** The sequence up to the vesting locks *)
Lemma migrations_first lg r vs se me pr gr tr :
  let early := 391 <? last_runtime_upgrade_spec_version lg in
  Migrations (mkUpgrading lg r vs se me pr gr tr) =
    (sw ← clear_orml_vesting_locks
       (mkUpgrading (fix_balances_frozen lg) (if early then pallets_removed r else swept r) (bumped vs)
          (session_after lg se) me (if early then pr else prime_after me pr) (migrate_v4_to_v5 gr) tr);
     Some (run_treasury (on_legacy clear_rewards_and_migration_locks sw.1))).
Proof.
  intros early. unfold Migrations.
  rewrite session_step, sudo_step, !pallet_step, !version_step, grandpa_step, !version_step,
    versions_step, legacy_step, prime_step, offences_step, fix_frozen_spec.
  fold early. unfold bumped, all_bumps. rewrite foldl_app. cbn [foldl].
  destruct early; reflexivity.
Qed.

Lemma migrations_early s :
  spec_of s ≤ 391 →
  let tg := cleanup_proposals (up_treasury s, lg_ledger (unlocked s)) in
  Migrations s = Some (mkUpgrading ((unlocked s) <| lg_ledger := tg.2 |>)
    (clear_prefix PALLET_PREFIX (swept (up_raw s))).2 (bumped (up_versions s))
    (session_after (up_legacy s) (up_session s)) (council_members s)
    (prime_after (council_members s) (council_prime s)) (migrate_v4_to_v5 (up_grandpa s)) tg.1).
Proof.
  intros Hs. destruct s as [lg r vs se me pr gr tr]. unfold spec_of in Hs. cbn in Hs.
  rewrite migrations_first, (proj2 (Z.ltb_ge _ _)) by done.
  rewrite clear_orml_run by (unfold spec_of; cbn; by rewrite fix_frozen_spec).
  cbn [mbind option_bind fst]. unfold setter at 1. rewrite legacy_step, treasury_step. reflexivity.
Qed.

Lemma migrations_late s :
  391 < spec_of s →
  let tg := cleanup_proposals (up_treasury s, ledger_of s) in
  Migrations s = Some (mkUpgrading ((up_legacy s) <| lg_ledger := tg.2 |>)
    (pallets_removed (up_raw s)) (bumped (up_versions s)) (up_session s) (council_members s)
    (council_prime s) (migrate_v4_to_v5 (up_grandpa s)) tg.1).
Proof.
  intros Hs. destruct s as [lg r vs se me pr gr tr]. unfold spec_of in Hs. cbn in Hs.
  assert ((391 <? last_runtime_upgrade_spec_version lg) = true) as H391 by (by apply Z.ltb_lt).
  assert (fix_balances_frozen lg = lg) as Hfix.
  { unfold fix_balances_frozen, FIX_BALANCES_FROZEN_FROM_SPEC. by rewrite H391. }
  assert (clear_rewards_and_migration_locks lg = lg) as Hclear.
  { unfold clear_rewards_and_migration_locks, CLEAR_REWARDS_AND_MIGRATION_LOCKS_FROM_SPEC. by rewrite H391. }
  assert (session_after lg se = se) as Hse.
  { unfold session_after, UPGRADE_SESSION_KEYS_FROM_SPEC. rewrite (proj2 (Z.ltb_lt _ _)); [done|lia]. }
  rewrite migrations_first, H391, Hfix, Hse.
  unfold clear_orml_vesting_locks, spec_of at 1. cbn [up_legacy]. rewrite H391.
  cbn [mbind option_bind fst]. by rewrite legacy_step, Hclear, treasury_step.
Qed.

(** *** Storage versions *)
Lemma bump_lookup p q m :
  default 0 (bump p m !! q)
  = if decide (q = p) then Z.max (default 0 (m !! p)) (in_code_storage_version p) else default 0 (m !! q).
Proof.
  unfold bump. destruct (Z.ltb_spec (default 0 (m !! p)) (in_code_storage_version p)) as [Hlt|Hge];
    case_decide as Hq; subst; rewrite ?lookup_insert_eq, ?lookup_insert_ne by done; cbn; lia || done.
Qed.

Lemma bump_mono p q m : default 0 (m !! q) ≤ default 0 (bump p m !! q).
Proof. rewrite bump_lookup. case_decide; subst; lia. Qed.

Lemma bumps_mono l q m : default 0 (m !! q) ≤ default 0 (foldl (λ m p, bump p m) m l !! q).
Proof.
  revert m. induction l as [|p l IH]; intros m; cbn; [done|].
  etrans; [apply bump_mono|apply IH].
Qed.

Lemma bumps_current l p m :
  p ∈ l → in_code_storage_version p ≤ default 0 (foldl (λ m p, bump p m) m l !! p).
Proof.
  revert m. induction l as [|q l IH]; intros m Hp; [by apply not_elem_of_nil in Hp|]. cbn.
  apply elem_of_cons in Hp as [->|Hp]; [|by apply IH].
  etrans; [|apply bumps_mono]. rewrite bump_lookup, decide_True by done. lia.
Qed.

Lemma bumps_done l m :
  (∀ p, p ∈ l → in_code_storage_version p ≤ default 0 (m !! p)) → foldl (λ m p, bump p m) m l = m.
Proof.
  induction l as [|p l IH]; intros Hl; [done|]. cbn.
  assert (bump p m = m) as ->; [|apply IH; intros q Hq; apply Hl; by right].
  unfold bump. rewrite (proj2 (Z.ltb_ge _ _)); [done|]. apply Hl. by left.
Qed.

Lemma bumped_again m : bumped (bumped m) = bumped m.
Proof. apply bumps_done. intros p Hp. by apply bumps_current. Qed.

(** *** Keys *)
Lemma remove_pallet_exists n r k :
  raw_exists (remove_pallet n r) k = true ↔
  raw_exists r k = true ∧ ¬ vec_to_list (twox_128 n) `prefix_of` k.
Proof. rewrite !raw_exists_spec, remove_pallet_spec, list_elem_of_filter. naive_solver. Qed.

Lemma pallets_removed_again r :
  (∀ k, raw_exists r k = true → ¬ vec_to_list (twox_128 OrderbookCommitteeStr) `prefix_of` k
     ∧ ¬ vec_to_list (twox_128 RandomnessCollectiveFlipStr) `prefix_of` k) →
  raw_keys (pallets_removed r) = raw_keys r.
Proof.
  intros Hr. unfold pallets_removed. rewrite !remove_pallet_spec.
  rewrite (filter_all _ (raw_keys r)); [apply filter_all|];
    apply Forall_forall; intros k Hk%raw_exists_spec; by apply Hr.
Qed.

Lemma pallets_removed_exists r k :
  raw_exists (pallets_removed r) k = true ↔
  raw_exists r k = true ∧ ¬ vec_to_list (twox_128 OrderbookCommitteeStr) `prefix_of` k
  ∧ ¬ vec_to_list (twox_128 RandomnessCollectiveFlipStr) `prefix_of` k.
Proof. unfold pallets_removed. rewrite !remove_pallet_exists. naive_solver. Qed.

Lemma swept_exists r k :
  raw_exists (swept r) k = true ↔
  raw_exists r k = true ∧ ¬ vec_to_list (twox_128 (bytes_of "Sudo")) `prefix_of` k
  ∧ ¬ vec_to_list (twox_128 OrderbookCommitteeStr) `prefix_of` k
  ∧ ¬ vec_to_list (twox_128 RandomnessCollectiveFlipStr) `prefix_of` k
  ∧ ¬ storage_prefix (bytes_of "Offences") (bytes_of "Reports") `prefix_of` k.
Proof.
  unfold swept. rewrite clear_prefix_exists, pallets_removed_exists, clear_prefix_exists. naive_solver.
Qed.

(** *** Running again *)
(** Equal up to the representation of the raw store *)
Definition same_state s s' : Prop :=
  up_legacy s = up_legacy s' ∧ raw_keys (up_raw s) = raw_keys (up_raw s')
  ∧ up_versions s = up_versions s' ∧ up_session s = up_session s'
  ∧ council_members s = council_members s' ∧ council_prime s = council_prime s'
  ∧ up_grandpa s = up_grandpa s' ∧ up_treasury s = up_treasury s'.

(** The executive records the new specification version after the migrations. *)
Definition set_spec (v : Z) s : Upgrading :=
  s <| up_legacy ::= λ lg, lg <| last_runtime_upgrade_spec_version := v |> |>.

Lemma late_again s v :
  391 < v →
  (∀ k, raw_exists (up_raw s) k = true → ¬ vec_to_list (twox_128 OrderbookCommitteeStr) `prefix_of` k
     ∧ ¬ vec_to_list (twox_128 RandomnessCollectiveFlipStr) `prefix_of` k) →
  bumped (up_versions s) = up_versions s →
  migrate_v4_to_v5 (up_grandpa s) = up_grandpa s →
  cleanup_proposals (up_treasury s, ledger_of s) = (up_treasury s, ledger_of s) →
  ∃ s', Migrations (set_spec v s) = Some s' ∧ same_state (set_spec v s) s'.
Proof.
  intros Hv Hk Hb Hg Ht. rewrite migrations_late by done. eexists. split; [reflexivity|].
  change (up_treasury (set_spec v s), ledger_of (set_spec v s)) with (up_treasury s, ledger_of s).
  rewrite Ht. unfold same_state.
  cbn [up_legacy up_raw up_versions up_session council_members council_prime up_grandpa up_treasury fst snd].
  change (up_versions (set_spec v s)) with (up_versions s).
  change (up_grandpa (set_spec v s)) with (up_grandpa s).
  rewrite Hb, Hg, pallets_removed_again by done. split_and!; reflexivity.
Qed.

Lemma cleanup_pair_again (tg : Treasury * Ledger) :
  cleanup_proposals ((cleanup_proposals tg).1, (cleanup_proposals tg).2)
  = ((cleanup_proposals tg).1, (cleanup_proposals tg).2).
Proof. rewrite <- surjective_pairing. apply cleanup_again. Qed.

(** The sequence of migrations always returns, and once the new specification
    version is recorded, running it again changes nothing. *)
Theorem migrations_idempotent s v :
  391 < v →
  ∃ s', Migrations s = Some s'
  ∧ ∃ s'', Migrations (set_spec v s') = Some s'' ∧ same_state (set_spec v s') s''.
Proof.
  intros Hv. destruct (Z.le_gt_cases (spec_of s) 391) as [Hs|Hs].
  - rewrite migrations_early by done. eexists. split; [reflexivity|]. apply late_again; [done|..].
    + intros k [Hk _]%clear_prefix_exists. apply swept_exists in Hk. tauto.
    + apply bumped_again.
    + apply migrate_again.
    + apply cleanup_pair_again.
  - rewrite migrations_late by done. eexists. split; [reflexivity|]. apply late_again; [done|..].
    + intros k Hk%pallets_removed_exists. tauto.
    + apply bumped_again.
    + apply migrate_again.
    + apply cleanup_pair_again.
Qed.














(** *** Session keys *)
Lemma get_raw_nonempty (k : SessionKeys) id : id ∈ key_ids → get_raw k id ≠ [].
Proof.
  assert (∀ n (v : byte_array (S n)), vec_to_list v ≠ []) as Hv
    by (intros n v; by inv_vec v).
  unfold key_ids, get_raw. rewrite !elem_of_cons, elem_of_nil. intros Hid.
  repeat (case_decide; [apply Hv|]). naive_solver.
Qed.

Lemma new_keys_raw (k : SessionKeys) :
  KeyIdsLaws → get_raw k ID_mixnet = vec_to_list (mixnet k) ∧ get_raw k ID_beefy = vec_to_list (beefy k).
Proof.
  intros [Hd _].
  assert (∀ i j x y, key_ids !! i = Some x → key_ids !! j = Some y → i ≠ j → x ≠ y) as Hne.
  { intros i j x y Hi Hj Hij ->. apply Hij. by eapply (NoDup_lookup _ i j y Hd). }
  unfold get_raw. split; rewrite !decide_False by
    (first [ by apply (Hne 4%nat 0%nat) | by apply (Hne 4%nat 1%nat) | by apply (Hne 4%nat 2%nat)
           | by apply (Hne 4%nat 3%nat) | by apply (Hne 5%nat 0%nat) | by apply (Hne 5%nat 1%nat)
           | by apply (Hne 5%nat 2%nat) | by apply (Hne 5%nat 3%nat) | by apply (Hne 5%nat 4%nat) ]);
    by rewrite decide_True.
Qed.

Lemma session_run s :
  spec_of s ≤ 378 →
  upgrade_session_keys s = s <| up_session ::= upgrade_keys transform_session_keys |>.
Proof. intros Hs. unfold upgrade_session_keys. by rewrite (proj2 (Z.ltb_ge _ _)). Qed.

Lemma check_new_keys_ok l : check_new_keys l = Ok tt.
Proof.
  induction l as [|[a k] l IH]; cbn [check_new_keys]; [done|].
  by rewrite !bool_decide_false by (apply get_raw_nonempty; unfold key_ids; set_solver).
Qed.

(** The upgrade of the session keys.  The check before the upgrade succeeds and the
    check after it accepts the result: every validator stays in the queue with the four
    keys it had and non-empty keys of the two new types.  Those are the same bytes for
    every validator, so two validators never have distinct keys of these types. *)
Theorem session_keys_upgraded s :
  KeyIdsLaws → spec_of s ≤ 378 →
  let s' := upgrade_session_keys s in
  (∃ pre, session_pre_upgrade s = Ok pre ∧ session_post_upgrade pre s' = Ok tt)
  ∧ (∀ a (k : OldSessionKeys), (a, k) ∈ queued_old (up_session s) →
       ∃ k' : SessionKeys, (a, k') ∈ queued (up_session s')
         ∧ grandpa k' = old_grandpa k ∧ babe k' = old_babe k ∧ im_online k' = old_im_online k
         ∧ authority_discovery k' = old_authority_discovery k)
  ∧ (∀ a b (k l : SessionKeys), (a, k) ∈ queued (up_session s') → (b, l) ∈ queued (up_session s') →
       get_raw k ID_mixnet = get_raw l ID_mixnet ∧ get_raw k ID_beefy = get_raw l ID_beefy).
Proof.
  intros HK Hs s'. unfold s'. rewrite session_run by done.
  assert (queued (up_session (s <| up_session ::= upgrade_keys transform_session_keys |>))
    = (λ ak, (ak.1, transform_session_keys ak.1 ak.2)) <$> queued_old (up_session s)) as Hq
    by apply upgrade_keys_queued.
  split_and!.
  - assert ((UPGRADE_SESSION_KEYS_FROM_SPEC <? spec_of s) = false) as Hg by (by apply Z.ltb_ge).
    unfold session_pre_upgrade, session_post_upgrade.
    change (spec_of (s <| up_session ::= ?f |>)) with (spec_of s). rewrite Hg.
    rewrite !bool_decide_true by (unfold key_ids; set_solver). eexists. split; [reflexivity|].
    rewrite Hq, length_fmap, queued_same_layout, Z.eqb_refl. cbn [negb].
    apply check_new_keys_ok.
  - intros a k Hk. rewrite Hq. exists (transform_session_keys a k). split; [|done].
    apply list_elem_of_fmap. by exists (a, k).
  - intros a b k l. rewrite Hq, !list_elem_of_fmap.
    intros ([? ?] & [= -> ->] & _) ([? ?] & [= -> ->] & _).
    by rewrite !(proj1 (new_keys_raw _ HK)), !(proj2 (new_keys_raw _ HK)).
Qed.
End props.

(** ** A concrete upgrade *)
Module CleanupExample.
Import RefCrypto RefLocks UpgradeExample RefRaw.

#[export] Instance ref_ids : KeyIds := {|
  ID_grandpa := pad 4 (bytes_of "gran"); ID_babe := pad 4 (bytes_of "babe");
  ID_im_online := pad 4 (bytes_of "imon"); ID_authority_discovery := pad 4 (bytes_of "audi");
  ID_mixnet := pad 4 (bytes_of "mixn"); ID_beefy := pad 4 (bytes_of "beef");
|}.
Lemma ref_ids_laws : KeyIdsLaws.
Proof. split; apply (bool_decide_eq_true_1 _); vm_compute; reflexivity. Qed.

(** The queue as it is stored: the four keys that stay, and the last two by their bytes *)
#[export] Instance ref_session : SessionPallet := {|
  Session := list (AccountId * SessionKeys);
  queued_old s := (λ ak, (ak.1, mkOldSessionKeys (grandpa ak.2) (babe ak.2) (im_online ak.2)
    (authority_discovery ak.2) (mixnet ak.2) (beefy ak.2))) <$> s;
  queued s := s;
  upgrade_keys f s := (λ ak, (ak.1, f ak.1 (mkOldSessionKeys (grandpa ak.2) (babe ak.2)
    (im_online ak.2) (authority_discovery ak.2) (mixnet ak.2) (beefy ak.2)))) <$> s;
|}.
#[export] Instance ref_session_laws : SessionPalletLaws.
Proof. split; cbn; [intros s; by rewrite length_fmap|intros f s; by rewrite <- list_fmap_compose]. Qed.

#[export] Instance ref_frame : FrameMigrations := {|
  remove_pallet n r := (clear_prefix (vec_to_list (twox_128 n)) r).2;
  Grandpa := unit;
  migrate_v4_to_v5 o := o;
  Treasury := unit;
  cleanup_proposals tg := tg;
  in_code_storage_version _ := 1;
|}.
#[export] Instance ref_frame_laws : FrameMigrationsLaws.
Proof. split; [|done..]. intros n r. apply clear_prefix_spec. Qed.

Definition schedule_key (a : AccountId) : bytes :=
  SCHEDULES_PREFIX ++ replicate 16 x07 ++ to_raw_vec a.
Definition keys_of (a : AccountId) : SessionKeys :=
  mkSessionKeys a a a a a (pad 33 (to_raw_vec a)).
Definition start : Upgrading :=
  mkUpgrading (before <| last_runtime_upgrade_spec_version := 373 |>)
    {[ schedule_key (acct 1); PALLET_PREFIX ++ vec_to_list (twox_128 (bytes_of ":__STORAGE_VERSION__:"));
       storage_prefix (bytes_of "Sudo") (bytes_of "Key") ]}
    ∅ [(acct 1, keys_of (acct 1)); (acct 2, keys_of (acct 2))] [acct 1] (Some (acct 2)) tt tt.

(** The constants in the source are the hashes that its comments name. *)
Lemma prefixes_are_hashes :
  PALLET_PREFIX = vec_to_list (twox_128 (bytes_of "OrmlVesting"))
  ∧ SCHEDULES_PREFIX = storage_prefix (bytes_of "OrmlVesting") (bytes_of "VestingSchedules").
Proof. split; vm_compute; reflexivity. Qed.


Lemma migrations_idempotent_witness :
  ∃ s' s'', Migrations start = Some s' ∧ Migrations (set_spec 393 s') = Some s''.
Proof.
  destruct (migrations_idempotent start 393) as (s' & H1 & s'' & H2 & _); [lia|].
  exists s', s''. exact (conj H1 H2).
Defined.


Lemma session_keys_upgraded_witness :
  let q := queued (up_session (upgrade_session_keys start)) in
  ∀ k l, (acct 1, k) ∈ q → (acct 2, l) ∈ q → get_raw k ID_beefy = get_raw l ID_beefy.
Proof.
  intros q k l Hk Hl.
  destruct (session_keys_upgraded start ref_ids_laws) as (_ & _ & H); [vm_compute; discriminate|].
  apply (H (acct 1) (acct 2) k l Hk Hl).
Defined.
End CleanupExample.
