(* ===== verification/UpgradeChecks.v ===== *)
(** * The checks around the clean-up of locks

    [try_runtime_checks] of [runtimes/mainnet/src/migrations.rs]: the snapshot that
    [ClearRewardsAndMigrationLocks::pre_upgrade] takes, and the conditions that
    [post_upgrade] checks on the state the migration leaves.  The migration passes its
    own checks, and a run that forgets the work does not. *)

From S2P Require Import Prelude Assets Types Chain Locks Migration Rewards Upgrade RawStorage Cleanup.

(** ** Accounts as [pallet_balances] and [frame_system] keep them *)
Class AccountDetails `{SystemAccounts} := {
  providers : Ledger → AccountId → Z;
  sufficients : Ledger → AccountId → Z;
  (** [pallet_balances::Freezes], the amounts *)
  Freezes : Ledger → AccountId → list Z;
  (** The order of the accounts' keys in [Locks] *)
  lock_order : relation AccountId;
}.

Definition max_amount (l : list Z) : Z := foldr Z.max 0 l.

(** Everything the checks look at in one account *)
Record AccountView : Type := mkView {
  v_locks : list (LockIdentifier * Z);
  v_freezes : list Z;
  v_free : Z;
  v_reserved : Z;
  v_frozen : Z;
  v_consumers : Z;
  v_providers : Z;
  v_sufficients : Z;
}.
#[export] Instance eta_AccountView : Eta AccountView := λ r, {|
  v_locks := v_locks r; v_freezes := v_freezes r; v_free := v_free r; v_reserved := v_reserved r;
  v_frozen := v_frozen r; v_consumers := v_consumers r; v_providers := v_providers r;
  v_sufficients := v_sufficients r;
|}.
Definition view `{AccountDetails} (g : Ledger) (a : AccountId) : AccountView :=
  mkView (Locks g a) (Freezes g a) (free_balance g a) (reserved g a) (frozen g a) (consumers g a)
    (providers g a) (sufficients g a).

(** Balances counts one consumer while the frozen or the reserved balance is not zero. *)
Definition consumes (v : AccountView) : bool := negb (v_frozen v =? 0) || negb (v_reserved v =? 0).

(** [remove_lock] drops the lock, recomputes the frozen balance from the locks and freezes
    that are left, and settles the consumer reference. *)
Definition view_without (id : LockIdentifier) (v : AccountView) : AccountView :=
  let locks := filter (λ l, l.1 ≠ id) (v_locks v) in
  let v' := v <| v_locks := locks |>
              <| v_frozen := Z.max (max_amount locks.*2) (max_amount (v_freezes v)) |> in
  v' <| v_consumers :=
    if consumes v' then (if consumes v then Z.max (v_consumers v) 1 else v_consumers v + 1)
    else if consumes v then sat_sub (v_consumers v) 1 else v_consumers v |>.

Class AccountDetailsLaws `{AccountDetails} : Prop := {
  remove_lock_view g id who a :
    view (remove_lock id who g) a = if decide (a = who) then view_without id (view g a) else view g a;
  remove_lock_issuance g id who : ledger_issuance (remove_lock id who g) = ledger_issuance g;
  (** The reference is added, or the call fails and changes nothing. *)
  inc_consumers_view g who a :
    let '(r, g') := inc_consumers_without_limit who g in
    (if is_ok r then
       view g' a = if decide (a = who) then (view g a) <| v_consumers ::= Z.add 1 |> else view g a
     else g' = g)
    ∧ ledger_issuance g' = ledger_issuance g;
  set_consumers_view g who n a : 0 ≤ n →
    view (set_consumers who n g) a
    = if decide (a = who) then (view g a) <| v_consumers := n |> else view g a;
  set_consumers_issuance g who n : ledger_issuance (set_consumers who n g) = ledger_issuance g;
  consumers_nonneg g a : 0 ≤ consumers g a;
  (** [Locks] is iterated in the order of its keys. *)
  lock_order_strict :: StrictOrder lock_order;
  lock_holders_sorted g : StronglySorted lock_order (lock_holders g);
  lock_holders_locks g a : a ∈ lock_holders g ↔ Locks g a ≠ [];
}.

Section checks.
Context {CR : Crypto} {CO : Codec (AccountId * list (LockIdentifier * Z))}
  {LC : LockableCurrency} {SA : SystemAccounts} {AD : AccountDetails} {RS : RawStorage}
  {SP : SessionPallet} {FM : FrameMigrations}.

(** [LockScan] *)
Record LockScan : Type := mkLockScan {
  ls_rewards : list (AccountId * Z);
  ls_pdex_migration : list (AccountId * Z);
  ls_other_locks : H256;
}.

(** The locks of one account with a name, and those with neither name *)
Definition named (id : LockIdentifier) (g : Ledger) (who : AccountId) : list (AccountId * Z) :=
  (λ l, (who, l.2)) <$> filter (λ l, l.1 = id) (Locks g who).
Definition rest (g : Ledger) (who : AccountId) : list (LockIdentifier * Z) :=
  filter (λ l, l.1 ≠ REWARDS_LOCK_ID ∧ l.1 ≠ PDEX_MIGRATION_LOCK_ID) (Locks g who).
Definition encode_rest (g : Ledger) (who : AccountId) : bytes :=
  match rest g who with [] => [] | r => scale_encode (who, r) end.

Definition LockScan_take (g : Ledger) : LockScan :=
  mkLockScan (lock_holders g ≫= named REWARDS_LOCK_ID g) (lock_holders g ≫= named PDEX_MIGRATION_LOCK_ID g)
    (blake2_256 (lock_holders g ≫= encode_rest g)).

(** [Touched] *)
Record Touched : Type := mkTouched {
  t_who : AccountId;
  t_free : Z;
  t_reserved : Z;
  t_consumers : Z;
  t_exists : bool;
  t_consumes_after : bool;
}.

(** [LocksSnapshot] *)
Record LocksSnapshot : Type := mkLocksSnapshot {
  rewards_released : list AccountId;
  pdex_migration_released : list AccountId;
  rewards_kept : list (AccountId * Z);
  pdex_migration_kept : list (AccountId * Z);
  rewards_total : Z;
  pdex_migration_total : Z;
  other_locks : H256;
  touched : list Touched;
  legacy_keys : option (Z * Z);
  total_issuance : Z;
}.

(** [count_keys] and [legacy_key_counts] *)
Definition count_keys (r : Raw) (prefix : bytes) : option Z :=
  key_loop (loop_fuel r) r prefix prefix (λ _ count, count + 1) 0.
Definition legacy_key_counts (r : Raw) : option (Z * Z) :=
  rewards ← count_keys r (vec_to_list (twox_128 (bytes_of "Rewards")));
  migration ← count_keys r (vec_to_list (twox_128 (bytes_of "PDEXMigration")));
  Some (rewards, migration).

Definition kept (locks : list (AccountId * Z)) (released : gset AccountId) : list (AccountId * Z) :=
  filter (λ l, l.1 ∉ released) locks.

Definition touch (found : ReleasableLocks) (g : Ledger) (who : AccountId) : Touched :=
  let released := (if bool_decide (who ∈ rl_rewards found) then [REWARDS_LOCK_ID] else [])
    ++ (if bool_decide (who ∈ rl_pdex_migration found) then [PDEX_MIGRATION_LOCK_ID] else []) in
  let left := max_amount ((filter (λ l, l.1 ∉ released) (Locks g who)).*2 ++ Freezes g who) in
  mkTouched who (free_balance g who) (reserved g who) (consumers g who)
    ((0 <? providers g who) || (0 <? sufficients g who))
    (negb (reserved g who =? 0) || negb (left =? 0)).

Definition LocksSnapshot_new (found : ReleasableLocks) (scan : LockScan) (s : Upgrading) : LocksSnapshot :=
  let g := ledger_of s in
  mkLocksSnapshot (btree_elements (rl_rewards found)) (btree_elements (rl_pdex_migration found))
    (kept (ls_rewards scan) (rl_rewards found))
    (kept (ls_pdex_migration scan) (rl_pdex_migration found))
    (zsum (ls_rewards scan).*2) (zsum (ls_pdex_migration scan).*2) (ls_other_locks scan)
    (touch found g <$> btree_elements (rl_rewards found ∪ rl_pdex_migration found))
    (legacy_key_counts (up_raw s)) (ledger_issuance g).

(** [ClearRewardsAndMigrationLocks::pre_upgrade]: nothing when already applied *)
Definition locks_pre_upgrade (s : Upgrading) : option LocksSnapshot :=
  if CLEAR_REWARDS_AND_MIGRATION_LOCKS_FROM_SPEC <? spec_of s then None
  else let found := releasable (up_legacy s) (lg_block (up_legacy s)) in
       Some (LocksSnapshot_new found (LockScan_take (ledger_of s)) s).

(** The conditions on one account that lost a lock *)
Definition expected_consumers (t : Touched) : Z :=
  if negb (t_exists t) then 0
  else if t_consumes_after t then Z.max (t_consumers t) 1
  else sat_sub (t_consumers t) 1.
Definition check_touched (g : Ledger) (t : Touched) : res string unit :=
  let who := t_who t in
  if negb ((free_balance g who =? t_free t) && (reserved g who =? t_reserved t))
  then Err "free or reserved balance changed"%string
  else if negb (frozen g who =? Z.max (max_amount (Locks g who).*2) (max_amount (Freezes g who)))
  then Err "frozen does not match the remaining locks"%string
  else if negb (consumers g who =? expected_consumers t)
  then Err "consumer count is not what Balances leaves"%string
  else if negb (bool_decide (Locks g who = []) || (1 <=? consumers g who) || negb (t_exists t))
  then Err "an account that still holds a lock has no consumer ref"%string
  else Ok tt.
Fixpoint check_all (g : Ledger) (l : list Touched) : res string unit :=
  match l with
  | [] => Ok tt
  | t :: l' => match check_touched g t with Ok _ => check_all g l' | e => e end
  end.

(** [ClearRewardsAndMigrationLocks::post_upgrade] *)
Definition locks_post_upgrade (state : option LocksSnapshot) (s : Upgrading) : res string unit :=
  if CLEAR_REWARDS_AND_MIGRATION_LOCKS_FROM_SPEC <? spec_of s then Ok tt
  else match state with
  | None => Err "cannot decode the pre_upgrade state"%string
  | Some pre =>
      let g := ledger_of s in
      let scan := LockScan_take g in
      if negb (bool_decide (ls_rewards scan = rewards_kept pre))
      then Err "REWARDID locks left differ from the expected set"%string
      else if negb (bool_decide (ls_pdex_migration scan = pdex_migration_kept pre))
      then Err "pdexlock locks left differ from the expected set"%string
      else if negb (bool_decide (ls_other_locks scan = other_locks pre))
      then Err "a lock with another id changed"%string
      else match check_all g (touched pre) with
      | Ok _ =>
          if negb (bool_decide (legacy_key_counts (up_raw s) = legacy_keys pre))
          then Err "Rewards or PDEXMigration storage changed"%string
          else if negb (ledger_issuance g =? total_issuance pre)
          then Err "total issuance changed"%string
          else Ok tt
      | e => e
      end
  end.

(** ** Properties *)
Section properties.
Context {ADL : AccountDetailsLaws}.
Implicit Types (g : Ledger) (a who : AccountId) (v : AccountView).

(** *** One removal *)
Definition view_with_ref v : AccountView :=
  if (0 <? v_consumers v) || ((v_frozen v =? 0) && (v_reserved v =? 0)) then v
  else v <| v_consumers := 1 |>.

Lemma add_ref_view who g a :
  let g' := (add_consumer_ref_if_missing who g).2 in
  view g' a = (if decide (a = who) then view_with_ref (view g a) else view g a)
  ∧ ledger_issuance g' = ledger_issuance g.
Proof.
  unfold add_consumer_ref_if_missing. cbn zeta.
  destruct ((0 <? consumers g who) || _) eqn:Hc.
  { cbn. split; [|done]. case_decide; [subst|done]. unfold view_with_ref. cbn. by rewrite Hc. }
  pose proof (inc_consumers_view g who a) as Hi. pose proof (consumers_nonneg g who) as Hn.
  apply orb_false_iff in Hc as Hc'. destruct Hc' as [Hz%Z.ltb_ge _].
  destruct (inc_consumers_without_limit who g) as [[x|e|] g'] eqn:Hr; cbn in *; destruct Hi as [Hv His].
  - split; [|done]. rewrite Hv. case_decide; [subst|done]. unfold view_with_ref. cbn. rewrite Hc.
    unfold view, setter. cbn. by replace (consumers g who) with 0 by lia.
  - subst g'. rewrite set_consumers_view, set_consumers_issuance by lia. split; [|done].
    case_decide; [subst|done]. unfold view_with_ref. cbn. by rewrite Hc.
  - subst g'. rewrite set_consumers_view, set_consumers_issuance by lia. split; [|done].
    case_decide; [subst|done]. unfold view_with_ref. cbn. by rewrite Hc.
Qed.

Definition removed_view (id : LockIdentifier) v : AccountView := view_without id (view_with_ref v).

Lemma remove_view id who g a :
  view (remove id who g).2 a = (if decide (a = who) then removed_view id (view g a) else view g a)
  ∧ ledger_issuance (remove id who g).2 = ledger_issuance g.
Proof.
  unfold remove. destruct (add_ref_view who g a) as [Hv Hi].
  destruct (add_consumer_ref_if_missing who g) as [b g']. cbn in *.
  rewrite remove_lock_view, remove_lock_issuance, Hv. split; [|done]. by case_decide.
Qed.

Lemma remove_all_view id l g a :
  NoDup l →
  view (remove_all id l g) a = (if decide (a ∈ l) then removed_view id (view g a) else view g a)
  ∧ ledger_issuance (remove_all id l g) = ledger_issuance g.
Proof.
  intros Hl. revert g. induction Hl as [|who l Hw Hl IH]; intros g.
  - split; [|done]. rewrite decide_False; [done|apply not_elem_of_nil].
  - change (remove_all id (who :: l) g) with (remove_all id l (remove id who g).2).
    destruct (IH (remove id who g).2) as [-> ->]. destruct (remove_view id who g a) as [-> ->].
    split; [|done]. destruct (decide (a = who)) as [->|Ha].
    + rewrite decide_False, decide_True; [done|left|done].
    + destruct (decide (a ∈ l)); [rewrite decide_True; [done|by right]|].
      rewrite decide_False; [done|]. by intros [?|?]%elem_of_cons.
Qed.

(** *** The whole migration on one account *)
Definition cleared_view (found : ReleasableLocks) a v : AccountView :=
  let v := if decide (a ∈ rl_rewards found) then removed_view REWARDS_LOCK_ID v else v in
  if decide (a ∈ rl_pdex_migration found) then removed_view PDEX_MIGRATION_LOCK_ID v else v.

Lemma btree_elements_nodup (X : gset AccountId) : NoDup (btree_elements X).
Proof. unfold btree_elements. rewrite merge_sort_Permutation. apply NoDup_elements. Qed.

Lemma cleared_views (s : Upgrading) a :
  spec_of s ≤ 391 →
  let found := releasable (up_legacy s) (lg_block (up_legacy s)) in
  let s' := on_legacy clear_rewards_and_migration_locks s in
  view (ledger_of s') a = cleared_view found a (view (ledger_of s) a)
  ∧ ledger_issuance (ledger_of s') = ledger_issuance (ledger_of s).
Proof.
  intros Hs found s'. unfold s', on_legacy, ledger_of. cbn [up_legacy]. unfold setter. cbn [up_legacy].
  rewrite clear_ledger by done. fold found.
  destruct (remove_all_view PDEX_MIGRATION_LOCK_ID (btree_elements (rl_pdex_migration found))
    (remove_all REWARDS_LOCK_ID (btree_elements (rl_rewards found)) (lg_ledger (up_legacy s))) a)
    as [-> ->]; [apply btree_elements_nodup|].
  destruct (remove_all_view REWARDS_LOCK_ID (btree_elements (rl_rewards found))
    (lg_ledger (up_legacy s)) a) as [-> ->]; [apply btree_elements_nodup|].
  split; [|done]. unfold cleared_view.
  by rewrite !(decide_ext _ _ _ _ (elem_of_btree_elements _ _)).
Qed.

(** The locks that stay *)
Definition stays (found : ReleasableLocks) a (l : LockIdentifier * Z) : Prop :=
  ¬ (a ∈ rl_rewards found ∧ l.1 = REWARDS_LOCK_ID)
  ∧ ¬ (a ∈ rl_pdex_migration found ∧ l.1 = PDEX_MIGRATION_LOCK_ID).
#[local] Instance stays_dec found a l : Decision (stays found a l) := ltac:(unfold stays; apply _).

Lemma stays_rewards found a l :
  stays found a l ∧ l.1 = REWARDS_LOCK_ID ↔ l.1 = REWARDS_LOCK_ID ∧ a ∉ rl_rewards found.
Proof.
  unfold stays. split; [tauto|]. intros [Hl Ha]. split_and!; [tauto| |done].
  intros [_ H]. rewrite Hl in H. discriminate H.
Qed.
Lemma stays_migration found a l :
  stays found a l ∧ l.1 = PDEX_MIGRATION_LOCK_ID ↔
  l.1 = PDEX_MIGRATION_LOCK_ID ∧ a ∉ rl_pdex_migration found.
Proof.
  unfold stays. split; [tauto|]. intros [Hl Ha]. split_and!; [|tauto|done].
  intros [_ H]. rewrite Hl in H. discriminate H.
Qed.

Lemma cleared_view_fields found a v :
  let v' := cleared_view found a v in
  v_locks v' = filter (stays found a) (v_locks v) ∧ v_freezes v' = v_freezes v ∧ v_free v' = v_free v
  ∧ v_reserved v' = v_reserved v ∧ v_providers v' = v_providers v ∧ v_sufficients v' = v_sufficients v.
Proof.
  assert (∀ id v, let v' := removed_view id v in
    v_locks v' = filter (λ l, l.1 ≠ id) (v_locks v) ∧ v_freezes v' = v_freezes v ∧ v_free v' = v_free v
    ∧ v_reserved v' = v_reserved v ∧ v_providers v' = v_providers v ∧ v_sufficients v' = v_sufficients v)
    as Hrem by (intros id w; unfold removed_view, view_with_ref; by case_match).
  unfold cleared_view, stays. cbn zeta.
  repeat case_decide; try (destruct (Hrem PDEX_MIGRATION_LOCK_ID (removed_view REWARDS_LOCK_ID v))
    as (-> & -> & -> & -> & -> & ->));
  try (destruct (Hrem REWARDS_LOCK_ID v) as (-> & -> & -> & -> & -> & ->));
  try (destruct (Hrem PDEX_MIGRATION_LOCK_ID v) as (-> & -> & -> & -> & -> & ->));
  rewrite ?list_filter_filter; split_and!; try done;
    [apply list_filter_iff; naive_solver..|symmetry; apply filter_all, Forall_forall; naive_solver].
Qed.

(** *** Consumer references *)
Lemma removed_consumers id v :
  consumes v = true → 0 ≤ v_consumers v →
  v_consumers (removed_view id v)
  = if consumes (removed_view id v) then Z.max (v_consumers v) 1 else sat_sub (v_consumers v) 1.
Proof.
  intros Hc Hn. unfold removed_view, view_with_ref.
  assert ((v_frozen v =? 0) && (v_reserved v =? 0) = false) as ->.
  { unfold consumes in Hc. by destruct (v_frozen v =? 0), (v_reserved v =? 0). }
  rewrite orb_false_r. unfold view_without, sat_sub.
  destruct (Z.ltb_spec 0 (v_consumers v)) as [Hp|Hz]; unfold setter; cbn;
    (assert (consumes (mkView (v_locks v) (v_freezes v) (v_free v) (v_reserved v) (v_frozen v) 1
      (v_providers v) (v_sufficients v)) = true) as Hc1 by apply Hc);
    rewrite ?Hc, ?Hc1; unfold consumes; cbn; case_match; lia.
Qed.

Lemma max_amount_ge l n : n ∈ l → n ≤ max_amount l.
Proof. unfold max_amount. induction 1; cbn; lia. Qed.
Lemma max_amount_nonneg l : 0 ≤ max_amount l.
Proof. unfold max_amount. induction l; cbn; lia. Qed.
Lemma max_amount_app l1 l2 : max_amount (l1 ++ l2) = Z.max (max_amount l1) (max_amount l2).
Proof.
  pose proof (max_amount_nonneg l2). unfold max_amount in *.
  induction l1 as [|x l1 IH]; cbn; [lia|]. rewrite IH. lia.
Qed.

(** The frozen balance covers the locks, and no lock is empty. *)
Definition covered v : Prop := Forall (λ l, 0 < l.2 ≤ v_frozen v) (v_locks v).

#[export] Instance covered_dec v : Decision (covered v) := ltac:(unfold covered; apply _).

Lemma covered_lock v id n : covered v → (id, n) ∈ v_locks v → 0 < n ≤ v_frozen v.
Proof. unfold covered. rewrite Forall_forall. intros Hc Hin. apply (Hc _ Hin). Qed.

Lemma covered_consumes v id n : covered v → (id, n) ∈ v_locks v → consumes v = true.
Proof.
  intros Hc Hin%(covered_lock _ _ _ Hc). unfold consumes.
  destruct (Z.eqb_spec (v_frozen v) 0); [lia|done].
Qed.

Lemma removed_covered id v : covered v → covered (removed_view id v).
Proof.
  intros Hc. apply Forall_forall. intros [id' n] Hin. cbn [snd]. assert (v_locks (removed_view id v) = filter (λ l, l.1 ≠ id) (v_locks v)) as Hl
    by (unfold removed_view, view_with_ref; by case_match).
  assert (v_frozen (removed_view id v)
    = Z.max (max_amount (v_locks (removed_view id v)).*2) (max_amount (v_freezes v))) as ->
    by (unfold removed_view, view_with_ref; by case_match).
  assert (n ∈ (v_locks (removed_view id v)).*2) as Hn by (apply list_elem_of_fmap; by exists (id', n)).
  pose proof (max_amount_ge _ _ Hn). rewrite Hl in Hin. apply list_elem_of_filter in Hin as [_ Hin%(covered_lock _ _ _ Hc)]. lia.
Qed.

Lemma removed_keeps_other id v id' n :
  id' ≠ id → (id', n) ∈ v_locks v → (id', n) ∈ v_locks (removed_view id v).
Proof.
  intros Hne Hin. assert (v_locks (removed_view id v) = filter (λ l, l.1 ≠ id) (v_locks v)) as ->
    by (unfold removed_view, view_with_ref; by case_match).
  by apply list_elem_of_filter.
Qed.

(** The reference count and the frozen balance of an account that lost a lock *)
Lemma cleared_counts found a v :
  covered v → 0 ≤ v_consumers v →
  a ∈ rl_rewards found ∪ rl_pdex_migration found →
  (a ∈ rl_rewards found → ∃ n, (REWARDS_LOCK_ID, n) ∈ v_locks v) →
  (a ∈ rl_pdex_migration found → ∃ n, (PDEX_MIGRATION_LOCK_ID, n) ∈ v_locks v) →
  let v' := cleared_view found a v in
  v_consumers v' = (if consumes v' then Z.max (v_consumers v) 1 else sat_sub (v_consumers v) 1)
  ∧ v_frozen v' = Z.max (max_amount (v_locks v').*2) (max_amount (v_freezes v')).
Proof.
  intros Hc Hn Ha Hr Hm. unfold cleared_view.
  assert (∀ id v, v_frozen (removed_view id v)
    = Z.max (max_amount (v_locks (removed_view id v)).*2) (max_amount (v_freezes (removed_view id v))))
    as Hf by (intros id w; unfold removed_view, view_with_ref; by case_match).
  destruct (decide (a ∈ rl_rewards found)) as [H1|H1], (decide (a ∈ rl_pdex_migration found)) as [H2|H2];
    cbn zeta; (split; [|by apply Hf || set_solver]).
  - destruct (Hr H1) as [n Hin], (Hm H2) as [m Him].
    pose proof (removed_consumers REWARDS_LOCK_ID v (covered_consumes _ _ _ Hc Hin) Hn) as Hc1.
    assert (consumes (removed_view REWARDS_LOCK_ID v) = true) as Hc2.
    { eapply covered_consumes; [by apply removed_covered|]. by apply removed_keeps_other, Him. }
    rewrite Hc2 in Hc1. rewrite removed_consumers by (done || lia). rewrite Hc1.
    unfold sat_sub. case_match; lia.
  - destruct (Hr H1) as [n Hin]. apply removed_consumers; [by eapply covered_consumes|done].
  - destruct (Hm H2) as [n Hin]. apply removed_consumers; [by eapply covered_consumes|done].
  - set_solver.
Qed.

Lemma touch_after found g a :
  t_consumes_after (touch found g a) = negb (reserved g a =? 0)
    || negb (Z.max (max_amount (filter (stays found a) (Locks g a)).*2) (max_amount (Freezes g a)) =? 0).
Proof.
  unfold touch. cbn. rewrite max_amount_app. do 6 f_equal. apply list_filter_iff. intros l.
  unfold stays. do 2 case_bool_decide; set_solver.
Qed.

(** *** The scans *)
Section after.
Context (s : Upgrading) (Hspec : spec_of s ≤ 391).
Let found := releasable (up_legacy s) (lg_block (up_legacy s)).
Let s' := on_legacy clear_rewards_and_migration_locks s.
Let g := ledger_of s.
Let g' := ledger_of s'.

Lemma view_after a : view g' a = cleared_view found a (view g a).
Proof. apply (cleared_views s a Hspec). Qed.

Lemma locks_after a : Locks g' a = filter (stays found a) (Locks g a).
Proof.
  change (Locks g' a) with (v_locks (view g' a)). rewrite view_after.
  apply (cleared_view_fields found a (view g a)).
Qed.

Lemma holders_after : lock_holders g' = filter (λ a, Locks g' a ≠ []) (lock_holders g).
Proof.
  apply (strongly_sorted_eq lock_order);
    [apply lock_holders_sorted|apply strongly_sorted_filter, lock_holders_sorted|].
  intros a. rewrite list_elem_of_filter, !lock_holders_locks. split; [|by intros []].
  intros Hne. split; [done|]. intros Hnil. apply Hne. by rewrite locks_after, Hnil.
Qed.

(** Scanning what is left is scanning every account that had locks. *)
Lemma scan_after {B} (f : AccountId → list B) :
  (∀ a, Locks g' a = [] → f a = []) → lock_holders g' ≫= f = lock_holders g ≫= f.
Proof.
  intros Hf. rewrite holders_after. apply bind_filter. intros a Ha. apply Hf.
  by apply dec_stable.
Qed.

Lemma named_after id X :
  (∀ a l, stays found a l ∧ l.1 = id ↔ l.1 = id ∧ a ∉ X) →
  lock_holders g' ≫= named id g' = kept (lock_holders g ≫= named id g) X.
Proof.
  intros Hst. rewrite scan_after by (intros a Ha; unfold named; by rewrite Ha).
  unfold kept. rewrite filter_bind. apply list_bind_ext; [|done]. intros a.
  unfold named. rewrite locks_after, list_filter_filter.
  rewrite (list_filter_iff _ (λ l, l.1 = id ∧ a ∉ X)) by (intros l; rewrite <- Hst; tauto).
  destruct (decide (a ∈ X)) as [Ha|Ha].
  - rewrite (filter_none (λ l, l.1 = id ∧ a ∉ X)) by (apply Forall_forall; naive_solver).
    symmetry. apply filter_none, Forall_forall. intros x Hx. apply list_elem_of_fmap in Hx as (l & -> & _).
    cbn. naive_solver.
  - rewrite (list_filter_iff _ (λ l, l.1 = id)) by naive_solver. symmetry. apply filter_all, Forall_forall.
    intros x Hx. by apply list_elem_of_fmap in Hx as (l & -> & _).
Qed.

Lemma others_after : lock_holders g' ≫= encode_rest g' = lock_holders g ≫= encode_rest g.
Proof.
  rewrite scan_after by (intros a Ha; unfold encode_rest, rest; by rewrite Ha).
  apply list_bind_ext; [|done]. intros a. unfold encode_rest, rest.
  rewrite locks_after, list_filter_filter_l; [done|]. unfold stays. naive_solver.
Qed.

Lemma released_have_locks a :
  (a ∈ rl_rewards found → ∃ n, (REWARDS_LOCK_ID, n) ∈ Locks g a)
  ∧ (a ∈ rl_pdex_migration found → ∃ n, (PDEX_MIGRATION_LOCK_ID, n) ∈ Locks g a).
Proof.
  split.
  - intros (id & r & _ & Hr)%releasable_rewards. unfold rewards_rule in Hr.
    apply andb_true_iff in Hr as [_ Hr]. by apply has_lock_spec.
  - intros [_ (t & _ & Hr)]%releasable_migration. unfold migration_rule in Hr.
    apply andb_true_iff in Hr as [_ Hr]. by apply has_lock_spec.
Qed.

(** An account without providers and sufficients holds nothing but the released locks. *)
Definition reaped_clean (a : AccountId) : Prop :=
  t_exists (touch found g a) = false → t_consumes_after (touch found g a) = false ∧ consumers g a ≤ 1.
#[export] Instance reaped_clean_dec a : Decision (reaped_clean a) := ltac:(unfold reaped_clean; apply _).

Lemma touched_accepted a :
  covered (view g a) → reaped_clean a → a ∈ rl_rewards found ∪ rl_pdex_migration found →
  check_touched g' (touch found g a) = Ok tt.
Proof.
  intros Hc Hr Ha. destruct (released_have_locks a) as [H1 H2].
  destruct (cleared_counts found a (view g a) Hc (consumers_nonneg g a) Ha H1 H2) as [Hcn Hfr].
  destruct (cleared_view_fields found a (view g a)) as (Hl & Hfz & Hfree & Hres & _).
  pose proof (touch_after found g a) as Ht. unfold reaped_clean in Hr. unfold consumes in Hcn.
  rewrite Hl in Hfr. rewrite <- view_after in *. cbn -[max_amount] in Hcn, Hfr, Hl, Hfz, Hfree, Hres.
  rewrite Hfz in Hfr. rewrite Hfr, Hres, orb_comm, <- Ht in Hcn.
  assert (consumers g' a = expected_consumers (touch found g a)) as Hexp.
  { rewrite Hcn. unfold expected_consumers. pose proof (consumers_nonneg g a).
    destruct (t_exists (touch found g a)); cbn -[touch]; [done|].
    destruct Hr as [-> ?]; [done|]. unfold sat_sub. lia. }
  unfold check_touched. change (t_who (touch found g a)) with a.
  change (t_free (touch found g a)) with (free_balance g a).
  change (t_reserved (touch found g a)) with (reserved g a).
  rewrite Hfree, Hres, Hfr, Hl, Hfz, <- Hexp, !Z.eqb_refl. cbn -[max_amount touch].
  case_bool_decide as Hnil; [done|]. cbn -[max_amount touch].
  destruct (Z.leb_spec 1 (consumers g' a)) as [|Hlt]; [done|].
  destruct (t_exists (touch found g a)) eqn:Hex; [|done]. exfalso.
  destruct (filter (stays found a) (Locks g a)) as [|[id n] ls] eqn:Hls; [done|].
  assert ((id, n) ∈ filter (stays found a) (Locks g a)) as Hin by (rewrite Hls; left).
  apply list_elem_of_filter in Hin as [_ Hin]. destruct (covered_lock (view g a) id n Hc Hin) as [Hpos _].
  rewrite Hcn in Hlt. assert (t_consumes_after (touch found g a) = true) as Hca; [|rewrite Hca in Hlt; lia].
  rewrite Ht. apply orb_true_iff. right. apply negb_true_iff, Z.eqb_neq.
  cbn -[max_amount]. pose proof (max_amount_ge (n :: ls.*2) n (list_elem_of_here _ _)). lia.
Qed.

Lemma all_accepted l :
  (∀ a, a ∈ l → check_touched g' (touch found g a) = Ok tt) → check_all g' (touch found g <$> l) = Ok tt.
Proof.
  induction l as [|a l IH]; intros Hl; [done|]. cbn [check_all fmap list_fmap]. rewrite (Hl a) by left.
  apply IH. intros b Hb. apply Hl. by right.
Qed.
End after.

Lemma scan_elem id g a n : (a, n) ∈ lock_holders g ≫= named id g ↔ (id, n) ∈ Locks g a.
Proof.
  rewrite list_elem_of_bind. unfold named. split.
  - intros (b & Hin & Hb). apply list_elem_of_fmap in Hin as ([id' m] & [= -> ->] & Hin).
    apply list_elem_of_filter in Hin as [Hid Hin]. cbn in Hid. by subst.
  - intros Hin. exists a. split.
    + apply list_elem_of_fmap. exists (id, n). split; [done|]. by apply list_elem_of_filter.
    + apply lock_holders_locks. intros Hnil. rewrite Hnil in Hin. by apply not_elem_of_nil in Hin.
Qed.

(** A scan that still shows a released lock differs from the expected one. *)
Lemma unreleased_detected id g (X : gset AccountId) a n :
  a ∈ X → (id, n) ∈ Locks g a →
  lock_holders g ≫= named id g ≠ kept (lock_holders g ≫= named id g) X.
Proof.
  intros Ha Hin Heq. assert ((a, n) ∈ lock_holders g ≫= named id g) as H by (by apply scan_elem).
  rewrite Heq in H. apply list_elem_of_filter in H as [H _]. done.
Qed.

(** C34: the clean-up of the rewards and migration locks passes its own checks.  When the
    frozen balances cover the locks, as the earlier migration leaves them, and accounts
    without providers hold nothing but the locks to release, the snapshot taken before
    the upgrade is accepted in the state after it.  The checks are not empty: if there
    is anything to release, the state in which nothing was released is rejected. *)
Theorem upgrade_checks_accept s :
  let found := releasable (up_legacy s) (lg_block (up_legacy s)) in
  let X := rl_rewards found ∪ rl_pdex_migration found in
  spec_of s ≤ 391 →
  (∀ a, a ∈ X → covered (view (ledger_of s) a)) →
  (∀ a, a ∈ X → reaped_clean s a) →
  locks_post_upgrade (locks_pre_upgrade s) (on_legacy clear_rewards_and_migration_locks s) = Ok tt
  ∧ (X ≠ ∅ → is_ok (locks_post_upgrade (locks_pre_upgrade s) s) = false).
Proof.
  intros found X Hs Hc Hr. assert ((CLEAR_REWARDS_AND_MIGRATION_LOCKS_FROM_SPEC <? spec_of s) = false) as Hg
    by (by apply Z.ltb_ge).
  assert (spec_of (on_legacy clear_rewards_and_migration_locks s) = spec_of s) as Hs'.
  { unfold spec_of, on_legacy. cbn. unfold clear_rewards_and_migration_locks. by case_match. }
  unfold locks_post_upgrade, locks_pre_upgrade. rewrite Hs', Hg. fold found.
  unfold LocksSnapshot_new, LockScan_take.
  cbn [ls_rewards ls_pdex_migration ls_other_locks rewards_kept pdex_migration_kept other_locks
       touched legacy_keys total_issuance]. split.
  - rewrite (bool_decide_true (_ = kept (_ ≫= named REWARDS_LOCK_ID _) _))
      by (apply named_after; [done|intros; apply stays_rewards]).
    rewrite (bool_decide_true (_ = kept (_ ≫= named PDEX_MIGRATION_LOCK_ID _) _))
      by (apply named_after; [done|intros; apply stays_migration]).
    rewrite others_after, bool_decide_true by done. cbn [negb].
    rewrite all_accepted.
    + rewrite bool_decide_true by done.
      by rewrite (proj2 (cleared_views s H256_zero Hs)), Z.eqb_refl.
    + intros a Ha%elem_of_btree_elements. apply touched_accepted; auto.
  - intros [a Ha]%set_choose_L. destruct (released_have_locks s a) as [H1 H2].
    apply elem_of_union in Ha as [Ha|Ha].
    + destruct (H1 Ha) as [n Hn]. rewrite bool_decide_false; [done|]. by eapply unreleased_detected.
    + destruct (H2 Ha) as [n Hn]. case_bool_decide; [|done]. cbn [negb].
      rewrite bool_decide_false; [done|]. by eapply unreleased_detected.
Qed.
End properties.
End checks.

(** ** A concrete ledger

    Accounts are their views; the operations that the clean-up does not use do nothing. *)
Module ChecksExample.
Import RefCrypto RefRaw.

Abbreviation accounts := (gmap AccountId AccountView).
Definition empty_view : AccountView := mkView [] [] 0 0 0 0 0 0.
Definition look (g : accounts) (a : AccountId) : AccountView :=
  (default empty_view (g !! a)) <| v_consumers ::= Z.max 0 |>.

#[export] Instance view_locks : LockableCurrency := {|
  Ledger := accounts;
  LedgerError := unit;
  free_balance g a := v_free (look g a);
  ledger_issuance _ := 0;
  Locks g a := v_locks (look g a);
  deposit_creating _ _ g := g;
  set_lock _ _ _ g := g;
  remove_lock id a g := <[a := view_without id (look g a)]> g;
  burn_exact _ _ g := (Err tt, g);
  transfer_keep_alive _ _ _ g := (Err tt, g);
|}.

Definition holders (g : accounts) : list AccountId :=
  filter (λ a, v_locks (look g a) ≠ []) (btree_elements (dom g)).

#[export] Instance view_accounts : SystemAccounts := {|
  consumers g a := v_consumers (look g a);
  frozen g a := v_frozen (look g a);
  reserved g a := v_reserved (look g a);
  inc_consumers_without_limit a g :=
    if 0 <? v_providers (look g a)
    then (Ok tt, <[a := (look g a) <| v_consumers ::= Z.add 1 |>]> g) else (Err tt, g);
  set_consumers a n g := <[a := (look g a) <| v_consumers := n |>]> g;
  set_frozen a n g := <[a := (look g a) <| v_frozen := n |>]> g;
  lock_holders := holders;
|}.

#[export] Instance view_details : AccountDetails := {|
  providers g a := v_providers (look g a);
  sufficients g a := v_sufficients (look g a);
  Freezes g a := v_freezes (look g a);
  lock_order a b := bytes_lt (to_raw_vec a) (to_raw_vec b);
|}.

Lemma view_look (g : accounts) a : view g a = look g a.
Proof. assert (∀ v, eta v = v) as H by (by intros []). apply (H (look g a)). Qed.

Lemma look_insert (g : accounts) a b v :
  0 ≤ v_consumers v → look (<[a := v]> g) b = if decide (b = a) then v else look g b.
Proof.
  intros Hv. unfold look. case_decide; [subst; rewrite lookup_insert_eq|by rewrite lookup_insert_ne].
  destruct v. unfold setter. cbn in *. by rewrite Z.max_r.
Qed.

Lemma look_consumers (g : accounts) a : 0 ≤ v_consumers (look g a).
Proof. unfold look. destruct (default _ _). cbn. lia. Qed.

Lemma without_consumers id v : 0 ≤ v_consumers v → 0 ≤ v_consumers (view_without id v).
Proof. intros Hv. unfold view_without, sat_sub. cbn. repeat case_match; lia. Qed.

Lemma look_none (g : accounts) a : a ∉ dom g → v_locks (look g a) = [].
Proof. intros Ha%not_elem_of_dom. unfold look. by rewrite Ha. Qed.

#[export] Instance view_details_laws : AccountDetailsLaws.
Proof.
  split; try done.
  - intros g id who a. rewrite !view_look. cbn. rewrite look_insert; [|apply without_consumers, look_consumers].
    case_decide; [by subst|done].
  - intros g who a. cbn -[look view]. destruct (0 <? v_providers (look g who)); cbn -[look view]; [|done].
    split; [|done].
    pose proof (look_consumers g who). rewrite !view_look, look_insert; [|cbn; lia].
    case_decide; [by subst|done].
  - intros g who n a Hn. rewrite !view_look. cbn. rewrite look_insert by done. case_decide; [by subst|done].
  - intros g a. apply look_consumers.
  - split; [intros a; apply bytes_lt_irrefl|intros a b c; apply bytes_lt_trans].
  - intros g. cbn. unfold holders. apply strongly_sorted_filter.
    change (StronglySorted (λ x y : AccountId, key_leb y x = false) (btree_elements (dom g))).
    apply (strongly_sorted_strict (λ a b : AccountId, key_leb a b)).
    + intros x y Hx Hy. apply to_raw_vec_inj. by apply bytes_leb_antisym.
    + apply StronglySorted_merge_sort.
      * intros x y z Hx%Is_true_true Hy%Is_true_true. apply Is_true_true. by eapply bytes_leb_trans.
      * intros x y. destruct (bytes_leb_total (to_raw_vec x) (to_raw_vec y)) as [H|H];
          [left|right]; by apply Is_true_true.
    + apply btree_elements_nodup.
  - intros g a. cbn. unfold holders. rewrite list_elem_of_filter, elem_of_btree_elements.
    split; [tauto|]. intros Hne. split; [done|]. destruct (decide (a ∈ dom g)) as [|Hd]; [done|].
    by apply look_none in Hd.
Qed.

#[export] Instance no_session : SessionPallet := {|
  Session := unit; queued_old _ := []; queued _ := []; upgrade_keys _ s := s;
|}.
#[export] Instance no_frame : FrameMigrations := {|
  remove_pallet _ r := r; Grandpa := unit; migrate_v4_to_v5 o := o; Treasury := unit;
  cleanup_proposals tg := tg; in_code_storage_version _ := 0;
|}.
#[export] Instance locks_codec : Codec (AccountId * list (LockIdentifier * Z)) := RefCodec.codec _.

(** Account 1 holds a rewards lock and another one, account 2 both locks and a reserve,
    account 3 was reaped and only its migration lock is left. *)
Definition staking_lock : LockIdentifier := pad 8 (bytes_of "staking ").
Definition three : accounts :=
  {[ acct 1 := mkView [(REWARDS_LOCK_ID, 4000); (staking_lock, 10)] [] 5000 0 4000 1 1 0;
     acct 2 := mkView [(PDEX_MIGRATION_LOCK_ID, 70); (REWARDS_LOCK_ID, 5)] [] 90 3 70 2 1 0;
     acct 3 := mkView [(PDEX_MIGRATION_LOCK_ID, 80)] [] 0 0 80 0 0 0 ]}.
Definition reward (n : Z) : RewardInfoForAccount :=
  mkRewardInfoForAccount n 0 false true REWARDS_LOCK_ID 1 1000 3.
Definition waiting : Upgrading :=
  mkUpgrading (mkLegacy 300000 373 {[0 := mkRewardInfo 1 1000 25]}
    {[(0, acct 1) := reward 4000; (0, acct 2) := reward 5]} true {[acct 2 := 5; acct 3 := 6]} three)
    ∅ ∅ tt [] None tt tt.

Lemma upgrade_checks_accept_witness :
  locks_post_upgrade (locks_pre_upgrade waiting) (on_legacy clear_rewards_and_migration_locks waiting) = Ok tt.
Proof.
  apply (upgrade_checks_accept waiting).
  - vm_compute. discriminate.
  - apply (bool_decide_eq_true_1 (set_Forall _ _)). vm_compute. reflexivity.
  - apply (bool_decide_eq_true_1 (set_Forall _ _)). vm_compute. reflexivity.
Defined.
End ChecksExample.
