(* ===== verification/Policy.v ===== *)
(** * Runtime policy

    [runtimes/mainnet/src/lib.rs] and [constants.rs]: which calls the filters let
    through, what a proxy may do, which origins may govern and spend, the fees and
    periods, and the balances the runtime API reports. *)

From S2P Require Import Prelude Assets Types Bank Chain.

(** ** Constants: [constants::currency] and [constants::time] *)
Definition PDEX : Z := 1000000000000.
Definition UNITS : Z := PDEX.
Definition DOLLARS : Z := PDEX.
Definition CENTS : Z := DOLLARS / 100.
Definition MILLICENTS : Z := CENTS / 1000.
(** [deposit]; [None] when an operator of [u128] overflows, which panics *)
Definition u128_op (x : Z) : option Z := if x <=? u128_max then Some x else None.
Definition deposit (items bytes : Z) : option Z :=
  i ← u128_op (items * 15); i ← u128_op (i * CENTS);
  b ← u128_op (bytes * 6); b ← u128_op (b * CENTS);
  u128_op (i + b).

Definition MILLISECS_PER_BLOCK : Z := 12000.
Definition SECS_PER_BLOCK : Z := MILLISECS_PER_BLOCK / 1000.
Definition MINUTES : Z := 60 / SECS_PER_BLOCK.
Definition HOURS : Z := MINUTES * 60.
Definition DAYS : Z := HOURS * 24.

(** ** The pallets of the runtime, with their indices *)
Inductive Pallet : Type :=
| System | Utility | Babe | Timestamp | Authorship | Indices | Balances | TransactionPayment
| ElectionProviderMultiPhase | Staking | SessionP | Council | TechnicalCommittee | Elections
| TechnicalMembership | GrandpaP | TreasuryP | ImOnline | AuthorityDiscovery | Offences | Historical
| Identity | Recovery | Scheduler | Proxy | Multisig | Bounties | Democracy | Preimage | ChildBounties
| Assets | AssetConversion | AssetConversionTxPayment | Statement | PoolAssets | SkipFeelessPayment
| DelegatedStaking | SafeMode | TxPause | MultiBlockMigrations | Beefy | Mmr | MmrLeaf | Mixnet.
#[export] Instance Pallet_eq_dec : EqDecision Pallet.
Proof. solve_decision. Defined.

Definition pallet_index (p : Pallet) : Z :=
  match p with
  | System => 0 | Utility => 1 | Babe => 2 | Timestamp => 3 | Authorship => 4 | Indices => 5
  | Balances => 6 | TransactionPayment => 7 | ElectionProviderMultiPhase => 8 | Staking => 9
  | SessionP => 10 | Council => 11 | TechnicalCommittee => 12 | Elections => 13
  | TechnicalMembership => 14 | GrandpaP => 15 | TreasuryP => 16 | ImOnline => 18
  | AuthorityDiscovery => 19 | Offences => 20 | Historical => 21 | Identity => 22 | Recovery => 23
  | Scheduler => 24 | Proxy => 25 | Multisig => 26 | Bounties => 27 | Democracy => 30
  | Preimage => 31 | ChildBounties => 33 | Assets => 34 | AssetConversion => 46
  | AssetConversionTxPayment => 47 | Statement => 48 | PoolAssets => 51 | SkipFeelessPayment => 53
  | DelegatedStaking => 58 | SafeMode => 60 | TxPause => 61 | MultiBlockMigrations => 62
  | Beefy => 63 | Mmr => 64 | MmrLeaf => 65 | Mixnet => 66
  end.

(** A call: the pallet, the method, and its encoded arguments *)
Record RuntimeCall : Type := mkCall {
  call_pallet : Pallet;
  call_method : string;
  call_args : bytes;
}.

(** ** Call filters *)
(** [TxPauseWhitelistedCalls::contains], on the names of pallet and method *)
Definition tx_pause_whitelisted (full_name : bytes * bytes) : bool :=
  bool_decide (full_name.1 = bytes_of "Balances")
  && bool_decide (full_name.2 = bytes_of "transfer_keep_alive").

(** [SafeModeWhitelistedCalls::contains] *)
Definition safe_mode_whitelisted (c : RuntimeCall) : bool :=
  match call_pallet c with System | SafeMode | TxPause => true | _ => false end.

(** ** Proxies *)
Inductive ProxyType : Type := Any | NonTransfer | Governance | StakingProxy.
#[export] Instance ProxyType_eq_dec : EqDecision ProxyType.
Proof. solve_decision. Defined.
Definition ProxyType_default : ProxyType := Any.

(** [InstanceFilter<RuntimeCall>::filter] *)
Definition proxy_filter (t : ProxyType) (c : RuntimeCall) : bool :=
  match t with
  | Any => true
  | NonTransfer =>
      negb match call_pallet c with
           | Balances | Assets | PoolAssets | AssetConversion | Recovery => true
           | Indices => bool_decide (call_method c = "transfer"%string)
           | _ => false
           end
  | Governance =>
      match call_pallet c with
      | Council | TechnicalCommittee | Elections | TreasuryP => true
      | _ => false
      end
  | StakingProxy => match call_pallet c with Staking => true | _ => false end
  end.

Definition is_superset (x y : ProxyType) : bool :=
  if decide (x = y) then true
  else match x, y with
       | Any, _ => true
       | _, Any => false
       | NonTransfer, _ => true
       | _, _ => false
       end.

(** ** Origins *)
(** [pallet_collective]: a motion's approvals out of the members, or a single member *)
Class Collective := {
  CollectiveOrigin : Type;
  (** The approvals and the number of members behind the origin of a motion *)
  approvals : CollectiveOrigin → option (Z * Z);
  EnsureProportionAtLeast : Z → Z → CollectiveOrigin → bool;
  EnsureProportionMoreThan : Z → Z → CollectiveOrigin → bool;
  EnsureMember : CollectiveOrigin → option AccountId;
}.
Class CollectiveLaws `{Collective} : Prop := {
  at_least_spec a b o :
    EnsureProportionAtLeast a b o = true ↔ ∃ n m, approvals o = Some (n, m) ∧ a * m ≤ n * b;
  more_than_spec a b o :
    EnsureProportionMoreThan a b o = true ↔ ∃ n m, approvals o = Some (n, m) ∧ a * m < n * b;
}.

Section origins.
Context {CO : Collective}.

(** The origins that the runtime derives from its pallets *)
Inductive RuntimeOrigin : Type :=
| system_origin (o : Origin)
| council_origin (o : CollectiveOrigin)
| technical_origin (o : CollectiveOrigin).

Definition EnsureRoot (o : RuntimeOrigin) : bool :=
  match o with system_origin Root => true | _ => false end.
Definition EnsureSigned (o : RuntimeOrigin) : option AccountId :=
  match o with system_origin (Signed who) => Some who | _ => None end.
Definition council_at_least (n d : Z) (o : RuntimeOrigin) : bool :=
  match o with council_origin c => EnsureProportionAtLeast n d c | _ => false end.
Definition technical_at_least (n d : Z) (o : RuntimeOrigin) : bool :=
  match o with technical_origin c => EnsureProportionAtLeast n d c | _ => false end.

Definition EnsureRootOrHalfCouncil (o : RuntimeOrigin) : bool :=
  EnsureRoot o
  || match o with council_origin c => EnsureProportionMoreThan 1 2 c | _ => false end.

(** [pallet_treasury::Config::SpendOrigin]: the most that one spend may move *)
Definition CouncilSpendCap : Z := 50000 * PDEX.
Definition SpendOrigin (o : RuntimeOrigin) : option Z :=
  if EnsureRoot o then Some u128_max
  else if council_at_least 3 5 o then Some CouncilSpendCap else None.

(** [EnsureRootOrTreasury::try_origin]: the origin comes back when it is refused. *)
Definition TreasuryPalletId : bytes := bytes_of "py/trsry".
Definition ensure_root_or_treasury `{Crypto} (o : RuntimeOrigin) : AccountId + RuntimeOrigin :=
  match o with
  | system_origin Root => inl (into_account_truncating TreasuryPalletId)
  | system_origin (Signed caller) =>
      if bool_decide (caller = into_account_truncating TreasuryPalletId)
      then inl caller else inr (system_origin (Signed caller))
  | system_origin r => inr (system_origin r)
  | o => inr o
  end.

(** [AssetsCreateOrigin::try_origin] *)
Definition assets_create_origin (o : RuntimeOrigin) (asset_id : Z) : AccountId + RuntimeOrigin :=
  if asset_id =? 0 then inr o
  else match EnsureSigned o with Some who => inl who | None => inr o end.

(** The origins of [pallet_democracy::Config] *)
Definition ExternalOrigin (o : RuntimeOrigin) : bool := EnsureRoot o || council_at_least 1 2 o.
Definition ExternalMajorityOrigin (o : RuntimeOrigin) : bool := EnsureRoot o || council_at_least 1 2 o.
Definition ExternalDefaultOrigin (o : RuntimeOrigin) : bool := EnsureRoot o || council_at_least 1 1 o.
Definition SubmitOrigin (o : RuntimeOrigin) : option AccountId := EnsureSigned o.
Definition FastTrackOrigin (o : RuntimeOrigin) : bool := EnsureRoot o || technical_at_least 2 3 o.
Definition InstantOrigin (o : RuntimeOrigin) : bool := EnsureRoot o || technical_at_least 1 1 o.
Definition CancellationOrigin (o : RuntimeOrigin) : bool := EnsureRoot o || council_at_least 2 3 o.
Definition BlacklistOrigin (o : RuntimeOrigin) : bool := EnsureRoot o.
Definition CancelProposalOrigin (o : RuntimeOrigin) : bool := EnsureRoot o || technical_at_least 1 1 o.
Definition VetoOrigin (o : RuntimeOrigin) : option AccountId :=
  match o with technical_origin c => EnsureMember c | _ => None end.
End origins.

(** ** The filter on every call: [InsideBoth<SafeMode, TxPause>]

    The two pallets are not part of the repository: [is_entered] and [is_paused] are
    their state, and a whitelisted call is never paused. *)
Class CallFilters := {
  FilterState : Type;
  is_entered : FilterState → bool;
  is_paused : FilterState → bytes * bytes → bool;
  pallet_name : Pallet → bytes;
  (** [SafeMode::contains] and [TxPause::contains] with the runtime's whitelists *)
  safe_mode_contains : (RuntimeCall → bool) → FilterState → RuntimeCall → bool;
  tx_pause_contains : (bytes * bytes → bool) → FilterState → RuntimeCall → bool;
}.
Definition full_name `{CallFilters} (c : RuntimeCall) : bytes * bytes :=
  (pallet_name (call_pallet c), bytes_of (call_method c)).
Class CallFiltersLaws `{CallFilters} : Prop := {
  safe_mode_spec w f c :
    safe_mode_contains w f c = negb (is_entered f) || bool_decide (call_pallet c = SafeMode) || w c;
  tx_pause_spec w f c : tx_pause_contains w f c = w (full_name c) || negb (is_paused f (full_name c));
  pallet_name_inj p q : pallet_name p = pallet_name q → p = q;
  pallet_name_balances : pallet_name Balances = bytes_of "Balances";
}.
Definition BaseCallFilter `{CallFilters} (f : FilterState) (c : RuntimeCall) : bool :=
  safe_mode_contains safe_mode_whitelisted f c && tx_pause_contains tx_pause_whitelisted f c.

(** ** The period of locally signed transactions

    [create_signed_transaction]: half the next power of two of [BlockHashCount], and the
    block before the current one. *)
Definition BlockHashCount : Z := 2400.
Definition checked_next_power_of_two (w x : Z) : option Z :=
  let p := if x <=? 1 then 1 else 2 ^ Z.log2_up x in if p <=? umax w then Some p else None.
Definition signed_period (count : Z) : Z :=
  match checked_next_power_of_two 32 count with Some c => c / 2 | None => 2 end.
Definition signed_current_block (block_number : Z) : Z := sat_sub (saturated_into 64 block_number) 1.

(** ** [OffchainRandomBalancing::get], from the first four bytes of the seed *)
Definition MINER_MAX_ITERATIONS : Z := 10.
Definition random_balancing (seed : Z) : option (Z * Z) :=
  Some (if MINER_MAX_ITERATIONS =? 0 then 0 else seed mod sat_add 32 MINER_MAX_ITERATIONS 1, 0).

(** ** Weights of the voting calls

    [weights_with_staked_balance_read]: the calls that look up the staked balance cost a
    read more. *)
Record Weight : Type := mkWeight { ref_time : Z; proof_size : Z }.
Definition weight_add (a b : Weight) : Weight :=
  mkWeight (sat_add 64 (ref_time a) (ref_time b)) (sat_add 64 (proof_size a) (proof_size b)).
Definition staked_balance_read (db_read : Z) : Weight := weight_add (mkWeight db_read 0) (mkWeight 0 3892).
Definition with_staked_read (read : list string) (db_read : Z) (upstream : string → Weight) (call : string) :
    Weight :=
  if bool_decide (call ∈ read) then weight_add (upstream call) (staked_balance_read db_read) else upstream call.
Definition DemocracyWeights : Z → (string → Weight) → string → Weight :=
  with_staked_read ["vote_new"; "vote_existing"; "delegate"]%string.
Definition ElectionsWeights : Z → (string → Weight) → string → Weight :=
  with_staked_read ["vote_equal"; "vote_more"; "vote_less"]%string.

(** ** The runtime API [account_balances] *)
Definition POLKADEX_NATIVE_ASSET_ID : Z := 0.
Definition account_balances `{Currencies} (b : Bank) (assets : list Z) (account_id : AccountId) : list Z :=
  (λ asset, saturated_into 128
     (if negb (asset =? POLKADEX_NATIVE_ASSET_ID) then balance b (Asset asset) account_id
      else balance b Polkadex account_id)) <$> assets.

(** ** Properties *)

(** The runtime derives its calls and events from the pallets' indices. *)
Lemma pallet_index_inj p q : pallet_index p = pallet_index q → p = q.
Proof. destruct p, q; vm_compute; congruence. Qed.

(** The order on proxy types is exactly the inclusion of what they may call.  A proxy
    may hand out another proxy type when [is_superset] holds, and that is the case if and
    only if every call the other type may make is one this type may make; the order has
    a greatest element, the default. *)
Theorem proxy_superset_exact x y :
  (is_superset x y = true ↔ ∀ c, proxy_filter y c = true → proxy_filter x c = true)
  ∧ is_superset ProxyType_default x = true.
Proof.
  split; [|by destruct x]. split.
  - unfold is_superset. case_decide; [by subst|].
    destruct x, y; try done; intros _ [p m a]; destruct p; cbn; done.
  - intros H. pose proof (H (mkCall Balances "transfer" [])) as H1.
    pose proof (H (mkCall Staking "bond" [])) as H2. pose proof (H (mkCall Council "vote" [])) as H3.
    pose proof (H (mkCall Utility "batch" [])) as H4.
    destruct x, y; cbn in *; try done; first [discriminate (H1 eq_refl) | discriminate (H2 eq_refl)
      | discriminate (H3 eq_refl) | discriminate (H4 eq_refl)].
Qed.

Section origins_properties.
Context {CO : Collective} {COL : CollectiveLaws}.

(** Who may spend from the treasury, and how much at once: the root origin without a
    bound, and a motion of the council with at least three fifths of its members up to
    50,000 tokens.  Nobody else may. *)
Theorem spend_origin_cap o cap :
  SpendOrigin o = Some cap ↔
  (o = system_origin Root ∧ cap = u128_max)
  ∨ (∃ c n m, o = council_origin c ∧ approvals c = Some (n, m) ∧ 3 * m ≤ n * 5 ∧ cap = 50000 * 10 ^ 12).
Proof.
  unfold SpendOrigin. destruct o as [[]|c|c]; cbn; try naive_solver.
  destruct (EnsureProportionAtLeast 3 5 c) eqn:Hp.
  - apply at_least_spec in Hp as (n & m & Ha & Hle). split; [|naive_solver].
    intros [= <-]. right. by exists c, n, m.
  - split; [done|]. intros [[? _]|(c' & n & m & [= <-] & Ha & Hle & _)]; [done|].
    assert (EnsureProportionAtLeast 3 5 c = true) by (apply at_least_spec; eauto). congruence.
Qed.

(** A refused origin is handed back unchanged, so that another check can be tried. *)
Lemma refused_origin_returned `{Crypto} o asset r :
  (ensure_root_or_treasury o = inr r → r = o) ∧ (assets_create_origin o asset = inr r → r = o).
Proof.
  split.
  - unfold ensure_root_or_treasury. destruct o as [[]|c|c]; try case_bool_decide; naive_solver.
  - unfold assets_create_origin. destruct (asset =? 0); [naive_solver|].
    destruct (EnsureSigned o); naive_solver.
Qed.

(** Asset 0 cannot be created by an account. *)
Lemma asset_zero_reserved o who : assets_create_origin o 0 ≠ inl who.
Proof. done. Qed.
End origins_properties.

Section filter_properties.
Context {CF : CallFilters} {CFL : CallFiltersLaws}.

(** What the runtime's call filter lets through.  In safe mode only calls of the
    system, safe-mode and pause pallets pass, and each of them passes unless it is
    paused; outside of it every call passes unless it is paused, and keeping transfers
    alive cannot be paused. *)
Theorem base_filter_exact f c :
  BaseCallFilter f c = true ↔
  (is_entered f = true → call_pallet c = System ∨ call_pallet c = SafeMode ∨ call_pallet c = TxPause)
  ∧ (is_paused f (full_name c) = true → call_pallet c = Balances ∧ call_method c = "transfer_keep_alive"%string).
Proof.
  assert (tx_pause_whitelisted (full_name c) = true ↔
    call_pallet c = Balances ∧ call_method c = "transfer_keep_alive"%string) as Hw.
  { unfold tx_pause_whitelisted, full_name. cbn [fst snd].
    rewrite andb_true_iff, !bool_decide_eq_true, <- pallet_name_balances. split.
    - intros [Hp%pallet_name_inj Hm]. split; [done|].
      apply (f_equal String.string_of_list_byte) in Hm. unfold bytes_of in Hm.
      by rewrite !String.string_of_list_byte_of_string in Hm.
    - by intros [-> ->]. }
  assert (safe_mode_whitelisted c = true ↔
    call_pallet c = System ∨ call_pallet c = SafeMode ∨ call_pallet c = TxPause) as Hs
    by (unfold safe_mode_whitelisted; destruct (call_pallet c); naive_solver).
  unfold BaseCallFilter. rewrite safe_mode_spec, tx_pause_spec, andb_true_iff, !orb_true_iff, Hw, Hs,
    !negb_true_iff, bool_decide_eq_true.
  destruct (is_entered f), (is_paused f (full_name c)); naive_solver.
Qed.
End filter_properties.

(** The storage deposit is computed without overflow for all 32-bit counts. *)
Theorem deposit_total items bytes :
  is_u 32 items → is_u 32 bytes →
  deposit items bytes = Some (items * (15 * 10 ^ 10) + bytes * (6 * 10 ^ 10)).
Proof.
  unfold is_u, deposit, u128_op. cbv [umax u128_max]. intros Hi Hb. change CENTS with (10 ^ 10).
  repeat (rewrite (proj2 (Z.leb_le _ _)) by lia; cbn [mbind option_bind]). f_equal. lia.
Qed.

(** The period is a power of two below the number of block hashes that are kept, and the
    largest one unless the number is itself a power of two. *)
Lemma signed_period_spec count :
  2 ≤ count ≤ 2 ^ 31 → signed_period count < count ≤ 2 * signed_period count.
Proof.
  intros Hc. unfold signed_period, checked_next_power_of_two.
  rewrite (proj2 (Z.leb_gt count 1)) by lia.
  pose proof (Z.log2_up_spec count ltac:(lia)) as [H1 H2].
  assert (Z.log2_up count ≤ 31) by (apply Z.log2_up_le_pow2; lia).
  assert (0 < Z.log2_up count) by (apply Z.log2_up_pos; lia).
  assert (2 ^ Z.log2_up count ≤ 2 ^ 31) by (apply Z.pow_le_mono_r; lia).
  cbv [umax]. rewrite (proj2 (Z.leb_le _ _)) by lia.
  replace (2 ^ Z.log2_up count) with (2 * 2 ^ Z.pred (Z.log2_up count)) in *.
  - rewrite Z.mul_comm, Z.div_mul by lia. lia.
  - rewrite <- Z.pow_succ_r by lia. f_equal. lia.
Qed.

(** Balances are reported asset by asset, the native token under 0. *)
Lemma account_balances_native `{Currencies} b assets a i :
  assets !! i = Some 0 → account_balances b assets a !! i = Some (saturated_into 128 (balance b Polkadex a)).
Proof. intros Hi. unfold account_balances. by rewrite list_lookup_fmap, Hi. Qed.

(** ** Concrete origins and filters *)
Module PolicyExample.
Import RefCrypto.

#[export] Instance ref_collective : Collective := {|
  CollectiveOrigin := Z * Z;
  approvals := Some;
  EnsureProportionAtLeast a b o := a * o.2 <=? o.1 * b;
  EnsureProportionMoreThan a b o := a * o.2 <? o.1 * b;
  EnsureMember _ := None;
|}.
#[export] Instance ref_collective_laws : CollectiveLaws.
Proof.
  split; intros a b [n m]; cbn; rewrite ?Z.leb_le, ?Z.ltb_lt; naive_solver.
Qed.

(** Three of five members may spend, two of five may not. *)
Lemma spend_origin_example :
  SpendOrigin (council_origin (3, 5)) = Some (50000 * PDEX) ∧ SpendOrigin (council_origin (2, 5)) = None.
Proof. split; reflexivity. Qed.

Definition name_of (p : Pallet) : bytes :=
  if decide (p = Balances) then bytes_of "Balances" else le_bytes 2 (pallet_index p).
#[export] Instance ref_filters : CallFilters := {|
  FilterState := bool * list (bytes * bytes);
  is_entered f := f.1;
  is_paused f n := bool_decide (n ∈ f.2);
  pallet_name := name_of;
  safe_mode_contains w f c := negb f.1 || bool_decide (call_pallet c = SafeMode) || w c;
  tx_pause_contains w f c :=
    w (name_of (call_pallet c), bytes_of (call_method c))
    || negb (bool_decide ((name_of (call_pallet c), bytes_of (call_method c)) ∈ f.2));
|}.
#[export] Instance ref_filters_laws : CallFiltersLaws.
Proof.
  split; try done. intros p q. cbn. destruct p, q; vm_compute; try done; congruence.
Qed.

Lemma deposit_total_witness : deposit 2 0 = Some 300000000000.
Proof. apply (deposit_total 2 0); split; vm_compute; discriminate. Defined.
End PolicyExample.
