(* ===== verification/Conviction.v ===== *)
(** * Votes and their conviction

    The data types of the democracy pallet in [vendor/pallet-democracy/src]:
    [conviction.rs], [vote.rs], [types.rs] and [vote_threshold.rs].  The comparison of
    fractions by continued fractions is shown to terminate and to be exact. *)

From S2P Require Import Prelude Assets.

(** ** [conviction.rs] *)
Inductive Conviction : Type :=
| NoConviction | Locked1x | Locked2x | Locked3x | Locked4x | Locked5x | Locked6x.
#[export] Instance Conviction_eq_dec : EqDecision Conviction.
Proof. solve_decision. Defined.

Definition conviction_into_u8 (c : Conviction) : Z :=
  match c with
  | NoConviction => 0 | Locked1x => 1 | Locked2x => 2 | Locked3x => 3 | Locked4x => 4
  | Locked5x => 5 | Locked6x => 6
  end.
Definition conviction_try_from (i : Z) : option Conviction :=
  match i with
  | 0 => Some NoConviction | 1 => Some Locked1x | 2 => Some Locked2x | 3 => Some Locked3x
  | 4 => Some Locked4x | 5 => Some Locked5x | 6 => Some Locked6x | _ => None
  end.
Definition lock_periods (c : Conviction) : Z :=
  match c with
  | NoConviction => 0 | Locked1x => 1 | Locked2x => 2 | Locked3x => 4 | Locked4x => 8
  | Locked5x => 16 | Locked6x => 32
  end.

(** [Delegations] *)
Record Delegations : Type := mkDelegations { votes : Z; capital : Z }.
Definition no_delegations : Delegations := mkDelegations 0 0.
Definition delegations_add (a b : Delegations) : Delegations :=
  mkDelegations (sat_add 128 (votes a) (votes b)) (sat_add 128 (capital a) (capital b)).
Definition delegations_sub (a b : Delegations) : Delegations :=
  mkDelegations (sat_sub (votes a) (votes b)) (sat_sub (capital a) (capital b)).

(** [Conviction::votes] *)
Definition conviction_votes (c : Conviction) (cap : Z) : Delegations :=
  mkDelegations
    (match c with
     | NoConviction => cap / 10
     | x => default u128_max (checked_mul_u 128 cap (conviction_into_u8 x))
     end) cap.

(** ** [vote.rs] *)
Record Vote : Type := mkVote { aye : bool; conviction : Conviction }.

Definition vote_encode (v : Vote) : Z :=
  Z.lor (conviction_into_u8 (conviction v)) (if aye v then 128 else 0).
Definition vote_decode (b : Z) : option Vote :=
  c ← conviction_try_from (Z.land b 127); Some (mkVote (Z.land b 128 =? 128) c).

Inductive AccountVote : Type :=
| Standard (vote : Vote) (bal : Z)
| Split (ayes nays : Z).

Definition locked_if (v : AccountVote) (approved : bool) : option (Z * Z) :=
  match v with
  | Standard vote bal =>
      if bool_decide (aye vote = approved) then Some (lock_periods (conviction vote), bal) else None
  | Split _ _ => None
  end.
Definition vote_balance (v : AccountVote) : Z :=
  match v with Standard _ bal => bal | Split a n => sat_add 128 a n end.
Definition as_standard (v : AccountVote) : option bool :=
  match v with Standard vote _ => Some (aye vote) | Split _ _ => None end.

(** [PriorLock] *)
Record PriorLock : Type := mkPriorLock { until : Z; locked : Z }.
Definition no_prior : PriorLock := mkPriorLock 0 0.
Definition accumulate (p : PriorLock) (u amount : Z) : PriorLock :=
  mkPriorLock (Z.max (until p) u) (Z.max (locked p) amount).
Definition prior_rejig (p : PriorLock) (now : Z) : PriorLock :=
  if until p <=? now then no_prior else p.

(** [Voting] *)
Inductive Voting : Type :=
| Direct (vs : list (Z * AccountVote)) (delegations : Delegations) (prior : PriorLock)
| Delegating (bal : Z) (target : AccountId) (conv : Conviction) (delegations : Delegations)
    (prior : PriorLock).
Definition default_voting : Voting := Direct [] no_delegations no_prior.

Definition prior_of (v : Voting) : PriorLock :=
  match v with Direct _ _ p => p | Delegating _ _ _ _ p => p end.
Definition delegations_of (v : Voting) : Delegations :=
  match v with Direct _ d _ => d | Delegating _ _ _ d _ => d end.
Definition set_common (v : Voting) (d : Delegations) (p : PriorLock) : Voting :=
  match v with
  | Direct vs _ _ => Direct vs d p
  | Delegating b t c _ _ => Delegating b t c d p
  end.
Definition voting_rejig (v : Voting) (now : Z) : Voting :=
  set_common v (delegations_of v) (prior_rejig (prior_of v) now).
Definition locked_balance (v : Voting) : Z :=
  match v with
  | Direct vs _ p => foldl (λ a rv, Z.max a (vote_balance rv.2)) (locked p) vs
  | Delegating b _ _ _ p => Z.max b (locked p)
  end.

(** ** [types.rs]: [Tally] *)
Record Tally : Type := mkTally { ayes : Z; nays : Z; turnout : Z }.
Definition no_tally : Tally := mkTally 0 0 0.

Definition tally_add (t : Tally) (v : AccountVote) : option Tally :=
  match v with
  | Standard vote bal =>
      let d := conviction_votes (conviction vote) bal in
      turn ← checked_add_u 128 (turnout t) (capital d);
      if aye vote then a ← checked_add_u 128 (ayes t) (votes d); Some (mkTally a (nays t) turn)
      else n ← checked_add_u 128 (nays t) (votes d); Some (mkTally (ayes t) n turn)
  | Split a n =>
      let a := conviction_votes NoConviction a in
      let n := conviction_votes NoConviction n in
      turn ← checked_add_u 128 (turnout t) (capital a);
      turn ← checked_add_u 128 turn (capital n);
      a ← checked_add_u 128 (ayes t) (votes a);
      n ← checked_add_u 128 (nays t) (votes n);
      Some (mkTally a n turn)
  end.

Definition tally_remove (t : Tally) (v : AccountVote) : option Tally :=
  match v with
  | Standard vote bal =>
      let d := conviction_votes (conviction vote) bal in
      turn ← checked_sub_u (turnout t) (capital d);
      if aye vote then a ← checked_sub_u (ayes t) (votes d); Some (mkTally a (nays t) turn)
      else n ← checked_sub_u (nays t) (votes d); Some (mkTally (ayes t) n turn)
  | Split a n =>
      let a := conviction_votes NoConviction a in
      let n := conviction_votes NoConviction n in
      turn ← checked_sub_u (turnout t) (capital a);
      turn ← checked_sub_u turn (capital n);
      a ← checked_sub_u (ayes t) (votes a);
      n ← checked_sub_u (nays t) (votes n);
      Some (mkTally a n turn)
  end.

Definition tally_increase (t : Tally) (approve : bool) (d : Delegations) : Tally :=
  let turn := sat_add 128 (turnout t) (capital d) in
  if approve then mkTally (sat_add 128 (ayes t) (votes d)) (nays t) turn
  else mkTally (ayes t) (sat_add 128 (nays t) (votes d)) turn.
Definition tally_reduce (t : Tally) (approve : bool) (d : Delegations) : Tally :=
  let turn := sat_sub (turnout t) (capital d) in
  if approve then mkTally (sat_sub (ayes t) (votes d)) (nays t) turn
  else mkTally (ayes t) (sat_sub (nays t) (votes d)) turn.

(** ** [vote_threshold.rs] *)
Inductive VoteThreshold : Type := SuperMajorityApprove | SuperMajorityAgainst | SimpleMajority.
#[export] Instance VoteThreshold_eq_dec : EqDecision VoteThreshold.
Proof. solve_decision. Defined.

(** [compare_rationals]: a division by zero panics; [Err tt] when the fuel runs out *)
Fixpoint compare_rationals (fuel : nat) (n1 d1 n2 d2 : Z) : res unit bool :=
  match fuel with
  | O => Err tt
  | S fuel' =>
      if (d1 =? 0) || (d2 =? 0) then Panic else
      let q1 := n1 / d1 in
      let q2 := n2 / d2 in
      if q1 <? q2 then Ok true
      else if q2 <? q1 then Ok false
      else
        let r1 := n1 mod d1 in
        let r2 := n2 mod d2 in
        if r2 =? 0 then Ok false
        else if r1 =? 0 then Ok true
        else compare_rationals fuel' d2 r2 d1 r1
  end.

(** Two rounds halve a denominator, so two rounds per bit are enough. *)
Definition compare_fuel : nat := 257.

Definition approved (th : VoteThreshold) (t : Tally) (electorate : Z) : res unit bool :=
  let sqrt_voters := Z.sqrt (turnout t) in
  let sqrt_electorate := Z.sqrt electorate in
  if sqrt_voters =? 0 then Ok false
  else match th with
  | SuperMajorityApprove => compare_rationals compare_fuel (nays t) sqrt_voters (ayes t) sqrt_electorate
  | SuperMajorityAgainst => compare_rationals compare_fuel (nays t) sqrt_electorate (ayes t) sqrt_voters
  | SimpleMajority => Ok (nays t <? ayes t)
  end.

(** ** Properties *)

(** A vote is one byte, and every vote is read back. *)
Lemma vote_byte_roundtrip v : is_u 8 (vote_encode v) ∧ vote_decode (vote_encode v) = Some v.
Proof. destruct v as [[] []]; split; vm_compute; try split; try discriminate; reflexivity. Qed.

(** One round of the comparison keeps the question. *)
Lemma compare_round n1 d1 n2 d2 :
  0 < d1 → 0 < d2 → n1 / d1 = n2 / d2 →
  (n1 * d2 < n2 * d1 ↔ (n1 mod d1) * d2 < (n2 mod d2) * d1).
Proof.
  intros H1 H2 Hq. pose proof (Z.div_mod n1 d1 ltac:(lia)) as E1.
  pose proof (Z.div_mod n2 d2 ltac:(lia)) as E2. rewrite Hq in E1. nia.
Qed.

Lemma compare_quotients n1 d1 n2 d2 :
  0 < d1 → 0 < d2 → n1 / d1 < n2 / d2 → n1 * d2 < n2 * d1.
Proof.
  intros H1 H2 Hq. pose proof (Z.div_mod n1 d1 ltac:(lia)). pose proof (Z.div_mod n2 d2 ltac:(lia)).
  pose proof (Z.mod_pos_bound n1 d1 H1). pose proof (Z.mod_pos_bound n2 d2 H2).
  assert (n1 < (n1 / d1 + 1) * d1) by nia. assert ((n1 / d1 + 1) * d1 * d2 ≤ (n2 / d2) * d1 * d2) by nia.
  nia.
Qed.

Lemma compare_one fuel n1 d1 n2 d2 :
  0 < d1 → 0 < d2 →
  compare_rationals (S fuel) n1 d1 n2 d2 = Ok (n1 * d2 <? n2 * d1)
  ∨ (0 < n1 mod d1 ∧ 0 < n2 mod d2
     ∧ compare_rationals (S fuel) n1 d1 n2 d2 = compare_rationals fuel d2 (n2 mod d2) d1 (n1 mod d1)
     ∧ (n1 * d2 <? n2 * d1) = (d2 * (n1 mod d1) <? d1 * (n2 mod d2))).
Proof.
  intros H1 H2. cbn [compare_rationals].
  destruct (Z.eqb_spec d1 0), (Z.eqb_spec d2 0); try lia. cbn [orb].
  pose proof (Z.mod_pos_bound n1 d1 H1). pose proof (Z.mod_pos_bound n2 d2 H2).
  destruct (Z.ltb_spec (n1 / d1) (n2 / d2)) as [Hlt|Hge].
  { left. f_equal. symmetry. apply Z.ltb_lt. by apply compare_quotients. }
  destruct (Z.ltb_spec (n2 / d2) (n1 / d1)) as [Hlt|Hge'].
  { left. f_equal. symmetry. apply Z.ltb_ge. apply compare_quotients in Hlt; lia. }
  pose proof (compare_round n1 d1 n2 d2 H1 H2 ltac:(lia)) as Hr.
  destruct (Z.eqb_spec (n2 mod d2) 0) as [Hz|Hz].
  { left. f_equal. symmetry. apply Z.ltb_ge. rewrite Hz in Hr. nia. }
  destruct (Z.eqb_spec (n1 mod d1) 0) as [Hz'|Hz'].
  { left. f_equal. symmetry. apply Z.ltb_lt. rewrite Hz' in Hr. nia. }
  right. split_and!; [lia..|done|]. apply eq_iff_eq_true. rewrite !Z.ltb_lt. rewrite Hr. lia.
Qed.

Lemma mod_halves a b : 0 < b → b ≤ a → 2 * (a mod b) < a.
Proof.
  intros Hb Hle. pose proof (Z.mod_pos_bound a b Hb). pose proof (Z.div_mod a b ltac:(lia)).
  assert (1 ≤ a / b) by (apply Z.div_le_lower_bound; lia). nia.
Qed.

(** With two rounds per bit of the first denominator the comparison returns the answer. *)
Lemma compare_exact (k : nat) fuel n1 d1 n2 d2 :
  (2 * k < fuel)%nat → 0 < d1 < 2 ^ Z.of_nat k → 0 < d2 →
  compare_rationals fuel n1 d1 n2 d2 = Ok (n1 * d2 <? n2 * d1).
Proof.
  revert fuel n1 d1 n2 d2. induction k as [|k IH]; intros fuel n1 d1 n2 d2 Hf H1 H2.
  { change (2 ^ Z.of_nat 0) with 1 in H1. lia. }
  destruct fuel as [|[|fuel]]; [lia..|].
  destruct (compare_one (S fuel) n1 d1 n2 d2) as [->|(Hr1 & Hr2 & -> & ->)]; [lia..|done|].
  destruct (compare_one fuel d2 (n2 mod d2) d1 (n1 mod d1)) as [->|(Hr3 & Hr4 & -> & ->)];
    [done..|].
  assert (d1 mod (n1 mod d1) < 2 ^ Z.of_nat k).
  { pose proof (Z.mod_pos_bound n1 d1 ltac:(lia)). pose proof (mod_halves d1 (n1 mod d1) Hr1 ltac:(lia)).
    rewrite Nat2Z.inj_succ, Z.pow_succ_r in H1 by lia. lia. }
  rewrite IH by lia. reflexivity.
Qed.

(** Comparing two fractions without multiplying them terminates and is exact.  For
    denominators of at most 128 bits the loop of continued fractions returns within 257
    rounds, and it returns whether [n1 / d1 < n2 / d2]. *)
Theorem compare_rationals_exact n1 d1 n2 d2 :
  0 < d1 ≤ u128_max → 0 < d2 →
  compare_rationals compare_fuel n1 d1 n2 d2 = Ok (n1 * d2 <? n2 * d1).
Proof.
  intros H1 H2. apply (compare_exact 128); [unfold compare_fuel; lia| |done].
  unfold u128_max, umax in H1. change (Z.of_nat 128) with 128. lia.
Qed.

(** What the three thresholds ask for: turnout, and more ayes than nays after weighing
    them with the square roots of the turnout and of the electorate *)
Definition passes (th : VoteThreshold) (t : Tally) (electorate : Z) : bool :=
  negb (turnout t =? 0)
  && match th with
     | SuperMajorityApprove => nays t * Z.sqrt electorate <? ayes t * Z.sqrt (turnout t)
     | SuperMajorityAgainst => nays t * Z.sqrt (turnout t) <? ayes t * Z.sqrt electorate
     | SimpleMajority => nays t <? ayes t
     end.

(** A referendum is decided as its threshold says, for all tallies and issuances. *)
Lemma approved_passes th t electorate :
  0 ≤ turnout t ≤ u128_max → 0 < electorate ≤ u128_max →
  approved th t electorate = Ok (passes th t electorate).
Proof.
  intros Ht He. unfold approved, passes.
  assert (Z.sqrt (turnout t) = 0 ↔ turnout t = 0) as Hz.
  { split; [|by intros ->]. intros H0. destruct (Z.sqrt_spec (turnout t)) as [_ H]; [lia|].
    rewrite H0 in H. lia. }
  assert (0 < Z.sqrt electorate) by (apply Z.sqrt_pos; lia).
  pose proof (Z.sqrt_nonneg (turnout t)).
  pose proof (Z.sqrt_le_lin (turnout t) ltac:(lia)). pose proof (Z.sqrt_le_lin electorate ltac:(lia)).
  destruct (Z.eqb_spec (Z.sqrt (turnout t)) 0) as [Hs0|Hs0].
  { rewrite (proj2 (Z.eqb_eq (turnout t) 0)) by tauto. done. }
  rewrite (proj2 (Z.eqb_neq (turnout t) 0)) by tauto. cbn [negb andb].
  destruct th; [..|done]; apply (compare_exact 128);
    try (unfold compare_fuel; lia); unfold u128_max, umax in *; change (Z.of_nat 128) with 128; lia.
Qed.

(** The wider the support a threshold asks for, the fewer tallies pass: with a turnout
    below the electorate, approval by super-majority implies a simple majority, which
    implies approval unless a super-majority is against. *)
Lemma thresholds_ordered t electorate :
  0 ≤ ayes t → 0 ≤ nays t → 0 < turnout t ≤ electorate → electorate ≤ u128_max →
  (approved SuperMajorityApprove t electorate = Ok true → approved SimpleMajority t electorate = Ok true)
  ∧ (approved SimpleMajority t electorate = Ok true → approved SuperMajorityAgainst t electorate = Ok true).
Proof.
  intros Ha Hn Ht He. pose proof (Z.sqrt_le_mono (turnout t) electorate ltac:(lia)).
  assert (0 < Z.sqrt (turnout t)) by (apply Z.sqrt_pos; lia).
  assert (approved SuperMajorityApprove t electorate = Ok (nays t * Z.sqrt electorate <? ayes t * Z.sqrt (turnout t))
    ∧ approved SuperMajorityAgainst t electorate = Ok (nays t * Z.sqrt (turnout t) <? ayes t * Z.sqrt electorate)
    ∧ approved SimpleMajority t electorate = Ok (nays t <? ayes t)) as (-> & -> & ->).
  { unfold approved. rewrite (proj2 (Z.eqb_neq (Z.sqrt (turnout t)) 0)) by lia.
    pose proof (Z.sqrt_le_lin electorate ltac:(lia)).
    split_and!; [..|done]; apply (compare_exact 128);
      try (unfold compare_fuel; lia); unfold u128_max, umax in *; change (Z.of_nat 128) with 128; lia. }
  split; intros [= Hlt%Z.ltb_lt]; do 2 f_equal; apply Z.ltb_lt; nia.
Qed.

Module ConvictionExample.
Lemma compare_rationals_exact_witness : compare_rationals compare_fuel 22 7 355 113 = Ok false.
Proof. apply (compare_rationals_exact 22 7 355 113); [split; [lia|vm_compute; discriminate]|lia]. Defined.
End ConvictionExample.
