(* ===== verification/Democracy.v ===== *)
(** * Democracy

    The democracy pallet as this repository keeps it, [vendor/pallet-democracy/src/lib.rs],
    where a vote may use the free balance and the balance held for staking, with the
    periods and origins of [runtimes/mainnet/src/lib.rs].  [democracy_call] is every
    dispatchable, [begin_block] the hook at the start of a block. *)

From S2P Require Import Prelude Assets Types Bank Chain Policy Conviction.

(** ** Packages outside the repository *)
(** [pallet_balances] as far as the pallet uses it, and the staked balance *)
Class VotingCurrency := {
  Wallet : Type;
  WalletError : Type;
  w_free : Wallet → AccountId → Z;
  (** [pallet_staking::asset::staked]; the runtime's [StakedBalance] *)
  w_staked : Wallet → AccountId → Z;
  w_issuance : Wallet → Z;
  (** The amount of the lock [DEMOCRACY_ID], zero without one *)
  w_lock : Wallet → AccountId → Z;
  extend_lock : AccountId → Z → Wallet → Wallet;
  set_vote_lock : AccountId → Z → Wallet → Wallet;
  remove_vote_lock : AccountId → Wallet → Wallet;
  w_reserve : AccountId → Z → M Wallet WalletError unit;
  w_unreserve : AccountId → Z → Wallet → Wallet;
  (** [T::Slash::on_unbalanced(slash_reserved(..).0)] *)
  w_slash_reserved : AccountId → Z → Wallet → Wallet;
}.
Class VotingCurrencyLaws `{VotingCurrency} : Prop := {
  extend_lock_spec w a n b :
    w_lock (extend_lock a n w) b = if decide (b = a) then Z.max (w_lock w a) n else w_lock w b;
  set_vote_lock_spec w a n b : n ≠ 0 →
    w_lock (set_vote_lock a n w) b = if decide (b = a) then n else w_lock w b;
  remove_vote_lock_spec w a b :
    w_lock (remove_vote_lock a w) b = if decide (b = a) then 0 else w_lock w b;
  reserve_lock w a n r w' b : w_reserve a n w = (r, w') → w_lock w' b = w_lock w b;
  unreserve_lock w a n b : w_lock (w_unreserve a n w) b = w_lock w b;
  slash_lock w a n b : w_lock (w_slash_reserved a n w) b = w_lock w b;
  unreserve_issuance w a n : w_issuance (w_unreserve a n w) = w_issuance w;
}.

(** [BoundedCallOf], the scheduler, and the preimage store *)
Class Proposals := {
  Proposal : Type;
  proposal_hash : Proposal → H256;
  Schedule : Type;
  (** [schedule_named((DEMOCRACY_ID, index), At(when), .., Root, proposal)] *)
  schedule_named : Z → Z → Proposal → Schedule → bool * Schedule;
  (** [T::Preimages::len(&hash).is_some()] *)
  preimage_exists : Schedule → H256 → bool;
}.

(** ** [parameter_types!] of the runtime *)
Definition LaunchPeriod : Z := 15 * DAYS.
Definition VotingPeriod : Z := 15 * DAYS.
Definition FastTrackVotingPeriod : Z := 3 * HOURS.
Definition MinimumDeposit : Z := 100 * PDEX.
Definition EnactmentPeriod : Z := 30 * DAYS.
Definition VoteLockingPeriod : Z := 30 * DAYS.
Definition CooloffPeriod : Z := 28 * DAYS.
Definition InstantAllowed : bool := true.
Definition MaxVotes : nat := 100.
Definition MaxProposals : nat := 100.
Definition MaxDeposits : nat := 100.
Definition MaxBlacklisted : nat := 100.

(** [MetadataOwner] *)
Inductive MetadataOwner : Type :=
| OwnerExternal
| OwnerProposal (index : Z)
| OwnerReferendum (index : Z).
#[export] Instance MetadataOwner_eq_dec : EqDecision MetadataOwner.
Proof. solve_decision. Defined.
#[export] Instance MetadataOwner_countable : Countable MetadataOwner :=
  inj_countable'
    (λ o, match o with OwnerExternal => None | OwnerProposal i => Some (inl i) | OwnerReferendum i => Some (inr i) end)
    (λ s, match s with None => OwnerExternal | Some (inl i) => OwnerProposal i | Some (inr i) => OwnerReferendum i end)
    (λ o, match o with OwnerExternal => eq_refl | OwnerProposal i => eq_refl | OwnerReferendum i => eq_refl end).

Inductive DemError `{VotingCurrency} : Type :=
| DemBadOrigin | ValueLow | ProposalMissing | AlreadyCanceled | DuplicateProposal | ProposalBlacklisted
| NotSimpleMajority | InvalidHash | NoProposal | AlreadyVetoed | ReferendumInvalid | NoneWaiting
| NotVoter | NoPermission | AlreadyDelegating | InsufficientFunds | NotDelegating | VotesExist
| InstantNotAllowed | Nonsense | MaxVotesReached | TooMany | VotingPeriodLow | PreimageNotExist
| Underflow | Overflow | DemCurrency (e : WalletError).

Inductive UnvoteScope : Type := AnyScope | OnlyExpired.

Section democracy.
Context {VC : VotingCurrency} {PR : Proposals} {CO : Collective}.

(** [ReferendumStatus] and [ReferendumInfo] *)
Record ReferendumStatus : Type := mkStatus {
  r_end : Z;
  r_proposal : Proposal;
  r_threshold : VoteThreshold;
  r_delay : Z;
  r_tally : Tally;
}.
#[export] Instance eta_ReferendumStatus : Eta ReferendumStatus := λ r, {|
  r_end := r_end r; r_proposal := r_proposal r; r_threshold := r_threshold r; r_delay := r_delay r;
  r_tally := r_tally r;
|}.
Inductive ReferendumInfo : Type :=
| Ongoing (s : ReferendumStatus)
| Finished (approved : bool) (fin : Z).

(** The storage of the pallet, the block number, the balances and the scheduler *)
Record Dem : Type := mkDem {
  d_block : Z;
  PublicPropCount : Z;
  PublicProps : list (Z * Proposal * AccountId);
  DepositOf : gmap Z (list AccountId * Z);
  ReferendumCount : Z;
  LowestUnbaked : Z;
  ReferendumInfoOf : gmap Z ReferendumInfo;
  VotingOf : gmap AccountId Voting;
  LastTabledWasExternal : bool;
  NextExternal : option (Proposal * VoteThreshold);
  Blacklist : gmap H256 (Z * list AccountId);
  Cancellations : gset H256;
  MetadataOf : gmap MetadataOwner H256;
  d_wallet : Wallet;
  d_schedule : Schedule;
}.
#[export] Instance eta_Dem : Eta Dem := λ r, {|
  d_block := d_block r; PublicPropCount := PublicPropCount r; PublicProps := PublicProps r;
  DepositOf := DepositOf r; ReferendumCount := ReferendumCount r; LowestUnbaked := LowestUnbaked r;
  ReferendumInfoOf := ReferendumInfoOf r; VotingOf := VotingOf r;
  LastTabledWasExternal := LastTabledWasExternal r; NextExternal := NextExternal r;
  Blacklist := Blacklist r; Cancellations := Cancellations r; MetadataOf := MetadataOf r;
  d_wallet := d_wallet r; d_schedule := d_schedule r;
|}.
Definition DCall (A : Type) : Type := M Dem DemError A.

Definition voting_of (s : Dem) (who : AccountId) : Voting := default default_voting (VotingOf s !! who).
Definition put_voting (who : AccountId) (v : Voting) : DCall unit :=
  modify (λ s, s <| VotingOf ::= <[who := v]> |>).
Definition put_referendum (i : Z) (info : ReferendumInfo) : DCall unit :=
  modify (λ s, s <| ReferendumInfoOf ::= <[i := info]> |>).
Definition on_wallet (f : Wallet → Wallet) : DCall unit := modify (λ s, s <| d_wallet ::= f |>).

(** ** Referenda *)
Definition referendum_status (i : Z) : DCall ReferendumStatus :=
  s ← get_state;
  info ← ok_or (ReferendumInfoOf s !! i) ReferendumInvalid;
  match info with Ongoing st => mret st | Finished _ _ => fail ReferendumInvalid end.

Definition inject_referendum (fin : Z) (p : Proposal) (th : VoteThreshold) (delay : Z) : DCall Z :=
  s ← get_state;
  let ref_index := ReferendumCount s in
  n ← lift (unwrap (checked_add_u 32 ref_index 1));
  modify (λ s, s <| ReferendumCount := n |>) ;;
  put_referendum ref_index (Ongoing (mkStatus fin p th delay no_tally)) ;;
  mret ref_index.

Definition clear_metadata (o : MetadataOwner) : DCall unit := modify (λ s, s <| MetadataOf ::= delete o |>).
Definition transfer_metadata (o o' : MetadataOwner) : DCall unit :=
  modify (λ s, match MetadataOf s !! o with
               | Some h => s <| MetadataOf ::= λ m, <[o' := h]> (delete o m) |>
               | None => s
               end).
Definition internal_cancel_referendum (i : Z) : DCall unit :=
  modify (λ s, s <| ReferendumInfoOf ::= delete i |>) ;; clear_metadata (OwnerReferendum i).

(** ** Votes *)
(** [binary_search_by_key] on the votes, which are sorted by referendum: where the vote is
    or would be inserted, and the vote *)
Fixpoint position (r : Z) (l : list (Z * AccountVote)) : nat * option AccountVote :=
  match l with
  | [] => (0%nat, None)
  | (k, v) :: l' =>
      if k <? r then let '(i, o) := position r l' in (S i, o)
      else (0%nat, if k =? r then Some v else None)
  end.

Definition voting_balance (s : Dem) (who : AccountId) : Z :=
  sat_add 128 (w_free (d_wallet s) who) (w_staked (d_wallet s) who).

(** Takes a vote, with what was delegated to the voter, out of a tally *)
Definition withdraw_vote (t : Tally) (v : AccountVote) (d : Delegations) : option Tally :=
  t ← tally_remove t v;
  Some (match as_standard v with Some approve => tally_reduce t approve d | None => t end).
Definition cast_vote (t : Tally) (v : AccountVote) (d : Delegations) : option Tally :=
  t ← tally_add t v;
  Some (match as_standard v with Some approve => tally_increase t approve d | None => t end).

Definition try_vote (who : AccountId) (ref_index : Z) (vote : AccountVote) : DCall unit :=
  status ← referendum_status ref_index;
  s ← get_state;
  ensure (vote_balance vote <=? voting_balance s who) InsufficientFunds ;;
  match voting_of s who with
  | Direct vs d prior =>
      vt ← (match position ref_index vs with
            | (i, Some old) =>
                t ← ok_or (withdraw_vote (r_tally status) old d) Underflow;
                mret (<[i := (ref_index, vote)]> vs, t)
            | (i, None) =>
                ensure (length vs <? MaxVotes)%nat MaxVotesReached ;;
                mret (take i vs ++ (ref_index, vote) :: drop i vs, r_tally status)
            end);
      t ← ok_or (cast_vote vt.2 vote d) Overflow;
      put_voting who (Direct vt.1 d prior) ;;
      on_wallet (extend_lock who (vote_balance vote)) ;;
      put_referendum ref_index (Ongoing (status <| r_tally := t |>))
  | Delegating _ _ _ _ _ => fail AlreadyDelegating
  end.

Definition unlock_block (start periods : Z) : Z :=
  sat_add 32 start (sat_mul 32 VoteLockingPeriod periods).

Definition try_remove_vote (who : AccountId) (ref_index : Z) (scope : UnvoteScope) : DCall unit :=
  s ← get_state;
  match voting_of s who with
  | Direct vs d prior =>
      match position ref_index vs with
      | (i, Some v) =>
          prior ← (match ReferendumInfoOf s !! ref_index with
                   | Some (Ongoing status) =>
                       ensure (match scope with AnyScope => true | OnlyExpired => false end) NoPermission ;;
                       t ← ok_or (withdraw_vote (r_tally status) v d) Underflow;
                       put_referendum ref_index (Ongoing (status <| r_tally := t |>)) ;;
                       mret prior
                   | Some (Finished approved fin) =>
                       match locked_if v approved with
                       | Some (periods, bal) =>
                           let unlock_at := unlock_block fin periods in
                           if d_block s <? unlock_at then
                             ensure (match scope with AnyScope => true | OnlyExpired => false end) NoPermission ;;
                             mret (accumulate prior unlock_at bal)
                           else mret prior
                       | None => mret prior
                       end
                   | None => mret prior
                   end);
          put_voting who (Direct (delete i vs) d prior)
      | (_, None) => fail NotVoter
      end
  | Delegating _ _ _ _ _ => put_voting who (voting_of s who)
  end.

(** ** Delegation *)
Definition retally (f : Tally → bool → Delegations → Tally) (amount : Delegations) (rv : Z * AccountVote) :
    DCall unit :=
  match rv.2 with
  | Standard vote _ =>
      modify (λ s, match ReferendumInfoOf s !! rv.1 with
                   | Some (Ongoing st) =>
                       s <| ReferendumInfoOf ::= <[rv.1 := Ongoing (st <| r_tally := f (r_tally st) (aye vote) amount |>)]> |>
                   | _ => s
                   end)
  | Split _ _ => mret tt
  end.

Definition upstream (g : Delegations → Delegations → Delegations) (f : Tally → bool → Delegations → Tally)
    (who : AccountId) (amount : Delegations) : DCall Z :=
  s ← get_state;
  match voting_of s who with
  | Delegating b t c d prior => put_voting who (Delegating b t c (g d amount) prior) ;; mret 1
  | Direct vs d prior =>
      for_each vs (retally f amount) ;;
      put_voting who (Direct vs (g d amount) prior) ;;
      mret (wrap 32 (Z.of_nat (length vs)))
  end.
Definition increase_upstream_delegation := upstream delegations_add tally_increase.
Definition reduce_upstream_delegation := upstream delegations_sub tally_reduce.

Definition try_delegate (who target : AccountId) (conv : Conviction) (bal : Z) : DCall Z :=
  ensure (bool_decide (who ≠ target)) Nonsense ;;
  s ← get_state;
  ensure (bal <=? voting_balance s who) InsufficientFunds ;;
  dp ← (match voting_of s who with
        | Delegating b t c d prior =>
            reduce_upstream_delegation t (conviction_votes c b) ;;
            mret (d, accumulate prior (unlock_block (d_block s) (lock_periods c)) b)
        | Direct vs d prior =>
            ensure (match vs with [] => true | _ => false end) VotesExist ;;
            mret (d, prior)
        end);
  n ← increase_upstream_delegation target (conviction_votes conv bal);
  on_wallet (extend_lock who bal) ;;
  put_voting who (Delegating bal target conv dp.1 dp.2) ;;
  mret n.

Definition try_undelegate (who : AccountId) : DCall Z :=
  s ← get_state;
  match voting_of s who with
  | Delegating b t c d prior =>
      n ← reduce_upstream_delegation t (conviction_votes c b);
      put_voting who (Direct [] d (accumulate prior (unlock_block (d_block s) (lock_periods c)) b)) ;;
      mret n
  | Direct _ _ _ => fail NotDelegating
  end.

Definition update_lock (who : AccountId) : DCall unit :=
  s ← get_state;
  let v := voting_rejig (voting_of s who) (d_block s) in
  put_voting who v ;;
  let lock_needed := locked_balance v in
  on_wallet (if lock_needed =? 0 then remove_vote_lock who else set_vote_lock who lock_needed).

(** ** Tabling and deciding referenda *)
Definition backing_for (s : Dem) (i : Z) : option Z :=
  (λ ld, sat_mul 128 ld.2 (wrap 32 (Z.of_nat (length ld.1)))) <$> DepositOf s !! i.

(** [iter().enumerate().max_by_key(..)]: the last of the greatest *)
Fixpoint max_by_key {A} (key : A → Z) (i : nat) (l : list A) (best : option (nat * A)) : option (nat * A) :=
  match l with
  | [] => best
  | x :: l' =>
      max_by_key key (S i) l'
        (match best with
         | Some (j, y) => if key y <=? key x then Some (i, x) else best
         | None => Some (i, x)
         end)
  end.

(** [swap_remove(i)]: the last element takes the place *)
Definition swap_remove {A} (i : nat) (l : list A) : list A :=
  match last l with
  | Some x => take (length l - 1) (<[i := x]> l)
  | None => l
  end.

Definition launch_external (now : Z) : DCall unit :=
  s ← get_state;
  match NextExternal s with
  | Some (p, th) =>
      modify (λ s, s <| NextExternal := None |> <| LastTabledWasExternal := true |>) ;;
      i ← inject_referendum (sat_add 32 now VotingPeriod) p th EnactmentPeriod;
      transfer_metadata OwnerExternal (OwnerReferendum i)
  | None => fail NoneWaiting
  end.

Definition launch_public (now : Z) : DCall unit :=
  s ← get_state;
  match max_by_key (λ x, default 0 (backing_for s x.1.1)) 0 (PublicProps s) None with
  | Some (i, (prop_index, p, _)) =>
      modify (λ s, s <| PublicProps ::= swap_remove i |>) ;;
      match DepositOf s !! prop_index with
      | Some (depositors, amount) =>
          modify (λ s, s <| DepositOf ::= delete prop_index |>) ;;
          for_each depositors (λ d, on_wallet (w_unreserve d amount)) ;;
          i ← inject_referendum (sat_add 32 now VotingPeriod) p SuperMajorityApprove EnactmentPeriod;
          transfer_metadata (OwnerProposal prop_index) (OwnerReferendum i)
      | None => mret tt
      end
  | None => fail NoneWaiting
  end.

(** [m.or_else(|_| m')] *)
Definition or_else {A} (m m' : DCall A) : DCall A := λ s,
  match m s with (Err _, s') => m' s' | r => r end.

Definition launch_next (now : Z) : DCall unit :=
  s ← get_state;
  let external := LastTabledWasExternal s in
  modify (λ s, s <| LastTabledWasExternal := false |>) ;;
  map_err (λ _, NoneWaiting)
    (if external then or_else (launch_public now) (launch_external now)
     else or_else (launch_external now) (launch_public now)).

Definition bake_referendum (now index : Z) (st : ReferendumStatus) : DCall bool :=
  s ← get_state;
  match approved (r_threshold st) (r_tally st) (w_issuance (d_wallet s)) with
  | Ok true =>
      modify (λ s, s <| d_schedule ::= λ sch,
        (schedule_named index (sat_add 32 now (Z.max (r_delay st) 1)) (r_proposal st) sch).2 |>) ;;
      mret true
  | Ok false => mret false
  | _ => panic
  end.

(** [maturing_referenda_at_inner]: [n] indices from [i] on *)
Fixpoint maturing (infos : gmap Z ReferendumInfo) (now i : Z) (n : nat) : list (Z * ReferendumStatus) :=
  match n with
  | O => []
  | S n' =>
      match infos !! i with
      | Some (Ongoing st) =>
          if r_end st =? now then (i, st) :: maturing infos now (i + 1) n' else maturing infos now (i + 1) n'
      | _ => maturing infos now (i + 1) n'
      end
  end.

(** The loop that moves [LowestUnbaked], from [i] over at most [n] indices *)
Fixpoint skip_baked (infos : gmap Z ReferendumInfo) (i : Z) (n : nat) : Z :=
  match n with
  | O => i
  | S n' =>
      match infos !! i with
      | Some (Ongoing _) => i
      | _ => skip_baked infos (i + 1) n'
      end
  end.

Definition begin_block (now : Z) : DCall unit :=
  s ← get_state;
  let next := LowestUnbaked s in
  let last := ReferendumCount s in
  (if now mod LaunchPeriod =? 0 then swallow (launch_next now) else mret tt) ;;
  s ← get_state;
  for_each (maturing (ReferendumInfoOf s) now next (Z.to_nat (last - next))) (λ it,
    ok ← bake_referendum now it.1 it.2;
    put_referendum it.1 (Finished ok now)) ;;
  modify (λ s, s <| LowestUnbaked ::= λ i, skip_baked (ReferendumInfoOf s) i (Z.to_nat (last - i)) |>).

(** ** Dispatchables *)
Definition dem_ensure (b : bool) : DCall unit := ensure b DemBadOrigin.
Definition dem_signed (o : RuntimeOrigin) : DCall AccountId := ok_or (EnsureSigned o) DemBadOrigin.

Definition wallet_call (m : M Wallet WalletError unit) : DCall unit := λ s,
  match m (d_wallet s) with
  | (Ok u, w) => (Ok u, s <| d_wallet := w |>)
  | (Err e, w) => (Err (DemCurrency e), s <| d_wallet := w |>)
  | (Panic, w) => (Panic, s <| d_wallet := w |>)
  end.

Definition not_blacklisted (p : Proposal) : DCall unit :=
  s ← get_state;
  match Blacklist s !! proposal_hash p with
  | Some (u, _) => ensure (u <=? d_block s) ProposalBlacklisted
  | None => mret tt
  end.

Definition propose (o : RuntimeOrigin) (p : Proposal) (value : Z) : DCall unit :=
  who ← ok_or (SubmitOrigin o) DemBadOrigin;
  ensure (MinimumDeposit <=? value) ValueLow ;;
  s ← get_state;
  let index := PublicPropCount s in
  ensure (length (PublicProps s) <? MaxProposals)%nat TooMany ;;
  not_blacklisted p ;;
  wallet_call (w_reserve who value) ;;
  n ← lift (unwrap (checked_add_u 32 index 1));
  modify (λ s, s <| DepositOf ::= <[index := ([who], value)]> |> <| PublicPropCount := n |>
                 <| PublicProps ::= λ l, l ++ [(index, p, who)] |>).

Definition second (o : RuntimeOrigin) (proposal : Z) : DCall unit :=
  who ← dem_signed o;
  s ← get_state;
  ld ← ok_or (DepositOf s !! proposal) ProposalMissing;
  ensure (length ld.1 <? MaxDeposits)%nat TooMany ;;
  wallet_call (w_reserve who ld.2) ;;
  modify (λ s, s <| DepositOf ::= <[proposal := (ld.1 ++ [who], ld.2)]> |>).

Definition emergency_cancel (o : RuntimeOrigin) (i : Z) : DCall unit :=
  dem_ensure (CancellationOrigin o) ;;
  status ← referendum_status i;
  s ← get_state;
  let h := proposal_hash (r_proposal status) in
  ensure (negb (bool_decide (h ∈ Cancellations s))) AlreadyCanceled ;;
  modify (λ s, s <| Cancellations ::= λ c, {[h]} ∪ c |>) ;;
  internal_cancel_referendum i.

Definition external_propose (o : RuntimeOrigin) (p : Proposal) : DCall unit :=
  dem_ensure (ExternalOrigin o) ;;
  s ← get_state;
  ensure (match NextExternal s with None => true | Some _ => false end) DuplicateProposal ;;
  not_blacklisted p ;;
  modify (λ s, s <| NextExternal := Some (p, SuperMajorityApprove) |>).
Definition external_propose_majority (o : RuntimeOrigin) (p : Proposal) : DCall unit :=
  dem_ensure (ExternalMajorityOrigin o) ;;
  modify (λ s, s <| NextExternal := Some (p, SimpleMajority) |>).
Definition external_propose_default (o : RuntimeOrigin) (p : Proposal) : DCall unit :=
  dem_ensure (ExternalDefaultOrigin o) ;;
  modify (λ s, s <| NextExternal := Some (p, SuperMajorityAgainst) |>).

Definition fast_track (o : RuntimeOrigin) (hash : H256) (voting_period delay : Z) : DCall unit :=
  (if (voting_period <? FastTrackVotingPeriod) || negb (FastTrackOrigin o)
   then dem_ensure (InstantOrigin o) ;; ensure InstantAllowed InstantNotAllowed
   else mret tt) ;;
  ensure (0 <? voting_period) VotingPeriodLow ;;
  s ← get_state;
  pt ← ok_or (NextExternal s) ProposalMissing;
  ensure (bool_decide (pt.2 ≠ SuperMajorityApprove)) NotSimpleMajority ;;
  ensure (bool_decide (hash = proposal_hash pt.1)) InvalidHash ;;
  modify (λ s, s <| NextExternal := None |>) ;;
  i ← inject_referendum (sat_add 32 (d_block s) voting_period) pt.1 pt.2 delay;
  transfer_metadata OwnerExternal (OwnerReferendum i).

(** [binary_search] on sorted accounts *)
Fixpoint account_position (who : AccountId) (l : list AccountId) : nat * bool :=
  match l with
  | [] => (0%nat, false)
  | a :: l' =>
      if bool_decide (a = who) then (0%nat, true)
      else if key_leb a who then let '(i, b) := account_position who l' in (S i, b)
      else (0%nat, false)
  end.

Definition veto_external (o : RuntimeOrigin) (hash : H256) : DCall unit :=
  who ← ok_or (VetoOrigin o) DemBadOrigin;
  s ← get_state;
  pt ← ok_or (NextExternal s) NoProposal;
  ensure (bool_decide (hash = proposal_hash pt.1)) ProposalMissing ;;
  let vetoers := default [] (snd <$> Blacklist s !! hash) in
  let '(i, found) := account_position who vetoers in
  ensure (negb found) AlreadyVetoed ;;
  ensure (length vetoers <? MaxBlacklisted)%nat TooMany ;;
  let cooloff := sat_add 32 (d_block s) CooloffPeriod in
  modify (λ s, s <| Blacklist ::= <[hash := (cooloff, take i vetoers ++ who :: drop i vetoers)]> |>
                 <| NextExternal := None |>) ;;
  clear_metadata OwnerExternal.

Definition cancel_referendum (o : RuntimeOrigin) (i : Z) : DCall unit :=
  dem_ensure (EnsureRoot o) ;; internal_cancel_referendum i.

Definition clear_public_proposals (o : RuntimeOrigin) : DCall unit :=
  dem_ensure (EnsureRoot o) ;; modify (λ s, s <| PublicProps := [] |>).

(** The backers of a proposal lose their deposits. *)
Definition slash_deposits (prop_index : Z) : DCall unit :=
  s ← get_state;
  match DepositOf s !! prop_index with
  | Some (whos, amount) =>
      modify (λ s, s <| DepositOf ::= delete prop_index |>) ;;
      for_each whos (λ who, on_wallet (w_slash_reserved who amount))
  | None => mret tt
  end.

(** The first proposal with a hash, with its position *)
Fixpoint find_hash (hash : H256) (i : nat) (l : list (Z * Proposal * AccountId)) : option (nat * Z) :=
  match l with
  | [] => None
  | (k, p, _) :: l' => if bool_decide (proposal_hash p = hash) then Some (i, k) else find_hash hash (S i) l'
  end.

Definition blacklist (o : RuntimeOrigin) (hash : H256) (maybe_ref_index : option Z) : DCall unit :=
  dem_ensure (BlacklistOrigin o) ;;
  modify (λ s, s <| Blacklist ::= <[hash := (u32_max, [])]> |>) ;;
  s ← get_state;
  match find_hash hash 0 (PublicProps s) with
  | Some (i, prop_index) =>
      slash_deposits prop_index ;; clear_metadata (OwnerProposal prop_index) ;;
      modify (λ s, s <| PublicProps ::= delete i |>)
  | None => mret tt
  end ;;
  s ← get_state;
  match NextExternal s with
  | Some (p, _) =>
      if bool_decide (proposal_hash p = hash)
      then modify (λ s, s <| NextExternal := None |>) ;; clear_metadata OwnerExternal else mret tt
  | None => mret tt
  end ;;
  match maybe_ref_index with
  | Some i =>
      s ← get_state;
      match ReferendumInfoOf s !! i with
      | Some (Ongoing st) =>
          if bool_decide (proposal_hash (r_proposal st) = hash) then internal_cancel_referendum i else mret tt
      | _ => mret tt
      end
  | None => mret tt
  end.

Definition cancel_proposal (o : RuntimeOrigin) (prop_index : Z) : DCall unit :=
  dem_ensure (CancelProposalOrigin o) ;;
  modify (λ s, s <| PublicProps ::= filter (λ p, p.1.1 ≠ prop_index) |>) ;;
  slash_deposits prop_index ;;
  clear_metadata (OwnerProposal prop_index).

Definition ensure_external_origin (th : VoteThreshold) (o : RuntimeOrigin) : DCall unit :=
  dem_ensure (match th with
              | SuperMajorityApprove => ExternalOrigin o
              | SuperMajorityAgainst => ExternalDefaultOrigin o
              | SimpleMajority => ExternalMajorityOrigin o
              end).

Definition set_metadata (o : RuntimeOrigin) (owner : MetadataOwner) (maybe_hash : option H256) : DCall unit :=
  s ← get_state;
  match owner with
  | OwnerExternal =>
      pt ← ok_or (NextExternal s) NoProposal; ensure_external_origin pt.2 o
  | OwnerProposal i =>
      who ← dem_signed o;
      p ← ok_or (List.find (λ p, p.1.1 =? i) (PublicProps s)) ProposalMissing;
      ensure (bool_decide (p.2 = who)) NoPermission
  | OwnerReferendum i =>
      dem_ensure (EnsureRoot o || match EnsureSigned o with Some _ => true | None => false end) ;;
      ensure (EnsureRoot o || match maybe_hash with None => true | Some _ => false end) NoPermission ;;
      ensure (EnsureRoot o || match ReferendumInfoOf s !! i with Some (Ongoing _) => false | _ => true end)
        NoPermission
  end ;;
  match maybe_hash with
  | Some h =>
      ensure (preimage_exists (d_schedule s) h) PreimageNotExist ;;
      modify (λ s, s <| MetadataOf ::= <[owner := h]> |>)
  | None => clear_metadata owner
  end.

Inductive DemocracyCall : Type :=
| Propose (p : Proposal) (value : Z)
| Second (proposal : Z)
| CastVote (ref_index : Z) (vote : AccountVote)
| EmergencyCancel (ref_index : Z)
| ExternalPropose (p : Proposal)
| ExternalProposeMajority (p : Proposal)
| ExternalProposeDefault (p : Proposal)
| FastTrack (hash : H256) (voting_period delay : Z)
| VetoExternal (hash : H256)
| CancelReferendum (ref_index : Z)
| Delegate (target : AccountId) (conv : Conviction) (bal : Z)
| Undelegate
| ClearPublicProposals
| Unlock (target : AccountId)
| RemoveVote (index : Z)
| RemoveOtherVote (target : AccountId) (index : Z)
| BlacklistCall (hash : H256) (maybe_ref_index : option Z)
| CancelProposal (prop_index : Z)
| SetMetadata (owner : MetadataOwner) (maybe_hash : option H256).

Definition democracy_call (o : RuntimeOrigin) (c : DemocracyCall) : DCall unit :=
  match c with
  | Propose p value => propose o p value
  | Second proposal => second o proposal
  | CastVote ref_index vote => who ← dem_signed o; try_vote who ref_index vote
  | EmergencyCancel i => emergency_cancel o i
  | ExternalPropose p => external_propose o p
  | ExternalProposeMajority p => external_propose_majority o p
  | ExternalProposeDefault p => external_propose_default o p
  | FastTrack hash voting_period delay => fast_track o hash voting_period delay
  | VetoExternal hash => veto_external o hash
  | CancelReferendum i => cancel_referendum o i
  | Delegate target conv bal => who ← dem_signed o; try_delegate who target conv bal ;; mret tt
  | Undelegate => who ← dem_signed o; try_undelegate who ;; mret tt
  | ClearPublicProposals => clear_public_proposals o
  | Unlock target => dem_signed o ;; update_lock target
  | RemoveVote i => who ← dem_signed o; try_remove_vote who i AnyScope
  | RemoveOtherVote target i =>
      who ← dem_signed o;
      try_remove_vote target i (if bool_decide (target = who) then AnyScope else OnlyExpired)
  | BlacklistCall hash r => blacklist o hash r
  | CancelProposal i => cancel_proposal o i
  | SetMetadata owner h => set_metadata o owner h
  end.
Definition democracy_dispatch (o : RuntimeOrigin) (c : DemocracyCall) : DCall unit :=
  transactional (democracy_call o c).

(** [on_initialize] of the next block *)
Definition next_block : DCall unit :=
  s ← get_state;
  let now := d_block s + 1 in
  modify (λ s, s <| d_block := now |>) ;; begin_block now.
End democracy.
