(* ===== verification/DemocracyVotes.v ===== *)
(** * Votes as a map, tallies as sums

    The sorted list of votes of an account behaves as a map from referenda; a tally is
    the sum of what the accounts contribute.  These lemmas are what the invariants of
    [DemocracyProps] are proved from. *)

From S2P Require Import Prelude Assets Types Bank Chain Policy Conviction Democracy.

(** ** The votes of an account *)
Definition vote_of (r : Z) (vs : list (Z * AccountVote)) : option AccountVote := (position r vs).2.
Definition votes_sorted (vs : list (Z * AccountVote)) : Prop := StronglySorted Z.lt vs.*1.

Lemma votes_sorted_cons k v vs :
  votes_sorted ((k, v) :: vs) ↔ votes_sorted vs ∧ ∀ r w, (r, w) ∈ vs → k < r.
Proof.
  unfold votes_sorted. cbn. split.
  - intros [Hs Hall]%StronglySorted_inv. split; [done|]. rewrite Forall_forall in Hall.
    intros r w Hin. apply Hall, list_elem_of_fmap. by exists (r, w).
  - intros [Hs Hall]. constructor; [done|]. apply Forall_forall.
    intros r ([r' w] & -> & Hin)%list_elem_of_fmap. by apply (Hall r' w).
Qed.

Lemma vote_of_cons r k v vs :
  vote_of r ((k, v) :: vs) = if k <? r then vote_of r vs else if k =? r then Some v else None.
Proof. unfold vote_of. cbn. destruct (k <? r); [by destruct (position r vs)|done]. Qed.

Lemma vote_of_elem r v vs : votes_sorted vs → vote_of r vs = Some v ↔ (r, v) ∈ vs.
Proof.
  induction vs as [|[k w] vs IH]; intros Hs.
  - split; [done|by intros ?%not_elem_of_nil].
  - apply votes_sorted_cons in Hs as [Hs Hk]. rewrite vote_of_cons, elem_of_cons, <- IH by done.
    destruct (Z.ltb_spec k r) as [Hlt|Hge].
    + split; [tauto|]. intros [[= -> ->]|?]; [lia|done].
    + destruct (Z.eqb_spec k r) as [->|Hne].
      * split; [intros [= ->]; by left|]. intros [[= ->]|Hin]; [done|].
        apply IH in Hin; [|done]. specialize (Hk _ _ Hin). lia.
      * split; [done|]. intros [[= -> ->]|Hin]; [lia|].
        apply IH in Hin; [|done]. specialize (Hk _ _ Hin). lia.
Qed.

Lemma vote_of_small r vs : (∀ k v, (k, v) ∈ vs → r < k) → vote_of r vs = None.
Proof.
  destruct vs as [|[k v] vs]; intros H; [done|]. rewrite vote_of_cons.
  assert (r < k) by (apply (H k v); left).
  rewrite (proj2 (Z.ltb_ge _ _)), (proj2 (Z.eqb_neq _ _)) by lia. done.
Qed.

Lemma vote_of_none r vs : votes_sorted vs → vote_of r vs = None ↔ ∀ v, (r, v) ∉ vs.
Proof.
  intros Hs. split.
  - intros Hn v Hin. apply (vote_of_elem _ _ _ Hs) in Hin. congruence.
  - intros Hn. destruct (vote_of r vs) as [v|] eqn:Hv; [|done].
    apply (vote_of_elem _ _ _ Hs) in Hv. by destruct (Hn v).
Qed.

(** Two sorted lists of votes with the same elements look up the same. *)
Lemma vote_of_ext r vs vs' :
  votes_sorted vs → votes_sorted vs' → (∀ v, (r, v) ∈ vs ↔ (r, v) ∈ vs') → vote_of r vs = vote_of r vs'.
Proof.
  intros H1 H2 Heq. apply option_eq. intros v. by rewrite !vote_of_elem.
Qed.

(** *** Replacing, inserting and removing at the position that was found *)
Lemma position_replace r vs i old new :
  votes_sorted vs → position r vs = (i, Some old) →
  votes_sorted (<[i := (r, new)]> vs)
  ∧ ∀ k v, (k, v) ∈ <[i := (r, new)]> vs ↔ (k = r ∧ v = new) ∨ (k ≠ r ∧ (k, v) ∈ vs).
Proof.
  revert i. induction vs as [|[k w] vs IH]; intros i Hs; [done|]. cbn.
  apply votes_sorted_cons in Hs as [Hs Hk]. destruct (Z.ltb_spec k r) as [Hlt|Hge].
  - destruct (position r vs) as [j o] eqn:Hp. intros [= <- ->].
    destruct (IH j Hs eq_refl) as [IHs IHin]. split.
    + cbn. apply votes_sorted_cons. split; [done|]. intros r' w' [[-> ->]|[_ Hin]]%IHin; [done|by eapply Hk].
    + intros k' v'. cbn. rewrite !elem_of_cons, IHin. split; [|naive_solver].
      intros [[= -> ->]|?]; [|naive_solver]. right. split; [lia|by left].
  - destruct (Z.eqb_spec k r) as [->|Hne]; intros [= <- <-]. cbn. split.
    + by apply votes_sorted_cons.
    + intros k' v'. rewrite !elem_of_cons. split.
      * intros [[= -> ->]|Hin]; [by left|]. right. split; [specialize (Hk _ _ Hin); lia|by right].
      * intros [[-> ->]|[Hne [[= -> ->]|Hin]]]; [by left|done|by right].
Qed.

Lemma position_insert r vs i new :
  votes_sorted vs → position r vs = (i, None) →
  votes_sorted (take i vs ++ (r, new) :: drop i vs)
  ∧ ∀ k v, (k, v) ∈ take i vs ++ (r, new) :: drop i vs ↔ (k = r ∧ v = new) ∨ (k ≠ r ∧ (k, v) ∈ vs).
Proof.
  revert i. induction vs as [|[k w] vs IH]; intros i Hs; cbn.
  - intros [= <-]. cbn. split; [apply votes_sorted_cons; set_solver|]. intros k v.
    rewrite list_elem_of_singleton. set_solver.
  - apply votes_sorted_cons in Hs as [Hs Hk]. destruct (Z.ltb_spec k r) as [Hlt|Hge].
    + destruct (position r vs) as [j o] eqn:Hp. intros [= <- ->].
      destruct (IH j Hs eq_refl) as [IHs IHin]. cbn. split.
      * apply votes_sorted_cons. split; [done|]. intros r' w' [[-> ->]|[_ Hin]]%IHin; [done|by eapply Hk].
      * intros k' v'. rewrite !elem_of_cons, IHin. split; [|naive_solver].
        intros [[= -> ->]|?]; [|naive_solver]. right. split; [lia|by left].
    + destruct (Z.eqb_spec k r) as [->|Hne]; intros [= <-]. cbn. split.
      * apply votes_sorted_cons. split; [by apply votes_sorted_cons|].
        intros r' w' [[= -> ->]|Hin]%elem_of_cons; [lia|]. specialize (Hk _ _ Hin). lia.
      * intros k' v'. rewrite (elem_of_cons _ (k', v')). split; [|naive_solver].
        intros [[= -> ->]|Hin]; [by left|]. right. split; [|done].
        apply elem_of_cons in Hin as [[= -> ->]|Hin]; [lia|]. specialize (Hk _ _ Hin). lia.
Qed.

Lemma position_delete r vs i old :
  votes_sorted vs → position r vs = (i, Some old) →
  votes_sorted (delete i vs) ∧ ∀ k v, (k, v) ∈ delete i vs ↔ k ≠ r ∧ (k, v) ∈ vs.
Proof.
  revert i. induction vs as [|[k w] vs IH]; intros i Hs; [done|]. cbn.
  apply votes_sorted_cons in Hs as [Hs Hk]. destruct (Z.ltb_spec k r) as [Hlt|Hge].
  - destruct (position r vs) as [j o] eqn:Hp. intros [= <- ->].
    destruct (IH j Hs eq_refl) as [IHs IHin]. cbn. split.
    + apply votes_sorted_cons. split; [done|]. intros r' w' [_ Hin]%IHin. by eapply Hk.
    + intros k' v'. rewrite !elem_of_cons, IHin. split; [|naive_solver].
      intros [[= -> ->]|?]; [|naive_solver]. split; [lia|by left].
  - destruct (Z.eqb_spec k r) as [->|Hne]; intros [= <- <-]. cbn. split; [done|].
    intros k' v'. rewrite elem_of_cons. split.
    + intros Hin. specialize (Hk _ _ Hin) as ?. split; [lia|by right].
    + intros [Hne [[= -> ->]|Hin]]; [done|done].
Qed.

Lemma position_vote_of r vs i o : position r vs = (i, o) → vote_of r vs = o.
Proof. unfold vote_of. by intros ->. Qed.

(** ** What an account contributes to a tally *)
Definition t_plus (a b : Tally) : Tally := mkTally (ayes a + ayes b) (nays a + nays b) (turnout a + turnout b).
Definition t_minus (a b : Tally) : Tally := mkTally (ayes a - ayes b) (nays a - nays b) (turnout a - turnout b).
Definition t_le (a b : Tally) : Prop := ayes a ≤ ayes b ∧ nays a ≤ nays b ∧ turnout a ≤ turnout b.
Definition max_tally : Tally := mkTally u128_max u128_max u128_max.

Lemma tally_eq a b : ayes a = ayes b → nays a = nays b → turnout a = turnout b → a = b.
Proof. destruct a, b; cbn. congruence. Qed.

Definition vote_contrib (v : AccountVote) (d : Delegations) : Tally :=
  match v with
  | Standard vote bal =>
      let n := votes (conviction_votes (conviction vote) bal) + votes d in
      mkTally (if aye vote then n else 0) (if aye vote then 0 else n) (bal + capital d)
  | Split a n => mkTally (a / 10) (n / 10) (a + n)
  end.
Definition contrib (r : Z) (vt : Voting) : Tally :=
  match vt with
  | Direct vs d _ => match vote_of r vs with Some v => vote_contrib v d | None => no_tally end
  | Delegating _ _ _ _ _ => no_tally
  end.

Definition vote_wf (v : AccountVote) : Prop :=
  match v with Standard _ bal => 0 ≤ bal | Split a n => 0 ≤ a ∧ 0 ≤ n end.
Definition deleg_wf (d : Delegations) : Prop := 0 ≤ votes d ∧ 0 ≤ capital d.

Lemma conviction_votes_nonneg c n : 0 ≤ n → 0 ≤ votes (conviction_votes c n).
Proof.
  intros Hn. destruct c; cbn [conviction_votes votes]; [apply Z.div_pos; lia|..];
    unfold checked_mul_u; case_match; cbn [from_option id conviction_into_u8];
    lia || (vm_compute; discriminate).
Qed.

Lemma vote_contrib_nonneg v d : vote_wf v → deleg_wf d → t_le no_tally (vote_contrib v d).
Proof.
  intros Hv [Hd1 Hd2]. unfold t_le. destruct v as [[[] c] bal|a n]; cbn -[conviction_votes] in *.
  - pose proof (conviction_votes_nonneg c bal Hv). cbn -[conviction_votes] in *. lia.
  - pose proof (conviction_votes_nonneg c bal Hv). cbn -[conviction_votes] in *. lia.
  - destruct Hv. pose proof (Z.div_pos a 10). pose proof (Z.div_pos n 10). lia.
Qed.

(** Splits on the conditions of a computation that succeeds. *)
Ltac destruct_ifs H :=
  repeat match type of H with
  | context [if ?b then _ else _] => destruct b; cbn -[u128_max] in H; [|done]
  end; injection H as <-.

(** Casting adds the contribution, unless the sum leaves 128 bits. *)
Lemma cast_vote_exact t v d t' :
  cast_vote t v d = Some t' → t_le (t_plus t (vote_contrib v d)) max_tally →
  t' = t_plus t (vote_contrib v d).
Proof.
  unfold cast_vote, t_le. destruct v as [[ay c] bal|a n]; cbn [tally_add vote_contrib as_standard aye conviction].
  - assert (capital (conviction_votes c bal) = bal) as Hcap by done.
    destruct (conviction_votes c bal) as [dv dc]. cbn in Hcap. subst dc.
    destruct ay; cbn -[u128_max]; unfold checked_add_u, sat_add; fold u128_max; intros Hc Hle;
      destruct_ifs Hc; apply tally_eq; cbn -[u128_max]; lia.
  - cbn -[u128_max]. unfold checked_add_u. fold u128_max. intros Hc Hle.
    destruct_ifs Hc; apply tally_eq; cbn -[u128_max]; lia.
Qed.

(** It fails only when the sum leaves 128 bits. *)
Lemma cast_vote_fails t v d :
  vote_wf v → deleg_wf d → cast_vote t v d = None → ¬ t_le (t_plus t (vote_contrib v d)) max_tally.
Proof.
  intros Hv [Hd1 Hd2]. unfold cast_vote, t_le.
  destruct v as [[ay c] bal|a n]; cbn [tally_add vote_contrib as_standard aye conviction].
  - pose proof (conviction_votes_nonneg c bal Hv).
    assert (capital (conviction_votes c bal) = bal) as Hcap by done.
    destruct (conviction_votes c bal) as [dv dc]. cbn in Hcap, Hv. subst dc.
    destruct ay; cbn -[u128_max] in *; unfold checked_add_u; fold u128_max; intros Hc Hle; revert Hc;
      repeat (rewrite (proj2 (Z.leb_le _ _)) by lia; cbn -[u128_max]); done.
  - destruct Hv as [Ha Hn]. pose proof (Z.div_pos a 10). pose proof (Z.div_pos n 10).
    cbn -[u128_max]. unfold checked_add_u. fold u128_max. intros Hc Hle. revert Hc.
    repeat (rewrite (proj2 (Z.leb_le _ _)) by lia; cbn -[u128_max]). done.
Qed.

(** Withdrawing takes it out again. *)
Lemma withdraw_vote_exact t v d :
  vote_wf v → deleg_wf d → t_le (vote_contrib v d) t →
  withdraw_vote t v d = Some (t_minus t (vote_contrib v d)).
Proof.
  intros Hv [Hd1 Hd2]. unfold withdraw_vote, t_le.
  destruct v as [[ay c] bal|a n]; cbn [tally_remove vote_contrib as_standard aye conviction].
  - pose proof (conviction_votes_nonneg c bal Hv).
    assert (capital (conviction_votes c bal) = bal) as Hcap by done.
    destruct (conviction_votes c bal) as [dv dc]. cbn in Hcap, Hv. subst dc.
    destruct ay; cbn in *; unfold checked_sub_u, sat_sub; intros Hle;
      repeat (rewrite (proj2 (Z.leb_le _ _)) by lia; cbn);
      f_equal; apply tally_eq; cbn; lia.
  - destruct Hv as [Ha Hn]. cbn. unfold checked_sub_u. intros Hle.
    repeat (rewrite (proj2 (Z.leb_le _ _)) by lia; cbn).
    f_equal. apply tally_eq; cbn; lia.
Qed.

(** ** Sums over all accounts *)
Definition total (r : Z) (m : gmap AccountId Voting) : Tally :=
  mkTally (map_total (λ vt, ayes (contrib r vt)) m) (map_total (λ vt, nays (contrib r vt)) m)
    (map_total (λ vt, turnout (contrib r vt)) m).

Lemma contrib_default r : contrib r default_voting = no_tally.
Proof. done. Qed.

Lemma total_insert r m a vt :
  total r (<[a := vt]> m)
  = t_plus (t_minus (total r m) (contrib r (default default_voting (m !! a)))) (contrib r vt).
Proof.
  unfold total. rewrite !map_total_insert. apply tally_eq; cbn; destruct (m !! a); cbn; lia.
Qed.

Lemma total_same r m a vt :
  contrib r vt = contrib r (default default_voting (m !! a)) → total r (<[a := vt]> m) = total r m.
Proof. intros Hc. rewrite total_insert, Hc. apply tally_eq; cbn; lia. Qed.

(** A sum of non-negative contributions is at least each of them. *)
Lemma map_total_member {K A} `{Countable K} (f : A → Z) (m : gmap K A) k a :
  (∀ k a, m !! k = Some a → 0 ≤ f a) → m !! k = Some a → f a ≤ map_total f m.
Proof.
  intros Hf Hk. rewrite (map_total_delete f m k a Hk).
  enough (0 ≤ map_total f (delete k m)) by lia. apply map_total_nonneg.
  intros k' a' Hk'. apply (Hf k'). apply lookup_delete_Some in Hk'. tauto.
Qed.

Lemma total_member r m a vt :
  (∀ a vt, m !! a = Some vt → t_le no_tally (contrib r vt)) → m !! a = Some vt →
  t_le (contrib r vt) (total r m).
Proof.
  intros Hn Ha. split_and!; cbn.
  - apply (map_total_member (λ vt, ayes (contrib r vt)) m a vt); [|done]. intros b w Hb. apply (Hn b w Hb).
  - apply (map_total_member (λ vt, nays (contrib r vt)) m a vt); [|done]. intros b w Hb. apply (Hn b w Hb).
  - apply (map_total_member (λ vt, turnout (contrib r vt)) m a vt); [|done]. intros b w Hb. apply (Hn b w Hb).
Qed.

Lemma total_zero r m : (∀ a vt, m !! a = Some vt → contrib r vt = no_tally) → total r m = no_tally.
Proof.
  induction m as [|a vt m Ha IH] using map_ind; intros Hm; [done|].
  rewrite total_same.
  - apply IH. intros b w Hb. apply (Hm b). rewrite lookup_insert_ne; [done|]. intros ->. congruence.
  - rewrite Ha, (Hm a vt) by apply lookup_insert_eq. done.
Qed.

(** What is delegated to an account *)
Definition deleg_to (a : AccountId) (vt : Voting) : Delegations :=
  match vt with
  | Delegating b t c _ _ => if decide (t = a) then conviction_votes c b else no_delegations
  | Direct _ _ _ => no_delegations
  end.
Definition deleg_sum (a : AccountId) (m : gmap AccountId Voting) : Delegations :=
  mkDelegations (map_total (λ vt, votes (deleg_to a vt)) m) (map_total (λ vt, capital (deleg_to a vt)) m).

Lemma delegations_eq a b : votes a = votes b → capital a = capital b → a = b.
Proof. destruct a, b; cbn. congruence. Qed.

Lemma deleg_sum_insert a m b vt :
  let old := deleg_to a (default default_voting (m !! b)) in
  deleg_sum a (<[b := vt]> m)
  = mkDelegations (votes (deleg_sum a m) - votes old + votes (deleg_to a vt))
      (capital (deleg_sum a m) - capital old + capital (deleg_to a vt)).
Proof.
  cbn zeta. unfold deleg_sum. rewrite !map_total_insert.
  apply delegations_eq; cbn; destruct (m !! b); cbn; lia.
Qed.

Lemma deleg_sum_same a m b vt :
  deleg_to a vt = deleg_to a (default default_voting (m !! b)) → deleg_sum a (<[b := vt]> m) = deleg_sum a m.
Proof. intros Hd. rewrite deleg_sum_insert, Hd. apply delegations_eq; cbn; lia. Qed.

Lemma deleg_sum_zero a m :
  (∀ b vt, m !! b = Some vt → deleg_to a vt = no_delegations) → deleg_sum a m = no_delegations.
Proof.
  induction m as [|b vt m Hb IH] using map_ind; intros Hm; [done|].
  rewrite deleg_sum_same.
  - apply IH. intros x w Hx. apply (Hm x). rewrite lookup_insert_ne; [done|]. intros ->. congruence.
  - rewrite Hb, (Hm b vt) by apply lookup_insert_eq. done.
Qed.
