(* ===== verification/DemocracyEvents.v ===== *)
(** * The democracy pallet as a machine of votes and referenda

    [Core] is the part of the storage that decides referenda: the block, the referenda and
    the votes.  [core_event] lists what can happen to it, together with what happens to
    the vote lock; [dispatch_event] and [block_event] show that every dispatchable and
    every block of [Democracy] is one such event.  The invariants of [DemocracyProps] are
    proved over the events. *)

From S2P Require Import Prelude Assets Types Bank Chain Policy Conviction Democracy DemocracyVotes.

(** ** Putting a vote on the list *)
Definition put_vote (r : Z) (v : AccountVote) (vs : list (Z * AccountVote)) : list (Z * AccountVote) :=
  match position r vs with
  | (i, Some _) => <[i := (r, v)]> vs
  | (i, None) => take i vs ++ (r, v) :: drop i vs
  end.
Definition drop_vote (r : Z) (vs : list (Z * AccountVote)) : list (Z * AccountVote) :=
  delete (position r vs).1 vs.

Lemma put_vote_spec r v vs :
  votes_sorted vs →
  votes_sorted (put_vote r v vs)
  ∧ ∀ k w, (k, w) ∈ put_vote r v vs ↔ (k = r ∧ w = v) ∨ (k ≠ r ∧ (k, w) ∈ vs).
Proof.
  intros Hs. unfold put_vote. destruct (position r vs) as [i [old|]] eqn:Hp.
  - by eapply position_replace.
  - by apply position_insert.
Qed.

Lemma drop_vote_spec r v vs :
  votes_sorted vs → vote_of r vs = Some v →
  votes_sorted (drop_vote r vs) ∧ ∀ k w, (k, w) ∈ drop_vote r vs ↔ k ≠ r ∧ (k, w) ∈ vs.
Proof.
  intros Hs. unfold vote_of, drop_vote. destruct (position r vs) as [i o] eqn:Hp. cbn. intros ->.
  by eapply position_delete.
Qed.

(** The balances of a vote are of 128 bits. *)
Definition vote_typed (v : AccountVote) : Prop :=
  match v with Standard _ bal => is_u 128 bal | Split a n => is_u 128 a ∧ is_u 128 n end.

(** A vote that replaces another, or is the first *)
Definition revote (t : Tally) (old : option AccountVote) (v : AccountVote) (d : Delegations) : option Tally :=
  match old with
  | Some old => t ← withdraw_vote t old d; cast_vote t v d
  | None => cast_vote t v d
  end.

(** What happens to the vote lock of the accounts; a cancelled referendum is named *)
Inductive LockChange : Type :=
| LKeep
| LExtend (who : AccountId) (n : Z)
| LSet (who : AccountId) (n : Z)
| LCancel (r : Z).
Definition lock_after (ch : LockChange) (L : AccountId → Z) (a : AccountId) : Z :=
  match ch with
  | LKeep | LCancel _ => L a
  | LExtend who n => if decide (a = who) then Z.max (L who) n else L a
  | LSet who n => if decide (a = who) then n else L a
  end.

Section events.
Context {VC : VotingCurrency} {PR : Proposals} {CO : Collective}.

Record Core : Type := mkCore {
  c_block : Z;
  c_count : Z;
  c_lowest : Z;
  c_infos : gmap Z ReferendumInfo;
  c_votings : gmap AccountId Voting;
}.
#[export] Instance eta_Core : Eta Core := λ r, {|
  c_block := c_block r; c_count := c_count r; c_lowest := c_lowest r; c_infos := c_infos r;
  c_votings := c_votings r;
|}.
Definition core (s : Dem) : Core :=
  mkCore (d_block s) (ReferendumCount s) (LowestUnbaked s) (ReferendumInfoOf s) (VotingOf s).
Definition voting (c : Core) (a : AccountId) : Voting := default default_voting (c_votings c !! a).

Definition c_put (a : AccountId) (vt : Voting) (c : Core) : Core := c <| c_votings ::= <[a := vt]> |>.
Definition c_info (i : Z) (info : ReferendumInfo) (c : Core) : Core := c <| c_infos ::= <[i := info]> |>.

(** Delegated votes that reach the referenda a voter has voted in *)
Definition retally_info (f : Tally → bool → Delegations → Tally) (am : Delegations)
    (infos : gmap Z ReferendumInfo) (rv : Z * AccountVote) : gmap Z ReferendumInfo :=
  match rv.2, infos !! rv.1 with
  | Standard vote _, Some (Ongoing st) =>
      <[rv.1 := Ongoing (st <| r_tally := f (r_tally st) (aye vote) am |>)]> infos
  | _, _ => infos
  end.
Definition c_upstream (g : Delegations → Delegations → Delegations) (f : Tally → bool → Delegations → Tally)
    (a : AccountId) (am : Delegations) (c : Core) : Core :=
  let vt := voting c a in
  c_put a (set_common vt (g (delegations_of vt) am) (prior_of vt))
    (c <| c_infos ::= λ m, match vt with Direct vs _ _ => foldl (retally_info f am) m vs | _ => m end |>).
Definition c_gain := c_upstream delegations_add tally_increase.
Definition c_lose := c_upstream delegations_sub tally_reduce.

(** A new referendum *)
Definition c_table (fin : Z) (p : Proposal) (th : VoteThreshold) (delay : Z) (c : Core) : Core :=
  c_info (c_count c) (Ongoing (mkStatus fin p th delay no_tally)) (c <| c_count := c_count c + 1 |>).
Inductive tabled (c : Core) : Core → Prop :=
| tabled_none : tabled c c
| tabled_one period p th delay :
    0 < period → c_count c < u32_max →
    tabled c (c_table (sat_add 32 (c_block c) period) p th delay c).

(** The referenda that end now are decided; the baked ones in front are skipped. *)
Definition finish (now : Z) (infos : gmap Z ReferendumInfo) (oks : list (Z * bool)) : gmap Z ReferendumInfo :=
  foldl (λ m x, <[x.1 := Finished x.2 now]> m) infos oks.
Definition c_bake (last : Z) (oks : list (Z * bool)) (c : Core) : Core :=
  let infos := finish (c_block c) (c_infos c) oks in
  c <| c_infos := infos |> <| c_lowest := skip_baked infos (c_lowest c) (Z.to_nat (last - c_lowest c)) |>.
Definition c_maturing (last : Z) (c : Core) : list (Z * ReferendumStatus) :=
  maturing (c_infos c) (c_block c) (c_lowest c) (Z.to_nat (last - c_lowest c)).
Definition decided (issuance : Z) (it : Z * ReferendumStatus) (ok : Z * bool) : Prop :=
  it.1 = ok.1 ∧ approved (r_threshold it.2) (r_tally it.2) issuance = Ok ok.2.

(** The lock that a removed vote leaves behind *)
Definition prior_after (c : Core) (r : Z) (v : AccountVote) (p : PriorLock) : PriorLock :=
  match c_infos c !! r with
  | Some (Finished approved fin) =>
      match locked_if v approved with
      | Some (periods, bal) =>
          let unlock_at := unlock_block fin periods in
          if c_block c <? unlock_at then accumulate p unlock_at bal else p
      | None => p
      end
  | _ => p
  end.
Definition is_ongoing (o : option ReferendumInfo) : bool := match o with Some (Ongoing _) => true | _ => false end.
Definition after_delegation (c : Core) (conv : Conviction) (b : Z) (p : PriorLock) : PriorLock :=
  accumulate p (unlock_block (c_block c) (lock_periods conv)) b.

(** *** What can happen *)
Inductive core_event (issuance : Z) (c : Core) : LockChange → Core → Prop :=
| ev_none : core_event issuance c LKeep c
| ev_vote who r v st vs d p t :
    c_infos c !! r = Some (Ongoing st) → voting c who = Direct vs d p →
    revote (r_tally st) (vote_of r vs) v d = Some t → vote_typed v →
    (length (put_vote r v vs) ≤ Nat.max (length vs) MaxVotes)%nat →
    core_event issuance c (LExtend who (vote_balance v))
      (c_info r (Ongoing (st <| r_tally := t |>)) (c_put who (Direct (put_vote r v vs) d p) c))
| ev_withdraw who r v st vs d p t :
    c_infos c !! r = Some (Ongoing st) → voting c who = Direct vs d p → vote_of r vs = Some v →
    withdraw_vote (r_tally st) v d = Some t →
    core_event issuance c LKeep
      (c_put who (Direct (drop_vote r vs) d p) (c_info r (Ongoing (st <| r_tally := t |>)) c))
| ev_forget who r v vs d p :
    is_ongoing (c_infos c !! r) = false → voting c who = Direct vs d p → vote_of r vs = Some v →
    core_event issuance c LKeep (c_put who (Direct (drop_vote r vs) d (prior_after c r v p)) c)
| ev_delegate who t conv bal d p :
    who ≠ t → voting c who = Direct [] d p → is_u 128 bal →
    core_event issuance c (LExtend who bal)
      (c_put who (Delegating bal t conv d p) (c_gain t (conviction_votes conv bal) c))
| ev_redelegate who t0 conv0 bal0 t conv bal d p :
    who ≠ t → voting c who = Delegating bal0 t0 conv0 d p → is_u 128 bal →
    core_event issuance c (LExtend who bal)
      (c_put who (Delegating bal t conv d (after_delegation c conv0 bal0 p))
        (c_gain t (conviction_votes conv bal) (c_lose t0 (conviction_votes conv0 bal0) c)))
| ev_undelegate who t conv bal d p :
    voting c who = Delegating bal t conv d p →
    core_event issuance c LKeep
      (c_put who (Direct [] d (after_delegation c conv bal p)) (c_lose t (conviction_votes conv bal) c))
| ev_unlock who :
    let vt := voting_rejig (voting c who) (c_block c) in
    core_event issuance c (LSet who (locked_balance vt)) (c_put who vt c)
| ev_table c' : tabled c c' → core_event issuance c LKeep c'
| ev_cancel r : core_event issuance c (LCancel r) (c <| c_infos ::= delete r |>)
| ev_block c1 oks :
    c_block c + 1 < u32_max → tabled (c <| c_block := c_block c + 1 |>) c1 →
    Forall2 (decided issuance) (c_maturing (c_count c) c1) oks →
    core_event issuance c LKeep (c_bake (c_count c) oks c1).

(** ** The dispatchables are events *)
Context `{!VotingCurrencyLaws}.

(** The core and the locks of a state *)
Definition at_core (c : Core) (L : AccountId → Z) (s : Dem) : Prop :=
  core s = c ∧ ∀ a, w_lock (d_wallet s) a = L a.
Definition locks (s : Dem) : AccountId → Z := w_lock (d_wallet s).

Lemma at_core_refl s : at_core (core s) (locks s) s.
Proof. done. Qed.

(** Updates of the rest of the storage *)
Lemma at_core_modify c L f :
  (∀ s, core (f s) = core s ∧ ∀ a, w_lock (d_wallet (f s)) a = w_lock (d_wallet s) a) →
  preserves (at_core c L) (modify f : DCall unit).
Proof.
  intros Hf. apply preserves_modify. intros s [<- HL]. destruct (Hf s) as [Hc Hw]. split; [done|].
  intros a. by rewrite Hw.
Qed.

Lemma on_wallet_at c L f :
  (∀ w a, w_lock (f w) a = w_lock w a) → preserves (at_core c L) (on_wallet f).
Proof. intros Hf. apply at_core_modify. intros s. split; [done|]. intros a. apply Hf. Qed.

Lemma wallet_call_at c L who n : preserves (at_core c L) (wallet_call (w_reserve who n)).
Proof.
  intros s [Hc HL]. unfold wallet_call. destruct (w_reserve who n (d_wallet s)) as [[u|e|] w] eqn:Hr;
    (split; [done|]); intros a; rewrite <- HL; by eapply reserve_lock.
Qed.

Lemma transfer_metadata_at c L o o' : preserves (at_core c L) (transfer_metadata o o').
Proof. apply at_core_modify. intros s. by destruct (MetadataOf s !! o). Qed.

(** Decomposes [preserves (at_core c L) m]: what is left changes the core. *)
Ltac quiet :=
  repeat (cbv zeta; intros;
    match goal with
    | |- preserves _ (modify _) => apply at_core_modify; done
    | |- preserves _ (on_wallet _) =>
        apply on_wallet_at; intros; first [apply slash_lock | apply unreserve_lock]
    | |- preserves _ (mbind _ _) => apply preserves_bind
    | |- preserves _ (for_each _ _) => apply preserves_for_each
    | |- preserves _ (match ?x with _ => _ end) => destruct x eqn:?
    | |- preserves _ _ => first [apply wallet_call_at | apply transfer_metadata_at]
    | |- preserves _ _ => solve [eauto 2 with inv]
    end).

Lemma slash_deposits_at c L i : preserves (at_core c L) (slash_deposits i).
Proof. unfold slash_deposits. quiet. Qed.

(** Everything but votes, delegations and referenda leaves the core alone. *)
Lemma propose_at c L o p v : keeps (at_core c L) (propose o p v).
Proof. apply preserves_keeps. unfold propose, not_blacklisted. quiet. Qed.
Lemma second_at c L o i : keeps (at_core c L) (second o i).
Proof. apply preserves_keeps. unfold second, dem_signed. quiet. Qed.
Lemma external_at c L o p :
  keeps (at_core c L) (external_propose o p) ∧ keeps (at_core c L) (external_propose_majority o p)
  ∧ keeps (at_core c L) (external_propose_default o p).
Proof. unfold external_propose, external_propose_majority, external_propose_default, not_blacklisted, dem_ensure.
  split_and!; apply preserves_keeps; quiet. Qed.
Lemma veto_external_at c L o h : keeps (at_core c L) (veto_external o h).
Proof. apply preserves_keeps. unfold veto_external, clear_metadata. quiet. Qed.
Lemma cancel_proposal_at c L o i : keeps (at_core c L) (cancel_proposal o i).
Proof. apply preserves_keeps. unfold cancel_proposal, slash_deposits, clear_metadata, dem_ensure. quiet. Qed.
Lemma clear_public_at c L o : keeps (at_core c L) (clear_public_proposals o).
Proof. apply preserves_keeps. unfold clear_public_proposals, dem_ensure. quiet. Qed.
Lemma set_metadata_at c L o w h : keeps (at_core c L) (set_metadata o w h).
Proof. apply preserves_keeps. unfold set_metadata, clear_metadata, ensure_external_origin, dem_signed, dem_ensure. quiet. Qed.

(** The referendum a call may cancel *)
Definition cancels (call : DemocracyCall) : option Z :=
  match call with
  | EmergencyCancel i | CancelReferendum i => Some i
  | BlacklistCall _ i => i
  | _ => None
  end.

(** A run that is an event, and cancels at most the referendum [k] *)
Definition event_run (iss : Z) (k : option Z) (s s' : Dem) : Prop :=
  ∃ ch c', core_event iss (core s) ch c' ∧ at_core c' (lock_after ch (locks s)) s'
           ∧ match ch with LCancel r => k = Some r | _ => True end.

Lemma quiet_run {A} iss k (m : DCall A) s a s' :
  (∀ c L, keeps (at_core c L) m) → m s = (Ok a, s') → event_run iss k s s'.
Proof.
  intros Hm Hr. exists LKeep, (core s). split; [constructor|].
  split; [|done]. apply (Hm _ _ s a s'); [apply at_core_refl|done].
Qed.

Lemma try_vote_event iss k who r v s s' :
  vote_typed v → try_vote who r v s = (Ok tt, s') → event_run iss k s s'.
Proof.
  intros Hty. unfold try_vote, referendum_status. intros Hr. inv_run.
  destruct a0 as [st|]; inv_run. destruct (voting_of _ who) as [vs d p|] eqn:Hv; [|inv_run].
  destruct (position r vs) as [i o] eqn:Hp.
  assert (∃ t, revote (r_tally st) o v d = Some t
    ∧ (length (put_vote r v vs) ≤ Nat.max (length vs) MaxVotes)%nat ∧ s' = setter (proj := ReferendumInfoOf) <[r := Ongoing (st <| r_tally := t |>)]>
      (setter (proj := d_wallet) (extend_lock who (vote_balance v))
        (setter (proj := VotingOf) <[who := Direct (put_vote r v vs) d p]> s))) as (t & Ht & Hlen & ->).
  { unfold put_vote. rewrite Hp. destruct o as [old|]; inv_run; unfold put_voting, on_wallet, put_referendum in *;
      inv_run; cbn -[MaxVotes Nat.ltb] in *; eexists; (split; [|split; [|done]]); [by rewrite H3| |done|].
    - rewrite length_insert. lia.
    - rewrite length_app, length_take, length_cons, length_drop.
      match goal with H : (_ <? _)%nat = true |- _ => apply Nat.ltb_lt in H end. lia. }
  exists (LExtend who (vote_balance v)), (c_info r (Ongoing (st <| r_tally := t |>))
    (c_put who (Direct (put_vote r v vs) d p) (core s))). split.
  - apply ev_vote; [done..| |done|done]. by rewrite (position_vote_of _ _ _ _ Hp).
  - split; [|done]. split; [done|]. intros a. cbn. apply extend_lock_spec.
Qed.

Lemma try_remove_vote_event iss k who r scope s s' :
  try_remove_vote who r scope s = (Ok tt, s') → event_run iss k s s'.
Proof.
  unfold try_remove_vote. intros Hr. inv_run.
  destruct (voting_of s who) as [vs d p|] eqn:Hv.
  2: { unfold put_voting in Hk. inv_run. exists LKeep, (core s). split; [constructor|split; [|done]]. split; [|done].
    unfold core. cbn. rewrite insert_id; [done|]. unfold voting_of in Hv.
    destruct (VotingOf s !! who); [by f_equal|done]. }
  destruct (position r vs) as [i [v|]] eqn:Hp; [|inv_run].
  assert (vote_of r vs = Some v) as Hvo by by apply position_vote_of in Hp.
  assert (delete i vs = drop_vote r vs) as Hd by (unfold drop_vote; by rewrite Hp). rewrite Hd in Hk.
  destruct (is_ongoing (ReferendumInfoOf s !! r)) eqn:Ho.
  - destruct (ReferendumInfoOf s !! r) as [[st|]|] eqn:Hi; [|done..].
    unfold put_voting, put_referendum in *. inv_run.
    exists LKeep, (c_put who (Direct (drop_vote r vs) d p) (c_info r (Ongoing (st <| r_tally := a0 |>)) (core s))).
    split; [by eapply ev_withdraw|done].
  - exists LKeep, (c_put who (Direct (drop_vote r vs) d (prior_after (core s) r v p)) (core s)).
    split; [by eapply ev_forget|split; [|done]]. unfold prior_after. cbn [core c_infos c_block].
    destruct (ReferendumInfoOf s !! r) as [[st|ap fin]|]; [done| |unfold put_voting in *; by inv_run].
    destruct (locked_if v ap) as [[periods bal]|]; [|unfold put_voting in *; by inv_run].
    destruct (d_block s <? unlock_block fin periods); unfold put_voting in *; by inv_run.
Qed.

(** *** Delegation *)
Lemma retally_run f am vs s :
  for_each vs (retally f am) s
  = (Ok tt, s <| ReferendumInfoOf := foldl (retally_info f am) (ReferendumInfoOf s) vs |>).
Proof.
  revert s. induction vs as [|[k v] vs IH]; intros s; [by destruct s|].
  cbn [for_each foldl]. rewrite bind_run. unfold retally, retally_info. cbn.
  destruct v as [vote bal|]; [|apply IH]. cbn. rewrite IH.
  destruct (ReferendumInfoOf s !! k) as [[st|]|]; reflexivity.
Qed.

Lemma upstream_run g f who am s n s' :
  upstream g f who am s = (Ok n, s') →
  core s' = c_upstream g f who am (core s) ∧ d_wallet s' = d_wallet s.
Proof.
  unfold upstream. intros Hr. inv_run. unfold c_upstream, voting. cbn [core c_votings].
  fold (voting_of s who). destruct (voting_of s who) as [vs d p|b t c d p]; unfold put_voting in Hk.
  - apply bind_ok_inv in Hk as (u & s1 & H1 & Hk). rewrite retally_run in H1. injection H1 as <- <-.
    inv_run. done.
  - inv_run. done.
Qed.

Lemma voting_core s who : voting (core s) who = voting_of s who.
Proof. done. Qed.

Lemma try_delegate_event iss k who t conv bal s n s' :
  is_u 128 bal → try_delegate who t conv bal s = (Ok n, s') → event_run iss k s s'.
Proof.
  intros Hb. unfold try_delegate, on_wallet, put_voting. intros Hr. inv_run. apply bool_decide_eq_true in H0.
  apply upstream_run in Hm0 as [Hc Hw].
  destruct (voting_of s who) as [vs d p|b0 t0 c0 d p] eqn:Hv; inv_run.
  - destruct vs; [|done].
    exists (LExtend who bal), (c_put who (Delegating bal t conv d p) (c_gain t (conviction_votes conv bal) (core s))).
    split; [by constructor|split; [|done]]. split.
    + unfold c_gain. rewrite <- Hc. done.
    + intros x. cbn. rewrite Hw. apply extend_lock_spec.
  - apply upstream_run in Hm0 as [Hc0 Hw0].
    exists (LExtend who bal), (c_put who (Delegating bal t conv d (after_delegation (core s) c0 b0 p))
      (c_gain t (conviction_votes conv bal) (c_lose t0 (conviction_votes c0 b0) (core s)))).
    split; [by eapply ev_redelegate|split; [|done]]. split.
    + unfold c_gain, c_lose. rewrite <- Hc0, <- Hc. done.
    + intros x. cbn. rewrite Hw, Hw0. apply extend_lock_spec.
Qed.

Lemma try_undelegate_event iss k who s n s' : try_undelegate who s = (Ok n, s') → event_run iss k s s'.
Proof.
  unfold try_undelegate, put_voting. intros Hr. inv_run.
  destruct (voting_of s who) as [vs d p|b t c d p] eqn:Hv; inv_run.
  apply upstream_run in Hm as [Hc Hw].
  exists LKeep, (c_put who (Direct [] d (after_delegation (core s) c b p)) (c_lose t (conviction_votes c b) (core s))).
  split; [by eapply ev_undelegate|split; [|done]]. split.
  - unfold c_lose. rewrite <- Hc. done.
  - intros x. cbn. by rewrite Hw.
Qed.

(** The lock is set to what is still needed. *)
Lemma update_lock_event iss k who s s' : update_lock who s = (Ok tt, s') → event_run iss k s s'.
Proof.
  unfold update_lock, put_voting, on_wallet. intros Hr. inv_run.
  eexists _, _. split; [apply (ev_unlock _ _ who)|split; [|done]]. split; [done|].
  intros x. cbn -[locked_balance voting_rejig]. rewrite voting_core.
  destruct (Z.eqb_spec (locked_balance (voting_rejig (voting_of s who) (d_block s))) 0) as [->|Hne].
  - apply remove_vote_lock_spec.
  - by apply set_vote_lock_spec.
Qed.

(** *** Referenda *)
Lemma inject_run fin p th delay s r s' :
  inject_referendum fin p th delay s = (r, s') →
  (r = Panic ∧ u32_max ≤ ReferendumCount s) ∨ (r = Ok (ReferendumCount s) ∧ ReferendumCount s < u32_max
    ∧ core s' = c_table fin p th delay (core s) ∧ d_wallet s' = d_wallet s).
Proof.
  unfold inject_referendum, put_referendum, unwrap, checked_add_u. mrun.
  destruct (Z.leb_spec (ReferendumCount s + 1) (umax 32)); intros [= <- <-]; unfold u32_max; [right|left];
    split_and!; done || lia.
Qed.

(** Tabling a referendum, then only moving its metadata *)
Lemma inject_tabled s1 c L period p th delay o u s' :
  at_core c L s1 → 0 < period →
  (i ← inject_referendum (sat_add 32 (c_block c) period) p th delay;
   transfer_metadata o (OwnerReferendum i)) s1 = (u, s') →
  (u = Panic ∧ u32_max ≤ c_count c) ∨ (u = Ok tt ∧ ∃ c', tabled c c' ∧ at_core c' L s' ∧ d_wallet s' = d_wallet s1).
Proof.
  intros [<- HL] Hp. unfold mbind, M_bind.
  destruct (inject_referendum _ p th delay s1) as [r s2] eqn:Hi.
  apply inject_run in Hi as [[-> Hmax]|(-> & Hlt & Hc & Hw)]; [intros [= <- <-]; by left|].
  intros [= <- <-]. right. split; [done|]. eexists. split; [by apply (tabled_one _ period p th delay)|].
  split; [|by destruct (MetadataOf s2 !! o)].
  split; [rewrite <- Hc; by destruct (MetadataOf s2 !! o)|].
  intros a. rewrite <- HL, <- Hw. by destruct (MetadataOf s2 !! o).
Qed.

Lemma fast_track_event iss k o h period delay s s' :
  fast_track o h period delay s = (Ok tt, s') → event_run iss k s s'.
Proof.
  unfold fast_track. intros Hr. apply bind_ok_inv in Hr as (u & s1 & Ho & Hr).
  assert (s1 = s) as ->.
  { destruct (_ || _) in Ho; unfold dem_ensure in Ho; by inv_run. }
  do 6 (apply bind_ok_inv in Hr as (? & ? & ? & Hr)). repeat inv_prim.
  match goal with H : (0 <? _) = true |- _ => apply Z.ltb_lt in H end.
  apply (inject_tabled _ (core s) (locks s)) in Hr as [[? _]|(_ & c' & Ht & Hc & _)]; [done| |done|done].
  exists LKeep, c'. split; [by apply ev_table|done].
Qed.

Lemma cancel_run i s : internal_cancel_referendum i s
  = (Ok tt, s <| ReferendumInfoOf ::= delete i |> <| MetadataOf ::= delete (OwnerReferendum i) |>).
Proof. done. Qed.

Lemma cancel_event iss i s0 s s' :
  at_core (core s0) (locks s0) s → internal_cancel_referendum i s = (Ok tt, s') → event_run iss (Some i) s0 s'.
Proof.
  intros [Hc HL]. rewrite cancel_run. intros [= <-].
  eexists (LCancel i), _. split; [apply (ev_cancel _ _ i)|split; [|done]]. split; [|done]. rewrite <- Hc. done.
Qed.

(** One step of a run [Hr] that leaves the core alone *)
Ltac quiet_step Hr Hat :=
  let Hm := fresh in let Hn := fresh in
  apply bind_ok_inv in Hr as (? & ? & Hm & Hr);
  eapply (preserves_keeps (at_core _ _)) in Hm as Hn;
    [clear Hat; rename Hn into Hat|clear Hm; quiet|exact Hat].

Lemma blacklist_event iss o h ri s s' : blacklist o h ri s = (Ok tt, s') → event_run iss ri s s'.
Proof.
  unfold blacklist, dem_ensure, slash_deposits, clear_metadata. intros Hr.
  pose proof (at_core_refl s) as Hat. do 6 quiet_step Hr Hat.
  destruct ri as [i|]; [|inv_run; by exists LKeep, (core s); split; [constructor|]].
  inv_run. destruct (_ !! i) as [[st|]|] in Hk; [destruct (bool_decide _) in Hk|..];
    try (inv_run; by exists LKeep, (core s); split; [constructor|]).
  by eapply cancel_event.
Qed.

(** The arguments of a call are of their types. *)
Definition call_typed (call : DemocracyCall) : Prop :=
  match call with
  | CastVote _ v => vote_typed v
  | Delegate _ _ bal => is_u 128 bal
  | _ => True
  end.

Lemma dispatch_event iss o call s s' :
  call_typed call → democracy_call o call s = (Ok tt, s') → event_run iss (cancels call) s s'.
Proof.
  destruct call; cbn [democracy_call cancels call_typed]; unfold dem_signed; intros Hty.
  - apply quiet_run. intros. apply propose_at.
  - apply quiet_run. intros. apply second_at.
  - intros Hr. inv_run. by eapply try_vote_event.
  - unfold emergency_cancel, dem_ensure, referendum_status. intros Hr. pose proof (at_core_refl s) as Hat.
    do 5 quiet_step Hr Hat. by eapply cancel_event.
  - apply quiet_run. intros. apply external_at.
  - apply quiet_run. intros. apply external_at.
  - apply quiet_run. intros. apply external_at.
  - apply fast_track_event.
  - apply quiet_run. intros. apply veto_external_at.
  - unfold cancel_referendum, dem_ensure. intros Hr. pose proof (at_core_refl s) as Hat.
    quiet_step Hr Hat. by eapply cancel_event.
  - intros Hr. inv_run. by eapply try_delegate_event.
  - intros Hr. inv_run. by eapply try_undelegate_event.
  - apply quiet_run. intros. apply clear_public_at.
  - intros Hr. inv_run. by eapply update_lock_event.
  - intros Hr. inv_run. by eapply try_remove_vote_event.
  - intros Hr. inv_run. by eapply try_remove_vote_event.
  - apply blacklist_event.
  - apply quiet_run. intros. apply cancel_proposal_at.
  - apply quiet_run. intros. apply set_metadata_at.
Qed.

(** ** A block is an event *)
Definition launched (s : Dem) (r : res DemError unit) (s' : Dem) : Prop :=
  (r = Panic ∧ u32_max ≤ ReferendumCount s) ∨ w_issuance (d_wallet s') = w_issuance (d_wallet s)
    ∧ ((r = Err NoneWaiting ∧ at_core (core s) (locks s) s')
       ∨ (r = Ok tt ∧ ∃ c', tabled (core s) c' ∧ at_core c' (locks s) s')).

(** Executes the first primitive of a run. *)
Tactic Notation "enter" hyp(Hr) reference(prim) :=
  unfold mbind at 1, M_bind at 1, prim at 1 in Hr; cbv beta iota zeta in Hr.

Lemma launch_external_run s r s' : launch_external (d_block s) s = (r, s') → launched s r s'.
Proof.
  unfold launch_external. intros Hr. enter Hr get_state.
  destruct (NextExternal s) as [[p th]|]; [|injection Hr as <- <-; right; split; [done|by left]].
  enter Hr modify.
  apply (inject_tabled _ (core s) (locks s)) in Hr as [?|(-> & c' & Ht & Hc & Hw)];
    [by left| |by split|done].
  right. rewrite Hw. split; [done|]. right. eauto.
Qed.

Lemma unreserve_all_run l n s :
  ∃ s', for_each l (λ d, on_wallet (w_unreserve d n)) s = (Ok tt, s') ∧ at_core (core s) (locks s) s'
    ∧ w_issuance (d_wallet s') = w_issuance (d_wallet s).
Proof.
  revert s. induction l as [|a l IH]; intros s; [by exists s|].
  destruct (IH (s <| d_wallet ::= w_unreserve a n |>)) as (s' & Hr & [Hc HL] & Hi).
  exists s'. split; [done|]. split; [split; [done|]|].
  - intros b. rewrite HL. apply unreserve_lock.
  - rewrite Hi. apply unreserve_issuance.
Qed.

Lemma launch_public_run s r s' : launch_public (d_block s) s = (r, s') → launched s r s'.
Proof.
  unfold launch_public. intros Hr. enter Hr get_state.
  destruct (max_by_key _ 0 (PublicProps s) None) as [[i [[k p] who]]|];
    [|injection Hr as <- <-; right; split; [done|by left]].
  enter Hr modify.
  destruct (DepositOf s !! k) as [[ds am]|].
  2: { injection Hr as <- <-. right. split; [done|right]. split; [done|]. exists (core s). by split; [constructor|]. }
  enter Hr modify.
  match type of Hr with _ ?x = _ => destruct (unreserve_all_run ds am x) as (s1 & H1 & [Hc HL] & Hi) end.
  unfold mbind at 1, M_bind at 1 in Hr. rewrite H1 in Hr.
  apply (inject_tabled _ (core s) (locks s)) in Hr as [?|(-> & c' & Ht & Hc' & Hw)];
    [by left| |by split|done].
  right. rewrite Hw, Hi. split; [done|]. right. eauto.
Qed.

(** A second launch is tried where the first one fails. *)
Lemma or_else_launched now (m m' : DCall unit) s r s' :
  (∀ s r s', d_block s = now → m s = (r, s') → launched s r s') →
  (∀ s r s', d_block s = now → m' s = (r, s') → launched s r s') →
  d_block s = now → map_err (λ _, NoneWaiting) (or_else m m') s = (r, s') → launched s r s'.
Proof.
  intros Hm Hm' Hnow. unfold map_err, or_else.
  destruct (m s) as [[[]|e|] s1] eqn:H1.
  3: { intros [= <- <-]. by apply Hm. }
  { intros [= <- <-]. by apply Hm. }
  apply Hm in H1 as [[? _]|(Hi & [(_ & Hc & HL)|(? & _)])]; [done| |done..].
  destruct (m' s1) as [r2 s2] eqn:H2.
  assert (ReferendumCount s1 = ReferendumCount s) as Hcount by (injection Hc; congruence).
  apply Hm' in H2 as [[-> Hmax]|(Hi2 & H2)]; [intros [= <- <-]; left; by rewrite <- Hcount| |].
  2: { change (c_block (core s1) = now). by rewrite Hc. }
  intros Hr. destruct H2 as [(-> & Hc2 & HL2)|(-> & c' & Ht & Hc2 & HL2)]; injection Hr as <- <-;
    right; (split; [congruence|]).
  - left. split; [done|]. split; [congruence|]. intros a. rewrite HL2. apply HL.
  - right. split; [done|]. exists c'. rewrite <- Hc. split; [done|]. split; [done|].
    intros a. rewrite HL2. apply HL.
Qed.

Lemma launch_next_run s r s' : launch_next (d_block s) s = (r, s') → launched s r s'.
Proof.
  unfold launch_next. intros Hr. enter Hr get_state. enter Hr modify.
  destruct (LastTabledWasExternal s); (eapply (or_else_launched (d_block s)) in Hr; [done|..|done]);
    intros s1 r1 s1' <-; first [apply launch_external_run | apply launch_public_run].
Qed.

(** The loop over the referenda that end *)
Definition bake_body (now : Z) (it : Z * ReferendumStatus) : DCall unit :=
  ok ← bake_referendum now it.1 it.2; put_referendum it.1 (Finished ok now).

Lemma bake_body_run now it s s' :
  bake_body now it s = (Ok tt, s') →
  ∃ ok, approved (r_threshold it.2) (r_tally it.2) (w_issuance (d_wallet s)) = Ok ok
    ∧ core s' = c_info it.1 (Finished ok now) (core s) ∧ d_wallet s' = d_wallet s.
Proof.
  unfold bake_body, bake_referendum, put_referendum. intros Hr. inv_run.
  destruct (approved (r_threshold it.2) (r_tally it.2) (w_issuance (d_wallet s))) as [[]|e|];
    inv_run; eexists; done.
Qed.

Lemma bake_run now items s s' :
  for_each items (bake_body now) s = (Ok tt, s') →
  ∃ oks, Forall2 (decided (w_issuance (d_wallet s))) items oks
    ∧ core s' = (core s) <| c_infos := finish now (ReferendumInfoOf s) oks |> ∧ d_wallet s' = d_wallet s.
Proof.
  revert s. induction items as [|[i st] items IH]; intros s; cbn [for_each].
  - intros [= <-]. exists []. split; [constructor|done].
  - intros Hr. apply bind_ok_inv in Hr as ([] & s1 & H1 & Hr).
    apply bake_body_run in H1 as (ok & Hok & Hc1 & Hw1). apply IH in Hr as (oks & Hoks & Hc & Hw).
    rewrite Hw1 in Hoks, Hw. exists ((i, ok) :: oks). split; [by constructor|]. split; [|done].
    rewrite Hc. change (ReferendumInfoOf s1) with (c_infos (core s1)). by rewrite Hc1.
Qed.

(** Tabling at the launch period, whatever comes of it *)
Definition launch_part (now : Z) : DCall unit :=
  if now mod LaunchPeriod =? 0 then swallow (launch_next now) else mret tt.
Lemma launch_part_run s r s1 :
  launch_part (d_block s) s = (r, s1) →
  (r = Panic ∧ u32_max ≤ ReferendumCount s)
  ∨ (r = Ok tt ∧ w_issuance (d_wallet s1) = w_issuance (d_wallet s)
     ∧ ∃ c1, tabled (core s) c1 ∧ at_core c1 (locks s) s1).
Proof.
  unfold launch_part. destruct (d_block s mod LaunchPeriod =? 0).
  2: { intros [= <- <-]. right. split_and!; [done..|]. exists (core s). by split; [constructor|]. }
  unfold swallow. destruct (launch_next (d_block s) s) as [r2 s2] eqn:Hn.
  apply launch_next_run in Hn as [[-> Hmax]|(Hi & [(-> & Ha)|(-> & c1 & Ht & Ha)])]; intros [= <- <-].
  - by left.
  - right. split_and!; [done..|]. exists (core s). by split; [constructor|].
  - right. split_and!; [done..|]. eauto.
Qed.

Lemma block_run s s' :
  next_block s = (Ok tt, s') →
  ∃ c1 oks, tabled ((core s) <| c_block := d_block s + 1 |>) c1
    ∧ Forall2 (decided (w_issuance (d_wallet s))) (c_maturing (ReferendumCount s) c1) oks
    ∧ at_core (c_bake (ReferendumCount s) oks c1) (locks s) s'.
Proof.
  unfold next_block, begin_block. intros Hr. enter Hr get_state. enter Hr modify. enter Hr get_state.
  set (now := d_block s + 1) in Hr. set (s0 := s <| d_block := now |>) in Hr.
  apply bind_ok_inv in Hr as ([] & s1 & Hl & Hr).
  apply (launch_part_run s0) in Hl as [[? _]|(_ & Hi & c1 & Ht & Hc & HL)]; [done|].
  enter Hr get_state. apply bind_ok_inv in Hr as ([] & s2 & Hb & Hr).
  apply bake_run in Hb as (oks & Hoks & Hc2 & Hw2). inv_run. exists c1, oks. split; [done|].
  assert (c_lowest c1 = LowestUnbaked s ∧ c_block c1 = now) as [Hlow Hnow] by by destruct Ht.
  change (w_issuance (d_wallet s0)) with (w_issuance (d_wallet s)) in Hi.
  split; [|split; [|intros a; cbn; by rewrite Hw2, HL]].
  - rewrite <- Hi. unfold c_maturing. rewrite Hlow, Hnow, <- Hc. exact Hoks.
  - unfold c_bake. rewrite Hnow, <- Hc.
    injection Hc2 as E1 E2 E3 E4 E5. unfold core. cbn. by rewrite E1, E2, E3, E4, E5.
Qed.

Lemma block_event s s' :
  d_block s + 1 < u32_max → next_block s = (Ok tt, s') → event_run (w_issuance (d_wallet s)) None s s'.
Proof.
  intros Hlt (c1 & oks & Ht & Hoks & Hat)%block_run.
  exists LKeep, (c_bake (ReferendumCount s) oks c1). split; [by apply ev_block|done].
Qed.

(** *** A block does not fail *)
Lemma maturing_spec m now lo n i st :
  (i, st) ∈ maturing m now lo n
  ↔ lo ≤ i < lo + Z.of_nat n ∧ m !! i = Some (Ongoing st) ∧ r_end st = now.
Proof.
  revert lo. induction n as [|n IH]; intros lo.
  { split; [by intros ?%not_elem_of_nil|lia]. }
  assert ((i, st) ∈ maturing m now lo (S n)
    ↔ (i = lo ∧ m !! i = Some (Ongoing st) ∧ r_end st = now) ∨ (i, st) ∈ maturing m now (lo + 1) n) as ->.
  { cbn [maturing]. destruct (m !! lo) as [[st'|]|] eqn:Hm; [destruct (Z.eqb_spec (r_end st') now)|..];
      rewrite ?elem_of_cons; naive_solver. }
  rewrite IH. destruct (Z.eq_dec i lo) as [->|Hne]; [|naive_solver lia].
  split; [intros [|]; [|lia]; split; [lia|tauto]|]. tauto.
Qed.

Lemma bake_total now items s :
  (∀ i st, (i, st) ∈ items → ∃ ok, approved (r_threshold st) (r_tally st) (w_issuance (d_wallet s)) = Ok ok) →
  ∃ s', for_each items (bake_body now) s = (Ok tt, s').
Proof.
  revert s. induction items as [|[i st] items IH]; intros s Hall; [by exists s|]. cbn [for_each].
  destruct (Hall i st) as [ok Hok]; [by left|].
  assert (∃ s1, bake_body now (i, st) s = (Ok tt, s1)) as [s1 H1].
  { unfold bake_body, bake_referendum, put_referendum. mrun. cbn [fst snd]. rewrite Hok.
    destruct ok; by eexists. }
  destruct (bake_body_run _ _ _ _ H1) as (_ & _ & _ & Hw).
  destruct (IH s1) as [s' Hs']; [|exists s'; by eapply bind_ok].
  intros j st' Hin. rewrite Hw. apply (Hall j). by right.
Qed.

Lemma block_total s :
  ReferendumCount s < u32_max →
  (∀ i st, ReferendumInfoOf s !! i = Some (Ongoing st) →
    ∃ ok, approved (r_threshold st) (r_tally st) (w_issuance (d_wallet s)) = Ok ok) →
  ∃ s', next_block s = (Ok tt, s').
Proof.
  intros Hcount Hall. set (now := d_block s + 1). set (s0 := s <| d_block := now |>).
  destruct (launch_part now s0) as [r s1] eqn:Hl.
  apply (launch_part_run s0) in Hl as Hl'.
  destruct Hl' as [[_ ?]|(-> & Hi & c1 & Ht & Hc & _)]; [cbn in *; lia|].
  destruct (bake_total now (maturing (ReferendumInfoOf s1) now (LowestUnbaked s)
    (Z.to_nat (ReferendumCount s - LowestUnbaked s))) s1) as [s2 H2].
  - intros i st Hin. rewrite Hi. change (w_issuance (d_wallet s0)) with (w_issuance (d_wallet s)).
    apply maturing_spec in Hin as (_ & Hst & _). change (ReferendumInfoOf s1) with (c_infos (core s1)) in Hst.
    rewrite Hc in Hst. destruct Ht as [|period p th delay _ _]; [by apply (Hall i)|].
    cbn in Hst. apply lookup_insert_Some in Hst as [[_ [= <-]]|[_ Hst]]; [by exists false|by apply (Hall i)].
  - eexists. unfold next_block, begin_block. eapply bind_ok; [done|]. eapply bind_ok; [done|].
    eapply bind_ok; [done|]. eapply bind_ok; [exact Hl|]. eapply bind_ok; [done|]. eapply bind_ok; [exact H2|]. done.
Qed.
End events.
