(* ===== verification/DemocracyInv.v ===== *)
(** * Invariants of votes and referenda

    What the events of [DemocracyEvents] leave behind, and the first invariant they keep:
    the stored values are of their types ([typed]). *)

From S2P Require Import Prelude Assets Types Bank Chain Policy Conviction Democracy DemocracyVotes DemocracyEvents.

(** ** The types of the stored values *)
Definition deleg_typed (d : Delegations) : Prop := is_u 128 (votes d) ∧ is_u 128 (capital d).
Definition prior_typed (p : PriorLock) : Prop := is_u 32 (until p) ∧ is_u 128 (locked p).
Definition tally_typed (t : Tally) : Prop := is_u 128 (ayes t) ∧ is_u 128 (nays t) ∧ is_u 128 (turnout t).

Lemma vote_typed_wf v : vote_typed v → vote_wf v.
Proof. destruct v; cbn; unfold is_u; lia. Qed.
Lemma deleg_typed_wf d : deleg_typed d → deleg_wf d.
Proof. unfold deleg_typed, deleg_wf, is_u. lia. Qed.

Lemma conviction_votes_typed c n : is_u 128 n → deleg_typed (conviction_votes c n).
Proof.
  intros Hn. split; [|done]. split; [by apply conviction_votes_nonneg, Hn|].
  destruct Hn as [H0 Hn]. destruct c; cbn [conviction_votes votes];
    [transitivity n; [apply Z.div_le_upper_bound; lia|done]|..];
    unfold checked_mul_u; case_match eqn:Hle; cbn [from_option id]; try done; by apply Z.leb_le in Hle.
Qed.

Lemma delegations_add_typed a b : deleg_typed a → deleg_typed b → deleg_typed (delegations_add a b).
Proof. unfold deleg_typed, delegations_add, sat_add, is_u. cbn -[umax]. lia. Qed.
Lemma delegations_sub_typed a b : deleg_typed a → deleg_typed b → deleg_typed (delegations_sub a b).
Proof. unfold deleg_typed, delegations_sub, sat_sub, is_u. cbn -[umax]. lia. Qed.

Lemma tally_increase_typed t b d : tally_typed t → deleg_typed d → tally_typed (tally_increase t b d).
Proof. unfold tally_typed, deleg_typed, tally_increase, sat_add, is_u. destruct b; cbn -[umax]; lia. Qed.
Lemma tally_reduce_typed t b d : tally_typed t → deleg_typed d → tally_typed (tally_reduce t b d).
Proof. unfold tally_typed, deleg_typed, tally_reduce, sat_sub, is_u. destruct b; cbn -[umax]; lia. Qed.

(** Splits the successful branches of checked arithmetic. *)
Ltac checked_ok H :=
  repeat match type of H with
  | context [if (?a <=? ?b) then _ else _] =>
      let Hle := fresh "Hle" in destruct (Z.leb_spec a b) as [Hle|Hle]; cbn -[umax conviction_votes] in H; [|done]
  end; injection H as <-.

Lemma cast_vote_typed t v d t' :
  tally_typed t → vote_typed v → deleg_typed d → cast_vote t v d = Some t' → tally_typed t'.
Proof.
  intros Ht Hv Hd. unfold cast_vote. destruct v as [[ay c] bal|a n]; cbn [tally_add as_standard aye conviction].
  - pose proof (conviction_votes_typed c bal Hv) as Hc. destruct (conviction_votes c bal) as [dv dc].
    unfold checked_add_u. destruct ay; cbn -[umax]; intros H; checked_ok H;
      unfold tally_typed, deleg_typed, sat_add, is_u in *; cbn -[umax] in *; lia.
  - destruct Hv as [Ha Hn]. pose proof (conviction_votes_typed NoConviction a Ha) as Hca.
    pose proof (conviction_votes_typed NoConviction n Hn) as Hcn.
    destruct (conviction_votes NoConviction a), (conviction_votes NoConviction n).
    unfold checked_add_u. cbn -[umax]. intros H; checked_ok H.
    unfold tally_typed, deleg_typed, is_u in *; cbn -[umax] in *; lia.
Qed.

Lemma withdraw_vote_typed t v d t' :
  tally_typed t → vote_typed v → deleg_typed d → withdraw_vote t v d = Some t' → tally_typed t'.
Proof.
  intros Ht Hv Hd. unfold withdraw_vote. destruct v as [[ay c] bal|a n]; cbn [tally_remove as_standard aye conviction].
  - pose proof (conviction_votes_typed c bal Hv) as Hc. destruct (conviction_votes c bal) as [dv dc].
    unfold checked_sub_u. destruct ay; cbn -[umax]; intros H; checked_ok H;
      unfold tally_typed, deleg_typed, sat_sub, is_u in *; cbn -[umax] in *; lia.
  - destruct Hv as [Ha Hn]. pose proof (conviction_votes_typed NoConviction a Ha) as Hca.
    pose proof (conviction_votes_typed NoConviction n Hn) as Hcn.
    destruct (conviction_votes NoConviction a), (conviction_votes NoConviction n).
    unfold checked_sub_u. cbn -[umax]. intros H; checked_ok H.
    unfold tally_typed, deleg_typed, is_u in *; cbn -[umax] in *; lia.
Qed.

Lemma revote_typed t old v d t' :
  tally_typed t → (∀ w, old = Some w → vote_typed w) → vote_typed v → deleg_typed d →
  revote t old v d = Some t' → tally_typed t'.
Proof.
  intros Ht Ho Hv Hd. unfold revote. destruct old as [w|]; [|by apply cast_vote_typed].
  destruct (withdraw_vote t w d) as [t1|] eqn:Hw; cbn; [|done].
  apply cast_vote_typed; [|done..]. by apply (withdraw_vote_typed t w d); [|apply Ho|..].
Qed.

Lemma unlock_block_typed a n : is_u 32 a → 0 ≤ n → is_u 32 (unlock_block a n).
Proof.
  unfold unlock_block, sat_add, sat_mul, is_u. intros Ha Hn.
  assert (0 ≤ VoteLockingPeriod * n) by (apply Z.mul_nonneg_nonneg; [by vm_compute|done]). lia.
Qed.
Lemma lock_periods_nonneg c : 0 ≤ lock_periods c.
Proof. by destruct c. Qed.
Lemma accumulate_typed p u n : prior_typed p → is_u 32 u → is_u 128 n → prior_typed (accumulate p u n).
Proof. unfold prior_typed, is_u. cbn. lia. Qed.
Lemma prior_rejig_typed p now : prior_typed p → prior_typed (prior_rejig p now).
Proof. intros Hp. unfold prior_rejig. case_match; [|done]. split; split; by vm_compute. Qed.
Create HintDb typed.
#[export] Hint Resolve unlock_block_typed lock_periods_nonneg accumulate_typed prior_rejig_typed
  conviction_votes_typed delegations_add_typed delegations_sub_typed tally_increase_typed
  tally_reduce_typed : typed.

(** What is stored for an account *)
Definition voting_typed (count : Z) (a : AccountId) (vt : Voting) : Prop :=
  deleg_typed (delegations_of vt) ∧ prior_typed (prior_of vt) ∧
  match vt with
  | Direct vs _ _ =>
      votes_sorted vs ∧ (length vs ≤ MaxVotes)%nat ∧ ∀ r v, (r, v) ∈ vs → 0 ≤ r < count ∧ vote_typed v
  | Delegating b t _ _ _ => t ≠ a ∧ is_u 128 b
  end.
Lemma default_typed count a : voting_typed count a default_voting.
Proof.
  split; [split; split; by vm_compute|]. split; [split; split; by vm_compute|].
  split; [constructor|]. split; [cbn; lia|].
  by intros r v ?%not_elem_of_nil.
Qed.

Section invariants.
Context {VC : VotingCurrency} {PR : Proposals} {CO : Collective}.
Implicit Types c : Core.

(** ** Lookups after an event *)
Lemma voting_put a vt c b : voting (c_put a vt c) b = if decide (b = a) then vt else voting c b.
Proof.
  unfold voting, c_put. cbn. case_decide as Hb; [subst; by rewrite lookup_insert_eq|by rewrite lookup_insert_ne].
Qed.
Lemma voting_info i x c b : voting (c_info i x c) b = voting c b.
Proof. done. Qed.
Lemma voting_upstream g f a am c b :
  voting (c_upstream g f a am c) b
  = if decide (b = a)
    then set_common (voting c a) (g (delegations_of (voting c a)) am) (prior_of (voting c a))
    else voting c b.
Proof. unfold c_upstream. rewrite voting_put. by destruct (voting c a). Qed.

Lemma infos_info i x c r : c_infos (c_info i x c) !! r = if decide (r = i) then Some x else c_infos c !! r.
Proof.
  unfold c_info. cbn. case_decide as Hr; [subst; by rewrite lookup_insert_eq|by rewrite lookup_insert_ne].
Qed.

(** Delegated votes only reach open referenda in which the voter has a standard vote. *)
Definition retally_status (f : Tally → bool → Delegations → Tally) (am : Delegations)
    (o : option AccountVote) (st : ReferendumStatus) : ReferendumStatus :=
  match o with Some (Standard vote _) => st <| r_tally := f (r_tally st) (aye vote) am |> | _ => st end.
Lemma retally_lookup f am vs m r :
  votes_sorted vs →
  foldl (retally_info f am) m vs !! r
  = match m !! r with
    | Some (Ongoing st) => Some (Ongoing (retally_status f am (vote_of r vs) st))
    | o => o
    end.
Proof.
  revert m. induction vs as [|[k v] vs IH]; intros m Hs.
  { cbn. by destruct (m !! r) as [[]|]. }
  apply votes_sorted_cons in Hs as [Hs Hk]. cbn [foldl]. rewrite IH by done.
  assert (k = r ∨ k ≠ r ∧ vote_of r ((k, v) :: vs) = vote_of r vs ∧ retally_info f am m (k, v) !! r = m !! r)
    as [->|(Hne & -> & ->)]; [|clear IH|done].
  - destruct (Z.eq_dec k r) as [|Hne]; [by left|right]. split; [done|]. split.
    + rewrite vote_of_cons. destruct (Z.ltb_spec k r); [done|].
      destruct (Z.eqb_spec k r); [done|]. symmetry. apply vote_of_small. intros k' v' Hin.
      specialize (Hk _ _ Hin). lia.
    + unfold retally_info. cbn. destruct v; [|done]. destruct (m !! k) as [[]|]; [|done..].
      by rewrite lookup_insert_ne.
  - assert (vote_of r vs = None) as -> by (apply vote_of_small; intros k' v' Hin; by apply (Hk k' v')).
    rewrite vote_of_cons, Z.ltb_irrefl, Z.eqb_refl. unfold retally_info, retally_status. cbn.
    destruct v as [vote bal|]; destruct (m !! r) as [[st|]|] eqn:Hm; rewrite ?Hm, ?lookup_insert_eq; done.
Qed.

(** ** Stored values are of their types *)
Definition info_typed (info : ReferendumInfo) : Prop :=
  match info with
  | Ongoing st => is_u 32 (r_end st) ∧ tally_typed (r_tally st)
  | Finished _ fin => is_u 32 fin
  end.
Record typed (c : Core) : Prop := {
  typed_block : 0 ≤ c_block c < u32_max;
  typed_count : is_u 32 (c_count c);
  typed_info i info : c_infos c !! i = Some info → 0 ≤ i < c_count c ∧ info_typed info;
  typed_voting a : voting_typed (c_count c) a (voting c a);
}.

Lemma typed_put a vt c : typed c → voting_typed (c_count c) a vt → typed (c_put a vt c).
Proof.
  intros [H1 H2 H3 H4] Hv. constructor; [done..|]. intros b. rewrite voting_put.
  case_decide; [by subst|apply H4].
Qed.

Lemma typed_info_put i info c :
  typed c → 0 ≤ i < c_count c → info_typed info → typed (c_info i info c).
Proof.
  intros [H1 H2 H3 H4] Hi Hx. constructor; [done..| |done]. intros j x. rewrite infos_info.
  case_decide; [|apply H3]. intros [= <-]. by subst.
Qed.

Lemma voting_typed_common count a vt d p :
  voting_typed count a vt → deleg_typed d → prior_typed p → voting_typed count a (set_common vt d p).
Proof. unfold voting_typed. by destruct vt; cbn; intros (? & ? & ?) ? ?. Qed.

Lemma typed_upstream g f a am c :
  typed c → deleg_typed am →
  (∀ d, deleg_typed d → deleg_typed (g d am)) →
  (∀ t b, tally_typed t → tally_typed (f t b am)) →
  typed (c_upstream g f a am c).
Proof.
  intros Ht Ham Hg Hf. pose proof (typed_voting c Ht a) as Ha. unfold c_upstream.
  apply typed_put; [|destruct Ha as (Hd & Hp & _); apply voting_typed_common; [apply Ht|by apply Hg|done]].
  destruct Ht as [H1 H2 H3 H4]. constructor; [done..| |done]. intros i info. cbn.
  destruct (voting c a) as [vs d p|]; [|apply H3].
  destruct Ha as (_ & _ & Hs & _). rewrite retally_lookup by done.
  destruct (c_infos c !! i) as [[st|ap fin]|] eqn:Hi; [| |done]; intros [= <-]; [|by apply H3].
  destruct (H3 _ _ Hi) as [Hr [He Htl]]. split; [done|]. unfold retally_status.
  destruct (vote_of i vs) as [[]|]; [|by split..]. split; [done|]. by apply Hf.
Qed.

Lemma typed_gain a am c : typed c → deleg_typed am → typed (c_gain a am c).
Proof. intros. apply typed_upstream; auto with typed. Qed.
Lemma typed_lose a am c : typed c → deleg_typed am → typed (c_lose a am c).
Proof. intros. apply typed_upstream; auto with typed. Qed.

Lemma voting_typed_mono n n' a vt : n ≤ n' → voting_typed n a vt → voting_typed n' a vt.
Proof.
  intros Hn (Hd & Hp & Hv). split; [done|]. split; [done|]. destruct vt; [|done].
  destruct Hv as (Hs & Hl & Hv). split; [done|]. split; [done|]. intros r v Hin.
  destruct (Hv r v Hin). split; [lia|done].
Qed.

Lemma typed_tabled c c' : tabled c c' → typed c → typed c'.
Proof.
  intros [|period p th delay Hp Hlt] Ht; [done|]. destruct Ht as [H1 H2 H3 H4].
  assert (0 ≤ c_count c) by apply H2. unfold c_table. apply typed_info_put; cbn; [|lia|].
  - constructor; cbn; [done|unfold is_u; unfold u32_max in Hlt; lia| |].
    + intros i info Hi. destruct (H3 _ _ Hi). split; [lia|done].
    + intros a. apply (voting_typed_mono (c_count c)); [lia|apply H4].
  - unfold u32_max in H1. split; [unfold sat_add, is_u; lia|]. split_and!; split; by vm_compute.
Qed.

(** What deciding referenda leaves at an index *)
Lemma finish_lookup now m oks r :
  (∃ ok, (r, ok) ∈ oks ∧ finish now m oks !! r = Some (Finished ok now))
  ∨ (r ∉ oks.*1 ∧ finish now m oks !! r = m !! r).
Proof.
  unfold finish. induction oks as [|[i ok] oks IH] using rev_ind; [right; split; [by intros ?%not_elem_of_nil|done]|].
  rewrite foldl_snoc. cbn. destruct (decide (r = i)) as [->|Hne].
  - left. exists ok. rewrite lookup_insert_eq. split; [|done]. apply elem_of_app. right. by left.
  - rewrite lookup_insert_ne by done. destruct IH as [(ok' & Hin & ->)|(Hn & ->)].
    + left. exists ok'. split; [|done]. apply elem_of_app. by left.
    + right. split; [|done]. rewrite fmap_app, elem_of_app. cbn. rewrite elem_of_cons.
      intros [|[->|?%not_elem_of_nil]]; done.
Qed.

Lemma typed_bake last oks c its iss :
  Forall2 (decided iss) its oks → (∀ i st, (i, st) ∈ its → is_Some (c_infos c !! i)) →
  typed c → typed (c_bake last oks c).
Proof.
  intros Hd Hin [H1 H2 H3 H4]. constructor; [done..| |done]. intros r info. cbn.
  destruct (finish_lookup (c_block c) (c_infos c) oks r) as [(ok & Ho & ->)|(_ & ->)]; [|apply H3].
  intros [= <-]. apply list_elem_of_lookup in Ho as [j Hj].
  destruct (Forall2_lookup_r _ _ _ _ _ Hd Hj) as ([i st] & Hi & Hr & _). cbn in Hr. subst i.
  destruct (Hin r st) as [x Hx]; [by apply list_elem_of_lookup_2 in Hi|].
  split; [by eapply H3|]. cbn. unfold is_u. unfold u32_max in H1. lia.
Qed.

Lemma prior_after_typed c r v p :
  typed c → vote_typed v → prior_typed p → prior_typed (prior_after c r v p).
Proof.
  intros Ht Hv Hp. unfold prior_after. destruct (c_infos c !! r) as [[|ap fin]|] eqn:Hi; [done| |done].
  destruct (locked_if v ap) as [[n bal]|] eqn:Hl; [|done]. case_match; [|done].
  destruct v as [vote b|]; [|done]. cbn in Hl. case_bool_decide; [|done]. injection Hl as <- <-.
  destruct (typed_info c Ht r _ Hi). apply accumulate_typed; auto with typed.
Qed.
Lemma after_delegation_typed c conv b p :
  typed c → is_u 128 b → prior_typed p → prior_typed (after_delegation c conv b p).
Proof.
  intros Ht Hb Hp. apply accumulate_typed; [done| |done]. apply unlock_block_typed; [|auto with typed].
  pose proof (typed_block c Ht). unfold is_u, u32_max in *. lia.
Qed.

(** The votes of an account, and who it delegates to *)
Lemma typed_direct c a vs d p :
  typed c → voting c a = Direct vs d p →
  votes_sorted vs ∧ (length vs ≤ MaxVotes)%nat ∧ deleg_typed d ∧ prior_typed p
  ∧ ∀ r v, (r, v) ∈ vs → 0 ≤ r < c_count c ∧ vote_typed v.
Proof. intros Ht Hv. pose proof (typed_voting c Ht a) as H. rewrite Hv in H. unfold voting_typed in H. tauto. Qed.
Lemma typed_delegating c a b t conv d p :
  typed c → voting c a = Delegating b t conv d p →
  t ≠ a ∧ is_u 128 b ∧ deleg_typed d ∧ prior_typed p ∧ deleg_typed (conviction_votes conv b).
Proof.
  intros Ht Hv. pose proof (typed_voting c Ht a) as H. rewrite Hv in H. destruct H as (? & ? & ? & ?).
  split_and!; auto with typed.
Qed.
Lemma typed_vote c a vs d p r v :
  typed c → voting c a = Direct vs d p → vote_of r vs = Some v → vote_typed v.
Proof.
  intros Ht Hv Hr. destruct (typed_direct c a vs d p Ht Hv) as (Hs & _ & _ & _ & Hall).
  apply (vote_of_elem _ _ _ Hs) in Hr. by apply (Hall r).
Qed.

Lemma typed_drop c a vs d p r v p' :
  typed c → voting c a = Direct vs d p → vote_of r vs = Some v → prior_typed p' →
  voting_typed (c_count c) a (Direct (drop_vote r vs) d p').
Proof.
  intros Ht Hv Hr Hp'. destruct (typed_direct c a vs d p Ht Hv) as (Hs & Hl & Hd & Hp & Hall).
  destruct (drop_vote_spec r v vs Hs Hr) as [Hs' Hin]. split; [done|]. split; [done|].
  split; [done|]. split.
  - unfold drop_vote. pose proof (sublist_length _ _ (sublist_delete vs (position r vs).1)). lia.
  - intros k w [_ Hk]%Hin. by apply Hall.
Qed.

Lemma typed_event iss c ch c' : core_event iss c ch c' → typed c → typed c'.
Proof.
  intros Hev Ht. destruct Hev as
    [|who r v st vs d p t Hi Hv Hrv Hvt Hlen|who r v st vs d p t Hi Hv Hr Hw|who r v vs d p Ho Hv Hr
    |who t conv bal d p Hne Hv Hb|who t0 conv0 bal0 t conv bal d p Hne Hv Hb|who t conv bal d p Hv
    |who vt|c' Htab|r|c1 oks Hlt Htab Hoks]; [done|..].
  - destruct (typed_info c Ht r _ Hi) as [Hr [He Htl]].
    destruct (typed_direct c who vs d p Ht Hv) as (Hs & Hl & Hd & Hp & Hall).
    destruct (put_vote_spec r v vs Hs) as [Hs' Hin]. apply typed_info_put; [|done|split; [done|]].
    + apply typed_put; [done|]. split; [done|]. split; [done|]. split; [done|]. split; [lia|].
      intros k w [[-> ->]|[_ Hk]]%Hin; [done|by apply Hall].
    + cbn. eapply revote_typed; [done| |done|done|done]. intros w Hw. by eapply typed_vote.
  - destruct (typed_info c Ht r _ Hi) as [Hir [He Htl]].
    destruct (typed_direct c who vs d p Ht Hv) as (_ & _ & Hd & Hp & _).
    apply typed_put; [|by apply (typed_drop c who vs d p r v)]. apply typed_info_put; [done|done|split; [done|]].
    cbn. eapply withdraw_vote_typed; [done| |done|done]. by eapply typed_vote.
  - destruct (typed_direct c who vs d p Ht Hv) as (_ & _ & Hd & Hp & _).
    apply typed_put; [done|]. eapply typed_drop; [done..|]. apply prior_after_typed; [done| |done].
    by eapply typed_vote.
  - destruct (typed_direct c who [] d p Ht Hv) as (_ & _ & Hd & Hp & _).
    apply typed_put; [apply typed_gain; auto with typed|]. by split_and!.
  - destruct (typed_delegating c who bal0 t0 conv0 d p Ht Hv) as (Ht0 & Hb0 & Hd & Hp & Ham).
    apply typed_put; [apply typed_gain; [apply typed_lose|]; auto with typed|].
    split; [done|]. split; [by apply after_delegation_typed|]. by split.
  - destruct (typed_delegating c who bal t conv d p Ht Hv) as (Ht0 & Hb0 & Hd & Hp & Ham).
    apply typed_put; [apply typed_lose; auto with typed|].
    split; [done|]. split; [by apply after_delegation_typed|]. split; [constructor|]. split; [cbn; lia|].
    by intros k w ?%not_elem_of_nil.
  - apply typed_put; [done|]. destruct (typed_voting c Ht who) as (Hd & Hp & ?).
    apply voting_typed_common; [apply Ht|done|auto with typed].
  - by eapply typed_tabled.
  - destruct Ht as [H1 H2 H3 H4]. constructor; [done..| |done]. intros i info. cbn.
    intros [_ Hi]%lookup_delete_Some. by apply H3.
  - eapply typed_bake; [exact Hoks| |].
    + intros i st (_ & Hi & _)%maturing_spec. by eexists.
    + apply (typed_tabled _ _ Htab). destruct Ht as [H1 H2 H3 H4]. constructor; [cbn; lia|done..].
Qed.
End invariants.
