(* ===== verification/DemocracySums.v ===== *)
(** * Tallies and delegations are sums

    The tally of an open referendum is maintained call by call, and so is what is
    delegated to an account.  As long as the sums fit 128 bits, both are what summing
    over all accounts gives ([exact_event]). *)

From S2P Require Import Prelude Assets Types Bank Chain Policy Conviction Democracy DemocracyVotes DemocracyEvents.
From S2P Require Import DemocracyInv.

Definition d_plus (a b : Delegations) : Delegations := mkDelegations (votes a + votes b) (capital a + capital b).
Definition d_minus (a b : Delegations) : Delegations := mkDelegations (votes a - votes b) (capital a - capital b).
Definition d_le (a b : Delegations) : Prop := votes a ≤ votes b ∧ capital a ≤ capital b.
Definition max_delegations : Delegations := mkDelegations u128_max u128_max.

Lemma delegations_add_exact a b : d_le (d_plus a b) max_delegations → delegations_add a b = d_plus a b.
Proof.
  intros [H1 H2]. apply delegations_eq; unfold delegations_add, sat_add; cbn -[umax u128_max] in *;
    fold u128_max; lia.
Qed.
Lemma delegations_sub_exact a b : d_le b a → delegations_sub a b = d_minus a b.
Proof. intros [H1 H2]. apply delegations_eq; unfold delegations_sub, sat_sub; cbn in *; lia. Qed.

(** Delegated votes reach the contribution of the voter. *)
Lemma increase_exact t v d am :
  t_le (t_plus (t_minus t (vote_contrib v d)) (vote_contrib v (d_plus d am))) max_tally →
  (match as_standard v with Some b => tally_increase t b am | None => t end)
  = t_plus (t_minus t (vote_contrib v d)) (vote_contrib v (d_plus d am)).
Proof.
  unfold t_le. destruct v as [[ay c] bal|a n]; cbn [vote_contrib as_standard aye conviction].
  - destruct (conviction_votes c bal) as [dv dc].
    destruct ay; cbn -[u128_max]; unfold sat_add; fold u128_max; intros Hle; apply tally_eq; cbn -[u128_max]; lia.
  - intros _. apply tally_eq; cbn; lia.
Qed.
Lemma reduce_exact t v d am :
  vote_wf v → d_le am d → t_le (vote_contrib v d) t →
  (match as_standard v with Some b => tally_reduce t b am | None => t end)
  = t_plus (t_minus t (vote_contrib v d)) (vote_contrib v (d_minus d am)).
Proof.
  unfold t_le, d_le. intros Hv [H1 H2]. destruct v as [[ay c] bal|a n]; cbn [vote_contrib as_standard aye conviction].
  - pose proof (conviction_votes_nonneg c bal Hv). destruct (conviction_votes c bal) as [dv dc]. cbn in *.
    destruct ay; cbn; unfold sat_sub; intros Hle; apply tally_eq; cbn; lia.
  - intros _. apply tally_eq; cbn; lia.
Qed.

Lemma t_plus_minus t a : t_plus (t_minus t a) a = t.
Proof. apply tally_eq; cbn; lia. Qed.

Section sums.
Context {VC : VotingCurrency} {PR : Proposals} {CO : Collective}.
Implicit Types c : Core.

Record exact (c : Core) : Prop := {
  exact_deleg a : delegations_of (voting c a) = deleg_sum a (c_votings c);
  exact_tally r st : c_infos c !! r = Some (Ongoing st) → r_tally st = total r (c_votings c);
}.
(** The sums fit 128 bits. *)
Record fits (c : Core) : Prop := {
  fits_deleg a : d_le (deleg_sum a (c_votings c)) max_delegations;
  fits_tally r st : c_infos c !! r = Some (Ongoing st) → t_le (total r (c_votings c)) max_tally;
}.

(** ** Contributions *)
Lemma typed_contrib c a r : typed c → t_le no_tally (contrib r (voting c a)).
Proof.
  intros Ht. unfold contrib. destruct (voting c a) as [vs d p|] eqn:Hv; [|by split_and!].
  destruct (vote_of r vs) as [v|] eqn:Hr; [|by split_and!].
  apply vote_contrib_nonneg; [by eapply vote_typed_wf, typed_vote|].
  destruct (typed_direct c a vs d p Ht Hv) as (_ & _ & Hd & _). by apply deleg_typed_wf.
Qed.
Lemma voting_some c a vt : c_votings c !! a = Some vt → voting c a = vt.
Proof. unfold voting. by intros ->. Qed.

Lemma contrib_le c a r : typed c → t_le (contrib r (voting c a)) (total r (c_votings c)).
Proof.
  intros Ht.
  assert (∀ a vt, c_votings c !! a = Some vt → t_le no_tally (contrib r vt)) as Hall.
  { intros b vt Hb. rewrite <- (voting_some c b vt Hb). by apply typed_contrib. }
  destruct (c_votings c !! a) as [vt|] eqn:Ha.
  - rewrite (voting_some c a vt Ha). by eapply total_member.
  - unfold voting. rewrite Ha. split_and!; cbn; apply map_total_nonneg; intros b vt Hb; apply (Hall b vt Hb).
Qed.

Lemma total_put c a vt r :
  total r (c_votings (c_put a vt c))
  = t_plus (t_minus (total r (c_votings c)) (contrib r (voting c a))) (contrib r vt).
Proof. apply total_insert. Qed.
Lemma total_put_same c a vt r :
  contrib r vt = contrib r (voting c a) → total r (c_votings (c_put a vt c)) = total r (c_votings c).
Proof. apply total_same. Qed.

Lemma deleg_put c b vt a :
  deleg_sum a (c_votings (c_put b vt c))
  = d_plus (d_minus (deleg_sum a (c_votings c)) (deleg_to a (voting c b))) (deleg_to a vt).
Proof. unfold c_put. cbn. rewrite deleg_sum_insert. done. Qed.
Lemma deleg_put_same c b vt a :
  deleg_to a vt = deleg_to a (voting c b) → deleg_sum a (c_votings (c_put b vt c)) = deleg_sum a (c_votings c).
Proof. apply deleg_sum_same. Qed.

Lemma deleg_to_le c a b : typed c → d_le (deleg_to a (voting c b)) (deleg_sum a (c_votings c)).
Proof.
  intros Ht.
  assert (∀ b vt, c_votings c !! b = Some vt → d_le no_delegations (deleg_to a vt)) as Hall.
  { intros x vt Hx. rewrite <- (voting_some c x vt Hx). unfold deleg_to.
    destruct (voting c x) as [|bal t conv d p] eqn:Hv; [by split|]. case_decide; [|by split].
    destruct (typed_delegating c x bal t conv d p Ht Hv) as (_ & _ & _ & _ & Hd).
    apply deleg_typed_wf in Hd. exact Hd. }
  destruct (c_votings c !! b) as [vt|] eqn:Hb.
  - rewrite (voting_some c b vt Hb). split; cbn.
    + apply (map_total_member (λ vt, votes (deleg_to a vt)) _ b vt); [|done]. intros x w Hx. apply (Hall x w Hx).
    + apply (map_total_member (λ vt, capital (deleg_to a vt)) _ b vt); [|done]. intros x w Hx. apply (Hall x w Hx).
  - unfold voting. rewrite Hb. split; cbn; apply map_total_nonneg; intros x w Hx; apply (Hall x w Hx).
Qed.

(** ** Votes *)
Lemma contrib_other r r' vs vs' d p p' :
  votes_sorted vs → votes_sorted vs' → (∀ w, (r', w) ∈ vs' ↔ (r', w) ∈ vs) → r' ≠ r →
  contrib r' (Direct vs' d p') = contrib r' (Direct vs d p).
Proof. intros Hs Hs' Hin Hne. unfold contrib. by rewrite (vote_of_ext r' vs' vs). Qed.

Lemma exact_revote c who r v st vs d p t :
  typed c → exact c → c_infos c !! r = Some (Ongoing st) → voting c who = Direct vs d p →
  revote (r_tally st) (vote_of r vs) v d = Some t →
  let tot := t_plus (t_minus (total r (c_votings c)) (contrib r (Direct vs d p))) (vote_contrib v d) in
  t_le tot max_tally → t = tot.
Proof.
  intros Ht He Hi Hv Hr. cbn zeta. rewrite (exact_tally c He r st Hi) in Hr.
  pose proof (contrib_le c who r Ht) as Hle. rewrite Hv in Hle. unfold revote in Hr.
  cbn [contrib] in *. destruct (vote_of r vs) as [old|] eqn:Hold.
  - rewrite withdraw_vote_exact in Hr; [|by eapply vote_typed_wf, typed_vote| |done].
    + cbn [mbind option_bind] in Hr. by apply cast_vote_exact.
    + destruct (typed_direct c who vs d p Ht Hv) as (_ & _ & Hd & _). by apply deleg_typed_wf.
  - replace (t_minus (total r (c_votings c)) no_tally) with (total r (c_votings c)) by (apply tally_eq; cbn; lia).
    by apply cast_vote_exact.
Qed.

Lemma exact_vote c who r v st vs d p t :
  let c' := c_info r (Ongoing (st <| r_tally := t |>)) (c_put who (Direct (put_vote r v vs) d p) c) in
  typed c → exact c → fits c' → c_infos c !! r = Some (Ongoing st) → voting c who = Direct vs d p →
  revote (r_tally st) (vote_of r vs) v d = Some t → exact c'.
Proof.
  intros c' Ht He Hf Hi Hv Hr. destruct (typed_direct c who vs d p Ht Hv) as (Hs & _).
  destruct (put_vote_spec r v vs Hs) as [Hs' Hin].
  assert (contrib r (Direct (put_vote r v vs) d p) = vote_contrib v d) as Hnew.
  { cbn. rewrite (proj2 (vote_of_elem r v _ Hs')); [done|]. apply Hin. by left. }
  constructor.
  - intros a. unfold c'. rewrite voting_info, voting_put. cbn [c_info c_votings setter].
    rewrite deleg_put_same by by rewrite Hv. rewrite <- (exact_deleg c He a).
    case_decide; [subst; by rewrite Hv|done].
  - intros r' st'. unfold c'. rewrite infos_info. case_decide as Hr'.
    + subst r'. intros [= <-]. cbn [r_tally setter c_info c_votings]. rewrite total_put, Hv, Hnew.
      eapply exact_revote; try done.
      rewrite <- Hnew, <- Hv, <- total_put. eapply (fits_tally c' Hf r). unfold c'. rewrite infos_info.
      by rewrite decide_True.
    + intros Hst. cbn [c_info c_votings setter]. rewrite total_put_same; [by apply exact_tally|].
      rewrite Hv. apply (contrib_other r); [done..| |done]. intros w. rewrite Hin. naive_solver.
Qed.

Lemma total_drop c who r v vs d p p' r' :
  typed c → voting c who = Direct vs d p → vote_of r vs = Some v →
  total r' (c_votings (c_put who (Direct (drop_vote r vs) d p') c))
  = if decide (r' = r) then t_minus (total r (c_votings c)) (vote_contrib v d) else total r' (c_votings c).
Proof.
  intros Ht Hv Hr. destruct (typed_direct c who vs d p Ht Hv) as (Hs & _).
  destruct (drop_vote_spec r v vs Hs Hr) as [Hs' Hin]. case_decide as Hd.
  - subst r'. rewrite total_put, Hv. cbn [contrib]. rewrite Hr.
    assert (vote_of r (drop_vote r vs) = None) as ->.
    { apply vote_of_none; [done|]. intros w. rewrite Hin. tauto. }
    apply tally_eq; cbn -[vote_contrib]; lia.
  - apply total_put_same. rewrite Hv. apply (contrib_other r); [done..| |done]. intros w. rewrite Hin. tauto.
Qed.

Lemma deleg_direct c who vs d p vs' p' :
  exact c → voting c who = Direct vs d p →
  ∀ a, delegations_of (voting (c_put who (Direct vs' d p') c) a)
       = deleg_sum a (c_votings (c_put who (Direct vs' d p') c)).
Proof.
  intros He Hv a. rewrite voting_put, deleg_put_same by by rewrite Hv.
  rewrite <- (exact_deleg c He a). case_decide; [subst; by rewrite Hv|done].
Qed.

Lemma exact_withdraw c who r v st vs d p t :
  typed c → exact c → c_infos c !! r = Some (Ongoing st) → voting c who = Direct vs d p →
  vote_of r vs = Some v → withdraw_vote (r_tally st) v d = Some t →
  exact (c_put who (Direct (drop_vote r vs) d p) (c_info r (Ongoing (st <| r_tally := t |>)) c)).
Proof.
  intros Ht He Hi Hv Hr Hw. constructor; [by apply (deleg_direct c who vs d p)|].
  intros r' st' Hst. change (c_votings (c_put who ?x (c_info _ _ c))) with (c_votings (c_put who x c)).
  rewrite (total_drop c who r v vs d p) by done. revert Hst. change (c_infos (c_put who ?x ?y)) with (c_infos y).
  rewrite infos_info. case_decide; [|by apply exact_tally]. intros [= <-]. cbn [r_tally setter].
  rewrite (exact_tally c He r st Hi), withdraw_vote_exact in Hw; [by injection Hw|..].
  - by eapply vote_typed_wf, typed_vote.
  - destruct (typed_direct c who vs d p Ht Hv) as (_ & _ & Hd & _). by apply deleg_typed_wf.
  - pose proof (contrib_le c who r Ht) as Hle. rewrite Hv in Hle. cbn [contrib] in Hle. by rewrite Hr in Hle.
Qed.

Lemma exact_forget c who r v vs d p p' :
  typed c → exact c → is_ongoing (c_infos c !! r) = false → voting c who = Direct vs d p →
  vote_of r vs = Some v → exact (c_put who (Direct (drop_vote r vs) d p') c).
Proof.
  intros Ht He Ho Hv Hr. constructor; [by apply (deleg_direct c who vs d p)|].
  intros r' st' Hst. rewrite (total_drop c who r v vs d p) by done. cbn in Hst.
  case_decide; [|by apply exact_tally]. subst. by rewrite Hst in Ho.
Qed.

(** ** Delegation *)
Lemma contrib_common r vt d p :
  contrib r (set_common vt d p)
  = match vt with
    | Direct vs _ _ => match vote_of r vs with Some v => vote_contrib v d | None => no_tally end
    | Delegating _ _ _ _ _ => no_tally
    end.
Proof. by destruct vt. Qed.
Lemma deleg_to_common a vt d p : deleg_to a (set_common vt d p) = deleg_to a vt.
Proof. by destruct vt. Qed.

(** How delegated votes move the tallies, where each contribution moves with its tally *)
Lemma exact_upstream g f a am c :
  let d := delegations_of (voting c a) in
  typed c → (∀ r st, c_infos c !! r = Some (Ongoing st) → r_tally st = total r (c_votings c)) →
  (∀ r st v vs p, c_infos c !! r = Some (Ongoing st) → voting c a = Direct vs d p → vote_of r vs = Some v →
    (match as_standard v with Some b => f (total r (c_votings c)) b am | None => total r (c_votings c) end)
    = t_plus (t_minus (total r (c_votings c)) (vote_contrib v d)) (vote_contrib v (g d am))) →
  ∀ r st, c_infos (c_upstream g f a am c) !! r = Some (Ongoing st) →
          r_tally st = total r (c_votings (c_upstream g f a am c)).
Proof.
  intros d Ht He Hstep r st'. unfold c_upstream. change (c_infos (c_put ?x ?z ?y)) with (c_infos y).
  change (c_votings (c_put a ?x (setter ?h c))) with (c_votings (c_put a x c)). rewrite total_put, contrib_common. fold d.
  cbn [c_infos setter]. destruct (voting c a) as [vs d0 p|] eqn:Hv.
  2: { intros Hst. rewrite (He r st' Hst). apply tally_eq; cbn; lia. }
  cbn in d. subst d. destruct (typed_direct c a vs d0 p Ht Hv) as (Hs & _).
  rewrite retally_lookup by done.
  destruct (c_infos c !! r) as [[st|]|] eqn:Hi; [|done..]. intros [= <-]. cbn [contrib].
  pose proof (He r st Hi) as Htl. destruct (vote_of r vs) as [v|] eqn:Hvo.
  - rewrite <- (Hstep r st v vs p Hi eq_refl Hvo). destruct v as [vote bal|]; cbn [retally_status as_standard]; [|done].
    cbn [r_tally setter]. by rewrite Htl.
  - cbn [retally_status]. rewrite Htl. apply tally_eq; cbn; lia.
Qed.

Lemma total_upstream g f a am c r :
  let d := delegations_of (voting c a) in
  total r (c_votings (c_upstream g f a am c))
  = t_plus (t_minus (total r (c_votings c)) (contrib r (voting c a)))
      (contrib r (set_common (voting c a) (g d am) (prior_of (voting c a)))).
Proof.
  cbn zeta. unfold c_upstream. change (c_votings (c_put a ?x (setter ?h c))) with (c_votings (c_put a x c)).
  apply total_put.
Qed.
Lemma ongoing_upstream g f a am c r st :
  typed c → c_infos c !! r = Some (Ongoing st) →
  ∃ st', c_infos (c_upstream g f a am c) !! r = Some (Ongoing st').
Proof.
  intros Ht Hi. unfold c_upstream. change (c_infos (c_put ?x ?z ?y)) with (c_infos y). cbn [c_infos setter].
  destruct (voting c a) as [vs d p|] eqn:Hv; [|by exists st].
  destruct (typed_direct c a vs d p Ht Hv) as (Hs & _). rewrite retally_lookup, Hi by done. by eexists.
Qed.

Lemma tallies_gain a am c :
  typed c → (∀ r st, c_infos c !! r = Some (Ongoing st) → r_tally st = total r (c_votings c)) →
  d_le (d_plus (delegations_of (voting c a)) am) max_delegations →
  (∀ r st, c_infos (c_gain a am c) !! r = Some (Ongoing st) → t_le (total r (c_votings (c_gain a am c))) max_tally) →
  ∀ r st, c_infos (c_gain a am c) !! r = Some (Ongoing st) → r_tally st = total r (c_votings (c_gain a am c)).
Proof.
  intros Ht He Hd Hf. apply exact_upstream; [done..|]. intros r st v vs p Hi Hv Hr.
  rewrite (delegations_add_exact _ _ Hd). apply increase_exact.
  destruct (ongoing_upstream delegations_add tally_increase a am c r st Ht Hi) as [st' Hst'].
  specialize (Hf r st' Hst'). unfold c_gain in Hf. rewrite total_upstream in Hf.
  rewrite (delegations_add_exact _ _ Hd) in Hf. rewrite Hv in *. cbn [set_common contrib] in Hf. by rewrite Hr in Hf.
Qed.

Lemma tallies_lose a am c :
  typed c → (∀ r st, c_infos c !! r = Some (Ongoing st) → r_tally st = total r (c_votings c)) →
  d_le am (delegations_of (voting c a)) →
  ∀ r st, c_infos (c_lose a am c) !! r = Some (Ongoing st) → r_tally st = total r (c_votings (c_lose a am c)).
Proof.
  intros Ht He Hd. apply exact_upstream; [done..|]. intros r st v vs p Hi Hv Hr.
  rewrite (delegations_sub_exact _ _ Hd). apply reduce_exact; [by eapply vote_typed_wf, typed_vote|done|].
  pose proof (contrib_le c a r Ht) as Hle. rewrite Hv in Hle |- *. cbn [contrib] in Hle. by rewrite Hr in Hle.
Qed.

Lemma deleg_upstream g f t am c a : deleg_sum a (c_votings (c_upstream g f t am c)) = deleg_sum a (c_votings c).
Proof.
  unfold c_upstream. change (c_votings (c_put t ?x (setter ?h c))) with (c_votings (c_put t x c)).
  apply deleg_put_same. apply deleg_to_common.
Qed.

(** Nobody's own votes count while they delegate. *)
Definition idle (vt : Voting) : Prop := match vt with Direct vs _ _ => vs = [] | Delegating _ _ _ _ _ => True end.
Lemma idle_contrib r vt : idle vt → contrib r vt = no_tally.
Proof. by destruct vt as [[]|]. Qed.
Lemma total_idle c who vt r :
  idle vt → idle (voting c who) → total r (c_votings (c_put who vt c)) = total r (c_votings c).
Proof. intros H1 H2. apply total_put_same. by rewrite !idle_contrib. Qed.

(** An account whose delegation has been taken back, but which is still stored as
    delegating: the sums hold for all the others. *)
Record detached (c : Core) (who : AccountId) : Prop := {
  detached_deleg a :
    delegations_of (voting c a) = d_minus (deleg_sum a (c_votings c)) (deleg_to a (voting c who));
  detached_tally r st : c_infos c !! r = Some (Ongoing st) → r_tally st = total r (c_votings c);
  detached_idle : idle (voting c who);
}.

Lemma detached_direct c who d p : exact c → voting c who = Direct [] d p → detached c who.
Proof.
  intros He Hv. constructor; [|by apply He|by rewrite Hv]. intros a.
  rewrite (exact_deleg c He), Hv. apply delegations_eq; cbn; lia.
Qed.

Lemma detach c who b t conv d p :
  typed c → exact c → voting c who = Delegating b t conv d p →
  let c1 := c_lose t (conviction_votes conv b) c in
  detached c1 who ∧ voting c1 who = Delegating b t conv d p.
Proof.
  intros Ht He Hv c1. destruct (typed_delegating c who b t conv d p Ht Hv) as (Hne & _).
  assert (voting c1 who = Delegating b t conv d p) as Hv1.
  { unfold c1, c_lose. by rewrite voting_upstream, decide_False. }
  assert (d_le (conviction_votes conv b) (delegations_of (voting c t))) as Hle.
  { rewrite (exact_deleg c He). pose proof (deleg_to_le c t who Ht) as H. rewrite Hv in H.
    cbn [deleg_to] in H. by rewrite decide_True in H. }
  split; [|done]. constructor; [|by apply tallies_lose; [|apply He|]|by rewrite Hv1].
  intros a. rewrite Hv1. unfold c1, c_lose. rewrite deleg_upstream, voting_upstream. cbn [deleg_to].
  destruct (decide (a = t)) as [->|Hat].
  - rewrite decide_True by done. rewrite <- (exact_deleg c He t), <- delegations_sub_exact by done.
    by destruct (voting c t).
  - rewrite decide_False by done. rewrite (exact_deleg c He). apply delegations_eq; cbn; lia.
Qed.

Lemma exact_detached c who p :
  detached c who → exact (c_put who (Direct [] (delegations_of (voting c who)) p) c).
Proof.
  intros [Hd Ht Hi]. constructor.
  - intros a. rewrite voting_put, deleg_put. cbn [deleg_to].
    replace (d_plus _ no_delegations) with (delegations_of (voting c a)).
    + case_decide; [by subst|done].
    + rewrite Hd. apply delegations_eq; cbn; lia.
  - intros r st Hst. rewrite total_idle by done. by apply Ht.
Qed.

Lemma exact_join c who t conv bal p :
  let d := delegations_of (voting c who) in
  let c' := c_put who (Delegating bal t conv d p) (c_gain t (conviction_votes conv bal) c) in
  typed c → detached c who → who ≠ t → fits c' → exact c'.
Proof.
  intros d c' Hty [Hd Ht Hi] Hne Hf. set (am := conviction_votes conv bal) in *.
  assert (voting (c_gain t am c) who = voting c who) as Hw.
  { unfold c_gain. by rewrite voting_upstream, decide_False. }
  assert (∀ a, deleg_sum a (c_votings c')
    = d_plus (delegations_of (voting c a)) (if decide (t = a) then am else no_delegations)) as Hsum.
  { intros a. unfold c'. rewrite deleg_put, Hw, Hd. unfold c_gain. by rewrite deleg_upstream. }
  assert (d_le (d_plus (delegations_of (voting c t)) am) max_delegations) as Hle.
  { pose proof (fits_deleg c' Hf t) as H. by rewrite Hsum, decide_True in H. }
  assert (∀ r, total r (c_votings c') = total r (c_votings (c_gain t am c))) as Htot.
  { intros r. apply total_idle; [done|by rewrite Hw]. }
  constructor.
  - intros a. rewrite Hsum. unfold c'. rewrite voting_put. unfold c_gain. rewrite voting_upstream.
    destruct (decide (a = who)) as [->|Hna].
    + rewrite decide_False by done. cbn [delegations_of]. unfold d. apply delegations_eq; cbn -[delegations_of]; lia.
    + destruct (decide (a = t)) as [->|Hnt].
      * rewrite decide_True by done. rewrite <- delegations_add_exact by done. by destruct (voting c t).
      * rewrite decide_False by done. apply delegations_eq; cbn -[delegations_of]; lia.
  - intros r st Hst. rewrite Htot. eapply tallies_gain; [done..| |exact Hst].
    intros r' st' Hst'. rewrite <- Htot. by eapply (fits_tally c' Hf).
Qed.

(** ** Referenda *)
Lemma exact_tabled c c' : typed c → tabled c c' → exact c → exact c'.
Proof.
  intros Ht [|period p th delay Hp Hlt] He; [done|]. constructor; [apply He|].
  intros r st. unfold c_table. rewrite infos_info. case_decide as Hr; [|by apply He].
  intros [= <-]. cbn [r_tally]. symmetry. apply total_zero. intros a vt Ha.
  pose proof (typed_voting c Ht a) as Hv. rewrite (voting_some c a vt Ha) in Hv. subst r.
  destruct vt as [vs d p'|]; [|done]. destruct Hv as (_ & _ & Hs & _ & Hall). cbn.
  assert (vote_of (c_count c) vs = None) as ->; [|done].
  apply vote_of_none; [done|]. intros v Hin. destruct (Hall _ _ Hin). lia.
Qed.

Lemma ongoing_bake last oks c r st :
  c_infos (c_bake last oks c) !! r = Some (Ongoing st) → r ∉ oks.*1 ∧ c_infos c !! r = Some (Ongoing st).
Proof.
  cbn. destruct (finish_lookup (c_block c) (c_infos c) oks r) as [(ok & _ & ->)|(Hn & ->)]; [done|by split].
Qed.

(** Every event keeps tallies and delegations the sums they stand for. *)
Lemma exact_event iss c ch c' : core_event iss c ch c' → typed c → exact c → fits c' → exact c'.
Proof.
  intros Hev Ht He Hf. destruct Hev as
    [|who r v st vs d p t Hi Hv Hrv Hvt Hlen|who r v st vs d p t Hi Hv Hr Hw|who r v vs d p Ho Hv Hr
    |who t conv bal d p Hne Hv Hb|who t0 conv0 bal0 t conv bal d p Hne Hv Hb|who t conv bal d p Hv
    |who vt|c' Htab|r|c1 oks Hlt Htab Hoks]; [done|..].
  - by apply (exact_vote c who r v st vs d p t).
  - by apply (exact_withdraw c who r v st vs d p t).
  - by apply (exact_forget c who r v vs d p).
  - pose proof (exact_join c who t conv bal p) as Hj. rewrite Hv in Hj. cbn [delegations_of] in Hj.
    apply Hj; [done| |done|done]. by eapply detached_direct.
  - destruct (detach c who bal0 t0 conv0 d p Ht He Hv) as [Hd Hv1].
    pose proof (exact_join (c_lose t0 (conviction_votes conv0 bal0) c) who t conv bal (after_delegation c conv0 bal0 p)) as Hj.
    rewrite Hv1 in Hj. cbn [delegations_of] in Hj. apply Hj; [|done..].
    destruct (typed_delegating c who bal0 t0 conv0 d p Ht Hv) as (_ & _ & _ & _ & Ham). by apply typed_lose.
  - destruct (detach c who bal t conv d p Ht He Hv) as [Hd Hv1].
    apply (exact_detached _ _ (after_delegation c conv bal p)) in Hd. by rewrite Hv1 in Hd.
  - constructor.
    + intros a. rewrite voting_put, deleg_put_same by apply deleg_to_common. rewrite <- (exact_deleg c He).
      case_decide; [subst; by destruct (voting c who)|done].
    + intros r st Hst. rewrite total_put_same; [by apply He|]. unfold vt. by destruct (voting c who).
  - by eapply exact_tabled.
  - constructor; [apply He|]. intros r' st. cbn. intros [_ Hst]%lookup_delete_Some. by apply He.
  - assert (exact c1) as He1.
    { eapply exact_tabled; [|exact Htab|]; [|by constructor; apply He].
      destruct Ht as [H1 H2 H3 H4]. constructor; [cbn; lia|done..]. }
    constructor; [apply He1|]. intros r st [_ Hst]%ongoing_bake. by apply He1.
Qed.
End sums.
