(* ===== verification/DemocracyLocks.v ===== *)
(** * The vote lock, and the life of a referendum

    Further invariants of the events: the vote lock covers what an account has voted or
    delegated with ([covered_event]), an open referendum keeps its terms until its end
    ([info_event], [scheduled_event]), and a vote for the side that won stays committed
    ([committed_event]). *)

From S2P Require Import Prelude Assets Types Bank Chain Policy Conviction Democracy DemocracyVotes DemocracyEvents.
From S2P Require Import DemocracyInv DemocracySums.

(** ** Locks *)
Lemma foldl_max_le vs x z :
  foldl (λ a (rv : Z * AccountVote), Z.max a (vote_balance rv.2)) z vs ≤ x
  ↔ z ≤ x ∧ ∀ r v, (r, v) ∈ vs → vote_balance v ≤ x.
Proof.
  revert z. induction vs as [|[k w] vs IH]; intros z; cbn [foldl].
  - split; [|tauto]. intros Hz. split; [done|]. by intros r v ?%not_elem_of_nil.
  - rewrite IH. setoid_rewrite elem_of_cons. split.
    + intros [Hm Hall]. cbn in Hm. split; [lia|]. intros r v [[= -> ->]|Hin]; [lia|by eapply Hall].
    + intros [Hz Hall]. split; [cbn; pose proof (Hall k w (or_introl eq_refl)); lia|]. intros r v Hin.
      apply (Hall r v). by right.
Qed.

Lemma locked_balance_le vt x :
  locked_balance vt ≤ x ↔
  locked (prior_of vt) ≤ x
  ∧ match vt with
    | Direct vs _ _ => ∀ r v, (r, v) ∈ vs → vote_balance v ≤ x
    | Delegating b _ _ _ _ => b ≤ x
    end.
Proof. destruct vt; cbn [locked_balance prior_of]; [apply foldl_max_le|lia]. Qed.

Lemma locked_common vt d : locked_balance (set_common vt d (prior_of vt)) = locked_balance vt.
Proof. by destruct vt. Qed.

(** The lock covers every vote, delegation and earlier lock. *)
Section locks.
Context {VC : VotingCurrency} {PR : Proposals} {CO : Collective}.
Implicit Types c : Core.
Implicit Types L : AccountId → Z.

Definition covered (c : Core) (L : AccountId → Z) : Prop := ∀ a, locked_balance (voting c a) ≤ L a.

Lemma covered_put a vt c L : covered c L → locked_balance vt ≤ L a → covered (c_put a vt c) L.
Proof. intros Hc Hv b. rewrite voting_put. case_decide; [by subst|apply Hc]. Qed.
Lemma covered_upstream g f a am c L : covered c L → covered (c_upstream g f a am c) L.
Proof.
  intros Hc b. rewrite voting_upstream. case_decide; [|apply Hc]. subst. rewrite locked_common. apply Hc.
Qed.

Lemma lock_extended who n L a : L a ≤ lock_after (LExtend who n) L a.
Proof. cbn. case_decide; [subst|]; lia. Qed.
Lemma covered_weaken c L L' : covered c L → (∀ a, L a ≤ L' a) → covered c L'.
Proof. intros Hc HL a. etransitivity; [apply Hc|apply HL]. Qed.

Lemma prior_after_locked c r v p x : locked p ≤ x → vote_balance v ≤ x → locked (prior_after c r v p) ≤ x.
Proof.
  intros Hp Hv. unfold prior_after. destruct (c_infos c !! r) as [[|ap fin]|]; [done| |done].
  destruct v as [vote b|]; cbn; [|done]. case_bool_decide; [|done]. case_match; [|done].
  cbn in *. lia.
Qed.

Lemma covered_event iss c ch c' L :
  core_event iss c ch c' → typed c → covered c L → covered c' (lock_after ch L).
Proof.
  intros Hev Ht HL. destruct Hev as
    [|who r v st vs d p t Hi Hv Hrv Hvt Hlen|who r v st vs d p t Hi Hv Hr Hw|who r v vs d p Ho Hv Hr
    |who t conv bal d p Hne Hv Hb|who t0 conv0 bal0 t conv bal d p Hne Hv Hb|who t conv bal d p Hv
    |who vt|c' Htab|r|c1 oks Hlt Htab Hoks]; try (pose proof (HL who) as Hwho;
      apply locked_balance_le in Hwho as [Hpr Hvs]; rewrite Hv in Hpr, Hvs; cbn [prior_of] in Hpr).
  - done.
  - destruct (typed_direct c who vs d p Ht Hv) as (Hs & _). destruct (put_vote_spec r v vs Hs) as [_ Hin].
    apply covered_put; [eapply covered_weaken; [done|apply lock_extended]|].
    cbn [lock_after]. rewrite decide_True by done. apply locked_balance_le. split; [cbn; lia|].
    intros k w [[-> ->]|[_ Hk]]%Hin; [lia|]. specialize (Hvs k w Hk). lia.
  - destruct (typed_direct c who vs d p Ht Hv) as (Hs & _). destruct (drop_vote_spec r v vs Hs Hr) as [_ Hin].
    apply covered_put; [done|]. apply locked_balance_le. split; [done|]. intros k w [_ Hk]%Hin. by eapply Hvs.
  - destruct (typed_direct c who vs d p Ht Hv) as (Hs & _). destruct (drop_vote_spec r v vs Hs Hr) as [_ Hin].
    apply covered_put; [done|]. apply locked_balance_le. split.
    + apply prior_after_locked; [done|]. apply (Hvs r), (vote_of_elem _ _ _ Hs), Hr.
    + intros k w [_ Hk]%Hin. by eapply Hvs.
  - apply covered_put; [apply covered_upstream; eapply covered_weaken; [done|apply lock_extended]|].
    cbn [lock_after]. rewrite decide_True by done. apply locked_balance_le. cbn. lia.
  - apply covered_put; [do 2 apply covered_upstream; eapply covered_weaken; [done|apply lock_extended]|].
    cbn [lock_after]. rewrite decide_True by done. apply locked_balance_le. cbn. lia.
  - apply covered_put; [by apply covered_upstream|]. apply locked_balance_le. cbn [prior_of]. split; [cbn; lia|].
    by intros k w ?%not_elem_of_nil.
  - intros a. rewrite voting_put. cbn [lock_after]. case_decide; [done|apply HL].
  - by destruct Htab.
  - done.
  - intros a. change (locked_balance (voting c1 a) ≤ L a). destruct Htab; apply HL.
Qed.
End locks.

(** ** The life of a referendum *)
Section referenda.
Context {VC : VotingCurrency} {PR : Proposals} {CO : Collective}.
Implicit Types c : Core.

(** Only the tally of an open referendum changes. *)
Definition same_terms (st st' : ReferendumStatus) : Prop :=
  r_end st' = r_end st ∧ r_proposal st' = r_proposal st ∧ r_threshold st' = r_threshold st ∧ r_delay st' = r_delay st.
Definition info_next (now : Z) (info info' : ReferendumInfo) : Prop :=
  match info, info' with
  | Ongoing st, Ongoing st' => same_terms st st'
  | Ongoing st, Finished _ fin => r_end st = now ∧ fin = now
  | Finished _ _, _ => info' = info
  end.

Lemma info_next_refl now info : info_next now info info.
Proof. by destruct info. Qed.

Lemma info_upstream g f a am c r info now :
  typed c → c_infos c !! r = Some info →
  ∃ info', c_infos (c_upstream g f a am c) !! r = Some info' ∧ info_next now info info'.
Proof.
  intros Ht Hi. unfold c_upstream. change (c_infos (c_put ?x ?z ?y)) with (c_infos y). cbn [c_infos setter].
  destruct (voting c a) as [vs d p|] eqn:Hv; [|exists info; split; [done|apply info_next_refl]].
  destruct (typed_direct c a vs d p Ht Hv) as (Hs & _). rewrite retally_lookup, Hi by done.
  destruct info as [st|]; eexists; (split; [done|]); [|done]. unfold retally_status.
  by destruct (vote_of r vs) as [[]|].
Qed.

Lemma info_tabled c c' r info :
  typed c → tabled c c' → c_infos c !! r = Some info → c_infos c' !! r = Some info.
Proof.
  intros Ht [|period p th delay _ _] Hi; [done|]. unfold c_table. rewrite infos_info.
  rewrite decide_False; [done|]. intros ->. destruct (typed_info c Ht _ _ Hi). lia.
Qed.

Lemma decided_elem iss its oks r ok :
  Forall2 (decided iss) its oks → (r, ok) ∈ oks →
  ∃ st, (r, st) ∈ its ∧ approved (r_threshold st) (r_tally st) iss = Ok ok.
Proof.
  intros Hd [j Hj]%list_elem_of_lookup. destruct (Forall2_lookup_r _ _ _ _ _ Hd Hj) as ([i st] & Hi & Hr & Ha).
  cbn in *. subst i. exists st. split; [by apply list_elem_of_lookup_2 in Hi|done].
Qed.

Lemma decided_index iss its oks r st : Forall2 (decided iss) its oks → (r, st) ∈ its → r ∈ oks.*1.
Proof.
  intros Hd [j Hj]%list_elem_of_lookup. destruct (Forall2_lookup_l _ _ _ _ _ Hd Hj) as ([r' ok] & Hj' & Heq & _).
  cbn in Heq. subst r'. apply list_elem_of_fmap. exists (r, ok). split; [done|]. by apply list_elem_of_lookup_2 in Hj'.
Qed.

Lemma typed_next c : typed c → c_block c + 1 < u32_max → typed (c <| c_block := c_block c + 1 |>).
Proof. intros [H1 H2 H3 H4] Hlt. constructor; [cbn; lia|done..]. Qed.

Lemma info_bake iss last oks c r info :
  Forall2 (decided iss) (c_maturing last c) oks → c_infos c !! r = Some info →
  ∃ info', c_infos (c_bake last oks c) !! r = Some info' ∧ info_next (c_block c) info info'.
Proof.
  intros Hd Hi. cbn. destruct (finish_lookup (c_block c) (c_infos c) oks r) as [(ok & Hok & ->)|(_ & ->)].
  - destruct (decided_elem _ _ _ _ _ Hd Hok) as (st & (_ & Hst & He)%maturing_spec & _).
    rewrite Hi in Hst. injection Hst as ->. by eexists.
  - exists info. split; [done|apply info_next_refl].
Qed.

Lemma info_event iss c ch c' r info :
  core_event iss c ch c' → typed c → ch ≠ LCancel r → c_infos c !! r = Some info →
  ∃ info', c_infos c' !! r = Some info' ∧ info_next (c_block c') info info'.
Proof.
  intros Hev Ht Hch Hi. destruct Hev as
    [|who k v st vs d p t Hk Hv Hrv Hvt Hlen|who k v st vs d p t Hk Hv Hr Hw|who k v vs d p Ho Hv Hr
    |who t conv bal d p Hne Hv Hb|who t0 conv0 bal0 t conv bal d p Hne Hv Hb|who t conv bal d p Hv
    |who vt|c' Htab|k|c1 oks Hlt Htab Hoks];
    try (exists info; split; [exact Hi|apply info_next_refl]).
  - rewrite infos_info. case_decide; [|exists info; split; [exact Hi|apply info_next_refl]].
    subst. rewrite Hk in Hi. injection Hi as <-. by eexists.
  - change (c_infos (c_put who ?x ?y)) with (c_infos y). rewrite infos_info.
    case_decide; [|exists info; split; [exact Hi|apply info_next_refl]].
    subst. rewrite Hk in Hi. injection Hi as <-. by eexists.
  - change (c_infos (c_put who ?x ?y)) with (c_infos y). by apply info_upstream.
  - change (c_infos (c_put who ?x ?y)) with (c_infos y).
    destruct (typed_delegating c who bal0 t0 conv0 d p Ht Hv) as (_ & _ & _ & _ & Ham).
    destruct (info_upstream delegations_sub tally_reduce t0 (conviction_votes conv0 bal0) c r info (c_block c) Ht Hi)
      as (i1 & Hi1 & H1).
    destruct (info_upstream delegations_add tally_increase t (conviction_votes conv bal) _ r i1 (c_block c)
      (typed_lose _ _ _ Ht Ham) Hi1) as (i2 & Hi2 & H2).
    exists i2. split; [done|]. unfold info_next, same_terms in *. destruct info, i1, i2; naive_solver congruence.
  - change (c_infos (c_put who ?x ?y)) with (c_infos y). by apply info_upstream.
  - exists info. split; [by eapply info_tabled|apply info_next_refl].
  - exists info. split; [|apply info_next_refl]. cbn. rewrite lookup_delete_ne; [done|]. congruence.
  - change (c_block (c_bake _ _ c1)) with (c_block c1). eapply info_bake; [done|]. eapply info_tabled; [by apply typed_next|done|done].
Qed.

(** *** Open referenda are still to end *)
Record scheduled (c : Core) : Prop := {
  scheduled_lowest : 0 ≤ c_lowest c ≤ c_count c;
  scheduled_open r st : c_infos c !! r = Some (Ongoing st) → c_lowest c ≤ r ∧ c_block c < r_end st;
}.

Lemma skip_baked_spec m i n :
  i ≤ skip_baked m i n ≤ i + Z.of_nat n
  ∧ ∀ k, i ≤ k < skip_baked m i n → is_ongoing (m !! k) = false.
Proof.
  revert i. induction n as [|n IH]; intros i; cbn [skip_baked]; [split; [lia|]; intros; lia|].
  destruct (IH (i + 1)) as [Hb Hk].
  assert (skip_baked m i (S n) = i ∨ (skip_baked m i (S n) = skip_baked m (i + 1) n ∧ is_ongoing (m !! i) = false))
    as [E|[E Hi]] by (cbn; destruct (m !! i) as [[]|]; auto); cbn [skip_baked] in E; rewrite E;
    [split; [lia|]; intros; lia|].
  split; [lia|]. intros k Hki. destruct (Z.eq_dec k i) as [->|]; [done|]. apply Hk. lia.
Qed.

Lemma scheduled_tabled c c' : typed c → tabled c c' → scheduled c → scheduled c'.
Proof.
  intros Ht [|period p th delay Hp Hlt] [Hl Ho]; [done|]. constructor; [cbn; lia|].
  intros r st. unfold c_table. rewrite infos_info. case_decide as Hr; [|apply Ho].
  intros [= <-]. pose proof (typed_block c Ht). cbn. unfold sat_add. unfold u32_max in *. lia.
Qed.

(** Events other than blocks neither open referenda nor move the clock. *)
Lemma scheduled_same c c' :
  scheduled c → c_block c' = c_block c → c_lowest c' = c_lowest c → c_count c' = c_count c →
  (∀ r st', c_infos c' !! r = Some (Ongoing st') →
    ∃ st, c_infos c !! r = Some (Ongoing st) ∧ r_end st' = r_end st) →
  scheduled c'.
Proof.
  intros [Hl Ho] Hb Hlo Hc Hall. constructor; [by rewrite Hlo, Hc|]. intros r st' Hst'.
  destruct (Hall r st' Hst') as (st & Hst & ->). rewrite Hlo, Hb. by apply Ho.
Qed.

Lemma open_upstream g f a am c r st' :
  typed c → c_infos (c_upstream g f a am c) !! r = Some (Ongoing st') →
  ∃ st, c_infos c !! r = Some (Ongoing st) ∧ r_end st' = r_end st.
Proof.
  intros Ht. unfold c_upstream. change (c_infos (c_put ?x ?z ?y)) with (c_infos y). cbn [c_infos setter].
  destruct (voting c a) as [vs d p|] eqn:Hv; [|by exists st'].
  destruct (typed_direct c a vs d p Ht Hv) as (Hs & _). rewrite retally_lookup by done.
  destruct (c_infos c !! r) as [[st|]|]; [|done..]. intros [= <-]. exists st. split; [done|].
  unfold retally_status. by destruct (vote_of r vs) as [[]|].
Qed.

Lemma scheduled_bake iss oks c c1 :
  typed c1 → tabled c c1 → c_lowest c ≤ c_count c →
  (∀ r st, c_infos c !! r = Some (Ongoing st) → c_lowest c ≤ r < c_count c ∧ c_block c ≤ r_end st) →
  typed c → 0 ≤ c_lowest c →
  Forall2 (decided iss) (c_maturing (c_count c) c1) oks → scheduled (c_bake (c_count c) oks c1).
Proof.
  intros Ht1 Htab Hlow Hopen Ht H0 Hd.
  assert (c_lowest c1 = c_lowest c ∧ c_block c1 = c_block c ∧ c_count c ≤ c_count c1) as (Hl1 & Hb1 & Hc1)
    by (destruct Htab; cbn; split_and!; lia || done).
  set (infos := finish (c_block c1) (c_infos c1) oks).
  destruct (skip_baked_spec infos (c_lowest c1) (Z.to_nat (c_count c - c_lowest c1))) as [Hsk Hbaked].
  assert (∀ r st, infos !! r = Some (Ongoing st) → c_lowest c ≤ r ∧ c_block c < r_end st) as Hleft.
  { intros r st Hst. destruct (ongoing_bake (c_count c) oks c1 r st Hst) as [Hn Hi].
    assert (c_infos c !! r = Some (Ongoing st) ∨ c_lowest c ≤ r ∧ c_block c < r_end st) as [Hold|]; [|clear Hbaked|done].
    { destruct Htab as [|period p th delay Hp Hlt]; [by left|]. unfold c_table in Hi. rewrite infos_info in Hi.
      case_decide; [|by left]. injection Hi as <-. right. pose proof (typed_block c Ht). cbn.
      unfold sat_add. unfold u32_max in *. lia. }
    destruct (Hopen r st Hold) as [Hr He]. split; [lia|].
    destruct (Z.eq_dec (r_end st) (c_block c)) as [E|]; [|lia]. destruct Hn.
    apply (decided_index _ _ _ _ st Hd), maturing_spec. split; [lia|]. split; [done|congruence]. }
  constructor; cbn; fold infos; [lia|]. intros r st Hst. destruct (Hleft r st Hst) as [Hr He].
  split; [|lia]. destruct (Z.le_gt_cases (skip_baked infos (c_lowest c1) (Z.to_nat (c_count c - c_lowest c1))) r)
    as [|Hgt]; [done|]. specialize (Hbaked r ltac:(lia)). by rewrite Hst in Hbaked.
Qed.

Lemma scheduled_event iss c ch c' : core_event iss c ch c' → typed c → scheduled c → scheduled c'.
Proof.
  intros Hev Ht Hs. destruct Hev as
    [|who k v st vs d p t Hk Hv Hrv Hvt Hlen|who k v st vs d p t Hk Hv Hr Hw|who k v vs d p Ho Hv Hr
    |who t conv bal d p Hne Hv Hb|who t0 conv0 bal0 t conv bal d p Hne Hv Hb|who t conv bal d p Hv
    |who vt|c' Htab|k|c1 oks Hlt Htab Hoks]; [done|..].
  - apply (scheduled_same c); [done..|]. intros r st'. rewrite infos_info. case_decide; [|by eexists].
    intros [= <-]. subst. by exists st.
  - apply (scheduled_same c); [done..|]. intros r st'. change (c_infos (c_put who ?x ?y)) with (c_infos y).
    rewrite infos_info. case_decide; [|by eexists]. intros [= <-]. subst. by exists st.
  - apply (scheduled_same c); [done..|]. intros r st' Hst. by exists st'.
  - apply (scheduled_same c); [done..|]. intros r st'. by apply open_upstream.
  - apply (scheduled_same c); [done..|]. intros r st' Hst.
    destruct (typed_delegating c who bal0 t0 conv0 d p Ht Hv) as (_ & _ & _ & _ & Ham).
    apply (open_upstream delegations_add tally_increase t _ _ _ _ (typed_lose _ _ _ Ht Ham)) in Hst as (st1 & Hst1 & ->).
    by apply (open_upstream delegations_sub tally_reduce t0 _ _ _ _ Ht) in Hst1.
  - apply (scheduled_same c); [done..|]. intros r st'. by apply open_upstream.
  - apply (scheduled_same c); [done..|]. intros r st' Hst. by exists st'.
  - by eapply scheduled_tabled.
  - apply (scheduled_same c); [done..|]. intros r st'. cbn. intros [_ Hst]%lookup_delete_Some. by exists st'.
  - pose proof (typed_next c Ht Hlt) as Hn. destruct Hs as [Hl Ho].
    set (c0 := c <| c_block := c_block c + 1 |>) in *. change (scheduled (c_bake (c_count c0) oks c1)).
    apply (scheduled_bake iss oks c0 c1);
      [by eapply typed_tabled|done|cbn; lia| |done|cbn; lia|done].
    intros r st Hi. destruct (Ho r st Hi), (typed_info c Ht r _ Hi). cbn. lia.
Qed.
End referenda.

(** ** Winning votes are committed *)
Section commitments.
Context {VC : VotingCurrency} {PR : Proposals} {CO : Collective}.
Implicit Types c : Core.

(** A vote of [B] on the side that won referendum [r], locked until [U] *)
Definition winning_vote (r U B : Z) (a : AccountId) (c : Core) : Prop :=
  ∃ vs d p vote fin, voting c a = Direct vs d p ∧ (r, Standard vote B) ∈ vs
    ∧ c_infos c !! r = Some (Finished (aye vote) fin) ∧ U = unlock_block fin (lock_periods (conviction vote)).
(** The commitment is the vote itself, or the lock it left when it was removed. *)
Definition prior_holds (U B : Z) (p : PriorLock) : Prop := U ≤ until p ∧ B ≤ locked p.
Definition committed (r U B : Z) (a : AccountId) (c : Core) : Prop :=
  prior_holds U B (prior_of (voting c a)) ∨ winning_vote r U B a c.

Lemma prior_holds_accumulate U B p u n : prior_holds U B p → prior_holds U B (accumulate p u n).
Proof. unfold prior_holds, accumulate. cbn. lia. Qed.
Lemma prior_holds_after U B c r v p : prior_holds U B p → prior_holds U B (prior_after c r v p).
Proof.
  intros Hp. unfold prior_after. repeat case_match; try done; by apply prior_holds_accumulate.
Qed.

(** An event that leaves the account's votes alone, or only adds to its earlier lock *)
Lemma committed_same r U B a c c' :
  committed r U B a c →
  (∀ ap fin, c_infos c !! r = Some (Finished ap fin) → c_infos c' !! r = Some (Finished ap fin)) →
  (∃ d', voting c' a = set_common (voting c a) d' (prior_of (voting c a))) →
  committed r U B a c'.
Proof.
  intros Hc Hfin [d' Hv]. destruct Hc as [Hp|(vs & d & p & vote & fin & Ha & Hin & Hr & HU)].
  - left. rewrite Hv. by destruct (voting c a).
  - right. rewrite Ha in Hv. exists vs, d', p, vote, fin. split_and!; [done|done|by apply Hfin|done].
Qed.
Lemma set_common_self vt : set_common vt (delegations_of vt) (prior_of vt) = vt.
Proof. by destruct vt. Qed.
Lemma same_common c c' a :
  voting c' a = voting c a → ∃ d', voting c' a = set_common (voting c a) d' (prior_of (voting c a)).
Proof. intros ->. exists (delegations_of (voting c a)). by rewrite set_common_self. Qed.

Lemma committed_put r U B a who vt c :
  committed r U B a c →
  (a = who → prior_holds U B (prior_of (voting c a)) → prior_holds U B (prior_of vt)) →
  (a = who → winning_vote r U B a c → committed r U B a (c_put who vt c)) →
  committed r U B a (c_put who vt c).
Proof.
  intros Hc H1 H2. destruct (decide (a = who)) as [->|Hne].
  - destruct Hc as [Hp|Hw]; [|by apply H2]. left. rewrite voting_put, decide_True by done. by apply H1.
  - apply (committed_same r U B a c); [done|done|]. apply same_common. by rewrite voting_put, decide_False.
Qed.

Lemma committed_upstream g f r U B a t am c :
  typed c → committed r U B a c → committed r U B a (c_upstream g f t am c).
Proof.
  intros Ht Hc. apply (committed_same r U B a c); [done|..].
  - intros ap fin Hi. destruct (info_upstream g f t am c r _ (c_block c) Ht Hi) as (info' & Hi' & Hn).
    cbn in Hn. by subst.
  - rewrite voting_upstream. case_decide; [subst; by eexists|]. exists (delegations_of (voting c a)).
    by rewrite set_common_self.
Qed.

(** Dropping another vote, or the winning one, before it unlocks *)
Lemma committed_drop r U B a c k v vs d p :
  typed c → voting c a = Direct vs d p → vote_of k vs = Some v → c_block c < U → winning_vote r U B a c →
  committed r U B a (c_put a (Direct (drop_vote k vs) d (prior_after c k v p)) c).
Proof.
  intros Ht Hv Hk HU (vs' & d' & p' & vote & fin & Ha & Hin & Hr & ->). rewrite Hv in Ha. injection Ha as <- <- <-.
  destruct (typed_direct c a vs d p Ht Hv) as (Hs & _). destruct (drop_vote_spec k v vs Hs Hk) as [_ Hd].
  destruct (decide (r = k)) as [->|Hne].
  - left. rewrite voting_put, decide_True by done. cbn [prior_of].
    apply (vote_of_elem _ _ _ Hs) in Hin. rewrite Hk in Hin. injection Hin as ->.
    unfold prior_after. rewrite Hr. cbn [locked_if]. rewrite bool_decide_true by done.
    rewrite (proj2 (Z.ltb_lt _ _)) by done. unfold prior_holds, accumulate. cbn -[unlock_block]. lia.
  - right. eexists _, _, _, vote, fin. rewrite voting_put, decide_True by done.
    split_and!; [done|by apply Hd|done|done].
Qed.

(** Votes that change in other referenda only *)
Lemma committed_votes r U B a c c' who vs d p vs' p' :
  committed r U B a c → voting c who = Direct vs d p →
  (∀ b, voting c' b = if decide (b = who) then Direct vs' d p' else voting c b) →
  (∀ ap fin, c_infos c !! r = Some (Finished ap fin) → c_infos c' !! r = Some (Finished ap fin)) →
  (prior_holds U B p → prior_holds U B p') →
  (∀ w, is_ongoing (c_infos c !! r) = false → (r, w) ∈ vs → (r, w) ∈ vs') →
  committed r U B a c'.
Proof.
  intros Hc Hv Hv' Hfin Hp Hvs. destruct (decide (a = who)) as [->|Hne].
  - destruct Hc as [Hh|(vs0 & d0 & p0 & vote & fin & Ha & Hin & Hr & HU)].
    + left. rewrite Hv', decide_True by done. rewrite Hv in Hh. by apply Hp.
    + right. rewrite Hv in Ha. injection Ha as <- <- <-. exists vs', d, p', vote, fin.
      rewrite Hv', decide_True by done. split_and!; [done| |by apply Hfin|done]. apply Hvs; [by rewrite Hr|done].
  - apply (committed_same r U B a c); [done|done|]. apply same_common. by rewrite Hv', decide_False.
Qed.

(** Who delegates has no vote of their own. *)
Lemma committed_delegating r U B a who vt b t conv d p c :
  committed r U B a c → voting c who = Delegating b t conv d p →
  (prior_holds U B p → prior_holds U B (prior_of vt)) → committed r U B a (c_put who vt c).
Proof.
  intros Hc Hv Hp. apply committed_put; [done| |].
  - intros ->. by rewrite Hv.
  - intros -> (vs & d' & p' & vote & fin & Ha & _). congruence.
Qed.

Lemma committed_event iss c ch c' r U B a :
  core_event iss c ch c' → typed c → ch ≠ LCancel r → c_block c' < U →
  committed r U B a c → committed r U B a c'.
Proof.
  intros Hev Ht Hch HU Hc.
  assert (∀ ap fin, c_infos c !! r = Some (Finished ap fin) → c_infos c' !! r = Some (Finished ap fin)) as Hfin.
  { intros ap fin Hi. destruct (info_event iss c ch c' r _ Hev Ht Hch Hi) as (info' & Hi' & Hn). cbn in Hn. by subst. }
  destruct Hev as
    [|who k v st vs d p t Hk Hv Hrv Hvt Hlen|who k v st vs d p t Hk Hv Hr Hw|who k v vs d p Ho Hv Hr
    |who t conv bal d p Hne Hv Hb|who t0 conv0 bal0 t conv bal d p Hne Hv Hb|who t conv bal d p Hv
    |who vt|c' Htab|k|c1 oks Hlt Htab Hoks]; [done|..].
  - destruct (typed_direct c who vs d p Ht Hv) as (Hs & _). destruct (put_vote_spec k v vs Hs) as [_ Hin].
    eapply committed_votes; [done..|intros b; by rewrite voting_info, voting_put|done|done|].
    intros w Ho Hw. apply Hin. right. split; [|done]. intros ->. by rewrite Hk in Ho.
  - destruct (typed_direct c who vs d p Ht Hv) as (Hs & _). destruct (drop_vote_spec k v vs Hs Hr) as [_ Hin].
    eapply committed_votes; [done..|intros b; by rewrite voting_put|done|done|].
    intros w Ho Hrw. apply Hin. split; [|done]. intros ->. by rewrite Hk in Ho.
  - apply committed_put; [done| |].
    + intros -> Hp. rewrite Hv in Hp. by apply prior_holds_after.
    + intros ->. by apply committed_drop.
  - apply committed_put; [by apply committed_upstream| |].
    + intros -> Hp. unfold c_gain in Hp. by rewrite voting_upstream, decide_False, Hv in Hp.
    + intros -> (vs & d' & p' & vote & fin & Ha & Hin & _). unfold c_gain in Ha.
      rewrite voting_upstream, decide_False, Hv in Ha by done. injection Ha as <- <- <-. by apply not_elem_of_nil in Hin.
  - destruct (typed_delegating c who bal0 t0 conv0 d p Ht Hv) as (Hn0 & _ & _ & _ & Ham).
    eapply (committed_delegating _ _ _ _ _ _ bal0 t0 conv0 d p); [|..|apply prior_holds_accumulate].
    + apply committed_upstream; [by apply typed_lose|]. by apply committed_upstream.
    + unfold c_gain, c_lose. by rewrite !voting_upstream, !decide_False.
  - destruct (typed_delegating c who bal t conv d p Ht Hv) as (Hn0 & _ & _ & _ & Ham).
    eapply (committed_delegating _ _ _ _ _ _ bal t conv d p); [|..|apply prior_holds_accumulate].
    + by apply committed_upstream.
    + unfold c_lose. by rewrite !voting_upstream, !decide_False.
  - assert (∀ p, prior_holds U B p → prior_rejig p (c_block c) = p) as Hrej.
    { intros p [H1 H2]. unfold prior_rejig. rewrite (proj2 (Z.leb_gt _ _)); [done|]. cbn in HU. lia. }
    apply committed_put; [done| |].
    + intros -> Hp. pose proof (Hrej _ Hp) as E. unfold vt, voting_rejig.
      destruct (voting c who); cbn in *; by rewrite E.
    + intros -> (vs & d & p & vote & fin & Ha & Hin & Hr & HU'). right. exists vs, d, (prior_rejig p (c_block c)), vote, fin.
      unfold vt. rewrite voting_put, decide_True, Ha by done. split_and!; done.
  - apply (committed_same r U B a c); [done..|]. apply same_common. by destruct Htab.
  - by apply (committed_same r U B a c); [done..|apply same_common].
  - apply (committed_same r U B a c); [done..|]. apply same_common. by destruct Htab.
Qed.

Lemma committed_locked r U B a c L : committed r U B a c → covered c L → B ≤ L a.
Proof.
  intros Hc HL. specialize (HL a). apply locked_balance_le in HL as [Hp Hv].
  destruct Hc as [[_ HB]|(vs & d & p & vote & fin & Ha & Hin & _)]; [lia|]. rewrite Ha in Hv.
  apply (Hv r (Standard vote B) Hin).
Qed.

Lemma block_event_mono iss c ch c' : core_event iss c ch c' → c_block c ≤ c_block c'.
Proof.
  intros []; first [exact (Z.le_refl _)|match goal with H : tabled _ _ |- _ => destruct H; cbn; lia end].
Qed.
End commitments.
