(* ===== verification/DemocracyProps.v ===== *)
(** * What the democracy pallet promises

    Runs of the pallet: dispatchables in any order, blocks, and whatever the rest of the
    runtime does to balances without touching the vote lock.  Along every run the stored
    values stay of their types, tallies are the sums of the votes, referenda end when they
    should and are decided by those sums, and a winning vote stays locked. *)

From S2P Require Import Prelude Assets Types Bank Chain Policy Conviction Democracy DemocracyVotes DemocracyEvents.
From S2P Require Import DemocracyInv DemocracySums DemocracyLocks.

Section runs.
Context {VC : VotingCurrency} {PR : Proposals} {CO : Collective}.

(** ** Runs *)
(** One step; a dispatched call that succeeds is its label.  A block is only made below
    the last block number. *)
Inductive dem_step : option DemocracyCall → Dem → Dem → Prop :=
| step_call o call s s' :
    call_typed call → democracy_dispatch o call s = (Ok tt, s') → dem_step (Some call) s s'
| step_failed o call s e s' : democracy_dispatch o call s = (Err e, s') → dem_step None s s'
| step_block s s' : d_block s + 1 < u32_max → next_block s = (Ok tt, s') → dem_step None s s'
| step_other s w sch :
    (∀ a, w_lock w a = w_lock (d_wallet s) a) →
    dem_step None s (s <| d_wallet := w |> <| d_schedule := sch |>).

(** Runs whose steps and reached states satisfy [ok] *)
Definition run (ok : option DemocracyCall → Dem → Prop) : relation Dem :=
  rtc (λ s s', ∃ l, dem_step l s s' ∧ ok l s').
Definition anything (l : option DemocracyCall) (s : Dem) : Prop := True.
Definition within_bounds (l : option DemocracyCall) (s : Dem) : Prop := fits (core s).
Definition not_cancelling (r : Z) (l : option DemocracyCall) (s : Dem) : Prop := (l ≫= cancels) ≠ Some r.

(** The pallet at genesis *)
Definition genesis (s : Dem) : Prop :=
  core s = mkCore 0 0 0 ∅ ∅ ∧ ∀ a, w_lock (d_wallet s) a = 0.

Context `{!VotingCurrencyLaws}.

Lemma step_event l s s' :
  dem_step l s s' →
  ∃ iss ch, core_event iss (core s) ch (core s') ∧ (∀ a, locks s' a = lock_after ch (locks s) a)
            ∧ match ch with LCancel r => (l ≫= cancels) = Some r | _ => True end.
Proof.
  intros [o call s1 s1' Hty Hr|o call s1 e s1' Hr|s1 s1' Hlt Hr|s1 w sch Hw].
  - apply transactional_ok_inv, (dispatch_event 0 _ _ _ _ Hty) in Hr as (ch & c' & Hev & [<- HL] & Hk). eauto.
  - apply transactional_fail in Hr as ->; [|done]. exists 0, LKeep. split_and!; [constructor|done..].
  - apply block_event in Hr as (ch & c' & Hev & [<- HL] & Hk); [|done].
    eexists _, ch. split_and!; [done..|]. by destruct ch.
  - exists 0, LKeep. split_and!; [constructor|done..].
Qed.

(** An invariant of the events is an invariant of the runs. *)
Lemma run_invariant (I : Core → (AccountId → Z) → Prop) ok s s' :
  (∀ c L L', (∀ a, L' a = L a) → I c L → I c L') →
  (∀ iss c ch c' L l s', core_event iss c ch c' → core s' = c' → ok l s' →
    match ch with LCancel r => (l ≫= cancels) = Some r | _ => True end → I c L → I c' (lock_after ch L)) →
  run ok s s' → I (core s) (locks s) → I (core s') (locks s').
Proof.
  intros Hext Hstep Hrun. induction Hrun as [|s s1 s' (l & Hl & Hok) _ IH]; [done|].
  intros HI. apply IH. destruct (step_event l s s1 Hl) as (iss & ch & Hev & HL & Hk).
  apply (Hext _ (lock_after ch (locks s))); [done|]. by eapply (Hstep iss _ ch _ _ l s1).
Qed.

Lemma genesis_typed s : genesis s → typed (core s).
Proof.
  intros [-> _]. constructor; [split; by vm_compute|split; by vm_compute|done|]. intros a. apply default_typed.
Qed.
Definition sound (c : Core) (L : AccountId → Z) : Prop := typed c ∧ scheduled c ∧ covered c L.
Lemma covered_ext c L L' : (∀ a, L' a = L a) → covered c L → covered c L'.
Proof. intros HL Hc a. rewrite HL. apply Hc. Qed.

Lemma run_sound ok s s' : run ok s s' → sound (core s) (locks s) → sound (core s') (locks s').
Proof.
  apply run_invariant.
  - intros c L L' HL (? & ? & ?). split_and!; [done..|]. by eapply covered_ext.
  - intros iss c ch c' L l s1 Hev _ _ _ (Ht & Hs & Hc).
    split_and!; [by eapply typed_event|by eapply scheduled_event|by eapply covered_event].
Qed.
Lemma genesis_sound s : genesis s → sound (core s) (locks s).
Proof.
  intros Hg. split_and!; [by apply genesis_typed|..]; destruct Hg as [-> HL].
  - constructor; [cbn; lia|done].
  - intros a. unfold locks. by rewrite HL.
Qed.

Lemma run_exact s s' :
  run within_bounds s s' → typed (core s) ∧ exact (core s) → typed (core s') ∧ exact (core s').
Proof.
  apply (run_invariant (λ c _, typed c ∧ exact c)); [done|].
  intros iss c ch c' _ l s1 Hev <- Hf _ [Ht He]. split; [by eapply typed_event|by eapply exact_event].
Qed.
Lemma genesis_exact s : genesis s → exact (core s).
Proof. intros [-> _]. constructor; [|done]. intros a. done. Qed.

(** The block in which a referendum ends decides it by its tally. *)
Lemma block_decides s s' r st :
  typed (core s) → scheduled (core s) → d_block s + 1 < u32_max → next_block s = (Ok tt, s') →
  ReferendumInfoOf s !! r = Some (Ongoing st) → r_end st = d_block s + 1 →
  ∃ ok, ReferendumInfoOf s' !! r = Some (Finished ok (d_block s + 1))
    ∧ approved (r_threshold st) (r_tally st) (w_issuance (d_wallet s)) = Ok ok.
Proof.
  intros Ht Hs Hlt (c1 & oks & Htab & Hoks & [Hc _])%block_run Hi Hend.
  change (ReferendumInfoOf s') with (c_infos (core s')). rewrite Hc. cbn [c_bake c_infos setter].
  assert (c_lowest c1 = LowestUnbaked s ∧ c_block c1 = d_block s + 1) as [Hlow Hnow] by by destruct Htab.
  pose proof (info_tabled _ c1 r _ (typed_next _ Ht Hlt) Htab Hi) as Hi1.
  destruct (scheduled_open _ Hs r st Hi) as [Hge _]. destruct (typed_info _ Ht r _ Hi) as [Hrange _]. cbn in Hge, Hrange.
  destruct (finish_lookup (c_block c1) (c_infos c1) oks r) as [(ok & Hok & Hf)|(Hn & _)].
  - exists ok. destruct (decided_elem _ _ _ _ _ Hoks Hok) as (st' & (_ & Hst' & _)%maturing_spec & Ha).
    rewrite Hi1 in Hst'. injection Hst' as <-. split; [|done]. rewrite <- Hnow. exact Hf.
  - destruct Hn. apply (decided_index _ _ _ _ st Hoks), maturing_spec. split; [lia|]. split; [done|lia].
Qed.

(** A referendum that is not cancelled is open on its terms, or finished at its end. *)
Definition referendum_kept (r : Z) (st : ReferendumStatus) (c : Core) : Prop :=
  ∃ info, c_infos c !! r = Some info ∧
    match info with
    | Ongoing st' => same_terms st st'
    | Finished _ fin => fin = r_end st ∧ fin ≤ c_block c
    end.
Lemma referendum_kept_event iss c ch c' r st :
  core_event iss c ch c' → typed c → ch ≠ LCancel r → referendum_kept r st c → referendum_kept r st c'.
Proof.
  intros Hev Ht Hch (info & Hi & Hk). destruct (info_event iss c ch c' r info Hev Ht Hch Hi) as (info' & Hi' & Hn).
  pose proof (block_event_mono _ _ _ _ Hev). exists info'. split; [done|]. unfold info_next, same_terms in *.
  destruct info as [st1|ok1 fin1], info' as [st2|ok2 fin2]; try done; [| |injection Hn as -> ->];
    intuition (congruence || lia).
Qed.

(** *** Why a vote is refused *)
Definition vote_error (s : Dem) (who : AccountId) (r : Z) (v : AccountVote) : option DemError :=
  match ReferendumInfoOf s !! r with
  | Some (Ongoing _) =>
      if voting_balance s who <? vote_balance v then Some InsufficientFunds
      else match voting_of s who with
           | Direct vs _ _ =>
               match vote_of r vs with
               | Some _ => None
               | None => if (length vs <? MaxVotes)%nat then None else Some MaxVotesReached
               end
           | Delegating _ _ _ _ _ => Some AlreadyDelegating
           end
  | _ => Some ReferendumInvalid
  end.
(** The votes with one more of [who], who votes directly *)
Definition with_vote (s : Dem) (who : AccountId) (r : Z) (v : AccountVote) : gmap AccountId Voting :=
  match voting_of s who with
  | Direct vs d p => <[who := Direct (put_vote r v vs) d p]> (VotingOf s)
  | Delegating _ _ _ _ _ => VotingOf s
  end.

Lemma try_vote_result s who r v :
  try_vote who r v s
  = match vote_error s who r v with
    | Some e => (Err e, s)
    | None =>
        match ReferendumInfoOf s !! r, voting_of s who with
        | Some (Ongoing st), Direct vs d p =>
            match revote (r_tally st) (vote_of r vs) v d with
            | Some t =>
                (Ok tt, s <| VotingOf ::= <[who := Direct (put_vote r v vs) d p]> |>
                          <| d_wallet ::= extend_lock who (vote_balance v) |>
                          <| ReferendumInfoOf ::= <[r := Ongoing (st <| r_tally := t |>)]> |>)
            | None =>
                (Err (if vote_of r vs is Some old
                      then if withdraw_vote (r_tally st) old d is Some _ then Overflow else Underflow
                      else Overflow), s)
            end
        | _, _ => (Err ReferendumInvalid, s)
        end
    end.
Proof.
  unfold try_vote, referendum_status, vote_error, put_voting, on_wallet, put_referendum. mrun.
  destruct (ReferendumInfoOf s !! r) as [[st|]|]; [|done..].
  rewrite Z.leb_antisym. destruct (voting_balance s who <? vote_balance v); [done|]. cbn [negb].
  destruct (voting_of s who) as [vs d p|]; [|done].
  unfold vote_of, put_vote. destruct (position r vs) as [i [old|]]; cbn [snd fst].
  - unfold revote. destruct (withdraw_vote (r_tally st) old d) as [t|]; cbn [mbind option_bind]; [|done].
    cbn [fst snd]. by destruct (cast_vote t v d).
  - destruct (length vs <? MaxVotes)%nat; [|done]. cbn [snd fst revote]. by destruct (cast_vote (r_tally st) v d).
Qed.

(** A vote that cannot be counted would exceed 128 bits. *)
Lemma revote_fails c who r v st vs d p :
  typed c → exact c → c_infos c !! r = Some (Ongoing st) → voting c who = Direct vs d p → vote_typed v →
  revote (r_tally st) (vote_of r vs) v d = None →
  match vote_of r vs with Some old => withdraw_vote (r_tally st) old d ≠ None | None => True end
  ∧ ¬ t_le (t_plus (t_minus (total r (c_votings c)) (contrib r (Direct vs d p))) (vote_contrib v d)) max_tally.
Proof.
  intros Ht He Hi Hv Hty Hr. rewrite (exact_tally c He r st Hi) in *.
  pose proof (contrib_le c who r Ht) as Hle. rewrite Hv in Hle. unfold revote in Hr. cbn [contrib] in *.
  destruct (typed_direct c who vs d p Ht Hv) as (_ & _ & Hd & _). apply deleg_typed_wf in Hd.
  destruct (vote_of r vs) as [old|] eqn:Hold.
  - rewrite withdraw_vote_exact in Hr |- *; try done; [|by eapply vote_typed_wf, typed_vote..].
    split; [done|]. apply (cast_vote_fails _ v d); [by apply vote_typed_wf|done|done].
  - split; [done|].
    replace (t_minus (total r (c_votings c)) no_tally) with (total r (c_votings c)) by (apply tally_eq; cbn; lia).
    apply (cast_vote_fails _ v d); [by apply vote_typed_wf|done|done].
Qed.

(** ** Theorems *)

(** C18: whatever is called in whatever order, what the democracy pallet stores stays of
    its types: tallies, delegations, vote balances and earlier locks in 128 bits, ends of
    referenda in 32 bits, at most [MaxVotes] votes per account, sorted by referendum and
    only for referenda that have been tabled, and nobody delegating to themselves. *)
Theorem stored_values_typed s0 s : genesis s0 → run anything s0 s → typed (core s).
Proof. intros Hg Hr. apply (run_sound _ _ _ Hr), genesis_sound, Hg. Qed.

(** C14: the incrementally kept tallies are the sums of the votes.  Along every run in which
    the sums fit 128 bits, the tally of every open referendum is the sum over all accounts
    of what their votes count for, with their conviction and with what is delegated to
    them; and what is recorded as delegated to an account is the sum over those who
    delegate to it. *)
Theorem tallies_are_sums s0 s :
  genesis s0 → run within_bounds s0 s →
  (∀ r st, ReferendumInfoOf s !! r = Some (Ongoing st) → r_tally st = total r (VotingOf s))
  ∧ ∀ a, delegations_of (voting_of s a) = deleg_sum a (VotingOf s).
Proof.
  intros Hg Hr. destruct (run_exact _ _ Hr) as [_ [Hd Ht]].
  { split; [by apply genesis_typed|by apply genesis_exact]. }
  by split.
Qed.

(** C16: a referendum is decided by the votes.  In the block in which an open referendum
    ends, the block is made without failing, and the referendum is recorded as passed
    exactly when the sum of all votes meets its threshold against the total issuance. *)
Theorem referendum_decided s0 s r st :
  let issuance := w_issuance (d_wallet s) in
  genesis s0 → run within_bounds s0 s →
  ReferendumInfoOf s !! r = Some (Ongoing st) → r_end st = d_block s + 1 →
  0 < issuance ≤ u128_max → ReferendumCount s < u32_max → d_block s + 1 < u32_max →
  ∃ s', next_block s = (Ok tt, s')
    ∧ ReferendumInfoOf s' !! r
      = Some (Finished (passes (r_threshold st) (total r (VotingOf s)) issuance) (d_block s + 1)).
Proof.
  intros iss Hg Hr Hi Hend Hiss Hcount Hblock.
  destruct (run_exact _ _ Hr) as [Ht He]; [split; [by apply genesis_typed|by apply genesis_exact]|].
  destruct (run_sound _ _ _ Hr (genesis_sound _ Hg)) as (_ & Hs & _).
  assert (∀ i st, ReferendumInfoOf s !! i = Some (Ongoing st) →
    approved (r_threshold st) (r_tally st) iss = Ok (passes (r_threshold st) (r_tally st) iss)) as Hap.
  { intros i st' Hst. apply approved_passes; [|done].
    destruct (typed_info _ Ht i _ Hst) as [_ (_ & _ & _ & ?)]. done. }
  destruct (block_total s) as [s' Hs']; [done|intros i st' Hst; eexists; by eapply Hap|].
  exists s'. split; [done|].
  destruct (block_decides s s' r st) as (ok & Hok & Ha); [done..|].
  rewrite Hok. fold iss in Ha. rewrite (Hap r st Hi) in Ha. injection Ha as <-.
  by rewrite (exact_tally _ He r st Hi).
Qed.

(** C17: referenda end, and only as they should.  Unless it is cancelled, an open
    referendum stays stored whatever happens: before its end it is open on the terms it
    was tabled with, and from its end on it is recorded as finished at that block. *)
Theorem referendum_ends s0 s r st s' :
  genesis s0 → run anything s0 s → ReferendumInfoOf s !! r = Some (Ongoing st) →
  run (not_cancelling r) s s' →
  if d_block s' <? r_end st
  then ∃ st', ReferendumInfoOf s' !! r = Some (Ongoing st') ∧ same_terms st st'
  else ∃ ok, ReferendumInfoOf s' !! r = Some (Finished ok (r_end st)).
Proof.
  intros Hg Hr Hi Hr'. pose proof (run_sound _ _ _ Hr (genesis_sound _ Hg)) as Hs.
  destruct (run_sound _ _ _ Hr' Hs) as (Ht' & Hs' & _). destruct Hs as (Ht & Hs & _).
  apply (run_invariant (λ c _, typed c ∧ referendum_kept r st c)) in Hr' as [_ (info & Hi' & Hk)]; [|done|..].
  - destruct info as [st'|ok fin]; cbn in Hi', Hk.
    + destruct (scheduled_open _ Hs' r st' Hi') as [_ Hlt]. destruct Hk as (He & Hk). cbn in Hlt. rewrite He in Hlt.
      rewrite (proj2 (Z.ltb_lt _ _)) by done. by exists st'.
    + destruct Hk as [-> Hle]. cbn in Hle. rewrite (proj2 (Z.ltb_ge _ _)) by done. by exists ok.
  - intros iss c ch c' _ l s1 Hev _ Hok Hch [Htc Hkc]. split; [by eapply typed_event|].
    eapply referendum_kept_event; [done..| |done]. intros ->. by apply Hok in Hch.
  - split; [done|]. exists (Ongoing st). by split.
Qed.

(** C15: a winning vote stays locked.  An account that voted with a conviction for the side
    that won a referendum cannot free the tokens it voted with before the conviction's
    periods after the end are over: whatever is called until then, removing the vote,
    delegating, voting elsewhere or unlocking, the vote lock is at least that balance.  Only
    the root origin can lift it, by cancelling the referendum. *)
Theorem conviction_lock_holds s0 s who vs d p r vote bal fin s' :
  genesis s0 → run anything s0 s →
  voting_of s who = Direct vs d p → (r, Standard vote bal) ∈ vs →
  ReferendumInfoOf s !! r = Some (Finished (aye vote) fin) →
  run (not_cancelling r) s s' →
  d_block s' < unlock_block fin (lock_periods (conviction vote)) →
  bal ≤ w_lock (d_wallet s') who.
Proof.
  intros Hg Hr Hv Hin Hi Hr' HU. pose proof (run_sound _ _ _ Hr (genesis_sound _ Hg)) as Hs.
  destruct (run_sound _ _ _ Hr' Hs) as (_ & _ & Hcov). destruct Hs as (Ht & _ & _).
  remember (unlock_block fin (lock_periods (conviction vote))) as U eqn:HeqU.
  revert Hr'. intros Hr'.
  apply (run_invariant (λ c _, typed c ∧ (c_block c < U → committed r U bal who c))) in Hr' as [_ Hc]; [|done|..].
  - apply (committed_locked r U bal who (core s') (locks s')); [by apply Hc|done].
  - intros iss c ch c' _ l s1 Hev _ Hok Hch [Htc Hkc]. split; [by eapply typed_event|]. intros HU'.
    eapply committed_event; [done..| |done|].
    + intros ->. by apply Hok in Hch.
    + apply Hkc. pose proof (block_event_mono _ _ _ _ Hev). lia.
  - split; [done|]. intros _. right. exists vs, d, p, vote, fin. done.
Qed.

(** Voting fails exactly when it should.  A signed vote is refused, without any effect,
    for a referendum that is not open, for more than the free and staked balance, by an
    account that delegates, and for a new referendum beyond [MaxVotes]; otherwise it is
    recorded, unless the sum of all votes with it would exceed 128 bits.  Taking out the
    earlier vote never underflows. *)
Theorem vote_outcome s0 s o who r v :
  genesis s0 → run within_bounds s0 s → EnsureSigned o = Some who → vote_typed v →
  match vote_error s who r v with
  | Some e => democracy_dispatch o (CastVote r v) s = (Err e, s)
  | None =>
      (∃ s' vs d p, democracy_dispatch o (CastVote r v) s = (Ok tt, s')
        ∧ voting_of s' who = Direct vs d p ∧ vote_of r vs = Some v)
      ∨ (democracy_dispatch o (CastVote r v) s = (Err Overflow, s)
         ∧ ¬ t_le (total r (with_vote s who r v)) max_tally)
  end.
Proof.
  intros Hg Hr Ho Hv. destruct (run_exact _ _ Hr) as [Ht He]; [split; [by apply genesis_typed|by apply genesis_exact]|].
  assert (∀ res, try_vote who r v s = res →
    democracy_dispatch o (CastVote r v) s = match res with (Ok u, s') => (Ok u, s') | (e, _) => (e, s) end) as Hd.
  { intros res <-. unfold democracy_dispatch, transactional, democracy_call, dem_signed. rewrite Ho. done. }
  pose proof (try_vote_result s who r v) as Hres. apply Hd in Hres. rewrite Hres. clear Hd Hres.
  destruct (vote_error s who r v) as [e|] eqn:Herr; [done|]. unfold vote_error in Herr.
  destruct (ReferendumInfoOf s !! r) as [[st|]|] eqn:Hi; [|done..].
  destruct (voting_balance s who <? vote_balance v); [done|].
  unfold with_vote. destruct (voting_of s who) as [vs d p|] eqn:Hvo; [|done].
  destruct (typed_direct _ who vs d p Ht Hvo) as (Hs & _ & Hdt & _).
  destruct (put_vote_spec r v vs Hs) as [Hs' Hin].
  assert (vote_of r (put_vote r v vs) = Some v) as Hnew by (apply vote_of_elem; [done|]; apply Hin; by left).
  destruct (revote (r_tally st) (vote_of r vs) v d) as [t|] eqn:Hrv.
  - left. eexists _, (put_vote r v vs), d, p. split; [done|]. split; [|done].
    unfold voting_of. cbn. by rewrite lookup_insert_eq.
  - right. pose proof (revote_fails _ who r v st vs d p Ht He Hi Hvo Hv Hrv) as (Hun & Hbig). split.
    + destruct (vote_of r vs) as [old|]; [|done]. destruct (withdraw_vote (r_tally st) old d); [done|]. by destruct Hun.
    + rewrite total_insert. fold (voting_of s who). rewrite Hvo. cbn [contrib] in *. by rewrite Hnew.
Qed.
End runs.

(** ** A concrete chain *)
Module DemocracyExample.
#[export] Instance ref_voting : VotingCurrency := {|
  Wallet := gmap AccountId Z;
  WalletError := unit;
  w_free _ _ := 1000;
  w_staked _ _ := 500;
  w_issuance _ := 10000;
  w_lock w a := default 0 (w !! a);
  extend_lock a n w := <[a := Z.max (default 0 (w !! a)) n]> w;
  set_vote_lock a n w := <[a := n]> w;
  remove_vote_lock a w := delete a w;
  w_reserve _ _ := mret tt;
  w_unreserve _ _ w := w;
  w_slash_reserved _ _ w := w;
|}.
#[export] Instance ref_voting_laws : VotingCurrencyLaws.
Proof.
  split; cbn; try done.
  - intros w a n b. case_decide; [subst; by rewrite lookup_insert_eq|by rewrite lookup_insert_ne].
  - intros w a n b _. case_decide; [subst; by rewrite lookup_insert_eq|by rewrite lookup_insert_ne].
  - intros w a b. case_decide; [subst; by rewrite lookup_delete_eq|by rewrite lookup_delete_ne].
  - intros w a n r w' b [= <- <-]. done.
Qed.
#[export] Instance ref_proposals : Proposals := {|
  Proposal := H256;
  proposal_hash p := p;
  Schedule := list Z;
  schedule_named i _ _ sch := (true, i :: sch);
  preimage_exists _ _ := false;
|}.
#[export] Existing Instance PolicyExample.ref_collective.

Definition alice : AccountId := vreplicate 32 x01.
Definition root : RuntimeOrigin := system_origin Root.
Definition by_alice : RuntimeOrigin := system_origin (Signed alice).
Definition ballot : AccountVote := Standard (mkVote true Locked1x) 100.

(** The council's proposal is put to a vote of two blocks; one account votes for it. *)
Definition call (o : RuntimeOrigin) (c : DemocracyCall) (s : Dem) : Dem := (democracy_dispatch o c s).2.
Definition block (s : Dem) : Dem := (next_block s).2.
Definition externals : DemocracyCall := ExternalProposeMajority (PR := ref_proposals) H256_zero.
Definition track : DemocracyCall := FastTrack H256_zero 2 0.
Definition cast : DemocracyCall := CastVote 0 ballot.
Definition s0 : Dem := mkDem 0 0 [] ∅ 0 0 ∅ ∅ false None ∅ ∅ ∅ ∅ [].
Definition s1 : Dem := call root externals s0.
Definition s2 : Dem := call root track s1.
Definition s3 : Dem := call by_alice cast s2.
Definition s4 : Dem := block s3.
Definition s5 : Dem := block s4.
Definition s6 : Dem := call by_alice (RemoveVote 0) s5.
Definition s7 : Dem := call by_alice (Unlock alice) s6.

Lemma run_call ok o c s s' :
  call_typed c → is_ok (democracy_dispatch o c s).1 = true → ok (Some c) (call o c s) → run ok (call o c s) s' →
  run ok s s'.
Proof.
  intros Hc Hr Hok Hrun. eapply rtc_l; [|exact Hrun]. exists (Some c). split; [|done].
  eapply step_call; [done|]. by apply run_ok.
Qed.
Lemma run_block ok s s' :
  d_block s + 1 < u32_max → is_ok (next_block s).1 = true → ok None (block s) → run ok (block s) s' → run ok s s'.
Proof.
  intros Hb Hr Hok Hrun. eapply rtc_l; [|exact Hrun]. exists None. split; [|done].
  apply step_block; [done|]. by apply run_ok.
Qed.

(** Without delegations the sums fit when the open tallies do. *)
Definition is_direct (vt : Voting) : bool := match vt with Direct _ _ _ => true | _ => false end.
Definition fits_check (s : Dem) : bool :=
  forallb (λ x, is_direct x.2) (map_to_list (VotingOf s))
  && forallb (λ x, let t := total x.1 (VotingOf s) in
       (ayes t <=? u128_max) && (nays t <=? u128_max) && (turnout t <=? u128_max)) (map_to_list (ReferendumInfoOf s)).
Lemma fits_check_ok l s : fits_check s = true → within_bounds l s.
Proof.
  unfold fits_check. rewrite andb_true_iff, !forallb_forall. intros [Hd Ht]. constructor.
  - intros a. assert (∀ b vt, VotingOf s !! b = Some vt → deleg_to a vt = no_delegations) as Hall.
    { intros b vt Hb. specialize (Hd (b, vt)). rewrite <- list_elem_of_In, elem_of_map_to_list in Hd.
      by destruct vt; [|specialize (Hd Hb)]. }
    cbn. rewrite (deleg_sum_zero _ _ Hall). split; by vm_compute.
  - intros r st Hr. specialize (Ht (r, Ongoing st)). rewrite <- list_elem_of_In, elem_of_map_to_list in Ht.
    specialize (Ht Hr). rewrite !andb_true_iff, !Z.leb_le in Ht. unfold t_le, max_tally. cbn -[u128_max total] in *. tauto.
Qed.

Lemma start : genesis s0.
Proof. split; [reflexivity|]. intros a. reflexivity. Qed.
Lemma voted : run within_bounds s0 s4.
Proof.
  apply (run_call _ root externals s0); [done|by vm_compute|by apply fits_check_ok; vm_compute|].
  apply (run_call _ root track s1); [done|by vm_compute|by apply fits_check_ok; vm_compute|].
  apply (run_call _ by_alice cast s2); [by vm_compute|by vm_compute|by apply fits_check_ok; vm_compute|].
  apply (run_block _ s3); [by vm_compute|by vm_compute|by apply fits_check_ok; vm_compute|].
  exact (rtc_refl _ s4).
Qed.
Lemma finished : run anything s0 s5.
Proof.
  apply (run_call _ root externals s0); [done|by vm_compute|done|].
  apply (run_call _ root track s1); [done|by vm_compute|done|].
  apply (run_call _ by_alice cast s2); [by vm_compute|by vm_compute|done|].
  apply (run_block _ s3); [by vm_compute|by vm_compute|done|].
  apply (run_block _ s4); [by vm_compute|by vm_compute|done|]. exact (rtc_refl _ s5).
Qed.
Lemma removed : run (not_cancelling 0) s5 s7.
Proof.
  apply (run_call _ by_alice (RemoveVote 0) s5); [done|by vm_compute|done|].
  apply (run_call _ by_alice (Unlock alice) s6); [done|by vm_compute|done|]. exact (rtc_refl _ s7).
Qed.
Definition voted_status (s : Dem) : ReferendumStatus :=
  match ReferendumInfoOf s !! 0 with
  | Some (Ongoing st) => st
  | _ => mkStatus (PR := ref_proposals) 0 H256_zero SimpleMajority 0 no_tally
  end.

Lemma stored_values_typed_witness : typed (core s5).
Proof. exact (stored_values_typed s0 s5 start finished). Defined.

Lemma tallies_are_sums_witness :
  (∀ r st, ReferendumInfoOf s4 !! r = Some (Ongoing st) → r_tally st = total r (VotingOf s4))
  ∧ ∀ a, delegations_of (voting_of s4 a) = deleg_sum a (VotingOf s4).
Proof. exact (tallies_are_sums s0 s4 start voted). Defined.

Lemma referendum_decided_witness :
  ∃ s', next_block s4 = (Ok tt, s')
    ∧ ReferendumInfoOf s' !! 0 = Some (Finished (passes SimpleMajority (total 0 (VotingOf s4)) 10000) 2).
Proof.
  apply (referendum_decided s0 s4 0 (voted_status s4) start voted); by vm_compute.
Defined.

Lemma conviction_lock_holds_witness : 100 ≤ w_lock (d_wallet s7) alice.
Proof.
  assert (voting_of s5 alice = Direct [(0, ballot)] no_delegations no_prior) as Hv by (vm_compute; reflexivity).
  assert ((0, ballot) ∈ [(0, ballot)]) as Hin by left.
  assert (ReferendumInfoOf s5 !! 0 = Some (Finished true 2)) as Hi by (vm_compute; reflexivity).
  assert (d_block s7 < unlock_block 2 (lock_periods Locked1x)) as HU by (vm_compute; reflexivity).
  exact (conviction_lock_holds s0 s5 alice [(0, ballot)] no_delegations no_prior 0 (mkVote true Locked1x) 100 2 s7
    start finished Hv Hin Hi removed HU).
Defined.

Lemma referendum_ends_witness : ∃ ok, ReferendumInfoOf s5 !! 0 = Some (Finished ok 2).
Proof.
  assert (run (not_cancelling 0) s4 s5) as Hr.
  { apply (run_block _ s4); [by vm_compute|by vm_compute|done|]. exact (rtc_refl _ s5). }
  assert (run anything s0 s4) as Hr0.
  { apply (rtc_subrel _ _ _ _ (λ s s' H, match H with ex_intro _ l (conj Hl _) => ex_intro _ l (conj Hl I) end) voted). }
  assert (ReferendumInfoOf s4 !! 0 = Some (Ongoing (voted_status s4))) as Hi by by vm_compute.
  pose proof (referendum_ends s0 s4 0 (voted_status s4) s5 start Hr0 Hi Hr) as H. vm_compute in H |- *. exact H.
Defined.

Lemma vote_outcome_witness : democracy_dispatch by_alice (CastVote 1 ballot) s4 = (Err ReferendumInvalid, s4).
Proof.
  assert (vote_typed ballot) as Hv by by vm_compute.
  exact (vote_outcome s0 s4 by_alice alice 1 ballot start voted eq_refl Hv).
Defined.
End DemocracyExample.
