(* ===== verification/Genesis.v ===== *)
(** * The genesis configuration

    [runtimes/mainnet/src/genesis_config_presets.rs] and the account set-up of
    [nodes/mainnet/src/chain_spec.rs]: who is endowed at block zero, who stakes, who sits in
    the collective.  The random source and the key ring are outside the repository. *)

From S2P Require Import Prelude Assets Types Chain Locks Migration Rewards Upgrade RawStorage Cleanup Policy.

Definition ENDOWMENT : Z := 100 * PDEX.
Definition STASH : Z := 2 * PDEX.
Definition MAX_COLLECTIVE_SIZE : nat := 50.
(** [NposSolution16::LIMIT] *)
Definition MaxNominations : nat := 16.

(** [pallet_staking::StakerStatus] *)
Inductive StakerStatus : Type := Idle | Validator | Nominator (targets : list AccountId).
Definition Staker : Type := AccountId * AccountId * Z * StakerStatus.

(** The fields [kitchensink_genesis] sets. *)
Record RuntimeGenesisConfig : Type := mkGenesis {
  g_balances : list (AccountId * Z);
  g_session_keys : list (AccountId * AccountId * SessionKeys);
  g_validator_count : Z;
  g_minimum_validator_count : Z;
  g_invulnerables : list AccountId;
  g_stakers : list Staker;
  g_elections : list (AccountId * Z);
  g_technical_committee : list AccountId;
}.

Record StakingPlaygroundConfig : Type := mkPlayground {
  pg_validator_count : Z; pg_minimum_validator_count : Z;
}.

(** An entry of [initial_authorities]: stash, controller and the six session keys *)
Record Authority : Type := mkAuthority {
  auth_stash : AccountId; auth_controller : AccountId; auth_keys : SessionKeys;
}.

(** ** [genesis_config_presets.rs] *)
Definition collective (endowed : list AccountId) : list AccountId :=
  take (Nat.min ((length endowed + 1) / 2) MAX_COLLECTIVE_SIZE) endowed.

Definition validator (account : AccountId) : Staker := (account, account, STASH, Validator).

(** *** Keys *)

(** A literal in hexadecimal digits, as [array_bytes] reads it *)
Definition hex_digit (c : Ascii.ascii) : N :=
  let n := Ascii.N_of_ascii c in if (n <? 58)%N then (n - 48)%N else (n - 87)%N.
Fixpoint hex_bytes (s : string) : bytes :=
  match s with
  | String a (String b s) =>
      default x00 (Byte.of_N (16 * hex_digit a + hex_digit b)) :: hex_bytes s
  | _ => []
  end.
Definition hex_n (n : nat) (s : string) : byte_array n := pad n (hex_bytes s).

Definition session_keys (grandpa babe im_online authority_discovery mixnet : byte_array 32)
    (beefy : byte_array 33) : SessionKeys :=
  mkSessionKeys grandpa babe im_online authority_discovery mixnet beefy.

(** [sp_keyring] and [sp_core]: the well-known accounts, and the public key of a seed for
    each of the types of keys; the names of the presets *)
Class KeyRing := {
  well_known : list AccountId;
  public_sr25519 : string → AccountId;
  public_grandpa : string → byte_array 32;
  public_babe : string → byte_array 32;
  public_im_online : string → byte_array 32;
  public_authority_discovery : string → byte_array 32;
  public_mixnet : string → byte_array 32;
  public_beefy : string → byte_array 33;
  DEV_RUNTIME_PRESET : string;
  LOCAL_TESTNET_RUNTIME_PRESET : string;
}.

Section keys.
Context {KR : KeyRing}.

Definition session_keys_from_seed (seed : string) : SessionKeys :=
  session_keys (public_grandpa seed) (public_babe seed) (public_im_online seed)
    (public_authority_discovery seed) (public_mixnet seed) (public_beefy seed).

Definition authority_keys_from_seed (seed : string) : AccountId * AccountId * SessionKeys :=
  (public_sr25519 (seed +:+ "//stash"), public_sr25519 seed, session_keys_from_seed seed).

Definition well_known_including_eth_accounts : list AccountId :=
  well_known ++
  [hex_n 32 "f24ff3a9cf04c71dbc94d0b566f7a27b94566caceeeeeeeeeeeeeeeeeeeeeeee";
   hex_n 32 "3cd0a705a2dc65e5b1e1205896baa2be8a07c6e0eeeeeeeeeeeeeeeeeeeeeeee"].

Definition preset_names : list string := [DEV_RUNTIME_PRESET; LOCAL_TESTNET_RUNTIME_PRESET].
End keys.

Section genesis.
(** [MaxInvulnerables] of [pallet_staking] *)
Context (MaxInvulnerables : nat).

(** [kitchensink_genesis]; the root key is not used *)
Definition kitchensink_genesis (initial_authorities : list (AccountId * AccountId * SessionKeys))
    (_root_key : AccountId) (endowed_accounts : list AccountId) (stakers : list Staker)
    (playground : option StakingPlaygroundConfig) : res unit RuntimeGenesisConfig :=
  let '(validator_count, min_validator_count) :=
    match playground with
    | Some c => (pg_validator_count c, pg_minimum_validator_count c)
    | None => let n := wrap 32 (Z.of_nat (length initial_authorities)) in (n, n)
    end in
  let col := collective endowed_accounts in
  if (length initial_authorities <=? MaxInvulnerables)%nat then
    Ok {| g_balances := (λ x, (x, ENDOWMENT)) <$> endowed_accounts;
          g_session_keys := initial_authorities;
          g_validator_count := validator_count;
          g_minimum_validator_count := min_validator_count;
          g_invulnerables := (λ x, x.1.1) <$> initial_authorities;
          g_stakers := stakers;
          g_elections := (λ m, (m, STASH)) <$> col;
          g_technical_committee := col |}
  else Panic.

(** [get_preset], up to the serialization of the result *)
Definition get_preset {KR : KeyRing} (id : string) : res unit (option RuntimeGenesisConfig) :=
  let '(alice_stash, alice, alice_session_keys) := authority_keys_from_seed "Alice" in
  let '(bob_stash, _, bob_session_keys) := authority_keys_from_seed "Bob" in
  let endowed := well_known_including_eth_accounts in
  let patch :=
    if bool_decide (id = DEV_RUNTIME_PRESET) then
      Some (kitchensink_genesis [(alice_stash, alice_stash, alice_session_keys)]
              alice endowed [validator alice_stash] None)
    else if bool_decide (id = LOCAL_TESTNET_RUNTIME_PRESET) then
      Some (kitchensink_genesis
              [(alice_stash, alice_stash, alice_session_keys); (bob_stash, bob_stash, bob_session_keys)]
              alice endowed [validator alice_stash; validator bob_stash] None)
    else None in
  match patch with
  | None => Ok None
  | Some (Ok g) => Ok (Some g)
  | Some (Err e) => Err e
  | Some Panic => Panic
  end.

(** ** [chain_spec.rs] *)

(** [configure_accounts_for_staging_testnet]: the authorities, the root key and the endowed
    accounts *)
Definition configure_accounts_for_staging_testnet : list Authority * AccountId * list AccountId :=
  let initial_authorities := [
    mkAuthority
      (hex_n 32 "9c7a2ee14e565db0c69f78c7b4cd839fbf52b607d867e9e9c5a79042898a0d12")
      (hex_n 32 "781ead1e2fa9ccb74b44c19d29cb2a7a4b5be3972927ae98cd3877523976a276")
      (session_keys
        (hex_n 32 "9becad03e6dcac03cee07edebca5475314861492cdfc96a2144a67bbe9699332")
        (hex_n 32 "6e7e4eb42cbd2e0ab4cae8708ce5509580b8c04d11f6758dbf686d50fe9f9106")
        (hex_n 32 "6e7e4eb42cbd2e0ab4cae8708ce5509580b8c04d11f6758dbf686d50fe9f9106")
        (hex_n 32 "6e7e4eb42cbd2e0ab4cae8708ce5509580b8c04d11f6758dbf686d50fe9f9106")
        (hex_n 32 "6e7e4eb42cbd2e0ab4cae8708ce5509580b8c04d11f6758dbf686d50fe9f9106")
        (hex_n 33 "035560fafa241739869360aa4b32bc98953172ceb41a19c6cc1a27962fb3d1ecec"));
    mkAuthority
      (hex_n 32 "68655684472b743e456907b398d3a44c113f189e56d1bbfd55e889e295dfde78")
      (hex_n 32 "c8dc79e36b29395413399edaec3e20fcca7205fb19776ed8ddb25d6f427ec40e")
      (session_keys
        (hex_n 32 "7932cff431e748892fa48e10c63c17d30f80ca42e4de3921e641249cd7fa3c2f")
        (hex_n 32 "482dbd7297a39fa145c570552249c2ca9dd47e281f0c500c971b59c9dcdcd82e")
        (hex_n 32 "482dbd7297a39fa145c570552249c2ca9dd47e281f0c500c971b59c9dcdcd82e")
        (hex_n 32 "482dbd7297a39fa145c570552249c2ca9dd47e281f0c500c971b59c9dcdcd82e")
        (hex_n 32 "482dbd7297a39fa145c570552249c2ca9dd47e281f0c500c971b59c9dcdcd82e")
        (hex_n 33 "02da1ab255ed888ee3e19b73d335fc13160b3eb10456c2d17c6a8ea7de403d2445"));
    mkAuthority
      (hex_n 32 "547ff0ab649283a7ae01dbc2eb73932eba2fb09075e9485ff369082a2ff38d65")
      (hex_n 32 "9e42241d7cd91d001773b0b616d523dd80e13c6c2cab860b1234ef1b9ffc1526")
      (session_keys
        (hex_n 32 "5633b70b80a6c8bb16270f82cca6d56b27ed7b76c8fd5af2986a25a4788ce440")
        (hex_n 32 "482a3389a6cf42d8ed83888cfd920fec738ea30f97e44699ada7323f08c3380a")
        (hex_n 32 "482a3389a6cf42d8ed83888cfd920fec738ea30f97e44699ada7323f08c3380a")
        (hex_n 32 "482a3389a6cf42d8ed83888cfd920fec738ea30f97e44699ada7323f08c3380a")
        (hex_n 32 "482a3389a6cf42d8ed83888cfd920fec738ea30f97e44699ada7323f08c3380a")
        (hex_n 33 "036a818b3f59579c5fbbe4fede64f49dbf090ba883eb2a175d5ca90e5adb5f0b3e"));
    mkAuthority
      (hex_n 32 "f26cdb14b5aec7b2789fd5ca80f979cef3761897ae1f37ffb3e154cbcc1c2663")
      (hex_n 32 "66bc1e5d275da50b72b15de072a2468a5ad414919ca9054d2695767cf650012f")
      (session_keys
        (hex_n 32 "3919132b851ef0fd2dae42a7e734fe547af5a6b809006100f48944d7fae8e8ef")
        (hex_n 32 "00299981a2b92f878baaf5dbeba5c18d4e70f2a1fcd9c61b32ea18daf38f4378")
        (hex_n 32 "00299981a2b92f878baaf5dbeba5c18d4e70f2a1fcd9c61b32ea18daf38f4378")
        (hex_n 32 "00299981a2b92f878baaf5dbeba5c18d4e70f2a1fcd9c61b32ea18daf38f4378")
        (hex_n 32 "00299981a2b92f878baaf5dbeba5c18d4e70f2a1fcd9c61b32ea18daf38f4378")
        (hex_n 33 "020ce02b963548f9f8ade8765f7a4a06638c17819c78422a1cc35b647873583eef"))
  ] in
  let root_key := hex_n 32 "9ee5e5bdc0ec239eb164f865ecc345ce4c88e76ee002e0f7e318097347471809" in
  (initial_authorities, root_key, [root_key]).

(** [rand]: a generator, [gen::<usize>] and [choose_multiple] *)
Context (Rng : Type) (gen_usize : Rng → Z * Rng)
  (choose_multiple : list Authority → nat → Rng → list Authority * Rng).

Definition endow (endowed_accounts : list AccountId) (x : AccountId) : list AccountId :=
  if bool_decide (x ∈ endowed_accounts) then endowed_accounts else endowed_accounts ++ [x].

(** The closure over the nominators; [% limit] panics for [limit = 0] *)
Definition nominator (initial_authorities : list Authority) (stash : Z) (x : AccountId) (rng : Rng)
    : res unit (Staker * Rng) :=
  let limit := Nat.min MaxNominations (length initial_authorities) in
  let '(r, rng) := gen_usize rng in
  if (limit =? 0)%nat then Panic else
  let '(choice, rng) := choose_multiple initial_authorities (Z.to_nat (r mod Z.of_nat limit)) rng in
  Ok ((x, x, stash, Nominator (auth_stash <$> choice)), rng).
Fixpoint nominators (initial_authorities : list Authority) (stash : Z) (l : list AccountId) (rng : Rng)
    : res unit (list Staker) :=
  match l with
  | [] => Ok []
  | x :: l' =>
      match nominator initial_authorities stash x rng with
      | Ok (s, rng) =>
          match nominators initial_authorities stash l' rng with
          | Ok ss => Ok (s :: ss) | Err e => Err e | Panic => Panic
          end
      | Err e => Err e
      | Panic => Panic
      end
  end.
Definition configure_accounts (initial_authorities : list Authority) (initial_nominators : list AccountId)
    (endowed_accounts : list AccountId) (stash : Z) (rng : Rng)
    : res unit (list Authority * list AccountId * list Staker) :=
  let endowed_accounts :=
    foldl endow endowed_accounts ((auth_stash <$> initial_authorities) ++ initial_nominators) in
  match nominators initial_authorities stash initial_nominators rng with
  | Ok ns => Ok (initial_authorities, endowed_accounts,
      ((λ x, (auth_stash x, auth_stash x, stash, Validator)) <$> initial_authorities) ++ ns)
  | Err e => Err e
  | Panic => Panic
  end.

Definition testnet_genesis (initial_authorities : list Authority) (initial_nominators : list AccountId)
    (root_key : AccountId) (endowed_accounts : list AccountId) (rng : Rng)
    : res unit RuntimeGenesisConfig :=
  match configure_accounts initial_authorities initial_nominators endowed_accounts STASH rng with
  | Ok (auths, endowed, stakers) =>
      kitchensink_genesis ((λ x, (auth_stash x, auth_stash x, auth_keys x)) <$> auths) root_key
        endowed stakers None
  | Err e => Err e
  | Panic => Panic
  end.

Definition staging_testnet_config_genesis (rng : Rng) : res unit RuntimeGenesisConfig :=
  let '(initial_authorities, root_key, endowed_accounts) := configure_accounts_for_staging_testnet in
  testnet_genesis initial_authorities [] root_key endowed_accounts rng.

(** ** Properties *)

Lemma endow_all l endowed x : x ∈ foldl endow endowed l ↔ x ∈ endowed ∨ x ∈ l.
Proof.
  revert endowed. induction l as [|y l IH]; intros endowed; cbn; [set_solver|].
  rewrite IH. unfold endow. case_bool_decide; set_solver.
Qed.
Lemma endow_nodup l endowed : NoDup endowed → NoDup (foldl endow endowed l).
Proof.
  revert endowed. induction l as [|y l IH]; intros endowed Hd; cbn; [done|]. apply IH. unfold endow.
  case_bool_decide; [done|]. apply NoDup_app. split_and!; [done| |apply NoDup_singleton]. set_solver.
Qed.

(** What choosing at random promises: some of the given, at most as many as asked for. *)
Definition chooses : Prop := ∀ l n rng, (choose_multiple l n rng).1 ⊆ l ∧ (length (choose_multiple l n rng).1 ≤ n)%nat.

Lemma nominators_ok auths stash l rng ss :
  chooses → nominators auths stash l rng = Ok ss →
  (λ s : Staker, s.1.1.1) <$> ss = l
  ∧ Forall (λ s : Staker, s.1.2 = stash ∧ s.1.1.2 = s.1.1.1 ∧ ∃ t, s.2 = Nominator t
      ∧ t ⊆ auth_stash <$> auths ∧ (length t < Nat.min MaxNominations (length auths))%nat) ss.
Proof.
  intros Hc. revert rng ss. induction l as [|x l IH]; intros rng ss; cbn [nominators]; [by intros [= <-]|].
  unfold nominator. destruct (gen_usize rng) as [r rng1]. destruct (Nat.eqb_spec (Nat.min MaxNominations (length auths)) 0) as [|Hl]; [done|].
  set (n := Z.to_nat _). destruct (choose_multiple auths n rng1) as [ch rng2] eqn:Hch.
  destruct (Hc auths n rng1) as [Hsub Hlen]. rewrite Hch in Hsub, Hlen. cbn in Hsub, Hlen.
  destruct (nominators auths stash l rng2) as [ss'| |] eqn:Hn; [|done..]. intros [= <-].
  destruct (IH _ _ Hn) as [IH1 IH2]. cbn [fmap list_fmap]. split; [by rewrite IH1|]. constructor; [|done].
  cbn -[Nat.min]. split_and!; [done..|]. eexists. split_and!; [done|set_solver|]. rewrite length_fmap.
  pose proof (Z.mod_pos_bound r (Z.of_nat (Nat.min MaxNominations (length auths))) ltac:(lia)) as Hr.
  unfold n in Hlen. lia.
Qed.
Lemma nominators_total auths stash l rng : auths ≠ [] → ∃ ss, nominators auths stash l rng = Ok ss.
Proof.
  intros Ha. revert rng. induction l as [|x l IH]; intros rng; cbn [nominators]; [by eexists|].
  unfold nominator. destruct (gen_usize rng) as [r rng1].
  destruct (Nat.eqb_spec (Nat.min MaxNominations (length auths)) 0) as [Hz|_].
  { destruct auths; [done|]. cbn in Hz. lia. }
  destruct choose_multiple as [ch rng2]. destruct (IH rng2) as [ss ->]. by eexists.
Qed.

Lemma collective_sub endowed : collective endowed ⊆ endowed ∧ (length (collective endowed) ≤ MAX_COLLECTIVE_SIZE)%nat.
Proof.
  unfold collective. split; [|rewrite length_take; lia]. intros x Hx. by eapply elem_of_take in Hx as (? & ?%list_elem_of_lookup_2 & _).
Qed.

(** The genesis of a testnet.  With at least one authority and no more of them than
    [MaxInvulnerables], the configuration is built; no account is endowed twice if none was
    listed twice; every authority, nominator, staker and member of the collective is endowed
    with more than it bonds; nominators nominate authorities only, and fewer than the limit. *)
Theorem testnet_genesis_endowed auths noms root endowed rng :
  chooses → auths ≠ [] → (length auths ≤ MaxInvulnerables)%nat → NoDup endowed →
  ∃ g, testnet_genesis auths noms root endowed rng = Ok g
    ∧ NoDup (g_balances g).*1
    ∧ (∀ x, x ∈ endowed ∨ x ∈ auth_stash <$> auths ∨ x ∈ noms → (x, ENDOWMENT) ∈ g_balances g)
    ∧ (∀ s c b st, (s, c, b, st) ∈ g_stakers g →
         c = s ∧ (s, ENDOWMENT) ∈ g_balances g ∧ b < ENDOWMENT
         ∧ ∀ t, st = Nominator t → t ⊆ g_invulnerables g ∧ (length t < length auths)%nat)
    ∧ (∀ m b, (m, b) ∈ g_elections g → (m, ENDOWMENT) ∈ g_balances g ∧ b < ENDOWMENT)
    ∧ (length (g_technical_committee g) ≤ MAX_COLLECTIVE_SIZE)%nat.
Proof.
  intros Hc Ha Hmax Hd. unfold testnet_genesis, configure_accounts.
  destruct (nominators_total auths STASH noms rng Ha) as [ns Hn]. rewrite Hn.
  destruct (nominators_ok _ _ _ _ _ Hc Hn) as [Hnames Hns].
  unfold kitchensink_genesis. rewrite length_fmap, (proj2 (Nat.leb_le _ _) Hmax).
  set (all := foldl endow endowed _). eexists. split; [done|]. cbn.
  assert (∀ x, x ∈ all → (x, ENDOWMENT) ∈ (λ x, (x, ENDOWMENT)) <$> all) as Hin
    by (intros x Hx; apply list_elem_of_fmap; eauto).
  assert (∀ x, x ∈ endowed ∨ x ∈ auth_stash <$> auths ∨ x ∈ noms → x ∈ all) as Hall
    by (intros x; unfold all; rewrite endow_all; set_solver).
  split_and!.
  - rewrite <- list_fmap_compose. cbn. rewrite list_fmap_id. by apply endow_nodup.
  - auto.
  - intros s c b st [Hv|Hs]%elem_of_app.
    + apply list_elem_of_fmap in Hv as (a & [= -> -> -> ->] & Hv). split_and!; [done| |done|done].
      apply Hin, Hall. right; left. apply list_elem_of_fmap. eauto.
    + rewrite Forall_forall in Hns. destruct (Hns _ Hs) as (Hb & Hcs & t & Hst & Ht & Hl). cbn -[Nat.min] in *. subst b c st.
      split_and!; [done| |done|].
      * apply Hin, Hall. right; right. rewrite <- Hnames. apply list_elem_of_fmap. by exists (s, s, STASH, Nominator t).
      * intros t' [= <-]. rewrite <- list_fmap_compose. split; [done|lia].
  - intros m b Hm. apply list_elem_of_fmap in Hm as (x & [= -> ->] & Hx). split; [|done].
    apply Hin. by apply collective_sub.
  - apply collective_sub.
Qed.

(** Nominators without an authority to nominate: the remainder by zero panics. *)
Lemma nominators_need_authorities x noms root endowed rng :
  testnet_genesis [] (x :: noms) root endowed rng = Panic.
Proof.
  unfold testnet_genesis, configure_accounts. cbn [nominators]. unfold nominator. by destruct gen_usize.
Qed.

(** Exactly the listed presets exist; building them succeeds with room for two invulnerables. *)
Lemma get_preset_names {KR : KeyRing} id :
  (2 ≤ MaxInvulnerables)%nat →
  match get_preset id with
  | Ok (Some g) => id ∈ preset_names
      ∧ g_elections g = (λ m, (m, STASH)) <$> collective well_known_including_eth_accounts
      ∧ Forall (λ s : Staker, s.2 = Validator ∧ s.1.1.1 ∈ g_invulnerables g) (g_stakers g)
  | Ok None => id ∉ preset_names
  | _ => False
  end.
Proof.
  intros Hm. unfold get_preset, authority_keys_from_seed, kitchensink_genesis, preset_names. cbn [length].
  rewrite !(proj2 (Nat.leb_le _ _)) by lia. case_bool_decide as H1; [|case_bool_decide as H2; [|set_solver]].
  all: split_and!; [set_solver|done|]; cbn; repeat (apply Forall_cons_2 || apply Forall_nil_2); cbn; (split; [done|set_solver]).
Qed.

(** The staging testnet: four authorities, five endowed accounts, three members. *)
Lemma staging_genesis rng :
  (4 ≤ MaxInvulnerables)%nat →
  ∃ g, staging_testnet_config_genesis rng = Ok g
    ∧ length (g_balances g) = 5%nat ∧ length (g_elections g) = 3%nat ∧ length (g_stakers g) = 4%nat
    ∧ NoDup (g_balances g).*1 ∧ Forall (λ s : Staker, s.2 = Validator) (g_stakers g).
Proof.
  intros Hm. unfold staging_testnet_config_genesis, configure_accounts_for_staging_testnet, testnet_genesis, configure_accounts.
  cbn [nominators]. unfold kitchensink_genesis. rewrite length_fmap. cbn [length].
  rewrite (proj2 (Nat.leb_le _ _)) by lia. eexists. split_and!; [done|..].
  - cbn [g_balances]. rewrite length_fmap. vm_compute. done.
  - cbn [g_elections]. rewrite length_fmap. vm_compute. done.
  - done.
  - cbn [g_balances]. rewrite <- list_fmap_compose. cbn. apply (bool_decide_unpack _). vm_compute. done.
  - cbn. by repeat constructor.
Qed.
End genesis.

(** ** The development key ring's example *)
Module GenesisExample.
Definition acc (b : byte) : AccountId := vreplicate 32 b.
Definition keys (b : byte) : SessionKeys := {|
  grandpa := vreplicate 32 b; babe := vreplicate 32 b; im_online := vreplicate 32 b;
  authority_discovery := vreplicate 32 b; mixnet := vreplicate 32 b; beefy := vreplicate 33 b |}.
Definition authority (b : byte) : Authority := mkAuthority (acc b) (acc b) (keys b).
Definition counter (n : Z) : Z * Z := (n, n + 1).
Definition first_ones (l : list Authority) (n : nat) (rng : Z) : list Authority * Z := (take n l, rng).
Lemma first_ones_chooses : chooses Z first_ones.
Proof.
  intros l n rng. cbn. split; [|rewrite length_take; lia]. intros x Hx.
  by eapply elem_of_take in Hx as (? & ?%list_elem_of_lookup_2 & _).
Qed.
Lemma testnet_genesis_endowed_witness :
  ∃ g, testnet_genesis 20 Z counter first_ones [authority x01; authority x02] [acc x03] (acc x04) [acc x01] 7 = Ok g
    ∧ (∀ m b, (m, b) ∈ g_elections g → (m, ENDOWMENT) ∈ g_balances g ∧ b < ENDOWMENT).
Proof.
  assert (NoDup [acc x01]) as Hd by apply NoDup_singleton.
  assert (length [authority x01; authority x02] ≤ 20)%nat as Hl by (cbn; lia).
  destruct (testnet_genesis_endowed 20 Z counter first_ones [authority x01; authority x02] [acc x03]
    (acc x04) [acc x01] 7 first_ones_chooses ltac:(discriminate) Hl Hd) as (g & Hg & _ & _ & _ & He & _).
  exists g. split; [exact Hg|exact He].
Defined.
End GenesisExample.
