(* ===== verification/Elections.v ===== *)
(** * Elections

    The elections pallet as this repository keeps it,
    [vendor/pallet-elections-phragmen/src/lib.rs], where a vote may use the free balance and
    the balance held for staking, with the constants of [runtimes/mainnet/src/lib.rs].
    [elections_call] is every dispatchable, [on_initialize] the hook that runs the election
    at the end of a term, [genesis_build] the genesis, [do_try_state] the pallet's own check
    of its storage. *)

From S2P Require Import Prelude Assets Types Chain Policy RawStorage Slices.

(** ** Packages outside the repository *)

(** [pallet_balances] and the staked balance, as far as the pallet uses them *)
Class ElectionCurrency := {
  Purse : Type;
  PurseError : Type;
  p_free : Purse → AccountId → Z;
  p_reserved : Purse → AccountId → Z;
  (** [T::VotingHold]; the runtime's [StakedBalance] *)
  p_hold : Purse → AccountId → Z;
  (** The amount of the lock [PalletId], zero without one *)
  p_lock : Purse → AccountId → Z;
  p_issuance : Purse → Z;
  minimum_balance : Z;
  p_reserve : AccountId → Z → M Purse PurseError unit;
  (** [unreserve], with what could not be returned *)
  p_unreserve : AccountId → Z → Purse → Z * Purse;
  (** [slash_reserved], with what could not be slashed, and [T::LoserCandidate::on_unbalanced]
      of the imbalance *)
  p_slash_reserved : AccountId → Z → Purse → Z * Purse;
  (** [set_lock(T::PalletId::get(), .., WithdrawReasons::all())] *)
  p_set_lock : AccountId → Z → Purse → Purse;
  p_remove_lock : AccountId → Purse → Purse;
}.
Class ElectionCurrencyLaws `{ElectionCurrency} : Prop := {
  p_free_nonneg p a : 0 ≤ p_free p a;
  p_reserved_nonneg p a : 0 ≤ p_reserved p a;
  p_hold_nonneg p a : 0 ≤ p_hold p a;
  p_lock_nonneg p a : 0 ≤ p_lock p a;
  minimum_balance_nonneg : 0 ≤ minimum_balance;
  p_reserve_ok p a n p' : p_reserve a n p = (Ok tt, p') → 0 ≤ n →
    p_free p' a = p_free p a - n ∧ p_hold p' a = p_hold p a
    ∧ ∀ b, p_reserved p' b = (if decide (b = a) then p_reserved p a + n else p_reserved p b);
  p_reserve_total p a n : (p_reserve a n p).1 ≠ Panic;
  p_reserve_lock p a n p' b : p_reserve a n p = (Ok tt, p') → p_lock p' b = p_lock p b;
  (** Up to [n] is moved back; the rest is reported. *)
  p_unreserve_spec p a n : 0 ≤ n →
    let m := Z.min n (p_reserved p a) in
    (p_unreserve a n p).1 = n - m
    ∧ ∀ b, p_reserved (p_unreserve a n p).2 b =
             (if decide (b = a) then p_reserved p a - m else p_reserved p b);
  p_unreserve_lock p a n b : p_lock (p_unreserve a n p).2 b = p_lock p b;
  p_slash_spec p a n : 0 ≤ n →
    let m := Z.min n (p_reserved p a) in
    (p_slash_reserved a n p).1 = n - m
    ∧ ∀ b, p_reserved (p_slash_reserved a n p).2 b =
             (if decide (b = a) then p_reserved p a - m else p_reserved p b);
  p_slash_lock p a n b : p_lock (p_slash_reserved a n p).2 b = p_lock p b;
  (** A lock of zero is not set. *)
  p_set_lock_spec p a n b : 0 ≤ n →
    p_lock (p_set_lock a n p) b = (if decide (b = a ∧ n ≠ 0) then n else p_lock p b);
  p_set_lock_reserved p a n b : p_reserved (p_set_lock a n p) b = p_reserved p b;
  p_remove_lock_spec p a b :
    p_lock (p_remove_lock a p) b = (if decide (b = a) then 0 else p_lock p b);
  p_remove_lock_reserved p a b : p_reserved (p_remove_lock a p) b = p_reserved p b;
}.

(** [ChangeMembers] and [InitializeMembers], which the council ([pallet_collective])
    implements *)
Class ChangeMembers := {
  Body : Type;
  body_members : Body → list AccountId;
  get_prime : Body → option AccountId;
  (** The accounts whose votes count in an open motion *)
  body_voters : Body → gset AccountId;
  compute_members_diff_sorted : list AccountId → list AccountId → list AccountId * list AccountId;
  (** Incoming, outgoing and all members *)
  change_members_sorted : list AccountId → list AccountId → list AccountId → Body → Body;
  set_prime : option AccountId → Body → Body;
  initialize_members : list AccountId → Body → Body;
}.
Class ChangeMembersLaws `{ChangeMembers} : Prop := {
  (** "compute the difference between new and old members; they must already be sorted":
      the new ones and the old ones that left *)
  members_diff_spec new old a :
    StronglySorted account_lt new → StronglySorted account_lt old →
    let '(incoming, outgoing) := compute_members_diff_sorted new old in
    (a ∈ incoming ↔ a ∈ new ∧ a ∉ old) ∧ (a ∈ outgoing ↔ a ∈ old ∧ a ∉ new);
  change_members_members i o n c : body_members (change_members_sorted i o n c) = n;
  (** "This resets any previous value of prime." *)
  change_members_prime i o n c : get_prime (change_members_sorted i o n c) = None;
  change_members_voters i o n c :
    body_voters (change_members_sorted i o n c) = body_voters c ∖ list_to_set o;
  set_prime_prime p c : get_prime (set_prime p c) = p;
  set_prime_members p c : body_members (set_prime p c) = body_members c;
  set_prime_voters p c : body_voters (set_prime p c) = body_voters c;
  initialize_members_members l c : body_members c = [] → body_members (initialize_members l c) ≡ₚ l;
  initialize_members_rest l c :
    get_prime (initialize_members l c) = get_prime c
    ∧ body_voters (initialize_members l c) = body_voters c;
}.

(** [sp_npos_elections::seq_phragmen], [CurrencyToVote], and the order in which the storage
    iterates over accounts, that of the hashed keys *)
Class Phragmen := {
  (** The number of seats, the candidates, and the voters with stake and votes; the winners
      by rank with the stake that backs them *)
  seq_phragmen : nat → list AccountId → list (AccountId * Z * list AccountId) → option (list (AccountId * Z));
  to_vote : Z → Z → Z;
  to_currency : Z → Z → Z;
  twox64_leb : AccountId → AccountId → bool;
}.
Class PhragmenLaws `{Phragmen} : Prop := {
  (** Distinct candidates are elected, at most as many as there are seats. *)
  winners_nodup n cs vs ws : seq_phragmen n cs vs = Some ws → NoDup cs → NoDup ws.*1;
  winners_candidates n cs vs ws : seq_phragmen n cs vs = Some ws → ws.*1 ⊆ cs;
  winners_bounded n cs vs ws : seq_phragmen n cs vs = Some ws → (length ws ≤ n)%nat;
  winners_stake n cs vs ws : seq_phragmen n cs vs = Some ws → Forall (λ w, 0 ≤ w.2) ws;
  (** "allowed to be sensibly lossy", but something stays something *)
  to_currency_pos e i : 0 < e → 0 < to_currency e i;
}.

(** ** [parameter_types!] of the runtime *)
Definition CandidacyBond : Z := 100 * PDEX.
Definition VotingBondBase : Z := default 0 (deposit 1 64).
Definition VotingBondFactor : Z := default 0 (deposit 0 32).
Definition TermDuration : Z := 7 * DAYS.
Definition DesiredMembers : nat := 5.
Definition DesiredRunnersUp : nat := 5.
Definition MaxCandidates : Z := 1000.
Definition MaxVoters : nat := 10 * 1000.
Definition MaxVotesPerVoter : nat := 16.

(** ** Data *)
Inductive Renouncing : Type :=
| RenouncingMember
| RenouncingRunnerUp
| RenouncingCandidate (count : Z).

Record Voter : Type := mkVoter { votes : list AccountId; v_stake : Z; v_deposit : Z }.
Definition default_voter : Voter := mkVoter [] 0 0.

Record SeatHolder : Type := mkSeat { who : AccountId; stake : Z; seat_deposit : Z }.
#[export] Instance SeatHolder_eq_dec : EqDecision SeatHolder.
Proof. solve_decision. Defined.

Inductive ElectionsEvent : Type :=
| NewTerm (new_members : list (AccountId * Z))
| EmptyTerm
| ElectionError
| MemberKicked (member : AccountId)
| Renounced (candidate : AccountId)
| CandidateSlashed (candidate : AccountId) (amount : Z)
| SeatHolderSlashed (seat_holder : AccountId) (amount : Z).

Inductive ElectionsError : Type :=
| ElecBadOrigin
| UnableToVote | NoVotes | TooManyVotes | MaximumVotesExceeded | LowBalance | UnableToPayBond
| MustBeVoter | DuplicatedCandidate | TooManyCandidates | MemberSubmit | RunnerUpSubmit
| InsufficientCandidateFunds | NotMember | InvalidWitnessData | InvalidVoteCount
| InvalidRenouncing | InvalidReplacement.

Section elections.
Context {EC : ElectionCurrency} {CM : ChangeMembers} {PH : Phragmen}.

(** The storage of the pallet, the balances, the council, and the events of the block *)
Record Elec : Type := mkElec {
  Members : list SeatHolder;
  RunnersUp : list SeatHolder;
  Candidates : list (AccountId * Z);
  ElectionRounds : Z;
  VotingMap : gmap AccountId Voter;
  e_purse : Purse;
  e_council : Body;
  e_events : list ElectionsEvent;
}.
#[export] Instance eta_Elec : Eta Elec := λ r, {|
  Members := Members r; RunnersUp := RunnersUp r; Candidates := Candidates r;
  ElectionRounds := ElectionRounds r; VotingMap := VotingMap r; e_purse := e_purse r;
  e_council := e_council r; e_events := e_events r;
|}.
Definition ECall (A : Type) : Type := M Elec ElectionsError A.

(** ** Effects *)
Definition deposit_event (e : ElectionsEvent) : ECall unit :=
  modify (λ s, s <| e_events ::= λ l, l ++ [e] |>).
(** [debug_assert!] *)
Definition debug_assert (b : bool) : ECall unit := if b then mret tt else panic.
Definition signer (o : Origin) : ECall AccountId :=
  match o with Signed a => mret a | _ => fail ElecBadOrigin end.
Definition root (o : Origin) : ECall unit :=
  match o with Root => mret tt | _ => fail ElecBadOrigin end.
(** [T::Currency::reserve(a, n).map_err(|_| e)] *)
Definition reserve (a : AccountId) (n : Z) (e : ElectionsError) : ECall unit := λ s,
  match p_reserve a n (e_purse s) with
  | (Ok _, p) => (Ok tt, s <| e_purse := p |>)
  | (Err _, p) => (Err e, s <| e_purse := p |>)
  | (Panic, p) => (Panic, s <| e_purse := p |>)
  end.
(** [T::Currency::unreserve] and [slash_reserved], with the remainder *)
Definition unreserve (a : AccountId) (n : Z) : ECall Z := λ s,
  let '(r, p) := p_unreserve a n (e_purse s) in (Ok r, s <| e_purse := p |>).
Definition slash (a : AccountId) (n : Z) : ECall Z := λ s,
  let '(r, p) := p_slash_reserved a n (e_purse s) in (Ok r, s <| e_purse := p |>).
Definition on_purse (f : Purse → Purse) : ECall unit := modify (λ s, s <| e_purse ::= f |>).
Definition on_council (f : Body → Body) : ECall unit := modify (λ s, s <| e_council ::= f |>).

(** ** Helpers *)
Definition deposit_of (count : nat) : Z :=
  sat_add 128 VotingBondBase (sat_mul 128 VotingBondFactor (wrap 32 (Z.of_nat count))).

(** [Ok] for a candidate, and where to insert as an error *)
Definition is_candidate (s : Elec) (a : AccountId) : res nat nat := search_account fst a (Candidates s).
Definition is_voter (s : Elec) (a : AccountId) : bool := bool_decide (is_Some (VotingMap s !! a)).
Definition is_member (s : Elec) (a : AccountId) : bool := is_ok (search_account who a (Members s)).
Definition is_runner_up (s : Elec) (a : AccountId) : bool :=
  existsb (λ r, bool_decide (who r = a)) (RunnersUp s).
Definition members_ids (s : Elec) : list AccountId := who <$> Members s.
Definition implicit_candidates_with_deposit (s : Elec) : list (AccountId * Z) :=
  ((λ m, (who m, seat_deposit m)) <$> Members s) ++ ((λ r, (who r, seat_deposit r)) <$> RunnersUp s).
Definition is_defunct_voter (s : Elec) (votes : list AccountId) : bool :=
  forallb (λ v, negb (is_member s v) && negb (is_runner_up s v) && negb (is_ok (is_candidate s v))) votes.

(** [Voting::<T>::iter()] *)
Definition voting_iter (s : Elec) : list (AccountId * Voter) :=
  merge_sort (λ x y, Is_true (twox64_leb x.1 y.1)) (map_to_list (VotingMap s)).

(** [Contains], [SortedMembers] and [ContainsLengthBound] *)
Definition contains : Elec → AccountId → bool := is_member.
Definition sorted_members : Elec → list AccountId := members_ids.
Definition min_len : nat := 0.
Definition max_len : nat := DesiredMembers.

Definition do_remove_voter (a : AccountId) : ECall unit :=
  s ← get_state;
  let d := v_deposit (default default_voter (VotingMap s !! a)) in
  modify (λ s, s <| VotingMap ::= delete a |>) ;;
  on_purse (p_remove_lock a) ;;
  r ← unreserve a d;
  debug_assert (r =? 0).

(** The bond of a removed member is slashed or returned *)
Definition release_bond (a : AccountId) (slash_bond : bool) (d : Z) : ECall unit :=
  if slash_bond then
    r ← slash a d;
    debug_assert (r =? 0) ;;
    deposit_event (SeatHolderSlashed a d)
  else
    _ ← unreserve a d;
    mret tt.
(** The next best runner-up among the members; one who is a member already is dropped *)
Definition fill_seat (next_best : option SeatHolder) (members : list SeatHolder)
    : res ElectionsError (list SeatHolder) :=
  match next_best with
  | None => Ok members
  | Some n =>
      match search_account who (who n) members with
      | Err i => unwrap (vec_insert i n members)
      | Ok _ => Ok members
      | Panic => Panic
      end
  end.
(** The closure of [Members::try_mutate] in [remove_and_replace_member]: the replacement *)
Definition take_seat (a : AccountId) (slash_bond : bool) : ECall (option SeatHolder) :=
  s ← get_state;
  i ← match search_account who a (Members s) with
      | Ok i => mret i
      | Err _ => fail NotMember
      | Panic => panic
      end;
  '(removed, members) ← lift (unwrap (vec_remove i (Members s)));
  release_bond a slash_bond (seat_deposit removed) ;;
  (* [RunnersUp::mutate(|r| r.pop())] *)
  let next_best := last (RunnersUp s) in
  modify (λ s, s <| RunnersUp ::= λ l, take (length l - 1) l |>) ;;
  members ← lift (fill_seat next_best members);
  modify (λ s, s <| Members := members |>) ;;
  mret next_best.

Definition remove_and_replace_member (a : AccountId) (slash_bond : bool) : ECall bool :=
  maybe_replacement ← take_seat a slash_bond;
  s ← get_state;
  let remaining_member_ids_sorted := members_ids s in
  let maybe_current_prime := get_prime (e_council s) in
  let incoming := match maybe_replacement with Some n => [who n] | None => [] end in
  on_council (change_members_sorted incoming [a] remaining_member_ids_sorted) ;;
  match maybe_current_prime with
  | Some p => if bool_decide (p = a) then mret tt else on_council (set_prime (Some p))
  | None => mret tt
  end ;;
  mret (bool_decide (is_Some maybe_replacement)).

(** ** [do_phragmen] *)

(** Collects the voters; [None] when there are too many *)
Fixpoint collect_voters (max_voters : nat) (l : list (AccountId * Voter))
    (acc : list (AccountId * Z * list AccountId)) : option (list (AccountId * Z * list AccountId)) :=
  match l with
  | [] => Some acc
  | (voter, v) :: l =>
      if (length acc <? max_voters)%nat
      then collect_voters max_voters l (acc ++ [(voter, v_stake v, votes v)])
      else None
  end.

(** One voter's votes in the count for the prime, from [vote_position] on; [None] when the
    multiplier underflows *)
Fixpoint count_votes (voter_stake : Z) (vote_position : nat) (vs : list AccountId)
    (prime_votes : list (AccountId * Z)) : option (list (AccountId * Z)) :=
  match vs with
  | [] => Some prime_votes
  | v :: vs =>
      if (vote_position <=? MaxVotesPerVoter)%nat then
        let vote_multiplier := Z.of_nat (MaxVotesPerVoter - vote_position) in
        let prime_votes :=
          match search_account fst v prime_votes with
          | Ok i => alter (λ x, (x.1, sat_add 128 x.2 (sat_mul 128 voter_stake vote_multiplier))) i prime_votes
          | _ => prime_votes
          end in
        count_votes voter_stake (S vote_position) vs prime_votes
      else None
  end.
Fixpoint borda (voters : list (AccountId * Z * list AccountId)) (prime_votes : list (AccountId * Z))
    : option (list (AccountId * Z)) :=
  match voters with
  | [] => Some prime_votes
  | (_, voter_stake, vs) :: voters => count_votes voter_stake 0 vs prime_votes ≫= borda voters
  end.

(** [deposit_of_candidate]; a missing deposit is a failed [defensive_unwrap_or_default] *)
Fixpoint deposit_of_candidate (cs : list (AccountId * Z)) (x : AccountId) : option Z :=
  match cs with
  | [] => None
  | (c, d) :: cs => if bool_decide (c = x) then Some d else deposit_of_candidate cs x
  end.
Definition seat_of (cs : list (AccountId * Z)) (w : AccountId * Z) : option SeatHolder :=
  d ← deposit_of_candidate cs w.1; Some (mkSeat w.1 w.2 d).

(** Those who do not keep a seat lose their bond *)
Definition slash_losers (new_members new_runners_up : list AccountId) (cs : list (AccountId * Z)) : ECall unit :=
  for_each cs (λ '(c, d),
    if negb (is_ok (search_account id c new_members)) && negb (is_ok (search_account id c new_runners_up)) then
      _ ← slash c d;
      deposit_event (CandidateSlashed c d)
    else mret tt).

(** The closure that installs the winners *)
Definition install (cs : list (AccountId * Z)) (voters_and_stakes : list (AccountId * Z * list AccountId))
    (to_balance : Z → Z) (winners : list (AccountId * Z)) : ECall unit :=
  s ← get_state;
  let old_members_ids_sorted := members_ids s in
  modify (λ s, s <| Members := [] |> <| RunnersUp := [] |>) ;;
  let new_set_with_stake :=
    omap (λ '(m, b), if b =? 0 then None else Some (m, to_balance b)) winners in
  let split_point := Nat.min DesiredMembers (length new_set_with_stake) in
  let new_members_sorted_by_id := sort_by_account fst (take split_point new_set_with_stake) in
  let new_runners_up_sorted_by_rank := rev (drop split_point new_set_with_stake) in
  let new_runners_up_ids_sorted := sort_by_account id new_runners_up_sorted_by_rank.*1 in
  prime_votes ← lift (unwrap (borda voters_and_stakes ((λ c, (c.1, 0)) <$> new_members_sorted_by_id)));
  let prime := fst <$> max_by_key snd prime_votes in
  let new_members_ids_sorted := new_members_sorted_by_id.*1 in
  let '(incoming, outgoing) :=
    compute_members_diff_sorted new_members_ids_sorted old_members_ids_sorted in
  on_council (change_members_sorted incoming outgoing new_members_ids_sorted) ;;
  on_council (set_prime prime) ;;
  slash_losers new_members_ids_sorted new_runners_up_ids_sorted cs ;;
  members ← lift (unwrap (mapM (seat_of cs) new_members_sorted_by_id));
  runners_up ← lift (unwrap (mapM (seat_of cs) new_runners_up_sorted_by_rank));
  modify (λ s, s <| Members := members |> <| RunnersUp := runners_up |> <| Candidates := [] |>) ;;
  deposit_event (NewTerm new_members_sorted_by_id) ;;
  s ← get_state;
  if ElectionRounds s <? u32_max then modify (λ s, s <| ElectionRounds ::= Z.succ |>) else panic.

(** All who stand for election, with their deposits *)
Definition candidates_and_deposit (s : Elec) : list (AccountId * Z) :=
  Candidates s ++ implicit_candidates_with_deposit s.

Definition do_phragmen : ECall unit :=
  s ← get_state;
  let num_to_elect := (DesiredRunnersUp + DesiredMembers)%nat in
  let cs := candidates_and_deposit s in
  if (length cs =? 0)%nat then deposit_event EmptyTerm
  else
    let total_issuance := p_issuance (e_purse s) in
    match collect_voters MaxVoters (voting_iter s) [] with
    | None => deposit_event ElectionError
    | Some voters_and_stakes =>
        let voters_and_votes :=
          (λ '(voter, n, vs), (voter, to_vote n total_issuance, vs)) <$> voters_and_stakes in
        match seq_phragmen num_to_elect cs.*1 voters_and_votes with
        | Some winners => install cs voters_and_stakes (λ e, to_currency e total_issuance) winners
        | None => deposit_event ElectionError
        end
    end.

(** ** The hook and the calls *)
Definition on_initialize (n : Z) : ECall unit :=
  if negb (TermDuration =? 0) && (n mod TermDuration =? 0) then do_phragmen else mret tt.

Definition vote (o : Origin) (vs : list AccountId) (value : Z) : ECall unit :=
  a ← signer o;
  ensure (length vs <=? MaxVotesPerVoter)%nat MaximumVotesExceeded ;;
  ensure (negb (bool_decide (vs = []))) NoVotes ;;
  s ← get_state;
  let candidates_count := Z.of_nat (length (Candidates s)) in
  let members_count := Z.of_nat (length (Members s)) in
  let runners_up_count := Z.of_nat (length (RunnersUp s)) in
  let allowed_votes := sat_add 64 (sat_add 64 candidates_count members_count) runners_up_count in
  ensure (negb (allowed_votes =? 0)) UnableToVote ;;
  ensure (Z.of_nat (length vs) <=? allowed_votes) TooManyVotes ;;
  ensure (minimum_balance <? value) LowBalance ;;
  let new_deposit := deposit_of (length vs) in
  let old_deposit := v_deposit (default default_voter (VotingMap s !! a)) in
  match Z.compare new_deposit old_deposit with
  | Gt => reserve a (new_deposit - old_deposit) UnableToPayBond
  | Eq => mret tt
  | Lt => r ← unreserve a (old_deposit - new_deposit); debug_assert (r =? 0)
  end ;;
  s ← get_state;
  let locked_stake := Z.min value (sat_add 128 (p_free (e_purse s) a) (p_hold (e_purse s) a)) in
  on_purse (p_set_lock a locked_stake) ;;
  modify (λ s, s <| VotingMap ::= <[a := mkVoter vs locked_stake new_deposit]> |>).

Definition remove_voter (o : Origin) : ECall unit :=
  a ← signer o;
  s ← get_state;
  ensure (is_voter s a) MustBeVoter ;;
  do_remove_voter a.

Definition submit_candidacy (o : Origin) (candidate_count : Z) : ECall unit :=
  a ← signer o;
  s ← get_state;
  let actual_count := wrap 32 (Z.of_nat (length (Candidates s))) in
  ensure (actual_count <=? candidate_count) InvalidWitnessData ;;
  ensure (actual_count <=? MaxCandidates) TooManyCandidates ;;
  index ← match is_candidate s a with
          | Err i => mret i
          | Ok _ => fail DuplicatedCandidate
          | Panic => panic
          end;
  ensure (negb (is_member s a)) MemberSubmit ;;
  ensure (negb (is_runner_up s a)) RunnerUpSubmit ;;
  reserve a CandidacyBond InsufficientCandidateFunds ;;
  candidates ← lift (unwrap (vec_insert index (a, CandidacyBond) (Candidates s)));
  modify (λ s, s <| Candidates := candidates |>).

(** [runners_up.iter().position(|r| r.who == who)] *)
Fixpoint runner_up_position (a : AccountId) (l : list SeatHolder) : option nat :=
  match l with
  | [] => None
  | r :: l => if bool_decide (who r = a) then Some 0%nat else S <$> runner_up_position a l
  end.

Definition renounce_candidacy (o : Origin) (renouncing : Renouncing) : ECall unit :=
  a ← signer o;
  match renouncing with
  | RenouncingMember =>
      _ ← map_err (λ _, InvalidRenouncing) (remove_and_replace_member a false);
      deposit_event (Renounced a)
  | RenouncingRunnerUp =>
      s ← get_state;
      index ← ok_or (runner_up_position a (RunnersUp s)) InvalidRenouncing;
      '(removed, runners_up) ← lift (unwrap (vec_remove index (RunnersUp s)));
      r ← unreserve a (seat_deposit removed);
      debug_assert (r =? 0) ;;
      deposit_event (Renounced a) ;;
      modify (λ s, s <| RunnersUp := runners_up |>)
  | RenouncingCandidate count =>
      s ← get_state;
      ensure (wrap 32 (Z.of_nat (length (Candidates s))) <=? count) InvalidWitnessData ;;
      index ← match search_account fst a (Candidates s) with
              | Ok i => mret i
              | Err _ => fail InvalidRenouncing
              | Panic => panic
              end;
      '(removed, candidates) ← lift (unwrap (vec_remove index (Candidates s)));
      r ← unreserve a removed.2;
      debug_assert (r =? 0) ;;
      deposit_event (Renounced a) ;;
      modify (λ s, s <| Candidates := candidates |>)
  end.

Definition remove_member (o : Origin) (a : AccountId) (slash_bond rerun_election : bool) : ECall unit :=
  root o ;;
  _ ← remove_and_replace_member a slash_bond;
  deposit_event (MemberKicked a) ;;
  if rerun_election then do_phragmen else mret tt.

Definition clean_defunct_voters (o : Origin) (num_voters num_defunct : Z) : ECall unit :=
  root o ;;
  s ← get_state;
  for_each
    (take (Z.to_nat num_defunct)
       (filter (λ x, Is_true (is_defunct_voter s (votes x.2)))
          (take (Z.to_nat num_voters) (voting_iter s))))
    (λ x, do_remove_voter x.1).

Inductive ElectionsCall : Type :=
| CallVote (vs : list AccountId) (value : Z)
| CallRemoveVoter
| CallSubmitCandidacy (candidate_count : Z)
| CallRenounceCandidacy (renouncing : Renouncing)
| CallRemoveMember (a : AccountId) (slash_bond rerun_election : bool)
| CallCleanDefunctVoters (num_voters num_defunct : Z).

Definition elections_call (o : Origin) (c : ElectionsCall) : ECall unit :=
  transactional match c with
  | CallVote vs value => vote o vs value
  | CallRemoveVoter => remove_voter o
  | CallSubmitCandidacy n => submit_candidacy o n
  | CallRenounceCandidacy r => renounce_candidacy o r
  | CallRemoveMember a b r => remove_member o a b r
  | CallCleanDefunctVoters n d => clean_defunct_voters o n d
  end.

(** ** Genesis *)

(** A genesis member: [assert!]s its stake, and that it is not there yet *)
Definition genesis_member (m : AccountId * Z) : ECall unit :=
  s ← get_state;
  (if m.2 <=? p_free (e_purse s) m.1 then mret tt else panic) ;;
  members ← match search_account who m.1 (Members s) with
            | Err pos => lift (unwrap (vec_insert pos (mkSeat m.1 m.2 0) (Members s)))
            | _ => panic
            end;
  modify (λ s, s <| Members := members |> <| VotingMap ::= <[m.1 := mkVoter [m.1] m.2 0]> |>).

(** [GenesisConfig::build] *)
Definition genesis_build (members : list (AccountId * Z)) : ECall unit :=
  (if wrap 32 (Z.of_nat (length members)) <=? Z.of_nat DesiredMembers then mret tt else panic) ;;
  for_each members genesis_member ;;
  on_council (initialize_members members.*1).

(** ** The pallet's checks of its storage *)
Definition candidates_ids (s : Elec) : list AccountId := (Candidates s).*1.
Definition runners_up_ids (s : Elec) : list AccountId := who <$> RunnersUp s.
Definition intersects (a b : list AccountId) : bool := existsb (λ e, bool_decide (e ∈ b)) a.

Definition try_state_members (s : Elec) : res string unit :=
  if bool_decide (Members s = sort_by_account who (Members s)) then Ok tt
  else Err "try_state checks: Members must be always sorted by account ID"%string.
Definition try_state_runners_up (s : Elec) : res string unit :=
  if bool_decide (RunnersUp s = sort_by (λ a b, stake a <=? stake b) (RunnersUp s)) then Ok tt
  else Err "try_state checks: Runners Up must always be sorted by stake (worst to best)"%string.
Definition try_state_candidates (s : Elec) : res string unit :=
  if bool_decide (Candidates s = sort_by_account fst (Candidates s)) then Ok tt
  else Err "try_state checks: Candidates must be always sorted by account ID"%string.
Definition try_state_candidates_runners_up_disjoint (s : Elec) : res string unit :=
  if intersects (candidates_ids s) (runners_up_ids s)
  then Err "Candidates and runners up sets should always be disjoint"%string
  else Ok tt.
Definition try_state_members_disjoint (s : Elec) : res string unit :=
  if intersects (members_ids s) (candidates_ids s) && intersects (members_ids s) (runners_up_ids s)
  then Err "Members set should be disjoint from candidates and runners-up sets"%string
  else Ok tt.
Definition try_state_members_approval_stake (s : Elec) : res string unit :=
  if forallb (λ x, negb (stake x =? 0)) (Members s ++ RunnersUp s) then Ok tt
  else Err "Members and RunnersUp must have approval stake"%string.

Definition do_try_state (s : Elec) : res string unit :=
  match try_state_members s with Ok _ =>
  match try_state_runners_up s with Ok _ =>
  match try_state_candidates s with Ok _ =>
  match try_state_candidates_runners_up_disjoint s with Ok _ =>
  match try_state_members_disjoint s with Ok _ =>
  try_state_members_approval_stake s
  | e => e end | e => e end | e => e end | e => e end | e => e end.

(** ** The pallet as a state machine *)

(** What the pallet holds of an account: the deposit of its votes, of its candidacy, and of
    its seat *)
Definition owed (s : Elec) (a : AccountId) : Z :=
  v_deposit (default default_voter (VotingMap s !! a))
  + zsum (snd <$> filter (λ c, c.1 = a) (candidates_and_deposit s)).

(** A block start, a call, and what other pallets do meanwhile: to the balances, without
    touching what this pallet reserved or locked, and to the motions of the council, where
    only members vote *)
Inductive estep (s : Elec) : Elec → Prop :=
| estep_block n s' : on_initialize n s = (Ok tt, s') → estep s s'
| estep_call o c : estep s (elections_call o c s).2
| estep_balances p :
    (∀ a, owed s a ≤ p_reserved (e_purse s) a → owed s a ≤ p_reserved p a) →
    (∀ a, p_lock p a = p_lock (e_purse s) a) →
    estep s (s <| e_purse := p |>)
| estep_motions c :
    body_members c = body_members (e_council s) → get_prime c = get_prime (e_council s) →
    body_voters c ⊆ body_voters (e_council s) ∪ list_to_set (body_members c) →
    estep s (s <| e_council := c |>).

(** A chain before its genesis *)
Definition blank (s : Elec) : Prop :=
  Members s = [] ∧ RunnersUp s = [] ∧ Candidates s = [] ∧ ElectionRounds s = 0 ∧ VotingMap s = ∅
  ∧ body_members (e_council s) = [] ∧ get_prime (e_council s) = None ∧ body_voters (e_council s) = ∅
  ∧ ∀ a, p_lock (e_purse s) a = 0.

(** The states after the genesis with some members.  Besides the steps above, root may set
    the members and the prime of the council at any time, to anything
    ([SetMembersOrigin = EnsureRoot] of the council; [set_members] does not ask the elections,
    and does not check the prime). *)
Inductive ereachable (members : list (AccountId * Z)) : Elec → Prop :=
| ereach_genesis s0 s : blank s0 → genesis_build members s0 = (Ok tt, s) → ereachable members s
| ereach_step s s' : ereachable members s → estep s s' → ereachable members s'
| ereach_set_members s c : ereachable members s → ereachable members (s <| e_council := c |>).
End elections.
