(* ===== verification/ElectionsInv.v ===== *)
(** * The invariant of the elections pallet

    Kept by the genesis and by every step of [Elections.v]: the seats are well formed, the
    council mirrors them, and every deposit is backed by reserved balance, so that no
    assertion of the pallet fails.  The lemmas describe each operation on the way. *)

From S2P Require Import Prelude Assets Types Chain Policy RawStorage Slices Elections.

(** ** Deposits *)
Definition cd (l : list (AccountId * Z)) (a : AccountId) : Z := zsum (snd <$> filter (λ c, c.1 = a) l).

Lemma cd_cons c l a : cd (c :: l) a = (if decide (c.1 = a) then c.2 else 0) + cd l a.
Proof. unfold cd. rewrite filter_cons. by destruct (decide (c.1 = a)). Qed.
Lemma cd_app l1 l2 a : cd (l1 ++ l2) a = cd l1 a + cd l2 a.
Proof. unfold cd. by rewrite filter_app, fmap_app, zsum_app. Qed.
Lemma cd_perm l1 l2 a : l1 ≡ₚ l2 → cd l1 a = cd l2 a.
Proof. intros Hp. unfold cd. apply zsum_permutation. by rewrite Hp. Qed.
Lemma cd_nonneg l a : Forall (λ c, 0 ≤ c.2) l → 0 ≤ cd l a.
Proof.
  intros Hl. apply zsum_nonneg. rewrite Forall_fmap. apply Forall_forall.
  intros c [_ Hc]%list_elem_of_filter. rewrite Forall_forall in Hl. by apply Hl.
Qed.
Lemma cd_absent l a : a ∉ l.*1 → cd l a = 0.
Proof.
  intros Ha. unfold cd. rewrite filter_none; [done|]. apply Forall_forall. intros c Hc <-.
  apply Ha, list_elem_of_fmap. eauto.
Qed.
Lemma cd_unique l a d : NoDup l.*1 → (a, d) ∈ l → cd l a = d.
Proof.
  intros Hd (l1 & l2 & ->)%list_elem_of_split. rewrite fmap_app, fmap_cons in Hd. cbn in Hd.
  apply NoDup_app in Hd as (_ & H1 & [H2 _]%NoDup_cons).
  rewrite cd_app, cd_cons. cbn. rewrite decide_True by done.
  rewrite !cd_absent; [lia|done|]. intros Ha. destruct (H1 a Ha). by left.
Qed.
Lemma deposit_of_candidate_spec l a :
  match deposit_of_candidate l a with Some d => (a, d) ∈ l | None => a ∉ l.*1 end.
Proof.
  induction l as [|[c d] l IH]; cbn; [by apply not_elem_of_nil|]. case_bool_decide as Hc; [subst; left|].
  destruct (deposit_of_candidate l a); [by right|]. rewrite not_elem_of_cons. split; congruence.
Qed.

Lemma sublist_elem_of {A} (l k : list A) x : x ∈ l → sublist l k → x ∈ k.
Proof. intros Hx Hs. by eapply elem_of_submseteq, sublist_submseteq. Qed.

Section props.
Context {EC : ElectionCurrency} {CM : ChangeMembers} {PH : Phragmen}.
Context {ECL : ElectionCurrencyLaws} {CML : ChangeMembersLaws} {PHL : PhragmenLaws}.
Implicit Types s : Elec.

Definition vd s (a : AccountId) : Z := v_deposit (default default_voter (VotingMap s !! a)).
Lemma owed_eq s a : owed s a = vd s a + cd (candidates_and_deposit s) a.
Proof. done. Qed.

(** ** The invariant *)

(** The collective mirrors the members: it has exactly them, its prime is one of them, and
    only they have votes in its open motions. *)
Definition council_synced s : Prop :=
  body_members (e_council s) ≡ₚ members_ids s
  ∧ (∀ p, get_prime (e_council s) = Some p → p ∈ members_ids s)
  ∧ ∀ a, a ∈ body_voters (e_council s) → a ∈ members_ids s.

(** Root can set the members of the collective to anything, behind the back of this pallet;
    [tracked] says whether the invariant includes that the collective mirrors the members. *)
Context {tracked : Prop}.
Record wf s : Prop := {
  wf_members : sorted_by who (Members s);
  wf_candidates : sorted_by fst (Candidates s);
  wf_nodup : NoDup (candidates_and_deposit s).*1;
  wf_members_bound : (length (Members s) ≤ DesiredMembers)%nat;
  wf_runners_up_bound : (length (RunnersUp s) ≤ DesiredRunnersUp)%nat;
  wf_candidates_bound : Z.of_nat (length (Candidates s)) ≤ MaxCandidates + 1;
  wf_deposits : Forall (λ c, 0 ≤ c.2) (candidates_and_deposit s);
  wf_backing m : m ∈ Members s ++ RunnersUp s → 0 < stake m;
  wf_votes a v : VotingMap s !! a = Some v →
    votes v ≠ [] ∧ (length (votes v) ≤ MaxVotesPerVoter)%nat ∧ 0 ≤ v_stake v ∧ 0 ≤ v_deposit v
    ∧ (0 < v_deposit v → v_stake v ≤ p_lock (e_purse s) a);
  wf_locks a : VotingMap s !! a = None → p_lock (e_purse s) a = 0;
  wf_owed a : owed s a ≤ p_reserved (e_purse s) a;
  wf_synced : tracked → council_synced s;
}.

Lemma vd_nonneg s a : wf s → 0 ≤ vd s a.
Proof.
  intros Hwf. unfold vd. destruct (VotingMap s !! a) as [v|] eqn:Hv; cbn; [|done].
  by destruct (wf_votes s Hwf _ _ Hv) as (_ & _ & _ & ? & _).
Qed.
Lemma standing_ids s : (candidates_and_deposit s).*1 = candidates_ids s ++ members_ids s ++ runners_up_ids s.
Proof.
  unfold candidates_and_deposit, implicit_candidates_with_deposit.
  by rewrite !fmap_app, <- !list_fmap_compose.
Qed.

(** ** Effects on the balances *)
Lemma unreserve_run s a n :
  0 ≤ n ≤ p_reserved (e_purse s) a →
  ∃ p, unreserve a n s = (Ok 0, s <| e_purse := p |>)
    ∧ (∀ b, p_reserved p b = p_reserved (e_purse s) b - if decide (b = a) then n else 0)
    ∧ (∀ b, p_lock p b = p_lock (e_purse s) b).
Proof.
  intros Hn. unfold unreserve. destruct (p_unreserve_spec (e_purse s) a n) as [H1 H2]; [lia|].
  pose proof (p_unreserve_lock (e_purse s) a n) as H3. destruct p_unreserve as [r p]. cbn in *.
  exists p. split_and!; [rewrite H1; by replace (n - _) with 0 by lia| |done].
  intros b. rewrite H2. case_decide; subst; lia.
Qed.
Lemma slash_run s a n :
  0 ≤ n ≤ p_reserved (e_purse s) a →
  ∃ p, slash a n s = (Ok 0, s <| e_purse := p |>)
    ∧ (∀ b, p_reserved p b = p_reserved (e_purse s) b - if decide (b = a) then n else 0)
    ∧ (∀ b, p_lock p b = p_lock (e_purse s) b).
Proof.
  intros Hn. unfold slash. destruct (p_slash_spec (e_purse s) a n) as [H1 H2]; [lia|].
  pose proof (p_slash_lock (e_purse s) a n) as H3. destruct p_slash_reserved as [r p]. cbn in *.
  exists p. split_and!; [rewrite H1; by replace (n - _) with 0 by lia| |done].
  intros b. rewrite H2. case_decide; subst; lia.
Qed.
Lemma reserve_run s a n e :
  0 ≤ n →
  match reserve a n e s with
  | (Ok _, s') => ∃ p, s' = s <| e_purse := p |>
      ∧ (∀ b, p_reserved p b = p_reserved (e_purse s) b + if decide (b = a) then n else 0)
      ∧ p_free p a = p_free (e_purse s) a - n ∧ p_hold p a = p_hold (e_purse s) a
      ∧ (∀ b, p_lock p b = p_lock (e_purse s) b)
  | (Err e', _) => e' = e
  | (Panic, _) => False
  end.
Proof.
  intros Hn. unfold reserve. pose proof (p_reserve_total (e_purse s) a n) as Ht.
  destruct p_reserve as [[[]| |] p] eqn:Hr; [|done..]. exists p.
  destruct (p_reserve_ok _ _ _ _ Hr Hn) as (H1 & H3 & H2). split_and!; [done| |done..|].
  - intros b. rewrite H2. case_decide; subst; lia.
  - intros b. by eapply p_reserve_lock.
Qed.

(** [do_remove_voter] frees the lock and the deposit. *)
Lemma do_remove_voter_run s a :
  wf s →
  ∃ p, do_remove_voter a s = (Ok tt, s <| VotingMap ::= delete a |> <| e_purse := p |>)
    ∧ (∀ b, p_reserved p b = p_reserved (e_purse s) b - if decide (b = a) then vd s a else 0)
    ∧ (∀ b, p_lock p b = if decide (b = a) then 0 else p_lock (e_purse s) b).
Proof.
  intros Hwf. 
  set (s1 := s <| VotingMap ::= delete a |> <| e_purse ::= p_remove_lock a |>).
  destruct (unreserve_run s1 a (vd s a)) as (p & Hp & H1 & H2).
  { pose proof (vd_nonneg s a Hwf). pose proof (wf_owed s Hwf a) as Ho. rewrite owed_eq in Ho.
    pose proof (cd_nonneg _ a (wf_deposits s Hwf)). cbn. rewrite p_remove_lock_reserved. lia. }
  exists p. split_and!; [unfold do_remove_voter, on_purse; mrun; fold (vd s a) s1; by rewrite Hp| |].
  - intros b. rewrite H1. cbn. by rewrite p_remove_lock_reserved.
  - intros b. rewrite H2. cbn. by rewrite p_remove_lock_spec.
Qed.

(** ** Steps that keep the invariant *)
Lemma wf_events s l : wf s → wf (s <| e_events := l |>).
Proof. intros []. by constructor. Qed.

Lemma standing_backed s c d : wf s → (c, d) ∈ candidates_and_deposit s → 0 ≤ d ≤ p_reserved (e_purse s) c.
Proof.
  intros Hwf Hin. pose proof (wf_owed s Hwf c) as Ho. rewrite owed_eq in Ho.
  rewrite (cd_unique _ _ _ (wf_nodup s Hwf) Hin) in Ho. pose proof (vd_nonneg s c Hwf).
  pose proof (wf_deposits s Hwf) as Hd. rewrite Forall_forall in Hd. specialize (Hd _ Hin). cbn in Hd. lia.
Qed.
Lemma member_standing s m : m ∈ Members s → (who m, seat_deposit m) ∈ candidates_and_deposit s.
Proof.
  intros Hm. unfold candidates_and_deposit, implicit_candidates_with_deposit.
  rewrite !elem_of_app, !list_elem_of_fmap. eauto.
Qed.
Lemma runner_up_standing s m : m ∈ RunnersUp s → (who m, seat_deposit m) ∈ candidates_and_deposit s.
Proof.
  intros Hm. unfold candidates_and_deposit, implicit_candidates_with_deposit.
  rewrite !elem_of_app, !list_elem_of_fmap. eauto.
Qed.

(** Votes and balances change, the seats do not *)
Lemma wf_voting s s' :
  wf s →
  Members s' = Members s → RunnersUp s' = RunnersUp s → Candidates s' = Candidates s →
  e_council s' = e_council s →
  (∀ a v, VotingMap s' !! a = Some v →
     votes v ≠ [] ∧ (length (votes v) ≤ MaxVotesPerVoter)%nat ∧ 0 ≤ v_stake v ∧ 0 ≤ v_deposit v
     ∧ (0 < v_deposit v → v_stake v ≤ p_lock (e_purse s') a)) →
  (∀ a, VotingMap s' !! a = None → p_lock (e_purse s') a = 0) →
  (∀ a, p_reserved (e_purse s) a + vd s' a ≤ p_reserved (e_purse s') a + vd s a) →
  wf s'.
Proof.
  intros Hwf HM HR HC Hc Hv Hl Ho. destruct s' as [M' R' C' n' V' p' c' ev']. cbn in *. subst M' R' C' c'.
  destruct Hwf. constructor; try done. intros a. specialize (Ho a). specialize (wf_owed0 a).
  change (vd s a + cd (candidates_and_deposit s) a ≤ p_reserved (e_purse s) a) in wf_owed0.
  change (vd (mkElec (Members s) (RunnersUp s) (Candidates s) n' V' p' (e_council s) ev') a
    + cd (candidates_and_deposit s) a ≤ p_reserved p' a). lia.
Qed.

Lemma wf_remove_voter s a p :
  wf s →
  (∀ b, p_reserved p b = p_reserved (e_purse s) b - if decide (b = a) then vd s a else 0) →
  (∀ b, p_lock p b = if decide (b = a) then 0 else p_lock (e_purse s) b) →
  wf (s <| VotingMap ::= delete a |> <| e_purse := p |>).
Proof.
  intros Hwf Hr Hl. apply (wf_voting s); [done..| | |]; cbn.
  - intros b v [Hab Hv]%lookup_delete_Some. rewrite Hl, decide_False by done. by apply wf_votes.
  - intros b Hb. rewrite Hl. case_decide as Hd; [done|]. rewrite lookup_delete_ne in Hb by done. by apply wf_locks.
  - intros b. rewrite Hr. unfold vd. cbn. case_decide as Hd; [subst; rewrite lookup_delete_eq|rewrite lookup_delete_ne by done]; cbn; lia.
Qed.

(** Seats and balances change, the votes do not *)
Lemma wf_seats s s' :
  wf s → VotingMap s' = VotingMap s → (∀ a, p_lock (e_purse s') a = p_lock (e_purse s) a) →
  sorted_by who (Members s') → sorted_by fst (Candidates s') →
  NoDup (candidates_and_deposit s').*1 →
  (length (Members s') ≤ DesiredMembers)%nat → (length (RunnersUp s') ≤ DesiredRunnersUp)%nat →
  Z.of_nat (length (Candidates s')) ≤ MaxCandidates + 1 →
  Forall (λ c, 0 ≤ c.2) (candidates_and_deposit s') →
  (∀ m, m ∈ Members s' ++ RunnersUp s' → 0 < stake m) →
  (∀ a, p_reserved (e_purse s) a + cd (candidates_and_deposit s') a
        ≤ p_reserved (e_purse s') a + cd (candidates_and_deposit s) a) →
  (tracked → council_synced s') →
  wf s'.
Proof.
  intros Hwf Hv Hl HM HC HN HMb HRb HCb HF Hbk Ho Hc. constructor; try done.
  - intros a v. rewrite Hv, Hl. by apply wf_votes.
  - intros a. rewrite Hv, Hl. by apply wf_locks.
  - intros a. pose proof (wf_owed s Hwf a) as Hw. specialize (Ho a). rewrite owed_eq in *. unfold vd in *.
    rewrite Hv. lia.
Qed.

(** A run that fails only with an error, or because the rounds can no longer be counted *)
Definition safe {A} s (r : res ElectionsError A * Elec) : Prop :=
  match r with
  | (Ok _, s') => wf s'
  | (Err _, _) => True
  | (Panic, _) => u32_max ≤ ElectionRounds s
  end.

(** *** Voting *)
Lemma deposit_of_eq n : (n ≤ MaxVotesPerVoter)%nat → deposit_of n = 399 * 10 ^ 10 + 192 * 10 ^ 10 * Z.of_nat n.
Proof.
  intros Hn. unfold MaxVotesPerVoter in Hn. unfold deposit_of, sat_add, sat_mul, wrap.
  change VotingBondBase with (399 * 10 ^ 10). change VotingBondFactor with (192 * 10 ^ 10).
  rewrite Z.mod_small by lia. change (umax 128) with (2 ^ 128 - 1). lia.
Qed.

Definition adjust_deposit (a : AccountId) (new_deposit old_deposit : Z) : ECall unit :=
  match Z.compare new_deposit old_deposit with
  | Gt => reserve a (new_deposit - old_deposit) UnableToPayBond
  | Eq => mret tt
  | Lt => r ← unreserve a (old_deposit - new_deposit); debug_assert (r =? 0)
  end.
Lemma adjust_deposit_run s a n :
  wf s → 0 ≤ n →
  match adjust_deposit a n (vd s a) s with
  | (Ok _, s') => ∃ p, s' = s <| e_purse := p |>
      ∧ (∀ b, p_reserved p b = p_reserved (e_purse s) b + if decide (b = a) then n - vd s a else 0)
      ∧ (∀ b, p_lock p b = p_lock (e_purse s) b)
      ∧ (vd s a < n → p_free p a = p_free (e_purse s) a - (n - vd s a) ∧ p_hold p a = p_hold (e_purse s) a)
  | (Err e, _) => e = UnableToPayBond
  | (Panic, _) => False
  end.
Proof.
  intros Hwf Hn. unfold adjust_deposit. destruct (Z.compare_spec n (vd s a)) as [Heq|Hlt|Hgt].
  - exists (e_purse s). split_and!; [by destruct s| |done|lia]. intros b. case_decide; lia.
  - pose proof (wf_owed s Hwf a) as Ho. rewrite owed_eq in Ho. pose proof (cd_nonneg _ a (wf_deposits s Hwf)).
    destruct (unreserve_run s a (vd s a - n)) as (p & Hp & H1 & H2); [lia|].
    mrun. rewrite Hp. cbn. exists p. split_and!; [done| |done|lia]. intros b. rewrite H1. case_decide; lia.
  - pose proof (reserve_run s a (n - vd s a) UnableToPayBond ltac:(lia)) as Hr.
    destruct reserve as [[[]| |] s']; [|done..]. destruct Hr as (p & -> & H1 & H2 & H3 & H4). by exists p.
Qed.

(** A successful vote: deposit, lock and entry *)
Lemma vote_run s a vs value s' :
  wf s → vote (Signed a) vs value s = (Ok tt, s') →
  ∃ p n, s' = s <| VotingMap ::= <[a := mkVoter vs n (deposit_of (length vs))]> |> <| e_purse := p |>
    ∧ vs ≠ [] ∧ (length vs ≤ MaxVotesPerVoter)%nat ∧ 0 ≤ n ≤ value
    ∧ (∀ b, p_reserved p b = p_reserved (e_purse s) b
              + if decide (b = a) then deposit_of (length vs) - vd s a else 0)
    ∧ (∀ b, p_lock p b = if decide (b = a ∧ n ≠ 0) then n else p_lock (e_purse s) b)
    ∧ (VotingMap s !! a = None → n =
         Z.min value (sat_add 128 (p_free (e_purse s) a - deposit_of (length vs)) (p_hold (e_purse s) a))).
Proof.
  intros Hwf H. unfold vote, signer, on_purse in H. inv_run. fold (vd s a) in *.
  change (adjust_deposit a (deposit_of (length vs)) (vd s a) s = (Ok a0, s0)) in Hm.
  assert (length vs ≤ MaxVotesPerVoter)%nat as Hlen by (by apply Nat.leb_le).
  pose proof (adjust_deposit_run s a (deposit_of (length vs)) Hwf) as Hadj.
  rewrite Hm in Hadj. destruct Hadj as (p & -> & Hr & Hl & Hfree); [rewrite deposit_of_eq by done; lia|].
  cbn [e_purse setter]. set (n := Z.min value _).
  assert (0 ≤ n ≤ value) as Hn.
  { unfold n, sat_add. pose proof (p_free_nonneg p a). pose proof (p_hold_nonneg p a).
    pose proof minimum_balance_nonneg. change (umax 128) with (2 ^ 128 - 1).
    match goal with H : (minimum_balance <? value) = true |- _ => apply Z.ltb_lt in H end. lia. }
  exists (p_set_lock a n p), n. split_and!; try done; try lia.
  - match goal with H : negb (bool_decide (vs = [])) = true |- _ =>
      by apply negb_true_iff, bool_decide_eq_false in H end.
  - intros b. by rewrite p_set_lock_reserved.
  - intros b. rewrite p_set_lock_spec by lia. by rewrite Hl.
  - intros Hnone. assert (vd s a = 0) as Hv by (unfold vd; by rewrite Hnone).
    destruct Hfree as [Hf Hh]; [rewrite deposit_of_eq by done; lia|].
    unfold n. by rewrite Hf, Hh, Hv, Z.sub_0_r.
Qed.

Lemma wf_vote s a vs n p :
  wf s → vs ≠ [] → (length vs ≤ MaxVotesPerVoter)%nat → 0 ≤ n →
  (∀ b, p_reserved p b = p_reserved (e_purse s) b
          + if decide (b = a) then deposit_of (length vs) - vd s a else 0) →
  (∀ b, p_lock p b = if decide (b = a ∧ n ≠ 0) then n else p_lock (e_purse s) b) →
  wf (s <| VotingMap ::= <[a := mkVoter vs n (deposit_of (length vs))]> |> <| e_purse := p |>).
Proof.
  intros Hwf Hvs Hlen Hn Hr Hl. apply (wf_voting s); [done..| | |]; cbn.
  - intros b v Hv. rewrite Hl. apply lookup_insert_Some in Hv as [[<- <-]|[Hab Hv]]; cbn.
    + split_and!; [done..|rewrite deposit_of_eq by done; lia|]. intros _.
      pose proof (p_lock_nonneg (e_purse s) a).
      destruct (decide (a = a ∧ n ≠ 0)) as [|Hd]; [lia|]. destruct (decide (n = 0)); [lia|]. naive_solver.
    + rewrite decide_False by naive_solver. by apply wf_votes.
  - intros b [Hb Hab]%lookup_insert_None. rewrite Hl, decide_False by naive_solver. by apply wf_locks.
  - intros b. rewrite Hr. unfold vd. cbn. destruct (decide (b = a)) as [->|Hd].
    + rewrite lookup_insert_eq. cbn. lia.
    + rewrite lookup_insert_ne by done. lia.
Qed.

(** *** Runs without a panic *)
Definition np {A} (m : ECall A) s : Prop := (m s).1 ≠ Panic.
Lemma np_bind {A B} (m : ECall A) (f : A → ECall B) s :
  np m s → (∀ a s', m s = (Ok a, s') → np (f a) s') → np (m ≫= f) s.
Proof. unfold np. mrun. destruct (m s) as [[a|e|] s'] eqn:Hm; cbn; [|done..]. intros _ H. by apply H. Qed.
Lemma np_ensure b e s : np (ensure b e) s.
Proof. by destruct b. Qed.
Lemma np_ok_or {A} (o : option A) e s : np (ok_or o e) s.
Proof. by destruct o. Qed.
Lemma safe_intro {A} s (m : ECall A) : (∀ a s', m s = (Ok a, s') → wf s') → np m s → safe s (m s).
Proof. unfold np, safe. destruct (m s) as [[a|e|] s'] eqn:Hm; naive_solver. Qed.

(** Runs [ensure], reads and updates of a goal [np m s]. *)
Ltac np_step :=
  match goal with
  | |- np (mbind _ _) _ => apply np_bind
  | |- np (ensure _ _) _ => apply np_ensure
  | |- np (ok_or _ _) _ => apply np_ok_or
  | |- np get_state _ => discriminate
  | |- np (modify _) _ => discriminate
  | |- np (mret _) _ => discriminate
  | |- np (fail _) _ => discriminate
  | |- np (on_purse _) _ => discriminate
  | |- np (on_council _) _ => discriminate
  | |- np (deposit_event _) _ => discriminate
  | |- ∀ _, _ => intros
  | H : get_state _ = (Ok _, _) |- _ => apply get_state_ok_inv in H as [-> ->]
  | H : ensure _ _ _ = (Ok _, _) |- _ => apply ensure_ok_inv in H as [? ->]
  | H : ok_or _ _ _ = (Ok _, _) |- _ => apply ok_or_inv in H as [? ->]
  | H : modify _ _ = (Ok _, _) |- _ => apply modify_ok_inv in H as ->
  | H : mret _ _ = (Ok _, _) |- _ => apply ret_ok_inv in H as [-> ->]
  end.
Ltac np_auto := repeat (cbv beta iota zeta; np_step).
Ltac np_cases :=
  repeat (cbv beta iota zeta;
    first [ np_step
          | match goal with
            | |- np (match ?x with _ => _ end) _ => destruct x eqn:?
            | H : (match ?x with _ => _ end) _ = (Ok _, _) |- _ => destruct x eqn:?; try discriminate H
            end ]).

Lemma np_reserve a n e s : np (reserve a n e) s.
Proof.
  unfold np, reserve. pose proof (p_reserve_total (e_purse s) a n). by destruct p_reserve as [[| |] p].
Qed.
Lemma np_search {A} (key : A → AccountId) l a : sorted_by key l → search_account key a l ≠ Panic.
Proof. intros Hs Hp. pose proof (search_spec key l a Hs) as H. by rewrite Hp in H. Qed.
Lemma np_unwrap {A} (o : option A) s : is_Some o → np (lift (unwrap o)) s.
Proof. by intros [a ->]. Qed.

Lemma vote_safe s o vs value : wf s → safe s (vote o vs value s).
Proof.
  intros Hwf. destruct o as [|a|]; [done| |done]. apply safe_intro.
  - intros [] s' (p & n & -> & Hvs & Hlen & Hn & Hr & Hl & _)%vote_run; [|done]. apply wf_vote; [done..|lia|done|done].
  - unfold vote, signer. np_auto.
    change (np (adjust_deposit a (deposit_of (length vs)) (vd s a)) s).
    match goal with H : (length vs <=? _)%nat = true |- _ => apply Nat.leb_le in H end.
    assert (0 ≤ deposit_of (length vs)) as Hpos by (rewrite deposit_of_eq by done; lia).
    pose proof (adjust_deposit_run s a (deposit_of (length vs)) Hwf Hpos) as Hadj. unfold np.
    by destruct adjust_deposit as [[| |] s'].
Qed.

Lemma remove_voter_safe s o : wf s → safe s (remove_voter o s).
Proof.
  intros Hwf. destruct o as [|a|]; [done| |done]. unfold remove_voter, signer. mrun.
  destruct (is_voter s a); [|done]. cbn. destruct (do_remove_voter_run s a Hwf) as (p & -> & H1 & H2).
  by apply wf_remove_voter.
Qed.

Lemma clean_safe (l : list (AccountId * Voter)) s :
  wf s → safe s (for_each l (λ x, do_remove_voter x.1) s).
Proof.
  revert s. induction l as [|x l IH]; intros s Hwf; [done|]. cbn [for_each]. mrun.
  destruct (do_remove_voter_run s x.1 Hwf) as (p & -> & H1 & H2).
  exact (IH (s <| VotingMap ::= delete x.1 |> <| e_purse := p |>) (wf_remove_voter s x.1 p Hwf H1 H2)).
Qed.
Lemma clean_defunct_voters_safe s o n d : wf s → safe s (clean_defunct_voters o n d s).
Proof. intros Hwf. destruct o; [|done..]. unfold clean_defunct_voters, root. mrun. by apply clean_safe. Qed.

(** *** Candidacy *)
Lemma is_member_spec s a : wf s → is_member s a = bool_decide (a ∈ members_ids s).
Proof. intros Hwf. apply search_is_ok, Hwf. Qed.
Lemma is_runner_up_spec s a : is_runner_up s a = bool_decide (a ∈ runners_up_ids s).
Proof.
  unfold is_runner_up, runners_up_ids. induction (RunnersUp s) as [|r l IH]; [done|]. cbn. rewrite IH.
  apply eq_bool_prop_intro. rewrite orb_True, !bool_decide_spec, elem_of_cons. naive_solver.
Qed.
Lemma is_candidate_spec s a : wf s → is_ok (is_candidate s a) = bool_decide (a ∈ candidates_ids s).
Proof. intros Hwf. apply search_is_ok, Hwf. Qed.

Lemma submit_candidacy_run s a n s' :
  wf s → submit_candidacy (Signed a) n s = (Ok tt, s') →
  ∃ p l, s' = s <| e_purse := p |> <| Candidates := l |>
    ∧ a ∉ (candidates_and_deposit s).*1 ∧ l ≡ₚ (a, CandidacyBond) :: Candidates s ∧ sorted_by fst l
    ∧ Z.of_nat (length (Candidates s)) ≤ Z.min n MaxCandidates
    ∧ (∀ b, p_reserved p b = p_reserved (e_purse s) b + if decide (b = a) then CandidacyBond else 0)
    ∧ (∀ b, p_lock p b = p_lock (e_purse s) b).
Proof.
  intros Hwf H. unfold submit_candidacy, signer in H. inv_run.
  pose proof (is_candidate_spec s a Hwf) as Hca.
  destruct (is_candidate s a) as [i|i|] eqn:Hc; [done| |done]. inv_run.
  rewrite is_member_spec in * by done. rewrite is_runner_up_spec in *.
  pose proof (reserve_run s a CandidacyBond InsufficientCandidateFunds ltac:(done)) as Hr.
  match goal with H : reserve _ _ _ _ = (Ok _, _) |- _ => rewrite H in Hr end.
  destruct Hr as (p & -> & Hr & _ & _ & Hl).
  destruct (search_insert fst (Candidates s) a i (a, CandidacyBond)) as (l & Hins & Hs & Hp);
    [apply Hwf|done..|].
  match goal with H : unwrap _ = Ok _ |- _ => rewrite Hins in H; injection H as <- end.
  assert (length (Candidates s) ≤ 1001)%nat as Hlen
    by (pose proof (wf_candidates_bound s Hwf); unfold MaxCandidates in *; lia).
  assert (wrap 32 (Z.of_nat (length (Candidates s))) = Z.of_nat (length (Candidates s))) as Hw
    by (unfold wrap; apply Z.mod_small; lia). rewrite Hw in *.
  exists p, l. split_and!; [done| |done|done| |done|done].
  - rewrite standing_ids. rewrite !elem_of_app. cbn in Hca. symmetry in Hca.
    repeat match goal with
    | H : negb _ = true |- _ => apply negb_true_iff in H
    | H : bool_decide _ = false |- _ => apply bool_decide_eq_false in H
    end. tauto.
  - repeat match goal with H : (_ <=? _) = true |- _ => apply Z.leb_le in H end. lia.
Qed.

Lemma submit_candidacy_safe s o n : wf s → safe s (submit_candidacy o n s).
Proof.
  intros Hwf. destruct o as [|a|]; [done| |done]. apply safe_intro.
  - intros [] s' (p & l & -> & Ha & Hp & Hs & Hlen & Hr & Hl)%submit_candidacy_run; [|done].
    set (s' := s <| e_purse := p |> <| Candidates := l |>).
    assert (candidates_and_deposit s' ≡ₚ (a, CandidacyBond) :: candidates_and_deposit s) as Hcs
      by (unfold candidates_and_deposit at 1; cbn; by rewrite Hp).
    destruct Hwf as []. apply (wf_seats s); try done.
    + rewrite Hcs. by apply NoDup_cons.
    + cbn. rewrite Hp. cbn. lia.
    + rewrite Hcs. by constructor.
    + intros b. rewrite (cd_perm _ _ b Hcs), cd_cons. cbn. rewrite Hr. destruct (decide (b = a)), (decide (a = b)); naive_solver lia.
  - unfold submit_candidacy, signer. np_cases.
    + destruct (np_search fst (Candidates s) a); [apply Hwf|done].
    + apply np_reserve.
    + apply np_unwrap.
      match goal with H : is_candidate s a = Err ?i |- _ =>
        destruct (search_insert fst (Candidates s) a i (a, CandidacyBond) (wf_candidates s Hwf) H eq_refl)
          as (l & Hins & _) end. rewrite Hins. by eexists.
Qed.

(** *** Leaving *)

(** Someone leaves with a deposit, and the seats of the members stay. *)
Lemma wf_leave s s' a d :
  wf s → VotingMap s' = VotingMap s → Members s' = Members s → e_council s' = e_council s →
  sorted_by fst (Candidates s') → sublist (RunnersUp s') (RunnersUp s) →
  (length (Candidates s') ≤ length (Candidates s))%nat →
  candidates_and_deposit s ≡ₚ (a, d) :: candidates_and_deposit s' →
  (∀ b, p_reserved (e_purse s') b = p_reserved (e_purse s) b - if decide (b = a) then d else 0) →
  (∀ b, p_lock (e_purse s') b = p_lock (e_purse s) b) →
  wf s'.
Proof.
  intros Hwf HV HM Hc HC HR HCl Hp Hr Hl. pose proof (wf_nodup s Hwf) as Hnd. pose proof (wf_deposits s Hwf) as Hd.
  rewrite Hp in Hnd, Hd. apply NoDup_cons in Hnd as [_ Hnd]. apply Forall_cons in Hd as [_ Hd].
  assert (members_ids s' = members_ids s) as Hid by (unfold members_ids; by rewrite HM).
  destruct Hwf. apply (wf_seats s); rewrite ?HM, ?Hid, ?Hc; try done; try lia.
  { apply sublist_length in HR. lia. }
  { intros m [Hm|Hm]%elem_of_app; apply wf_backing0, elem_of_app; [by left|right].
    by eapply (sublist_elem_of). }
  { intros b. rewrite Hr, (cd_perm _ _ b Hp), cd_cons. cbn.
    destruct (decide (b = a)), (decide (a = b)); naive_solver lia. }
  intros Ht. unfold council_synced. rewrite Hid, Hc. by apply wf_synced0.
Qed.

Lemma renounce_candidate_run s a count :
  wf s →
  match renounce_candidacy (Signed a) (RenouncingCandidate count) s with
  | (Ok _, s') => wf s' ∧ ∃ d, candidates_and_deposit s ≡ₚ (a, d) :: candidates_and_deposit s'
      ∧ (∀ b, p_reserved (e_purse s') b = p_reserved (e_purse s) b - if decide (b = a) then d else 0)
  | (Err _, _) => True
  | (Panic, _) => False
  end.
Proof.
  intros Hwf. unfold renounce_candidacy, signer. mrun. destruct (wrap _ _ <=? count); [|done].
  pose proof (search_spec fst (Candidates s) a (wf_candidates s Hwf)) as Hs.
  destruct (search_account fst a (Candidates s)) as [i|i|]; [|done..].
  destruct Hs as ([? d] & Hx & Ha). cbn in Ha. subst.
  destruct (sorted_by_remove fst (Candidates s) i (a, d) (delete i (Candidates s)) (wf_candidates s Hwf))
    as (Hs & Hp & _); [by apply vec_remove_some|]. rewrite (vec_remove_some _ _ _ Hx). cbn [unwrap snd].
  assert (candidates_and_deposit s ≡ₚ
    (a, d) :: delete i (Candidates s) ++ implicit_candidates_with_deposit s) as Hcs
    by (unfold candidates_and_deposit; by rewrite Hp at 1).
  destruct (unreserve_run s a d) as (p & -> & Hr & Hl).
  { apply standing_backed; [done|]. rewrite Hcs. left. }
  cbn. split; [|by exists d]. eapply (wf_leave s _ a d); try done. cbn. rewrite length_delete by eauto. lia.
Qed.

Lemma runner_up_position_spec a l :
  match runner_up_position a l with
  | Some i => ∃ r, l !! i = Some r ∧ who r = a
  | None => a ∉ who <$> l
  end.
Proof.
  induction l as [|r l IH]; cbn; [by apply not_elem_of_nil|]. case_bool_decide as Hr; [by exists r|].
  destruct (runner_up_position a l); cbn; [done|]. rewrite not_elem_of_cons. split; congruence.
Qed.
Lemma renounce_runner_up_run s a :
  wf s →
  match renounce_candidacy (Signed a) RenouncingRunnerUp s with
  | (Ok _, s') => wf s' ∧ ∃ d, candidates_and_deposit s ≡ₚ (a, d) :: candidates_and_deposit s'
      ∧ (∀ b, p_reserved (e_purse s') b = p_reserved (e_purse s) b - if decide (b = a) then d else 0)
  | (Err _, _) => True
  | (Panic, _) => False
  end.
Proof.
  intros Hwf. unfold renounce_candidacy, signer. mrun. pose proof (runner_up_position_spec a (RunnersUp s)) as Hs.
  destruct runner_up_position as [i|]; [|done]. destruct Hs as (r & Hx & Ha).
  rewrite (vec_remove_some _ _ _ Hx). cbn [unwrap].
  assert (RunnersUp s ≡ₚ r :: delete i (RunnersUp s)) as Hp by (by apply delete_Permutation).
  assert (candidates_and_deposit s ≡ₚ (a, seat_deposit r) :: candidates_and_deposit (s <| RunnersUp ::= delete i |>)) as Hcs.
  { unfold candidates_and_deposit, implicit_candidates_with_deposit. cbn. rewrite Hp at 1. cbn. rewrite Ha.
    by rewrite <- !Permutation_middle. }
  destruct (unreserve_run s a (seat_deposit r)) as (p & -> & Hr & Hl).
  { apply standing_backed; [done|]. rewrite Hcs. left. }
  cbn. split; [|by exists (seat_deposit r)].
  eapply (wf_leave s _ a (seat_deposit r)); try done; [apply Hwf|]. apply sublist_delete.
Qed.

(** *** Losing a seat *)
Lemma pop_last {A} (l : list A) x : last l = Some x → l = take (length l - 1) l ++ [x].
Proof.
  intros [l' ->]%last_Some. rewrite length_app. cbn. replace (length l' + 1 - 1)%nat with (length l') by lia.
  by rewrite take_app_length.
Qed.

Lemma release_bond_run s a b d :
  0 ≤ d ≤ p_reserved (e_purse s) a →
  ∃ p ev, release_bond a b d s = (Ok tt, s <| e_purse := p |> <| e_events := ev |>)
    ∧ (∀ c, p_reserved p c = p_reserved (e_purse s) c - if decide (c = a) then d else 0)
    ∧ (∀ c, p_lock p c = p_lock (e_purse s) c).
Proof.
  intros Hd. unfold release_bond. destruct b; mrun.
  - destruct (slash_run s a d Hd) as (p & -> & Hr & Hl). by eexists p, _.
  - destruct (unreserve_run s a d Hd) as (p & -> & Hr & Hl). exists p, (e_events s). by destruct s.
Qed.
Lemma fill_seat_run next l :
  sorted_by who l → (∀ n, next = Some n → who n ∉ who <$> l) →
  ∃ l', fill_seat next l = Ok l' ∧ sorted_by who l'
    ∧ l' ≡ₚ match next with Some n => [n] | None => [] end ++ l.
Proof.
  intros Hs Hn. unfold fill_seat. destruct next as [n|]; [|by exists l].
  destruct (search_absent who l (who n) Hs) as (i & Hi); [by apply Hn|]. rewrite Hi.
  destruct (search_insert who l (who n) i n Hs Hi eq_refl) as (l' & -> & Hs' & Hp). by exists l'.
Qed.

(** The runner-up that takes the seat, if any, is the best one. *)
Lemma take_seat_run s a b :
  wf s →
  match take_seat a b s with
  | (Ok next, s') => ∃ removed rest p ev l,
      Members s ≡ₚ removed :: rest ∧ who removed = a ∧ next = last (RunnersUp s)
      ∧ s' = s <| RunnersUp := take (length (RunnersUp s) - 1) (RunnersUp s) |> <| Members := l |>
               <| e_purse := p |> <| e_events := ev |>
      ∧ sorted_by who l ∧ l ≡ₚ match next with Some n => [n] | None => [] end ++ rest
      ∧ (∀ c, p_reserved p c = p_reserved (e_purse s) c - if decide (c = a) then seat_deposit removed else 0)
      ∧ (∀ c, p_lock p c = p_lock (e_purse s) c)
  | (Err e, s') => e = NotMember ∧ a ∉ members_ids s ∧ s' = s
  | (Panic, _) => False
  end.
Proof.
  intros Hwf. unfold take_seat. mrun. destruct (decide (a ∈ members_ids s)) as [Ha|Ha].
  2: { by destruct (search_absent who (Members s) a (wf_members s Hwf) Ha) as (i & ->). }
  destruct (search_present who (Members s) a (wf_members s Hwf) Ha) as (i & m & -> & Hm & Hk).
  pose proof (vec_remove_some (Members s) i m Hm) as Hrem. rewrite Hrem.
  destruct (sorted_by_remove who _ _ _ _ (wf_members s Hwf) Hrem) as (Hs & Hp & _). cbn [unwrap].
  destruct (release_bond_run s a b (seat_deposit m)) as (p & ev & -> & Hr & Hl).
  { rewrite <- Hk. apply standing_backed; [done|]. apply member_standing. by eapply list_elem_of_lookup_2. }
  destruct (fill_seat_run (last (RunnersUp s)) (delete i (Members s))) as (l & -> & Hsl & Hpl); [done| |].
  - intros n Hn%last_Some_elem_of Hin. pose proof (wf_nodup s Hwf) as Hnd. rewrite standing_ids in Hnd.
    apply NoDup_app in Hnd as (_ & _ & (_ & Hnd & _)%NoDup_app). apply (Hnd (who n)).
    + unfold members_ids. rewrite Hp. cbn. by right.
    + unfold runners_up_ids. apply list_elem_of_fmap. by exists n.
  - cbn. by exists m, (delete i (Members s)), p, ev, l.
Qed.

(** The council after a member [a] left. *)
Definition council_without (a : AccountId) (incoming ids : list AccountId) (c : Body) : Body :=
  let c' := change_members_sorted incoming [a] ids c in
  match get_prime c with
  | Some p => if bool_decide (p = a) then c' else set_prime (Some p) c'
  | None => c'
  end.
Lemma council_without_spec a inc ids c :
  body_members (council_without a inc ids c) = ids
  ∧ body_voters (council_without a inc ids c) = body_voters c ∖ {[a]}
  ∧ get_prime (council_without a inc ids c) =
      match get_prime c with Some p => if bool_decide (p = a) then None else Some p | None => None end.
Proof.
  unfold council_without.
  assert (list_to_set [a] = ({[a]} : gset AccountId)) as <- by set_solver.
  destruct (get_prime c) as [p|]; [case_bool_decide|];
    rewrite ?set_prime_members, ?set_prime_voters, ?set_prime_prime, change_members_members, ?change_members_voters,
      ?change_members_prime; done.
Qed.

(** Who stands for election after a member left and the best runner-up moved up *)
Lemma standing_without s s' m rest :
  Candidates s' = Candidates s → Members s ≡ₚ m :: rest →
  RunnersUp s' = take (length (RunnersUp s) - 1) (RunnersUp s) →
  Members s' ≡ₚ match last (RunnersUp s) with Some n => [n] | None => [] end ++ rest →
  candidates_and_deposit s ≡ₚ (who m, seat_deposit m) :: candidates_and_deposit s'.
Proof.
  intros HC HM HR HM'. unfold candidates_and_deposit, implicit_candidates_with_deposit.
  rewrite HC, HM, HM', HR. destruct (last (RunnersUp s)) as [n|] eqn:Hn.
  - rewrite (pop_last _ _ Hn) at 1. cbn. rewrite fmap_app. cbn. rewrite <- Permutation_middle.
    constructor. f_equiv. by rewrite app_assoc, <- Permutation_cons_append.
  - apply last_None in Hn as ->. cbn. by rewrite <- Permutation_middle.
Qed.

Lemma wf_without s s' m rest inc :
  wf s → Candidates s' = Candidates s → Members s ≡ₚ m :: rest → VotingMap s' = VotingMap s →
  RunnersUp s' = take (length (RunnersUp s) - 1) (RunnersUp s) → sorted_by who (Members s') →
  Members s' ≡ₚ match last (RunnersUp s) with Some n => [n] | None => [] end ++ rest →
  (∀ c, p_reserved (e_purse s') c
        = p_reserved (e_purse s) c - if decide (c = who m) then seat_deposit m else 0) →
  (∀ c, p_lock (e_purse s') c = p_lock (e_purse s) c) →
  e_council s' = council_without (who m) inc (members_ids s') (e_council s) →
  wf s'.
Proof.
  intros Hwf HC Hp HV HR Hs Hpl Hr Hl Hc.
  pose proof (standing_without s s' m rest HC Hp HR Hpl) as Hcs.
  pose proof (wf_nodup s Hwf) as Hnd. pose proof (wf_deposits s Hwf) as Hd. rewrite Hcs in Hnd, Hd.
  apply NoDup_cons in Hnd as [Hm Hnd]. apply Forall_cons in Hd as [_ Hd].
  destruct (council_without_spec (who m) inc (members_ids s') (e_council s)) as (Hc1 & Hc2 & Hc3).
  assert (∀ x, x ∈ members_ids s → x ≠ who m → x ∈ members_ids s') as Hstay.
  { unfold members_ids. intros x. rewrite Hp, Hpl, fmap_cons, fmap_app, elem_of_cons, elem_of_app. naive_solver. }
  apply (wf_seats s); try done; rewrite ?Hc, ?HC; try apply Hwf.
  - pose proof (wf_members_bound s Hwf) as Hb. rewrite Hp in Hb. rewrite Hpl, length_app. cbn in Hb.
    destruct (last (RunnersUp s)); cbn; lia.
  - rewrite HR, length_take. pose proof (wf_runners_up_bound s Hwf). lia.
  - intros x. rewrite HR, elem_of_app, Hpl, elem_of_app. intros Hx. apply (wf_backing s Hwf). rewrite elem_of_app, Hp.
    destruct Hx as [[Hx|Hx]|Hx%(sublist_elem_of _ (RunnersUp s))]; [|left; by right|by right|apply sublist_take].
    destruct (last (RunnersUp s)) as [n|] eqn:Hn; [|by apply elem_of_nil in Hx].
    apply list_elem_of_singleton in Hx as ->. right. by apply last_Some_elem_of.
  - intros b. rewrite Hr, (cd_perm _ _ b Hcs), cd_cons. cbn.
    destruct (decide (b = who m)), (decide (who m = b)); naive_solver lia.
  - intros (Hs1 & Hs2 & Hs3)%(wf_synced s Hwf). split_and!; rewrite ?Hc; [by rewrite Hc1| |].
    + intros q Hq. rewrite Hc3 in Hq. destruct (get_prime (e_council s)) as [q'|]; [|done].
      case_bool_decide; simplify_eq. by apply Hstay; [apply Hs2|].
    + intros x. rewrite Hc2. set_solver.
Qed.

Lemma remove_and_replace_run s a b :
  wf s →
  match remove_and_replace_member a b s with
  | (Ok found, s') => wf s' ∧ ElectionRounds s' = ElectionRounds s
      ∧ found = bool_decide (RunnersUp s ≠ []) ∧ a ∈ members_ids s
      ∧ ∃ d, candidates_and_deposit s ≡ₚ (a, d) :: candidates_and_deposit s'
        ∧ (∀ c, p_reserved (e_purse s') c = p_reserved (e_purse s) c - if decide (c = a) then d else 0)
  | (Err e, _) => e = NotMember ∧ a ∉ members_ids s
  | (Panic, _) => False
  end.
Proof.
  intros Hwf. unfold remove_and_replace_member. mrun. pose proof (take_seat_run s a b Hwf) as Hrun.
  destruct (take_seat a b s) as [[next|e|] s1]; [|by destruct Hrun as (? & ? & _)|done].
  destruct Hrun as (m & rest & p & ev & l & Hp & <- & -> & -> & Hs & Hpl & Hr & Hl).
  set (next := last (RunnersUp s)) in *. set (inc := match next with Some n => [who n] | None => [] end).
  set (s' := s <| RunnersUp := take (length (RunnersUp s) - 1) (RunnersUp s) |> <| Members := l |>
               <| e_purse := p |> <| e_events := ev |>
               <| e_council := council_without (who m) inc (who <$> l) (e_council s) |>).
  match goal with |- context [let '(r, s0) := ?t in _] => replace t with
    ((Ok (bool_decide (is_Some next)), s') : res ElectionsError bool * Elec) end.
  2: { unfold s', council_without, on_council, modify. cbn. destruct (get_prime (e_council s)) as [q|]; [|done].
       by destruct (bool_decide (q = who m)). }
  split_and!; [by apply (wf_without s s' m rest inc)|done| |unfold members_ids; rewrite Hp; by left|].
  - apply bool_decide_ext. unfold next. rewrite <- not_eq_None_Some. by rewrite last_None.
  - exists (seat_deposit m). split; [by apply (standing_without _ _ _ rest)|done].
Qed.

Lemma renounce_run s a r :
  wf s →
  match renounce_candidacy (Signed a) r s with
  | (Ok _, s') => wf s' ∧ ∃ d, candidates_and_deposit s ≡ₚ (a, d) :: candidates_and_deposit s'
      ∧ (∀ b, p_reserved (e_purse s') b = p_reserved (e_purse s) b - if decide (b = a) then d else 0)
  | (Err _, _) => True
  | (Panic, _) => False
  end.
Proof.
  intros Hwf. destruct r as [| |count]; [|by apply renounce_runner_up_run|by apply renounce_candidate_run].
  unfold renounce_candidacy, signer, map_err. mrun. pose proof (remove_and_replace_run s a false Hwf) as H.
  destruct (remove_and_replace_member a false s) as [[f|e|] s']; [|done..]. destruct H as (Hw & _ & _ & _ & d & H1 & H2).
  cbn. split; [by apply wf_events|]. by exists d.
Qed.
Lemma renounce_safe s o r : wf s → safe s (renounce_candidacy o r s).
Proof.
  intros Hwf. destruct o as [|a|]; [done| |done]. pose proof (renounce_run s a r Hwf) as H. unfold safe.
  destruct renounce_candidacy as [[| |] s']; naive_solver.
Qed.

(** *** The election *)
Lemma collect_voters_spec n l acc :
  collect_voters n l acc =
  if (length acc + length l <=? n)%nat then Some (acc ++ ((λ x, (x.1, v_stake x.2, votes x.2)) <$> l))
  else if (length acc <=? n)%nat then None else if bool_decide (l = []) then Some acc else None.
Proof.
  revert acc. induction l as [|[voter v] l IH]; intros acc; cbn [collect_voters].
  - rewrite Nat.add_0_r, app_nil_r. by destruct (Nat.leb_spec (length acc) n).
  - rewrite IH, length_app. cbn [length fmap list_fmap fst snd].
    destruct (Nat.ltb_spec (length acc) n), (Nat.leb_spec (length acc + 1 + length l) n),
      (Nat.leb_spec (length acc + S (length l)) n), (Nat.leb_spec (length acc + 1) n),
      (Nat.leb_spec (length acc) n); try lia; try done. by rewrite <- app_assoc.
Qed.

(** The score of a member in the count for the prime, vote by vote *)
Fixpoint vote_score (voter_stake : Z) (vote_position : nat) (vs : list AccountId) (q : AccountId) (acc : Z) : Z :=
  match vs with
  | [] => acc
  | v :: vs =>
      vote_score voter_stake (S vote_position) vs q
        (if bool_decide (v = q)
         then sat_add 128 acc (sat_mul 128 voter_stake (Z.of_nat (MaxVotesPerVoter - vote_position)))
         else acc)
  end.
Definition borda_score (voters : list (AccountId * Z * list AccountId)) (q : AccountId) : Z → Z :=
  λ acc, foldl (λ acc v, vote_score v.1.2 0 v.2 q acc) acc voters.

Lemma count_votes_spec n pos vs pv :
  sorted_by fst pv → (pos + length vs ≤ MaxVotesPerVoter)%nat →
  count_votes n pos vs pv = Some ((λ x, (x.1, vote_score n pos vs x.1 x.2)) <$> pv).
Proof.
  revert pos pv. induction vs as [|v vs IH]; intros pos pv Hs Hlen; cbn [count_votes vote_score].
  { f_equal. rewrite <- (list_fmap_id pv) at 1. apply list_fmap_ext. by intros i [a z] _. }
  cbn in Hlen. rewrite (proj2 (Nat.leb_le _ _)) by lia.
  cbv zeta. rewrite search_alter by done. rewrite IH; [|unfold sorted_by; rewrite <- list_fmap_compose|lia].
  - f_equal. rewrite <- list_fmap_compose. apply list_fmap_ext. intros i [a z] _. cbn. by destruct bool_decide.
  - erewrite list_fmap_ext; [exact Hs|]. intros i [a z] _. cbn. by destruct bool_decide.
Qed.
Lemma borda_spec voters pv :
  sorted_by fst pv → Forall (λ v, length v.2 ≤ MaxVotesPerVoter)%nat voters →
  borda voters pv = Some ((λ x, (x.1, borda_score voters x.1 x.2)) <$> pv).
Proof.
  revert pv. induction voters as [|[[a n] vs] voters IH]; intros pv Hs Hv; cbn [borda].
  { f_equal. rewrite <- (list_fmap_id pv) at 1. apply list_fmap_ext. by intros i [a z] _. }
  apply Forall_cons in Hv as [Hv Hvs]. rewrite count_votes_spec; [|done|done]. cbn [mbind option_bind].
  rewrite IH; [|unfold sorted_by; by rewrite <- list_fmap_compose|done]. by rewrite <- list_fmap_compose.
Qed.

(** Exactly those without a seat are slashed, by what they had deposited. *)
Lemma slash_losers_run ms rs cs s :
  StronglySorted account_lt ms → StronglySorted account_lt rs →
  NoDup cs.*1 → Forall (λ c, 0 ≤ c.2 ≤ p_reserved (e_purse s) c.1) cs →
  ∃ p ev, slash_losers ms rs cs s = (Ok tt, s <| e_purse := p |> <| e_events := ev |>)
    ∧ (∀ a, p_reserved p a = p_reserved (e_purse s) a
              - if decide (a ∈ ms ∨ a ∈ rs) then 0 else cd cs a)
    ∧ (∀ a, p_lock p a = p_lock (e_purse s) a).
Proof.
  intros Hms Hrs. assert (∀ l c, StronglySorted account_lt l → is_ok (search_account id c l) = bool_decide (c ∈ l)) as Hok.
  { intros l c Hl. rewrite search_is_ok; unfold sorted_by; by rewrite list_fmap_id. }
  revert s. induction cs as [|[c d] cs IH]; intros s Hnd Hd; cbn [slash_losers for_each].
  { exists (e_purse s), (e_events s). split_and!; [by destruct s| |done]. intros a. case_decide; cbn; lia. }
  apply NoDup_cons in Hnd as [Hc Hnd]. apply Forall_cons in Hd as [Hcd Hd]. cbn in Hcd, Hc.
  unfold slash_losers in *. cbn [for_each]. mrun. rewrite !Hok by done.
  destruct (decide (c ∈ ms ∨ c ∈ rs)) as [Hin|Hout].
  - replace (negb (bool_decide (c ∈ ms)) && negb (bool_decide (c ∈ rs))) with false
      by (destruct Hin; do 2 case_bool_decide; naive_solver).
    destruct (IH s Hnd Hd) as (p & ev & Hrun & Hr & Hl). exists p, ev. split_and!; [exact Hrun| |done].
    intros a. rewrite Hr, cd_cons. cbn. repeat case_decide; subst; try done; lia.
  - rewrite !bool_decide_false by tauto. cbn [negb andb].
    destruct (slash_run s c d Hcd) as (p1 & -> & Hr1 & Hl1).
    set (s1 := (deposit_event (CandidateSlashed c d) (s <| e_purse := p1 |>)).2).
    assert (∀ a, a ∈ cs.*1 → p_reserved p1 a = p_reserved (e_purse s) a) as Hsame.
    { intros a Ha. rewrite Hr1, decide_False by (intros ->; done). lia. }
    destruct (IH s1 Hnd) as (p & ev & Hrun & Hr & Hl).
    { rewrite Forall_forall in *. intros x Hx. cbn. rewrite Hsame; [by apply Hd|]. apply list_elem_of_fmap. eauto. }
    exists p, ev. split_and!; [exact Hrun| |intros a; rewrite Hl; apply Hl1].
    intros a. rewrite Hr, cd_cons. cbn. rewrite Hr1. destruct (decide (a = c)) as [->|Hac].
    + rewrite !decide_False by done. rewrite decide_True by done. rewrite cd_absent by done. lia.
    + rewrite (decide_False (P := c = a)) by congruence. case_decide; lia.
Qed.

Lemma seats_of_spec cs ws :
  ws.*1 ⊆ cs.*1 →
  ∃ seats, mapM (seat_of cs) ws = Some seats ∧ (λ m, (who m, stake m)) <$> seats = ws
    ∧ Forall (λ m, (who m, seat_deposit m) ∈ cs) seats.
Proof.
  induction ws as [|[a n] ws IH]; cbn [mapM]; intros Hsub; [by exists []|].
  destruct IH as (seats & -> & <- & Hf); [set_solver|].
  pose proof (deposit_of_candidate_spec cs a) as Hd. unfold seat_of at 1. cbn [fst snd].
  destruct (deposit_of_candidate cs a) as [d|]; [|destruct Hd; apply Hsub; by left].
  cbn. eexists. split_and!; [done|done|]. by constructor.
Qed.

(** The winners that someone backs, with their backing as a balance, by rank *)
Definition backed (issuance : Z) (winners : list (AccountId * Z)) : list (AccountId * Z) :=
  omap (λ '(m, b), if b =? 0 then None else Some (m, to_currency b issuance)) winners.

Lemma backed_ids i ws : (backed i ws).*1 = (filter (λ w, w.2 ≠ 0) ws).*1.
Proof.
  unfold backed. induction ws as [|[m b] ws IH]; [done|]. rewrite filter_cons. cbn -[filter].
  destruct (Z.eqb_spec b 0); case_decide; try done. cbn -[filter]. by rewrite IH.
Qed.
Lemma backed_nodup i ws : NoDup ws.*1 → NoDup (backed i ws).*1.
Proof.
  rewrite backed_ids. induction ws as [|w ws IH]; cbn -[filter]; [done|]. intros [Hw Hnd]%NoDup_cons.
  rewrite filter_cons. case_decide; [|by apply IH]. cbn -[filter]. constructor; [|by apply IH].
  intros (x & Hx & [_ Hin]%list_elem_of_filter)%list_elem_of_fmap. apply Hw. rewrite Hx. apply list_elem_of_fmap. eauto.
Qed.
Lemma backed_sub i ws : (backed i ws).*1 ⊆ ws.*1.
Proof.
  rewrite backed_ids. intros a (x & -> & [_ Hin]%list_elem_of_filter)%list_elem_of_fmap.
  apply list_elem_of_fmap. eauto.
Qed.
Lemma backed_length i ws : (length (backed i ws) ≤ length ws)%nat.
Proof. rewrite <- (length_fmap fst), backed_ids, length_fmap. apply length_filter. Qed.
Lemma backed_pos i ws : Forall (λ w, 0 ≤ w.2) ws → Forall (λ w, 0 < w.2) (backed i ws).
Proof.
  induction 1 as [|[m b] ws Hb _ IH]; cbn; [done|]. cbn in Hb. destruct (Z.eqb_spec b 0); [done|].
  constructor; [|done]. cbn. apply to_currency_pos. lia.
Qed.

(** What an election with backed winners [W] leaves *)
Record elected (voters : list (AccountId * Z * list AccountId)) (W : list (AccountId * Z)) s s' : Prop := {
  el_members : (λ m, (who m, stake m)) <$> Members s' = sort_by_account fst (take DesiredMembers W);
  el_runners_up : (λ m, (who m, stake m)) <$> RunnersUp s' = rev (drop DesiredMembers W);
  el_candidates : Candidates s' = [];
  el_deposits : Forall (λ m, (who m, seat_deposit m) ∈ candidates_and_deposit s) (Members s' ++ RunnersUp s');
  el_voting : VotingMap s' = VotingMap s;
  el_rounds : ElectionRounds s' = ElectionRounds s + 1;
  el_reserved a : p_reserved (e_purse s') a = p_reserved (e_purse s) a
    - if decide (a ∈ W.*1) then 0 else cd (candidates_and_deposit s) a;
  el_locks a : p_lock (e_purse s') a = p_lock (e_purse s) a;
  el_council : body_members (e_council s') = members_ids s';
  el_prime : match get_prime (e_council s') with
             | Some p => p ∈ members_ids s'
                 ∧ ∀ q, q ∈ members_ids s' → borda_score voters q 0 ≤ borda_score voters p 0
             | None => Members s' = []
             end;
  el_voters a : a ∈ body_voters (e_council s') →
    a ∈ body_voters (e_council s) ∧ (a ∈ members_ids s → a ∈ members_ids s');
}.

Lemma fmap_who (l : list SeatHolder) : who <$> l = ((λ m, (who m, stake m)) <$> l).*1.
Proof. by rewrite <- list_fmap_compose. Qed.
Lemma elected_ids voters W s s' :
  elected voters W s s' →
  members_ids s' ≡ₚ (take DesiredMembers W).*1 ∧ runners_up_ids s' ≡ₚ (drop DesiredMembers W).*1
  ∧ (candidates_and_deposit s').*1 ≡ₚ W.*1.
Proof.
  intros He. rewrite standing_ids. unfold members_ids, runners_up_ids, candidates_ids.
  rewrite !fmap_who, (el_members _ _ _ _ He), (el_runners_up _ _ _ _ He), (el_candidates _ _ _ _ He).
  rewrite sort_by_account_perm, <- (Permutation_rev (drop _ _)). split_and!; [done..|].
  rewrite app_nil_l, <- fmap_app. by rewrite take_drop.
Qed.

Lemma elected_wf voters W s s' :
  wf s → elected voters W s s' → NoDup W.*1 → Forall (λ w, 0 < w.2) W → (length W ≤ DesiredRunnersUp + DesiredMembers)%nat → wf s'.
Proof.
  intros Hwf He Hnd HW Hlen. destruct (elected_ids _ _ _ _ He) as (Hm & Hru & Hst).
  pose proof (wf_nodup s Hwf) as Hnds. pose proof (wf_deposits s Hwf) as Hdep.
  assert (sorted_by who (Members s')) as Hsorted.
  { unfold sorted_by. rewrite fmap_who, (el_members _ _ _ _ He). apply sort_by_account_sorted.
    rewrite fmap_take. eapply sublist_NoDup; [exact Hnd|apply sublist_take]. }
  assert (∀ c, c ∈ candidates_and_deposit s' → c ∈ candidates_and_deposit s) as Hsub.
  { pose proof (el_deposits _ _ _ _ He) as Hd. rewrite Forall_app, !Forall_forall in Hd. destruct Hd as [Hd1 Hd2].
    unfold candidates_and_deposit at 1, implicit_candidates_with_deposit. rewrite (el_candidates _ _ _ _ He). cbn.
    intros c [(m & -> & Hin)%list_elem_of_fmap|(m & -> & Hin)%list_elem_of_fmap]%elem_of_app; auto. }
  apply (wf_seats s); try done.
  - apply He.
  - apply He.
  - rewrite (el_candidates _ _ _ _ He). constructor.
  - by rewrite Hst.
  - rewrite <- (length_fmap who). change (who <$> Members s') with (members_ids s').
    rewrite Hm, length_fmap, length_take. lia.
  - rewrite <- (length_fmap who). change (who <$> RunnersUp s') with (runners_up_ids s').
    rewrite Hru, length_fmap, length_drop. lia.
  - rewrite (el_candidates _ _ _ _ He). cbn. done.
  - rewrite Forall_forall in *. auto.
  - intros m Hin. assert ((who m, stake m) ∈ (λ m, (who m, stake m)) <$> (Members s' ++ RunnersUp s')) as Hw
      by (apply list_elem_of_fmap; eauto).
    rewrite fmap_app, (el_members _ _ _ _ He), (el_runners_up _ _ _ _ He), sort_by_account_perm, <- Permutation_rev in Hw.
    rewrite take_drop in Hw. rewrite Forall_forall in HW. apply (HW _ Hw).
  - intros a. rewrite (el_reserved _ _ _ _ He). case_decide as Ha.
    + rewrite <- Hst in Ha. apply list_elem_of_fmap in Ha as ([a' d] & -> & Hin). cbn.
      rewrite (cd_unique _ a' d), (cd_unique (candidates_and_deposit s) a' d); [lia|done|auto|by rewrite Hst|done].
    + rewrite <- Hst in Ha. rewrite (cd_absent _ _ Ha). lia.
  - intros (_ & _ & Hs)%(wf_synced s Hwf). split_and!; [by rewrite (el_council _ _ _ _ He)| |].
    + intros p Hp. pose proof (el_prime _ _ _ _ He) as H. rewrite Hp in H. apply H.
    + intros a [Ha Hstay]%(el_voters _ _ _ _ He). auto.
Qed.

Lemma prime_spec voters (NM : list (AccountId * Z)) :
  match fst <$> max_by_key snd ((λ x, (x.1, borda_score voters x.1 x.2)) <$> ((λ c, (c.1, 0)) <$> NM)) with
  | Some p => p ∈ NM.*1 ∧ ∀ q, q ∈ NM.*1 → borda_score voters q 0 ≤ borda_score voters p 0
  | None => NM = []
  end.
Proof.
  rewrite <- list_fmap_compose. pose proof (max_by_key_spec snd
    (((λ x : AccountId * Z, (x.1, borda_score voters x.1 x.2)) ∘ (λ c : AccountId * Z, (c.1, 0))) <$> NM)) as H.
  destruct max_by_key as [[p n]|]; [|by apply fmap_nil_inv in H]. destruct H as [Hin Hmax].
  apply list_elem_of_fmap in Hin as ([p' x] & [= -> ->] & Hin). cbn. split; [apply list_elem_of_fmap; by exists (p', x)|].
  intros q ([q' y] & -> & Hq)%list_elem_of_fmap. rewrite Forall_fmap, Forall_forall in Hmax. by apply (Hmax (q', y)).
Qed.

(** The votes in open motions that remain *)
Lemma change_voters new old c a :
  StronglySorted account_lt new → StronglySorted account_lt old →
  let '(incoming, outgoing) := compute_members_diff_sorted new old in
  a ∈ body_voters (change_members_sorted incoming outgoing new c) →
  a ∈ body_voters c ∧ (a ∈ old → a ∈ new).
Proof.
  intros Hn Ho. pose proof (members_diff_spec new old a Hn Ho) as Hd.
  destruct compute_members_diff_sorted as [inc out]. destruct Hd as [_ Hd]. rewrite change_members_voters.
  intros [Ha Hout]%elem_of_difference. split; [done|]. intros Hold. destruct (decide (a ∈ new)); [done|].
  destruct Hout. apply elem_of_list_to_set. by apply Hd.
Qed.

(** The new members by account, and the runners-up from worst to best *)
Definition new_members (W : list (AccountId * Z)) : list (AccountId * Z) := sort_by_account fst (take DesiredMembers W).
Definition new_runners_up (W : list (AccountId * Z)) : list (AccountId * Z) := rev (drop DesiredMembers W).
Lemma split_winners W :
  NoDup W.*1 →
  sorted_by fst (new_members W)
  ∧ StronglySorted account_lt (sort_by_account id (new_runners_up W).*1)
  ∧ (∀ a, a ∈ W.*1 ↔ a ∈ (new_members W).*1 ∨ a ∈ (new_runners_up W).*1).
Proof.
  intros Hnd. unfold new_members, new_runners_up. split_and!.
  - apply sort_by_account_sorted. rewrite fmap_take. eapply sublist_NoDup; [exact Hnd|apply sublist_take].
  - rewrite <- (list_fmap_id (sort_by_account id _)). apply (sort_by_account_sorted id). rewrite list_fmap_id.
    rewrite <- Permutation_rev, fmap_drop. eapply sublist_NoDup; [exact Hnd|apply sublist_drop].
  - intros a. rewrite sort_by_account_perm, <- Permutation_rev, <- elem_of_app, <- fmap_app. by rewrite take_drop.
Qed.
Lemma split_point_eq {A} n (l : list A) : take (Nat.min n (length l)) l = take n l ∧ drop (Nat.min n (length l)) l = drop n l.
Proof.
  destruct (Nat.le_ge_cases n (length l)) as [H|H]; [by rewrite Nat.min_l|rewrite Nat.min_r by done].
  by rewrite !take_ge, !drop_ge by lia.
Qed.

Lemma install_run s voters i ws :
  wf s → NoDup ws.*1 → ws.*1 ⊆ (candidates_and_deposit s).*1 →
  Forall (λ v, length v.2 ≤ MaxVotesPerVoter)%nat voters →
  match install (candidates_and_deposit s) voters (λ e, to_currency e i) ws s with
  | (Ok _, s') => elected voters (backed i ws) s s'
      ∧ last (e_events s') = Some (NewTerm (new_members (backed i ws)))
  | (Err _, _) => False
  | (Panic, _) => u32_max ≤ ElectionRounds s
  end.
Proof.
  intros Hwf Hnd Hsub Hv. unfold install. mrun. fold (backed i ws).
  pose proof (backed_sub i ws) as HsubW. destruct (split_winners _ (backed_nodup i ws Hnd)) as (HNM & HRU & Hids).
  set (W := backed i ws) in *. destruct (split_point_eq DesiredMembers W) as [-> ->].
  fold (new_members W) (new_runners_up W). set (NM := new_members W) in *. set (RU := new_runners_up W) in *.
  rewrite borda_spec; [|unfold sorted_by; by rewrite <- list_fmap_compose|done]. cbn [unwrap].
  pose proof (prime_spec voters NM) as Hprime. set (prime := fst <$> max_by_key _ _) in *. clearbody prime.
  pose proof (λ c a, change_voters NM.*1 (members_ids s) c a HNM (wf_members s Hwf)) as Hvoters.
  destruct compute_members_diff_sorted as [inc out]. unfold on_council. mrun.
  set (s1 := s <| Members := [] |> <| RunnersUp := [] |> <| e_council ::= change_members_sorted inc out NM.*1 |>
               <| e_council ::= set_prime prime |>).
  destruct (slash_losers_run NM.*1 (sort_by_account id RU.*1) (candidates_and_deposit s) s1)
    as (p & ev & -> & Hr & Hl); [done|done|apply Hwf| |].
  { apply Forall_forall. intros [c d] Hc. exact (standing_backed s c d Hwf Hc). }
  destruct (seats_of_spec (candidates_and_deposit s) NM) as (ms & -> & Hms & Hmd); [set_solver|].
  destruct (seats_of_spec (candidates_and_deposit s) RU) as (rs & -> & Hrs & Hrd); [set_solver|].
  cbn [unwrap deposit_event modify]. cbn [ElectionRounds setter].
  assert (who <$> ms = NM.*1) as Hmids by (by rewrite fmap_who, Hms).
  destruct (Z.ltb_spec (ElectionRounds s1) u32_max) as [_|Hle]; [|done].
  split; [|cbn; by rewrite last_snoc]. constructor; cbn; unfold members_ids; cbn; rewrite ?Hmids; try done.
  - by apply Forall_app.
  - intros a. rewrite Hr. change (e_purse s1) with (e_purse s). f_equal. apply decide_ext.
    by rewrite sort_by_account_perm, Hids.
  - by rewrite set_prime_members, change_members_members.
  - rewrite set_prime_prime. destruct prime; [done|]. by rewrite Hprime in Hms; apply fmap_nil_inv in Hms.
  - intros a. rewrite set_prime_voters. apply Hvoters.
Qed.

(** The voters of an election with stake and votes, in the order of the storage *)
Definition voters_of s : list (AccountId * Z * list AccountId) :=
  (λ x, (x.1, v_stake x.2, votes x.2)) <$> voting_iter s.
Lemma elem_of_voting_iter s a v : (a, v) ∈ voting_iter s ↔ VotingMap s !! a = Some v.
Proof. unfold voting_iter. by rewrite merge_sort_Permutation, elem_of_map_to_list. Qed.
Lemma length_voting_iter s : length (voting_iter s) = size (VotingMap s).
Proof. unfold voting_iter. by rewrite merge_sort_Permutation, length_map_to_list. Qed.
Lemma voters_of_bound s : wf s → Forall (λ v, length v.2 ≤ MaxVotesPerVoter)%nat (voters_of s).
Proof.
  intros Hwf. apply Forall_fmap, Forall_forall. intros [a v] Hin%elem_of_voting_iter. cbn.
  by destruct (wf_votes s Hwf _ _ Hin) as (_ & ? & _).
Qed.

(** The result of the election package for the state *)
Definition winners_of s : option (list (AccountId * Z)) :=
  seq_phragmen (DesiredRunnersUp + DesiredMembers) (candidates_and_deposit s).*1
    ((λ '(voter, n, vs), (voter, to_vote n (p_issuance (e_purse s)), vs)) <$> voters_of s).

Lemma do_phragmen_eq s :
  do_phragmen s =
  if bool_decide (candidates_and_deposit s = []) then deposit_event EmptyTerm s
  else if (size (VotingMap s) <=? MaxVoters)%nat then
    match winners_of s with
    | Some ws => install (candidates_and_deposit s) (voters_of s)
                   (λ e, to_currency e (p_issuance (e_purse s))) ws s
    | None => deposit_event ElectionError s
    end
  else deposit_event ElectionError s.
Proof.
  assert (bool_decide (candidates_and_deposit s = []) = (length (candidates_and_deposit s) =? 0)%nat) as ->.
  { destruct (candidates_and_deposit s); [by apply bool_decide_true|by apply bool_decide_false]. }
  unfold do_phragmen. mrun. destruct (length (candidates_and_deposit s) =? 0)%nat; [done|].
  rewrite collect_voters_spec, length_voting_iter. cbn [length Nat.add]. unfold winners_of, voters_of.
  destruct (Nat.leb_spec (size (VotingMap s)) MaxVoters).
  - rewrite app_nil_l. by destruct seq_phragmen.
  - by rewrite (proj2 (Nat.leb_le 0 MaxVoters) ltac:(lia)).
Qed.

Lemma do_phragmen_run s :
  wf s →
  match do_phragmen s with
  | (Ok _, s') => wf s'
      ∧ (∀ ws, candidates_and_deposit s ≠ [] → (size (VotingMap s) ≤ MaxVoters)%nat → winners_of s = Some ws →
           elected (voters_of s) (backed (p_issuance (e_purse s)) ws) s s'
           ∧ last (e_events s') = Some (NewTerm (new_members (backed (p_issuance (e_purse s)) ws))))
  | (Err _, _) => False
  | (Panic, _) => u32_max ≤ ElectionRounds s
  end.
Proof.
  intros Hwf. rewrite do_phragmen_eq.
  case_bool_decide as Hcs; [split; [by apply wf_events|done]|].
  destruct (Nat.leb_spec (size (VotingMap s)) MaxVoters) as [Hsz|Hsz]; [|split; [by apply wf_events|lia]].
  destruct (winners_of s) as [ws|] eqn:Hw; [|split; [by apply wf_events|done]].
  pose proof (winners_nodup _ _ _ _ Hw (wf_nodup s Hwf)) as Hnd.
  pose proof (install_run s (voters_of s) (p_issuance (e_purse s)) ws Hwf Hnd (winners_candidates _ _ _ _ Hw)
    (voters_of_bound s Hwf)) as Hrun.
  destruct install as [[[]| |] s']; [|done..]. destruct Hrun as [He Hev]. split; [|naive_solver].
  apply (elected_wf _ _ _ _ Hwf He); [by apply backed_nodup|by eapply backed_pos, winners_stake|].
  pose proof (backed_length (p_issuance (e_purse s)) ws). pose proof (winners_bounded _ _ _ _ Hw). lia.
Qed.
Lemma do_phragmen_safe s : wf s → safe s (do_phragmen s).
Proof.
  intros Hwf. pose proof (do_phragmen_run s Hwf) as H. unfold safe. destruct do_phragmen as [[| |] s']; naive_solver.
Qed.

(** *** All steps *)
Lemma on_initialize_safe s n : wf s → safe s (on_initialize n s).
Proof. intros Hwf. unfold on_initialize. destruct (_ && _); [by apply do_phragmen_safe|done]. Qed.

Lemma remove_member_safe s o a b r : wf s → safe s (remove_member o a b r s).
Proof.
  intros Hwf. destruct o; [|done..]. unfold remove_member, root. mrun.
  pose proof (remove_and_replace_run s a b Hwf) as H.
  destruct (remove_and_replace_member a b s) as [[f|e|] s']; [|done..]. destruct H as (Hw & Hr & _).
  cbn. destruct r; [|by apply wf_events].
  set (s1 := s' <| e_events ::= _ |>). assert (ElectionRounds s = ElectionRounds s1) as Hrs by (by rewrite <- Hr).
  unfold safe. rewrite Hrs. apply (do_phragmen_safe s1). by apply wf_events.
Qed.

Lemma elections_call_safe s o c : wf s → safe s (elections_call o c s).
Proof.
  intros Hwf. unfold elections_call, transactional.
  assert (safe s (match c with
    | CallVote vs value => vote o vs value
    | CallRemoveVoter => remove_voter o
    | CallSubmitCandidacy n => submit_candidacy o n
    | CallRenounceCandidacy r => renounce_candidacy o r
    | CallRemoveMember a b r => remove_member o a b r
    | CallCleanDefunctVoters n d => clean_defunct_voters o n d
    end s)) as H.
  { destruct c; [apply vote_safe|apply remove_voter_safe|apply submit_candidacy_safe|apply renounce_safe
      |apply remove_member_safe|apply clean_defunct_voters_safe]; done. }
  by destruct (_ s) as [[| |] s'].
Qed.
Lemma elections_call_wf s o c : wf s → wf (elections_call o c s).2.
Proof.
  intros Hwf. pose proof (elections_call_safe s o c Hwf) as H. destruct (elections_call o c s) as [r s'] eqn:Hr.
  apply transactional_cases in Hr as [(a & -> & _)|[_ ->]]; done.
Qed.

Lemma estep_wf s s' : wf s → estep s s' → wf s'.
Proof.
  intros Hwf Hstep. destruct Hstep as [n s' Hrun|o c|p Hp Hl|c Hm Hpr Hv].
  - pose proof (on_initialize_safe s n Hwf) as H. by rewrite Hrun in H.
  - by apply elections_call_wf.
  - destruct Hwf. constructor; try done; cbn.
    + intros a v Hv. rewrite Hl. by apply wf_votes0.
    + intros a Ha. rewrite Hl. by apply wf_locks0.
    + intros a. apply (Hp a), wf_owed0.
  - destruct Hwf. constructor; try done; cbn.
    intros (Hs1 & Hs2 & Hs3)%wf_synced0. unfold council_synced. cbn. rewrite Hm, Hpr. split_and!; [done..|].
    intros a [Ha|Ha]%Hv%elem_of_union; [by apply Hs3|].
    rewrite Hm in Ha. apply elem_of_list_to_set in Ha. by rewrite Hs1 in Ha.
Qed.

(** *** Genesis *)
Definition genesis_ok (ms : list (AccountId * Z)) s : Prop :=
  NoDup ms.*1 ∧ (∀ a, a ∈ ms.*1 → a ∉ members_ids s) ∧ Forall (λ m, m.2 ≤ p_free (e_purse s) m.1) ms.
Definition genesis_voting (ms : list (AccountId * Z)) (V : gmap AccountId Voter) : gmap AccountId Voter :=
  foldl (λ V m, <[m.1 := mkVoter [m.1] m.2 0]> V) V ms.

Lemma genesis_members_run ms s :
  sorted_by who (Members s) →
  match for_each ms genesis_member s with
  | (Ok _, s') => genesis_ok ms s ∧ ∃ l,
      s' = s <| Members := l |> <| VotingMap ::= genesis_voting ms |> ∧ sorted_by who l
      ∧ l ≡ₚ ((λ m, mkSeat m.1 m.2 0) <$> ms) ++ Members s
  | (Err _, _) => False
  | (Panic, _) => ¬ genesis_ok ms s
  end.
Proof.
  revert s. induction ms as [|[a n] ms IH]; intros s Hs; cbn [for_each].
  { split; [split_and!; [constructor|intros a Ha; by apply elem_of_nil in Ha|constructor]|].
    exists (Members s). by destruct s. }
  set (rest := for_each ms genesis_member). unfold genesis_member. mrun. cbn [fst snd].
  destruct (Z.leb_spec n (p_free (e_purse s) a)) as [Hn|Hn].
  2: { intros (_ & _ & [? _]%Forall_cons). cbn in *. lia. }
  destruct (decide (a ∈ members_ids s)) as [Ha|Ha].
  { destruct (search_present who (Members s) a Hs Ha) as (i & x & -> & _). intros (_ & Hd & _).
    apply (Hd a); [by left|done]. }
  destruct (search_absent who (Members s) a Hs Ha) as (i & Hi). rewrite Hi.
  destruct (search_insert who (Members s) a i (mkSeat a n 0) Hs Hi eq_refl) as (l & -> & Hsl & Hpl). cbn [unwrap].
  set (s1 := s <| Members := l |> <| VotingMap ::= <[a := mkVoter [a] n 0]> |>).
  assert (genesis_ok ((a, n) :: ms) s ↔ genesis_ok ms s1) as Hiff.
  { unfold genesis_ok, members_ids. change (Members s1) with l. change (e_purse s1) with (e_purse s).
    assert (∀ x, x ∈ who <$> l ↔ x = a ∨ x ∈ members_ids s) as Hl by (intros x; rewrite Hpl; cbn; by rewrite elem_of_cons).
    unfold members_ids in *. rewrite fmap_cons, NoDup_cons, Forall_cons. cbn. set_solver. }
  specialize (IH s1 Hsl). fold rest in IH. destruct (rest s1) as [[[]| |] s']; [|done|by rewrite Hiff].
  destruct IH as (Hok & l' & -> & Hsl' & Hpl'). split; [by apply Hiff|]. exists l'. split_and!; [done..|].
  rewrite Hpl'. cbn. rewrite Hpl. by rewrite Permutation_middle.
Qed.

Lemma genesis_voting_lookup ms V a v :
  genesis_voting ms V !! a = Some v → V !! a = Some v ∨ ∃ n, (a, n) ∈ ms ∧ v = mkVoter [a] n 0.
Proof.
  unfold genesis_voting. revert V. induction ms as [|[b n] ms IH]; intros V; cbn; [by left|].
  intros [Hv|(k & Hk & ->)]%IH; [|right; exists k; split; [by right|done]].
  apply lookup_insert_Some in Hv as [[<- <-]|[_ Hv]]; [|by left]. right. exists n. split; [by left|done].
Qed.

(** The genesis succeeds exactly for at most [DesiredMembers] distinct members with enough
    free balance, and seats them. *)
Lemma genesis_build_run ms s0 :
  blank s0 → Z.of_nat (length ms) ≤ u32_max →
  match genesis_build ms s0 with
  | (Ok _, s) => (length ms ≤ DesiredMembers)%nat ∧ genesis_ok ms s0 ∧ ∃ l,
      s = s0 <| Members := l |> <| VotingMap := genesis_voting ms ∅ |>
             <| e_council ::= initialize_members ms.*1 |>
      ∧ sorted_by who l ∧ l ≡ₚ (λ m, mkSeat m.1 m.2 0) <$> ms
  | (Err _, _) => False
  | (Panic, _) => ¬ ((length ms ≤ DesiredMembers)%nat ∧ genesis_ok ms s0)
  end.
Proof.
  intros (HM & _ & _ & _ & HV & _) Hlen. unfold genesis_build. mrun.
  replace (wrap 32 (Z.of_nat (length ms))) with (Z.of_nat (length ms))
    by (unfold wrap; rewrite Z.mod_small; [done|cbv [u32_max umax] in Hlen; lia]).
  destruct (Z.leb_spec (Z.of_nat (length ms)) (Z.of_nat DesiredMembers)) as [Hle|]; [|intros []; lia].
  pose proof (genesis_members_run ms s0) as Hrun. rewrite HM in Hrun. specialize (Hrun (SSorted_nil _)).
  destruct (for_each ms genesis_member s0) as [[[]| |] s1]; [|done|tauto]. destruct Hrun as (Hok & l & -> & Hs & Hp).
  rewrite app_nil_r in Hp. cbn. split_and!; [lia|done|]. exists l. split_and!; [|done..]. by rewrite <- HV.
Qed.

Lemma genesis_wf ms s0 s :
  blank s0 → Z.of_nat (length ms) ≤ u32_max → Forall (λ m, 0 < m.2) ms →
  genesis_build ms s0 = (Ok tt, s) → wf s.
Proof.
  intros Hb Hlen Hst Hrun. pose proof (genesis_build_run ms s0 Hb Hlen) as H. rewrite Hrun in H.
  destruct H as (Hle & [Hnd _] & l & -> & Hs & Hp). destruct Hb as (HM & HR & HC & _ & HV & Hbm & Hpr & Hvo & Hl).
  clear Hrun. set (s := s0 <| Members := l |> <| VotingMap := genesis_voting ms ∅ |>
                         <| e_council ::= initialize_members ms.*1 |>).
  assert (who <$> l ≡ₚ ms.*1) as Hids by (by rewrite Hp, <- list_fmap_compose).
  assert (candidates_and_deposit s ≡ₚ (λ m, (m.1, 0)) <$> ms) as Hcs.
  { unfold candidates_and_deposit, implicit_candidates_with_deposit. cbn. rewrite HR, HC, app_nil_r, Hp.
    by rewrite <- list_fmap_compose. }
  assert (∀ a v, VotingMap s !! a = Some v → v_deposit v = 0 ∧ votes v = [a] ∧ 0 < v_stake v) as Hvs.
  { intros a v [Hv|(n & Hn & ->)]%genesis_voting_lookup; [by rewrite lookup_empty in Hv|].
    rewrite Forall_forall in Hst. by specialize (Hst _ Hn). }
  destruct (initialize_members_rest ms.*1 (e_council s0)) as [Hi1 Hi2].
  constructor.
  - done.
  - change (sorted_by fst (Candidates s0)). rewrite HC. constructor.
  - rewrite Hcs, <- list_fmap_compose. done.
  - change (length l ≤ DesiredMembers)%nat. by rewrite Hp, length_fmap.
  - change (length (RunnersUp s0) ≤ DesiredRunnersUp)%nat. rewrite HR. cbn. lia.
  - change (Z.of_nat (length (Candidates s0)) ≤ MaxCandidates + 1). by rewrite HC.
  - rewrite Hcs. apply Forall_fmap, Forall_forall. done.
  - intros m. change (m ∈ l ++ RunnersUp s0 → 0 < stake m). rewrite HR, app_nil_r, Hp.
    intros (x & -> & Hx)%list_elem_of_fmap. rewrite Forall_forall in Hst. by apply Hst.
  - intros a v Hv. destruct (Hvs a v Hv) as (-> & -> & H0). split_and!; [done|cbn; unfold MaxVotesPerVoter; lia|lia|done..].
  - intros a _. apply Hl.
  - intros a. rewrite owed_eq, (cd_perm _ _ a Hcs). pose proof (p_reserved_nonneg (e_purse s) a).
    assert (vd s a = 0) as ->
      by (unfold vd; destruct (VotingMap s !! a) as [v|] eqn:Hv; cbn; [by apply (Hvs a)|done]).
    assert (cd ((λ m : AccountId * Z, (m.1, 0)) <$> ms) a = 0) as ->; [|done].
    clear. induction ms as [|m ms IH]; [done|]. rewrite fmap_cons, cd_cons, IH. by case_decide.
  - intros _. split_and!.
    + change (body_members (initialize_members ms.*1 (e_council s0)) ≡ₚ who <$> l).
      by rewrite Hids, initialize_members_members.
    + intros p. cbn. by rewrite Hi1, Hpr.
    + cbn. rewrite Hi2, Hvo. set_solver.
Qed.

Lemma esteps_wf s s' : wf s → rtc estep s s' → wf s'.
Proof. induction 2; eauto using estep_wf. Qed.
End props.
Arguments wf {_ _} _ _.

Section reachable.
Context {EC : ElectionCurrency} {CM : ChangeMembers} {PH : Phragmen}.
Context {ECL : ElectionCurrencyLaws} {CML : ChangeMembersLaws} {PHL : PhragmenLaws}.
Implicit Types s : Elec.

(** The invariant without the mirror does not depend on the collective. *)
Lemma wf_any_council s c : wf False s → wf False (s <| e_council := c |>).
Proof. intros []. by constructor. Qed.
Lemma wf_tracked s : wf False s → council_synced s → wf True s.
Proof. intros [] ?. by constructor. Qed.

Lemma ereachable_wf ms s :
  Z.of_nat (length ms) ≤ u32_max → Forall (λ m, 0 < m.2) ms → ereachable ms s → wf False s.
Proof.
  intros Hlen Hst. induction 1 as [s0 s Hb Hrun|s s' _ IH Hstep|s c _ IH];
    [by eapply genesis_wf|by eapply estep_wf|by apply wf_any_council].
Qed.
End reachable.
