(* ===== verification/ElectionsProps.v ===== *)
(** * Properties of the elections pallet

    Over all sequences of calls, blocks and effects of other pallets after a genesis: the
    seats and the council stay well formed and nothing panics; the outcome of an election;
    what a voter gets back; and what the pallet's own checks accept. *)

From S2P Require Import Prelude Assets Types Chain Policy RawStorage Slices Elections ElectionsInv Locks Migration Rewards Upgrade Cleanup Genesis.

Lemma disjoint_intersects (l k : list AccountId) : (∀ a, a ∈ l → a ∉ k) → intersects l k = false.
Proof.
  intros H. unfold intersects. induction l as [|a l IH]; [done|]. cbn. rewrite bool_decide_false by (apply H; by left).
  apply IH. intros b Hb. apply H. by right.
Qed.

Section theorems.
Context {EC : ElectionCurrency} {CM : ChangeMembers} {PH : Phragmen}.
Context {ECL : ElectionCurrencyLaws} {CML : ChangeMembersLaws} {PHL : PhragmenLaws}.
Implicit Types s : Elec.

(** C19: the seats in every reachable state, also after root has set the members of the
    collective to something else.  At most five members and five runners-up sit, at
    most 1001 candidates wait, nobody has two of these roles; the members are sorted; every
    seat has backing; and each account has at least the deposits that the pallet would
    return or slash reserved, so they are always paid in full.  As long as root has not set
    the members of the collective, it mirrors them: it has exactly the members, its prime is
    one of them, and only they have votes in its open motions.  And once it mirrors them,
    however it was repaired, it does so until root sets its members again. *)
Theorem reachable_council ms s :
  Z.of_nat (length ms) ≤ u32_max → Forall (λ m, 0 < m.2) ms → ereachable ms s →
  sorted_by who (Members s)
  ∧ NoDup (candidates_ids s ++ members_ids s ++ runners_up_ids s)
  ∧ (length (Members s) ≤ 5)%nat ∧ (length (RunnersUp s) ≤ 5)%nat ∧ (length (Candidates s) ≤ 1001)%nat
  ∧ (∀ m, m ∈ Members s ++ RunnersUp s → 0 < stake m)
  ∧ (∀ a, 0 ≤ owed s a ≤ p_reserved (e_purse s) a)
  ∧ (∀ s0 s1, blank s0 → genesis_build ms s0 = (Ok tt, s1) → rtc estep s1 s → council_synced s)
  ∧ (council_synced s → ∀ s', rtc estep s s' → council_synced s').
Proof.
  intros Hlen Hst Hr. pose proof (ereachable_wf ms s Hlen Hst Hr) as Hwf.
  pose proof (wf_nodup s Hwf) as Hnd. rewrite standing_ids in Hnd. split_and!; try apply Hwf; [done|..].
  - pose proof (wf_candidates_bound s Hwf). unfold MaxCandidates in *. lia.
  - intros a. split; [|apply Hwf]. rewrite owed_eq. pose proof (vd_nonneg s a Hwf).
    pose proof (cd_nonneg _ a (wf_deposits s Hwf)). lia.
  - intros s0 s1 Hb Hg Hs. apply (wf_synced (tracked := True)); [|done].
    by eapply esteps_wf, Hs; eapply genesis_wf.
  - intros Hc s' Hs. apply (wf_synced (tracked := True)); [|done]. by eapply esteps_wf, Hs; apply wf_tracked.
Qed.

(** C21: in a reachable state no call panics, and no block start does, until the counter of
    rounds has reached the end of its 32 bits. *)
Theorem elections_never_panic ms s :
  Z.of_nat (length ms) ≤ u32_max → Forall (λ m, 0 < m.2) ms → ereachable ms s →
  ElectionRounds s < u32_max →
  (∀ o c, (elections_call o c s).1 ≠ Panic) ∧ (∀ n, ∃ s', on_initialize n s = (Ok tt, s')).
Proof.
  intros Hlen Hst Hr Hrounds. pose proof (ereachable_wf ms s Hlen Hst Hr) as Hwf. split.
  - intros o c. pose proof (elections_call_safe s o c Hwf) as H. unfold safe in H.
    destruct elections_call as [[| |] s']; cbn; [done..|lia].
  - intros n. unfold on_initialize. destruct (_ && _); [|by exists s].
    pose proof (do_phragmen_run s Hwf) as H. destruct do_phragmen as [[[]| |] s']; [by exists s'|done|lia].
Qed.

(** C20: the outcome of the election at the end of every term, in a reachable state where someone
    stands, there are no more than ten thousand voters and the solver returns winners [ws].
    Of the winners with backing the first five are the members, by account; the others the
    runners-up, worst first; nobody is a candidate any more.  Exactly those who stood and got
    no seat lose their deposit; all others keep theirs.  The collective has exactly the
    members, whatever root had made of it before, and its prime has the highest Borda score
    of the members. *)
Theorem election_outcome ms s ws :
  Z.of_nat (length ms) ≤ u32_max → Forall (λ m, 0 < m.2) ms → ereachable ms s →
  ElectionRounds s < u32_max → candidates_and_deposit s ≠ [] → (size (VotingMap s) ≤ MaxVoters)%nat →
  winners_of s = Some ws →
  let W := backed (p_issuance (e_purse s)) ws in
  ∃ s', (∀ n, n mod TermDuration = 0 → on_initialize n s = (Ok tt, s'))
  ∧ (λ m, (who m, stake m)) <$> Members s' = sort_by_account fst (take 5 W)
  ∧ (λ m, (who m, stake m)) <$> RunnersUp s' = rev (drop 5 W)
  ∧ Candidates s' = [] ∧ ElectionRounds s' = ElectionRounds s + 1 ∧ VotingMap s' = VotingMap s
  ∧ (∀ m, m ∈ Members s' ++ RunnersUp s' → (who m, seat_deposit m) ∈ candidates_and_deposit s)
  ∧ (∀ a d, (a, d) ∈ candidates_and_deposit s →
       p_reserved (e_purse s') a = p_reserved (e_purse s) a - if decide (a ∈ W.*1) then 0 else d)
  ∧ (∀ a, a ∉ (candidates_and_deposit s).*1 → p_reserved (e_purse s') a = p_reserved (e_purse s) a)
  ∧ body_members (e_council s') = members_ids s'
  ∧ match get_prime (e_council s') with
    | Some p => p ∈ members_ids s'
        ∧ ∀ q, q ∈ members_ids s' → borda_score (voters_of s) q 0 ≤ borda_score (voters_of s) p 0
    | None => Members s' = []
    end.
Proof.
  intros Hlen Hst Hr Hrounds Hcs Hv Hw W. pose proof (ereachable_wf ms s Hlen Hst Hr) as Hwf.
  pose proof (do_phragmen_run s Hwf) as H.
  assert (∀ n, n mod TermDuration = 0 → on_initialize n s = do_phragmen s) as Hn.
  { intros n Hn. unfold on_initialize. by rewrite Hn. }
  destruct do_phragmen as [[[]| |] s']; [|done|lia]. exists s'. destruct H as [_ H].
  destruct (H ws Hcs Hv Hw) as [He _]. fold W in He. split_and!; try apply He; [done|..].
  - apply Forall_forall, He.
  - intros a d Had. rewrite (el_reserved _ _ _ _ He), (cd_unique _ a d); [done|apply Hwf|done].
  - intros a Ha. rewrite (el_reserved _ _ _ _ He), cd_absent by done. case_decide; lia.
Qed.

(** C22: a new voter's round trip: a successful first vote reserves exactly the deposit for its
    number of votes and locks the value, capped by what is free and held for staking after
    the deposit; [remove_voter] then succeeds and restores the votes, the reserved balance
    and the locks. *)
Theorem vote_refunded ms s a vs value s' :
  Z.of_nat (length ms) ≤ u32_max → Forall (λ m, 0 < m.2) ms → ereachable ms s →
  VotingMap s !! a = None → vote (Signed a) vs value s = (Ok tt, s') →
  p_reserved (e_purse s') a = p_reserved (e_purse s) a + deposit_of (length vs)
  ∧ p_lock (e_purse s') a =
      Z.min value (sat_add 128 (p_free (e_purse s) a - deposit_of (length vs)) (p_hold (e_purse s) a))
  ∧ ∃ s'', remove_voter (Signed a) s' = (Ok tt, s'')
      ∧ VotingMap s'' = VotingMap s
      ∧ ∀ b, p_reserved (e_purse s'') b = p_reserved (e_purse s) b
             ∧ p_lock (e_purse s'') b = p_lock (e_purse s) b.
Proof.
  intros Hlen Hst Hr Hnone Hrun. pose proof (ereachable_wf ms s Hlen Hst Hr) as Hwf.
  destruct (vote_run s a vs value s' Hwf Hrun) as (p & n & -> & Hvs & Hl & Hn & Hres & Hlock & Hval).
  specialize (Hval Hnone). assert (vd s a = 0) as Hvd by (unfold vd; by rewrite Hnone).
  pose proof (wf_locks s Hwf a Hnone) as Hl0. rewrite Hvd in Hres. pose proof (Hres a) as Hra.
  pose proof (Hlock a) as Hla. rewrite decide_True in Hra by done. split_and!; [cbn; lia| |].
  { cbn. rewrite <- Hval, Hla, Hl0. case_decide as Hd; [done|]. destruct (decide (n = 0)); naive_solver. }
  set (s1 := s <| VotingMap ::= _ |> <| e_purse := p |>).
  assert (wf False s1) as Hwf1.
  { apply wf_vote; [done..|lia| |done]. intros b. rewrite Hres. by rewrite Hvd. }
  destruct (do_remove_voter_run s1 a Hwf1) as (q & Hq & Hq1 & Hq2).
  unfold remove_voter, signer. mrun. unfold is_voter. cbn [VotingMap setter s1].
  rewrite bool_decide_true by (unfold s1; cbn; rewrite lookup_insert_eq; by eexists). cbn [ensure]. rewrite Hq.
  eexists. split_and!; [done| |].
  - cbn. by rewrite delete_insert_id.
  - intros b. cbn. rewrite Hq1, Hq2. cbn. unfold vd. cbn. rewrite lookup_insert_eq, Hres, Hlock. cbn.
    destruct (decide (b = a)) as [->|Hba]; [split; lia|]. rewrite decide_False by naive_solver. split; [lia|done].
Qed.

(** What the pallet's own check of its storage accepts: a reachable state passes exactly when
    the runners-up are in ascending order of their stake.  The election puts them in the
    order of the solver's rank, so this is the one part of the check that relies on the
    solver electing in descending order of the final stakes. *)
Theorem try_state_reachable ms s :
  Z.of_nat (length ms) ≤ u32_max → Forall (λ m, 0 < m.2) ms → ereachable ms s →
  do_try_state s = Ok tt ↔ RunnersUp s = sort_by (λ a b, stake a <=? stake b) (RunnersUp s).
Proof.
  intros Hlen Hst Hr. pose proof (ereachable_wf ms s Hlen Hst Hr) as Hwf.
  pose proof (wf_nodup s Hwf) as Hnd. rewrite standing_ids in Hnd.
  unfold do_try_state, try_state_members, try_state_candidates, try_state_runners_up.
  rewrite !sort_by_account_id by apply Hwf. rewrite (bool_decide_true (Members s = Members s)), (bool_decide_true (Candidates s = Candidates s)) by done.
  case_bool_decide as Hru; [|by split]. split; [done|]. intros _.
  apply NoDup_app in Hnd as (_ & Hnd & (_ & Hmr & _)%NoDup_app).
  unfold try_state_candidates_runners_up_disjoint. rewrite disjoint_intersects by set_solver.
  unfold try_state_members_disjoint. rewrite (disjoint_intersects (members_ids s) (runners_up_ids s)) by done.
  rewrite andb_false_r. unfold try_state_members_approval_stake.
  rewrite (proj2 (forallb_forall _ _)); [done|]. intros m Hm%list_elem_of_In%(wf_backing s Hwf).
  apply negb_true_iff, Z.eqb_neq. lia.
Qed.

(** With more than ten thousand voters the seats stay as they are, whoever stands. *)
Lemma too_many_voters_no_election s :
  candidates_and_deposit s ≠ [] → (MaxVoters < size (VotingMap s))%nat →
  do_phragmen s = deposit_event ElectionError s.
Proof.
  intros Hcs Hv. rewrite do_phragmen_eq, bool_decide_false by done.
  by rewrite (proj2 (Nat.leb_gt _ _) Hv).
Qed.

(** The check for members accepts a member who is a candidate, as long as no member is a
    runner-up. *)
Lemma members_disjoint_needs_both s a :
  a ∈ members_ids s → a ∈ candidates_ids s → (∀ b, b ∈ members_ids s → b ∉ runners_up_ids s) →
  try_state_members_disjoint s = Ok tt.
Proof.
  intros _ _ Hd. unfold try_state_members_disjoint.
  rewrite (disjoint_intersects (members_ids s) (runners_up_ids s)) by done. by rewrite andb_false_r.
Qed.

(** C37: the council at genesis.  For a genesis configuration built from distinct endowed accounts,
    on a chain where these have their endowment, the elections pallet accepts the members
    exactly when at most ten accounts are endowed: half of them, rounded up, become members,
    and there are five seats.  With more, building the genesis block panics. *)
Theorem genesis_council_limit max_inv auths root endowed stakers playground g s0 :
  kitchensink_genesis max_inv auths root endowed stakers playground = Ok g →
  NoDup endowed → Z.of_nat (length endowed) ≤ u32_max → blank s0 →
  (∀ a, a ∈ endowed → ENDOWMENT ≤ p_free (e_purse s0) a) →
  if (length endowed <=? 10)%nat
  then ∃ s, genesis_build (g_elections g) s0 = (Ok tt, s)
         ∧ members_ids s = sort_by_account id (collective endowed)
         ∧ body_members (e_council s) ≡ₚ collective endowed
  else (genesis_build (g_elections g) s0).1 = Panic.
Proof.
  intros Hg Hnd Hlen Hb Hfree. assert (g_elections g = (λ m, (m, STASH)) <$> collective endowed) as Hel.
  { unfold kitchensink_genesis in Hg. destruct playground; destruct (_ <=? _)%nat; by simplify_eq. }
  assert (NoDup (collective endowed)) as Hndc by (eapply sublist_NoDup; [exact Hnd|apply sublist_take]).
  assert ((g_elections g).*1 = collective endowed) as Hids by (by rewrite Hel, <- list_fmap_compose, list_fmap_id).
  assert (length (collective endowed) = Nat.min ((length endowed + 1) / 2) 50) as Hcl.
  { unfold collective, MAX_COLLECTIVE_SIZE. rewrite length_take.
    assert ((length endowed + 1) / 2 ≤ length endowed)%nat; [|lia].
    destruct (length endowed) as [|k]; [done|]. apply Nat.Div0.div_le_upper_bound. lia. }
  assert (genesis_ok (g_elections g) s0) as Hok.
  { split_and!; [by rewrite Hids|destruct Hb as [HM _]; unfold members_ids; rewrite HM; set_solver|].
    rewrite Hel. apply Forall_fmap, Forall_forall. intros a Ha%collective_sub. cbn.
    specialize (Hfree a Ha). unfold STASH, ENDOWMENT in *. change PDEX with (10 ^ 12) in *. lia. }
  assert (length (g_elections g) = length (collective endowed)) as Hlg by (by rewrite Hel, length_fmap).
  pose proof (genesis_build_run (g_elections g) s0 Hb) as Hrun. rewrite Hlg, Hcl in Hrun.
  specialize (Hrun ltac:(cbv [u32_max umax]; lia)). destruct (Nat.leb_spec (length endowed) 10) as [Hle|Hgt].
  - assert ((length endowed + 1) / 2 < 6)%nat as H5 by (apply Nat.Div0.div_lt_upper_bound; lia).
    destruct genesis_build as [[[]| |] s]; [|done|destruct Hrun; split; [unfold DesiredMembers; lia|done]].
    destruct Hrun as (_ & _ & l & -> & Hs & Hp). eexists. split_and!; [done| |].
    + assert (who <$> l ≡ₚ collective endowed) as Hwl by (by rewrite Hp, <- list_fmap_compose, <- Hids).
      change (who <$> l = sort_by_account id (collective endowed)). apply (sorted_by_unique id).
      * unfold sorted_by. by rewrite list_fmap_id.
      * apply sort_by_account_sorted. by rewrite list_fmap_id.
      * by rewrite sort_by_account_perm.
    + cbn. destruct Hb as (_ & _ & _ & _ & _ & Hbm & _). by rewrite initialize_members_members, Hids.
  - assert (6 ≤ (length endowed + 1) / 2)%nat as H6 by (apply (Nat.div_le_lower_bound _ 2 6); lia).
    destruct genesis_build as [[[]| |] s]; [|done|done]. destruct Hrun as (H & _). unfold DesiredMembers in H. lia.
Qed.

(** Both presets endow the twelve well-known accounts and two more, and so seat seven members:
    their genesis panics. *)
Lemma preset_genesis_panics {KR : KeyRing} max_inv id g s0 :
  length well_known = 12%nat → (2 ≤ max_inv)%nat → get_preset max_inv id = Ok (Some g) →
  (genesis_build (g_elections g) s0).1 = Panic.
Proof.
  intros Hwk Hm Hg. pose proof (get_preset_names max_inv id Hm) as H. rewrite Hg in H. destruct H as (_ & Hel & _).
  assert (length (g_elections g) = 7%nat) as Hlen.
  { rewrite Hel, length_fmap. unfold collective, well_known_including_eth_accounts. rewrite length_take, !length_app, Hwk. done. }
  unfold genesis_build. mrun. by rewrite Hlen.
Qed.
End theorems.

(** ** A concrete chain *)
Module ElectionsExample.
Record purse : Type := mkPurse {
  rf : gmap AccountId N; rr : gmap AccountId N; rh : gmap AccountId N; rl : gmap AccountId N;
}.
Definition at_ (m : gmap AccountId N) (a : AccountId) : Z := Z.of_N (default 0%N (m !! a)).
Definition put (a : AccountId) (n : Z) (m : gmap AccountId N) : gmap AccountId N := <[a := Z.to_N n]> m.
Lemma at_nonneg m a : 0 ≤ at_ m a.
Proof. unfold at_. lia. Qed.
Lemma at_put m a n b : 0 ≤ n → at_ (put a n m) b = if decide (b = a) then n else at_ m b.
Proof.
  intros Hn. unfold at_, put. case_decide as Hd; [subst; rewrite lookup_insert_eq; cbn; lia|by rewrite lookup_insert_ne].
Qed.

#[export] Instance ref_purse : ElectionCurrency := {|
  Purse := purse;
  PurseError := unit;
  p_free p := at_ (rf p);
  p_reserved p := at_ (rr p);
  p_hold p := at_ (rh p);
  p_lock p := at_ (rl p);
  p_issuance p := 1;
  minimum_balance := PDEX;
  p_reserve a n p :=
    if n <=? at_ (rf p) a
    then (Ok tt, mkPurse (put a (at_ (rf p) a - n) (rf p)) (put a (at_ (rr p) a + n) (rr p)) (rh p) (rl p))
    else (Err tt, p);
  p_unreserve a n p :=
    let m := Z.min n (at_ (rr p) a) in
    (n - m, mkPurse (put a (at_ (rf p) a + m) (rf p)) (put a (at_ (rr p) a - m) (rr p)) (rh p) (rl p));
  p_slash_reserved a n p :=
    let m := Z.min n (at_ (rr p) a) in
    (n - m, mkPurse (rf p) (put a (at_ (rr p) a - m) (rr p)) (rh p) (rl p));
  p_set_lock a n p := if n =? 0 then p else mkPurse (rf p) (rr p) (rh p) (put a n (rl p));
  p_remove_lock a p := mkPurse (rf p) (rr p) (rh p) (put a 0 (rl p));
|}.
#[export] Instance ref_purse_laws : ElectionCurrencyLaws.
Proof.
  split; cbn; intros; try apply at_nonneg; try done.
  - destruct (Z.leb_spec n (at_ (rf p) a)); simplify_eq. cbn. pose proof (at_nonneg (rr p) a).
    split_and!; [rewrite at_put by lia; by rewrite decide_True|done|]. intros b. by rewrite at_put by lia.
  - by destruct (n <=? _).
  - destruct (n <=? _); by simplify_eq.
  - pose proof (at_nonneg (rr p) a). split; [done|]. intros b. by rewrite at_put by lia.
  - pose proof (at_nonneg (rr p) a). split; [done|]. intros b. by rewrite at_put by lia.
  - destruct (Z.eqb_spec n 0); cbn; [by rewrite decide_False by naive_solver|]. rewrite at_put by done.
    apply decide_ext. naive_solver.
  - by destruct (n =? 0).
  - by rewrite at_put.
Qed.

Record body : Type := mkBody { bm : list AccountId; bp : option AccountId; bv : gset AccountId }.
#[export] Instance ref_body : ChangeMembers := {|
  Body := body;
  body_members := bm;
  get_prime := bp;
  body_voters := bv;
  compute_members_diff_sorted new old := (filter (λ a, a ∉ old) new, filter (λ a, a ∉ new) old);
  change_members_sorted i o n c := mkBody n None (bv c ∖ list_to_set o);
  set_prime p c := mkBody (bm c) p (bv c);
  initialize_members l c := mkBody (sort_by_account id l) (bp c) (bv c);
|}.
#[export] Instance ref_body_laws : ChangeMembersLaws.
Proof.
  split; try done.
  - intros new old a _ _. cbn. rewrite !list_elem_of_filter. naive_solver.
  - intros l c _. apply sort_by_account_perm.
Qed.

(** Approval voting in place of the package *)
Definition approval (vs : list (AccountId * Z * list AccountId)) (c : AccountId) : Z :=
  zsum ((λ v, if bool_decide (c ∈ v.2) then Z.max 0 v.1.2 else 0) <$> vs).
#[export] Instance ref_phragmen : Phragmen := {|
  seq_phragmen n cs vs :=
    Some (take n (sort_by (λ x y, y.2 <=? x.2) ((λ c, (c, approval vs c)) <$> cs)));
  to_vote n _ := n;
  to_currency e _ := e;
  twox64_leb a b := key_leb a b;
|}.
#[export] Instance ref_phragmen_laws : PhragmenLaws.
Proof.
  assert (∀ (cs : list AccountId) vs, (sort_by (λ x y : AccountId * Z, y.2 <=? x.2) ((λ c, (c, approval vs c)) <$> cs)).*1 ≡ₚ cs) as Hp.
  { intros cs vs. unfold sort_by. rewrite merge_sort_Permutation, <- list_fmap_compose. cbn. by rewrite list_fmap_id. }
  split; cbn.
  - intros n cs vs ws [= <-] Hnd. rewrite fmap_take. eapply sublist_NoDup; [|apply sublist_take]. by rewrite Hp.
  - intros n cs vs ws [= <-] a Ha. rewrite fmap_take in Ha. rewrite <- (Hp cs vs).
    by eapply sublist_elem_of; [|apply sublist_take].
  - intros n cs vs ws [= <-]. rewrite length_take. lia.
  - intros n cs vs ws [= <-]. apply Forall_take. unfold sort_by. rewrite merge_sort_Permutation.
    apply Forall_fmap, Forall_forall. intros c _. cbn. apply zsum_nonneg, Forall_fmap, Forall_forall.
    intros v _. cbn. case_bool_decide; lia.
  - done.
Qed.

Definition acc (b : byte) : AccountId := vreplicate 32 b.
Definition rich : gmap AccountId N :=
  list_to_map ((λ b, (acc b, Z.to_N (500 * PDEX))) <$> [x01; x02; x03; x04]).
(** Before the genesis, after it with one member, with a candidate, and with a vote for them *)
Definition s0 : Elec := mkElec [] [] [] 0 ∅ (mkPurse rich ∅ ∅ ∅) (mkBody [] None ∅) [].
Definition genesis_members : list (AccountId * Z) := [(acc x01, 2 * PDEX)].
Definition s1 : Elec := (genesis_build genesis_members s0).2.
Definition s2 : Elec := (elections_call (Signed (acc x02)) (CallSubmitCandidacy 0) s1).2.
Definition s3 : Elec := (elections_call (Signed (acc x03)) (CallVote [acc x02] (100 * PDEX)) s2).2.
Lemma s0_blank : blank s0.
Proof. by split_and!. Qed.
Lemma s1_genesis : genesis_build genesis_members s0 = (Ok tt, s1).
Proof. apply run_ok. vm_compute. done. Qed.
Lemma s1_reachable : ereachable genesis_members s1.
Proof. apply (ereach_genesis _ s0); [apply s0_blank|apply s1_genesis]. Qed.
Lemma s3_reachable : ereachable genesis_members s3.
Proof. do 2 (eapply ereach_step; [|apply estep_call]). apply s1_reachable. Qed.
Lemma members_few : Z.of_nat (length genesis_members) ≤ u32_max.
Proof. by vm_compute. Qed.
Lemma members_staked : Forall (λ m : AccountId * Z, 0 < m.2) genesis_members.
Proof. by repeat constructor. Qed.
(** The example is not vacuous: there are a member, a candidate and two voters. *)
Lemma s3_content :
  (length (Members s3), length (Candidates s3), size (VotingMap s3)) = (1%nat, 1%nat, 2%nat).
Proof. by vm_compute. Qed.
Lemma s3_stand : candidates_and_deposit s3 ≠ [].
Proof.
  assert (length (candidates_and_deposit s3) = 2%nat) as H by (by vm_compute).
  intros Hn%(f_equal length). rewrite H in Hn. discriminate Hn.
Qed.
Lemma s3_rounds : ElectionRounds s3 < u32_max.
Proof. by vm_compute. Qed.
Lemma s3_voters : (size (VotingMap s3) ≤ MaxVoters)%nat.
Proof. replace (size (VotingMap s3)) with 2%nat by (by vm_compute). unfold MaxVoters. lia. Qed.

Lemma reachable_council_witness :
  (length (Members s3) ≤ 5)%nat ∧ (∀ a, 0 ≤ owed s3 a ≤ p_reserved (e_purse s3) a) ∧ council_synced s3.
Proof.
  destruct (reachable_council genesis_members s3 members_few members_staked s3_reachable)
    as (_ & _ & H & _ & _ & _ & Ho & Hc & _). split; [exact H|]. split; [exact Ho|].
  apply (Hc s0 s1 s0_blank s1_genesis). do 2 (eapply rtc_l; [apply estep_call|]). apply rtc_refl.
Defined.
(** Root's [set_members] can leave a collective that does not mirror the members, with a
    prime that is none of them. *)
Lemma set_members_unsynced : ∃ s, ereachable genesis_members s ∧ ¬ council_synced s.
Proof.
  exists (s3 <| e_council := set_prime (Some (acc x04)) (e_council s3) |>).
  split; [apply ereach_set_members, s3_reachable|]. intros (_ & Hp & _).
  specialize (Hp (acc x04) eq_refl). apply (bool_decide_pack _) in Hp. by vm_compute in Hp.
Qed.
Lemma elections_never_panic_witness :
  (∀ o c, (elections_call o c s3).1 ≠ Panic) ∧ ∀ n, ∃ s', on_initialize n s3 = (Ok tt, s').
Proof. exact (elections_never_panic genesis_members s3 members_few members_staked s3_reachable s3_rounds). Defined.
Lemma try_state_reachable_witness :
  do_try_state s3 = Ok tt ↔ RunnersUp s3 = sort_by (λ a b, stake a <=? stake b) (RunnersUp s3).
Proof. exact (try_state_reachable genesis_members s3 members_few members_staked s3_reachable). Defined.

(** The solver's winners: the candidate with the vote, then the sitting member *)
Definition ws : list (AccountId * Z) := [(acc x02, 100 * PDEX); (acc x01, 2 * PDEX)].
Lemma s3_winners : winners_of s3 = Some ws.
Proof. by vm_compute. Qed.
Lemma election_outcome_witness :
  ∃ s', on_initialize TermDuration s3 = (Ok tt, s') ∧ Candidates s' = []
    ∧ (λ m, (who m, stake m)) <$> Members s' = sort_by_account fst (take 5 (backed (p_issuance (e_purse s3)) ws)).
Proof.
  destruct (election_outcome genesis_members s3 ws members_few members_staked s3_reachable s3_rounds s3_stand
    s3_voters s3_winners) as (s' & H1 & H2 & _ & H3 & _).
  exists s'. split; [by apply H1|]. split; [exact H3|exact H2].
Defined.
Lemma transactional_run {S E} (m : M S E unit) s : is_ok (m s).1 = true → m s = (Ok tt, (transactional m s).2).
Proof. unfold transactional. by destruct (m s) as [[[]| |] s']. Qed.
Lemma s3_vote : vote (Signed (acc x03)) [acc x02] (100 * PDEX) s2 = (Ok tt, s3).
Proof. apply (transactional_run (vote (Signed (acc x03)) [acc x02] (100 * PDEX)) s2). by vm_compute. Qed.
Lemma vote_refunded_witness :
  ∃ s'', remove_voter (Signed (acc x03)) s3 = (Ok tt, s'') ∧ VotingMap s'' = VotingMap s2.
Proof.
  assert (VotingMap s2 !! acc x03 = None) as Hn by (vm_compute; done).
  destruct (vote_refunded genesis_members s2 (acc x03) [acc x02] (100 * PDEX) s3 members_few members_staked
    (ereach_step _ _ _ s1_reachable (estep_call _ _ _)) Hn s3_vote) as (_ & _ & s'' & H1 & H2 & _).
  exists s''. split; [exact H1|exact H2].
Defined.

Definition endowed : list AccountId := acc <$> [x01; x02; x03; x04].
Definition g : RuntimeGenesisConfig :=
  match kitchensink_genesis 20 [] (acc x01) endowed [] None with
  | Ok g => g
  | _ => mkGenesis [] [] 0 0 [] [] [] []
  end.
Lemma genesis_council_limit_witness :
  ∃ s, genesis_build (g_elections g) s0 = (Ok tt, s) ∧ members_ids s = sort_by_account id (collective endowed).
Proof.
  assert (NoDup endowed) as Hnd by (apply (bool_decide_unpack _); vm_compute; done).
  assert (∀ a, a ∈ endowed → ENDOWMENT ≤ p_free (e_purse s0) a) as Hfree.
  { apply Forall_forall. apply (bool_decide_unpack _). vm_compute. done. }
  destruct (genesis_council_limit 20 [] (acc x01) endowed [] None g s0 eq_refl Hnd ltac:(by vm_compute) s0_blank Hfree)
    as (s & H1 & H2 & _). exists s. split; [exact H1|exact H2].
Defined.
End ElectionsExample.
