(* ===== verification/Rpc.v ===== *)
(** * The RPC servers

    [pallets/ocex/rpc] with its lock on the off-chain storage, [rpc/ismp], [rpc/swap] and
    [rpc/assets]: what the node answers, over the views of the runtime that the other
    files model.  JSON and the runtime API calls themselves are arguments. *)

From stdpp Require Import pretty.
From S2P Require Import Prelude Decimal Assets Bank Types Orders Storage Settlement.
From S2P Require Import Chain LmCallbacks Ocex OcexProps Lmp Validator Solvency WorkerProps.

(** ** The order book: [pallets/ocex/rpc] *)
Section ocex_rpc.
Context {D : Decimal} {C : Crypto} {W : Wire} {A : Authority} {CU : Currencies} {P : Percents}.
Context {CFG : OcexConfig} {T : TrieDB}.
Context {BC : Codec (gmap AssetId dec)} {LC : Codec LMPConfig} {IC : Codec StateInfo}.
Context {HC : Codec H256}.

(** [OffchainStorageAdapter::acquire_offchain_lock]: compare and set from [false] to [true].
    [env] is what other tasks do to the storage while the call sleeps for a second. *)
Fixpoint adapter_acquire (env : Worker → Worker) (tries : nat) (w : Worker) : bool * Worker :=
  match tries with
  | O => (false, w)
  | S n =>
      match worker_status w with
      | Ok (Some false) => (true, w <| worker_status := Ok (Some true) |>)
      | _ => adapter_acquire env n (env w)
      end
  end.
(** [Drop for OffchainStorageAdapter] *)
Definition adapter_drop (w : Worker) : Worker := w <| worker_status := Ok (Some false) |>.

Definition RETRIES : nat := 3.
Definition runtime_error {B} (e : string) : res string B := Err e.

(** A call that works under the lock; the adapter is dropped on every way out. *)
Definition with_adapter {B} (env : Worker → Worker) (tries : nat) (body : Worker → res string B) (w : Worker) :
    res string B * Worker :=
  let '(ok, w) := adapter_acquire env tries w in
  ((if (ok : bool) then body w else runtime_error "Failed to acquire offchain lock"), adapter_drop w).

(** A trap of the runtime becomes an error of the call. *)
Definition api_call {B} (r : res string B) : res string B :=
  match r with Panic => Err "Runtime error" | r => r end.

Definition rpc_inventory_deviation (to_json : gmap AssetId dec → option string) (c : Chain)
    (env : Worker → Worker) : Worker → res string string * Worker :=
  with_adapter env 3 (λ w,
    match calculate_inventory_deviation c w with
    | Ok m => match to_json m with Some j => Ok j | None => Err "Runtime error" end
    | Err _ => Err "Error calling calculate_inventory_deviation "
    | Panic => Err "Runtime error"
    end).

(** [ObCheckpoint], which [to_checkpoint] makes of the raw one *)
Record ObCheckpoint : Type := mkObCheckpoint {
  ob_snapshot_id : Z;
  ob_balances : gmap (AccountId * AssetId) dec;
  ob_last_processed_block_number : Z;
  ob_state_change_id : Z;
}.
Definition to_checkpoint (r : ObCheckpointRaw) : ObCheckpoint :=
  mkObCheckpoint (cp_snapshot_id r) (cp_balances r) (cp_last_processed_block_number r) (cp_state_change_id r).
Definition to_raw (r : ObCheckpoint) : ObCheckpointRaw :=
  mkObCheckpointRaw (ob_snapshot_id r) (ob_balances r) (ob_last_processed_block_number r) (ob_state_change_id r).

Definition rpc_fetch_checkpoint (o : OcexStorage) (env : Worker → Worker) : Worker → res string ObCheckpoint * Worker :=
  with_adapter env RETRIES (λ w,
    match api_call (fetch_checkpoint o w) with
    | Ok raw => Ok (to_checkpoint raw)
    | Err e => Err e
    | Panic => Panic
    end).

(** [TradingPair::try_from(market)] and a view at one market *)
Definition at_market {B} (market : string) (view : TradingPair → B) : res string B :=
  match pair_try_from market with Ok p => Ok (view p) | Err e => Err e | Panic => Panic end.

Definition rpc_account_scores_by_market (o : OcexStorage) (epoch : Z) (market : string)
    (sorted_by_mm_score : bool) (limit : Z) : res string (list AccountId) :=
  at_market market (λ p, top_lmp_accounts o epoch p sorted_by_mm_score limit).
Definition rpc_eligible_rewards (o : OcexStorage) (epoch : Z) (market : string) (main : AccountId) :
    res string (string * string * bool) :=
  at_market market (λ p,
    let '(mm, trading, claimed) := get_lmp_rewards o main epoch p in
    (dec_to_string mm, dec_to_string trading, claimed)).

(** [for epoch in 0..=until_epoch]: rewards that are there and not yet claimed *)
Definition claimable (o : OcexStorage) (main : AccountId) (market : TradingPair) (epoch : Z) : bool :=
  let '(mm_rewards, trading_rewards, is_claimed) := get_lmp_rewards o main epoch market in
  (negb (dec_is_zero mm_rewards) || negb (dec_is_zero trading_rewards)) && negb is_claimed.
Definition rpc_list_claimable_epochs (o : OcexStorage) (market : string) (main : AccountId) (until_epoch : Z) :
    res string (list Z) :=
  at_market market (λ p, filter (λ epoch, claimable o main p epoch = true) (seqZ 0 (until_epoch + 1))).

(** ** Properties *)
Lemma adapter_status env tries w :
  worker_status (adapter_acquire env tries w).2 = Ok (Some true) ∨ (adapter_acquire env tries w).1 = false.
Proof.
  revert w. induction tries as [|n IH]; intros w; cbn; [by right|].
  destruct (worker_status w) as [[[]|]|e|] eqn:Hs; try apply IH. by left.
Qed.

(** While the cell is not [false] and stays so, the lock is not taken. *)
Lemma adapter_refused env tries w :
  (∀ w, worker_status w ≠ Ok (Some false) → worker_status (env w) ≠ Ok (Some false)) →
  worker_status w ≠ Ok (Some false) → (adapter_acquire env tries w).1 = false.
Proof.
  intros Henv. revert w. induction tries as [|n IH]; intros w Hs; [done|]. cbn.
  destruct (worker_status w) as [[[]|]|e|] eqn:Hw; [| done |..]; apply IH, Henv; by rewrite Hw.
Qed.

(** The lock of the RPC server does not protect the validator.  With the lock free, a
    call works under it and leaves it free, as meant.  But while a worker holds it, a call
    that gives up after its tries still releases it, so the lock is free although the
    worker is running and the next worker takes it. *)
Theorem rpc_lock_behaviour {B} env tries (body : Worker → res string B) w :
  (worker_status w = Ok (Some false) → (0 < tries)%nat →
     with_adapter env tries body w
     = (body (w <| worker_status := Ok (Some true) |>), w))
  ∧ (worker_status w = Ok (Some true) → (∀ w, worker_status (env w) = worker_status w) →
     let '(r, w') := with_adapter env tries body w in
     r = Err "Failed to acquire offchain lock" ∧ (acquire_offchain_lock w').1 = true).
Proof.
  split.
  - intros Hs Ht. destruct tries as [|n]; [lia|]. unfold with_adapter. cbn. rewrite Hs.
    f_equal. unfold adapter_drop. destruct w; cbn in *. by subst.
  - intros Hs Henv. unfold with_adapter.
    assert ((adapter_acquire env tries w).1 = false) as Hf.
    { apply adapter_refused; [|by rewrite Hs]. intros w' Hw'. by rewrite Henv. }
    destruct (adapter_acquire env tries w) as [ok w1]. cbn in Hf. subst ok. split; [done|].
    by rewrite acquire_cases.
Qed.

(** A claimable epoch is one up to the bound with unclaimed rewards. *)
Lemma claimable_epochs_exact o market p main until_epoch e :
  pair_try_from market = Ok p →
  ∃ l, rpc_list_claimable_epochs o market main until_epoch = Ok l
    ∧ (e ∈ l ↔ 0 ≤ e ≤ until_epoch ∧ claimable o main p e = true).
Proof.
  intros Hp. unfold rpc_list_claimable_epochs, at_market. rewrite Hp. eexists. split; [done|].
  rewrite list_elem_of_filter, elem_of_seqZ. lia || (split; intros [? ?]; split; done || lia).
Qed.

Lemma checkpoint_raw_roundtrip r : to_raw (to_checkpoint r) = r.
Proof. by destruct r. Qed.
End ocex_rpc.

(** ** Swaps and balances: [rpc/swap] and [rpc/assets] *)
Inductive NativeOrWithId : Type := NativeToken | WithId (id : Z).
Definition native_or_id (a : AssetId) : NativeOrWithId :=
  match a with Asset id => WithId id | Polkadex => NativeToken end.

(** [o.map_err(runtime_error_into_rpc_err)?] *)
Definition parsed {A} (o : option A) : res string A := match o with Some a => Ok a | None => Err "Runtime error" end.
Definition rpc_bind {A B} (r : res string A) (f : A → res string B) : res string B :=
  match r with Ok a => f a | Err e => Err e | Panic => Panic end.

(** [quote_price_exact_tokens_for_tokens] and [quote_price_tokens_for_exact_tokens], over
    the runtime's quote *)
Definition rpc_quote_price (quote : NativeOrWithId → NativeOrWithId → Z → bool → res string (option Z))
    (asset_id1 asset_id2 amount : string) (include_fee : bool) : res string (option Z) :=
  rpc_bind (parsed (asset_try_from asset_id1)) (λ a1,
  rpc_bind (parsed (asset_try_from asset_id2)) (λ a2,
  rpc_bind (parsed (parse_u128 amount)) (λ n,
  api_call (quote (native_or_id a1) (native_or_id a2) n include_fee)))).
Definition rpc_get_reserves (reserves : NativeOrWithId → NativeOrWithId → res string (option (Z * Z)))
    (asset_id1 asset_id2 : string) : res string (option (Z * Z)) :=
  rpc_bind (parsed (asset_try_from asset_id1)) (λ a1,
  rpc_bind (parsed (asset_try_from asset_id2)) (λ a2,
  api_call (reserves (native_or_id a1) (native_or_id a2)))).

(** [account_balances]: one unreadable asset fails the call *)
Definition rpc_account_balances (balances : list Z → AccountId → res string (list Z)) (assets : list string)
    (account_id : AccountId) : res string (list string) :=
  rpc_bind (parsed (mapM parse_u128 assets)) (λ ids,
  rpc_bind (api_call (balances ids account_id)) (λ l, Ok (print_u128 <$> l))).

(** A quote asked for with the text of assets and of an amount is the runtime's quote. *)
Lemma quote_of_text q a1 a2 n fee :
  valid_asset a1 → valid_asset a2 → is_u 128 n →
  rpc_quote_price q (asset_to_string a1) (asset_to_string a2) (print_u128 n) fee
  = api_call (q (native_or_id a1) (native_or_id a2) n fee).
Proof.
  intros H1 H2 Hn. unfold rpc_quote_price.
  by rewrite (asset_try_from_print a1 H1), (asset_try_from_print a2 H2), (parse_u128_print n Hn).
Qed.

(** Balances are asked for and reported as text, asset by asset. *)
Lemma balances_of_text f ids account :
  Forall (is_u 128) ids →
  rpc_account_balances f (print_u128 <$> ids) account
  = rpc_bind (api_call (f ids account)) (λ l, Ok (print_u128 <$> l)).
Proof.
  intros Hids. unfold rpc_account_balances.
  assert (mapM parse_u128 (print_u128 <$> ids) = Some ids) as ->; [|done].
  induction Hids as [|n ids Hn _ IH]; [done|]. cbn [fmap list_fmap mapM]. rewrite (parse_u128_print n Hn). cbn.
  by rewrite IH.
Qed.

(** ** Events of a range of blocks: [rpc/ismp] *)
Class ChainClient := {
  BlockHash : Type;
  blockhash_eq_dec :: EqDecision BlockHash;
  Header : Type;
  IsmpEvent : Type;
  (** [client.header(hash)] and [client.block_hash(number)] *)
  header : BlockHash → res string (option Header);
  block_hash : Z → res string (option BlockHash);
  number : Header → Z;
  header_hash : Header → BlockHash;
  parent_hash : Header → BlockHash;
  (** [api.block_events(hash)] *)
  block_events : BlockHash → res string (list IsmpEvent);
  (** [format!("{:?}", hash)] *)
  hash_text : BlockHash → string;
}.
(** A stored chain: headers are found by their hash, a parent is one lower, and the
    genesis block, whose parent hash is the hash of no block, has number zero. *)
Class ChainClientLaws `{ChainClient} : Prop := {
  header_of_hash x h : header x = Ok (Some h) → header_hash h = x;
  parent_stored x h : header x = Ok (Some h) → 0 < number h →
    ∃ p, header (parent_hash h) = Ok (Some p) ∧ number p = number h - 1;
  genesis_parent x h : header x = Ok (Some h) → number h = 0 → header (parent_hash h) = Ok None;
  number_nonneg x h : header x = Ok (Some h) → 0 ≤ number h;
  hash_text_inj x y : hash_text x = hash_text y → x = y;
  (** A runtime call that cannot be made, say because the state of the block is pruned, or
      that traps, is an error. *)
  block_events_total x : block_events x ≠ Panic;
}.

Inductive BlockNumberOrHash `{ChainClient} : Type :=
| ByHash (h : BlockHash)
| ByNumber (n : Z).

Section ismp.
Context `{CC : ChainClient}.

Definition resolve_block (b : BlockNumberOrHash) : res string BlockHash :=
  match b with
  | ByHash h => Ok h
  | ByNumber n =>
      match block_hash n with Ok (Some h) => Ok h | _ => Err "Invalid block number provided" end
  end.
Definition stored_header (h : BlockHash) : res string Header :=
  rpc_bind (header h) (λ o, match o with Some x => Ok x | None => Err "Invalid block number or hash provided" end).

(** The loop from the last block down to the first; [Panic] when the fuel runs out *)
Fixpoint walk_events (fuel : nat) (from : Z) (h : Header) (events : gmap string (list IsmpEvent)) :
    res string (gmap string (list IsmpEvent)) :=
  match fuel with
  | O => Panic
  | S fuel' =>
      if from <=? number h then
        rpc_bind (block_events (header_hash h)) (λ temp,
        rpc_bind (stored_header (parent_hash h)) (λ p,
        walk_events fuel' from p (<[hash_text (header_hash h) := temp]> events)))
      else Ok events
  end.
Definition walk_fuel (h : Header) : nat := Z.to_nat (number h + 2).

Definition query_events (from to : BlockNumberOrHash) : res string (gmap string (list IsmpEvent)) :=
  rpc_bind (resolve_block to) (λ to,
  rpc_bind (resolve_block from) (λ from,
  rpc_bind (stored_header from) (λ from_block,
  rpc_bind (stored_header to) (λ header, walk_events (walk_fuel header) (number from_block) header ∅)))).

(** ** Properties *)
Definition stored (h : Header) : Prop := header (header_hash h) = Ok (Some h).
(** A block and those before it *)
Definition ancestor : relation Header := rtc (λ h p, header (parent_hash h) = Ok (Some p)).
(** The node can read the events of the block. *)
Definition readable (h : Header) : Prop := ∃ l, block_events (header_hash h) = Ok l.
(** The blocks from number [from] up to [h], on the chain of [h] *)
Definition in_range (from : Z) (h a : Header) : Prop := ancestor h a ∧ from ≤ number a.

Context {CL : ChainClientLaws}.

Lemma stored_of x h : header x = Ok (Some h) → stored h.
Proof. intros Hx. unfold stored. by rewrite (header_of_hash x h Hx). Qed.
Lemma parent_number h p :
  stored h → header (parent_hash h) = Ok (Some p) → stored p ∧ number p = number h - 1.
Proof.
  intros Hs Hp. split; [by eapply stored_of|]. destruct (Z.eq_dec (number h) 0) as [H0|].
  - pose proof (genesis_parent _ h Hs H0). congruence.
  - pose proof (number_nonneg _ h Hs). destruct (parent_stored _ h Hs) as (p' & Hp' & Hn); [lia|].
    rewrite Hp in Hp'. by injection Hp' as <-.
Qed.
Lemma ancestor_number h a : stored h → ancestor h a → stored a ∧ number a ≤ number h.
Proof.
  intros Hs Ha. induction Ha as [h|h p a Hp _ IH]; [done|].
  destruct (parent_number h p Hs Hp) as [Hsp Hn]. destruct (IH Hsp) as [? Hle]. split; [done|lia].
Qed.

Lemma in_range_parent from h p a :
  header (parent_hash h) = Ok (Some p) → in_range from p a → in_range from h a.
Proof. intros Hp [Ha Hn]. split; [by eapply rtc_l|done]. Qed.

(** The loop ends within its fuel; it collects the events of the range. *)
Lemma walk_collects fuel from h acc :
  (∀ a, in_range from h a → readable a) → stored h → 1 ≤ from → number h + 1 < Z.of_nat fuel →
  (∀ x l, acc !! hash_text x = Some l → block_events x = Ok l) →
  ∃ m, walk_events fuel from h acc = Ok m
    ∧ (∀ x l, m !! hash_text x = Some l → block_events x = Ok l)
    ∧ ∀ k, is_Some (m !! k) ↔
        is_Some (acc !! k) ∨ ∃ a, in_range from h a ∧ k = hash_text (header_hash a).
Proof.
  revert h acc. induction fuel as [|fuel IH]; intros h acc Hev Hs Hfrom Hfuel Hacc.
  { pose proof (number_nonneg _ h Hs). lia. }
  cbn [walk_events]. destruct (Z.leb_spec from (number h)) as [Hle|Hgt].
  2: { exists acc. split; [done|]. split; [done|]. intros k. split; [by left|].
    intros [|(a & [Ha Hn] & _)]; [done|]. destruct (ancestor_number h a Hs Ha). lia. }
  destruct (Hev h) as [l Hl]; [split; [apply rtc_refl|done]|].
  destruct (parent_stored _ h Hs) as (p & Hp & Hnp); [lia|].
  rewrite Hl. unfold stored_header. rewrite Hp. cbn [rpc_bind].
  destruct (IH p (<[hash_text (header_hash h) := l]> acc)) as (m & Hm & Hcons & Hdom);
    [intros a Ha; by eapply Hev, in_range_parent|by eapply stored_of|done|lia|..].
  { intros x l' [[Hx <-]|[_ Hx]]%lookup_insert_Some; [|by apply Hacc]. by rewrite <- (hash_text_inj _ _ Hx). }
  exists m. split; [done|]. split; [done|]. intros k. rewrite Hdom, lookup_insert_is_Some'. split.
  - intros [[<-|]|(a & Ha & ->)]; [right|by left|right].
    + exists h. by split; [split; [apply rtc_refl|]|].
    + exists a. split; [by eapply in_range_parent|done].
  - intros [|(a & [Ha Hn] & ->)]; [left; by right|]. apply rtc_inv in Ha as [->|(p' & Hp' & Ha)]; [by left; left|].
    rewrite Hp in Hp'. injection Hp' as <-. right. by exists a.
Qed.

(** The first block on the way down whose events cannot be read fails the call. *)
Lemma walk_unreadable fuel from h a e acc :
  stored h → number h + 1 < Z.of_nat fuel → in_range from h a →
  (∀ b, in_range from h b → number a < number b → readable b) → 
  block_events (header_hash a) = Err e →
  walk_events fuel from h acc = Err e.
Proof.
  revert h acc. induction fuel as [|fuel IH]; intros h acc Hs Hfuel [Ha Hn] Hb He.
  { pose proof (number_nonneg _ h Hs). lia. }
  destruct (ancestor_number h a Hs Ha) as [_ Hle]. cbn [walk_events].
  rewrite (proj2 (Z.leb_le _ _)) by lia. apply rtc_inv in Ha as [->|(p & Hp & Ha)]; [by rewrite He|].
  destruct (parent_number h p Hs Hp) as [Hsp Hnp]. destruct (ancestor_number p a Hsp Ha) as [_ Hap].
  destruct (Hb h) as [l Hl]; [split; [apply rtc_refl|lia]|lia|].
  rewrite Hl. unfold stored_header. rewrite Hp. cbn [rpc_bind].
  apply IH; [done|lia|done| |done]. intros b Hbr. by apply Hb, (in_range_parent _ _ p).
Qed.

(** Down to the genesis block, the loop asks for the parent of the genesis block. *)
Lemma walk_to_genesis fuel h acc :
  (∀ a, in_range 0 h a → readable a) → stored h → number h + 1 < Z.of_nat fuel →
  walk_events fuel 0 h acc = Err "Invalid block number or hash provided".
Proof.
  revert h acc. induction fuel as [|fuel IH]; intros h acc Hev Hs Hfuel.
  { pose proof (number_nonneg _ h Hs). lia. }
  pose proof (number_nonneg _ h Hs) as H0. cbn [walk_events]. rewrite (proj2 (Z.leb_le _ _)) by done.
  destruct (Hev h) as [l Hl]; [split; [apply rtc_refl|done]|]. rewrite Hl. cbn [rpc_bind]. unfold stored_header.
  destruct (Z.eq_dec (number h) 0) as [Hz|Hz]; [by rewrite (genesis_parent _ h Hs Hz)|].
  destruct (parent_stored _ h Hs) as (p & Hp & Hnp); [lia|]. rewrite Hp. cbn [rpc_bind].
  apply IH; [intros a Ha; by eapply Hev, in_range_parent|by eapply stored_of|lia].
Qed.

(** Either all blocks of the range can be read, or there is a last one that cannot. *)
Definition last_unreadable (from : Z) (h a : Header) (e : string) : Prop :=
  in_range from h a ∧ block_events (header_hash a) = Err e
  ∧ ∀ b, in_range from h b → number a < number b → readable b.
Lemma range_cases from h :
  stored h → (∀ a, in_range from h a → readable a) ∨ ∃ a e, last_unreadable from h a e.
Proof.
  assert (∀ n h, stored h → number h < Z.of_nat n →
    (∀ a, in_range from h a → readable a) ∨ ∃ a e, last_unreadable from h a e) as Hn.
  { clear h. induction n as [|n IH]; intros h Hs Hlt; [pose proof (number_nonneg _ h Hs); lia|].
    destruct (decide (from ≤ number h)) as [Hle|Hgt].
    2: { left. intros a [Ha Hn]. destruct (ancestor_number h a Hs Ha). lia. }
    destruct (block_events (header_hash h)) as [l|e|] eqn:He; [| |by apply block_events_total in He].
    2: { right. exists h, e. split; [by split; [apply rtc_refl|]|]. split; [done|].
         intros b [Hb _] Hbn. destruct (ancestor_number h b Hs Hb). lia. }
    assert (∀ b, in_range from h b → b = h ∨ ∃ p, header (parent_hash h) = Ok (Some p) ∧ in_range from p b) as Hcases.
    { intros b [Hb Hbn]. apply rtc_inv in Hb as [->|(p & Hp & Hb)]; [by left|right]. by exists p. }
    assert (readable h) as Hr by (by exists l).
    destruct (Z.eq_dec (number h) 0) as [Hz|Hz].
    { left. intros b [->|(p & Hp & _)]%Hcases; [done|]. by rewrite (genesis_parent _ h Hs Hz) in Hp. }
    pose proof (number_nonneg _ h Hs). destruct (parent_stored _ h Hs) as (p & Hp & Hnp); [lia|].
    destruct (IH p) as [Hall|(a & e & Ha & He' & Hb)]; [by eapply stored_of|lia|left|right].
    - intros b [->|(p' & Hp' & Hb)]%Hcases; [done|]. rewrite Hp in Hp'. injection Hp' as <-. by apply Hall.
    - exists a, e. split; [by eapply in_range_parent|]. split; [done|].
      intros b [->|(p' & Hp' & Hbr)]%Hcases Hbn; [done|]. rewrite Hp in Hp'. injection Hp' as <-. by apply Hb. }
  intros Hs. apply (Hn (S (Z.to_nat (number h)))); [done|]. pose proof (number_nonneg _ h Hs). lia.
Qed.

(** C39: querying the events of a range of blocks ends, and returns what it should or an
    error.  Take two stored blocks.  If the node can read the events of every block of the
    range on the chain of the last block, and the first block is after the genesis block,
    the answer has exactly these blocks, each with its events.  If there are blocks of the
    range that it cannot read, say because their state is pruned, the error of the last of
    them is the answer, whatever the others hold.  And a range that starts at the genesis
    block never succeeds, since the loop looks up the parent of the first block before it
    notices that it is done.  One of these cases always holds. *)
Theorem query_events_range from to hf ht :
  resolve_block from = Ok (header_hash hf) → resolve_block to = Ok (header_hash ht) → stored hf → stored ht →
  ((∀ a, in_range (number hf) ht a → readable a) →
     if number hf =? 0 then query_events from to = Err "Invalid block number or hash provided"
     else ∃ m, query_events from to = Ok m
       ∧ (∀ x l, m !! hash_text x = Some l → block_events x = Ok l)
       ∧ ∀ x, is_Some (m !! hash_text x) ↔ ∃ a, in_range (number hf) ht a ∧ header_hash a = x)
  ∧ (∀ a e, last_unreadable (number hf) ht a e → query_events from to = Err e)
  ∧ ((∀ a, in_range (number hf) ht a → readable a) ∨ ∃ a e, last_unreadable (number hf) ht a e).
Proof.
  intros Hf Ht Hsf Hst. unfold query_events, stored_header. rewrite Ht, Hf. cbn [rpc_bind].
  rewrite Hsf. cbn [rpc_bind]. rewrite Hst. cbn [rpc_bind].
  pose proof (number_nonneg _ hf Hsf). pose proof (number_nonneg _ ht Hst).
  assert (number ht + 1 < Z.of_nat (walk_fuel ht)) by (unfold walk_fuel; lia).
  split_and!; [| |by apply range_cases].
  - intros Hev. destruct (Z.eqb_spec (number hf) 0) as [Hz|Hne]; [rewrite Hz in *; by apply walk_to_genesis|].
    destruct (walk_collects (walk_fuel ht) (number hf) ht ∅) as (m & Hm & Hcons & Hdom); [done|done|lia|done|done|].
    exists m. split; [done|]. split; [done|]. intros x. rewrite Hdom. split.
    + intros [[l Hl]|(a & Ha & Hx%hash_text_inj)]; [done|]. by exists a.
    + intros (a & Ha & <-). right. by exists a.
  - intros a e (Ha & He & Hb). by apply (walk_unreadable _ _ _ a).
Qed.
End ismp.

(** ** A chain of three blocks, and a node whose worker is running *)
Module RpcExample.
#[export] Instance ref_client : ChainClient := {|
  BlockHash := Z;
  Header := Z;
  IsmpEvent := Z;
  header x := Ok (if (0 <=? x) && (x <=? 2) then Some x else None);
  block_hash n := Ok (if (0 <=? n) && (n <=? 2) then Some n else None);
  number h := h;
  header_hash h := h;
  parent_hash h := h - 1;
  block_events x := Ok [10 * x];
  hash_text x := pretty x;
|}.
Lemma ref_header x (h : Z) : header x = Ok (Some h) → h = x ∧ 0 ≤ x ≤ 2.
Proof. cbn. destruct (Z.leb_spec 0 x), (Z.leb_spec x 2); cbn; intros [= <-]; lia. Qed.
#[export] Instance ref_client_laws : ChainClientLaws.
Proof.
  split.
  - intros x h [-> _]%ref_header. done.
  - intros x h [-> Hx]%ref_header Hn. exists (x - 1). cbn in *. split; [|done].
    rewrite (proj2 (Z.leb_le 0 (x - 1))), (proj2 (Z.leb_le (x - 1) 2)) by lia. done.
  - intros x h [-> Hx]%ref_header Hn. cbn in *. subst x. done.
  - intros x h [-> Hx]%ref_header. cbn. lia.
  - intros x y. apply pretty_Z_inj.
  - done.
Qed.

Lemma ref_readable h : readable (CC := ref_client) h.
Proof. by eexists. Qed.
Lemma query_events_range_witness :
  query_events (ByNumber 0) (ByNumber 2) = Err "Invalid block number or hash provided"
  ∧ ∃ m, query_events (ByNumber 1) (ByNumber 2) = Ok m ∧ is_Some (m !! hash_text 1).
Proof.
  split; [exact (proj1 (query_events_range (CC := ref_client) (ByNumber 0) (ByNumber 2) 0 2
    eq_refl eq_refl eq_refl eq_refl) (λ a _, ref_readable a))|].
  destruct (proj1 (query_events_range (CC := ref_client) (ByNumber 1) (ByNumber 2) 1 2
    eq_refl eq_refl eq_refl eq_refl) (λ a _, ref_readable a)) as (m & Hm & _ & Hdom).
  exists m. split; [exact Hm|]. apply Hdom. exists 1. split; [|reflexivity]. split; [|cbn; lia].
  apply (rtc_l _ 2 1 1); [reflexivity|apply rtc_refl].
Defined.

Lemma rpc_lock_behaviour_witness :
  (acquire_offchain_lock (with_adapter id 3 (λ _, Ok tt) WorkerExample.busy).2).1 = true.
Proof.
  exact (proj2 (proj2 (rpc_lock_behaviour id 3 (λ _, Ok tt) WorkerExample.busy) eq_refl (λ _, eq_refl))).
Defined.

(** A deposit the validators have not processed yet is in the custody balance and is added
    again: the deviation rises by twice the deposit of 2 PDEX. *)
Section deviation.
Import RefDecimal RefCrypto RefWire RefTrie RefAuthority RefBank RefOcex SettlementExample
  SolvencyExample WorkerExample OcexExample.
Definition deposited : Chain := (do_deposit (vreplicate 20 x00) (acct 2) Polkadex 2000000000000 chain0).2.
Definition pdex_deviation (c : Chain) : option Z :=
  match calculate_inventory_deviation c idle with Ok m => units <$> m !! Polkadex | _ => None end.
Example pending_deposit_counted_twice :
  pdex_deviation chain0 = Some (1000 * UNITS) ∧ pdex_deviation deposited = Some (1004 * UNITS).
Proof. split; vm_compute; reflexivity. Qed.
End deviation.
End RpcExample.
