(* ===== verification/Bls.v ===== *)
(** * BLS signatures

    [primitives/bls]: signatures in G1 and public keys in G2 of BLS12-381, kept as compressed
    bytes.  The curve (the [ark_*] crates) and the secret keys (the [blst] crate) are outside
    the repository: [BlsCurve] and [Blst] list what the code calls, [BlsCurveLaws] and
    [BlstLaws] what is documented of it. *)

From S2P Require Import Prelude.

(** ** The curve: the [ark_*] crates *)
Class BlsCurve := {
  G1 : Type;
  G2 : Type;
  GT : Type;
  SerializationError : Type;
  g1_zero : G1;
  g1_add : G1 → G1 → G1;
  g2_zero : G2;
  g2_add : G2 → G2 → G2;
  g2_neg : G2 → G2;
  g2_generator : G2;
  gt_zero : GT;
  gt_add : GT → GT → GT;
  gt_is_zero : GT → bool;
  pairing : G1 → G2 → GT;
  (** [deserialize_compressed] *)
  g1_decode : byte_array 48 → SerializationError + G1;
  g2_decode : byte_array 96 → SerializationError + G2;
  (** [serialize_compressed] into a buffer of the compressed size *)
  g1_encode : G1 → SerializationError + byte_array 48;
  (** [MapToCurveBasedHasher::new] with the domain separation tag, then [hash] *)
  hash_with_dst : bytes → bytes → option G1;
}.

Class BlsCurveLaws `{BlsCurve} : Prop := {
  g1_add_assoc a b c : g1_add a (g1_add b c) = g1_add (g1_add a b) c;
  g1_add_zero a : g1_add a g1_zero = a;
  g2_add_assoc a b c : g2_add a (g2_add b c) = g2_add (g2_add a b) c;
  g2_add_comm a b : g2_add a b = g2_add b a;
  g2_add_zero a : g2_add a g2_zero = a;
  g2_add_neg a : g2_add a (g2_neg a) = g2_zero;
  gt_add_assoc a b c : gt_add a (gt_add b c) = gt_add (gt_add a b) c;
  gt_add_comm a b : gt_add a b = gt_add b a;
  gt_add_zero a : gt_add a gt_zero = a;
  gt_is_zero_spec a : gt_is_zero a = true ↔ a = gt_zero;
  pairing_add_l a b q : pairing (g1_add a b) q = gt_add (pairing a q) (pairing b q);
  pairing_add_r p a b : pairing p (g2_add a b) = gt_add (pairing p a) (pairing p b);
  pairing_zero_l q : pairing g1_zero q = gt_zero;
  pairing_zero_r p : pairing p g2_zero = gt_zero;
  g1_roundtrip a : ∃ b, g1_encode a = inr b ∧ g1_decode b = inr a;
}.

(** ** Secret keys: [blst::min_sig] *)
Class Blst := {
  SecretKey : Type;
  BLST_ERROR : Type;
  key_gen : bytes → bytes → BLST_ERROR + SecretKey;
  derive_child_eip2333 : SecretKey → Z → SecretKey;
  (** [sk_to_pk().compress()] *)
  sk_to_pk : SecretKey → byte_array 96;
  (** [sign(message, dst, aug)], then [compress()] *)
  sk_sign : SecretKey → bytes → bytes → bytes → byte_array 48;
  sk_to_bytes : SecretKey → byte_array 32;
}.

(** The key of [sk] is a G2 point [K], its signature of a message the G1 point [s] with
    [e(s, G) = e(H(message), K)] (without augmentation). *)
Class BlstLaws `{BlsCurve, Blst} : Prop := {
  sk_to_pk_point sk : ∃ K, g2_decode (sk_to_pk sk) = inr K;
  sk_sign_point sk message dst m K :
    hash_with_dst dst message = Some m → g2_decode (sk_to_pk sk) = inr K →
    ∃ s, g1_decode (sk_sign sk message dst []) = inr s ∧ pairing s g2_generator = pairing m K;
}.

Section bls.
Context {BC : BlsCurve}.

Definition DST : bytes := bytes_of "BLS_SIG_BLS12381G2_XMD:SHA-256_SSWU_RO_NUL_".
Definition BlsPublic : Type := byte_array 96.
Definition BlsSignature : Type := byte_array 48.
Definition ProofOfPossession : Type := byte_array 48.

(** The cases of [Error] the modelled operations return. *)
Inductive BlsError : Type :=
  | BLSSerilizationError (e : SerializationError).

(** ** [impl Signature] *)

Definition or_serialization {A} (r : SerializationError + A) : res BlsError A :=
  match r with inl e => Err (BLSSerilizationError e) | inr a => Ok a end.

(** [Signature::add_signature]; the buffer it fills has 48 bytes, so the length test holds *)
Definition bls_add_signature (self signature : BlsSignature) : res BlsError BlsSignature :=
  match or_serialization (g1_decode self) with
  | Ok sig1 =>
      match or_serialization (g1_decode signature) with
      | Ok sig2 => or_serialization (g1_encode (g1_add sig1 sig2))
      | Err e => Err e
      | Panic => Panic
      end
  | Err e => Err e
  | Panic => Panic
  end.

Definition hash_to_curve_g1 (message : bytes) : option G1 := hash_with_dst DST message.

Fixpoint g2_points (public_keys : list BlsPublic) : option (list G2) :=
  match public_keys with
  | [] => Some []
  | public_key :: rest =>
      match g2_decode public_key with
      | inr point => (point ::.) <$> g2_points rest
      | inl _ => None
      end
  end.
Definition sum_g2 (l : list G2) : G2 := foldl g2_add g2_zero l.

(** [Signature::verify] *)
Definition bls_verify (self : BlsSignature) (public_keys : list BlsPublic) (message : bytes) : bool :=
  match g2_points public_keys with
  | None => false
  | Some points =>
      let aggregated_pubk := sum_g2 points in
      match hash_to_curve_g1 message with
      | None => false
      | Some message =>
          match g1_decode self with
          | inl _ => false
          | inr signature =>
              gt_is_zero (gt_add (pairing signature (g2_neg g2_generator))
                                 (pairing message aggregated_pubk))
          end
      end
  end.

(** [RuntimePublic::verify] of [application_crypto.rs] *)
Definition public_verify (self : BlsPublic) (msg : bytes) (signature : BlsSignature) : bool :=
  bls_verify signature [self] msg.

(** ** Reading slices *)

(** [value.try_into().unwrap()] into an array *)
Definition slice_into (n : nat) (value : bytes) : res unit (byte_array n) :=
  if (length value =? n)%nat then Ok (pad n value) else Panic.
Definition SIGNATURE_LEN : nat := 96.
Definition signature_try_from (value : bytes) : res unit BlsSignature :=
  if negb (length value =? 196)%nat then Err tt else slice_into 48 value.
Definition public_try_from (value : bytes) : res unit BlsPublic :=
  if negb (length value =? 96)%nat then Err tt else slice_into 96 value.
Definition possession_try_from (value : bytes) : res unit ProofOfPossession :=
  if negb (length value =? 48)%nat then Err tt else slice_into 48 value.

(** ** [impl Pair for Pair] *)
Context {BT : Blst}.

Record Pair : Type := mkPair { pair_public : BlsPublic; pair_secret : SecretKey }.

Inductive SecretStringError : Type := InvalidSeed.

Definition of_secret (secret : SecretKey) : Pair := mkPair (sk_to_pk secret) secret.
Definition from_seed_slice (seed : bytes) : res SecretStringError Pair :=
  match key_gen seed [] with
  | inr secret => Ok (of_secret secret)
  | inl _ => Err InvalidSeed
  end.
Definition from_seed (seed : byte_array 32) : res SecretStringError Pair :=
  match from_seed_slice (vec_to_list seed) with Ok p => Ok p | _ => Panic end.
(** [derive]: a junction gives its first four bytes, read big-endian *)
Definition junction_index (junction : byte_array 32) : Z :=
  from_be_bytes (take 4 (vec_to_list junction)).
Definition derive (self : Pair) (path : list (byte_array 32)) (seed : option (byte_array 32))
    : Pair * option (byte_array 32) :=
  (of_secret (foldl (λ key j, derive_child_eip2333 key (junction_index j)) (pair_secret self) path), seed).
Definition pair_sign (self : Pair) (message : bytes) : BlsSignature :=
  sk_sign (pair_secret self) message DST [].
Definition pair_verify (sig : BlsSignature) (message : bytes) (pubkey : BlsPublic) : bool :=
  bls_verify sig [pubkey] message.
Definition pair_to_raw_vec (self : Pair) : bytes := vec_to_list (sk_to_bytes (pair_secret self)).

(** A pair is consistent when its public key is the one of its secret key. *)
Definition consistent (p : Pair) : Prop := pair_public p = sk_to_pk (pair_secret p).

(** Aggregation of a committee's signatures, one after the other. *)
Fixpoint aggregate (sig : BlsSignature) (l : list BlsSignature) : res BlsError BlsSignature :=
  match l with
  | [] => Ok sig
  | s :: l' => match bls_add_signature sig s with Ok sig' => aggregate sig' l' | e => e end
  end.

(** ** Properties *)
Context {BL : BlsCurveLaws} {TL : BlstLaws}.

Lemma from_seed_slice_consistent seed p : from_seed_slice seed = Ok p → consistent p.
Proof. unfold from_seed_slice. destruct key_gen; intros [= <-]; done. Qed.
Lemma derive_consistent p path seed : consistent (derive p path seed).1.
Proof. done. Qed.

Lemma gt_cancel x y :
  gt_add (pairing x (g2_neg g2_generator)) y = gt_zero ↔ pairing x g2_generator = y.
Proof.
  assert (gt_add (pairing x g2_generator) (pairing x (g2_neg g2_generator)) = gt_zero) as Hinv.
  { by rewrite <- pairing_add_r, g2_add_neg, pairing_zero_r. }
  split; [|intros <-; by rewrite gt_add_comm].
  intros Hy. rewrite <- (gt_add_zero (pairing x g2_generator)), <- Hy, gt_add_assoc, Hinv, gt_add_comm.
  apply gt_add_zero.
Qed.

(** The equation a signature is checked against. *)
Lemma verify_equation sig s pks ps message m :
  g1_decode sig = inr s → g2_points pks = Some ps → hash_to_curve_g1 message = Some m →
  bls_verify sig pks message = true ↔ pairing s g2_generator = pairing m (sum_g2 ps).
Proof. intros Hs Hps Hm. unfold bls_verify. rewrite Hps, Hm, Hs, gt_is_zero_spec. apply gt_cancel. Qed.

Lemma foldl_pairing m ps acc :
  pairing m (foldl g2_add acc ps) = foldl gt_add (pairing m acc) (pairing m <$> ps).
Proof. revert acc. induction ps as [|p ps IH]; intros acc; [done|]. cbn. by rewrite IH, pairing_add_r. Qed.

Lemma aggregate_pairing sig s l ss :
  g1_decode sig = inr s → Forall2 (λ b x, g1_decode b = inr x) l ss →
  ∃ agg a, aggregate sig l = Ok agg ∧ g1_decode agg = inr a
    ∧ pairing a g2_generator = foldl gt_add (pairing s g2_generator) ((λ x, pairing x g2_generator) <$> ss).
Proof.
  intros Hs Hl. revert sig s Hs. induction Hl as [|b x l ss Hb Hl IH]; intros sig s Hs; cbn; [eauto|].
  unfold bls_add_signature, or_serialization. rewrite Hs, Hb.
  destruct (g1_roundtrip (g1_add s x)) as (e & -> & He). destruct (IH e _ He) as (agg & a & Ha & Hd & Hp).
  exists agg, a. by rewrite <- pairing_add_l.
Qed.

Lemma committee_points sks message m :
  hash_to_curve_g1 message = Some m →
  ∃ ks ss, g2_points (sk_to_pk <$> sks) = Some ks
    ∧ Forall2 (λ b x, g1_decode b = inr x) ((λ k, sk_sign k message DST []) <$> sks) ss
    ∧ (λ x, pairing x g2_generator) <$> ss = pairing m <$> ks.
Proof.
  intros Hm. induction sks as [|k sks (ks & ss & Hks & Hss & Heq)]; [exists [], []; repeat constructor|].
  destruct (sk_to_pk_point k) as (K & HK). destruct (sk_sign_point k message DST m K Hm HK) as (s & Hs & Hp).
  exists (K :: ks), (s :: ss). cbn. rewrite HK, Hks, Hp, Heq. repeat constructor; done.
Qed.

(** C40: when the members of a committee, each with a pair whose public key belongs to its
    secret key, sign one message and the signatures are added up one after the other, the
    addition succeeds and the result verifies against the list of their public keys. *)
Theorem aggregate_verifies p pairs message m :
  Forall consistent (p :: pairs) → hash_to_curve_g1 message = Some m →
  ∃ agg, aggregate (pair_sign p message) ((λ q, pair_sign q message) <$> pairs) = Ok agg
    ∧ bls_verify agg (pair_public <$> p :: pairs) message = true.
Proof.
  intros Hc Hm.
  destruct (committee_points (pair_secret <$> p :: pairs) message m Hm) as (ks & ss & Hks & Hss & Heq).
  rewrite <- list_fmap_compose in Hks, Hss. apply Forall2_cons_inv_l in Hss as (s & ss' & Hs & Hss & ->).
  destruct (aggregate_pairing _ s _ ss' Hs Hss) as (agg & a & Hagg & Ha & Hp). exists agg. split; [done|].
  assert (pair_public <$> p :: pairs = (sk_to_pk ∘ pair_secret) <$> p :: pairs) as ->.
  { apply list_fmap_ext. intros i q Hq. by eapply Forall_lookup_1 in Hc. }
  apply (verify_equation agg a _ ks message m Ha Hks Hm). rewrite Hp. destruct ks as [|K ks]; [done|].
  cbn in Heq. injection Heq as -> ->. unfold sum_g2. cbn. rewrite <- foldl_pairing.
  by rewrite (g2_add_comm g2_zero), g2_add_zero.
Qed.

(** No slice is read as a signature: the length asked for is not the array's. *)
Lemma signature_never_read value : is_ok (signature_try_from value) = false.
Proof. unfold signature_try_from, slice_into. by destruct (Nat.eqb_spec (length value) 196) as [->|]. Qed.
(** Keys and proofs of possession are read back from their bytes. *)
Lemma public_read_back (pk : BlsPublic) : public_try_from (vec_to_list pk) = Ok pk.
Proof. unfold public_try_from, slice_into. rewrite length_vec_to_list, pad_vec. done. Qed.
Lemma possession_read_back (s : ProofOfPossession) : possession_try_from (vec_to_list s) = Ok s.
Proof. unfold possession_try_from, slice_into. rewrite length_vec_to_list, pad_vec. done. Qed.
(** With no public key, the neutral point is accepted for every message. *)
Lemma empty_committee sig message m :
  g1_decode sig = inr g1_zero → hash_to_curve_g1 message = Some m → bls_verify sig [] message = true.
Proof. intros Hs Hm. apply (verify_equation sig g1_zero [] [] message m); try done. cbn. by rewrite pairing_zero_l, pairing_zero_r. Qed.
End bls.

(** ** A small instance: the groups of order two *)
Module BlsExample.
Definition bit_bytes (n : nat) (b : bool) : byte_array n := pad n [if b then x01 else x00].
Definition read_bit {n} (v : byte_array n) : unit + bool :=
  match vec_to_list v with x01 :: _ => inr true | x00 :: _ => inr false | _ => inl tt end.
#[local] Instance ref_curve : BlsCurve := {|
  G1 := bool; G2 := bool; GT := bool; SerializationError := unit;
  g1_zero := false; g1_add := xorb; g2_zero := false; g2_add := xorb; g2_neg := id; g2_generator := true;
  gt_zero := false; gt_add := xorb; gt_is_zero := negb; pairing := andb;
  g1_decode := read_bit; g2_decode := read_bit; g1_encode := λ b, inr (bit_bytes 48 b);
  hash_with_dst := λ _ message, Some (Nat.odd (length message)) |}.
#[local] Instance ref_curve_laws : BlsCurveLaws.
Proof. split; cbn; repeat intros []; try done; eexists; split; reflexivity. Qed.
#[local] Instance ref_blst : Blst := {|
  SecretKey := bool; BLST_ERROR := unit;
  key_gen := λ ikm _, if (length ikm <? 32)%nat then inl tt else inr true;
  derive_child_eip2333 := λ k i, xorb k (Z.odd i); sk_to_pk := bit_bytes 96;
  sk_sign := λ k message _ _, bit_bytes 48 (k && Nat.odd (length message));
  sk_to_bytes := bit_bytes 32 |}.
#[local] Instance ref_blst_laws : BlstLaws.
Proof.
  split; cbn; [intros []; by eexists|]. intros [] message dst m K [= <-] [= <-]; cbn;
    destruct (Nat.odd (length message)); eexists; split; reflexivity.
Qed.
Definition alice : Pair := of_secret true.
Definition bob : Pair := (derive alice [vreplicate 32 x00] None).1.
Lemma aggregate_verifies_witness :
  ∃ agg, aggregate (pair_sign alice [x07]) ((λ q, pair_sign q [x07]) <$> [bob; alice]) = Ok agg
    ∧ bls_verify agg (pair_public <$> alice :: [bob; alice]) [x07] = true.
Proof.
  apply (aggregate_verifies (BC := ref_curve) alice [bob; alice] [x07] true); [repeat constructor | reflexivity].
Defined.
(** A message it was not made for is rejected. *)
Example other_message_rejected : public_verify (pair_public alice) [] (bit_bytes 48 true) = false.
Proof. vm_compute. reflexivity. Qed.
End BlsExample.
