(* ===== verification/Verifier.v ===== *)
(** * The crowdloan verifier

    [misc/crowdloan-verifier/src/main.rs]: compares the table of crowdloan rewards with a
    spreadsheet, shows one contributor's rewards, or prints the table for a spreadsheet.  The
    spreadsheet reader ([csv]), the address parser and the table are parameters. *)

From S2P Require Import Prelude Decimal Assets Types Chain Locks Rewards.

Abbreviation Details := (Z * Z * Z)%type.
Definition Row : Type := list string.

(** [csv::Reader]: [for result in rdr.records()] yields the rows from where the reader stands
    and moves it; a row may fail to parse.  A loop that ran to the end leaves nothing. *)
Class CsvReader := {
  Reader : Type;
  records : Reader → list (option Row) * Reader;
}.
Class CsvReaderLaws `{CsvReader} : Prop := {
  records_exhausted r : (records (records r).2).1 = [];
}.

Section verifier.
Context {DC : Decimal} {CV : CsvReader}.
Context (HASHMAP : list (AccountId * Details)).
(** [AccountId::from_str] *)
Context (account_from_str : string → option AccountId).

(** What a run prints, apart from layout. *)
Inductive Output : Type :=
  | InvalidAddress
  | UserNotFound
  | UserDetails (total cliff per_block : dec)
  | RewardsMismatch (user : AccountId)
  | UserNotInList (user : AccountId)
  | AllGood
  | Converted (rows : list (AccountId * Details)) (total_pdex total_cliff total_factor : Z).

(** [Decimal::from(n).div(unit)]; [None] is a panic, here and below *)
Definition in_pdex (n : Z) : option dec := mjoin (raw_to_dec n).
Definition account_of (record : Row) : option AccountId := record !! 0%nat ≫= account_from_str.
Definition dec_column (i : nat) (record : Row) : option dec := record !! i ≫= dec_from_str.

(** With [--user]; the last line shows the cliff again *)
Definition show_user (text : string) : option Output :=
  match account_from_str text with
  | None => Some InvalidAddress
  | Some user =>
      match find_rewardee HASHMAP user with
      | None => Some UserNotFound
      | Some (total, cliff, _) =>
          t ← in_pdex total; c ← in_pdex cliff; b ← in_pdex cliff; Some (UserDetails t c b)
      end
  end.

(** [map.entry(user).and_modify(..).or_insert(..)] *)
Definition add_entry (m : gmap AccountId Details) (user : AccountId) (d : Details) : gmap AccountId Details :=
  let '(t_new, i_new, f_new) := d in
  <[user := match m !! user with
            | Some (t, i, f) => (sat_add 128 t t_new, sat_add 128 i i_new, sat_add 128 f f_new)
            | None => (t_new, i_new, f_new)
            end]> m.

(** A row as both modes read it first: the amounts in columns 2, 3 and 4 *)
Definition read_row (result : option Row) : option (AccountId * Details) :=
  record ← result;
  user ← account_of record;
  total_rewards ← dec_column 2 record;
  cliff_amt ← dec_column 3 record;
  claim_per_blk ← dec_column 4 record;
  t_new ← dec_to_raw total_rewards;
  i_new ← dec_to_raw cliff_amt;
  f_new ← dec_to_raw claim_per_blk;
  Some (user, (t_new, i_new, f_new)).
Fixpoint collect_rows (m : gmap AccountId Details) (rows : list (option Row))
    : option (gmap AccountId Details) :=
  match rows with
  | [] => Some m
  | result :: rest => '(user, d) ← read_row result; collect_rows (add_entry m user d) rest
  end.

(** The second loop: the amounts in columns 1, 2 and 3, the contribution in column 4 *)
Definition compare_row (result : option Row) : option (option Output) :=
  record ← result;
  user ← account_of record;
  total_rewards ← dec_column 1 record;
  cliff_amt ← dec_column 2 record;
  claim_per_blk ← dec_column 3 record;
  _ ← dec_column 4 record;
  match find_rewardee HASHMAP user with
  | Some (total, cliff, per_block) =>
      total_list ← in_pdex total; cliff_list ← in_pdex cliff; per_block_list ← in_pdex per_block;
      Some (if negb (dec_eqb total_rewards total_list) || negb (dec_eqb cliff_amt cliff_list)
               || negb (dec_eqb claim_per_blk per_block_list)
            then Some (RewardsMismatch user) else None)
  | None => Some (Some (UserNotInList user))
  end.
Fixpoint compare_rows (rows : list (option Row)) : option Output :=
  match rows with
  | [] => Some AllGood
  | result :: rest =>
      out ← compare_row result;
      match out with Some o => Some o | None => compare_rows rest end
  end.

(** Without [--convert]: [records] is called twice on one reader *)
Definition check_list (rdr : Reader) : option Output :=
  let '(rows, rdr) := records rdr in
  m ← collect_rows ∅ rows;
  if (length HASHMAP =? size m)%nat then compare_rows (records rdr).1 else None.

(** With [--convert]; the sum of the contributions is only printed *)
Fixpoint convert_rows (m : gmap AccountId Details) (tp tc tf : Z) (total_dot : dec) (rows : list (option Row))
    : option (gmap AccountId Details * Z * Z * Z) :=
  match rows with
  | [] => Some (m, tp, tc, tf)
  | result :: rest =>
      '(user, (t, i, f)) ← read_row result;
      record ← result;
      dot ← dec_column 1 record;
      tp ← checked_add_u 128 tp t; tc ← checked_add_u 128 tc i; tf ← checked_add_u 128 tf f;
      total_dot ← checked_add total_dot dot;
      convert_rows (add_entry m user (t, i, f)) tp tc tf total_dot rest
  end.
Definition convert_list (rdr : Reader) : option Output :=
  '(m, tp, tc, tf) ← convert_rows ∅ 0 0 0 dec_zero (records rdr).1;
  Some (Converted (btree_to_list m) tp tc tf).

(** ** Properties *)
Context {CVL : CsvReaderLaws}.

(** The check of a spreadsheet compares the number of accounts and nothing else.  The
    rows are read to the end before the loop that compares amounts starts, so that loop
    has no rows: the run says that the lists match exactly when the rows can be read and
    name as many accounts as the table has rows, and it fails in every other case. *)
Theorem check_list_counts rdr :
  check_list rdr =
    match collect_rows ∅ (records rdr).1 with
    | Some m => if (length HASHMAP =? size m)%nat then Some AllGood else None
    | None => None
    end.
Proof.
  unfold check_list. pose proof (records_exhausted rdr) as He. destruct (records rdr) as [rows rdr']. cbn in He |- *.
  destruct (collect_rows ∅ rows) as [m|]; [|done]. cbn. rewrite He. done.
Qed.

(** The three amounts of an entry. *)
Definition amounts : list (Details → Z) := [λ d, d.1.1; λ d, d.1.2; snd].
Definition entry_nonneg (d : Details) : Prop := Forall (λ g, 0 ≤ g d) amounts.
(** [to_u128] gives unsigned numbers. *)
Definition unsigned_rows : Prop := ∀ result user d, read_row result = Some (user, d) → entry_nonneg d.

(** The entries add up to the running totals. *)
Definition totals_agree (m : gmap AccountId Details) (tp tc tf : Z) : Prop :=
  map_Forall (λ _, entry_nonneg) m ∧ map (λ g, map_total g m) amounts = [tp; tc; tf]
  ∧ tp ≤ umax 128 ∧ tc ≤ umax 128 ∧ tf ≤ umax 128.

Lemma entry_le_total (g : Details → Z) (m : gmap AccountId Details) user d :
  map_Forall (λ _ d, 0 ≤ g d) m → m !! user = Some d → g d ≤ map_total g m.
Proof.
  intros Hn Hd. rewrite (map_total_delete g m user d Hd).
  assert (0 ≤ map_total g (delete user m)); [|lia].
  apply map_total_nonneg. intros k a [_ Ha]%lookup_delete_Some. by eapply Hn.
Qed.

Lemma add_entry_agrees m user t i f tp tc tf :
  totals_agree m tp tc tf → entry_nonneg (t, i, f) →
  tp + t ≤ umax 128 → tc + i ≤ umax 128 → tf + f ≤ umax 128 →
  totals_agree (add_entry m user (t, i, f)) (tp + t) (tc + i) (tf + f).
Proof.
  intros (Hn & Ht & Hb) Hd H1 H2 H3. injection Ht as Hp Hc Hf. apply Forall_cons in Hd as [Ht0 Hd].
  apply Forall_cons in Hd as [Hi0 Hd]. apply Forall_cons in Hd as [Hf0 _]. cbn in Ht0, Hi0, Hf0.
  unfold add_entry. destruct (m !! user) as [[[t' i'] f']|] eqn:Hu.
  - pose proof (Hn _ _ Hu) as Hd'. apply Forall_cons in Hd' as [Ht1 Hd']. apply Forall_cons in Hd' as [Hi1 Hd'].
    apply Forall_cons in Hd' as [Hf1 _]. cbn in Ht1, Hi1, Hf1.
    assert (∀ g, g ∈ amounts → g (t', i', f') ≤ map_total g m) as Hle.
    { intros g Hg. apply (entry_le_total g m user); [|done]. intros k a Ha.
      pose proof (Hn _ _ Ha) as Hna. unfold entry_nonneg in Hna. rewrite Forall_forall in Hna. auto. }
    assert (t' ≤ tp) by (rewrite <- Hp; exact (Hle (λ d, d.1.1) ltac:(set_solver))).
    assert (i' ≤ tc) by (rewrite <- Hc; exact (Hle (λ d, d.1.2) ltac:(set_solver))).
    assert (f' ≤ tf) by (rewrite <- Hf; exact (Hle snd ltac:(set_solver))).
    unfold sat_add. rewrite !Z.min_l by lia.
    split_and!; [|cbn [map amounts]; rewrite !map_total_insert, Hu, Hp, Hc, Hf; cbn; apply (f_equal3 (λ a b c, [a; b; c])); lia|lia..].
    apply map_Forall_insert_2; [|done]. repeat constructor; cbn; lia.
  - split_and!; [|cbn [map amounts]; rewrite !map_total_insert, Hu, Hp, Hc, Hf; cbn; apply (f_equal3 (λ a b c, [a; b; c])); lia|lia..].
    apply map_Forall_insert_2; [|done]. repeat constructor; cbn; lia.
Qed.

Lemma convert_rows_agree rows m tp tc tf dot m' tp' tc' tf' :
  unsigned_rows → totals_agree m tp tc tf →
  convert_rows m tp tc tf dot rows = Some (m', tp', tc', tf') → totals_agree m' tp' tc' tf'.
Proof.
  intros Hu. revert m tp tc tf dot. induction rows as [|r rows IH]; intros m tp tc tf dot Ha; cbn [convert_rows].
  { by intros [= -> -> -> ->]. }
  destruct (read_row r) as [[user [[t i] f]]|] eqn:Hr; [|done]. cbn [mbind option_bind].
  destruct r as [record|]; [|done]. cbn [mbind option_bind]. destruct (dec_column 1 record) as [dot1|]; [|done]. cbn [mbind option_bind]. unfold checked_add_u.
  destruct (Z.leb_spec (tp + t) (umax 128)); [|done]. destruct (Z.leb_spec (tc + i) (umax 128)); [|done].
  destruct (Z.leb_spec (tf + f) (umax 128)); [|done]. 
  destruct (checked_add dot dot1); [|done]. intros Hc.
  eapply IH; [|exact Hc]. apply add_entry_agrees; [done|by eapply Hu|lia..].
Qed.

(** The printed table adds up.  Whatever the order of the rows and however often an
    account occurs, the three totals printed at the end are the sums over the entries
    printed for the accounts: none of the saturating additions saturates. *)
Theorem convert_totals rdr rows tp tc tf :
  unsigned_rows → convert_list rdr = Some (Converted rows tp tc tf) →
  NoDup rows.*1 ∧ ∃ m, rows = btree_to_list m ∧ map (λ g, map_total g m) amounts = [tp; tc; tf].
Proof.
  intros Hu. unfold convert_list. destruct convert_rows as [[[[m tp'] tc'] tf']|] eqn:Hc; [|done].
  intros [= <- <- <- <-]. split; [apply btree_to_list_NoDup_keys|]. exists m. split; [done|].
  eapply (convert_rows_agree _ ∅ 0 0 0); [done| |exact Hc].
  split_and!; [apply map_Forall_empty|reflexivity|done..].
Qed.
End verifier.

(** ** Evaluated *)
Module VerifierExample.
Import RefDecimal.
#[local] Instance ref_csv : CsvReader := {| Reader := list (option Row); records r := (r, []) |}.
#[local] Instance ref_csv_laws : CsvReaderLaws.
Proof. split. done. Qed.
Definition alice : AccountId := vreplicate 32 x01.
Definition parse (s : string) : option AccountId := if bool_decide (s = "alice"%string) then Some alice else None.
Definition table : list (AccountId * Details) := [(alice, (4000000000000, 1000000000000, 5))].
(** Account, contribution, total, cliff, per block; the amounts are not those of the table. *)
Definition sheet : list (option Row) := [Some ["alice"; "9"; "7"; "1"; "0"]%string].
Lemma check_list_counts_witness : check_list (CV := ref_csv) table parse sheet = Some AllGood.
Proof.
  assert (size <$> collect_rows parse ∅ sheet = Some 1%nat) as Hs by (vm_compute; reflexivity).
  rewrite (check_list_counts (CV := ref_csv) table parse sheet). cbn [records ref_csv fst].
  destruct (collect_rows parse ∅ sheet) as [m|]; [|discriminate Hs]. injection Hs as Hs. rewrite Hs. reflexivity.
Defined.
Lemma raw_unsigned (d : dec) z : dec_to_raw d = Some z → 0 ≤ z.
Proof.
  unfold dec_to_raw. destruct (from_u128 UNIT_BALANCE) as [unit|]; [|done]. generalize (saturating_mul d unit). intros e.
  change (to_u128 e) with (if runits e <? 0 then None else Some (runits e / UNITS)).
  destruct (Z.ltb_spec (runits e) 0); [done|]. intros [= <-]. by apply Z.div_pos.
Qed.
Lemma parse_unsigned : unsigned_rows parse.
Proof.
  intros result user d Hr. unfold read_row in Hr.
  repeat match type of Hr with _ ≫= _ = Some _ => apply bind_Some in Hr as (? & ? & Hr) end.
  injection Hr as <- <-. repeat constructor; cbn; eauto using raw_unsigned.
Qed.
Lemma convert_totals_witness : ∃ rows tp tc tf (m : gmap AccountId Details),
  convert_list (CV := ref_csv) parse (sheet ++ sheet) = Some (Converted rows tp tc tf)
  ∧ map (λ g, map_total g m) amounts = [tp; tc; tf].
Proof.
  assert (match convert_rows parse ∅ 0 0 0 dec_zero (sheet ++ sheet) with Some _ => true | None => false end = true) as Hs
    by (vm_compute; reflexivity).
  destruct (convert_rows parse ∅ 0 0 0 dec_zero (sheet ++ sheet)) as [[[[m tp] tc] tf]|] eqn:Hc; [|discriminate Hs].
  assert (convert_list (CV := ref_csv) parse (sheet ++ sheet) = Some (Converted (btree_to_list m) tp tc tf)) as Hl.
  { unfold convert_list. cbn [records ref_csv fst]. rewrite Hc. reflexivity. }
  destruct (convert_totals (CV := ref_csv) parse (sheet ++ sheet) _ _ _ _ parse_unsigned Hl) as (_ & m' & _ & Hm).
  exists (btree_to_list m), tp, tc, tf, m'. split; [exact Hl|exact Hm].
Defined.
End VerifierExample.
